(* ===== verification/_CoqProject ===== *)
-Q . S2P
Prelude.v
Malloc.v
Clist.v
Kernel.v
Sched.v
Dll.v
Sd.v
Bio.v
Cache.v
Blocks.v
Codec.v
Usermem.v
Subr.v
Alloc.v
Freelist.v
Inode.v
Rdwri.v
Bmap.v
Readi.v
Text.v
Fio.v
Namei.v
Pipe.v
Sys2.v
Sys3.v
Callout.v
Clock.v
Rtc.v
Acct.v
Sys4.v
Exec.v
Execargs.v
Image.v
Load.v
Execve.v
Sys1.v
Exits.v
Fork.v
Sig.v
Deliver.v
Uart.v
Tty.v
Kl.v
Conf.v
Trap.v
Prf.v
Main.v
Signalled.v
Canon.v
Output.v
Heap.v
Qsort.v
Crypt.v
Rotor.v
Pack.v
Ctime.v
Grep.v
Grepcmd.v
