(* ===== verification/Prelude.v ===== *)
(** * UNIX768: the kernel and algorithms of its C library and commands

    UNIX768 is UNIX Seventh Edition on a 68000 (the Epoch68 board).  This
    development models its kernel, [src/unix/v7/usr/sys], and the parts of the
    C library, [src/toolchain/ack/libc], that compute something, as they are
    compiled there: big-endian, 8-bit [char], 16-bit [short] and [int], 32-bit
    [long] and pointers, 512-byte blocks, one fixed window of user memory per process.

    ** Parts

    The state of the kernel is one record, [kst] of [Kernel], made of the
    tables and globals of [h/*.h], [conf/c.c] and [sys/globals.c].  A pointer
    into a static table is the entry's number.  A routine is a function in the
    monad [M] of [Kernel]: it returns, or stops because the processor has gone
    to another process, because a signal ended a sleep with [longjmp], because
    the process exits or because the kernel panics.  The kernel is not
    preempted; what other processes do during each sleep of a routine is its
    environment, a list of arbitrary changes of state.  Fallible code that
    cannot sleep is in [res] (this file), the short and long integers are [Z]
    wrapped where C wraps them.

    - [Malloc]: [sys/malloc.c] and the user pages of [sys/machdep.c].
    - [Clist]: [sys/prim.c], the character lists of the terminals.
    - [Kernel]: [h/*.h], the state and the monad.
    - [Sched]: [sys/slp.c] (sleep, wakeup, swtch, newproc) and the part of
      [sys/sig.c] that [sleep] and [kill] use.
    - [Dll]: doubly linked rings, the theory [Cache] needs.
    - [Sd]: [dev/sd.c], the serial disk protocol.
    - [Bio]: [dev/bio.c] and [dev/rd.c], the buffer cache and the RAM disk,
      with [binit] of [sys/main.c] and the block switch of [conf/c.c].
    - [Cache]: the invariant of the cache and what its operations do to it.
    - [Blocks]: the contract [BlockStore] the file system relies on, and its
      discharge from [Cache].
    - [Codec]: structures in memory and on disk as bytes.
    - [Usermem], [Subr]: [conf/usermem.c]; [passc], [cpass] of [sys/subr.c].
    - [Alloc], [Freelist]: [sys/alloc.c], and its list of free blocks as a
      stack.
    - [Inode]: [sys/iget.c], [ialloc] of [sys/alloc.c], the lock of
      [sys/pipe.c].
    - [Rdwri], [Bmap], [Readi]: [sys/rdwri.c], [bmap] of [sys/subr.c] and
      [update] of [sys/alloc.c]; [bmap] as a walk of a tree, and what [readi]
      delivers.
    - [Text], [Fio], [Namei], [Pipe], [Sys2], [Sys3], [Sys4]: the files of
      [sys/] of those names; [Acct]: [sys/acct.c].
    - [Callout], [Clock]: [timeout] and [clock] of [sys/clock.c].
    - [Rtc]: [dev/mm58167.c].
    - [Exec]: [exec], [getxfile], [setregs] of [sys/sys1.c], with [sys/aout.c]
      and [estabur] of [sys/ureg.c]; [Execargs]: what [exec] gathers and lays
      out of the arguments; [Image], [Load]: what reading the header and
      loading the segments does; [Execve]: the whole of [exec].
    - [Sys1]: [exit], [wait], [fork], [sbreak] of [sys/sys1.c]; [Exits],
      [Fork]: their theorems.
    - [Sig]: the rest of [sys/sig.c] (delivery, core images, ptrace) and
      [sendsig] of [sys/machdep.c]; [Deliver]: what delivery does.
    - [Uart]: the rings and the interrupt handler of [dev/kl.c]; [Tty]:
      [dev/tty.c]; [Kl]: the entries of [dev/kl.c], the console and
      [dev/mem.c]; [Conf]: the switch [cdevsw] of [conf/c.c] with
      [conf/stubs.c], [physio], [ioctl], [stty] and [gtty]; [Canon], [Output]:
      the theorems of line editing and of output.
    - [Trap]: [conf/trap0.c], the dispatch of the system calls, and the
      signals at a clock interrupt; [Signalled]: a signal from the pending
      mask to the handler.
    - [Prf]: [printf] of [sys/prf.c]; [Main]: [sys/main.c], the first
      processes and the bootstrap program, and [profil] of [sys/sys4.c].

    The C library runs in the processes; its files need nothing of the
    kernel's but [Usermem]'s bytes of a window.  [int] has 16 bits there, and
    sizes are [unsigned int].

    - [Heap]: [stdlib_malloc.c] and [68kunix/sbrk.s] ([stdlib.c] holds the
      same allocator).
    - [Qsort]: [gen_sort.c].  [Ctime]: [gen_time.c].
    - [Crypt]: [v7_crypt.c].  [Rotor]: the commands [cmd/crypt.c] and
      [cmd/makekey.c], which call it.
    - [Pack]: the commands [cmd/pack/pack.c] and [cmd/pack/pcat.c].
    - [Grep]: the pattern matcher of the command [cmd/grep.c]; [Grepcmd]: the
      command.

    [sleep] and [wakeup] ([Sched]) are called by every part that waits;
    [Bio] calls the drivers through the switch of [conf/c.c]; the file system
    calls [Bio] and, for characters, the class [Cdevsw], the character switch;
    [Clock] calls out through the class [ClockHooks]; [Conf] discharges both.
    [Trap] calls everything a user program can ask for; the class [SavedRegs]
    is the assembler's [save].  [Layout] gives the
    addresses sleepers wait on, of which only the hash matters.

    ** Theorems

    - Processes: [wakeup] makes runnable exactly the sleepers of its channel,
      [swtch] takes the first of the best, a process that gives up the
      processor in [sleep] is where [wakeup] finds it, an interruptible sleep ends at a signal, [newproc] makes a
      child and undoes everything when there is no page for it, [psignal] and
      [issig] post and find signals.
    - Memory: [malloc] is first fit and [mfree] its inverse, a user page is
      never given out twice; [user_range_ok] is exact for all 32-bit values
      and [copyin] returns what [copyout] wrote.
    - Signals: a process that waits in [pause], or computes until the next
      clock interrupt, resumes in the handler of its lowest caught signal with
      the frame on its stack; a signal whose frame does not fit is lost.
    - Character lists: each routine of [sys/prim.c] against queues of bytes.
    - Terminals: [canon] delivers the line the keys mean; starting output
      conserves what is to be sent, and leaves the terminal busy and the
      interrupt enabled exactly while the ring holds characters.
    - Console: the digits [printn] prints read back as the number.
    - Blocks: [bread] returns the block, with whatever buffer and however many
      delayed writes; [bdwrite] is seen by the next reader; [bwrite] reaches
      the disk; [binit] establishes the invariant.
    - Files: [alloc] and [free] are pop and push of a stack kept in the super
      block and in the free blocks; [bmap] names the block the tree of
      addresses names; [readi] delivers the bytes of the file; an inode written to its block is read back, and its
      neighbours are kept.
    - Programs: [getxfile] leaves in the window the text and data of the file
      and a cleared bss; [exec] starts the program named with the arguments
      given, its registers cleared, its signals reset; the block of arguments
      of a successful [exec] may exceed the room it checks for.  The status a
      process exits with is the one its parent's [wait] returns, and the entry
      is free again; [fork] refuses at its limits and [sbreak] before the heap
      meets the stack.
    - Serial disk: a read is accepted exactly when the answer is well formed,
      and one wrong character is always noticed.
    - Clock: the callout table refines a list of absolute due times, a tick
      runs what is due, in order, and everything pending runs in time; a
      table with nineteen entries can be overrun.  The clock chip gives back
      every time set; the accounting compression ends and is accurate.
    - C library: the allocator keeps the promise of [Heap.promise], blocks
      that keep their bytes, through every sequence of calls; [qsort] sorts
      every array below 65536 bytes, byte for byte; encryption and decryption
      undo each other; the rotor machine has sound tables for every key and
      undoes itself; [pcat] expands what [pack] writes; [ctime] writes the
      local date of a time; [grep] compiles patterns to well formed code
      and reports exactly the lines its items match, as its options ask.

    ** Bounds

    A loop that is not structural has fuel, and a theorem about such a loop
    shows that the result is reached, never [Nofuel].  [QFUEL] 64 exceeds the 63 processes
    a queue can hold; the three levels of [wakeup_f] are the deepest nesting
    of [wakeup] and [setrun]; [PIDFUEL] 130 exceeds the 126 numbers the 63
    processes use; [CHAINFUEL] 30 exceeds the [NBUF] buffers on a queue;
    [loopfuel] allows a turn per buffer and per sleep; [POPFUEL] 52 exceeds
    the 51 numbers the super block's count admits; [COMPFUEL] 6 suffices for a
    32-bit time divided by 8 each turn; [YEARFUEL] 70 for the years a signed
    32-bit time spans.  [FILLFUEL] and [IALLOCFUEL] are the range of 16-bit
    block counts and i-numbers, [NAMEFUEL] the length of the user window,
    [SEFUEL] a mount table's worth of crossings, [igetfuel] a sleep or a
    crossing per turn, [iofuel] and [pipefuel] a byte or a sleep per turn;
    [ARGFUEL] 5122 exceeds the [NCARGS] characters, hence strings, [exec]
    accepts; [wait] takes a turn per sleep.  In [Tty] a loop over a queue has
    a turn per character and one more, a wait a turn per sleep, [wflush_f] two
    more; [PRINTFUEL] 33 exceeds the 31 binary digits of a long.  [LISTFUEL]
    exceeds the blocks below the break, [PARTFUEL] and the fuel of [qs1] the
    elements of the array, [CALFUEL] 70 the years from 1970 to the ends of a
    32-bit time; 256 places are a search all round the rotor;
    [ADVFUEL] 257 exceeds the instructions in the 256 bytes of [grep]'s code.

    ** Not modelled

    What [/dev/kmem] shows of the kernel's own pages is arbitrary; the
    transfer of [physio], whose address comes from registers this machine does
    not have, is undefined.  The layout of [struct user], which [ptrace] can
    see, is a parameter ([ulayout]).
    Swapping of texts and processes ([sys/text.c], [sys/ureg.c]) is empty in
    this port.  What [printf] prints is a list of characters.  The assembler
    of [conf/*.s], the ROM firmware, the emulator, the compiler, the rest of
    the C library, the other user commands and the ported programs are not
    part of the development. *)
From stdpp Require Export base tactics functions numbers list list_numbers gmap strings.
From Stdlib Require Export ZArith Lia Bool.

#[global] Open Scope Z_scope.

(** * Machine integers

    The kernel is compiled for a big-endian 68000 with 8-bit signed [char],
    16-bit [short] and [int], and 32-bit [long].  An integer object of width [w] is a
    [Z] in range; storing a value into it wraps the value explicitly. *)

Definition uwrap (w x : Z) : Z := x mod 2 ^ w.
Definition swrap (w x : Z) : Z :=
  let m := x mod 2 ^ w in if m <? 2 ^ (w - 1) then m else m - 2 ^ w.

Abbreviation u8 := (uwrap 8).
Abbreviation u16 := (uwrap 16).
Abbreviation u32 := (uwrap 32).
Abbreviation i8 := (swrap 8).
Abbreviation i16 := (swrap 16).
Abbreviation i32 := (swrap 32).

(** [f & m] used as a C condition. *)
Definition fset (f m : Z) : bool := negb (Z.land f m =? 0).
(** [f & ~m], the idiom [f &= ~m]. *)
Definition fclr (f m : Z) : Z := Z.land f (Z.lnot m).

(** ** Record update

    [r <| f := v |>] is [r] with the field [f] replaced, the model of an
    assignment to one member of a struct; [r <| f ::= g |>] applies [g] to the
    field and [r <| f ; h := v |>] goes through a nested record.  A setter is
    found by its projection; [derive_setter] builds it from the eta expansion
    of the record. *)

Class Eta (R : Type) := eta : R -> R.
Class Setter {R E : Type} (get : R -> E) := upd : (E -> E) -> R -> R.
Arguments upd {R E} get {_} f r.

Ltac derive_setter :=
  lazymatch goal with
  | |- @Setter ?R ?E ?get =>
      let i := constr:(_ : Eta R) in
      let body := eval red in i in
      let body := eval unfold eta in body in
      unfold Setter; let g := fresh "g" in let r := fresh "r" in intros g r;
      let b := eval cbv beta in (body r) in
      lazymatch eval pattern (get r) in b with
      | ?f _ => let t := eval cbv beta in (f (g (get r))) in exact t
      end
  end.

Notation "r <| f := v |>" := (upd f (fun _ => v) r)
  (at level 12, f at next level, v at level 200, left associativity).
Notation "r <| f ::= g |>" := (upd f g r)
  (at level 12, f at next level, g at level 200, left associativity).
Notation "r <| f ; h := v |>" := (upd f (upd h (fun _ => v)) r)
  (at level 12, f at next level, h at next level, v at level 200, left associativity).
Notation "r <| f ; h ::= g |>" := (upd f (upd h g) r)
  (at level 12, f at next level, h at next level, g at level 200, left associativity).

(** ** Outcomes

    A kernel routine that cannot sleep either returns, calls [panic], or
    does something C gives no meaning to (an access outside an array). *)

Inductive res (A : Type) : Type :=
  | Ok (a : A)
  | Panic (msg : string)
  | Undef.
Arguments Ok {A} a.
Arguments Panic {A} msg.
Arguments Undef {A}.

#[export] Instance res_ret : MRet res := fun A a => Ok a.
#[export] Instance res_bind : MBind res := fun A B f m =>
  match m with Ok a => f a | Panic s => Panic s | Undef => Undef end.

(** An undefined access aborts the routine. *)
Definition deref {A} (o : option A) : res A := match o with Some a => Ok a | None => Undef end.

(** ** Lemmas on wrapping *)

Lemma uwrap_id w x : 0 <= x < 2 ^ w -> uwrap w x = x.
Proof. intros; unfold uwrap; now apply Z.mod_small. Qed.

Lemma uwrap_range w x : 0 <= w -> 0 <= uwrap w x < 2 ^ w.
Proof. intros; unfold uwrap; apply Z.mod_pos_bound; lia. Qed.

Lemma swrap_id w x : 0 < w -> - 2 ^ (w - 1) <= x < 2 ^ (w - 1) -> swrap w x = x.
Proof.
  intros Hw Hx. unfold swrap.
  assert (Hp : 2 ^ w = 2 * 2 ^ (w - 1)) by (rewrite <- Z.pow_succ_r by lia; f_equal; lia).
  assert (0 < 2 ^ (w - 1)) by (apply Z.pow_pos_nonneg; lia).
  destruct (Z_le_gt_dec 0 x).
  - rewrite Z.mod_small by lia. destruct (Z.ltb_spec x (2 ^ (w - 1))); lia.
  - replace (x mod 2 ^ w) with (x + 2 ^ w).
    + destruct (Z.ltb_spec (x + 2 ^ w) (2 ^ (w - 1))); lia.
    + apply (Z.mod_unique_pos _ _ (-1)); lia.
Qed.

Lemma swrap_range w x : 0 < w -> - 2 ^ (w - 1) <= swrap w x < 2 ^ (w - 1).
Proof.
  intros Hw. unfold swrap.
  assert (Hp : 2 ^ w = 2 * 2 ^ (w - 1)) by (rewrite <- Z.pow_succ_r by lia; f_equal; lia).
  pose proof (Z.mod_pos_bound x (2 ^ w) ltac:(apply Z.pow_pos_nonneg; lia)).
  destruct (Z.ltb_spec (x mod 2 ^ w) (2 ^ (w - 1))); lia.
Qed.

Lemma swrap_uwrap w x : 0 < w -> uwrap w (swrap w x) = uwrap w x.
Proof.
  intros Hw. unfold swrap, uwrap.
  destruct (_ <? _).
  - now rewrite Z.mod_mod by (apply Z.pow_nonzero; lia).
  - replace (x mod 2 ^ w - 2 ^ w) with (x mod 2 ^ w + (-1) * 2 ^ w) by lia.
    rewrite Z.mod_add by (apply Z.pow_nonzero; lia).
    now rewrite Z.mod_mod by (apply Z.pow_nonzero; lia).
Qed.

Lemma swrap_add w x y : 0 < w -> swrap w (swrap w x + y) = swrap w (x + y).
Proof.
  intros Hw. pose proof (swrap_uwrap w x Hw) as E. unfold uwrap in E.
  assert (Em : (swrap w x + y) mod 2 ^ w = (x + y) mod 2 ^ w).
  { rewrite <- Zplus_mod_idemp_l, E. apply Zplus_mod_idemp_l. }
  unfold swrap at 1. rewrite Em. done.
Qed.

Lemma swrap_testbit w x j : 0 <= j < w -> Z.testbit (swrap w x) j = Z.testbit x j.
Proof.
  intros Hj. rewrite <- (Z.mod_pow2_bits_low (swrap w x) w j), <- (Z.mod_pow2_bits_low x w j) by lia.
  f_equal. apply (swrap_uwrap w x). lia.
Qed.

(** A number of [w] bits whose bits are all 0 is 0. *)
Lemma swrap_zero w x :
  0 < w -> - 2 ^ (w - 1) <= x < 2 ^ (w - 1) -> (forall j, 0 <= j < w -> Z.testbit x j = false) -> x = 0.
Proof.
  intros Hw Hx Hb. rewrite <- (swrap_id w x) by done. unfold swrap.
  assert (E : x mod 2 ^ w = 0).
  { apply Z.bits_inj'. intros j Hj. rewrite Z.testbit_0_l. destruct (Z_lt_le_dec j w).
    - rewrite Z.mod_pow2_bits_low by done. by apply Hb.
    - apply Z.mod_pow2_bits_high. lia. }
  assert (0 < 2 ^ (w - 1)) by (apply Z.pow_pos_nonneg; lia).
  rewrite E. cbv zeta. destruct (Z.ltb_spec 0 (2 ^ (w - 1))); lia.
Qed.

Lemma u8_id x : 0 <= x < 256 -> u8 x = x.
Proof. intros; apply uwrap_id; lia. Qed.
Lemma u16_id x : 0 <= x < 65536 -> u16 x = x.
Proof. intros; apply uwrap_id; lia. Qed.
Lemma u32_id x : 0 <= x < 4294967296 -> u32 x = x.
Proof. intros; apply uwrap_id; lia. Qed.
Lemma i8_id x : -128 <= x < 128 -> i8 x = x.
Proof. intros; apply swrap_id; lia. Qed.
Lemma i16_id x : -32768 <= x < 32768 -> i16 x = x.
Proof. intros; apply swrap_id; lia. Qed.
Lemma i32_id x : -2147483648 <= x < 2147483648 -> i32 x = x.
Proof. intros; apply swrap_id; lia. Qed.

Create Rewrite HintDb word.
#[export] Hint Rewrite u8_id u16_id u32_id i8_id i16_id i32_id using lia : word.

(** Drop every wrap whose argument is in range. *)
Ltac words := autorewrite with word in *.

(** ** Flag words *)

Lemma fset_testbit f k : 0 <= k -> fset f (2 ^ k) = Z.testbit f k.
Proof.
  intros Hk. unfold fset.
  destruct (Z.testbit f k) eqn:E.
  - rewrite negb_true_iff, Z.eqb_neq. intros H.
    assert (Z.testbit (Z.land f (2 ^ k)) k = true) as H1.
    { now rewrite Z.land_spec, E, Z.pow2_bits_true. }
    now rewrite H, Z.testbit_0_l in H1.
  - rewrite negb_false_iff, Z.eqb_eq. apply Z.bits_inj'. intros n Hn.
    rewrite Z.land_spec, Z.testbit_0_l, Z.pow2_bits_eqb by lia.
    destruct (Z.eqb_spec k n); subst; [rewrite E|]; now rewrite ?andb_false_r, ?andb_true_r.
Qed.

Lemma testbit_fclr f m k : 0 <= k -> Z.testbit (fclr f m) k = Z.testbit f k && negb (Z.testbit m k).
Proof. intros. unfold fclr. now rewrite Z.land_spec, Z.lnot_spec. Qed.

(** Turn the goal's flag tests into bits of the original flag word.  The
    masks of the source are literals, so their bits compute. *)
Lemma fset_lor f m1 m2 : fset (Z.lor f m1) m2 = fset f m2 || fset m1 m2.
Proof.
  unfold fset. rewrite Z.land_lor_distr_l.
  destruct (Z.eqb_spec (Z.land f m2) 0) as [->|H]; simpl.
  - now rewrite Z.lor_0_l.
  - rewrite negb_true_iff, Z.eqb_neq. intros H'. apply Z.lor_eq_0_iff in H'. tauto.
Qed.

Lemma fset_fclr f m1 m2 : fset (fclr f m1) m2 = fset f (fclr m2 m1).
Proof.
  unfold fset, fclr. do 2 f_equal.
  now rewrite <- Z.land_assoc, (Z.land_comm (Z.lnot m1) m2).
Qed.

Lemma fset_0_r f : fset f 0 = false.
Proof. unfold fset. now rewrite Z.land_0_r. Qed.

Create Rewrite HintDb flags.
#[export] Hint Rewrite fset_lor fset_fclr : flags.

(** Evaluate the masks of a goal whose flag words are built by [|=] and [&=~];
    what is left are tests of the original words. *)
Ltac fl :=
  repeat first [ rewrite fset_lor | rewrite fset_fclr ];
  repeat match goal with
  | |- context [fset ?f (fclr ?m ?M)] =>
      let v := eval vm_compute in (fclr m M) in
      let mv := eval vm_compute in m in
      first [ constr_eq v mv; change (fclr m M) with m
            | change (fclr m M) with 0; rewrite fset_0_r ]
  end;
  repeat match goal with
  | |- context [fset ?a ?b] =>
      let v := eval vm_compute in (fset a b) in
      first [ constr_eq v true | constr_eq v false ]; change (fset a b) with v
  end;
  rewrite ?orb_false_r, ?orb_true_r.

(** ** Lists *)

Lemma insert_middle {A} (l1 l2 : list A) x y :
  <[length l1 := y]> (l1 ++ x :: l2) = l1 ++ y :: l2.
Proof. induction l1; simpl; [done|]. now f_equal. Qed.

Lemma lookup_middle {A} (l1 l2 : list A) x : (l1 ++ x :: l2) !! length l1 = Some x.
Proof. now rewrite lookup_app_r, Nat.sub_diag by done. Qed.

(** Prove a decidable closed proposition by evaluating its decision. *)
Ltac decide_true := apply (bool_decide_unpack _); vm_compute; exact I.

(** ** Masks that align an address *)

Lemma land_ones_mod x n : 0 <= n -> Z.land x (Z.ones n) = x mod 2 ^ n.
Proof. intros. now apply Z.land_ones. Qed.

Lemma land_lnot_ones x n : 0 <= n -> Z.land x (Z.lnot (Z.ones n)) = 2 ^ n * (x / 2 ^ n).
Proof.
  intros. rewrite <- Z.ldiff_land, Z.ldiff_ones_r by done.
  rewrite Z.shiftl_mul_pow2, Z.shiftr_div_pow2 by done. lia.
Qed.
