(* ===== verification/Malloc.v ===== *)
(** Resource maps and the user-page allocator: [sys/malloc.c] and the page
    routines of [sys/machdep.c].

    A map is an array of (size, address) pairs, terminated by an entry of
    size 0.  An access past the end of the array has no C meaning; the
    definitions return [None] there, and the theorems show that it does not
    happen for a well-formed map with one spare entry. *)
From S2P Require Import Prelude.

(** * The allocator *)

Record mapent := MapEnt { m_size : Z; m_addr : Z }.
Abbreviation rmap := (list mapent).

(** [do { bp++; (bp-1)->m_addr = bp->m_addr; } while ((bp-1)->m_size = bp->m_size)]
    on the suffix of the map that starts at [bp]. *)
Fixpoint malloc_close (l : rmap) : option rmap :=
  match l with
  | _ :: ((e1 :: r1) as r) =>
      if m_size e1 =? 0 then Some (e1 :: r)
      else r' ← malloc_close r; Some (e1 :: r')
  | _ => None
  end.

(** The first-fit scan; the result is the address and the map. *)
Fixpoint malloc (l : rmap) (size : Z) : option (Z * rmap) :=
  match l with
  | [] => None
  | bp :: r =>
      if m_size bp =? 0 then Some (0, l)
      else if size <=? m_size bp then
        let a := m_addr bp in
        let bp' := MapEnt (i16 (m_size bp - size)) (u16 (m_addr bp + size)) in
        if m_size bp' =? 0 then r' ← malloc_close (bp' :: r); Some (a, r')
        else Some (a, bp' :: r)
      else '(a, r') ← malloc r size; Some (a, bp :: r')
  end.

(** [for (; bp->m_addr<=a && bp->m_size!=0; bp++);] *)
Fixpoint mfree_find (l : rmap) (a : Z) : option nat :=
  match l with
  | [] => None
  | bp :: r =>
      if (m_addr bp <=? a) && negb (m_size bp =? 0) then S <$> mfree_find r a
      else Some 0%nat
  end.

(** [while (bp->m_size) { bp++; (bp-1)->m_addr = ...; (bp-1)->m_size = ...; }] *)
Fixpoint mfree_close (l : rmap) : option rmap :=
  match l with
  | [] => None
  | bp :: r =>
      if m_size bp =? 0 then Some l
      else match r with
           | [] => None
           | e1 :: _ => r' ← mfree_close r; Some (e1 :: r')
           end
  end.

(** [do { t = bp->m_addr; bp->m_addr = a; ... bp++; } while (size = t);] *)
Fixpoint mfree_insert (l : rmap) (size a : Z) : option rmap :=
  match l with
  | [] => None
  | bp :: r =>
      let bp' := MapEnt (i16 size) (u16 a) in
      if m_size bp =? 0 then Some (bp' :: r)
      else r' ← mfree_insert r (m_size bp) (m_addr bp); Some (bp' :: r')
  end.

(** The body of [mfree] after the search has stopped at index [n]. *)
Definition mfree_at (mp : rmap) (size a : Z) (n : nat) : option rmap :=
  bp ← mp !! n;
  let insert :=
    if (a + size =? m_addr bp) && negb (m_size bp =? 0) then
      Some (<[n := MapEnt (i16 (m_size bp + size)) (u16 (m_addr bp - size))]> mp)
    else if negb (size =? 0) then
      r ← mfree_insert (drop n mp) size a; Some (take n mp ++ r)
    else Some mp in
  match n with
  | O => insert
  | S n1 =>
      p ← mp !! n1;
      if u16 (m_addr p + m_size p) =? a then
        let p1 := MapEnt (i16 (m_size p + size)) (m_addr p) in
        if a + size =? m_addr bp then
          let p2 := MapEnt (i16 (m_size p1 + m_size bp)) (m_addr p1) in
          r ← mfree_close (drop n mp); Some (take n1 mp ++ p2 :: r)
        else Some (<[n1 := p1]> mp)
      else insert
  end.

(** [mfree]: [core] is the test [mp == coremap]; the result is the map, the
    new value of [runin] and whether the sleepers on [runin] are woken. *)
Definition mfree (core : bool) (runin : Z) (mp : rmap) (size a : Z) : option (rmap * Z * bool) :=
  let wake := core && negb (runin =? 0) in
  n ← mfree_find mp a;
  mp' ← mfree_at mp size a n;
  Some (mp', if wake then 0 else runin, wake).

(** * User pages *)

Definition CMAPSIZ : nat := 50.
Definition FIRST_USER_PAGE : Z := 1.
Definition LAST_USER_PAGE : Z := 62.

Record upages := UPages { userpagemap : rmap; owned : list Z }.

(** The map is [userpagemap], never [coremap], so [runin] plays no part. *)
Definition userpage_mfree (mp : rmap) (size a : Z) : res rmap :=
  r ← deref (mfree false 0 mp size a); Ok r.1.1.

Definition userpage_init : res upages :=
  mp ← userpage_mfree (replicate CMAPSIZ (MapEnt 0 0)) LAST_USER_PAGE FIRST_USER_PAGE;
  Ok (UPages mp (replicate 64 0)).

Definition userpage_alloc (st : upages) : res (Z * upages) :=
  '(page, mp) ← deref (malloc (userpagemap st) 1);
  if page =? 0 then Ok (0, UPages mp (owned st))
  else if (page <? FIRST_USER_PAGE) || (LAST_USER_PAGE <? page) then Panic "userpage alloc"
  else o ← deref (owned st !! Z.to_nat page);
    if negb (o =? 0) then Panic "userpage alloc"
    else Ok (page, UPages mp (<[Z.to_nat page := 1]> (owned st))).

Definition userpage_free (st : upages) (page : Z) : res upages :=
  if (page <? FIRST_USER_PAGE) || (LAST_USER_PAGE <? page) then Panic "userpage free"
  else o ← deref (owned st !! Z.to_nat page);
    if o =? 0 then Panic "userpage free"
    else mp ← userpage_mfree (userpagemap st) 1 page;
      Ok (UPages mp (<[Z.to_nat page := 0]> (owned st))).

(** * Specification: the set of free units *)

(** Largest unit number a map entry may end at: the size field is a [short]. *)
Definition MAPMAX : Z := 32767.

(** Live entries of a map are positive, increasing and separated by a gap;
    the entries from the terminator on all have size 0. *)
Fixpoint mwf (lo : Z) (l : rmap) : Prop :=
  match l with
  | [] => False
  | e :: r =>
      (m_size e = 0 /\ Forall (fun e' => m_size e' = 0) r) \/
      (lo < m_addr e /\ 0 < m_size e /\ m_addr e + m_size e <= MAPMAX /\
       mwf (m_addr e + m_size e) r)
  end.

#[export] Instance mwf_dec lo l : Decision (mwf lo l).
Proof. revert lo; induction l; simpl; intros; apply _. Defined.

Fixpoint in_free (l : rmap) (x : Z) : Prop :=
  match l with
  | [] => False
  | e :: r => m_size e <> 0 /\ (m_addr e <= x < m_addr e + m_size e \/ in_free r x)
  end.

Fixpoint nlive (l : rmap) : nat :=
  match l with
  | [] => 0
  | e :: r => if m_size e =? 0 then 0 else S (nlive r)
  end.

Definition in_run (l : rmap) (x : Z) : Prop :=
  Exists (fun e => m_addr e <= x < m_addr e + m_size e) l.

(** A run of live entries from above [lo] to [hi], the end of the last one. *)
Fixpoint mseg (lo : Z) (l : rmap) (hi : Z) : Prop :=
  match l with
  | [] => lo = hi
  | e :: r =>
      lo < m_addr e /\ 0 < m_size e /\ m_addr e + m_size e <= MAPMAX /\
      mseg (m_addr e + m_size e) r hi
  end.

(** * Lemmas *)

Ltac eqb_cases :=
  repeat match goal with
  | |- context [?a =? ?b] => destruct (Z.eqb_spec a b); simpl
  | |- context [?a <=? ?b] => destruct (Z.leb_spec a b); simpl
  | |- context [?a <? ?b] => destruct (Z.ltb_spec a b); simpl
  end; try lia.

Lemma mwf_weaken lo lo' l : lo' <= lo -> mwf lo l -> mwf lo' l.
Proof. destruct l; simpl; [done|]. intuition lia. Qed.

Lemma in_free_range lo l x : mwf lo l -> in_free l x -> lo < x < MAPMAX.
Proof.
  revert lo; induction l as [|e r IH]; simpl; [done|].
  intros lo [[? _]|(?&?&?&Hr)] [Hne [?|Hf]]; try lia.
  apply (IH _ Hr) in Hf. lia.
Qed.

Lemma mwf_app lo l1 l2 :
  mwf lo (l1 ++ l2) -> Forall (fun e => m_size e <> 0) l1 ->
  exists hi, mseg lo l1 hi /\ mwf hi l2.
Proof.
  revert lo; induction l1 as [|e r IH]; simpl; intros lo Hwf Hl.
  - eauto.
  - apply Forall_cons in Hl as [He Hr]. destruct Hwf as [[? _]|(?&?&?&Hwf)]; [done|].
    destruct (IH _ Hwf Hr) as (hi & ? & ?). exists hi. auto.
Qed.

Lemma mseg_mwf lo l1 hi l2 : mseg lo l1 hi -> mwf hi l2 -> mwf lo (l1 ++ l2).
Proof.
  revert lo; induction l1 as [|e r IH]; simpl; intros lo Hs Hwf.
  - now subst.
  - right. intuition.
Qed.

Lemma mseg_snoc lo l e hi :
  mseg lo (l ++ [e]) hi <->
  exists mid, mseg lo l mid /\ mid < m_addr e /\ 0 < m_size e /\
    m_addr e + m_size e <= MAPMAX /\ hi = m_addr e + m_size e.
Proof.
  revert lo; induction l as [|e' r IH]; simpl; intros lo.
  - split; [intros (?&?&?&<-); eauto 6 | intros (mid&->&?&?&?&->); auto].
  - rewrite IH. split.
    + intros (?&?&?&mid&?); exists mid; tauto.
    + intros (mid&(?&?&?&?)&?); repeat (split; [assumption|]); exists mid; tauto.
Qed.

Lemma mseg_hi lo l hi : mseg lo l hi -> lo <= hi.
Proof.
  revert lo; induction l as [|e r IH]; simpl; intros lo H; [lia|].
  destruct H as (?&?&?&H). apply IH in H. lia.
Qed.

Lemma in_free_app lo l1 hi l2 x :
  mseg lo l1 hi -> in_free (l1 ++ l2) x <-> in_run l1 x \/ in_free l2 x.
Proof.
  revert lo; induction l1 as [|e r IH]; simpl; intros lo Hs.
  - unfold in_run. rewrite Exists_nil. tauto.
  - destruct Hs as (?&?&?&Hs). unfold in_run in *. rewrite (IH _ Hs), Exists_cons. intuition lia.
Qed.

Lemma in_run_range lo l hi x : mseg lo l hi -> in_run l x -> lo < x < hi.
Proof.
  revert lo; induction l as [|e r IH]; simpl; intros lo Hs Hx.
  - now apply Exists_nil in Hx.
  - destruct Hs as (?&?&?&Hs). pose proof (mseg_hi _ _ _ Hs).
    apply Exists_cons in Hx as [?|Hx]; [lia|]. specialize (IH _ Hs Hx). lia.
Qed.

Lemma nlive_app lo l1 hi l2 : mseg lo l1 hi -> nlive (l1 ++ l2) = (length l1 + nlive l2)%nat.
Proof.
  revert lo; induction l1 as [|e r IH]; simpl; intros lo Hs; [done|].
  destruct Hs as (?&?&?&Hs). rewrite (IH _ Hs). eqb_cases.
Qed.

(** The gaps between live entries bound their number. *)
Lemma nlive_bound lo l hi :
  mwf lo l -> (forall x, in_free l x -> x <= hi) -> 0 < Z.of_nat (nlive l) ->
  2 * Z.of_nat (nlive l) <= hi - lo + 1.
Proof.
  revert lo; induction l as [|e r IH]; simpl; intros lo Hwf Hhi Hn; [done|].
  revert Hn. eqb_cases. intros _.
  destruct Hwf as [[? _]|(?&?&?&Hwf)]; [done|].
  assert (m_addr e + m_size e - 1 <= hi) by (apply Hhi; intuition lia).
  destruct (Nat.eq_dec (nlive r) 0) as [|E]; [lia|].
  assert (2 * Z.of_nat (nlive r) <= hi - (m_addr e + m_size e) + 1).
  { apply IH; [done| |lia]. intros; apply Hhi; auto. }
  lia.
Qed.

(** ** [malloc] *)

Lemma malloc_close_spec lo e0 e1 r :
  mwf lo (e1 :: r) ->
  exists r', malloc_close (e0 :: e1 :: r) = Some r' /\ mwf lo r' /\
    length r' = S (S (length r)) /\ nlive r' = nlive (e1 :: r) /\
    forall x, in_free r' x <-> in_free (e1 :: r) x.
Proof.
  revert lo e0 e1; induction r as [|e2 r IH]; intros lo e0 e1 Hwf.
  - simpl in Hwf |- *. destruct Hwf as [[E _]|(?&?&?&[])].
    rewrite E; simpl. exists [e1; e1]; simpl. rewrite E; simpl. intuition.
  - destruct (decide (m_size e1 = 0)) as [E|E].
    + exists (e1 :: e1 :: e2 :: r). destruct Hwf as [[_ Hz]|]; [|lia]. simpl. rewrite E; simpl. intuition.
    + destruct Hwf as [[? _]|(?&?&?&Hwf)]; [done|].
      destruct (IH _ e1 e2 Hwf) as (r'&Hc&Hw&Hl&Hn&Hf).
      exists (e1 :: r'). cbn [malloc_close] in Hc |- *.
      rewrite (proj2 (Z.eqb_neq _ _) E), Hc; simpl. simpl in Hl, Hn.
      rewrite Hl, Hn. setoid_rewrite Hf. simpl. intuition.
Qed.

Definition fits (l : rmap) (size a : Z) : Prop := forall x, a <= x < a + size -> in_free l x.

Lemma fits_hd lo e r size a :
  mwf lo (e :: r) -> m_size e <> 0 -> 0 < size -> fits (e :: r) size a -> a < m_addr e + m_size e ->
  m_addr e <= a /\ a + size <= m_addr e + m_size e.
Proof.
  intros [[? _]|(?&?&?&Hwf)] Hne Hs Hfit Ha; [done|].
  assert (m_addr e <= a).
  { destruct (Hfit a ltac:(lia)) as [_ [?|Hf]]; [lia|]. apply (in_free_range _ _ _ Hwf) in Hf. lia. }
  split; [done|].
  destruct (Z.le_gt_cases (a + size) (m_addr e + m_size e)); [done|].
  destruct (Hfit (m_addr e + m_size e) ltac:(lia)) as [_ [?|Hf]]; [lia|].
  apply (in_free_range _ _ _ Hwf) in Hf. lia.
Qed.

Definition malloc_post (lo : Z) (l : rmap) (size : Z) (a : Z) (l' : rmap) : Prop :=
  mwf lo l' /\ length l' = length l /\ (nlive l' <= nlive l)%nat /\
  (a = 0 /\ l' = l /\ (forall b, ~ fits l size b) \/
   a > lo /\ fits l size a /\ (forall b, fits l size b -> a <= b) /\
   forall x, in_free l' x <-> in_free l x /\ ~ (a <= x < a + size)).

Lemma malloc_scan_spec lo l size :
  0 <= lo -> mwf lo l -> 0 < size ->
  exists a l', malloc l size = Some (a, l') /\ malloc_post lo l size a l'.
Proof.
  intros Hlo Hwf Hs; revert lo Hlo Hwf; induction l as [|e r IH]; intros lo Hlo Hwf; [done|].
  cbn [malloc]. destruct (Z.eqb_spec (m_size e) 0) as [E|E].
  { exists 0, (e :: r). split; [done|]. split; [done|]. repeat split; [lia|]. left.
    repeat split; auto. intros b Hb. destruct (Hb b); [lia|congruence]. }
  pose proof Hwf as Hwf0. destruct Hwf as [[? _]|(H1&H2&H3&Hwf)]; [done|]. unfold MAPMAX in *.
  pose proof (fits_hd _ _ _ size 0 Hwf0 E) as Hhd0.
  assert (Hin : forall x, in_free r x -> m_addr e + m_size e < x) by (intros x Hx; now apply (in_free_range _ _ _ Hwf) in Hx).
  destruct (Z.leb_spec size (m_size e)) as [Hle|Hgt].
  - rewrite !i16_id, !u16_id by lia. cbn [m_size m_addr].
    assert (Hfit : fits (e :: r) size (m_addr e)) by (intros x Hx; simpl; intuition lia).
    assert (Hleast : forall b, fits (e :: r) size b -> m_addr e <= b).
    { intros b Hb. destruct (Hb b) as [_ [?|?%Hin]]; lia. }
    destruct (Z.eqb_spec (m_size e - size) 0) as [E'|E'].
    + destruct r as [|e1 r1]; [done|].
      destruct (malloc_close_spec (m_addr e + m_size e) (MapEnt (m_size e - size) (m_addr e + size)) e1 r1)
        as (r'&->&Hw&Hl&Hn&Hf); [done|]. simpl.
      exists (m_addr e), r'. split; [done|]. split; [eapply mwf_weaken; [|done]; lia|].
      split; [done|]. split; [simpl in *; rewrite Hn; eqb_cases|]. right.
      do 3 (split; [auto; lia|]). intros x. rewrite Hf. specialize (Hin x).
      change (in_free (e :: e1 :: r1) x) with
        (m_size e <> 0 /\ (m_addr e <= x < m_addr e + m_size e \/ in_free (e1 :: r1) x)).
      intuition lia.
    + exists (m_addr e), (MapEnt (m_size e - size) (m_addr e + size) :: r).
      split; [done|]. split; [|split; [done|split]].
      * right; simpl. rewrite <- Z.add_assoc, Zplus_minus in *. unfold MAPMAX; intuition lia.
      * simpl. eqb_cases.
      * right. do 3 (split; [auto; lia|]). intros x. simpl. specialize (Hin x). intuition lia.
  - destruct (IH (m_addr e + m_size e)) as (a&l'&->&Hw&Hl&Hn&Hc); [lia|done|].
    simpl. exists a, (e :: l'). split; [done|].
    split; [right; unfold MAPMAX; auto|]. split; [simpl; lia|]. split; [simpl; eqb_cases|].
    assert (Hsub : forall b, fits (e :: r) size b -> fits r size b).
    { intros b Hb. assert (m_addr e + m_size e <= b).
      { destruct (Z.le_gt_cases (m_addr e + m_size e) b); [done|].
        destruct (fits_hd _ _ _ size b Hwf0 E Hs Hb); lia. }
      intros x Hx. destruct (Hb x Hx) as [_ [?|?]]; [lia|done]. }
    destruct Hc as [(->&->&Hno)|(Ha&Hfit&Hleast&Hf)].
    + left. repeat split; auto. intros b Hb. now apply (Hno b), Hsub.
    + right. split; [lia|]. split; [intros x Hx; simpl; auto|]. split; [auto|].
      intros x. simpl. rewrite Hf. intuition lia.
Qed.

(** ** [mfree] *)

Lemma mfree_find_split lo l a :
  mwf lo l ->
  exists pre bp suf, mfree_find l a = Some (length pre) /\ l = pre ++ bp :: suf /\
    Forall (fun e => m_size e <> 0 /\ m_addr e <= a) pre /\ (m_size bp = 0 \/ a < m_addr bp).
Proof.
  revert lo; induction l as [|e r IH]; intros lo Hwf; [done|]. cbn [mfree_find].
  destruct (Z.leb_spec (m_addr e) a) as [Ha|Ha]; simpl; [|exists [], e, r; auto].
  destruct (Z.eqb_spec (m_size e) 0) as [E|E]; simpl; [exists [], e, r; auto|].
  destruct Hwf as [[? _]|(_&_&_&Hwf)]; [done|].
  destruct (IH _ Hwf) as (pre&bp&suf&->&->&Hpre&Hbp).
  exists (e :: pre), bp, suf. simpl. repeat split; auto.
Qed.

Lemma mfree_close_malloc e r : m_size e <> 0 -> mfree_close (e :: r) = malloc_close (e :: r).
Proof.
  revert e; induction r as [|e1 r IH]; intros e He; simpl;
    rewrite (proj2 (Z.eqb_neq _ _) He); [done|].
  destruct (Z.eqb_spec (m_size e1) 0) as [E|E]; simpl.
  - done.
  - specialize (IH _ E). simpl in IH. rewrite (proj2 (Z.eqb_neq _ _) E) in IH. now rewrite IH.
Qed.

Definition mfree_post (lo : Z) (l : rmap) (size a : Z) (l' : rmap) : Prop :=
  mwf lo l' /\ length l' = length l /\
  forall x, in_free l' x <-> in_free l x \/ a <= x < a + size.

Lemma mfree_insert_spec lo l size a :
  lo < a -> 0 <= lo -> 0 < size -> a + size <= MAPMAX -> mwf (a + size) l ->
  (S (nlive l) < length l)%nat ->
  exists l', mfree_insert l size a = Some l' /\ mfree_post lo l size a l'.
Proof.
  unfold MAPMAX. revert lo size a; induction l as [|e r IH]; intros lo size a Hlo H0 Hs Hm Hwf Hlen; [done|].
  cbn [mfree_insert nlive] in *. rewrite i16_id, u16_id by lia.
  destruct (Z.eqb_spec (m_size e) 0) as [E|E].
  - exists (MapEnt size a :: r). split; [done|]. split; [|split; [done|]].
    + right; simpl. unfold MAPMAX. repeat split; try lia. destruct Hwf as [[_ Hz]|]; [|lia].
      destruct r as [|e1 r1]; [simpl in *; lia|]. left. now apply Forall_cons in Hz.
    + destruct Hwf as [[_ Hz]|]; [|lia]. intros x. simpl. rewrite E.
      destruct r as [|e1 r1]; [simpl in *; lia|]. apply Forall_cons in Hz as [Hz _]. simpl. intuition lia.
  - destruct Hwf as [[? _]|(H1&H2&H3&Hwf)]; [done|]. unfold MAPMAX in *.
    destruct (IH (a + size) (m_size e) (m_addr e)) as (l'&->&Hw&Hl&Hf); try done; try lia; [simpl in *; lia|].
    simpl. exists (MapEnt size a :: l'). split; [done|]. split; [|split; [simpl; congruence|]].
    + right; simpl. unfold MAPMAX. auto.
    + intros x. simpl. rewrite Hf. intuition lia.
Qed.

Definition free_disjoint (l : rmap) (size a : Z) : Prop := forall x, a <= x < a + size -> ~ in_free l x.

(** Replacing the suffix of a map after a run of live entries. *)
Lemma mfree_post_app lo pre hi l l' size a :
  mseg lo pre hi -> mfree_post hi l size a l' -> mfree_post lo (pre ++ l) size a (pre ++ l').
Proof.
  intros Hseg (Hw&Hl&Hf). split; [eapply mseg_mwf; eauto|]. split; [rewrite !length_app; lia|].
  intros x. rewrite !(in_free_app _ _ _ _ _ Hseg), Hf. tauto.
Qed.

Lemma mfree_above bp suf hi size a :
  0 < size -> mwf hi (bp :: suf) -> m_size bp = 0 \/ a < m_addr bp ->
  free_disjoint (bp :: suf) size a -> m_size bp = 0 \/ a + size <= m_addr bp.
Proof.
  intros Hs Hwf Hbp Hdis. destruct (Z.eq_dec (m_size bp) 0) as [|E]; [auto|].
  right. destruct Hwf as [|(_&?&_)]; [tauto|]. destruct Hbp; [done|].
  destruct (Z.le_gt_cases (a + size) (m_addr bp)); [done|].
  exfalso. apply (Hdis (m_addr bp)); [lia|]. simpl. intuition lia.
Qed.

(** The branch that does not merge with the entry below. *)
Lemma mfree_insert_case bp suf hi size a :
  0 <= hi < a -> 0 < size -> a + size <= MAPMAX -> mwf hi (bp :: suf) ->
  (S (nlive (bp :: suf)) < length (bp :: suf))%nat ->
  m_size bp = 0 \/ a + size <= m_addr bp ->
  exists l',
    (if (a + size =? m_addr bp) && negb (m_size bp =? 0)
     then Some (MapEnt (i16 (m_size bp + size)) (u16 (m_addr bp - size)) :: suf)
     else mfree_insert (bp :: suf) size a) = Some l' /\
    mfree_post hi (bp :: suf) size a l'.
Proof.
  intros Hhi Hs Hm Hwf Hlen Hbp. unfold MAPMAX in *.
  destruct (Z.eqb_spec (m_size bp) 0) as [E|E].
  - rewrite andb_false_r. apply mfree_insert_spec; try done; try lia.
    destruct Hwf; [now left|lia].
  - destruct Hwf as [[? _]|(H1&H2&H3&Hwf)]; [done|]. unfold MAPMAX in *. destruct Hbp; [done|].
    rewrite andb_true_r. destruct (Z.eqb_spec (a + size) (m_addr bp)) as [E1|E1].
    + rewrite i16_id, u16_id by lia. eexists; split; [done|]. split; [|split; [done|]].
      * right; simpl. unfold MAPMAX. replace (m_addr bp - size + (m_size bp + size)) with (m_addr bp + m_size bp) by lia.
        intuition lia.
      * intros x; simpl. intuition lia.
    + apply mfree_insert_spec; try done; try lia. right. unfold MAPMAX. intuition lia.
Qed.

(** The branch that merges with the entry below, and perhaps with the one above. *)
Lemma mfree_merge_case p bp suf lo size a :
  0 <= lo -> 0 < size -> a + size <= MAPMAX -> mwf lo (p :: bp :: suf) -> m_size p <> 0 ->
  m_addr p + m_size p = a -> m_size bp = 0 \/ a + size <= m_addr bp ->
  exists l',
    (let p1 := MapEnt (i16 (m_size p + size)) (m_addr p) in
     if a + size =? m_addr bp
     then r ← mfree_close (bp :: suf); Some (MapEnt (i16 (m_size p1 + m_size bp)) (m_addr p1) :: r)
     else Some (p1 :: bp :: suf)) = Some l' /\
    mfree_post lo (p :: bp :: suf) size a l'.
Proof.
  intros H0 Hs Hm [[? _]|(H1&H2&H3&Hwf)] Hp Ha Hbp; [done|]. unfold MAPMAX in *.
  cbv zeta. cbn [m_size m_addr]. rewrite (i16_id (m_size p + size)) by lia.
  destruct (Z.eqb_spec (a + size) (m_addr bp)) as [E|E].
  - destruct (Z.eqb_spec (m_size bp) 0) as [Eb|Eb].
    + cbn [mfree_close]. rewrite Eb. cbn [Z.eqb]. simpl. rewrite Z.add_0_r, i16_id by lia.
      eexists; split; [done|]. split; [|split; [done|]].
      * right. simpl. unfold MAPMAX. repeat split; try lia. left. destruct Hwf as [[_ Hz]|]; [auto|lia].
      * intros x. simpl. intuition lia.
    + destruct Hwf as [[? _]|(H4&H5&H6&Hwf)]; [done|]. unfold MAPMAX in *.
      rewrite i16_id, mfree_close_malloc by lia.
      destruct suf as [|s1 suf]; [done|].
      destruct (malloc_close_spec (m_addr bp + m_size bp) bp s1 suf Hwf) as (r'&->&Hw&Hl&_&Hf).
      change (mbind (M:=option) ?f (Some r')) with (f r'). cbv beta.
      eexists; split; [done|]. split; [|split; [simpl in *; congruence|]].
      * right. cbn [m_size m_addr].
        replace (m_addr p + (m_size p + size + m_size bp)) with (m_addr bp + m_size bp) by lia.
        unfold MAPMAX. repeat split; auto; lia.
      * intros x. cbn [in_free m_size m_addr]. rewrite Hf. cbn [in_free]. intuition lia.
  - eexists; split; [done|]. split; [|split; [done|]].
    + right. cbn [m_size m_addr]. unfold MAPMAX. repeat split; try lia.
      destruct Hwf as [?|(?&?&?&Hwf)]; [now left|right]. unfold MAPMAX in *. intuition lia.
    + intros x. cbn [in_free m_size m_addr]. intuition lia.
Qed.

Lemma mfree_at_insert pre bp suf size a :
  size <> 0 ->
  (bp' ← (pre ++ bp :: suf) !! length pre;
   if (a + size =? m_addr bp') && negb (m_size bp' =? 0) then
     Some (<[length pre := MapEnt (i16 (m_size bp' + size)) (u16 (m_addr bp' - size))]> (pre ++ bp :: suf))
   else if negb (size =? 0) then
     r ← mfree_insert (drop (length pre) (pre ++ bp :: suf)) size a;
     Some (take (length pre) (pre ++ bp :: suf) ++ r)
   else Some (pre ++ bp :: suf)) =
  (fun l' => pre ++ l') <$>
    (if (a + size =? m_addr bp) && negb (m_size bp =? 0)
     then Some (MapEnt (i16 (m_size bp + size)) (u16 (m_addr bp - size)) :: suf)
     else mfree_insert (bp :: suf) size a).
Proof.
  intros Hs. rewrite lookup_middle. simpl. rewrite take_app_length, drop_app_length, insert_middle.
  rewrite (proj2 (Z.eqb_neq _ _) Hs). simpl. destruct (_ && _); [done|].
  simpl. now destruct (if m_size bp =? 0 then _ else _).
Qed.

Lemma mfree_at_merge pre p bp suf size a :
  u16 (m_addr p + m_size p) = a ->
  mfree_at ((pre ++ [p]) ++ bp :: suf) size a (length (pre ++ [p])) =
  (fun l' => pre ++ l') <$>
    (let p1 := MapEnt (i16 (m_size p + size)) (m_addr p) in
     if a + size =? m_addr bp
     then r ← mfree_close (bp :: suf); Some (MapEnt (i16 (m_size p1 + m_size bp)) (m_addr p1) :: r)
     else Some (p1 :: bp :: suf)).
Proof.
  intros Ha. unfold mfree_at. rewrite lookup_middle, drop_app_length.
  assert (Hl : length (pre ++ [p]) = S (length pre)) by (rewrite length_app; simpl; lia).
  rewrite Hl. cbn [mbind option_bind]. rewrite <- app_assoc. cbn [app].
  rewrite lookup_middle, take_app_length.
  cbn [mbind option_bind]. rewrite (proj2 (Z.eqb_eq _ _) Ha), insert_middle. cbv zeta.
  destruct (_ =? _); [|done]. now destruct (mfree_close _).
Qed.

Lemma mfree_at_nomerge pre p bp suf size a :
  u16 (m_addr p + m_size p) <> a ->
  mfree_at ((pre ++ [p]) ++ bp :: suf) size a (length (pre ++ [p])) =
  (bp' ← ((pre ++ [p]) ++ bp :: suf) !! length (pre ++ [p]);
   if (a + size =? m_addr bp') && negb (m_size bp' =? 0) then
     Some (<[length (pre ++ [p]) := MapEnt (i16 (m_size bp' + size)) (u16 (m_addr bp' - size))]> ((pre ++ [p]) ++ bp :: suf))
   else if negb (size =? 0) then
     r ← mfree_insert (drop (length (pre ++ [p])) ((pre ++ [p]) ++ bp :: suf)) size a;
     Some (take (length (pre ++ [p])) ((pre ++ [p]) ++ bp :: suf) ++ r)
   else Some ((pre ++ [p]) ++ bp :: suf)).
Proof.
  intros Ha. unfold mfree_at. rewrite lookup_middle.
  assert (Hl : length (pre ++ [p]) = S (length pre)) by (rewrite length_app; simpl; lia).
  rewrite Hl. cbn [mbind option_bind].
  rewrite <- app_assoc. cbn [app]. rewrite lookup_middle. cbn [mbind option_bind].
  now rewrite (proj2 (Z.eqb_neq _ _) Ha).
Qed.

Lemma mfree_total lo l size a core runin :
  0 <= lo -> mwf lo l -> lo < a -> 0 < size -> a + size <= MAPMAX ->
  (S (nlive l) < length l)%nat -> free_disjoint l size a ->
  exists l', mfree core runin l size a =
    Some (l', if core && negb (runin =? 0) then 0 else runin, core && negb (runin =? 0)) /\
    mfree_post lo l size a l'.
Proof.
  intros H0 Hwf Hlo Hs Hm Hlen Hdis. unfold mfree.
  destruct (mfree_find_split lo l a Hwf) as (pre&bp&suf&->&->&Hpre&Hbp). simpl.
  enough (exists l', mfree_at (pre ++ bp :: suf) size a (length pre) = Some l' /\
    mfree_post lo (pre ++ bp :: suf) size a l') as (l'&->&?) by (eexists; done).
  destruct (mwf_app _ _ _ Hwf) as (hi&Hseg&Hwf').
  { eapply Forall_impl; [exact Hpre|]; simpl; tauto. }
  pose proof (mseg_hi _ _ _ Hseg) as Hlohi.
  assert (Hdis' : free_disjoint (bp :: suf) size a).
  { intros x Hx Hf. apply (Hdis x Hx), (in_free_app _ _ _ _ _ Hseg); auto. }
  pose proof (mfree_above _ _ _ _ _ Hs Hwf' Hbp Hdis') as Hab.
  rewrite (nlive_app _ _ _ _ Hseg), length_app in Hlen.
  assert (Hins : hi < a -> exists l', (fun l' => pre ++ l') <$>
    (if (a + size =? m_addr bp) && negb (m_size bp =? 0)
     then Some (MapEnt (i16 (m_size bp + size)) (u16 (m_addr bp - size)) :: suf)
     else mfree_insert (bp :: suf) size a) = Some l' /\ mfree_post lo (pre ++ bp :: suf) size a l').
  { intros Hhi. destruct (mfree_insert_case bp suf hi size a) as (l'&->&Hpost); try done; try lia.
    eexists; split; [done|]. eapply mfree_post_app; eauto. }
  destruct pre as [|p pre' _] using rev_ind.
  { unfold mfree_at. rewrite <- mfree_at_insert in Hins by lia. simpl in *. subst; auto. }
  apply mseg_snoc in Hseg as Hseg'. destruct Hseg' as (mid&Hmid&?&?&?&->).
  apply Forall_app in Hpre as [_ Hp]. apply Forall_cons in Hp as [[Hp Hpa] _].
  assert (m_addr p + m_size p <= a).
  { destruct (Z.le_gt_cases (m_addr p + m_size p) a); [done|].
    exfalso. apply (Hdis a); [lia|]. apply (in_free_app _ _ _ _ _ Hseg).
    left. apply Exists_app; right; apply Exists_cons; left; lia. }
  assert (Eu : u16 (m_addr p + m_size p) = m_addr p + m_size p) by (apply u16_id; unfold MAPMAX in *; apply mseg_hi in Hmid; lia).
  destruct (Z.eq_dec (m_addr p + m_size p) a) as [E|E].
  - clear Hins. destruct (mfree_merge_case p bp suf mid size a) as (l'&Heq&Hpost); try done.
    { apply mseg_hi in Hmid. lia. }
    { right. auto. }
    exists (pre' ++ l'). split.
    + rewrite mfree_at_merge, Heq by congruence. done.
    + rewrite <- app_assoc. simpl. eapply mfree_post_app; eauto.
  - destruct Hins as (l'&Heq&Hpost); [lia|]. exists l'. split; [|done].
    rewrite <- Heq, <- mfree_at_insert by lia. apply mfree_at_nomerge; congruence.
Qed.

(** ** A map is determined by its free set *)

Fixpoint live (l : rmap) : rmap :=
  match l with
  | [] => []
  | e :: r => if m_size e =? 0 then [] else e :: live r
  end.

Lemma live_nil l : live l = [] -> forall x, ~ in_free l x.
Proof. destruct l; simpl; [tauto|]. eqb_cases; intuition congruence. Qed.

Lemma mapent_eq e1 e2 : m_size e1 = m_size e2 -> m_addr e1 = m_addr e2 -> e1 = e2.
Proof. destruct e1, e2; simpl; congruence. Qed.

Lemma free_set_empty lo l : mwf lo l -> (forall x, ~ in_free l x) -> live l = [].
Proof.
  destruct l as [|e r]; simpl; [done|]. intros [[-> _]|(?&?&?&?)] Hno; [done|].
  exfalso. apply (Hno (m_addr e)). intuition lia.
Qed.

Lemma mwf_hd_free lo e r x :
  mwf lo (e :: r) -> m_size e <> 0 ->
  in_free (e :: r) x <-> m_addr e <= x < m_addr e + m_size e \/ m_addr e + m_size e < x /\ in_free r x.
Proof.
  intros [[? _]|(_&?&_&Hwf)] He; [done|]. simpl. split; [|tauto].
  intros [_ [?|Hf]]; [auto|right]. split; [|done]. now apply (in_free_range _ _ _ Hwf) in Hf.
Qed.

Lemma live_unique lo l1 l2 :
  mwf lo l1 -> mwf lo l2 -> (forall x, in_free l1 x <-> in_free l2 x) -> live l1 = live l2.
Proof.
  revert lo l2; induction l1 as [|e1 r1 IH]; intros lo l2 H1 H2 Hf; [done|].
  destruct (Z.eq_dec (m_size e1) 0) as [E1|E1].
  { cbn [live]. rewrite E1. simpl. symmetry. eapply free_set_empty; [done|].
    intros x Hx%Hf. now destruct Hx. }
  destruct l2 as [|e2 r2]; [done|].
  destruct (Z.eq_dec (m_size e2) 0) as [E2|E2].
  { destruct H1 as [[? _]|(?&?&?&?)]; [done|].
    assert (in_free (e2 :: r2) (m_addr e1)) as [? _] by (apply Hf; simpl; intuition lia). done. }
  pose proof (fun x => mwf_hd_free _ _ _ x H1 E1) as F1.
  pose proof (fun x => mwf_hd_free _ _ _ x H2 E2) as F2.
  cbn [live]. rewrite (proj2 (Z.eqb_neq _ _) E1), (proj2 (Z.eqb_neq _ _) E2).
  destruct H1 as [[? _]|(A1&B1&C1&W1)], H2 as [[? _]|(A2&B2&C2&W2)]; try done.
  assert (G : forall x, (m_addr e1 <= x < m_addr e1 + m_size e1 \/ m_addr e1 + m_size e1 < x /\ in_free r1 x) <->
    (m_addr e2 <= x < m_addr e2 + m_size e2 \/ m_addr e2 + m_size e2 < x /\ in_free r2 x)).
  { intros x. rewrite <- F1, <- F2. apply Hf. }
  clear Hf F1 F2.
  assert (Ea : m_addr e1 = m_addr e2).
  { pose proof (G (m_addr e1)). pose proof (G (m_addr e2)). lia. }
  assert (Es : m_size e1 = m_size e2).
  { pose proof (G (m_addr e1 + m_size e1)). pose proof (G (m_addr e2 + m_size e2)).
    assert (~ (m_addr e1 + m_size e1 < m_addr e2 + m_size e2) /\ ~ (m_addr e2 + m_size e2 < m_addr e1 + m_size e1)); lia. }
  f_equal; [now apply mapent_eq|].
  apply (IH (m_addr e1 + m_size e1)); [done|now rewrite Ea, Es|].
  intros x. specialize (G x). rewrite Ea, Es in *.
  split; intros Hx.
  - apply (in_free_range _ _ _ W1) in Hx as ?. intuition lia.
  - apply (in_free_range _ _ _ W2) in Hx as ?. intuition lia.
Qed.

(** ** User pages *)

Definition up_inv (st : upages) : Prop :=
  mwf 0 (userpagemap st) /\ length (userpagemap st) = CMAPSIZ /\ length (owned st) = 64%nat /\
  (forall x, in_free (userpagemap st) x <->
     1 <= x <= 62 /\ owned st !! Z.to_nat x = Some 0) /\
  Forall (fun o => o = 0 \/ o = 1) (owned st).

Lemma up_inv_nlive st : up_inv st -> (nlive (userpagemap st) <= 31)%nat.
Proof.
  intros (Hw&_&_&Hf&_).
  destruct (Nat.eq_dec (nlive (userpagemap st)) 0) as [E|E]; [lia|].
  pose proof (nlive_bound 0 (userpagemap st) 62 Hw) as Hb.
  assert (2 * Z.of_nat (nlive (userpagemap st)) <= 62 - 0 + 1); [|lia].
  apply Hb; [|lia]. intros x Hx%Hf. lia.
Qed.

Lemma owned_insert (ow : list Z) p x v :
  length ow = 64%nat -> 1 <= p <= 62 -> 1 <= x <= 62 ->
  (<[Z.to_nat p := v]> ow) !! Z.to_nat x = if Z.eqb p x then Some v else ow !! Z.to_nat x.
Proof.
  intros Hl Hp Hx. destruct (Z.eqb_spec p x) as [->|Hne].
  - apply list_lookup_insert_eq. lia.
  - apply list_lookup_insert_ne. lia.
Qed.

Lemma Forall_insert_owned (ow : list Z) n v :
  Forall (fun o => o = 0 \/ o = 1) ow -> v = 0 \/ v = 1 -> Forall (fun o => o = 0 \/ o = 1) (<[n := v]> ow).
Proof. intros; now apply Forall_insert. Qed.

Lemma userpage_alloc_inv st :
  up_inv st ->
  exists page st', userpage_alloc st = Ok (page, st') /\ up_inv st' /\
    (page = 0 /\ st' = st /\ (forall p, 1 <= p <= 62 -> owned st !! Z.to_nat p = Some 1) \/
     1 <= page <= 62 /\ owned st !! Z.to_nat page = Some 0 /\
     owned st' = <[Z.to_nat page := 1]> (owned st) /\
     forall p, 1 <= p < page -> owned st !! Z.to_nat p = Some 1).
Proof.
  intros Hinv. pose proof Hinv as (Hw&Hlen&Hol&Hf&Hb). destruct st as [mp ow]. simpl in *.
  assert (Hone : forall p, 1 <= p <= 62 -> ~ in_free mp p -> ow !! Z.to_nat p = Some 1).
  { intros p Hp Hnf. destruct (lookup_lt_is_Some_2 ow (Z.to_nat p)) as [o Ho]; [lia|].
    rewrite Ho. pose proof (proj1 (Forall_lookup _ _) Hb _ _ Ho) as [->| ->]; [|done].
    exfalso. apply Hnf, Hf. auto. }
  destruct (malloc_scan_spec 0 mp 1) as (a&mp'&He&Hw'&Hl'&_&Hc); try done.
  unfold userpage_alloc; simpl. rewrite He; simpl.
  destruct Hc as [(->&->&Hno)|(Ha&Hfit&Hleast&Hf')].
  - exists 0, (UPages mp ow). split; [done|]. split; [done|]. left. repeat split; auto.
    intros p Hp. apply Hone; [done|]. intros Hin. apply (Hno p). intros x Hx.
    now replace x with p by lia.
  - destruct (proj1 (Hf a) (Hfit a ltac:(lia))) as [Hr Ho].
    rewrite (proj2 (Z.eqb_neq a 0)) by lia. unfold FIRST_USER_PAGE, LAST_USER_PAGE.
    rewrite (proj2 (Z.ltb_ge a 1)), (proj2 (Z.ltb_ge 62 a)) by lia. simpl. rewrite Ho; simpl.
    exists a, (UPages mp' (<[Z.to_nat a := 1]> ow)). split; [done|]. split.
    + split; [done|]. split; [simpl; lia|]. split; [simpl; now rewrite length_insert|].
      split; [|apply Forall_insert_owned; auto]. intros x. simpl. rewrite Hf', Hf.
      destruct (decide (1 <= x <= 62)); [|tauto].
      rewrite owned_insert by lia. destruct (Z.eqb_spec a x); subst; intuition (try lia; try congruence).
    + right. repeat split; try done; try lia. intros p Hp. apply Hone; [lia|].
      intros Hin. assert (a <= p); [|lia]. apply Hleast. intros x Hx. now replace x with p by lia.
Qed.

Lemma userpage_free_inv st page :
  up_inv st ->
  (userpage_free st page = Panic "userpage free" /\
     ~ (1 <= page <= 62 /\ owned st !! Z.to_nat page = Some 1)) \/
  (exists st', userpage_free st page = Ok st' /\ up_inv st' /\
     1 <= page <= 62 /\ owned st !! Z.to_nat page = Some 1 /\
     owned st' = <[Z.to_nat page := 0]> (owned st)).
Proof.
  intros Hinv. pose proof (up_inv_nlive _ Hinv) as Hnl. destruct Hinv as (Hw&Hlen&Hol&Hf&Hb).
  destruct st as [mp ow]. unfold userpage_free, FIRST_USER_PAGE, LAST_USER_PAGE; simpl in *.
  destruct (Z.ltb_spec page 1); simpl; [left; split; [done|lia]|].
  destruct (Z.ltb_spec 62 page); simpl; [left; split; [done|lia]|].
  destruct (lookup_lt_is_Some_2 ow (Z.to_nat page)) as [o Ho]; [lia|]. rewrite Ho; simpl.
  destruct (Z.eqb_spec o 0) as [->|Hne]; [left; split; [done|intros [_ ?]; congruence]|].
  pose proof (proj1 (Forall_lookup _ _) Hb _ _ Ho) as [->| ->]; [done|].
  right. destruct (mfree_total 0 mp 1 page false 0) as (mp'&He&Hw'&Hl'&Hf'); try done; try lia.
  { unfold MAPMAX; lia. }
  { rewrite Hlen. unfold CMAPSIZ. lia. }
  { intros x Hx Hin%Hf. replace x with page in Hin by lia. intuition congruence. }
  unfold userpage_mfree. rewrite He; simpl. eexists; split; [done|].
  split; [|intuition lia]. split; [done|]. split; [simpl; congruence|].
  split; [simpl; now rewrite length_insert|]. split; [|apply Forall_insert_owned; auto].
  intros x. simpl. rewrite Hf', Hf.
  destruct (decide (1 <= x <= 62)); [|intuition lia].
  rewrite owned_insert by lia. destruct (Z.eqb_spec page x); subst; intuition (try lia; try congruence).
Qed.

Lemma userpage_init_inv st : userpage_init = Ok st -> up_inv st.
Proof.
  intros H. vm_compute in H. injection H as <-. split; [decide_true|].
  split; [done|]. split; [done|]. split; [|repeat constructor; auto].
  intros x. change (owned _) with (replicate 64 0). split.
  - intros [_ [Hx|[Hx _]]]; [|done]. simpl in Hx. split; [lia|].
    apply lookup_replicate_2. lia.
  - intros [Hx _]. simpl. lia.
Qed.

(** The states user-page management can be in. *)
Inductive ureachable : upages -> Prop :=
  | ureach_init st : userpage_init = Ok st -> ureachable st
  | ureach_alloc st page st' : ureachable st -> userpage_alloc st = Ok (page, st') -> ureachable st'
  | ureach_free st page st' : ureachable st -> userpage_free st page = Ok st' -> ureachable st'.

Lemma ureachable_inv st : ureachable st -> up_inv st.
Proof.
  induction 1 as [st H|st page st' _ IH H|st page st' _ IH H].
  - now apply userpage_init_inv.
  - destruct (userpage_alloc_inv _ IH) as (p&st2&He&Hi&_). rewrite H in He. now injection He as _ ->.
  - destruct (userpage_free_inv st page IH) as [[He _]|(st2&He&Hi&_)]; rewrite H in He; [done|].
    now injection He as ->.
Qed.

(** * Properties *)

(** C23. [malloc] on a well-formed map never runs off the array; it returns 0
    exactly when no run of [size] units is free, and otherwise the lowest
    address with such a run, removing precisely those units. *)
Theorem malloc_first_fit mp size :
  mwf 0 mp -> 0 < size ->
  exists a mp', malloc mp size = Some (a, mp') /\ mwf 0 mp' /\ length mp' = length mp /\
    (a = 0 /\ mp' = mp /\ (forall b, ~ fits mp size b) \/
     0 < a /\ fits mp size a /\ (forall b, fits mp size b -> a <= b) /\
     forall x, in_free mp' x <-> in_free mp x /\ ~ (a <= x < a + size)).
Proof.
  intros Hwf Hs. destruct (malloc_scan_spec 0 mp size) as (a&mp'&He&Hw&Hl&_&Hc); try done.
  exists a, mp'. intuition lia.
Qed.

Definition ex_map : rmap := [MapEnt 2 5; MapEnt 4 10; MapEnt 0 0; MapEnt 0 0; MapEnt 0 0].

Lemma malloc_first_fit_witness :
  exists a mp', malloc ex_map 3 = Some (a, mp') /\ a = 10.
Proof.
  destruct (malloc_first_fit ex_map 3) as (a&mp'&He&_).
  - decide_true.
  - reflexivity.
  - exists a, mp'. split; [exact He|]. vm_compute in He. congruence.
Defined.

(** [mfree] of units that are allocated, into a map with one spare
    entry, stays inside the array, keeps the map well formed (sorted and
    fully coalesced) and adds precisely those units to the free set; it wakes
    the sleepers on [runin] exactly when core is freed while [runin] is set. *)
Lemma mfree_adds_units core runin mp size a :
  mwf 0 mp -> 0 < a -> 0 < size -> a + size <= MAPMAX ->
  (S (nlive mp) < length mp)%nat -> free_disjoint mp size a ->
  exists mp', mfree core runin mp size a =
      Some (mp', if core && negb (runin =? 0) then 0 else runin, core && negb (runin =? 0)) /\
    mwf 0 mp' /\ length mp' = length mp /\
    forall x, in_free mp' x <-> in_free mp x \/ a <= x < a + size.
Proof.
  intros. destruct (mfree_total 0 mp size a core runin) as (mp'&He&Hp); try done. eauto.
Qed.

Lemma mfree_adds_units_witness :
  exists mp', mfree true 1 ex_map 3 7 = Some (mp', 0, true) /\ in_free mp' 8.
Proof.
  destruct (mfree_adds_units true 1 ex_map 3 7) as (mp'&He&_&_&Hf).
  - decide_true.
  - lia.
  - lia.
  - unfold MAPMAX; lia.
  - simpl; lia.
  - intros x Hx. simpl. lia.
  - exists mp'. split; [exact He|]. apply Hf. lia.
Defined.

(** Round trip: giving back what [malloc] returned restores the live part
    of the map bit for bit. *)
Lemma malloc_mfree_roundtrip mp size a mp1 :
  mwf 0 mp -> 0 < size -> (S (nlive mp) < length mp)%nat ->
  malloc mp size = Some (a, mp1) -> a <> 0 ->
  exists mp2, mfree false 0 mp1 size a = Some (mp2, 0, false) /\ live mp2 = live mp.
Proof.
  intros Hwf Hs Hlen Hm Ha.
  destruct (malloc_scan_spec 0 mp size) as (a'&mp'&He&Hw&Hl&Hn&Hc); try done.
  rewrite Hm in He. injection He as <- <-.
  destruct Hc as [?|(Ha0&Hfit&_&Hf)]; [tauto|].
  pose proof (in_free_range _ _ _ Hwf (Hfit (a + size - 1) ltac:(lia))).
  destruct (mfree_total 0 mp1 size a false 0) as (mp2&He2&Hw2&_&Hf2); try done; try lia.
  { intros x Hx Hin. apply Hf in Hin. tauto. }
  exists mp2. split; [done|]. apply (live_unique 0); try done.
  intros x. rewrite Hf2, Hf. specialize (Hfit x).
  destruct (decide (a <= x < a + size)); tauto.
Qed.

Lemma malloc_mfree_roundtrip_witness :
  exists mp2, mfree false 0 [MapEnt 2 5; MapEnt 1 13; MapEnt 0 0; MapEnt 0 0; MapEnt 0 0] 3 10
      = Some (mp2, 0, false) /\ live mp2 = live ex_map.
Proof. apply malloc_mfree_roundtrip; [decide_true|lia|simpl; lia|reflexivity|lia]. Defined.

(** C22. Page isolation: in every state reachable from [userpage_init],
    allocation never panics and never hands out a page that is owned; it
    returns 0 exactly when all 62 pages are owned, and otherwise the lowest
    page that is not. *)
Theorem userpage_alloc_fresh st :
  ureachable st ->
  exists page st', userpage_alloc st = Ok (page, st') /\ ureachable st' /\
    (page = 0 /\ st' = st /\ (forall p, 1 <= p <= 62 -> owned st !! Z.to_nat p = Some 1) \/
     1 <= page <= 62 /\ owned st !! Z.to_nat page = Some 0 /\
     owned st' = <[Z.to_nat page := 1]> (owned st) /\
     forall p, 1 <= p < page -> owned st !! Z.to_nat p = Some 1).
Proof.
  intros Hr. destruct (userpage_alloc_inv st (ureachable_inv st Hr)) as (page&st'&He&_&Hc).
  exists page, st'. split; [done|]. split; [eapply ureach_alloc; eauto|done].
Qed.

Lemma userpage_alloc_fresh_witness :
  exists st page st', userpage_init = Ok st /\ userpage_alloc st = Ok (page, st') /\ ureachable st'.
Proof.
  assert (exists st, userpage_init = Ok st) as [st Hst] by (eexists; vm_compute; reflexivity).
  destruct (userpage_alloc_fresh st (ureach_init st Hst)) as (page&st'&Ha&Hi&_).
  exists st, page, st'. exact (conj Hst (conj Ha Hi)).
Defined.

(** In every reachable state [userpage_free] panics exactly on a page that
    is out of range or not owned; otherwise it makes the page available again
    and never overruns the 50-entry map. *)
Lemma userpage_free_spec st page :
  ureachable st ->
  (userpage_free st page = Panic "userpage free" /\
     ~ (1 <= page <= 62 /\ owned st !! Z.to_nat page = Some 1)) \/
  (exists st', userpage_free st page = Ok st' /\ ureachable st' /\
     1 <= page <= 62 /\ owned st !! Z.to_nat page = Some 1 /\
     owned st' = <[Z.to_nat page := 0]> (owned st)).
Proof.
  intros Hr. destruct (userpage_free_inv st page (ureachable_inv st Hr)) as [?|(st'&He&_&Hc)]; [auto|].
  right. exists st'. split; [done|]. split; [eapply ureach_free; eauto|done].
Qed.

Lemma userpage_free_spec_witness :
  exists st, userpage_init = Ok st /\ ~ (1 <= 5 <= 62 /\ owned st !! Z.to_nat 5 = Some 1).
Proof.
  assert (exists st, userpage_init = Ok st) as [st Hst] by (eexists; vm_compute; reflexivity).
  exists st. split; [exact Hst|].
  destruct (userpage_free_spec st 5 (ureach_init st Hst)) as [[_ H]|(st'&_&_&_&H&_)]; [exact H|].
  exfalso. vm_compute in Hst. injection Hst as <-. vm_compute in H. discriminate H.
Defined.
