(* ===== verification/Clist.v ===== *)
(** Character lists: [sys/prim.c].

    A clist is a queue of characters kept in a chain of 16-byte blocks
    (a link and 12 characters) taken from one global free list.  Blocks are
    16-byte aligned, and the code finds the block of a character from the
    character's address; the model keeps addresses as integers and the two
    halves of the block memory as finite maps from addresses.  [cfree_space]
    is a zeroed static array, so an address never written reads 0. *)
From S2P Require Import Prelude.

(** * Constants of [h/param.h] *)

Definition CBSIZE : Z := 12.
Definition CROUND : Z := 15.
Definition NCLIST : nat := 100.
(** [sizeof(struct cblock)] and the offset of [c_info] in it. *)
Definition CBLOCK : Z := 16.
Definition C_INFO : Z := 4.
Definition NULL : Z := 0.

(** * State *)

Record clist := Clist { c_cc : Z; c_cf : Z; c_cl : Z }.

Record cstate := CState {
  c_next : gmap Z Z;     (* block address -> link *)
  c_info : gmap Z Z;     (* character address -> stored byte *)
  cfreelist : Z;
  cbad : Z;
  ipl : Z                (* processor priority, for spl6/splx *)
}.

Definition set_next (b v : Z) (st : cstate) : cstate :=
  CState (<[b := v]> (c_next st)) (c_info st) (cfreelist st) (cbad st) (ipl st).
Definition set_info (a v : Z) (st : cstate) : cstate :=
  CState (c_next st) (<[a := v]> (c_info st)) (cfreelist st) (cbad st) (ipl st).
Definition set_cfreelist (v : Z) (st : cstate) : cstate :=
  CState (c_next st) (c_info st) v (cbad st) (ipl st).
Definition set_cbad (v : Z) (st : cstate) : cstate :=
  CState (c_next st) (c_info st) (cfreelist st) v (ipl st).
Definition set_ipl (v : Z) (st : cstate) : cstate :=
  CState (c_next st) (c_info st) (cfreelist st) (cbad st) v.

Definition next_of (st : cstate) (b : Z) : Z := c_next st !!! b.
Definition info_at (st : cstate) (a : Z) : Z := c_info st !!! a.

(** [bp->c_next = cfreelist; cfreelist = bp;] *)
Definition give_block (bp : Z) (st : cstate) : cstate :=
  set_cfreelist bp (set_next bp (cfreelist st) st).

(** * Operations *)

Definition getc (st : cstate) (p : clist) : Z * cstate * clist :=
  let s := ipl st in
  let st := set_ipl 6 st in
  let '(c, st, p) :=
    if c_cc p <=? 0 then (-1, st, Clist 0 NULL NULL)
    else
      let c := Z.land (info_at st (c_cf p)) 255 in
      let cf := c_cf p + 1 in
      let cc := c_cc p - 1 in
      if cc <=? 0 then
        let bp := Z.land (cf - 1) (Z.lnot CROUND) in
        (c, give_block bp st, Clist cc NULL NULL)
      else if Z.land cf CROUND =? 0 then
        let bp := cf - CBLOCK in
        let cf := next_of st bp + C_INFO in
        (c, give_block bp st, Clist cc cf (c_cl p))
      else (c, st, Clist cc cf (c_cl p)) in
  (c, set_ipl s st, p).

(** One turn of the loop of [q_to_b]; [fuel] counts [cc] down. *)
Fixpoint q_to_b_loop (fuel : nat) (st : cstate) (q : clist) : list Z * cstate * clist :=
  match fuel with
  | O => ([], st, q)
  | S n =>
      let c := info_at st (c_cf q) in
      let cf := c_cf q + 1 in
      let cc := c_cc q - 1 in
      if cc <=? 0 then
        let bp := Z.land (cf - 1) (Z.lnot CROUND) in
        ([c], give_block bp st, Clist cc NULL NULL)
      else if Z.land cf CROUND =? 0 then
        let bp := cf - CBLOCK in
        let cf := next_of st bp + C_INFO in
        let '(cs, st, q) := q_to_b_loop n (give_block bp st) (Clist cc cf (c_cl q)) in
        (c :: cs, st, q)
      else
        let '(cs, st, q) := q_to_b_loop n st (Clist cc cf (c_cl q)) in
        (c :: cs, st, q)
  end.

(** The result is the bytes moved (the C value is their number).  The early
    return on an empty queue skips [splx], as the source does. *)
Definition q_to_b (st : cstate) (q : clist) (cc : Z) : list Z * cstate * clist :=
  if cc <=? 0 then ([], st, q)
  else
    let s := ipl st in
    let st := set_ipl 6 st in
    if c_cc q <=? 0 then ([], st, Clist 0 NULL NULL)
    else
      let '(cs, st, q) := q_to_b_loop (Z.to_nat cc) st q in
      (cs, set_ipl s st, q).

(** [while (p < end) { if ( *p & flag) { cc = p - q->c_cf; break; } p++; }] *)
Fixpoint ndqb_scan (fuel : nat) (st : cstate) (p flag : Z) (n : Z) : Z :=
  match fuel with
  | O => n
  | S k => if negb (Z.land (i8 (info_at st p)) flag =? 0) then n
           else ndqb_scan k st (p + 1) flag (n + 1)
  end.

Definition ndqb (st : cstate) (q : clist) (flag : Z) : Z :=
  if c_cc q <=? 0 then - c_cc q
  else
    let cc := Z.land (c_cf q + CBSIZE) (Z.lnot CROUND) - c_cf q in
    let cc := if c_cc q <? cc then c_cc q else cc in
    if negb (flag =? 0) then ndqb_scan (Z.to_nat cc) st (c_cf q) flag 0 else cc.

Definition ndflush (st : cstate) (q : clist) (cc : Z) : cstate * clist :=
  if c_cc q <? 0 then
    if negb (c_cf q =? NULL) then (st, Clist (c_cc q + cc) (c_cf q + cc) (c_cl q))
    else (st, Clist 0 (c_cf q) (c_cl q))
  else if c_cc q =? 0 then (st, q)
  else if (CBSIZE <? cc) || (cc <=? 0) then (set_cbad (i16 (cbad st + 1)) st, q)
  else
    let ncc := c_cc q - cc in
    let cf := c_cf q + cc in
    if Z.land cf CROUND =? 0 then
      let bp := cf - CBLOCK in
      let q' := if negb (next_of st bp =? NULL) then Clist ncc (next_of st bp + C_INFO) (c_cl q)
                else Clist ncc NULL NULL in
      (give_block bp st, q')
    else if ncc =? 0 then
      let bp := Z.land cf (Z.lnot CROUND) in
      (give_block bp st, Clist ncc NULL NULL)
    else (st, Clist ncc cf (c_cl q)).

Definition putc (st : cstate) (c : Z) (p : clist) : Z * cstate * clist :=
  let s := ipl st in
  let st := set_ipl 6 st in
  let store st cf cp := 
    (0, set_ipl s (set_info cp (u8 c) st), Clist (c_cc p + 1) cf (cp + 1)) in
  if (c_cl p =? NULL) || (c_cc p <? 0) then
    let bp := cfreelist st in
    if bp =? NULL then (-1, set_ipl s st, p)
    else
      let st := set_cfreelist (next_of st bp) st in
      let st := set_next bp NULL st in
      let cp := bp + C_INFO in
      store st cp cp
  else if Z.land (c_cl p) CROUND =? 0 then
    let bp := c_cl p - CBLOCK in
    let st := set_next bp (cfreelist st) st in
    if next_of st bp =? NULL then (-1, set_ipl s st, p)
    else
      let bp := next_of st bp in
      let st := set_cfreelist (next_of st bp) st in
      let st := set_next bp NULL st in
      store st (c_cf p) (bp + C_INFO)
  else store st (c_cf p) (c_cl p).

(** The copying loop of [b_to_q] over the bytes still to store; the result is
    the bytes left, the store and [cq]. *)
Fixpoint b_to_q_loop (cs : list Z) (st : cstate) (cq : Z) : list Z * cstate * Z :=
  match cs with
  | [] => ([], st, cq)
  | c :: cs' =>
      if Z.land cq CROUND =? 0 then
        let bp := cq - CBLOCK in
        let st := set_next bp (cfreelist st) st in
        if next_of st bp =? NULL then (cs, st, cq)
        else
          let bp := next_of st bp in
          let st := set_cfreelist (next_of st bp) st in
          let st := set_next bp NULL st in
          let cq := bp + C_INFO in
          b_to_q_loop cs' (set_info cq (u8 c) st) (cq + 1)
      else b_to_q_loop cs' (set_info cq (u8 c) st) (cq + 1)
  end.

(** [b_to_q(cp, cc, q)] with the [cc] bytes at [cp] as the list [cs]; the
    result is the number of bytes not transferred. *)
Definition b_to_q (st : cstate) (cs : list Z) (q : clist) : Z * cstate * clist :=
  let acc := Z.of_nat (length cs) in
  if acc <=? 0 then (0, st, q)
  else
    let s := ipl st in
    let st := set_ipl 6 st in
    let out left st cf cq :=
      (left, set_ipl s st, Clist (c_cc q + (acc - left)) cf cq) in
    if (c_cl q =? NULL) || (c_cc q <? 0) then
      let bp := cfreelist st in
      if bp =? NULL then out acc st (c_cf q) (c_cl q)
      else
        let st := set_cfreelist (next_of st bp) st in
        let st := set_next bp NULL st in
        let cq := bp + C_INFO in
        let '(rest, st, cq') := b_to_q_loop cs st cq in
        out (Z.of_nat (length rest)) st cq cq'
    else
      let '(rest, st, cq') := b_to_q_loop cs st (c_cl q) in
      out (Z.of_nat (length rest)) st (c_cf q) cq'.

(** The block loop of [cinit]: blocks [cp], [cp+16], ... are pushed in turn. *)
Fixpoint cinit_loop (n : nat) (cp : Z) (st : cstate) : cstate :=
  match n with
  | O => st
  | S k => cinit_loop k (cp + CBLOCK) (give_block cp st)
  end.

(** [cfree_space] is the linker's address of the array; [cdevsw] the list of
    the [d_open] fields of the character switch, ended by a null one.  The
    result is the store, [cfree] and [nchrdev]. *)
Fixpoint count_devs (cdevsw : list Z) : Z :=
  match cdevsw with
  | [] => 0
  | d :: r => if d =? NULL then 0 else 1 + count_devs r
  end.

Definition cinit (cfree_space : Z) (cdevsw : list Z) (st : cstate) : cstate * Z * Z :=
  let cfree := Z.land (cfree_space + CROUND) (Z.lnot CROUND) in
  (cinit_loop NCLIST cfree st, cfree, count_devs cdevsw).

Definition getw (st : cstate) (p : clist) : Z * cstate * clist :=
  if c_cc p <=? 1 then (-1, st, p)
  else
    let '(s, st, p) := getc st p in
    let '(s2, st, p) := getc st p in
    (Z.lor s (Z.shiftl s2 8), st, p).

Definition putw (st : cstate) (c : Z) (p : clist) : Z * cstate * clist :=
  let s := ipl st in
  let st := set_ipl 6 st in
  if cfreelist st =? NULL then (-1, set_ipl s st, p)
  else
    let '(_, st, p) := putc st c p in
    let '(_, st, p) := putc st (Z.shiftr c 8) p in
    (0, set_ipl s st, p).

(** * Specification: a clist is a list of bytes *)

Definition block_ok (b : Z) : Prop := b mod CBLOCK = 0 /\ 0 < b.

(** Following links from [p] visits the blocks [bs] and ends at [e]. *)
Fixpoint linked (st : cstate) (p : Z) (bs : list Z) (e : Z) : Prop :=
  match bs with
  | [] => p = e
  | b :: r => p = b /\ linked st (next_of st b) r e
  end.

Definition block_data (st : cstate) (b : Z) : list Z :=
  (fun i => info_at st (b + C_INFO + i)) <$> seqZ 0 CBSIZE.

Definition data (st : cstate) (bs : list Z) : list Z := bs ≫= block_data st.

(** The queue [q] holds the bytes [l] in the blocks [bs]: the first byte is
    [o] characters into the first block, the last one ends [e] characters
    into the last block. *)
Definition q_rep (st : cstate) (q : clist) (l : list Z) (bs : list Z) : Prop :=
  match bs with
  | [] => l = [] /\ q = Clist 0 NULL NULL
  | b :: r =>
      exists o e, 0 <= o < CBSIZE /\ 0 < e <= CBSIZE /\
        0 < Z.of_nat (length l) /\
        Z.of_nat (length l) = CBSIZE * Z.of_nat (length r) + e - o /\
        q = Clist (Z.of_nat (length l)) (b + C_INFO + o) (List.last bs 0 + C_INFO + e) /\
        linked st b bs NULL /\
        Forall (fun c => 0 <= c < 256) l /\
        l = take (length l) (drop (Z.to_nat o) (data st bs))
  end.

(** The free list and the queue own distinct, aligned blocks. *)
Definition rep (st : cstate) (F : list Z) (q : clist) (l : list Z) (bs : list Z) : Prop :=
  linked st (cfreelist st) F NULL /\ q_rep st q l bs /\ NoDup (F ++ bs) /\ Forall block_ok (F ++ bs).

(** [st'] differs from [st] only in the blocks [B]. *)
Definition frame (st st' : cstate) (B : list Z) : Prop :=
  forall b, block_ok b -> b ∉ B -> next_of st' b = next_of st b /\ block_data st' b = block_data st b.

(** ** Addresses *)

Lemma land_round b k : b mod 16 = 0 -> 0 <= k < 16 -> Z.land (b + k) CROUND = k.
Proof. intros. change CROUND with (Z.ones 4). rewrite land_ones_mod by lia. change (2 ^ 4) with 16. Z.div_mod_to_equations; lia. Qed.

Lemma land_round_end b : b mod 16 = 0 -> Z.land (b + 16) CROUND = 0.
Proof. intros. replace (b + 16) with ((b + 16) + 0) by lia. apply land_round; [Z.div_mod_to_equations; lia|lia]. Qed.

Lemma land_block b k : b mod 16 = 0 -> 0 <= k < 16 -> Z.land (b + k) (Z.lnot CROUND) = b.
Proof. intros. change CROUND with (Z.ones 4). rewrite land_lnot_ones by lia. change (2 ^ 4) with 16. Z.div_mod_to_equations; lia. Qed.

(** ** Chains *)

Lemma linked_frame st st' p bs e :
  (forall b, b ∈ bs -> next_of st' b = next_of st b) -> linked st p bs e -> linked st' p bs e.
Proof.
  revert p; induction bs as [|b r IH]; simpl; intros p Hf H; [done|].
  destruct H as [-> H]. split; [done|]. rewrite Hf by set_solver. apply IH; [set_solver|done].
Qed.

Lemma linked_app st p bs1 bs2 e :
  linked st p (bs1 ++ bs2) e <-> exists m, linked st p bs1 m /\ linked st m bs2 e.
Proof.
  revert p; induction bs1 as [|b r IH]; simpl; intros p.
  - split; [intros; eauto | intros (m&->&?); done].
  - rewrite IH. split; [intros (->&m&?&?); eauto | intros (m&(->&?)&?); eauto].
Qed.

Lemma length_block_data st b : length (block_data st b) = 12%nat.
Proof. done. Qed.

Lemma length_data st bs : length (data st bs) = (12 * length bs)%nat.
Proof.
  unfold data. induction bs as [|b r IH]; [done|].
  cbn [mbind list_bind]. rewrite length_app, length_block_data. cbn [length]. lia.
Qed.

Lemma data_cons st b r : data st (b :: r) = block_data st b ++ data st r.
Proof. done. Qed.

Lemma data_app st bs1 bs2 : data st (bs1 ++ bs2) = data st bs1 ++ data st bs2.
Proof. unfold data. apply bind_app. Qed.

Lemma data_frame st st' bs :
  (forall b, b ∈ bs -> block_data st' b = block_data st b) -> data st' bs = data st bs.
Proof.
  intros Hf. induction bs as [|b r IH]; [done|].
  rewrite !data_cons, Hf, IH; set_solver.
Qed.

Lemma block_data_lookup st b i :
  0 <= i < CBSIZE -> block_data st b !! Z.to_nat i = Some (info_at st (b + C_INFO + i)).
Proof.
  intros Hi. unfold block_data. rewrite list_lookup_fmap, lookup_seqZ_lt by (unfold CBSIZE in *; lia).
  simpl. do 3 f_equal. lia.
Qed.

(** ** Updates of the store *)

Lemma next_of_set_next st b v b' : next_of (set_next b v st) b' = if decide (b = b') then v else next_of st b'.
Proof.
  unfold next_of, set_next; simpl. case_decide; subst.
  - apply lookup_total_insert_eq.
  - now apply lookup_total_insert_ne.
Qed.

Lemma next_of_give st b b' :
  next_of (give_block b st) b' = if decide (b = b') then cfreelist st else next_of st b'.
Proof. apply next_of_set_next. Qed.

Lemma block_data_give st b b' : block_data (give_block b st) b' = block_data st b'.
Proof. done. Qed.

Lemma info_at_set_info st a v a' : info_at (set_info a v st) a' = if decide (a = a') then v else info_at st a'.
Proof.
  unfold info_at, set_info; simpl. case_decide; subst.
  - apply lookup_total_insert_eq.
  - now apply lookup_total_insert_ne.
Qed.

Lemma block_data_set_info_ne st b i v b' :
  block_ok b -> block_ok b' -> 0 <= i < CBSIZE -> b <> b' ->
  block_data (set_info (b + C_INFO + i) v st) b' = block_data st b'.
Proof.
  intros [Hb _] [Hb' _] Hi Hne. unfold block_data. apply list_fmap_ext. intros k j Hj.
  apply list_elem_of_lookup_2, elem_of_seqZ in Hj.
  rewrite info_at_set_info. unfold CBSIZE, C_INFO, CBLOCK in *. case_decide; [|done].
  exfalso. Z.div_mod_to_equations; lia.
Qed.

Lemma block_data_set_info_eq st b i v :
  0 <= i < CBSIZE -> block_data (set_info (b + C_INFO + i) v st) b = <[Z.to_nat i := v]> (block_data st b).
Proof.
  intros Hi. apply list_eq. intros k.
  destruct (decide (k < 12)%nat) as [Hk|Hk].
  - replace k with (Z.to_nat (Z.of_nat k)) at 1 by lia.
    rewrite block_data_lookup by (unfold CBSIZE; lia). rewrite info_at_set_info.
    case_decide as Heq.
    + replace k with (Z.to_nat i) by lia. symmetry. apply list_lookup_insert_eq.
      rewrite length_block_data. unfold CBSIZE in *; lia.
    + rewrite list_lookup_insert_ne by lia. replace k with (Z.to_nat (Z.of_nat k)) at 2 by lia.
      now rewrite block_data_lookup by (unfold CBSIZE; lia).
  - rewrite !lookup_ge_None_2; rewrite ?length_insert, ?length_block_data; [done|lia..].
Qed.

(** ** Taking the first byte *)

(** What [getc] and the loop of [q_to_b] do once the byte is read. *)
Definition advance (st : cstate) (q : clist) : cstate * clist :=
  let cf := c_cf q + 1 in
  let cc := c_cc q - 1 in
  if cc <=? 0 then (give_block (Z.land (cf - 1) (Z.lnot CROUND)) st, Clist cc NULL NULL)
  else if Z.land cf CROUND =? 0 then
    (give_block (cf - CBLOCK) st, Clist cc (next_of st (cf - CBLOCK) + C_INFO) (c_cl q))
  else (st, Clist cc cf (c_cl q)).

Lemma slice_cons {A} (c : A) l n (D : list A) :
  c :: l = take (S (length l)) (drop n D) -> D !! n = Some c /\ l = take (length l) (drop (S n) D).
Proof.
  intros H. destruct (drop n D) as [|x d] eqn:E; [done|]. simpl in H. injection H as <- Hl.
  assert (Hn : D !! n = Some c).
  { replace n with (n + 0)%nat at 1 by lia. rewrite <- lookup_drop, E. done. }
  split; [done|]. apply drop_S in Hn. rewrite Hn in E. injection E as ->. done.
Qed.

Lemma rep_give st F b r :
  linked st (cfreelist st) F NULL -> NoDup (F ++ b :: r) ->
  linked (give_block b st) (cfreelist (give_block b st)) (b :: F) NULL.
Proof.
  intros Hl Hnd. split; [done|]. rewrite next_of_give, decide_True by done.
  apply linked_frame with st; [|done]. intros b' Hb'. rewrite next_of_give, decide_False; [done|].
  intros ->. apply NoDup_app in Hnd as (_&Hd&_). apply (Hd b' Hb'). set_solver.
Qed.

Lemma frame_give st b B : b ∈ B -> frame st (give_block b st) B.
Proof. intros Hb b' _ Hb'. rewrite next_of_give, decide_False by set_solver. done. Qed.

Lemma frame_refl st B : frame st st B.
Proof. done. Qed.

Lemma frame_trans st1 st2 st3 B B' :
  (forall b, b ∈ B' -> b ∈ B) -> frame st1 st2 B -> frame st2 st3 B' -> frame st1 st3 B.
Proof.
  intros HB H1 H2 b Hok Hb. destruct (H1 b Hok Hb) as [<- <-]. apply H2; [done|]. intros ?; auto.
Qed.

Lemma advance_spec st F q c l bs :
  rep st F q (c :: l) bs ->
  info_at st (c_cf q) = c /\ 0 < c_cc q /\ 0 <= c < 256 /\
  exists F' bs', rep (advance st q).1 F' (advance st q).2 l bs' /\
    F' ++ bs' ≡ₚ F ++ bs /\ frame st (advance st q).1 (F ++ bs) /\
    ipl (advance st q).1 = ipl st /\ cbad (advance st q).1 = cbad st.
Proof.
  intros (Hfree&Hq&Hnd&Hok). destruct bs as [|b r]; [destruct Hq; done|].
  destruct Hq as (o&e&Ho&He&_&Hlen&->&Hlink&Hby&Hl).
  apply Forall_cons in Hby as [Hc Hby]. cbn [length] in Hl, Hlen. cbn [c_cc c_cf c_cl].
  destruct (slice_cons _ _ _ _ Hl) as [Hhd Htl]. clear Hl.
  assert (Hb : block_ok b) by (apply Forall_app in Hok as [_ Hok]; now apply Forall_cons in Hok).
  destruct Hb as [Hmod Hpos]. unfold CBLOCK, CBSIZE in *.
  rewrite data_cons, lookup_app_l in Hhd by (rewrite length_block_data; lia).
  rewrite block_data_lookup in Hhd by (unfold CBSIZE; lia). injection Hhd as Hhd.
  repeat (split; [done || lia|]).
  assert (Hperm : (b :: F) ++ r ≡ₚ F ++ b :: r) by apply Permutation_middle.
  destruct (advance _ _) as [st' q'] eqn:E. cbn [fst snd].
  unfold advance in E; cbn [c_cc c_cf c_cl length] in E.
  destruct (Z.leb_spec (Z.of_nat (S (length l)) - 1) 0) as [Hlast|Hmore].
  { destruct l; [|simpl in *; lia]. destruct r; [|simpl in *; lia].
    replace (b + C_INFO + o + 1 - 1) with (b + (C_INFO + o)) in E by lia.
    rewrite land_block in E by (unfold C_INFO; lia). cbv beta iota in E; injection E as <- <-. exists (b :: F), [].
    split; [|split; [done|split; [apply frame_give; set_solver|done]]].
    split; [eapply rep_give; eauto|]. split; [done|]. split; now rewrite Hperm. }
  replace (b + C_INFO + o + 1) with (b + (4 + o + 1)) in E by (unfold C_INFO; lia).
  destruct (Z.eq_dec o 11) as [->|Hne].
  - replace (b + (4 + 11 + 1)) with (b + 16) in E by lia.
    rewrite land_round_end, Z.eqb_refl in E by done. unfold CBLOCK in E.
    replace (b + 16 - 16) with b in E by lia. cbv beta iota in E; injection E as <- <-.
    destruct r as [|b2 r2]; [simpl in *; lia|]. destruct Hlink as [_ Hlink].
    pose proof Hlink as [Hb2 _]. rewrite Hb2 in *.
    exists (b :: F), (b2 :: r2). split; [|split; [done|split; [apply frame_give; set_solver|done]]].
    split; [eapply rep_give; eauto|]. split; [|split; now rewrite Hperm].
    exists 0, e. repeat (split; [unfold CBSIZE; simpl in *; lia|]).
    split; [f_equal; unfold C_INFO; lia|]. split; [|split; [done|]].
    + apply linked_frame with st; [|done]. intros b' Hb'. rewrite next_of_give, decide_False; [done|].
      intros ->. apply NoDup_app in Hnd as (_&_&Hnd). now apply NoDup_cons in Hnd as [? _].
    + rewrite data_cons, drop_app_ge in Htl by (rewrite length_block_data; lia). done.
  - rewrite land_round in E by lia. rewrite (proj2 (Z.eqb_neq _ _)) in E by lia.
    cbv beta iota in E; injection E as <- <-. exists F, (b :: r). split; [|done]. split; [done|]. split; [|done].
    exists (o + 1), e. repeat (split; [unfold CBSIZE; simpl in *; lia|]).
    split; [f_equal; unfold C_INFO; lia|]. repeat (split; [done|]).
    now replace (Z.to_nat (o + 1)) with (S (Z.to_nat o)) by lia.
Qed.

(** ** Appending a byte *)

(** A queue under construction: like [q_rep] on a non-empty chain, but the
    last block may still be empty ([e = 0]). *)
Definition open_rep (st : cstate) (F : list Z) (cf cl e : Z) (l bs : list Z) : Prop :=
  linked st (cfreelist st) F NULL /\ NoDup (F ++ bs) /\ Forall block_ok (F ++ bs) /\
  exists o, bs <> [] /\ 0 <= o < CBSIZE /\ 0 <= e <= CBSIZE /\
    Z.of_nat (length l) = CBSIZE * (Z.of_nat (length bs) - 1) + e - o /\
    cf = List.hd 0 bs + C_INFO + o /\ cl = List.last bs 0 + C_INFO + e /\
    linked st (List.hd 0 bs) bs NULL /\ Forall (fun c => 0 <= c < 256) l /\
    l = take (length l) (drop (Z.to_nat o) (data st bs)).

Lemma rep_open st F q l bs :
  bs <> [] -> rep st F q l bs ->
  exists e, 0 < e /\ c_cc q = Z.of_nat (length l) /\ open_rep st F (c_cf q) (c_cl q) e l bs.
Proof.
  intros Hne (Hfree&Hq&Hnd&Hok). destruct bs as [|b r]; [done|].
  destruct Hq as (o&e&Ho&He&Hpos&Hlen&->&Hlink&Hby&Hl).
  exists e. split; [lia|]. split; [done|]. repeat (split; [done|]). exists o.
  repeat (split; [done || lia || (simpl length; lia)|]). done.
Qed.

Lemma open_rep_close st F cf cl e l bs :
  open_rep st F cf cl e l bs -> l <> [] -> 0 < e -> rep st F (Clist (Z.of_nat (length l)) cf cl) l bs.
Proof.
  intros (Hfree&Hnd&Hok&o&Hne&Ho&He&Hlen&->&->&Hlink&Hby&Hl) Hl0 He0.
  split; [done|]. split; [|done]. destruct bs as [|b r]; [done|].
  exists o, e. split; [done|]. split; [lia|]. split; [destruct l; [done|simpl; lia]|].
  split; [simpl length in *; lia|]. done.
Qed.

Lemma last_split (bs : list Z) : bs <> [] -> exists pre, bs = pre ++ [List.last bs 0].
Proof. intros H. destruct (exists_last H) as (pre&x&->). exists pre. now rewrite last_last. Qed.

Lemma slice_snoc {A} (l D D' : list A) o v :
  l = take (length l) (drop o D) -> take (o + length l) D' = take (o + length l) D ->
  D' !! (o + length l)%nat = Some v -> l ++ [v] = take (length (l ++ [v])) (drop o D').
Proof.
  intros Hl Ht Hv. rewrite length_app, Nat.add_comm. simpl.
  rewrite (take_S_r _ _ v) by now rewrite lookup_drop.
  f_equal. rewrite take_drop_commute, Ht, <- take_drop_commute. done.
Qed.

Lemma open_align st F cf cl e l bs :
  open_rep st F cf cl e l bs ->
  cl = List.last bs 0 + C_INFO + e /\ cl <> 0 /\ block_ok (List.last bs 0) /\
  (Z.land cl CROUND =? 0) = (e =? CBSIZE).
Proof.
  intros (_&_&Hok&o&Hne&_&He&_&_&->&_).
  destruct (last_split bs Hne) as [pre Hpre].
  assert (Hb : block_ok (List.last bs 0)).
  { rewrite Hpre in Hok. apply Forall_app in Hok as [_ Hok]. apply Forall_app in Hok as [_ Hok].
    now apply Forall_cons in Hok as [? _]. }
  destruct Hb as [Hm Hp]. unfold CBLOCK, CBSIZE, C_INFO in *.
  split; [done|]. split; [lia|]. split; [done|].
  destruct (Z.eqb_spec e 12) as [->|Hne12].
  - replace (List.last bs 0 + 4 + 12) with (List.last bs 0 + 16) by lia. now rewrite land_round_end.
  - rewrite <- Z.add_assoc, land_round by lia. apply Z.eqb_neq. lia.
Qed.

Lemma open_write st F cf cl e l bs v :
  open_rep st F cf cl e l bs -> e < CBSIZE -> 0 <= v < 256 ->
  open_rep (set_info cl v st) F cf (cl + 1) (e + 1) (l ++ [v]) bs /\
  frame st (set_info cl v st) bs.
Proof.
  intros Hopen He12 Hv. destruct (open_align _ _ _ _ _ _ _ Hopen) as (_&_&Hlb&_).
  destruct Hopen as (Hfree&Hnd&Hok&o&Hne&Ho&He&Hlen&->&->&Hlink&Hby&Hl).
  destruct (last_split bs Hne) as [pre Hpre]. set (lb := List.last bs 0) in *.
  assert (Hfr : frame st (set_info (lb + C_INFO + e) v st) bs).
  { intros b' Hb' Hnin. split; [done|]. apply block_data_set_info_ne; try done; [lia|].
    rewrite Hpre in Hnin. set_solver. }
  split; [|done]. split; [now apply linked_frame with st|]. split; [done|]. split; [done|]. exists o.
  split; [done|]. split; [done|]. split; [lia|].
  split; [rewrite length_app; simpl; lia|]. split; [done|]. split; [lia|]. split; [now apply linked_frame with st|].
  split; [apply Forall_app; auto|].
  assert (Hndp : forall b', b' ∈ pre -> lb <> b').
  { intros b' Hb' ->. rewrite Hpre in Hnd. apply NoDup_app in Hnd as (_&_&Hnd).
    apply NoDup_app in Hnd as (_&Hd&_). apply (Hd _ Hb'). set_solver. }
  assert (Hpos : (Z.to_nat o + length l = 12 * length pre + Z.to_nat e)%nat).
  { rewrite Hpre, length_app in Hlen. simpl in Hlen. unfold CBSIZE in *. lia. }
  assert (Hdp : data (set_info (lb + C_INFO + e) v st) pre = data st pre).
  { apply data_frame. intros b' Hb'. apply block_data_set_info_ne; try done; [|lia|auto].
    rewrite Hpre in Hok. apply Forall_app in Hok as [_ Hok]. apply Forall_app in Hok as [Hok _].
    now apply (proj1 (Forall_forall _ _) Hok). }
  assert (Hds : forall s, data s [lb] = block_data s lb) by (intros; rewrite data_cons; apply app_nil_r).
  eapply slice_snoc; [exact Hl|..]; rewrite Hpos; rewrite Hpre, !data_app, Hdp, !Hds,
    block_data_set_info_eq by lia.
  - rewrite !take_app_ge by (rewrite length_data; lia). rewrite length_data.
    f_equal. replace (12 * length pre + Z.to_nat e - 12 * length pre)%nat with (Z.to_nat e) by lia.
    now rewrite take_insert_ge.
  - rewrite lookup_app_r by (rewrite length_data; lia). rewrite length_data.
    replace (12 * length pre + Z.to_nat e - 12 * length pre)%nat with (Z.to_nat e) by lia.
    apply list_lookup_insert_eq. rewrite length_block_data. unfold CBSIZE in *; lia.
Qed.

(** The state after a block has been taken from the free list and linked
    behind [bp]. *)
Definition link_block (bp : Z) (st : cstate) : cstate :=
  let st := set_next bp (cfreelist st) st in
  let f := next_of st bp in
  set_next f NULL (set_cfreelist (next_of st f) st).

Lemma open_link st f F cf cl l bs :
  open_rep st (f :: F) cf cl CBSIZE l bs ->
  let bp := List.last bs 0 in
  next_of (set_next bp (cfreelist st) st) bp = f /\ f <> NULL /\
  open_rep (link_block bp st) F cf (f + C_INFO) 0 l (bs ++ [f]) /\
  frame st (link_block bp st) (f :: F ++ bs).
Proof.
  intros Hopen bp. destruct (open_align _ _ _ _ _ _ _ Hopen) as (Hcl&_&Hlb&_). fold bp in Hcl, Hlb.
  destruct Hopen as ([Hf Hfree]&Hnd&Hok&o&Hne&Ho&He&Hlen&->&_&Hlink&Hby&Hl).
  destruct (last_split bs Hne) as [pre Hpre]. fold bp in Hpre.
  assert (Hbn : bp <> f /\ f ∉ F /\ f ∉ bs /\ forall b, b ∈ F ++ pre -> b <> bp /\ b <> f).
  { rewrite Hpre in Hnd. apply NoDup_app in Hnd as (Hnf&Hd&Hnb). apply NoDup_cons in Hnf as [HfF _].
    apply NoDup_app in Hnb as (_&Hd2&_). rewrite Hpre.
    assert (f ∉ pre ++ [bp]) by (apply Hd; set_solver). split; [set_solver|].
    do 2 (split; [done|]). intros b [Hb|Hb]%elem_of_app; split; intros ->; [|done|..].
    - apply (Hd bp); set_solver.
    - apply (Hd2 bp Hb); set_solver.
    - set_solver. }
  destruct Hbn as (Hbf&HfF&Hfb&Hother).
  assert (Hfok : block_ok f) by (apply Forall_app in Hok as [Hok _]; now apply Forall_cons in Hok).
  assert (Hnx : next_of (set_next bp (cfreelist st) st) bp = f) by (rewrite next_of_set_next, decide_True by done; done).
  assert (Hnext : forall b, next_of (link_block bp st) b =
    if decide (f = b) then NULL else if decide (bp = b) then f else next_of st b).
  { intros b. unfold link_block. rewrite Hnx, next_of_set_next. case_decide; [done|].
    change (next_of (set_cfreelist ?v ?s) b) with (next_of s b). rewrite next_of_set_next, Hf. done. }
  assert (Hfl : cfreelist (link_block bp st) = next_of st f).
  { unfold link_block. rewrite Hnx. simpl. now rewrite next_of_set_next, decide_False by done. }
  split; [done|]. split; [destruct Hfok; unfold NULL; lia|].
  assert (Hsame : forall b, b <> f -> b <> bp -> next_of (link_block bp st) b = next_of st b).
  { intros b H1 H2. now rewrite Hnext, !decide_False by congruence. }
  split.
  - split; [rewrite Hfl; apply linked_frame with st; [intros b Hb; apply Hsame; apply Hother; set_solver|done]|].
    assert (Hp : F ++ bs ++ [f] ≡ₚ (f :: F) ++ bs).
    { rewrite app_assoc. simpl. symmetry. apply Permutation_cons_append. }
    split; [now rewrite Hp|]. split; [now rewrite Hp|].
    exists o. split; [destruct bs; done|]. split; [done|]. split; [unfold CBSIZE; lia|].
    split; [rewrite length_app; simpl; unfold CBSIZE in *; lia|].
    split; [destruct bs; done|]. split; [rewrite last_last; lia|]. split; [|split; [done|]].
    + replace (hd 0 (bs ++ [f])) with (hd 0 bs) by (destruct bs; done).
      rewrite Hpre in Hlink |- *. rewrite <- app_assoc. apply linked_app in Hlink as (m&Hl1&Hl2).
      apply linked_app. exists m. split; [apply linked_frame with st; [|done]|].
      * intros b Hb. apply Hsame; apply Hother; set_solver.
      * destruct Hl2 as [-> _]. simpl. split; [done|].
        rewrite Hnext, decide_False, decide_True by congruence. split; [done|].
        now rewrite Hnext, decide_True by done.
    + rewrite data_app. change (data (link_block bp st)) with (data st).
      rewrite drop_app_le, take_app_le; [done|..]; rewrite ?length_drop, length_data; unfold CBSIZE in *; lia.
  - intros b _ Hb. split; [|done]. apply Hsame; intros ->; apply Hb; [set_solver|].
    rewrite Hpre. set_solver.
Qed.

Lemma open_first st f F :
  linked st (cfreelist st) (f :: F) NULL -> NoDup (f :: F) -> Forall block_ok (f :: F) ->
  cfreelist st = f /\ f <> NULL /\
  let st' := set_next f NULL (set_cfreelist (next_of st f) st) in
  open_rep st' F (f + C_INFO) (f + C_INFO) 0 [] [f] /\ frame st st' [f].
Proof.
  intros [Hf Hfree] Hnd Hok. pose proof Hok as Hok'. apply Forall_cons in Hok' as [[_ Hf0] _].
  pose proof Hnd as Hnd'. apply NoDup_cons in Hnd' as [HfF _].
  assert (Hfr : frame st (set_next f NULL (set_cfreelist (next_of st f) st)) [f]).
  { intros b _ Hb. rewrite next_of_set_next, decide_False by set_solver. done. }
  assert (Hp : F ++ [f] ≡ₚ f :: F) by (symmetry; apply Permutation_cons_append).
  split; [done|]. split; [unfold NULL; lia|]. split; [|done].
  split; [|split; [now rewrite Hp|split; [now rewrite Hp|]]].
  - apply linked_frame with st; [|done]. intros b Hb. rewrite next_of_set_next, decide_False by set_solver. done.
  - exists 0. unfold CBSIZE. simpl. repeat (split; [done || lia|]).
    split; [now rewrite next_of_set_next, decide_True by done|]. split; [constructor|done].
Qed.

(** ** The operations *)

Lemma linked_set_ipl s st p bs e : linked (set_ipl s st) p bs e <-> linked st p bs e.
Proof. split; now apply linked_frame. Qed.

Lemma rep_set_ipl s st F q l bs : rep (set_ipl s st) F q l bs <-> rep st F q l bs.
Proof.
  unfold rep. rewrite linked_set_ipl. destruct bs as [|b r]; [done|]. unfold q_rep.
  by setoid_rewrite linked_set_ipl.
Qed.

Lemma open_set_ipl s st F cf cl e l bs : open_rep (set_ipl s st) F cf cl e l bs <-> open_rep st F cf cl e l bs.
Proof. unfold open_rep. rewrite linked_set_ipl. by setoid_rewrite linked_set_ipl. Qed.

(** Outcome of an operation that may move blocks between the free list and
    the queue: contents [l'], same blocks overall, others untouched. *)
Definition moved (st st' : cstate) (F : list Z) (bs : list Z) (q' : clist) (l' : list Z) : Prop :=
  exists F' bs', rep st' F' q' l' bs' /\ F' ++ bs' ≡ₚ F ++ bs /\ frame st st' (F ++ bs) /\
    ipl st' = ipl st /\ cbad st' = cbad st.

Lemma getc_advance st q :
  0 < c_cc q ->
  getc st q = (Z.land (info_at st (c_cf q)) 255, set_ipl (ipl st) (advance (set_ipl 6 st) q).1,
               (advance (set_ipl 6 st) q).2).
Proof.
  intros H. unfold getc, advance. rewrite (proj2 (Z.leb_gt _ _)) by lia.
  destruct (_ <=? 0); [done|]. now destruct (_ =? 0).
Qed.

Lemma land_255 c : 0 <= c < 256 -> Z.land c 255 = c.
Proof. intros. change 255 with (Z.ones 8). rewrite land_ones_mod by lia. now apply Z.mod_small. Qed.

Lemma getc_cons st F q c l bs :
  rep st F q (c :: l) bs ->
  exists st' q', getc st q = (c, st', q') /\ moved st st' F bs q' l.
Proof.
  intros H. apply (rep_set_ipl 6) in H.
  destruct (advance_spec _ _ _ _ _ _ H) as (Hi&Hcc&Hc&F'&bs'&Hr&Hp&Hf&_&Hb).
  rewrite getc_advance by done. change (info_at st) with (info_at (set_ipl 6 st)). rewrite Hi, land_255 by done.
  do 2 eexists. split; [done|]. exists F', bs'. rewrite rep_set_ipl. auto 6.
Qed.

Lemma rep_nil st F q bs : rep st F q [] bs -> bs = [] /\ q = Clist 0 NULL NULL.
Proof. intros (_&Hq&_). destruct bs; [now destruct Hq|]. destruct Hq as (?&?&_&_&?&_). simpl in *; lia. Qed.

Lemma rep_cons_blocks st F q l bs : rep st F q l bs -> l <> [] -> bs <> [].
Proof. intros (_&Hq&_) Hl ->. now destruct Hq. Qed.

Lemma set_ipl_id st : set_ipl (ipl st) (set_ipl 6 st) = st.
Proof. now destruct st. Qed.

Lemma moved_refl st F bs q l : rep st F q l bs -> moved st st F bs q l.
Proof. intros; exists F, bs. auto using frame_refl. Qed.

Lemma moved_trans st1 st2 st3 F bs q l F' bs' q' l' :
  rep st2 F' q l bs' -> F' ++ bs' ≡ₚ F ++ bs -> frame st1 st2 (F ++ bs) ->
  ipl st2 = ipl st1 -> cbad st2 = cbad st1 ->
  moved st2 st3 F' bs' q' l' -> moved st1 st3 F bs q' l'.
Proof.
  intros _ Hp Hf Hi Hb (F3&bs3&Hr&Hp3&Hf3&Hi3&Hb3). exists F3, bs3.
  split; [done|]. split; [by rewrite Hp3|]. split; [|split; congruence].
  eapply frame_trans; [|done..]. intros b. by rewrite Hp.
Qed.

Lemma q_to_b_loop_spec n st F q l bs :
  rep st F q l bs -> l <> [] ->
  exists st' q', q_to_b_loop n st q = (take n l, st', q') /\ moved st st' F bs q' (drop n l).
Proof.
  revert st F q l bs. induction n as [|n IH]; intros st F q l bs Hr Hl.
  { exists st, q. split; [done|]. now apply moved_refl. }
  destruct l as [|c l]; [done|].
  destruct (advance_spec _ _ _ _ _ _ Hr) as (Hi&Hcc&_&F'&bs'&Hr'&Hp&Hf&Hipl&Hb).
  assert (Hcc' : c_cc q - 1 = Z.of_nat (length l)).
  { destruct Hr as (_&Hq&_). destruct bs; [now destruct Hq|]. destruct Hq as (?&?&_&_&_&_&->&_). simpl. lia. }
  simpl. rewrite Hi. unfold advance in *. destruct (Z.leb_spec (c_cc q - 1) 0) as [Hz|Hz].
  { destruct l; [|simpl in *; lia]. do 2 eexists. split; [destruct n; reflexivity|].
    rewrite drop_nil. exists F', bs'. auto 6. }
  destruct (_ =? 0); cbn [fst snd] in *.
  - destruct (IH _ _ _ _ _ Hr') as (st'&q'&->&Hm); [destruct l; [simpl in *; lia|done]|].
    do 2 eexists. split; [done|]. eapply moved_trans; eauto.
  - destruct (IH _ _ _ _ _ Hr') as (st'&q'&->&Hm); [destruct l; [simpl in *; lia|done]|].
    do 2 eexists. split; [done|]. eapply moved_trans; eauto.
Qed.

Lemma u8_byte c : 0 <= u8 c < 256.
Proof. apply (uwrap_range 8). lia. Qed.

(** Storing one byte at the end of an open queue. *)
Lemma open_store st F cf cl e l bs c :
  open_rep st F cf cl e l bs -> e < CBSIZE ->
  open_rep (set_info cl (u8 c) st) F cf (cl + 1) (e + 1) (l ++ [u8 c]) bs /\
  frame st (set_info cl (u8 c) st) (F ++ bs).
Proof.
  intros Ho He. destruct (open_write _ _ _ _ _ _ _ (u8 c) Ho He (u8_byte c)) as [H1 H2].
  split; [done|]. intros b Hb Hn. apply H2; [done|set_solver].
Qed.

(** An open queue that is full: the next byte needs a block. *)
Lemma open_full_none st cf cl l bs :
  open_rep st [] cf cl CBSIZE l bs ->
  next_of (set_next (cl - CBLOCK) (cfreelist st) st) (cl - CBLOCK) = NULL /\
  open_rep (set_next (cl - CBLOCK) (cfreelist st) st) [] cf cl CBSIZE l bs /\
  frame st (set_next (cl - CBLOCK) (cfreelist st) st) bs.
Proof.
  intros Ho. destruct (open_align _ _ _ _ _ _ _ Ho) as (->&_&_&_).
  replace (List.last bs 0 + C_INFO + CBSIZE - CBLOCK) with (List.last bs 0) by (unfold C_INFO, CBSIZE, CBLOCK; lia).
  destruct Ho as (Hfree&Hnd&Hok&o&Hne&Ho&He&Hlen&->&_&Hlink&Hrest).
  simpl in Hfree. rewrite Hfree. destruct (last_split bs Hne) as [pre Hpre].
  assert (Hlast : next_of st (List.last bs 0) = NULL).
  { rewrite Hpre in Hlink at 2. apply linked_app in Hlink as (m&_&Hm). simpl in Hm. now destruct Hm as [-> ->]. }
  assert (Hsame : forall b, next_of (set_next (List.last bs 0) NULL st) b = next_of st b).
  { intros b. rewrite next_of_set_next. case_decide; subst; congruence. }
  split; [by rewrite Hsame|]. split; [|intros b _ _; by rewrite Hsame].
  split; [done|]. repeat (split; [done|]). exists o. repeat (split; [done|]).
  split; [|done]. apply linked_frame with st; [|done]. intros; apply Hsame.
Qed.

(** The part of [putc] after the raising of the priority, for a queue that
    already has a chain. *)
Lemma extend_spec st F cf cl e l bs :
  open_rep st F cf cl e l bs ->
  (e = CBSIZE /\ F = []) \/
  (e = CBSIZE /\ exists f F', F = f :: F' /\
     let bp := cl - CBLOCK in
     next_of (set_next bp (cfreelist st) st) bp = f /\ f <> NULL /\
     open_rep (link_block bp st) F' cf (f + C_INFO) 0 l (bs ++ [f]) /\
     F' ++ bs ++ [f] ≡ₚ F ++ bs /\ frame st (link_block bp st) (F ++ bs)) \/
  e < CBSIZE.
Proof.
  intros Ho. destruct (open_align _ _ _ _ _ _ _ Ho) as (Hcl&_&_&_).
  assert (He : 0 <= e <= CBSIZE) by (destruct Ho as (_&_&_&?&_&_&?&_); done).
  destruct (Z.eq_dec e CBSIZE) as [->|]; [|right; right; lia].
  destruct F as [|f F']; [auto|]. right; left. split; [done|]. exists f, F'. split; [done|].
  replace (cl - CBLOCK) with (List.last bs 0) by (unfold C_INFO, CBSIZE, CBLOCK in *; lia).
  destruct (open_link _ _ _ _ _ _ _ Ho) as (H1&H2&H3&H4). split; [done|]. split; [done|]. split; [done|].
  split; [|done]. rewrite app_assoc. simpl. symmetry. apply Permutation_cons_append.
Qed.

Lemma open_moved st st' F bs F' cf cl e l bs' :
  open_rep st' F' cf cl e l bs' -> l <> [] -> 0 < e -> F' ++ bs' ≡ₚ F ++ bs -> frame st st' (F ++ bs) ->
  ipl st' = ipl st -> cbad st' = cbad st -> moved st st' F bs (Clist (Z.of_nat (length l)) cf cl) l.
Proof. intros. exists F', bs'. eauto 8 using open_rep_close. Qed.

Definition no_room (q : clist) : Prop := Z.land (c_cl q) CROUND = 0.

Lemma snoc_ne {A} (l : list A) x : l ++ [x] <> [].
Proof. now destruct l. Qed.

Lemma b_to_q_loop_spec cs st F cf cq e l bs :
  open_rep st F cf cq e l bs ->
  exists don rest st' cq' e' F' bs',
    cs = don ++ rest /\ b_to_q_loop cs st cq = (rest, st', cq') /\
    open_rep st' F' cf cq' e' (l ++ (u8 <$> don)) bs' /\ (0 < e \/ don <> [] -> 0 < e') /\
    F' ++ bs' ≡ₚ F ++ bs /\ frame st st' (F ++ bs) /\ ipl st' = ipl st /\ cbad st' = cbad st /\
    (rest = [] \/ F' = [] /\ e' = CBSIZE).
Proof.
  revert st F cq e l bs. induction cs as [|c cs IH]; intros st F cq e l bs Ho.
  { exists [], [], st, cq, e, F, bs. rewrite fmap_nil, (app_nil_r l).
    split; [done|]. split; [done|]. split; [done|]. split; [intros [?|[]]; done|]. auto 8 using frame_refl. }
  destruct (open_align _ _ _ _ _ _ _ Ho) as (Hcl&_&_&Hal).
  cbn [b_to_q_loop]. rewrite Hal.
  assert (Hcase : forall st1 F1 cq1 e1 bs1, open_rep st1 F1 cf cq1 e1 l bs1 -> 0 <= e1 < CBSIZE ->
    F1 ++ bs1 ≡ₚ F ++ bs -> frame st st1 (F ++ bs) -> ipl st1 = ipl st -> cbad st1 = cbad st ->
    exists don rest st' cq' e' F' bs',
      c :: cs = don ++ rest /\ b_to_q_loop cs (set_info cq1 (u8 c) st1) (cq1 + 1) = (rest, st', cq') /\
      open_rep st' F' cf cq' e' (l ++ (u8 <$> don)) bs' /\ (0 < e \/ don <> [] -> 0 < e') /\
      F' ++ bs' ≡ₚ F ++ bs /\ frame st st' (F ++ bs) /\ ipl st' = ipl st /\ cbad st' = cbad st /\
      (rest = [] \/ F' = [] /\ e' = CBSIZE)).
  { intros st1 F1 cq1 e1 bs1 Ho1 He1 Hp1 Hf1 Hi1 Hb1.
    destruct (open_store _ _ _ _ _ _ _ c Ho1 ltac:(lia)) as [Ho2 Hf2].
    destruct (IH _ _ _ _ _ _ Ho2) as (don&rest&st'&cq'&e'&F'&bs'&->&->&Ho3&He3&Hp3&Hf3&Hi3&Hb3&Hr3).
    exists (c :: don), rest, st', cq', e', F', bs'. rewrite <- app_assoc in Ho3.
    split; [done|]. split; [done|]. split; [done|]. split; [intros; apply He3; lia|].
    split; [by rewrite Hp3|]. split; [|split; [|split]]; [|simpl in *; congruence..|done].
    eapply frame_trans; [|exact Hf1|eapply frame_trans; [|exact Hf2|exact Hf3]];
      intros b; rewrite ?Hp1; done. }
  destruct (extend_spec _ _ _ _ _ _ _ Ho) as [[-> ->]|[(->&f&F'&->&Hn&Hf0&Ho'&Hp&Hfr)|He]].
  - rewrite Z.eqb_refl. destruct (open_full_none _ _ _ _ _ Ho) as (Hn&Ho'&Hfr). rewrite Hn, Z.eqb_refl.
    exists [], (c :: cs), (set_next (cq - CBLOCK) (cfreelist st) st), cq, CBSIZE, [], bs.
    rewrite fmap_nil, (app_nil_r l). split; [done|]. split; [done|]. split; [done|]. split; [unfold CBSIZE; lia|]. auto 8.
  - rewrite Z.eqb_refl. cbv zeta in Hn. rewrite Hn, (proj2 (Z.eqb_neq _ _) Hf0).
    assert (Hlb : set_next f NULL (set_cfreelist (next_of (set_next (cq - CBLOCK) (cfreelist st) st) f)
       (set_next (cq - CBLOCK) (cfreelist st) st)) = link_block (cq - CBLOCK) st).
    { unfold link_block. now rewrite Hn. }
    rewrite Hlb. eapply Hcase; eauto; unfold CBSIZE; lia.
  - rewrite (proj2 (Z.eqb_neq e CBSIZE)) by lia.
    assert (0 <= e) by (destruct Ho as (_&_&_&?&_&_&?&_); lia).
    eapply Hcase; eauto using frame_refl.
Qed.

Definition same_mem (st st' : cstate) : Prop :=
  c_next st' = c_next st /\ c_info st' = c_info st /\ cfreelist st' = cfreelist st.

Lemma moved_set_ipl st st' F bs q' l' s6 :
  moved (set_ipl s6 st) st' F bs q' l' -> moved st (set_ipl (ipl st) st') F bs q' l'.
Proof.
  intros (F'&bs'&Hr&Hp&Hf&Hi&Hb). exists F', bs'. rewrite rep_set_ipl. auto.
Qed.

Lemma set_ipl_twice a b st : set_ipl a (set_ipl b st) = set_ipl a st.
Proof. done. Qed.

(** The non-failing tail of [putc]. *)
Lemma store_moved st1 st F bs F1 bs1 cf cp e l c :
  open_rep st1 F1 cf cp e l bs1 -> 0 <= e < CBSIZE -> F1 ++ bs1 ≡ₚ F ++ bs -> frame st st1 (F ++ bs) ->
  ipl st1 = ipl st -> cbad st1 = cbad st ->
  moved st (set_info cp (u8 c) st1) F bs (Clist (Z.of_nat (length l) + 1) cf (cp + 1)) (l ++ [u8 c]).
Proof.
  intros Ho He Hp Hf Hi Hb. destruct (open_store _ _ _ _ _ _ _ c Ho ltac:(lia)) as [Ho2 Hf2].
  replace (Z.of_nat (length l) + 1) with (Z.of_nat (length (l ++ [u8 c]))) by (rewrite length_app; simpl; lia).
  eapply open_moved; eauto using snoc_ne; try lia.
  eapply frame_trans; [|exact Hf|exact Hf2]. intros b; by rewrite Hp.
Qed.

Lemma putc_spec st F q l bs c :
  rep st F q l bs ->
  (F = [] /\ no_room q /\ exists st', putc st c q = (-1, st', q) /\ moved st st' F bs q l) \/
  (~ (F = [] /\ no_room q) /\ exists st' q', putc st c q = (0, st', q') /\ moved st st' F bs q' (l ++ [u8 c])).
Proof.
  intros Hr0. set (st6 := set_ipl 6 st). assert (Hr : rep st6 F q l bs) by now apply rep_set_ipl.
  destruct bs as [|b0 r0].
  { assert (l = [] /\ q = Clist 0 NULL NULL) as [-> ->] by (destruct Hr as (_&Hq&_); exact Hq).
    unfold putc. fold st6. cbn [c_cl c_cc]. rewrite Z.eqb_refl. simpl orb. cbv iota.
    destruct Hr as (Hfree&_&Hnd&Hok). rewrite app_nil_r in Hnd, Hok. destruct F as [|f F].
    - left. assert (Hf : cfreelist st6 = NULL) by exact Hfree. rewrite Hf, Z.eqb_refl. split; [done|]. split; [done|].
      eexists. split; [done|]. unfold st6. rewrite set_ipl_id.
      apply (moved_refl st [] [] _ []). exact Hr0.
    - right. split; [intros [? _]; done|]. destruct (open_first st6 f F) as (Hf&Hf0&Ho&Hfr); try done.
      rewrite Hf, (proj2 (Z.eqb_neq _ _) Hf0). do 2 eexists. split; [done|].
      apply (moved_set_ipl st _ (f :: F) [] _ _ 6).
      eapply (store_moved _ st6 (f :: F) [] _ _ _ _ 0 []); [exact Ho|unfold CBSIZE; lia| |..|done|done].
      + rewrite app_nil_r. symmetry. apply Permutation_cons_append.
      + intros b Hb Hn. apply Hfr; [done|set_solver]. }
  assert (Hne : b0 :: r0 <> []) by done. remember (b0 :: r0) as bs eqn:Ebs; clear Ebs.
  destruct (rep_open _ _ _ _ _ Hne Hr) as (e&He0&Hcc&Ho).
  destruct (open_align _ _ _ _ _ _ _ Ho) as (Hcl&Hcl0&_&Hal).
  unfold putc. fold st6. rewrite (proj2 (Z.eqb_neq (c_cl q) NULL) Hcl0), (proj2 (Z.ltb_ge (c_cc q) 0)) by lia.
  simpl orb. cbv iota. rewrite Hal, Hcc. unfold no_room. rewrite <- Z.eqb_eq, Hal.
  destruct (extend_spec _ _ _ _ _ _ _ Ho) as [[-> ->]|[(->&f&F'&->&Hn&Hf0&Ho'&Hp&Hfr)|He]].
  - left. rewrite Z.eqb_refl. destruct (open_full_none _ _ _ _ _ Ho) as (Hn&Ho'&Hfr).
    change (c_cl q - CBLOCK) with (c_cl q - CBLOCK) in Hn. rewrite Hn, Z.eqb_refl.
    split; [done|]. split; [done|]. eexists. split; [done|].
    apply (moved_set_ipl st _ [] bs _ _ 6). exists [], bs. split; [|done].
    destruct q as [cc cf cl]. simpl in *. subst cc. eapply open_rep_close; eauto.
    destruct l; [|done]. destruct Hr as (_&Hq&_). destruct bs; [done|]. destruct Hq as (?&?&_&_&?&_). simpl in *; lia.
  - right. rewrite Z.eqb_refl. split; [intros [? _]; done|]. cbv zeta in Hn.
    rewrite Hn, (proj2 (Z.eqb_neq _ _) Hf0). do 2 eexists. split; [done|].
    apply (moved_set_ipl st _ (f :: F') bs _ _ 6).
    unfold link_block in Ho', Hfr. cbv zeta in Ho', Hfr. rewrite Hn in Ho', Hfr.
    eapply store_moved; [exact Ho'|unfold CBSIZE; lia|exact Hp|exact Hfr|done|done].
  - right. rewrite (proj2 (Z.eqb_neq e CBSIZE)) by lia. split; [intros [_ ?]; done|].
    do 2 eexists. split; [done|]. apply (moved_set_ipl st _ F bs _ _ 6).
    eapply store_moved; [exact Ho|lia|done|apply frame_refl|done|done].
Qed.

Lemma free_empty st F : linked st (cfreelist st) F NULL -> Forall block_ok F -> cfreelist st = NULL <-> F = [].
Proof.
  destruct F as [|f F]; simpl; [done|]. intros [-> _] [[_ H] _]%Forall_cons. unfold NULL. split; [lia|done].
Qed.

(** The common end of [b_to_q], once the queue has a chain: run the loop,
    then update the count and the end pointer. *)
Definition b_to_q_tail (cs : list Z) (s : Z) (q : clist) (st : cstate) (cf cq : Z) : Z * cstate * clist :=
  let '(rest, st, cq') := b_to_q_loop cs st cq in
  (Z.of_nat (length rest), set_ipl s st,
   Clist (c_cc q + (Z.of_nat (length cs) - Z.of_nat (length rest))) cf cq').

Lemma b_to_q_tail_spec cs st1 st F bs F1 cf cl e l bs1 q :
  cs <> [] -> open_rep st1 F1 cf cl e l bs1 -> 0 <= e -> l <> [] \/ e = 0 ->
  c_cc q = Z.of_nat (length l) -> F1 ++ bs1 ≡ₚ F ++ bs -> frame st st1 (F ++ bs) -> cbad st1 = cbad st ->
  exists don rest st' q', cs = don ++ rest /\
    b_to_q_tail cs (ipl st) q st1 cf cl = (Z.of_nat (length rest), st', q') /\
    moved st st' F bs q' (l ++ (u8 <$> don)) /\ (rest = [] \/ cfreelist st' = NULL /\ no_room q').
Proof.
  intros Hcs0 Ho He Hl0 Hcc Hp Hf Hb. unfold b_to_q_tail.
  destruct (b_to_q_loop_spec cs _ _ _ _ _ _ _ Ho) as (don&rest&st'&cq'&e'&F'&bs'&Hcs&->&Ho'&He'&Hp'&Hf'&Hi'&Hb'&Hrest).
  exists don, rest. do 2 eexists. split; [done|]. split; [done|].
  assert (Hlen : c_cc q + (Z.of_nat (length cs) - Z.of_nat (length rest)) = Z.of_nat (length (l ++ (u8 <$> don)))).
  { rewrite Hcc, Hcs, !length_app, length_fmap. lia. }
  rewrite Hlen. assert (Hcap : rest = [] \/ e' = CBSIZE) by tauto.
  assert (0 < e').
  { destruct Hcap as [->| ->]; [|unfold CBSIZE; lia]. apply He'. rewrite app_nil_r in Hcs. right. congruence. }
  assert (Hne : l ++ (u8 <$> don) <> []).
  { intros [-> E]%app_nil. apply fmap_nil_inv in E as ->. destruct Hl0 as [|Hl0]; [done|].
    destruct Hcap as [->| ->]; [simpl in Hcs; congruence|]. destruct Ho' as (_&_&_&o&Hb0&Ho1&_&Hlen0&_).
    destruct bs'; [done|]. simpl in Hlen0. unfold CBSIZE in *. lia. }
  split.
  - exists F', bs'. rewrite rep_set_ipl. split; [eapply open_rep_close; eauto|].
    split; [by rewrite Hp'|]. split; [|split; [done|simpl in *; congruence]].
    eapply frame_trans; [|exact Hf|exact Hf']. intros b; by rewrite Hp.
  - destruct Hrest as [?|[-> ->]]; [auto|right]. split; [now destruct Ho' as [Hfree _]|].
    destruct (open_align _ _ _ _ _ _ _ Ho') as (_&_&_&Hal). apply Z.eqb_eq. exact Hal.
Qed.

Lemma b_to_q_spec st F q l bs cs :
  rep st F q l bs ->
  exists don rest st' q', cs = don ++ rest /\
    b_to_q st cs q = (Z.of_nat (length rest), st', q') /\ moved st st' F bs q' (l ++ (u8 <$> don)) /\
    (rest = [] \/ cfreelist st' = NULL /\ no_room q').
Proof.
  intros Hr0. destruct (decide (cs = [])) as [->|Hcs0].
  { exists [], [], st, q. rewrite fmap_nil, (app_nil_r l).
    split; [done|]. split; [done|]. split; [now apply moved_refl|auto]. }
  set (st6 := set_ipl 6 st). assert (Hr : rep st6 F q l bs) by now apply rep_set_ipl.
  assert (Hz : (Z.of_nat (length cs) <=? 0) = false) by (apply Z.leb_gt; destruct cs; [done|simpl; lia]).
  assert (Heq : forall bp, (c_cl q =? NULL) = bp -> 0 <= c_cc q -> b_to_q st cs q =
    if bp then if cfreelist st6 =? NULL then (Z.of_nat (length cs), st, Clist (c_cc q + 0) (c_cf q) (c_cl q))
      else let f := cfreelist st6 in
        b_to_q_tail cs (ipl st) q (set_next f NULL (set_cfreelist (next_of st6 f) st6)) (f + C_INFO) (f + C_INFO)
    else b_to_q_tail cs (ipl st) q st6 (c_cf q) (c_cl q)).
  { intros bp Hbp Hcc. unfold b_to_q. rewrite Hz, Hbp, (proj2 (Z.ltb_ge (c_cc q) 0)), orb_false_r by done.
    unfold b_to_q_tail. fold st6. destruct bp; [|done]. destruct (_ =? NULL); [|done].
    unfold st6. now rewrite set_ipl_id, Z.sub_diag. }
  destruct bs as [|b0 r0].
  - assert (l = [] /\ q = Clist 0 NULL NULL) as [-> ->] by (destruct Hr as (_&Hq&_); exact Hq).
    rewrite (Heq true) by done. pose proof Hr as (Hfree&_&Hnd&Hok). rewrite app_nil_r in Hnd, Hok.
    destruct F as [|f F].
    + exists [], cs, st. assert (Hf : cfreelist st6 = NULL) by exact Hfree. rewrite Hf, Z.eqb_refl.
      eexists. split; [done|]. split; [done|]. rewrite fmap_nil. split; [now apply moved_refl|]. right. now split.
    + destruct (open_first st6 f F) as (Hf&Hf0&Ho&Hfr); try done. rewrite Hf, (proj2 (Z.eqb_neq _ _) Hf0).
      apply (b_to_q_tail_spec cs _ st (f :: F) [] _ _ _ _ _ _ _ Hcs0 Ho); auto; try done.
      * rewrite app_nil_r. symmetry. apply Permutation_cons_append.
      * intros b Hb Hn. apply Hfr; [done|set_solver].
  - assert (Hne : b0 :: r0 <> []) by done. remember (b0 :: r0) as bs eqn:Ebs; clear Ebs.
    destruct (rep_open _ _ _ _ _ Hne Hr) as (e&He0&Hcc&Ho).
    destruct (open_align _ _ _ _ _ _ _ Ho) as (_&Hcl0&_&_).
    rewrite (Heq false) by (first [apply Z.eqb_neq; exact Hcl0|lia]).
    apply (b_to_q_tail_spec cs _ st F bs _ _ _ _ _ _ _ Hcs0 Ho); auto; try done; try lia.
    left. intros ->. apply Hne. now apply (rep_nil st6 F q).
Qed.

(** ** Contiguous access *)

(** The number of bytes of the queue in its first block. *)
Lemma ndqb_contig st F q l bs :
  rep st F q l bs -> l <> [] ->
  exists o, 0 <= o < CBSIZE /\ Z.land (c_cf q) CROUND = C_INFO + o /\
    ndqb st q 0 = Z.min (Z.of_nat (length l)) (CBSIZE - o).
Proof.
  intros (_&Hq&_&Hok) Hl. destruct bs as [|b r]; [now destruct Hq|].
  destruct Hq as (o&e&Ho&_&Hpos&_&->&_). exists o. split; [done|].
  apply Forall_app in Hok as [_ Hok]. apply Forall_cons in Hok as [[Hm Hb] _].
  unfold ndqb, CBSIZE, CBLOCK in *. cbn [c_cc c_cf]. rewrite <- Z.add_assoc.
  rewrite land_round by (unfold C_INFO; lia). split; [done|].
  rewrite (proj2 (Z.leb_gt _ _)), Z.eqb_refl by lia. simpl negb. cbv iota.
  replace (Z.land (b + (C_INFO + o) + 12) (Z.lnot CROUND)) with (b + 16).
  - destruct (Z.ltb_spec (Z.of_nat (length l)) (b + 16 - (b + (C_INFO + o)))); unfold C_INFO in *; lia.
  - replace (b + (C_INFO + o) + 12) with ((b + 16) + o) by (unfold C_INFO; lia).
    symmetry. apply land_block; [|lia]. Z.div_mod_to_equations; lia.
Qed.

Lemma ndflush_advance st q :
  0 < c_cc q -> 0 <= c_cf q -> (c_cc q = 1 -> Z.land (c_cf q + 1) CROUND = 0 -> next_of st (c_cf q + 1 - CBLOCK) = NULL) ->
  (Z.land (c_cf q + 1) CROUND = 0 -> c_cc q <> 1 -> next_of st (c_cf q + 1 - CBLOCK) <> NULL) ->
  (c_cc q = 1 -> Z.land (c_cf q) (Z.lnot CROUND) =
     if Z.land (c_cf q + 1) CROUND =? 0 then c_cf q + 1 - CBLOCK else Z.land (c_cf q + 1) (Z.lnot CROUND)) ->
  ndflush st q 1 = advance st q.
Proof.
  intros Hcc Hcf H1 H2 H3. unfold ndflush, advance.
  rewrite (proj2 (Z.ltb_ge _ _)), (proj2 (Z.eqb_neq (c_cc q) 0)) by lia. simpl orb. cbv iota.
  replace (c_cf q + 1 - 1) with (c_cf q) by lia.
  destruct (Z.leb_spec (c_cc q - 1) 0) as [Hz|Hz].
  - assert (E : c_cc q = 1) by lia. rewrite (H3 E). destruct (Z.eqb_spec (Z.land (c_cf q + 1) CROUND) 0) as [Ha|Ha].
    + now rewrite (H1 E Ha), Z.eqb_refl.
    + rewrite (proj2 (Z.eqb_eq _ _)) by lia. done.
  - destruct (Z.eqb_spec (Z.land (c_cf q + 1) CROUND) 0) as [Ha|Ha].
    + rewrite (proj2 (Z.eqb_neq _ NULL)) by (apply H2; [done|lia]). done.
    + now rewrite (proj2 (Z.eqb_neq _ _)) by lia.
Qed.

Lemma ndflush_one st F q c l bs : rep st F q (c :: l) bs -> ndflush st q 1 = advance st q.
Proof.
  intros (_&Hq&_&Hok). destruct bs as [|b r]; [now destruct Hq|].
  destruct Hq as (o&e&Ho&He&_&Hlen&->&Hlink&_). simpl length in Hlen.
  apply Forall_app in Hok as [_ Hok]. apply Forall_cons in Hok as [[Hm Hb] Hokr].
  assert (Hcase : (o = 11 /\ Z.land (b + C_INFO + o + 1) CROUND = 0 /\ b + C_INFO + o + 1 - CBLOCK = b) \/
    (o < 11 /\ Z.land (b + C_INFO + o + 1) CROUND <> 0 /\ Z.land (b + C_INFO + o + 1) (Z.lnot CROUND) = b)).
  { unfold CBSIZE, C_INFO, CBLOCK in *. destruct (Z.eq_dec o 11) as [->|]; [left|right].
    - replace (b + 4 + 11 + 1) with (b + 16) by lia. rewrite land_round_end by done. lia.
    - replace (b + 4 + o + 1) with (b + (4 + o + 1)) by lia. rewrite land_round, land_block by lia. lia. }
  destruct Hlink as [_ Hlink]. unfold CBSIZE in *. simpl length in *.
  apply ndflush_advance; cbn [c_cc c_cf]; [lia|unfold C_INFO; lia|..].
  - intros E Ha. destruct Hcase as [(->&_&->)|(_&?&_)]; [|done]. destruct r; [done|simpl in *; lia].
  - intros Ha E. destruct Hcase as [(->&_&->)|(_&?&_)]; [|done].
    destruct r as [|b2 r2]; [simpl in *; lia|]. destruct Hlink as [-> _].
    apply Forall_cons in Hokr as [[_ ?] _]. unfold NULL; lia.
  - intros E. rewrite <- (Z.add_assoc b C_INFO o), (land_block b (C_INFO + o)) by (done || unfold C_INFO; lia).
    rewrite (Z.add_assoc b C_INFO o).
    destruct Hcase as [(->&->&->)|(_&Ha&->)]; [done|]. now rewrite (proj2 (Z.eqb_neq _ _) Ha).
Qed.

Lemma ndflush_spec n st F q l bs :
  rep st F q l bs -> (0 < n)%nat -> Z.of_nat n <= ndqb st q 0 ->
  exists st' q', ndflush st q (Z.of_nat n) = (st', q') /\ moved st st' F bs q' (drop n l).
Proof.
  intros Hr Hn Hle.
  assert (Hl : l <> []).
  { intros ->. destruct (rep_nil _ _ _ _ Hr) as [_ ->]. unfold ndqb in Hle. simpl in Hle. lia. }
  destruct (ndqb_contig _ _ _ _ _ Hr Hl) as (o&Ho&Hal&Hnd). rewrite Hnd in Hle. clear Hnd.
  revert F q l bs o Hr Hl Ho Hal Hle. induction n as [|n IH]; [lia|]. intros F q l bs o Hr Hl Ho Hal Hle.
  destruct l as [|c l]; [done|]. pose proof (ndflush_one _ _ _ _ _ _ Hr) as H1.
  destruct (advance_spec _ _ _ _ _ _ Hr) as (_&Hcc&_&F'&bs'&Hr'&Hp&Hf&Hi&Hb).
  destruct n as [|n].
  { destruct (advance st q) as [st' q'] eqn:E. exists st', q'. split; [done|]. exists F', bs'. auto. }
  assert (Hcf : 0 <= c_cf q /\ c_cc q = Z.of_nat (S (length l)) /\ Z.land (c_cf q + 1) CROUND = C_INFO + (o + 1)).
  { destruct Hr as (_&Hq&_&Hok). destruct bs as [|b r]; [now destruct Hq|].
    destruct Hq as (o2&e&Ho2&_&_&_&->&_). apply Forall_app in Hok as [_ [[Hm Hb0] _]%Forall_cons].
    cbn [c_cf c_cc] in *. unfold CBSIZE, C_INFO, CBLOCK in *.
    rewrite <- Z.add_assoc, land_round in Hal by lia. replace (b + 4 + o2 + 1) with (b + (4 + o2 + 1)) by lia.
    rewrite land_round by lia. simpl. lia. }
  destruct Hcf as (Hcf&Hcceq&Hal').
  assert (E : advance st q = (st, Clist (c_cc q - 1) (c_cf q + 1) (c_cl q))).
  { unfold advance. rewrite (proj2 (Z.leb_gt _ _)), Hal', (proj2 (Z.eqb_neq _ _)); simpl in *; unfold C_INFO, CBSIZE in *; lia || done. }
  rewrite E in Hr'. cbn [fst snd] in Hr'.
  assert (Hstep : ndflush st q (Z.of_nat (S (S n))) = ndflush st (Clist (c_cc q - 1) (c_cf q + 1) (c_cl q)) (Z.of_nat (S n))).
  { unfold ndflush. cbn [c_cc c_cf c_cl]. simpl length in *. unfold CBSIZE in *.
    replace (c_cc q - 1 - Z.of_nat (S n)) with (c_cc q - Z.of_nat (S (S n))) by lia.
    replace (c_cf q + 1 + Z.of_nat (S n)) with (c_cf q + Z.of_nat (S (S n))) by lia.
    rewrite (proj2 (Z.ltb_ge (c_cc q) 0)), (proj2 (Z.ltb_ge (c_cc q - 1) 0)), (proj2 (Z.eqb_neq (c_cc q) 0)),
      (proj2 (Z.eqb_neq (c_cc q - 1) 0)), (proj2 (Z.ltb_ge 12 (Z.of_nat (S (S n))))),
      (proj2 (Z.ltb_ge 12 (Z.of_nat (S n)))), (proj2 (Z.leb_gt (Z.of_nat (S (S n))) 0)),
      (proj2 (Z.leb_gt (Z.of_nat (S n)) 0)) by lia.
    done. }
  rewrite Hstep. rewrite E in Hf, Hi, Hb. cbn [fst] in *.
  simpl length in *. unfold CBSIZE in *.
  destruct (IH ltac:(lia) F' (Clist (c_cc q - 1) (c_cf q + 1) (c_cl q)) l bs' (o + 1))
    as (st'&q'&Hnf&Hm); [done|destruct l; [simpl in *; lia|done]|lia|done|lia|].
  exists st', q'. split; [done|]. eapply moved_trans; eauto.
Qed.

(** ** All the queues of the system *)

(** Every block is on the free list or in exactly one of the queues [qs],
    each of which holds the bytes paired with it. *)
Definition world (st : cstate) (qs : list (clist * list Z)) : Prop :=
  exists F bss, linked st (cfreelist st) F NULL /\
    Forall2 (fun ql bs => q_rep st ql.1 ql.2 bs) qs bss /\
    NoDup (F ++ concat bss) /\ Forall block_ok (F ++ concat bss) /\
    length (F ++ concat bss) = NCLIST.

Lemma q_rep_frame st st' q l bs :
  (forall b, b ∈ bs -> next_of st' b = next_of st b /\ block_data st' b = block_data st b) ->
  q_rep st q l bs -> q_rep st' q l bs.
Proof.
  intros Hs. destruct bs as [|b r]; [done|].
  intros (o&e&Ho&He&Hpos&Hlen&->&Hlink&Hby&Hl). exists o, e. do 5 (split; [done|]).
  split; [apply linked_frame with st; [apply Hs|done]|]. split; [done|].
  rewrite (data_frame st st'); [done|apply Hs].
Qed.

Lemma queues_frame st st' qs bss :
  (forall b, b ∈ concat bss -> next_of st' b = next_of st b /\ block_data st' b = block_data st b) ->
  Forall2 (fun ql bs => q_rep st ql.1 ql.2 bs) qs bss -> Forall2 (fun ql bs => q_rep st' ql.1 ql.2 bs) qs bss.
Proof.
  intros Hs H. induction H as [|ql bs qs bss Hq _ IH]; [done|]. simpl in Hs. constructor.
  - eapply q_rep_frame; [|done]. intros; apply Hs, elem_of_app; auto.
  - apply IH. intros; apply Hs, elem_of_app; auto.
Qed.

Lemma world_focus st qs i q l :
  world st qs -> qs !! i = Some (q, l) ->
  exists F bs, rep st F q l bs /\
    forall st' q' l', moved st st' F bs q' l' -> world st' (<[i := (q', l')]> qs).
Proof.
  intros (F&bss&Hfree&Hqs&Hnd&Hok&Hlen) Hi.
  pose proof (take_drop_middle _ _ _ Hi) as Hsplit. pose proof (lookup_lt_Some _ _ _ Hi) as Hlt.
  assert (Hil : i = length (take i qs)) by (rewrite length_take; lia).
  revert Hil Hsplit. generalize (take i qs) (drop (S i) qs). intros q1 q2 -> <-.
  apply Forall2_app_inv_l in Hqs as (b1&b2'&Hq1&Hq2'&->).
  apply Forall2_cons_inv_l in Hq2' as (bs&b2&Hq&Hq2&->).
  rewrite concat_app in Hnd, Hok, Hlen. cbn [concat] in *.
  assert (Hp : F ++ concat b1 ++ bs ++ concat b2 ≡ₚ (F ++ bs) ++ concat b1 ++ concat b2) by solve_Permutation.
  rewrite Hp in Hnd, Hok, Hlen. exists F, bs.
  split; [split; [done|]; split; [done|]; apply NoDup_app in Hnd; apply Forall_app in Hok; tauto|].
  intros st' q' l' (F'&bs'&(Hfree'&Hq'&_)&Hp'&Hf'&_). rewrite insert_middle.
  assert (Hother : forall b, b ∈ concat b1 ++ concat b2 ->
    next_of st' b = next_of st b /\ block_data st' b = block_data st b).
  { intros b Hb. apply Hf'.
    - apply Forall_app in Hok as [_ Hok]. now apply (proj1 (Forall_forall _ _) Hok).
    - intros Hin. apply NoDup_app in Hnd as (_&Hd&_). now apply (Hd b Hin). }
  exists F', (b1 ++ bs' :: b2). split; [done|]. split.
  - apply Forall2_app; [|constructor; [done|]]; (eapply queues_frame; [|done]);
      intros; apply Hother, elem_of_app; auto.
  - rewrite concat_app. cbn [concat].
    assert (Hp2 : F' ++ concat b1 ++ bs' ++ concat b2 ≡ₚ (F ++ bs) ++ concat b1 ++ concat b2)
      by (rewrite <- Hp'; solve_Permutation).
    by rewrite Hp2.
Qed.

(** ** [cinit] *)

Definition block_seq (n : nat) (cp : Z) : list Z := (fun i => cp + CBLOCK * i) <$> seqZ 0 (Z.of_nat n).

Lemma block_seq_S n cp : block_seq (S n) cp = cp :: block_seq n (cp + CBLOCK).
Proof.
  unfold block_seq. rewrite Nat2Z.inj_succ, seqZ_cons by lia. rewrite Z.pred_succ.
  rewrite fmap_cons. f_equal; [lia|]. rewrite <- (fmap_add_seqZ 1 0), <- list_fmap_compose.
  apply list_fmap_ext. intros. simpl. unfold CBLOCK. lia.
Qed.

Lemma elem_block_seq b n cp : b ∈ block_seq n cp <-> exists i, b = cp + CBLOCK * i /\ 0 <= i < Z.of_nat n.
Proof. unfold block_seq. rewrite list_elem_of_fmap. by setoid_rewrite elem_of_seqZ. Qed.

Lemma block_seq_ok n cp : block_ok cp -> Forall block_ok (block_seq n cp).
Proof.
  intros [Hm Hp]. apply Forall_forall. intros b (i&->&Hi)%elem_block_seq.
  unfold block_ok, CBLOCK in *. split; [|lia]. rewrite Z.mul_comm, Z.mod_add by lia. done.
Qed.

Lemma block_seq_nodup n cp : NoDup (block_seq n cp).
Proof. apply NoDup_fmap_2; [|apply NoDup_seqZ]. intros x y. unfold CBLOCK. lia. Qed.

Lemma cinit_loop_spec n cp st F :
  linked st (cfreelist st) F NULL -> (forall b, b ∈ block_seq n cp -> b ∉ F) ->
  linked (cinit_loop n cp st) (cfreelist (cinit_loop n cp st)) (rev (block_seq n cp) ++ F) NULL.
Proof.
  revert cp st F. induction n as [|n IH]; intros cp st F Hl Hd; [done|].
  rewrite block_seq_S in *. simpl. rewrite <- app_assoc. simpl. apply IH.
  - split; [done|]. rewrite next_of_give, decide_True by done. apply linked_frame with st; [|done].
    intros b Hb. rewrite next_of_give, decide_False; [done|]. intros ->. apply (Hd b); set_solver.
  - intros b Hb [->|Hb']%elem_of_cons; [|apply (Hd b); set_solver].
    apply elem_block_seq in Hb as (i&?&?). unfold CBLOCK in *. lia.
Qed.

(** ** Room after an append *)

Lemma rep_room st F q l bs :
  rep st F q l bs -> l <> [] ->
  exists o, 0 <= o < CBSIZE /\ Z.land (c_cf q) CROUND = C_INFO + o /\
    Z.of_nat (length l) <= CBSIZE * Z.of_nat (length bs) - o /\
    (no_room q -> Z.of_nat (length l) = CBSIZE * Z.of_nat (length bs) - o).
Proof.
  intros Hr Hl. pose proof (rep_cons_blocks _ _ _ _ _ Hr Hl) as Hb.
  destruct (rep_open _ _ _ _ _ Hb Hr) as (e&He&Hcc&Ho).
  destruct (open_align _ _ _ _ _ _ _ Ho) as (_&_&_&Hal).
  destruct Ho as (_&_&Hok&o&_&Ho&He'&Hlen&Hcf&_). exists o. split; [done|].
  destruct bs as [|b r]; [done|]. apply Forall_app in Hok as [_ [[Hm _] _]%Forall_cons].
  unfold CBSIZE, CBLOCK, C_INFO in *. simpl hd in Hcf. rewrite Hcf, <- Z.add_assoc, land_round by lia.
  split; [done|]. split; [lia|]. unfold no_room. rewrite <- Z.eqb_eq, Hal, Z.eqb_eq. lia.
Qed.

Lemma putc_cf st c q st' q' :
  putc st c q = (0, st', q') ->
  c_cf q' = if (c_cl q =? NULL) || (c_cc q <? 0) then cfreelist st + C_INFO else c_cf q.
Proof.
  unfold putc. destruct (_ || _).
  - change (cfreelist (set_ipl 6 st)) with (cfreelist st). destruct (_ =? NULL); intros [= <- <-]. done.
  - destruct (Z.land _ _ =? 0); [destruct (_ =? NULL)|]; intros [= <- <-]; done.
Qed.

Lemma putc_room st F q l bs c st' q' F' bs' :
  rep st F q l bs -> F <> [] -> putc st c q = (0, st', q') -> rep st' F' q' (l ++ [u8 c]) bs' ->
  F' ++ bs' ≡ₚ F ++ bs -> ~ (F' = [] /\ no_room q').
Proof.
  intros Hr HF Hp Hr' Hperm [-> Hfull]. apply putc_cf in Hp.
  destruct (rep_room _ _ _ _ _ Hr' (snoc_ne _ _)) as (o'&Ho'&Hal'&_&Heq). specialize (Heq Hfull).
  apply Permutation_length in Hperm. simpl in Hperm. rewrite length_app in Hperm, Heq. simpl in Heq.
  assert (0 < length F)%nat by (destruct F; simpl; [done|lia]). unfold CBSIZE in *.
  destruct (decide (l = [])) as [->|Hl].
  - destruct (rep_nil _ _ _ _ Hr) as [-> ->]. simpl in Hp, Heq.
    destruct Hr as (Hfree&_&_&Hok). destruct F as [|f F]; [done|]. destruct Hfree as [Hf _].
    apply Forall_app in Hok as [[[Hm _] _]%Forall_cons _].
    rewrite Hp, Hf, land_round in Hal' by (done || unfold C_INFO; lia). lia.
  - destruct (rep_room _ _ _ _ _ Hr Hl) as (o&Ho&Hal&Hle&_). unfold CBSIZE in *.
    assert (c_cf q' = c_cf q) as Hcf.
    { rewrite Hp. pose proof (rep_cons_blocks _ _ _ _ _ Hr Hl) as Hb.
      destruct (rep_open _ _ _ _ _ Hb Hr) as (e&He&Hcc&Hop).
      destruct (open_align _ _ _ _ _ _ _ Hop) as (_&Hcl0&_&_).
      now rewrite (proj2 (Z.eqb_neq (c_cl q) NULL) Hcl0), (proj2 (Z.ltb_ge (c_cc q) 0)) by lia. }
    rewrite Hcf, Hal in Hal'. lia.
Qed.

Lemma putw_spec st F q l bs c :
  rep st F q l bs -> F <> [] ->
  exists st' q', putw st c q = (0, st', q') /\ moved st st' F bs q' (l ++ [u8 c; u8 (Z.shiftr c 8)]).
Proof.
  intros Hr HF. unfold putw. set (st6 := set_ipl 6 st).
  assert (Hr6 : rep st6 F q l bs) by now apply rep_set_ipl.
  rewrite (proj2 (Z.eqb_neq (cfreelist st6) NULL)).
  2:{ destruct Hr6 as (Hfree&_&_&Hok). apply Forall_app in Hok as [Hok _].
      rewrite (free_empty _ _ Hfree Hok). done. }
  destruct (putc_spec _ _ _ _ _ c Hr6) as [[? _]|(_&st1&q1&Hp1&Hm1)]; [done|]. rewrite Hp1.
  pose proof Hm1 as (F1&bs1&Hr1&Hperm&Hf1&Hi1&Hb1).
  destruct (putc_spec _ _ _ _ _ (Z.shiftr c 8) Hr1) as [(HF1&Hroom&_)|(_&st2&q2&Hp2&Hm2)].
  { exfalso. exact (putc_room _ _ _ _ _ _ _ _ _ _ Hr6 HF Hp1 Hr1 Hperm (conj HF1 Hroom)). }
  rewrite Hp2. do 2 eexists. split; [done|]. apply (moved_set_ipl st _ F bs _ _ 6). fold st6.
  rewrite <- app_assoc in Hm2. eapply moved_trans; eauto.
Qed.

Lemma getw_spec st F q a b l bs :
  rep st F q (a :: b :: l) bs ->
  exists st' q', getw st q = (Z.lor a (Z.shiftl b 8), st', q') /\ moved st st' F bs q' l.
Proof.
  intros Hr. unfold getw.
  assert (Hcc : c_cc q = Z.of_nat (length (a :: b :: l))).
  { destruct Hr as (_&Hq&_). destruct bs; [now destruct Hq|]. now destruct Hq as (?&?&_&_&_&_&->&_). }
  rewrite (proj2 (Z.leb_gt _ _)) by (rewrite Hcc; simpl; lia).
  destruct (getc_cons _ _ _ _ _ _ Hr) as (st1&q1&->&(F1&bs1&Hr1&Hp1&Hf1&Hi1&Hb1)).
  destruct (getc_cons _ _ _ _ _ _ Hr1) as (st2&q2&->&Hm2).
  do 2 eexists. split; [done|]. eapply moved_trans; eauto.
Qed.

Lemma cinit_spec st cfree_space cdevsw n :
  0 < cfree_space -> cfreelist st = NULL ->
  let '(st', cfree, _) := cinit cfree_space cdevsw st in
  world st' (replicate n (Clist 0 NULL NULL, [])) /\
  cfree_space <= cfree /\
  cfree + CBLOCK * Z.of_nat NCLIST <= cfree_space + (Z.of_nat NCLIST * CBLOCK + CROUND).
Proof.
  intros Hpos Hfree. unfold cinit. set (cfree := Z.land _ _).
  assert (Hc : block_ok cfree /\ cfree_space <= cfree <= cfree_space + CROUND).
  { subst cfree. change CROUND with (Z.ones 4). rewrite land_lnot_ones by lia. change (2 ^ 4) with 16.
    unfold block_ok, CBLOCK. change (Z.ones 4) with 15. Z.div_mod_to_equations; lia. }
  destruct Hc as [Hok Hr]. split; [|unfold CROUND, CBLOCK, NCLIST in *; lia].
  exists (rev (block_seq NCLIST cfree)), (replicate n []).
  assert (Hcat : concat (replicate n ([] : list Z)) = []) by (induction n; auto).
  rewrite Hcat, app_nil_r. rewrite <- (app_nil_r (rev _)) at 1.
  assert (Hp : rev (block_seq NCLIST cfree) ≡ₚ block_seq NCLIST cfree) by (symmetry; apply Permutation_rev).
  split; [apply cinit_loop_spec; [exact Hfree|set_solver]|].
  split; [apply Forall2_replicate; done|]. rewrite Hp.
  split; [apply block_seq_nodup|]. split; [now apply block_seq_ok|].
  unfold block_seq. now rewrite length_fmap, length_seqZ.
Qed.

(** A concrete system with two queues, the first holding one byte. *)
Definition ex_st : cstate := (cinit 1000 [7; 7; 0] (CState ∅ ∅ NULL 0 0)).1.1.
Definition ex_put : Z * cstate * clist := putc ex_st 65 (Clist 0 NULL NULL).

Lemma ex_world : world ex_st (replicate 2 (Clist 0 NULL NULL, [])).
Proof.
  pose proof (cinit_spec (CState ∅ ∅ NULL 0 0) 1000 [7; 7; 0] 2) as H.
  unfold ex_st. destruct (cinit _ _ _) as [[st' cfree] n]. apply H; done.
Qed.

Lemma ex_put_world : world ex_put.1.2 [(ex_put.2, [65]); (Clist 0 NULL NULL, [])].
Proof.
  destruct (world_focus _ _ 0 _ _ ex_world eq_refl) as (F&bs&Hr&Hput). unfold ex_put.
  destruct (putc_spec _ _ _ _ _ 65 Hr) as [(_&_&st'&He&_)|(_&st'&q'&He&Hm)].
  - vm_compute in He. discriminate He.
  - rewrite He. exact (Hput _ _ _ Hm).
Qed.

Lemma q_rep_set_ipl v st q l bs : q_rep (set_ipl v st) q l bs <-> q_rep st q l bs.
Proof. destruct bs; [done|]. unfold q_rep. by setoid_rewrite linked_set_ipl. Qed.

Lemma world_set_ipl v st qs : world (set_ipl v st) qs <-> world st qs.
Proof.
  unfold world. change (cfreelist (set_ipl v st)) with (cfreelist st).
  split; intros (F & bss & Hl & Hq & Hr); exists F, bss; (split; [by apply linked_set_ipl in Hl || by apply linked_set_ipl|]); (split; [|done]);
    (eapply Forall2_impl; [exact Hq|]); intros ? ?; apply q_rep_set_ipl.
Qed.

(** * Properties *)

Lemma getc_world st qs i q l :
  world st qs -> qs !! i = Some (q, l) ->
  match l with
  | [] => getc st q = (-1, st, q)
  | c :: l' => exists st' q', getc st q = (c, st', q') /\
      world st' (<[i := (q', l')]> qs) /\ ipl st' = ipl st
  end.
Proof.
  intros Hw Hi. destruct (world_focus _ _ _ _ _ Hw Hi) as (F&bs&Hr&Hput). destruct l as [|c l'].
  - destruct (rep_nil _ _ _ _ Hr) as [_ ->]. unfold getc. simpl. now rewrite set_ipl_id.
  - destruct (getc_cons _ _ _ _ _ _ Hr) as (st'&q'&He&Hm). exists st', q'.
    split; [done|]. split; [now apply Hput|]. now destruct Hm as (?&?&_&_&_&?&_).
Qed.

(** C25. [getc] removes the first byte of its queue and returns it, or returns
    -1 when the queue is empty; the other queues, the total of blocks and the
    processor priority are unchanged. *)
Theorem getc_fifo st qs i q l :
  world st qs -> qs !! i = Some (q, l) ->
  match l with
  | [] => getc st q = (-1, st, q)
  | c :: l' => exists st' q', getc st q = (c, st', q') /\
      world st' (<[i := (q', l')]> qs) /\ ipl st' = ipl st
  end.
Proof. apply getc_world. Qed.

Lemma getc_fifo_witness :
  exists st' q', getc ex_put.1.2 ex_put.2 = (65, st', q') /\ ipl st' = 0.
Proof.
  destruct (getc_fifo _ _ 0 _ _ ex_put_world eq_refl) as (st'&q'&H&_&Hi).
  exists st', q'. exact (conj H Hi).
Defined.

(** C24. [putc] appends its character (modulo 256), unless there is no free
    block and no room in the last block of the queue, when it returns -1 and
    every queue keeps its contents. *)
Theorem putc_fifo st qs i q l c :
  world st qs -> qs !! i = Some (q, l) ->
  exists r st' q', putc st c q = (r, st', q') /\ ipl st' = ipl st /\
    (r = -1 /\ cfreelist st = NULL /\ no_room q /\ world st' (<[i := (q', l)]> qs) \/
     r = 0 /\ ~ (cfreelist st = NULL /\ no_room q) /\ world st' (<[i := (q', l ++ [u8 c])]> qs)).
Proof.
  intros Hw Hi. destruct (world_focus _ _ _ _ _ Hw Hi) as (F&bs&Hr&Hput).
  assert (HF : cfreelist st = NULL <-> F = []).
  { destruct Hr as (Hfree&_&_&Hok). apply Forall_app in Hok as [Hok _]. now apply free_empty. }
  setoid_rewrite HF. destruct (putc_spec _ _ _ _ _ c Hr) as [(->&Hn&st'&He&Hm)|(Hn&st'&q'&He&Hm)].
  - exists (-1), st', q. split; [done|]. split; [now destruct Hm as (?&?&_&_&_&?&_)|]. auto 6.
  - exists 0, st', q'. split; [done|]. split; [now destruct Hm as (?&?&_&_&_&?&_)|]. auto 6.
Qed.

Lemma putc_fifo_witness :
  exists st' q', putc ex_put.1.2 322 (Clist 0 NULL NULL) = (0, st', q') /\
    world st' [(ex_put.2, [65]); (q', [66])].
Proof.
  destruct (putc_fifo _ _ 1 _ _ 322 ex_put_world eq_refl) as (r&st'&q'&He&_&[(->&_)|(->&_&Hw)]).
  - vm_compute in He. discriminate He.
  - exists st', q'. exact (conj He Hw).
Defined.

(** [q_to_b] moves the first [cc] bytes (or all of them) out of a
    non-empty queue, in order. *)
Lemma q_to_b_prefix st qs i q l cc :
  world st qs -> qs !! i = Some (q, l) -> l <> [] -> 0 < cc ->
  exists st' q', q_to_b st q cc = (take (Z.to_nat cc) l, st', q') /\
    world st' (<[i := (q', drop (Z.to_nat cc) l)]> qs) /\ ipl st' = ipl st.
Proof.
  intros Hw Hi Hl Hcc. destruct (world_focus _ _ _ _ _ Hw Hi) as (F&bs&Hr&Hput).
  apply (rep_set_ipl 6) in Hr as Hr6. unfold q_to_b. rewrite (proj2 (Z.leb_gt _ _)) by lia.
  pose proof (rep_cons_blocks _ _ _ _ _ Hr Hl) as Hb. destruct (rep_open _ _ _ _ _ Hb Hr) as (e&_&Hn&_).
  rewrite (proj2 (Z.leb_gt (c_cc q) 0)) by (destruct l; simpl in *; [done|lia]).
  destruct (q_to_b_loop_spec (Z.to_nat cc) _ _ _ _ _ Hr6 Hl) as (st'&q'&->&Hm).
  apply (moved_set_ipl st _ F bs _ _ 6) in Hm. do 2 eexists. split; [done|]. split; [now apply Hput|done].
Qed.

Lemma q_to_b_prefix_witness :
  exists st' q', q_to_b ex_put.1.2 ex_put.2 5 = ([65], st', q') /\ ipl st' = 0.
Proof.
  destruct (q_to_b_prefix _ _ 0 _ _ 5 ex_put_world eq_refl) as (st'&q'&H&_&Hi); [discriminate|reflexivity|].
  exists st', q'. exact (conj H Hi).
Defined.

(** On an empty queue [q_to_b] returns without restoring the processor
    priority: it leaves the caller at priority 6. *)
Lemma q_to_b_empty_keeps_spl6 st qs i q cc :
  world st qs -> qs !! i = Some (q, []) -> 0 < cc ->
  q_to_b st q cc = ([], set_ipl 6 st, q).
Proof.
  intros Hw Hi Hcc. destruct (world_focus _ _ _ _ _ Hw Hi) as (F&bs&Hr&_).
  destruct (rep_nil _ _ _ _ Hr) as [_ ->]. unfold q_to_b. now rewrite (proj2 (Z.leb_gt _ _)) by lia.
Qed.

Lemma q_to_b_empty_keeps_spl6_witness :
  ipl ex_st = 0 /\ ipl (q_to_b ex_st (Clist 0 NULL NULL) 5).1.2 = 6.
Proof.
  split; [reflexivity|].
  rewrite (q_to_b_empty_keeps_spl6 _ _ 0 _ 5 ex_world eq_refl); reflexivity.
Defined.

(** [b_to_q] appends a prefix of its buffer and returns how many bytes are
    left; bytes are left only when the free list is exhausted and the last
    block of the queue is full. *)
Lemma b_to_q_append st qs i q l cs :
  world st qs -> qs !! i = Some (q, l) ->
  exists don rest st' q', cs = don ++ rest /\
    b_to_q st cs q = (Z.of_nat (length rest), st', q') /\ ipl st' = ipl st /\
    world st' (<[i := (q', l ++ (u8 <$> don))]> qs) /\
    (rest = [] \/ cfreelist st' = NULL /\ no_room q').
Proof.
  intros Hw Hi. destruct (world_focus _ _ _ _ _ Hw Hi) as (F&bs&Hr&Hput).
  destruct (b_to_q_spec _ _ _ _ _ cs Hr) as (don&rest&st'&q'&Hcs&He&Hm&Hrest).
  exists don, rest, st', q'. split; [done|]. split; [done|]. split; [now destruct Hm as (?&?&_&_&_&?&_)|].
  split; [now apply Hput|done].
Qed.

Lemma b_to_q_append_witness :
  exists st' q', b_to_q ex_put.1.2 [66; 67] ex_put.2 = (0, st', q') /\
    world st' [(q', [65; 66; 67]); (Clist 0 NULL NULL, [])].
Proof.
  destruct (b_to_q_append _ _ 0 _ _ [66; 67] ex_put_world eq_refl) as (don&rest&st'&q'&Hcs&He&_&Hw&Hr).
  assert (rest = []) as ->.
  { destruct Hr as [?|[Hf _]]; [assumption|]. exfalso.
    pose proof (f_equal (fun x => cfreelist x.1.2) He) as Hf2. cbn [fst snd] in Hf2. rewrite Hf in Hf2.
    vm_compute in Hf2. discriminate Hf2. }
  rewrite app_nil_r in Hcs. subst don. exists st', q'. exact (conj He Hw).
Defined.

(** [ndqb] counts the bytes that lie in one block at the front of the
    queue, and [ndflush] of any positive number of them removes precisely
    that prefix. *)
Lemma ndflush_prefix st qs i q l n :
  world st qs -> qs !! i = Some (q, l) -> 0 < n <= ndqb st q 0 ->
  n <= Z.of_nat (length l) /\
  exists st' q', ndflush st q n = (st', q') /\ world st' (<[i := (q', drop (Z.to_nat n) l)]> qs).
Proof.
  intros Hw Hi Hn. destruct (world_focus _ _ _ _ _ Hw Hi) as (F&bs&Hr&Hput). split.
  - destruct (decide (l = [])) as [->|Hl].
    + destruct (rep_nil _ _ _ _ Hr) as [_ ->]. unfold ndqb in Hn. simpl in Hn. lia.
    + destruct (ndqb_contig _ _ _ _ _ Hr Hl) as (o&_&_&Heq). lia.
  - destruct (ndflush_spec (Z.to_nat n) _ _ _ _ _ Hr) as (st'&q'&He&Hm); [lia|lia|].
    rewrite Z2Nat.id in He by lia. eauto.
Qed.

Lemma ndflush_prefix_witness :
  exists st' q', ndflush ex_put.1.2 ex_put.2 1 = (st', q') /\
    world st' [(q', []); (Clist 0 NULL NULL, [])].
Proof.
  destruct (ndflush_prefix _ _ 0 _ _ 1 ex_put_world eq_refl) as (_&st'&q'&H&Hw).
  - assert (ndqb ex_put.1.2 ex_put.2 0 = 1) as -> by (vm_compute; reflexivity). lia.
  - exists st', q'. exact (conj H Hw).
Defined.

(** When a free block remains, [putw] never fails half way: it appends
    exactly the low and the high byte, and [getw] gives the 16-bit value
    back. *)
Lemma putw_getw st qs i q c :
  world st qs -> qs !! i = Some (q, []) -> cfreelist st <> NULL ->
  exists st1 q1 st2 q2, putw st c q = (0, st1, q1) /\
    world st1 (<[i := (q1, [u8 c; u8 (Z.shiftr c 8)])]> qs) /\
    getw st1 q1 = (u16 c, st2, q2) /\ world st2 (<[i := (q2, [])]> qs).
Proof.
  intros Hw Hi Hfree. destruct (world_focus _ _ _ _ _ Hw Hi) as (F&bs&Hr&Hput).
  destruct (putw_spec _ _ _ _ _ c Hr) as (st1&q1&Hp&Hm).
  { intros ->. now destruct Hr as [Hf _]. }
  pose proof Hm as (F1&bs1&Hr1&Hp1&Hf1&Hi1&Hb1). destruct (getw_spec _ _ _ _ _ _ _ Hr1) as (st2&q2&Hg&Hm2).
  exists st1, q1, st2, q2. split; [done|]. split; [now apply Hput|]. split.
  - rewrite Hg. do 2 f_equal. apply Z.bits_inj'. intros k Hk. unfold uwrap.
    rewrite Z.lor_spec, Z.shiftl_spec by lia.
    destruct (Z.lt_ge_cases k 8); [|destruct (Z.lt_ge_cases k 16)].
    + rewrite !Z.mod_pow2_bits_low, (Z.testbit_neg_r _ (k - 8)) by lia. apply orb_false_r.
    + rewrite Z.mod_pow2_bits_high, !Z.mod_pow2_bits_low, Z.shiftr_spec by lia. simpl. f_equal. lia.
    + now rewrite !Z.mod_pow2_bits_high by lia.
  - apply Hput. eapply moved_trans; eauto.
Qed.

Lemma putw_getw_witness :
  exists st1 q1 st2 q2, putw ex_st (-2) (Clist 0 NULL NULL) = (0, st1, q1) /\
    getw st1 q1 = (65534, st2, q2).
Proof.
  destruct (putw_getw _ _ 0 _ (-2) ex_world eq_refl) as (st1&q1&st2&q2&Hp&_&Hg&_).
  - vm_compute. discriminate.
  - exists st1, q1, st2, q2. exact (conj Hp Hg).
Defined.

(** [cinit] aligns the array and puts all [NCLIST] blocks, which lie
    inside it, on the free list: from then on every queue may be used. *)
Lemma cinit_world st cfree_space cdevsw n :
  0 < cfree_space -> cfreelist st = NULL ->
  let '(st', cfree, _) := cinit cfree_space cdevsw st in
  world st' (replicate n (Clist 0 NULL NULL, [])) /\
  cfree_space <= cfree /\
  cfree + CBLOCK * Z.of_nat NCLIST <= cfree_space + (Z.of_nat NCLIST * CBLOCK + CROUND).
Proof. apply cinit_spec. Qed.

Lemma cinit_world_witness :
  0 < 1000 /\ world ex_st [(Clist 0 NULL NULL, [])].
Proof.
  split; [reflexivity|].
  exact (proj1 (cinit_world (CState ∅ ∅ NULL 0 0) 1000 [7; 7; 0] 1 eq_refl eq_refl)).
Defined.
