(* ===== verification/Kernel.v ===== *)
(** The kernel's data: the structures of [h/*.h] and the tables and globals of
    [conf/c.c], [sys/globals.c] and [sys/slp.c], with the monad the routines
    that may sleep run in.

    A pointer to an entry of a static table is the entry's number ([nat]), a
    null pointer is [None]; tables are total functions from entry numbers.
    The globals are grouped by subsystem so that a theorem can say which group
    a routine leaves alone. *)

From S2P Require Import Prelude Malloc Clist.

(** * Constants of [h/param.h] *)

Definition NBUF : nat := 29.
Definition NINODE : nat := 200.
Definition NFILE : nat := 175.
Definition NMOUNT : nat := 8.
Definition NCALL : nat := 20.
Definition NPROC : nat := 63.
Definition NTEXT : nat := 40.
Definition NOFILE : Z := 20.
Definition CANBSIZ : Z := 256.
Definition HZ : Z := 60.
Definition MAXUPRC : Z := 25.
Definition SINCR : Z := 20.
Definition SSIZE : Z := 20.

Definition PSWP : Z := 0.
Definition PINOD : Z := 10.
Definition PRIBIO : Z := 20.
Definition PZERO : Z := 25.
Definition NZERO : Z := 20.
Definition PPIPE : Z := 26.
Definition PWAIT : Z := 30.
Definition PSLEP : Z := 40.
Definition PUSER : Z := 50.

Definition NSIG : Z := 17.
Definition SIGHUP : Z := 1.
Definition SIGINT : Z := 2.
Definition SIGQUIT : Z := 3.
Definition SIGINS : Z := 4.
Definition SIGTRC : Z := 5.
Definition SIGIOT : Z := 6.
Definition SIGEMT : Z := 7.
Definition SIGFPT : Z := 8.
Definition SIGKIL : Z := 9.
Definition SIGBUS : Z := 10.
Definition SIGSEG : Z := 11.
Definition SIGSYS : Z := 12.
Definition SIGPIPE : Z := 13.
Definition SIGCLK : Z := 14.
Definition SIGTRM : Z := 15.

Definition BSIZE : Z := 512.
Definition NINDIR : Z := 128.
Definition BMASK : Z := 511.
Definition BSHIFT : Z := 9.
Definition NMASK : Z := 127.
Definition NSHIFT : Z := 7.
Definition USIZE : Z := 16.
Definition NODEV : Z := 65535.
Definition ROOTINO : Z := 2.
Definition SUPERB : Z := 1.
Definition DIRSIZ : nat := 14.
Definition NICINOD : Z := 100.
Definition NICFREE : Z := 50.

(** [unsigned] has 16 bits. *)
Definition itod (x : Z) : Z := i32 (Z.shiftr (u16 (u16 x + 15)) 3).
Definition itoo (x : Z) : Z := Z.land (i32 (x + 15)) 7.
Definition ctob (x : Z) : Z := Z.shiftl x 6.
Definition btoc (x : Z) : Z := Z.shiftr (u16 (u16 x + 63)) 6.
Definition ctod (x : Z) : Z := Z.shiftr (x + 7) 3.

(** [h/types.h] *)
Definition major (x : Z) : Z := i32 (Z.shiftr (u32 x) 8).
Definition minor (x : Z) : Z := Z.land (u32 x) 255.

(** * Error numbers of [h/user.h] *)
Definition EPERM : Z := 1.
Definition ENOENT : Z := 2.
Definition ESRCH : Z := 3.
Definition EINTR : Z := 4.
Definition EIO : Z := 5.
Definition ENXIO : Z := 6.
Definition E2BIG : Z := 7.
Definition ENOEXEC : Z := 8.
Definition EBADF : Z := 9.
Definition ECHILD : Z := 10.
Definition EAGAIN : Z := 11.
Definition ENOMEM : Z := 12.
Definition EACCES : Z := 13.
Definition EFAULT : Z := 14.
Definition ENOTBLK : Z := 15.
Definition EBUSY : Z := 16.
Definition EEXIST : Z := 17.
Definition EXDEV : Z := 18.
Definition ENODEV : Z := 19.
Definition ENOTDIR : Z := 20.
Definition EISDIR : Z := 21.
Definition EINVAL : Z := 22.
Definition ENFILE : Z := 23.
Definition EMFILE : Z := 24.
Definition ENOTTY : Z := 25.
Definition ETXTBSY : Z := 26.
Definition EFBIG : Z := 27.
Definition ENOSPC : Z := 28.
Definition ESPIPE : Z := 29.
Definition EROFS : Z := 30.
Definition EMLINK : Z := 31.
Definition EPIPE : Z := 32.
Definition EDOM : Z := 33.
Definition ERANGE : Z := 34.

(** * Buffers, [h/buf.h] *)

(** The address of a [struct buf]: a pool buffer, the head of the available
    list, or the head of the queue of a block device (by major number). *)
Inductive bptr := BPool (i : nat) | BFree | BTab (maj : Z) | BNull.
#[export] Instance bptr_eq : EqDecision bptr.
Proof. solve_decision. Defined.

Record buf := Buf {
  b_flags : Z;
  b_forw : bptr;
  b_back : bptr;
  av_forw : bptr;
  av_back : bptr;
  b_dev : Z;
  b_bcount : Z;
  b_blkno : Z;
  b_error : Z;
  b_resid : Z
}.
#[export] Instance eta_buf : Eta buf := fun r =>
  Buf (b_flags r) (b_forw r) (b_back r) (av_forw r) (av_back r) (b_dev r)
  (b_bcount r) (b_blkno r) (b_error r) (b_resid r).
#[export] Instance set_b_flags : Setter b_flags := ltac:(derive_setter).
#[export] Instance set_b_forw : Setter b_forw := ltac:(derive_setter).
#[export] Instance set_b_back : Setter b_back := ltac:(derive_setter).
#[export] Instance set_av_forw : Setter av_forw := ltac:(derive_setter).
#[export] Instance set_av_back : Setter av_back := ltac:(derive_setter).
#[export] Instance set_b_dev : Setter b_dev := ltac:(derive_setter).
#[export] Instance set_b_bcount : Setter b_bcount := ltac:(derive_setter).
#[export] Instance set_b_blkno : Setter b_blkno := ltac:(derive_setter).
#[export] Instance set_b_error : Setter b_error := ltac:(derive_setter).
#[export] Instance set_b_resid : Setter b_resid := ltac:(derive_setter).

Definition B_WRITE : Z := 0.
Definition B_READ : Z := 1.
Definition B_DONE : Z := 2.
Definition B_ERROR : Z := 4.
Definition B_BUSY : Z := 8.
Definition B_PHYS : Z := 16.
Definition B_MAP : Z := 32.
Definition B_WANTED : Z := 64.
Definition B_AGE : Z := 128.
Definition B_ASYNC : Z := 256.
Definition B_DELWRI : Z := 512.
Definition B_TAPE : Z := 1024.

(** * Inodes, [h/inode_str.h] *)

Definition NADDR : nat := 13.

Record inode := Inode {
  i_flag : Z;
  i_count : Z;
  i_dev : Z;
  i_number : Z;
  i_mode : Z;
  i_nlink : Z;
  i_uid : Z;
  i_gid : Z;
  i_size : Z;
  i_addr : Z -> Z;  (* i_addr[0] is also i_rdev *)
  i_lastr : Z
}.
#[export] Instance eta_inode : Eta inode := fun r =>
  Inode (i_flag r) (i_count r) (i_dev r) (i_number r) (i_mode r) (i_nlink r)
  (i_uid r) (i_gid r) (i_size r) (i_addr r) (i_lastr r).
#[export] Instance set_i_flag : Setter i_flag := ltac:(derive_setter).
#[export] Instance set_i_count : Setter i_count := ltac:(derive_setter).
#[export] Instance set_i_dev : Setter i_dev := ltac:(derive_setter).
#[export] Instance set_i_number : Setter i_number := ltac:(derive_setter).
#[export] Instance set_i_mode : Setter i_mode := ltac:(derive_setter).
#[export] Instance set_i_nlink : Setter i_nlink := ltac:(derive_setter).
#[export] Instance set_i_uid : Setter i_uid := ltac:(derive_setter).
#[export] Instance set_i_gid : Setter i_gid := ltac:(derive_setter).
#[export] Instance set_i_size : Setter i_size := ltac:(derive_setter).
#[export] Instance set_i_addr : Setter i_addr := ltac:(derive_setter).
#[export] Instance set_i_lastr : Setter i_lastr := ltac:(derive_setter).

Definition ILOCK : Z := 1.
Definition IUPD : Z := 2.
Definition IACC : Z := 4.
Definition IMOUNT : Z := 8.
Definition IWANT : Z := 16.
Definition ITEXT : Z := 32.
Definition ICHG : Z := 64.
Definition IFMT : Z := 61440.
Definition IFDIR : Z := 16384.
Definition IFCHR : Z := 8192.
Definition IFBLK : Z := 24576.
Definition IFREG : Z := 32768.
Definition IFMPC : Z := 12288.
Definition IFMPB : Z := 28672.
Definition ISUID : Z := 2048.
Definition ISGID : Z := 1024.
Definition ISVTX : Z := 512.
Definition IREAD : Z := 256.
Definition IWRITE : Z := 128.
Definition IEXEC : Z := 64.

Definition i_rdev (ip : inode) : Z := i_addr ip 0.

(** * Open files and mounts, [h/file.h], [h/mount.h], [h/text.h] *)

Record file := File {
  f_flag : Z;
  f_count : Z;
  f_inode : nat;
  f_offset : Z
}.
#[export] Instance eta_file : Eta file := fun r =>
  File (f_flag r) (f_count r) (f_inode r) (f_offset r).
#[export] Instance set_f_flag : Setter f_flag := ltac:(derive_setter).
#[export] Instance set_f_count : Setter f_count := ltac:(derive_setter).
#[export] Instance set_f_inode : Setter f_inode := ltac:(derive_setter).
#[export] Instance set_f_offset : Setter f_offset := ltac:(derive_setter).

Definition FREAD : Z := 1.
Definition FWRITE : Z := 2.
Definition FPIPE : Z := 4.
Definition FMPX : Z := 8.
Definition FMPY : Z := 16.
Definition FMP : Z := 24.
Definition FKERNEL : Z := 32.

Record mount := Mount {
  m_dev : Z;
  m_bufp : option bptr;
  m_inodp : option nat
}.
#[export] Instance eta_mount : Eta mount := fun r =>
  Mount (m_dev r) (m_bufp r) (m_inodp r).
#[export] Instance set_m_dev : Setter m_dev := ltac:(derive_setter).
#[export] Instance set_m_bufp : Setter m_bufp := ltac:(derive_setter).
#[export] Instance set_m_inodp : Setter m_inodp := ltac:(derive_setter).

Record text := Text {
  x_daddr : Z;
  x_caddr : Z;
  x_size : Z;
  x_iptr : option nat;
  x_count : Z;
  x_ccount : Z;
  x_flag : Z
}.
#[export] Instance eta_text : Eta text := fun r =>
  Text (x_daddr r) (x_caddr r) (x_size r) (x_iptr r) (x_count r) (x_ccount r)
  (x_flag r).
#[export] Instance set_x_daddr : Setter x_daddr := ltac:(derive_setter).
#[export] Instance set_x_caddr : Setter x_caddr := ltac:(derive_setter).
#[export] Instance set_x_size : Setter x_size := ltac:(derive_setter).
#[export] Instance set_x_iptr : Setter x_iptr := ltac:(derive_setter).
#[export] Instance set_x_count : Setter x_count := ltac:(derive_setter).
#[export] Instance set_x_ccount : Setter x_ccount := ltac:(derive_setter).
#[export] Instance set_x_flag : Setter x_flag := ltac:(derive_setter).

Definition XTRC : Z := 1.
Definition XWRIT : Z := 2.
Definition XLOAD : Z := 4.
Definition XLOCK : Z := 8.
Definition XWANT : Z := 16.

(** * Processes, [h/proc_str.h] *)

(** The addresses the code sleeps on. *)
Inductive chan :=
  | ChBuf (b : bptr)                 (* (caddr_t)bp *)
  | ChInode (i : nat)                (* (caddr_t)ip *)
  | ChInode1 (i : nat)               (* (caddr_t)ip+1 *)
  | ChInode2 (i : nat)               (* (caddr_t)ip+2 *)
  | ChFlock (b : bptr)               (* &fp->s_flock, fp in buffer b *)
  | ChIlock (b : bptr)               (* &fp->s_ilock *)
  | ChProc (p : nat)                 (* (caddr_t)p *)
  | ChText (x : nat)                 (* (caddr_t)xp *)
  | ChU (n : nat)                    (* &u *)
  | ChRunin | ChRunout | ChLbolt | ChIpc | ChExecArg
  | ChRawq (t : nat)                 (* &tp->t_rawq *)
  | ChOutq (t : nat).                (* &tp->t_outq *)
#[export] Instance chan_eq : EqDecision chan.
Proof. solve_decision. Defined.

(** Where the linker put the objects; only the sleep queues' hash sees it. *)
Class Layout := chan_addr : chan -> Z.

Record proc := Proc {
  p_stat : Z;
  p_flag : Z;
  p_pri : Z;
  p_time : Z;
  p_cpu : Z;
  p_nice : Z;
  p_sig : Z;
  p_uid : Z;
  p_pgrp : Z;
  p_pid : Z;
  p_ppid : Z;
  p_addr : Z;
  p_size : Z;
  p_wchan : option chan;
  p_textp : option nat;
  p_link : option nat;
  p_clktim : Z
}.
#[export] Instance eta_proc : Eta proc := fun r =>
  Proc (p_stat r) (p_flag r) (p_pri r) (p_time r) (p_cpu r) (p_nice r) (p_sig
  r) (p_uid r) (p_pgrp r) (p_pid r) (p_ppid r) (p_addr r) (p_size r) (p_wchan
  r) (p_textp r) (p_link r) (p_clktim r).
#[export] Instance set_p_stat : Setter p_stat := ltac:(derive_setter).
#[export] Instance set_p_flag : Setter p_flag := ltac:(derive_setter).
#[export] Instance set_p_pri : Setter p_pri := ltac:(derive_setter).
#[export] Instance set_p_time : Setter p_time := ltac:(derive_setter).
#[export] Instance set_p_cpu : Setter p_cpu := ltac:(derive_setter).
#[export] Instance set_p_nice : Setter p_nice := ltac:(derive_setter).
#[export] Instance set_p_sig : Setter p_sig := ltac:(derive_setter).
#[export] Instance set_p_uid : Setter p_uid := ltac:(derive_setter).
#[export] Instance set_p_pgrp : Setter p_pgrp := ltac:(derive_setter).
#[export] Instance set_p_pid : Setter p_pid := ltac:(derive_setter).
#[export] Instance set_p_ppid : Setter p_ppid := ltac:(derive_setter).
#[export] Instance set_p_addr : Setter p_addr := ltac:(derive_setter).
#[export] Instance set_p_size : Setter p_size := ltac:(derive_setter).
#[export] Instance set_p_wchan : Setter p_wchan := ltac:(derive_setter).
#[export] Instance set_p_textp : Setter p_textp := ltac:(derive_setter).
#[export] Instance set_p_link : Setter p_link := ltac:(derive_setter).
#[export] Instance set_p_clktim : Setter p_clktim := ltac:(derive_setter).

Definition SSLEEP : Z := 1.
Definition SWAIT : Z := 2.
Definition SRUN : Z := 3.
Definition SIDL : Z := 4.
Definition SZOMB : Z := 5.
Definition SSTOP : Z := 6.
Definition SLOAD : Z := 1.
Definition SSYS : Z := 2.
Definition SLOCK : Z := 4.
Definition SSWAP : Z := 8.
Definition STRC : Z := 16.
Definition SWTED : Z := 32.
Definition SULOCK : Z := 64.

(** * The user structure, [h/user_str.h]

    Left out are the members no modelled routine uses: [u_fper], the PDP-11
    segmentation prototypes, [u_intflg], and the label [u_qsav], which
    [Longjmp] below stands for. *)

(** Kernel objects that [u_base] and [u_dirp] may point at. *)
Inductive kobj := KDent | KAcct | KExdata | KUser | KString (s : list Z).

(** A [caddr_t] in the user structure: a user address, or a place inside a
    kernel object. *)
Inductive caddr := UA (a : Z) | KA (o : kobj) (off : Z).
Definition caddr_add (c : caddr) (n : Z) : caddr :=
  match c with UA a => UA (u32 (a + n)) | KA o off => KA o (off + n) end.

(** [u.u_ar0[...]]: the saved user registers, named by [h/reg.h]. *)
Inductive regname := R0 | R1 | R2 | R3 | R4 | R5 | R6 | PC | RPS.
#[export] Instance regname_eq : EqDecision regname.
Proof. solve_decision. Defined.

(** Where a suspended process continues ([u_rsav] and the kernel stack it
    points into): where it called [save], at the entry of a kernel process, or
    by returning to user mode with the registers of a trap frame. *)
Record trapframe := TrapFrame { tf_usp : Z; tf_regs : list Z; tf_sr : Z; tf_pc : Z }.
Inductive context := CtxNone | CtxSaved | CtxEntry | CtxFrame (f : trapframe).

Record prof := Prof { pr_base : Z; pr_size : Z; pr_off : Z; pr_scale : Z }.

Record user := User {
  u_rsav : context;
  u_ssav : context;
  u_segflg : Z;
  u_error : Z;
  u_uid : Z;
  u_gid : Z;
  u_ruid : Z;
  u_rgid : Z;
  u_procp : nat;
  u_arg : list Z;  (* the words u_ap points at *)
  u_r_val1 : Z;  (* also u_r.r_off and u_r.r_time *)
  u_r_val2 : Z;
  u_base : caddr;
  u_count : Z;
  u_offset : Z;
  u_cdir : nat;
  u_rdir : option nat;
  u_dbuf : list Z;
  u_dirp : caddr;
  u_dent : list Z;  (* struct direct, 16 bytes *)
  u_pdir : option nat;
  u_ofile : Z -> option nat;
  u_pofile : Z -> Z;
  u_tsize : Z;
  u_dsize : Z;
  u_ssize : Z;
  u_signal : Z -> Z;
  u_sigtramp : Z;
  u_utime : Z;
  u_stime : Z;
  u_cutime : Z;
  u_cstime : Z;
  u_ar0 : option (regname -> Z);
  u_fpsaved : Z;
  u_sep : Z;
  u_ttyp : option nat;
  u_ttyd : Z;
  u_comm : list Z;
  u_start : Z;
  u_acflag : Z;
  u_cmask : Z;
  u_fps : list Z;  (* u_fpsr and u_fpregs, as thirteen words *)
  u_prof : prof;
  u_exdata : list Z  (* the header of the executable file, 32 bytes *)
}.
#[export] Instance eta_user : Eta user := fun r =>
  User (u_rsav r) (u_ssav r) (u_segflg r) (u_error r) (u_uid r) (u_gid r)
  (u_ruid r) (u_rgid r) (u_procp r) (u_arg r) (u_r_val1 r) (u_r_val2 r)
  (u_base r) (u_count r) (u_offset r) (u_cdir r) (u_rdir r) (u_dbuf r) (u_dirp
  r) (u_dent r) (u_pdir r) (u_ofile r) (u_pofile r) (u_tsize r) (u_dsize r)
  (u_ssize r) (u_signal r) (u_sigtramp r) (u_utime r) (u_stime r) (u_cutime r)
  (u_cstime r) (u_ar0 r) (u_fpsaved r) (u_sep r) (u_ttyp r) (u_ttyd r) (u_comm
  r) (u_start r) (u_acflag r) (u_cmask r) (u_fps r)
  (u_prof r) (u_exdata r).
#[export] Instance set_u_rsav : Setter u_rsav := ltac:(derive_setter).
#[export] Instance set_u_ssav : Setter u_ssav := ltac:(derive_setter).
#[export] Instance set_u_segflg : Setter u_segflg := ltac:(derive_setter).
#[export] Instance set_u_error : Setter u_error := ltac:(derive_setter).
#[export] Instance set_u_uid : Setter u_uid := ltac:(derive_setter).
#[export] Instance set_u_gid : Setter u_gid := ltac:(derive_setter).
#[export] Instance set_u_ruid : Setter u_ruid := ltac:(derive_setter).
#[export] Instance set_u_rgid : Setter u_rgid := ltac:(derive_setter).
#[export] Instance set_u_procp : Setter u_procp := ltac:(derive_setter).
#[export] Instance set_u_arg : Setter u_arg := ltac:(derive_setter).
#[export] Instance set_u_r_val1 : Setter u_r_val1 := ltac:(derive_setter).
#[export] Instance set_u_r_val2 : Setter u_r_val2 := ltac:(derive_setter).
#[export] Instance set_u_base : Setter u_base := ltac:(derive_setter).
#[export] Instance set_u_count : Setter u_count := ltac:(derive_setter).
#[export] Instance set_u_offset : Setter u_offset := ltac:(derive_setter).
#[export] Instance set_u_cdir : Setter u_cdir := ltac:(derive_setter).
#[export] Instance set_u_rdir : Setter u_rdir := ltac:(derive_setter).
#[export] Instance set_u_dbuf : Setter u_dbuf := ltac:(derive_setter).
#[export] Instance set_u_dirp : Setter u_dirp := ltac:(derive_setter).
#[export] Instance set_u_dent : Setter u_dent := ltac:(derive_setter).
#[export] Instance set_u_pdir : Setter u_pdir := ltac:(derive_setter).
#[export] Instance set_u_ofile : Setter u_ofile := ltac:(derive_setter).
#[export] Instance set_u_pofile : Setter u_pofile := ltac:(derive_setter).
#[export] Instance set_u_tsize : Setter u_tsize := ltac:(derive_setter).
#[export] Instance set_u_dsize : Setter u_dsize := ltac:(derive_setter).
#[export] Instance set_u_ssize : Setter u_ssize := ltac:(derive_setter).
#[export] Instance set_u_signal : Setter u_signal := ltac:(derive_setter).
#[export] Instance set_u_sigtramp : Setter u_sigtramp := ltac:(derive_setter).
#[export] Instance set_u_utime : Setter u_utime := ltac:(derive_setter).
#[export] Instance set_u_stime : Setter u_stime := ltac:(derive_setter).
#[export] Instance set_u_cutime : Setter u_cutime := ltac:(derive_setter).
#[export] Instance set_u_cstime : Setter u_cstime := ltac:(derive_setter).
#[export] Instance set_u_ar0 : Setter u_ar0 := ltac:(derive_setter).
#[export] Instance set_u_fpsaved : Setter u_fpsaved := ltac:(derive_setter).
#[export] Instance set_u_sep : Setter u_sep := ltac:(derive_setter).
#[export] Instance set_u_ttyp : Setter u_ttyp := ltac:(derive_setter).
#[export] Instance set_u_ttyd : Setter u_ttyd := ltac:(derive_setter).
#[export] Instance set_u_comm : Setter u_comm := ltac:(derive_setter).
#[export] Instance set_u_start : Setter u_start := ltac:(derive_setter).
#[export] Instance set_u_acflag : Setter u_acflag := ltac:(derive_setter).
#[export] Instance set_u_cmask : Setter u_cmask := ltac:(derive_setter).
#[export] Instance set_u_fps : Setter u_fps := ltac:(derive_setter).
#[export] Instance set_u_prof : Setter u_prof := ltac:(derive_setter).
#[export] Instance set_u_exdata : Setter u_exdata := ltac:(derive_setter).


(** * Terminals, [h/tty.h] *)

Record tty := Tty {
  t_rawq : clist;
  t_canq : clist;
  t_outq : clist;
  t_oproc : bool;  (* klstart, the only driver's routine, or null *)
  t_addr : Z;
  t_chan : option nat;
  t_dev : Z;
  t_flags : Z;
  t_state : Z;
  t_pgrp : Z;
  t_delct : Z;
  t_line : Z;
  t_col : Z;
  t_erase : Z;
  t_kill : Z;
  t_char : Z;
  t_ispeed : Z;
  t_ospeed : Z;
  t_intrc : Z;
  t_quitc : Z;
  t_startc : Z;
  t_stopc : Z;
  t_eofc : Z;
  t_brkc : Z
}.
#[export] Instance eta_tty : Eta tty := fun r =>
  Tty (t_rawq r) (t_canq r) (t_outq r) (t_oproc r) (t_addr r) (t_chan r) (t_dev r) (t_flags r) (t_state r)
  (t_pgrp r) (t_delct r) (t_line r) (t_col r) (t_erase r) (t_kill r) (t_char
  r) (t_ispeed r) (t_ospeed r) (t_intrc r) (t_quitc r) (t_startc r) (t_stopc
  r) (t_eofc r) (t_brkc r).
#[export] Instance set_t_rawq : Setter t_rawq := ltac:(derive_setter).
#[export] Instance set_t_canq : Setter t_canq := ltac:(derive_setter).
#[export] Instance set_t_outq : Setter t_outq := ltac:(derive_setter).
#[export] Instance set_t_oproc : Setter t_oproc := ltac:(derive_setter).
#[export] Instance set_t_addr : Setter t_addr := ltac:(derive_setter).
#[export] Instance set_t_chan : Setter t_chan := ltac:(derive_setter).
#[export] Instance set_t_dev : Setter t_dev := ltac:(derive_setter).
#[export] Instance set_t_flags : Setter t_flags := ltac:(derive_setter).
#[export] Instance set_t_state : Setter t_state := ltac:(derive_setter).
#[export] Instance set_t_pgrp : Setter t_pgrp := ltac:(derive_setter).
#[export] Instance set_t_delct : Setter t_delct := ltac:(derive_setter).
#[export] Instance set_t_line : Setter t_line := ltac:(derive_setter).
#[export] Instance set_t_col : Setter t_col := ltac:(derive_setter).
#[export] Instance set_t_erase : Setter t_erase := ltac:(derive_setter).
#[export] Instance set_t_kill : Setter t_kill := ltac:(derive_setter).
#[export] Instance set_t_char : Setter t_char := ltac:(derive_setter).
#[export] Instance set_t_ispeed : Setter t_ispeed := ltac:(derive_setter).
#[export] Instance set_t_ospeed : Setter t_ospeed := ltac:(derive_setter).
#[export] Instance set_t_intrc : Setter t_intrc := ltac:(derive_setter).
#[export] Instance set_t_quitc : Setter t_quitc := ltac:(derive_setter).
#[export] Instance set_t_startc : Setter t_startc := ltac:(derive_setter).
#[export] Instance set_t_stopc : Setter t_stopc := ltac:(derive_setter).
#[export] Instance set_t_eofc : Setter t_eofc := ltac:(derive_setter).
#[export] Instance set_t_brkc : Setter t_brkc := ltac:(derive_setter).


(** * The globals, by subsystem *)

(** Processes: [sys/slp.c], [sys/sig.c]. *)
Record pstate := PState {
  procs : nat -> proc;
  slpque : Z -> option nat;
  runq : option nat;
  runin : Z;
  runout : Z;
  runrun : Z;
  curpri : Z;
  mpid : Z;
  ip_lock : Z;  (* struct ipc of sig.c *)
  ip_req : Z;
  ip_addr : Z;
  ip_data : Z
}.
#[export] Instance eta_pstate : Eta pstate := fun r =>
  PState (procs r) (slpque r) (runq r) (runin r) (runout r) (runrun r) (curpri
  r) (mpid r) (ip_lock r) (ip_req r) (ip_addr r) (ip_data r).
#[export] Instance set_procs : Setter procs := ltac:(derive_setter).
#[export] Instance set_slpque : Setter slpque := ltac:(derive_setter).
#[export] Instance set_runq : Setter runq := ltac:(derive_setter).
#[export] Instance set_runin : Setter runin := ltac:(derive_setter).
#[export] Instance set_runout : Setter runout := ltac:(derive_setter).
#[export] Instance set_runrun : Setter runrun := ltac:(derive_setter).
#[export] Instance set_curpri : Setter curpri := ltac:(derive_setter).
#[export] Instance set_mpid : Setter mpid := ltac:(derive_setter).
#[export] Instance set_ip_lock : Setter ip_lock := ltac:(derive_setter).
#[export] Instance set_ip_req : Setter ip_req := ltac:(derive_setter).
#[export] Instance set_ip_addr : Setter ip_addr := ltac:(derive_setter).
#[export] Instance set_ip_data : Setter ip_data := ltac:(derive_setter).

(** User areas and user memory. *)
Record ustate := UState {
  uarea : nat -> user;
  uarrp : nat;
  upages_ : upages;  (* sys/machdep.c *)
  upmem : Z -> Z -> Z;  (* page, user address -> byte *)
  syspage : Z;  (* EPOCH68_SYSTEM_PAGE_REG *)
  fork_regs : option (list Z);  (* epoch68_fork_regs, when valid *)
  kguard : nat -> bool  (* the guard words of ukstack[slot] are intact *)
}.
#[export] Instance eta_ustate : Eta ustate := fun r =>
  UState (uarea r) (uarrp r) (upages_ r) (upmem r) (syspage r) (fork_regs r)
  (kguard r).
#[export] Instance set_uarea : Setter uarea := ltac:(derive_setter).
#[export] Instance set_uarrp : Setter uarrp := ltac:(derive_setter).
#[export] Instance set_upages_ : Setter upages_ := ltac:(derive_setter).
#[export] Instance set_upmem : Setter upmem := ltac:(derive_setter).
#[export] Instance set_syspage : Setter syspage := ltac:(derive_setter).
#[export] Instance set_fork_regs : Setter fork_regs := ltac:(derive_setter).
#[export] Instance set_kguard : Setter kguard := ltac:(derive_setter).

(** The buffer cache and the RAM disk: [dev/bio.c], [dev/rd.c]. *)
Record bstate := BState {
  bufs : bptr -> buf;
  bdata : bptr -> list Z;  (* what b_un.b_addr points at *)
  rdmem : Z -> Z;  (* the RAM disk, by byte *)
  sdin : list (option Z);  (* bytes UART1 will deliver; None is a timeout *)
  sdout : list Z;  (* bytes sent on UART1 *)
  nblkdev : Z;
  rablock : Z;
  io_ncache : Z;
  io_nread : Z;
  io_nreada : Z;
  io_nwrite : Z;
  io_bufcount : nat -> Z
}.
#[export] Instance eta_bstate : Eta bstate := fun r =>
  BState (bufs r) (bdata r) (rdmem r) (sdin r) (sdout r) (nblkdev r) (rablock
  r) (io_ncache r) (io_nread r) (io_nreada r) (io_nwrite r) (io_bufcount r).
#[export] Instance set_bufs : Setter bufs := ltac:(derive_setter).
#[export] Instance set_bdata : Setter bdata := ltac:(derive_setter).
#[export] Instance set_rdmem : Setter rdmem := ltac:(derive_setter).
#[export] Instance set_sdin : Setter sdin := ltac:(derive_setter).
#[export] Instance set_sdout : Setter sdout := ltac:(derive_setter).
#[export] Instance set_nblkdev : Setter nblkdev := ltac:(derive_setter).
#[export] Instance set_rablock : Setter rablock := ltac:(derive_setter).
#[export] Instance set_io_ncache : Setter io_ncache := ltac:(derive_setter).
#[export] Instance set_io_nread : Setter io_nread := ltac:(derive_setter).
#[export] Instance set_io_nreada : Setter io_nreada := ltac:(derive_setter).
#[export] Instance set_io_nwrite : Setter io_nwrite := ltac:(derive_setter).
#[export] Instance set_io_bufcount : Setter io_bufcount := ltac:(derive_setter).

(** Files. *)
Record fstate := FState {
  inodes : nat -> inode;
  mounts : nat -> mount;
  files : nat -> file;
  texts : nat -> text;
  rootdir : nat;
  mpxip : option nat;
  acctp : option nat;
  acctbuf : list Z;
  updlock : Z;
  swapmap : list mapent
}.
#[export] Instance eta_fstate : Eta fstate := fun r =>
  FState (inodes r) (mounts r) (files r) (texts r) (rootdir r) (mpxip r)
  (acctp r) (acctbuf r) (updlock r) (swapmap r).
#[export] Instance set_inodes : Setter inodes := ltac:(derive_setter).
#[export] Instance set_mounts : Setter mounts := ltac:(derive_setter).
#[export] Instance set_files : Setter files := ltac:(derive_setter).
#[export] Instance set_texts : Setter texts := ltac:(derive_setter).
#[export] Instance set_rootdir : Setter rootdir := ltac:(derive_setter).
#[export] Instance set_mpxip : Setter mpxip := ltac:(derive_setter).
#[export] Instance set_acctp : Setter acctp := ltac:(derive_setter).
#[export] Instance set_acctbuf : Setter acctbuf := ltac:(derive_setter).
#[export] Instance set_updlock : Setter updlock := ltac:(derive_setter).
#[export] Instance set_swapmap : Setter swapmap := ltac:(derive_setter).

(** [h/callo.h]: the time is relative to the entry before. *)
Record callo := Callo {
  c_time : Z;
  c_arg : Z;
  c_func : option nat
}.
#[export] Instance eta_callo : Eta callo := fun r =>
  Callo (c_time r) (c_arg r) (c_func r).
#[export] Instance set_c_time : Setter c_time := ltac:(derive_setter).
#[export] Instance set_c_arg : Setter c_arg := ltac:(derive_setter).
#[export] Instance set_c_func : Setter c_func := ltac:(derive_setter).

(** The clock. *)
Record ckstate := CkState {
  time : Z;
  lbolt : Z;
  kticks : Z;
  callout : list callo;
  dk_busy : Z;
  dk_time : Z -> Z;
  rtcregs : Z -> Z  (* the registers of the MM58167 *)
}.
#[export] Instance eta_ckstate : Eta ckstate := fun r =>
  CkState (time r) (lbolt r) (kticks r) (callout r) (dk_busy r) (dk_time r)
  (rtcregs r).
#[export] Instance set_time : Setter time := ltac:(derive_setter).
#[export] Instance set_lbolt : Setter lbolt := ltac:(derive_setter).
#[export] Instance set_kticks : Setter kticks := ltac:(derive_setter).
#[export] Instance set_callout : Setter callout := ltac:(derive_setter).
#[export] Instance set_dk_busy : Setter dk_busy := ltac:(derive_setter).
#[export] Instance set_dk_time : Setter dk_time := ltac:(derive_setter).
#[export] Instance set_rtcregs : Setter rtcregs := ltac:(derive_setter).

(** A queue of bytes of [dev/kl.c]: [head], [tail] and [count] are
    [unsigned short]. *)
Record ring := Ring {
  r_head : Z;
  r_tail : Z;
  r_count : Z;
  r_data : Z -> Z
}.
#[export] Instance eta_ring : Eta ring := fun r =>
  Ring (r_head r) (r_tail r) (r_count r) (r_data r).
#[export] Instance set_r_head : Setter r_head := ltac:(derive_setter).
#[export] Instance set_r_tail : Setter r_tail := ltac:(derive_setter).
#[export] Instance set_r_count : Setter r_count := ltac:(derive_setter).
#[export] Instance set_r_data : Setter r_data := ltac:(derive_setter).

(** A channel: its two private queues, and the device: the characters waiting
    in the receiver, what the next reads of [UART_LSR_THRE] give (ready when
    the list is empty), the characters sent, and the registers that are
    written. *)
Record uart := Uart {
  ua_rx : ring;
  ua_tx : ring;
  hw_rx : list Z;
  hw_thre : list bool;
  hw_sent : list Z;
  hw_ier : Z;
  hw_lcr : Z;
  hw_fcr : Z
}.
#[export] Instance eta_uart : Eta uart := fun r =>
  Uart (ua_rx r) (ua_tx r) (hw_rx r) (hw_thre r) (hw_sent r) (hw_ier r) (hw_lcr r) (hw_fcr r).
#[export] Instance set_ua_rx : Setter ua_rx := ltac:(derive_setter).
#[export] Instance set_ua_tx : Setter ua_tx := ltac:(derive_setter).
#[export] Instance set_hw_rx : Setter hw_rx := ltac:(derive_setter).
#[export] Instance set_hw_thre : Setter hw_thre := ltac:(derive_setter).
#[export] Instance set_hw_sent : Setter hw_sent := ltac:(derive_setter).
#[export] Instance set_hw_ier : Setter hw_ier := ltac:(derive_setter).
#[export] Instance set_hw_lcr : Setter hw_lcr := ltac:(derive_setter).
#[export] Instance set_hw_fcr : Setter hw_fcr := ltac:(derive_setter).

(** Terminals. *)
Record tstate := TState {
  clists : Clist.cstate;
  ttys : nat -> tty;
  nchrdev : Z;
  uarts : nat -> uart;
  tk_nin : Z;
  tk_nout : Z;
  msgbuf : Z -> Z;
  msgbufp : Z  (* an index in msgbuf *)
}.
#[export] Instance eta_tstate : Eta tstate := fun r =>
  TState (clists r) (ttys r) (nchrdev r) (uarts r) (tk_nin r) (tk_nout r) (msgbuf r) (msgbufp r).
#[export] Instance set_clists : Setter clists := ltac:(derive_setter).
#[export] Instance set_ttys : Setter ttys := ltac:(derive_setter).
#[export] Instance set_nchrdev : Setter nchrdev := ltac:(derive_setter).
#[export] Instance set_uarts : Setter uarts := ltac:(derive_setter).
#[export] Instance set_tk_nin : Setter tk_nin := ltac:(derive_setter).
#[export] Instance set_tk_nout : Setter tk_nout := ltac:(derive_setter).
#[export] Instance set_msgbuf : Setter msgbuf := ltac:(derive_setter).
#[export] Instance set_msgbufp : Setter msgbufp := ltac:(derive_setter).

(** What the compiler's layout of [struct user] says: the byte at an offset of
    the structure, and the offsets from it of the floating point words and of
    the saved registers.  Nothing changes it. *)
Record ulayout := ULayout {
  ul_byte : user -> Z -> Z;
  ul_fps : Z;
  ul_reg : user -> regname -> Z
}.

(** Executing programs, ends of processes and traps: [sys/sys1.c],
    [conf/trap0.c]. *)
Record xstate := XState {
  exec_argbuf : list Z;  (* sys/sys1.c: the staging buffer of exec *)
  exec_argbusy : Z;
  exec_argwant : Z;
  xtimes : nat -> Z * Z;  (* xp_utime and xp_stime of the entries that are zombies *)
  coremap : list mapent;
  trap_d1 : Z;  (* conf/trap0.c: epoch68_trap_return_d1 *)
  trap_pc : Z;  (* epoch68_trap_new_pc, new_usp, new_sr *)
  trap_usp : Z;
  trap_sr : Z;
  proc_usp : nat -> Z;  (* epoch68_proc_usp *)
  resume_usp : Z;
  clk_pc : Z;  (* sys/clock.c: epoch68_clock_return_pc, usp, sr *)
  clk_usp : Z;
  clk_sr : Z;
  heap_warned : Z;  (* epoch68_heap_stack_warned_pid *)
  ulay : ulayout
}.
#[export] Instance eta_xstate : Eta xstate := fun r =>
  XState (exec_argbuf r) (exec_argbusy r) (exec_argwant r) (xtimes r) (coremap r) (trap_d1 r) (trap_pc r) (trap_usp r) (trap_sr r) (proc_usp r) (resume_usp r) (clk_pc r) (clk_usp r) (clk_sr r) (heap_warned r) (ulay r).
#[export] Instance set_exec_argbuf : Setter exec_argbuf := ltac:(derive_setter).
#[export] Instance set_exec_argbusy : Setter exec_argbusy := ltac:(derive_setter).
#[export] Instance set_exec_argwant : Setter exec_argwant := ltac:(derive_setter).
#[export] Instance set_xtimes : Setter xtimes := ltac:(derive_setter).
#[export] Instance set_coremap : Setter coremap := ltac:(derive_setter).
#[export] Instance set_trap_d1 : Setter trap_d1 := ltac:(derive_setter).
#[export] Instance set_trap_pc : Setter trap_pc := ltac:(derive_setter).
#[export] Instance set_trap_usp : Setter trap_usp := ltac:(derive_setter).
#[export] Instance set_trap_sr : Setter trap_sr := ltac:(derive_setter).
#[export] Instance set_proc_usp : Setter proc_usp := ltac:(derive_setter).
#[export] Instance set_resume_usp : Setter resume_usp := ltac:(derive_setter).
#[export] Instance set_clk_pc : Setter clk_pc := ltac:(derive_setter).
#[export] Instance set_clk_usp : Setter clk_usp := ltac:(derive_setter).
#[export] Instance set_clk_sr : Setter clk_sr := ltac:(derive_setter).
#[export] Instance set_heap_warned : Setter heap_warned := ltac:(derive_setter).
#[export] Instance set_ulay : Setter ulay := ltac:(derive_setter).

(** The whole kernel. *)
Record kst := KSt {
  kp : pstate;
  ku : ustate;
  kb : bstate;
  kf : fstate;
  kc : ckstate;
  kt : tstate;
  kx : xstate;
  kipl : Z;  (* processor priority *)
  klog : list string  (* what the kernel printed *)
}.
#[export] Instance eta_kst : Eta kst := fun r =>
  KSt (kp r) (ku r) (kb r) (kf r) (kc r) (kt r) (kx r) (kipl r) (klog r).
#[export] Instance set_kp : Setter kp := ltac:(derive_setter).
#[export] Instance set_ku : Setter ku := ltac:(derive_setter).
#[export] Instance set_kb : Setter kb := ltac:(derive_setter).
#[export] Instance set_kf : Setter kf := ltac:(derive_setter).
#[export] Instance set_kc : Setter kc := ltac:(derive_setter).
#[export] Instance set_kt : Setter kt := ltac:(derive_setter).
#[export] Instance set_kx : Setter kx := ltac:(derive_setter).
#[export] Instance set_kipl : Setter kipl := ltac:(derive_setter).
#[export] Instance set_klog : Setter klog := ltac:(derive_setter).

(** [#define u ( *uarrp)] *)
Definition u (s : kst) : user := uarea (ku s) (uarrp (ku s)).
Definition upd_u (g : user -> user) (s : kst) : kst :=
  s <| ku; uarea ::= fun ua => <[uarrp (ku s) := g (ua (uarrp (ku s)))]> ua |>.

(** Entries of the tables. *)
Definition proc_at (s : kst) (p : nat) : proc := procs (kp s) p.
Definition upd_proc (p : nat) (g : proc -> proc) (s : kst) : kst :=
  s <| kp; procs ::= fun t => <[p := g (t p)]> t |>.
Definition buf_at (s : kst) (b : bptr) : buf := bufs (kb s) b.
Definition upd_buf (b : bptr) (g : buf -> buf) (s : kst) : kst :=
  s <| kb; bufs ::= fun t => <[b := g (t b)]> t |>.
Definition inode_at (s : kst) (i : nat) : inode := inodes (kf s) i.
Definition upd_inode (i : nat) (g : inode -> inode) (s : kst) : kst :=
  s <| kf; inodes ::= fun t => <[i := g (t i)]> t |>.
Definition file_at (s : kst) (i : nat) : file := files (kf s) i.
Definition upd_file (i : nat) (g : file -> file) (s : kst) : kst :=
  s <| kf; files ::= fun t => <[i := g (t i)]> t |>.

(** * Routines that may sleep

    The kernel is not preempted: another process runs only while this one
    sleeps.  [env] lists what the rest of the system does to the state during
    each successive sleep of the routine; a routine that sleeps once more than
    the list is long stays asleep.  A routine returns a value, or stops: the
    processor goes to process [p] and does not come back, a signal ends a
    sleep by the [longjmp] to [u_qsav], the machine goes back to the
    monitor, or the kernel panics.  [Nofuel] marks a loop cut off by the model. *)

Definition env := list (kst -> kst).

Inductive stop :=
  | Away (p : nat)
  | Longjmp (e : env)
  | Halted
  | Panicked (msg : string)
  | Nofuel.

Inductive out (A : Type) :=
  | Ret (a : A) (e : env) (s : kst)
  | Stop (w : stop) (s : kst).
Arguments Ret {A} a e s.
Arguments Stop {A} w s.

Definition M (A : Type) : Type := env -> kst -> out A.

#[export] Instance m_ret : MRet M := fun A a e s => Ret a e s.
#[export] Instance m_bind : MBind M := fun A B f m e s =>
  match m e s with Ret a e' s' => f a e' s' | Stop w s' => Stop w s' end.

Definition gets {A} (f : kst -> A) : M A := fun e s => Ret (f s) e s.
Definition modify (f : kst -> kst) : M unit := fun e s => Ret tt e (f s).
Definition panic {A} (msg : string) : M A := fun _ s => Stop (Panicked msg) s.
Definition nofuel {A} : M A := fun _ s => Stop Nofuel s.
Definition when (b : bool) (m : M unit) : M unit := if b then m else mret tt.

(** [for (i = ...; ...) body], leaving the loop by [return]. *)
Fixpoint for_find {A B} (l : list A) (body : A -> M (option B)) : M (option B) :=
  match l with
  | [] => mret None
  | x :: r => o ← body x; match o with Some b => mret (Some b) | None => for_find r body end
  end.
Fixpoint for_each {A} (l : list A) (body : A -> M unit) : M unit :=
  match l with [] => mret tt | x :: r => _ ← body x; for_each r body end.

Definition seterror (n : Z) : M unit := modify (upd_u (fun x => x <| u_error := i8 n |>)).
Definition uerror (s : kst) : Z := u_error (u s).
Definition log (msg : string) : M unit := modify (fun s => s <| klog ::= fun l => l ++ [msg] |>).

(** The [n]th word of the system call's arguments. *)
Definition arg (s : kst) (n : nat) : Z := nth n (u_arg (u s)) 0.

Definition spl (n : Z) : M Z := fun e s => Ret (kipl s) e (s <| kipl := n |>).
Definition spl0 : M Z := spl 0.
Definition spl6 : M Z := spl 6.
Definition splx (n : Z) : M unit := modify (fun s => s <| kipl := n |>).

(** A routine of [sys/prim.c], run on the character lists. *)
Definition with_clists {A} (f : Clist.cstate -> A * Clist.cstate) : M A := fun e s =>
  let '(a, c) := f (set_ipl (kipl s) (clists (kt s))) in
  Ret a e (s <| kt; clists := c |> <| kipl := ipl c |>).

(** ** Reasoning about routines *)

(** [m], from [s] with the environment [e], ends well: it returns with [Q] or
    stops with [F]. *)
Definition wp {A} (m : M A) (e : env) (s : kst) (Q : A -> env -> kst -> Prop) (F : stop -> kst -> Prop) : Prop :=
  match m e s with Ret a e' s' => Q a e' s' | Stop w s' => F w s' end.

Definition nostop : stop -> kst -> Prop := fun _ _ => False.

Lemma wp_bind {A B} (m : M A) (f : A -> M B) e s Q F :
  wp m e s (fun a e' s' => wp (f a) e' s' Q F) F -> wp (m ≫= f) e s Q F.
Proof. unfold wp, mbind, m_bind. destruct (m e s); auto. Qed.

Lemma wp_mono {A} (m : M A) e s (Q Q' : A -> env -> kst -> Prop) (F F' : stop -> kst -> Prop) :
  wp m e s Q F -> (forall a e' s', Q a e' s' -> Q' a e' s') -> (forall w s', F w s' -> F' w s') ->
  wp m e s Q' F'.
Proof. unfold wp. destruct (m e s); auto. Qed.

Lemma wp_ret {A} (a : A) e s (Q : A -> env -> kst -> Prop) F : Q a e s -> wp (mret a) e s Q F.
Proof. done. Qed.

Lemma bind_ret {A B} (m : M A) (f : A -> M B) e s a e' s' :
  m e s = Ret a e' s' -> (m ≫= f) e s = f a e' s'.
Proof. unfold mbind, m_bind. now intros ->. Qed.

Lemma bind_gets {A B} (f : kst -> A) (k : A -> M B) e s : (gets f ≫= k) e s = k (f s) e s.
Proof. done. Qed.
Lemma bind_modify {B} (f : kst -> kst) (k : unit -> M B) e s : (modify f ≫= k) e s = k tt e (f s).
Proof. done. Qed.
Lemma bind_mret {A B} (a : A) (k : A -> M B) e s : (mret a ≫= k) e s = k a e s.
Proof. done. Qed.
Lemma bind_spl {B} n (k : Z -> M B) e s : (spl n ≫= k) e s = k (kipl s) e (s <| kipl := n |>).
Proof. done. Qed.
Lemma run_modify (f : kst -> kst) e s : modify f e s = Ret tt e (f s).
Proof. done. Qed.
Lemma run_mret {A} (a : A) e s : (mret a : M A) e s = Ret a e s.
Proof. done. Qed.

Lemma bind_assoc {A B C} (m : M A) (f : A -> M B) (g : B -> M C) e s :
  ((m ≫= f) ≫= g) e s = (m ≫= (fun a => f a ≫= g)) e s.
Proof. unfold mbind, m_bind. now destruct (m e s). Qed.

(** One step of a routine whose next operation is one of the basic ones. *)
Ltac mstep := first
  [ rewrite bind_gets | rewrite bind_modify | rewrite bind_mret | rewrite bind_spl | rewrite bind_assoc ]; cbv beta.
Ltac msteps := repeat mstep.

(** ** Table entries after an update *)

Lemma u_upd_u g s : u (upd_u g s) = g (u s).
Proof. unfold u, upd_u. cbn. now rewrite fn_lookup_insert. Qed.

Lemma proc_upd_same p g s : proc_at (upd_proc p g s) p = g (proc_at s p).
Proof. unfold proc_at, upd_proc. cbn. now rewrite fn_lookup_insert. Qed.
Lemma proc_upd_ne p q g s : p <> q -> proc_at (upd_proc p g s) q = proc_at s q.
Proof. intros. unfold proc_at, upd_proc. cbn. now rewrite fn_lookup_insert_ne. Qed.
Lemma buf_upd_same b g s : buf_at (upd_buf b g s) b = g (buf_at s b).
Proof. unfold buf_at, upd_buf. cbn. now rewrite fn_lookup_insert. Qed.
Lemma buf_upd_ne b c g s : b <> c -> buf_at (upd_buf b g s) c = buf_at s c.
Proof. intros. unfold buf_at, upd_buf. cbn. now rewrite fn_lookup_insert_ne. Qed.
Lemma inode_upd_same i g s : inode_at (upd_inode i g s) i = g (inode_at s i).
Proof. unfold inode_at, upd_inode. cbn. now rewrite fn_lookup_insert. Qed.
Lemma inode_upd_ne i j g s : i <> j -> inode_at (upd_inode i g s) j = inode_at s j.
Proof. intros. unfold inode_at, upd_inode. cbn. now rewrite fn_lookup_insert_ne. Qed.
Lemma file_upd_same i g s : file_at (upd_file i g s) i = g (file_at s i).
Proof. unfold file_at, upd_file. cbn. now rewrite fn_lookup_insert. Qed.
Lemma file_upd_ne i j g s : i <> j -> file_at (upd_file i g s) j = file_at s j.
Proof. intros. unfold file_at, upd_file. cbn. now rewrite fn_lookup_insert_ne. Qed.

Create Rewrite HintDb tables.
#[export] Hint Rewrite u_upd_u proc_upd_same buf_upd_same inode_upd_same file_upd_same : tables.
#[export] Hint Rewrite proc_upd_ne buf_upd_ne inode_upd_ne file_upd_ne using congruence : tables.

(** ** The state of the kernel's zeroed memory *)

Definition proc0 : proc := Proc 0 0 0 0 0 0 0 0 0 0 0 0 0 None None None 0.
Definition buf0 : buf := Buf 0 BNull BNull BNull BNull 0 0 0 0 0.
Definition inode0 : inode := Inode 0 0 0 0 0 0 0 0 0 (fun _ => 0) 0.
Definition file0 : file := File 0 0 0%nat 0.
Definition mount0 : mount := Mount 0 None None.
Definition text0 : text := Text 0 0 0 None 0 0 0.
Definition user0 : user :=
  User CtxNone CtxNone 0 0 0 0 0 0 0%nat [] 0 0 (UA 0) 0 0 0%nat None (replicate DIRSIZ 0) (UA 0)
    (replicate 16 0) None (fun _ => None) (fun _ => 0) 0 0 0 (fun _ => 0) 0 0 0 0 0 None 0 0 None 0 [] 0 0 0
    (replicate 13 0) (Prof 0 0 0 0) (replicate 32 0).
Definition tty0 : tty :=
  Tty (Clist 0 0 0) (Clist 0 0 0) (Clist 0 0 0) false 0 None 0 0 0 0 0 0 0 0 0 0 0 0 0 0 0 0 0 0.
Definition ring0 : ring := Ring 0 0 0 (fun _ => 0).
Definition uart0 : uart := Uart ring0 ring0 [] [] [] 0 0 0.
Definition kst0 : kst :=
  KSt (PState (fun _ => proc0) (fun _ => None) None 0 0 0 0 0 0 0 0 0)
      (UState (fun _ => user0) 0%nat (UPages [] []) (fun _ _ => 0) 0 None (fun _ => true))
      (BState (fun _ => buf0) (fun _ => replicate 512 0) (fun _ => 0) [] [] 0 0 0 0 0 0 (fun _ => 0))
      (FState (fun _ => inode0) (fun _ => mount0) (fun _ => file0) (fun _ => text0) 0%nat None None [] 0 (replicate 50 (MapEnt 0 0)))
      (CkState 0 0 0 (replicate NCALL (Callo 0 0 None)) 0 (fun _ => 0) (fun _ => 0)) (TState (Clist.CState ∅ ∅ 0 0 0) (fun _ => tty0) 0 (fun _ => uart0) 0 0 (fun _ => 0) 0)
      (XState (replicate 5120 0) 0 0 (fun _ => (0, 0)) (replicate 50 (MapEnt 0 0)) 0 0 0 0 (fun _ => 0) 0 0 0 0 (-1) (ULayout (fun _ _ => 0) 0 (fun _ _ => 0))) 0 [].
