(* ===== verification/Sched.v ===== *)
(** Processes: [sys/slp.c], with the routines of [sys/sig.c] that [sleep]
    calls.

    [resume] transfers the processor; what other processes then do before this
    one is resumed is the next element of the environment (see Kernel.v).
    Process 0 never saves a context, so a switch away from it never comes
    back: it restarts at its entry. *)
From S2P Require Import Prelude Malloc Clist Kernel.

Definition SQSIZE : Z := 64.
Definition KERNEL_METADATA_PAGE : Z := 63.
Definition USER_PAGE_SIZE : Z := 262144.
Definition AFORK : Z := 1.

(** Fuel for a walk along a queue that holds each process at most once. *)
Definition QFUEL : nat := 64.

Section Sched.
Context `{Layout}.

Definition HASH (c : chan) : Z := Z.land (Z.shiftr (chan_addr c) 5) (SQSIZE - 1).

(** The current process. *)
Definition curproc (s : kst) : nat := u_procp (u s).

(** ** Run queue *)

Fixpoint setrq_scan (n : nat) (q : option nat) (p : nat) : M bool :=
  match q with
  | None => mret false
  | Some q' =>
      match n with
      | O => nofuel
      | S n => if decide (q' = p) then mret true
               else q'' ← gets (fun s => p_link (proc_at s q')); setrq_scan n q'' p
      end
  end.

Definition setrq (p : nat) : M unit :=
  s ← spl6;
  q ← gets (fun s => runq (kp s));
  on ← setrq_scan QFUEL q p;
  _ ← (if on : bool then log "proc on q"
       else _ ← modify (fun s => upd_proc p (fun x => x <| p_link := runq (kp s) |>) s);
            modify (fun s => s <| kp; runq := Some p |>));
  splx s.

(** ** Wakeup *)

Definition setrun_with (wakeup : chan -> M unit) (p : nat) : M unit :=
  x ← gets (fun s => proc_at s p);
  if (p_stat x =? 0) || (p_stat x =? SZOMB) then panic "Running a dead proc"
  else
    match p_wchan x with
    | Some w => wakeup w
    | None =>
        _ ← modify (upd_proc p (fun x => x <| p_stat := SRUN |>));
        _ ← setrq p;
        lower ← gets (fun s => p_pri (proc_at s p) <? curpri (kp s));
        _ ← when lower (modify (fun s => s <| kp; runrun ::= fun r => i8 (r + 1) |>));
        out ← gets (fun s => negb (runout (kp s) =? 0) && negb (fset (p_flag (proc_at s p)) SLOAD));
        when out (_ ← modify (fun s => s <| kp; runout := 0 |>); wakeup ChRunout)
    end.

(** The loop of [wakeup] at [p], with [q] the process before it. *)
Fixpoint wakeup_loop (setrun : nat -> M unit) (n : nat) (i : Z) (c : chan) (p q : option nat) : M unit :=
  match p with
  | None => mret tt
  | Some p =>
      match n with
      | O => nofuel
      | S n =>
          x ← gets (fun s => proc_at s p);
          if bool_decide (p_wchan x = Some c) && negb (p_stat x =? SZOMB) then
            let sp := p_link x in
            _ ← modify (fun s => match q with
                  | None => s <| kp; slpque ::= <[i := sp]> |>
                  | Some q => upd_proc q (fun y => y <| p_link := sp |>) s
                  end);
            _ ← modify (upd_proc p (fun y => y <| p_wchan := None |>));
            _ ← setrun p;
            wakeup_loop setrun n i c sp q
          else wakeup_loop setrun n i c (p_link x) (Some p)
      end
  end.

(** [wakeup] and [setrun] call each other; [setrun] of a process that waits on
    nothing wakes only [&runout], after clearing [runout]. *)
Fixpoint wakeup_f (d : nat) (c : chan) : M unit :=
  match d with
  | O => nofuel
  | S d =>
      s ← spl6;
      let i := HASH c in
      p ← gets (fun s => slpque (kp s) i);
      _ ← wakeup_loop (setrun_with (wakeup_f d)) QFUEL i c p None;
      splx s
  end.

Definition wakeup : chan -> M unit := wakeup_f 3.
Definition setrun : nat -> M unit := setrun_with wakeup.

Definition setpri (pp : nat) : M Z :=
  x ← gets (fun s => proc_at s pp);
  let p := Z.quot (Z.land (p_cpu x) 255) 16 in
  let p := p + (PUSER + p_nice x - NZERO) in
  let p := if 127 <? p then 127 else p in
  cur ← gets (fun s => curpri (kp s));
  _ ← when (p <? cur) (modify (fun s => s <| kp; runrun ::= fun r => i8 (r + 1) |>));
  _ ← modify (upd_proc pp (fun x => x <| p_pri := i8 p |>));
  mret p.

(** ** Switching *)

(** The scan of the run queue; the result is [pp], [pq] and [n]. *)
Fixpoint swtch_scan (k : nat) (p q pp pq : option nat) (n : Z) : M (option nat * option nat * Z) :=
  match p with
  | None => mret (pp, pq, n)
  | Some p =>
      match k with
      | O => nofuel
      | S k =>
          x ← gets (fun s => proc_at s p);
          if (p_stat x =? SRUN) && fset (p_flag x) SLOAD && (p_pri x <? n)
          then swtch_scan k (p_link x) (Some p) (Some p) q (p_pri x)
          else swtch_scan k (p_link x) (Some p) pp pq n
      end
  end.

(** The processor goes to [p]; [me] continues when it is next resumed. *)
Definition await (p me : nat) : M unit := fun e s =>
  match e with
  | [] => Stop (Away p) s
  | f :: e' => Ret tt e' (f s <| ku; uarrp := me |>)
  end.

Definition resume (p me : nat) : M unit :=
  if decide (me = 0%nat) then fun _ s => Stop (Away p) s
  else if decide (p = me) then mret tt
  else await p me.

(** [epoch68_set_resume_usp] of [conf/trap0.c] *)
Definition set_resume_usp (p : nat) (s : kst) : kst :=
  s <| kx; resume_usp := if Nat.ltb p NPROC then proc_usp (kx s) p else 0 |>.

(** [found:] to the end of [swtch].  A process with [SSWAP] goes on at
    [u_ssav]: only [xexpand] of [sys/text.c], which is not modelled, sets it,
    and a context is the same process's either way. *)
Definition dispatch (me p : nat) (n : Z) : M unit :=
  x ← gets (fun s => proc_at s p);
  if negb (Nat.eqb p 0) &&
     (negb (p_stat x =? SRUN) || negb (fset (p_flag x) SLOAD) || (p_addr x <=? 0) ||
      (KERNEL_METADATA_PAGE <=? p_addr x))
  then panic "bad runnable"
  else
    _ ← modify (fun s => s <| kp; curpri := i8 n |>);
    _ ← modify (upd_proc p (fun x => x <| p_flag ::= fun f => i8 (fclr f SSWAP) |>));
    _ ← modify (fun s => s <| ku; uarrp := p |>);
    _ ← modify (upd_u (fun x => x <| u_procp := p |>));
    _ ← modify (fun s => s <| ku; syspage := u8 (p_addr x) |>);
    _ ← modify (set_resume_usp p);
    resume p me.

Definition swtch : M unit :=
  me ← gets curproc;
  _ ← when (negb (Nat.eqb me 0)) (modify (upd_u (fun x => x <| u_rsav := CtxSaved |>)));
  _ ← spl6;
  _ ← modify (fun s => s <| kp; runrun := 0 |>);
  q ← gets (fun s => runq (kp s));
  r ← swtch_scan QFUEL q None None None 128;
  match r with
  | (None, _, _) =>
      _ ← spl0;
      if Nat.eqb me 0 then mret tt else dispatch me 0 PUSER
  | (Some p, pq, n) =>
      _ ← modify (fun s =>
            let l := p_link (proc_at s p) in
            match pq with
            | None => s <| kp; runq := l |>
            | Some q => upd_proc q (fun y => y <| p_link := l |>) s
            end);
      dispatch me p n
  end.

Definition qswtch : M unit := me ← gets curproc; _ ← setrq me; swtch.

(** ** Signals *)

(** [for(i=1; i<NSIG; i++) { if(n & 1) return(i); n >>= 1; } return(0);] *)
Fixpoint fsig_loop (k : nat) (i n : Z) : Z :=
  match k with
  | O => 0
  | S k => if fset n 1 then i else fsig_loop k (i + 1) (Z.shiftr n 1)
  end.
Definition fsig (x : proc) : Z := fsig_loop 16 1 (p_sig x).

Definition clear_sig (n sig : Z) : Z := i16 (fclr sig (Z.shiftl 1 (n - 1))).

Fixpoint issig_loop (k : nat) (p : nat) : M Z :=
  x ← gets (fun s => proc_at s p);
  if p_sig x =? 0 then mret 0
  else match k with
  | O => nofuel
  | S k =>
      let n := fsig x in
      d ← gets (fun s => u_signal (u s) n);
      if negb (fset d 1) || fset (p_flag x) STRC then mret n
      else _ ← modify (upd_proc p (fun y => y <| p_sig ::= clear_sig n |>)); issig_loop k p
  end.
Definition issig : M Z := p ← gets curproc; issig_loop 16 p.

(** The test is of the lower 16 bits of [sig], as [unsigned]; the shift by
    another number of bits than there are in an [int] is undefined. *)
Definition psignal (p : nat) (sig : Z) : M unit :=
  if NSIG <=? u16 sig then mret tt
  else if negb ((0 <=? sig) && (sig <? NSIG)) then panic "undefined"
  else
    _ ← when (negb (sig =? 0))
          (modify (upd_proc p (fun x => x <| p_sig ::= fun g => i16 (Z.lor g (Z.shiftl 1 (sig - 1))) |>)));
    _ ← modify (upd_proc p (fun x => if PUSER <? p_pri x then x <| p_pri := PUSER |> else x));
    x ← gets (fun s => proc_at s p);
    when ((p_stat x =? SSLEEP) && (PZERO <? p_pri x)) (setrun p).

Definition signal (pgrp sig : Z) : M unit :=
  if pgrp =? 0 then mret tt
  else for_each (seq 0 NPROC) (fun p =>
         x ← gets (fun s => proc_at s p);
         when (p_pgrp x =? pgrp) (psignal p sig)).

(** ** Sleep *)

(** [resume(u.u_procp->p_addr, uarea_for_proc(u.u_procp)->u_qsav)] *)
Definition longjmp_qsav : M unit := fun e s => Stop (Longjmp e) s.

Definition sleep (c : chan) (pri : Z) : M unit :=
  rp ← gets curproc;
  s ← spl6;
  let h := HASH c in
  _ ← modify (upd_proc rp (fun x => x <| p_stat := SSLEEP |> <| p_wchan := Some c |> <| p_pri := i8 pri |>));
  _ ← modify (fun s => upd_proc rp (fun x => x <| p_link := slpque (kp s) h |>) s);
  _ ← modify (fun s => s <| kp; slpque ::= <[h := Some rp]> |>);
  if PZERO <? pri then
    sg ← issig;
    if negb (sg =? 0) then
      _ ← modify (upd_proc rp (fun x => x <| p_wchan := None |> <| p_stat := SRUN |>));
      _ ← modify (fun s => s <| kp; slpque ::= <[h := p_link (proc_at s rp)]> |>);
      _ ← spl0;
      longjmp_qsav
    else
      _ ← spl0;
      rin ← gets (fun s => runin (kp s));
      _ ← when (negb (rin =? 0)) (_ ← modify (fun s => s <| kp; runin := 0 |>); wakeup ChRunin);
      _ ← swtch;
      sg ← issig;
      if negb (sg =? 0) then longjmp_qsav else splx s
  else
    _ ← spl0;
    _ ← swtch;
    splx s.

(** ** Process creation *)

(** The scan of [newproc]: whether [mpid] is in use, and [p], which the scan
    sets to the first free slot it sees and which keeps its value over
    retries. *)
Fixpoint newproc_scan (l : list nat) (s : kst) (p : option nat) : bool * option nat :=
  match l with
  | [] => (false, p)
  | rpp :: r =>
      let x := proc_at s rpp in
      let p := match p with None => if p_stat x =? 0 then Some rpp else None | Some _ => p end in
      if (p_pid x =? mpid (kp s)) || (p_pgrp x =? mpid (kp s)) then (true, p)
      else newproc_scan r s p
  end.

(** [retry:] up to the end of the scan. *)
Fixpoint newproc_pid (k : nat) (p : option nat) : M (option nat) :=
  match k with
  | O => nofuel
  | S k =>
      _ ← modify (fun s => s <| kp; mpid ::= fun m => i32 (m + 1) |>);
      m ← gets (fun s => mpid (kp s));
      if 30000 <=? m then _ ← modify (fun s => s <| kp; mpid := 0 |>); newproc_pid k p
      else
        s ← gets id;
        let '(used, p) := newproc_scan (seq 0 NPROC) s p in
        if used : bool then newproc_pid k p else mret p
  end.

(** At most two numbers per process are in use, and [mpid] wraps once. *)
Definition PIDFUEL : nat := 130.

Definition free_proc (x : proc) : proc :=
  x <| p_flag := 0 |> <| p_pri := 0 |> <| p_time := 0 |> <| p_cpu := 0 |> <| p_nice := 0 |>
    <| p_sig := 0 |> <| p_uid := 0 |> <| p_pgrp := 0 |> <| p_pid := 0 |> <| p_ppid := 0 |>
    <| p_addr := 0 |> <| p_size := 0 |> <| p_wchan := None |> <| p_textp := None |>
    <| p_link := None |> <| p_clktim := 0 |> <| p_stat := 0 |>.

(** The trap frame built on the child's stack. *)
Definition child_frame (s : kst) (r : regname -> Z) : trapframe :=
  let regs := match fork_regs (ku s) with Some l => l | None => replicate 15 0 end in
  TrapFrame (u32 (r R6)) (<[0%nat := 0]> regs) (u16 (Z.land (r RPS) (Z.lnot 8192))) (u32 (r PC)).

Definition inc8 (x : Z) : Z := i8 (x + 1).

Definition lift_res {A} (r : res A) : M A :=
  match r with Ok a => mret a | Panic m => panic m | Undef => panic "undefined" end.

Definition upage_alloc : M Z :=
  up ← gets (fun s => upages_ (ku s));
  r ← lift_res (userpage_alloc up);
  let '(page, up) := r in
  _ ← modify (fun s => s <| ku; upages_ := up |>);
  mret page.

(** The shared references the child inherits. *)
Definition newproc_refs (up : nat) : M unit :=
  _ ← for_each (seqZ 0 NOFILE) (fun n =>
        fp ← gets (fun s => u_ofile (u s) n);
        match fp with None => mret tt
        | Some fp => modify (upd_file fp (fun f => f <| f_count ::= inc8 |>)) end);
  t ← gets (fun s => p_textp (proc_at s up));
  _ ← match t with None => mret tt
      | Some t => modify (fun s => s <| kf; texts ::= fun tx =>
                    <[t := tx t <| x_count ::= inc8 |> <| x_ccount ::= inc8 |>]> tx |>) end;
  cd ← gets (fun s => u_cdir (u s));
  _ ← modify (upd_inode cd (fun i => i <| i_count ::= inc8 |>));
  rd ← gets (fun s => u_rdir (u s));
  match rd with None => mret tt | Some rd => modify (upd_inode rd (fun i => i <| i_count ::= inc8 |>)) end.

(** The fields of the child's entry, from the parent's. *)
Definition newproc_entry (rpp rip : nat) (s : kst) : kst :=
  let y := proc_at s rip in upd_proc rpp (fun x =>
    x <| p_stat := SIDL |> <| p_clktim := 0 |> <| p_flag := SLOAD |> <| p_uid := p_uid y |>
      <| p_pgrp := p_pgrp y |> <| p_nice := p_nice y |> <| p_textp := p_textp y |>
      <| p_pid := i16 (mpid (kp s)) |> <| p_ppid := p_pid y |> <| p_sig := 0 |>
      <| p_wchan := None |> <| p_link := None |> <| p_time := 0 |> <| p_cpu := 0 |>
      <| p_size := p_size y |>) s.

Definition upd_ua (p : nat) (g : user -> user) (s : kst) : kst :=
  s <| ku; uarea ::= fun ua => <[p := g (ua p)]> ua |>.

(** [bcopy(parentu, childu, sizeof(struct user)); childu->u_procp = rpp;] *)
Definition copy_user (rip rpp : nat) (s : kst) : kst :=
  upd_ua rpp (fun _ => uarea (ku s) rip <| u_procp := rpp |>) s.

Definition copy_user_page (src_page dst_page : Z) (s : kst) : kst :=
  s <| ku; upmem ::= fun m => <[dst_page := m src_page]> m |>.

(** The copied stack is only used below the trap frame built next. *)
Definition copy_kernel_stack (parentp childp : nat) : M unit :=
  g ← gets (fun s => kguard (ku s) parentp);
  if negb g then panic "kstack"
  else modify (fun s => s <| ku; kguard ::= <[childp := true]> |>).

Definition setup_child_irq_frame (childp : nat) (s : kst) : kst :=
  upd_ua childp (fun x => match u_ar0 x with None => x
    | Some r => x <| u_rsav := CtxFrame (child_frame s r) |> end) s.

Definition child_times (rip rpp : nat) (s : kst) : kst :=
  upd_ua rpp (fun x => x <| u_ssav := u_rsav x |> <| u_r_val1 := 0 |>
    <| u_r_val2 := p_pid (proc_at s rip) |> <| u_start := time (kc s) |>
    <| u_cstime := 0 |> <| u_stime := 0 |> <| u_cutime := 0 |> <| u_utime := 0 |>
    <| u_acflag := AFORK |>) s.

Definition newproc (parentp : option nat) : M Z :=
  p ← newproc_pid PIDFUEL None;
  match p with
  | None => panic "no procs"
  | Some rpp =>
      cur ← gets curproc;
      let rip := match parentp with Some q => q | None => cur end in
      _ ← modify (newproc_entry rpp rip);
      a1 ← gets (fun s => p_addr (proc_at s rip));
      child_page ← upage_alloc;
      if child_page =? 0 then
        _ ← modify (upd_proc rpp free_proc);
        _ ← seterror ENOMEM;
        mret 0
      else
        _ ← modify (upd_proc rpp (fun x => x <| p_addr := i16 child_page |>));
        _ ← newproc_refs rip;
        _ ← modify (copy_user rip rpp);
        _ ← modify (copy_user_page a1 (i16 child_page));
        _ ← copy_kernel_stack rip rpp;
        _ ← modify (setup_child_irq_frame rpp);
        _ ← modify (child_times rip rpp);
        _ ← modify (upd_proc rpp (fun x => x <| p_stat := SRUN |>));
        _ ← setrq rpp;
        mret 0
  end.

Definition expand (newsize : Z) : M unit :=
  p ← gets curproc;
  let userclicks := i32 (newsize - USIZE) in
  if (newsize <? USIZE) || (USER_PAGE_SIZE <? i32 (ctob userclicks)) then seterror ENOMEM
  else modify (upd_proc p (fun x => x <| p_size := i16 newsize |>)).

(** [epoch68_set_proc_entry] *)
Definition set_proc_entry (p : nat) : M unit :=
  if (Nat.leb p 0) || (Nat.leb NPROC p) then panic "proc entry"
  else modify (upd_ua p (fun x => x <| u_rsav := CtxEntry |>)).

(** One turn of the loop of [sched]; [poll] stands for [epoch68_uart_poll_rx]. *)
Definition sched_turn (poll : M unit) : M unit := _ ← poll; swtch.

End Sched.

(** * The queues as lists *)

(** Following [lnk] from [o] visits [l] and ends at null. *)
Fixpoint chain (lnk : nat -> option nat) (o : option nat) (l : list nat) : Prop :=
  match l with
  | [] => o = None
  | p :: r => o = Some p /\ chain lnk (lnk p) r
  end.

Lemma chain_frame lnk lnk' o l :
  (forall p, p ∈ l -> lnk' p = lnk p) -> chain lnk o l -> chain lnk' o l.
Proof.
  revert o; induction l as [|p r IH]; simpl; intros o Hf H; [done|].
  destruct H as [-> H]. split; [done|]. rewrite Hf by set_solver. apply IH; [set_solver|done].
Qed.

Lemma chain_unlink lnk lnk' o l1 p l2 q :
  NoDup (l1 ++ p :: l2) -> chain lnk o (l1 ++ p :: l2) -> last l1 = Some q ->
  lnk' q = lnk p -> (forall x, x <> q -> lnk' x = lnk x) -> chain lnk' o (l1 ++ l2).
Proof.
  revert o; induction l1 as [|a r IH]; intros o Hnd Hc Hl Hq Hx; [done|].
  destruct Hc as [-> Hc]. apply NoDup_cons in Hnd as [Ha Hnd]. destruct r as [|b r].
  - simpl in Hl. injection Hl as ->. destruct Hc as [E Hc]. simpl. split; [done|].
    rewrite Hq. apply chain_frame with lnk; [|done].
    intros x Hin. apply Hx. set_solver.
  - change (last (a :: b :: r)) with (last (b :: r)) in Hl.
    split; [done|]. change ((b :: r) ++ l2) with (b :: r ++ l2).
    assert (Hqin : q ∈ b :: r) by (apply last_Some_elem_of in Hl; done).
    rewrite Hx by set_solver. by apply IH.
Qed.

Section Queues.
Context `{Layout}.

Definition plink (s : kst) (p : nat) : option nat := p_link (proc_at s p).

(** [RQ] is the run queue and [SQ h] the sleep queue of the hash value [h]. *)
Record queues (s : kst) (RQ : list nat) (SQ : Z -> list nat) : Prop := {
  q_run : chain (plink s) (runq (kp s)) RQ;
  q_slp : forall h, chain (plink s) (slpque (kp s) h) (SQ h);
  q_run_nd : NoDup RQ;
  q_slp_nd : forall h, NoDup (SQ h);
  q_run_in : forall p, p ∈ RQ -> (p < NPROC)%nat /\ p_stat (proc_at s p) = SRUN /\ p_wchan (proc_at s p) = None;
  q_slp_in : forall h p, p ∈ SQ h -> (p < NPROC)%nat /\ p_stat (proc_at s p) = SSLEEP /\
               exists c, p_wchan (proc_at s p) = Some c /\ HASH c = h
}.

(** Every process that waits is on a sleep queue. *)
Definition all_queued (s : kst) (SQ : Z -> list nat) : Prop :=
  forall p c, p_wchan (proc_at s p) = Some c -> p ∈ SQ (HASH c).

Definition waits_on (c : chan) (s : kst) (p : nat) : Prop := p_wchan (proc_at s p) = Some c.
#[export] Instance waits_on_dec c s p : Decision (waits_on c s p).
Proof. unfold waits_on. apply _. Defined.

(** The process with its queue link left out. *)
Definition nolink (x : proc) : proc := x <| p_link := None |>.

(** [s'] differs from [s] at most in the process table and the queues. *)
Definition only_kp (s s' : kst) : Prop :=
  ku s' = ku s /\ kb s' = kb s /\ kf s' = kf s /\ kc s' = kc s /\ kt s' = kt s /\ kipl s' = kipl s /\ klog s' = klog s /\ kx s' = kx s.

Lemma only_kp_refl s : only_kp s s.
Proof. done. Qed.
Lemma only_kp_trans s1 s2 s3 : only_kp s1 s2 -> only_kp s2 s3 -> only_kp s1 s3.
Proof. unfold only_kp. intuition congruence. Qed.
Lemma only_kp_u s s' : only_kp s s' -> u s' = u s.
Proof. unfold only_kp, u. intros (-> & _). done. Qed.

Lemma nodup_lt_length (l : list nat) n : NoDup l -> (forall p, p ∈ l -> (p < n)%nat) -> (length l <= n)%nat.
Proof.
  intros Hnd Hlt. rewrite <- (length_seq n 0). apply submseteq_length, NoDup_submseteq; [done|].
  intros p Hp. apply elem_of_seq. specialize (Hlt p Hp). lia.
Qed.

Lemma q_disjoint s RQ SQ h p : queues s RQ SQ -> p ∈ SQ h -> p ∈ RQ -> False.
Proof.
  intros Hq Hs Hr. destruct (q_run_in _ _ _ Hq p Hr) as (_ & _ & E).
  destruct (q_slp_in _ _ _ Hq h p Hs) as (_ & _ & c & E' & _). congruence.
Qed.

Lemma q_hash s RQ SQ h p c : queues s RQ SQ -> p ∈ SQ h -> p_wchan (proc_at s p) = Some c -> h = HASH c.
Proof. intros Hq Hs E. destruct (q_slp_in _ _ _ Hq h p Hs) as (_ & _ & c' & E' & <-). congruence. Qed.

(** ** [setrq] *)

Definition push_run (p : nat) (s : kst) : kst :=
  upd_proc p (fun x => x <| p_link := runq (kp s) |>) s <| kp; runq := Some p |>.

Lemma setrq_scan_fresh n l e s o p :
  chain (plink s) o l -> (length l <= n)%nat -> p ∉ l -> setrq_scan n o p e s = Ret false e s.
Proof.
  revert o n; induction l as [|a r IH]; simpl; intros o n Hc Hl Hp.
  - subst. by destruct n.
  - destruct Hc as [-> Hc]. destruct n as [|n]; [lia|]. simpl.
    rewrite decide_False by set_solver. unfold mbind, m_bind, gets. apply IH; [done|lia|set_solver].
Qed.

Lemma setrq_scan_dup n l e s o p :
  chain (plink s) o l -> (length l <= n)%nat -> p ∈ l -> setrq_scan n o p e s = Ret true e s.
Proof.
  revert o n; induction l as [|a r IH]; intros o n Hc Hl Hp; [set_solver|].
  destruct Hc as [-> Hc]. destruct n as [|n]; [simpl in Hl; lia|]. simpl.
  destruct (decide (a = p)); [done|].
  unfold mbind, m_bind, gets. apply IH; [done|simpl in Hl; lia|set_solver].
Qed.

Lemma setrq_fresh s e RQ p :
  chain (plink s) (runq (kp s)) RQ -> (length RQ <= 63)%nat -> p ∉ RQ -> setrq p e s = Ret tt e (push_run p s).
Proof.
  intros Hc Hl Hp. unfold setrq, spl6, spl.
  unfold mbind, m_bind. cbn [gets].
  rewrite (setrq_scan_fresh QFUEL RQ e (s <| kipl := 6 |>)); [|done|unfold QFUEL; lia|done].
  destruct s as [[]]; reflexivity.
Qed.

(** ** [setrun] of a process that waits on nothing *)

Definition run_proc (p : nat) (s : kst) : kst :=
  let s := push_run p (upd_proc p (fun x => x <| p_stat := SRUN |>) s) in
  if p_pri (proc_at s p) <? curpri (kp s) then s <| kp; runrun ::= fun r => i8 (r + 1) |> else s.

Lemma setrun_nowait wk s e RQ p :
  chain (plink s) (runq (kp s)) RQ -> (length RQ <= 63)%nat -> p ∉ RQ ->
  p_stat (proc_at s p) <> 0 -> p_stat (proc_at s p) <> SZOMB -> p_wchan (proc_at s p) = None ->
  runout (kp s) = 0 ->
  setrun_with wk p e s = Ret tt e (run_proc p s).
Proof.
  intros Hc Hl Hp H0 HZ Hw Hro. unfold setrun_with.
  unfold mbind at 1, m_bind at 1. cbn [gets].
  rewrite (proj2 (Z.eqb_neq _ _) H0), (proj2 (Z.eqb_neq _ _) HZ). cbn [orb]. rewrite Hw.
  unfold mbind at 1, m_bind at 1. cbn [modify].
  set (s1 := upd_proc p _ s).
  assert (Hc1 : chain (plink s1) (runq (kp s1)) RQ).
  { apply chain_frame with (plink s); [|done]. intros q Hq. unfold plink, s1.
    by rewrite proc_upd_ne by set_solver. }
  rewrite (bind_ret _ _ _ _ _ _ _ (setrq_fresh s1 e RQ p Hc1 Hl Hp)).
  unfold mbind, m_bind. cbn [gets]. unfold run_proc. fold s1.
  destruct (p_pri _ <? _); unfold when; cbn; rewrite Hro; reflexivity.
Qed.

Lemma plink_push p q s : q <> p -> plink (push_run p s) q = plink s q.
Proof.
  intros. unfold plink, push_run. change (proc_at (?s <| kp; runq := ?v |>)) with (proc_at s).
  by rewrite proc_upd_ne.
Qed.

Lemma run_proc_only p s : only_kp s (run_proc p s).
Proof. unfold run_proc. destruct (_ <? _); done. Qed.

Lemma run_proc_ne p q s : q <> p -> proc_at (run_proc p s) q = proc_at s q.
Proof.
  intros. unfold run_proc.
  transitivity (proc_at (push_run p (upd_proc p (fun x => x <| p_stat := SRUN |>) s)) q); [by destruct (_ <? _)|].
  unfold push_run. change (proc_at (?s <| kp; runq := ?v |>)) with (proc_at s).
  by rewrite !proc_upd_ne.
Qed.

Lemma run_proc_same p s : nolink (proc_at (run_proc p s) p) = nolink (proc_at s p <| p_stat := SRUN |>).
Proof.
  unfold run_proc.
  transitivity (nolink (proc_at (push_run p (upd_proc p (fun x => x <| p_stat := SRUN |>) s)) p)); [by destruct (_ <? _)|].
  unfold push_run. change (proc_at (?s <| kp; runq := ?v |>)) with (proc_at s).
  rewrite !proc_upd_same. by destruct (proc_at s p).
Qed.

Lemma run_proc_link p s : plink (run_proc p s) p = runq (kp s).
Proof.
  unfold run_proc.
  transitivity (plink (push_run p (upd_proc p (fun x => x <| p_stat := SRUN |>) s)) p); [by destruct (_ <? _)|].
  unfold plink, push_run. change (proc_at (?s <| kp; runq := ?v |>)) with (proc_at s).
  by rewrite proc_upd_same.
Qed.

Lemma run_proc_globals p s :
  runq (kp (run_proc p s)) = Some p /\ slpque (kp (run_proc p s)) = slpque (kp s) /\
  runout (kp (run_proc p s)) = runout (kp s).
Proof. unfold run_proc. destruct (_ <? _); done. Qed.

Lemma run_proc_queues s RQ SQ p :
  queues s RQ SQ -> (p < NPROC)%nat -> p ∉ RQ -> (forall h, p ∉ SQ h) -> p_wchan (proc_at s p) = None ->
  queues (run_proc p s) (p :: RQ) SQ.
Proof.
  intros Hq Hp Hr Hs Hw.
  destruct (run_proc_globals p s) as (Erq & Esl & _).
  assert (Hl : forall q, q <> p -> plink (run_proc p s) q = plink s q).
  { intros. unfold plink. by rewrite run_proc_ne. }
  pose proof (run_proc_same p s) as Esame. destruct Hq as [H1 H2 H3 H4 H5 H6]. split.
  - simpl. split; [done|]. rewrite run_proc_link. apply chain_frame with (plink s); [|done].
    intros q Hin. apply Hl. set_solver.
  - intros h. rewrite Esl. apply chain_frame with (plink s); [|done].
    intros q Hin. apply Hl. specialize (Hs h). set_solver.
  - by constructor.
  - done.
  - intros q Hin. apply elem_of_cons in Hin as [->|Hin].
    + split; [done|]. injection Esame as E1 _ _ _ _ _ _ _ _ _ _ _ _ E2 _ _. by rewrite E1, E2.
    + assert (q <> p) by set_solver. rewrite run_proc_ne by done. auto.
  - intros h q Hin. assert (q <> p) by (specialize (Hs h); set_solver). rewrite run_proc_ne by done. auto.
Qed.

(** Take [p], which follows [q] in the queue [i], off it. *)
Definition unlink_slp (i : Z) (p : nat) (q : option nat) (s : kst) : kst :=
  let sp := p_link (proc_at s p) in
  match q with
  | None => s <| kp; slpque ::= <[i := sp]> |>
  | Some q => upd_proc q (fun y => y <| p_link := sp |>) s
  end.

Lemma unlink_nolink i p q s x : nolink (proc_at (unlink_slp i p q s) x) = nolink (proc_at s x).
Proof.
  destruct q as [q|]; [|done]. unfold unlink_slp.
  destruct (decide (x = q)) as [->|]; [rewrite proc_upd_same; done | by rewrite proc_upd_ne].
Qed.

Lemma nolink_stat x y : nolink x = nolink y -> p_stat x = p_stat y /\ p_wchan x = p_wchan y.
Proof. destruct x, y. unfold nolink. cbn. intros [=]. by subst. Qed.

Lemma unlink_queues s RQ SQ i pre p rest :
  queues s RQ SQ -> SQ i = pre ++ p :: rest ->
  queues (unlink_slp i p (last pre) s) RQ (<[i := pre ++ rest]> SQ).
Proof.
  intros Hq E. pose proof (q_slp_nd _ _ _ Hq i) as Hnd. rewrite E in Hnd.
  assert (Hrun : forall q, last pre = Some q -> q ∉ RQ).
  { intros q Hl Hin. apply (q_disjoint s RQ SQ i q Hq); [|done]. rewrite E. apply last_Some_elem_of in Hl. set_solver. }
  assert (Hoth : forall q h, last pre = Some q -> h <> i -> q ∉ SQ h).
  { intros q h Hl Hh Hin. assert (Hin' : q ∈ SQ i) by (rewrite E; apply last_Some_elem_of in Hl; set_solver).
    destruct (q_slp_in _ _ _ Hq _ _ Hin') as (_&_&c&Ec&<-).
    apply Hh. by apply (q_hash _ _ _ _ _ _ Hq Hin). }
  pose proof (fun x => nolink_stat _ _ (unlink_nolink i p (last pre) s x)) as Hst.
  destruct Hq as [H1 H2 H3 H4 H5 H6]. split.
  - destruct (last pre) as [q|] eqn:El; [|done]. apply chain_frame with (plink s); [|done].
    intros x Hx. unfold plink, unlink_slp. rewrite proc_upd_ne; [done|]. intros ->. by apply (Hrun x).
  - intros h. specialize (H2 h). destruct (decide (h = i)) as [->|Hne].
    + rewrite fn_lookup_insert. rewrite E in H2. destruct (last pre) as [q|] eqn:El.
      * apply (chain_unlink (plink s) _ _ pre p rest q); try done.
        -- unfold plink, unlink_slp. by rewrite proc_upd_same.
        -- intros x Hx. unfold plink, unlink_slp. by rewrite proc_upd_ne.
      * apply last_None in El. subst pre. destruct H2 as [_ H2]. unfold unlink_slp. cbn.
        by rewrite fn_lookup_insert.
    + rewrite fn_lookup_insert_ne by done. destruct (last pre) as [q|] eqn:El.
      * apply chain_frame with (plink s); [|done].
        intros x Hx. unfold plink, unlink_slp. rewrite proc_upd_ne; [done|]. intros ->. by apply (Hoth x h).
      * unfold unlink_slp. cbn. by rewrite fn_lookup_insert_ne.
  - done.
  - intros h. destruct (decide (h = i)) as [->|Hne]; [|by rewrite fn_lookup_insert_ne].
    rewrite fn_lookup_insert.
    apply NoDup_app in Hnd as (N1 & N2 & N3). apply NoDup_cons in N3 as [N3 N4].
    apply NoDup_app. split_and!; [done| set_solver |done].
  - intros x Hx. destruct (Hst x) as [-> ->]. auto.
  - intros h x Hx. destruct (Hst x) as [-> ->]. apply H6.
    destruct (decide (h = i)) as [->|Hne]; [|by rewrite fn_lookup_insert_ne in Hx].
    rewrite fn_lookup_insert in Hx. rewrite E. set_solver.
Qed.

(** Updating a process that is on no queue, or outside what the queues see. *)
Lemma upd_proc_queues s RQ SQ p g :
  queues s RQ SQ -> p ∉ RQ -> (forall h, p ∉ SQ h) -> queues (upd_proc p g s) RQ SQ.
Proof.
  intros [H1 H2 H3 H4 H5 H6] Hr Hs.
  assert (Hl : forall q, q <> p -> proc_at (upd_proc p g s) q = proc_at s q) by (intros; by rewrite proc_upd_ne).
  split; [| |done|done| |].
  - apply chain_frame with (plink s); [|done]. intros q Hq. unfold plink. rewrite Hl; [done|]. set_solver.
  - intros h. apply chain_frame with (plink s); [|exact (H2 h)]. intros q Hq. unfold plink.
    rewrite Hl; [done|]. specialize (Hs h). set_solver.
  - intros q Hq. rewrite Hl; [auto|set_solver].
  - intros h q Hq. rewrite Hl; [auto|specialize (Hs h); set_solver].
Qed.

Lemma queues_ext s RQ SQ SQ' : (forall h, SQ h = SQ' h) -> queues s RQ SQ -> queues s RQ SQ'.
Proof. intros E [H1 H2 H3 H4 H5 H6]. split; try done; intros h; rewrite <- E; auto. Qed.

Lemma chain_next lnk o l1 p l2 : chain lnk o (l1 ++ p :: l2) -> lnk p = head l2.
Proof.
  revert o; induction l1 as [|a r IH]; simpl; intros o H0.
  - destruct H0 as [_ H0]. destruct l2; simpl in H0; [done|]. tauto.
  - destruct H0 as [_ H0]. eauto.
Qed.

Lemma q_len s RQ SQ : queues s RQ SQ -> (length RQ <= 63)%nat /\ forall h, (length (SQ h) <= 63)%nat.
Proof.
  intros Hq. split; [|intros h]; apply (nodup_lt_length _ NPROC).
  - apply Hq. - intros p Hp. by destruct (q_run_in _ _ _ Hq p Hp).
  - apply Hq. - intros p Hp. by destruct (q_slp_in _ _ _ Hq h p Hp).
Qed.

Definition woken (x : proc) : proc := x <| p_stat := SRUN |> <| p_wchan := None |>.

(** One sleeper taken off the queue [i] and made runnable. *)
Definition wake_one (i : Z) (p : nat) (q : option nat) (s : kst) : kst :=
  run_proc p (upd_proc p (fun y => y <| p_wchan := None |>) (unlink_slp i p q s)).

Lemma wake_one_spec s RQ SQ i pre p rest :
  queues s RQ SQ -> SQ i = pre ++ p :: rest ->
  let s' := wake_one i p (last pre) s in
  queues s' (p :: RQ) (<[i := pre ++ rest]> SQ) /\ only_kp s s' /\ runout (kp s') = runout (kp s) /\
  nolink (proc_at s' p) = nolink (woken (proc_at s p)) /\
  forall x, x <> p -> nolink (proc_at s' x) = nolink (proc_at s x).
Proof.
  intros Hq E s'. set (s1 := unlink_slp i p (last pre) s).
  set (s2 := upd_proc p (fun y => y <| p_wchan := None |>) s1).
  pose proof (unlink_queues _ _ _ _ _ _ _ Hq E) as Hq1. fold s1 in Hq1.
  assert (Hin : p ∈ SQ i) by (rewrite E; set_solver).
  assert (Hr : p ∉ RQ) by (intros Hr; by apply (q_disjoint _ _ _ i p Hq)).
  assert (Hs : forall h, p ∉ <[i := pre ++ rest]> SQ h).
  { intros h. destruct (decide (h = i)) as [->|Hne].
    - rewrite fn_lookup_insert. pose proof (q_slp_nd _ _ _ Hq i) as Hnd. rewrite E in Hnd.
      apply NoDup_app in Hnd as (_ & N2 & N3). apply NoDup_cons in N3 as [N3 _]. set_solver.
    - rewrite fn_lookup_insert_ne by done. intros Hh. apply Hne.
      destruct (q_slp_in _ _ _ Hq _ _ Hin) as (_&_&c&Ec&<-). by apply (q_hash _ _ _ _ _ _ Hq Hh). }
  assert (Hq2 : queues s2 RQ (<[i := pre ++ rest]> SQ)) by (by apply upd_proc_queues).
  assert (Ep : nolink (proc_at s2 p) = nolink (proc_at s p <| p_wchan := None |>)).
  { unfold s2. rewrite proc_upd_same. pose proof (unlink_nolink i p (last pre) s p) as En. fold s1 in En.
    revert En. unfold nolink. destruct (proc_at s1 p), (proc_at s p). cbn. intros [=]. by subst. }
  split_and!.
  - apply run_proc_queues; try done; [by destruct (q_slp_in _ _ _ Hq _ _ Hin)|].
    unfold s2. by rewrite proc_upd_same.
  - apply only_kp_trans with s2; [|apply run_proc_only]. unfold s2, s1, unlink_slp. by destruct (last pre).
  - unfold s', wake_one. fold s1. fold s2. destruct (run_proc_globals p s2) as (_ & _ & ->). unfold s2, s1, unlink_slp. by destruct (last pre).
  - unfold s', wake_one. fold s1. fold s2. rewrite run_proc_same. revert Ep.
    unfold woken, nolink. destruct (proc_at s2 p), (proc_at s p). cbn. intros [=]. by subst.
  - intros x Hx. unfold s', wake_one. rewrite run_proc_ne by done. rewrite proc_upd_ne by done. apply unlink_nolink.
Qed.

Lemma nolink_waits c s s' x : nolink (proc_at s' x) = nolink (proc_at s x) -> waits_on c s' x <-> waits_on c s x.
Proof. intros E. unfold waits_on. by destruct (nolink_stat _ _ E) as [_ ->]. Qed.

Lemma filter_waits c s s' (l : list nat) :
  (forall x, x ∈ l -> nolink (proc_at s' x) = nolink (proc_at s x)) ->
  filter (waits_on c s') l = filter (waits_on c s) l /\
  filter (fun p => ~ waits_on c s' p) l = filter (fun p => ~ waits_on c s p) l.
Proof.
  induction l as [|a r IH]; intros Hl; [done|].
  destruct IH as [I1 I2]; [intros; apply Hl; set_solver|].
  assert (Ha : waits_on c s' a <-> waits_on c s a) by (apply nolink_waits, Hl; set_solver).
  rewrite !filter_cons, I1, I2. split; repeat case_decide; tauto || (f_equal; done) || done.
Qed.

(** What waking the processes [W] on [c] does. *)
Definition woke (c : chan) (W : list nat) (s s' : kst) : Prop :=
  only_kp s s' /\ runout (kp s') = runout (kp s) /\
  (forall x, x ∈ W -> nolink (proc_at s' x) = nolink (woken (proc_at s x))) /\
  (forall x, x ∉ W -> nolink (proc_at s' x) = nolink (proc_at s x)).

Lemma nolink_woken x y : nolink x = nolink y -> nolink (woken x) = nolink (woken y).
Proof. destruct x, y. unfold woken, nolink. cbn. intros [=]. by subst. Qed.

Lemma woke_cons c p W s s1 s2 :
  p ∉ W -> only_kp s s1 -> runout (kp s1) = runout (kp s) ->
  nolink (proc_at s1 p) = nolink (woken (proc_at s p)) ->
  (forall x, x <> p -> nolink (proc_at s1 x) = nolink (proc_at s x)) ->
  woke c W s1 s2 -> woke c (p :: W) s s2.
Proof.
  intros Hp Ho Hr E1 E2 (Ho2 & Hr2 & E3 & E4). split_and!; [by apply only_kp_trans with s1|congruence| |].
  - intros x Hx. destruct (decide (x = p)) as [->|Hne].
    + by rewrite E4.
    + rewrite E3 by set_solver. apply nolink_woken. auto.
  - intros x Hx. rewrite E4 by set_solver. apply E2. set_solver.
Qed.

Lemma wakeup_loop_wake wk c k p q e s :
  waits_on c s p -> p_stat (proc_at s p) = SSLEEP ->
  (forall s1, s1 = upd_proc p (fun y => y <| p_wchan := None |>) (unlink_slp (HASH c) p q s) ->
    setrun_with wk p e s1 = Ret tt e (run_proc p s1)) ->
  wakeup_loop (setrun_with wk) (S k) (HASH c) c (Some p) q e s =
  wakeup_loop (setrun_with wk) k (HASH c) c (p_link (proc_at s p)) q e (wake_one (HASH c) p q s).
Proof.
  intros Hw Hst Hrun. cbn [wakeup_loop]. unfold mbind at 1, m_bind at 1. cbn [gets].
  unfold waits_on in Hw. rewrite (bool_decide_eq_true_2 _ Hw), Hst. cbn [andb negb Z.eqb SSLEEP SZOMB Pos.eqb].
  unfold mbind at 1, m_bind at 1. unfold modify at 1. cbv beta.
  unfold mbind at 1, m_bind at 1. unfold modify at 1. cbv beta.
  match goal with |- _ e (upd_proc p ?g ?s0) = _ => change s0 with (unlink_slp (HASH c) p q s) || idtac end.
  erewrite bind_ret; [|by apply Hrun; destruct q]. by destruct q.
Qed.

Lemma wakeup_loop_skip wk c k p q e s :
  ~ waits_on c s p ->
  wakeup_loop (setrun_with wk) (S k) (HASH c) c (Some p) q e s =
  wakeup_loop (setrun_with wk) k (HASH c) c (p_link (proc_at s p)) (Some p) e s.
Proof.
  intros Hw. cbn [wakeup_loop]. unfold mbind at 1, m_bind at 1. cbn [gets].
  unfold waits_on in Hw. by rewrite (bool_decide_eq_false_2 _ Hw).
Qed.

Lemma wakeup_loop_ok wk c e rest : forall k pre s RQ SQ,
  queues s RQ SQ -> runout (kp s) = 0 -> SQ (HASH c) = pre ++ rest -> (length rest <= k)%nat ->
  exists s', wakeup_loop (setrun_with wk) k (HASH c) c (head rest) (last pre) e s = Ret tt e s' /\
    queues s' (rev (filter (waits_on c s) rest) ++ RQ)
              (<[HASH c := pre ++ filter (fun p => ~ waits_on c s p) rest]> SQ) /\
    woke c (filter (waits_on c s) rest) s s'.
Proof.
  induction rest as [|p rest IH]; intros k pre s RQ SQ Hq Hro E Hk.
  - exists s. split; [by destruct k|]. split.
    + eapply queues_ext; [|exact Hq]. intros h. destruct (decide (h = HASH c)) as [->|]; [|by rewrite fn_lookup_insert_ne].
      by rewrite fn_lookup_insert, E.
    + unfold woke. split_and!; try done. intros x Hx. by apply elem_of_nil in Hx.
  - destruct k as [|k]; [simpl in Hk; lia|]. cbn [head].
    pose proof (q_slp _ _ _ Hq (HASH c)) as Hc. rewrite E in Hc. pose proof (chain_next _ _ _ _ _ Hc) as Hnx.
    assert (Hin : p ∈ SQ (HASH c)) by (rewrite E; set_solver).
    destruct (q_slp_in _ _ _ Hq _ _ Hin) as (Hp & Hst & _).
    assert (Hprest : p ∉ rest).
    { pose proof (q_slp_nd _ _ _ Hq (HASH c)) as Hnd. rewrite E in Hnd.
      apply NoDup_app in Hnd as (_&_&N). by apply NoDup_cons in N as [? _]. }
    destruct (decide (waits_on c s p)) as [Hw|Hw].
    + destruct (wake_one_spec s RQ SQ (HASH c) pre p rest Hq E) as (Q1 & O1 & R1 & P1 & X1).
      set (s1 := wake_one (HASH c) p (last pre) s) in *.
      assert (Hr : p ∉ RQ) by (intros Hr; by apply (q_disjoint _ _ _ _ _ Hq Hin)).
      rewrite wakeup_loop_wake; [|done|done|].
      2:{ intros s0 Es0. destruct (q_len _ _ _ Hq) as [Hlen _].
          pose proof (unlink_queues _ _ _ _ _ _ _ Hq E) as Hq0.
          assert (Hn : nolink (proc_at s0 p) = nolink (proc_at s p <| p_wchan := None |>)).
          { subst s0. rewrite proc_upd_same. pose proof (unlink_nolink (HASH c) p (last pre) s p) as En.
            revert En. unfold nolink. destruct (proc_at _ p), (proc_at s p). cbn. intros [=]. by subst. }
          destruct (nolink_stat _ _ Hn) as [Es Ew]. change (p_stat (proc_at s p <| p_wchan := None |>)) with (p_stat (proc_at s p)) in Es.
          apply setrun_nowait with RQ; try done.
          - subst s0. apply chain_frame with (plink (unlink_slp (HASH c) p (last pre) s)); [|exact (q_run _ _ _ Hq0)].
            intros x Hx. unfold plink. rewrite proc_upd_ne; [done|]. intros ->. done.
          - by rewrite Es, Hst.
          - by rewrite Es, Hst.
          - subst s0. unfold unlink_slp. by destruct (last pre). }
      fold s1. unfold plink in Hnx. rewrite Hnx.
      destruct (filter_waits c s s1 rest) as [F1 F2]; [intros x Hx; apply X1; congruence|].
      destruct (IH k pre s1 (p :: RQ) _ Q1) as (s' & Hrun & Q' & W'); [congruence|by rewrite fn_lookup_insert|simpl in Hk; lia|].
      exists s'. split; [done|]. rewrite F1, F2 in *. rewrite !filter_cons.
      rewrite decide_True by done. rewrite (decide_False (P := ~ waits_on c s p)) by tauto. split.
      * simpl. rewrite <- app_assoc. simpl. eapply queues_ext; [|exact Q']. intros h.
        destruct (decide (h = HASH c)) as [->|]; [by rewrite !fn_lookup_insert | by rewrite !fn_lookup_insert_ne].
      * apply woke_cons with s1; try done. intros Hf. apply list_elem_of_filter in Hf. tauto.
    + rewrite wakeup_loop_skip by done. unfold plink in Hnx. rewrite Hnx.
      replace (Some p) with (last (pre ++ [p])) by (by rewrite last_snoc).
      destruct (IH k (pre ++ [p]) s RQ SQ Hq Hro) as (s' & Hrun & Q' & W'); [by rewrite <- app_assoc|simpl in Hk; lia|].
      exists s'. split; [done|]. rewrite !filter_cons.
      rewrite (decide_False (P := waits_on c s p)) by done. rewrite decide_True by done. split; [|done].
      by rewrite <- app_assoc in Q'.
Qed.

Lemma queues_only s s' RQ SQ :
  procs (kp s') = procs (kp s) -> runq (kp s') = runq (kp s) -> slpque (kp s') = slpque (kp s) ->
  queues s RQ SQ -> queues s' RQ SQ.
Proof.
  intros E1 E2 E3 [H1 H2 H3 H4 H5 H6].
  assert (Ep : proc_at s' = proc_at s) by (unfold proc_at; by rewrite E1).
  assert (El : plink s' = plink s) by (unfold plink; by rewrite Ep).
  split; rewrite ?Ep, ?El, ?E2, ?E3; done.
Qed.

Definition wake_SQ (c : chan) (s : kst) (SQ : Z -> list nat) : Z -> list nat :=
  <[HASH c := filter (fun p => ~ waits_on c s p) (SQ (HASH c))]> SQ.

Lemma wakeup_f_ok d c e s RQ SQ :
  queues s RQ SQ -> runout (kp s) = 0 ->
  exists s', wakeup_f (S d) c e s = Ret tt e s' /\
    queues s' (rev (filter (waits_on c s) (SQ (HASH c))) ++ RQ) (wake_SQ c s SQ) /\
    woke c (filter (waits_on c s) (SQ (HASH c))) s s'.
Proof.
  intros Hq Hro. set (s0 := s <| kipl := 6 |>).
  assert (Hq0 : queues s0 RQ SQ) by by apply queues_only with s.
  destruct (q_len _ _ _ Hq) as [_ Hl]. specialize (Hl (HASH c)).
  destruct (wakeup_loop_ok (wakeup_f d) c e (SQ (HASH c)) QFUEL [] s0 RQ SQ Hq0 Hro) as (s' & Hrun & Q' & W');
    [done|unfold QFUEL; lia|].
  exists (s' <| kipl := kipl s |>).
  assert (Hhd : slpque (kp s0) (HASH c) = head (SQ (HASH c))).
  { pose proof (q_slp _ _ _ Hq0 (HASH c)) as Hc. destruct (SQ (HASH c)); [done|]. apply Hc. }
  split_and!.
  - cbn [wakeup_f]. unfold spl6, spl. unfold mbind at 1, m_bind at 1. fold s0.
    unfold mbind at 1, m_bind at 1. cbn [gets]. rewrite Hhd.
    rewrite (bind_ret _ _ _ _ _ _ _ Hrun). done.
  - apply queues_only with s'; done.
  - destruct W' as ((?&?&?&?&?&?&?) & Hr & W1 & W2). by split_and!.
Qed.

Lemma waits_sleepers c s RQ SQ p :
  queues s RQ SQ -> all_queued s SQ -> p ∈ filter (waits_on c s) (SQ (HASH c)) <-> waits_on c s p.
Proof.
  intros Hq Ha. rewrite list_elem_of_filter. split; [tauto|]. intros Hw. split; [done|]. by apply Ha.
Qed.

Lemma wakeup_ok c e s RQ SQ :
  queues s RQ SQ -> all_queued s SQ -> runout (kp s) = 0 ->
  exists s', wakeup c e s = Ret tt e s' /\
    queues s' (rev (filter (waits_on c s) (SQ (HASH c))) ++ RQ) (wake_SQ c s SQ) /\
    all_queued s' (wake_SQ c s SQ) /\ only_kp s s' /\ runout (kp s') = 0 /\
    (forall p, waits_on c s p -> nolink (proc_at s' p) = nolink (woken (proc_at s p))) /\
    (forall p, ~ waits_on c s p -> nolink (proc_at s' p) = nolink (proc_at s p)).
Proof.
  intros Hq Ha Hro. destruct (wakeup_f_ok 2 c e s RQ SQ Hq Hro) as (s' & Hrun & Q' & Ho & Hr & W1 & W2).
  exists s'.
  assert (X1 : forall p, waits_on c s p -> nolink (proc_at s' p) = nolink (woken (proc_at s p))).
  { intros p Hw. apply W1. by apply (waits_sleepers _ _ RQ). }
  assert (X2 : forall p, ~ waits_on c s p -> nolink (proc_at s' p) = nolink (proc_at s p)).
  { intros p Hw. apply W2. by rewrite (waits_sleepers _ _ RQ). }
  split_and!; try done; [|congruence].
  intros p c' Hc'. destruct (decide (waits_on c s p)) as [Hw|Hw].
  - destruct (nolink_stat _ _ (X1 p Hw)) as [_ E]. rewrite E in Hc'. done.
  - destruct (nolink_stat _ _ (X2 p Hw)) as [_ E]. rewrite E in Hc'. pose proof (Ha _ _ Hc') as Hin.
    unfold wake_SQ. destruct (decide (HASH c' = HASH c)) as [Eh|Hne].
    + rewrite Eh, fn_lookup_insert. rewrite Eh in Hin. apply list_elem_of_filter. done.
    + by rewrite fn_lookup_insert_ne.
Qed.

(** ** [swtch] *)

Definition eligible (s : kst) (p : nat) : Prop :=
  p_stat (proc_at s p) = SRUN /\ fset (p_flag (proc_at s p)) SLOAD = true.
Definition pri (s : kst) (p : nat) : Z := p_pri (proc_at s p).

(** [p] follows [l1] in the queue and has the least priority number among the
    processes that can run, the first such in queue order. *)
Definition best_at (s : kst) (l1 : list nat) (p : nat) (l2 : list nat) : Prop :=
  eligible s p /\ (forall q, q ∈ l1 -> eligible s q -> pri s p < pri s q) /\
  (forall q, q ∈ l2 -> eligible s q -> pri s p <= pri s q).

Definition best (s : kst) (l : list nat) (r : option nat * option nat * Z) : Prop :=
  match r with
  | (None, _, n) => n = 128 /\ forall q, q ∈ l -> ~ eligible s q
  | (Some p, pq, n) => exists l1 l2, l = l1 ++ p :: l2 /\ pq = last l1 /\ n = pri s p /\ best_at s l1 p l2
  end.

Lemma swtch_scan_ok e s rest : forall k pre o pp pq n,
  (forall p, pri s p < 128) ->
  chain (plink s) o (pre ++ rest) -> (length rest <= k)%nat -> best s pre (pp, pq, n) ->
  exists r, swtch_scan k (head rest) (last pre) pp pq n e s = Ret r e s /\ best s (pre ++ rest) r.
Proof.
  induction rest as [|p rest IH]; intros k pre o pp pq n Hpri Hc Hk Hb.
  - exists (pp, pq, n). rewrite app_nil_r. split; [by destruct k|done].
  - destruct k as [|k]; [simpl in Hk; lia|]. cbn [head swtch_scan]. unfold mbind, m_bind at 1. cbn [gets].
    pose proof (chain_next _ _ _ _ _ Hc) as Hn. unfold plink in Hn. rewrite Hn.
    assert (Hstep : forall pp' pq' n', best s (pre ++ [p]) (pp', pq', n') ->
      exists r, swtch_scan k (head rest) (Some p) pp' pq' n' e s = Ret r e s /\ best s (pre ++ p :: rest) r).
    { intros pp' pq' n' Hb'. destruct (IH k (pre ++ [p]) o pp' pq' n') as (r & Hr & Hbr); try done.
      - by rewrite <- app_assoc. - simpl in Hk; lia.
      - exists r. rewrite last_snoc in Hr. by rewrite <- app_assoc in Hbr. }
    destruct ((p_stat (proc_at s p) =? SRUN) && fset (p_flag (proc_at s p)) SLOAD && (p_pri (proc_at s p) <? n)) eqn:Et.
    + apply andb_true_iff in Et as [Et1 Et2]. apply andb_true_iff in Et1 as [Et0 Et1].
      apply Z.eqb_eq in Et0. apply Z.ltb_lt in Et2. apply Hstep.
      exists pre, []. split_and!; try done. split; [done|]. split; [|intros; set_solver].
      intros q Hq Hel. destruct pp as [p0|].
      * destruct Hb as (l1 & l2 & -> & -> & -> & _ & B1 & B2). unfold pri in *.
        apply elem_of_app in Hq as [Hq|Hq]; [specialize (B1 q Hq Hel); lia|].
        apply elem_of_cons in Hq as [->|Hq]; [lia|]. specialize (B2 q Hq Hel). lia.
      * destruct Hb as [_ Hb]. by destruct (Hb q Hq).
    + assert (Hp : eligible s p -> n <= pri s p).
      { intros [E1 E2]. rewrite E1, E2 in Et. unfold pri. simpl in Et. apply Z.ltb_ge in Et. lia. }
      apply Hstep. destruct pp as [p0|].
      * destruct Hb as (l1 & l2 & -> & -> & -> & Hel & B1 & B2). exists l1, (l2 ++ [p]).
        rewrite <- app_assoc. split_and!; try done. split_and!; try done.
        intros q Hq Hq'. apply elem_of_app in Hq as [Hq|Hq]; [auto|]. apply list_elem_of_singleton in Hq as ->. auto.
      * destruct Hb as [-> Hb]. split; [done|]. intros q Hq. apply elem_of_app in Hq as [Hq|Hq]; [auto|].
        apply list_elem_of_singleton in Hq as ->. intros Hel. specialize (Hp Hel). specialize (Hpri p). lia.
Qed.

Definition unlink_run (p : nat) (pq : option nat) (s : kst) : kst :=
  let l := p_link (proc_at s p) in
  match pq with
  | None => s <| kp; runq := l |>
  | Some q => upd_proc q (fun y => y <| p_link := l |>) s
  end.

Lemma unlink_run_nolink p pq s x : nolink (proc_at (unlink_run p pq s) x) = nolink (proc_at s x).
Proof.
  destruct pq as [q|]; [|done]. unfold unlink_run.
  destruct (decide (x = q)) as [->|]; [rewrite proc_upd_same; done | by rewrite proc_upd_ne].
Qed.

Lemma unlink_run_queues s l1 p l2 SQ :
  queues s (l1 ++ p :: l2) SQ -> queues (unlink_run p (last l1) s) (l1 ++ l2) SQ.
Proof.
  intros Hq.
  assert (Hslp : forall q h, last l1 = Some q -> q ∉ SQ h).
  { intros q h Hl Hin. apply (q_disjoint _ _ _ h q Hq Hin). apply last_Some_elem_of in Hl. set_solver. }
  pose proof (fun x => nolink_stat _ _ (unlink_run_nolink p (last l1) s x)) as Hst.
  destruct Hq as [H1 H2 H3 H4 H5 H6]. split; [| | |done| |].
  - destruct (last l1) as [q|] eqn:El.
    + apply (chain_unlink (plink s) _ _ l1 p l2 q); try done.
      * unfold plink, unlink_run. by rewrite proc_upd_same.
      * intros x Hx. unfold plink, unlink_run. by rewrite proc_upd_ne.
    + apply last_None in El. subst l1. by destruct H1 as [_ H1].
  - intros h. specialize (H2 h). destruct (last l1) as [q|] eqn:El; [|exact H2].
    apply chain_frame with (plink s); [|exact H2]. intros x Hx. unfold plink, unlink_run.
    rewrite proc_upd_ne; [done|]. intros ->. by apply (Hslp x h).
  - apply NoDup_app in H3 as (N1 & N2 & N3). apply NoDup_cons in N3 as [_ N3].
    apply NoDup_app. split_and!; [done|set_solver|done].
  - intros x Hx. destruct (Hst x) as [-> ->]. apply H5. set_solver.
  - intros h x Hx. destruct (Hst x) as [-> ->]. by apply H6.
Qed.

Lemma upd_flag_queues s RQ SQ p g : queues s RQ SQ -> queues (upd_proc p (fun x => x <| p_flag ::= g |>) s) RQ SQ.
Proof.
  intros [H1 H2 H3 H4 H5 H6].
  assert (E : forall x, plink (upd_proc p (fun x => x <| p_flag ::= g |>) s) x = plink s x /\
      p_stat (proc_at (upd_proc p (fun x => x <| p_flag ::= g |>) s) x) = p_stat (proc_at s x) /\
      p_wchan (proc_at (upd_proc p (fun x => x <| p_flag ::= g |>) s) x) = p_wchan (proc_at s x)).
  { intros x. unfold plink. destruct (decide (x = p)) as [->|]; [rewrite proc_upd_same | rewrite proc_upd_ne]; done. }
  split; [| |done|done| |].
  - apply chain_frame with (plink s); [|done]. intros x _. apply E.
  - intros h. apply chain_frame with (plink s); [|exact (H2 h)]. intros x _. apply E.
  - intros x Hx. destruct (E x) as (_ & -> & ->). auto.
  - intros h x Hx. destruct (E x) as (_ & -> & ->). auto.
Qed.

(** The state in which [dispatch] gives the processor to [p]. *)
Definition dispatched (p : nat) (n : Z) (s : kst) : kst :=
  set_resume_usp p
    (upd_u (fun x => x <| u_procp := p |>)
      (upd_proc p (fun x => x <| p_flag ::= fun f => i8 (fclr f SSWAP) |>)
        (s <| kp; curpri := i8 n |>) <| ku; uarrp := p |>)
    <| ku; syspage := u8 (p_addr (proc_at s p)) |>).

Definition can_dispatch (s : kst) (p : nat) : Prop :=
  p = 0%nat \/ (eligible s p /\ 0 < p_addr (proc_at s p) < KERNEL_METADATA_PAGE).

Lemma dispatch_ok me p n e s : can_dispatch s p -> dispatch me p n e s = resume p me e (dispatched p n s).
Proof.
  intros Hd. unfold dispatch. unfold mbind at 1, m_bind at 1. cbn [gets].
  match goal with |- (if ?b then _ else _) e s = _ => replace b with false end; [done|].
  symmetry. destruct Hd as [->|[[E1 E2] Ha]]; [done|]. rewrite E1, E2. unfold KERNEL_METADATA_PAGE in *.
  rewrite (proj2 (Z.leb_gt _ _)) by lia. rewrite (proj2 (Z.leb_gt _ _)) by lia. by rewrite andb_false_r.
Qed.

Lemma dispatched_queues p n s RQ SQ : queues s RQ SQ -> queues (dispatched p n s) RQ SQ.
Proof.
  intros Hq. apply queues_only with (upd_proc p (fun x => x <| p_flag ::= fun f => i8 (fclr f SSWAP) |>) s); try done.
  by apply upd_flag_queues.
Qed.

Lemma swtch_ok me e s RQ SQ :
  queues s RQ SQ -> curproc s = me -> me <> 0%nat -> (forall p, -128 <= pri s p < 128) ->
  (forall p, p ∈ RQ -> 0 < p_addr (proc_at s p) < KERNEL_METADATA_PAGE) ->
  (exists p l1 l2 s', RQ = l1 ++ p :: l2 /\ best_at s l1 p l2 /\
     swtch e s = resume p me e s' /\ queues s' (l1 ++ l2) SQ /\
     uarrp (ku s') = p /\ curproc s' = p /\ curpri (kp s') = pri s p /\ runrun (kp s') = 0) \/
  ((forall q, q ∈ RQ -> ~ eligible s q) /\
   exists s', swtch e s = resume 0 me e s' /\ queues s' RQ SQ /\ uarrp (ku s') = 0%nat /\ curpri (kp s') = PUSER).
Proof.
  intros Hq Hme Hne Hpri Haddr. subst me.
  set (s0 := upd_u (fun x => x <| u_rsav := CtxSaved |>) s <| kipl := 6 |> <| kp; runrun := 0 |>).
  assert (Hq0 : queues s0 RQ SQ) by (by apply queues_only with s).
  destruct (q_len _ _ _ Hq) as [Hl _].
  destruct (swtch_scan_ok e s0 RQ QFUEL [] (runq (kp s0)) None None 128) as (r & Hr & Hb);
    [intros p; apply Hpri|apply Hq0|unfold QFUEL; lia|split; [done|set_solver]|].
  assert (Hhd : runq (kp s) = head RQ).
  { pose proof (q_run _ _ _ Hq) as Hc. destruct RQ; [done|]. apply Hc. }
  assert (Hsw : swtch e s = match r with
    | (None, _, _) => (_ ← spl0; dispatch (curproc s) 0 PUSER) e s0
    | (Some p, pq, n) => dispatch (curproc s) p n e (unlink_run p pq s0) end).
  { unfold swtch. unfold mbind at 1, m_bind at 1. cbn [gets].
    rewrite (proj2 (Nat.eqb_neq _ _) Hne). cbn [negb when].
    unfold mbind at 1, m_bind at 1. cbn [modify]. unfold spl6 at 1, spl at 1. unfold mbind at 1, m_bind at 1.
    unfold mbind at 1, m_bind at 1. cbn [modify]. unfold mbind at 1, m_bind at 1. cbn [gets].
    change (runq (kp (upd_u _ s <| kipl := 6 |> <| kp; runrun := 0 |>))) with (runq (kp s)). rewrite Hhd.
    fold s0. erewrite bind_ret by exact Hr. by destruct r as [[[p|] pq] n]. }
  destruct r as [[[p|] pq] n].
  - left. destruct Hb as (l1 & l2 & E & -> & -> & Hbest). simpl in E. exists p, l1, l2.
    exists (dispatched p (pri s0 p) (unlink_run p (last l1) s0)). rewrite E in *.
    destruct (nolink_stat _ _ (unlink_run_nolink p (last l1) s0 p)) as [Es _].
    split_and!; try done.
    + rewrite Hsw. apply dispatch_ok. right. destruct Hbest as [[B1 B2] _].
      assert (Hn : p_flag (proc_at (unlink_run p (last l1) s0) p) = p_flag (proc_at s0 p) /\
                   p_addr (proc_at (unlink_run p (last l1) s0) p) = p_addr (proc_at s0 p)).
      { pose proof (unlink_run_nolink p (last l1) s0 p) as En. revert En. unfold nolink.
        destruct (proc_at _ p), (proc_at s0 p). cbn. intros [=]. by subst. }
      destruct Hn as [Hn1 Hn2]. unfold eligible. rewrite Es, Hn1, Hn2. split; [done|]. apply Haddr, elem_of_app. right. by left.
    + apply dispatched_queues, unlink_run_queues. done.
    + unfold curproc, dispatched. change (u (set_resume_usp ?q (?x <| ku; syspage := ?v |>))) with (u x). by rewrite u_upd_u.
    + unfold dispatched. change (i8 (pri s p) = pri s p). apply i8_id. apply Hpri.
    + unfold dispatched, unlink_run. by destruct (last l1).
  - right. destruct Hb as [_ Hb]. split; [exact Hb|].
    exists (dispatched 0 PUSER (s0 <| kipl := 0 |>)). split_and!; [| |done|done].
    + rewrite Hsw. unfold spl0, spl. unfold mbind, m_bind. apply dispatch_ok. by left.
    + apply dispatched_queues. by apply queues_only with s0.
Qed.

(** ** Process numbers *)

Definition used_pid (s : kst) (m : Z) : Prop :=
  exists p, (p < NPROC)%nat /\ (p_pid (proc_at s p) = m \/ p_pgrp (proc_at s p) = m).

Definition pids_of (s : kst) : list Z :=
  ((fun p => p_pid (proc_at s p)) <$> seq 0 NPROC) ++ ((fun p => p_pgrp (proc_at s p)) <$> seq 0 NPROC).

Definition free_slot (s : kst) (p : nat) : Prop := p_stat (proc_at s p) = 0.

#[export] Instance free_slot_dec s p : Decision (free_slot s p).
Proof. unfold free_slot. apply _. Defined.

(** The first free slot of the table. *)
Definition first_free (s : kst) : option nat := head (filter (free_slot s) (seq 0 NPROC)).

Lemma newproc_scan_spec s l : forall p, 
  let r := newproc_scan l s p in
  let f := match p with Some q => Some q | None => head (filter (free_slot s) l) end in
  if r.1 then (exists q, q ∈ l /\ (p_pid (proc_at s q) = mpid (kp s) \/ p_pgrp (proc_at s q) = mpid (kp s))) /\
              (r.2 = None \/ r.2 = f)
  else (forall q, q ∈ l -> p_pid (proc_at s q) <> mpid (kp s) /\ p_pgrp (proc_at s q) <> mpid (kp s)) /\ r.2 = f.
Proof.
  induction l as [|a r IH]; intros p; cbn [newproc_scan].
  - split; [intros q Hq; by apply elem_of_nil in Hq|]. by destruct p.
  - assert (Ef : match match p with None => if p_stat (proc_at s a) =? 0 then Some a else None | Some _ => p end with
                 | Some q => Some q | None => head (filter (free_slot s) r) end =
                 match p with Some q => Some q | None => head (filter (free_slot s) (a :: r)) end).
    { destruct p as [p|]; [done|]. rewrite filter_cons. unfold free_slot at 2.
      destruct (Z.eqb_spec (p_stat (proc_at s a)) 0) as [E0|E0];
        [by rewrite decide_True by done | by rewrite decide_False by done]. }
    destruct ((p_pid (proc_at s a) =? mpid (kp s)) || (p_pgrp (proc_at s a) =? mpid (kp s))) eqn:Eu; cbn [fst snd].
    + split.
      * exists a. split; [by left|]. apply orb_true_iff in Eu. rewrite !Z.eqb_eq in Eu. done.
      * rewrite <- Ef. destruct p; [by right|]. destruct (_ =? 0); [by right|by left].
    + apply orb_false_iff in Eu as [E1 E2]. apply Z.eqb_neq in E1, E2.
      specialize (IH (match p with None => if p_stat (proc_at s a) =? 0 then Some a else None | Some _ => p end)).
      cbn zeta in IH. rewrite Ef in IH. destruct (newproc_scan _ _ _).1.
      * destruct IH as [(q & Hq & Hu) IH]. split; [|done]. exists q. split; [by right|done].
      * destruct IH as [IH1 ->]. split; [|done]. intros q Hq. apply elem_of_cons in Hq as [->|Hq]; auto.
Qed.

(** The number tried after [m], and the [k]th one. *)
Definition next_pid (m : Z) : Z := if 30000 <=? m + 1 then 1 else m + 1.
Definition with_mpid (m : Z) (s : kst) : kst := s <| kp; mpid := m |>.

Lemma newproc_pid_step k p e s :
  0 <= mpid (kp s) < 30000 ->
  let m := next_pid (mpid (kp s)) in
  newproc_pid (S (S k)) p e s =
  let '(used, p) := newproc_scan (seq 0 NPROC) (with_mpid m s) p in
  if used then newproc_pid (if mpid (kp s) =? 29999 then k else S k) p e (with_mpid m s)
  else Ret p e (with_mpid m s).
Proof.
  intros Hm m. cbn [newproc_pid]. unfold mbind at 1, m_bind at 1. cbn [modify].
  unfold mbind at 1, m_bind at 1. cbn [gets].
  change (mpid (kp (s <| kp; mpid ::= fun m0 => i32 (m0 + 1) |>))) with (i32 (mpid (kp s) + 1)).
  rewrite i32_id by lia. unfold m, next_pid.
  destruct (Z.leb_spec 30000 (mpid (kp s) + 1)).
  - assert (mpid (kp s) = 29999) as E by lia. rewrite E. cbn [Z.eqb Pos.eqb].
    unfold mbind at 1, m_bind at 1. cbn [modify]. cbn [newproc_pid].
    unfold mbind at 1, m_bind at 1. cbn [modify]. unfold mbind at 1, m_bind at 1. cbn [gets].
    unfold mbind at 1, m_bind at 1.
    match goal with |- _ e ?s0 = _ => replace s0 with (with_mpid 1 s) by (by destruct s as [[]]) end.
    change (30000 <=? mpid (kp _)) with false. cbn [gets id].
    unfold mbind at 1, m_bind at 1. cbn [gets id]. by destruct (newproc_scan _ _ _) as [[] ?].
  - rewrite (proj2 (Z.eqb_neq _ 29999)) by lia. unfold mbind at 1, m_bind at 1. cbn [gets].
    change (s <| kp; mpid ::= fun m0 => i32 (m0 + 1) |>) with (with_mpid (i32 (mpid (kp s) + 1)) s).
    rewrite i32_id by lia. cbn [id]. by destruct (newproc_scan _ _ _) as [[] ?].
Qed.

Fixpoint nth_pid (k : nat) (m : Z) : Z := match k with O => m | S k => nth_pid k (next_pid m) end.

Lemma next_pid_range m : 0 <= m < 30000 -> 1 <= next_pid m <= 29999.
Proof. intros. unfold next_pid. destruct (Z.leb_spec 30000 (m + 1)); lia. Qed.

Definition pid_dist (m m' : Z) : Z := (m' - m) mod 29999.

Lemma nth_pid_mod k m : 1 <= m <= 29999 -> nth_pid k m = (m - 1 + Z.of_nat k) mod 29999 + 1.
Proof.
  revert m; induction k as [|k IH]; intros m Hm.
  - simpl. rewrite Z.mod_small by lia. lia.
  - cbn [nth_pid]. rewrite IH by (apply next_pid_range; lia). unfold next_pid.
    destruct (Z.leb_spec 30000 (m + 1)).
    + f_equal. replace (m - 1 + Z.of_nat (S k)) with (1 - 1 + Z.of_nat k + 1 * 29999) by lia. by rewrite Z.mod_add by lia.
    + do 2 f_equal. lia.
Qed.

Lemma length_pids_of s : length (pids_of s) = 126%nat.
Proof. unfold pids_of. by rewrite length_app, !length_fmap, !length_seq. Qed.

Lemma elem_pids_of s m : m ∈ pids_of s <-> used_pid s m.
Proof.
  unfold pids_of, used_pid. rewrite elem_of_app, !list_elem_of_fmap. split.
  - intros [(p & -> & Hp)|(p & -> & Hp)]; apply elem_of_seq in Hp; exists p; split; auto; lia.
  - intros (p & Hp & [<-|<-]); [left|right]; exists p; (split; [done|apply elem_of_seq; lia]).
Qed.

(** Among 127 consecutive numbers one is unused. *)
Lemma some_pid_free s m : 1 <= m <= 29999 -> exists k, (k < 127)%nat /\ ~ used_pid s (nth_pid k m).
Proof.
  intros Hm. destruct (decide (Exists (fun k => nth_pid k m ∉ pids_of s) (seq 0 127))) as [He|He].
  - apply Exists_exists in He as (k & Hk & Hn). apply elem_of_seq in Hk. exists k. split; [lia|].
    by rewrite <- elem_pids_of.
  - exfalso. apply not_Exists_Forall in He; [|intros; apply _].
    assert (Hnd : NoDup ((fun k => nth_pid k m) <$> seq 0 127)).
    { apply NoDup_fmap_2_strong; [|apply NoDup_seq]. intros x y Hx Hy E.
      apply elem_of_seq in Hx, Hy. rewrite !nth_pid_mod in E by lia.
      assert (E' : (m - 1 + Z.of_nat x) mod 29999 = (m - 1 + Z.of_nat y) mod 29999) by lia.
      Z.div_mod_to_equations. lia. }
    assert (Hle : (length ((fun k => nth_pid k m) <$> seq 0 127) <= length (pids_of s))%nat).
    { apply submseteq_length, NoDup_submseteq; [done|]. intros x Hx.
      apply list_elem_of_fmap in Hx as (k & -> & Hk). rewrite Forall_forall in He. specialize (He k Hk).
      cbn in He. by apply dec_stable in He. }
    rewrite length_fmap, length_seq, length_pids_of in Hle. lia.
Qed.

Lemma newproc_pid_loop j : forall n p e s,
  0 <= mpid (kp s) < 30000 -> (p = None \/ p = first_free s) -> (j < 127)%nat ->
  (exists k, (k <= j)%nat /\ ~ used_pid s (nth_pid k (next_pid (mpid (kp s))))) ->
  Z.of_nat j + 2 + (if 29999 <=? mpid (kp s) + Z.of_nat j then 1 else 0) <= Z.of_nat n ->
  exists m, newproc_pid n p e s = Ret (first_free s) e (with_mpid m s) /\ 1 <= m <= 29999 /\ ~ used_pid s m.
Proof.
  induction j as [|j IH]; intros n p e s Hm Hp Hj (k & Hk & Hu) Hn.
  all: destruct n as [|[|n]]; [destruct (_ <=? _) in Hn; lia|destruct (_ <=? _) in Hn; lia|].
  all: rewrite newproc_pid_step by done; pose proof (next_pid_range _ Hm) as Hr.
  all: set (m := next_pid (mpid (kp s))) in *; pose proof (newproc_scan_spec (with_mpid m s) (seq 0 NPROC) p) as Hs.
  all: cbn zeta in Hs; assert (Hf : match p with Some q => Some q | None => head (filter (free_slot (with_mpid m s)) (seq 0 NPROC)) end = first_free s)
      by (destruct Hp as [->| ->]; [|unfold first_free; destruct (head _) eqn:Eh]; done).
  all: rewrite Hf in Hs; destruct (newproc_scan _ _ _) as [[] p'] eqn:Es; cbn [fst snd] in Hs.
  - exfalso. replace k with 0%nat in Hu by lia. apply Hu. destruct Hs as [(q & Hq & Hu') _].
    exists q. apply elem_of_seq in Hq. split; [lia|done].
  - destruct Hs as [Hs ->]. exists m. split_and!; [done|lia|lia|]. intros (q & Hq & Hu').
    destruct (Hs q) as [? ?]; [apply elem_of_seq; lia|]. by destruct Hu'.
  - destruct Hs as [(q & Hq & Hu') Hp']. apply elem_of_seq in Hq.
    destruct k as [|k]; [exfalso; apply Hu; exists q; split; [lia|done]|].
    destruct (IH (if mpid (kp s) =? 29999 then n else S n) p' e (with_mpid m s)) as (m' & E & R & U).
    + cbn. lia.
    + destruct Hp'; [by left|by right].
    + lia.
    + exists k. split; [lia|]. exact Hu.
    + change (mpid (kp (with_mpid m s))) with m. unfold m, next_pid.
      destruct (Z.eqb_spec (mpid (kp s)) 29999) as [E|E];
        destruct (Z.leb_spec 30000 (mpid (kp s) + 1)); try lia;
        destruct (Z.leb_spec 29999 (mpid (kp s) + Z.of_nat (S j)));
        match goal with |- context [29999 <=? ?x] => destruct (Z.leb_spec 29999 x) end; lia.
    + exists m'. split; [exact E|]. split; [done|exact U].
  - destruct Hs as [Hs ->]. exists m. split_and!; [done|lia|lia|]. intros (q & Hq & Hu').
    destruct (Hs q) as [? ?]; [apply elem_of_seq; lia|]. by destruct Hu'.
Qed.

Lemma newproc_pid_ok e s :
  0 <= mpid (kp s) < 30000 ->
  exists m, newproc_pid PIDFUEL None e s = Ret (first_free s) e (with_mpid m s) /\ 1 <= m <= 29999 /\ ~ used_pid s m.
Proof.
  intros Hm. destruct (some_pid_free s (next_pid (mpid (kp s))) (next_pid_range _ Hm)) as (k & Hk & Hu).
  apply (newproc_pid_loop 126); [done|by left|lia|exists k; split; [lia|done]|].
  unfold PIDFUEL. destruct (_ <=? _); lia.
Qed.

(** ** [newproc] *)

Lemma first_free_some s p : first_free s = Some p -> (p < NPROC)%nat /\ p_stat (proc_at s p) = 0.
Proof.
  unfold first_free. intros Hh. assert (Hin : p ∈ filter (free_slot s) (seq 0 NPROC)).
  { destruct (filter _ _); [done|]. injection Hh as ->. by left. }
  apply list_elem_of_filter in Hin as [Hf Hin]. apply elem_of_seq in Hin. split; [lia|done].
Qed.

Lemma free_not_queued s RQ SQ p : queues s RQ SQ -> p_stat (proc_at s p) = 0 -> p ∉ RQ /\ forall h, p ∉ SQ h.
Proof.
  intros Hq Hz. split; [intros Hin|intros h Hin].
  - destruct (q_run_in _ _ _ Hq _ Hin) as (_ & E & _). by rewrite Hz in E.
  - destruct (q_slp_in _ _ _ Hq _ _ Hin) as (_ & E & _). by rewrite Hz in E.
Qed.

Lemma upage_alloc_ok e s page up :
  userpage_alloc (upages_ (ku s)) = Ok (page, up) -> upage_alloc e s = Ret page e (s <| ku; upages_ := up |>).
Proof. intros E. unfold upage_alloc. mstep. rewrite E. cbn [lift_res]. by msteps. Qed.

Definition parent_of (parentp : option nat) (s : kst) : nat := match parentp with Some q => q | None => curproc s end.

Lemma newproc_no_page parentp e s rpp up :
  0 <= mpid (kp s) < 30000 -> first_free s = Some rpp -> userpage_alloc (upages_ (ku s)) = Ok (0, up) ->
  exists m, newproc parentp e s = Ret 0 e (upd_u (fun x => x <| u_error := ENOMEM |>)
    (upd_proc rpp free_proc (newproc_entry rpp (parent_of parentp s) (with_mpid m s) <| ku; upages_ := up |>))).
Proof.
  intros Hm Hf Hup. destruct (newproc_pid_ok e s Hm) as (m & Hr & _). exists m.
  unfold newproc. rewrite (bind_ret _ _ _ _ _ _ _ Hr), Hf. msteps.
  erewrite bind_ret; [|apply upage_alloc_ok; exact Hup]. cbn [Z.eqb]. by msteps.
Qed.

(** How often the file [fp] is open in [u_ofile]. *)
Definition open_count (x : user) (fp : nat) : nat :=
  length (filter (fun n => u_ofile x n = Some fp) (seqZ 0 NOFILE)).

Definition only_kf (s s' : kst) : Prop :=
  kp s' = kp s /\ ku s' = ku s /\ kb s' = kb s /\ kc s' = kc s /\ kt s' = kt s /\ kipl s' = kipl s /\ klog s' = klog s.

Lemma newproc_refs_files l : forall e s,
  exists s', for_each l (fun n =>
      fp ← gets (fun s => u_ofile (u s) n);
      match fp with None => mret tt
      | Some fp => modify (upd_file fp (fun f => f <| f_count ::= inc8 |>)) end) e s = Ret tt e s' /\
    only_kf s s' /\ inodes (kf s') = inodes (kf s) /\ texts (kf s') = texts (kf s) /\
    forall fp, file_at s' fp =
      file_at s fp <| f_count ::= Nat.iter (length (filter (fun n => u_ofile (u s) n = Some fp) l)) inc8 |>.
Proof.
  induction l as [|n l IH]; intros e s; cbn [for_each].
  - exists s. split_and!; try done. intros fp. by destruct (file_at s fp).
  - msteps. destruct (u_ofile (u s) n) as [fp|] eqn:Eo.
    + rewrite bind_modify. set (s1 := upd_file fp _ s).
      destruct (IH e s1) as (s' & Hr & Ho & Hi & Ht & Hf). exists s'. split; [exact Hr|].
      split_and!; [exact Ho|exact Hi|exact Ht|]. intros fp'. rewrite Hf. rewrite filter_cons.
      change (u s1) with (u s). subst s1. rewrite Eo. destruct (decide (fp = fp')) as [->|Hne].
      * rewrite file_upd_same, decide_True by done. unfold upd, set_f_count. cbn [length f_flag f_count f_inode f_offset]. by rewrite Nat.iter_succ_r.
      * rewrite file_upd_ne by done. by rewrite decide_False by congruence.
    + rewrite bind_mret. destruct (IH e s) as (s' & Hr & Ho & Hi & Ht & Hf). exists s'.
      split_and!; try done. intros fp'. rewrite Hf, filter_cons, Eo. by rewrite decide_False by done.
Qed.

Lemma newproc_refs_ok up e s :
  exists s', newproc_refs up e s = Ret tt e s' /\ only_kf s s' /\
    forall fp, file_at s' fp = file_at s fp <| f_count ::= Nat.iter (open_count (u s) fp) inc8 |>.
Proof.
  unfold newproc_refs. destruct (newproc_refs_files (seqZ 0 NOFILE) e s) as (s1 & Hr & Ho & _ & _ & Hf).
  rewrite (bind_ret _ _ _ _ _ _ _ Hr). msteps.
  destruct (p_textp (proc_at s1 up)); msteps; destruct (u_rdir _); eexists;
    (split; [reflexivity|]; split; [exact Ho|exact Hf]).
Qed.

(** The child's user structure and where it starts. *)
Definition child_user (s : kst) (rpp rip : nat) (r : regname -> Z) : user :=
  uarea (ku s) rip <| u_procp := rpp |> <| u_rsav := CtxFrame (child_frame s r) |>
    <| u_ssav := CtxFrame (child_frame s r) |> <| u_r_val1 := 0 |>
    <| u_r_val2 := p_pid (proc_at s rip) |> <| u_start := time (kc s) |>
    <| u_cstime := 0 |> <| u_stime := 0 |> <| u_cutime := 0 |> <| u_utime := 0 |> <| u_acflag := AFORK |>.

(** The slot keeps its old priority. *)
Definition child_proc (s : kst) (c rip : nat) (m page : Z) : proc :=
  let y := proc_at s rip in
  Proc SRUN SLOAD (p_pri (proc_at s c)) 0 0 (p_nice y) 0 (p_uid y) (p_pgrp y) m (p_pid y) page (p_size y) None (p_textp y) None 0.

(** What a successful [newproc] did: [c] is the child, [m] its number. *)
Record forked (s s' : kst) (c rip : nat) (m page : Z) (r : regname -> Z) : Prop := {
  fk_child : proc_at s' c = child_proc s c rip m page <| p_link := runq (kp s) |>;
  fk_others : forall q, q <> c -> proc_at s' q = proc_at s q;
  fk_runq : runq (kp s') = Some c;
  fk_slp : slpque (kp s') = slpque (kp s);
  fk_user : uarea (ku s') c = child_user s c rip r;
  fk_users : forall q, q <> c -> uarea (ku s') q = uarea (ku s) q;
  fk_mem : upmem (ku s') page = upmem (ku s) (p_addr (proc_at s rip));
  fk_mems : forall g, g <> page -> upmem (ku s') g = upmem (ku s) g;
  fk_files : forall fp, file_at s' fp = file_at s fp <| f_count ::= Nat.iter (open_count (u s) fp) inc8 |>;
  fk_bufs : kb s' = kb s;
  fk_self : uarrp (ku s') = uarrp (ku s)
}.

Lemma copy_kernel_stack_ok p c e s :
  kguard (ku s) p = true -> copy_kernel_stack p c e s = Ret tt e (s <| ku; kguard ::= <[c := true]> |>).
Proof. intros E. unfold copy_kernel_stack. mstep. by rewrite E. Qed.

Lemma uarea_upd_ua p g s : uarea (ku (upd_ua p g s)) p = g (uarea (ku s) p).
Proof. unfold upd_ua. cbn. by rewrite fn_lookup_insert. Qed.
Lemma uarea_upd_ua_ne p q g s : q <> p -> uarea (ku (upd_ua p g s)) q = uarea (ku s) q.
Proof. intros. unfold upd_ua. cbn. by rewrite fn_lookup_insert_ne. Qed.

(** The state of the parent just before the child is put on the run queue. *)
Definition child_ready (rip rpp : nat) (a1 page : Z) (s : kst) : kst :=
  upd_proc rpp (fun x => x <| p_stat := SRUN |>) (child_times rip rpp (setup_child_irq_frame rpp
    (copy_user_page a1 page (copy_user rip rpp s) <| ku; kguard ::= <[rpp := true]> |>))).

Lemma child_ready_user rip rpp a1 page s r :
  rip <> rpp -> u_ar0 (uarea (ku s) rip) = Some r ->
  uarea (ku (child_ready rip rpp a1 page s)) rpp = child_user s rpp rip r /\
  forall q, q <> rpp -> uarea (ku (child_ready rip rpp a1 page s)) q = uarea (ku s) q.
Proof.
  intros Hne Har. unfold child_ready. split.
  - cbn. rewrite !fn_lookup_insert. cbn. by rewrite Har.
  - intros q Hq. change (ku (upd_proc ?p ?g ?x)) with (ku x). unfold child_times. rewrite uarea_upd_ua_ne by done.
    unfold setup_child_irq_frame. rewrite uarea_upd_ua_ne by done.
    change (uarea (ku (copy_user rip rpp s)) q = uarea (ku s) q). unfold copy_user. by rewrite uarea_upd_ua_ne.
Qed.

Lemma newproc_ok parentp e s rpp up page RQ SQ r :
  queues s RQ SQ -> 0 <= mpid (kp s) < 30000 -> first_free s = Some rpp ->
  userpage_alloc (upages_ (ku s)) = Ok (page, up) -> 0 < page < 32768 ->
  let rip := parent_of parentp s in
  rip <> rpp -> kguard (ku s) rip = true -> u_ar0 (uarea (ku s) rip) = Some r ->
  exists m s', newproc parentp e s = Ret 0 e s' /\ 1 <= m <= 29999 /\ ~ used_pid s m /\
    upages_ (ku s') = up /\ forked s s' rpp rip m page r.
Proof.
  intros Hq Hm Hf Hup Hpg rip Hne Hg Har. destruct (newproc_pid_ok e s Hm) as (m & Hr & Hm' & Hu).
  set (s1 := upd_proc rpp (fun x => x <| p_addr := page |>) (newproc_entry rpp rip (with_mpid m s) <| ku; upages_ := up |>)).
  destruct (newproc_refs_ok rip e s1) as (s2 & Hrefs & (Ho1 & Ho2 & Ho3 & Ho4 & Ho5 & Ho6 & Ho7) & Hfiles).
  assert (Epr : forall q, proc_at s2 q = proc_at s1 q) by (intros; unfold proc_at; by rewrite Ho1).
  assert (Eo : forall q, q <> rpp -> proc_at s1 q = proc_at s q).
  { intros q Hqr. unfold s1. rewrite proc_upd_ne by done. unfold newproc_entry.
    change (proc_at (?x <| ku; upages_ := up |>)) with (proc_at x). by rewrite proc_upd_ne by done. }
  destruct (free_not_queued s RQ SQ rpp Hq) as [Hnr _]; [by destruct (first_free_some _ _ Hf)|].
  destruct (q_len _ _ _ Hq) as [Hl _].
  set (s3 := child_ready rip rpp (p_addr (proc_at s rip)) page s2).
  destruct (child_ready_user rip rpp (p_addr (proc_at s rip)) page s2 r Hne) as [Eu1 Eu2]; [by rewrite Ho2|].
  fold s3 in Eu1, Eu2.
  exists m, (push_run rpp s3). split; [|split; [exact Hm'|split; [exact Hu|split; [cbn; by rewrite Ho2|]]]].
  - unfold newproc. rewrite (bind_ret _ _ _ _ _ _ _ Hr), Hf. msteps.
    change (match parentp with Some q => q | None => curproc (with_mpid m s) end) with rip.
    erewrite bind_ret; [|apply upage_alloc_ok; exact Hup]. rewrite (proj2 (Z.eqb_neq _ _)) by lia. msteps.
    rewrite i16_id by lia. fold s1. rewrite (bind_ret _ _ _ _ _ _ _ Hrefs). msteps.
    erewrite bind_ret; [|apply copy_kernel_stack_ok; cbn; by rewrite Ho2]. msteps.
    replace (p_addr (proc_at (newproc_entry rpp rip (with_mpid m s)) rip)) with (p_addr (proc_at s rip))
      by (unfold newproc_entry; by rewrite proc_upd_ne by done).
    fold (child_ready rip rpp (p_addr (proc_at s rip)) page s2). fold s3.
    erewrite bind_ret; [reflexivity|]. apply setrq_fresh with RQ; [|done|done].
    change (runq (kp s3)) with (runq (kp s2)). rewrite Ho1. change (runq (kp s1)) with (runq (kp s)).
    apply chain_frame with (plink s); [|apply Hq].
    intros q Hq'. unfold plink, s3, child_ready. rewrite proc_upd_ne by congruence.
    change (p_link (proc_at s2 q) = p_link (proc_at s q)). rewrite Epr, Eo; [done|congruence].
  - split; [| |done| | | | | |exact Hfiles|exact Ho3|change (uarrp (ku s2) = uarrp (ku s)); by rewrite Ho2].
    + unfold push_run. change (proc_at (?x <| kp; runq := ?v |>)) with (proc_at x).
      rewrite proc_upd_same. unfold s3, child_ready. rewrite proc_upd_same.
      change (?a = _) with (proc_at s2 rpp <| p_stat := SRUN |> <| p_link := runq (kp s2) |>
                            = child_proc s rpp rip m page <| p_link := runq (kp s) |>).
      rewrite Epr, Ho1. unfold s1, newproc_entry. rewrite proc_upd_same.
      change (proc_at (?x <| ku; upages_ := up |>)) with (proc_at x). rewrite proc_upd_same.
      unfold child_proc. cbn -[swrap]. by rewrite i16_id by lia.
    + intros q Hqr. unfold push_run. change (proc_at (?x <| kp; runq := ?v |>)) with (proc_at x).
      rewrite proc_upd_ne by done. unfold s3, child_ready. rewrite proc_upd_ne by done.
      change (?a = _) with (proc_at s2 q = proc_at s q). by rewrite Epr, Eo.
    + change (slpque (kp s2) = slpque (kp s)). by rewrite Ho1.
    + change (?a = _) with (uarea (ku s3) rpp = child_user s rpp rip r). rewrite Eu1. unfold child_user, child_frame.
      rewrite Ho2, Ho4. rewrite Epr, Eo by done. done.
    + intros q Hqr. change (uarea (ku s3) q = uarea (ku s) q). rewrite Eu2 by done. by rewrite Ho2.
    + cbn. rewrite fn_lookup_insert. by rewrite Ho2.
    + intros g Hgp. cbn. rewrite fn_lookup_insert_ne by done. by rewrite Ho2.
Qed.

(** ** Signals *)

(** Signal [n] is pending: bit [n-1] of [p_sig]. *)
Definition pending (x : proc) (n : Z) : Prop := 1 <= n <= 16 /\ Z.testbit (p_sig x) (n - 1) = true.

Lemma fsig_loop_spec k : forall i n,
  let r := fsig_loop k i n in
  (r = 0 /\ forall j, 0 <= j < Z.of_nat k -> Z.testbit n j = false) \/
  (exists j, r = i + j /\ 0 <= j < Z.of_nat k /\ Z.testbit n j = true /\ forall j', 0 <= j' < j -> Z.testbit n j' = false).
Proof.
  induction k as [|k IH]; intros i n; cbn [fsig_loop].
  - left. split; [done|]. lia.
  - pose proof (fset_testbit n 0) as Hb. change (2 ^ 0) with 1 in Hb. rewrite Hb by lia.
    destruct (Z.testbit n 0) eqn:E0.
    + right. exists 0. split_and!; [lia|lia|lia|done|lia].
    + assert (Hs : forall j, 0 <= j -> Z.testbit (Z.shiftr n 1) j = Z.testbit n (j + 1)) by (intros; by apply Z.shiftr_spec).
      destruct (IH (i + 1) (Z.shiftr n 1)) as [[-> Hz]|(j & -> & Hj & Hjt & Hlow)].
      * left. split; [done|]. intros j Hj. destruct (Z.eq_dec j 0) as [->|]; [done|].
        specialize (Hz (j - 1)). rewrite Hs in Hz by lia. replace (j - 1 + 1) with j in Hz by lia. apply Hz. lia.
      * right. exists (j + 1). rewrite Hs in Hjt by lia. split_and!; [lia|lia|lia|done|].
        intros j' Hj'. destruct (Z.eq_dec j' 0) as [->|]; [done|].
        specialize (Hlow (j' - 1)). rewrite Hs in Hlow by lia. replace (j' - 1 + 1) with j' in Hlow by lia. apply Hlow. lia.
Qed.

(** [fsig] is the lowest pending signal, or 0. *)
Lemma fsig_spec x :
  (fsig x = 0 /\ forall n, ~ pending x n) \/
  (pending x (fsig x) /\ forall n, pending x n -> fsig x <= n).
Proof.
  unfold fsig. destruct (fsig_loop_spec 16 1 (p_sig x)) as [[E Hz]|(j & E & Hj & Hjt & Hlow)]; cbn zeta in E; rewrite E.
  - left. split; [done|]. intros n [Hn Hb]. by rewrite Hz in Hb by lia.
  - right. split.
    + split; [lia|]. by replace (1 + j - 1) with j by lia.
    + intros n [Hn Hb]. destruct (Z_lt_le_dec n (1 + j)); [|lia]. by rewrite Hlow in Hb by lia.
Qed.

Definition sig16 (x : proc) : Prop := -32768 <= p_sig x < 32768.

Lemma pending_nonzero x : sig16 x -> p_sig x <> 0 -> exists n, pending x n.
Proof.
  intros Hx Hne. destruct (fsig_spec x) as [[_ Hz]|[Hp _]]; [|eauto]. destruct Hne.
  apply (swrap_zero 16); [lia|exact Hx|]. intros j Hj. destruct (Z.testbit (p_sig x) j) eqn:E; [|done].
  exfalso. apply (Hz (j + 1)). split; [lia|]. by replace (j + 1 - 1) with j by lia.
Qed.

Lemma clear_sig_bit n g j : 1 <= n <= 16 -> 0 <= j < 16 -> Z.testbit (clear_sig n g) j = Z.testbit g j && negb (j =? n - 1).
Proof.
  intros Hn Hj. unfold clear_sig. rewrite swrap_testbit by lia. rewrite testbit_fclr by lia.
  f_equal. f_equal. rewrite Z.shiftl_1_l, Z.pow2_bits_eqb by lia. apply Z.eqb_sym.
Qed.

(** The disposition of signal [n] ignores it: [u.u_signal[n] & 1]. *)
Definition ignored (s : kst) (n : Z) : bool := fset (u_signal (u s) n) 1.

(** [s'] differs from [s] at most in the pending signals of [p]. *)
Definition nosig (x : proc) : proc := x <| p_sig := 0 |>.
Definition only_sig (p : nat) (s s' : kst) : Prop :=
  only_kp s s' /\ runq (kp s') = runq (kp s) /\ slpque (kp s') = slpque (kp s) /\ runout (kp s') = runout (kp s) /\
  runin (kp s') = runin (kp s) /\ forall q, nosig (proc_at s' q) = nosig (proc_at s q) /\ (q <> p -> proc_at s' q = proc_at s q).

Lemma only_sig_refl p s : only_sig p s s.
Proof. by split_and!. Qed.

Lemma only_sig_clear p g s : only_sig p s (upd_proc p (fun y => y <| p_sig ::= g |>) s).
Proof.
  split_and!; try done. intros q. destruct (decide (q = p)) as [->|Hne].
  - rewrite proc_upd_same. split; [|done]. by destruct (proc_at s p).
  - by rewrite proc_upd_ne.
Qed.

Lemma only_sig_trans p s1 s2 s3 : only_sig p s1 s2 -> only_sig p s2 s3 -> only_sig p s1 s3.
Proof.
  intros (O1 & A1 & B1 & C1 & D1 & E1) (O2 & A2 & B2 & C2 & D2 & E2).
  split_and!; try congruence; [by apply only_kp_trans with s2|]. intros q.
  destruct (E1 q), (E2 q). split; [congruence|]. intros. by etrans; auto.
Qed.

Lemma only_sig_ignored p s s' n : only_sig p s s' -> ignored s' n = ignored s n.
Proof. intros (O & _). unfold ignored. by rewrite (only_kp_u _ _ O). Qed.

Lemma pending_clear s p n m :
  1 <= n <= 16 ->
  pending (proc_at (upd_proc p (fun y => y <| p_sig ::= clear_sig n |>) s) p) m <-> pending (proc_at s p) m /\ m <> n.
Proof.
  intros Hn. rewrite proc_upd_same. unfold pending. cbn [p_sig upd].
  change (p_sig (proc_at s p <| p_sig ::= clear_sig n |>)) with (clear_sig n (p_sig (proc_at s p))).
  destruct (decide (1 <= m <= 16)) as [Hm|]; [|tauto]. rewrite clear_sig_bit by lia.
  rewrite andb_true_iff, negb_true_iff, Z.eqb_neq. split; intros; split_and!; try tauto; lia.
Qed.

(** [issig] found [n] in [s] and left [s']. *)
Definition issig_result (p : nat) (n : Z) (s s' : kst) : Prop :=
  only_sig p s s' /\
  ((n = 0 /\ p_sig (proc_at s' p) = 0 /\ forall m, pending (proc_at s p) m -> ignored s m = true) \/
   (pending (proc_at s p) n /\ ignored s n = false /\
    (forall m, pending (proc_at s p) m -> m < n -> ignored s m = true) /\
    forall m, pending (proc_at s' p) m <-> pending (proc_at s p) m /\ n <= m)).

(** The number of signals from [b] up bounds the loop. *)
Lemma issig_loop_ok k : forall p e s b,
  sig16 (proc_at s p) -> fset (p_flag (proc_at s p)) STRC = false ->
  (forall n, pending (proc_at s p) n -> b <= n) -> 1 <= b -> 17 - b <= Z.of_nat k ->
  exists n s', issig_loop k p e s = Ret n e s' /\ issig_result p n s s'.
Proof.
  assert (Hnone : forall s p n, p_sig (proc_at s p) = 0 -> ~ pending (proc_at s p) n).
  { intros s p n E [_ Hb]. by rewrite E, Z.testbit_0_l in Hb. }
  induction k as [|k IH]; intros p e s b H16 Htr Hlow Hb Hk; cbn [issig_loop]; mstep;
    (destruct (Z.eqb_spec (p_sig (proc_at s p)) 0) as [E|E];
     [exists 0, s; split; [done|]; split; [apply only_sig_refl|]; left; split_and!; try done;
      intros m Hm; by destruct (Hnone _ _ _ E Hm)|]);
    destruct (pending_nonzero _ H16 E) as [n0 Hn0].
  - specialize (Hlow n0 Hn0). destruct Hn0. lia.
  - destruct (fsig_spec (proc_at s p)) as [[_ Hz]|[Hp Hmin]]; [by destruct (Hz n0)|].
    mstep. set (n := fsig (proc_at s p)) in *. rewrite Htr, orb_false_r.
    destruct (fset (u_signal (u s) n) 1) eqn:Eg; cbn [negb].
    + mstep. set (s1 := upd_proc p _ s).
      pose proof (only_sig_clear p (clear_sig n) s) as Ho. fold s1 in Ho.
      assert (Hn : 1 <= n <= 16) by (by destruct Hp).
      destruct (IH p e s1 (n + 1)) as (n' & s' & Hr & Ho' & Hres).
      * unfold sig16, s1. rewrite proc_upd_same. apply (swrap_range 16). lia.
      * unfold s1. rewrite proc_upd_same. done.
      * intros m Hm. apply pending_clear in Hm as [Hm Hne]; [|done]. specialize (Hmin m Hm). lia.
      * lia.
      * specialize (Hlow n Hp). lia.
      * exists n', s'. split; [exact Hr|]. split; [by apply only_sig_trans with s1|].
        assert (Hpc : forall m, pending (proc_at s1 p) m <-> pending (proc_at s p) m /\ m <> n) by (intros; by apply pending_clear).
        assert (Hig : forall m, pending (proc_at s p) m -> (m <> n -> ignored s1 m = true) -> ignored s m = true).
        { intros m Hm Hi. destruct (Z.eq_dec m n) as [->|]; [exact Eg|]. rewrite <- (only_sig_ignored p s s1) by done. auto. }
        destruct Hres as [(-> & E0 & Hall)|(Hp' & Hi' & Hbel & Hst)].
        -- left. split_and!; try done. intros m Hm. apply Hig; [done|]. intros. apply Hall, Hpc. done.
        -- right. apply Hpc in Hp' as [Hp' Hne]. split_and!; [done| by rewrite <- (only_sig_ignored p s s1) | |].
           ++ intros m Hm Hlt. apply Hig; [done|]. intros. apply Hbel; [|done]. by apply Hpc.
           ++ intros m. rewrite Hst, Hpc. pose proof (Hmin n' Hp'). split; [tauto|]. intros [? ?]. split_and!; [done|lia|done].
    + exists n, s. split; [done|]. split; [apply only_sig_refl|]. right. split_and!; [done|done| |].
      * intros m Hm Hlt. specialize (Hmin m Hm). lia.
      * intros m. split; [|tauto]. intros Hm. split; [done|]. by apply Hmin.
Qed.

Lemma issig_ok e s :
  sig16 (proc_at s (curproc s)) -> fset (p_flag (proc_at s (curproc s))) STRC = false ->
  exists n s', issig e s = Ret n e s' /\ issig_result (curproc s) n s s'.
Proof.
  intros H16 Htr. unfold issig. mstep. apply issig_loop_ok with 1; try done.
  intros n [? _]. lia.
Qed.

(** ** [sleep] *)

(** The current process put on the sleep queue of [c]. *)
Definition slept (c : chan) (pri : Z) (s : kst) : kst :=
  let me := curproc s in let h := HASH c in
  upd_proc me (fun x => x <| p_link := slpque (kp s) h |>)
    (upd_proc me (fun x => x <| p_stat := SSLEEP |> <| p_wchan := Some c |> <| p_pri := i8 pri |>) s)
  <| kp; slpque ::= <[h := Some me]> |>.

(** The running process is on no queue. *)
Definition running (s : kst) (RQ : list nat) (SQ : Z -> list nat) : Prop :=
  (curproc s < NPROC)%nat /\ curproc s ∉ RQ /\ (forall h, curproc s ∉ SQ h) /\ p_wchan (proc_at s (curproc s)) = None.

Definition sleep_SQ (c : chan) (s : kst) (SQ : Z -> list nat) : Z -> list nat :=
  <[HASH c := curproc s :: SQ (HASH c)]> SQ.

Lemma slept_proc c pri s :
  proc_at (slept c pri s) (curproc s) = proc_at s (curproc s) <| p_stat := SSLEEP |> <| p_wchan := Some c |>
    <| p_pri := i8 pri |> <| p_link := slpque (kp s) (HASH c) |> /\
  forall q, q <> curproc s -> proc_at (slept c pri s) q = proc_at s q.
Proof.
  unfold slept. change (proc_at (?x <| kp; slpque ::= ?g |>)) with (proc_at x). split.
  - by rewrite !proc_upd_same.
  - intros q Hq. by rewrite !proc_upd_ne.
Qed.

Lemma slept_queues c pri s RQ SQ :
  queues s RQ SQ -> all_queued s SQ -> running s RQ SQ ->
  queues (slept c pri s) RQ (sleep_SQ c s SQ) /\ all_queued (slept c pri s) (sleep_SQ c s SQ).
Proof.
  intros [H1 H2 H3 H4 H5 H6] Ha (Hme & Hr & Hs & Hw).
  destruct (slept_proc c pri s) as [E1 E2].
  assert (El : forall q, q <> curproc s -> plink (slept c pri s) q = plink s q) by (intros; unfold plink; by rewrite E2).
  split; [split|].
  - apply chain_frame with (plink s); [|done]. intros q Hq. apply El. congruence.
  - intros h. unfold sleep_SQ. change (slpque (kp (slept c pri s))) with (<[HASH c := Some (curproc s)]> (slpque (kp s))).
    assert (Hch : forall h', chain (plink (slept c pri s)) (slpque (kp s) h') (SQ h')).
    { intros h'. apply chain_frame with (plink s); [|apply H2]. intros q Hq. apply El. intros ->. by apply (Hs h'). }
    destruct (decide (h = HASH c)) as [->|Hne].
    + rewrite !fn_lookup_insert. split; [done|]. unfold plink at 2. rewrite E1. apply Hch.
    + rewrite !fn_lookup_insert_ne by done. apply Hch.
  - done.
  - intros h. unfold sleep_SQ. destruct (decide (h = HASH c)) as [->|Hne].
    + rewrite fn_lookup_insert. constructor; auto.
    + rewrite fn_lookup_insert_ne by done. auto.
  - intros q Hq. rewrite E2 by congruence. auto.
  - intros h q Hq. unfold sleep_SQ in Hq. destruct (decide (q = curproc s)) as [->|Hne].
    + rewrite E1. split_and!; [done|done|]. exists c. split; [done|].
      destruct (decide (h = HASH c)) as [->|Hne]; [done|]. rewrite fn_lookup_insert_ne in Hq by done. by destruct (Hs h).
    + rewrite E2 by done. apply H6. destruct (decide (h = HASH c)) as [->|Hnh].
      * rewrite fn_lookup_insert in Hq. apply elem_of_cons in Hq as [?|Hq]; [done|exact Hq].
      * by rewrite fn_lookup_insert_ne in Hq.
  - intros q c' Hq. unfold sleep_SQ. destruct (decide (q = curproc s)) as [->|Hne].
    + rewrite E1 in Hq. injection Hq as <-. rewrite fn_lookup_insert. by left.
    + rewrite E2 in Hq by done. specialize (Ha q c' Hq). destruct (decide (HASH c' = HASH c)) as [Eh|Hnh].
      * rewrite Eh, fn_lookup_insert. right. by rewrite <- Eh.
      * by rewrite fn_lookup_insert_ne.
Qed.

Lemma sleep_unint c pri e s : pri <= PZERO ->
  sleep c pri e s = (_ ← swtch; splx (kipl s)) e (slept c pri s <| kipl := 0 |>).
Proof.
  intros Hp. unfold sleep. msteps. unfold spl6. msteps. rewrite (proj2 (Z.ltb_ge _ _)) by done.
  unfold spl0. msteps. done.
Qed.

Lemma sleep_int_start c pri e s : PZERO < pri ->
  sleep c pri e s = (sg ← issig;
    if negb (sg =? 0) then
      _ ← modify (upd_proc (curproc s) (fun x => x <| p_wchan := None |> <| p_stat := SRUN |>));
      _ ← modify (fun s' => s' <| kp; slpque ::= <[HASH c := p_link (proc_at s' (curproc s))]> |>);
      _ ← spl0;
      longjmp_qsav
    else
      _ ← spl0;
      rin ← gets (fun s => runin (kp s));
      _ ← when (negb (rin =? 0)) (_ ← modify (fun s => s <| kp; runin := 0 |>); wakeup ChRunin);
      _ ← swtch;
      sg ← issig;
      if negb (sg =? 0) then longjmp_qsav else splx (kipl s)) e (slept c pri s <| kipl := 6 |>).
Proof.
  intros Hp. unfold sleep. msteps. unfold spl6. msteps. rewrite (proj2 (Z.ltb_lt _ _)) by done. done.
Qed.

(** A signal that is not ignored interrupts the sleep before the switch. *)
Lemma sleep_signalled c pri e s RQ SQ n :
  queues s RQ SQ -> all_queued s SQ -> running s RQ SQ ->
  PZERO < pri -> sig16 (proc_at s (curproc s)) -> fset (p_flag (proc_at s (curproc s))) STRC = false ->
  pending (proc_at s (curproc s)) n -> ignored s n = false ->
  exists s', sleep c pri e s = Stop (Longjmp e) s' /\ queues s' RQ SQ /\ all_queued s' SQ /\
    p_stat (proc_at s' (curproc s)) = SRUN /\ kipl s' = 0.
Proof.
  intros Hq Ha Hrun Hp H16 Htr Hpend Hign. destruct (slept_queues c pri s RQ SQ Hq Ha Hrun) as [Hq1 Ha1].
  destruct (slept_proc c pri s) as [E1 E2]. set (me := curproc s) in *.
  set (s1 := slept c pri s <| kipl := 6 |>).
  assert (Ep : proc_at s1 = proc_at (slept c pri s)) by done.
  destruct (issig_ok e s1) as (m & s2 & Hi & Hres).
  { unfold sig16. change (curproc s1) with me. by rewrite Ep, E1. }
  { change (curproc s1) with me. by rewrite Ep, E1. }
  change (curproc s1) with me in Hres. destruct Hres as [(Ho & Hrq & Hsl & Hro & Hri & Hpr) Hm].
  assert (Hne : m <> 0).
  { destruct Hm as [(-> & _ & Hall)|([? _] & _)]; [|lia]. assert (Hi' : ignored s1 n = true) by (apply Hall; unfold pending; by rewrite Ep, E1).
    change (ignored s n = true) in Hi'. congruence. }
  rewrite sleep_int_start by done. rewrite (bind_ret _ _ _ _ _ _ _ Hi), (proj2 (Z.eqb_neq _ _) Hne). cbn [negb].
  fold me. msteps. unfold spl0. msteps. eexists. split; [reflexivity|].
  assert (Elk : forall q, plink s2 q = plink s1 q).
  { intros q. unfold plink. destruct (Hpr q) as [En _]. revert En. unfold nosig.
    destruct (proc_at s2 q), (proc_at s1 q). cbn. intros [=]. by subst. }
  set (s3 := upd_proc me _ s2). destruct Hrun as (Hme & Hnr & Hns & Hw). fold me in Hme, Hnr, Hns, Hw.
  assert (E3 : forall q, q <> me -> proc_at s3 q = proc_at s q).
  { intros q Hqm. unfold s3. rewrite proc_upd_ne by done. destruct (Hpr q) as [_ ->]; [|done]. rewrite Ep. auto. }
  assert (Elk3 : forall q, q <> me -> plink s3 q = plink s q) by (intros; unfold plink; by rewrite E3).
  assert (Elm : p_link (proc_at s3 me) = slpque (kp s) (HASH c)).
  { unfold s3. rewrite proc_upd_same. change (plink s2 me = slpque (kp s) (HASH c)). rewrite Elk.
    unfold plink. by rewrite Ep, E1. }
  assert (Esl : slpque (kp s3) = <[HASH c := Some me]> (slpque (kp s))) by (change (slpque (kp s2) = <[HASH c := Some me]> (slpque (kp s))); by rewrite Hsl).
  assert (Esq : forall h, slpque (kp (s3 <| kp; slpque ::= <[HASH c := p_link (proc_at s3 me)]> |>)) h = slpque (kp s) h).
  { intros h. cbn [kp slpque upd]. change (slpque (kp (s3 <| kp; slpque ::= ?g |>))) with (g (slpque (kp s3))).
    rewrite Elm, Esl. destruct (decide (h = HASH c)) as [->|]; [by rewrite fn_lookup_insert|by rewrite !fn_lookup_insert_ne]. }
  destruct Hq as [H1 H2 H3 H4 H5 H6]. split_and!; [split| | |].
  - change (chain (plink s3) (runq (kp s2)) RQ). rewrite Hrq. change (runq (kp s1)) with (runq (kp s)).
    apply chain_frame with (plink s); [|done]. intros q Hq. apply Elk3. congruence.
  - intros h. change (chain (plink s3) (slpque (kp (s3 <| kp; slpque ::= <[HASH c := p_link (proc_at s3 me)]> |>)) h) (SQ h)).
    rewrite Esq. apply chain_frame with (plink s); [|apply H2]. intros q Hq. apply Elk3. intros ->. by apply (Hns h).
  - done. - done.
  - intros q Hq. change (proc_at (s3 <| kp; slpque ::= ?g |> <| kipl := 0 |>)) with (proc_at s3). rewrite E3 by congruence. auto.
  - intros h q Hq. change (proc_at (s3 <| kp; slpque ::= ?g |> <| kipl := 0 |>)) with (proc_at s3).
    rewrite E3; [auto|]. intros ->. by apply (Hns h).
  - intros q c' Hq. change (p_wchan (proc_at s3 q) = Some c') in Hq. destruct (decide (q = me)) as [->|Hqm].
    + unfold s3 in Hq. by rewrite proc_upd_same in Hq.
    + rewrite E3 in Hq by done. by apply Ha.
  - change (p_stat (proc_at s3 me) = SRUN). unfold s3. by rewrite proc_upd_same.
  - done.
Qed.

Lemma upd_inert_queues s RQ SQ p g :
  (forall x, p_link (g x) = p_link x /\ p_stat (g x) = p_stat x /\ p_wchan (g x) = p_wchan x) ->
  (queues s RQ SQ -> queues (upd_proc p g s) RQ SQ) /\ (all_queued s SQ -> all_queued (upd_proc p g s) SQ).
Proof.
  intros Hg.
  assert (E : forall x, plink (upd_proc p g s) x = plink s x /\
      p_stat (proc_at (upd_proc p g s) x) = p_stat (proc_at s x) /\
      p_wchan (proc_at (upd_proc p g s) x) = p_wchan (proc_at s x)).
  { intros x. unfold plink. destruct (decide (x = p)) as [->|]; [rewrite proc_upd_same; apply Hg | by rewrite proc_upd_ne]. }
  split.
  - intros [H1 H2 H3 H4 H5 H6]. split; [| |done|done| |].
    + apply chain_frame with (plink s); [|done]. intros x _. apply E.
    + intros h. apply chain_frame with (plink s); [|exact (H2 h)]. intros x _. apply E.
    + intros x Hx. destruct (E x) as (_ & -> & ->). auto.
    + intros h x Hx. destruct (E x) as (_ & -> & ->). auto.
  - intros Ha x c Hx. destruct (E x) as (_ & _ & Ew). rewrite Ew in Hx. by apply Ha.
Qed.

(** What [psignal] first does to the process. *)
Definition posted (sig : Z) (x : proc) : proc :=
  let x := if sig =? 0 then x else x <| p_sig ::= fun g => i16 (Z.lor g (Z.shiftl 1 (sig - 1))) |> in
  if PUSER <? p_pri x then x <| p_pri := PUSER |> else x.

Lemma psignal_post p sig e s : 0 <= sig < NSIG ->
  exists s1, proc_at s1 p = posted sig (proc_at s p) /\ (forall q, q <> p -> proc_at s1 q = proc_at s q) /\
    only_kp s s1 /\ runq (kp s1) = runq (kp s) /\ slpque (kp s1) = slpque (kp s) /\ runout (kp s1) = runout (kp s) /\
    psignal p sig e s = when ((p_stat (proc_at s1 p) =? SSLEEP) && (PZERO <? p_pri (proc_at s1 p))) (setrun p) e s1.
Proof.
  intros Hs. unfold psignal. rewrite u16_id by (unfold NSIG in Hs; lia). rewrite (proj2 (Z.leb_gt _ _)), (proj2 (Z.leb_le 0 _)), (proj2 (Z.ltb_lt _ _)) by lia. cbn [andb negb].
  set (s0 := if sig =? 0 then s else upd_proc p (fun x => x <| p_sig ::= fun g => i16 (Z.lor g (Z.shiftl 1 (sig - 1))) |>) s).
  exists (upd_proc p (fun x => if PUSER <? p_pri x then x <| p_pri := PUSER |> else x) s0).
  split_and!; try (unfold s0; destruct (sig =? 0); done).
  - rewrite proc_upd_same. unfold posted, s0. destruct (sig =? 0); [done|]. by rewrite proc_upd_same.
  - intros q Hq. rewrite proc_upd_ne by done. unfold s0. destruct (sig =? 0); [done|]. by rewrite proc_upd_ne.
Qed.

Lemma posted_inert sig x : p_link (posted sig x) = p_link x /\ p_stat (posted sig x) = p_stat x /\ p_wchan (posted sig x) = p_wchan x.
Proof. unfold posted. destruct (sig =? 0), x; cbn; destruct (PUSER <? _); done. Qed.

Lemma posted_pri sig x : (PZERO <? p_pri (posted sig x)) = (PZERO <? p_pri x).
Proof.
  unfold posted.
  assert (E : p_pri (if sig =? 0 then x else x <| p_sig ::= fun g => i16 (Z.lor g (Z.shiftl 1 (sig - 1))) |>) = p_pri x)
    by (by destruct (sig =? 0)).
  destruct (PUSER <? p_pri _) eqn:Ep; rewrite E in Ep.
  - apply Z.ltb_lt in Ep. change (p_pri (?y <| p_pri := PUSER |>)) with PUSER. unfold PUSER, PZERO in *.
    symmetry. apply Z.ltb_lt. lia.
  - by rewrite E.
Qed.

Lemma posted_pending sig x n : 1 <= sig <= 16 -> pending (posted sig x) n <-> pending x n \/ n = sig.
Proof.
  intros Hs. unfold pending.
  assert (E : p_sig (posted sig x) = i16 (Z.lor (p_sig x) (Z.shiftl 1 (sig - 1)))).
  { unfold posted. rewrite (proj2 (Z.eqb_neq _ _)) by lia. by destruct (PUSER <? _). }
  rewrite E. destruct (decide (1 <= n <= 16)) as [Hn|]; [|intuition lia].
  rewrite swrap_testbit by lia. rewrite Z.lor_spec, Z.shiftl_1_l, Z.pow2_bits_eqb by lia.
  rewrite orb_true_iff, Z.eqb_eq. intuition lia.
Qed.

Lemma psignal_ok p sig e s RQ SQ c :
  queues s RQ SQ -> all_queued s SQ -> runout (kp s) = 0 ->
  1 <= sig < NSIG -> p_stat (proc_at s p) = SSLEEP -> waits_on c s p ->
  exists s' RQ' SQ', psignal p sig e s = Ret tt e s' /\ queues s' RQ' SQ' /\ all_queued s' SQ' /\
    (forall n, pending (proc_at s' p) n <-> pending (proc_at s p) n \/ n = sig) /\
    (if PZERO <? p_pri (proc_at s p) then p ∈ RQ' else waits_on c s' p /\ RQ' = RQ).
Proof.
  intros Hq Ha Hro Hs Hst Hw. unfold NSIG in Hs.
  destruct (psignal_post p sig e s) as (s1 & E1 & E2 & Ho & Er & Es & Ero & ->); [unfold NSIG; lia|].
  destruct (posted_inert sig (proc_at s p)) as (P1 & P2 & P3).
  set (s1' := upd_proc p (posted sig) s).
  destruct (upd_inert_queues s RQ SQ p (posted sig) (posted_inert sig)) as [Q1 A1].
  assert (Epr : forall q, proc_at s1 q = proc_at (upd_proc p (posted sig) s) q).
  { intros q. destruct (decide (q = p)) as [->|]; [by rewrite proc_upd_same|]. rewrite proc_upd_ne by done. auto. }
  assert (Hq1 : queues s1 RQ SQ).
  { destruct (Q1 Hq) as [X1 X2 X3 X4 X5 X6]. split; [| |done|done| |].
    - rewrite Er. apply chain_frame with (plink (upd_proc p (posted sig) s)); [|done]. intros; unfold plink; by rewrite Epr.
    - intros h. rewrite Es. apply chain_frame with (plink (upd_proc p (posted sig) s)); [|exact (X2 h)]. intros; unfold plink; by rewrite Epr.
    - intros q Hq'. rewrite Epr. auto.
    - intros h q Hq'. rewrite Epr. auto. }
  assert (Ha1 : all_queued s1 SQ) by (intros q c' Hqc; rewrite Epr in Hqc; by apply (A1 Ha)).
  rewrite E1, P2, Hst, posted_pri, Z.eqb_refl. cbn [andb].
  destruct (PZERO <? p_pri (proc_at s p)) eqn:Ep; cbn [when].
  - destruct (wakeup_ok c e s1 RQ SQ Hq1 Ha1) as (s2 & Hrun & Hq2 & Ha2 & _ & _ & W1 & _); [congruence|].
    assert (Hw1 : waits_on c s1 p) by (unfold waits_on; rewrite E1, P3; exact Hw).
    exists s2, (rev (filter (waits_on c s1) (SQ (HASH c))) ++ RQ), (wake_SQ c s1 SQ). split_and!; try done.
    + unfold setrun, setrun_with. mstep. rewrite E1, P2, Hst. cbn [Z.eqb SSLEEP SZOMB Pos.eqb orb]. rewrite P3.
      unfold waits_on in Hw. rewrite Hw. exact Hrun.
    + intros n. rewrite <- (posted_pending sig (proc_at s p)) by lia. rewrite <- E1. unfold pending.
      assert (En : p_sig (proc_at s2 p) = p_sig (proc_at s1 p)).
      { specialize (W1 p Hw1). revert W1. unfold woken, nolink. destruct (proc_at s2 p), (proc_at s1 p). cbn. by intros [=]. }
      by rewrite En.
    + apply elem_of_app. left. rewrite <- (waits_sleepers c s1 RQ SQ p) in Hw1 by done.
      apply list_elem_of_In, in_rev. rewrite rev_involutive. by apply list_elem_of_In.
  - exists s1, RQ, SQ. split_and!; try done.
    + intros n. rewrite E1. apply posted_pending. lia.
    + unfold waits_on. rewrite E1, P3. exact Hw.
Qed.

(** * Theorems *)

(** C7. [wakeup(chan)] makes runnable exactly the processes that wait on
    [chan]: each of them leaves its sleep queue, runs ([SRUN], no [p_wchan])
    and is at the head of the run queue; every other process keeps everything
    but its queue link, the queues stay well formed and nothing else in the
    kernel changes. *)
Theorem wakeup_exact c e s RQ SQ :
  queues s RQ SQ -> all_queued s SQ -> runout (kp s) = 0 ->
  exists s' W SQ', wakeup c e s = Ret tt e s' /\ (forall p, p ∈ W <-> waits_on c s p) /\
    queues s' (W ++ RQ) SQ' /\ all_queued s' SQ' /\ only_kp s s' /\
    (forall p, waits_on c s p -> nolink (proc_at s' p) = nolink (woken (proc_at s p))) /\
    (forall p, ~ waits_on c s p -> nolink (proc_at s' p) = nolink (proc_at s p)).
Proof.
  intros Hq Ha Hro. destruct (wakeup_ok c e s RQ SQ Hq Ha Hro) as (s' & Hr & Hq' & Ha' & Ho & _ & W1 & W2).
  exists s', (rev (filter (waits_on c s) (SQ (HASH c)))), (wake_SQ c s SQ). split_and!; try done.
  intros p. rewrite <- (waits_sleepers c s RQ SQ p) by done. by rewrite !list_elem_of_In, <- in_rev.
Qed.

(** C8. [swtch] gives the processor to the process with the least priority
    number among the runnable, loaded processes of the run queue, the first
    of them in queue order; it takes that process off the queue, keeping the
    order of the rest, and makes its number [curpri].  With nothing to run it
    goes to process 0. *)
Theorem swtch_picks_best me e s RQ SQ :
  queues s RQ SQ -> curproc s = me -> me <> 0%nat -> (forall p, -128 <= pri s p < 128) ->
  (forall p, p ∈ RQ -> 0 < p_addr (proc_at s p) < KERNEL_METADATA_PAGE) ->
  (exists p l1 l2 s', RQ = l1 ++ p :: l2 /\ best_at s l1 p l2 /\
     swtch e s = resume p me e s' /\ queues s' (l1 ++ l2) SQ /\
     uarrp (ku s') = p /\ curproc s' = p /\ curpri (kp s') = pri s p /\ runrun (kp s') = 0) \/
  ((forall q, q ∈ RQ -> ~ eligible s q) /\
   exists s', swtch e s = resume 0 me e s' /\ queues s' RQ SQ /\ uarrp (ku s') = 0%nat /\ curpri (kp s') = PUSER).
Proof. apply swtch_ok. Qed.

(** A sleep at a priority signals cannot disturb gives up the processor in a
    state where the process is on the queue of its channel, and a [wakeup] of
    that channel in that state makes it runnable and puts it on the run queue. *)
Lemma sleep_no_lost_wakeup c pri e s RQ SQ :
  queues s RQ SQ -> all_queued s SQ -> running s RQ SQ -> runout (kp s) = 0 -> pri <= PZERO ->
  exists s1 SQ1, sleep c pri e s = (_ ← swtch; splx (kipl s)) e s1 /\ kipl s1 = 0 /\
    queues s1 RQ SQ1 /\ all_queued s1 SQ1 /\ p_stat (proc_at s1 (curproc s)) = SSLEEP /\
    forall e', exists s2 RQ2 SQ2, wakeup c e' s1 = Ret tt e' s2 /\ queues s2 RQ2 SQ2 /\
      curproc s ∈ RQ2 /\ p_stat (proc_at s2 (curproc s)) = SRUN.
Proof.
  intros Hq Ha Hrun Hro Hp. destruct (slept_queues c pri s RQ SQ Hq Ha Hrun) as [Hq1 Ha1].
  destruct (slept_proc c pri s) as [E1 _].
  set (s1 := slept c pri s <| kipl := 0 |>). exists s1, (sleep_SQ c s SQ).
  assert (Hq1' : queues s1 RQ (sleep_SQ c s SQ)) by (by apply queues_only with (slept c pri s)).
  split; [by apply sleep_unint|]. split; [done|]. split; [done|]. split; [done|].
  split; [change (proc_at s1) with (proc_at (slept c pri s)); by rewrite E1|].
  intros e'. destruct (wakeup_ok c e' s1 RQ _ Hq1' Ha1 Hro) as (s2 & Hr & Hq2 & _ & _ & _ & W1 & _).
  assert (Hw : waits_on c s1 (curproc s)).
  { unfold waits_on. change (proc_at s1) with (proc_at (slept c pri s)). by rewrite E1. }
  eexists s2, _, _. split; [exact Hr|]. split; [exact Hq2|].
  assert (Hin : curproc s ∈ rev (filter (waits_on c s1) (sleep_SQ c s SQ (HASH c))) ++ RQ).
  { apply elem_of_app. left. apply list_elem_of_In. rewrite <- in_rev. apply list_elem_of_In.
    by apply (waits_sleepers c s1 RQ). }
  split; [exact Hin|]. by destruct (q_run_in _ _ _ Hq2 _ Hin) as (_ & ? & _).
Qed.

(** A sleep above [PZERO] with a signal pending that is not ignored does
    not give up the processor: it takes the process off the sleep queue again,
    leaves it running at spl 0 and jumps to [u_qsav]. *)
Lemma sleep_interrupted c pri e s RQ SQ n :
  queues s RQ SQ -> all_queued s SQ -> running s RQ SQ ->
  PZERO < pri -> sig16 (proc_at s (curproc s)) -> fset (p_flag (proc_at s (curproc s))) STRC = false ->
  pending (proc_at s (curproc s)) n -> ignored s n = false ->
  exists s', sleep c pri e s = Stop (Longjmp e) s' /\ queues s' RQ SQ /\ all_queued s' SQ /\
    p_stat (proc_at s' (curproc s)) = SRUN /\ kipl s' = 0.
Proof. apply sleep_signalled. Qed.

(** [issig] terminates; it returns the lowest pending signal that is not
    ignored and drops the ignored ones below it, or returns 0 with every
    pending signal ignored and dropped; nothing else changes. *)
Lemma issig_lowest e s :
  sig16 (proc_at s (curproc s)) -> fset (p_flag (proc_at s (curproc s))) STRC = false ->
  exists n s', issig e s = Ret n e s' /\ issig_result (curproc s) n s s'.
Proof. apply issig_ok. Qed.

(** [psignal] to a sleeping process adds exactly that signal to the
    pending ones, and makes the process runnable if and only if it sleeps
    above [PZERO]; otherwise it keeps sleeping and the run queue is the same. *)
Lemma psignal_sleeper p sig e s RQ SQ c :
  queues s RQ SQ -> all_queued s SQ -> runout (kp s) = 0 ->
  1 <= sig < NSIG -> p_stat (proc_at s p) = SSLEEP -> waits_on c s p ->
  exists s' RQ' SQ', psignal p sig e s = Ret tt e s' /\ queues s' RQ' SQ' /\ all_queued s' SQ' /\
    (forall n, pending (proc_at s' p) n <-> pending (proc_at s p) n \/ n = sig) /\
    (if PZERO <? p_pri (proc_at s p) then p ∈ RQ' else waits_on c s' p /\ RQ' = RQ).
Proof. apply psignal_ok. Qed.

(** C10. [newproc] terminates (the search for a process number tries at most 127
    of them) and, when a page is free, makes a runnable child in the first
    free slot under a number no process has as its pid or group; the child
    starts from the parent's trap frame with 0 in d0, its own page holds a
    copy of the parent's memory, every open file gains one reference per
    descriptor, and no other process or page changes. *)
Theorem newproc_child parentp e s rpp up page RQ SQ r :
  queues s RQ SQ -> 0 <= mpid (kp s) < 30000 -> first_free s = Some rpp ->
  userpage_alloc (upages_ (ku s)) = Ok (page, up) -> 0 < page < 32768 ->
  parent_of parentp s <> rpp -> kguard (ku s) (parent_of parentp s) = true ->
  u_ar0 (uarea (ku s) (parent_of parentp s)) = Some r ->
  exists m s', newproc parentp e s = Ret 0 e s' /\ 1 <= m <= 29999 /\ ~ used_pid s m /\
    upages_ (ku s') = up /\ forked s s' rpp (parent_of parentp s) m page r.
Proof. apply newproc_ok. Qed.

(** When no page is free, [newproc] fails with [ENOMEM] and leaves the slot
    it had taken free again: the process table is as before except for that
    slot, no file, inode or text gains a reference and no memory changes. *)
Lemma newproc_rollback parentp e s rpp up :
  0 <= mpid (kp s) < 30000 -> first_free s = Some rpp -> userpage_alloc (upages_ (ku s)) = Ok (0, up) ->
  exists s', newproc parentp e s = Ret 0 e s' /\ u_error (u s') = ENOMEM /\
    p_stat (proc_at s' rpp) = 0 /\ p_pid (proc_at s' rpp) = 0 /\
    (forall q, q <> rpp -> proc_at s' q = proc_at s q) /\ runq (kp s') = runq (kp s) /\
    kf s' = kf s /\ upmem (ku s') = upmem (ku s).
Proof.
  intros Hm Hf Hup. destruct (newproc_no_page parentp e s rpp up Hm Hf Hup) as (m & Hr).
  eexists. split; [exact Hr|]. set (s1 := newproc_entry rpp (parent_of parentp s) (with_mpid m s) <| ku; upages_ := up |>).
  split; [by rewrite u_upd_u|].
  change (proc_at (upd_u ?g ?x)) with (proc_at x). rewrite proc_upd_same. split_and!; try done.
  intros q Hq. rewrite proc_upd_ne by done. unfold s1, newproc_entry.
  change (proc_at (?x <| ku; upages_ := up |>)) with (proc_at x). by rewrite proc_upd_ne.
Qed.

End Queues.

(** * Witnesses *)

Definition ex_layout : Layout := fun _ => 0.

(** Process 1 runs; 2, 3 and 4 sleep in one hash chain, 2 and 4 on [lbolt] at
    an interruptible priority; 5 and 6 can run, 6 at the better priority. *)
Definition ex_procs (p : nat) : proc :=
  match p with
  | 0%nat => proc0 <| p_stat := SRUN |> <| p_flag := 3 |>
  | 1%nat => proc0 <| p_stat := SRUN |> <| p_flag := 1 |> <| p_addr := 1 |> <| p_pid := 7 |> <| p_sig := 6 |>
  | 2%nat => proc0 <| p_stat := SSLEEP |> <| p_flag := 1 |> <| p_wchan := Some ChLbolt |> <| p_link := Some 3%nat |> <| p_pri := 40 |>
  | 3%nat => proc0 <| p_stat := SSLEEP |> <| p_flag := 1 |> <| p_wchan := Some ChIpc |> <| p_link := Some 4%nat |> <| p_pri := 10 |>
  | 4%nat => proc0 <| p_stat := SSLEEP |> <| p_flag := 1 |> <| p_wchan := Some ChLbolt |> <| p_pri := 40 |>
  | 5%nat => proc0 <| p_stat := SRUN |> <| p_flag := 1 |> <| p_pri := 60 |> <| p_addr := 5 |> <| p_link := Some 6%nat |>
  | 6%nat => proc0 <| p_stat := SRUN |> <| p_flag := 1 |> <| p_pri := 50 |> <| p_addr := 6 |>
  | _ => proc0
  end.
Definition ex_sched : kst :=
  kst0 <| kp; procs := ex_procs |> <| kp; runq := Some 5%nat |>
       <| kp; slpque := fun h => if decide (h = 0) then Some 2%nat else None |>
       <| ku; uarrp := 1%nat |>
       <| ku; uarea := fun _ => user0 <| u_procp := 1%nat |> <| u_ar0 := Some (fun _ => 64) |>
                                      <| u_signal := fun n => if n =? 2 then 1 else 0 |> |>
       <| ku; upages_ := UPages (MapEnt 60 3 :: replicate 49 (MapEnt 0 0)) (replicate 63 0) |>.
Definition ex_RQ : list nat := [5; 6]%nat.
Definition ex_SQ (h : Z) : list nat := if decide (h = 0) then [2; 3; 4]%nat else [].

Lemma ex_queues : @queues ex_layout ex_sched ex_RQ ex_SQ.
Proof.
  split.
  - cbn. done.
  - intros h. cbn. unfold ex_SQ. case_decide; done.
  - by apply (bool_decide_unpack _).
  - intros h. unfold ex_SQ. case_decide; by apply (bool_decide_unpack _).
  - intros p Hp. repeat (apply elem_of_cons in Hp as [->|Hp]; [unfold NPROC; cbn; split_and!; [lia|done|done]|]).
    by apply elem_of_nil in Hp.
  - intros h p Hp. unfold ex_SQ in Hp. case_decide as Eh; [subst h|by apply elem_of_nil in Hp].
    repeat (apply elem_of_cons in Hp as [->|Hp]; [unfold NPROC; cbn; split_and!; [lia|done|eauto]|]).
    by apply elem_of_nil in Hp.
Qed.

Lemma ex_all_queued : @all_queued ex_layout ex_sched ex_SQ.
Proof.
  intros p c Hp. change (p ∈ [2; 3; 4]%nat).
  do 7 (destruct p as [|p]; [first [discriminate Hp | by apply (bool_decide_unpack _)]|]). discriminate Hp.
Qed.

Lemma ex_running : running ex_sched ex_RQ ex_SQ.
Proof.
  unfold running, NPROC. split_and!; [cbn; lia|by apply (bool_decide_unpack _)| |done].
  intros h. unfold ex_SQ. case_decide; by apply (bool_decide_unpack _).
Qed.

Lemma wakeup_exact_witness :
  exists s' W SQ', wakeup (H := ex_layout) ChLbolt [] ex_sched = Ret tt [] s' /\
    @queues ex_layout s' (W ++ ex_RQ) SQ' /\ forall p, p ∈ W <-> waits_on ChLbolt ex_sched p.
Proof.
  destruct (@wakeup_exact ex_layout ChLbolt [] ex_sched ex_RQ ex_SQ ex_queues ex_all_queued eq_refl)
    as (s' & W & SQ' & Hr & HW & Hq & _).
  exists s', W, SQ'. auto.
Defined.

Lemma swtch_picks_best_witness :
  exists p s', swtch [] ex_sched = Stop (Away p) s' /\ best_at ex_sched [5%nat] p [] /\ @queues ex_layout s' [5%nat] ex_SQ.
Proof.
  destruct (@swtch_picks_best ex_layout 1 [] ex_sched ex_RQ ex_SQ ex_queues eq_refl ltac:(lia))
    as [(p & l1 & l2 & s' & E & Hb & Hr & Hq & _)|[Hn _]].
  - intros p. do 7 (destruct p as [|p]; [unfold pri; cbn; lia|]). unfold pri; cbn; lia.
  - intros p Hp. repeat (apply elem_of_cons in Hp as [->|Hp]; [unfold KERNEL_METADATA_PAGE; cbn; lia|]).
    by apply elem_of_nil in Hp.
  - exists p, s'. destruct l1 as [|a [|b l1]]; cbn in E; injection E.
    + intros <- <-. destruct Hb as (_ & _ & Hb). specialize (Hb 6%nat ltac:(by left) ltac:(done)). by unfold pri in Hb; cbn in Hb.
    + intros <- <- <-. rewrite Hr. done.
    + intros E'. by destruct l1.
  - exfalso. apply (Hn 6%nat); [by right; left|done].
Defined.

Lemma sleep_no_lost_wakeup_witness :
  exists s1 SQ1, sleep (H := ex_layout) ChLbolt PINOD [] ex_sched = (_ ← swtch; splx 0) [] s1 /\ @queues ex_layout s1 ex_RQ SQ1.
Proof.
  destruct (@sleep_no_lost_wakeup ex_layout ChLbolt PINOD [] ex_sched ex_RQ ex_SQ ex_queues ex_all_queued ex_running eq_refl)
    as (s1 & SQ1 & Hr & _ & Hq & _); [unfold PINOD, PZERO; lia|].
  exists s1, SQ1. split; [exact Hr|exact Hq].
Defined.

Lemma sleep_interrupted_witness :
  exists s', sleep (H := ex_layout) ChLbolt PSLEP [] ex_sched = Stop (Longjmp []) s' /\ p_stat (proc_at s' 1) = SRUN.
Proof.
  destruct (@sleep_interrupted ex_layout ChLbolt PSLEP [] ex_sched ex_RQ ex_SQ 3 ex_queues ex_all_queued ex_running)
    as (s' & Hr & _ & _ & Hs & _); [unfold PSLEP, PZERO; lia|unfold sig16; cbn; lia|done|split; [lia|done]|done|].
  exists s'. split; [exact Hr|exact Hs].
Defined.

Lemma issig_lowest_witness : exists s', issig [] ex_sched = Ret 3 [] s'.
Proof.
  destruct (issig_lowest [] ex_sched) as (n & s' & Hr & _); [unfold sig16; cbn; lia|done|].
  assert (En : match issig [] ex_sched with Ret n _ _ => n | Stop _ _ => 0 end = 3) by (by vm_compute).
  rewrite Hr in En. subst n. by exists s'.
Defined.

Lemma psignal_sleeper_witness :
  exists s' RQ' SQ', psignal (H := ex_layout) 2 SIGKIL [] ex_sched = Ret tt [] s' /\ @queues ex_layout s' RQ' SQ' /\ 2%nat ∈ RQ'.
Proof.
  destruct (@psignal_sleeper ex_layout 2 SIGKIL [] ex_sched ex_RQ ex_SQ ChLbolt ex_queues ex_all_queued eq_refl)
    as (s' & RQ' & SQ' & Hr & Hq & _ & _ & Hin); [unfold SIGKIL, NSIG; lia|done|done|].
  exists s', RQ', SQ'. split; [exact Hr|]. split; [exact Hq|exact Hin].
Defined.

Lemma newproc_child_witness :
  exists m s', newproc (Some 1%nat) [] ex_sched = Ret 0 [] s' /\ 1 <= m <= 29999 /\ p_pid (proc_at s' 7) = m.
Proof.
  destruct (@newproc_child ex_layout (Some 1%nat) [] ex_sched 7 (UPages (MapEnt 59 4 :: replicate 49 (MapEnt 0 0))
      (<[3%nat := 1]> (replicate 63 0))) 3 ex_RQ ex_SQ (fun _ => 64) ex_queues)
    as (m & s' & Hr & Hm & _ & _ & F); [cbn; lia|by vm_compute|by vm_compute|lia|done|done|done|].
  exists m, s'. split_and!; [exact Hr|lia|lia|]. by rewrite (fk_child _ _ _ _ _ _ _ F).
Defined.

Lemma newproc_rollback_witness :
  exists s', newproc None [] (ex_sched <| ku; upages_ := UPages (replicate 50 (MapEnt 0 0)) (replicate 63 1) |>) = Ret 0 [] s'
    /\ u_error (u s') = ENOMEM.
Proof.
  destruct (newproc_rollback None [] (ex_sched <| ku; upages_ := UPages (replicate 50 (MapEnt 0 0)) (replicate 63 1) |>) 7
      (UPages (replicate 50 (MapEnt 0 0)) (replicate 63 1))) as (s' & Hr & He & _); [cbn; lia|by vm_compute|by vm_compute|].
  exists s'. split; [exact Hr|exact He].
Defined.
