(* ===== verification/Dll.v ===== *)
(** Doubly linked rings, as the buffer headers form them: [fw] and [bk] are the
    forward and backward pointers; [links] says that they join the elements of
    a list in order.  A ring with head [h] and elements [l] is
    [links (h :: l ++ [h])]. *)
From S2P Require Import Prelude.

Section Dll.
Context {A : Type} `{EqDecision A}.
Implicit Types (fw bk : A -> A) (l : list A).

Fixpoint links fw bk l : Prop :=
  match l with
  | x :: (y :: _) as r => fw x = y /\ bk y = x /\ links fw bk r
  | _ => True
  end.

Lemma links_cons fw bk x y l : links fw bk (x :: y :: l) <-> fw x = y /\ bk y = x /\ links fw bk (y :: l).
Proof. done. Qed.

Lemma links_app fw bk l1 x l2 :
  links fw bk (l1 ++ x :: l2) <-> links fw bk (l1 ++ [x]) /\ links fw bk (x :: l2).
Proof.
  induction l1 as [|a [|b r] IH].
  - simpl. tauto.
  - simpl app. rewrite !links_cons. simpl. destruct l2; simpl; tauto.
  - simpl app in *. rewrite !links_cons, IH. tauto.
Qed.

Lemma links_frame fw bk fw' bk' x l y :
  (forall u, u ∈ x :: l -> fw' u = fw u) -> (forall v, v ∈ l ++ [y] -> bk' v = bk v) ->
  links fw bk (x :: l ++ [y]) -> links fw' bk' (x :: l ++ [y]).
Proof.
  revert x; induction l as [|a r IH]; intros x Hf Hb; simpl app; rewrite !links_cons; intros (H1 & H2 & H3).
  - rewrite Hf, Hb by set_solver. done.
  - rewrite Hf, Hb by set_solver. split_and!; try done. apply IH; [set_solver|set_solver|done].
Qed.

(** A ring and its pointers. *)
Definition ring fw bk (h : A) l : Prop := NoDup (h :: l) /\ links fw bk (h :: l ++ [h]).

Lemma ring_frame fw bk fw' bk' h l :
  (forall u, u ∈ h :: l -> fw' u = fw u /\ bk' u = bk u) -> ring fw bk h l -> ring fw' bk' h l.
Proof.
  intros Hf [Hnd Hl]. split; [done|]. apply links_frame with fw bk; [intros; by apply Hf| |done].
  intros v Hv. apply Hf. set_solver.
Qed.

Lemma ring_nil fw bk h : ring fw bk h [] <-> fw h = h /\ bk h = h.
Proof. unfold ring. simpl. split; [tauto|]. intros. split; [|tauto]. repeat constructor. set_solver. Qed.

Lemma ring_head fw bk h l : ring fw bk h l -> fw h = match l with [] => h | a :: _ => a end.
Proof. intros [_ Hl]. destruct l; simpl in Hl; tauto. Qed.

Lemma ring_last fw bk h l : ring fw bk h l -> bk h = match last l with None => h | Some a => a end.
Proof.
  intros [_ Hl]. destruct l as [|x l _] using rev_ind; [simpl in *; tauto|].
  rewrite last_snoc. rewrite <- app_assoc in Hl. simpl app in Hl.
  change (h :: l ++ [x; h]) with ((h :: l) ++ x :: [h]) in Hl. apply links_app in Hl as [_ Hl]. simpl in Hl. tauto.
Qed.

(** The neighbours of an element. *)
Lemma ring_mid fw bk h l1 a l2 :
  ring fw bk h (l1 ++ a :: l2) ->
  bk a = List.last l1 h /\ fw a = match l2 with [] => h | b :: _ => b end.
Proof.
  intros [_ Hl]. rewrite <- app_assoc in Hl. simpl app in Hl.
  change (h :: l1 ++ a :: l2 ++ [h]) with ((h :: l1) ++ a :: l2 ++ [h]) in Hl.
  apply links_app in Hl as [Hl1 Hl2]. split.
  - clear Hl2. destruct l1 as [|x l1 _] using rev_ind; [simpl in *; tauto|].
    rewrite List.last_last. rewrite app_comm_cons, <- app_assoc in Hl1. simpl app in Hl1.
    change (h :: l1 ++ [x; a]) with ((h :: l1) ++ x :: [a]) in Hl1.
    apply links_app in Hl1 as [_ Hl1]. simpl in Hl1. tauto.
  - destruct l2; simpl in *; tauto.
Qed.

(** [bk a]->fw = fw a; [fw a]->bk = bk a; *)
Lemma ring_unlink fw bk fw' bk' h l1 a l2 :
  ring fw bk h (l1 ++ a :: l2) ->
  fw' (bk a) = fw a -> bk' (fw a) = bk a ->
  (forall x, x <> bk a -> x <> a -> fw' x = fw x) -> (forall x, x <> fw a -> x <> a -> bk' x = bk x) ->
  ring fw' bk' h (l1 ++ l2).
Proof.
  intros Hr E1 E2 F1 F2. destruct (ring_mid _ _ _ _ _ _ Hr) as [Eb Ef]. destruct Hr as [Hnd Hl].
  assert (Hnd' : NoDup (h :: l1 ++ l2)).
  { apply NoDup_cons in Hnd as [Hh Hnd]. apply NoDup_cons. split; [set_solver|].
    apply NoDup_app in Hnd as (N1 & N2 & N3). apply NoDup_cons in N3 as [_ N3].
    apply NoDup_app. split_and!; [done|set_solver|done]. }
  split; [done|].
  rewrite <- app_assoc in Hl. simpl app in Hl.
  change (h :: l1 ++ a :: l2 ++ [h]) with ((h :: l1) ++ a :: l2 ++ [h]) in Hl.
  apply links_app in Hl as [Hl1 Hl2].
  assert (Ha1 : a ∉ h :: l1 /\ a ∉ l2 /\ a <> h).
  { apply NoDup_cons in Hnd as [Hh Hnd]. apply NoDup_app in Hnd as (N1 & N2 & N3).
    apply NoDup_cons in N3 as [N3 _]. split_and!; [|done|set_solver]. intros [->|Hin]%elem_of_cons; [set_solver|].
    apply (N2 a Hin). by left. }
  destruct Ha1 as (Ha1 & Ha2 & Hah).
  (* the part before [a], up to its predecessor *)
  assert (Hp : exists l0 p, h :: l1 = l0 ++ [p] /\ p = bk a).
  { destruct l1 as [|x l1 _] using rev_ind; [by exists [], h|]. exists (h :: l1), x.
    rewrite Eb, List.last_last. done. }
  destruct Hp as (l0 & p & E0 & Ep).
  rewrite <- app_assoc. change (links fw' bk' ((h :: l1) ++ l2 ++ [h])). rewrite E0, <- app_assoc. simpl app.
  rewrite E0 in Hl1, Ha1. rewrite <- app_assoc in Hl1. simpl in Hl1. apply links_app in Hl1 as [Hl0 _].
  assert (Hnd0 : NoDup ((l0 ++ [p]) ++ l2)) by (rewrite <- E0; exact Hnd').
  assert (Hsep : p ∉ l0 /\ (forall v, v ∈ l0 ++ [p] -> v ∉ l2)).
  { apply NoDup_app in Hnd0 as (Hx & Hd & _). split; [|exact Hd].
    apply NoDup_app in Hx as (_ & Hx & _). intros Hin. apply (Hx p Hin). by left. }
  assert (Hh2 : forall b r, l2 = b :: r -> b ∉ l0 ++ [p]).
  { intros b r -> Hin. apply (proj2 Hsep b Hin). by left. }
  apply links_app. split.
  - destruct l0 as [|x l0]; [done|]. simpl app in *. apply links_frame with fw bk; [| |done].
    + intros v Hv. apply F1; [|set_solver]. rewrite <- Ep. intros ->. by destruct Hsep.
    + intros v Hv. apply F2; [|set_solver]. rewrite Ef. intros ->. destruct l2 as [|b l2].
      * injection E0 as -> E0. apply NoDup_cons in Hnd' as [Hx _]. apply Hx. by rewrite app_nil_r, E0.
      * apply (Hh2 b l2 eq_refl). by right.
  - destruct l2 as [|b l2]; simpl app in *.
    + rewrite links_cons. subst p. rewrite E1, Ef. split_and!; [done| |done]. by rewrite <- Ef, E2.
    + rewrite links_cons in *. destruct Hl2 as (_ & _ & Hl2). subst p. rewrite E1, Ef. split_and!; [done|by rewrite <- Ef, E2|].
      apply links_frame with fw bk; [| |done].
      * intros v Hv. apply F1; [|set_solver]. intros ->. apply NoDup_app in Hnd0 as (_ & Hd & _). apply (Hd (bk a)); set_solver.
      * intros v Hv. apply F2; [|set_solver]. rewrite Ef. intros ->.
        apply NoDup_app in Hnd0 as (_ & _ & Hd). apply NoDup_cons in Hd as [Hd _].
        apply elem_of_app in Hv as [Hv|Hv]; [done|]. apply list_elem_of_singleton in Hv as ->.
        apply NoDup_cons in Hnd' as [Hh _]. apply Hh. set_solver.
Qed.

(** Insert [a] after [h]. *)
Lemma ring_push_front fw bk fw' bk' h l a :
  ring fw bk h l -> a ∉ h :: l ->
  fw' h = a -> bk' a = h -> fw' a = fw h -> bk' (fw h) = a ->
  (forall x, x <> h -> x <> a -> fw' x = fw x) -> (forall x, x <> fw h -> x <> a -> bk' x = bk x) ->
  ring fw' bk' h (a :: l).
Proof.
  intros Hr Ha E1 E2 E3 E4 F1 F2. pose proof (ring_head _ _ _ _ Hr) as Eh. destruct Hr as [Hnd Hl]. split.
  - apply NoDup_cons in Hnd as [Hh Hnd]. apply NoDup_cons. split; [set_solver|]. apply NoDup_cons. split; [set_solver|done].
  - simpl app. rewrite links_cons. split_and!; [done|done|]. destruct l as [|b l]; simpl app in *; rewrite links_cons.
    + rewrite E3, Eh. split_and!; [done|congruence|done].
    + rewrite E3, Eh. split_and!; [done|congruence|]. rewrite links_cons in Hl. destruct Hl as (_ & _ & Hl).
      apply NoDup_cons in Hnd as [Hh Hnd]. apply NoDup_cons in Hnd as [Hb _].
      apply links_frame with fw bk; [| |done].
      * intros v Hv. apply F1; set_solver.
      * intros v Hv. apply F2; [rewrite Eh|]; set_solver.
Qed.

(** Insert [a] before [h], at the tail. *)
Lemma ring_push_back fw bk fw' bk' h l a :
  ring fw bk h l -> a ∉ h :: l ->
  bk' h = a -> fw' a = h -> bk' a = bk h -> fw' (bk h) = a ->
  (forall x, x <> bk h -> x <> a -> fw' x = fw x) -> (forall x, x <> h -> x <> a -> bk' x = bk x) ->
  ring fw' bk' h (l ++ [a]).
Proof.
  intros Hr Ha E1 E2 E3 E4 F1 F2. pose proof (ring_last _ _ _ _ Hr) as Eh. destruct Hr as [Hnd Hl]. split.
  - apply NoDup_cons in Hnd as [Hh Hnd]. apply NoDup_cons. split; [set_solver|]. apply NoDup_app. split_and!; [done|set_solver|].
    repeat constructor. set_solver.
  - rewrite <- app_assoc. simpl app. change (h :: l ++ [a; h]) with ((h :: l) ++ a :: [h]). apply links_app. split; [|simpl; tauto].
    destruct l as [|x l _] using rev_ind; [simpl in Eh; rewrite Eh in E3, E4; done|].
    rewrite last_snoc in Eh. rewrite <- app_assoc in Hl. simpl app in Hl.
    simpl app. rewrite <- app_assoc. simpl app. change (h :: l ++ [x; a]) with ((h :: l) ++ x :: [a]).
    change (h :: l ++ [x; h]) with ((h :: l) ++ x :: [h]) in Hl. apply links_app in Hl as [Hl _]. apply links_app. split.
    + rewrite Eh in E4, F1. simpl app in *. apply NoDup_cons in Hnd as [Hh Hnd]. apply NoDup_app in Hnd as (_ & Hd & _).
      apply links_frame with fw bk; [| |done].
      * intros v Hv. apply F1; [|set_solver]. intros ->. apply elem_of_cons in Hv as [->|Hv]; [set_solver|]. apply (Hd x Hv). by left.
      * intros v Hv. apply F2; set_solver.
    + rewrite Eh in E3, E4. simpl. split_and!; [done|congruence|done].
Qed.

End Dll.
