(* ===== verification/Sd.v ===== *)
(** The serial disk protocol: [dev/sd.c].

    A request frame and, for a write, one 512-byte sector go out on UART1; a
    response frame and, for a read, one sector come back; each part is closed
    by a CRC-16.  The line is two byte streams: what is sent, and what will be
    received, where [None] is an [sdgetc] that times out. *)
From S2P Require Import Prelude.

Definition SD_SECTOR_SIZE : Z := 512.
Definition SD_NSECTORS : Z := 2880.
Definition SD_MAGIC0 : Z := 231.       (* 0xe7 *)
Definition SD_MAGIC1 : Z := 104.       (* 0x68 *)
Definition SD_MAGIC2_REQ : Z := 83.    (* 0x53 *)
Definition SD_MAGIC2_RESP : Z := 115.  (* 0x73 *)
Definition SD_MAGIC3 : Z := 68.        (* 0x44 *)
Definition SD_VERSION : Z := 1.
Definition SD_OP_READ : Z := 82.       (* 'R' *)
Definition SD_OP_WRITE : Z := 87.      (* 'W' *)
Definition SD_STATUS_OK : Z := 0.

(** [for (i = 0; i < 8; i++) if (crc & 0x8000) ... else ...] *)
Fixpoint sdcrc_bits (n : nat) (crc : Z) : Z :=
  match n with
  | O => crc
  | S n => sdcrc_bits n (if fset crc 32768 then Z.lxor (i32 (Z.shiftl crc 1)) 4129 else i32 (Z.shiftl crc 1))
  end.

Definition sdcrc_update (crc ch : Z) : Z :=
  u16 (sdcrc_bits 8 (i32 (Z.lxor crc (i32 (Z.shiftl (u16 ch) 8))))).

(** The CRC of a list of bytes, from [crc]. *)
Definition sdcrc (crc : Z) (l : list Z) : Z := foldl sdcrc_update crc l.

(** What [sdputc], [sdput16] and [sdput32] put on the line. *)
Definition sdputc (c : Z) : list Z := [u8 c].
Definition sdput16 (v : Z) : list Z := sdputc (Z.shiftr v 8) ++ sdputc v.

Definition sdgetc (inp : list (option Z)) : Z * list (option Z) :=
  match inp with
  | [] => (-1, [])
  | None :: r => (-1, r)
  | Some c :: r => (Z.land c 255, r)
  end.

(** [n] characters, or [None] where [sdgetc] returned a negative value; the
    list holds the ones read before that. *)
Fixpoint sdgets (n : nat) (inp : list (option Z)) : bool * list Z * list (option Z) :=
  match n with
  | O => (true, [], inp)
  | S n =>
      let '(c, inp) := sdgetc inp in
      if c <? 0 then (false, [], inp)
      else let '(ok, l, inp) := sdgets n inp in (ok, c :: l, inp)
  end.

(** The magic of a response: [||] stops at the first mismatch. *)
Fixpoint sdmagic (l : list Z) (inp : list (option Z)) : bool * list (option Z) :=
  match l with
  | [] => (true, inp)
  | m :: l => let '(c, inp) := sdgetc inp in if c =? m then sdmagic l inp else (false, inp)
  end.

(** The request header [h]. *)
Definition sd_header (op lba : Z) : list Z :=
  [SD_VERSION; u8 op; 0; u8 (Z.shiftr lba 24); u8 (Z.shiftr lba 16); u8 (Z.shiftr lba 8); u8 lba; 0; 1].

(** All that a request sends. *)
Definition sd_frame (op lba : Z) (data : list Z) : list Z :=
  let h := sd_header op lba in
  [SD_MAGIC0; SD_MAGIC1; SD_MAGIC2_REQ; SD_MAGIC3] ++ h ++ sdput16 (sdcrc 0 h) ++
  (if op =? SD_OP_WRITE then
     let d := (fun c => Z.land c 255) <$> take 512 data in d ++ sdput16 (sdcrc 0 d)
   else []).

(** The end of a response: the CRC [want], compared with [crc]. *)
Definition sd_finish (crc status : Z) (data : list Z) (inp : list (option Z)) : Z * list Z * list (option Z) :=
  let '(c, inp) := sdgetc inp in
  if c <? 0 then (-1, data, inp)
  else
    let want := u16 (Z.shiftl (u16 c) 8) in
    let '(c, inp) := sdgetc inp in
    if c <? 0 then (-1, data, inp)
    else
      let want := u16 (Z.lor want c) in
      if negb (crc =? want) then (-1, data, inp)
      else if negb (status =? SD_STATUS_OK) then (-1, data, inp)
      else (0, data, inp).

(** The response: the value of [sdrequest], [data] and what is left on the
    line.  A sector that breaks off leaves the bytes read so far in [data]. *)
Definition sd_response (op : Z) (data : list Z) (inp : list (option Z)) : Z * list Z * list (option Z) :=
  let '(ok, inp) := sdmagic [SD_MAGIC0; SD_MAGIC1; SD_MAGIC2_RESP; SD_MAGIC3] inp in
  if negb ok then (-1, data, inp)
  else
    let '(ok, rh, inp) := sdgets 4 inp in
    if negb ok then (-1, data, inp)
    else if negb (nth 0 rh 0 =? SD_VERSION) then (-1, data, inp)
    else
      let status := i16 (nth 1 rh 0) in
      let count := i16 (Z.lor (Z.shiftl (i16 (nth 2 rh 0)) 8) (nth 3 rh 0)) in
      let crc := sdcrc 0 rh in
      if (op =? SD_OP_READ) && (status =? SD_STATUS_OK) then
        if negb (count =? 1) then (-1, data, inp)
        else
          let '(ok, l, inp) := sdgets 512 inp in
          let data := l ++ drop (length l) data in
          if negb ok then (-1, data, inp)
          else sd_finish (sdcrc crc l) status data inp
      else sd_finish crc status data inp.

(** The value, [data] afterwards, what was sent and what is left to receive. *)
Definition sdrequest (op lba : Z) (data : list Z) (inp : list (option Z)) :
    Z * list Z * list Z * list (option Z) :=
  let '(rv, data', inp') := sd_response op data inp in
  (rv, data', sd_frame op lba data, inp').

(** ** The CRC *)

(** Equal in the 16 bits of an [unsigned short]. *)
Definition same16 (x y : Z) : Prop := forall j, 0 <= j < 16 -> Z.testbit x j = Z.testbit y j.

Lemma xorb_inj_r a b c : xorb a c = xorb b c -> a = b.
Proof. by destruct a, b, c. Qed.
Lemma xorb_inj_l a b c : xorb a b = xorb a c -> b = c.
Proof. by destruct a, b, c. Qed.

Lemma fset_bit15 x : fset x 32768 = Z.testbit x 15.
Proof. by apply (fset_testbit x 15). Qed.

Definition sdcrc_step (x : Z) : Z := if fset x 32768 then Z.lxor (i32 (Z.shiftl x 1)) 4129 else i32 (Z.shiftl x 1).

Lemma sdcrc_step_bit x j : 0 <= j < 16 ->
  Z.testbit (sdcrc_step x) j = xorb (Z.testbit (Z.shiftl x 1) j) (Z.testbit x 15 && Z.testbit 4129 j).
Proof.
  intros Hj. unfold sdcrc_step. rewrite fset_bit15. destruct (Z.testbit x 15); rewrite ?Z.lxor_spec, swrap_testbit by lia.
  - done.
  - by rewrite xorb_false_r.
Qed.

Lemma sdcrc_step_same x y : same16 (sdcrc_step x) (sdcrc_step y) <-> same16 x y.
Proof.
  split; intros E.
  - assert (E15 : Z.testbit x 15 = Z.testbit y 15).
    { specialize (E 0 ltac:(lia)). rewrite !sdcrc_step_bit, !Z.shiftl_spec_low in E by lia.
      change (Z.testbit 4129 0) with true in E. by rewrite !andb_true_r, !xorb_false_l in E. }
    intros j Hj. destruct (decide (j = 15)) as [->|Hne]; [done|].
    specialize (E (j + 1) ltac:(lia)). rewrite !sdcrc_step_bit, !Z.shiftl_spec, E15 in E by lia.
    replace (j + 1 - 1) with j in E by lia. by apply xorb_inj_r in E.
  - intros j Hj. rewrite !sdcrc_step_bit, !Z.shiftl_spec by lia. rewrite (E 15) by lia.
    destruct (decide (j = 0)) as [->|Hne]; [by rewrite !Z.testbit_neg_r by lia|by rewrite (E (j - 1)) by lia].
Qed.

Lemma sdcrc_bits_same n : forall x y, same16 (sdcrc_bits n x) (sdcrc_bits n y) <-> same16 x y.
Proof. induction n as [|n IH]; intros x y; [done|]. cbn [sdcrc_bits]. rewrite IH. exact (sdcrc_step_same x y). Qed.

Lemma same16_u16 x y : same16 x y <-> u16 x = u16 y.
Proof.
  split; intros E.
  - apply Z.bits_inj'. intros j Hj. destruct (Z_lt_le_dec j 16).
    + unfold uwrap. rewrite !Z.mod_pow2_bits_low by lia. auto.
    + unfold uwrap. by rewrite !Z.mod_pow2_bits_high by lia.
  - intros j Hj. rewrite <- (Z.mod_pow2_bits_low x 16 j), <- (Z.mod_pow2_bits_low y 16 j) by lia. by fold (u16 x) (u16 y); rewrite E.
Qed.

(** The bits a character is mixed with. *)
Definition sdmix (crc ch : Z) : Z := i32 (Z.lxor crc (i32 (Z.shiftl (u16 ch) 8))).

Lemma sdmix_bit crc ch j : 0 <= j < 16 -> Z.testbit (sdmix crc ch) j = xorb (Z.testbit crc j) (Z.testbit ch (j - 8)).
Proof.
  intros Hj. unfold sdmix. rewrite swrap_testbit, Z.lxor_spec, swrap_testbit, Z.shiftl_spec by lia. f_equal.
  destruct (Z_lt_le_dec (j - 8) 0); [by rewrite !Z.testbit_neg_r by lia|]. unfold uwrap. by rewrite Z.mod_pow2_bits_low by lia.
Qed.

Lemma u16_u16 x : u16 (u16 x) = u16 x.
Proof. unfold uwrap. by rewrite Z.mod_mod. Qed.

Lemma sdcrc_update_same crc crc' ch ch' :
  same16 (sdcrc_update crc ch) (sdcrc_update crc' ch') <-> same16 (sdmix crc ch) (sdmix crc' ch').
Proof.
  rewrite same16_u16. unfold sdcrc_update. rewrite !u16_u16, <- same16_u16. apply sdcrc_bits_same.
Qed.

Lemma sdcrc_inj l : forall crc crc', same16 (sdcrc crc l) (sdcrc crc' l) -> same16 crc crc'.
Proof.
  induction l as [|c l IH]; intros crc crc' E; [done|]. apply IH, sdcrc_update_same in E.
  intros j Hj. specialize (E j Hj). rewrite !sdmix_bit in E by done. by apply xorb_inj_r in E.
Qed.

(** One wrong character changes the CRC. *)
Lemma sdcrc_detects crc a x y b : 0 <= x < 256 -> 0 <= y < 256 -> sdcrc crc (a ++ x :: b) = sdcrc crc (a ++ y :: b) -> x = y.
Proof.
  intros Hx Hy E. unfold sdcrc in E. rewrite !foldl_app in E. simpl in E.
  assert (Es : same16 (sdcrc (sdcrc_update (foldl sdcrc_update crc a) x) b) (sdcrc (sdcrc_update (foldl sdcrc_update crc a) y) b))
    by (unfold sdcrc; rewrite E; intros j Hj; reflexivity).
  apply sdcrc_inj, sdcrc_update_same in Es.
  apply Z.bits_inj'. intros j Hj. destruct (Z_lt_le_dec j 8).
  - specialize (Es (j + 8) ltac:(lia)). rewrite !sdmix_bit in Es by lia. replace (j + 8 - 8) with j in Es by lia.
    by apply xorb_inj_l in Es.
  - rewrite <- (Z.mod_small x 256), <- (Z.mod_small y 256) by done. change 256 with (2 ^ 8).
    by rewrite !Z.mod_pow2_bits_high by lia.
Qed.

Lemma sdcrc_range crc l : 0 <= crc < 65536 -> 0 <= sdcrc crc l < 65536.
Proof.
  revert crc. induction l as [|c l IH]; intros crc Hc; [done|]. apply IH. unfold sdcrc_update. by apply (uwrap_range 16).
Qed.

(** ** Responses *)

(** A good answer to a read: the sector [l]. *)
Definition sd_rh : list Z := [SD_VERSION; SD_STATUS_OK; 0; 1].
Definition sd_reply (l : list Z) : list Z :=
  [SD_MAGIC0; SD_MAGIC1; SD_MAGIC2_RESP; SD_MAGIC3] ++ sd_rh ++ l ++ sdput16 (sdcrc (sdcrc 0 sd_rh) l).

Definition ischar (o : option Z) : Prop := match o with Some c => 0 <= c < 256 | None => True end.

Lemma land255 c : 0 <= c < 256 -> Z.land c 255 = c.
Proof. intros Hc. change 255 with (Z.ones 8). rewrite Z.land_ones by lia. by apply Z.mod_small. Qed.

Lemma sdgetc_some inp c r : Forall ischar inp -> sdgetc inp = (c, r) -> 0 <= c -> inp = Some c :: r /\ 0 <= c < 256 /\ Forall ischar r.
Proof.
  intros Hf E Hc. destruct inp as [|[x|] inp]; simpl in E; simplify_eq; try lia.
  apply Forall_cons in Hf as [Hx Hf]. simpl in Hx. rewrite land255 in * by done. done.
Qed.

Lemma sdgets_ok n : forall inp l r, Forall ischar inp -> sdgets n inp = (true, l, r) ->
  inp = (Some <$> l) ++ r /\ length l = n /\ Forall (fun c => 0 <= c < 256) l /\ Forall ischar r.
Proof.
  induction n as [|n IH]; intros inp l r Hf E; simpl in E; [by simplify_eq|].
  destruct (sdgetc inp) as [c inp1] eqn:Eg. destruct (Z.ltb_spec c 0); [done|].
  destruct (sdgets n inp1) as [[ok l1] r1] eqn:Es. simplify_eq.
  destruct (sdgetc_some inp c inp1 Hf Eg ltac:(lia)) as (-> & Hc & Hf1).
  destruct (IH _ _ _ Hf1 Es) as (-> & <- & Hl & Hr). split_and!; try done. by constructor.
Qed.

Lemma sdgets_run l : forall r, Forall (fun c => 0 <= c < 256) l -> sdgets (length l) ((Some <$> l) ++ r) = (true, l, r).
Proof.
  induction l as [|c l IH]; intros r Hl; [done|]. apply Forall_cons in Hl as [Hc Hl]. simpl. rewrite land255 by done.
  rewrite (proj2 (Z.ltb_ge _ _)) by lia. by rewrite IH.
Qed.

Lemma sdmagic_ok l : forall inp r, Forall ischar inp -> Forall (fun c => 0 <= c < 256) l -> sdmagic l inp = (true, r) ->
  inp = (Some <$> l) ++ r /\ Forall ischar r.
Proof.
  induction l as [|m l IH]; intros inp r Hf Hl E; simpl in E; [by simplify_eq|]. apply Forall_cons in Hl as [Hm Hl].
  destruct (sdgetc inp) as [c inp1] eqn:Eg. destruct (Z.eqb_spec c m) as [->|]; [|done].
  destruct (sdgetc_some inp m inp1 Hf Eg ltac:(lia)) as (-> & Hc & Hf1). by destruct (IH _ _ Hf1 Hl E) as [-> Hr].
Qed.

Lemma sdmagic_run l : forall r, Forall (fun c => 0 <= c < 256) l -> sdmagic l ((Some <$> l) ++ r) = (true, r).
Proof.
  induction l as [|c l IH]; intros r Hl; [done|]. apply Forall_cons in Hl as [Hc Hl]. simpl. rewrite land255 by done.
  rewrite Z.eqb_refl. by apply IH.
Qed.

(** The two characters of a 16-bit number. *)
Lemma sdput16_split hi lo : 0 <= hi < 256 -> 0 <= lo < 256 -> sdput16 (u16 (Z.lor (u16 (Z.shiftl (u16 hi) 8)) lo)) = [hi; lo].
Proof.
  intros Hh Hl. rewrite (u16_id hi) by lia. rewrite Z.shiftl_mul_pow2 by lia. rewrite (u16_id (hi * 2 ^ 8)) by lia.
  assert (E : Z.lor (hi * 2 ^ 8) lo = hi * 256 + lo).
  { change (2 ^ 8) with 256. rewrite <- Z.add_lor_land. replace (Z.land (hi * 256) lo) with 0; [lia|].
    symmetry. apply Z.bits_inj'. intros j Hj. rewrite Z.land_spec, Z.testbit_0_l. change 256 with (2 ^ 8).
    destruct (Z_lt_le_dec j 8); [by rewrite Z.mul_pow2_bits_low|]. rewrite <- (Z.mod_small lo 256) by done.
    change 256 with (2 ^ 8). rewrite (Z.mod_pow2_bits_high lo) by lia. apply andb_false_r. }
  rewrite E, u16_id by lia. unfold sdput16, sdputc. rewrite Z.shiftr_div_pow2 by lia. change (2 ^ 8) with 256. simpl.
  rewrite Z.div_add_l, Z.div_small, Z.add_0_r by lia. rewrite u8_id by done. unfold uwrap. change (2 ^ 8) with 256.
  by rewrite Z.add_comm, Z.mod_add, Z.mod_small by lia.
Qed.

Lemma sd_finish_ok crc data inp data' r : Forall ischar inp -> sd_finish crc SD_STATUS_OK data inp = (0, data', r) ->
  data' = data /\ inp = (Some <$> sdput16 crc) ++ r /\ Forall ischar r.
Proof.
  intros Hf E. unfold sd_finish in E. destruct (sdgetc inp) as [hi i1] eqn:E1. destruct (Z.ltb_spec hi 0); [done|].
  destruct (sdgetc_some _ _ _ Hf E1 ltac:(lia)) as (-> & Hh & Hf1).
  destruct (sdgetc i1) as [lo i2] eqn:E2. destruct (Z.ltb_spec lo 0); [done|].
  destruct (sdgetc_some _ _ _ Hf1 E2 ltac:(lia)) as (-> & Hl & Hf2).
  destruct (Z.eqb_spec crc (u16 (Z.lor (u16 (Z.shiftl (u16 hi) 8)) lo))) as [Ec|]; [|done].
  cbn [negb] in E. change (SD_STATUS_OK =? SD_STATUS_OK) with true in E. cbn [negb] in E. injection E as <- <-.
  rewrite Ec, sdput16_split by done. done.
Qed.

Lemma sd_finish_run crc data r : 0 <= crc < 65536 ->
  sd_finish crc SD_STATUS_OK data ((Some <$> sdput16 crc) ++ r) = (0, data, r).
Proof.
  intros Hc. assert (Hhi : 0 <= u8 (Z.shiftr crc 8) < 256) by (apply (uwrap_range 8); lia).
  assert (Hlo : 0 <= u8 crc < 256) by (apply (uwrap_range 8); lia).
  unfold sd_finish, sdput16, sdputc. simpl. rewrite !land255 by done.
  rewrite (proj2 (Z.ltb_ge (u8 (Z.shiftr crc 8)) 0)), (proj2 (Z.ltb_ge (u8 crc) 0)) by lia.
  assert (E : u16 (Z.lor (u16 (Z.shiftl (u16 (u8 (Z.shiftr crc 8))) 8)) (u8 crc)) = crc).
  { rewrite <- (u16_id crc) at 3 by done. apply same16_u16. intros j Hj. unfold uwrap.
    rewrite Z.lor_spec, Z.mod_pow2_bits_low, Z.shiftl_spec by lia. destruct (Z_lt_le_dec j 8).
    - rewrite Z.testbit_neg_r by lia. by rewrite Z.mod_pow2_bits_low by lia.
    - rewrite (Z.mod_pow2_bits_high crc 8) by lia. rewrite orb_false_r. rewrite !Z.mod_pow2_bits_low by lia.
      rewrite Z.shiftr_spec by lia. f_equal. lia. }
  rewrite E, Z.eqb_refl. done.
Qed.

Lemma sd_accepts data inp data' r : Forall ischar inp -> sd_response SD_OP_READ data inp = (0, data', r) ->
  exists l, length l = 512%nat /\ Forall (fun c => 0 <= c < 256) l /\
    inp = (Some <$> sd_reply l) ++ r /\ data' = l ++ drop 512 data.
Proof.
  intros Hf E. unfold sd_response in E.
  destruct (sdmagic _ inp) as [ok i1] eqn:Em. destruct ok; [|done]. cbn [negb] in E.
  apply sdmagic_ok in Em as [-> Hf1]; [|done|by repeat constructor].
  destruct (sdgets 4 i1) as [[ok rh] i2] eqn:Er. destruct ok; [|done]. cbn [negb] in E.
  apply sdgets_ok in Er as (-> & Hlr & Hr & Hf2); [|done].
  destruct rh as [|v [|st [|c1 [|c0 [|]]]]]; try done. cbn [nth] in E.
  rewrite !Forall_cons in Hr. destruct Hr as (Hv & Hst & Hc1 & Hc0 & _).
  rewrite (i16_id st), (i16_id c1) in E by lia.
  destruct (Z.eqb_spec v SD_VERSION) as [->|]; [|done]. cbn [negb] in E.
  destruct (Z.eqb_spec st SD_STATUS_OK) as [->|Hns].
  2:{ exfalso. rewrite andb_false_r in E. unfold sd_finish in E. rewrite (proj2 (Z.eqb_neq _ _) Hns) in E. cbn [negb] in E.
      repeat case_match; simplify_eq. }
  change ((SD_OP_READ =? SD_OP_READ) && true) with true in E. cbv iota in E.
  destruct (Z.eqb_spec (i16 (Z.lor (Z.shiftl c1 8) c0)) 1) as [Ec|]; [|done]. cbn [negb] in E.
  destruct (sdgets 512 i2) as [[ok l] i3] eqn:El. destruct ok; [|done]. cbn [negb] in E.
  apply sdgets_ok in El as (-> & Hll & Hl & Hf3); [|done].
  apply sd_finish_ok in E as (-> & -> & _); [|done]. exists l. rewrite Hll. split_and!; try done.
  assert (Hsp : sdput16 (u16 (Z.lor (u16 (Z.shiftl (u16 c1) 8)) c0)) = [c1; c0]) by (by apply sdput16_split).
  assert (E1 : u16 (Z.lor (u16 (Z.shiftl (u16 c1) 8)) c0) = 1).
  { transitivity (u16 (i16 (Z.lor (Z.shiftl c1 8) c0))); [|by rewrite Ec]. rewrite (swrap_uwrap 16) by lia.
    rewrite (u16_id c1) by lia. rewrite (u16_id (Z.shiftl c1 8)); [done|]. rewrite Z.shiftl_mul_pow2 by lia. lia. }
  rewrite E1 in Hsp. injection Hsp as <- <-.
  unfold sd_reply. rewrite !fmap_app, <- !app_assoc. done.
Qed.

Lemma sd_accepted l data r : length l = 512%nat -> Forall (fun c => 0 <= c < 256) l ->
  sd_response SD_OP_READ data ((Some <$> sd_reply l) ++ r) = (0, l ++ drop 512 data, r).
Proof.
  intros Hl Hc. unfold sd_response, sd_reply. rewrite fmap_app, <- app_assoc. rewrite sdmagic_run by (by repeat constructor).
  cbn [negb]. rewrite fmap_app, <- app_assoc. change 4%nat with (length sd_rh). rewrite sdgets_run by (by repeat constructor).
  cbn [negb nth sd_rh]. change (SD_VERSION =? SD_VERSION) with true. change (i16 SD_STATUS_OK) with SD_STATUS_OK.
  change ((SD_OP_READ =? SD_OP_READ) && (SD_STATUS_OK =? SD_STATUS_OK)) with true. cbn [negb].
  change (i16 (Z.lor (Z.shiftl (i16 0) 8) 1)) with 1. change (1 =? 1) with true. cbn [negb].
  rewrite fmap_app, <- app_assoc. rewrite <- Hl at 1. rewrite sdgets_run by done. cbn [negb].
  rewrite Hl. apply sd_finish_run. apply sdcrc_range. by vm_compute.
Qed.

Lemma sdput16_inj a b : 0 <= a < 65536 -> 0 <= b < 65536 -> sdput16 a = sdput16 b -> a = b.
Proof.
  intros Ha Hb. unfold sdput16, sdputc, uwrap. rewrite !Z.shiftr_div_pow2 by lia. change (2 ^ 8) with 256. simpl.
  intros [= E1 E2]. Z.div_mod_to_equations. lia.
Qed.

Lemma sd_response_rv op data inp : (sd_response op data inp).1.1 = 0 \/ (sd_response op data inp).1.1 = -1.
Proof. unfold sd_response, sd_finish. repeat case_match; simpl; auto. Qed.

Lemma sd_reply_length l : length (sd_reply l) = (10 + length l)%nat.
Proof. unfold sd_reply, sdput16, sdputc. rewrite !length_app. simpl. lia. Qed.

(** Replies that differ in one place differ in the header, which is fixed. *)
Lemma sd_reply_distance l l' i c : length l = length l' -> Forall (fun c => 0 <= c < 256) l -> 0 <= c < 256 ->
  <[i := c]> (sd_reply l) = sd_reply l' -> (i < length (sd_reply l))%nat -> sd_reply l !! i = Some c.
Proof.
  intros Hlen Hl Hc E Hi. rewrite sd_reply_length in Hi.
  assert (Ei : sd_reply l' !! i = Some c) by (rewrite <- E; apply list_lookup_insert_eq; by rewrite sd_reply_length).
  set (P := [SD_MAGIC0; SD_MAGIC1; SD_MAGIC2_RESP; SD_MAGIC3] ++ sd_rh).
  assert (Er : forall k, sd_reply k = P ++ k ++ sdput16 (sdcrc (sdcrc 0 sd_rh) k)) by done.
  destruct (decide (i < 8)%nat) as [H8|H8].
  { rewrite Er, lookup_app_l in Ei |- * by done. done. }
  assert (Hr : forall k, 0 <= sdcrc (sdcrc 0 sd_rh) k < 65536) by (intros; apply sdcrc_range; by vm_compute).
  rewrite !Er in E. rewrite insert_app_r_alt in E by (simpl; lia). apply app_inv_head in E. change (length P) with 8%nat in E.
  destruct (decide (i - 8 < length l)%nat) as [Hj|Hj].
  - rewrite insert_app_l in E by done. apply app_inj_1 in E as [El Ec]; [|by rewrite length_insert].
    apply sdput16_inj in Ec; [|auto..].
    destruct (lookup_lt_is_Some_2 l (i - 8) Hj) as [x Hx]. rewrite Er, lookup_app_r, lookup_app_l by (simpl; lia || done).
    change (length P) with 8%nat. rewrite Hx. f_equal.
    pose proof (take_drop_middle l _ x Hx) as Em. rewrite <- El in Ec. rewrite insert_take_drop in Ec by done.
    rewrite <- Em in Ec at 1. apply sdcrc_detects in Ec; [done| |done].
    by apply (Forall_lookup_1 _ _ _ _ Hl Hx).
  - rewrite insert_app_r_alt in E by lia. apply app_inj_1 in E as [El _]; [|done]. by rewrite El.
Qed.

#[local] Opaque sdcrc.

(** C27. The driver accepts exactly the well-formed answers to a read: it
    returns 0 if and only if the line carries the magic, a header with version
    1, status 0 and count 1, a sector, and the CRC of header and sector; the
    buffer then holds that sector, and nothing after the answer is consumed. *)
Theorem sd_read_exact lba data inp data' r : Forall ischar inp ->
  (sdrequest SD_OP_READ lba data inp = (0, data', sd_frame SD_OP_READ lba data, r) <->
   exists l, length l = 512%nat /\ Forall (fun c => 0 <= c < 256) l /\
     inp = (Some <$> sd_reply l) ++ r /\ data' = l ++ drop 512 data).
Proof.
  intros Hf. unfold sdrequest. split.
  - destruct (sd_response SD_OP_READ data inp) as [[rv d] i] eqn:E. intros HX.
    pose proof (f_equal (fun t => t.1.1.1) HX) as E1. pose proof (f_equal (fun t => t.1.1.2) HX) as E2.
    pose proof (f_equal (fun t => t.2) HX) as E3. cbn [fst snd] in E1, E2, E3. subst rv d i. exact (sd_accepts _ _ _ _ Hf E).
  - intros (l & Hl & Hc & -> & ->). by rewrite sd_accepted.
Qed.

(** C28. An answer to a read with one wrong character, wherever it is (magic,
    header, sector or CRC) and whatever follows on the line, is rejected. *)
Theorem sd_corruption_rejected lba data l i c rest :
  length l = 512%nat -> Forall (fun c => 0 <= c < 256) l -> Forall ischar rest ->
  (i < length (sd_reply l))%nat -> 0 <= c < 256 -> sd_reply l !! i <> Some c ->
  exists data' r, sdrequest SD_OP_READ lba data ((Some <$> <[i := c]> (sd_reply l)) ++ rest) =
    (-1, data', sd_frame SD_OP_READ lba data, r).
Proof.
  intros Hl Hb Hf Hi Hc Hne. set (inp := (Some <$> <[i := c]> (sd_reply l)) ++ rest).
  unfold sdrequest. destruct (sd_response SD_OP_READ data inp) as [[rv d] r] eqn:E.
  destruct (sd_response_rv SD_OP_READ data inp) as [E'|E']; rewrite E in E'; simpl in E'; subst rv; [|by eexists _, _].
  destruct Hne. assert (Hf' : Forall ischar inp).
  { apply Forall_app. split; [|done]. apply Forall_fmap, Forall_insert; [|done]. unfold sd_reply.
    rewrite !Forall_app. split_and!; [by repeat constructor|by repeat constructor|done|].
    repeat constructor; simpl; apply (uwrap_range 8); lia. }
  destruct (sd_accepts data inp d r Hf' E) as (l' & Hl' & _ & Ei & _). unfold inp in Ei.
  apply app_inj_1 in Ei as [Ei _]; [|by rewrite !length_fmap, length_insert, !sd_reply_length, Hl, Hl'].
  apply (sd_reply_distance l l'); [congruence|done|done| |done]. by apply (inj (fmap Some)).
Qed.

Lemma sd_read_exact_witness :
  sdrequest SD_OP_READ 7 [] ((Some <$> sd_reply (replicate 512 65)) ++ [None]) =
    (0, replicate 512 65, sd_frame SD_OP_READ 7 [], [None]).
Proof.
  apply (sd_read_exact 7 [] ((Some <$> sd_reply (replicate 512 65)) ++ [None])).
  - apply Forall_forall. intros x Hx. apply elem_of_app in Hx as [Hx|Hx].
    + apply list_elem_of_fmap in Hx as (y & -> & Hy). revert y Hy. apply Forall_forall.
      apply (bool_decide_unpack _). by vm_compute.
    + apply list_elem_of_singleton in Hx. by subst.
  - exists (replicate 512 65). split_and!; [by rewrite length_replicate|by apply Forall_replicate|done|by rewrite drop_nil, app_nil_r].
Defined.

Lemma sd_corruption_rejected_witness :
  exists data' r, sdrequest SD_OP_READ 7 [] ((Some <$> <[100%nat := 66]> (sd_reply (replicate 512 65))) ++ []) =
    (-1, data', sd_frame SD_OP_READ 7 [], r).
Proof.
  apply (sd_corruption_rejected 7 [] (replicate 512 65) 100 66 []).
  - by rewrite length_replicate.
  - by apply Forall_replicate.
  - by constructor.
  - rewrite sd_reply_length, length_replicate. lia.
  - lia.
  - vm_compute. discriminate.
Defined.
