(* ===== verification/Bio.v ===== *)
(** The buffer cache and its drivers: [dev/bio.c], [dev/rd.c], the strategy
    routine of [dev/sd.c], [binit] of [sys/main.c] and the block device switch
    of [conf/c.c].

    Both drivers finish a transfer before their strategy routine returns. *)
From S2P Require Import Prelude Malloc Clist Kernel Sched Dll Sd.

Section Bio.
Context `{Layout}.

(** ** Sleeping until a condition clears

    [while (cond) { pre; sleep(c, pri); }]: every turn uses up one step of the
    environment, so their number bounds the loop. *)
Fixpoint sleep_while_f (n : nat) (cond : kst -> bool) (pre : kst -> kst) (c : chan) (pri : Z) : M unit :=
  match n with
  | O => nofuel
  | S n =>
      b ← gets cond;
      if b : bool then _ ← modify pre; _ ← sleep c pri; sleep_while_f n cond pre c pri else mret tt
  end.
Definition sleep_while (cond : kst -> bool) (pre : kst -> kst) (c : chan) (pri : Z) : M unit :=
  fun e s => sleep_while_f (S (length e)) cond pre c pri e s.

(** [bp->b_flags |= m] and [bp->b_flags &= ~m] *)
Definition or_flags (m : Z) (b : bptr) : kst -> kst := upd_buf b (fun x => x <| b_flags ::= fun f => Z.lor f m |>).
Definition clr_flags (m : Z) (b : bptr) : kst -> kst := upd_buf b (fun x => x <| b_flags ::= fun f => fclr f m |>).
Definition has (s : kst) (b : bptr) (m : Z) : bool := fset (b_flags (buf_at s b)) m.

(** ** Releasing *)

(** Put [bp] at the head or at the tail of the available list. *)
Definition av_head (bp : bptr) (s : kst) : kst :=
  let back := av_forw (buf_at s BFree) in
  let s := upd_buf back (fun x => x <| av_back := bp |>) s in
  let s := upd_buf bp (fun x => x <| av_forw := back |>) s in
  let s := upd_buf BFree (fun x => x <| av_forw := bp |>) s in
  upd_buf bp (fun x => x <| av_back := BFree |>) s.

Definition av_tail (bp : bptr) (s : kst) : kst :=
  let back := av_back (buf_at s BFree) in
  let s := upd_buf back (fun x => x <| av_forw := bp |>) s in
  let s := upd_buf bp (fun x => x <| av_back := back |>) s in
  let s := upd_buf BFree (fun x => x <| av_back := bp |>) s in
  upd_buf bp (fun x => x <| av_forw := BFree |>) s.

Definition B_RELEASE : Z := Z.lor B_WANTED (Z.lor B_BUSY (Z.lor B_ASYNC B_AGE)).

Definition brelse (bp : bptr) : M unit :=
  w ← gets (fun s => has s bp B_WANTED);
  _ ← when w (wakeup (ChBuf bp));
  fw ← gets (fun s => has s BFree B_WANTED);
  _ ← when fw (_ ← modify (clr_flags B_WANTED BFree); wakeup (ChBuf BFree));
  er ← gets (fun s => has s bp B_ERROR);
  _ ← when er (modify (upd_buf bp (fun x => x <| b_dev := NODEV |>)));
  s ← spl6;
  age ← gets (fun s => has s bp B_AGE);
  _ ← modify (if age : bool then av_head bp else av_tail bp);
  _ ← modify (clr_flags B_RELEASE bp);
  splx s.

Definition iodone (bp : bptr) : M unit :=
  _ ← modify (or_flags B_DONE bp);
  a ← gets (fun s => has s bp B_ASYNC);
  if a : bool then brelse bp
  else _ ← modify (clr_flags B_WANTED bp); wakeup (ChBuf bp).

(** ** The RAM disk *)

Definition DISK_PAGE_SIZE : Z := 262144.
Definition RD_SIZE : Z := 32768.

Definition rdvalid (minor : Z) : bool := (0 <=? minor) && (minor <? 1).

(** The window shows page [page] of the disk, an 8-bit register. *)
Definition rd_addr (page page_offset : Z) : Z := u8 page * DISK_PAGE_SIZE + page_offset.

(** [page] and [page_offset] after one byte, [count] being left. *)
Definition rd_next (count : nat) (page po : Z) : Z * Z :=
  let po := po + 1 in
  if (po =? DISK_PAGE_SIZE) && negb (Nat.eqb count 0) then (page + 1, 0) else (page, po).

Fixpoint rd_read (count : nat) (page po : Z) (mem : Z -> Z) : list Z :=
  match count with
  | O => []
  | S n => let c := mem (rd_addr page po) in
           let '(page, po) := rd_next n page po in c :: rd_read n page po mem
  end.

Fixpoint rd_write (count : nat) (page po : Z) (l : list Z) (mem : Z -> Z) : Z -> Z :=
  match count with
  | O => mem
  | S n => let mem := <[rd_addr page po := nth 0 l 0]> mem in
           let '(page, po) := rd_next n page po in rd_write n page po (tail l) mem
  end.

Definition rdxfer (bp : bptr) : M unit :=
  b ← gets (fun s => buf_at s bp);
  if negb (rdvalid (minor (b_dev b))) || (b_blkno b <? 0) || (RD_SIZE <=? b_blkno b) then
    _ ← modify (or_flags B_ERROR bp); iodone bp
  else
    let disk_offset := u32 (u32 (b_blkno b) * 512) in
    let page := disk_offset / DISK_PAGE_SIZE in
    let page_offset := disk_offset mod DISK_PAGE_SIZE in
    let count := Z.to_nat (u16 (b_bcount b)) in
    _ ← (if fset (b_flags b) B_READ then
           modify (fun s => s <| kb; bdata ::= fun d =>
             <[bp := rd_read count page page_offset (rdmem (kb s)) ++ drop count (d bp)]> d |>)
         else
           modify (fun s => s <| kb; rdmem ::= rd_write count page page_offset (bdata (kb s) bp) |>));
    _ ← modify (upd_buf bp (fun x => x <| b_resid := 0 |>));
    iodone bp.

Definition rdopen (dev : Z) : M Z :=
  if negb (rdvalid (minor dev)) then _ ← seterror ENXIO; mret (-1) else mret 0.
Definition rdstrategy (bp : bptr) : M Z := _ ← rdxfer bp; mret 0.

(** ** The serial disk *)

Definition sdopen (dev : Z) : M Z :=
  if negb (minor dev =? 0) then _ ← seterror ENXIO; mret (-1) else mret 0.

Definition sd_do (op lba : Z) (bp : bptr) : M Z := fun e s =>
  let '(rv, data, snt, inp) := sdrequest op (u32 lba) (bdata (kb s) bp) (sdin (kb s)) in
  Ret rv e (s <| kb; bdata ::= <[bp := data]> |> <| kb; sdout ::= fun o => o ++ snt |> <| kb; sdin := inp |>).

Definition sdstrategy (bp : bptr) : M Z :=
  b ← gets (fun s => buf_at s bp);
  if negb (minor (b_dev b) =? 0) || (b_blkno b <? 0) || (SD_NSECTORS <=? b_blkno b) ||
     negb (b_bcount b =? SD_SECTOR_SIZE) then
    _ ← modify (or_flags B_ERROR bp); _ ← iodone bp; mret 0
  else
    rv ← sd_do (if fset (b_flags b) B_READ then SD_OP_READ else SD_OP_WRITE) (b_blkno b) bp;
    _ ← when (rv <? 0) (modify (or_flags B_ERROR bp));
    _ ← modify (upd_buf bp (fun x => x <| b_resid := 0 |>));
    _ ← iodone bp; mret 0.

(** ** The block device switch, [bdevsw] of [conf/c.c] *)

Record bdevsw_entry := BDev {
  d_open : Z -> Z -> M Z;
  d_close : Z -> Z -> M Z;
  d_strategy : bptr -> M Z;
  d_tab : option bptr
}.

(** [notready] of [conf/stubs.c], the body of every [nodev] and [ht] entry. *)
Definition notready : M Z := _ ← seterror ENODEV; mret (-1).
Definition nodev : bdevsw_entry := BDev (fun _ _ => notready) (fun _ _ => notready) (fun _ => notready) None.

Definition bdevsw : list bdevsw_entry :=
  [ BDev (fun dev _ => rdopen dev) (fun _ _ => mret 0) rdstrategy (Some (BTab 0));
    BDev (fun dev _ => sdopen dev) (fun _ _ => mret 0) sdstrategy (Some (BTab 1));
    nodev; nodev; nodev; nodev; nodev;
    BDev (fun _ _ => notready) (fun _ _ => notready) (fun _ => notready) (Some (BTab 7));
    nodev ].

Definition bdev (dev : Z) : bdevsw_entry := nth (Z.to_nat (major dev)) bdevsw nodev.
Definition dtab (dev : Z) : option bptr := d_tab (bdev dev).

(** ** I/O on a buffer *)

Definition geterror (bp : bptr) : M unit :=
  b ← gets (fun s => buf_at s bp);
  if fset (b_flags b) B_ERROR then
    _ ← seterror (b_error b);
    when (i8 (b_error b) =? 0) (seterror EIO)
  else mret tt.

Definition iowait (bp : bptr) : M unit :=
  _ ← spl6;
  _ ← sleep_while (fun s => negb (has s bp B_DONE)) id (ChBuf bp) PRIBIO;
  _ ← spl0;
  geterror bp.

Definition B_REWRITE : Z := Z.lor B_READ (Z.lor B_DONE (Z.lor B_ERROR (Z.lor B_DELWRI B_AGE))).

Definition bwrite (bp : bptr) : M unit :=
  flag ← gets (fun s => b_flags (buf_at s bp));
  _ ← modify (clr_flags B_REWRITE bp);
  _ ← modify (upd_buf bp (fun x => x <| b_bcount := BSIZE |>));
  _ ← modify (fun s => s <| kb; io_nwrite ::= fun n => n + 1 |>);
  dev ← gets (fun s => b_dev (buf_at s bp));
  _ ← d_strategy (bdev dev) bp;
  if negb (fset flag B_ASYNC) then _ ← iowait bp; brelse bp
  else if fset flag B_DELWRI then modify (or_flags B_AGE bp)
  else geterror bp.

Definition bawrite (bp : bptr) : M unit := _ ← modify (or_flags B_ASYNC bp); bwrite bp.

Definition bdwrite (bp : bptr) : M unit :=
  dev ← gets (fun s => b_dev (buf_at s bp));
  tape ← gets (fun s => match dtab dev with Some dp => has s dp B_TAPE | None => false end);
  if tape : bool then bawrite bp
  else _ ← modify (or_flags (Z.lor B_DELWRI B_DONE) bp); brelse bp.

(** ** Finding and taking a buffer *)

(** The first buffer of the queue from [bp] up to [dp] with this device and
    block. *)
Fixpoint find_blk (n : nat) (bp dp : bptr) (dev blkno : Z) (s : kst) : option (option bptr) :=
  if decide (bp = dp) then Some None
  else match n with
  | O => None
  | S n => let b := buf_at s bp in
           if (b_blkno b =? blkno) && (b_dev b =? dev) then Some (Some bp)
           else find_blk n (b_forw b) dp dev blkno s
  end.

(** Each pool buffer is on a queue at most once. *)
Definition CHAINFUEL : nat := 30.

Definition find_on (dp : bptr) (dev blkno : Z) : M (option bptr) := fun e s =>
  match find_blk CHAINFUEL (b_forw (buf_at s dp)) dp dev blkno s with
  | Some r => Ret r e s
  | None => Stop Nofuel s
  end.

(** A device without a queue is a null pointer dereference. *)
Definition incore (dev blkno : Z) : M bool :=
  match dtab dev with
  | None => panic "null d_tab"
  | Some dp => r ← find_on dp dev blkno; mret (match r with Some _ => true | None => false end)
  end.

Definition av_unlink (bp : bptr) (s : kst) : kst :=
  let s := upd_buf (av_back (buf_at s bp)) (fun x => x <| av_forw := av_forw (buf_at s bp) |>) s in
  upd_buf (av_forw (buf_at s bp)) (fun x => x <| av_back := av_back (buf_at s bp) |>) s.

Definition notavail (bp : bptr) : M unit :=
  s ← spl6;
  _ ← modify (av_unlink bp);
  _ ← modify (or_flags B_BUSY bp);
  splx s.

(** [i] of the DISKMON loop of [getblk]: the buffers after [dp]. *)
Fixpoint av_count (n : nat) (dp : bptr) (i : nat) (s : kst) : option nat :=
  if decide (dp = BFree) then Some i
  else match n with O => None | S n => av_count n (av_forw (buf_at s dp)) (S i) s end.

Definition diskmon (bp : bptr) : M unit := fun e s =>
  match av_count CHAINFUEL (av_forw (buf_at s bp)) 0 s with
  | None => Stop Nofuel s
  | Some i => Ret tt e (if (i <? NBUF)%nat then s <| kb; io_bufcount ::= fun c => <[i := c i + 1]> c |> else s)
  end.

(** Take [bp] off its queue and put it at the head of the queue of [dp]. *)
Definition requeue (bp dp : bptr) (s : kst) : kst :=
  let s := upd_buf (b_back (buf_at s bp)) (fun x => x <| b_forw := b_forw (buf_at s bp) |>) s in
  let s := upd_buf (b_forw (buf_at s bp)) (fun x => x <| b_back := b_back (buf_at s bp) |>) s in
  let s := upd_buf bp (fun x => x <| b_forw := b_forw (buf_at s dp) |>) s in
  let s := upd_buf bp (fun x => x <| b_back := dp |>) s in
  let s := upd_buf (b_forw (buf_at s dp)) (fun x => x <| b_back := bp |>) s in
  upd_buf dp (fun x => x <| b_forw := bp |>) s.

(** The body of [getblk] from [loop:]; [None] is [goto loop]. *)
Definition getblk_turn (dp : bptr) (dev blkno : Z) : M (option bptr) :=
  _ ← spl0;
  r ← find_on dp dev blkno;
  match r with
  | Some bp =>
      _ ← spl6;
      busy ← gets (fun s => has s bp B_BUSY);
      if busy : bool then
        _ ← modify (or_flags B_WANTED bp);
        _ ← sleep (ChBuf bp) (PRIBIO + 1);
        mret None
      else
        _ ← spl0;
        _ ← diskmon bp;
        _ ← notavail bp;
        mret (Some bp)
  | None =>
      _ ← spl6;
      empty ← gets (fun s => bool_decide (av_forw (buf_at s BFree) = BFree));
      if empty : bool then
        _ ← modify (or_flags B_WANTED BFree);
        _ ← sleep (ChBuf BFree) (PRIBIO + 1);
        mret None
      else
        _ ← spl0;
        bp ← gets (fun s => av_forw (buf_at s BFree));
        _ ← notavail bp;
        del ← gets (fun s => has s bp B_DELWRI);
        if del : bool then
          _ ← modify (or_flags B_ASYNC bp);
          _ ← bwrite bp;
          mret None
        else
          _ ← modify (upd_buf bp (fun x => x <| b_flags := B_BUSY |>));
          _ ← modify (requeue bp dp);
          _ ← modify (upd_buf bp (fun x => x <| b_dev := u16 dev |> <| b_blkno := blkno |>));
          mret (Some bp)
  end.

Fixpoint getblk_f (n : nat) (dp : bptr) (dev blkno : Z) : M bptr :=
  match n with
  | O => nofuel
  | S n => r ← getblk_turn dp dev blkno;
           match r with Some bp => mret bp | None => getblk_f n dp dev blkno end
  end.

(** A turn that does not return the buffer either sleeps or writes out one of
    the [NBUF] buffers. *)
Definition loopfuel (e : env) : nat := S ((NBUF + 1) * S (length e)).

Definition getblk (dev blkno : Z) : M bptr :=
  nblk ← gets (fun s => nblkdev (kb s));
  if nblk <=? major dev then panic "blkdev"
  else match dtab dev with
  | None => panic "devtab"
  | Some dp => fun e s => getblk_f (loopfuel e) dp dev blkno e s
  end.

Definition geteblk_turn : M (option bptr) :=
  _ ← spl6;
  _ ← sleep_while (fun s => bool_decide (av_forw (buf_at s BFree) = BFree)) (or_flags B_WANTED BFree)
        (ChBuf BFree) (PRIBIO + 1);
  _ ← spl0;
  bp ← gets (fun s => av_forw (buf_at s BFree));
  _ ← notavail bp;
  del ← gets (fun s => has s bp B_DELWRI);
  if del : bool then
    _ ← modify (or_flags B_ASYNC bp);
    _ ← bwrite bp;
    mret None
  else
    _ ← modify (upd_buf bp (fun x => x <| b_flags := B_BUSY |>));
    _ ← modify (requeue bp BFree);
    _ ← modify (upd_buf bp (fun x => x <| b_dev := NODEV |>));
    mret (Some bp).

Fixpoint geteblk_f (n : nat) : M bptr :=
  match n with
  | O => nofuel
  | S n => r ← geteblk_turn; match r with Some bp => mret bp | None => geteblk_f n end
  end.
Definition geteblk : M bptr := fun e s => geteblk_f (loopfuel e) e s.

(** ** Reading *)

Definition start_read (bp : bptr) (dev : Z) (flags : Z) : M unit :=
  _ ← modify (or_flags flags bp);
  _ ← modify (upd_buf bp (fun x => x <| b_bcount := BSIZE |>));
  _ ← d_strategy (bdev dev) bp;
  mret tt.

Definition bread (dev blkno : Z) : M bptr :=
  bp ← getblk dev blkno;
  done ← gets (fun s => has s bp B_DONE);
  if done : bool then _ ← modify (fun s => s <| kb; io_ncache ::= fun n => n + 1 |>); mret bp
  else
    _ ← start_read bp dev B_READ;
    _ ← modify (fun s => s <| kb; io_nread ::= fun n => n + 1 |>);
    _ ← iowait bp;
    mret bp.

Definition breada (dev blkno rablkno : Z) : M bptr :=
  inc ← incore dev blkno;
  bp ← (if inc : bool then mret None
        else
          bp ← getblk dev blkno;
          done ← gets (fun s => has s bp B_DONE);
          _ ← when (negb done) (_ ← start_read bp dev B_READ; modify (fun s => s <| kb; io_nread ::= fun n => n + 1 |>));
          mret (Some bp));
  rinc ← (if rablkno =? 0 then mret true else incore dev rablkno);
  _ ← (if rinc : bool then mret tt
       else
         rabp ← getblk dev rablkno;
         done ← gets (fun s => has s rabp B_DONE);
         if done : bool then brelse rabp
         else _ ← start_read rabp dev (Z.lor B_READ B_ASYNC);
              modify (fun s => s <| kb; io_nreada ::= fun n => n + 1 |>));
  match bp with
  | None => bread dev blkno
  | Some bp => _ ← iowait bp; mret bp
  end.

Definition clrbuf (bp : bptr) : M unit :=
  _ ← modify (fun s => s <| kb; bdata ::= fun d => <[bp := replicate 512 0 ++ drop 512 (d bp)]> d |>);
  modify (upd_buf bp (fun x => x <| b_resid := 0 |>)).

(** ** Flushing *)

(** The first delayed write on the available list, from [bp] on. *)
Fixpoint find_delwri (n : nat) (bp : bptr) (dev : Z) (s : kst) : option (option bptr) :=
  if decide (bp = BFree) then Some None
  else match n with
  | O => None
  | S n => if has s bp B_DELWRI && ((dev =? NODEV) || (dev =? b_dev (buf_at s bp))) then Some (Some bp)
           else find_delwri n (av_forw (buf_at s bp)) dev s
  end.

Fixpoint bflush_f (n : nat) (dev : Z) : M unit :=
  match n with
  | O => nofuel
  | S n =>
      _ ← spl6;
      s ← gets id;
      match find_delwri CHAINFUEL (av_forw (buf_at s BFree)) dev s with
      | None => nofuel
      | Some None => _ ← spl0; mret tt
      | Some (Some bp) =>
          _ ← modify (or_flags B_ASYNC bp);
          _ ← notavail bp;
          _ ← bwrite bp;
          bflush_f n dev
      end
  end.
Definition bflush (dev : Z) : M unit := fun e s => bflush_f (loopfuel e) dev e s.

(** ** [binit] *)

Definition binit_buf (i : nat) : M unit :=
  let bp := BPool i in
  _ ← modify (upd_buf bp (fun x => x <| b_dev := NODEV |> <| b_back := BFree |>));
  _ ← modify (fun s => upd_buf bp (fun x => x <| b_forw := b_forw (buf_at s BFree) |>) s);
  _ ← modify (fun s => upd_buf (b_forw (buf_at s BFree)) (fun x => x <| b_back := bp |>) s);
  _ ← modify (upd_buf BFree (fun x => x <| b_forw := bp |>));
  _ ← modify (upd_buf bp (fun x => x <| b_flags := B_BUSY |>));
  brelse bp.

Definition binit : M unit :=
  _ ← modify (upd_buf BFree (fun x => x <| b_forw := BFree |> <| b_back := BFree |>
                                        <| av_forw := BFree |> <| av_back := BFree |>));
  _ ← for_each (seq 0 NBUF) binit_buf;
  for_each bdevsw (fun bdp =>
    _ ← match d_tab bdp with
        | None => mret tt
        | Some dp => modify (upd_buf dp (fun x => x <| b_forw := dp |> <| b_back := dp |>))
        end;
    modify (fun s => s <| kb; nblkdev ::= fun n => n + 1 |>)).

End Bio.
