(* ===== verification/Cache.v ===== *)
(** The buffer cache as an array of blocks: the invariant of the queues and
    flags, [view], the contents of block [k] as the cache presents it, and what
    the operations of [Bio] do to it. *)
From S2P Require Import Prelude Malloc Clist Kernel Sched Dll Sd Bio.

Section BioProofs.
Context `{Layout}.

(** * The cache as lists and flags *)

Definition avf (s : kst) (b : bptr) : bptr := av_forw (buf_at s b).
Definition avb (s : kst) (b : bptr) : bptr := av_back (buf_at s b).
Definition bfw (s : kst) (b : bptr) : bptr := b_forw (buf_at s b).
Definition bbk (s : kst) (b : bptr) : bptr := b_back (buf_at s b).
Definition flg (s : kst) (b : bptr) : Z := b_flags (buf_at s b).
Definition bdevno (s : kst) (b : bptr) : Z := b_dev (buf_at s b).
Definition blk (s : kst) (b : bptr) : Z := b_blkno (buf_at s b).
Definition bytes (s : kst) (b : bptr) : list Z := bdata (kb s) b.

(** Block [k] of the RAM disk. *)
Definition rdblk (s : kst) (k : Z) : list Z := rdmem (kb s) <$> seqZ (512 * k) 512.

Definition pool (b : bptr) : Prop := exists i, b = BPool i /\ (i < NBUF)%nat.
Definition qhead (h : bptr) : Prop := h = BFree \/ h = BTab 0.

(** What the transfers of the buffers left undone: nothing, as long as there is
    no error. *)
Definition resids (s : kst) : list Z := (fun i => b_resid (buf_at s (BPool i))) <$> seq 0 NBUF.

(** The buffer cache of a system whose only block device is the RAM disk:
    [AV] is the available list and [CH h] the queue headed by [h]. *)
Record binv (s : kst) (AV : list bptr) (CH : bptr -> list bptr) : Prop := {
  bi_av : ring (avf s) (avb s) BFree AV;
  bi_ch : forall h, qhead h -> ring (bfw s) (bbk s) h (CH h);
  bi_avp : forall b, b ∈ AV -> pool b;
  bi_chp : forall h b, qhead h -> b ∈ CH h -> pool b;
  bi_disj : forall b, b ∈ CH BFree -> b ∈ CH (BTab 0) -> False;
  bi_all : forall b, pool b -> b ∈ CH BFree \/ b ∈ CH (BTab 0);
  bi_busy : forall b, pool b -> b ∈ AV <-> fset (flg s b) B_BUSY = false;
  bi_dev : forall b, b ∈ CH (BTab 0) -> bdevno s b = 0;
  bi_uniq : forall b b', b ∈ CH (BTab 0) -> b' ∈ CH (BTab 0) -> blk s b = blk s b' -> b = b';
  bi_len : forall b, pool b -> length (bytes s b) = 512%nat;
  bi_clean : forall b, b ∈ AV -> b ∈ CH (BTab 0) -> fset (flg s b) B_DONE = true ->
               fset (flg s b) B_DELWRI = false -> bytes s b = rdblk s (blk s b);
  bi_dirty : forall b, pool b -> fset (flg s b) B_DELWRI = true ->
               b ∈ CH (BTab 0) /\ fset (flg s b) B_DONE = true /\ 0 <= blk s b < RD_SIZE;
  bi_err : forall b, pool b -> fset (flg s b) B_ERROR = false;
  bi_async : forall b, b ∈ AV -> fset (flg s b) B_ASYNC = false;
  bi_resid : resids s = replicate NBUF 0
}.

Lemma resids_upd b g s : b_resid (g (buf_at s b)) = b_resid (buf_at s b) -> resids (upd_buf b g s) = resids s.
Proof.
  intros Hg. apply list_fmap_ext. intros i x _. destruct (decide (BPool x = b)) as [<-|Hne]; [by rewrite buf_upd_same|by rewrite buf_upd_ne].
Qed.

Lemma resid_at s b : resids s = replicate NBUF 0 -> pool b -> b_resid (buf_at s b) = 0.
Proof.
  intros E (i & -> & Hi). assert (El : resids s !! i = Some (b_resid (buf_at s (BPool i)))).
  { unfold resids. rewrite list_lookup_fmap, lookup_seq_lt by done. done. }
  rewrite E, lookup_replicate_2 in El by done. by injection El.
Qed.

(** What a process is, but for its scheduling. *)
Definition unsched (x : proc) : proc := x <| p_stat := 0 |> <| p_wchan := None |> <| p_link := None |>.

(** What the access to user memory depends on: the user areas and pages, and
    the processes, of which the page; and what block input and output leaves
    alone besides. *)
Definition paddrs (s : kst) : list proc := (fun p => unsched (proc_at s p)) <$> seq 0 NPROC.
Definition uctx (s : kst) : ustate * (list proc * xstate) := (ku s, (paddrs s, kx s)).

Lemma uctx_kp s s' : kp s' = kp s -> ku s' = ku s -> kx s' = kx s -> uctx s' = uctx s.
Proof. unfold uctx, paddrs, proc_at. by intros -> -> ->. Qed.

(** The numbers of block devices and of the block to read ahead, and the
    residues. *)
Definition knum (s : kst) : Z * Z * list Z := (nblkdev (kb s), rablock (kb s), resids s).
Lemma knum_nblk s s' : knum s' = knum s -> nblkdev (kb s') = nblkdev (kb s).
Proof. unfold knum. congruence. Qed.
Lemma knum_resid s s' : knum s' = knum s -> resids s' = resids s.
Proof. unfold knum. congruence. Qed.
Lemma knum_upd b g s : b_resid (g (buf_at s b)) = b_resid (buf_at s b) -> knum (upd_buf b g s) = knum s.
Proof. intros Hg. unfold knum. by rewrite resids_upd. Qed.

Lemma knum_clr m b s : knum (clr_flags m b s) = knum s.
Proof. by apply knum_upd. Qed.

(** The sleep queues are well formed, so that [wakeup] returns. *)
Definition sq (s : kst) : Prop := exists RQ SQ, queues s RQ SQ /\ all_queued s SQ /\ runout (kp s) = 0.

(** What the rest of the kernel reads and writes: block [k] as the cache
    presents it. *)
Definition dirty (s : kst) (k : Z) (b : bptr) : Prop := blk s b = k /\ fset (flg s b) B_DELWRI = true.
#[export] Instance dirty_dec s k b : Decision (dirty s k b).
Proof. unfold dirty. apply _. Defined.
Definition view (s : kst) (L : list bptr) (k : Z) : list Z :=
  match filter (dirty s k) L with b :: _ => bytes s b | [] => rdblk s k end.

Lemma view_dirty s AV CH k b : binv s AV CH -> b ∈ CH (BTab 0) -> dirty s k b -> view s (CH (BTab 0)) k = bytes s b.
Proof.
  intros Hi Hb Hd. unfold view.
  assert (Hin : b ∈ filter (dirty s k) (CH (BTab 0))) by (by apply list_elem_of_filter).
  destruct (filter (dirty s k) (CH (BTab 0))) as [|b' r] eqn:E; [by apply elem_of_nil in Hin|].
  assert (Hb' : b' ∈ filter (dirty s k) (CH (BTab 0))) by (rewrite E; by left).
  apply list_elem_of_filter in Hb' as [[Hk _] Hb']. destruct Hd as [Hk' _].
  by rewrite (bi_uniq _ _ _ Hi b' b Hb' Hb) by congruence.
Qed.

Lemma view_clean s L k : (forall b, b ∈ L -> ~ dirty s k b) -> view s L k = rdblk s k.
Proof.
  intros Hn. unfold view. destruct (filter (dirty s k) L) as [|b r] eqn:E; [done|].
  assert (Hb : b ∈ filter (dirty s k) L) by (rewrite E; by left).
  apply list_elem_of_filter in Hb as [Hd Hb]. by destruct (Hn b).
Qed.

Lemma view_cases s AV CH k : binv s AV CH ->
  (exists b, b ∈ CH (BTab 0) /\ dirty s k b /\ view s (CH (BTab 0)) k = bytes s b) \/
  ((forall b, b ∈ CH (BTab 0) -> ~ dirty s k b) /\ view s (CH (BTab 0)) k = rdblk s k).
Proof.
  intros Hi. destruct (filter (dirty s k) (CH (BTab 0))) as [|b r] eqn:E.
  - right. assert (Hn : forall b, b ∈ CH (BTab 0) -> ~ dirty s k b).
    { intros b Hb Hd. assert (Hin : b ∈ filter (dirty s k) (CH (BTab 0))) by (by apply list_elem_of_filter).
      rewrite E in Hin. by apply elem_of_nil in Hin. }
    split; [done|]. by apply view_clean.
  - left. assert (Hb : b ∈ filter (dirty s k) (CH (BTab 0))) by (rewrite E; by left).
    apply list_elem_of_filter in Hb as [Hd Hb]. exists b. split_and!; [done|done|]. by apply (view_dirty s AV).
Qed.

(** Two states with the same dirty blocks and the same disk look the same. *)
Lemma view_same s s' AV AV' CH CH' :
  binv s AV CH -> binv s' AV' CH' ->
  (forall b, pool b -> fset (flg s' b) B_DELWRI = fset (flg s b) B_DELWRI) ->
  (forall b, pool b -> fset (flg s b) B_DELWRI = true -> blk s' b = blk s b /\ bytes s' b = bytes s b) ->
  (forall k, rdblk s' k = rdblk s k) ->
  forall k, view s' (CH' (BTab 0)) k = view s (CH (BTab 0)) k.
Proof.
  intros Hi Hi' Hf Hd Hr k. destruct (view_cases s AV CH k Hi) as [(b & Hb & [Hk Hw] & ->)|[Hn ->]].
  - assert (Hp : pool b) by (apply (bi_chp _ _ _ Hi (BTab 0)); [by right|done]).
    destruct (Hd b Hp Hw) as [Eb Eby]. rewrite <- Eby.
    assert (Hw' : fset (flg s' b) B_DELWRI = true) by (by rewrite Hf).
    destruct (bi_dirty _ _ _ Hi' b Hp Hw') as [Hb' _]. apply (view_dirty s' AV'); [done|done|]. by split; [congruence|].
  - rewrite <- Hr. apply view_clean. intros b Hb [Hk Hw].
    assert (Hp : pool b) by (apply (bi_chp _ _ _ Hi' (BTab 0)); [by right|done]).
    rewrite Hf in Hw by done. destruct (Hd b Hp Hw) as [Eb _].
    destruct (bi_dirty _ _ _ Hi b Hp Hw) as [Hb0 _]. apply (Hn b Hb0). split; [congruence|done].
Qed.

Lemma buf_upd b g s x : buf_at (upd_buf b g s) x = if decide (x = b) then g (buf_at s x) else buf_at s x.
Proof. case_decide; subst; [by rewrite buf_upd_same | by rewrite buf_upd_ne]. Qed.

Lemma pool_neq b : pool b -> b <> BFree /\ b <> BTab 0.
Proof. by intros (i & -> & _). Qed.

(** ** The available list *)

(** A buffer but for its place on the available list. *)
Definition noav (x : buf) : buf := x <| av_forw := BNull |> <| av_back := BNull |>.

(** [s'] has the buffers of [s] but for the available list, and the same
    everything else. *)
Definition only_av (s s' : kst) : Prop :=
  (forall x, noav (buf_at s' x) = noav (buf_at s x)) /\ bdata (kb s') = bdata (kb s) /\ rdmem (kb s') = rdmem (kb s) /\
  kp s' = kp s /\ uctx s' = uctx s /\ kf s' = kf s /\ kc s' = kc s /\ kt s' = kt s /\ knum s' = knum s.

Lemma noav_upd b g s : (forall x, noav (g x) = noav x) -> only_av s (upd_buf b g s).
Proof.
  intros Hg. split_and!; try done; [|by apply knum_upd, (f_equal b_resid (Hg (buf_at s b)))].
  intros x. rewrite buf_upd. case_decide; [apply Hg|done].
Qed.

Lemma only_av_trans s1 s2 s3 : only_av s1 s2 -> only_av s2 s3 -> only_av s1 s3.
Proof.
  intros (E1 & ? & ? & ? & ? & ? & ? & ? & ?) (E2 & ? & ? & ? & ? & ? & ? & ? & ?).
  unfold only_av. split_and!; congruence.
Qed.

Lemma only_av_fields s s' x : only_av s s' ->
  flg s' x = flg s x /\ bdevno s' x = bdevno s x /\ blk s' x = blk s x /\ bfw s' x = bfw s x /\ bbk s' x = bbk s x /\
  bytes s' x = bytes s x.
Proof.
  intros (E & Ed & _). specialize (E x). unfold flg, bdevno, blk, bfw, bbk, bytes. rewrite Ed. revert E.
  unfold noav. destruct (buf_at s' x), (buf_at s x). cbn. intros [=]. by subst.
Qed.

Ltac avsteps := repeat first [ apply noav_upd; by intros [] | eapply only_av_trans; [|apply noav_upd; by intros []] ].

Lemma av_tail_only b s : only_av s (av_tail b s).
Proof. unfold av_tail. avsteps. Qed.
Lemma av_head_only b s : only_av s (av_head b s).
Proof. unfold av_head. avsteps. Qed.
Lemma av_unlink_only b s : only_av s (av_unlink b s).
Proof. unfold av_unlink. avsteps. Qed.

Ltac bufs := unfold avf, avb, bfw, bbk in *; rewrite ?buf_upd; repeat case_decide; subst; cbn; try congruence; try done.

Lemma av_tail_ring b s AV : ring (avf s) (avb s) BFree AV -> b ∉ BFree :: AV ->
  ring (avf (av_tail b s)) (avb (av_tail b s)) BFree (AV ++ [b]).
Proof.
  intros Hr Hb. pose proof (ring_last _ _ _ _ Hr) as El.
  assert (Hne : avb s BFree <> b).
  { rewrite El. intros <-. apply Hb. destruct (last AV) as [a|] eqn:E; [|by left].
    apply last_Some_elem_of in E. by right. }
  assert (b <> BFree) by (intros ->; apply Hb; by left).
  apply ring_push_back with (avf s) (avb s); try done; unfold av_tail; intros; bufs.
Qed.

Lemma av_head_ring b s AV : ring (avf s) (avb s) BFree AV -> b ∉ BFree :: AV ->
  ring (avf (av_head b s)) (avb (av_head b s)) BFree (b :: AV).
Proof.
  intros Hr Hb. pose proof (ring_head _ _ _ _ Hr) as Eh.
  assert (Hne : avf s BFree <> b).
  { rewrite Eh. intros <-. apply Hb. destruct AV as [|a r]; [by left|right; by left]. }
  assert (b <> BFree) by (intros ->; apply Hb; by left).
  apply ring_push_front with (avf s) (avb s); try done; unfold av_head; intros; bufs.
Qed.

Lemma ring_neq_self {A} `{EqDecision A} (fw bk : A -> A) h l1 (a : A) l2 :
  ring fw bk h (l1 ++ a :: l2) -> bk a <> a /\ fw a <> a.
Proof.
  intros Hr. destruct (ring_mid _ _ _ _ _ _ Hr) as [Eb Ef]. destruct Hr as [Hnd _].
  apply NoDup_cons in Hnd as [Hh Hnd]. apply NoDup_app in Hnd as (_ & Hd & N3). apply NoDup_cons in N3 as [N3 _].
  assert (Hha : h <> a) by (intros ->; apply Hh; set_solver). split.
  - rewrite Eb. destruct l1 as [|x l _] using rev_ind; [done|]. rewrite List.last_last. intros ->. apply (Hd a); set_solver.
  - rewrite Ef. destruct l2; [done|]. intros ->. apply N3. by left.
Qed.

Lemma av_unlink_ring s l1 b l2 : ring (avf s) (avb s) BFree (l1 ++ b :: l2) ->
  ring (avf (av_unlink b s)) (avb (av_unlink b s)) BFree (l1 ++ l2).
Proof.
  intros Hr. destruct (ring_neq_self _ _ _ _ _ _ Hr) as [N1 N2].
  apply ring_unlink with (avf s) (avb s) b; try done; unfold av_unlink; intros; bufs.
Qed.

(** [s'] differs from [s] in flags and the available list only. *)
Definition same_body (s s' : kst) : Prop :=
  (forall x, bdevno s' x = bdevno s x /\ blk s' x = blk s x /\ bfw s' x = bfw s x /\ bbk s' x = bbk s x /\
             bytes s' x = bytes s x) /\ rdmem (kb s') = rdmem (kb s) /\
  uctx s' = uctx s /\ kf s' = kf s /\ kc s' = kc s /\ kt s' = kt s /\ knum s' = knum s.

Lemma same_body_trans s1 s2 s3 : same_body s1 s2 -> same_body s2 s3 -> same_body s1 s3.
Proof.
  intros (E1 & ? & ? & ? & ? & ? & ?) (E2 & ? & ? & ? & ? & ? & ?). split_and!; try congruence.
  intros x. destruct (E1 x) as (?&?&?&?&?), (E2 x) as (?&?&?&?&?). split_and!; congruence.
Qed.

Lemma same_body_rdblk s s' k : same_body s s' -> rdblk s' k = rdblk s k.
Proof. intros (_ & E & _). unfold rdblk. by rewrite E. Qed.

Lemma same_body_av s s' : only_av s s' -> same_body s s'.
Proof.
  intros Ho. pose proof (fun x => only_av_fields s s' x Ho) as Hf. destruct Ho as (_&_&?&?&?&?&?&?&?).
  split_and!; try done. intros x. destruct (Hf x) as (_&?&?&?&?&?). done.
Qed.

Lemma same_body_flags b g s : same_body s (upd_buf b (fun x => x <| b_flags ::= g |>) s).
Proof.
  split_and!; try done; [|by apply knum_upd]. intros x. unfold bdevno, blk, bfw, bbk, bytes. rewrite buf_upd. by case_decide.
Qed.

Lemma binv_flags s s' AV AV' CH :
  binv s AV CH -> same_body s s' -> ring (avf s') (avb s') BFree AV' ->
  (forall b, b ∈ AV' -> pool b) -> (forall b, pool b -> b ∈ AV' <-> fset (flg s' b) B_BUSY = false) ->
  (forall b, b ∈ AV' -> b ∈ CH (BTab 0) -> fset (flg s' b) B_DONE = true -> fset (flg s' b) B_DELWRI = false ->
     bytes s b = rdblk s (blk s b)) ->
  (forall b, pool b -> fset (flg s' b) B_DELWRI = true ->
     b ∈ CH (BTab 0) /\ fset (flg s' b) B_DONE = true /\ 0 <= blk s b < RD_SIZE) ->
  (forall b, pool b -> fset (flg s' b) B_ERROR = false) -> (forall b, b ∈ AV' -> fset (flg s' b) B_ASYNC = false) ->
  binv s' AV' CH.
Proof.
  intros Hi Hs Hr Hp Hb Hc Hd He Ha. pose proof (fun k => same_body_rdblk _ _ k Hs) as Hrd.
  destruct Hs as (Hf & _ & _ & _ & _ & _ & En). apply knum_resid in En. destruct Hi. split; try done; [| | | | | |congruence].
  - intros h Hh. apply ring_frame with (bfw s) (bbk s); [|auto]. intros x _. by destruct (Hf x) as (_&_&->&->&_).
  - intros b. destruct (Hf b) as (-> & _). auto.
  - intros b b'. destruct (Hf b) as (_&->&_), (Hf b') as (_&->&_). auto.
  - intros b. destruct (Hf b) as (_&_&_&_&->). auto.
  - intros b. destruct (Hf b) as (_&->&_&_&->). rewrite Hrd. auto.
  - intros b. destruct (Hf b) as (_&->&_&_&_). auto.
Qed.

(** ** [brelse] and [iodone] *)

(** Nothing but queues and states of processes. *)
Definition only_run (s s' : kst) : Prop := only_kp s s' /\ uctx s' = uctx s.

Lemma wakeup_sq c e s : sq s -> exists s', wakeup c e s = Ret tt e s' /\ sq s' /\ only_run s s'.
Proof.
  intros (RQ & SQ & Hq & Ha & Hr). destruct (wakeup_ok c e s RQ SQ Hq Ha Hr) as (s' & Hw & Hq' & Ha' & Ho & Hr' & X1 & X2).
  exists s'. split; [done|]. split; [by eexists _, _|]. split; [done|].
  assert (Ep : paddrs s' = paddrs s).
  { apply list_fmap_ext. intros i p _. assert (En : forall x y, nolink x = nolink y -> unsched x = unsched y) by (by intros [] [] [= -> -> -> -> -> -> -> -> -> -> -> -> -> -> -> ->]).
    destruct (decide (waits_on c s p)) as [Hp|Hp]; [exact (En _ _ (X1 p Hp))|exact (En _ _ (X2 p Hp))]. }
  unfold uctx. rewrite Ep. by destruct Ho as (-> & _ & _ & _ & _ & _ & _ & ->).
Qed.

Lemma sq_kp s s' : kp s' = kp s -> sq s -> sq s'.
Proof.
  intros E (RQ & SQ & Hq & Ha & Hr). exists RQ, SQ. split; [by apply queues_only with s; rewrite ?E|].
  split; [|by rewrite E]. intros p c. unfold proc_at. rewrite E. apply Ha.
Qed.

(** The same queues and states of processes, whatever else the entries hold. *)
Definition same_sched (s s' : kst) : Prop :=
  runq (kp s') = runq (kp s) /\ slpque (kp s') = slpque (kp s) /\ runout (kp s') = runout (kp s) /\
  forall p, p_stat (proc_at s' p) = p_stat (proc_at s p) /\ p_wchan (proc_at s' p) = p_wchan (proc_at s p) /\
            p_link (proc_at s' p) = p_link (proc_at s p).

Lemma sq_sched s s' : same_sched s s' -> sq s -> sq s'.
Proof.
  intros (E1 & E2 & E3 & Ep) (RQ & SQ & [Q1 Q2 Q3 Q4 Q5 Q6] & Ha & Hr). exists RQ, SQ. split; [split; try done|split; [|congruence]].
  - rewrite E1. apply chain_frame with (plink s); [|done]. intros p _. apply Ep.
  - intros h. rewrite E2. apply chain_frame with (plink s); [|done]. intros p _. apply Ep.
  - intros p Hp. destruct (Ep p) as (-> & -> & _). by apply Q5.
  - intros h p Hp. destruct (Ep p) as (-> & -> & _). by apply Q6.
  - intros p c. destruct (Ep p) as (_ & -> & _). apply Ha.
Qed.

(** [s'] has the same buffers but for the flags of the head [BFree]. *)
Definition woken_up (s s' : kst) : Prop :=
  same_body s s' /\ (forall x, avf s' x = avf s x /\ avb s' x = avb s x) /\
  (forall x, x <> BFree -> flg s' x = flg s x) /\ kipl s' = kipl s.

Lemma woken_up_kb s s' : only_run s s' -> woken_up s s'.
Proof.
  intros ((E1 & E2 & E3 & E4 & E5 & E6 & E7) & EX). unfold woken_up, same_body, knum, resids, avf, avb, flg, bdevno, blk, bfw, bbk, bytes, buf_at.
  rewrite E2. split_and!; try done; congruence.
Qed.

Lemma woken_up_trans s1 s2 s3 : woken_up s1 s2 -> woken_up s2 s3 -> woken_up s1 s3.
Proof.
  intros (B1 & A1 & F1 & K1) (B2 & A2 & F2 & K2). split_and!; [by apply same_body_trans with s2| | |congruence].
  - intros x. destruct (A1 x), (A2 x). split; congruence.
  - intros x Hx. rewrite F2, F1; done.
Qed.

Definition brelse_wake (bp : bptr) : M unit :=
  w ← gets (fun s => has s bp B_WANTED);
  _ ← when w (wakeup (ChBuf bp));
  fw ← gets (fun s => has s BFree B_WANTED);
  when fw (_ ← modify (clr_flags B_WANTED BFree); wakeup (ChBuf BFree)).

Lemma brelse_split bp e s : brelse bp e s = (_ ← brelse_wake bp;
  er ← gets (fun s => has s bp B_ERROR);
  _ ← when er (modify (upd_buf bp (fun x => x <| b_dev := NODEV |>)));
  s ← spl6;
  age ← gets (fun s => has s bp B_AGE);
  _ ← modify (if age : bool then av_head bp else av_tail bp);
  _ ← modify (clr_flags B_RELEASE bp);
  splx s) e s.
Proof.
  unfold brelse, brelse_wake. msteps. unfold mbind, m_bind. destruct (has s bp B_WANTED); cbn [when].
  - destruct (wakeup _ e s); cbn [gets]; [|done]. by destruct (when _ _ _ _).
  - cbn [mret m_ret gets]. by destruct (when _ _ _ _).
Qed.

Lemma woken_up_clr s : woken_up s (clr_flags B_WANTED BFree s).
Proof.
  unfold clr_flags, woken_up. split; [apply same_body_flags|]. unfold avf, avb, flg.
  split_and!; try done; intros x; rewrite buf_upd; by case_decide.
Qed.

Lemma brelse_wake_ok bp e s : sq s -> exists s', brelse_wake bp e s = Ret tt e s' /\ sq s' /\ woken_up s s'.
Proof.
  intros Hs. unfold brelse_wake. mstep.
  assert (H1 : exists s1, when (has s bp B_WANTED) (wakeup (ChBuf bp)) e s = Ret tt e s1 /\ sq s1 /\ woken_up s s1).
  { destruct (has s bp B_WANTED); cbn [when].
    - destruct (wakeup_sq (ChBuf bp) e s Hs) as (s1 & Hw & Hs1 & Ho). exists s1. split_and!; [done|done|by apply woken_up_kb].
    - exists s. split_and!; done. }
  destruct H1 as (s1 & Hr1 & Hs1 & W1). rewrite (bind_ret _ _ _ _ _ _ _ Hr1). msteps.
  destruct (has s1 BFree B_WANTED); cbn [when].
  - msteps. destruct (wakeup_sq (ChBuf BFree) e (clr_flags B_WANTED BFree s1)) as (s2 & Hw & Hs2 & Ho).
    { by apply sq_kp with s1. }
    exists s2. split_and!; [done|done|]. apply woken_up_trans with s1; [done|].
    apply woken_up_trans with (clr_flags B_WANTED BFree s1); [apply woken_up_clr|by apply woken_up_kb].
  - exists s1. by split_and!.
Qed.

Lemma flg_clr m b s x : flg (clr_flags m b s) x = if decide (x = b) then fclr (flg s x) m else flg s x.
Proof. unfold flg, clr_flags. rewrite buf_upd. by case_decide. Qed.
Lemma flg_or m b s x : flg (or_flags m b s) x = if decide (x = b) then Z.lor (flg s x) m else flg s x.
Proof. unfold flg, or_flags. rewrite buf_upd. by case_decide. Qed.

(** What [brelse] leaves: the buffers, with [b] released. *)
Record released (b : bptr) (s s' : kst) (AV : list bptr) : Prop := {
  rl_sq : sq s';
  rl_body : same_body s s';
  rl_flg : flg s' b = fclr (flg s b) B_RELEASE;
  rl_oth : forall x, x <> b -> x <> BFree -> flg s' x = flg s x;
  rl_ring : ring (avf s') (avb s') BFree (if has s b B_AGE then b :: AV else AV ++ [b]);
  rl_ipl : kipl s' = kipl s
}.

Lemma brelse_released b e s AV :
  sq s -> ring (avf s) (avb s) BFree AV -> pool b -> b ∉ AV -> fset (flg s b) B_ERROR = false ->
  exists s', brelse b e s = Ret tt e s' /\ released b s s' AV.
Proof.
  intros Hs Hr Hp Hb He. destruct (pool_neq _ Hp) as [HbF _].
  destruct (brelse_wake_ok b e s Hs) as (s1 & Hw & Hs1 & (Hb1 & Ha1 & Hf1 & Hk1)).
  rewrite brelse_split, (bind_ret _ _ _ _ _ _ _ Hw). msteps.
  assert (Ehas : forall m, has s1 b m = has s b m) by (intros m; unfold has; fold (flg s1 b); by rewrite Hf1).
  rewrite Ehas. change (has s b B_ERROR) with (fset (flg s b) B_ERROR). rewrite He. cbn [when]. msteps. unfold spl6. msteps.
  assert (Eage : has (s1 <| kipl := 6 |>) b B_AGE = has s b B_AGE) by (rewrite <- Ehas; done). rewrite Eage.
  set (s2 := (if has s b B_AGE then av_head b else av_tail b) (s1 <| kipl := 6 |>)).
  assert (Ho2 : only_av (s1 <| kipl := 6 |>) s2) by (unfold s2; destruct (has s b B_AGE); [apply av_head_only|apply av_tail_only]).
  assert (Hr1 : ring (avf (s1 <| kipl := 6 |>)) (avb (s1 <| kipl := 6 |>)) BFree AV).
  { apply ring_frame with (avf s) (avb s); [|done]. intros x _. apply Ha1. }
  assert (Hr2 : ring (avf s2) (avb s2) BFree (if has s b B_AGE then b :: AV else AV ++ [b])).
  { unfold s2. destruct (has s b B_AGE); [apply av_head_ring|apply av_tail_ring]; try done; set_solver. }
  eexists. split; [reflexivity|]. split.
  - apply sq_kp with s1; [|done]. change (kp s2 = kp s1). destruct Ho2 as (_&_&_&E&_). exact E.
  - apply same_body_trans with s1; [done|]. apply same_body_trans with s2; [|].
    + exact (same_body_av _ _ Ho2).
    + exact (same_body_flags b _ s2).
  - change (flg (clr_flags B_RELEASE b s2) b = fclr (flg s b) B_RELEASE). rewrite flg_clr, decide_True by done.
    destruct (only_av_fields _ _ b Ho2) as [-> _]. change (flg (s1 <| kipl := 6 |>) b) with (flg s1 b). by rewrite Hf1.
  - intros x Hx HxF. change (flg (clr_flags B_RELEASE b s2) x = flg s x). rewrite flg_clr, decide_False by done.
    destruct (only_av_fields _ _ x Ho2) as [-> _]. change (flg (s1 <| kipl := 6 |>) x) with (flg s1 x). by rewrite Hf1.
  - apply ring_frame with (avf s2) (avb s2); [|done]. intros x _.
    change (avf (clr_flags B_RELEASE b s2) x = avf s2 x /\ avb (clr_flags B_RELEASE b s2) x = avb s2 x).
    unfold avf, avb, clr_flags. rewrite buf_upd. by case_decide.
  - exact Hk1.
Qed.

Definition rel_list (age : bool) (b : bptr) (AV : list bptr) : list bptr := if age then b :: AV else AV ++ [b].
Lemma elem_rel_list age b AV x : x ∈ rel_list age b AV <-> x = b \/ x ∈ AV.
Proof. unfold rel_list. destruct age; set_solver. Qed.

Lemma brelse_ok b e s AV CH :
  sq s -> binv s AV CH -> pool b -> b ∉ AV ->
  (b ∈ CH (BTab 0) -> fset (flg s b) B_DONE = true -> fset (flg s b) B_DELWRI = false -> bytes s b = rdblk s (blk s b)) ->
  exists s', brelse b e s = Ret tt e s' /\ released b s s' AV /\ binv s' (rel_list (has s b B_AGE) b AV) CH /\
    forall k, view s' (CH (BTab 0)) k = view s (CH (BTab 0)) k.
Proof.
  intros Hs Hi Hp Hb Hc.
  destruct (brelse_released b e s AV Hs (bi_av _ _ _ Hi) Hp Hb (bi_err _ _ _ Hi b Hp)) as (s' & Hr & Hrel).
  exists s'. split; [done|]. split; [done|].
  assert (Hfl : forall x, pool x -> flg s' x = if decide (x = b) then fclr (flg s x) B_RELEASE else flg s x).
  { intros x Hx. case_decide; [subst; apply (rl_flg _ _ _ _ Hrel)|]. apply (rl_oth _ _ _ _ Hrel); [done|by apply pool_neq]. }
  assert (Hd : forall x, pool x -> fset (flg s' x) B_DELWRI = fset (flg s x) B_DELWRI).
  { intros x Hx. rewrite Hfl by done. case_decide; [fl|]; done. }
  assert (Hi' : binv s' (rel_list (has s b B_AGE) b AV) CH).
  { apply binv_flags with s AV; try done; try apply Hrel.
    - intros x Hx. apply elem_rel_list in Hx as [->|Hx]; [done|]. by apply (bi_avp _ _ _ Hi).
    - intros x Hx. rewrite elem_rel_list, Hfl by done. case_decide as Ex.
      + subst. fl. split; [done|]. by left.
      + rewrite <- (bi_busy _ _ _ Hi) by done. tauto.
    - intros x Hx Hch. assert (Hpx : pool x) by (apply elem_rel_list in Hx as [->|Hx]; [done|by apply (bi_avp _ _ _ Hi)]).
      rewrite Hd by done. rewrite Hfl by done. apply elem_rel_list in Hx. case_decide as Ex.
      + subst. fl. auto.
      + destruct Hx as [?|Hx]; [done|]. by apply (bi_clean _ _ _ Hi).
    - intros x Hx. rewrite Hd by done. intros Hw. destruct (bi_dirty _ _ _ Hi x Hx Hw) as (D1 & D2 & D3).
      split_and!; try done; [|lia|lia]. rewrite Hfl by done. case_decide; [fl|]; done.
    - intros x Hx. rewrite Hfl by done. pose proof (bi_err _ _ _ Hi x Hx). case_decide; [fl|]; done.
    - intros x Hx. assert (Hpx : pool x) by (apply elem_rel_list in Hx as [->|Hx]; [done|by apply (bi_avp _ _ _ Hi)]).
      rewrite Hfl by done. apply elem_rel_list in Hx. case_decide as Ex; [subst; by fl|].
      destruct Hx as [?|Hx]; [done|]. by apply (bi_async _ _ _ Hi). }
  split; [done|]. apply (view_same s s' AV (rel_list (has s b B_AGE) b AV) CH CH); try done.
  - intros x Hx _. destruct (rl_body _ _ _ _ Hrel) as (Hf & _). destruct (Hf x) as (_&?&_&_&?). done.
  - intros k. apply same_body_rdblk, (rl_body _ _ _ _ Hrel).
Qed.

(** ** [notavail] *)

Definition taken (bp : bptr) (s : kst) : kst := or_flags B_BUSY bp (av_unlink bp (s <| kipl := 6 |>)) <| kipl := kipl s |>.

Lemma notavail_run bp e s : notavail bp e s = Ret tt e (taken bp s).
Proof. unfold notavail, spl6. by msteps. Qed.

Lemma taken_sq bp s : sq s -> sq (taken bp s).
Proof. apply sq_kp. done. Qed.

Lemma taken_body bp s : same_body s (taken bp s).
Proof.
  apply same_body_trans with (av_unlink bp (s <| kipl := 6 |>)).
  - apply same_body_trans with (s <| kipl := 6 |>); [done|]. apply same_body_av, av_unlink_only.
  - exact (same_body_flags bp _ (av_unlink bp (s <| kipl := 6 |>))).
Qed.

Lemma taken_flg bp s x : flg (taken bp s) x = if decide (x = bp) then Z.lor (flg s x) B_BUSY else flg s x.
Proof.
  change (flg (taken bp s) x) with (flg (or_flags B_BUSY bp (av_unlink bp (s <| kipl := 6 |>))) x).
  rewrite flg_or. destruct (only_av_fields _ _ x (av_unlink_only bp (s <| kipl := 6 |>))) as [-> _]. done.
Qed.

Lemma taken_ok b s l1 l2 CH : binv s (l1 ++ b :: l2) CH -> binv (taken b s) (l1 ++ l2) CH.
Proof.
  intros Hi. assert (Hb : b ∈ l1 ++ b :: l2) by set_solver.
  pose proof (bi_avp _ _ _ Hi b Hb) as Hp. destruct (bi_av _ _ _ Hi) as [Hnd _].
  assert (Hn : b ∉ l1 ++ l2).
  { apply NoDup_cons in Hnd as [_ Hnd]. apply NoDup_app in Hnd as (_ & Hd & N3). apply NoDup_cons in N3 as [N3 _].
    intros [Hx|Hx]%elem_of_app; [|done]. apply (Hd b Hx). by left. }
  assert (Hin : forall x, x ∈ l1 ++ b :: l2 <-> x = b \/ x ∈ l1 ++ l2) by (intros; set_solver).
  apply binv_flags with s (l1 ++ b :: l2); [done|apply taken_body| | | | | | |].
  - apply ring_frame with (avf (av_unlink b (s <| kipl := 6 |>))) (avb (av_unlink b (s <| kipl := 6 |>))).
    + intros x _. unfold taken. change (avf (?y <| kipl := ?v |>)) with (avf y). change (avb (?y <| kipl := ?v |>)) with (avb y).
      unfold avf, avb, or_flags. rewrite buf_upd. by case_decide.
    + apply av_unlink_ring. apply Hi.
  - intros x Hx. apply (bi_avp _ _ _ Hi), Hin. by right.
  - intros x Hx. rewrite taken_flg. case_decide as E.
    + subst. fl. split; [done|done].
    + rewrite <- (bi_busy _ _ _ Hi), Hin by done. tauto.
  - intros x Hx Hc. rewrite taken_flg. rewrite decide_False by (intros ->; done). apply (bi_clean _ _ _ Hi); [|done].
    apply Hin. by right.
  - intros x Hx. rewrite taken_flg. pose proof (bi_dirty _ _ _ Hi x Hx). case_decide; [fl|]; auto.
  - intros x Hx. rewrite taken_flg. pose proof (bi_err _ _ _ Hi x Hx). case_decide; [fl|]; auto.
  - intros x Hx. rewrite taken_flg. rewrite decide_False by (intros ->; done). apply (bi_async _ _ _ Hi), Hin. by right.
Qed.

Lemma taken_view b s AV AV' CH : binv s AV CH -> binv (taken b s) AV' CH ->
  forall k, view (taken b s) (CH (BTab 0)) k = view s (CH (BTab 0)) k.
Proof.
  intros Hi Hi'. apply (view_same _ _ AV AV' CH CH); try done.
  - intros x Hx. rewrite taken_flg. case_decide; [by fl|done].
  - intros x Hx _. destruct (taken_body b s) as (Hf & _). destruct (Hf x) as (_&?&_&_&?). done.
Qed.

(** ** The RAM disk *)

Lemma rd_addr_small page po : 0 <= page < 256 -> rd_addr page po = page * DISK_PAGE_SIZE + po.
Proof. intros. unfold rd_addr. by rewrite u8_id by lia. Qed.

Lemma rd_next_small n page po : po + 1 + Z.of_nat n <= DISK_PAGE_SIZE -> rd_next n page po = (page, po + 1).
Proof.
  intros Hle. unfold rd_next. destruct (Z.eqb_spec (po + 1) DISK_PAGE_SIZE) as [E|E]; [|done].
  replace n with 0%nat by lia. done.
Qed.

Lemma rd_read_ok n : forall page po mem, 0 <= page < 256 -> po + Z.of_nat n <= DISK_PAGE_SIZE ->
  rd_read n page po mem = mem <$> seqZ (page * DISK_PAGE_SIZE + po) (Z.of_nat n).
Proof.
  induction n as [|n IH]; intros page po mem Hp Hle; [done|].
  cbn [rd_read]. rewrite rd_next_small by lia. rewrite seqZ_cons by lia. rewrite fmap_cons. f_equal.
  - by rewrite rd_addr_small.
  - rewrite IH by lia. f_equal. f_equal; lia.
Qed.

Lemma rd_write_ok n : forall page po l mem a, 0 <= page < 256 -> po + Z.of_nat n <= DISK_PAGE_SIZE ->
  let base := page * DISK_PAGE_SIZE + po in
  rd_write n page po l mem a =
  if decide (base <= a < base + Z.of_nat n) then nth (Z.to_nat (a - base)) l 0 else mem a.
Proof.
  induction n as [|n IH]; intros page po l mem a Hp Hle base; cbn [rd_write].
  - rewrite decide_False by lia. done.
  - rewrite rd_next_small by lia. rewrite IH by lia. rewrite rd_addr_small by done. fold base.
    replace (page * DISK_PAGE_SIZE + (po + 1)) with (base + 1) by (unfold base; lia).
    destruct (decide (a = base)) as [->|Hne].
    + rewrite decide_False by lia. rewrite fn_lookup_insert. rewrite decide_True by lia.
      rewrite Z.sub_diag. by destruct l.
    + rewrite fn_lookup_insert_ne by congruence.
      destruct (decide (base + 1 <= a < base + 1 + Z.of_nat n)).
      * rewrite decide_True by lia. replace (Z.to_nat (a - base)) with (S (Z.to_nat (a - (base + 1)))) by lia.
        by destruct l; [destruct (Z.to_nat _)|].
      * by rewrite decide_False by lia.
Qed.

Lemma rd_offset k : 0 <= k < RD_SIZE ->
  let off := u32 (u32 k * 512) in
  off = 512 * k /\ 0 <= off / DISK_PAGE_SIZE < 256 /\ off mod DISK_PAGE_SIZE + 512 <= DISK_PAGE_SIZE /\
  off / DISK_PAGE_SIZE * DISK_PAGE_SIZE + off mod DISK_PAGE_SIZE = 512 * k.
Proof.
  unfold RD_SIZE, DISK_PAGE_SIZE. intros Hk. cbn zeta. rewrite (u32_id k) by lia. rewrite u32_id by lia.
  split; [lia|]. Z.div_mod_to_equations. lia.
Qed.

Lemma fmap_nth_seqZ (l : list Z) base : forall n, length l = n ->
  (fun a => nth (Z.to_nat (a - base)) l 0) <$> seqZ base (Z.of_nat n) = l.
Proof.
  revert base; induction l as [|x l IH]; intros base n Hn; simpl in Hn; subst n; [done|].
  rewrite seqZ_cons by lia. rewrite fmap_cons, Z.sub_diag. simpl. f_equal.
  rewrite <- (IH (Z.succ base) (length l) eq_refl) at 2.
  replace (Z.pred (Z.of_nat (S (length l)))) with (Z.of_nat (length l)) by lia.
  apply list_fmap_ext. intros i a Ha. apply lookup_seqZ in Ha as [-> Hi].
  replace (Z.to_nat (Z.succ base + Z.of_nat i - base)) with (S i) by lia.
  by replace (Z.to_nat (Z.succ base + Z.of_nat i - Z.succ base)) with i by lia.
Qed.

(** Writing block [k]. *)
Lemma rd_write_blk s k l : 0 <= k < RD_SIZE -> length l = 512%nat ->
  let off := u32 (u32 k * 512) in
  let mem := rd_write 512 (off / DISK_PAGE_SIZE) (off mod DISK_PAGE_SIZE) l (rdmem (kb s)) in
  (mem <$> seqZ (512 * k) 512) = l /\ forall k', k' <> k -> (mem <$> seqZ (512 * k') 512) = rdblk s k'.
Proof.
  intros Hk Hl. destruct (rd_offset k Hk) as (Eo & Hp & Hle & Eb). cbn zeta in *.
  set (off := u32 (u32 k * 512)) in *. change 512 with (Z.of_nat 512) in Hle.
  pose proof (fun a => rd_write_ok 512 _ _ l (rdmem (kb s)) a Hp Hle) as Hw. rewrite Eb in Hw. split.
  - rewrite <- (fmap_nth_seqZ l (512 * k) 512 Hl) at 2. apply list_fmap_ext. intros i a Ha.
    apply lookup_seqZ in Ha as [-> Hi]. rewrite Hw. rewrite decide_True by lia. done.
  - intros k' Hne. apply list_fmap_ext. intros i a Ha. apply lookup_seqZ in Ha as [-> Hi].
    rewrite Hw. rewrite decide_False by lia. done.
Qed.

Lemma rd_read_blk s k : 0 <= k < RD_SIZE ->
  let off := u32 (u32 k * 512) in
  rd_read 512 (off / DISK_PAGE_SIZE) (off mod DISK_PAGE_SIZE) (rdmem (kb s)) = rdblk s k.
Proof.
  intros Hk. destruct (rd_offset k Hk) as (Eo & Hp & Hle & Eb). cbn zeta in *.
  rewrite rd_read_ok by done. by rewrite Eb.
Qed.

(** ** Work on one busy buffer *)

(** [s'] has the lists, devices and block numbers of [s] and, but for [b], the
    flags and data of its buffers. *)
Record one_buf (b : bptr) (s s' : kst) : Prop := {
  ob_ptr : forall x, avf s' x = avf s x /\ avb s' x = avb s x /\ bfw s' x = bfw s x /\ bbk s' x = bbk s x;
  ob_id : forall x, bdevno s' x = bdevno s x /\ blk s' x = blk s x;
  ob_oth : forall x, x <> b -> x <> BFree -> flg s' x = flg s x /\ bytes s' x = bytes s x;
  ob_rest : uctx s' = uctx s /\ kf s' = kf s /\ kc s' = kc s /\ kt s' = kt s /\ knum s' = knum s
}.

Lemma one_buf_trans b s1 s2 s3 : one_buf b s1 s2 -> one_buf b s2 s3 -> one_buf b s1 s3.
Proof.
  intros [P1 I1 O1 (?&?&?&?&?)] [P2 I2 O2 (?&?&?&?&?)]. split.
  - intros x. destruct (P1 x) as (?&?&?&?), (P2 x) as (?&?&?&?). split_and!; congruence.
  - intros x. destruct (I1 x), (I2 x). split; congruence.
  - intros x Hx HF. destruct (O1 x Hx HF), (O2 x Hx HF). split; congruence.
  - split_and!; congruence.
Qed.

Lemma one_buf_refl b s : one_buf b s s.
Proof. by split. Qed.

Lemma one_buf_woken b s s' : only_run s s' -> one_buf b s s'.
Proof.
  intros ((E1 & E2 & E3 & E4 & E5 & _) & EX).
  split; [intros x|intros x|intros x _ _|]; unfold knum, resids, avf, avb, bfw, bbk, flg, bdevno, blk, bytes, buf_at; by rewrite E2.
Qed.

(** An update of [b] that keeps its place and identity. *)
Definition inert (g : buf -> buf) : Prop := forall x,
  av_forw (g x) = av_forw x /\ av_back (g x) = av_back x /\ b_forw (g x) = b_forw x /\ b_back (g x) = b_back x /\
  b_dev (g x) = b_dev x /\ b_blkno (g x) = b_blkno x /\ b_resid (g x) = b_resid x.

Lemma one_buf_upd b g s : inert g -> one_buf b s (upd_buf b g s).
Proof.
  intros Hg. pose proof (Hg (buf_at s b)) as (?&?&?&?&?&?&?).
  split; [| | |split_and!; try done; by apply knum_upd]; unfold avf, avb, bfw, bbk, flg, bdevno, blk; intros x; rewrite buf_upd; case_decide; subst; done.
Qed.

Lemma one_buf_io b s f g : one_buf b s (s <| kb; bdata ::= <[b := f]> |> <| kb; rdmem := g |>).
Proof. split; try done. intros x Hx _. split; [done|]. unfold bytes. cbn. by rewrite fn_lookup_insert_ne. Qed.

Lemma binv_one b s s' AV CH :
  binv s AV CH -> one_buf b s s' -> pool b -> b ∉ AV ->
  length (bytes s' b) = 512%nat -> fset (flg s' b) B_BUSY = true -> fset (flg s' b) B_ERROR = false ->
  (fset (flg s' b) B_DELWRI = true -> b ∈ CH (BTab 0) /\ fset (flg s' b) B_DONE = true /\ 0 <= blk s b < RD_SIZE) ->
  (forall k, (b ∈ CH (BTab 0) -> k <> blk s b) -> rdblk s' k = rdblk s k) ->
  binv s' AV CH.
Proof.
  intros Hi [Hp Hid Ho (_ & _ & _ & _ & En)] Hb Hn Hl Hbu He Hd Hr.
  assert (Ho' : forall x, pool x -> x <> b -> flg s' x = flg s x /\ bytes s' x = bytes s x).
  { intros x Hx Hne. apply Ho; [done|by apply pool_neq]. }
  assert (Hne : forall x, x ∈ AV -> x <> b) by (intros x Hx ->; done).
  apply knum_resid in En. destruct Hi. split; try done; [| | | | | | | | | |congruence].
  - apply ring_frame with (avf s) (avb s); [|done]. intros x _. by destruct (Hp x) as (?&?&_).
  - intros h Hh. apply ring_frame with (bfw s) (bbk s); [|auto]. intros x _. by destruct (Hp x) as (_&_&?&?).
  - intros x Hx. destruct (decide (x = b)) as [->|Hxb]; [by rewrite Hbu|]. destruct (Ho' x Hx Hxb) as [-> _]. auto.
  - intros x. destruct (Hid x) as [-> _]. auto.
  - intros x y. destruct (Hid x) as [_ ->], (Hid y) as [_ ->]. auto.
  - intros x Hx. destruct (decide (x = b)) as [->|Hxb]; [done|]. destruct (Ho' x Hx Hxb) as [_ ->]. auto.
  - intros x Hx Hc. destruct (Ho' x) as [-> ->]; [auto|auto|]. destruct (Hid x) as [_ ->]. rewrite Hr; [auto|].
    intros Hbc E. by apply (Hne x Hx), bi_uniq0.
  - intros x Hx. destruct (Hid x) as [_ ->]. destruct (decide (x = b)) as [->|Hxb]; [done|]. destruct (Ho' x Hx Hxb) as [-> _]. auto.
  - intros x Hx. destruct (decide (x = b)) as [->|Hxb]; [done|]. destruct (Ho' x Hx Hxb) as [-> _]. auto.
  - intros x Hx. destruct (Ho' x) as [-> _]; auto.
Qed.

Lemma one_resid b s s' AV CH : binv s AV CH -> one_buf b s s' -> pool b -> b_resid (buf_at s' b) = 0.
Proof.
  intros Hi [_ _ _ (_ & _ & _ & _ & En)] Hp. apply resid_at; [|done]. rewrite (knum_resid _ _ En). apply Hi.
Qed.

(** The transfer of [rdxfer]. *)
Definition rd_move (b : bptr) (s : kst) : kst :=
  let off := u32 (u32 (blk s b) * 512) in
  let p := off / DISK_PAGE_SIZE in let o := off mod DISK_PAGE_SIZE in
  if fset (flg s b) B_READ
  then s <| kb; bdata ::= fun d => <[b := rd_read 512 p o (rdmem (kb s)) ++ drop 512 (d b)]> d |>
  else s <| kb; rdmem ::= rd_write 512 p o (bytes s b) |>.
Definition xfer (b : bptr) (s : kst) : kst := upd_buf b (fun x => x <| b_resid := 0 |>) (rd_move b s).

Lemma rdstrategy_run b e s :
  bdevno s b = 0 -> 0 <= blk s b < RD_SIZE -> b_bcount (buf_at s b) = BSIZE ->
  rdstrategy b e s = (_ ← iodone b; mret 0) e (xfer b s).
Proof.
  intros Hd Hk Hc. unfold rdstrategy, rdxfer. msteps. fold (bdevno s b). rewrite Hd.
  fold (blk s b). rewrite (proj2 (Z.ltb_ge _ _)) by lia. rewrite (proj2 (Z.leb_gt _ _)) by lia.
  change (negb (rdvalid (minor 0)) || false || false) with false. cbv iota. msteps. rewrite Hc.
  unfold xfer, rd_move. fold (flg s b). change (Z.to_nat (u16 BSIZE)) with 512%nat.
  by destruct (fset (flg s b) B_READ); msteps.
Qed.

(** A residue that is 0 set to 0. *)
Lemma one_buf_resid b s : b_resid (buf_at s b) = 0 -> one_buf b s (upd_buf b (fun x => x <| b_resid := 0 |>) s).
Proof.
  intros Hr. split; [| | |split_and!; try done; by apply knum_upd];
    unfold avf, avb, bfw, bbk, flg, bdevno, blk; intros x; rewrite buf_upd; case_decide; subst; done.
Qed.

Lemma rd_move_buf b s x : buf_at (rd_move b s) x = buf_at s x.
Proof. unfold rd_move. by destruct (fset _ _). Qed.

Lemma xfer_one b s : b_resid (buf_at s b) = 0 -> one_buf b s (xfer b s).
Proof.
  intros Hr. unfold xfer. apply one_buf_trans with (rd_move b s); [|apply one_buf_resid; by rewrite rd_move_buf].
  unfold rd_move. destruct (fset _ _).
  - split; try done. intros x Hx _. split; [done|]. unfold bytes. cbn. by rewrite fn_lookup_insert_ne.
  - by split.
Qed.

Lemma xfer_flg b s x : flg (xfer b s) x = flg s x.
Proof.
  unfold xfer, flg. rewrite buf_upd. unfold rd_move. destruct (fset _ _); case_decide; done.
Qed.

Lemma xfer_read b s : 0 <= blk s b < RD_SIZE -> length (bytes s b) = 512%nat -> fset (flg s b) B_READ = true ->
  bytes (xfer b s) b = rdblk s (blk s b) /\ forall k, rdblk (xfer b s) k = rdblk s k.
Proof.
  intros Hk Hl Hf. unfold xfer, rd_move. rewrite Hf. split; [|done]. rewrite rd_read_blk by done.
  change (?a = _) with (<[b := rdblk s (blk s b) ++ drop 512 (bytes s b)]> (bdata (kb s)) b = rdblk s (blk s b)).
  rewrite fn_lookup_insert, drop_ge by lia. by rewrite app_nil_r.
Qed.

Lemma xfer_write b s : 0 <= blk s b < RD_SIZE -> length (bytes s b) = 512%nat -> fset (flg s b) B_READ = false ->
  bytes (xfer b s) b = bytes s b /\ rdblk (xfer b s) (blk s b) = bytes s b /\
  forall k, k <> blk s b -> rdblk (xfer b s) k = rdblk s k.
Proof.
  intros Hk Hl Hf. unfold xfer, rd_move. rewrite Hf. split; [done|].
  exact (rd_write_blk s (blk s b) (bytes s b) Hk Hl).
Qed.

(** [iodone] of a buffer somebody waits for. *)
Lemma iodone_sync b e s : sq s -> fset (flg s b) B_ASYNC = false -> b <> BFree ->
  exists s', iodone b e s = Ret tt e s' /\ sq s' /\ one_buf b s s' /\ flg s' b = fclr (Z.lor (flg s b) B_DONE) B_WANTED /\
    bytes s' b = bytes s b /\ rdmem (kb s') = rdmem (kb s) /\ kipl s' = kipl s.
Proof.
  intros Hs Ha HF. unfold iodone. msteps.
  assert (E : has (or_flags B_DONE b s) b B_ASYNC = false).
  { change (fset (flg (or_flags B_DONE b s) b) B_ASYNC = false). rewrite flg_or, decide_True by done. by fl; rewrite Ha. }
  rewrite E. msteps. set (s1 := clr_flags B_WANTED b (or_flags B_DONE b s)).
  destruct (wakeup_sq (ChBuf b) e s1) as (s' & Hw & Hs' & Ho); [by apply sq_kp with s|].
  exists s'. split; [done|]. split; [done|].
  assert (O1 : one_buf b s s1).
  { unfold s1. apply one_buf_trans with (or_flags B_DONE b s); by apply one_buf_upd. }
  assert (Ek : kb s' = kb s1) by (by destruct Ho as ((_&?&_)&_)).
  split; [apply one_buf_trans with s1; [done|by apply one_buf_woken]|].
  assert (Ef : flg s' b = flg s1 b) by (unfold flg, buf_at; by rewrite Ek). rewrite Ef.
  unfold s1. rewrite flg_clr, flg_or, !decide_True by done. unfold bytes. rewrite Ek.
  split_and!; try done. by destruct Ho as ((_&_&_&_&_&?&_)&_).
Qed.

(** [iowait] of a finished transfer without error. *)
Lemma iowait_done b e s : fset (flg s b) B_DONE = true -> fset (flg s b) B_ERROR = false ->
  iowait b e s = Ret tt e (s <| kipl := 0 |>).
Proof.
  intros Hd He. unfold iowait, spl6, spl0. msteps. unfold sleep_while. cbn [sleep_while_f].
  unfold mbind at 1, m_bind at 1. unfold mbind at 1, m_bind at 1. cbn [gets].
  change (has (s <| kipl := 6 |>) b B_DONE) with (fset (flg s b) B_DONE). rewrite Hd. cbn [negb]. cbn [mret m_ret].
  msteps. unfold geterror. msteps. change (b_flags (buf_at (s <| kipl := 6 |> <| kipl := 0 |>) b)) with (flg s b).
  rewrite He. done.
Qed.

(** ** [bwrite] *)

Lemma view_write b s s' AV AV' CH :
  binv s AV CH -> binv s' AV' CH -> b ∈ CH (BTab 0) ->
  (forall x, pool x -> x <> b -> flg s' x = flg s x /\ bytes s' x = bytes s x) -> (forall x, blk s' x = blk s x) ->
  fset (flg s' b) B_DELWRI = false -> rdblk s' (blk s b) = bytes s b ->
  (forall k, k <> blk s b -> rdblk s' k = rdblk s k) ->
  forall k, view s' (CH (BTab 0)) k = if decide (k = blk s b) then bytes s b else view s (CH (BTab 0)) k.
Proof.
  intros Hi Hi' Hb Ho Hbl Hd Hw Hr k.
  assert (Hpl : forall x, x ∈ CH (BTab 0) -> pool x) by (intros; apply (bi_chp _ _ _ Hi (BTab 0)); [by right|done]).
  destruct (decide (k = blk s b)) as [->|Hk].
  - rewrite view_clean; [done|]. intros x Hx [Ex Dx]. rewrite Hbl in Ex.
    assert (x = b) as -> by (by apply (bi_uniq _ _ _ Hi)). by rewrite Hd in Dx.
  - destruct (view_cases s AV CH k Hi) as [(x & Hx & [Ex Dx] & ->)|[Hn ->]].
    + assert (x <> b) by congruence. destruct (Ho x (Hpl x Hx)) as [Ef <-]; [done|].
      apply (view_dirty s' AV'); [done|done|]. split; [by rewrite Hbl|by rewrite Ef].
    + rewrite <- Hr by done. apply view_clean. intros x Hx [Ex Dx]. rewrite Hbl in Ex.
      destruct (decide (x = b)) as [->|Hxb]; [congruence|]. destruct (Ho x (Hpl x Hx) Hxb) as [Ef _].
      rewrite Ef in Dx. by apply (Hn x).
Qed.

(** The state in which [bwrite] has moved the data to the disk. *)
Definition bw_start (b : bptr) (s : kst) : kst :=
  upd_buf b (fun x => x <| b_bcount := BSIZE |>) (clr_flags B_REWRITE b s) <| kb; io_nwrite ::= fun n => n + 1 |>.

Lemma bw_start_one b s : one_buf b s (bw_start b s).
Proof.
  apply one_buf_trans with (clr_flags B_REWRITE b s); [by apply one_buf_upd|].
  apply one_buf_trans with (upd_buf b (fun x => x <| b_bcount := BSIZE |>) (clr_flags B_REWRITE b s)); [by apply one_buf_upd|by split].
Qed.

Lemma bw_start_flg b s : flg (bw_start b s) b = fclr (flg s b) B_REWRITE.
Proof.
  unfold bw_start. change (flg (?x <| kb; io_nwrite ::= ?g |>) b) with (flg x b). unfold flg at 1. rewrite buf_upd, decide_True by done.
  change (b_flags (?x <| b_bcount := BSIZE |>)) with (b_flags x). fold (flg (clr_flags B_REWRITE b s) b).
  by rewrite flg_clr, decide_True.
Qed.

Lemma busy_flag s AV CH b : binv s AV CH -> pool b -> b ∉ AV -> fset (flg s b) B_BUSY = true.
Proof. intros Hi Hp Hb. destruct (fset (flg s b) B_BUSY) eqn:E; [done|]. destruct Hb. by apply (bi_busy _ _ _ Hi). Qed.

Lemma bw_moved b s AV CH : binv s AV CH -> pool b -> b ∉ AV -> b ∈ CH (BTab 0) -> 0 <= blk s b < RD_SIZE ->
  let s2 := xfer b (bw_start b s) in
  binv s2 AV CH /\ one_buf b s s2 /\ flg s2 b = fclr (flg s b) B_REWRITE /\ bytes s2 b = bytes s b /\
  rdblk s2 (blk s b) = bytes s b /\ (forall k, k <> blk s b -> rdblk s2 k = rdblk s k).
Proof.
  intros Hi Hp Hb Hc Hk s2.
  assert (Ho : one_buf b s s2) by (apply one_buf_trans with (bw_start b s); [apply bw_start_one|by apply xfer_one, (one_resid b s _ AV CH Hi (bw_start_one b s))]).
  assert (Ef : flg s2 b = fclr (flg s b) B_REWRITE) by (unfold s2; by rewrite xfer_flg, bw_start_flg).
  destruct (ob_id _ _ _ (bw_start_one b s) b) as [_ Eb].
  destruct (xfer_write b (bw_start b s)) as (X1 & X2 & X3).
  { by rewrite Eb. } { apply (bi_len _ _ _ Hi b Hp). } { rewrite bw_start_flg. by fl. }
  rewrite Eb in X2, X3. fold s2 in X1, X2, X3.
  assert (X3' : forall k, k <> blk s b -> rdblk s2 k = rdblk s k) by (intros; by rewrite X3).
  split; [|by split_and!].
  apply (binv_one b s); try done.
  - rewrite X1. apply (bi_len _ _ _ Hi b Hp).
  - rewrite Ef. fl. by apply (busy_flag s AV CH).
  - rewrite Ef. by fl.
  - rewrite Ef. by fl.
  - intros k Hne. apply X3', Hne, Hc.
Qed.

Record wrote (b : bptr) (s s' : kst) (AV : list bptr) (CH : bptr -> list bptr) : Prop := {
  wr_sq : sq s';
  wr_inv : binv s' (AV ++ [b]) CH;
  wr_view : forall k, view s' (CH (BTab 0)) k = if decide (k = blk s b) then bytes s b else view s (CH (BTab 0)) k;
  wr_disk : rdblk s' (blk s b) = bytes s b;
  wr_clean : fset (flg s' b) B_DELWRI = false;
  wr_oth : forall x, x <> b -> x <> BFree -> flg s' x = flg s x /\ bytes s' x = bytes s x;
  wr_id : forall x, bdevno s' x = bdevno s x /\ blk s' x = blk s x;
  wr_rest : uctx s' = uctx s /\ kf s' = kf s /\ kc s' = kc s /\ kt s' = kt s /\ knum s' = knum s
}.

(** Releasing the buffer after the transfer. *)
Lemma bw_release b e s s2 AV CH :
  binv s AV CH -> pool b -> b ∉ AV -> b ∈ CH (BTab 0) ->
  sq s2 -> binv s2 AV CH -> one_buf b s s2 -> bytes s2 b = bytes s b ->
  rdblk s2 (blk s b) = bytes s b -> (forall k, k <> blk s b -> rdblk s2 k = rdblk s k) ->
  fset (flg s2 b) B_DELWRI = false -> fset (flg s2 b) B_AGE = false ->
  exists s', brelse b e s2 = Ret tt e s' /\ wrote b s s' AV CH /\ flg s' b = fclr (flg s2 b) B_RELEASE.
Proof.
  intros Hi Hp Hb Hc Hs2 Hi2 Ho Eby Ed Er Edw Eag. destruct (ob_id _ _ _ Ho b) as [_ Ebl].
  destruct (brelse_ok b e s2 AV CH Hs2 Hi2 Hp Hb) as (s' & Hr & Hrel & Hi' & Hv); [intros; by rewrite Eby, Ebl, Ed|].
  exists s'. split; [done|].
  assert (Ea : has s2 b B_AGE = false) by exact Eag. rewrite Ea in Hi'. unfold rel_list in Hi'.
  destruct (rl_body _ _ _ _ Hrel) as (Hf & Em & E1 & E2 & E3 & E4 & E5).
  assert (Hrd : forall k, rdblk s' k = rdblk s2 k) by (intros; unfold rdblk; by rewrite Em).
  assert (Hfl : flg s' b = fclr (flg s2 b) B_RELEASE) by apply (rl_flg _ _ _ _ Hrel).
  assert (Hdw : fset (flg s' b) B_DELWRI = false) by (rewrite Hfl; by fl).
  assert (Hoth : forall x, x <> b -> x <> BFree -> flg s' x = flg s x /\ bytes s' x = bytes s x).
  { intros x Hx HF. destruct (ob_oth _ _ _ Ho x Hx HF) as [<- <-]. destruct (Hf x) as (_&_&_&_&->).
    split; [|done]. by apply (rl_oth _ _ _ _ Hrel). }
  assert (Hid : forall x, bdevno s' x = bdevno s x /\ blk s' x = blk s x).
  { intros x. destruct (Hf x) as (->&->&_), (ob_id _ _ _ Ho x) as [-> ->]. done. }
  assert (Hrd' : forall k, k <> blk s b -> rdblk s' k = rdblk s k) by (intros; rewrite Hrd; auto).
  split; [|done]. split; try done.
  - apply Hrel.
  - apply (view_write b s s' AV (AV ++ [b])); try done.
    + intros x Hx Hxb. apply Hoth; [done|by apply pool_neq].
    + intros x. apply Hid.
    + by rewrite Hrd.
  - by rewrite Hrd.
  - destruct (ob_rest _ _ _ Ho) as (?&?&?&?&?). split_and!; congruence.
Qed.

(** [b] marked [B_AGE] after its release. *)
Lemma wrote_age b s s' AV CH : wrote b s s' AV CH -> pool b -> wrote b s (or_flags B_AGE b s') AV CH.
Proof.
  intros [W1 W2 W3 W4 W5 W6 W7 W8] Hp.
  assert (Hf : forall x m, fset B_AGE m = false -> fset (flg (or_flags B_AGE b s') x) m = fset (flg s' x) m).
  { intros x m Hm. rewrite flg_or. case_decide; [|done]. rewrite fset_lor, Hm. apply orb_false_r. }
  assert (Hi : binv (or_flags B_AGE b s') (AV ++ [b]) CH).
  { apply binv_flags with s' (AV ++ [b]); [done|apply same_body_flags| | | | | | |].
    - apply ring_frame with (avf s') (avb s'); [|apply W2]. intros x _. unfold avf, avb, or_flags. rewrite buf_upd. by case_decide.
    - apply W2.
    - intros x Hx. rewrite Hf by done. by apply W2.
    - intros x Hx Hc. rewrite !Hf by done. by apply W2.
    - intros x Hx. rewrite !Hf by done. by apply W2.
    - intros x Hx. rewrite Hf by done. by apply W2.
    - intros x Hx. rewrite Hf by done. by apply W2. }
  split; try done.
  - by apply sq_kp with s'.
  - intros k. rewrite <- W3. apply (view_same _ _ (AV ++ [b]) (AV ++ [b]) CH CH); try done.
    + intros x Hx. by apply Hf.
    + intros x Hx _. split; [|done]. unfold blk, or_flags. rewrite buf_upd. by case_decide.
  - by rewrite Hf.
  - intros x Hx HF. rewrite flg_or, decide_False by done. by apply W6.
  - intros x. unfold bdevno, blk, or_flags. rewrite buf_upd. destruct (W7 x). by case_decide.
  - destruct W8 as (?&?&?&?&<-). split_and!; try done. by apply knum_upd.
Qed.

Lemma bwrite_ok b e s AV CH :
  sq s -> binv s AV CH -> pool b -> b ∉ AV -> b ∈ CH (BTab 0) -> 0 <= blk s b < RD_SIZE ->
  exists s', bwrite b e s = Ret tt e s' /\ wrote b s s' AV CH.
Proof.
  intros Hs Hi Hp Hb Hc Hk. destruct (bw_moved b s AV CH Hi Hp Hb Hc Hk) as (Hi2 & Ho2 & Ef2 & Eby & Ed & Er).
  set (s2 := xfer b (bw_start b s)) in *. destruct (pool_neq _ Hp) as [HbF _].
  assert (Hs2 : sq s2) by (apply sq_kp with s; [unfold s2, xfer, rd_move; by destruct (fset _ _)|done]).
  unfold bwrite. msteps. fold (bw_start b s). fold (bdevno (bw_start b s) b).
  destruct (ob_id _ _ _ (bw_start_one b s) b) as [Edv Ebl]. rewrite Edv, (bi_dev _ _ _ Hi b Hc).
  change (d_strategy (bdev 0)) with rdstrategy.
  assert (Hrun : forall s3, iodone b e s2 = Ret tt e s3 -> rdstrategy b e (bw_start b s) = Ret 0 e s3).
  { intros s3 Hr. rewrite rdstrategy_run; [|by rewrite Edv; apply (bi_dev _ _ _ Hi)|by rewrite Ebl|].
    - by rewrite (bind_ret _ _ _ _ _ _ _ Hr).
    - unfold bw_start. change (buf_at (?x <| kb; io_nwrite ::= ?g |>) b) with (buf_at x b). by rewrite buf_upd, decide_True. }
  fold (flg s b). destruct (fset (flg s b) B_ASYNC) eqn:Ea; cbn [negb].
  - set (s3 := or_flags B_DONE b s2).
    assert (Ef3 : flg s3 b = Z.lor (fclr (flg s b) B_REWRITE) B_DONE) by (unfold s3; by rewrite flg_or, decide_True, Ef2).
    assert (Ho3 : one_buf b s2 s3) by (by apply one_buf_upd).
    assert (Hi3 : binv s3 AV CH).
    { apply (binv_one b s2); try done.
      - change (length (bytes s2 b) = 512%nat). apply (bi_len _ _ _ Hi2 b Hp).
      - rewrite Ef3. fl. by apply (busy_flag s AV CH).
      - rewrite Ef3. by fl.
      - rewrite Ef3. by fl. }
    assert (Hs3 : sq s3) by (by apply sq_kp with s2).
    destruct (bw_release b e s s3 AV CH) as (s' & Hr & W & Ef'); try done;
      [by apply one_buf_trans with s2|rewrite Ef3; by fl|rewrite Ef3; by fl|].
    erewrite bind_ret; [|apply (Hrun s'); unfold iodone; msteps; fold s3;
      change (has s3 b B_ASYNC) with (fset (flg s3 b) B_ASYNC); rewrite Ef3; fl; rewrite Ea; exact Hr].
    destruct (fset (flg s b) B_DELWRI).
    + exists (or_flags B_AGE b s'). split; [done|]. by apply wrote_age.
    + exists s'. split; [|done]. unfold geterror. mstep. fold (flg s' b). rewrite Ef', Ef3. by fl.
  - destruct (iodone_sync b e s2 Hs2) as (s3 & Hr3 & Hs3 & Ho3 & Ef3 & Eby3 & Em3 & Ek3); [rewrite Ef2; by fl|done|].
    erewrite bind_ret; [|by apply Hrun]. rewrite Ef2 in Ef3.
    erewrite bind_ret; [|apply iowait_done; rewrite Ef3; by fl].
    set (s4 := s3 <| kipl := 0 |>).
    assert (Erd : forall k, rdblk s4 k = rdblk s2 k) by (intros; unfold rdblk; change (rdmem (kb s4)) with (rdmem (kb s3)); by rewrite Em3).
    assert (Ho4 : one_buf b s2 s4) by (destruct Ho3; by split).
    assert (Hi4 : binv s4 AV CH).
    { apply (binv_one b s2); try done.
      - change (length (bytes s3 b) = 512%nat). rewrite Eby3. apply (bi_len _ _ _ Hi2 b Hp).
      - change (fset (flg s3 b) B_BUSY = true). rewrite Ef3. fl. by apply (busy_flag s AV CH).
      - change (fset (flg s3 b) B_ERROR = false). rewrite Ef3. by fl.
      - change (flg s4 b) with (flg s3 b). rewrite Ef3. by fl. }
    assert (Hs4 : sq s4) by (by apply sq_kp with s3).
    destruct (bw_release b e s s4 AV CH) as (s' & Hr & W & _); try done.
    + by apply one_buf_trans with s2.
    + change (bytes s3 b = bytes s b). congruence.
    + by rewrite Erd.
    + intros k Hne. rewrite Erd. auto.
    + change (flg s4 b) with (flg s3 b). rewrite Ef3. by fl.
    + change (flg s4 b) with (flg s3 b). rewrite Ef3. by fl.
    + by exists s'.
Qed.

(** ** The device queue *)

Definition rm (b : bptr) (l : list bptr) : list bptr := filter (fun x => x <> b) l.

Lemma rm_notin b l : b ∉ l -> rm b l = l.
Proof.
  intros Hn. unfold rm. induction l as [|x l IH]; [done|]. rewrite filter_cons.
  rewrite decide_True by (intros ->; apply Hn; by left). f_equal. apply IH. intros Hx. apply Hn. by right.
Qed.

Lemma rm_mid b l1 l2 : NoDup (l1 ++ b :: l2) -> rm b (l1 ++ b :: l2) = l1 ++ l2.
Proof.
  intros Hnd. apply NoDup_app in Hnd as (_ & Hd & N). apply NoDup_cons in N as [N _].
  unfold rm. rewrite filter_app, filter_cons, decide_False by tauto. f_equal.
  - apply rm_notin. intros Hx. apply (Hd b Hx). by left.
  - by apply rm_notin.
Qed.

Lemma elem_rm b l x : x ∈ rm b l <-> x <> b /\ x ∈ l.
Proof. unfold rm. by rewrite list_elem_of_filter. Qed.

Definition ch_unlink (bp : bptr) (s : kst) : kst :=
  let s := upd_buf (b_back (buf_at s bp)) (fun x => x <| b_forw := b_forw (buf_at s bp) |>) s in
  upd_buf (b_forw (buf_at s bp)) (fun x => x <| b_back := b_back (buf_at s bp) |>) s.
Definition ch_push (bp dp : bptr) (s : kst) : kst :=
  let s := upd_buf bp (fun x => x <| b_forw := b_forw (buf_at s dp) |>) s in
  let s := upd_buf bp (fun x => x <| b_back := dp |>) s in
  let s := upd_buf (b_forw (buf_at s dp)) (fun x => x <| b_back := bp |>) s in
  upd_buf dp (fun x => x <| b_forw := bp |>) s.

Lemma requeue_split bp dp s : requeue bp dp s = ch_push bp dp (ch_unlink bp s).
Proof. done. Qed.

(** A buffer but for its place on a device queue. *)
Definition noch (x : buf) : buf := x <| b_forw := BNull |> <| b_back := BNull |>.
Definition only_ch (s s' : kst) : Prop :=
  (forall x, noch (buf_at s' x) = noch (buf_at s x)) /\ bdata (kb s') = bdata (kb s) /\ rdmem (kb s') = rdmem (kb s) /\
  kp s' = kp s /\ uctx s' = uctx s /\ kf s' = kf s /\ kc s' = kc s /\ kt s' = kt s /\ knum s' = knum s.

Lemma noch_upd b g s : (forall x, noch (g x) = noch x) -> only_ch s (upd_buf b g s).
Proof.
  intros Hg. split_and!; try done; [|by apply knum_upd, (f_equal b_resid (Hg (buf_at s b)))].
  intros x. rewrite buf_upd. case_decide; [apply Hg|done].
Qed.

Lemma only_ch_trans s1 s2 s3 : only_ch s1 s2 -> only_ch s2 s3 -> only_ch s1 s3.
Proof.
  intros (E1 & ? & ? & ? & ? & ? & ? & ? & ?) (E2 & ? & ? & ? & ? & ? & ? & ? & ?). unfold only_ch. split_and!; congruence.
Qed.

Lemma requeue_only bp dp s : only_ch s (requeue bp dp s).
Proof.
  unfold requeue.
  repeat first [ apply noch_upd; by intros [] | eapply only_ch_trans; [|apply noch_upd; by intros []] ].
Qed.

Lemma only_ch_fields s s' x : only_ch s s' ->
  flg s' x = flg s x /\ bdevno s' x = bdevno s x /\ blk s' x = blk s x /\ avf s' x = avf s x /\ avb s' x = avb s x /\
  bytes s' x = bytes s x.
Proof.
  intros (E & Ed & _). specialize (E x). unfold flg, bdevno, blk, avf, avb, bytes. rewrite Ed. revert E.
  unfold noch. destruct (buf_at s' x), (buf_at s x). cbn. intros [=]. by subst.
Qed.

(** The queues after [requeue b t]. *)
Definition CHmove (b t : bptr) (CH : bptr -> list bptr) (h : bptr) : list bptr :=
  if decide (h = t) then b :: rm b (CH h) else rm b (CH h).

Lemma elem_CHmove b t CH h x : x ∈ CHmove b t CH h <-> (x = b /\ h = t) \/ (x <> b /\ x ∈ CH h).
Proof. unfold CHmove. case_decide; rewrite ?elem_of_cons, elem_rm; tauto. Qed.

Lemma ch_unlink_ring s h b L : ring (bfw s) (bbk s) h L -> b ∈ L ->
  ring (bfw (ch_unlink b s)) (bbk (ch_unlink b s)) h (rm b L).
Proof.
  intros Hr Hb. apply list_elem_of_split in Hb as (l1 & l2 & ->).
  pose proof Hr as [Hnd _]. apply NoDup_cons in Hnd as [_ Hnd]. rewrite rm_mid by done.
  destruct (ring_neq_self _ _ _ _ _ _ Hr) as [N1 N2].
  apply ring_unlink with (bfw s) (bbk s) b; try done; unfold ch_unlink; intros; bufs.
Qed.

Lemma ch_unlink_frame s h h' b L L' : ring (bfw s) (bbk s) h L -> b ∈ L -> ring (bfw s) (bbk s) h' L' ->
  (forall x, x ∈ h :: L -> x ∈ h' :: L' -> False) -> ring (bfw (ch_unlink b s)) (bbk (ch_unlink b s)) h' L'.
Proof.
  intros Hr Hb Hr' Hd. apply list_elem_of_split in Hb as (l1 & l2 & ->).
  destruct (ring_mid _ _ _ _ _ _ Hr) as [Eb Ef].
  assert (Hx : forall x, x ∈ h' :: L' -> x <> bbk s b /\ x <> bfw s b).
  { intros x Hx. split; intros ->; refine (Hd _ _ Hx).
    - rewrite Eb. destruct l1 as [|y l _] using rev_ind; [by left|]. rewrite List.last_last. right. set_solver.
    - rewrite Ef. destruct l2; [by left|]. right. set_solver. }
  destruct (ring_neq_self _ _ _ _ _ _ Hr) as [N1 N2].
  apply ring_frame with (bfw s) (bbk s); [|done]. intros x Hxin. destruct (Hx x Hxin) as [X1 X2].
  unfold ch_unlink. split; bufs.
Qed.

Lemma ch_push_ring s b t L : ring (bfw s) (bbk s) t L -> b ∉ t :: L ->
  ring (bfw (ch_push b t s)) (bbk (ch_push b t s)) t (b :: L).
Proof.
  intros Hr Hb. pose proof (ring_head _ _ _ _ Hr) as Eh.
  assert (Hne : bfw s t <> b).
  { rewrite Eh. intros <-. apply Hb. destruct L as [|a r]; [by left|right; by left]. }
  assert (b <> t) by (intros ->; apply Hb; by left).
  apply ring_push_front with (bfw s) (bbk s); try done; unfold ch_push; intros; bufs.
Qed.

Lemma ch_push_frame s b t L h' L' : ring (bfw s) (bbk s) t L -> ring (bfw s) (bbk s) h' L' ->
  b ∉ t :: L -> b ∉ h' :: L' -> (forall x, x ∈ t :: L -> x ∈ h' :: L' -> False) ->
  ring (bfw (ch_push b t s)) (bbk (ch_push b t s)) h' L'.
Proof.
  intros Hr Hr' Hb Hb' Hd. pose proof (ring_head _ _ _ _ Hr) as Eh.
  assert (Hne : bfw s t <> b).
  { rewrite Eh. intros <-. apply Hb. destruct L as [|a r]; [by left|right; by left]. }
  assert (b <> t) by (intros ->; apply Hb; by left).
  apply ring_frame with (bfw s) (bbk s); [|done]. intros x Hx.
  assert (x <> b) by (intros ->; done). assert (x <> t) by (intros ->; apply (Hd t); [by left|done]).
  assert (x <> bfw s t).
  { rewrite Eh. intros ->. refine (Hd _ _ Hx). destruct L; [by left|]. right. by left. }
  unfold ch_push. split; bufs.
Qed.

(** The two queues have nothing in common. *)
Lemma queues_apart s AV CH h h' x : binv s AV CH -> qhead h -> qhead h' -> h <> h' -> x ∈ h :: CH h -> x ∈ h' :: CH h' -> False.
Proof.
  intros Hi Hh Hh' Hne [->|Hx]%elem_of_cons [Hy|Hy]%elem_of_cons.
  - done.
  - apply (bi_chp _ _ _ Hi h' h Hh'), pool_neq in Hy as [? ?]. by destruct Hh.
  - subst. apply (bi_chp _ _ _ Hi h h' Hh), pool_neq in Hx as [? ?]. by destruct Hh'.
  - destruct Hh as [-> | ->], Hh' as [-> | ->]; try done; by apply (bi_disj _ _ _ Hi x).
Qed.

Lemma requeue_rings s AV CH b t : binv s AV CH -> pool b -> qhead t ->
  forall h, qhead h -> ring (bfw (requeue b t s)) (bbk (requeue b t s)) h (CHmove b t CH h).
Proof.
  intros Hi Hp Ht. assert (Hb : forall h, qhead h -> b <> h) by (intros h Hh ->; apply pool_neq in Hp as [? ?]; by destruct Hh).
  set (s1 := ch_unlink b s). assert (R1 : forall h, qhead h -> ring (bfw s1) (bbk s1) h (rm b (CH h))).
  { intros h Hh. pose proof (bi_ch _ _ _ Hi h Hh) as R. destruct (decide (b ∈ CH h)) as [Hin|Hn]; [by apply ch_unlink_ring|].
    rewrite rm_notin by done. assert (Hq : exists q, qhead q /\ b ∈ CH q).
    { destruct (bi_all _ _ _ Hi b Hp); eexists; (split; [|done]); [by left|by right]. }
    destruct Hq as (q & Hq & Hin). apply (ch_unlink_frame s q h b (CH q)); try done; [by apply Hi|].
    intros x. apply (queues_apart s AV CH q h); try done. by intros ->. }
  assert (N : forall h, qhead h -> b ∉ h :: rm b (CH h)).
  { intros h Hh [?|Hx]%elem_of_cons; [by apply (Hb h)|by apply elem_rm in Hx as [? _]]. }
  assert (Sub : forall h x, x ∈ h :: rm b (CH h) -> x ∈ h :: CH h).
  { intros h x [->|Hx]%elem_of_cons; [by left|right; by apply elem_rm in Hx as [_ ?]]. }
  rewrite requeue_split. fold s1. intros h Hh. unfold CHmove. case_decide as E.
  - subst h. by apply ch_push_ring; auto.
  - apply (ch_push_frame s1 b t (rm b (CH t))); auto. intros x Hx Hy. by apply (queues_apart s AV CH t h x); auto.
Qed.

(** ** [getblk] *)

Lemma find_blk_ok s h dev k L : forall n l0,
  NoDup (h :: l0 ++ L) -> links (bfw s) (bbk s) (h :: (l0 ++ L) ++ [h]) -> (length L <= n)%nat ->
  exists r, find_blk n (match L with [] => h | x :: _ => x end) h dev k s = Some r /\
    match r with
    | Some b => b ∈ L /\ blk s b = k /\ bdevno s b = dev
    | None => forall b, b ∈ L -> ~ (blk s b = k /\ bdevno s b = dev)
    end.
Proof.
  induction L as [|x L IH]; intros n l0 Hnd Hl Hn.
  - exists None. split; [destruct n; cbn [find_blk]; by rewrite decide_True|]. intros b Hb. by apply elem_of_nil in Hb.
  - destruct n as [|n]; [simpl in Hn; lia|]. cbn [find_blk].
    assert (Hxh : x <> h) by (intros ->; apply NoDup_cons in Hnd as [Hh _]; apply Hh; set_solver).
    rewrite decide_False by done. destruct ((b_blkno (buf_at s x) =? k) && (b_dev (buf_at s x) =? dev)) eqn:E.
    + apply andb_true_iff in E as [E1 E2]. apply Z.eqb_eq in E1, E2. exists (Some x). split; [done|]. split; [by left|done].
    + destruct (IH n (l0 ++ [x])) as (r & Hr & Hres); [by rewrite <- app_assoc|by rewrite <- (app_assoc l0)|simpl in Hn; lia|].
      exists r. split.
      * rewrite <- Hr. f_equal.
        assert (R : ring (bfw s) (bbk s) h (l0 ++ x :: L)) by (by split).
        destruct (ring_mid _ _ _ _ _ _ R) as [_ Ef]. exact Ef.
      * destruct r as [b|]; [destruct Hres as (?&?&?); split_and!; [by right|done|done]|].
        intros b [->|Hb]%elem_of_cons; [|by apply Hres]. intros [E1 E2].
        apply andb_false_iff in E. rewrite !Z.eqb_neq in E. unfold blk, bdevno in *. tauto.
Qed.

Lemma pool_length (L : list bptr) : NoDup L -> (forall b, b ∈ L -> pool b) -> (length L <= 29)%nat.
Proof.
  intros Hnd Hp. transitivity (length (BPool <$> seq 0 NBUF)); [|by rewrite length_fmap, length_seq].
  apply submseteq_length, NoDup_submseteq; [done|]. intros b Hb. destruct (Hp b Hb) as (i & -> & Hi).
  apply list_elem_of_fmap. exists i. split; [done|]. apply elem_of_seq. lia.
Qed.

Lemma find_on_ok s e AV CH k : binv s AV CH ->
  exists r, find_on (BTab 0) 0 k e s = Ret r e s /\
    match r with
    | Some b => b ∈ CH (BTab 0) /\ blk s b = k
    | None => forall b, b ∈ CH (BTab 0) -> blk s b <> k
    end.
Proof.
  intros Hi. pose proof (bi_ch _ _ _ Hi (BTab 0) (or_intror eq_refl)) as Hr. pose proof Hr as [Hnd Hl].
  assert (Hlen : (length (CH (BTab 0)) <= 29)%nat).
  { apply pool_length; [by apply NoDup_cons in Hnd as [_ ?]|]. intros b. apply (bi_chp _ _ _ Hi). by right. }
  destruct (find_blk_ok s (BTab 0) 0 k (CH (BTab 0)) CHAINFUEL [] Hnd Hl) as (r & Hf & Hres); [unfold CHAINFUEL; lia|].
  exists r. unfold find_on. fold (bfw s (BTab 0)). rewrite (ring_head _ _ _ _ Hr), Hf. split; [done|].
  destruct r as [b|]; [tauto|]. intros b Hb E. apply (Hres b Hb). split; [done|]. by apply (bi_dev _ _ _ Hi).
Qed.

Lemma av_count_ok s L : forall n l0 i,
  NoDup (BFree :: l0 ++ L) -> links (avf s) (avb s) (BFree :: (l0 ++ L) ++ [BFree]) -> (length L <= n)%nat ->
  av_count n (match L with [] => BFree | x :: _ => x end) i s = Some (i + length L)%nat.
Proof.
  induction L as [|x L IH]; intros n l0 i Hnd Hl Hn.
  - destruct n; cbn [av_count]; rewrite decide_True by done; f_equal; simpl; lia.
  - destruct n as [|n]; [simpl in Hn; lia|]. cbn [av_count].
    assert (Hxh : x <> BFree) by (intros ->; apply NoDup_cons in Hnd as [Hh _]; apply Hh; set_solver).
    rewrite decide_False by done.
    assert (R : ring (avf s) (avb s) BFree (l0 ++ x :: L)) by (by split).
    destruct (ring_mid _ _ _ _ _ _ R) as [_ Ef]. unfold avf at 1 in Ef. rewrite Ef.
    rewrite (IH n (l0 ++ [x])); [simpl; f_equal; lia|by rewrite <- app_assoc|by rewrite <- (app_assoc l0)|simpl in Hn; lia].
Qed.

Lemma diskmon_ok s e l1 b l2 CH : binv s (l1 ++ b :: l2) CH ->
  exists c, diskmon b e s = Ret tt e (s <| kb; io_bufcount := c |>).
Proof.
  intros Hi. pose proof (bi_av _ _ _ Hi) as Hr. pose proof Hr as [Hnd Hl].
  assert (Hlen : (length (l1 ++ b :: l2) <= 29)%nat).
  { apply pool_length; [by apply NoDup_cons in Hnd as [_ ?]|]. apply (bi_avp _ _ _ Hi). }
  rewrite length_app in Hlen. simpl in Hlen. destruct (ring_mid _ _ _ _ _ _ Hr) as [_ Ef].
  unfold diskmon. fold (avf s b). rewrite Ef. rewrite (av_count_ok s l2 CHAINFUEL (l1 ++ [b]));
    [|by rewrite <- app_assoc|by rewrite <- (app_assoc l1)|unfold CHAINFUEL; lia].
  destruct (Nat.ltb _ _); [eexists; reflexivity|]. exists (io_bufcount (kb s)). by destruct s as [? ? []].
Qed.

(** States that agree on the buffers and the disk. *)
Definition same_kb (s s' : kst) : Prop :=
  bufs (kb s') = bufs (kb s) /\ bdata (kb s') = bdata (kb s) /\ rdmem (kb s') = rdmem (kb s).

Lemma binv_same_kb s s' AV CH : same_kb s s' -> binv s AV CH -> binv s' AV CH.
Proof.
  intros (E1 & E2 & E3) Hi.
  assert (Eb : forall x, buf_at s' x = buf_at s x) by (intros; unfold buf_at; by rewrite E1).
  assert (Ed : forall x, bytes s' x = bytes s x) by (intros; unfold bytes; by rewrite E2).
  assert (Er : forall k, rdblk s' k = rdblk s k) by (intros; unfold rdblk; by rewrite E3).
  destruct Hi. split; try done; unfold avf, avb, bfw, bbk, flg, bdevno, blk in *;
    repeat (intros ?); rewrite ?Eb, ?Ed, ?Er in *; eauto.
  - apply ring_frame with (avf s) (avb s); [|done]. intros x _. unfold avf, avb. by rewrite Eb.
  - apply ring_frame with (bfw s) (bbk s); [|by apply bi_ch0]. intros x _. unfold bfw, bbk. by rewrite Eb.
  - unfold resids, buf_at. rewrite E1. exact bi_resid0.
Qed.

Lemma view_same_kb s s' L k : same_kb s s' -> view s' L k = view s L k.
Proof.
  intros (E1 & E2 & E3). unfold view.
  assert (Hd : filter (dirty s' k) L = filter (dirty s k) L).
  { induction L as [|x L IH]; [done|]. rewrite !filter_cons, IH.
    assert (Hx : dirty s' k x <-> dirty s k x) by (unfold dirty, blk, flg, buf_at; by rewrite E1).
    repeat case_decide; tauto. }
  rewrite Hd. unfold bytes, rdblk. by rewrite E2, E3.
Qed.

(** The buffer [b] is the caller's, for block [k] or for itself. *)
Record owned_buf (b : bptr) (o : option Z) (s s' : kst) (AV0 AV : list bptr) (CH CH' : bptr -> list bptr) : Prop := {
  ow_sq : sq s';
  ow_inv : binv s' AV CH';
  ow_pool : pool b;
  ow_busy : b ∉ AV;
  ow_key : match o with Some k => b ∈ CH' (BTab 0) /\ blk s' b = k | None => b ∈ CH' BFree end;
  ow_async : fset (flg s' b) B_ASYNC = false;
  ow_free : b ∈ AV0;
  ow_held : forall x, pool x -> x ∉ AV0 -> x ∉ AV /\ blk s' x = blk s x /\ bytes s' x = bytes s x;
  ow_view : forall k, view s' (CH' (BTab 0)) k = view s (CH (BTab 0)) k;
  ow_rest : uctx s' = uctx s /\ kf s' = kf s /\ kc s' = kc s /\ kt s' = kt s /\ knum s' = knum s;
  ow_flg : forall x, x ∉ AV0 -> x <> BFree -> flg s' x = flg s x;
  ow_ch : forall h x, qhead h -> x ∉ AV0 -> x ∈ CH' h <-> x ∈ CH h;
  ow_av : forall x, x ∈ AV <-> x ∈ AV0 /\ x <> b
}.
Notation owned_blk b k := (owned_buf b (Some k)).

(** Its data are the block's as soon as [B_DONE] is set. *)
Definition data_ok (b : bptr) (k : Z) (s s' : kst) (CH : bptr -> list bptr) : Prop :=
  fset (flg s' b) B_DONE = true -> bytes s' b = view s (CH (BTab 0)) k.

(** The block is cached and not busy. *)
Lemma getblk_hit e s AV CH k b :
  sq s -> binv s AV CH -> b ∈ CH (BTab 0) -> blk s b = k -> b ∈ AV ->
  exists s' AV', getblk_turn (BTab 0) 0 k e s = Ret (Some b) e s' /\ owned_blk b k s s' AV AV' CH CH /\ data_ok b k s s' CH.
Proof.
  intros Hs Hi Hb Hk Hav. pose proof (bi_avp _ _ _ Hi b Hav) as Hp.
  set (s0 := s <| kipl := 0 |>). assert (Hi0 : binv s0 AV CH) by (by apply (binv_same_kb s)).
  destruct (find_on_ok s0 e AV CH k Hi0) as (r & Hf & Hres).
  assert (r = Some b) as ->.
  { destruct r as [b'|]; [|by destruct (Hres b Hb)]. destruct Hres as [Hb' Hk']. f_equal. apply (bi_uniq _ _ _ Hi0); [done|done|].
    rewrite Hk'. by symmetry. }
  apply list_elem_of_split in Hav as (l1 & l2 & ->).
  assert (Hnb : fset (flg s b) B_BUSY = false) by (apply (bi_busy _ _ _ Hi); [done|set_solver]).
  set (s1 := s <| kipl := 0 |> <| kipl := 6 |> <| kipl := 0 |>).
  assert (Hi1 : binv s1 (l1 ++ b :: l2) CH) by (by apply (binv_same_kb s)).
  destruct (diskmon_ok s1 e l1 b l2 CH Hi1) as (c & Hc). set (s2 := s1 <| kb; io_bufcount := c |>).
  assert (Hi2 : binv s2 (l1 ++ b :: l2) CH) by (by apply (binv_same_kb s)).
  pose proof (taken_ok b s2 l1 l2 CH Hi2) as Hi3.
  exists (taken b s2), (l1 ++ l2). split.
  - unfold getblk_turn, spl0, spl6. msteps. fold s0. rewrite (bind_ret _ _ _ _ _ _ _ Hf). msteps.
    change (has (s0 <| kipl := 6 |>) b B_BUSY) with (fset (flg s b) B_BUSY). rewrite Hnb. msteps. fold s1.
    rewrite (bind_ret _ _ _ _ _ _ _ Hc). fold s2. erewrite bind_ret; [|apply notavail_run]. done.
  - assert (Hv2 : forall k, view s2 (CH (BTab 0)) k = view s (CH (BTab 0)) k) by (intros; by apply view_same_kb).
    destruct (taken_body b s2) as (Hbody & _ & E1 & E2 & E3 & E4 & E5). split; [split|].
    + apply taken_sq. by apply sq_kp with s.
    + exact Hi3.
    + done.
    + intros Hin. destruct (bi_av _ _ _ Hi) as [Hnd _]. apply NoDup_cons in Hnd as [_ Hnd].
      rewrite <- (rm_mid b l1 l2 Hnd) in Hin. by apply elem_rm in Hin as [? _].
    + destruct (Hbody b) as (_&->&_). split; [done|exact Hk].
    + rewrite taken_flg, decide_True by done. fl. apply (bi_async _ _ _ Hi). set_solver.
    + set_solver.
    + intros x Hx Hn'. destruct (Hbody x) as (_&E'&_&_&E''). split; [|split; [exact E'|exact E'']].
      intros Hin. apply Hn'. apply elem_of_app in Hin as [?|?]; apply elem_of_app; [by left|right; by right].
    + intros k'. rewrite (taken_view b s2 (l1 ++ b :: l2) (l1 ++ l2)) by done. apply Hv2.
    + rewrite E1, E2, E3, E4, E5. done.
    + intros x Hx _. rewrite taken_flg, decide_False; [done|]. intros ->. apply Hx. set_solver.
    + done.
    + intros x. destruct (bi_av _ _ _ Hi) as [Hnd _]. apply NoDup_cons in Hnd as [_ Hnd].
      rewrite <- (rm_mid b l1 l2 Hnd), elem_rm. tauto.
    + intros Hd. rewrite taken_flg, decide_True in Hd by done. revert Hd. fl. intros Hd.
      change (fset (flg s b) B_DONE = true) in Hd. destruct (Hbody b) as (_&_&_&_&->). change (bytes s2 b) with (bytes s b).
      destruct (fset (flg s b) B_DELWRI) eqn:Ew.
      * symmetry. by apply (view_dirty s (l1 ++ b :: l2)).
      * rewrite (bi_clean _ _ _ Hi b) by (done || set_solver). rewrite Hk. symmetry. apply view_clean.
        intros x Hx [Ex Dx]. assert (x = b) as -> by (apply (bi_uniq _ _ _ Hi); congruence). congruence.
Qed.


Definition not_cached (s : kst) (CH : bptr -> list bptr) (k : Z) : Prop := forall b, b ∈ CH (BTab 0) -> blk s b <> k.

(** What is left of a turn that takes the oldest buffer [b]: a dirty one is
    written out, a clean one moves to the queue [t] with a new identity. *)
Definition miss_rest (b t : bptr) (g : buf -> buf) : M (option bptr) :=
  del ← gets (fun s => has s b B_DELWRI);
  if del : bool then
    _ ← modify (or_flags B_ASYNC b); _ ← bwrite b; mret None
  else
    _ ← modify (upd_buf b (fun x => x <| b_flags := B_BUSY |>));
    _ ← modify (requeue b t);
    _ ← modify (upd_buf b g);
    mret (Some b).

Lemma getblk_miss e s b r CH k :
  binv s (b :: r) CH -> not_cached s CH k ->
  getblk_turn (BTab 0) 0 k e s =
    miss_rest b (BTab 0) (fun x => x <| b_dev := u16 0 |> <| b_blkno := k |>) e (taken b (s <| kipl := 0 |>)).
Proof.
  intros Hi Hn. set (s0 := s <| kipl := 0 |>). assert (Hi0 : binv s0 (b :: r) CH) by (by apply (binv_same_kb s)).
  destruct (find_on_ok s0 e (b :: r) CH k Hi0) as (res & Hf & Hres).
  assert (res = None) as -> by (destruct res as [b'|]; [destruct Hres as [Hb' Hk']; by destruct (Hn b' Hb')|done]).
  unfold getblk_turn, spl0, spl6. msteps. fold s0. rewrite (bind_ret _ _ _ _ _ _ _ Hf). msteps.
  pose proof (ring_head _ _ _ _ (bi_av _ _ _ Hi)) as Eh. pose proof (bi_avp _ _ _ Hi b ltac:(by left)) as Hp.
  assert (Ea : av_forw (buf_at (s0 <| kipl := 6 |>) BFree) = b) by exact Eh. rewrite Ea.
  rewrite bool_decide_eq_false_2 by (by apply pool_neq). msteps.
  assert (Ea2 : av_forw (buf_at (s0 <| kipl := 6 |> <| kipl := 0 |>) BFree) = b) by exact Eh. rewrite Ea2.
  erewrite bind_ret; [|apply notavail_run]. reflexivity.
Qed.

Lemma geteblk_miss e s b r CH : binv s (b :: r) CH ->
  geteblk_turn e s = miss_rest b BFree (fun x => x <| b_dev := NODEV |>) e (taken b (s <| kipl := 0 |>)).
Proof.
  intros Hi. pose proof (ring_head _ _ _ _ (bi_av _ _ _ Hi)) as Eh. pose proof (bi_avp _ _ _ Hi b ltac:(by left)) as Hp.
  unfold geteblk_turn, spl0, spl6. msteps. unfold sleep_while. cbn [sleep_while_f]. unfold mbind at 1, m_bind at 1. cbn [gets].
  unfold mbind at 1, m_bind at 1. cbn [gets].
  assert (Ea : av_forw (buf_at (s <| kipl := 6 |>) BFree) = b) by exact Eh. rewrite Ea.
  rewrite bool_decide_eq_false_2 by (by apply pool_neq). cbn [mret m_ret]. msteps.
  assert (Ea2 : av_forw (buf_at (s <| kipl := 6 |> <| kipl := 0 |>) BFree) = b) by exact Eh. rewrite Ea2.
  erewrite bind_ret; [|apply notavail_run]. reflexivity.
Qed.

Lemma miss_taken s b r CH : sq s -> binv s (b :: r) CH ->
  let s1 := taken b (s <| kipl := 0 |>) in
  sq s1 /\ binv s1 r CH /\ b ∉ r /\ (forall k, view s1 (CH (BTab 0)) k = view s (CH (BTab 0)) k) /\
  (forall x, bdevno s1 x = bdevno s x /\ blk s1 x = blk s x /\ bytes s1 x = bytes s x) /\
  (forall x, flg s1 x = if decide (x = b) then Z.lor (flg s x) B_BUSY else flg s x) /\
  (uctx s1 = uctx s /\ kf s1 = kf s /\ kc s1 = kc s /\ kt s1 = kt s /\ knum s1 = knum s).
Proof.
  intros Hs Hi s1. set (s0 := s <| kipl := 0 |>).
  assert (Hi0 : binv s0 ([] ++ b :: r) CH) by (by apply (binv_same_kb s)).
  pose proof (taken_ok b s0 [] r CH Hi0) as Hi1. destruct (taken_body b s0) as (Hf & _ & E). split_and!; try apply E.
  - apply taken_sq. by apply sq_kp with s.
  - exact Hi1.
  - destruct (bi_av _ _ _ Hi) as [Hnd _]. apply NoDup_cons in Hnd as [_ Hnd]. by apply NoDup_cons in Hnd as [? _].
  - intros k'. unfold s1. rewrite (taken_view b s0 ([] ++ b :: r) r CH) by done. by apply view_same_kb.
  - intros x. destruct (Hf x) as (E1&E2&_&_&E3). split_and!; [exact E1|exact E2|exact E3].
  - intros x. exact (taken_flg b s0 x).
Qed.

(** A buffer but for its identity. *)
Definition noid (x : buf) : buf := x <| b_dev := 0 |> <| b_blkno := 0 |>.

(** The state [s] with the buffer [b] unused, on the queue [t]. *)
Record reassigned (b t : bptr) (s s' : kst) (CH : bptr -> list bptr) : Prop := {
  rs_flg : flg s' b = B_BUSY;
  rs_oth : forall x, x <> b -> flg s' x = flg s x /\ bdevno s' x = bdevno s x /\ blk s' x = blk s x;
  rs_all : forall x, bytes s' x = bytes s x /\ avf s' x = avf s x /\ avb s' x = avb s x;
  rs_disk : forall k, rdblk s' k = rdblk s k;
  rs_ring : forall h, qhead h -> ring (bfw s') (bbk s') h (CHmove b t CH h);
  rs_kp : kp s' = kp s;
  rs_rest : uctx s' = uctx s /\ kf s' = kf s /\ kc s' = kc s /\ kt s' = kt s /\ knum s' = knum s
}.

Lemma reassign_ok b t g s r CH : (forall x, noid (g x) = noid x) -> binv s r CH -> pool b -> b ∉ r -> qhead t ->
  reassigned b t s (upd_buf b g (requeue b t (upd_buf b (fun x => x <| b_flags := B_BUSY |>) s))) CH.
Proof.
  intros Hg Hi Hp Hbr Ht. set (s1 := upd_buf b (fun x => x <| b_flags := B_BUSY |>) s). set (s2 := requeue b t s1). set (s3 := upd_buf b g s2).
  pose proof (requeue_only b t s1) as Ho. fold s2 in Ho.
  assert (G : forall x, b_flags (g x) = b_flags x /\ av_forw (g x) = av_forw x /\ av_back (g x) = av_back x /\
                        b_forw (g x) = b_forw x /\ b_back (g x) = b_back x /\ b_resid (g x) = b_resid x).
  { intros x. specialize (Hg x). unfold noid in Hg. destruct (g x), x. cbn in *. injection Hg. intros. by split_and!. }
  assert (F1 : flg s1 b = B_BUSY) by (unfold flg, s1; by rewrite buf_upd, decide_True).
  assert (Hi1 : binv s1 r CH).
  { apply (binv_one b s); try done; try (rewrite F1; done); [by apply one_buf_upd|]. exact (bi_len _ _ _ Hi b Hp). }
  split.
  - unfold s3, flg. rewrite buf_upd, decide_True by done. destruct (G (buf_at s2 b)) as [-> _].
    destruct (only_ch_fields _ _ b Ho) as [E _]. unfold flg in E, F1. by rewrite E.
  - intros x Hx. destruct (only_ch_fields _ _ x Ho) as (E1 & E2 & E3 & _). unfold s3, flg, bdevno, blk in *.
    rewrite buf_upd, decide_False by done. rewrite E1, E2, E3. unfold s1. by rewrite buf_upd, decide_False.
  - intros x. destruct (only_ch_fields _ _ x Ho) as (_ & _ & _ & E4 & E5 & E6). split; [exact E6|].
    unfold s3, avf, avb in *. rewrite buf_upd. destruct (G (buf_at s2 x)) as (_ & G1 & G2 & _). unfold s1 in E4, E5. rewrite buf_upd in E4, E5.
    case_decide; rewrite ?G1, ?G2; (split; [exact E4|exact E5]).
  - intros k. unfold rdblk. change (rdmem (kb s3)) with (rdmem (kb s2)). by destruct Ho as (_ & _ & -> & _).
  - intros h Hh. apply ring_frame with (bfw s2) (bbk s2); [|by apply (requeue_rings s1 r)].
    intros x _. unfold s3, bfw, bbk. rewrite buf_upd. destruct (G (buf_at s2 x)) as (_ & _ & _ & G1 & G2 & _). case_decide; rewrite ?G1, ?G2; done.
  - change (kp s2 = kp s). by destruct Ho as (_&_&_&->&_).
  - destruct Ho as (_&_&_&_&?&?&?&?&En). split_and!; try done. unfold s3. rewrite knum_upd by apply G. rewrite En. by apply knum_upd.
Qed.

(** It may have the identity [b_dev], [b_blkno] if no other buffer has. *)
Lemma reassigned_inv b t s s' r CH : reassigned b t s s' CH -> binv s r CH -> pool b -> b ∉ r -> qhead t ->
  (t = BTab 0 -> bdevno s' b = 0 /\ forall x, x ∈ CH (BTab 0) -> x <> b -> blk s x <> blk s' b) ->
  binv s' r (CHmove b t CH).
Proof.
  intros [F3 Hx3 Hy3 Hr3 Rg _ (_ & _ & _ & _ & En)] Hi Hp Hbr Ht Hk.
  assert (Hq : forall x, x ∈ CHmove b t CH (BTab 0) -> x <> b -> x ∈ CH (BTab 0)) by (intros x [[? _]|[_ ?]]%elem_CHmove ?; done).
  split.
  - apply ring_frame with (avf s) (avb s); [|apply Hi]. intros x _. by destruct (Hy3 x) as (_&?&?).
  - exact Rg.
  - apply Hi.
  - intros h x Hh [[-> _]|[_ Hc]]%elem_CHmove; [done|]. by apply (bi_chp _ _ _ Hi h).
  - intros x [[Ex Et]|[Hxb Hc]]%elem_CHmove [[? Et']|[? Hc']]%elem_CHmove; try done; [by rewrite <- Et in Et'|]. by apply (bi_disj _ _ _ Hi x).
  - intros x Hx. rewrite !elem_CHmove. destruct (decide (x = b)) as [->|Hxb]; [destruct Ht as [-> | ->]; [left|right]; by left|].
    destruct (bi_all _ _ _ Hi x Hx); [left|right]; by right.
  - intros x Hx. destruct (decide (x = b)) as [->|Hxb]; [rewrite F3; split; [done|by vm_compute]|].
    destruct (Hx3 x Hxb) as (-> & _). by apply (bi_busy _ _ _ Hi).
  - intros x Hx. destruct (decide (x = b)) as [->|Hxb]; [apply elem_CHmove in Hx as [[_ E]|[? _]]; [by apply Hk|done]|].
    destruct (Hx3 x Hxb) as (_ & -> & _). by apply (bi_dev _ _ _ Hi), Hq.
  - assert (Hu : forall x, b ∈ CHmove b t CH (BTab 0) -> x ∈ CHmove b t CH (BTab 0) -> x <> b -> blk s' x <> blk s' b).
    { intros x [[_ E]|[? _]]%elem_CHmove Hx Hxb; [|done]. destruct (Hx3 x Hxb) as (_ & _ & ->). apply (proj2 (Hk (eq_sym E))); auto. }
    intros x y Hx Hy E. destruct (decide (x = b)) as [->|Hxb], (decide (y = b)) as [->|Hyb]; try done.
    + by destruct (Hu y Hx Hy Hyb).
    + by destruct (Hu x Hy Hx Hxb).
    + destruct (Hx3 x Hxb) as (_ & _ & E1), (Hx3 y Hyb) as (_ & _ & E2). apply (bi_uniq _ _ _ Hi); [auto|auto|congruence].
  - intros x Hx. destruct (Hy3 x) as (-> & _). by apply (bi_len _ _ _ Hi).
  - intros x Hx Hc. assert (Hxb : x <> b) by (intros ->; done).
    destruct (Hx3 x Hxb) as (-> & _ & ->), (Hy3 x) as (-> & _). rewrite Hr3. apply (bi_clean _ _ _ Hi); auto.
  - intros x Hx. destruct (decide (x = b)) as [->|Hxb]; [rewrite F3; intros HX; by vm_compute in HX|].
    destruct (Hx3 x Hxb) as (-> & _ & ->). intros Hd. destruct (bi_dirty _ _ _ Hi x Hx Hd) as (Y1 & Y2 & Y3).
    split; [apply elem_CHmove; by right|by split].
  - intros x Hx. destruct (decide (x = b)) as [->|Hxb]; [rewrite F3; by vm_compute|].
    destruct (Hx3 x Hxb) as (-> & _). by apply (bi_err _ _ _ Hi).
  - intros x Hx. assert (Hxb : x <> b) by (intros ->; done). destruct (Hx3 x Hxb) as (-> & _). by apply (bi_async _ _ _ Hi).
  - rewrite (knum_resid _ _ En). apply Hi.
Qed.

(** A clean buffer is given its new place. *)
Definition new_place (o : option Z) (t : bptr) (g : buf -> buf) (s : kst) (CH : bptr -> list bptr) : Prop :=
  match o with
  | Some k => t = BTab 0 /\ not_cached s CH k /\ (forall x, b_dev (g x) = 0 /\ b_blkno (g x) = k)
  | None => t = BFree
  end.

Lemma miss_clean e s b r CH o t g :
  sq s -> binv s (b :: r) CH -> fset (flg s b) B_DELWRI = false -> (forall x, noid (g x) = noid x) -> new_place o t g s CH ->
  exists s', miss_rest b t g e (taken b (s <| kipl := 0 |>)) = Ret (Some b) e s' /\
    owned_buf b o s s' (b :: r) r CH (CHmove b t CH) /\ fset (flg s' b) B_DONE = false.
Proof.
  intros Hs Hi Hw Hg Hpl. destruct (miss_taken s b r CH Hs Hi) as (Hs1 & Hi1 & Hbr & Hv1 & Hid1 & Hf1 & Hr1).
  set (s1 := taken b _) in *. pose proof (bi_avp _ _ _ Hi b ltac:(by left)) as Hp.
  assert (Ht : qhead t) by (destruct o; [destruct Hpl as [-> _]; by right|rewrite Hpl; by left]).
  assert (Hd1 : has s1 b B_DELWRI = false).
  { change (fset (flg s1 b) B_DELWRI = false). rewrite Hf1, decide_True by done. by fl. }
  unfold miss_rest. msteps. rewrite Hd1. msteps.
  pose proof (reassign_ok b t g s1 r CH Hg Hi1 Hp Hbr Ht) as R. set (s3 := upd_buf b g _) in *.
  assert (K3 : match o with Some k => bdevno s3 b = 0 /\ blk s3 b = k | None => True end).
  { destruct o; [|done]. unfold s3, bdevno, blk. rewrite !buf_upd, !decide_True by done. apply Hpl. }
  assert (Hi3 : binv s3 r (CHmove b t CH)).
  { apply (reassigned_inv b t s1 s3); try done. intros Et. destruct o as [k|]; [|by rewrite Hpl in Et].
    destruct K3 as [D3 K3]. split; [done|]. intros x Hx _. rewrite K3. destruct (Hid1 x) as (_ & -> & _). by apply Hpl. }
  destruct R as [F3 Hx3 Hy3 Hr3 Rg Rk Rr].
  exists s3. split; [reflexivity|]. split; [split; try done|rewrite F3; by vm_compute].
  - by apply sq_kp with s1.
  - destruct o as [k|]; [split; [|apply K3]|]; apply elem_CHmove; left; (split; [done|]); [by destruct Hpl|done].
  - rewrite F3. by vm_compute.
  - by left.
  - intros x Hx Hn'. assert (Hxb : x <> b) by (intros ->; apply Hn'; by left).
    destruct (Hx3 x Hxb) as (_ & _ & ->), (Hy3 x) as (-> & _), (Hid1 x) as (_ & -> & ->).
    split; [|done]. intros Hr'. apply Hn'. by right.
  - intros k'. rewrite <- Hv1. apply (view_same s1 s3 r r CH (CHmove b t CH)); try done.
    + intros x Hx. destruct (decide (x = b)) as [->|Hxb]; [|by destruct (Hx3 x Hxb) as (-> & _)].
      rewrite F3. rewrite Hf1, decide_True by done. fl. by rewrite Hw.
    + intros x Hx Hd. destruct (decide (x = b)) as [->|Hxb]; [rewrite Hf1, decide_True in Hd by done; revert Hd; fl; congruence|].
      destruct (Hx3 x Hxb) as (_ & _ & ->), (Hy3 x) as (-> & _). done.
  - destruct Rr as (->&->&->&->&->). exact Hr1.
  - intros x Hx _. assert (Hxb : x <> b) by (intros ->; apply Hx; by left).
    destruct (Hx3 x Hxb) as (-> & _). by rewrite Hf1, decide_False.
  - intros h x Hh Hx. assert (Hxb : x <> b) by (intros ->; apply Hx; by left). rewrite elem_CHmove. tauto.
  - intros x. rewrite elem_of_cons. split; [|tauto]. intros Hx. split; [by right|]. by intros ->.
Qed.

(** The state with the oldest buffer written out and the last one now. *)
Record flushed (b : bptr) (r : list bptr) (s s' : kst) (CH : bptr -> list bptr) : Prop := {
  fl_sq : sq s';
  fl_inv : binv s' (r ++ [b]) CH;
  fl_clean : fset (flg s' b) B_DELWRI = false;
  fl_oth : forall x, x <> b -> x <> BFree -> flg s' x = flg s x;
  fl_blk : forall x, blk s' x = blk s x;
  fl_bytes : forall x, pool x -> x ∉ b :: r -> bytes s' x = bytes s x;
  fl_view : forall k, view s' (CH (BTab 0)) k = view s (CH (BTab 0)) k;
  fl_rest : uctx s' = uctx s /\ kf s' = kf s /\ kc s' = kc s /\ kt s' = kt s /\ knum s' = knum s
}.

(** A dirty one is first written out. *)
Lemma miss_dirty e s b r CH t g :
  sq s -> binv s (b :: r) CH -> fset (flg s b) B_DELWRI = true ->
  exists s', miss_rest b t g e (taken b (s <| kipl := 0 |>)) = Ret None e s' /\ flushed b r s s' CH.
Proof.
  intros Hs Hi Hw.
  destruct (miss_taken s b r CH Hs Hi) as (Hs1 & Hi1 & Hbr & Hv1 & Hid1 & Hf1 & Hr1).
  set (s1 := taken b _) in *. pose proof (bi_avp _ _ _ Hi b ltac:(by left)) as Hp.
  destruct (bi_dirty _ _ _ Hi b Hp Hw) as (Hc & Hdn & Hk).
  assert (Ef : flg s1 b = Z.lor (flg s b) B_BUSY) by (by rewrite Hf1, decide_True).
  assert (Hd1 : has s1 b B_DELWRI = true) by (change (fset (flg s1 b) B_DELWRI = true); rewrite Ef; by fl).
  unfold miss_rest. msteps. rewrite Hd1. msteps. set (s2 := or_flags B_ASYNC b s1).
  assert (Ho2 : one_buf b s1 s2) by (by apply one_buf_upd).
  assert (Ef2 : flg s2 b = Z.lor (Z.lor (flg s b) B_BUSY) B_ASYNC) by (unfold s2; by rewrite flg_or, decide_True, Ef).
  destruct (ob_id _ _ _ Ho2 b) as [_ Ebl]. destruct (Hid1 b) as (_ & Ebl1 & Eby1).
  assert (Hi2 : binv s2 r CH).
  { apply (binv_one b s1); try done.
    - exact (bi_len _ _ _ Hi1 b Hp).
    - rewrite Ef2. by fl.
    - rewrite Ef2. fl. by apply (bi_err _ _ _ Hi).
    - intros _. rewrite Ef2, Ebl1. fl. done. }
  destruct (bwrite_ok b e s2 r CH) as (s' & Hrun & W); try done; [by apply sq_kp with s1|by rewrite Ebl, Ebl1|].
  exists s'. rewrite (bind_ret _ _ _ _ _ _ _ Hrun). destruct W as [W1 W2 W3 W4 W5 W6 W7 W8]. split; [done|]. split; try done.
  - intros x Hxb HxF. destruct (W6 x Hxb HxF) as [-> _]. unfold s2. rewrite flg_or, decide_False by done. by rewrite Hf1, decide_False.
  - intros x. destruct (W7 x) as [_ ->], (ob_id _ _ _ Ho2 x) as [_ ->], (Hid1 x) as (_ & -> & _). done.
  - intros x Hx Hn'. assert (Hxb : x <> b) by (intros ->; apply Hn'; by left). destruct (pool_neq x Hx) as [HxF _].
    destruct (W6 x Hxb HxF) as [_ ->], (ob_oth _ _ _ Ho2 x Hxb HxF) as [_ ->], (Hid1 x) as (_ & _ & ->). done.
  - intros k'. rewrite W3, <- Hv1. rewrite (view_same s1 s2 r r CH CH); try done.
    + destruct (decide (k' = blk s2 b)) as [->|]; [|done]. symmetry. rewrite Ebl. apply (view_dirty s1 r); [done|done|]. by split.
    + intros x Hx. unfold s2. rewrite flg_or. case_decide; [by fl|done].
    + intros x Hx _. destruct (ob_id _ _ _ Ho2 x) as [_ ->]. done.
  - destruct W8 as (->&->&->&->&->), (ob_rest _ _ _ Ho2) as (->&->&->&->&->). exact Hr1.
Qed.


(** The buffers of the available list that a turn would write out first. *)
Definition ndirty (s : kst) (AV : list bptr) : nat := length (filter (fun b => fset (flg s b) B_DELWRI = true) AV).

Lemma ndirty_ext s s' L : (forall x, x ∈ L -> flg s' x = flg s x) -> ndirty s' L = ndirty s L.
Proof.
  unfold ndirty. induction L as [|x L IH]; intros Hx; [done|]. rewrite !filter_cons.
  assert (Ex : flg s' x = flg s x) by (apply Hx; by left).
  specialize (IH ltac:(intros; apply Hx; by right)). rewrite Ex. case_decide; simpl; lia.
Qed.

Lemma ndirty_app s L1 L2 : ndirty s (L1 ++ L2) = (ndirty s L1 + ndirty s L2)%nat.
Proof. unfold ndirty. by rewrite filter_app, length_app. Qed.

Lemma elem_rotated (b : bptr) r x : x ∈ r ++ [b] <-> x ∈ b :: r.
Proof. rewrite elem_of_app, !elem_of_cons, elem_of_nil. tauto. Qed.

Lemma flushed_ndirty b r s s' CH : binv s (b :: r) CH -> fset (flg s b) B_DELWRI = true -> flushed b r s s' CH ->
  (ndirty s' (r ++ [b]) < ndirty s (b :: r))%nat.
Proof.
  intros Hi Hw F. rewrite ndirty_app, (ndirty_ext s s' r).
  2:{ intros x Hx. destruct (bi_av _ _ _ Hi) as [Hnd _]. apply NoDup_cons in Hnd as [_ Hnd]. apply NoDup_cons in Hnd as [Hbr _].
      apply (fl_oth _ _ _ _ _ F); [by intros ->|]. apply pool_neq, (bi_avp _ _ _ Hi). by right. }
  unfold ndirty. rewrite filter_cons_False by (by rewrite (fl_clean _ _ _ _ _ F)). rewrite filter_cons_True by done. simpl. lia.
Qed.

(** What the later turns find is found in the state before. *)
Lemma owned_later b b' o r s s1 s' AV' CH CH' : flushed b r s s1 CH -> owned_buf b' o s1 s' (r ++ [b]) AV' CH CH' ->
  owned_buf b' o s s' (b :: r) AV' CH CH'.
Proof.
  intros [_ _ _ Hf1 Hb1 Hy1 Hv1 Hr1] [O1 O2 O3 O4 O5 O7 OF O8 O9 O10 O11 O12 O13]. split; try done.
  - by apply elem_rotated.
  - intros x Hx Hnx. destruct (O8 x Hx) as (? & -> & ->); [by rewrite elem_rotated|]. by rewrite Hb1, Hy1.
  - intros k'. by rewrite O9, Hv1.
  - destruct O10 as (->&->&->&->&->). exact Hr1.
  - intros x Hx HF. assert (Hxb : x <> b) by (intros ->; apply Hx; by left).
    rewrite O11; [by apply Hf1|by rewrite elem_rotated|done].
  - intros h x Hh Hx. apply O12; [done|by rewrite elem_rotated].
  - intros x. by rewrite O13, elem_rotated.
Qed.

(** [getblk] returns: every turn that does not find the block takes the oldest
    buffer or writes it out. *)
Lemma getblk_f_ok e k : forall n s AV CH,
  sq s -> binv s AV CH -> AV <> [] -> (forall b, b ∈ CH (BTab 0) -> blk s b = k -> b ∈ AV) -> (ndirty s AV < n)%nat ->
  exists b s' AV' CH', getblk_f n (BTab 0) 0 k e s = Ret b e s' /\ owned_blk b k s s' AV AV' CH CH' /\ data_ok b k s s' CH.
Proof.
  induction n as [|n IH]; intros s AV CH Hs Hi Hav Hfree Hn; [lia|]. cbn [getblk_f].
  destruct (find_on_ok s e AV CH k Hi) as (r & _ & Hr). destruct r as [b|].
  { destruct Hr as [Hb Eb]. destruct (getblk_hit e s AV CH k b) as (s' & AV' & Ht & Ho & Hd); try done; [by apply Hfree|].
    exists b, s', AV', CH. split_and!; [|done|done]. by rewrite (bind_ret _ _ _ _ _ _ _ Ht). }
  destruct AV as [|b r]; [done|]. pose proof (getblk_miss e s b r CH k Hi Hr) as Hm. destruct (fset (flg s b) B_DELWRI) eqn:Hw.
  - destruct (miss_dirty e s b r CH (BTab 0) (fun x => x <| b_dev := u16 0 |> <| b_blkno := k |>) Hs Hi Hw) as (s1 & Ht & F).
    rewrite <- Hm in Ht. pose proof (flushed_ndirty _ _ _ _ _ Hi Hw F) as Hlt.
    destruct (IH s1 (r ++ [b]) CH) as (b' & s' & AV' & CH' & Hrun & Ho & Hd); [apply F|apply F|by destruct r| |lia|].
    { intros x Hx Ex. rewrite (fl_blk _ _ _ _ _ F) in Ex. by destruct (Hr x Hx). }
    exists b', s', AV', CH'. rewrite (bind_ret _ _ _ _ _ _ _ Ht). split; [exact Hrun|].
    split; [by apply owned_later with s1|]. intros Hdn. rewrite <- (fl_view _ _ _ _ _ F). by apply Hd.
  - destruct (miss_clean e s b r CH (Some k) (BTab 0) (fun x => x <| b_dev := u16 0 |> <| b_blkno := k |>) Hs Hi Hw) as (s' & Ht & Ho & Hdn).
    { by intros []. } { by split. } rewrite <- Hm in Ht.
    exists b, s', r, (CHmove b (BTab 0) CH). rewrite (bind_ret _ _ _ _ _ _ _ Ht). split_and!; [done|done|].
    intros Hd. congruence.
Qed.

(** [geteblk] returns a buffer of the caller's own. *)
Lemma geteblk_f_ok e : forall n s AV CH, sq s -> binv s AV CH -> AV <> [] -> (ndirty s AV < n)%nat ->
  exists b s' AV' CH', geteblk_f n e s = Ret b e s' /\ owned_buf b None s s' AV AV' CH CH'.
Proof.
  induction n as [|n IH]; intros s AV CH Hs Hi Hav Hn; [lia|]. cbn [geteblk_f].
  destruct AV as [|b r]; [done|]. pose proof (geteblk_miss e s b r CH Hi) as Hm. destruct (fset (flg s b) B_DELWRI) eqn:Hw.
  - destruct (miss_dirty e s b r CH BFree (fun x => x <| b_dev := NODEV |>) Hs Hi Hw) as (s1 & Ht & F).
    rewrite <- Hm in Ht. pose proof (flushed_ndirty _ _ _ _ _ Hi Hw F) as Hlt.
    destruct (IH s1 (r ++ [b]) CH) as (b' & s' & AV' & CH' & Hrun & Ho); [apply F|apply F|by destruct r|lia|].
    exists b', s', AV', CH'. rewrite (bind_ret _ _ _ _ _ _ _ Ht). split; [exact Hrun|]. by apply owned_later with s1.
  - destruct (miss_clean e s b r CH None BFree (fun x => x <| b_dev := NODEV |>) Hs Hi Hw) as (s' & Ht & Ho & Hdn).
    { by intros []. } { done. } rewrite <- Hm in Ht.
    exists b, s', r, (CHmove b BFree CH). by rewrite (bind_ret _ _ _ _ _ _ _ Ht).
Qed.

Lemma loopfuel_enough e s AV CH : binv s AV CH -> (ndirty s AV < loopfuel e)%nat.
Proof.
  intros Hi. assert (Hl : (length AV <= 29)%nat).
  { apply pool_length; [|by apply (bi_avp _ _ _ Hi)]. destruct (bi_av _ _ _ Hi) as [Hnd _]. by apply NoDup_cons in Hnd as [_ ?]. }
  pose proof (length_filter (fun b => fset (flg s b) B_DELWRI = true) AV) as Hf'. unfold ndirty, loopfuel, NBUF.
  change (29 + 1)%nat with 30%nat. lia.
Qed.

Lemma getblk_ok e k s AV CH : sq s -> binv s AV CH -> 0 < nblkdev (kb s) ->
  AV <> [] -> (forall b, b ∈ CH (BTab 0) -> blk s b = k -> b ∈ AV) ->
  exists b s' AV' CH', getblk 0 k e s = Ret b e s' /\ owned_blk b k s s' AV AV' CH CH' /\ data_ok b k s s' CH.
Proof.
  intros Hs Hi Hn Hav Hf.
  destruct (getblk_f_ok e k (loopfuel e) s AV CH) as (b & s' & AV' & CH' & Hr & Ho & Hd); try done; [by apply loopfuel_enough with CH|].
  exists b, s', AV', CH'. split; [|done]. unfold getblk. msteps. change (major 0) with 0.
  rewrite (proj2 (Z.leb_gt _ _)) by done. exact Hr.
Qed.

Lemma geteblk_ok e s AV CH : sq s -> binv s AV CH -> AV <> [] ->
  exists b s' AV' CH', geteblk e s = Ret b e s' /\ owned_buf b None s s' AV AV' CH CH'.
Proof. intros Hs Hi Hav. apply geteblk_f_ok; try done. by apply loopfuel_enough with CH. Qed.

(** The rest of the state plays no part. *)
Lemma owned_same_kb b k s s1 s2 AV AV' CH CH' : same_kb s1 s2 -> kp s2 = kp s1 -> uctx s2 = uctx s1 -> kf s2 = kf s1 -> kc s2 = kc s1 ->
  kt s2 = kt s1 -> knum s2 = knum s1 -> owned_blk b k s s1 AV AV' CH CH' -> owned_blk b k s s2 AV AV' CH CH'.
Proof.
  intros Hk Ep Eu Ef Ec Et En [O1 O2 O3 O4 O5 O7 OF O8 O9 O10 O11 O12 O13]. pose proof Hk as (E1 & E2 & E3).
  assert (Eb : forall x, buf_at s2 x = buf_at s1 x) by (intros; unfold buf_at; by rewrite E1).
  split; try done; unfold blk, flg, bytes in *; rewrite ?Eb, ?E2.
  - by apply sq_kp with s1.
  - by apply (binv_same_kb s1).
  - done.
  - done.
  - intros x. rewrite Eb. apply O8.
  - intros k'. by rewrite (view_same_kb s1).
  - by rewrite Eu, Ef, Ec, Et, En.
  - intros x. rewrite Eb. apply O11.
Qed.

(** ** [bread] *)

(** The buffer the caller of [bread] holds: block [k] as it was. *)
Record read_blk (b : bptr) (k : Z) (s s' : kst) (AV AV' : list bptr) (CH CH' : bptr -> list bptr) : Prop := {
  rb_own : owned_blk b k s s' AV AV' CH CH';
  rb_data : bytes s' b = view s (CH (BTab 0)) k;
  rb_done : fset (flg s' b) B_DONE = true
}.

(** The driver called for a read of [b], its flags [m] set besides [B_READ]. *)
Definition rd_start (m : Z) (b : bptr) (s : kst) : kst := upd_buf b (fun x => x <| b_bcount := BSIZE |>) (or_flags m b s).

Lemma rd_start_one m b s : one_buf b s (rd_start m b s).
Proof. apply one_buf_trans with (or_flags m b s); by apply one_buf_upd. Qed.

Lemma rd_start_flg m b s : flg (rd_start m b s) b = Z.lor (flg s b) m.
Proof.
  unfold rd_start, flg. rewrite buf_upd, decide_True by done.
  change (b_flags (?x <| b_bcount := BSIZE |>)) with (b_flags x). fold (flg (or_flags m b s) b). by rewrite flg_or, decide_True.
Qed.

(** A busy buffer of the device queue whose contents are not valid yet. *)
Record unread (b : bptr) (k : Z) (s : kst) (AV : list bptr) (CH : bptr -> list bptr) : Prop := {
  ur_sq : sq s;
  ur_inv : binv s AV CH;
  ur_pool : pool b;
  ur_busy : b ∉ AV;
  ur_tab : b ∈ CH (BTab 0);
  ur_blk : blk s b = k;
  ur_range : 0 <= k < RD_SIZE;
  ur_async : fset (flg s b) B_ASYNC = false;
  ur_done : fset (flg s b) B_DONE = false
}.

Lemma unread_clean b k s AV CH : unread b k s AV CH -> fset (flg s b) B_DELWRI = false.
Proof.
  intros U. destruct (fset (flg s b) B_DELWRI) eqn:E; [|done].
  destruct (bi_dirty _ _ _ (ur_inv _ _ _ _ _ U) b (ur_pool _ _ _ _ _ U) E) as (_ & Hd & _). by rewrite (ur_done _ _ _ _ _ U) in Hd.
Qed.

(** The driver fills it. *)
Lemma rd_moved m b k s AV CH : unread b k s AV CH -> fset m B_READ = true ->
  let s2 := xfer b (rd_start m b s) in
  one_buf b s s2 /\ flg s2 b = Z.lor (flg s b) m /\ bytes s2 b = rdblk s k /\ (forall j, rdblk s2 j = rdblk s j) /\ sq s2 /\
  forall e, start_read b 0 m e s = (_ ← iodone b; mret tt) e s2.
Proof.
  intros [U1 U2 U3 U4 U5 U6 U7 U8 U9] Hm s2. pose proof (rd_start_one m b s) as H1.
  destruct (ob_id _ _ _ H1 b) as [Ed Eb]. destruct (xfer_read b (rd_start m b s)) as [X1 X2].
  { by rewrite Eb, U6. } { exact (bi_len _ _ _ U2 b U3). } { rewrite rd_start_flg, fset_lor, Hm. apply orb_true_r. }
  rewrite Eb, U6 in X1. split_and!.
  - apply one_buf_trans with (rd_start m b s); [done|by apply xfer_one, (one_resid b s _ AV CH U2 H1)].
  - unfold s2. by rewrite xfer_flg, rd_start_flg.
  - exact X1.
  - intros j. exact (X2 j).
  - apply sq_kp with s; [|done]. unfold s2, xfer, rd_move. by destruct (fset (flg (rd_start m b s) b) B_READ).
  - intros e. unfold start_read. msteps. change (d_strategy (bdev 0) b) with (rdstrategy b).
    change (upd_buf b (fun x => x <| b_bcount := BSIZE |>) (or_flags m b s)) with (rd_start m b s).
    unfold mbind at 1, m_bind at 1. rewrite rdstrategy_run; [|by rewrite Ed; apply (bi_dev _ _ _ U2)|by rewrite Eb, U6|unfold rd_start; by rewrite buf_upd, decide_True].
    fold s2. unfold mbind, m_bind. by destruct (iodone b e s2).
Qed.

Lemma view_filled b k s s' AV AV' CH : unread b k s AV CH -> binv s' AV' CH -> fset (flg s' b) B_DELWRI = false ->
  (forall x, x <> b -> x <> BFree -> flg s' x = flg s x /\ bytes s' x = bytes s x) -> (forall x, blk s' x = blk s x) ->
  (forall j, rdblk s' j = rdblk s j) -> forall j, view s' (CH (BTab 0)) j = view s (CH (BTab 0)) j.
Proof.
  intros U Hi Hd Ho Hb Hr. pose proof (unread_clean _ _ _ _ _ U) as Hc. apply (view_same s s' AV AV' CH CH); try done; [apply U| |].
  - intros x Hx. destruct (decide (x = b)) as [->|Hxb]; [congruence|]. destruct (pool_neq x Hx). by destruct (Ho x) as [-> _].
  - intros x Hx Hxd. assert (Hxb : x <> b) by congruence. destruct (pool_neq x Hx). by destruct (Ho x) as [_ ->].
Qed.

(** A synchronous read. *)
Lemma sync_read e b k s AV CH : unread b k s AV CH ->
  exists s', start_read b 0 B_READ e s = Ret tt e s' /\ sq s' /\ binv s' AV CH /\ one_buf b s s' /\ bytes s' b = rdblk s k /\
    fset (flg s' b) B_DONE = true /\ fset (flg s' b) B_DELWRI = false /\ fset (flg s' b) B_ASYNC = false /\
    (forall j, rdblk s' j = rdblk s j) /\ (forall j, view s' (CH (BTab 0)) j = view s (CH (BTab 0)) j).
Proof.
  intros U. destruct (rd_moved B_READ b k s AV CH U eq_refl) as (H2 & F2 & D2 & R2 & Hs2 & Hrun).
  pose proof (unread_clean _ _ _ _ _ U) as Hw. pose proof U as [U1 U2 U3 U4 U5 U6 U7 U8 U9]. destruct (pool_neq b U3) as [HF HT].
  set (s2 := xfer b (rd_start B_READ b s)) in *.
  destruct (iodone_sync b e s2 Hs2) as (s3 & Hio & Hs3 & H3 & F3 & D3 & R3 & K3); [rewrite F2; by fl|done|].
  assert (H13 : one_buf b s s3) by (by apply one_buf_trans with s2). rewrite F2 in F3.
  assert (Hrd : forall j, rdblk s3 j = rdblk s j) by (intros j; rewrite <- R2; unfold rdblk; by rewrite R3).
  assert (Hdel : fset (flg s3 b) B_DELWRI = false) by (rewrite F3; by fl).
  assert (Hi3 : binv s3 AV CH).
  { apply (binv_one b s); try done.
    - rewrite D3, D2. unfold rdblk. by rewrite length_fmap, length_seqZ.
    - rewrite F3. fl. by apply (busy_flag s AV CH).
    - rewrite F3. fl. by apply (bi_err _ _ _ U2).
    - congruence. }
  exists s3. split_and!; try done.
  - rewrite Hrun. by rewrite (bind_ret _ _ _ _ _ _ _ Hio).
  - by rewrite D3, D2.
  - rewrite F3. by fl.
  - rewrite F3. by fl.
  - apply (view_filled b k s s3 AV AV CH); try done; [apply H13|]. intros x. apply (ob_id _ _ _ H13).
Qed.

(** A read started for later use: the buffer is released when it is filled. *)
Lemma async_read e b k s AV CH : unread b k s AV CH ->
  exists s' AV', start_read b 0 (Z.lor B_READ B_ASYNC) e s = Ret tt e s' /\ sq s' /\ binv s' AV' CH /\
    (forall x, x ∈ AV' <-> x = b \/ x ∈ AV) /\
    (forall x, x <> b -> x <> BFree -> flg s' x = flg s x /\ bytes s' x = bytes s x) /\ (forall x, blk s' x = blk s x) /\
    (forall j, view s' (CH (BTab 0)) j = view s (CH (BTab 0)) j) /\
    (uctx s' = uctx s /\ kf s' = kf s /\ kc s' = kc s /\ kt s' = kt s /\ knum s' = knum s).
Proof.
  intros U. destruct (rd_moved (Z.lor B_READ B_ASYNC) b k s AV CH U eq_refl) as (H2 & F2 & D2 & R2 & Hs2 & Hrun).
  pose proof (unread_clean _ _ _ _ _ U) as Hw. pose proof U as [U1 U2 U3 U4 U5 U6 U7 U8 U9]. destruct (pool_neq b U3) as [HF HT].
  set (s2 := xfer b (rd_start _ b s)) in *. set (s3 := or_flags B_DONE b s2).
  assert (H13 : one_buf b s s3) by (apply one_buf_trans with s2; [done|by apply one_buf_upd]).
  assert (R3 : forall j, rdblk s3 j = rdblk s j) by exact R2.
  assert (F3 : flg s3 b = Z.lor (Z.lor (flg s b) (Z.lor B_READ B_ASYNC)) B_DONE) by (unfold s3; by rewrite flg_or, decide_True, F2).
  assert (Hi3 : binv s3 AV CH).
  { apply (binv_one b s); try done.
    - change (length (bytes s2 b) = 512%nat). rewrite D2. unfold rdblk. by rewrite length_fmap, length_seqZ.
    - rewrite F3. fl. by apply (busy_flag s AV CH).
    - rewrite F3. fl. by apply (bi_err _ _ _ U2).
    - rewrite F3. fl. congruence. }
  destruct (brelse_ok b e s3 AV CH) as (s' & Hr & Hrel & Hi' & Hv); try done; [by apply sq_kp with s2| |].
  { intros _ _ _. destruct (ob_id _ _ _ H13 b) as [_ ->]. rewrite U6. change (bytes s2 b = rdblk s2 k). by rewrite D2, R2. }
  assert (Ho : forall x, x <> b -> x <> BFree -> flg s' x = flg s x /\ bytes s' x = bytes s x).
  { intros x Hx HxF. destruct (ob_oth _ _ _ H13 x Hx HxF) as [<- <-]. split; [by apply (rl_oth _ _ _ _ Hrel)|].
    destruct (rl_body _ _ _ _ Hrel) as (Hf & _). by destruct (Hf x) as (_ & _ & _ & _ & ->). }
  assert (Hb : forall x, blk s' x = blk s x).
  { intros x. destruct (rl_body _ _ _ _ Hrel) as (Hf & _). destruct (Hf x) as (_ & -> & _). apply (ob_id _ _ _ H13). }
  exists s', (rel_list (has s3 b B_AGE) b AV). split; [|split; [apply Hrel|split; [done|split; [intros x; apply elem_rel_list|split; [done|split; [done|split]]]]]].
  - rewrite Hrun. erewrite bind_ret; [done|]. unfold iodone. msteps. fold s3.
    change (has s3 b B_ASYNC) with (fset (flg s3 b) B_ASYNC). rewrite F3. fl. exact Hr.
  - apply (view_filled b k s s' AV (rel_list (has s3 b B_AGE) b AV) CH); try done.
    + rewrite (rl_flg _ _ _ _ Hrel), F3. by fl.
    + intros j. rewrite (same_body_rdblk s3) by apply Hrel. exact (R2 j).
  - destruct (rl_body _ _ _ _ Hrel) as (_ & _ & E1 & E2 & E3 & E4 & E5). destruct (ob_rest _ _ _ H13) as (?&?&?&?&?). split_and!; congruence.
Qed.

Lemma read_fill e b k s s1 AV AV' CH CH' :
  owned_blk b k s s1 AV AV' CH CH' -> fset (flg s1 b) B_DONE = false -> 0 <= k < RD_SIZE ->
  exists s', (_ ← start_read b 0 B_READ; _ ← modify (fun s => s <| kb; io_nread ::= fun n => n + 1 |>); iowait b) e s1 = Ret tt e s' /\
    read_blk b k s s' AV AV' CH CH'.
Proof.
  intros Ho Hd Hk. pose proof Ho as [O1 O2 O3 O4 [O5 O6] O7 OF O8 O9 O10 O11 O12 O13].
  assert (U : unread b k s1 AV' CH') by (by split). pose proof (unread_clean _ _ _ _ _ U) as Hw.
  destruct (sync_read e b k s1 AV' CH' U) as (s3 & Hr3 & Hs3 & Hi3 & H13 & D3 & Hdn & Hdel & Has & Hrd & Hv3).
  set (s4 := s3 <| kb; io_nread ::= fun n => n + 1 |> <| kipl := 0 |>). exists s4. split.
  - rewrite (bind_ret _ _ _ _ _ _ _ Hr3). msteps. apply iowait_done; [done|]. by apply (bi_err _ _ _ Hi3).
  - assert (Hne : forall x, x ∉ AV -> x <> b) by (intros x Hx ->; done).
    assert (Hown : owned_blk b k s s3 AV AV' CH CH').
    { split; try done.
      - by destruct (ob_id _ _ _ H13 b) as [_ ->].
      - intros x Hx Hn. destruct (O8 x Hx Hn) as (? & Eb & Ey). split; [done|].
        destruct (ob_id _ _ _ H13 x) as [_ ->]. split; [done|]. destruct (pool_neq x Hx).
        destruct (ob_oth _ _ _ H13 x) as [_ ->]; [by apply Hne|done|done].
      - intros j. by rewrite Hv3.
      - destruct (ob_rest _ _ _ H13) as (->&->&->&->&->). exact O10.
      - intros x Hx HxF. destruct (ob_oth _ _ _ H13 x) as [-> _]; [by apply Hne|done|]. by apply O11. }
    split; [by apply (owned_same_kb b k s s3)| |done].
    change (bytes s4 b) with (bytes s3 b). rewrite D3, <- O9. symmetry. apply view_clean. intros x Hx [Ex Dx].
    assert (x = b) as -> by (apply (bi_uniq _ _ _ O2); congruence). congruence.
Qed.

Lemma bread_ok e k s AV CH : 0 <= k < RD_SIZE -> sq s -> binv s AV CH -> 0 < nblkdev (kb s) ->
  AV <> [] -> (forall b, b ∈ CH (BTab 0) -> blk s b = k -> b ∈ AV) ->
  exists b s' AV' CH', bread 0 k e s = Ret b e s' /\ read_blk b k s s' AV AV' CH CH'.
Proof.
  intros Hk Hs Hi Hn Hav Hf. destruct (getblk_ok e k s AV CH Hs Hi Hn Hav Hf) as (b & s1 & AV' & CH' & Hr & Ho & Hd).
  unfold bread. rewrite (bind_ret _ _ _ _ _ _ _ Hr). msteps. destruct (fset (flg s1 b) B_DONE) eqn:E.
  - change (has s1 b B_DONE) with (fset (flg s1 b) B_DONE). rewrite E. msteps.
    eexists b, _, AV', CH'. split; [reflexivity|]. split; [|exact (Hd E)|exact E].
    by apply (owned_same_kb b k s s1).
  - change (has s1 b B_DONE) with (fset (flg s1 b) B_DONE). rewrite E.
    destruct (read_fill e b k s s1 AV AV' CH CH' Ho E Hk) as (s' & Hrun & Hrb). exists b, s', AV', CH'. split; [|done].
    revert Hrun. unfold mbind, m_bind. destruct (start_read b 0 B_READ e s1); [|done]. cbn. intros Hrun.
    destruct (iowait b _ _) as [[]|]; [|done]. by inversion Hrun; subst.
Qed.

(** ** [bdwrite] *)

Lemma bdwrite_ok b e s AV CH :
  sq s -> binv s AV CH -> pool b -> b ∉ AV -> b ∈ CH (BTab 0) -> 0 <= blk s b < RD_SIZE -> has s (BTab 0) B_TAPE = false ->
  exists s', bdwrite b e s = Ret tt e s' /\ sq s' /\ (exists AV', binv s' AV' CH /\ forall x, x ∈ AV' <-> x = b \/ x ∈ AV) /\
    (forall k, view s' (CH (BTab 0)) k = if decide (k = blk s b) then bytes s b else view s (CH (BTab 0)) k) /\
    (forall k, rdblk s' k = rdblk s k) /\ same_body s s' /\ (forall x, x <> b -> x <> BFree -> flg s' x = flg s x).
Proof.
  intros Hs Hi Hp Hb Hc Hk Ht. set (s1 := or_flags (Z.lor B_DELWRI B_DONE) b s).
  assert (H1 : one_buf b s s1) by (by apply one_buf_upd).
  assert (F1 : flg s1 b = Z.lor (flg s b) (Z.lor B_DELWRI B_DONE)) by (unfold s1; by rewrite flg_or, decide_True).
  assert (Hi1 : binv s1 AV CH).
  { apply (binv_one b s); try done.
    - exact (bi_len _ _ _ Hi b Hp).
    - rewrite F1. fl. by apply (busy_flag s AV CH).
    - rewrite F1. fl. by apply (bi_err _ _ _ Hi).
    - intros _. rewrite F1. split; [done|]. split; [by fl|done]. }
  destruct (brelse_ok b e s1 AV CH) as (s' & Hr & Hrel & Hi' & Hv); try done; [by apply sq_kp with s|rewrite F1; fl; done|].
  exists s'. split_and!; [|apply Hrel|eexists; split; [exact Hi'|intros x; apply elem_rel_list]| | | |].
  - unfold bdwrite. msteps. fold (bdevno s b). rewrite (bi_dev _ _ _ Hi b Hc). change (dtab 0) with (Some (BTab 0)). cbv iota.
    rewrite Ht. msteps. exact Hr.
  - intros k. rewrite Hv. assert (Hd1 : dirty s1 (blk s b) b) by (split; [by destruct (ob_id _ _ _ H1 b)|rewrite F1; by fl]).
    case_decide as Ek; [subst k; by rewrite (view_dirty s1 AV CH _ b)|].
    assert (Ho : forall x, x <> b -> flg s1 x = flg s x) by (intros x Hx; unfold s1; by rewrite flg_or, decide_False).
    destruct (view_cases s AV CH k Hi) as [(x & Hx & [Ex Dx] & ->)|[Hn ->]].
    + assert (x <> b) by congruence. rewrite (view_dirty s1 AV CH k x); [done|done|done|].
      split; [by destruct (ob_id _ _ _ H1 x) as [_ ->]|by rewrite Ho].
    + rewrite view_clean; [done|]. intros x Hx [Ex Dx]. destruct (ob_id _ _ _ H1 x) as [_ E]. rewrite E in Ex.
      assert (x <> b) by congruence. apply (Hn x Hx). split; [done|]. by rewrite <- Ho.
  - intros k. rewrite (same_body_rdblk s1) by apply Hrel. done.
  - apply same_body_trans with s1; [exact (same_body_flags b _ s)|apply Hrel].
  - intros x Hx HF. rewrite (rl_oth _ _ _ _ Hrel) by done. unfold s1. by rewrite flg_or, decide_False.
Qed.

(** ** [binit] *)

(** After [i] turns of the loop. *)
Record binit_inv (s0 : kst) (i : nat) (s : kst) : Prop := {
  ii_sq : sq s;
  ii_av : ring (avf s) (avb s) BFree (BPool <$> seq 0 i);
  ii_ch : ring (bfw s) (bbk s) BFree (BPool <$> rev (seq 0 i));
  ii_fl : forall j, (j < i)%nat -> flg s (BPool j) = 0;
  ii_bytes : (forall x, bytes s x = bytes s0 x) /\ rdmem (kb s) = rdmem (kb s0);
  ii_rest : uctx s = uctx s0 /\ kf s = kf s0 /\ kc s = kc s0 /\ kt s = kt s0 /\ knum s = knum s0
}.

Definition binit_link (b : bptr) (s : kst) : kst :=
  let s := upd_buf b (fun x => x <| b_dev := NODEV |> <| b_back := BFree |>) s in
  let s := upd_buf b (fun x => x <| b_forw := b_forw (buf_at s BFree) |>) s in
  let s := upd_buf (b_forw (buf_at s BFree)) (fun x => x <| b_back := b |>) s in
  let s := upd_buf BFree (fun x => x <| b_forw := b |>) s in
  upd_buf b (fun x => x <| b_flags := B_BUSY |>) s.

Lemma binit_link_ring b s L : ring (bfw s) (bbk s) BFree L -> b ∉ BFree :: L ->
  ring (bfw (binit_link b s)) (bbk (binit_link b s)) BFree (b :: L).
Proof.
  intros Hr Hb. pose proof (ring_head _ _ _ _ Hr) as Eh.
  assert (Hne : bfw s BFree <> b).
  { rewrite Eh. intros <-. apply Hb. destruct L as [|a r]; [by left|right; by left]. }
  assert (b <> BFree) by (intros ->; apply Hb; by left).
  apply ring_push_front with (bfw s) (bbk s); try done; unfold binit_link; intros; bufs.
Qed.

Lemma binit_link_av b s x : b <> BFree ->
  avf (binit_link b s) x = avf s x /\ avb (binit_link b s) x = avb s x /\
  flg (binit_link b s) x = if decide (x = b) then B_BUSY else flg s x.
Proof. intros Hb. unfold flg, binit_link. split_and!; bufs. Qed.

Lemma binit_buf_ok s0 e s i : binit_inv s0 i s ->
  exists s', binit_buf i e s = Ret tt e s' /\ binit_inv s0 (S i) s'.
Proof.
  intros [Hs Hav Hch Hfl Hby Hre]. set (b := BPool i). set (s1 := binit_link b s).
  assert (Hb : forall P, b ∉ BFree :: (BPool <$> P) <-> i ∉ P).
  { intros P. split; intros Hn Hin; apply Hn; [right; apply list_elem_of_fmap; by exists i|].
    apply elem_of_cons in Hin as [?|Hin]; [done|]. apply list_elem_of_fmap in Hin as (j & [= ->] & Hj). done. }
  assert (HbF : b <> BFree) by done.
  assert (H1 : b ∉ BFree :: (BPool <$> seq 0 i)) by (apply Hb; rewrite elem_of_seq; lia).
  assert (H2 : b ∉ BFree :: (BPool <$> rev (seq 0 i))).
  { apply Hb. rewrite list_elem_of_In, <- in_rev, <- list_elem_of_In, elem_of_seq. lia. }
  pose proof (fun x => binit_link_av b s x HbF) as Hf1. fold s1 in Hf1.
  assert (Hr1 : ring (avf s1) (avb s1) BFree (BPool <$> seq 0 i)).
  { apply ring_frame with (avf s) (avb s); [|done]. intros x _. by destruct (Hf1 x) as (-> & -> & _). }
  assert (F1 : flg s1 b = B_BUSY) by (destruct (Hf1 b) as (_ & _ & E); by rewrite decide_True in E).
  destruct (brelse_wake_ok b e s1) as (sw & Hw & Hsw & Bw & Aw & Fw & _); [by apply sq_kp with s|].
  set (s2 := clr_flags B_RELEASE b (av_tail b (sw <| kipl := 6 |>))).
  pose proof (av_tail_only b (sw <| kipl := 6 |>)) as Ho.
  assert (F2 : forall m, has sw b m = fset B_BUSY m) by (intros m; unfold has; fold (flg sw b); by rewrite Fw, F1).
  exists (s2 <| kipl := kipl sw |>). split.
  - unfold binit_buf. fold b. msteps. change (binit_link b s) with s1. rewrite brelse_split, (bind_ret _ _ _ _ _ _ _ Hw). msteps.
    rewrite F2. change (fset B_BUSY B_ERROR) with false. cbn [when]. msteps. unfold spl6. msteps.
    change (has (sw <| kipl := 6 |>) b B_AGE) with (has sw b B_AGE). rewrite F2. done.
  - assert (Hos : forall x, bfw s2 x = bfw s1 x /\ bbk s2 x = bbk s1 x /\ bytes s2 x = bytes s1 x).
    { intros x. destruct (only_av_fields _ _ x Ho) as (_ & _ & _ & E1 & E2 & E3). destruct Bw as [Bw _].
      destruct (Bw x) as (_ & _ & E4 & E5 & E6). unfold s2, clr_flags.
      destruct (same_body_flags b (fun f => fclr f B_RELEASE) (av_tail b (sw <| kipl := 6 |>))) as [Bf _].
      destruct (Bf x) as (_ & _ & -> & -> & ->). rewrite E1, E2, E3. split_and!; [exact E4|exact E5|exact E6]. }
    assert (Hfs : forall x, x <> BFree -> flg s2 x = if decide (x = b) then 0 else flg s x).
    { intros x Hx. unfold s2. rewrite flg_clr. destruct (only_av_fields _ _ x Ho) as [-> _].
      change (flg (sw <| kipl := 6 |>) x) with (flg sw x). rewrite (Fw x Hx). destruct (Hf1 x) as (_ & _ & ->). by case_decide. }
    assert (Hrw : ring (avf (sw <| kipl := 6 |>)) (avb (sw <| kipl := 6 |>)) BFree (BPool <$> seq 0 i)).
    { apply ring_frame with (avf s1) (avb s1); [|done]. intros x _. exact (Aw x). }
    split.
    + apply sq_kp with sw; [|done]. change (kp s2 = kp sw). by destruct Ho as (_ & _ & _ & E & _).
    + rewrite seq_S, fmap_app. apply ring_frame with (avf (av_tail b (sw <| kipl := 6 |>))) (avb (av_tail b (sw <| kipl := 6 |>)));
        [|by apply av_tail_ring].
      intros x _. change (avf s2 x = avf (av_tail b (sw <| kipl := 6 |>)) x /\ avb s2 x = avb (av_tail b (sw <| kipl := 6 |>)) x).
      unfold s2, clr_flags, avf, avb. rewrite buf_upd. by case_decide.
    + rewrite seq_S, rev_app_distr. apply ring_frame with (bfw s1) (bbk s1).
      * intros x _. by destruct (Hos x) as (E1 & E2 & _).
      * by apply binit_link_ring.
    + intros j Hj. change (flg s2 (BPool j) = 0). rewrite Hfs by done. case_decide as E; [done|]. apply Hfl.
      assert (j <> i) by (intros ->; done). lia.
    + split; [|].
      * intros x. change (bytes s2 x = bytes s0 x). destruct (Hos x) as (_ & _ & ->). apply Hby.
      * change (rdmem (kb s2) = rdmem (kb s0)). destruct Ho as (_ & _ & E & _). change (rdmem (kb s2)) with (rdmem (kb (av_tail b (sw <| kipl := 6 |>)))).
        rewrite E. destruct Bw as (_ & E' & _). transitivity (rdmem (kb s1)); [exact E'|apply Hby].
    + destruct Ho as (_&_&_&_&E1&E2&E3&E4&E5), Bw as (_&_&F1'&F2'&F3'&F4'&F5'). destruct Hre as (G1&G2&G3&G4&G5). split_and!.
      * exact (eq_trans E1 (eq_trans F1' G1)).
      * exact (eq_trans E2 (eq_trans F2' G2)).
      * exact (eq_trans E3 (eq_trans F3' G3)).
      * exact (eq_trans E4 (eq_trans F4' G4)).
      * transitivity (knum (av_tail b (sw <| kipl := 6 |>))); [exact (knum_clr B_RELEASE b _)|].
        refine (eq_trans E5 (eq_trans F5' (eq_trans _ G5))). unfold s1, binit_link. by rewrite !knum_upd.
Qed.

Lemma binit_loop s0 e : forall n i s, binit_inv s0 i s ->
  exists s', for_each (seq i n) binit_buf e s = Ret tt e s' /\ binit_inv s0 (i + n) s'.
Proof.
  induction n as [|n IH]; intros i s Hi.
  - exists s. rewrite Nat.add_0_r. done.
  - destruct (binit_buf_ok s0 e s i Hi) as (s1 & Hr & H1). destruct (IH (S i) s1 H1) as (s' & Hr' & H').
    exists s'. replace (i + S n)%nat with (S i + n)%nat by lia. cbn [seq for_each].
    by rewrite (bind_ret _ _ _ _ _ _ _ Hr).
Qed.

(** The queue heads of the device switch. *)
Definition tab_empty (h : bptr) (s : kst) : kst := upd_buf h (fun x => x <| b_forw := h |> <| b_back := h |>) s.
Definition count_dev (s : kst) : kst := s <| kb; nblkdev ::= fun n => n + 1 |>.
Definition binit_tabs (s : kst) : kst :=
  let s := count_dev (count_dev (count_dev (count_dev (count_dev (count_dev (tab_empty (BTab 1) (count_dev (tab_empty (BTab 0) s)))))))) in
  count_dev (count_dev (tab_empty (BTab 7) s)).

Lemma binit_tabs_run e s : for_each bdevsw (fun bdp =>
    _ ← match d_tab bdp with
        | None => mret tt
        | Some dp => modify (upd_buf dp (fun x => x <| b_forw := dp |> <| b_back := dp |>))
        end;
    modify (fun s => s <| kb; nblkdev ::= fun n => n + 1 |>)) e s = Ret tt e (binit_tabs s).
Proof.
  cbv beta zeta iota delta [for_each bdevsw nodev d_tab mbind m_bind modify mret m_ret binit_tabs count_dev tab_empty]. done.
Qed.

Lemma count_dev_buf s x : buf_at (count_dev s) x = buf_at s x.
Proof. done. Qed.
Lemma tab_empty_buf h s x : x <> h -> buf_at (tab_empty h s) x = buf_at s x.
Proof. intros Hx. unfold tab_empty. by rewrite buf_upd_ne. Qed.

Lemma binit_tabs_buf s x : (forall m, x <> BTab m) -> buf_at (binit_tabs s) x = buf_at s x.
Proof.
  intros Hx. unfold binit_tabs. cbv zeta.
  repeat first [rewrite count_dev_buf | rewrite tab_empty_buf by apply Hx]. done.
Qed.

Definition CH0 (h : bptr) : list bptr := if decide (h = BFree) then BPool <$> rev (seq 0 NBUF) else [].

Lemma binit_ok e s : sq s -> (forall b, pool b -> length (bytes s b) = 512%nat) -> resids s = replicate NBUF 0 ->
  exists s', binit e s = Ret tt e s' /\ sq s' /\ binv s' (BPool <$> seq 0 NBUF) CH0 /\ nblkdev (kb s') = nblkdev (kb s) + 9 /\
    (forall k, view s' [] k = rdblk s k).
Proof.
  intros Hs Hl Hrs. set (s0 := upd_buf BFree (fun x => x <| b_forw := BFree |> <| b_back := BFree |> <| av_forw := BFree |> <| av_back := BFree |>) s).
  assert (H0 : binit_inv s 0 s0).
  { split; try done.
    - by apply sq_kp with s.
    - apply ring_nil. unfold avf, avb, s0. by rewrite buf_upd_same.
    - apply ring_nil. unfold bfw, bbk, s0. by rewrite buf_upd_same.
    - intros j Hj. lia. }
  destruct (binit_loop s e NBUF 0 s0 H0) as (s1 & Hr & [I1 I2 I3 I4 I5 I6]). set (s2 := binit_tabs s1).
  assert (Hb : forall x, (forall m, x <> BTab m) -> buf_at s2 x = buf_at s1 x) by (intros; by apply binit_tabs_buf).
  assert (Hp : forall b, pool b -> exists i, b = BPool i /\ (i < NBUF)%nat /\ flg s2 b = 0).
  { intros b (i & -> & Hi). exists i. split_and!; try done. unfold flg. rewrite Hb by done. by apply I4. }
  assert (HA : forall b, b ∈ BPool <$> seq 0 NBUF <-> pool b).
  { intros b. rewrite list_elem_of_fmap. split; intros (i & -> & Hi); exists i; split; try done; apply elem_of_seq in Hi || apply elem_of_seq; lia. }
  assert (HC : forall b, b ∈ BPool <$> rev (seq 0 NBUF) <-> pool b).
  { intros b. rewrite <- HA, !list_elem_of_fmap. split; intros (i & -> & Hi); exists i; split; try done;
      rewrite list_elem_of_In in *; [by apply in_rev|by apply in_rev in Hi || rewrite <- in_rev]. }
  exists s2. split_and!.
  - unfold binit. msteps. fold s0. rewrite (bind_ret _ _ _ _ _ _ _ Hr). apply binit_tabs_run.
  - by apply sq_kp with s1.
  - assert (EB : CH0 (BTab 0) = []) by done.
    split.
    + apply ring_frame with (avf s1) (avb s1); [|done]. intros x Hx. unfold avf, avb. rewrite Hb; [done|].
      apply elem_of_cons in Hx as [->|Hx]; [done|]. apply list_elem_of_fmap in Hx as (j & -> & _). done.
    + intros h [-> | ->].
      * apply ring_frame with (bfw s1) (bbk s1); [|done]. intros x Hx. unfold bfw, bbk. rewrite Hb; [done|].
        apply elem_of_cons in Hx as [->|Hx]; [done|]. apply list_elem_of_fmap in Hx as (j & -> & _). done.
      * rewrite EB. apply ring_nil. done.
    + intros b. apply HA.
    + intros h b [-> | ->] Hin; [by apply HC|]. by apply elem_of_nil in Hin.
    + intros b _ Hin. by apply elem_of_nil in Hin.
    + intros b Hpb. left. by apply HC.
    + intros b Hpb. destruct (Hp b Hpb) as (i & -> & Hi & ->). split; [done|]. intros _. by apply HA.
    + intros b Hin. by apply elem_of_nil in Hin.
    + intros b b' Hin. by apply elem_of_nil in Hin.
    + intros b Hpb. change (bytes s2 b) with (bytes s1 b). destruct I5 as [-> _]. auto.
    + intros b _ Hin. by apply elem_of_nil in Hin.
    + intros b Hpb. destruct (Hp b Hpb) as (i & -> & Hi & ->). intros HX. by vm_compute in HX.
    + intros b Hpb. by destruct (Hp b Hpb) as (i & -> & Hi & ->).
    + intros b Hpb. apply HA in Hpb. by destruct (Hp b Hpb) as (i & -> & Hi & ->).
    + transitivity (resids s1); [|rewrite <- Hrs; apply knum_resid, I6]. apply list_fmap_ext. intros i x _. by rewrite Hb.
  - destruct I6 as (_ & _ & _ & _ & E). apply knum_nblk in E. rewrite <- E. unfold s2, binit_tabs, count_dev, tab_empty. cbn. lia.
  - intros k. unfold view, rdblk. cbn [filter]. change (rdmem (kb s2)) with (rdmem (kb s1)). by destruct I5 as [_ ->].
Qed.

(** * The cache as its clients see it *)

Record cache (s : kst) (AV : list bptr) (CH : bptr -> list bptr) : Prop := {
  ca_sq : sq s;
  ca_inv : binv s AV CH;
  ca_dev : 0 < nblkdev (kb s)
}.

(** No process holds block [k]. *)
Definition idle (s : kst) (AV : list bptr) (CH : bptr -> list bptr) (k : Z) : Prop :=
  forall b, b ∈ CH (BTab 0) -> blk s b = k -> b ∈ AV.

(** The buffer [b] is held, for a block of the disk. *)
Definition held (s : kst) (AV : list bptr) (CH : bptr -> list bptr) (b : bptr) : Prop :=
  pool b /\ b ∉ AV /\ b ∈ CH (BTab 0) /\ 0 <= blk s b < RD_SIZE.

Lemma bdwrite_cache b e s AV CH : cache s AV CH -> held s AV CH b -> has s (BTab 0) B_TAPE = false ->
  exists s' AV', bdwrite b e s = Ret tt e s' /\ cache s' AV' CH /\ b ∈ AV' /\
    (forall k, idle s AV CH k \/ k = blk s b -> idle s' AV' CH k) /\
    (forall k, view s' (CH (BTab 0)) k = if decide (k = blk s b) then bytes s b else view s (CH (BTab 0)) k) /\
    (forall k, rdblk s' k = rdblk s k).
Proof.
  intros [Hs Hi Hn] (Hp & Hb & Hc & Hk) Ht.
  destruct (bdwrite_ok b e s AV CH Hs Hi Hp Hb Hc Hk Ht) as (s' & Hr & Hs' & (AV' & Hi' & HA) & Hv & Hd & Hsb & _).
  exists s', AV'. split; [done|]. split; [split; try done; by destruct Hsb as (_&_&_&_&_&_&E); rewrite (knum_nblk _ _ E)|].
  split; [apply HA; by left|]. split; [|done].
  intros k Hk' x Hx Ex. apply HA. destruct Hsb as [Hf _]. destruct (Hf x) as (_ & E & _). rewrite E in Ex.
  destruct Hk' as [Hid| ->]; [right; by apply Hid|left]. by apply (bi_uniq _ _ _ Hi).
Qed.

(** C3. [bread] returns: with a buffer to spare, and nobody holding block [k],
    it comes back without sleeping with a buffer that only the caller holds and
    that contains block [k]; whatever buffer was reused for it, and however
    many delayed writes it pushed out, no block of the disk as the cache
    presents it has changed, and no buffer held by anybody else has. *)
Theorem bread_returns_block e k s AV CH :
  cache s AV CH -> AV <> [] -> idle s AV CH k -> 0 <= k < RD_SIZE ->
  exists b s' AV' CH', bread 0 k e s = Ret b e s' /\ cache s' AV' CH' /\ held s' AV' CH' b /\ blk s' b = k /\
    bytes s' b = view s (CH (BTab 0)) k /\
    (forall j, view s' (CH' (BTab 0)) j = view s (CH (BTab 0)) j) /\
    (forall x, pool x -> x ∉ AV -> x ∉ AV' /\ blk s' x = blk s x /\ bytes s' x = bytes s x).
Proof.
  intros [Hs Hi Hn] Hav Hid Hk. destruct (bread_ok e k s AV CH Hk Hs Hi Hn Hav Hid) as (b & s' & AV' & CH' & Hr & [Ho Hd _]).
  destruct Ho as [O1 O2 O3 O4 [O5 O6] _ _ O8 O9 (_ & _ & _ & _ & En) _ _ _].
  exists b, s', AV', CH'. split; [done|]. split; [split; try done; by rewrite (knum_nblk _ _ En)|].
  split; [split_and!; try done; rewrite O6; apply Hk|]. done.
Qed.

(** C9. A delayed write is not lost: after [bdwrite] the disk itself is
    unchanged, but whoever reads a block later gets the data of the buffer if
    it is that block, and what he would have got before if it is another. *)
Theorem bdwrite_seen_by_bread b e s AV CH :
  cache s AV CH -> held s AV CH b -> has s (BTab 0) B_TAPE = false ->
  exists s', bdwrite b e s = Ret tt e s' /\ (forall k, rdblk s' k = rdblk s k) /\
    forall k e2, 0 <= k < RD_SIZE -> idle s AV CH k \/ k = blk s b ->
    exists b2 s2, bread 0 k e2 s' = Ret b2 e2 s2 /\
      bytes s2 b2 = if decide (k = blk s b) then bytes s b else view s (CH (BTab 0)) k.
Proof.
  intros Hca Hh Ht. destruct (bdwrite_cache b e s AV CH Hca Hh Ht) as (s' & AV' & Hr & [Hs' Hi' Hn'] & Hb & Hid & Hv & Hd).
  exists s'. split_and!; [done|done|]. intros k e2 Hk Hk'.
  assert (Hne : AV' <> []) by (intros ->; by apply elem_of_nil in Hb).
  destruct (bread_ok e2 k s' AV' CH Hk Hs' Hi' Hn' Hne (Hid k Hk')) as (b2 & s2 & AV2 & CH2 & Hr2 & [_ Hd2 _]).
  exists b2, s2. split; [done|]. by rewrite Hd2, Hv.
Qed.

(** C26. [bwrite] writes through: the block's sectors of the RAM disk hold the
    buffer's data when it returns, the buffer is released and clean, and no
    other block has changed. *)
Theorem bwrite_reaches_disk b e s AV CH :
  cache s AV CH -> held s AV CH b ->
  exists s', bwrite b e s = Ret tt e s' /\ cache s' (AV ++ [b]) CH /\ rdblk s' (blk s b) = bytes s b /\
    fset (flg s' b) B_DELWRI = false /\
    (forall k, view s' (CH (BTab 0)) k = if decide (k = blk s b) then bytes s b else view s (CH (BTab 0)) k).
Proof.
  intros [Hs Hi Hn] (Hp & Hb & Hc & Hk). destruct (bwrite_ok b e s AV CH Hs Hi Hp Hb Hc Hk) as (s' & Hr & [W1 W2 W3 W4 W5 W6 W7 W8]).
  exists s'. split_and!; try done. split; try done. by destruct W8 as (_&_&_&_&E); rewrite (knum_nblk _ _ E).
Qed.

(** [binit] turns a pool of unused buffers into an empty cache: all of
    them on the available list, in order, none of them dirty, so that every
    block is the disk's; and it counts the nine entries of the device switch. *)
Lemma binit_establishes_cache e s :
  sq s -> 0 <= nblkdev (kb s) -> (forall b, pool b -> length (bytes s b) = 512%nat) -> resids s = replicate NBUF 0 ->
  exists s', binit e s = Ret tt e s' /\ cache s' (BPool <$> seq 0 NBUF) CH0 /\ nblkdev (kb s') = nblkdev (kb s) + 9 /\
    (forall k, view s' (CH0 (BTab 0)) k = rdblk s k).
Proof.
  intros Hs Hn Hl Hrs. destruct (binit_ok e s Hs Hl Hrs) as (s' & Hr & Hs' & Hi' & Hn' & Hv).
  exists s'. split_and!; try done. split; try done. by rewrite Hn'; lia.
Qed.

End BioProofs.

(** * Witnesses *)

(** The state after [binit], and after reading block 5. *)
Definition ex_booted : kst := match binit (H := ex_layout) [] kst0 with Ret _ _ s => s | Stop _ s => s end.
Definition ex_read : kst := match bread (H := ex_layout) 0 5 [] ex_booted with Ret _ _ s => s | Stop _ s => s end.

Lemma ex_sq0 : sq (H := ex_layout) kst0.
Proof.
  exists [], (fun _ => []). split; [|split; [|done]].
  - split; try done; intros; try (by constructor); set_solver.
  - intros p c Hc. done.
Qed.

Lemma ex_len0 b : pool b -> length (bytes kst0 b) = 512%nat.
Proof. done. Qed.

Lemma ex_booted_cache : cache (H := ex_layout) ex_booted (BPool <$> seq 0 NBUF) CH0.
Proof.
  destruct (binit_ok (H := ex_layout) [] kst0 ex_sq0 ex_len0 eq_refl) as (s' & Hr & Hs' & Hi' & Hn' & _).
  unfold ex_booted. rewrite Hr. split; [exact Hs'|exact Hi'|]. rewrite Hn'. exact eq_refl.
Qed.

#[local] Opaque ex_booted ex_read.
Lemma ex_AV : BPool <$> seq 0 NBUF <> [].
Proof. done. Qed.
Lemma ex_blk : 0 <= 5 < RD_SIZE.
Proof. done. Qed.

Lemma ex_booted_idle k : idle ex_booted (BPool <$> seq 0 NBUF) CH0 k.
Proof. intros b Hb. destruct (not_elem_of_nil b Hb). Qed.

Lemma ex_read_cache : exists b AV CH, bread (H := ex_layout) 0 5 [] ex_booted = Ret b [] ex_read /\
  cache (H := ex_layout) ex_read AV CH /\ held ex_read AV CH b.
Proof.
  destruct ex_booted_cache as [Hs Hi Hn].
  destruct (bread_ok (H := ex_layout) [] 5 ex_booted _ _ ex_blk Hs Hi Hn ex_AV (ex_booted_idle 5)) as (b & s' & AV' & CH' & Hr & [Ho _ _]).
  Transparent ex_read. unfold ex_read. rewrite Hr. Opaque ex_read. destruct Ho as [O1 O2 O3 O4 [O5 O6] _ _ O8 O9 (_ & _ & _ & _ & En) _ _ _].
  exists b, AV', CH'. split; [done|]. split; [split; [exact O1|exact O2|rewrite (knum_nblk _ _ En); exact Hn]|].
  split; [exact O3|]. split; [exact O4|]. split; [exact O5|]. rewrite O6. exact ex_blk.
Qed.

Lemma bread_returns_block_witness :
  exists b s', bread (H := ex_layout) 0 5 [] ex_booted = Ret b [] s' /\ blk s' b = 5 /\
    bytes s' b = view ex_booted (CH0 (BTab 0)) 5.
Proof.
  destruct (bread_returns_block (H := ex_layout) [] 5 ex_booted _ _ ex_booted_cache ex_AV (ex_booted_idle 5) ex_blk)
    as (b & s' & AV' & CH' & Hr & _ & _ & Hb & Hd & _).
  exists b, s'. split; [exact Hr|]. split; [exact Hb|exact Hd].
Defined.

Lemma bdwrite_seen_by_bread_witness :
  exists b s', bdwrite (H := ex_layout) b [] ex_read = Ret tt [] s' /\ forall k, rdblk s' k = rdblk ex_read k.
Proof.
  destruct ex_read_cache as (b & AV & CH & _ & Hc & Hh).
  destruct (bdwrite_seen_by_bread (H := ex_layout) b [] ex_read AV CH Hc Hh ltac:(by vm_compute)) as (s' & Hr & Hd & _).
  exists b, s'. split; [exact Hr|exact Hd].
Defined.

Lemma bwrite_reaches_disk_witness :
  exists b s', bwrite (H := ex_layout) b [] ex_read = Ret tt [] s' /\ rdblk s' (blk ex_read b) = bytes ex_read b.
Proof.
  destruct ex_read_cache as (b & AV & CH & _ & Hc & Hh).
  destruct (bwrite_reaches_disk (H := ex_layout) b [] ex_read AV CH Hc Hh) as (s' & Hr & _ & Hd & _).
  exists b, s'. split; [exact Hr|exact Hd].
Defined.

Lemma binit_establishes_cache_witness :
  exists s', binit (H := ex_layout) [] kst0 = Ret tt [] s' /\ nblkdev (kb s') = 9.
Proof.
  destruct (binit_establishes_cache (H := ex_layout) [] kst0 ex_sq0 ltac:(done) ex_len0 eq_refl) as (s' & Hr & _ & Hn & _).
  exists s'. split; [exact Hr|exact Hn].
Defined.
