(* ===== verification/Blocks.v ===== *)
(** The buffer cache as the file system sees it: blocks that are read, changed
    and released, whatever the queues, flags and delayed writes behind them.

    [BlockStore] is the contract of [getblk], [bread], [brelse], [bdwrite] and
    [bwrite]; [fsw] discharges it from the invariant of [Cache]. *)
From S2P Require Import Prelude Malloc Clist Kernel Sched Dll Sd Bio Cache.

(** The buffers the process holds, each with its block; [None] is a buffer of
    [geteblk], such as the one a super block is kept in. *)
Definition holding : Type := list (bptr * option Z).
Definition held_bufs (hs : holding) : list bptr := hs.*1.
Definition not_held (hs : holding) (k : Z) : Prop := forall b, (b, Some k) ∉ hs.

(** The parts of the state block input and output has no business with. *)
Definition rest_kept (s s' : kst) : Prop :=
  uctx s' = uctx s /\ kf s' = kf s /\ kc s' = kc s /\ kt s' = kt s /\ rablock (kb s') = rablock (kb s).

Lemma rest_of s s' : uctx s' = uctx s -> kf s' = kf s -> kc s' = kc s -> kt s' = kt s -> knum s' = knum s -> rest_kept s s'.
Proof. unfold rest_kept, knum. intros. split_and!; congruence. Qed.
Lemma knum_ra s s' : knum s' = knum s -> rablock (kb s') = rablock (kb s).
Proof. unfold knum. congruence. Qed.

(** The held buffers are as they were. *)
Definition bufs_kept (hs : holding) (s s' : kst) : Prop :=
  forall x, x ∈ held_bufs hs -> bytes s' x = bytes s x /\ flg s' x = flg s x.

Definition kept (hs : holding) (s s' : kst) : Prop := bufs_kept hs s s' /\ rest_kept s s'.

Lemma kept_refl hs s : kept hs s s.
Proof. by split. Qed.

Lemma kept_trans hs s1 s2 s3 : kept hs s1 s2 -> kept hs s2 s3 -> kept hs s1 s3.
Proof.
  intros [B1 (?&?&?&?&?)] [B2 (?&?&?&?&?)]. split; [|split_and!; congruence].
  intros x Hx. destruct (B1 x Hx), (B2 x Hx). split; congruence.
Qed.

Lemma kept_sub hs hs' s s' : held_bufs hs' ⊆ held_bufs hs -> kept hs s s' -> kept hs' s s'.
Proof. intros Hs [B R]. split; [|done]. intros x Hx. by apply B, Hs. Qed.

(** The contents of a buffer replaced. *)
Definition set_bytes (b : bptr) (l : list Z) (s : kst) : kst := s <| kb; bdata ::= fun d => <[b := l]> d |>.

Lemma set_bytes_same b l s : bytes (set_bytes b l s) b = l.
Proof. unfold bytes, set_bytes. cbn. by rewrite fn_lookup_insert. Qed.
Lemma set_bytes_ne b c l s : b <> c -> bytes (set_bytes b l s) c = bytes s c.
Proof. intros. unfold bytes, set_bytes. cbn. by rewrite fn_lookup_insert_ne. Qed.
Lemma set_bytes_flg b c l s : flg (set_bytes b l s) c = flg s c.
Proof. done. Qed.

(** [W s hs V]: the process holds the buffers [hs], and the blocks it does not
    hold contain [V]. *)
Class BlockStore `{Layout} (W : kst -> holding -> (Z -> list Z) -> Prop) := {
  bs_perm s hs hs' V : W s hs V -> hs ≡ₚ hs' -> W s hs' V;
  bs_same s s' hs V : W s hs V -> same_kb s s' -> kp s' = kp s -> nblkdev (kb s') = nblkdev (kb s) -> W s' hs V;
  bs_sched s s' hs V : W s hs V -> kb s' = kb s -> same_sched s s' -> W s' hs V;
  bs_nodup s hs V : W s hs V -> NoDup (held_bufs hs);
  bs_length s hs V b : W s hs V -> b ∈ held_bufs hs -> length (bytes s b) = 512%nat;
  bs_noerror s hs V b : W s hs V -> b ∈ held_bufs hs -> has s b B_ERROR = false;
  bs_block s hs V b k : W s hs V -> (b, Some k) ∈ hs -> blk s b = k;
  bs_set s hs V b l : W s hs V -> b ∈ held_bufs hs -> length l = 512%nat -> W (set_bytes b l s) hs V;
  bs_resid s hs V b : W s hs V -> b ∈ held_bufs hs -> b_resid (buf_at s b) = 0;
  bs_clr s hs V b : W s hs V -> b ∈ held_bufs hs -> W (upd_buf b (fun x => x <| b_resid := 0 |>) s) hs V;
  bs_wakeup c e s hs V : W s hs V -> exists s', wakeup c e s = Ret tt e s' /\ W s' hs V /\ only_run s s';
  bs_getblk e k s hs V :
    W s hs V -> 0 <= k < RD_SIZE -> not_held hs k -> (length hs < NBUF)%nat ->
    exists b s', getblk 0 k e s = Ret b e s' /\ W s' ((b, Some k) :: hs) V /\ kept hs s s' /\
      (fset (flg s' b) B_DONE = true -> bytes s' b = V k);
  bs_bread e k s hs V :
    W s hs V -> 0 <= k < RD_SIZE -> not_held hs k -> (length hs < NBUF)%nat ->
    exists b s', bread 0 k e s = Ret b e s' /\ W s' ((b, Some k) :: hs) V /\ kept hs s s' /\
      bytes s' b = V k /\ fset (flg s' b) B_DONE = true;
  bs_breada e k ra s hs V :
    W s hs V -> 0 <= k < RD_SIZE -> not_held hs k -> ra = 0 \/ 0 <= ra < RD_SIZE -> (S (length hs) < NBUF)%nat ->
    exists b s', breada 0 k ra e s = Ret b e s' /\ W s' ((b, Some k) :: hs) V /\ kept hs s s' /\
      bytes s' b = V k /\ fset (flg s' b) B_DONE = true;
  bs_brelse b k e s hs V :
    W s ((b, Some k) :: hs) V -> bytes s b = V k -> fset (flg s b) B_DONE = true ->
    exists s', brelse b e s = Ret tt e s' /\ W s' hs V /\ kept hs s s' /\ (forall x, bytes s' x = bytes s x);
  bs_geteblk e s hs V : W s hs V -> (length hs < NBUF)%nat ->
    exists b s', geteblk e s = Ret b e s' /\ W s' ((b, None) :: hs) V /\ kept hs s s';
  bs_release b e s hs V : W s ((b, None) :: hs) V ->
    exists s', brelse b e s = Ret tt e s' /\ W s' hs V /\ kept hs s s' /\ (forall x, bytes s' x = bytes s x);
  bs_bdwrite b k e s hs V :
    W s ((b, Some k) :: hs) V ->
    exists s', bdwrite b e s = Ret tt e s' /\ W s' hs (<[k := bytes s b]> V) /\ kept hs s s';
  bs_bwrite b k e s hs V :
    W s ((b, Some k) :: hs) V ->
    exists s', bwrite b e s = Ret tt e s' /\ W s' hs (<[k := bytes s b]> V) /\ kept hs s s'
}.

#[local] Instance bpool_inj : Inj (=) (=) BPool.
Proof. by intros ? ? [= ->]. Qed.

Section Discharge.
Context `{Layout}.

Record fsw_at (s : kst) (hs : holding) (V : Z -> list Z) (AV : list bptr) (CH : bptr -> list bptr) : Prop := {
  fa_cache : cache s AV CH;
  fa_tape : has s (BTab 0) B_TAPE = false;
  fa_nodup : NoDup (held_bufs hs);
  fa_pool : forall x, x ∈ held_bufs hs -> pool x;
  fa_held : forall x, pool x -> x ∉ AV <-> x ∈ held_bufs hs;
  fa_tab : forall b k, (b, Some k) ∈ hs -> b ∈ CH (BTab 0) /\ blk s b = k /\ 0 <= k < RD_SIZE;
  fa_own : forall b, (b, None) ∈ hs -> b ∈ CH BFree;
  fa_sync : forall b k, (b, Some k) ∈ hs -> fset (flg s b) B_ASYNC = false;
  fa_view : forall k, (forall b, (b, Some k) ∈ hs -> fset (flg s b) B_DELWRI = false) -> view s (CH (BTab 0)) k = V k
}.

(** The cache with the buffers [hs] held. *)
Definition fsw (s : kst) (hs : holding) (V : Z -> list Z) : Prop := exists AV CH, fsw_at s hs V AV CH.

Lemma elem_held_bufs hs b : b ∈ held_bufs hs <-> exists o, (b, o) ∈ hs.
Proof.
  unfold held_bufs. rewrite list_elem_of_fmap. split.
  - intros ([b' o] & -> & Hx). by exists o.
  - intros [o Ho]. by exists (b, o).
Qed.

Section At.
Context (s : kst) (hs : holding) (V : Z -> list Z) (AV : list bptr) (CH : bptr -> list bptr) (W : fsw_at s hs V AV CH).

Lemma fa_inv : binv s AV CH.
Proof using W. apply W. Qed.

Lemma fa_busy x : x ∈ held_bufs hs -> x ∉ AV.
Proof using W. intros Hx. apply (fa_held _ _ _ _ _ W); [by apply (fa_pool _ _ _ _ _ W)|done]. Qed.

(** A held buffer on the device queue is held for its block. *)
Lemma fa_key x : x ∈ held_bufs hs -> x ∈ CH (BTab 0) -> (x, Some (blk s x)) ∈ hs.
Proof using W.
  intros (o & Ho)%elem_held_bufs Hc. destruct o as [k|].
  - destruct (fa_tab _ _ _ _ _ W x k Ho) as (_ & -> & _). done.
  - by destruct (bi_disj _ _ _ fa_inv x (fa_own _ _ _ _ _ W x Ho) Hc).
Qed.

Lemma fa_idle k : not_held hs k -> idle s AV CH k.
Proof using W.
  intros Hk x Hx Ex. destruct (decide (x ∈ AV)) as [|Hn]; [done|].
  assert (Hp : pool x) by (apply (bi_chp _ _ _ fa_inv (BTab 0)); [by right|done]).
  apply (fa_held _ _ _ _ _ W) in Hn; [|done]. pose proof (fa_key x Hn Hx) as Hkey. rewrite Ex in Hkey. by destruct (Hk x).
Qed.

Lemma fa_spare : (length hs < NBUF)%nat -> AV <> [].
Proof using W.
  intros Hl ->. assert (Hs : BPool <$> seq 0 NBUF ⊆ held_bufs hs).
  { intros x (i & -> & Hi)%list_elem_of_fmap. apply elem_of_seq in Hi. apply (fa_held _ _ _ _ _ W); [exists i; split; [done|lia]|].
    by intros ?%elem_of_nil. }
  apply NoDup_submseteq in Hs; [|by apply (NoDup_fmap_2 BPool), NoDup_seq].
  apply submseteq_length in Hs. rewrite length_fmap, length_seq in Hs. unfold held_bufs in Hs. rewrite length_fmap in Hs. lia.
Qed.

(** A buffer taken from the available list joins the held ones. *)
Definition free_key (o : option Z) : Prop := match o with Some k => 0 <= k < RD_SIZE /\ not_held hs k | None => True end.

Lemma fa_owned b o s' AV' CH' : owned_buf b o s s' AV AV' CH CH' -> free_key o ->
  fsw_at s' ((b, o) :: hs) V AV' CH' /\ kept hs s s'.
Proof using W.
  intros [O1 O2 O3 O4 O5 O7 OF O8 O9 (E1 & E2 & E3 & E4 & E5) O11 O12 O13] Hk. pose proof fa_inv as Hi.
  assert (Hbn : b ∉ held_bufs hs) by (by intros ?%fa_busy).
  assert (Hfl : forall x, x ∈ held_bufs hs -> flg s' x = flg s x).
  { intros x Hx. apply O11; [by apply fa_busy|]. apply pool_neq, (fa_pool _ _ _ _ _ W), Hx. }
  split.
  - split.
    + split; [done|done|]. rewrite (knum_nblk _ _ E5). apply W.
    + change (fset (flg s' (BTab 0)) B_TAPE = false). rewrite O11; [apply W| |done].
      intros (i & ? & _)%(bi_avp _ _ _ Hi). done.
    + unfold held_bufs in *. cbn [fmap list_fmap]. apply NoDup_cons. split; [done|apply W].
    + intros x. cbn. intros [->|Hx]%elem_of_cons; [done|]. by apply (fa_pool _ _ _ _ _ W).
    + intros x Hx. cbn. rewrite elem_of_cons, O13. change (hs.*1) with (held_bufs hs).
      rewrite <- (fa_held _ _ _ _ _ W x Hx). destruct (decide (x = b)); destruct (decide (x ∈ AV)); tauto.
    + intros x k'. intros [[= -> <-]|Hx]%elem_of_cons; [by destruct O5, Hk|].
      destruct (fa_tab _ _ _ _ _ W x k' Hx) as (T1 & T2 & T3). assert (Hh : x ∈ held_bufs hs) by (apply elem_held_bufs; eauto).
      split_and!; [apply O12; [by right|by apply fa_busy|done]| |lia|lia].
      destruct (O8 x) as (_ & -> & _); [by apply (fa_pool _ _ _ _ _ W)|by apply fa_busy|done].
    + intros x. intros [[= -> <-]|Hx]%elem_of_cons; [exact O5|]. apply O12; [by left| |by apply (fa_own _ _ _ _ _ W)].
      apply fa_busy, elem_held_bufs. eauto.
    + intros x k'. intros [[= -> <-]|Hx]%elem_of_cons; [done|].
      rewrite Hfl by (apply elem_held_bufs; eauto). by apply (fa_sync _ _ _ _ _ W) with k'.
    + intros k' Hd. rewrite O9. apply (fa_view _ _ _ _ _ W). intros x Hx. rewrite <- Hfl by (apply elem_held_bufs; eauto).
      apply Hd. by right.
  - split; [|split_and!; try done; by apply knum_ra]. intros x Hx. split; [|by apply Hfl].
    destruct (O8 x) as (_ & _ & ->); [by apply (fa_pool _ _ _ _ _ W)|by apply fa_busy|done].
Qed.

End At.

Lemma fsw_getblk e k s hs V : fsw s hs V -> 0 <= k < RD_SIZE -> not_held hs k -> (length hs < NBUF)%nat ->
  exists b s', getblk 0 k e s = Ret b e s' /\ fsw s' ((b, Some k) :: hs) V /\ kept hs s s' /\
    (fset (flg s' b) B_DONE = true -> bytes s' b = V k).
Proof.
  intros (AV & CH & W) Hk Hn Hl. pose proof (fa_cache _ _ _ _ _ W) as [Hs Hi Hd].
  destruct (getblk_ok e k s AV CH Hs Hi Hd (fa_spare _ _ _ _ _ W Hl) (fa_idle _ _ _ _ _ W k Hn)) as (b & s' & AV' & CH' & Hr & Ho & Hdn).
  destruct (fa_owned _ _ _ _ _ W b (Some k) s' AV' CH' Ho (conj Hk Hn)) as [W' K]. exists b, s'. split; [done|]. split; [by exists AV', CH'|]. split; [done|].
  intros Hb. rewrite (Hdn Hb). apply (fa_view _ _ _ _ _ W). intros x Hx. by destruct (Hn x).
Qed.

Lemma fsw_bread e k s hs V : fsw s hs V -> 0 <= k < RD_SIZE -> not_held hs k -> (length hs < NBUF)%nat ->
  exists b s', bread 0 k e s = Ret b e s' /\ fsw s' ((b, Some k) :: hs) V /\ kept hs s s' /\
    bytes s' b = V k /\ fset (flg s' b) B_DONE = true.
Proof.
  intros (AV & CH & W) Hk Hn Hl. pose proof (fa_cache _ _ _ _ _ W) as [Hs Hi Hd].
  destruct (bread_ok e k s AV CH Hk Hs Hi Hd (fa_spare _ _ _ _ _ W Hl) (fa_idle _ _ _ _ _ W k Hn)) as (b & s' & AV' & CH' & Hr & [Ho Hb Hdn]).
  destruct (fa_owned _ _ _ _ _ W b (Some k) s' AV' CH' Ho (conj Hk Hn)) as [W' K]. exists b, s'. split; [done|]. split; [by exists AV', CH'|]. split; [done|]. split; [|done].
  rewrite Hb. apply (fa_view _ _ _ _ _ W). intros x Hx. by destruct (Hn x).
Qed.

Lemma fsw_geteblk e s hs V : fsw s hs V -> (length hs < NBUF)%nat ->
  exists b s', geteblk e s = Ret b e s' /\ fsw s' ((b, None) :: hs) V /\ kept hs s s'.
Proof.
  intros (AV & CH & W) Hl. pose proof (fa_cache _ _ _ _ _ W) as [Hs Hi Hd].
  destruct (geteblk_ok e s AV CH Hs Hi (fa_spare _ _ _ _ _ W Hl)) as (b & s' & AV' & CH' & Hr & Ho).
  destruct (fa_owned _ _ _ _ _ W b None s' AV' CH' Ho I) as [W' K]. exists b, s'. split; [done|]. split; [by exists AV', CH'|done].
Qed.

(** A held buffer goes back to the available list. *)
Lemma fa_release b o s s' hs V V' AV AV' CH :
  fsw_at s ((b, o) :: hs) V AV CH -> sq s' -> binv s' AV' CH ->
  uctx s' = uctx s -> kf s' = kf s -> kc s' = kc s -> kt s' = kt s -> knum s' = knum s ->
  (forall x, x ∈ AV' <-> x = b \/ x ∈ AV) ->
  (forall x, x <> b -> x <> BFree -> flg s' x = flg s x /\ bytes s' x = bytes s x) -> (forall x, blk s' x = blk s x) ->
  (forall j, (forall x, (x, Some j) ∈ hs -> fset (flg s x) B_DELWRI = false) -> view s' (CH (BTab 0)) j = V' j) ->
  fsw_at s' hs V' AV' CH /\ kept hs s s'.
Proof.
  intros W Hs Hi R1 R2 R3 R4 R5 HA Hf Hb Hv. pose proof (rest_of s s' R1 R2 R3 R4 R5) as Hr. pose proof (knum_nblk _ _ R5) as Hd.
  pose proof (fa_nodup _ _ _ _ _ W) as Hnd. unfold held_bufs in Hnd. cbn in Hnd.
  apply NoDup_cons in Hnd as [Hbn Hnd].
  assert (Hne : forall x, x ∈ held_bufs hs -> x <> b /\ x <> BFree).
  { intros x Hx. split; [by intros ->|]. apply pool_neq, (fa_pool _ _ _ _ _ W). by right. }
  split; [split|].
  - split; [done|done|]. rewrite Hd. apply W.
  - change (fset (flg s' (BTab 0)) B_TAPE = false). destruct (Hf (BTab 0)) as [-> _]; [|done|apply W].
    assert (Hp : pool b) by (apply (fa_pool _ _ _ _ _ W); by left). intros E. symmetry in E. by apply pool_neq in E.
  - done.
  - intros x Hx. apply (fa_pool _ _ _ _ _ W). by right.
  - intros x Hx. rewrite HA. pose proof (fa_held _ _ _ _ _ W x Hx) as Hh. unfold held_bufs in *. cbn in Hh.
    rewrite elem_of_cons in Hh. split.
    + intros Hn. destruct Hh as [Hh _]. destruct Hh as [->|?]; [tauto|tauto|done].
    + intros Hx' [->|Ha]; [done|]. apply Hh in Ha; [done|by right].
  - intros x j Hx. rewrite Hb. apply (fa_tab _ _ _ _ _ W). by right.
  - intros x Hx. apply (fa_own _ _ _ _ _ W). by right.
  - intros x j Hx. assert (Hh : x ∈ held_bufs hs) by (apply elem_held_bufs; eauto). destruct (Hne x Hh).
    destruct (Hf x) as [-> _]; [done|done|]. apply (fa_sync _ _ _ _ _ W) with j. by right.
  - intros j Hj. apply Hv. intros x Hx. assert (Hh : x ∈ held_bufs hs) by (apply elem_held_bufs; eauto).
    destruct (Hne x Hh). destruct (Hf x) as [<- _]; [done|done|]. by apply Hj.
  - split; [|done]. intros x Hx. destruct (Hne x Hx). by destruct (Hf x) as [-> ->].
Qed.

(** The buffer of the head of the list. *)
Lemma fa_first b k s hs V AV CH : fsw_at s ((b, Some k) :: hs) V AV CH ->
  pool b /\ b ∉ AV /\ b ∈ CH (BTab 0) /\ blk s b = k /\ 0 <= k < RD_SIZE.
Proof.
  intros W. destruct (fa_tab _ _ _ _ _ W b k) as (? & ? & ?); [by left|].
  assert (Hb : b ∈ held_bufs ((b, Some k) :: hs)) by (by left).
  split_and!; try done; [by apply (fa_pool _ _ _ _ _ W)|by apply (fa_busy _ _ _ _ _ W)|lia|lia].
Qed.

Lemma fa_brelse b o e s hs V AV CH : fsw_at s ((b, o) :: hs) V AV CH ->
  (b ∈ CH (BTab 0) -> fset (flg s b) B_DONE = true -> fset (flg s b) B_DELWRI = false -> bytes s b = rdblk s (blk s b)) ->
  (forall k, o = Some k -> view s (CH (BTab 0)) k = V k) ->
  exists s', brelse b e s = Ret tt e s' /\ fsw s' hs V /\ kept hs s s' /\ (forall x, bytes s' x = bytes s x).
Proof.
  intros W Hc Hv. pose proof (fa_cache _ _ _ _ _ W) as [Hs Hi Hd]. assert (Hb : b ∈ held_bufs ((b, o) :: hs)) by (by left).
  pose proof (fa_pool _ _ _ _ _ W b Hb) as Hp. pose proof (fa_busy _ _ _ _ _ W b Hb) as Hba.
  destruct (brelse_ok b e s AV CH Hs Hi Hp Hba Hc) as (s' & Hr & Hrel & Hi' & Hv').
  destruct (rl_body _ _ _ _ Hrel) as (Hf & _ & E1 & E2 & E3 & E4 & E5). exists s'. split; [done|].
  destruct (fa_release b o s s' hs V V AV (rel_list (has s b B_AGE) b AV) CH) as [W' K]; try done.
  - apply Hrel.
  - intros x. apply elem_rel_list.
  - intros x Hxb HxF. destruct (Hf x) as (_ & _ & _ & _ & ->). split; [by apply (rl_oth _ _ _ _ Hrel)|done].
  - intros x. apply Hf.
  - intros j Hj. rewrite Hv'. destruct (decide (o = Some j)) as [Eo|Hjk]; [by apply Hv|]. apply (fa_view _ _ _ _ _ W).
    intros x [[= -> Eo]|Hx]%elem_of_cons; [by destruct Hjk|by apply Hj].
  - split; [by eexists _, _|]. split; [done|]. intros x. by destruct (Hf x) as (_ & _ & _ & _ & ->).
Qed.

Lemma fsw_brelse b k e s hs V : fsw s ((b, Some k) :: hs) V -> bytes s b = V k -> fset (flg s b) B_DONE = true ->
  exists s', brelse b e s = Ret tt e s' /\ fsw s' hs V /\ kept hs s s' /\ (forall x, bytes s' x = bytes s x).
Proof.
  intros (AV & CH & W) Hby Hdn. pose proof (fa_inv _ _ _ _ _ W) as Hi.
  destruct (fa_first _ _ _ _ _ _ _ W) as (Hp & Hba & Hbc & Hbk & Hkr).
  assert (Hv : view s (CH (BTab 0)) k = V k).
  { destruct (fset (flg s b) B_DELWRI) eqn:E.
    - rewrite <- Hby. by apply (view_dirty s AV CH).
    - apply (fa_view _ _ _ _ _ W). intros x Hx. destruct (fa_tab _ _ _ _ _ W x k Hx) as (Hxc & Hxk & _).
      by rewrite (bi_uniq _ _ _ Hi x b) by congruence. }
  apply (fa_brelse b (Some k) e s hs V AV CH W); [|by intros ? [= <-]].
  intros _ _ E. rewrite Hby, <- Hv, Hbk. apply view_clean. intros x Hx [Ex Dx].
  rewrite (bi_uniq _ _ _ Hi x b) in Dx by congruence. congruence.
Qed.

Lemma fsw_release b e s hs V : fsw s ((b, None) :: hs) V ->
  exists s', brelse b e s = Ret tt e s' /\ fsw s' hs V /\ kept hs s s' /\ (forall x, bytes s' x = bytes s x).
Proof.
  intros (AV & CH & W). apply (fa_brelse b None e s hs V AV CH W); [|done]. intros Hc.
  destruct (bi_disj _ _ _ (fa_inv _ _ _ _ _ W) b); [|done]. apply (fa_own _ _ _ _ _ W). by left.
Qed.

Lemma fsw_perm s hs hs' V : fsw s hs V -> hs ≡ₚ hs' -> fsw s hs' V.
Proof.
  intros (AV & CH & W) Hp. exists AV, CH.
  assert (Hi : forall x, x ∈ hs' <-> x ∈ hs) by (intros x; by rewrite Hp).
  assert (Hb : held_bufs hs ≡ₚ held_bufs hs') by (unfold held_bufs; by rewrite Hp).
  assert (Hbi : forall x, x ∈ held_bufs hs' <-> x ∈ held_bufs hs) by (intros x; by rewrite Hb).
  destruct W. split; try done.
  - by rewrite <- Hb.
  - intros x. rewrite Hbi. auto.
  - intros x. rewrite Hbi. auto.
  - intros x k. rewrite Hi. auto.
  - intros x. rewrite Hi. auto.
  - intros x k. rewrite Hi. eauto.
  - intros k Hk. apply fa_view0. intros x. rewrite <- Hi. auto.
Qed.

Lemma fsw_same s s' hs V : fsw s hs V -> same_kb s s' -> kp s' = kp s -> nblkdev (kb s') = nblkdev (kb s) -> fsw s' hs V.
Proof.
  intros (AV & CH & W) Hk Hp Hn. exists AV, CH. pose proof Hk as (E1 & _).
  assert (Eb : forall x, buf_at s' x = buf_at s x) by (intros; unfold buf_at; by rewrite E1).
  destruct W as [[C1 C2 C3] W2 W3 W4 W5 W6 W7 W9 W8]. unfold has, flg, blk in *. split; try done.
  - split; [by apply sq_kp with s|by apply (binv_same_kb s)|by rewrite Hn].
  - unfold has. by rewrite Eb.
  - intros b k Hb. unfold blk. rewrite Eb. by apply W6.
  - intros b k Hb. unfold flg. rewrite Eb. by apply W9 with k.
  - intros k Hd. rewrite (view_same_kb s s') by done. apply W8. intros x Hx. specialize (Hd x Hx). unfold flg in Hd. by rewrite Eb in Hd.
Qed.

Lemma fsw_sched s s' hs V : fsw s hs V -> kb s' = kb s -> same_sched s s' -> fsw s' hs V.
Proof.
  intros (AV & CH & W) Ek Hs. exists AV, CH. assert (Hk : same_kb s s') by (unfold same_kb; by rewrite Ek).
  assert (Eb : forall x, buf_at s' x = buf_at s x) by (intros; unfold buf_at; by rewrite Ek).
  destruct W as [[C1 C2 C3] W2 W3 W4 W5 W6 W7 W9 W8]. unfold has, flg, blk in *. split; try done.
  - split; [by apply sq_sched with s|by apply (binv_same_kb s)|by rewrite Ek].
  - unfold has. by rewrite Eb.
  - intros b k Hb. unfold blk. rewrite Eb. by apply W6.
  - intros b k Hb. unfold flg. rewrite Eb. by apply W9 with k.
  - intros k Hd. rewrite (view_same_kb s s') by done. apply W8. intros x Hx. specialize (Hd x Hx). unfold flg in Hd. by rewrite Eb in Hd.
Qed.

(** ** Reading ahead *)

Lemma fa_unread b k s hs V AV CH : fsw_at s ((b, Some k) :: hs) V AV CH -> fset (flg s b) B_DONE = false -> unread b k s AV CH.
Proof.
  intros W Hd. destruct (fa_first _ _ _ _ _ _ _ W) as (Hp & Hba & Hbc & Hbk & Hkr).
  split; try done; [apply W|apply W|]. apply (fa_sync _ _ _ _ _ W) with k. by left.
Qed.

(** The block of a held buffer without a delayed write. *)
Lemma fa_clean_view b k s hs V AV CH : fsw_at s ((b, Some k) :: hs) V AV CH -> fset (flg s b) B_DELWRI = false ->
  view s (CH (BTab 0)) k = V k /\ rdblk s k = V k.
Proof.
  intros W Hd. destruct (fa_first _ _ _ _ _ _ _ W) as (Hp & Hba & Hbc & Hbk & Hkr). pose proof (fa_inv _ _ _ _ _ W) as Hi.
  assert (Hu : forall x, x ∈ CH (BTab 0) -> blk s x = k -> x = b) by (intros x Hx Ex; apply (bi_uniq _ _ _ Hi); congruence).
  assert (Hv : view s (CH (BTab 0)) k = V k).
  { apply (fa_view _ _ _ _ _ W). intros x Hx. destruct (fa_tab _ _ _ _ _ W x k Hx) as (Hxc & Hxk & _). by rewrite (Hu x). }
  split; [done|]. rewrite <- Hv. symmetry. apply view_clean. intros x Hx [Ex Dx]. rewrite (Hu x) in Dx by done. congruence.
Qed.

Lemma fsw_sync b k e s hs V : fsw s ((b, Some k) :: hs) V -> fset (flg s b) B_DONE = false ->
  exists s', start_read b 0 B_READ e s = Ret tt e s' /\ fsw s' ((b, Some k) :: hs) V /\ kept hs s s' /\
    bytes s' b = V k /\ fset (flg s' b) B_DONE = true.
Proof.
  intros (AV & CH & W) Hd. pose proof (fa_unread _ _ _ _ _ _ _ W Hd) as U.
  destruct (sync_read e b k s AV CH U) as (s' & Hr & Hs' & Hi' & Ho & Eb & Hdn & Hdw & Has & Hrd & Hv). exists s'. split; [done|].
  pose proof (fa_clean_view _ _ _ _ _ _ _ W (unread_clean _ _ _ _ _ U)) as [_ Ek]. pose proof (unread_clean _ _ _ _ _ U) as Hc.
  destruct (ob_rest _ _ _ Ho) as (E1 & E2 & E3 & E4 & E5).
  assert (HF : forall x, x ∈ held_bufs ((b, Some k) :: hs) -> x <> BFree) by (intros x Hx; by apply pool_neq, (fa_pool _ _ _ _ _ W)).
  assert (Hbn : b ∉ held_bufs hs) by (pose proof (fa_nodup _ _ _ _ _ W) as Hnd; by apply NoDup_cons in Hnd as [? _]).
  assert (Hfl : forall x m, x ∈ held_bufs ((b, Some k) :: hs) -> m = B_ASYNC \/ m = B_DELWRI -> fset (flg s' x) m = fset (flg s x) m).
  { intros x m Hx Hm. destruct (decide (x = b)) as [->|Hxb].
    - destruct Hm as [-> | ->]; [by rewrite Has, (ur_async _ _ _ _ _ U)|by rewrite Hdw, Hc].
    - destruct (ob_oth _ _ _ Ho x Hxb (HF x Hx)) as [-> _]. done. }
  split; [exists AV, CH; split|split; [|split; [congruence|done]]].
  - split; [done|done|]. rewrite (knum_nblk _ _ E5). apply W.
  - change (fset (flg s' (BTab 0)) B_TAPE = false). destruct (ob_oth _ _ _ Ho (BTab 0)) as [-> _]; [|done|apply W].
    intros E. symmetry in E. destruct (pool_neq b (ur_pool _ _ _ _ _ U)). done.
  - apply W.
  - apply W.
  - apply W.
  - intros x j Hx. destruct (ob_id _ _ _ Ho x) as [_ ->]. by apply (fa_tab _ _ _ _ _ W).
  - apply W.
  - intros x j Hx. rewrite Hfl; [by apply (fa_sync _ _ _ _ _ W) with j|apply elem_held_bufs; eauto|by left].
  - intros j Hj. rewrite Hv. apply (fa_view _ _ _ _ _ W). intros x Hx. rewrite <- (Hfl x B_DELWRI); [by apply Hj|apply elem_held_bufs; eauto|by right].
  - split; [|by apply rest_of]. intros x Hx. assert (Hxb : x <> b) by (by intros ->). destruct (ob_oth _ _ _ Ho x Hxb) as [-> ->]; [|done]. apply HF. by right.
Qed.

Lemma fsw_async b k e s hs V : fsw s ((b, Some k) :: hs) V -> fset (flg s b) B_DONE = false ->
  exists s', start_read b 0 (Z.lor B_READ B_ASYNC) e s = Ret tt e s' /\ fsw s' hs V /\ kept hs s s'.
Proof.
  intros (AV & CH & W) Hd. pose proof (fa_unread _ _ _ _ _ _ _ W Hd) as U.
  destruct (async_read e b k s AV CH U) as (s' & AV' & Hr & Hs' & Hi' & HA & Ho & Hb & Hv & E1 & E2 & E3 & E4 & E5). exists s'. split; [done|].
  pose proof (unread_clean _ _ _ _ _ U) as Hc.
  destruct (fa_release b (Some k) s s' hs V V AV AV' CH) as [W' K]; try done; [|split; [by eexists _, _|done]].
  intros j Hj. rewrite Hv. apply (fa_view _ _ _ _ _ W). intros x [[= -> ->]|Hx]%elem_of_cons; [done|by apply Hj].
Qed.

Lemma fsw_incore k e s hs V : fsw s hs V ->
  exists r, incore 0 k e s = Ret r e s /\ (r = false -> not_held hs k).
Proof.
  intros (AV & CH & W). destruct (find_on_ok s e AV CH k (fa_inv _ _ _ _ _ W)) as (r & Hf & Hr).
  exists (match r with Some _ => true | None => false end). split.
  { change (incore 0 k) with (r ← find_on (BTab 0) 0 k; mret (match r with Some _ => true | None => false end)).
    by rewrite (bind_ret _ _ _ _ _ _ _ Hf). }
  intros E b Hb. destruct r; [done|]. destruct (fa_tab _ _ _ _ _ W b k Hb) as (Hc & Hk & _). by apply (Hr b).
Qed.

(** The second half of [breada]. *)
Definition readahead (dev ra : Z) : M unit :=
  rinc ← (if ra =? 0 then mret true else incore dev ra);
  if rinc : bool then mret tt
  else
    rabp ← getblk dev ra;
    done ← gets (fun s => has s rabp B_DONE);
    if done : bool then brelse rabp
    else _ ← start_read rabp dev (Z.lor B_READ B_ASYNC);
         modify (fun s => s <| kb; io_nreada ::= fun n => n + 1 |>).

Lemma breada_split dev k ra e s : breada dev k ra e s = (
  inc ← incore dev k;
  bp ← (if inc : bool then mret None
        else
          bp ← getblk dev k;
          done ← gets (fun s => has s bp B_DONE);
          _ ← when (negb done) (_ ← start_read bp dev B_READ; modify (fun s => s <| kb; io_nread ::= fun n => n + 1 |>));
          mret (Some bp));
  _ ← readahead dev ra;
  match bp with None => bread dev k | Some bp => _ ← iowait bp; mret bp end) e s.
Proof.
  unfold breada, readahead, mbind, m_bind. destruct (incore dev k e s) as [inc e1 s1|]; [|done].
  match goal with |- match ?m with _ => _ end = _ => destruct m as [bp e2 s2|]; [|done] end.
  match goal with |- match ?m with _ => _ end = _ => by destruct m end.
Qed.

Lemma fsw_readahead ra e s hs V : fsw s hs V -> ra = 0 \/ 0 <= ra < RD_SIZE -> (length hs < NBUF)%nat ->
  exists s', readahead 0 ra e s = Ret tt e s' /\ fsw s' hs V /\ kept hs s s'.
Proof.
  intros Hw Hra Hl. unfold readahead. destruct (Z.eqb_spec ra 0) as [E0|E0].
  { exists s. split; [by msteps|]. split; [done|apply kept_refl]. }
  destruct Hra as [?|Hrr]; [done|]. destruct (fsw_incore ra e s hs V Hw) as (r & Hi & Hnr). rewrite (bind_ret _ _ _ _ _ _ _ Hi).
  destruct r; [exists s; split; [done|]; split; [done|apply kept_refl]|].
  destruct (fsw_getblk e ra s hs V Hw Hrr (Hnr eq_refl) Hl) as (b & s1 & Hr1 & Hw1 & K1 & Hd1). rewrite (bind_ret _ _ _ _ _ _ _ Hr1). msteps.
  change (has s1 b B_DONE) with (fset (flg s1 b) B_DONE). destruct (fset (flg s1 b) B_DONE) eqn:Ed.
  - destruct (fsw_brelse b ra e s1 hs V Hw1 (Hd1 eq_refl) Ed) as (s2 & Hr2 & Hw2 & K2 & _).
    exists s2. split; [done|]. split; [done|]. by apply kept_trans with s1.
  - destruct (fsw_async b ra e s1 hs V Hw1 Ed) as (s2 & Hr2 & Hw2 & K2). rewrite (bind_ret _ _ _ _ _ _ _ Hr2).
    eexists. split; [reflexivity|]. split; [by apply (fsw_same s2)|]. by apply kept_trans with s1.
Qed.

Lemma fsw_breada e k ra s hs V : fsw s hs V -> 0 <= k < RD_SIZE -> not_held hs k ->
  ra = 0 \/ 0 <= ra < RD_SIZE -> (S (length hs) < NBUF)%nat ->
  exists b s', breada 0 k ra e s = Ret b e s' /\ fsw s' ((b, Some k) :: hs) V /\ kept hs s s' /\
    bytes s' b = V k /\ fset (flg s' b) B_DONE = true.
Proof.
  intros Hw Hk Hn Hra Hl. rewrite breada_split. destruct (fsw_incore k e s hs V Hw) as (inc & Hi & _). rewrite (bind_ret _ _ _ _ _ _ _ Hi).
  destruct inc.
  - mstep. destruct (fsw_readahead ra e s hs V Hw Hra ltac:(lia)) as (s1 & Hr1 & Hw1 & K1). rewrite (bind_ret _ _ _ _ _ _ _ Hr1).
    destruct (fsw_bread e k s1 hs V Hw1 Hk Hn ltac:(lia)) as (b & s2 & Hr2 & Hw2 & K2 & Hb). exists b, s2.
    split; [done|]. split; [done|]. split; [by apply kept_trans with s1|done].
  - destruct (fsw_getblk e k s hs V Hw Hk Hn ltac:(lia)) as (b & s1 & Hr1 & Hw1 & K1 & Hd1).
    assert (Hfill : exists s2, (done ← gets (fun s => has s b B_DONE);
        _ ← when (negb done) (_ ← start_read b 0 B_READ; modify (fun s => s <| kb; io_nread ::= fun n => n + 1 |>));
        mret (Some b)) e s1 = Ret (Some b) e s2 /\ fsw s2 ((b, Some k) :: hs) V /\ kept hs s1 s2 /\ bytes s2 b = V k /\
        fset (flg s2 b) B_DONE = true).
    { msteps. change (has s1 b B_DONE) with (fset (flg s1 b) B_DONE). destruct (fset (flg s1 b) B_DONE) eqn:Ed; cbn [negb when].
      - exists s1. split; [done|]. split; [done|]. split; [apply kept_refl|]. split; [by apply Hd1|done].
      - destruct (fsw_sync b k e s1 hs V Hw1 Ed) as (s2 & Hr2 & Hw2 & K2 & Hb2 & Hdn2). msteps. rewrite (bind_ret _ _ _ _ _ _ _ Hr2). msteps.
        eexists. split; [reflexivity|]. split; [by apply (fsw_same s2)|]. done. }
    destruct Hfill as (s2 & Hr2 & Hw2 & K2 & Hb2 & Hdn2). unfold mbind at 1, m_bind at 1. rewrite (bind_ret _ _ _ _ _ _ _ Hr1), Hr2.
    destruct (fsw_readahead ra e s2 ((b, Some k) :: hs) V Hw2 Hra Hl) as (s3 & Hr3 & Hw3 & [B3 R3]). rewrite (bind_ret _ _ _ _ _ _ _ Hr3).
    assert (Hbh : b ∈ held_bufs ((b, Some k) :: hs)) by (by left). destruct (B3 b Hbh) as [Eb3 Ef3].
    destruct Hw3 as (AV & CH & W3). erewrite bind_ret; [|apply iowait_done; [congruence|]].
    2:{ apply (bi_err _ _ _ (fa_inv _ _ _ _ _ W3)). by apply (fa_pool _ _ _ _ _ W3). }
    eexists b, _. split; [reflexivity|]. split; [apply (fsw_same s3); try done; by exists AV, CH|]. split.
    + apply kept_trans with s1; [done|]. apply kept_trans with s2; [done|].
      apply (kept_sub ((b, Some k) :: hs)); [intros x Hx; by right|by split].
    + split; [change (bytes s3 b = V k); congruence|change (fset (flg s3 b) B_DONE = true); congruence].
Qed.

(** The views after block [k] was written. *)
Lemma written_views b k s s' hs V AV CH : fsw_at s ((b, Some k) :: hs) V AV CH ->
  (forall j, view s' (CH (BTab 0)) j = if decide (j = blk s b) then bytes s b else view s (CH (BTab 0)) j) ->
  forall j, (forall x, (x, Some j) ∈ hs -> fset (flg s x) B_DELWRI = false) ->
  view s' (CH (BTab 0)) j = <[k := bytes s b]> V j.
Proof.
  intros W Hv j Hj. destruct (fa_first _ _ _ _ _ _ _ W) as (_ & _ & _ & Hbk & _). rewrite Hv, Hbk.
  case_decide as E; [subst; by rewrite fn_lookup_insert|]. rewrite fn_lookup_insert_ne by done.
  apply (fa_view _ _ _ _ _ W). intros x [[= -> ->]|Hx]%elem_of_cons; [done|by apply Hj].
Qed.

Lemma fsw_bdwrite b k e s hs V : fsw s ((b, Some k) :: hs) V ->
  exists s', bdwrite b e s = Ret tt e s' /\ fsw s' hs (<[k := bytes s b]> V) /\ kept hs s s'.
Proof.
  intros (AV & CH & W). pose proof (fa_cache _ _ _ _ _ W) as [Hs Hi Hd].
  destruct (fa_first _ _ _ _ _ _ _ W) as (Hp & Hba & Hbc & Hbk & Hkr). pose proof (fa_tape _ _ _ _ _ W) as Ht.
  destruct (bdwrite_ok b e s AV CH Hs Hi Hp Hba Hbc) as (s' & Hr & Hs' & (AV' & Hi' & HA) & Hv & _ & (Hf & _ & E1 & E2 & E3 & E4 & E5) & Ho);
    [by rewrite Hbk|done|].
  exists s'. split; [done|].
  destruct (fa_release b (Some k) s s' hs V (<[k := bytes s b]> V) AV AV' CH) as [W' K]; try done.
  - intros x Hxb HxF. destruct (Hf x) as (_ & _ & _ & _ & ->). split; [by apply Ho|done].
  - intros x. apply Hf.
  - by apply (written_views b k s s' hs V AV CH).
  - split; [|done]. by eexists _, _.
Qed.

Lemma fsw_bwrite b k e s hs V : fsw s ((b, Some k) :: hs) V ->
  exists s', bwrite b e s = Ret tt e s' /\ fsw s' hs (<[k := bytes s b]> V) /\ kept hs s s'.
Proof.
  intros (AV & CH & W). pose proof (fa_cache _ _ _ _ _ W) as [Hs Hi Hd].
  destruct (fa_first _ _ _ _ _ _ _ W) as (Hp & Hba & Hbc & Hbk & Hkr).
  destruct (bwrite_ok b e s AV CH Hs Hi Hp Hba Hbc) as (s' & Hr & [W1 W2 W3 W4 W5 W6 W7 (E1 & E2 & E3 & E4 & E5)]); [by rewrite Hbk|].
  exists s'. split; [done|].
  destruct (fa_release b (Some k) s s' hs V (<[k := bytes s b]> V) AV (AV ++ [b]) CH) as [W' K]; try done.
  - intros x. rewrite elem_of_app, elem_of_cons, elem_of_nil. tauto.
  - intros x. apply W7.
  - by apply (written_views b k s s' hs V AV CH).
  - split; [|done]. by eexists _, _.
Qed.

Lemma fsw_wakeup c e s hs V : fsw s hs V -> exists s', wakeup c e s = Ret tt e s' /\ fsw s' hs V /\ only_run s s'.
Proof.
  intros (AV & CH & W). pose proof (fa_cache _ _ _ _ _ W) as [Hs Hi Hd].
  destruct (wakeup_sq c e s Hs) as (s' & Hr & Hs' & Ho). exists s'. split_and!; try done. exists AV, CH.
  destruct Ho as ((Eu & Ek & _) & _). assert (Hk : same_kb s s') by (unfold same_kb; by rewrite Ek).
  destruct W as [_ W2 W3 W4 W5 W6 W7 W9 W8]. unfold has, flg, blk, buf_at in *. split; try done.
  - split; [done|by apply (binv_same_kb s)|by rewrite Ek].
  - unfold has, buf_at. by rewrite Ek.
  - intros b k Hb. unfold blk, buf_at. rewrite Ek. by apply W6.
  - intros b k Hb. unfold flg, buf_at. rewrite Ek. by apply W9 with k.
  - intros k Hdl. rewrite (view_same_kb s s') by done. apply W8. intros x Hx. specialize (Hdl x Hx). unfold flg, buf_at in Hdl. by rewrite Ek in Hdl.
Qed.

Lemma fsw_set s hs V b l : fsw s hs V -> b ∈ held_bufs hs -> length l = 512%nat -> fsw (set_bytes b l s) hs V.
Proof.
  intros (AV & CH & W) Hb Hl. exists AV, CH. pose proof (fa_cache _ _ _ _ _ W) as [Hs Hi Hd].
  assert (Hp : pool b) by (by apply (fa_pool _ _ _ _ _ W)). pose proof (fa_busy _ _ _ _ _ W b Hb) as Hba.
  assert (Ho : one_buf b s (set_bytes b l s)).
  { split; try done. intros x Hx _. split; [done|]. by apply set_bytes_ne. }
  assert (Hi' : binv (set_bytes b l s) AV CH).
  { apply (binv_one b s); try done; try rewrite set_bytes_flg.
    - by rewrite set_bytes_same.
    - by apply (busy_flag s AV CH).
    - by apply (bi_err _ _ _ Hi).
    - by apply (bi_dirty _ _ _ Hi). }
  destruct W. split; try done.
  - split; [by apply sq_kp with s|done|done].
  - intros k Hk. rewrite <- fa_view0 by done.
    destruct (view_cases s AV CH k Hi) as [(x & Hx & [Ex Dx] & ->)|[Hn ->]].
    + assert (Hxb : x <> b).
      { intros ->. assert (Hkey : (b, Some k) ∈ hs) by (rewrite <- Ex; apply (fa_key s hs V AV CH); [by split|done|done]).
        specialize (Hk b Hkey). rewrite set_bytes_flg in Hk. congruence. }
      rewrite (view_dirty (set_bytes b l s) AV CH k x); [by apply set_bytes_ne|done|done|by split].
    + change (rdblk s k) with (rdblk (set_bytes b l s) k). apply view_clean. intros x Hx [Ex Dx]. by apply (Hn x).
Qed.

Lemma fsw_resid s hs V b : fsw s hs V -> b ∈ held_bufs hs -> b_resid (buf_at s b) = 0.
Proof.
  intros (AV & CH & W) Hb. apply resid_at; [|by apply (fa_pool _ _ _ _ _ W)]. exact (bi_resid _ _ _ (fa_inv _ _ _ _ _ W)).
Qed.

Lemma fsw_clr s hs V b : fsw s hs V -> b ∈ held_bufs hs -> fsw (upd_buf b (fun x => x <| b_resid := 0 |>) s) hs V.
Proof.
  intros Hw Hb. pose proof (one_buf_resid b s (fsw_resid s hs V b Hw Hb)) as Ho. destruct Hw as (AV & CH & W).
  set (g := fun x : buf => x <| b_resid := 0 |>) in *. exists AV, CH. pose proof (fa_cache _ _ _ _ _ W) as [Hs Hi Hd].
  assert (Hp : pool b) by (by apply (fa_pool _ _ _ _ _ W)). pose proof (fa_busy _ _ _ _ _ W b Hb) as Hba.
  assert (Ef : forall x, flg (upd_buf b g s) x = flg s x) by (intros x; unfold flg; rewrite buf_upd; by case_decide).
  assert (Hi' : binv (upd_buf b g s) AV CH).
  { apply (binv_one b s); try done; rewrite ?Ef.
    - by apply (bi_len _ _ _ Hi).
    - by apply (busy_flag s AV CH).
    - by apply (bi_err _ _ _ Hi).
    - by apply (bi_dirty _ _ _ Hi). }
  destruct W. split; try done.
  - split; [by apply sq_kp with s|done|done].
  - change (fset (flg (upd_buf b g s) (BTab 0)) B_TAPE = false). by rewrite Ef.
  - intros x k Hx. destruct (ob_id _ _ _ Ho x) as [_ ->]. auto.
  - intros x k Hx. rewrite Ef. eauto.
  - intros k Hk. rewrite <- fa_view0 by (intros x Hx; rewrite <- Ef; auto).
    apply (view_same s (upd_buf b g s) AV AV CH CH); try done.
    + intros x _. by rewrite Ef.
    + intros x _ _. by destruct (ob_id _ _ _ Ho x).
Qed.

#[export] Instance cache_blocks : BlockStore fsw.
Proof.
  split.
  - exact fsw_perm.
  - exact fsw_same.
  - exact fsw_sched.
  - intros s hs V (AV & CH & W). apply W.
  - intros s hs V b (AV & CH & W) Hb. apply (bi_len _ _ _ (fa_inv _ _ _ _ _ W)). by apply (fa_pool _ _ _ _ _ W).
  - intros s hs V b (AV & CH & W) Hb. apply (bi_err _ _ _ (fa_inv _ _ _ _ _ W)). by apply (fa_pool _ _ _ _ _ W).
  - intros s hs V b k (AV & CH & W) Hb. by apply (fa_tab _ _ _ _ _ W).
  - exact fsw_set.
  - exact fsw_resid.
  - exact fsw_clr.
  - exact fsw_wakeup.
  - exact fsw_getblk.
  - exact fsw_bread.
  - exact fsw_breada.
  - exact fsw_brelse.
  - exact fsw_geteblk.
  - exact fsw_release.
  - exact fsw_bdwrite.
  - exact fsw_bwrite.
Qed.

(** The cache with no buffer held. *)
Lemma cache_fsw s CH : cache s (BPool <$> seq 0 NBUF) CH -> has s (BTab 0) B_TAPE = false ->
  fsw_at s [] (view s (CH (BTab 0))) (BPool <$> seq 0 NBUF) CH.
Proof.
  intros Hc Ht. split; try done.
  - by apply NoDup_nil.
  - intros x Hx. by apply elem_of_nil in Hx.
  - intros x (i & -> & Hi). split; [|by intros ?%elem_of_nil]. intros Hn. destruct Hn. apply list_elem_of_fmap. exists i.
    split; [done|]. apply elem_of_seq. lia.
  - intros b k Hx. by apply elem_of_nil in Hx.
  - intros b Hx. by apply elem_of_nil in Hx.
  - intros b k Hx. by apply elem_of_nil in Hx.
Qed.

(** A clean buffer taken off the available list and kept, as [geteblk] does
    for a super block. *)
Lemma fsw_take b s V l1 l2 CH : fsw_at s [] V (l1 ++ b :: l2) CH -> b ∈ CH BFree -> fsw (taken b s) [(b, None)] V.
Proof.
  intros W Hb. exists (l1 ++ l2), CH. destruct (fa_cache _ _ _ _ _ W) as [Hs Hi Hd].
  pose proof (taken_ok b s l1 l2 CH Hi) as Hi'. assert (Hp : pool b) by (apply (bi_chp _ _ _ Hi BFree); [by left|done]).
  destruct (bi_av _ _ _ Hi) as [Hnd _]. apply NoDup_cons in Hnd as [_ Hnd].
  assert (HA : forall x, x ∈ l1 ++ l2 <-> x <> b /\ x ∈ l1 ++ b :: l2) by (intros x; by rewrite <- (rm_mid b l1 l2 Hnd), elem_rm).
  split.
  - split; [by apply taken_sq|done|]. destruct (taken_body b s) as (_ & _ & _ & _ & _ & _ & E). by rewrite (knum_nblk _ _ E).
  - change (fset (flg (taken b s) (BTab 0)) B_TAPE = false). rewrite taken_flg, decide_False; [apply W|].
    intros E. symmetry in E. by apply pool_neq in E.
  - apply NoDup_singleton.
  - intros x Hx. cbn in Hx. rewrite list_elem_of_singleton in Hx. by subst.
  - intros x Hx. rewrite HA. cbn. rewrite list_elem_of_singleton. pose proof (fa_held _ _ _ _ _ W x Hx) as Hh. cbn in Hh.
    rewrite elem_of_nil in Hh. destruct (decide (x = b)), (decide (x ∈ l1 ++ b :: l2)); tauto.
  - intros x k Hx. by rewrite list_elem_of_singleton in Hx.
  - intros x Hx. rewrite list_elem_of_singleton in Hx. by injection Hx as ->.
  - intros x k Hx. by rewrite list_elem_of_singleton in Hx.
  - intros k _. rewrite (taken_view b s (l1 ++ b :: l2) (l1 ++ l2)) by done. apply (fa_view _ _ _ _ _ W).
    intros x Hx. by apply elem_of_nil in Hx.
Qed.

End Discharge.
