(* ===== verification/Codec.v ===== *)
(** Objects in memory and on disk as bytes: big-endian members at fixed
    offsets, as the 68000 and the file system's structures have them. *)
From S2P Require Import Prelude.

(** [n] bytes of [v], the most significant first. *)
Fixpoint be (n : nat) (v : Z) : list Z :=
  match n with
  | O => []
  | S n => u8 (Z.shiftr v (8 * Z.of_nat n)) :: be n v
  end.

Definition unbe (l : list Z) : Z := foldl (fun a b => a * 256 + b) 0 l.

(** [memcpy] of [bs] to offset [off]. *)
Definition splice (off : nat) (bs l : list Z) : list Z := take off l ++ bs ++ drop (off + length bs) l.

(** A member of a structure: its offset, its size and whether it is signed. *)
Record field := Fld { fld_off : nat; fld_len : nat; fld_signed : bool }.

Definition fld_wrap (f : field) (v : Z) : Z :=
  if fld_signed f then swrap (8 * Z.of_nat (fld_len f)) v else uwrap (8 * Z.of_nat (fld_len f)) v.
Definition fget (f : field) (l : list Z) : Z := fld_wrap f (unbe (take (fld_len f) (drop (fld_off f) l))).
Definition fput (f : field) (v : Z) (l : list Z) : list Z := splice (fld_off f) (be (fld_len f) v) l.

Definition isbyte (c : Z) : Prop := 0 <= c < 256.

(** ** Lemmas *)

Lemma length_be n v : length (be n v) = n.
Proof. induction n; simpl; congruence. Qed.

Lemma be_bytes n v : Forall isbyte (be n v).
Proof. induction n as [|n IH]; [done|]. constructor; [apply (uwrap_range 8); lia|done]. Qed.

Lemma unbe_app l1 l2 : unbe (l1 ++ l2) = unbe l1 * 256 ^ Z.of_nat (length l2) + unbe l2.
Proof.
  unfold unbe. rewrite foldl_app. generalize (foldl (fun a b => a * 256 + b) 0 l1) as a.
  induction l2 as [|x l2 IH] using rev_ind; intros a; [simpl; lia|].
  rewrite !foldl_app, length_app, IH. simpl. rewrite Nat2Z.inj_add, Z.pow_add_r by lia. simpl. lia.
Qed.

Lemma unbe_cons x l : unbe (x :: l) = x * 256 ^ Z.of_nat (length l) + unbe l.
Proof. apply (unbe_app [x]). Qed.

Lemma unbe_range l : Forall isbyte l -> 0 <= unbe l < 256 ^ Z.of_nat (length l).
Proof.
  induction 1 as [|x l Hx Hl IH]; [done|]. rewrite unbe_cons. simpl length. rewrite Nat2Z.inj_succ, Z.pow_succ_r by lia.
  unfold isbyte in Hx. nia.
Qed.

Lemma unbe_be n v : unbe (be n v) = uwrap (8 * Z.of_nat n) v.
Proof.
  induction n as [|n IH]; [unfold uwrap; simpl; by rewrite Z.mod_1_r|]. cbn [be]. rewrite unbe_cons, length_be, IH. unfold uwrap.
  rewrite Z.shiftr_div_pow2 by lia. replace (8 * Z.of_nat (S n)) with (8 * Z.of_nat n + 8) by lia.
  rewrite Z.pow_add_r by lia. rewrite Z.rem_mul_r by (try apply Z.pow_nonzero; lia).
  replace (256 ^ Z.of_nat n) with (2 ^ (8 * Z.of_nat n)) by (rewrite Z.pow_mul_r by lia; done). change (2 ^ 8) with 256. lia.
Qed.

Lemma be_unbe l : Forall isbyte l -> be (length l) (unbe l) = l.
Proof.
  induction 1 as [|x l Hx Hl IH]; [done|]. cbn [length be]. pose proof (unbe_range l Hl) as Hr. unfold isbyte in Hx.
  assert (E256 : 2 ^ (8 * Z.of_nat (length l)) = 256 ^ Z.of_nat (length l)) by (rewrite Z.pow_mul_r by lia; done).
  f_equal.
  - rewrite unbe_cons, Z.shiftr_div_pow2, E256 by lia. rewrite Z.div_add_l by lia. rewrite Z.div_small by done.
    rewrite Z.add_0_r. by apply u8_id.
  - transitivity (be (length l) (unbe l)); [|done]. clear IH. rewrite unbe_cons. generalize (unbe l) as r. intros r.
    assert (Hg : forall n, (n <= length l)%nat -> be n (x * 256 ^ Z.of_nat (length l) + r) = be n r).
    { induction n as [|n IHn]; intros Hn; [done|]. cbn [be]. rewrite IHn by lia. f_equal.
      unfold uwrap. rewrite !Z.shiftr_div_pow2 by lia.
      replace (256 ^ Z.of_nat (length l)) with (2 ^ (8 * Z.of_nat n) * 2 ^ 8 * 2 ^ (8 * Z.of_nat (length l) - 8 * Z.of_nat n - 8)).
      - rewrite (Z.mul_assoc x), (Z.mul_assoc x), (Z.mul_comm x), <- !(Z.mul_assoc (2 ^ (8 * Z.of_nat n))), (Z.mul_comm (2 ^ (8 * Z.of_nat n))).
        rewrite Z.div_add_l by (apply Z.pow_nonzero; lia). rewrite (Z.mul_comm x), <- Z.mul_assoc, (Z.mul_comm (2 ^ 8)).
        rewrite Z.add_comm, Z.mod_add; [done|lia].
      - rewrite <- !Z.pow_add_r by lia. rewrite <- E256. f_equal. lia. }
    by apply Hg.
Qed.

Lemma length_splice off bs l : (off + length bs <= length l)%nat -> length (splice off bs l) = length l.
Proof. intros Hl. unfold splice. rewrite !length_app, length_take, length_drop. lia. Qed.

Lemma length_fput f v l : (fld_off f + fld_len f <= length l)%nat -> length (fput f v l) = length l.
Proof. intros Hl. apply length_splice. by rewrite length_be. Qed.

Lemma splice_bytes off bs l : Forall isbyte bs -> Forall isbyte l -> Forall isbyte (splice off bs l).
Proof.
  intros Hb Hl. unfold splice. rewrite !Forall_app. split_and!; [by apply Forall_take|done|by apply Forall_drop].
Qed.

Lemma fput_bytes f v l : Forall isbyte l -> Forall isbyte (fput f v l).
Proof. apply splice_bytes, be_bytes. Qed.

(** The bytes of a part of a spliced list: all new, or all old. *)
Lemma splice_same off bs l : (off + length bs <= length l)%nat -> take (length bs) (drop off (splice off bs l)) = bs.
Proof.
  intros Hl. unfold splice. rewrite drop_app_le by (rewrite length_take; lia). rewrite drop_ge by (rewrite length_take; lia).
  simpl. by rewrite take_app_length.
Qed.

Lemma splice_other off bs l o n : (off + length bs <= length l)%nat -> (o + n <= off \/ off + length bs <= o)%nat ->
  take n (drop o (splice off bs l)) = take n (drop o l).
Proof.
  intros Hl Ho. apply list_eq. intros i. destruct (decide (i < n)%nat); [|by rewrite !lookup_take_ge by lia].
  rewrite !lookup_take_lt, !lookup_drop by done. unfold splice. destruct Ho as [Ho|Ho].
  - rewrite lookup_app_l by (rewrite length_take; lia). by rewrite lookup_take_lt by lia.
  - rewrite lookup_app_r, lookup_app_r by (rewrite ?length_take; lia). rewrite lookup_drop, length_take. f_equal. lia.
Qed.

Lemma fld_wrap_uwrap f v : (0 < fld_len f)%nat -> fld_wrap f (uwrap (8 * Z.of_nat (fld_len f)) v) = fld_wrap f v.
Proof.
  intros Hn. unfold fld_wrap. destruct (fld_signed f).
  - unfold swrap, uwrap. by rewrite Z.mod_mod by (apply Z.pow_nonzero; lia).
  - unfold uwrap. by rewrite Z.mod_mod by (apply Z.pow_nonzero; lia).
Qed.

Lemma fget_same f v l : (0 < fld_len f)%nat -> (fld_off f + fld_len f <= length l)%nat -> fget f (fput f v l) = fld_wrap f v.
Proof.
  intros Hn Hl. unfold fget, fput. pose proof (splice_same (fld_off f) (be (fld_len f) v) l) as E.
  rewrite length_be in E. rewrite E by done. by rewrite unbe_be, fld_wrap_uwrap.
Qed.

(** Members that do not overlap. *)
Definition fld_disj (f g : field) : Prop :=
  (fld_off f + fld_len f <= fld_off g \/ fld_off g + fld_len g <= fld_off f)%nat.

Lemma fget_other f g v l : (fld_off g + fld_len g <= length l)%nat -> fld_disj f g -> fget f (fput g v l) = fget f l.
Proof.
  intros Hl Hd. unfold fget, fput. rewrite splice_other; [done|by rewrite length_be|]. rewrite length_be. unfold fld_disj in Hd. lia.
Qed.

Lemma fld_wrap_id f v :
  (0 < fld_len f)%nat ->
  (if fld_signed f then - 2 ^ (8 * Z.of_nat (fld_len f) - 1) <= v < 2 ^ (8 * Z.of_nat (fld_len f) - 1)
   else 0 <= v < 2 ^ (8 * Z.of_nat (fld_len f))) -> fld_wrap f v = v.
Proof. intros Hn Hv. unfold fld_wrap. destruct (fld_signed f); [apply swrap_id; lia|by apply uwrap_id]. Qed.

(** A spliced range seen through a member, and a member put beside a range. *)
Lemma fget_splice f off bs l : (off + length bs <= length l)%nat ->
  (fld_off f + fld_len f <= off \/ off + length bs <= fld_off f)%nat -> fget f (splice off bs l) = fget f l.
Proof. intros Hl Hd. unfold fget. by rewrite splice_other. Qed.

Lemma drop_splice_same off bs l n i : (off + length bs <= length l)%nat -> (i + n <= length bs)%nat ->
  take n (drop i (drop off (splice off bs l))) = take n (drop i bs).
Proof.
  intros Hl Hi. apply list_eq. intros k. destruct (decide (k < n)%nat); [|by rewrite !lookup_take_ge by lia].
  rewrite !lookup_take_lt, !lookup_drop by done. unfold splice.
  rewrite lookup_app_r by (rewrite length_take; lia). rewrite length_take, lookup_app_l by lia. f_equal. lia.
Qed.

Lemma take_fput_other o n f v l : (fld_off f + fld_len f <= length l)%nat ->
  (o + n <= fld_off f \/ fld_off f + fld_len f <= o)%nat -> take n (drop o (fput f v l)) = take n (drop o l).
Proof. intros Hl Ho. apply splice_other; by rewrite length_be. Qed.

(** Several members put one after the other. *)
Definition fputs (ps : list (field * Z)) (l : list Z) : list Z := foldl (fun l p => fput p.1 p.2 l) l ps.

Definition fits (n : nat) (ps : list (field * Z)) : Prop := Forall (fun p => (fld_off p.1 + fld_len p.1 <= n)%nat) ps.

Lemma length_fputs ps l : fits (length l) ps -> length (fputs ps l) = length l.
Proof.
  revert l. induction ps as [|p ps IH]; intros l Hf; [done|]. inversion_clear Hf as [|? ? Hp Hps]. cbn [fputs foldl].
  transitivity (length (fput p.1 p.2 l)); [|by apply length_fput]. apply IH. unfold fits. by rewrite length_fput.
Qed.

Lemma fget_fputs_other f ps l : fits (length l) ps -> Forall (fun p => fld_disj f p.1) ps -> fget f (fputs ps l) = fget f l.
Proof.
  revert l. induction ps as [|p ps IH]; intros l Hf Hd; [done|].
  inversion_clear Hf as [|? ? Hp Hps]. inversion_clear Hd as [|? ? Hd1 Hd2]. cbn [fputs foldl].
  transitivity (fget f (fput p.1 p.2 l)); [|by apply fget_other]. apply IH; [|done]. unfold fits. by rewrite length_fput.
Qed.

Lemma fget_fputs_same f v ps1 ps2 l : fits (length l) (ps1 ++ (f, v) :: ps2) -> (0 < fld_len f)%nat ->
  Forall (fun p => fld_disj f p.1) ps2 -> fget f (fputs (ps1 ++ (f, v) :: ps2) l) = fld_wrap f v.
Proof.
  intros Hf Hn Hd. unfold fits in Hf. apply Forall_app in Hf as [H1 H2]. inversion_clear H2 as [|? ? H3 H4].
  unfold fputs. rewrite foldl_app. cbn [foldl fst snd]. fold (fputs ps1 l). pose proof (length_fputs ps1 l H1) as Hl.
  cbn [fst] in H3. fold (fputs ps2 (fput f v (fputs ps1 l))).
  rewrite fget_fputs_other by (try done; unfold fits; rewrite length_fput; rewrite Hl; done).
  apply fget_same; [done|by rewrite Hl].
Qed.

Lemma take_fputs_other o n ps l : fits (length l) ps ->
  Forall (fun p => (o + n <= fld_off p.1 \/ fld_off p.1 + fld_len p.1 <= o)%nat) ps ->
  take n (drop o (fputs ps l)) = take n (drop o l).
Proof.
  revert l. induction ps as [|p ps IH]; intros l Hf Hd; [done|].
  inversion_clear Hf as [|? ? Hp Hps]. inversion_clear Hd as [|? ? Hd1 Hd2]. cbn [fputs foldl].
  transitivity (take n (drop o (fput p.1 p.2 l))); [|by apply take_fput_other]. apply IH; [|done]. unfold fits. by rewrite length_fput.
Qed.
