(* ===== verification/Usermem.v ===== *)
(** Access to the memory of the current process: [conf/usermem.c].

    A process owns one page of 256 KB, named by [p_addr]; a user address is an
    offset in it.  [upmem] is the contents of the pages. *)
From S2P Require Import Prelude Malloc Clist Kernel Sched Codec.

Definition CLICK_SIZE : Z := 64.

(** [epoch68_user_range_ok]: [addr] and [count] are [u32]. *)
Definition user_range_ok (addr count : Z) : bool :=
  let start := u32 addr in
  let span := u32 count in
  let end_ := u32 (start + span) in
  if USER_PAGE_SIZE <=? start then false
  else if (end_ <? start) || (USER_PAGE_SIZE <? end_) then false
  else true.

(** [epoch68_user_page] *)
Definition user_page (s : kst) : Z := u8 (p_addr (proc_at s (curproc s))).

(** [epoch68_user_ptr]: the page and the offset, or null. *)
Definition user_ptr (s : kst) (addr count : Z) : option (Z * Z) :=
  if user_range_ok addr count then Some (user_page s, u32 addr) else None.

(** [count] bytes from [a] on. *)
Definition mem_read (mem : Z -> Z) (a : Z) (count : nat) : list Z :=
  mem <$> seqZ a (Z.of_nat count).
Fixpoint mem_write (l : list Z) (a : Z) (mem : Z -> Z) : Z -> Z :=
  match l with
  | [] => mem
  | c :: l => mem_write l (a + 1) (<[a := c]> mem)
  end.

(** A kernel address has no user page behind it. *)
Definition uaddr {A} (c : caddr) (k : Z -> M A) : M A :=
  match c with UA a => k a | KA _ _ => panic "kernel address" end.

(** [None] is the value -1, [Some l] the value 0 with the bytes copied. *)
Definition copyin (from count : Z) : M (option (list Z)) := fun e s =>
  Ret (match user_ptr s from count with
       | None => None
       | Some (pg, a) => Some (mem_read (upmem (ku s) pg) a (Z.to_nat (u32 count)))
       end) e s.

Definition copyout (l : list Z) (to count : Z) : M Z := fun e s =>
  match user_ptr s to count with
  | None => Ret (-1) e s
  | Some (pg, a) =>
      Ret 0 e (s <| ku; upmem ::= fun m => <[pg := mem_write (take (Z.to_nat (u32 count)) l) a (m pg)]> m |>)
  end.

Definition copyiin : Z -> Z -> M (option (list Z)) := copyin.
Definition copyiout : list Z -> Z -> Z -> M Z := copyout.

Definition fubyte (addr : Z) : M Z := fun e s =>
  Ret (match user_ptr s addr 1 with None => -1 | Some (pg, a) => upmem (ku s) pg a end) e s.
Definition fuibyte : Z -> M Z := fubyte.

(** [0xffff] is an [unsigned] of 16 bits, and [~0xffff] is 0. *)
Definition fuword (addr : Z) : M Z := fun e s =>
  Ret (match user_ptr s addr 2 with
       | None => -1
       | Some (pg, a) =>
           let value := Z.lor (Z.shiftl (upmem (ku s) pg a) 8) (upmem (ku s) pg (a + 1)) in
           if fset value 32768 then Z.lor value (u16 (Z.lnot 65535)) else value
       end) e s.
Definition fuiword : Z -> M Z := fuword.

Definition poke (pg a c : Z) (s : kst) : kst := s <| ku; upmem ::= fun m => <[pg := <[a := c]> (m pg)]> m |>.

Definition subyte (addr value : Z) : M Z := fun e s =>
  match user_ptr s addr 1 with
  | None => Ret (-1) e s
  | Some (pg, a) => Ret 0 e (poke pg a (u8 value) s)
  end.
Definition suibyte : Z -> Z -> M Z := subyte.

Definition suword (addr value : Z) : M Z := fun e s =>
  match user_ptr s addr 2 with
  | None => Ret (-1) e s
  | Some (pg, a) =>
      Ret 0 e (poke pg (a + 1) (Z.land value 255) (poke pg a (Z.land (Z.shiftr value 8) 255) s))
  end.
Definition suiword : Z -> Z -> M Z := suword.

Definition clearseg (click : Z) : M unit := fun e s =>
  match user_ptr s (u32 (u32 click * CLICK_SIZE)) CLICK_SIZE with
  | None => Ret tt e s
  | Some (pg, a) =>
      Ret tt e (s <| ku; upmem ::= fun m => <[pg := mem_write (replicate 64 0) a (m pg)]> m |>)
  end.

(** [for (...) *dst++ = *src++]: the areas may overlap. *)
Fixpoint mem_copy (n : nat) (src dst : Z) (mem : Z -> Z) : Z -> Z :=
  match n with
  | O => mem
  | S n => mem_copy n (src + 1) (dst + 1) (<[dst := mem src]> mem)
  end.

Definition copyseg (src_click dst_click : Z) : M unit := fun e s =>
  match user_ptr s (u32 (u32 src_click * CLICK_SIZE)) CLICK_SIZE, user_ptr s (u32 (u32 dst_click * CLICK_SIZE)) CLICK_SIZE with
  | Some (_, a), Some (pg, d) => Ret tt e (s <| ku; upmem ::= fun m => <[pg := mem_copy 64 a d (m pg)]> m |>)
  | _, _ => Ret tt e s
  end.

(** ** Lemmas *)

Lemma user_range_iff addr count : 0 <= addr < 2 ^ 32 -> 0 <= count < 2 ^ 32 ->
  user_range_ok addr count = true <-> addr < USER_PAGE_SIZE /\ addr + count <= USER_PAGE_SIZE.
Proof.
  intros Ha Hc. unfold user_range_ok, USER_PAGE_SIZE. rewrite (u32_id addr), (u32_id count) by lia.
  destruct (Z.leb_spec 262144 addr); [split; [done|lia]|].
  unfold uwrap. destruct (Z_lt_le_dec (addr + count) (2 ^ 32)).
  - rewrite Z.mod_small by lia. destruct (Z.ltb_spec (addr + count) addr); [lia|].
    destruct (Z.ltb_spec 262144 (addr + count)); simpl; split; (done || lia).
  - rewrite <- (Z.mod_add _ (-1)) by done. rewrite Z.mod_small by lia.
    destruct (Z.ltb_spec (addr + count + -1 * 2 ^ 32) addr); [split; [done|lia]|lia].
Qed.

Lemma mem_write_lookup l : forall a mem x,
  mem_write l a mem x = if decide (a <= x < a + Z.of_nat (length l)) then nth (Z.to_nat (x - a)) l 0 else mem x.
Proof.
  induction l as [|c l IH]; intros a mem x; cbn [mem_write length].
  - by rewrite decide_False by lia.
  - rewrite IH. destruct (decide (x = a)) as [->|Hne].
    + rewrite decide_False by lia. rewrite fn_lookup_insert, decide_True by lia. by rewrite Z.sub_diag.
    + rewrite fn_lookup_insert_ne by congruence. destruct (decide (a + 1 <= x < a + 1 + Z.of_nat (length l))).
      * rewrite decide_True by lia. replace (Z.to_nat (x - a)) with (S (Z.to_nat (x - (a + 1)))) by lia. done.
      * by rewrite decide_False by lia.
Qed.

Lemma mem_read_same m m' a n : (forall x, a <= x < a + Z.of_nat n -> m x = m' x) -> mem_read m a n = mem_read m' a n.
Proof. intros E. unfold mem_read. apply list_fmap_ext. intros i x Hi. apply lookup_seqZ in Hi as [-> Hi]. apply E. lia. Qed.

Lemma mem_read_length m a n : length (mem_read m a n) = n.
Proof. unfold mem_read. rewrite length_fmap, length_seqZ. lia. Qed.

Lemma mem_read_at m a n i : (i < n)%nat -> mem_read m a n !! i = Some (m (a + Z.of_nat i)).
Proof. intros Hi. unfold mem_read. rewrite list_lookup_fmap, lookup_seqZ_lt by lia. done. Qed.

Lemma mem_read_take m a n k : (k <= n)%nat -> take k (mem_read m a n) = mem_read m a k.
Proof.
  intros Hk. apply list_eq. intros i. destruct (decide (i < k)%nat).
  - rewrite lookup_take_lt, !mem_read_at by lia. done.
  - rewrite !lookup_ge_None_2; [done|rewrite mem_read_length; lia|rewrite length_take, mem_read_length; lia].
Qed.

Lemma mem_read_move m m' a b n : (forall x, 0 <= x < Z.of_nat n -> m (a + x) = m' (b + x)) -> mem_read m a n = mem_read m' b n.
Proof.
  intros E. apply list_eq. intros i. destruct (decide (i < n)%nat); [rewrite !mem_read_at by done; by rewrite E by lia|].
  rewrite !lookup_ge_None_2; [done|rewrite mem_read_length; lia..].
Qed.

Lemma mem_read_write l a mem : mem_read (mem_write l a mem) a (length l) = l.
Proof.
  unfold mem_read. apply list_eq. intros i. rewrite list_lookup_fmap. destruct (decide (i < length l)%nat).
  - rewrite lookup_seqZ_lt by lia. simpl. rewrite mem_write_lookup, decide_True by lia.
    replace (Z.to_nat (a + Z.of_nat i - a)) with i by lia. symmetry. destruct (nth_lookup_or_length l i 0); [done|lia].
  - rewrite lookup_seqZ_ge by lia. symmetry. apply lookup_ge_None. lia.
Qed.

(** C29. The range check of the user-memory routines is exact: an access of
    [count] bytes at [addr] is allowed if and only if all of it lies in the
    process's page, for every pair of 32-bit values, including those whose sum
    does not fit in 32 bits. *)
Theorem user_range_exact addr count : 0 <= addr < 2 ^ 32 -> 0 <= count < 2 ^ 32 ->
  user_range_ok addr count = true <-> addr < USER_PAGE_SIZE /\ addr + count <= USER_PAGE_SIZE.
Proof. apply user_range_iff. Qed.

(** C30. [copyout] writes the bytes at the user address, where [copyin] finds
    them again, and nothing else: no other byte of the page, no other page. *)
Theorem copyout_copyin l to e s :
  0 <= to < 2 ^ 32 -> Z.of_nat (length l) < 2 ^ 32 -> to < USER_PAGE_SIZE -> to + Z.of_nat (length l) <= USER_PAGE_SIZE ->
  exists s', copyout l to (Z.of_nat (length l)) e s = Ret 0 e s' /\
    copyin to (Z.of_nat (length l)) e s' = Ret (Some l) e s' /\
    (forall pg a, pg <> user_page s \/ a < to \/ to + Z.of_nat (length l) <= a -> upmem (ku s') pg a = upmem (ku s) pg a) /\
    kb s' = kb s /\ kf s' = kf s /\ kp s' = kp s.
Proof.
  intros Ht Hc H1 H2. assert (Hok : user_range_ok to (Z.of_nat (length l)) = true) by (apply user_range_iff; lia).
  unfold copyout, user_ptr. rewrite Hok. rewrite (u32_id (Z.of_nat (length l))), (u32_id to) by lia.
  rewrite Nat2Z.id, take_ge by lia. eexists. split; [reflexivity|].
  set (s' := s <| ku; upmem ::= _ |>). assert (Ep : user_page s' = user_page s) by done. split; [|split_and!; try done].
  - unfold copyin, user_ptr. rewrite Hok, (u32_id (Z.of_nat (length l))), (u32_id to), Nat2Z.id by lia. rewrite Ep. do 2 f_equal.
    assert (Em : upmem (ku s') (user_page s) = mem_write l to (upmem (ku s) (user_page s))).
    { unfold s'. cbn. by rewrite fn_lookup_insert. }
    rewrite Em. apply mem_read_write.
  - intros pg a Ho. unfold s'. cbn. destruct (decide (pg = user_page s)) as [->|Hne].
    + rewrite fn_lookup_insert, mem_write_lookup, decide_False by lia. done.
    + by rewrite fn_lookup_insert_ne by congruence.
Qed.

Lemma user_range_exact_witness : user_range_ok (2 ^ 32 - 1) 2 = false.
Proof.
  destruct (user_range_ok (2 ^ 32 - 1) 2) eqn:E; [|done].
  apply (user_range_exact (2 ^ 32 - 1) 2) in E as [E _]; [|lia|lia]. done.
Defined.

Lemma copyout_copyin_witness : exists s', copyout [1; 2; 3] 262141 3 [] kst0 = Ret 0 [] s' /\ copyin 262141 3 [] s' = Ret (Some [1; 2; 3]) [] s'.
Proof.
  destruct (copyout_copyin [1; 2; 3] 262141 [] kst0) as (s' & H1 & H2 & _); [done|done|done|done|]. by exists s'.
Defined.
