(* ===== verification/Subr.v ===== *)
(** Moving single characters: [passc] and [cpass] of [sys/subr.c], with the
    null entries of the device switches.

    [u_base] points into user memory, or, with [u_segflg] 1, into a kernel
    object: the directory entry [u_dent], the accounting record, or a string. *)
From S2P Require Import Prelude Malloc Clist Kernel Sched Codec Usermem.

(** [*c] and [*c = v] for a kernel address [c]. *)
Definition kload (c : caddr) : M Z := fun e s =>
  match c with
  | KA KDent off => Ret (nth (Z.to_nat off) (u_dent (u s)) 0) e s
  | KA KAcct off => Ret (nth (Z.to_nat off) (acctbuf (kf s)) 0) e s
  | KA KExdata off => Ret (nth (Z.to_nat off) (u_exdata (u s)) 0) e s
  | KA KUser off => Ret (ul_byte (ulay (kx s)) (u s) off) e s
  | KA (KString l) off => Ret (nth (Z.to_nat off) l 0) e s
  | UA _ => Stop (Panicked "kernel address") s
  end.

Definition kstore (c : caddr) (v : Z) : M unit := fun e s =>
  match c with
  | KA KDent off => Ret tt e (upd_u (fun x => x <| u_dent ::= <[Z.to_nat off := u8 v]> |>) s)
  | KA KAcct off => Ret tt e (s <| kf; acctbuf ::= <[Z.to_nat off := u8 v]> |>)
  | KA KExdata off => Ret tt e (upd_u (fun x => x <| u_exdata ::= <[Z.to_nat off := u8 v]> |>) s)
  | _ => Stop (Panicked "kernel address") s
  end.

(** [u.u_count--; u.u_offset++; u.u_base++] *)
Definition advance (n : Z) (x : user) : user :=
  x <| u_base ::= fun b => caddr_add b n |> <| u_offset ::= fun o => i32 (o + n) |> <| u_count ::= fun c => u32 (c - n) |>.

Definition passc (c : Z) : M Z :=
  x ← gets u;
  r ← (if u_segflg x =? 1 then _ ← kstore (u_base x) c; mret 0
       else uaddr (u_base x) (fun a => if negb (u_segflg x =? 0) then suibyte a c else subyte a c));
  if r <? 0 then _ ← seterror EFAULT; mret (-1)
  else
    _ ← modify (upd_u (advance 1));
    x ← gets u;
    mret (if u_count x =? 0 then -1 else 0).

Definition cpass : M Z :=
  x ← gets u;
  if u_count x =? 0 then mret (-1)
  else
    c ← (if u_segflg x =? 1 then kload (u_base x)
         else uaddr (u_base x) (fun a => if u_segflg x =? 0 then fubyte a else fuibyte a));
    if negb (u_segflg x =? 1) && (c <? 0) then _ ← seterror EFAULT; mret (-1)
    else
      _ ← modify (upd_u (advance 1));
      mret (Z.land c 255).

(** [nodev] and [nulldev] of [sys/subr.c] *)
Definition subr_nodev : M Z := _ ← seterror ENODEV; mret (-1).
Definition nulldev : M Z := mret 0.
