(* ===== verification/Alloc.v ===== *)
(** Free blocks and free i-numbers of a mounted file system: the super block
    and the routines of [sys/alloc.c] that need no inode ([ialloc] and
    [update] are in [Inode] and [Rdwri]).

    The super block of a mounted device is in a buffer of its own, [m_bufp];
    [fp] below is that buffer, and the members of [struct filsys] are parts of
    its 512 bytes. *)
From stdpp Require Import pretty.
From S2P Require Import Prelude Malloc Clist Kernel Sched Dll Sd Bio Codec.

(** ** [struct filsys], [struct fblk] *)

Definition s_isize : field := Fld 0 2 false.
Definition s_fsize : field := Fld 2 4 true.
Definition s_nfree : field := Fld 6 2 true.
Definition s_free (i : nat) : field := Fld (8 + 4 * i) 4 true.
Definition s_ninode : field := Fld 208 2 true.
Definition s_inode (i : nat) : field := Fld (210 + 2 * i) 2 false.
Definition s_flock : field := Fld 410 1 true.
Definition s_ilock : field := Fld 411 1 true.
Definition s_fmod : field := Fld 412 1 true.
Definition s_ronly : field := Fld 413 1 true.
Definition s_time : field := Fld 414 4 true.
Definition s_tfree : field := Fld 418 4 true.
Definition s_tinode : field := Fld 422 2 false.

Definition df_nfree : field := Fld 0 2 true.
Definition df_free (i : nat) : field := Fld (2 + 4 * i) 4 true.

(** [sizeof(fp->s_free)], and where the arrays start. *)
Definition FREE_BYTES : nat := 200.
Definition FREE_OFF : nat := 8.
Definition DF_OFF : nat := 2.

(** [fp->f] and [fp->f = v] *)
Definition bget (b : bptr) (f : field) (s : kst) : Z := fget f (bdata (kb s) b).
Definition bput (b : bptr) (f : field) (v : Z) (s : kst) : kst :=
  s <| kb; bdata ::= fun d => <[b := fput f v (d b)]> d |>.
(** [bcopy] into a buffer. *)
Definition bsplice (b : bptr) (off : nat) (l : list Z) (s : kst) : kst :=
  s <| kb; bdata ::= fun d => <[b := splice off l (d b)]> d |>.
Definition bpart (b : bptr) (off n : nat) (s : kst) : list Z := take n (drop off (bdata (kb s) b)).

Section Alloc.
Context `{Layout}.

(** [prdev] of [sys/prf.c] *)
Definition prdev (str : string) (dev : Z) : M unit :=
  log (str +:+ " on dev " +:+ pretty (u32 (major dev)) +:+ "/" +:+ pretty (u32 (minor dev))).

Definition getfs (dev : Z) : M bptr :=
  r ← for_find (seq 0 NMOUNT) (fun i =>
    mp ← gets (fun s => mounts (kf s) i);
    match m_bufp mp with
    | Some fp =>
        if m_dev mp =? dev then
          bad ← gets (fun s => (NICFREE <? bget fp s_nfree s) || (NICINOD <? bget fp s_ninode s));
          _ ← when bad (_ ← prdev "bad count" dev; _ ← modify (bput fp s_nfree 0); modify (bput fp s_ninode 0));
          mret (Some fp)
        else mret None
    | None => mret None
    end);
  match r with Some fp => mret fp | None => panic "no fs" end.

Definition badblock (fp : bptr) (bn dev : Z) : M bool :=
  bad ← gets (fun s => (bn <? bget fp s_isize s) || (bget fp s_fsize s <=? bn));
  if bad : bool then _ ← prdev "bad block" dev; mret true else mret false.

(** [while (fp->s_flock) sleep(...)] *)
Definition fs_wait (fp : bptr) : M unit :=
  sleep_while (fun s => negb (bget fp s_flock s =? 0)) id (ChFlock fp) PINOD.

(** The [do ... while] loop of [alloc]; [None] is [goto nospace]. *)
Fixpoint alloc_pop (n : nat) (fp : bptr) (dev : Z) : M (option Z) :=
  match n with
  | O => nofuel
  | S n =>
      nf ← gets (bget fp s_nfree);
      if nf <=? 0 then mret None
      else if NICFREE <? nf then _ ← prdev "Bad free count" dev; mret None
      else
        _ ← modify (bput fp s_nfree (nf - 1));
        bno ← gets (bget fp (s_free (Z.to_nat (nf - 1))));
        if bno =? 0 then mret None
        else
          bad ← badblock fp bno dev;
          if bad : bool then alloc_pop n fp dev else mret (Some bno)
  end.

(** Every turn takes one number off the list. *)
Definition POPFUEL : nat := 52.

Definition nospace (fp : bptr) (dev : Z) : M (option bptr) :=
  _ ← modify (bput fp s_nfree 0);
  _ ← prdev "no space" dev;
  _ ← seterror ENOSPC;
  mret None.

(** The block [bno] holds the next numbers. *)
Definition alloc_refill (fp : bptr) (dev bno : Z) : M unit :=
  _ ← modify (fun s => bput fp s_flock (bget fp s_flock s + 1) s);
  bp ← bread dev bno;
  err ← gets (fun s => has s bp B_ERROR);
  _ ← when (negb err)
        (_ ← modify (fun s => bput fp s_nfree (bget bp df_nfree s) s);
         modify (fun s => bsplice fp FREE_OFF (bpart bp DF_OFF FREE_BYTES s) s));
  _ ← brelse bp;
  _ ← modify (bput fp s_flock 0);
  wakeup (ChFlock fp).

Definition alloc (dev : Z) : M (option bptr) :=
  fp ← getfs dev;
  _ ← fs_wait fp;
  r ← alloc_pop POPFUEL fp dev;
  match r with
  | None => nospace fp dev
  | Some bno =>
      nf ← gets (bget fp s_nfree);
      _ ← when (nf <=? 0) (alloc_refill fp dev bno);
      nf' ← gets (bget fp s_nfree);
      if (nf <=? 0) && (nf' <=? 0) then nospace fp dev
      else
        bp ← getblk dev bno;
        _ ← clrbuf bp;
        _ ← modify (fun s => bput fp s_tfree (bget fp s_tfree s - 1) s);
        _ ← modify (bput fp s_fmod 1);
        mret (Some bp)
  end.

(** The list in the super block is full: it moves to the block [bno]. *)
Definition free_spill (fp : bptr) (dev bno : Z) : M unit :=
  _ ← modify (fun s => bput fp s_flock (bget fp s_flock s + 1) s);
  bp ← getblk dev bno;
  _ ← modify (fun s => bput bp df_nfree (bget fp s_nfree s) s);
  _ ← modify (fun s => bsplice bp DF_OFF (bpart fp FREE_OFF FREE_BYTES s) s);
  _ ← modify (bput fp s_nfree 0);
  _ ← bwrite bp;
  _ ← modify (bput fp s_flock 0);
  wakeup (ChFlock fp).

Definition free (dev bno : Z) : M unit :=
  fp ← getfs dev;
  _ ← modify (bput fp s_fmod 1);
  _ ← fs_wait fp;
  bad ← badblock fp bno dev;
  if bad : bool then mret tt
  else
    nf ← gets (bget fp s_nfree);
    _ ← when (nf <=? 0) (_ ← modify (bput fp s_nfree 1); modify (bput fp (s_free 0) 0));
    nf ← gets (bget fp s_nfree);
    _ ← when (NICFREE <=? nf) (free_spill fp dev bno);
    nf ← gets (bget fp s_nfree);
    _ ← modify (bput fp (s_free (Z.to_nat nf)) bno);
    _ ← modify (bput fp s_nfree (nf + 1));
    _ ← modify (fun s => bput fp s_tfree (bget fp s_tfree s + 1) s);
    modify (bput fp s_fmod 1).

Definition ifree (dev ino : Z) : M unit :=
  fp ← getfs dev;
  _ ← modify (fun s => bput fp s_tinode (bget fp s_tinode s + 1) s);
  _ ← modify (bput fp s_fmod 1);
  il ← gets (bget fp s_ilock);
  ni ← gets (bget fp s_ninode);
  if negb (il =? 0) then mret tt
  else if NICINOD <=? ni then mret tt
  else
    _ ← modify (bput fp (s_inode (Z.to_nat ni)) ino);
    modify (bput fp s_ninode (ni + 1)).

End Alloc.
