(* ===== verification/Freelist.v ===== *)
(** The free blocks of a file system as a stack: what [alloc] and [free] of
    [sys/alloc.c] do to the list that runs through the super block and the
    free blocks themselves.

    The theorems are proved against the contract [BlockStore] of [Blocks]; the
    buffer cache is one implementation of it. *)
From S2P Require Import Prelude Malloc Clist Kernel Sched Dll Sd Bio Cache Blocks Codec Alloc.

(** ** Arrays of 32-bit words in a block *)

Definition words (off n : nat) (l : list Z) : list Z := (fun i => fget (Fld (off + 4 * i) 4 true) l) <$> seq 0 n.
Arguments words : simpl never.

Lemma length_words off n l : length (words off n l) = n.
Proof. unfold words. by rewrite length_fmap, length_seq. Qed.

Lemma lookup_words off n l i : (i < n)%nat -> words off n l !! i = Some (fget (Fld (off + 4 * i) 4 true) l).
Proof. intros Hi. unfold words. by rewrite list_lookup_fmap, lookup_seq_lt. Qed.

Lemma words_eq off off' n l l' : (forall i, (i < n)%nat -> fget (Fld (off + 4 * i) 4 true) l = fget (Fld (off' + 4 * i) 4 true) l') ->
  words off n l = words off' n l'.
Proof. intros E. apply list_fmap_ext. intros i x Hx. apply lookup_seq in Hx as [-> Hi]. by apply E. Qed.

(** A member outside the array. *)
Lemma words_fput_other f v off n l : (fld_off f + fld_len f <= length l)%nat ->
  (fld_off f + fld_len f <= off \/ off + 4 * n <= fld_off f)%nat -> words off n (fput f v l) = words off n l.
Proof. intros Hl Hd. apply words_eq. intros i Hi. apply fget_other; [done|]. unfold fld_disj. cbn. lia. Qed.

Lemma words_fput_same i v off n l : (off + 4 * n <= length l)%nat -> (i < n)%nat ->
  words off n (fput (Fld (off + 4 * i) 4 true) v l) = <[i := i32 v]> (words off n l).
Proof.
  intros Hl Hi. apply list_eq. intros j. destruct (decide (j < n)%nat) as [Hj|Hj].
  - rewrite lookup_words by done. destruct (decide (i = j)) as [->|Hne].
    + rewrite list_lookup_insert_eq by (by rewrite length_words). f_equal. apply (fget_same (Fld (off + 4 * j) 4 true)); cbn; lia.
    + rewrite list_lookup_insert_ne, lookup_words by done. f_equal. apply fget_other; [cbn; lia|]. unfold fld_disj. cbn. lia.
  - rewrite !lookup_ge_None_2; [done| |]; rewrite ?length_insert, length_words; lia.
Qed.

(** [bcopy] of an array. *)
Lemma words_splice off o n l l' : (off + 4 * n <= length l)%nat -> (o + 4 * n <= length l')%nat ->
  words off n (splice off (take (4 * n) (drop o l')) l) = words o n l'.
Proof.
  intros Hl Hl'. assert (Hlen : length (take (4 * n) (drop o l')) = (4 * n)%nat) by (rewrite length_take, length_drop; lia).
  apply words_eq. intros i Hi. unfold fget. cbn [fld_off fld_len]. do 2 f_equal.
  rewrite <- drop_drop, drop_splice_same by lia. apply list_eq. intros j.
  destruct (decide (j < 4)%nat); [|by rewrite !lookup_take_ge by lia].
  rewrite !lookup_take_lt, !lookup_drop by done. rewrite lookup_take_lt by lia. rewrite lookup_drop. f_equal. lia.
Qed.

(** ** The list *)

(** The numbers in the super block and in a block of the list. *)
Definition sb_list (F : list Z) : list Z := take (Z.to_nat (fget s_nfree F)) (words 8 50 F).
Definition fb_list (D : list Z) : list Z := take (Z.to_nat (fget df_nfree D)) (words 2 50 D).

(** [chain V good l L]: the array [l] of the super block, and what it leads to
    in the blocks [V], is the list [L], in the order in which [alloc] takes
    them. *)
Inductive chain (V : Z -> list Z) (good : Z -> Prop) : list Z -> list Z -> Prop :=
  | chain_none : chain V good [] []
  | chain_end l : Forall good l -> chain V good (0 :: l) (rev l)
  | chain_link b l L : good b -> Forall good l -> 0 < fget df_nfree (V b) <= NICFREE -> chain V good (fb_list (V b)) L ->
      chain V good (b :: l) (rev l ++ b :: L).

Lemma chain_good V good l L : chain V good l L -> Forall good L.
Proof.
  induction 1 as [|l Hl|b l L Hb Hl _ _ IH]; [done|by apply Forall_rev|].
  apply Forall_app. split; [by apply Forall_rev|by constructor].
Qed.

(** Only the blocks of the list matter. *)
Lemma chain_ext V V' good l L : chain V good l L -> (forall k, k ∈ L -> V' k = V k) -> chain V' good l L.
Proof.
  induction 1 as [|l Hl|b l L Hb Hl Hn Hc IH]; intros E; [constructor|by constructor|].
  assert (Eb : V' b = V b) by (apply E; set_solver).
  apply chain_link; try done; rewrite Eb; [done|]. apply IH. intros k Hk. apply E. set_solver.
Qed.

(** Taking the last number of the array. *)
Lemma chain_pop V good l x L' : (forall k, good k -> k <> 0) -> chain V good l (x :: L') ->
  exists r, l = r ++ [x] /\ x <> 0 /\ good x /\
    (r <> [] /\ chain V good r L' \/
     r = [] /\ 0 < fget df_nfree (V x) <= NICFREE /\ chain V good (fb_list (V x)) L').
Proof.
  intros Hg Hc. remember (x :: L') as LL eqn:EL. destruct Hc as [|l0 Hl|b l0 L Hb Hl Hn Hch]; [done| |].
  - destruct l0 as [|y l1 _] using rev_ind; [done|]. rewrite rev_unit in EL. injection EL as -> <-.
    apply Forall_app in Hl as [Hl1 Hx]. rewrite Forall_singleton in Hx. exists (0 :: l1). split_and!; [done|by apply Hg|done|].
    left. split; [done|]. by constructor.
  - destruct l0 as [|y l1 _] using rev_ind.
    + injection EL as -> <-. exists []. split_and!; [done|by apply Hg|done|by right].
    + rewrite rev_unit in EL. injection EL as -> <-. apply Forall_app in Hl as [Hl1 Hx]. rewrite Forall_singleton in Hx.
      exists (b :: l1). split_and!; [done|by apply Hg|done|]. left. split; [done|]. by constructor.
Qed.

Lemma chain_empty V good l : chain V good l [] -> l = [] \/ l = [0].
Proof.
  intros Hc. remember [] as LL eqn:EL. destruct Hc as [|l0 Hl|b l0 L Hb Hl Hn Hch]; [by left| |].
  - right. destruct l0 as [|y l1 _] using rev_ind; [done|]. by rewrite rev_unit in EL.
  - by apply app_nil in EL as [_ ?].
Qed.

(** Adding one at the end. *)
Lemma chain_push V good l L k : chain V good l L -> l <> [] -> good k -> chain V good (l ++ [k]) (k :: L).
Proof.
  intros Hc Hl Hk. destruct Hc as [|l0 Hg|b l0 L0 Hb Hg Hn Hch]; [done| |]; cbn [app].
  - rewrite <- rev_unit. constructor. apply Forall_app. by split; [|constructor].
  - change (k :: rev l0 ++ b :: L0) with ((k :: rev l0) ++ b :: L0). rewrite <- rev_unit. constructor; try done.
    apply Forall_app. by split; [|constructor].
Qed.

(** ** The super block *)

(** The super block [F] of a file system with blocks [a] to [z - 1], with the
    free numbers [l]; [fl] is the lock. *)
Record sbs (F : list Z) (a z fl : Z) (l : list Z) : Prop := {
  ss_len : length F = 512%nat;
  ss_isize : fget s_isize F = a;
  ss_fsize : fget s_fsize F = z;
  ss_ninode : fget s_ninode F <= NICINOD;
  ss_flock : fget s_flock F = fl;
  ss_nfree : fget s_nfree F = Z.of_nat (length l);
  ss_list : sb_list F = l
}.

Ltac sb_arith := unfold fld_disj, s_isize, s_fsize, s_nfree, s_ninode, s_flock, s_tfree, s_fmod, df_nfree in *;
  cbn [fld_off fld_len] in *; lia.
Ltac sb_other := rewrite fget_other; [|sb_arith|sb_arith].

Lemma sbs_length F a z fl l : sbs F a z fl l -> (length l <= 50)%nat.
Proof.
  intros [H1 H2 H3 H4 H5 H6 H7]. rewrite <- H7. unfold sb_list. rewrite length_take, length_words. lia.
Qed.

(** A member that plays no part. *)
Lemma sbs_other f v F a z fl l : sbs F a z fl l -> (fld_off f + fld_len f <= 512)%nat ->
  fld_disj s_isize f -> fld_disj s_fsize f -> fld_disj s_ninode f -> fld_disj s_flock f -> fld_disj s_nfree f ->
  (fld_off f + fld_len f <= 8 \/ 208 <= fld_off f)%nat -> sbs (fput f v F) a z fl l.
Proof.
  intros [H1 H2 H3 H4 H5 H6 H7] Hf D1 D2 D3 D4 D5 D6. split; rewrite ?length_fput, ?fget_other by (done || lia); try done.
  unfold sb_list. rewrite fget_other by (done || lia). rewrite words_fput_other by lia. exact H7.
Qed.

Lemma sbs_tfree v F a z fl l : sbs F a z fl l -> sbs (fput s_tfree v F) a z fl l.
Proof. intros Hs. apply sbs_other; [done|sb_arith..]. Qed.
Lemma sbs_fmod v F a z fl l : sbs F a z fl l -> sbs (fput s_fmod v F) a z fl l.
Proof. intros Hs. apply sbs_other; [done|sb_arith..]. Qed.

Lemma sbs_flock v F a z fl l : sbs F a z fl l -> -128 <= v < 128 -> sbs (fput s_flock v F) a z v l.
Proof.
  intros [H1 H2 H3 H4 H5 H6 H7] Hv. split; try (sb_other; done).
  - rewrite length_fput; [done|sb_arith].
  - rewrite fget_same by sb_arith. apply fld_wrap_id; [sb_arith|cbn; lia].
  - unfold sb_list. sb_other. rewrite words_fput_other by sb_arith. exact H7.
Qed.

Lemma sbs_nfree m F a z fl l : sbs F a z fl l -> (m <= 50)%nat ->
  sbs (fput s_nfree (Z.of_nat m) F) a z fl (take m (words 8 50 F)).
Proof.
  intros [H1 H2 H3 H4 H5 H6 H7] Hm.
  assert (E : fget s_nfree (fput s_nfree (Z.of_nat m) F) = Z.of_nat m).
  { rewrite fget_same by sb_arith. apply fld_wrap_id; [sb_arith|cbn; lia]. }
  split; try (sb_other; done).
  - rewrite length_fput; [done|sb_arith].
  - rewrite E, length_take, length_words. lia.
  - unfold sb_list. rewrite E, Nat2Z.id. by rewrite words_fput_other by sb_arith.
Qed.

Lemma sbs_words F a z fl l : sbs F a z fl l -> take (length l) (words 8 50 F) = l.
Proof. intros Hs. destruct Hs as [_ _ _ _ _ H6 H7]. unfold sb_list in H7. by rewrite H6, Nat2Z.id in H7. Qed.

Lemma sbs_pop r x F a z fl : sbs F a z fl (r ++ [x]) ->
  fget (s_free (length r)) F = x /\ sbs (fput s_nfree (Z.of_nat (length r)) F) a z fl r.
Proof.
  intros Hs. pose proof (sbs_length _ _ _ _ _ Hs) as Hl. pose proof (sbs_words _ _ _ _ _ Hs) as Hw.
  rewrite length_app in Hl, Hw. cbn in Hl, Hw. split.
  - assert (E : words 8 50 F !! length r = Some x).
    { rewrite <- (lookup_take_lt _ (length r + 1)) by lia. rewrite Hw. by rewrite lookup_app_r, Nat.sub_diag by lia. }
    rewrite lookup_words in E by lia. by injection E.
  - replace r with (take (length r) (words 8 50 F)) at 2; [by apply (sbs_nfree _ _ _ _ _ (r ++ [x])); [|lia]|].
    transitivity (take (length r) (take (length r + 1) (words 8 50 F))); [by rewrite take_take, Nat.min_l by lia|].
    rewrite Hw. by rewrite take_app_length.
Qed.

Lemma sbs_zero F a z fl l : sbs F a z fl l -> sbs (fput s_nfree 0 F) a z fl [].
Proof. intros Hs. exact (sbs_nfree 0 F a z fl l Hs ltac:(lia)). Qed.

Lemma sbs_push k F a z fl l : sbs F a z fl l -> (length l < 50)%nat -> - 2 ^ 31 <= k < 2 ^ 31 ->
  sbs (fput s_nfree (Z.of_nat (length l) + 1) (fput (s_free (length l)) k F)) a z fl (l ++ [k]).
Proof.
  intros Hs Hl Hk. pose proof Hs as [H1 H2 H3 H4 H5 H6 H7]. set (F1 := fput (s_free (length l)) k F).
  assert (Hw : words 8 50 F1 = <[length l := k]> (words 8 50 F)).
  { unfold F1, s_free. rewrite words_fput_same by lia. by rewrite i32_id. }
  assert (Hs1 : sbs F1 a z fl l).
  { split; try (unfold F1; rewrite fget_other; [done|cbn; lia|unfold fld_disj; cbn; lia]).
    - unfold F1. rewrite length_fput; [done|cbn; lia].
    - unfold sb_list. rewrite Hw. unfold F1. rewrite fget_other; [|cbn; lia|unfold fld_disj; cbn; lia].
      rewrite H6, Nat2Z.id, take_insert_ge by lia. by apply (sbs_words F a z fl). }
  replace (Z.of_nat (length l) + 1) with (Z.of_nat (length l + 1)) by lia.
  replace (l ++ [k]) with (take (length l + 1) (words 8 50 F1)); [by apply (sbs_nfree _ _ _ _ _ l); [|lia]|].
  rewrite Hw, insert_take_drop by (rewrite length_words; lia). rewrite (sbs_words F a z fl) by done. by rewrite take_app_add'.
Qed.

(** The next part of the list, from the block [D]. *)
Lemma sbs_refill D F a z fl l : sbs F a z fl l -> length D = 512%nat -> 0 <= fget df_nfree D <= NICFREE ->
  sbs (splice FREE_OFF (take FREE_BYTES (drop DF_OFF D)) (fput s_nfree (fget df_nfree D) F)) a z fl (fb_list D).
Proof.
  intros Hs HD Hn. unfold NICFREE in Hn. set (m := Z.to_nat (fget df_nfree D)).
  replace (fget df_nfree D) with (Z.of_nat m) by lia. unfold fb_list. fold m.
  pose proof (sbs_nfree m F a z fl l Hs ltac:(lia)) as [H1 H2 H3 H4 H5 H6 H7]. set (F1 := fput s_nfree (Z.of_nat m) F) in *.
  assert (Hlen : length (take FREE_BYTES (drop DF_OFF D)) = 200%nat) by (rewrite length_take, length_drop; unfold FREE_BYTES, DF_OFF; lia).
  assert (Hf : forall f, (fld_off f + fld_len f <= 8 \/ 208 <= fld_off f)%nat ->
    fget f (splice FREE_OFF (take FREE_BYTES (drop DF_OFF D)) F1) = fget f F1).
  { intros f Hf. apply fget_splice; rewrite Hlen; unfold FREE_OFF; lia. }
  split; rewrite ?Hf by sb_arith; try done.
  - rewrite length_splice; [done|]. rewrite Hlen. unfold FREE_OFF. lia.
  - rewrite H6, !length_take, !length_words. lia.
  - unfold sb_list. rewrite Hf by sb_arith. rewrite H6, length_take, length_words, Nat2Z.id.
    assert (E : words 8 50 (splice FREE_OFF (take FREE_BYTES (drop DF_OFF D)) F1) = words 2 50 D) by (apply (words_splice 8 2 50); lia).
    rewrite E. f_equal. lia.
Qed.

(** The array of the super block put into the block [D]. *)
Lemma sbs_spill D F a z fl l : sbs F a z fl l -> length D = 512%nat ->
  let D' := splice DF_OFF (take FREE_BYTES (drop FREE_OFF F)) (fput df_nfree (fget s_nfree F) D) in
  length D' = 512%nat /\ fget df_nfree D' = Z.of_nat (length l) /\ fb_list D' = l.
Proof.
  intros Hs HD D'. pose proof (sbs_length _ _ _ _ _ Hs) as Hl. pose proof Hs as [H1 H2 H3 H4 H5 H6 H7].
  assert (Hlen : length (take FREE_BYTES (drop FREE_OFF F)) = 200%nat) by (rewrite length_take, length_drop; unfold FREE_BYTES, FREE_OFF; lia).
  assert (H1' : length (fput df_nfree (fget s_nfree F) D) = 512%nat) by (rewrite length_fput; [done|sb_arith]).
  assert (E : fget df_nfree D' = Z.of_nat (length l)).
  { unfold D'. rewrite fget_splice; [|rewrite Hlen, H1'; unfold DF_OFF; lia|rewrite Hlen; unfold DF_OFF; sb_arith].
    rewrite fget_same by sb_arith. rewrite H6. apply fld_wrap_id; [sb_arith|cbn; lia]. }
  split_and!; [|done|].
  - unfold D'. rewrite length_splice; [done|]. rewrite Hlen, H1'. unfold DF_OFF. lia.
  - unfold fb_list. rewrite E, Nat2Z.id. transitivity (take (length l) (words 8 50 F)); [f_equal; apply (words_splice 2 8 50); lia|].
    by apply (sbs_words F a z fl).
Qed.

(** ** The operations *)

(** [getfs] of the root device finds the buffer [fp]. *)
Definition mounted_at (s : kst) (fp : bptr) : Prop :=
  exists i, (i < NMOUNT)%nat /\ m_bufp (mounts (kf s) i) = Some fp /\ m_dev (mounts (kf s) i) = 0 /\
    forall j, (j < i)%nat -> m_bufp (mounts (kf s) j) = None \/ m_dev (mounts (kf s) j) <> 0.

(** Everything but the buffer [fp] is as it was. *)
Definition kept_but (fp : bptr) (hs : holding) (s s' : kst) : Prop :=
  (forall x, x ∈ held_bufs hs -> flg s' x = flg s x /\ (x <> fp -> bytes s' x = bytes s x)) /\ rest_kept s s'.

Lemma kept_kept_but fp hs s s' : kept hs s s' -> kept_but fp hs s s'.
Proof. intros [B R]. split; [|done]. intros x Hx. destruct (B x Hx). by split. Qed.

Lemma kept_but_trans fp hs s1 s2 s3 : kept_but fp hs s1 s2 -> kept_but fp hs s2 s3 -> kept_but fp hs s1 s3.
Proof.
  intros [B1 (?&?&?&?&?)] [B2 (?&?&?&?&?)]. split; [|split_and!; congruence].
  intros x Hx. destruct (B1 x Hx) as [F1 E1], (B2 x Hx) as [F2 E2]. split; [congruence|]. intros Hne. by rewrite E2, E1.
Qed.

Lemma kept_but_set fp hs l s : kept_but fp hs s (set_bytes fp l s).
Proof. split; [|done]. intros x Hx. split; [done|]. intros Hne. by apply set_bytes_ne. Qed.

Lemma only_run_kept hs s s' : only_run s s' -> kept hs s s'.
Proof.
  intros ((_ & E2 & E3 & E4 & E5 & _) & E1). split; [|split_and!; try done; by rewrite E2]. intros x _. unfold bytes, flg, buf_at. by rewrite E2.
Qed.

Section Operations.
Context `{Layout} (W : kst -> holding -> (Z -> list Z) -> Prop) `{!BlockStore W}.

(** The file system whose super block is in the held buffer [fp], with blocks
    [a] to [z - 1], of which [L] are free. *)
Record fs_free (s : kst) (hs : holding) (V : Z -> list Z) (fp : bptr) (a z : Z) (L : list Z) : Prop := {
  ff_store : W s hs V;
  ff_fp : (fp, None) ∈ hs;
  ff_mount : mounted_at s fp;
  ff_sb : exists l, sbs (bytes s fp) a z 0 l /\ chain V (fun k => a <= k < z) l L;
  ff_range : 0 < a /\ z <= RD_SIZE;
  ff_nodup : NoDup L;
  ff_free : forall k, k ∈ L -> not_held hs k
}.

Lemma getfs_scan fp F a z l e s : bytes s fp = F -> sbs F a z 0 l ->
  forall n k i, (k <= i)%nat -> (i < k + n)%nat -> m_bufp (mounts (kf s) i) = Some fp -> m_dev (mounts (kf s) i) = 0 ->
  (forall j, (k <= j)%nat -> (j < i)%nat -> m_bufp (mounts (kf s) j) = None \/ m_dev (mounts (kf s) j) <> 0) ->
  for_find (seq k n) (fun i =>
    mp ← gets (fun s => mounts (kf s) i);
    match m_bufp mp with
    | Some fp =>
        if m_dev mp =? 0 then
          bad ← gets (fun s => (NICFREE <? bget fp s_nfree s) || (NICINOD <? bget fp s_ninode s));
          _ ← when bad (_ ← prdev "bad count" 0; _ ← modify (bput fp s_nfree 0); modify (bput fp s_ninode 0));
          mret (Some fp)
        else mret None
    | None => mret None
    end) e s = Ret (Some fp) e s.
Proof.
  intros EF Hs. pose proof (sbs_length _ _ _ _ _ Hs) as Hl. destruct Hs as [_ _ _ H4 _ H6 _].
  induction n as [|n IH]; intros k i Hk Hi Hb Hd Hj; [lia|]. cbn [seq for_find].
  destruct (decide (k = i)) as [->|Hne].
  - msteps. rewrite Hb, Hd, Z.eqb_refl. msteps. unfold bget. fold (bytes s fp). rewrite EF.
    rewrite (proj2 (Z.ltb_ge _ _)) by (rewrite H6; unfold NICFREE; lia). rewrite (proj2 (Z.ltb_ge _ _)) by done. cbn [orb when]. by msteps.
  - msteps. specialize (IH (S k) i ltac:(lia) ltac:(lia) Hb Hd ltac:(intros; apply Hj; lia)).
    destruct (Hj k ltac:(lia) ltac:(lia)) as [->|Hdk]; [msteps; exact IH|].
    destruct (m_bufp (mounts (kf s) k)); [|msteps; exact IH].
    rewrite (proj2 (Z.eqb_neq _ _)) by done. msteps. exact IH.
Qed.

Lemma getfs_ok fp a z l e s : mounted_at s fp -> sbs (bytes s fp) a z 0 l -> getfs 0 e s = Ret fp e s.
Proof.
  intros (i & Hi & Hb & Hd & Hj) Hs. unfold getfs.
  erewrite bind_ret; [|apply (getfs_scan fp _ a z l e s eq_refl Hs NMOUNT 0%nat i); try done; [lia|intros; by apply Hj]]. done.
Qed.

Lemma fs_wait_ok fp a z l e s : sbs (bytes s fp) a z 0 l -> fs_wait fp e s = Ret tt e s.
Proof.
  intros Hs. unfold fs_wait, sleep_while. cbn [sleep_while_f]. msteps.
  change (bget fp s_flock s) with (fget s_flock (bytes s fp)). by rewrite (ss_flock _ _ _ _ _ Hs).
Qed.

Lemma badblock_ok fp a z l k e s : sbs (bytes s fp) a z 0 l -> a <= k < z -> badblock fp k 0 e s = Ret false e s.
Proof.
  intros Hs Hk. unfold badblock. msteps. unfold bget. fold (bytes s fp). rewrite (ss_isize _ _ _ _ _ Hs), (ss_fsize _ _ _ _ _ Hs).
  rewrite (proj2 (Z.ltb_ge _ _)), (proj2 (Z.leb_gt _ _)) by lia. done.
Qed.

(** [alloc_pop] takes the last number of the array. *)
Lemma alloc_pop_ok fp a z r x e s n : sbs (bytes s fp) a z 0 (r ++ [x]) -> x <> 0 -> a <= x < z ->
  alloc_pop (S n) fp 0 e s = Ret (Some x) e (bput fp s_nfree (Z.of_nat (length r)) s).
Proof.
  intros Hs Hx Hk. pose proof (sbs_length _ _ _ _ _ Hs) as Hl. rewrite length_app in Hl. cbn in Hl.
  destruct (sbs_pop r x _ _ _ _ Hs) as [E Hs']. cbn [alloc_pop]. msteps.
  change (bget fp s_nfree s) with (fget s_nfree (bytes s fp)). rewrite (ss_nfree _ _ _ _ _ Hs), length_app. cbn [length].
  rewrite (proj2 (Z.leb_gt _ _)) by lia. rewrite (proj2 (Z.ltb_ge _ _)) by (unfold NICFREE; lia). msteps.
  replace (Z.of_nat (length r + 1) - 1) with (Z.of_nat (length r)) by lia. rewrite Nat2Z.id.
  set (s1 := bput fp s_nfree (Z.of_nat (length r)) s).
  assert (Eb : bytes s1 fp = fput s_nfree (Z.of_nat (length r)) (bytes s fp)) by (apply set_bytes_same).
  assert (E' : bget fp (s_free (length r)) s1 = x).
  { change (fget (s_free (length r)) (bytes s1 fp) = x). rewrite Eb, fget_other; [done| |].
    - rewrite (ss_len _ _ _ _ _ Hs). sb_arith.
    - unfold fld_disj, s_free, s_nfree. cbn [fld_off fld_len]. lia. }
  rewrite E', (proj2 (Z.eqb_neq _ _)) by done. rewrite <- Eb in Hs'.
  rewrite (bind_ret _ _ _ _ _ _ _ (badblock_ok fp a z r x e s1 Hs' Hk)). done.
Qed.

Lemma W_put b f v s hs V : W s hs V -> b ∈ held_bufs hs -> (fld_off f + fld_len f <= 512)%nat -> W (bput b f v s) hs V.
Proof.
  intros Hw Hb Hf. change (W (set_bytes b (fput f v (bytes s b)) s) hs V). apply bs_set; [done|done|].
  pose proof (bs_length s hs V b Hw Hb). rewrite length_fput; lia.
Qed.

Lemma bytes_put b f v s : bytes (bput b f v s) b = fput f v (bytes s b).
Proof. apply set_bytes_same. Qed.
Lemma bytes_splice b off l s : bytes (bsplice b off l s) b = splice off l (bytes s b).
Proof. apply set_bytes_same. Qed.

Lemma kept_but_put fp hs f v s : kept_but fp hs s (bput fp f v s).
Proof. apply (kept_but_set fp hs (fput f v (bytes s fp)) s). Qed.

Lemma held_own fp hs : (fp, None) ∈ hs -> fp ∈ held_bufs hs.
Proof. intros Hf. apply elem_held_bufs. eauto. Qed.

(** The end of [alloc_refill] and [free_spill]: the lock is dropped. *)
Lemma unlock_ok fp a z v l e s hs V : W s hs V -> (fp, None) ∈ hs -> sbs (bytes s fp) a z v l ->
  exists s', (_ ← modify (bput fp s_flock 0); wakeup (ChFlock fp)) e s = Ret tt e s' /\
    W s' hs V /\ sbs (bytes s' fp) a z 0 l /\ kept_but fp hs s s'.
Proof.
  intros Hw Hfp Hs. pose proof (held_own _ _ Hfp) as Hh. msteps.
  destruct (bs_wakeup (ChFlock fp) e (bput fp s_flock 0 s) hs V) as (s' & Hr & Hw' & Ho); [apply W_put; [done|done|sb_arith]|].
  exists s'. split; [done|]. split; [done|]. pose proof (only_run_kept hs _ _ Ho) as K. split.
  - destruct K as [K _]. destruct (K fp Hh) as [-> _]. rewrite bytes_put. apply sbs_flock with v; [done|lia].
  - apply kept_but_trans with (bput fp s_flock 0 s); [apply kept_but_put|by apply kept_kept_but].
Qed.

(** The lock taken. *)
Lemma lock_ok fp a z l s hs V : W s hs V -> (fp, None) ∈ hs -> sbs (bytes s fp) a z 0 l ->
  let s' := bput fp s_flock (bget fp s_flock s + 1) s in
  W s' hs V /\ sbs (bytes s' fp) a z 1 l /\ kept_but fp hs s s'.
Proof.
  intros Hw Hfp Hs s'. split; [apply W_put; [done|by apply held_own|sb_arith]|]. split; [|apply kept_but_put].
  unfold s'. rewrite bytes_put. change (bget fp s_flock s) with (fget s_flock (bytes s fp)). rewrite (ss_flock _ _ _ _ _ Hs).
  apply (sbs_flock 1 _ _ _ _ _ Hs). lia.
Qed.

Lemma alloc_refill_ok fp a z l x e s hs V : W s hs V -> (fp, None) ∈ hs -> sbs (bytes s fp) a z 0 l ->
  0 <= x < RD_SIZE -> not_held hs x -> (length hs < NBUF)%nat -> 0 <= fget df_nfree (V x) <= NICFREE ->
  exists s', alloc_refill fp 0 x e s = Ret tt e s' /\ W s' hs V /\ sbs (bytes s' fp) a z 0 (fb_list (V x)) /\
    kept_but fp hs s s'.
Proof.
  intros Hw Hfp Hs Hx Hn Hl Hnf. pose proof (held_own _ _ Hfp) as Hh.
  destruct (lock_ok fp a z l s hs V Hw Hfp Hs) as (Hw1 & Hs1 & K1). unfold alloc_refill. msteps.
  set (s1 := bput fp s_flock _ s) in *.
  destruct (bs_bread e x s1 hs V Hw1 Hx Hn Hl) as (b & s2 & Hr2 & Hw2 & K2 & Eb & Hdn). rewrite (bind_ret _ _ _ _ _ _ _ Hr2). msteps.
  assert (Hbh : b ∈ held_bufs ((b, Some x) :: hs)) by (by left).
  rewrite (bs_noerror s2 _ V b Hw2 Hbh). cbn [negb when]. msteps.
  pose proof (bs_nodup s2 _ V Hw2) as Hnd. unfold held_bufs in Hnd. cbn in Hnd. apply NoDup_cons in Hnd as [Hbn _].
  assert (Hne : fp <> b) by (by intros ->). pose proof (bs_length s2 _ V b Hw2 Hbh) as HlD. rewrite Eb in HlD.
  destruct (proj1 K2 fp Hh) as [Efp Ffp]. rewrite <- Efp in Hs1.
  set (s3 := bput fp s_nfree (bget b df_nfree s2) s2).
  assert (E3 : bytes s3 b = V x) by (unfold s3; change (bytes (set_bytes fp (fput s_nfree (bget b df_nfree s2) (bytes s2 fp)) s2) b = V x); by rewrite set_bytes_ne).
  set (s4 := bsplice fp FREE_OFF (bpart b DF_OFF FREE_BYTES s3) s3).
  assert (E4 : bytes s4 fp = splice FREE_OFF (take FREE_BYTES (drop DF_OFF (V x))) (fput s_nfree (fget df_nfree (V x)) (bytes s2 fp))).
  { unfold s4. rewrite bytes_splice. unfold bpart. fold (bytes s3 b). rewrite E3. unfold s3. rewrite bytes_put.
    unfold bget. fold (bytes s2 b). by rewrite Eb. }
  assert (Hs4 : sbs (bytes s4 fp) a z 1 (fb_list (V x))) by (rewrite E4; by apply sbs_refill with l).
  assert (Hw4 : W s4 ((b, Some x) :: hs) V).
  { apply (bs_set s3 _ V fp (splice FREE_OFF (bpart b DF_OFF FREE_BYTES s3) (bytes s3 fp))).
    - apply W_put; [done|by right|sb_arith].
    - by right.
    - rewrite <- bytes_splice. apply (ss_len _ _ _ _ _ Hs4). }
  assert (Eb4 : bytes s4 b = V x).
  { rewrite <- E3. unfold s4. apply (set_bytes_ne fp b (splice FREE_OFF (bpart b DF_OFF FREE_BYTES s3) (bytes s3 fp)) s3). done. }
  destruct (bs_brelse b x e s4 hs V Hw4 Eb4 Hdn) as (s5 & Hr5 & Hw5 & K5 & _). rewrite (bind_ret _ _ _ _ _ _ _ Hr5).
  destruct (proj1 K5 fp Hh) as [Efp5 _]. rewrite <- Efp5 in Hs4.
  destruct (unlock_ok fp a z 1 (fb_list (V x)) e s5 hs V Hw5 Hfp Hs4) as (s6 & Hr6 & Hw6 & Hs6 & K6).
  exists s6. split; [exact Hr6|]. split; [done|]. split; [done|].
  apply kept_but_trans with s1; [done|]. apply kept_but_trans with s2; [by apply kept_kept_but|].
    apply kept_but_trans with s3; [apply kept_but_put|]. apply kept_but_trans with s4; [apply (kept_but_set fp hs _ s3)|].
    apply kept_but_trans with s5; [by apply kept_kept_but|done].
Qed.

Lemma kept_set_other b l hs s : b ∉ held_bufs hs -> kept hs s (set_bytes b l s).
Proof.
  intros Hb. split; [|done]. intros x Hx. split; [|done]. apply set_bytes_ne. by intros ->.
Qed.

Lemma kept_resid b v hs s : kept hs s (upd_buf b (fun x => x <| b_resid := v |>) s).
Proof. split; [|done]. intros x _. split; [done|]. unfold flg. rewrite buf_upd. by case_decide. Qed.

(** The cleared buffer [alloc] returns. *)
Definition alloc_take (fp : bptr) (x : Z) : M (option bptr) :=
  bp ← getblk 0 x;
  _ ← clrbuf bp;
  _ ← modify (fun s => bput fp s_tfree (bget fp s_tfree s - 1) s);
  _ ← modify (bput fp s_fmod 1);
  mret (Some bp).

Lemma alloc_take_ok fp a z l x e s hs V : W s hs V -> (fp, None) ∈ hs -> sbs (bytes s fp) a z 0 l ->
  0 <= x < RD_SIZE -> not_held hs x -> (length hs < NBUF)%nat ->
  exists b s', alloc_take fp x e s = Ret (Some b) e s' /\ W s' ((b, Some x) :: hs) V /\ sbs (bytes s' fp) a z 0 l /\
    kept_but fp hs s s' /\ bytes s' b = replicate 512 0.
Proof.
  intros Hw Hfp Hs Hx Hn Hl. pose proof (held_own _ _ Hfp) as Hh.
  destruct (bs_getblk e x s hs V Hw Hx Hn Hl) as (b & s1 & Hr1 & Hw1 & K1 & _). unfold alloc_take. rewrite (bind_ret _ _ _ _ _ _ _ Hr1).
  pose proof (bs_nodup s1 _ V Hw1) as Hnd. unfold held_bufs in Hnd. cbn in Hnd. apply NoDup_cons in Hnd as [Hbn _].
  assert (Hne : fp <> b) by (by intros ->). assert (Hbh : b ∈ held_bufs ((b, Some x) :: hs)) by (by left).
  pose proof (bs_length s1 _ V b Hw1 Hbh) as HlD. unfold clrbuf. msteps.
  set (s2 := set_bytes b (replicate 512 0 ++ drop 512 (bytes s1 b)) s1).
  set (s3 := upd_buf b (fun x => x <| b_resid := 0 |>) s2).
  set (s4 := bput fp s_tfree (bget fp s_tfree s3 - 1) s3). set (s5 := bput fp s_fmod 1 s4).
  assert (E2 : bytes s2 b = replicate 512 0) by (unfold s2; rewrite set_bytes_same, drop_ge by lia; by rewrite app_nil_r).
  assert (Hw2 : W s2 ((b, Some x) :: hs) V).
  { apply bs_set; [done|done|]. rewrite <- (set_bytes_same b (replicate 512 0 ++ drop 512 (bytes s1 b)) s1). fold s2. by rewrite E2. }
  assert (Hw5 : W s5 ((b, Some x) :: hs) V).
  { apply W_put; [|by right|sb_arith]. apply W_put; [|by right|sb_arith]. by apply bs_clr. }
  assert (E5 : bytes s5 fp = fput s_fmod 1 (fput s_tfree (bget fp s_tfree s3 - 1) (bytes s1 fp))).
  { unfold s5. rewrite bytes_put. unfold s4. rewrite bytes_put. do 2 f_equal. change (bytes s2 fp = bytes s1 fp). by apply set_bytes_ne. }
  destruct (proj1 K1 fp Hh) as [Efp _]. rewrite <- Efp in Hs.
  exists b, s5. split; [reflexivity|]. split; [done|]. split; [rewrite E5; by apply sbs_fmod, sbs_tfree|]. split.
  - apply kept_but_trans with s1; [by apply kept_kept_but|]. apply kept_but_trans with s2; [apply kept_kept_but; by apply kept_set_other|].
    apply kept_but_trans with s3; [apply kept_kept_but, kept_resid|]. apply kept_but_trans with s4; apply kept_but_put.
  - transitivity (bytes s4 b); [apply (set_bytes_ne fp b (fput s_fmod 1 (bytes s4 fp)) s4 Hne)|].
    transitivity (bytes s3 b); [apply (set_bytes_ne fp b (fput s_tfree (bget fp s_tfree s3 - 1) (bytes s3 fp)) s3 Hne)|]. exact E2.
Qed.

Lemma nospace_ok fp a z l e s hs V : W s hs V -> (fp, None) ∈ hs -> sbs (bytes s fp) a z 0 l ->
  exists s', nospace fp 0 e s = Ret None e s' /\ W s' hs V /\ sbs (bytes s' fp) a z 0 [] /\ uerror s' = ENOSPC /\
    kf s' = kf s /\ forall x, x <> fp -> bytes s' x = bytes s x.
Proof.
  intros Hw Hfp Hs. pose proof (held_own _ _ Hfp) as Hh. unfold nospace, prdev, log, seterror. msteps. eexists. split; [reflexivity|].
  split.
  { apply (bs_same (bput fp s_nfree 0 s)); [|done|done|done]. apply W_put; [done|done|sb_arith]. }
  split; [|split; [|split; [done|]]].
  - match goal with |- sbs ?B _ _ _ _ => change B with (bytes (bput fp s_nfree 0 s) fp) end. rewrite bytes_put. by apply sbs_zero with l.
  - unfold uerror. rewrite u_upd_u. reflexivity.
  - intros x Hx. match goal with |- ?B = _ => change B with (bytes (set_bytes fp (fput s_nfree 0 (bytes s fp)) s) x) end.
    by apply set_bytes_ne.
Qed.

Lemma sbs_reset F a z fl l : sbs F a z fl l -> sbs (fput (s_free 0) 0 (fput s_nfree 1 F)) a z fl [0].
Proof.
  intros Hs. destruct (sbs_nfree 1 F a z fl l Hs ltac:(lia)) as [H1 H2 H3 H4 H5 H6 H7].
  change (Z.of_nat 1) with 1 in *. set (F1 := fput s_nfree 1 F) in *. rewrite length_take, length_words in H6. clearbody F1.
  assert (Hw : words 8 50 (fput (s_free 0) 0 F1) = <[0%nat := 0]> (words 8 50 F1)) by (apply (words_fput_same 0 0); lia).
  split; try (rewrite fget_other; [done|cbn; lia|unfold fld_disj; cbn; lia]).
  - rewrite length_fput; [done|cbn; lia].
  - unfold sb_list. rewrite fget_other, H6, Hw; [|cbn; lia|unfold fld_disj; cbn; lia].
    destruct (words 8 50 F1) eqn:E; [|done]. apply (f_equal length) in E. by rewrite length_words in E.
Qed.

Lemma free_spill_ok fp a z l k e s hs V : W s hs V -> (fp, None) ∈ hs -> sbs (bytes s fp) a z 0 l ->
  0 <= k < RD_SIZE -> not_held hs k -> (length hs < NBUF)%nat ->
  exists s' D, free_spill fp 0 k e s = Ret tt e s' /\ W s' hs (<[k := D]> V) /\ sbs (bytes s' fp) a z 0 [] /\
    fget df_nfree D = Z.of_nat (length l) /\ fb_list D = l /\ kept_but fp hs s s'.
Proof.
  intros Hw Hfp Hs Hk Hn Hl. pose proof (held_own _ _ Hfp) as Hh.
  destruct (lock_ok fp a z l s hs V Hw Hfp Hs) as (Hw1 & Hs1 & K1). unfold free_spill. msteps.
  set (s1 := bput fp s_flock _ s) in *.
  destruct (bs_getblk e k s1 hs V Hw1 Hk Hn Hl) as (b & s2 & Hr2 & Hw2 & K2 & _). rewrite (bind_ret _ _ _ _ _ _ _ Hr2). msteps.
  assert (Hbh : b ∈ held_bufs ((b, Some k) :: hs)) by (by left).
  pose proof (bs_nodup s2 _ V Hw2) as Hnd. unfold held_bufs in Hnd. cbn in Hnd. apply NoDup_cons in Hnd as [Hbn _].
  assert (Hne : b <> fp) by (by intros ->). pose proof (bs_length s2 _ V b Hw2 Hbh) as HlD.
  destruct (proj1 K2 fp Hh) as [Efp _]. rewrite <- Efp in Hs1.
  set (s3 := bput b df_nfree (bget fp s_nfree s2) s2).
  assert (E3 : bytes s3 fp = bytes s2 fp) by (apply (set_bytes_ne b fp (fput df_nfree (bget fp s_nfree s2) (bytes s2 b)) s2 Hne)).
  set (s4 := bsplice b DF_OFF (bpart fp FREE_OFF FREE_BYTES s3) s3).
  assert (E4 : bytes s4 fp = bytes s2 fp).
  { rewrite <- E3. apply (set_bytes_ne b fp (splice DF_OFF (bpart fp FREE_OFF FREE_BYTES s3) (bytes s3 b)) s3 Hne). }
  set (D := splice DF_OFF (take FREE_BYTES (drop FREE_OFF (bytes s2 fp))) (fput df_nfree (fget s_nfree (bytes s2 fp)) (bytes s2 b))).
  assert (ED : bytes s4 b = D).
  { unfold s4. rewrite bytes_splice. unfold bpart. fold (bytes s3 fp). rewrite E3. unfold s3. by rewrite bytes_put. }
  destruct (sbs_spill (bytes s2 b) (bytes s2 fp) a z 1 l Hs1 HlD) as (HDl & HDn & HDf). fold D in HDl, HDn, HDf.
  set (s5 := bput fp s_nfree 0 s4).
  assert (E5 : bytes s5 b = D) by (rewrite <- ED; apply (set_bytes_ne fp b (fput s_nfree 0 (bytes s4 fp)) s4); by intros ->).
  assert (Hs5 : sbs (bytes s5 fp) a z 1 []) by (unfold s5; rewrite bytes_put, E4; by apply sbs_zero with l).
  assert (Hw5 : W s5 ((b, Some k) :: hs) V).
  { apply W_put; [|by right|sb_arith]. apply (bs_set s3 _ V b (splice DF_OFF (bpart fp FREE_OFF FREE_BYTES s3) (bytes s3 b))).
    - apply W_put; [done|done|sb_arith].
    - done.
    - rewrite <- bytes_splice. change (length (bytes s4 b) = 512%nat). by rewrite ED. }
  destruct (bs_bwrite b k e s5 hs V Hw5) as (s6 & Hr6 & Hw6 & K6). rewrite E5 in Hw6. rewrite (bind_ret _ _ _ _ _ _ _ Hr6).
  destruct (proj1 K6 fp Hh) as [Efp6 _]. rewrite <- Efp6 in Hs5.
  destruct (unlock_ok fp a z 1 [] e s6 hs _ Hw6 Hfp Hs5) as (s7 & Hr7 & Hw7 & Hs7 & K7).
  exists s7, D. split; [exact Hr7|]. split; [done|]. split; [done|]. split; [done|]. split; [done|].
  apply kept_but_trans with s1; [done|]. apply kept_but_trans with s2; [by apply kept_kept_but|].
  apply kept_but_trans with s3; [apply kept_kept_but, (kept_set_other b _ hs s2 Hbn)|].
  apply kept_but_trans with s4; [apply kept_kept_but, (kept_set_other b _ hs s3 Hbn)|].
  apply kept_but_trans with s5; [apply kept_but_put|].
  apply kept_but_trans with s6; [by apply kept_kept_but|done].
Qed.

(** ** The stack *)

Lemma mounted_kept s s' fp : kf s' = kf s -> mounted_at s fp -> mounted_at s' fp.
Proof. unfold mounted_at. by intros ->. Qed.

Lemma alloc_some fp a z x L e s hs V : fs_free s hs V fp a z (x :: L) -> (length hs < NBUF)%nat ->
  exists b s', alloc 0 e s = Ret (Some b) e s' /\ fs_free s' ((b, Some x) :: hs) V fp a z L /\
    bytes s' b = replicate 512 0 /\ kept_but fp hs s s'.
Proof.
  intros [Hw Hfp Hm (l & Hs & Hc) [Ha Hz] Hnd Hf] Hl. pose proof (held_own _ _ Hfp) as Hh.
  destruct (chain_pop V (fun k => a <= k < z) l x L ltac:(cbv beta; intros; lia) Hc) as (r & -> & Hx0 & Hx & Hcase).
  assert (Hxn : not_held hs x) by (apply Hf; by left).
  apply NoDup_cons in Hnd as [Hxl Hnd].
  unfold alloc. rewrite (bind_ret _ _ _ _ _ _ _ (getfs_ok fp a z _ e s Hm Hs)), (bind_ret _ _ _ _ _ _ _ (fs_wait_ok fp a z _ e s Hs)).
  rewrite (bind_ret _ _ _ _ _ _ _ (alloc_pop_ok fp a z r x e s 51 Hs Hx0 Hx)).
  destruct (sbs_pop r x _ _ _ _ Hs) as [_ Hs1]. set (s1 := bput fp s_nfree (Z.of_nat (length r)) s).
  assert (E1 : bytes s1 fp = fput s_nfree (Z.of_nat (length r)) (bytes s fp)) by apply bytes_put. rewrite <- E1 in Hs1.
  assert (Hw1 : W s1 hs V) by (apply W_put; [done|done|sb_arith]).
  assert (K1 : kept_but fp hs s s1) by apply kept_but_put. msteps.
  assert (En : forall st l, sbs (bytes st fp) a z 0 l -> bget fp s_nfree st = Z.of_nat (length l)).
  { intros st l Hst. apply (ss_nfree _ _ _ _ _ Hst). }
  assert (Hend : forall s2 l2, W s2 hs V -> sbs (bytes s2 fp) a z 0 l2 -> chain V (fun k => a <= k < z) l2 L -> kept_but fp hs s s2 ->
    exists b s', alloc_take fp x e s2 = Ret (Some b) e s' /\ fs_free s' ((b, Some x) :: hs) V fp a z L /\
      bytes s' b = replicate 512 0 /\ kept_but fp hs s s').
  { intros s2 l2 Hw2 Hs2 Hc2 K2.
    destruct (alloc_take_ok fp a z l2 x e s2 hs V Hw2 Hfp Hs2 ltac:(lia) Hxn Hl) as (b & s3 & Hr3 & Hw3 & Hs3 & K3 & Eb).
    pose proof (kept_but_trans _ _ _ _ _ K2 K3) as K. exists b, s3. split; [done|]. split; [|done]. split; try done.
    - by right.
    - apply (mounted_kept s); [apply K|done].
    - by exists l2.
    - intros k Hk b'. intros [[= -> ->]|Hb']%elem_of_cons; [done|]. apply (Hf k) with b'; [by right|done]. }
  rewrite (En s1 r) by done. destruct Hcase as [[Hr Hcr]|(-> & Hnf & Hcx)].
  - assert (0 < length r)%nat by (destruct r; [done|cbn; lia]). rewrite (proj2 (Z.leb_gt _ _)) by lia. cbn [when andb]. msteps.
    by apply (Hend s1 r).
  - cbn [length Z.of_nat Z.leb Z.compare when andb].
    destruct (alloc_refill_ok fp a z [] x e s1 hs V Hw1 Hfp Hs1 ltac:(lia) Hxn Hl ltac:(lia)) as (s2 & Hr2 & Hw2 & Hs2 & K2).
    rewrite (bind_ret _ _ _ _ _ _ _ Hr2). msteps. rewrite (En s2 _ Hs2).
    assert (Hlen : (0 < length (fb_list (V x)))%nat) by (unfold fb_list; rewrite length_take, length_words; lia).
    rewrite (proj2 (Z.leb_gt (Z.of_nat (length (fb_list (V x)))) 0)), andb_false_r by lia. apply (Hend s2 (fb_list (V x))); try done. by apply kept_but_trans with s1.
Qed.

(** [alloc_pop] of an array with nothing in it, or only the end mark. *)
Lemma alloc_pop_none fp a z l e s hs V n : W s hs V -> (fp, None) ∈ hs -> sbs (bytes s fp) a z 0 l -> l = [] \/ l = [0] ->
  exists s', alloc_pop (S n) fp 0 e s = Ret None e s' /\ W s' hs V /\ sbs (bytes s' fp) a z 0 [] /\ kept_but fp hs s s'.
Proof.
  intros Hw Hfp Hs Hl. cbn [alloc_pop]. msteps. change (bget fp s_nfree s) with (fget s_nfree (bytes s fp)).
  rewrite (ss_nfree _ _ _ _ _ Hs). destruct Hl as [-> | ->].
  - exists s. cbn. by split_and!.
  - destruct (sbs_pop [] 0 _ _ _ _ Hs) as [E Hs']. change (Z.of_nat (length [0])) with 1. cbn [Z.leb Z.compare].
    change (NICFREE <? 1) with false. cbv iota. msteps. change (1 - 1) with 0. change (Z.to_nat 0) with 0%nat.
    set (s1 := bput fp s_nfree 0 s). assert (Eb : bytes s1 fp = fput s_nfree 0 (bytes s fp)) by apply bytes_put.
    assert (E' : bget fp (s_free 0) s1 = 0).
    { change (fget (s_free 0) (bytes s1 fp) = 0). rewrite Eb, fget_other; [exact E| |].
      - rewrite (ss_len _ _ _ _ _ Hs). sb_arith.
      - unfold fld_disj, s_free, s_nfree. cbn [fld_off fld_len]. lia. }
    rewrite E', Z.eqb_refl. exists s1. split; [done|]. split; [apply W_put; [done|by apply held_own|sb_arith]|].
    split; [by rewrite Eb|apply kept_but_put].
Qed.

Lemma alloc_none fp a z e s hs V : fs_free s hs V fp a z [] ->
  exists s', alloc 0 e s = Ret None e s' /\ fs_free s' hs V fp a z [] /\ uerror s' = ENOSPC.
Proof.
  intros [Hw Hfp Hm (l & Hs & Hc) [Ha Hz] Hnd Hf].
  unfold alloc. rewrite (bind_ret _ _ _ _ _ _ _ (getfs_ok fp a z _ e s Hm Hs)), (bind_ret _ _ _ _ _ _ _ (fs_wait_ok fp a z _ e s Hs)).
  destruct (alloc_pop_none fp a z l e s hs V 51 Hw Hfp Hs (chain_empty _ _ _ Hc)) as (s1 & Hr1 & Hw1 & Hs1 & K1).
  rewrite (bind_ret _ _ _ _ _ _ _ Hr1). destruct (nospace_ok fp a z [] e s1 hs V Hw1 Hfp Hs1) as (s2 & Hr2 & Hw2 & Hs2 & Eu & Ek & _).
  exists s2. split; [done|]. split; [|done]. split; try done.
  - apply (mounted_kept s); [|done]. rewrite Ek. apply K1.
  - exists []. split; [done|constructor].
Qed.

(** The number [k] added to an array with room. *)
Definition free_add (fp : bptr) (k : Z) : M unit :=
  nf ← gets (bget fp s_nfree);
  _ ← modify (bput fp (s_free (Z.to_nat nf)) k);
  _ ← modify (bput fp s_nfree (nf + 1));
  _ ← modify (fun s => bput fp s_tfree (bget fp s_tfree s + 1) s);
  modify (bput fp s_fmod 1).

Lemma free_add_ok fp a z l k e s hs V : W s hs V -> (fp, None) ∈ hs -> sbs (bytes s fp) a z 0 l -> (length l < 50)%nat ->
  - 2 ^ 31 <= k < 2 ^ 31 ->
  exists s', free_add fp k e s = Ret tt e s' /\ W s' hs V /\ sbs (bytes s' fp) a z 0 (l ++ [k]) /\ kept_but fp hs s s'.
Proof.
  intros Hw Hfp Hs Hl Hk. pose proof (held_own _ _ Hfp) as Hh. unfold free_add. msteps.
  change (bget fp s_nfree s) with (fget s_nfree (bytes s fp)). rewrite (ss_nfree _ _ _ _ _ Hs), Nat2Z.id.
  set (s1 := bput fp (s_free (length l)) k s). set (s2 := bput fp s_nfree (Z.of_nat (length l) + 1) s1).
  set (s3 := bput fp s_tfree (bget fp s_tfree s2 + 1) s2). set (s4 := bput fp s_fmod 1 s3).
  exists s4. split; [reflexivity|]. split.
  - apply W_put; [|done|sb_arith]. apply W_put; [|done|sb_arith]. apply W_put; [|done|sb_arith]. apply W_put; [done|done|].
    unfold s_free. cbn [fld_off fld_len]. lia.
  - split.
    + unfold s4, s3, s2, s1. rewrite !bytes_put. apply sbs_fmod, sbs_tfree. by apply sbs_push.
    + apply kept_but_trans with s1; [apply kept_but_put|]. apply kept_but_trans with s2; [apply kept_but_put|].
      apply kept_but_trans with s3; apply kept_but_put.
Qed.

Lemma free_split fp a z l k e s : mounted_at s fp -> sbs (bytes s fp) a z 0 l -> a <= k < z ->
  free 0 k e s = (nf ← gets (bget fp s_nfree);
    _ ← when (nf <=? 0) (_ ← modify (bput fp s_nfree 1); modify (bput fp (s_free 0) 0));
    nf ← gets (bget fp s_nfree);
    _ ← when (NICFREE <=? nf) (free_spill fp 0 k);
    free_add fp k) e (bput fp s_fmod 1 s).
Proof.
  intros Hm Hs Hk. unfold free. rewrite (bind_ret _ _ _ _ _ _ _ (getfs_ok fp a z _ e s Hm Hs)). msteps.
  set (s1 := bput fp s_fmod 1 s).
  assert (Hs1 : sbs (bytes s1 fp) a z 0 l) by (unfold s1; rewrite bytes_put; by apply sbs_fmod).
  rewrite (bind_ret _ _ _ _ _ _ _ (fs_wait_ok fp a z _ e s1 Hs1)), (bind_ret _ _ _ _ _ _ _ (badblock_ok fp a z _ k e s1 Hs1 Hk)).
  reflexivity.
Qed.

(** The array is never left empty. *)
Lemma free_mark fp a z l e s hs V L good : W s hs V -> (fp, None) ∈ hs -> sbs (bytes s fp) a z 0 l -> chain V good l L ->
  exists s' l', (nf ← gets (bget fp s_nfree);
      when (nf <=? 0) (_ ← modify (bput fp s_nfree 1); modify (bput fp (s_free 0) 0))) e s = Ret tt e s' /\
    W s' hs V /\ sbs (bytes s' fp) a z 0 l' /\ chain V good l' L /\ l' <> [] /\ kept_but fp hs s s'.
Proof.
  intros Hw Hfp Hs Hc. pose proof (held_own _ _ Hfp) as Hh. msteps. change (bget fp s_nfree s) with (fget s_nfree (bytes s fp)).
  rewrite (ss_nfree _ _ _ _ _ Hs). destruct l as [|x l].
  - cbn [length Z.of_nat Z.leb Z.compare when]. msteps. set (s1 := bput fp s_nfree 1 s). set (s2 := bput fp (s_free 0) 0 s1).
    assert (L = []) as -> by (by inversion Hc).
    exists s2, [0]. split; [reflexivity|]. split; [apply W_put; [apply W_put; [done|done|sb_arith]|done|cbn; lia]|].
    split; [unfold s2, s1; rewrite !bytes_put; by apply sbs_reset with []|].
    split; [by apply (chain_end V good [])|]. split; [done|]. apply kept_but_trans with s1; apply kept_but_put.
  - exists s, (x :: l). rewrite (proj2 (Z.leb_gt _ _)) by (cbn; lia). by split_and!.
Qed.

Lemma free_ok fp a z k L e s hs V : fs_free s hs V fp a z L -> a <= k < z -> k ∉ L -> not_held hs k -> (length hs < NBUF)%nat ->
  exists s' V', free 0 k e s = Ret tt e s' /\ fs_free s' hs V' fp a z (k :: L) /\ (forall j, j <> k -> V' j = V j) /\
    kept_but fp hs s s'.
Proof.
  intros [Hw Hfp Hm (l & Hs & Hc) [Ha Hz] Hnd Hf] Hk HkL Hkn Hl. rewrite (free_split fp a z l k e s Hm Hs Hk).
  assert (Hk31 : - 2 ^ 31 <= k < 2 ^ 31) by (unfold RD_SIZE in Hz; lia).
  set (s1 := bput fp s_fmod 1 s).
  assert (Hs1 : sbs (bytes s1 fp) a z 0 l) by (unfold s1; rewrite bytes_put; by apply sbs_fmod).
  assert (Hw1 : W s1 hs V) by (apply W_put; [done|by apply held_own|sb_arith]).
  destruct (free_mark fp a z l e s1 hs V L _ Hw1 Hfp Hs1 Hc) as (s2 & l2 & Hr2 & Hw2 & Hs2 & Hc2 & Hne2 & K2).
  pose proof (kept_but_trans fp hs s s1 s2 (kept_but_put fp hs s_fmod 1 s) K2) as K12. clear K2.
  assert (Hend : forall s3 V' l3, W s3 hs V' -> sbs (bytes s3 fp) a z 0 l3 -> (length l3 < 50)%nat ->
    chain V' (fun k => a <= k < z) (l3 ++ [k]) (k :: L) -> (forall j, j <> k -> V' j = V j) -> kept_but fp hs s s3 ->
    exists s' V'', free_add fp k e s3 = Ret tt e s' /\ fs_free s' hs V'' fp a z (k :: L) /\ (forall j, j <> k -> V'' j = V j) /\
      kept_but fp hs s s').
  { intros s3 V' l3 Hw3 Hs3 Hl3 Hc3 HV K3. destruct (free_add_ok fp a z l3 k e s3 hs V' Hw3 Hfp Hs3 Hl3 Hk31) as (s4 & Hr4 & Hw4 & Hs4 & K4).
    pose proof (kept_but_trans _ _ _ _ _ K3 K4) as K. exists s4, V'. split; [done|]. split; [|done]. split; try done.
    - apply (mounted_kept s); [apply K|done].
    - by exists (l3 ++ [k]).
    - by apply NoDup_cons.
    - intros j [->|Hj]%elem_of_cons; [done|]. by apply Hf. }
  rewrite bind_gets. revert Hr2. rewrite bind_gets. intros Hr2. rewrite (bind_ret _ _ _ _ _ _ _ Hr2). msteps.
  change (bget fp s_nfree s2) with (fget s_nfree (bytes s2 fp)). rewrite (ss_nfree _ _ _ _ _ Hs2).
  pose proof (sbs_length _ _ _ _ _ Hs2) as Hl2. destruct (Z.leb_spec NICFREE (Z.of_nat (length l2))) as [Hle|Hlt]; cbn [when].
  - unfold NICFREE in Hle.
    destruct (free_spill_ok fp a z l2 k e s2 hs V Hw2 Hfp Hs2 ltac:(lia) Hkn Hl) as (s3 & D & Hr3 & Hw3 & Hs3 & HDn & HDf & K3).
    rewrite (bind_ret _ _ _ _ _ _ _ Hr3). apply (Hend s3 (<[k := D]> V) []); try done; [cbn; lia| | |by apply kept_but_trans with s2].
    + assert (ED : (<[k := D]> V) k = D) by apply fn_lookup_insert.
      apply (chain_link _ _ k [] L); [done|done|rewrite ED, HDn; unfold NICFREE; lia|]. rewrite ED, HDf.
      apply chain_ext with V; [done|]. intros j Hj. apply fn_lookup_insert_ne. by intros ->.
    + intros j Hj. by apply fn_lookup_insert_ne.
  - unfold NICFREE in Hlt. msteps. apply (Hend s2 V l2); try done; [lia|]. by apply chain_push.
Qed.

(** C4.  The free blocks of a file system are a stack, kept in the super block
    and in the free blocks themselves.  [alloc] takes the first of them: it
    returns a cleared buffer for the block, and the list is what it was without
    the block, whether or not the list had to be continued from the block's
    own contents.  When there is none it returns nothing, with [ENOSPC].  No
    other buffer of the process and no other block has changed. *)
Theorem alloc_pops fp a z L e s hs V :
  fs_free s hs V fp a z L -> (length hs < NBUF)%nat ->
  match L with
  | x :: L' => exists b s', alloc 0 e s = Ret (Some b) e s' /\ fs_free s' ((b, Some x) :: hs) V fp a z L' /\
      bytes s' b = replicate 512 0 /\ kept_but fp hs s s'
  | [] => exists s', alloc 0 e s = Ret None e s' /\ fs_free s' hs V fp a z [] /\ uerror s' = ENOSPC
  end.
Proof. intros Hf Hl. destruct L as [|x L]; [by apply alloc_none|by apply alloc_some]. Qed.

(** C5.  [free] pushes a block onto the list of free blocks: the block becomes
    the first of the list, the array in the super block being moved into the
    block when it is full, and no block but the freed one has changed. *)
Theorem free_pushes fp a z k L e s hs V :
  fs_free s hs V fp a z L -> a <= k < z -> k ∉ L -> not_held hs k -> (length hs < NBUF)%nat ->
  exists s' V', free 0 k e s = Ret tt e s' /\ fs_free s' hs V' fp a z (k :: L) /\ (forall j, j <> k -> V' j = V j) /\
    kept_but fp hs s s'.
Proof. apply free_ok. Qed.

End Operations.

(** * Witnesses *)

(** The root device mounted with the super block [F] in the first buffer. *)
Definition ex_sb (free : list Z) : list Z :=
  fput s_isize 2 (fput s_fsize 100 (fput s_nfree (Z.of_nat (length free))
    (fputs (imap (fun i k => (s_free i, k)) free) (replicate 512 0)))).
Definition ex_mounted (free : list Z) : kst :=
  set_bytes (BPool 0) (ex_sb free) (taken (BPool 0) ex_booted)
    <| kf; mounts ::= <[0%nat := mount0 <| m_bufp := Some (BPool 0) |> <| m_dev := 0 |>]> |>.
Definition ex_view : Z -> list Z := view ex_booted (CH0 (BTab 0)).
Definition ex_hs : holding := [(BPool 0, None)].

Lemma ex_taken_fsw : fsw (H := ex_layout) (taken (BPool 0) ex_booted) ex_hs ex_view.
Proof.
  apply (fsw_take (H := ex_layout) (BPool 0) ex_booted ex_view [] (BPool <$> seq 1 28) CH0).
  - apply (cache_fsw (H := ex_layout)); [exact ex_booted_cache|vm_compute; reflexivity].
  - unfold CH0. rewrite decide_True by reflexivity. apply list_elem_of_fmap. exists 0%nat. split; [reflexivity|].
    apply (bool_decide_unpack _). vm_compute. exact I.
Qed.

#[local] Opaque ex_booted taken.

Lemma ex_fsw_mounts g s hs V : fsw (H := ex_layout) s hs V -> fsw (H := ex_layout) (s <| kf; mounts ::= g |>) hs V.
Proof. intros Hw. by apply (fsw_same (H := ex_layout) s). Qed.
Lemma ex_bytes_mounts g s b : bytes (s <| kf; mounts ::= g |>) b = bytes s b.
Proof. reflexivity. Qed.

Lemma ex_mounted_free free L a : ex_sb free = a -> sbs a 2 100 0 free -> chain ex_view (fun k => 2 <= k < 100) free L -> NoDup L ->
  fs_free (fsw (H := ex_layout)) (ex_mounted free) ex_hs ex_view (BPool 0) 2 100 L.
Proof.
  intros Ea Hs Hc Hnd. split.
  - apply ex_fsw_mounts, (fsw_set (H := ex_layout)); [exact ex_taken_fsw|by left|]. rewrite Ea. apply (ss_len _ _ _ _ _ Hs).
  - by left.
  - exists 0%nat. split; [unfold NMOUNT; lia|]. split; [reflexivity|]. split; [reflexivity|]. intros j Hj. lia.
  - exists free. split; [|exact Hc]. rewrite <- Ea in Hs.
    unfold ex_mounted. rewrite ex_bytes_mounts, set_bytes_same. exact Hs.
  - unfold RD_SIZE. lia.
  - exact Hnd.
  - intros k _ b. unfold ex_hs. rewrite list_elem_of_singleton. intros E. discriminate E.
Qed.

(** Blocks 9 and 7, 7 first. *)
Lemma ex_sb_two : sbs (ex_sb [0; 9; 7]) 2 100 0 [0; 9; 7].
Proof. split; try (vm_compute; reflexivity). vm_compute. discriminate. Qed.

Lemma ex_two_free : fs_free (fsw (H := ex_layout)) (ex_mounted [0; 9; 7]) ex_hs ex_view (BPool 0) 2 100 [7; 9].
Proof.
  apply (ex_mounted_free _ _ _ eq_refl ex_sb_two).
  - apply (chain_end _ _ [9; 7]). repeat constructor; lia.
  - apply (bool_decide_unpack _). vm_compute. exact I.
Qed.

Lemma alloc_pops_witness : exists b s',
  alloc (H := ex_layout) 0 [] (ex_mounted [0; 9; 7]) = Ret (Some b) [] s' /\ bytes s' b = replicate 512 0.
Proof.
  destruct (alloc_pops (H := ex_layout) (fsw (H := ex_layout)) (BPool 0) 2 100 [7; 9] [] (ex_mounted [0; 9; 7]) ex_hs ex_view)
    as (b & s' & Hr & _ & Hb & _).
  - exact ex_two_free.
  - cbn. unfold NBUF. lia.
  - exists b, s'. split; [exact Hr|exact Hb].
Defined.

Lemma free_pushes_witness : exists s' V',
  free (H := ex_layout) 0 50 [] (ex_mounted [0; 9; 7]) = Ret tt [] s' /\
  fs_free (fsw (H := ex_layout)) s' ex_hs V' (BPool 0) 2 100 [50; 7; 9].
Proof.
  destruct (free_pushes (H := ex_layout) (fsw (H := ex_layout)) (BPool 0) 2 100 50 [7; 9] [] (ex_mounted [0; 9; 7]) ex_hs ex_view)
    as (s' & V' & Hr & Hf & _).
  - exact ex_two_free.
  - lia.
  - apply (bool_decide_unpack _). vm_compute. exact I.
  - intros b. unfold ex_hs. rewrite list_elem_of_singleton. intros E. discriminate E.
  - cbn. unfold NBUF. lia.
  - exists s', V'. split; [exact Hr|exact Hf].
Defined.
