(* ===== verification/Inode.v ===== *)
(** In-core inodes: the lock ([plock], [prele] of [sys/pipe.c]), and [iget],
    [iput], [iupdat], [itrunc] of [sys/iget.c] and [ialloc] of [sys/alloc.c]. *)
From S2P Require Import Prelude Malloc Clist Kernel Sched Dll Sd Bio Codec Alloc.

(** ** [struct dinode] *)

Definition di_mode : field := Fld 0 2 false.
Definition di_nlink : field := Fld 2 2 true.
Definition di_uid : field := Fld 4 2 true.
Definition di_gid : field := Fld 6 2 true.
Definition di_size : field := Fld 8 4 true.
Definition DI_ADDR : nat := 12.
Definition di_atime : field := Fld 52 4 true.
Definition di_mtime : field := Fld 56 4 true.
Definition di_ctime : field := Fld 60 4 true.
Definition DINODE : nat := 64.
Definition INOPB : nat := 8.

(** The member [f] of the [n]th inode of a block. *)
Definition at_di (n : nat) (f : field) : field := Fld (DINODE * n + fld_off f) (fld_len f) (fld_signed f).

(** The [i]th of the 3-byte addresses. *)
Definition iaddr_bytes (l : list Z) (i : nat) : list Z := take 3 (drop (3 * i) l).
Definition iaddr_from_disk (l : list Z) : Z -> Z := fun i =>
  if (0 <=? i) && (i <? 13) then unbe (iaddr_bytes l (Z.to_nat i)) else 0.

(** The 39 bytes written; the kernel prints a line for every address whose top
    byte is not 0. *)
Definition iaddr_to_disk (addr : Z -> Z) : list Z := concat ((fun i => be 3 (addr (Z.of_nat i))) <$> seq 0 NADDR).
Definition iaddr_big (addr : Z -> Z) : nat :=
  length (List.filter (fun i => negb (u8 (Z.shiftr (addr (Z.of_nat i)) 24) =? 0)) (seq 0 NADDR)).

(** [iexpand]: the [n]th inode of the block [l]. *)
Definition iexpand (l : list Z) (n : nat) (ip : inode) : inode :=
  ip <| i_mode := fget (at_di n di_mode) l |> <| i_nlink := fget (at_di n di_nlink) l |>
     <| i_uid := fget (at_di n di_uid) l |> <| i_gid := fget (at_di n di_gid) l |>
     <| i_size := fget (at_di n di_size) l |>
     <| i_addr := iaddr_from_disk (drop (DINODE * n + DI_ADDR) l) |>.

(** The members [iupdat] copies to the block. *)
Definition icontract (ip : inode) (n : nat) (l : list Z) : list Z :=
  let l := fput (at_di n di_mode) (i_mode ip) l in
  let l := fput (at_di n di_nlink) (i_nlink ip) l in
  let l := fput (at_di n di_uid) (i_uid ip) l in
  let l := fput (at_di n di_gid) (i_gid ip) l in
  let l := fput (at_di n di_size) (i_size ip) l in
  splice (DINODE * n + DI_ADDR) (iaddr_to_disk (i_addr ip)) l.

Definition upd_data (b : bptr) (g : list Z -> list Z) (s : kst) : kst :=
  s <| kb; bdata ::= fun d => <[b := g (d b)]> d |>.

(** [ip->i_flag & m], [|= m], [&= ~m] *)
Definition ihas (ip : nat) (m : Z) (s : kst) : bool := fset (i_flag (inode_at s ip)) m.
Definition iset (ip : nat) (m : Z) : kst -> kst := upd_inode ip (fun x => x <| i_flag ::= fun f => Z.lor f m |>).
Definition iclr (ip : nat) (m : Z) : kst -> kst := upd_inode ip (fun x => x <| i_flag ::= fun f => fclr f m |>).

Section Inode.
Context `{Layout}.

Definition plock (ip : nat) : M unit :=
  _ ← sleep_while (ihas ip ILOCK) (iset ip IWANT) (ChInode ip) PINOD;
  modify (iset ip ILOCK).

Definition prele (ip : nat) : M unit :=
  _ ← modify (iclr ip ILOCK);
  w ← gets (ihas ip IWANT);
  when w (_ ← modify (iclr ip IWANT); wakeup (ChInode ip)).

(** ** Truncation *)

Definition daddr (i : nat) : field := Fld (4 * i) 4 true.

(** [tloop] frees the blocks the indirect block [bn] names, last first, then
    [bn]; [f1] and [f2] say whether they are indirect blocks in turn.  [bp] is
    the buffer when it is held. *)
Fixpoint tloop_scan (k : nat) (rec : Z -> M unit) (f1 : bool) (dev bn : Z) (bp : option bptr) : M (option (option bptr)) :=
  match k with
  | O => mret (Some bp)
  | S i =>
      r ← match bp with
          | Some b => mret (Some b)
          | None =>
              b ← bread dev bn;
              err ← gets (fun s => has s b B_ERROR);
              if err : bool then _ ← brelse b; mret None else mret (Some b)
          end;
      match r with
      | None => mret None
      | Some b =>
          nb ← gets (bget b (daddr i));
          if nb =? 0 then tloop_scan i rec f1 dev bn (Some b)
          else if f1 then _ ← brelse b; _ ← rec nb; tloop_scan i rec f1 dev bn None
          else _ ← free dev nb; tloop_scan i rec f1 dev bn (Some b)
      end
  end.

(** Indirection is at most triple. *)
Fixpoint tloop (d : nat) (dev bn : Z) (f1 f2 : bool) : M unit :=
  match d with
  | O => nofuel
  | S d =>
      r ← tloop_scan 128 (fun nb => tloop d dev nb f2 false) f1 dev bn None;
      match r with
      | None => mret tt
      | Some bp =>
          _ ← match bp with Some b => brelse b | None => mret tt end;
          free dev bn
      end
  end.

Definition itrunc (ip : nat) : M unit :=
  x ← gets (fun s => inode_at s ip);
  let t := Z.land (i_mode x) IFMT in
  if negb (t =? IFREG) && negb (t =? IFDIR) then mret tt
  else
    let dev := i_dev x in
    _ ← for_each (rev (seq 0 NADDR)) (fun i =>
      bn ← gets (fun s => i_addr (inode_at s ip) (Z.of_nat i));
      if bn =? 0 then mret tt
      else
        _ ← modify (upd_inode ip (fun x => x <| i_addr ::= <[Z.of_nat i := 0]> |>));
        match i with
        | 10%nat => tloop 3 dev bn false false
        | 11%nat => tloop 3 dev bn true false
        | 12%nat => tloop 3 dev bn true true
        | _ => free dev bn
        end);
    _ ← modify (upd_inode ip (fun x => x <| i_size := 0 |>));
    modify (iset ip (Z.lor ICHG IUPD)).

(** ** Writing an inode back *)

(** [ta] and [tm] are what [*ta] and [*tm] evaluate to. *)
Definition iupdat (ip : nat) (ta tm : kst -> Z) : M unit :=
  ch ← gets (ihas ip (Z.lor IUPD (Z.lor IACC ICHG)));
  if ch : bool then
    dev ← gets (fun s => i_dev (inode_at s ip));
    fp ← getfs dev;
    ro ← gets (bget fp s_ronly);
    if negb (ro =? 0) then mret tt
    else
      x ← gets (fun s => inode_at s ip);
      bp ← bread (i_dev x) (itod (i_number x));
      err ← gets (fun s => has s bp B_ERROR);
      if err : bool then brelse bp
      else
        n ← gets (fun s => Z.to_nat (itoo (i_number (inode_at s ip))));
        _ ← modify (fun s => upd_data bp (icontract (inode_at s ip) n) s);
        big ← gets (fun s => iaddr_big (i_addr (inode_at s ip)));
        _ ← for_each (seq 0 big) (fun _ => log "iaddress > 2^24");
        acc ← gets (ihas ip IACC);
        _ ← when acc (modify (fun s => bput bp (at_di n di_atime) (ta s) s));
        up ← gets (ihas ip IUPD);
        _ ← when up (modify (fun s => bput bp (at_di n di_mtime) (tm s) s));
        chg ← gets (ihas ip ICHG);
        _ ← when chg (modify (fun s => bput bp (at_di n di_ctime) (time (kc s)) s));
        _ ← modify (iclr ip (Z.lor IUPD (Z.lor IACC ICHG)));
        bdwrite bp
  else mret tt.

(** [&time] *)
Definition now (s : kst) : Z := time (kc s).

Definition iput (ip : nat) : M unit :=
  c ← gets (fun s => i_count (inode_at s ip));
  _ ← when (c =? 1)
        (_ ← modify (iset ip ILOCK);
         nl ← gets (fun s => i_nlink (inode_at s ip));
         _ ← when (nl <=? 0)
               (_ ← itrunc ip;
                _ ← modify (upd_inode ip (fun x => x <| i_mode := 0 |>));
                _ ← modify (iset ip (Z.lor IUPD ICHG));
                x ← gets (fun s => inode_at s ip);
                ifree (i_dev x) (i_number x));
         _ ← iupdat ip now now;
         _ ← prele ip;
         _ ← modify (upd_inode ip (fun x => x <| i_flag := 0 |>));
         modify (upd_inode ip (fun x => x <| i_number := 0 |>)));
  _ ← modify (upd_inode ip (fun x => x <| i_count ::= fun n => i8 (n - 1) |>));
  prele ip.

(** ** Finding an inode *)

Definition find_inode (dev ino : Z) (s : kst) : option nat :=
  List.find (fun i => (ino =? i_number (inode_at s i)) && (dev =? i_dev (inode_at s i))) (seq 0 NINODE).
(** [oip]: the first entry not in use. *)
Definition free_inode (s : kst) : option nat := List.find (fun i => i_count (inode_at s i) =? 0) (seq 0 NINODE).

Definition opt_is {A} `{EqDecision A} (o : option A) (a : A) : bool := bool_decide (o = Some a).
Definition mounted_on (ip : nat) (s : kst) : option nat :=
  List.find (fun i => opt_is (m_inodp (mounts (kf s) i)) ip) (seq 0 NMOUNT).

(** From [loop:] to [loop:] or [return]; [inl] is [goto loop] with new [dev]
    and [ino]. *)
Definition iget_turn (dev ino : Z) : M (Z * Z + option nat) :=
  r ← gets (find_inode dev ino);
  match r with
  | Some ip =>
      lk ← gets (ihas ip ILOCK);
      if lk : bool then
        _ ← modify (iset ip IWANT);
        _ ← sleep (ChInode ip) PINOD;
        mret (inl (dev, ino))
      else
        mt ← gets (ihas ip IMOUNT);
        if mt : bool then
          m ← gets (mounted_on ip);
          match m with
          | Some i => d ← gets (fun s => m_dev (mounts (kf s) i)); mret (inl (d, ROOTINO))
          | None => panic "no imt"
          end
        else
          _ ← modify (upd_inode ip (fun x => x <| i_count ::= fun n => i8 (n + 1) |>));
          _ ← modify (iset ip ILOCK);
          mret (inr (Some ip))
  | None =>
      o ← gets free_inode;
      match o with
      | None =>
          _ ← log "Inode table overflow";
          _ ← seterror ENFILE;
          mret (inr None)
      | Some ip =>
          _ ← modify (upd_inode ip (fun x => x <| i_dev := u16 dev |> <| i_number := u16 ino |> <| i_flag := ILOCK |>
                                              <| i_count ::= fun n => i8 (n + 1) |> <| i_lastr := 0 |>));
          bp ← bread dev (itod ino);
          err ← gets (fun s => has s bp B_ERROR);
          if err : bool then _ ← brelse bp; _ ← iput ip; mret (inr None)
          else
            _ ← modify (fun s => upd_inode ip (iexpand (bdata (kb s) bp) (Z.to_nat (itoo ino))) s);
            _ ← brelse bp;
            mret (inr (Some ip))
      end
  end.

Fixpoint iget_f (n : nat) (dev ino : Z) : M (option nat) :=
  match n with
  | O => nofuel
  | S n =>
      r ← iget_turn dev ino;
      match r with inl (dev, ino) => iget_f n dev ino | inr o => mret o end
  end.

(** A turn that goes round sleeps or crosses into one of the [NMOUNT] mounted
    file systems. *)
Definition igetfuel (e : env) : nat := (S (length e) * S NMOUNT)%nat.
Definition iget (dev ino : Z) : M (option nat) := fun e s => iget_f (igetfuel e) dev ino e s.

(** ** [ialloc] *)

(** The inodes of one block of the i-list, from the [i]th on; the number of
    the next inode and whether the super block's list is full. *)
Fixpoint ialloc_block (k : nat) (i : nat) (fp bp : bptr) (dev ino : Z) : M (Z * bool) :=
  match k with
  | O => mret (ino, false)
  | S k =>
      mode ← gets (bget bp (at_di i di_mode));
      incore ← gets (find_inode dev ino);
      if negb (mode =? 0) || bool_decide (is_Some incore) then ialloc_block k (S i) fp bp dev (u16 (ino + 1))
      else
        ni ← gets (bget fp s_ninode);
        _ ← modify (bput fp (s_inode (Z.to_nat ni)) ino);
        _ ← modify (bput fp s_ninode (ni + 1));
        if NICINOD <=? ni + 1 then mret (ino, true)
        else ialloc_block k (S i) fp bp dev (u16 (ino + 1))
  end.

Fixpoint ialloc_fill (n : nat) (fp : bptr) (dev adr ino : Z) : M unit :=
  match n with
  | O => nofuel
  | S n =>
      isize ← gets (bget fp s_isize);
      if adr <? isize then
        bp ← bread dev adr;
        err ← gets (fun s => has s bp B_ERROR);
        if err : bool then
          _ ← brelse bp;
          ialloc_fill n fp dev (adr + 1) (u16 (ino + Z.of_nat INOPB))
        else
          r ← ialloc_block INOPB 0 fp bp dev ino;
          _ ← brelse bp;
          ni ← gets (bget fp s_ninode);
          if NICINOD <=? ni then mret tt else ialloc_fill n fp dev (adr + 1) r.1
      else mret tt
  end.
(** [s_isize] is 16 bits wide. *)
Definition FILLFUEL : nat := Z.to_nat 65536.

(** The number is in use by an in-core inode. *)
Definition inode_busy (dev ino : Z) (s : kst) : bool :=
  existsb (fun i => (dev =? i_dev (inode_at s i)) && (ino =? i_number (inode_at s i)) && negb (i_count (inode_at s i) =? 0))
    (seq 0 NINODE).

(** From [loop:]; [None] is [goto loop]. *)
Definition ialloc_turn (fp : bptr) (dev : Z) : M (option (option nat)) :=
  ni ← gets (bget fp s_ninode);
  if 0 <? ni then
    _ ← modify (bput fp s_ninode (ni - 1));
    ino ← gets (bget fp (s_inode (Z.to_nat (ni - 1))));
    if ino <? ROOTINO then mret None
    else
      busy ← gets (inode_busy dev ino);
      if busy : bool then mret None
      else
        o ← iget dev ino;
        match o with
        | None => mret (Some None)
        | Some ip =>
            mode ← gets (fun s => i_mode (inode_at s ip));
            if mode =? 0 then
              _ ← modify (upd_inode ip (fun x => x <| i_addr := fun _ => 0 |>));
              _ ← modify (fun s => bput fp s_tinode (bget fp s_tinode s - 1) s);
              _ ← modify (bput fp s_fmod 1);
              mret (Some (Some ip))
            else
              _ ← iput ip;
              mret None
        end
  else
    _ ← modify (fun s => bput fp s_ilock (bget fp s_ilock s + 1) s);
    _ ← ialloc_fill FILLFUEL fp dev (SUPERB + 1) 1;
    _ ← modify (bput fp s_ilock 0);
    _ ← wakeup (ChIlock fp);
    ni ← gets (bget fp s_ninode);
    if 0 <? ni then mret None
    else
      _ ← prdev "Out of inodes" dev;
      _ ← seterror ENOSPC;
      mret (Some None).

Fixpoint ialloc_f (n : nat) (fp : bptr) (dev : Z) : M (option nat) :=
  match n with
  | O => nofuel
  | S n => r ← ialloc_turn fp dev; match r with Some o => mret o | None => ialloc_f n fp dev end
  end.

(** A turn that goes round has dropped a number of the super block's list of at
    most [NICINOD], or has refilled the list from the i-list on the disk. *)
Definition IALLOCFUEL : nat := Z.to_nat 65536.
Definition ialloc (dev : Z) : M (option nat) :=
  fp ← getfs dev;
  _ ← sleep_while (fun s => negb (bget fp s_ilock s =? 0)) id (ChIlock fp) PINOD;
  ialloc_f IALLOCFUEL fp dev.

End Inode.

(** * Inodes on disk *)

(** The members [iexpand] sets. *)
Definition same_disk (x y : inode) : Prop :=
  i_mode x = i_mode y /\ i_nlink x = i_nlink y /\ i_uid x = i_uid y /\ i_gid x = i_gid y /\ i_size x = i_size y /\
  forall i, 0 <= i < Z.of_nat NADDR -> i_addr x i = i_addr y i.

(** The members are in the range of their types, and every address fits in
    the three bytes it has on disk. *)
Definition inode_typed (x : inode) : Prop :=
  0 <= i_mode x < 2 ^ 16 /\ - 2 ^ 15 <= i_nlink x < 2 ^ 15 /\ - 2 ^ 15 <= i_uid x < 2 ^ 15 /\
  - 2 ^ 15 <= i_gid x < 2 ^ 15 /\ - 2 ^ 31 <= i_size x < 2 ^ 31 /\
  forall i, 0 <= i < Z.of_nat NADDR -> 0 <= i_addr x i < 2 ^ 24.

(** The three times, which [iexpand] does not read. *)
Definition di_times : list field := [di_atime; di_mtime; di_ctime].

Lemma length_iaddr_to_disk a : length (iaddr_to_disk a) = 39%nat.
Proof. reflexivity. Qed.

Lemma iaddr_bytes_to_disk a i : (i < NADDR)%nat -> take 3 (drop (3 * i) (iaddr_to_disk a)) = be 3 (a (Z.of_nat i)).
Proof.
  intros Hi. unfold NADDR in Hi.
  do 13 (destruct i as [|i]; [reflexivity|]). lia.
Qed.

(** Members of one inode, and of two inodes, of a block do not overlap. *)
Ltac di_arith := unfold fld_disj, at_di, DINODE, DI_ADDR, INOPB, di_mode, di_nlink, di_uid, di_gid, di_size,
  di_atime, di_mtime, di_ctime in *; cbn [fst fld_off fld_len] in *; lia.

Definition contract_puts (x : inode) (n : nat) : list (field * Z) :=
  [(at_di n di_mode, i_mode x); (at_di n di_nlink, i_nlink x); (at_di n di_uid, i_uid x);
   (at_di n di_gid, i_gid x); (at_di n di_size, i_size x)].

Lemma icontract_puts x n l :
  icontract x n l = splice (DINODE * n + DI_ADDR) (iaddr_to_disk (i_addr x)) (fputs (contract_puts x n) l).
Proof. reflexivity. Qed.

Section Contract.
Context (x : inode) (n : nat) (l : list Z) (Hl : length l = 512%nat) (Hn : (n < INOPB)%nat).

Lemma contract_fits : fits (length l) (contract_puts x n).
Proof using Hl Hn. rewrite Hl. unfold fits, contract_puts. rewrite !Forall_cons; split_and!; try apply Forall_nil_2; di_arith. Qed.

Lemma contract_puts_length : length (fputs (contract_puts x n) l) = 512%nat.
Proof using Hl Hn. rewrite length_fputs by apply contract_fits. done. Qed.

Lemma contract_splice_fits : (DINODE * n + DI_ADDR + length (iaddr_to_disk (i_addr x)) <= length (fputs (contract_puts x n) l))%nat.
Proof using Hl Hn. rewrite contract_puts_length, length_iaddr_to_disk. di_arith. Qed.

Lemma icontract_length : length (icontract x n l) = 512%nat.
Proof using Hl Hn. rewrite icontract_puts, length_splice by apply contract_splice_fits. apply contract_puts_length. Qed.

(** A member away from the addresses. *)
Lemma fget_icontract f : (fld_off f + fld_len f <= DINODE * n + DI_ADDR \/ DINODE * n + DI_ADDR + 39 <= fld_off f)%nat ->
  fget f (icontract x n l) = fget f (fputs (contract_puts x n) l).
Proof using Hl Hn.
  intros Hd. rewrite icontract_puts. apply fget_splice; [apply contract_splice_fits|]. by rewrite length_iaddr_to_disk.
Qed.

Lemma fget_icontract_same ps1 f v ps2 : contract_puts x n = ps1 ++ (at_di n f, v) :: ps2 -> (0 < fld_len f)%nat ->
  (fld_off f + fld_len f <= DI_ADDR)%nat -> Forall (fun p => fld_disj (at_di n f) p.1) ps2 ->
  fget (at_di n f) (icontract x n l) = fld_wrap f v.
Proof using Hl Hn.
  intros E Hf Ha Hd. rewrite fget_icontract by di_arith. pose proof contract_fits as Hc. rewrite E in *.
  rewrite fget_fputs_same by done. done.
Qed.

Lemma fget_icontract_other m f : (m < INOPB)%nat -> (fld_off f + fld_len f <= DINODE)%nat ->
  m <> n \/ (51 <= fld_off f)%nat -> fget (at_di m f) (icontract x n l) = fget (at_di m f) l.
Proof using Hl Hn.
  intros Hm Hf Hd. rewrite fget_icontract by di_arith. apply fget_fputs_other; [apply contract_fits|].
  unfold contract_puts. rewrite !Forall_cons; split_and!; try apply Forall_nil_2; di_arith.
Qed.

Lemma iaddr_icontract_same i : (i < NADDR)%nat ->
  iaddr_bytes (drop (DINODE * n + DI_ADDR) (icontract x n l)) i = be 3 (i_addr x (Z.of_nat i)).
Proof using Hl Hn.
  intros Hi. unfold iaddr_bytes. rewrite icontract_puts, drop_splice_same.
  - by apply iaddr_bytes_to_disk.
  - apply contract_splice_fits.
  - rewrite length_iaddr_to_disk. unfold NADDR in Hi. lia.
Qed.

Lemma iaddr_icontract_other m i : (m < INOPB)%nat -> m <> n -> (i < NADDR)%nat ->
  iaddr_bytes (drop (DINODE * m + DI_ADDR) (icontract x n l)) i = iaddr_bytes (drop (DINODE * m + DI_ADDR) l) i.
Proof using Hl Hn.
  intros Hm Hne Hi. unfold iaddr_bytes, NADDR in *. rewrite !drop_drop, icontract_puts, splice_other.
  - apply take_fputs_other; [apply contract_fits|]. unfold contract_puts. rewrite !Forall_cons; split_and!; try apply Forall_nil_2; di_arith.
  - apply contract_splice_fits.
  - rewrite length_iaddr_to_disk. di_arith.
Qed.

End Contract.

Lemma iaddr_from_disk_in l i : 0 <= i < Z.of_nat NADDR -> iaddr_from_disk l i = unbe (iaddr_bytes l (Z.to_nat i)).
Proof. intros Hi. unfold iaddr_from_disk. destruct (Z.leb_spec 0 i), (Z.ltb_spec i 13); try reflexivity; unfold NADDR in *; lia. Qed.

Lemma iexpand_addr l n y : i_addr (iexpand l n y) = iaddr_from_disk (drop (DINODE * n + DI_ADDR) l).
Proof. reflexivity. Qed.

(** The member [f], put after the members [ps1]. *)
Ltac contract_member ps1 f v :=
  match goal with |- context [icontract ?x ?n ?l] =>
    transitivity (fget (at_di n f) (icontract x n l)); [reflexivity|];
    rewrite (fget_icontract_same x n l ltac:(assumption) ltac:(assumption) ps1 f v _ eq_refl);
    [apply fld_wrap_id; [di_arith|assumption] | di_arith | di_arith
    | rewrite ?Forall_cons; split_and?; try apply Forall_nil_2; di_arith]
  end.

(** C35.  [iexpand] reads back what [iupdat] put into the block ([icontract]),
    for every inode whose members are in range, and the seven other inodes of
    the block, and the times of all eight, are what they were. *)
Theorem iexpand_icontract x n l y :
  inode_typed x -> length l = 512%nat -> (n < INOPB)%nat ->
  length (icontract x n l) = 512%nat /\
  same_disk (iexpand (icontract x n l) n y) x /\
  forall m, (m < INOPB)%nat ->
    (m <> n -> same_disk (iexpand (icontract x n l) m y) (iexpand l m y)) /\
    forall t, t ∈ di_times -> fget (at_di m t) (icontract x n l) = fget (at_di m t) l.
Proof.
  intros (Hmode & Hnl & Huid & Hgid & Hsz & Ha) Hl Hn. split; [by apply icontract_length|]. split.
  - split_and!.
    + contract_member (take 0 (contract_puts x n)) di_mode (i_mode x).
    + contract_member (take 1 (contract_puts x n)) di_nlink (i_nlink x).
    + contract_member (take 2 (contract_puts x n)) di_uid (i_uid x).
    + contract_member (take 3 (contract_puts x n)) di_gid (i_gid x).
    + contract_member (take 4 (contract_puts x n)) di_size (i_size x).
    + intros i Hi. rewrite !iexpand_addr.
      rewrite iaddr_from_disk_in by done.
      rewrite iaddr_icontract_same by (try done; lia). rewrite unbe_be, Z2Nat.id by lia. by apply uwrap_id, Ha.
  - intros m Hm. split.
    + intros Hne. split_and!; try (apply (fget_icontract_other x n l Hl Hn m); [done|di_arith|by left]).
      intros i Hi. rewrite !iexpand_addr.
      rewrite !iaddr_from_disk_in by done.
      rewrite iaddr_icontract_other by (try done; lia). done.
    + intros f Hf. apply fget_icontract_other; try done.
      * unfold di_times in Hf. rewrite !elem_of_cons, elem_of_nil in Hf. destruct Hf as [->|[->|[->|[]]]]; di_arith.
      * unfold di_times in Hf. rewrite !elem_of_cons, elem_of_nil in Hf. right. destruct Hf as [->|[->|[->|[]]]]; di_arith.
Qed.

Lemma iexpand_icontract_witness :
  let x := Inode 0 1 0 9 33188 2 7 3 70000 (fun i => if i =? 10 then 16777215 else 0) 0 in
  let l := replicate 512 255 in
  same_disk (iexpand (icontract x 3 l) 3 inode0) x /\ fget (at_di 3 di_ctime) (icontract x 3 l) = -1.
Proof.
  intros x l.
  destruct (iexpand_icontract x 3 l inode0) as (_ & H & Ho).
  - split_and!; [cbn; lia..|]. intros i _. cbn. destruct (i =? 10); lia.
  - reflexivity.
  - unfold INOPB. lia.
  - split; [exact H|]. rewrite (proj2 (Ho 3%nat ltac:(unfold INOPB; lia)) di_ctime); [reflexivity|].
    unfold di_times. rewrite !elem_of_cons. right. right. left. reflexivity.
Defined.
