(* ===== verification/Rdwri.v ===== *)
(** Files as byte sequences: [bmap] of [sys/subr.c], [readi], [writei] and
    [iomove] of [sys/rdwri.c], the directory writes of [sys/iget.c] and
    [update] of [sys/alloc.c].

    The character devices are an interface: [Cdevsw] is the table [cdevsw] of
    [conf/c.c]. *)
From S2P Require Import Prelude Malloc Clist Kernel Sched Dll Sd Bio Codec Usermem Subr Alloc Inode.

Record cdevsw_entry := CDev {
  cd_open : Z -> Z -> M Z;
  cd_close : Z -> Z -> M Z;
  cd_read : Z -> M Z;
  cd_write : Z -> M Z;
  cd_ioctl : Z -> Z -> Z -> Z -> M Z
}.
Class Cdevsw := cdevsw : Z -> cdevsw_entry.

Definition put_rablock (v : Z) (s : kst) : kst := s <| kb; rablock := v |>.

Section Rdwri.
Context `{Layout}.

(** ** [bmap] *)

(** [for (j=3; j>0; j--) ...]: the final [sh], [bn] and [j], 0 when the block
    is beyond the triple indirect ones. *)
Fixpoint bmap_level (j : nat) (sh nb bn : Z) : Z * Z * nat :=
  match j with
  | O => (sh, bn, O)
  | S k =>
      let sh := sh + NSHIFT in
      let nb := Z.shiftl nb NSHIFT in
      if bn <? nb then (sh, bn, j) else bmap_level k sh nb (bn - nb)
  end.

(** A block for the inode's [i]th address; [None] is [return -1]. *)
Definition bmap_addr (ip : nat) (i : Z) (dev rwflg : Z) : M (option Z) :=
  nb ← gets (fun s => i_addr (inode_at s ip) i);
  if nb =? 0 then
    if rwflg =? B_READ then mret None
    else
      o ← alloc dev;
      match o with
      | None => mret None
      | Some bp =>
          nb ← gets (fun s => b_blkno (buf_at s bp));
          _ ← bdwrite bp;
          _ ← modify (upd_inode ip (fun x => x <| i_addr ::= <[i := nb]> |>));
          _ ← modify (iset ip (Z.lor IUPD ICHG));
          mret (Some nb)
      end
  else mret (Some nb).

(** [for(; j<=3; j++)]: the value to return, or the last block number with the
    last index and buffer. *)
Fixpoint bmap_indir (k : nat) (dev rwflg nb bn sh : Z) (last : Z * bptr) : M (Z + Z * (Z * bptr)) :=
  match k with
  | O => mret (inr (nb, last))
  | S k =>
      bp ← bread dev nb;
      err ← gets (fun s => has s bp B_ERROR);
      if err : bool then _ ← brelse bp; mret (inl 0)
      else
        let sh := sh - NSHIFT in
        let i := Z.land (Z.shiftr bn sh) NMASK in
        nb ← gets (bget bp (daddr (Z.to_nat i)));
        if nb =? 0 then
          o ← (if rwflg =? B_READ then mret None else alloc dev);
          match o with
          | None => _ ← brelse bp; mret (inl (-1))
          | Some nbp =>
              nb ← gets (fun s => b_blkno (buf_at s nbp));
              _ ← bdwrite nbp;
              _ ← modify (bput bp (daddr (Z.to_nat i)) nb);
              _ ← bdwrite bp;
              bmap_indir k dev rwflg nb bn sh (i, bp)
          end
        else
          _ ← brelse bp;
          bmap_indir k dev rwflg nb bn sh (i, bp)
  end.

Definition NDIRECT : Z := 10.  (* NADDR-3 *)

Definition bmap (ip : nat) (bn rwflg : Z) : M Z :=
  if bn <? 0 then _ ← seterror EFBIG; mret 0
  else
    dev ← gets (fun s => i_dev (inode_at s ip));
    _ ← modify (put_rablock 0);
    if bn <? NDIRECT then
      o ← bmap_addr ip bn dev rwflg;
      match o with
      | None => mret (-1)
      | Some nb =>
          _ ← when (bn <? NDIRECT - 1) (modify (fun s => put_rablock (i_addr (inode_at s ip) (bn + 1)) s));
          mret nb
      end
    else
      let '(sh, bn, j) := bmap_level 3 0 1 (bn - NDIRECT) in
      match j with
      | O => _ ← seterror EFBIG; mret 0
      | _ =>
          o ← bmap_addr ip (Z.of_nat (NADDR - j)) dev rwflg;
          match o with
          | None => mret (-1)
          | Some nb =>
              r ← bmap_indir (4 - j) dev rwflg nb bn sh (0, BNull);
              match r with
              | inl v => mret v
              | inr (nb, (i, bp)) =>
                  _ ← when (i <? NINDIR - 1) (modify (fun s => put_rablock (bget bp (daddr (Z.to_nat (i + 1))) s) s));
                  mret nb
              end
          end
      end.

(** ** [iomove] *)

Definition min32 (a b : Z) : Z := if a <? b then a else b.

(** [do { t = cpass(); *cp++ = t; } while (--n)] *)
Fixpoint iomove_in (n : nat) (b : bptr) (off : nat) : M unit :=
  match n with
  | O => mret tt
  | S n =>
      t ← cpass;
      if t <? 0 then mret tt
      else _ ← modify (bsplice b off [u8 t]); iomove_in n b (S off)
  end.
Fixpoint iomove_out (n : nat) (b : bptr) (off : nat) : M unit :=
  match n with
  | O => mret tt
  | S n =>
      c ← gets (fun s => nth off (bdata (kb s) b) 0);
      t ← passc c;
      if t <? 0 then mret tt else iomove_out n b (S off)
  end.

(** Both addresses and the count are even: the buffers are, so the address in
    the buffer is even when the offset is. *)
Definition even (n : Z) : bool := Z.land n 1 =? 0.
Definition iomove_fast (n : Z) (off : nat) (x : user) : bool :=
  negb (u_segflg x =? 1) && even n && even (Z.of_nat off) && match u_base x with UA a => even a | KA _ _ => false end.

(** Move [n] bytes between offset [off] of the buffer [b] and [u_base]. *)
Definition iomove (b : bptr) (off : nat) (n flag : Z) : M unit :=
  if n =? 0 then mret tt
  else
    x ← gets u;
    if iomove_fast n off x then
      uaddr (u_base x) (fun a =>
        t ← (if flag =? B_WRITE then
               o ← (if u_segflg x =? 0 then copyin a n else copyiin a n);
               match o with
               | None => mret (-1)
               | Some l => _ ← modify (bsplice b off l); mret 0
               end
             else
               l ← gets (bpart b off (Z.to_nat n));
               if u_segflg x =? 0 then copyout l a n else copyiout l a n);
        if negb (t =? 0) then seterror EFAULT else modify (upd_u (advance n)))
    else if flag =? B_WRITE then iomove_in (Z.to_nat n) b off
    else iomove_out (Z.to_nat n) b off.

Context `{Cdevsw}.

(** ** [readi] *)

Definition is_cdev (mode : Z) : bool := let t := Z.land mode IFMT in (t =? IFCHR) || (t =? IFMPC).
Definition is_bdev (mode : Z) : bool := let t := Z.land mode IFMT in (t =? IFBLK) || (t =? IFMPB).

(** The count of a turn: what is left of the block and of the request. *)
Definition chunk (s : kst) : Z := i32 (min32 (u32 (BSIZE - Z.land (u_offset (u s)) BMASK)) (u_count (u s))).

(** The block a turn of [readi] moves [n] bytes of: [None] is [return].  [bd]
    and [rdev] are what [type] and [dev] say before the loop. *)
Definition readi_block (ip : nat) (bd : bool) (rdev : Z) : M (option (Z * Z * Z * Z)) :=
  s ← gets id;
  let x := inode_at s ip in
  let lbn := Z.shiftr (u_offset (u s)) BSHIFT in
  let n := chunk s in
  if bd then
    _ ← modify (put_rablock (i32 (lbn + 1)));
    mret (Some (lbn, lbn, rdev, n))
  else
    let diff := i32 (i_size x - u_offset (u s)) in
    if diff <=? 0 then mret None
    else
      let n := if diff <? n then diff else n in
      bn ← bmap ip lbn B_READ;
      er ← gets uerror;
      if negb (er =? 0) then mret None
      else dev ← gets (fun s => i_dev (inode_at s ip)); mret (Some (lbn, bn, dev, n)).

(** One turn; [true] goes on. *)
Definition readi_turn (ip : nat) (bd : bool) (rdev : Z) : M bool :=
  on ← gets (fun s => Z.to_nat (Z.land (u_offset (u s)) BMASK));
  r ← readi_block ip bd rdev;
  match r with
  | None => mret false
  | Some (lbn, bn, dev, n) =>
      last ← gets (fun s => i_lastr (inode_at s ip));
      bp ← (if bn <? 0 then bp ← geteblk; _ ← clrbuf bp; mret bp
            else if i32 (last + 1) =? lbn then ra ← gets (fun s => rablock (kb s)); breada dev bn ra
            else bread dev bn);
      _ ← modify (upd_inode ip (fun x => x <| i_lastr := lbn |>));
      n ← gets (fun s => i32 (min32 (u32 n) (u32 (BSIZE - b_resid (buf_at s bp)))));
      _ ← when (negb (n =? 0)) (iomove bp on n B_READ);
      _ ← brelse bp;
      x ← gets u;
      mret ((u_error x =? 0) && negb (u_count x =? 0) && (0 <? n))
  end.

Fixpoint readi_f (k : nat) (ip : nat) (bd : bool) (rdev : Z) : M unit :=
  match k with
  | O => nofuel
  | S k => go ← readi_turn ip bd rdev; if go : bool then readi_f k ip bd rdev else mret tt
  end.

(** A turn that goes on has moved the rest of a block, or part of the request. *)
Definition iofuel (s : kst) : nat := Z.to_nat (u_count (u s) + 2).

Definition readi (ip : nat) : M unit :=
  x ← gets u;
  if u_count x =? 0 then mret tt
  else if u_offset x <? 0 then seterror EINVAL
  else
    _ ← modify (iset ip IACC);
    y ← gets (fun s => inode_at s ip);
    let dev := u16 (i_rdev y) in
    if is_cdev (i_mode y) then _ ← cd_read (cdevsw (major dev)) dev; mret tt
    else fun e s => readi_f (iofuel s) ip (is_bdev (i_mode y)) dev e s.

(** ** [writei] *)

Definition writei_turn (ip : nat) (mode rdev : Z) : M bool :=
  s ← gets id;
  let lbn := Z.shiftr (u_offset (u s)) BSHIFT in
  let on := Z.to_nat (Z.land (u_offset (u s)) BMASK) in
  let n := chunk s in
  bn ← (if is_bdev mode then mret lbn else bmap ip lbn B_WRITE);
  if negb (is_bdev mode) && (bn <? 0) then mret false
  else
    dev ← gets (fun s => if is_bdev mode then rdev else i_dev (inode_at s ip));
    bp ← (if n =? BSIZE then getblk dev bn else bread dev bn);
    _ ← iomove bp on n B_WRITE;
    er ← gets uerror;
    _ ← (if negb (er =? 0) then brelse bp else bdwrite bp);
    let t := Z.land mode IFMT in
    s ← gets id;
    _ ← when ((i_size (inode_at s ip) <? u_offset (u s)) && ((t =? IFDIR) || (t =? IFREG)))
          (modify (upd_inode ip (fun y => y <| i_size := u_offset (u s) |>)));
    _ ← modify (iset ip (Z.lor IUPD ICHG));
    x ← gets u;
    mret ((u_error x =? 0) && negb (u_count x =? 0)).

Fixpoint writei_f (k : nat) (ip : nat) (mode rdev : Z) : M unit :=
  match k with
  | O => nofuel
  | S k => go ← writei_turn ip mode rdev; if go : bool then writei_f k ip mode rdev else mret tt
  end.

Definition writei (ip : nat) : M unit :=
  x ← gets u;
  if u_offset x <? 0 then seterror EINVAL
  else
    y ← gets (fun s => inode_at s ip);
    let dev := u16 (i_rdev y) in
    if is_cdev (i_mode y) then
      _ ← modify (iset ip (Z.lor IUPD ICHG));
      _ ← cd_write (cdevsw (major dev)) dev; mret tt
    else if u_count x =? 0 then mret tt
    else fun e s => writei_f (iofuel s) ip (i_mode y) dev e s.

(** ** New files *)

Definition d_ino : field := Fld 0 2 false.
Definition D_NAME : nat := 2.
Definition DIRECT : Z := 16.

Definition pdir : M nat :=
  o ← gets (fun s => u_pdir (u s));
  match o with Some p => mret p | None => panic "null u_pdir" end.

Definition wdir (ip : nat) : M unit :=
  p ← pdir;
  nl ← gets (fun s => i_nlink (inode_at s p));
  _ ← (if nl <=? 0 then seterror ENOTDIR
       else
         n ← gets (fun s => i_number (inode_at s ip));
         _ ← modify (upd_u (fun x => x <| u_dent ::= fput d_ino n |>));
         _ ← modify (upd_u (fun x => x <| u_dent ::= splice D_NAME (u_dbuf x) |>));
         _ ← modify (upd_u (fun x => x <| u_count := DIRECT |> <| u_segflg := 1 |> <| u_base := KA KDent 0 |>));
         writei p);
  p ← pdir;
  iput p.

Definition maknode (mode : Z) : M (option nat) :=
  p ← pdir;
  dev ← gets (fun s => i_dev (inode_at s p));
  o ← ialloc dev;
  match o with
  | None => p ← pdir; _ ← iput p; mret None
  | Some ip =>
      _ ← modify (iset ip (Z.lor IACC (Z.lor IUPD ICHG)));
      let mode := if Z.land mode IFMT =? 0 then Z.lor mode IFREG else mode in
      _ ← modify (fun s => upd_inode ip (fun x => x <| i_mode := u16 (fclr mode (u_cmask (u s))) |>) s);
      _ ← modify (upd_inode ip (fun x => x <| i_nlink := 1 |>));
      _ ← modify (fun s => upd_inode ip (fun x => x <| i_uid := u_uid (u s) |> <| i_gid := u_gid (u s) |>) s);
      _ ← wdir ip;
      mret (Some ip)
  end.

(** ** [update] *)

Definition update_super (i : nat) : M unit :=
  mp ← gets (fun s => mounts (kf s) i);
  match m_bufp mp with
  | None => mret tt
  | Some fp =>
      skip ← gets (fun s => (bget fp s_fmod s =? 0) || negb (bget fp s_ilock s =? 0) ||
                            negb (bget fp s_flock s =? 0) || negb (bget fp s_ronly s =? 0));
      if skip : bool then mret tt
      else
        bp ← getblk (m_dev mp) SUPERB;
        err ← gets (fun s => has s bp B_ERROR);
        if err : bool then mret tt
        else
          _ ← modify (bput fp s_fmod 0);
          _ ← modify (fun s => bput fp s_time (now s) s);
          _ ← modify (fun s => bsplice bp 0 (bpart fp 0 512 s) s);
          bwrite bp
  end.

Definition update_inode (ip : nat) : M unit :=
  go ← gets (fun s => negb (ihas ip ILOCK s) && negb (i_count (inode_at s ip) =? 0));
  when go
    (_ ← modify (iset ip ILOCK);
     _ ← modify (upd_inode ip (fun x => x <| i_count ::= fun n => i8 (n + 1) |>));
     _ ← iupdat ip now now;
     iput ip).

Definition update : M unit :=
  lock ← gets (fun s => updlock (kf s));
  if negb (lock =? 0) then mret tt
  else
    _ ← modify (fun s => s <| kf; updlock ::= fun n => i32 (n + 1) |>);
    _ ← for_each (seq 0 NMOUNT) update_super;
    _ ← for_each (seq 0 NINODE) update_inode;
    _ ← modify (fun s => s <| kf; updlock := 0 |>);
    bflush NODEV.

End Rdwri.
