(* ===== verification/Bmap.v ===== *)
(** Where the bytes of a file are: [bmap] of [sys/subr.c] against the tree of
    indirect blocks it walks. *)
From S2P Require Import Prelude Malloc Clist Kernel Sched Dll Sd Bio Cache Blocks Codec Usermem Subr Alloc Freelist Inode Rdwri.

(** The block the tree of depth [d] below block [nb] names for the index [bn],
    -1 when there is none. *)
Fixpoint tree_at (V : Z -> list Z) (d : nat) (nb bn : Z) : Z :=
  if nb =? 0 then -1
  else match d with
       | O => nb
       | S d => tree_at V d (fget (daddr (Z.to_nat (bn / 128 ^ Z.of_nat d mod 128))) (V nb)) bn
       end.

(** The indirect blocks on the way are blocks of the disk. *)
Fixpoint tree_ok (V : Z -> list Z) (hs : holding) (d : nat) (nb bn : Z) : Prop :=
  nb = 0 \/
  match d with
  | O => True
  | S d => 0 <= nb < RD_SIZE /\ not_held hs nb /\
      tree_ok V hs d (fget (daddr (Z.to_nat (bn / 128 ^ Z.of_nat d mod 128))) (V nb)) bn
  end.

(** A file has ten direct addresses and a single, a double and a triple
    indirect one. *)
Definition file_root (bn : Z) : nat * Z * Z :=
  if bn <? 10 then (0%nat, bn, 0)
  else let bn := bn - 10 in
  if bn <? 128 then (1%nat, 10, bn)
  else let bn := bn - 128 in
  if bn <? 128 ^ 2 then (2%nat, 11, bn) else (3%nat, 12, bn - 128 ^ 2).
Definition FILE_BLOCKS : Z := 10 + 128 + 128 ^ 2 + 128 ^ 3.

Definition block_of (V : Z -> list Z) (addr : Z -> Z) (bn : Z) : Z :=
  let '(d, i, ix) := file_root bn in tree_at V d (addr i) ix.
Definition block_ok (V : Z -> list Z) (hs : holding) (addr : Z -> Z) (bn : Z) : Prop :=
  let '(d, i, ix) := file_root bn in tree_ok V hs d (addr i) ix.

(** The block to read ahead: the number after the block's in the inode or in
    the last indirect block, 0 at a hole and at the end of either. *)
Fixpoint tree_next (V : Z -> list Z) (d : nat) (nb bn : Z) : Z :=
  if nb =? 0 then 0
  else match d with
       | O => 0
       | S O => let i := bn mod 128 in
                if fget (daddr (Z.to_nat i)) (V nb) =? 0 then 0
                else if i <? 127 then fget (daddr (Z.to_nat (i + 1))) (V nb) else 0
       | S d => tree_next V d (fget (daddr (Z.to_nat (bn / 128 ^ Z.of_nat d mod 128))) (V nb)) bn
       end.
Definition next_of (V : Z -> list Z) (addr : Z -> Z) (bn : Z) : Z :=
  let '(d, i, ix) := file_root bn in
  match d with
  | O => if addr i =? 0 then 0 else if i <? 9 then addr (i + 1) else 0
  | _ => tree_next V d (addr i) ix
  end.

(** Everything but the buffers not held and [rablock] is as it was. *)
Definition kept_ra (hs : holding) (s s' : kst) : Prop :=
  bufs_kept hs s s' /\ uctx s' = uctx s /\ kf s' = kf s /\ kc s' = kc s /\ kt s' = kt s.

Lemma kept_kept_ra hs s s' : kept hs s s' -> kept_ra hs s s'.
Proof. intros [B (?&?&?&?&_)]. by split. Qed.
Lemma kept_ra_trans hs s1 s2 s3 : kept_ra hs s1 s2 -> kept_ra hs s2 s3 -> kept_ra hs s1 s3.
Proof.
  intros [B1 (?&?&?&?)] [B2 (?&?&?&?)]. split; [|split_and!; congruence].
  intros x Hx. destruct (B1 x Hx), (B2 x Hx). split; congruence.
Qed.
Lemma kept_rablock v hs s : kept_ra hs s (put_rablock v s).
Proof. by split. Qed.

(** The loop that finds the depth. *)
Lemma bmap_level_root bn : 10 <= bn < FILE_BLOCKS ->
  let '(d, i, ix) := file_root bn in
  (1 <= d <= 3)%nat /\ 0 <= ix /\ i = Z.of_nat (NADDR - (4 - d)) /\ bmap_level 3 0 1 (bn - NDIRECT) = (7 * Z.of_nat d, ix, (4 - d)%nat).
Proof.
  intros Hb. unfold file_root, FILE_BLOCKS, NDIRECT in *. rewrite (proj2 (Z.ltb_ge bn 10)) by lia.
  cbn [bmap_level]. change (Z.shiftl 1 NSHIFT) with 128. change (Z.shiftl 128 NSHIFT) with (128 ^ 2). change (Z.shiftl (128 ^ 2) NSHIFT) with (128 ^ 3).
  destruct (Z.ltb_spec (bn - 10) 128); [split_and!; (lia || reflexivity)|].
  destruct (Z.ltb_spec (bn - 10 - 128) (128 ^ 2)); [split_and!; (lia || reflexivity)|].
  rewrite (proj2 (Z.ltb_lt _ _)) by lia. split_and!; (lia || reflexivity).
Qed.

Lemma bmap_level_big bn : FILE_BLOCKS <= bn -> (bmap_level 3 0 1 (bn - NDIRECT)).2 = 0%nat.
Proof.
  intros Hb. unfold FILE_BLOCKS, NDIRECT in *.
  cbn [bmap_level]. change (Z.shiftl 1 NSHIFT) with 128. change (Z.shiftl 128 NSHIFT) with (128 ^ 2). change (Z.shiftl (128 ^ 2) NSHIFT) with (128 ^ 3).
  rewrite !(proj2 (Z.ltb_ge _ _)) by lia. done.
Qed.

Section Bmap.
Context `{Layout} (W : kst -> holding -> (Z -> list Z) -> Prop) `{!BlockStore W}.

Lemma index_digit bn d : 0 <= bn -> Z.land (Z.shiftr bn (7 * Z.of_nat d)) NMASK = bn / 128 ^ Z.of_nat d mod 128.
Proof.
  intros Hb. rewrite Z.shiftr_div_pow2 by lia. rewrite Z.pow_mul_r by lia. change (2 ^ 7) with 128.
  exact (land_ones_mod _ 7 ltac:(lia)).
Qed.

(** Down the tree. *)
Lemma bmap_indir_ok d : forall e s hs V nb bn last, W s hs V -> nb <> 0 -> 0 <= bn -> (length hs < NBUF)%nat ->
  tree_ok V hs d nb bn ->
  exists r s', bmap_indir d 0 B_READ nb bn (7 * Z.of_nat d) last e s = Ret r e s' /\ W s' hs V /\ kept hs s s' /\
    match r with inl v => v = tree_at V d nb bn | inr (nb', _) => nb' = tree_at V d nb bn end /\
    match d with
    | O => r = inr (nb, last) /\ s' = s
    | _ => match r with
           | inl _ => tree_next V d nb bn = 0
           | inr (_, (i, b)) => tree_next V d nb bn = if i <? 127 then bget b (daddr (Z.to_nat (i + 1))) s' else 0
           end
    end.
Proof.
  induction d as [|d IH]; intros e s hs V nb bn last Hw Hnb Hbn Hl Hok.
  - eexists _, s. split; [reflexivity|]. split; [done|]. split; [apply kept_refl|]. cbn. by rewrite (proj2 (Z.eqb_neq _ _)).
  - destruct Hok as [?|(Hr & Hn & Hok)]; [done|].
    destruct (bs_bread e nb s hs V Hw Hr Hn Hl) as (b & s1 & Hr1 & Hw1 & K1 & Eb & Hdn).
    cbn [bmap_indir]. rewrite (bind_ret _ _ _ _ _ _ _ Hr1). msteps.
    rewrite (bs_noerror s1 _ V b Hw1) by (by left). msteps.
    replace (7 * Z.of_nat (S d) - NSHIFT) with (7 * Z.of_nat d) by (unfold NSHIFT; lia). rewrite index_digit by done.
    set (i := bn / 128 ^ Z.of_nat d mod 128) in *. change (bget b (daddr (Z.to_nat i)) s1) with (fget (daddr (Z.to_nat i)) (bytes s1 b)). rewrite Eb.
    cbn [tree_at tree_next]. rewrite (proj2 (Z.eqb_neq nb 0)) by done. fold i.
    destruct (bs_brelse b nb e s1 hs V Hw1 Eb Hdn) as (s2 & Hr2 & Hw2 & K2 & Y2).
    assert (K : kept hs s s2) by (by apply kept_trans with s1).
    assert (Ei : d = 0%nat -> i = bn mod 128) by (intros ->; unfold i; cbn [Z.of_nat]; by rewrite Z.pow_0_r, Z.div_1_r).
    set (nb' := fget (daddr (Z.to_nat i)) (V nb)) in *. destruct (Z.eqb_spec nb' 0) as [E0|Hne].
    + change (B_READ =? B_READ) with true. cbv iota. msteps. rewrite (bind_ret _ _ _ _ _ _ _ Hr2).
      eexists _, s2. split; [reflexivity|]. split; [done|]. split; [done|]. rewrite E0. split; [by destruct d|].
      destruct d; [rewrite <- Ei by done; fold nb'; by rewrite E0|]. by destruct d.
    + rewrite (bind_ret _ _ _ _ _ _ _ Hr2).
      destruct (IH e s2 hs V nb' bn (i, b) Hw2 Hne Hbn Hl Hok) as (r & s3 & Hr3 & Hw3 & K3 & Hres & Hnext).
      exists r, s3. split; [exact Hr3|]. split; [done|]. split; [by apply kept_trans with s2|]. split; [done|].
      destruct d; [|exact Hnext]. destruct Hnext as [-> ->]. rewrite <- Ei by done. fold nb'.
      rewrite (proj2 (Z.eqb_neq nb' 0)) by done. unfold bget. fold (bytes s2 b). by rewrite Y2, Eb.
Qed.

Lemma W_rablock v s hs V : W s hs V -> W (put_rablock v s) hs V.
Proof. intros Hw. by apply (bs_same s). Qed.

Lemma bmap_addr_read ip i dev e s :
  bmap_addr ip i dev B_READ e s =
  Ret (if i_addr (inode_at s ip) i =? 0 then None else Some (i_addr (inode_at s ip) i)) e s.
Proof. unfold bmap_addr. msteps. by destruct (_ =? 0). Qed.

Lemma bmap_direct_ok ip bn e s hs V : W s hs V -> i_dev (inode_at s ip) = 0 -> 0 <= bn < 10 ->
  exists s', bmap ip bn B_READ e s = Ret (block_of V (i_addr (inode_at s ip)) bn) e s' /\ W s' hs V /\ kept_ra hs s s' /\
    rablock (kb s') = next_of V (i_addr (inode_at s ip)) bn.
Proof.
  intros Hw Hd Hb. set (s1 := put_rablock 0 s). pose proof (W_rablock 0 s hs V Hw) as Hw1. fold s1 in Hw1.
  unfold bmap. rewrite (proj2 (Z.ltb_ge bn 0)) by lia. msteps. fold s1. rewrite Hd.
  rewrite (proj2 (Z.ltb_lt bn NDIRECT)) by (unfold NDIRECT; lia).
  unfold block_of, next_of, file_root. rewrite (proj2 (Z.ltb_lt bn 10)) by lia. cbn [tree_at].
  rewrite (bind_ret _ _ _ _ _ _ _ (bmap_addr_read ip bn 0 e s1)). change (inode_at s1 ip) with (inode_at s ip).
  set (a := i_addr (inode_at s ip) bn) in *. destruct (Z.eqb_spec a 0).
  - exists s1. split; [done|]. split; [done|]. split; [apply kept_rablock|done].
  - change (NDIRECT - 1) with 9. destruct (bn <? 9); cbn [when]; msteps; eexists; (split; [reflexivity|]);
      (split; [by repeat apply W_rablock|]); split; try reflexivity.
    + eapply kept_ra_trans; [apply (kept_rablock 0)|apply kept_rablock].
    + apply kept_rablock.
Qed.

Lemma bmap_ok ip bn e s hs V :
  W s hs V -> (length hs < NBUF)%nat -> i_dev (inode_at s ip) = 0 -> 0 <= bn < FILE_BLOCKS ->
  block_ok V hs (i_addr (inode_at s ip)) bn ->
  exists s', bmap ip bn B_READ e s = Ret (block_of V (i_addr (inode_at s ip)) bn) e s' /\ W s' hs V /\ kept_ra hs s s' /\
    rablock (kb s') = next_of V (i_addr (inode_at s ip)) bn.
Proof.
  intros Hw Hl Hd Hb Hok. destruct (Z_lt_le_dec bn 10) as [Hdir|Hdir]; [apply bmap_direct_ok; (done || lia)|].
  set (s1 := put_rablock 0 s). pose proof (W_rablock 0 s hs V Hw) as Hw1. fold s1 in Hw1.
  unfold bmap. rewrite (proj2 (Z.ltb_ge bn 0)) by lia. msteps. fold s1. rewrite Hd.
  rewrite (proj2 (Z.ltb_ge bn NDIRECT)) by (unfold NDIRECT; lia). unfold block_of, block_ok, next_of in *.
  pose proof (bmap_level_root bn ltac:(lia)) as Hroot. destruct (file_root bn) as [[d i] ix] eqn:Efr.
  destruct Hroot as (Hd3 & Hix & Ei3 & Elev). rewrite Elev. cbv iota beta.
  destruct (4 - d)%nat as [|j] eqn:Ej; [lia|]. rewrite <- Ei3. replace (4 - S j)%nat with d by lia.
  rewrite (bind_ret _ _ _ _ _ _ _ (bmap_addr_read ip i 0 e s1)). change (inode_at s1 ip) with (inode_at s ip).
  set (a := i_addr (inode_at s ip) i) in *. destruct d as [|d]; [lia|].
  destruct (Z.eqb_spec a 0) as [E0|Hne].
  - exists s1. rewrite E0. split; [done|]. split; [done|]. split; [apply kept_rablock|by destruct d].
  - destruct (bmap_indir_ok (S d) e s1 hs V a ix (0, BNull) Hw1 Hne Hix Hl Hok) as (r & s2 & Hr2 & Hw2 & K2 & Hres & Hnext).
    pose proof (kept_ra_trans _ _ _ _ (kept_rablock 0 hs s) (kept_kept_ra _ _ _ K2)) as K. rewrite (bind_ret _ _ _ _ _ _ _ Hr2).
    assert (Era : rablock (kb s2) = 0) by (by destruct K2 as [_ (_ & _ & _ & _ & ->)]).
    destruct r as [v|[nb [k bp]]]; [subst v; exists s2; by rewrite Hnext|]. subst nb. rewrite Hnext. change (NINDIR - 1) with 127.
    destruct (k <? 127); cbn [when]; msteps; eexists; (split; [reflexivity|]); (split; [by repeat apply W_rablock|]); (split; [|done]); [|done].
    eapply kept_ra_trans; [exact K|apply kept_rablock].
Qed.

(** C6.  [bmap] walks the tree of the file's blocks: for every block number a
    file can have it returns the block that the direct addresses and the
    single, double and triple indirect blocks name for it, or -1 when the tree
    has a hole there, at whatever level the hole is.  It releases every
    indirect block it read, changes neither a block nor the process, and leaves
    the number after the block's, if there is one, in [rablock]. *)
Theorem bmap_reads_tree ip bn e s hs V :
  W s hs V -> (length hs < NBUF)%nat -> i_dev (inode_at s ip) = 0 -> 0 <= bn < FILE_BLOCKS ->
  block_ok V hs (i_addr (inode_at s ip)) bn ->
  exists s', bmap ip bn B_READ e s = Ret (block_of V (i_addr (inode_at s ip)) bn) e s' /\ W s' hs V /\ kept_ra hs s s' /\
    rablock (kb s') = next_of V (i_addr (inode_at s ip)) bn.
Proof. apply bmap_ok. Qed.

(** Block numbers no file has. *)
Lemma bmap_efbig ip bn rw e s : bn < 0 \/ FILE_BLOCKS <= bn ->
  exists s', bmap ip bn rw e s = Ret 0 e s' /\ uerror s' = EFBIG.
Proof.
  intros [Hb|Hb]; unfold bmap.
  - rewrite (proj2 (Z.ltb_lt bn 0)) by done. unfold seterror. msteps. eexists. split; [reflexivity|].
    unfold uerror. rewrite u_upd_u. reflexivity.
  - unfold FILE_BLOCKS in Hb. rewrite (proj2 (Z.ltb_ge bn 0)) by lia. msteps.
    rewrite (proj2 (Z.ltb_ge bn NDIRECT)) by (unfold NDIRECT; lia).
    pose proof (bmap_level_big bn Hb) as E. destruct (bmap_level 3 0 1 (bn - NDIRECT)) as [[sh b'] j]. cbn in E. subst j.
    unfold seterror. msteps. eexists. split; [reflexivity|]. unfold uerror. rewrite u_upd_u. reflexivity.
Qed.

End Bmap.

(** * Witness *)

(** A file whose single indirect block is block 5, with block 77 as its
    fourth entry. *)
Definition ex_file : kst :=
  upd_inode 0 (fun x => x <| i_addr := fun i => if i =? 10 then 5 else 0 |>) (ex_mounted [0; 9; 7]).
Definition ex_indirect : list Z := fput (daddr 3) 77 (replicate 512 0).

#[local] Opaque ex_mounted.

Lemma ex_file_fsw : fsw (H := ex_layout) ex_file ex_hs ex_view.
Proof.
  assert (Hg : forall g s, fsw (H := ex_layout) s ex_hs ex_view -> fsw (H := ex_layout) (upd_inode 0 g s) ex_hs ex_view).
  { intros g s Hw. by apply (fsw_same (H := ex_layout) s). }
  apply Hg. exact (ff_store _ _ _ _ _ _ _ _ ex_two_free).
Qed.

Lemma ex_file_addr : i_addr (inode_at ex_file 0) = (fun i => if i =? 10 then 5 else 0).
Proof. unfold ex_file. rewrite inode_upd_same. reflexivity. Qed.

Lemma ex_file_dev : i_dev (inode_at ex_file 0) = 0.
Proof. unfold ex_file. rewrite inode_upd_same. exact eq_refl. Qed.

Lemma ex_hs_not k : not_held ex_hs k.
Proof. intros b. unfold ex_hs. rewrite list_elem_of_singleton. intros E. discriminate E. Qed.

(** A block of any contents can be written. *)
Lemma ex_block_written l s V : fsw (H := ex_layout) s ex_hs V -> length l = 512%nat ->
  exists s', fsw (H := ex_layout) s' ex_hs (<[5 := l]> V) /\ kf s' = kf s.
Proof.
  intros Hw Hl. destruct (fsw_getblk (H := ex_layout) [] 5 s ex_hs V Hw) as (b & s1 & _ & Hw1 & [_ (_ & E1 & _)] & _).
  - unfold RD_SIZE. lia.
  - apply ex_hs_not.
  - cbn. unfold NBUF. lia.
  - assert (Hw2 : fsw (H := ex_layout) (set_bytes b l s1) ((b, Some 5) :: ex_hs) V).
    { apply (fsw_set (H := ex_layout)); [exact Hw1|by left|exact Hl]. }
    destruct (fsw_bdwrite (H := ex_layout) b 5 [] (set_bytes b l s1) ex_hs V Hw2) as (s3 & _ & Hw3 & [_ (_ & E3 & _)]).
    rewrite set_bytes_same in Hw3. exists s3. split; [exact Hw3|]. rewrite E3. exact E1.
Qed.

(** The file once its indirect block has been written. *)
Lemma ex_file_written : exists s V, fsw (H := ex_layout) s ex_hs V /\ V 5 = ex_indirect /\ kf s = kf ex_file.
Proof.
  destruct (ex_block_written ex_indirect ex_file ex_view ex_file_fsw) as (s & Hw & Ek); [vm_compute; reflexivity|].
  exists s, (<[5 := ex_indirect]> ex_view). split; [exact Hw|]. split; [apply fn_lookup_insert|exact Ek].
Qed.

Lemma bmap_reads_tree_witness : exists s s', bmap (H := ex_layout) 0 13 B_READ [] s = Ret 77 [] s'.
Proof.
  destruct ex_file_written as (s & V & Hw & HV & Hkf).
  assert (Ea : inode_at s 0 = inode_at ex_file 0) by (unfold inode_at; rewrite Hkf; reflexivity).
  destruct (bmap_reads_tree (H := ex_layout) (fsw (H := ex_layout)) 0 13 [] s ex_hs V) as (s' & Hr & _).
  - exact Hw.
  - cbn. unfold NBUF. lia.
  - rewrite Ea. exact ex_file_dev.
  - unfold FILE_BLOCKS. lia.
  - rewrite Ea, ex_file_addr. unfold block_ok. cbn. right. change (if 10 =? 10 then 5 else 0) with 5. split; [unfold RD_SIZE; lia|]. split; [apply ex_hs_not|]. by right.
  - exists s, s'. rewrite Hr. f_equal. rewrite Ea, ex_file_addr. unfold block_of.
    change (file_root 13) with (1%nat, 10, 3). cbv iota beta. cbn [tree_at].
    change (if 10 =? 10 then 5 else 0) with 5. rewrite HV. vm_compute. reflexivity.
Defined.
