(* ===== verification/Readi.v ===== *)
(** What [readi] of [sys/rdwri.c] delivers: the bytes of the file, through
    [bmap], the buffer cache and the copies to user memory. *)
From S2P Require Import Prelude Malloc Clist Kernel Sched Dll Sd Bio Cache Blocks Codec Usermem Subr Alloc Freelist Inode Rdwri Bmap.

(** * Moving bytes to the user *)

(** The process may take [n] bytes at [u_base]. *)
Record io_ok (n : Z) (s : kst) : Prop := {
  io_base : exists a, u_base (u s) = UA a /\ 0 <= a <= USER_PAGE_SIZE /\ a + n <= USER_PAGE_SIZE;
  io_seg : u_segflg (u s) <> 1;
  io_off : 0 <= u_offset (u s) /\ u_offset (u s) + n < 2 ^ 31;
  io_count : n <= u_count (u s) < 2 ^ 32
}.

(** The processes are the same but for their scheduling. *)
Definition procs_kept (s s' : kst) : Prop :=
  kx s' = kx s /\ forall p, (p < NPROC)%nat -> unsched (proc_at s' p) = unsched (proc_at s p).

Lemma procs_kept_kp s s' : kx s' = kx s -> kp s' = kp s -> procs_kept s s'.
Proof. intros E1 E2. split; [done|]. intros p _. unfold proc_at. by rewrite E2. Qed.

Lemma procs_kept_trans s1 s2 s3 : procs_kept s1 s2 -> procs_kept s2 s3 -> procs_kept s1 s3.
Proof. intros [E1 P1] [E2 P2]. split; [congruence|]. intros p Hp. by rewrite P2, P1. Qed.

(** The bytes [l] are in user memory, where [u_base] was. *)
Record delivered (l : list Z) (s s' : kst) : Prop := {
  dl_u : u s' = advance (Z.of_nat (length l)) (u s);
  dl_page : user_page s' = user_page s;
  dl_procs : procs_kept s s';
  dl_mem : forall a, u_base (u s) = UA a -> forall pg x,
    upmem (ku s') pg x = if decide (pg = user_page s /\ a <= x < a + Z.of_nat (length l)) then nth (Z.to_nat (x - a)) l 0
                         else upmem (ku s) pg x
}.

(** Nothing but the process has changed. *)
Definition only_user (s s' : kst) : Prop := kb s' = kb s /\ kp s' = kp s /\ kf s' = kf s /\ kc s' = kc s /\ kt s' = kt s.

Lemma only_user_trans s1 s2 s3 : only_user s1 s2 -> only_user s2 s3 -> only_user s1 s3.
Proof. unfold only_user. intros (?&?&?&?&?) (?&?&?&?&?). split_and!; congruence. Qed.

Lemma user_fuse f g h f' g' h' (x : user) :
  (x <| u_base ::= f |> <| u_offset ::= g |> <| u_count ::= h |> <| u_base ::= f' |> <| u_offset ::= g' |> <| u_count ::= h' |>) =
  (x <| u_base ::= f' ∘ f |> <| u_offset ::= g' ∘ g |> <| u_count ::= h' ∘ h |>).
Proof. by destruct x. Qed.

Lemma user_ext3 f g h f' g' h' (x : user) : f (u_base x) = f' (u_base x) -> g (u_offset x) = g' (u_offset x) -> h (u_count x) = h' (u_count x) ->
  (x <| u_base ::= f |> <| u_offset ::= g |> <| u_count ::= h |>) = (x <| u_base ::= f' |> <| u_offset ::= g' |> <| u_count ::= h' |>).
Proof.
  intros Ef Eg Eh. transitivity (x <| u_base := f (u_base x) |> <| u_offset := g (u_offset x) |> <| u_count := h (u_count x) |>).
  - by destruct x.
  - rewrite Ef, Eg, Eh. by destruct x.
Qed.

Lemma advance_add n m x : advance m (advance n x) = advance (n + m) x.
Proof.
  unfold advance. rewrite user_fuse. apply user_ext3; unfold compose.
  - destruct (u_base x) as [a|o a]; cbn [caddr_add]; [|f_equal; lia]. unfold uwrap. rewrite Zplus_mod_idemp_l. do 2 f_equal. lia.
  - rewrite swrap_add by lia. f_equal. lia.
  - unfold uwrap. rewrite Zminus_mod_idemp_l. f_equal. lia.
Qed.

Lemma proc_uctx s s' p : uctx s' = uctx s -> (p < NPROC)%nat -> unsched (proc_at s' p) = unsched (proc_at s p).
Proof.
  unfold uctx. intros [_ [Ep _]%pair_equal_spec]%pair_equal_spec Hc. apply (f_equal (fun l => l !! p)) in Ep. unfold paddrs in Ep.
  rewrite !list_lookup_fmap, lookup_seq_lt in Ep by done. by apply (inj Some) in Ep.
Qed.

Lemma procs_kept_uctx s s' : uctx s' = uctx s -> procs_kept s s'.
Proof. intros E. split; [|intros p; by apply proc_uctx]. unfold uctx in E. by apply pair_equal_spec in E as [_ [_ E]%pair_equal_spec]. Qed.

Lemma user_page_uctx s s' : uctx s' = uctx s -> (curproc s < NPROC)%nat -> user_page s' = user_page s /\ u s' = u s /\ ku s' = ku s.
Proof.
  intros E Hc. pose proof (proc_uctx s s' _ E Hc) as Ep. unfold uctx in E. apply pair_equal_spec in E as [Eu _].
  assert (Ec : curproc s' = curproc s) by (unfold curproc, u; by rewrite Eu).
  split; [|unfold u; by rewrite Eu]. unfold user_page. rewrite Ec.
  by rewrite (f_equal p_addr Ep : p_addr (proc_at s' _) = p_addr (proc_at s _)).
Qed.

Lemma io_advance n l s s' : io_ok n s -> delivered l s s' -> Z.of_nat (length l) <= n -> io_ok (n - Z.of_nat (length l)) s'.
Proof.
  intros [(a & Ea & Ha) Hs Ho Hc] [Eu _ _] Hl. unfold USER_PAGE_SIZE in *. split; rewrite Eu; cbn.
  - exists (a + Z.of_nat (length l)). unfold USER_PAGE_SIZE. rewrite Ea. cbn. rewrite u32_id by lia. split; [done|lia].
  - done.
  - rewrite i32_id by lia. lia.
  - rewrite u32_id by lia. lia.
Qed.

Lemma delivered_nil n s : io_ok n s -> 0 <= n -> delivered [] s s.
Proof.
  intros [(a & Ea & Ha) _ Ho Hc] Hn. unfold USER_PAGE_SIZE in *. split; [|done|done|].
  - transitivity (u s <| u_base ::= id |> <| u_offset ::= id |> <| u_count ::= id |>); [by destruct (u s)|].
    cbn [length]. change (Z.of_nat 0) with 0.
    apply user_ext3; unfold id; rewrite ?Z.add_0_r, ?Z.sub_0_r; [rewrite Ea; cbn [caddr_add]; rewrite Z.add_0_r, u32_id by lia; done|rewrite i32_id; lia|rewrite u32_id; lia].
  - intros a' _ pg x. rewrite decide_False; [done|]. cbn. lia.
Qed.

Lemma delivered_app n l1 l2 s1 s2 s3 : io_ok n s1 -> Z.of_nat (length l1) <= n ->
  delivered l1 s1 s2 -> delivered l2 s2 s3 -> delivered (l1 ++ l2) s1 s3.
Proof.
  intros [(a & Ea & Ha) _ _ _] Hl [U1 P1 C1 M1] [U2 P2 C2 M2]. split; rewrite ?length_app, ?Nat2Z.inj_add.
  - rewrite U2, U1. apply advance_add.
  - congruence.
  - by apply procs_kept_trans with s2.
  - intros a' Ea' pg x. rewrite Ea in Ea'. injection Ea' as <-. unfold USER_PAGE_SIZE in *.
    assert (Ea2 : u_base (u s2) = UA (a + Z.of_nat (length l1))) by (rewrite U1; cbn; rewrite Ea; cbn; rewrite u32_id by lia; done).
    rewrite (M2 _ Ea2), P1, (M1 _ Ea). repeat case_decide; try lia; try done.
    + rewrite app_nth2 by lia. f_equal. lia.
    + rewrite app_nth1 by lia. done.
Qed.

(** Bytes copied to user memory and the pointers moved. *)
Definition put_user (l : list Z) (a : Z) (s : kst) : kst :=
  upd_u (advance (Z.of_nat (length l)))
    (s <| ku; upmem ::= fun m => <[user_page s := mem_write l a (m (user_page s))]> m |>).

Lemma put_user_ok l a s : u_base (u s) = UA a -> delivered l s (put_user l a s) /\ only_user s (put_user l a s).
Proof.
  intros Ea. split; [|done]. set (s1 := s <| ku; upmem ::= fun m => <[user_page s := mem_write l a (m (user_page s))]> m |>).
  change (put_user l a s) with (upd_u (advance (Z.of_nat (length l))) s1).
  assert (Eu : u (upd_u (advance (Z.of_nat (length l))) s1) = advance (Z.of_nat (length l)) (u s)) by (by rewrite u_upd_u).
  split; [done| |done|].
  - unfold user_page, curproc. rewrite Eu. done.
  - intros a' Ea' pg x. rewrite Ea in Ea'. injection Ea' as <-. change (upmem (ku (upd_u ?g s1))) with (upmem (ku s1)). unfold s1. cbn.
    destruct (decide (pg = user_page s)) as [->|Hne].
    + rewrite fn_lookup_insert, mem_write_lookup. repeat case_decide; tauto.
    + rewrite fn_lookup_insert_ne by congruence. rewrite decide_False by tauto. done.
Qed.

Lemma user_ptr_ok s a n : 0 <= a -> 0 < n -> a + n <= USER_PAGE_SIZE -> user_ptr s a n = Some (user_page s, a).
Proof.
  intros Ha Hn Hle. unfold user_ptr. unfold USER_PAGE_SIZE in *.
  rewrite (proj2 (user_range_iff a n ltac:(lia) ltac:(lia))) by (unfold USER_PAGE_SIZE; lia). by rewrite u32_id by lia.
Qed.

Section Move.
Context `{Layout}.

Lemma passc_ok n c e s : io_ok n s -> 0 < n -> isbyte c ->
  exists s', passc c e s = Ret (if u_count (u s) =? 1 then -1 else 0) e s' /\ delivered [c] s s' /\ only_user s s'.
Proof.
  intros [(a & Ea & Ha) Hs Ho Hcn] Hn Hc. exists (put_user [c] a s). split; [|by apply put_user_ok].
  unfold passc. msteps. rewrite (proj2 (Z.eqb_neq _ _) Hs), Ea. cbn [uaddr].
  assert (Hp : (if negb (u_segflg (u s) =? 0) then suibyte a c else subyte a c) e s = Ret 0 e (poke (user_page s) a c s)).
  { replace (if _ : bool then _ else _) with (subyte a c) by (by destruct (negb _)).
    unfold subyte. rewrite user_ptr_ok by lia. by rewrite u8_id by exact Hc. }
  rewrite (bind_ret _ _ _ _ _ _ _ Hp). change (0 <? 0) with false. cbv iota. msteps. f_equal.
  rewrite u_upd_u. change (u (poke (user_page s) a c s)) with (u s). cbn. rewrite u32_id by lia.
  destruct (Z.eqb_spec (u_count (u s)) 1) as [->|]; [done|]. rewrite (proj2 (Z.eqb_neq _ _)) by lia. done.
Qed.

Lemma take_drop_nth (l : list Z) off n : (off < length l)%nat -> take (S n) (drop off l) = nth off l 0 :: take n (drop (S off) l).
Proof.
  intros Hl. destruct (lookup_lt_is_Some_2 l off Hl) as [x Hx]. rewrite (drop_S l x off Hx), (nth_lookup_Some _ _ 0 _ Hx). done.
Qed.

Lemma iomove_out_ok b e : forall n off s, io_ok (Z.of_nat n) s -> (off + n <= length (bytes s b))%nat -> Forall isbyte (bytes s b) ->
  exists s', iomove_out n b off e s = Ret tt e s' /\ delivered (take n (drop off (bytes s b))) s s' /\ only_user s s'.
Proof.
  induction n as [|n IH]; intros off s Hio Hl Hb.
  - exists s. split; [done|]. split; [by apply (delivered_nil 0)|done].
  - rewrite take_drop_nth by lia. cbn [iomove_out]. msteps. fold (bytes s b).
    assert (Hc : isbyte (nth off (bytes s b) 0)) by (rewrite Forall_forall in Hb; apply Hb, list_elem_of_In, nth_In; lia).
    destruct (passc_ok _ _ e s Hio ltac:(lia) Hc) as (s1 & Hr & D1 & O1). rewrite (bind_ret _ _ _ _ _ _ _ Hr).
    assert (Eb : bytes s1 b = bytes s b) by (unfold bytes; by destruct O1 as (-> & _)).
    destruct (Z.eqb_spec (u_count (u s)) 1) as [E1|E1].
    + change (-1 <? 0) with true. cbv iota. exists s1. assert (n = 0)%nat as -> by (pose proof (io_count _ _ Hio); lia). done.
    + change (0 <? 0) with false. cbv iota. pose proof (io_advance _ _ _ _ Hio D1 ltac:(cbn; lia)) as Hio1. cbn [length] in Hio1.
      replace (Z.of_nat (S n) - Z.of_nat 1) with (Z.of_nat n) in Hio1 by lia.
      destruct (IH (S off) s1 Hio1) as (s2 & Hr2 & D2 & O2); [rewrite Eb; lia|by rewrite Eb|]. rewrite Eb in D2.
      exists s2. split; [done|]. split; [|by apply only_user_trans with s1].
      apply (delivered_app (Z.of_nat (S n)) [_] _ s s1); try done. cbn. lia.
Qed.

(** [iomove] out of a buffer, whole or byte by byte. *)
Lemma iomove_read b off n e s : io_ok (Z.of_nat n) s -> (0 < n)%nat -> (off + n <= length (bytes s b))%nat -> Forall isbyte (bytes s b) ->
  exists s', iomove b off (Z.of_nat n) B_READ e s = Ret tt e s' /\ delivered (take n (drop off (bytes s b))) s s' /\ only_user s s'.
Proof.
  intros Hio Hn Hl Hb. unfold iomove. rewrite (proj2 (Z.eqb_neq _ _)) by lia. msteps.
  change (B_READ =? B_WRITE) with false. cbv iota. destruct (iomove_fast (Z.of_nat n) off (u s)) eqn:Ef.
  - destruct Hio as [(a & Ea & Ha) Hs Ho Hcn]. rewrite Ea. cbn [uaddr]. msteps. rewrite Nat2Z.id. set (l := bpart b off n s).
    assert (El : length l = n) by (unfold l, bpart; fold (bytes s b); rewrite length_take, length_drop; lia).
    exists (put_user l a s). split; [|by apply put_user_ok].
    assert (Hp : (if u_segflg (u s) =? 0 then copyout l a (Z.of_nat n) else copyiout l a (Z.of_nat n)) e s =
      Ret 0 e (s <| ku; upmem ::= fun m => <[user_page s := mem_write l a (m (user_page s))]> m |>)).
    { replace (if _ : bool then _ else _) with (copyout l a (Z.of_nat n)) by (by destruct (_ =? _)).
      unfold copyout. rewrite user_ptr_ok by lia. unfold USER_PAGE_SIZE in Ha. rewrite u32_id, Nat2Z.id, take_ge by lia. done. }
    rewrite (bind_ret _ _ _ _ _ _ _ Hp). change (negb (0 =? 0)) with false. cbv iota. unfold put_user. by rewrite El.
  - rewrite Nat2Z.id. apply iomove_out_ok; done.
Qed.

End Move.

(** * The bytes of a file *)

(** Byte [i] of a file: holes read as zeros. *)
Definition block_data (V : Z -> list Z) (k : Z) : list Z := if k <? 0 then replicate 512 0 else V k.
Definition file_byte (V : Z -> list Z) (addr : Z -> Z) (i : Z) : Z :=
  nth (Z.to_nat (i mod 512)) (block_data V (block_of V addr (i / 512))) 0.
Definition file_bytes (V : Z -> list Z) (addr : Z -> Z) (off n : Z) : list Z := file_byte V addr <$> seqZ off n.

(** Block [bn] of the file, and the block that may be read ahead for it, are
    blocks of the disk, or [bn] is a hole. *)
Record readable (V : Z -> list Z) (hs : holding) (addr : Z -> Z) (bn : Z) : Prop := {
  rd_range : 0 <= bn < FILE_BLOCKS;
  rd_tree : block_ok V hs addr bn;
  rd_block : let k := block_of V addr bn in k < 0 \/ 0 <= k < RD_SIZE /\ not_held hs k /\ Forall isbyte (V k);
  rd_next : 0 <= next_of V addr bn < RD_SIZE
}.

Lemma length_file_bytes V addr off n : length (file_bytes V addr off n) = Z.to_nat n.
Proof. unfold file_bytes. by rewrite length_fmap, length_seqZ. Qed.

Lemma file_bytes_app V addr off n m : 0 <= n -> 0 <= m ->
  file_bytes V addr off (n + m) = file_bytes V addr off n ++ file_bytes V addr (off + n) m.
Proof. intros Hn Hm. unfold file_bytes. rewrite seqZ_app by done. by rewrite fmap_app. Qed.

(** A part of one block. *)
Lemma file_bytes_block V addr off n : 0 <= off -> off mod 512 + Z.of_nat n <= 512 ->
  let l := block_data V (block_of V addr (off / 512)) in length l = 512%nat ->
  take n (drop (Z.to_nat (off mod 512)) l) = file_bytes V addr off (Z.of_nat n).
Proof.
  intros Ho Hn l Hl. pose proof (Z.mod_pos_bound off 512 ltac:(done)) as Hm. apply list_eq. intros i.
  unfold file_bytes. rewrite list_lookup_fmap. destruct (decide (i < n)%nat).
  - rewrite lookup_take_lt, lookup_drop by done. rewrite lookup_seqZ_lt by lia. cbn [fmap option_fmap option_map].
    unfold file_byte. replace ((off + Z.of_nat i) / 512) with (off / 512) by (Z.div_mod_to_equations; lia). fold l.
    replace ((off + Z.of_nat i) mod 512) with (off mod 512 + Z.of_nat i) by (Z.div_mod_to_equations; lia).
    rewrite Z2Nat.inj_add, Nat2Z.id by lia.
    destruct (nth_lookup_or_length l (Z.to_nat (off mod 512) + i) 0); [done|lia].
  - rewrite lookup_take_ge, lookup_seqZ_ge by lia. done.
Qed.

(** * [readi] *)

(** An inode but for the last block read. *)
Definition nolast (x : inode) : inode := x <| i_lastr := 0 |>.
Definition inode_kept (ip : nat) (s s' : kst) : Prop :=
  (forall j, j <> ip -> inode_at s' j = inode_at s j) /\ nolast (inode_at s' ip) = nolast (inode_at s ip) /\
  (mounts (kf s') = mounts (kf s) /\ files (kf s') = files (kf s) /\ texts (kf s') = texts (kf s)).

Lemma inode_kept_trans ip s1 s2 s3 : inode_kept ip s1 s2 -> inode_kept ip s2 s3 -> inode_kept ip s1 s3.
Proof.
  intros (O1 & E1 & ? & ? & ?) (O2 & E2 & ? & ? & ?). split_and!; try congruence. intros j Hj. by rewrite O2, O1.
Qed.

Lemma inode_kept_kf ip s s' : kf s' = kf s -> inode_kept ip s s'.
Proof. intros E. unfold inode_kept, inode_at. by rewrite E. Qed.

Lemma inode_kept_fields ip s s' : inode_kept ip s s' ->
  i_addr (inode_at s' ip) = i_addr (inode_at s ip) /\ i_size (inode_at s' ip) = i_size (inode_at s ip) /\
  i_dev (inode_at s' ip) = i_dev (inode_at s ip).
Proof.
  intros (_ & E & _). unfold nolast in E. destruct (inode_at s' ip), (inode_at s ip). cbn in *. injection E. intros. by split_and!.
Qed.

Lemma delivered_pre l s s1 s2 : uctx s1 = uctx s -> (curproc s < NPROC)%nat -> delivered l s1 s2 -> delivered l s s2.
Proof.
  intros E Hc [D1 D2 D4 D3]. destruct (user_page_uctx s s1 E Hc) as (Ep & Eu & Ek).
  split; [congruence|congruence|by apply procs_kept_trans with s1; [apply procs_kept_uctx|]|].
  intros a Ha pg x. rewrite <- Eu in Ha. rewrite (D3 a Ha). by rewrite Ep, Ek.
Qed.

Lemma delivered_post l s s1 s2 : uctx s2 = uctx s1 -> (curproc s1 < NPROC)%nat -> delivered l s s1 -> delivered l s s2.
Proof.
  intros E Hc [D1 D2 D4 D3]. destruct (user_page_uctx s1 s2 E Hc) as (Ep & Eu & Ek).
  split; [congruence|congruence|by apply procs_kept_trans with s1; [|apply procs_kept_uctx]|].
  intros a Ha pg x. by rewrite Ek, (D3 a Ha).
Qed.

Lemma io_ok_uctx n s s' : uctx s' = uctx s -> io_ok n s -> io_ok n s'.
Proof.
  intros [Eu _]%pair_equal_spec Hio. assert (E : u s' = u s) by (unfold u; by rewrite Eu).
  destruct Hio. by split; rewrite E.
Qed.

Section Readi.
Context `{Layout} `{!Cdevsw} (W : kst -> holding -> (Z -> list Z) -> Prop) `{!BlockStore W}.

(** The buffer a turn reads from. *)
Definition readi_buf (ip : nat) (lbn bn : Z) : M bptr :=
  last ← gets (fun s => i_lastr (inode_at s ip));
  if bn <? 0 then bp ← geteblk; _ ← clrbuf bp; mret bp
  else if i32 (last + 1) =? lbn then ra ← gets (fun s => rablock (kb s)); breada 0 bn ra
  else bread 0 bn.

(** A buffer that can be released as it is. *)
Definition releasable (V : Z -> list Z) (b : bptr) (o : option Z) (s : kst) : Prop :=
  match o with Some k => bytes s b = V k /\ fset (flg s b) B_DONE = true | None => True end.

Lemma readi_buf_ok ip lbn bn e s hs V : W s hs V -> (S (length hs) < NBUF)%nat ->
  bn < 0 \/ 0 <= bn < RD_SIZE /\ not_held hs bn -> 0 <= rablock (kb s) < RD_SIZE ->
  exists b o s', readi_buf ip lbn bn e s = Ret b e s' /\ W s' ((b, o) :: hs) V /\ kept_ra hs s s' /\
    bytes s' b = block_data V bn /\ releasable V b o s'.
Proof.
  intros Hw Hl Hbn Hra. unfold readi_buf, block_data. msteps. destruct (Z.ltb_spec bn 0) as [Hneg|Hpos].
  - destruct (bs_geteblk e s hs V Hw ltac:(lia)) as (b & s1 & Hr & Hw1 & K1). rewrite (bind_ret _ _ _ _ _ _ _ Hr).
    assert (Hb : b ∈ held_bufs ((b, None) :: hs)) by (by left). pose proof (bs_nodup s1 _ V Hw1) as Hnd.
    unfold held_bufs in Hnd. cbn in Hnd. apply NoDup_cons in Hnd as [Hbn' _].
    assert (E0 : replicate 512 0 ++ drop 512 (bytes s1 b) = replicate 512 0).
    { rewrite drop_ge by (rewrite (bs_length s1 _ V b Hw1 Hb); lia). apply app_nil_r. }
    set (s2 := set_bytes b (replicate 512 0 ++ drop 512 (bytes s1 b)) s1).
    exists b, None, (upd_buf b (fun x => x <| b_resid := 0 |>) s2). split; [reflexivity|]. split; [|split; [|split; [|done]]].
    + apply bs_clr; [|done]. apply bs_set; [done|done|]. by rewrite E0.
    + apply kept_kept_ra. apply kept_trans with s1; [done|]. apply kept_trans with s2; [by apply kept_set_other|apply kept_resid].
    + change (bytes s2 b = replicate 512 0). unfold s2. by rewrite set_bytes_same.
  - destruct Hbn as [?|[Hr Hn]]; [lia|].
    assert (Hget : exists b s', (if i32 (i_lastr (inode_at s ip) + 1) =? lbn then ra ← gets (fun s => rablock (kb s)); breada 0 bn ra
        else bread 0 bn) e s = Ret b e s' /\ W s' ((b, Some bn) :: hs) V /\ kept hs s s' /\ bytes s' b = V bn /\ fset (flg s' b) B_DONE = true).
    { destruct (_ =? lbn); [msteps; apply bs_breada; try done; by right|apply bs_bread; (done || lia)]. }
    destruct Hget as (b & s' & Hrun & Hw' & K & Eb & Hd). exists b, (Some bn), s'. split; [exact Hrun|].
    split; [done|]. split; [by apply kept_kept_ra|]. split; [done|by split].
Qed.

Lemma release_ok b o e s hs V : W s ((b, o) :: hs) V -> releasable V b o s ->
  exists s', brelse b e s = Ret tt e s' /\ W s' hs V /\ kept hs s s'.
Proof.
  intros Hw Hr. destruct o as [k|].
  - destruct Hr. destruct (bs_brelse b k e s hs V) as (s' & ? & ? & ? & _); eauto.
  - destruct (bs_release b e s hs V Hw) as (s' & ? & ? & ? & _); eauto.
Qed.

Lemma readable_data V hs addr bn : readable V hs addr bn -> Forall isbyte (block_data V (block_of V addr bn)).
Proof.
  intros [_ _ Hb _]. unfold block_data. destruct (Z.ltb_spec (block_of V addr bn) 0) as [Hn|Hp].
  - apply Forall_replicate. unfold isbyte. lia.
  - destruct Hb as [?|(_ & _ & ?)]; [lia|done].
Qed.

(** The count of a turn. *)
Definition turn_count (s : kst) (size : Z) : Z :=
  Z.min (Z.min (512 - u_offset (u s) mod 512) (u_count (u s))) (size - u_offset (u s)).

Lemma chunk_eq s : 0 <= u_offset (u s) -> 0 < u_count (u s) < 2 ^ 32 -> chunk s = Z.min (512 - u_offset (u s) mod 512) (u_count (u s)).
Proof.
  intros Ho Hc. unfold chunk. change BMASK with (Z.ones 9). rewrite land_ones_mod by lia. change (2 ^ 9) with 512. unfold BSIZE.
  pose proof (Z.mod_pos_bound (u_offset (u s)) 512 ltac:(lia)) as Hm. rewrite u32_id by lia. unfold min32.
  destruct (Z.ltb_spec (512 - u_offset (u s) mod 512) (u_count (u s))); rewrite i32_id by lia; lia.
Qed.

Lemma readi_block_ok ip rdev e s hs V : W s hs V -> (S (length hs) < NBUF)%nat -> (curproc s < NPROC)%nat ->
  let x := inode_at s ip in let off := u_offset (u s) in
  i_dev x = 0 -> u_error (u s) = 0 -> 0 <= off < i_size x -> i_size x < 2 ^ 31 -> 0 < u_count (u s) < 2 ^ 32 ->
  readable V hs (i_addr x) (off / 512) ->
  let bn := block_of V (i_addr x) (off / 512) in
  exists s', readi_block ip false rdev e s = Ret (Some (off / 512, bn, 0, turn_count s (i_size x))) e s' /\ W s' hs V /\
    kept_ra hs s s' /\ 0 <= rablock (kb s') < RD_SIZE.
Proof.
  intros Hw Hl Hcp x off Hd He Ho Hsz Hc Hrd bn. unfold readi_block. msteps. unfold id. fold x off.
  rewrite i32_id by lia. rewrite (proj2 (Z.leb_gt _ _)) by lia. rewrite chunk_eq by (fold off; lia). fold off.
  replace (Z.shiftr off BSHIFT) with (off / 512) by (unfold BSHIFT; by rewrite Z.shiftr_div_pow2 by lia).
  destruct (bmap_ok W ip (off / 512) e s hs V Hw ltac:(lia) Hd (rd_range _ _ _ _ Hrd) (rd_tree _ _ _ _ Hrd)) as (s1 & Hr & Hw1 & K1 & Era).
  rewrite (bind_ret _ _ _ _ _ _ _ Hr). msteps. pose proof K1 as (_ & Ex & Ekf & _).
  destruct (user_page_uctx s s1 Ex Hcp) as (_ & Eu & _). unfold uerror. rewrite Eu, He. change (negb (0 =? 0)) with false. cbv iota. msteps.
  exists s1. split; [|split; [done|split; [done|rewrite Era; apply Hrd]]]. unfold inode_at. rewrite Ekf. fold (inode_at s ip). fold x. rewrite Hd.
  replace (if _ : bool then _ else _) with (turn_count s (i_size x)); [done|]. unfold turn_count. fold off.
  destruct (Z.ltb_spec (i_size x - off) (Z.min (512 - off mod 512) (u_count (u s)))); lia.
Qed.

(** What a turn, and the whole of [readi], leave. *)
Record read_done (ip : nat) (l : list Z) (hs : holding) (V : Z -> list Z) (s s' : kst) : Prop := {
  rd_store : W s' hs V;
  rd_bytes : delivered l s s';
  rd_inode : inode_kept ip s s';
  rd_held : bufs_kept hs s s'
}.

(** The bytes of a buffer moved and the buffer released. *)
Lemma move_release ip lbn b o on n e s hs V : W s ((b, o) :: hs) V -> releasable V b o s -> io_ok (Z.of_nat n) s -> (curproc s < NPROC)%nat ->
  (0 < n)%nat -> (on + n <= 512)%nat -> Forall isbyte (bytes s b) -> u_error (u s) = 0 ->
  exists s', (_ ← modify (upd_inode ip (fun x => x <| i_lastr := lbn |>));
      n ← gets (fun s => i32 (min32 (u32 (Z.of_nat n)) (u32 (BSIZE - b_resid (buf_at s b)))));
      _ ← when (negb (n =? 0)) (iomove b on n B_READ);
      _ ← brelse b;
      x ← gets u;
      mret ((u_error x =? 0) && negb (u_count x =? 0) && (0 <? n))) e s = Ret (negb (u_count (u s) - Z.of_nat n =? 0)) e s' /\
    read_done ip (take n (drop on (bytes s b))) hs V s s'.
Proof.
  intros Hw Hrl Hio Hcp Hn Hon Hby He. set (s1 := upd_inode ip (fun x => x <| i_lastr := lbn |>) s). assert (Hb : b ∈ held_bufs ((b, o) :: hs)) by (by left).
  assert (Hw1 : W s1 ((b, o) :: hs) V) by (by apply (bs_same s)). msteps. fold s1. rewrite (bs_resid s1 _ V b Hw1 Hb). change (u32 (BSIZE - 0)) with 512.
  rewrite u32_id by lia. assert (En : i32 (min32 (Z.of_nat n) 512) = Z.of_nat n) by (unfold min32; destruct (Z.ltb_spec (Z.of_nat n) 512); rewrite i32_id by lia; lia).
  rewrite En, (proj2 (Z.eqb_neq (Z.of_nat n) 0)) by lia. cbn [negb when].
  assert (Hio1 : io_ok (Z.of_nat n) s1) by (by apply (io_ok_uctx _ s)).
  destruct (iomove_read b on n e s1 Hio1 Hn) as (s2 & Hr2 & D2 & O2); [by rewrite (bs_length s1 _ V b Hw1 Hb)|done|].
  rewrite (bind_ret _ _ _ _ _ _ _ Hr2). pose proof O2 as (Ekb & Ekp & Ekf & _).
  assert (Hw2 : W s2 ((b, o) :: hs) V) by (apply (bs_same s1); [done|unfold same_kb; by rewrite Ekb|done|by rewrite Ekb]).
  assert (Hrl2 : releasable V b o s2).
  { unfold releasable, bytes, flg, buf_at in *. rewrite Ekb. exact Hrl. }
  destruct (release_ok b o e s2 hs V Hw2 Hrl2) as (s3 & Hr3 & Hw3 & [B3 (Ex3 & Ekf3 & _)]). rewrite (bind_ret _ _ _ _ _ _ _ Hr3). msteps.
  assert (Hcp2 : (curproc s2 < NPROC)%nat) by (unfold curproc; rewrite (dl_u _ _ _ D2); exact Hcp).
  destruct (user_page_uctx s2 s3 Ex3 Hcp2) as (_ & Eu3 & _). exists s3. split.
  - rewrite Eu3, (dl_u _ _ _ D2). change (u s1) with (u s). cbn. rewrite length_take, length_drop. change (bytes s1 b) with (bytes s b).
    rewrite (bs_length s _ V b Hw Hb). replace (Init.Nat.min n (512 - on)) with n by lia. rewrite He. cbn.
    pose proof (io_count _ _ Hio). rewrite u32_id by lia. rewrite (proj2 (Z.ltb_lt 0 (Z.of_nat n))) by lia. by rewrite andb_true_r.
  - split; [done| | |].
    + apply (delivered_post _ _ s2); [done|done|]. by apply (delivered_pre _ s s1).
    + apply inode_kept_trans with s1; [|apply inode_kept_kf; congruence]. split; [intros j Hj; by apply inode_upd_ne|].
      unfold s1. by rewrite inode_upd_same.
    + intros x Hx. destruct (B3 x Hx) as [-> ->]. unfold bytes, flg, buf_at. by rewrite Ekb.
Qed.

Lemma bufs_kept_trans hs s1 s2 s3 : bufs_kept hs s1 s2 -> bufs_kept hs s2 s3 -> bufs_kept hs s1 s3.
Proof. intros B1 B2 x Hx. destruct (B1 x Hx), (B2 x Hx). split; congruence. Qed.

Lemma read_done_pre ip l hs V s s1 s2 : kept_ra hs s s1 -> (curproc s < NPROC)%nat -> read_done ip l hs V s1 s2 -> read_done ip l hs V s s2.
Proof.
  intros (B & Ex & Ekf & _) Hcp [D1 D2 D3 D4]. split; [done| | |by apply bufs_kept_trans with s1].
  - by apply (delivered_pre _ s s1).
  - apply inode_kept_trans with s1; [by apply inode_kept_kf|done].
Qed.

(** The conditions a turn relies on. *)
Record reading (ip : nat) (V : Z -> list Z) (hs : holding) (s : kst) : Prop := {
  rg_store : W s hs V;
  rg_spare : (S (length hs) < NBUF)%nat;
  rg_proc : (curproc s < NPROC)%nat;
  rg_dev : i_dev (inode_at s ip) = 0;
  rg_error : u_error (u s) = 0;
  rg_size : i_size (inode_at s ip) < 2 ^ 31
}.

Lemma readi_turn_ok ip rdev e s hs V : reading ip V hs s ->
  let x := inode_at s ip in let off := u_offset (u s) in let n := turn_count s (i_size x) in
  0 <= off < i_size x -> 0 < u_count (u s) -> io_ok n s -> readable V hs (i_addr x) (off / 512) ->
  0 < n /\ exists s', readi_turn ip false rdev e s = Ret (negb (u_count (u s) - n =? 0)) e s' /\
    read_done ip (file_bytes V (i_addr x) off n) hs V s s'.
Proof.
  intros [Hw Hl Hcp Hd He Hsz] x off n Ho Hc Hio Hrd. fold x in Hd, Hsz.
  pose proof (Z.mod_pos_bound off 512 ltac:(lia)) as Hmod. pose proof (io_count _ _ Hio) as Hcr. set (on := off mod 512) in *.
  assert (Hn : 0 < n /\ on + n <= 512) by (unfold n, turn_count; fold off on; lia). split; [lia|].
  destruct (readi_block_ok ip rdev e s hs V Hw Hl Hcp Hd He Ho Hsz ltac:(lia) Hrd) as (s1 & Hr1 & Hw1 & K1 & Hra). fold x off n in Hr1.
  set (bn := block_of V (i_addr x) (off / 512)) in *.
  assert (Hbn : bn < 0 \/ 0 <= bn < RD_SIZE /\ not_held hs bn) by (destruct (rd_block _ _ _ _ Hrd) as [?|(? & ? & _)]; [by left|by right]).
  destruct (readi_buf_ok ip (off / 512) bn e s1 hs V Hw1 Hl Hbn Hra) as (b & o & s2 & Hr2 & Hw2 & K2 & Eb & Hrl).
  pose proof (kept_ra_trans _ _ _ _ K1 K2) as K. pose proof K as (_ & Ex & _).
  destruct (user_page_uctx s s2 Ex Hcp) as (_ & Eu & _).
  pose proof (readable_data _ _ _ _ Hrd) as Hby. fold bn in Hby. rewrite <- Eb in Hby.
  assert (Hbl : length (bytes s2 b) = 512%nat) by (apply (bs_length s2 _ V b Hw2); by left).
  destruct (move_release ip (off / 512) b o (Z.to_nat on) (Z.to_nat n) e s2 hs V Hw2 Hrl) as (s3 & Hr3 & D3);
    [rewrite Z2Nat.id by lia; by apply (io_ok_uctx _ s)|unfold curproc; by rewrite Eu|lia|lia|done|by rewrite Eu|].
  rewrite Z2Nat.id, Eu in Hr3 by lia. exists s3. split.
  - unfold readi_turn. msteps. change BMASK with (Z.ones 9). rewrite land_ones_mod by lia. change (2 ^ 9) with 512. fold off on.
    rewrite (bind_ret _ _ _ _ _ _ _ Hr1). cbv iota beta. unfold readi_buf in Hr2. revert Hr2. msteps. intros Hr2.
    rewrite (bind_ret _ _ _ _ _ _ _ Hr2). exact Hr3.
  - apply (read_done_pre _ _ _ _ s s2); [done|done|]. rewrite Eb in D3, Hbl.
    pose proof (file_bytes_block V (i_addr x) off (Z.to_nat n) ltac:(lia)) as F. rewrite Z2Nat.id in F by lia.
    fold bn in F. rewrite <- F; [exact D3|fold on; lia|exact Hbl].
Qed.

Lemma readi_turn_eof ip rdev e s hs V : reading ip V hs s -> 0 <= i_size (inode_at s ip) -> i_size (inode_at s ip) <= u_offset (u s) < 2 ^ 31 ->
  readi_turn ip false rdev e s = Ret false e s.
Proof.
  intros [_ _ _ _ _ Hsz] Hs0 Ho. unfold readi_turn, readi_block. msteps. unfold id. rewrite i32_id by lia.
  rewrite (proj2 (Z.leb_le _ _)) by lia. by msteps.
Qed.

Lemma io_ok_le n m s : io_ok n s -> m <= n -> io_ok m s.
Proof.
  intros [(a & Ea & Ha) Hs Ho Hc] Hm. split; [|done|lia|lia]. exists a. split; [done|lia].
Qed.

(** What there is to read. *)
Definition to_read (s : kst) (size : Z) : Z := Z.max 0 (Z.min (u_count (u s)) (size - u_offset (u s))).

(** The state after a turn that goes on. *)
Lemma reading_next ip V hs s s1 m l : reading ip V hs s -> read_done ip l hs V s s1 -> Z.of_nat (length l) = m ->
  0 <= m -> 0 <= u_offset (u s) -> u_offset (u s) + m < 2 ^ 31 -> m <= u_count (u s) < 2 ^ 32 ->
  reading ip V hs s1 /\ i_addr (inode_at s1 ip) = i_addr (inode_at s ip) /\ i_size (inode_at s1 ip) = i_size (inode_at s ip) /\
  u_offset (u s1) = u_offset (u s) + m /\ u_count (u s1) = u_count (u s) - m.
Proof.
  intros [Hw Hl Hcp Hd He Hsz] [D1 D2 D3 D4] Hlen Hm Ho Ho2 Hc. destruct (inode_kept_fields _ _ _ D3) as (Ea & Es & Edv).
  pose proof (dl_u _ _ _ D2) as Eu. rewrite Hlen in Eu. split; [split; try done|].
  - unfold curproc. by rewrite Eu.
  - by rewrite Edv.
  - by rewrite Eu.
  - by rewrite Es.
  - split; [done|]. split; [done|]. rewrite Eu. cbn. rewrite i32_id, u32_id by lia. done.
Qed.

Lemma readi_loop ip rdev e hs V : forall k s, reading ip V hs s ->
  let x := inode_at s ip in let off := u_offset (u s) in let n := to_read s (i_size x) in
  0 <= off < 2 ^ 31 -> 0 <= i_size x -> 0 < u_count (u s) -> io_ok n s ->
  (forall bn, off / 512 <= bn <= (off + n - 1) / 512 -> readable V hs (i_addr x) bn) -> (Z.to_nat (u_count (u s)) < k)%nat ->
  exists s', readi_f k ip false rdev e s = Ret tt e s' /\ read_done ip (file_bytes V (i_addr x) off n) hs V s s'.
Proof.
  induction k as [|k IH]; intros s Hrg x off n Ho Hs0 Hc Hio Hrd Hk; [lia|]. cbn [readi_f].
  destruct (Z_lt_le_dec off (i_size x)) as [Hlt|Hge].
  - pose proof (Z.mod_pos_bound off 512 ltac:(lia)) as Hmod. pose proof (io_count _ _ Hio) as Hcr. pose proof (io_off _ _ Hio) as Hor. fold off in Hor.
    set (m := turn_count s (i_size x)). assert (Hmn : m <= n) by (unfold m, n, to_read, turn_count; fold off; lia).
    assert (Hn0 : 0 < n) by (unfold n, to_read; fold off; lia).
    destruct (readi_turn_ok ip rdev e s hs V Hrg) as (Hm & s1 & Hr & D1); [fold x off; lia|done|by apply (io_ok_le n)| |].
    { apply Hrd. fold x off. Z.div_mod_to_equations. lia. }
    fold x off m in Hm, Hr, D1. rewrite (bind_ret _ _ _ _ _ _ _ Hr). destruct (Z.eqb_spec (u_count (u s) - m) 0) as [E|E]; cbn [negb].
    + exists s1. assert (n = m) as -> by (unfold n, to_read in *; fold off in Hmn |- *; lia). done.
    + assert (Hlen : Z.of_nat (length (file_bytes V (i_addr x) off m)) = m) by (rewrite length_file_bytes; lia).
      destruct (reading_next ip V hs s s1 m _ Hrg D1 Hlen) as (Hrg1 & Ea & Es & Eo & Ec); [lia|fold off; lia|fold off; lia|lia|].
      fold x off in Ea, Es, Eo.
      assert (En : to_read s1 (i_size (inode_at s1 ip)) = n - m).
      { unfold to_read. rewrite Es, Eo, Ec. unfold n, to_read. fold off. unfold n, to_read in Hmn. fold off in Hmn. lia. }
      pose proof (io_advance _ _ _ _ Hio (rd_bytes _ _ _ _ _ _ D1) ltac:(lia)) as Hio1. rewrite Hlen in Hio1.
      destruct (IH s1 Hrg1) as (s2 & Hr2 & D2).
      * rewrite Eo. lia.
      * by rewrite Es.
      * rewrite Ec. unfold m, turn_count in *. fold off in E |- *. lia.
      * by rewrite En.
      * rewrite Ea, En, Eo. intros bn Hbn. apply Hrd. replace (off + m + (n - m) - 1) with (off + n - 1) in Hbn by lia.
        split; [|lia]. transitivity ((off + m) / 512); [apply Z.div_le_mono; lia|lia].
      * rewrite Ec. lia.
      * exists s2. split; [done|]. rewrite Ea, En, Eo in D2. destruct D1 as [A1 A2 A3 A4], D2 as [B1 B2 B3 B4].
        replace n with (m + (n - m)) by lia. rewrite file_bytes_app by lia. split; [done| | |].
        -- apply (delivered_app n _ _ s s1); [done|lia|done|done].
        -- by apply inode_kept_trans with s1.
        -- by apply bufs_kept_trans with s1.
  - rewrite (bind_ret _ _ _ _ _ _ _ (readi_turn_eof ip rdev e s hs V Hrg Hs0 ltac:(fold x off; lia))). exists s. split; [done|].
    assert (n = 0) as -> by (unfold n, to_read; fold off; lia). split; [apply Hrg|by apply (delivered_nil 0)|by apply inode_kept_kf|by split].
Qed.

Lemma readi_run ip e s hs V : reading ip V hs s ->
  let x := inode_at s ip in let off := u_offset (u s) in let n := to_read s (i_size x) in
  is_cdev (i_mode x) = false -> is_bdev (i_mode x) = false ->
  0 <= off < 2 ^ 31 -> 0 <= i_size x -> 0 < u_count (u s) -> io_ok n s ->
  (forall bn, off / 512 <= bn <= (off + n - 1) / 512 -> readable V hs (i_addr x) bn) ->
  exists s', readi ip e s = Ret tt e s' /\ read_done ip (file_bytes V (i_addr x) off n) hs V (iset ip IACC s) s'.
Proof.
  intros Hrg x off n Hcd Hbd Ho Hs0 Hc Hio Hrd. set (s1 := iset ip IACC s).
  assert (Ei : inode_at s1 ip = x <| i_flag ::= fun f => Z.lor f IACC |>) by (unfold s1, iset; by rewrite inode_upd_same).
  unfold readi. msteps. rewrite (proj2 (Z.eqb_neq _ _)) by lia. fold off. rewrite (proj2 (Z.ltb_ge _ _)) by lia. msteps. fold s1.
  assert (Em : i_mode (inode_at s1 ip) = i_mode x) by (by rewrite Ei). rewrite Em, Hcd, Hbd. cbv zeta iota.
  assert (Hrg1 : reading ip V hs s1).
  { destruct Hrg as [Hw Hl Hcp Hd He Hsz]. split; try done; [by apply (bs_same s)|by rewrite Ei|by rewrite Ei]. }
  assert (Ea : i_addr (inode_at s1 ip) = i_addr x /\ i_size (inode_at s1 ip) = i_size x) by (by rewrite Ei). destruct Ea as [Ea Es].
  pose proof (readi_loop ip (u16 (i_rdev (inode_at s1 ip))) e hs V (iofuel s1) s1 Hrg1) as L. cbv zeta in L. rewrite Ea, Es in L.
  apply L; [exact Ho|exact Hs0|exact Hc|by apply (io_ok_uctx _ s)|exact Hrd|]. unfold iofuel. change (u s1) with (u s). lia.
Qed.

(** C2. [readi] reads the file: given a disk file without special type, it
    copies to user memory, where [u_base] pointed, the bytes of the file from
    [u_offset] on, as many as were asked for or as there are before the end, and
    moves [u_base], [u_offset] and [u_count] past them.  The bytes are those of
    the blocks the inode's tree names, with holes read as zeros; whether a
    block is copied whole or byte by byte, was cached, read or read ahead does
    not matter.  No block of the disk changes, every buffer taken is released,
    and the inode only gets [IACC] and the number of the block last read. *)
Theorem readi_reads_file ip e s hs V : reading ip V hs s ->
  let x := inode_at s ip in let off := u_offset (u s) in let n := to_read s (i_size x) in
  is_cdev (i_mode x) = false -> is_bdev (i_mode x) = false ->
  0 <= off < 2 ^ 31 -> 0 <= i_size x -> 0 < u_count (u s) -> io_ok n s ->
  (forall bn, off / 512 <= bn <= (off + n - 1) / 512 -> readable V hs (i_addr x) bn) ->
  exists s', readi ip e s = Ret tt e s' /\ W s' hs V /\ delivered (file_bytes V (i_addr x) off n) s s' /\
    (forall j, j <> ip -> inode_at s' j = inode_at s j) /\
    nolast (inode_at s' ip) = nolast (x <| i_flag ::= fun f => Z.lor f IACC |>) /\ bufs_kept hs s s'.
Proof.
  intros Hrg x off n Hcd Hbd Ho Hs0 Hc Hio Hrd.
  destruct (readi_run ip e s hs V Hrg Hcd Hbd Ho Hs0 Hc Hio Hrd) as (s' & Hr & [D1 D2 (D3 & D4 & _) D5]).
  exists s'. split; [done|]. split; [done|]. split; [|split; [|split; [|done]]].
  - apply (delivered_pre _ s (iset ip IACC s)); [done|apply Hrg|done].
  - intros j Hj. rewrite D3 by done. by apply inode_upd_ne.
  - rewrite D4. unfold iset. by rewrite inode_upd_same.
Qed.

(** At the end of the file, or beyond it, nothing is read. *)
Lemma to_read_eof s size : size <= u_offset (u s) -> to_read s size = 0.
Proof. unfold to_read. lia. Qed.

End Readi.

(** * Witness *)

(** No character devices. *)
#[local] Instance ex_cdevsw : Cdevsw := fun _ => CDev (fun _ _ => mret 0) (fun _ _ => mret 0) (fun _ => mret 0) (fun _ => mret 0) (fun _ _ _ _ => mret 0).

(** A file of 600 bytes: block 5 and a hole; 100 bytes wanted from byte 450
    on. *)
Definition ex_plain_inode (x : inode) : inode :=
  x <| i_mode := IFREG |> <| i_dev := 0 |> <| i_size := 600 |> <| i_addr := fun i => if i =? 0 then 5 else 0 |>.
Definition ex_request (x : user) : user :=
  x <| u_base := UA 64 |> <| u_count := 100 |> <| u_offset := 450 |> <| u_segflg := 0 |> <| u_error := 0 |> <| u_procp := 1%nat |>.
Definition ex_reader (s : kst) : kst := upd_u ex_request (upd_inode 0 ex_plain_inode s).

Lemma ex_reader_u s : u (ex_reader s) = ex_request (u s).
Proof. unfold ex_reader. by rewrite u_upd_u. Qed.
Lemma ex_reader_inode s : inode_at (ex_reader s) 0 = ex_plain_inode (inode_at s 0).
Proof. exact (inode_upd_same 0 ex_plain_inode s). Qed.

Lemma ex_reader_fsw s hs V : fsw (H := ex_layout) s hs V -> fsw (H := ex_layout) (ex_reader s) hs V.
Proof. intros Hw. by apply (fsw_same (H := ex_layout) s). Qed.

Lemma ex_view_bytes : Forall isbyte (ex_view 5).
Proof. apply (bool_decide_unpack _). vm_compute. exact I. Qed.

#[local] Opaque ex_view ex_mounted.

Lemma ex_reader_reading : reading (fsw (H := ex_layout)) 0 ex_view ex_hs (ex_reader (ex_mounted [0; 9; 7])).
Proof.
  split.
  - apply ex_reader_fsw. exact (ff_store _ _ _ _ _ _ _ _ ex_two_free).
  - cbn. unfold NBUF. lia.
  - unfold curproc. rewrite ex_reader_u. cbn. unfold NPROC. lia.
  - rewrite ex_reader_inode. reflexivity.
  - rewrite ex_reader_u. reflexivity.
  - rewrite ex_reader_inode. cbn. lia.
Qed.

Lemma ex_not_held k : not_held ex_hs k.
Proof. intros b. unfold ex_hs. rewrite list_elem_of_singleton. intros E. discriminate E. Qed.

Lemma readi_reads_file_witness : exists s', readi (H := ex_layout) 0 [] (ex_reader (ex_mounted [0; 9; 7])) = Ret tt [] s' /\ u_count (u s') = 0.
Proof.
  pose proof (ex_reader_u (ex_mounted [0; 9; 7])) as Eu. pose proof (ex_reader_inode (ex_mounted [0; 9; 7])) as Ei.
  pose proof ex_reader_reading as Hrg. set (s := ex_reader (ex_mounted [0; 9; 7])) in *.
  assert (En : to_read s (i_size (inode_at s 0)) = 100) by (unfold to_read; rewrite Eu, Ei; reflexivity).
  destruct (readi_reads_file (H := ex_layout) (fsw (H := ex_layout)) 0 [] s ex_hs ex_view Hrg) as (s' & Hr & _ & D & _).
  - rewrite Ei. reflexivity.
  - rewrite Ei. reflexivity.
  - rewrite Eu. cbn. lia.
  - rewrite Ei. cbn. lia.
  - rewrite Eu. cbn. lia.
  - rewrite En. split; rewrite Eu; cbn; [exists 64; split; [reflexivity|unfold USER_PAGE_SIZE; lia]|discriminate|lia|lia].
  - rewrite En, Ei, Eu. cbn [ex_request ex_plain_inode]. intros bn Hbn. change (i_addr (ex_plain_inode (inode_at (ex_mounted [0; 9; 7]) 0))) with (fun i => if i =? 0 then 5 else 0).
    change (u_offset (ex_request (u (ex_mounted [0; 9; 7])))) with 450 in Hbn. assert (Hc : bn = 0 \/ bn = 1) by (Z.div_mod_to_equations; lia).
    destruct Hc as [-> | ->]; (split; [unfold FILE_BLOCKS; lia| | |change (next_of _ _ _) with 0; unfold RD_SIZE; lia]).
    + by right.
    + right. split; [unfold RD_SIZE; cbn; lia|]. split; [apply ex_not_held|exact ex_view_bytes].
    + by left.
    + by left.
  - exists s'. split; [exact Hr|]. rewrite (dl_u _ _ _ D), En, length_file_bytes, Eu. reflexivity.
Defined.
