(* ===== verification/Text.v ===== *)
(** The table of texts in use: locks, [xmark], [xrele], [xumount] and
    [xuntext], with [xfree] and [xccdec], of [sys/text.c].  The port loads a
    whole image into the process's page, so the swapping half of the file has no
    caller; what remains is the protection of executables that are running. *)
From S2P Require Import Prelude Malloc Clist Kernel Sched Dll Sd Bio Codec Alloc Inode.

Definition text_at (s : kst) (x : nat) : text := texts (kf s) x.
Definition upd_text (x : nat) (g : text -> text) (s : kst) : kst := s <| kf; texts ::= fun t => <[x := g (t x)]> t |>.

Section Text.
Context `{Layout}.

Definition xlock (xp : nat) : M unit :=
  _ ← sleep_while (fun s => fset (x_flag (text_at s xp)) XLOCK)
        (upd_text xp (fun x => x <| x_flag ::= fun f => Z.lor f XWANT |>)) (ChText xp) PSWP;
  modify (upd_text xp (fun x => x <| x_flag ::= fun f => Z.lor f XLOCK |>)).

Definition xunlock (xp : nat) : M unit :=
  w ← gets (fun s => fset (x_flag (text_at s xp)) XWANT);
  _ ← when w (wakeup (ChText xp));
  modify (upd_text xp (fun x => x <| x_flag ::= fun f => fclr f (Z.lor XLOCK XWANT) |>)).

(** [mfree(swapmap, size, addr)] *)
Definition swap_free (size addr : Z) : M unit := fun e s =>
  match mfree false 0 (swapmap (kf s)) size addr with
  | Some (mp, _, _) => Ret tt e (s <| kf; swapmap := mp |>)
  | None => Stop (Panicked "swapmap") s
  end.

Definition xuntext (xp : nat) : M unit :=
  _ ← xlock xp;
  c ← gets (fun s => x_count (text_at s xp));
  if negb (c =? 0) then xunlock xp
  else
    o ← gets (fun s => x_iptr (text_at s xp));
    _ ← modify (upd_text xp (fun x => x <| x_flag ::= fun f => fclr f XLOCK |>));
    _ ← modify (upd_text xp (fun x => x <| x_iptr := None |>));
    x ← gets (fun s => text_at s xp);
    _ ← swap_free (ctod (x_size x)) (x_daddr x);
    match o with
    | None => panic "null x_iptr"
    | Some ip =>
        _ ← modify (iclr ip ITEXT);
        lk ← gets (ihas ip ILOCK);
        if lk : bool then modify (upd_inode ip (fun x => x <| i_count ::= fun n => i8 (n - 1) |>))
        else iput ip
    end.

Definition xumount (dev : Z) : M unit :=
  for_each (seq 0 NTEXT) (fun xp =>
    o ← gets (fun s => x_iptr (text_at s xp));
    match o with
    | Some ip => d ← gets (fun s => i_dev (inode_at s ip)); when (dev =? d) (xuntext xp)
    | None => mret tt
    end).

Definition xrele (ip : nat) : M unit :=
  t ← gets (ihas ip ITEXT);
  when t (for_each (seq 0 NTEXT) (fun xp =>
    o ← gets (fun s => x_iptr (text_at s xp));
    when (opt_is o ip) (xuntext xp))).

(** [mfree(coremap, size, addr)] *)
Definition core_put (size addr : Z) : M unit := fun e s =>
  match mfree false 0 (coremap (kx s)) size addr with
  | Some (mp, _, _) => Ret tt e (s <| kx; coremap := mp |>)
  | None => Stop (Panicked "coremap") s
  end.
Definition core_free (size addr : Z) : M unit :=
  ri ← gets (fun s => runin (kp s));
  _ ← when (negb (ri =? 0)) (_ ← modify (fun s => s <| kp; runin := 0 |>); wakeup ChRunin);
  core_put size addr.

(** [swap(xp->x_daddr, xp->x_caddr, xp->x_size, B_WRITE)]: [xmark] makes every
    text with size 0, for which [swap] moves nothing and the swap buffers are
    never busy. *)
Definition swap_text (count : Z) : M unit :=
  if count =? 0 then _ ← spl6; _ ← spl0; mret tt else nofuel.

Definition xccdec (xp : nat) : M unit :=
  c ← gets (fun s => x_ccount (text_at s xp));
  if c =? 0 then mret tt
  else
    _ ← xlock xp;
    _ ← modify (upd_text xp (fun x => x <| x_ccount ::= fun n => i8 (n - 1) |>));
    x ← gets (fun s => text_at s xp);
    _ ← when (x_ccount x =? 0)
          (_ ← when (fset (x_flag x) XWRIT)
                 (_ ← modify (upd_text xp (fun y => y <| x_flag ::= fun f => fclr f XWRIT |>));
                  swap_text (x_size x));
           core_free (x_size x) (x_caddr x));
    xunlock xp.

Definition xfree : M unit :=
  o ← gets (fun s => p_textp (proc_at s (curproc s)));
  match o with
  | None => mret tt
  | Some xp =>
      _ ← xlock xp;
      _ ← modify (upd_text xp (fun x => x <| x_flag ::= fun f => fclr f XLOCK |>));
      _ ← modify (fun s => upd_proc (curproc s) (fun x => x <| p_textp := None |>) s);
      o ← gets (fun s => x_iptr (text_at s xp));
      match o with
      | None => panic "null x_iptr"
      | Some ip =>
          _ ← modify (upd_text xp (fun x => x <| x_count ::= fun n => i8 (n - 1) |>));
          last ← gets (fun s => (x_count (text_at s xp) =? 0) && negb (fset (i_mode (inode_at s ip)) ISVTX));
          if last : bool then
            _ ← modify (upd_text xp (fun x => x <| x_iptr := None |>));
            x ← gets (fun s => text_at s xp);
            _ ← swap_free (ctod (x_size x)) (x_daddr x);
            _ ← core_free (x_size x) (x_caddr x);
            _ ← modify (iclr ip ITEXT);
            lk ← gets (ihas ip ILOCK);
            if lk : bool then modify (upd_inode ip (fun x => x <| i_count ::= fun n => i8 (n - 1) |>))
            else iput ip
          else xccdec xp
      end
  end.

(** The first entry for [ip], and the first free one. *)
Definition find_text (ip : nat) (s : kst) : option nat :=
  List.find (fun xp => opt_is (x_iptr (text_at s xp)) ip) (seq 0 NTEXT).
Definition free_text (s : kst) : option nat :=
  List.find (fun xp => match x_iptr (text_at s xp) with None => true | Some _ => false end) (seq 0 NTEXT).

(** [tsize] is [u.u_exdata.ux_tsize]. *)
Definition xmark (tsize : Z) (ip : nat) : M unit :=
  if tsize =? 0 then mret tt
  else
    o ← gets (find_text ip);
    match o with
    | Some xp =>
        _ ← xlock xp;
        _ ← modify (upd_text xp (fun x => x <| x_count ::= fun n => i8 (n + 1) |> <| x_ccount ::= fun n => i8 (n + 1) |>));
        _ ← modify (fun s => upd_proc (curproc s) (fun x => x <| p_textp := Some xp |>) s);
        xunlock xp
    | None =>
        o ← gets free_text;
        match o with
        | None =>
            _ ← log "out of text";
            p ← gets curproc;
            psignal p SIGKIL
        | Some xp =>
            _ ← modify (upd_text xp (fun x => x <| x_flag := 0 |> <| x_count := 1 |> <| x_ccount := 1 |>
                 <| x_iptr := Some ip |> <| x_size := 0 |> <| x_daddr := 0 |> <| x_caddr := 0 |>));
            _ ← modify (iset ip ITEXT);
            _ ← modify (upd_inode ip (fun x => x <| i_count ::= fun n => i8 (n + 1) |>));
            modify (fun s => upd_proc (curproc s) (fun x => x <| p_textp := Some xp |>) s)
        end
    end.

End Text.
