(* ===== verification/Fio.v ===== *)
(** File descriptors, open files and permissions: [sys/fio.c]. *)
From S2P Require Import Prelude Malloc Clist Kernel Sched Dll Sd Bio Codec Usermem Subr Alloc Inode Rdwri Text.

Definition ASU : Z := 2.
Definition in_group (m : Z) (t1 t2 : Z) : bool := (Z.land m IFMT =? t1) || (Z.land m IFMT =? t2).

Section Fio.
Context `{Layout} `{Cdevsw}.

Definition getf (f : Z) : M (option nat) :=
  o ← gets (fun s => if (0 <=? f) && (f <? NOFILE) then u_ofile (u s) f else None);
  match o with
  | Some fp => mret (Some fp)
  | None => _ ← seterror EBADF; mret None
  end.

Definition suser : M bool :=
  uid ← gets (fun s => u_uid (u s));
  if uid =? 0 then _ ← modify (upd_u (fun x => x <| u_acflag ::= fun f => Z.lor f ASU |>)); mret true
  else _ ← seterror EPERM; mret false.

(** Another open file refers to the inode. *)
Definition still_open (ip : nat) (s : kst) : bool :=
  existsb (fun fp => negb (f_count (file_at s fp) =? 0) && (f_inode (file_at s fp) =? ip)%nat) (seq 0 NFILE).

Definition closef (o : option nat) : M unit :=
  match o with
  | None => mret tt
  | Some fp =>
      f ← gets (fun s => file_at s fp);
      if 1 <? f_count f then modify (upd_file fp (fun x => x <| f_count ::= fun n => i8 (n - 1) |>))
      else
        let ip := f_inode f in
        let flag := f_flag f in
        x ← gets (fun s => inode_at s ip);
        let dev := u16 (i_rdev x) in
        let mode := i_mode x in
        _ ← plock ip;
        _ ← modify (upd_file fp (fun x => x <| f_count := 0 |>));
        _ ← when (fset flag FPIPE)
              (_ ← modify (upd_inode ip (fun x => x <| i_mode ::= fun m => fclr m (Z.lor IREAD IWRITE) |>));
               _ ← wakeup (ChInode1 ip);
               wakeup (ChInode2 ip));
        _ ← iput ip;
        open ← gets (still_open ip);
        if negb (fset flag FMP) && open then mret tt
        else if in_group mode IFCHR IFMPC then _ ← cd_close (cdevsw (major dev)) dev flag; mret tt
        else if in_group mode IFBLK IFMPB then _ ← d_close (bdev dev) dev flag; mret tt
        else mret tt
  end.

Definition openi (ip : nat) (rw : Z) : M unit :=
  x ← gets (fun s => inode_at s ip);
  let dev := u16 (i_rdev x) in
  let maj := major dev in
  nchr ← gets (fun s => nchrdev (kt s));
  nblk ← gets (fun s => nblkdev (kb s));
  if in_group (i_mode x) IFCHR IFMPC then
    if u32 nchr <=? maj then seterror ENXIO else _ ← cd_open (cdevsw maj) dev rw; mret tt
  else if in_group (i_mode x) IFBLK IFMPB then
    if u32 nblk <=? maj then seterror ENXIO else _ ← d_open (bdev dev) dev rw; mret tt
  else mret tt.

(** [true] is 1: no permission. *)
Definition access_write (ip : nat) : M bool :=
  dev ← gets (fun s => i_dev (inode_at s ip));
  fp ← getfs dev;
  ro ← gets (bget fp s_ronly);
  if negb (ro =? 0) then _ ← seterror EROFS; mret true
  else
    t ← gets (ihas ip ITEXT);
    _ ← when t (xrele ip);
    t ← gets (ihas ip ITEXT);
    if t : bool then _ ← seterror ETXTBSY; mret true else mret false.

(** [m], moved to the bits of the class the user is in. *)
Definition access_bits (x : user) (y : inode) (m : Z) : Z :=
  if u_uid x =? i_uid y then m
  else if u_gid x =? i_gid y then Z.shiftr m 3
  else Z.shiftr (Z.shiftr m 3) 3.

Definition access (ip : nat) (mode : Z) : M bool :=
  stop ← (if mode =? IWRITE then access_write ip else mret false);
  if stop : bool then mret true
  else
    x ← gets u;
    y ← gets (fun s => inode_at s ip);
    if u_uid x =? 0 then mret false
    else if negb (Z.land (i_mode y) (access_bits x y mode) =? 0) then mret false
    else _ ← seterror EACCES; mret true.

(** The first descriptor not in use. *)
Definition free_fd (x : user) : option Z :=
  List.find (fun i => bool_decide (u_ofile x i = None)) (seqZ 0 NOFILE).

Definition ufalloc : M Z :=
  o ← gets (fun s => free_fd (u s));
  match o with
  | Some i =>
      _ ← modify (upd_u (fun x => x <| u_r_val1 := i |> <| u_pofile ::= <[i := 0]> |>));
      mret i
  | None => _ ← seterror EMFILE; mret (-1)
  end.

Definition free_file (s : kst) : option nat := List.find (fun fp => f_count (file_at s fp) =? 0) (seq 0 NFILE).

Definition falloc : M (option nat) :=
  i ← ufalloc;
  if i <? 0 then mret None
  else
    o ← gets free_file;
    match o with
    | Some fp =>
        _ ← modify (upd_u (fun x => x <| u_ofile ::= <[i := Some fp]> |>));
        _ ← modify (upd_file fp (fun x => x <| f_count ::= fun n => i8 (n + 1) |> <| f_offset := 0 |>));
        mret (Some fp)
    | None =>
        _ ← log "no file";
        _ ← seterror ENFILE;
        mret None
    end.

End Fio.
