(* ===== verification/Namei.v ===== *)
(** Path names: [sys/nami.c] and [owner] of [sys/fio.c]. *)
From S2P Require Import Prelude Malloc Clist Kernel Sched Dll Sd Bio Codec Usermem Subr Alloc Inode Rdwri Text Fio.

Definition SLASH : Z := 47.
Definition BANG : Z := 33.
Definition DOT : Z := 46.

(** [schar] and [uchar]: the next character at [u_dirp]. *)
Definition schar : M Z :=
  p ← gets (fun s => u_dirp (u s));
  c ← kload p;
  _ ← modify (upd_u (fun x => x <| u_dirp ::= fun b => caddr_add b 1 |>));
  mret (Z.land c 255).
Definition uchar : M Z :=
  p ← gets (fun s => u_dirp (u s));
  _ ← modify (upd_u (fun x => x <| u_dirp ::= fun b => caddr_add b 1 |>));
  c ← uaddr p fubyte;
  _ ← when (c =? -1) (seterror EFAULT);
  mret c.

(** Every turn of the loops over a name reads a character, and a page has
    262144 of them; [uchar] fails beyond. *)
Definition NAMEFUEL : nat := Z.to_nat 262200.

(** [while (c == '/') c = ( *func)();] *)
Fixpoint skip_slash (k : nat) (func : M Z) (c : Z) : M Z :=
  if c =? SLASH then
    match k with O => nofuel | S k => c ← func; skip_slash k func c end
  else mret c.

(** The characters of a component that fit, and the character that ended it. *)
Fixpoint gather (k : nat) (func : M Z) (acc : list Z) (c : Z) : M (list Z * Z) :=
  er ← gets uerror;
  mpx ← gets (fun s => bool_decide (is_Some (mpxip (kf s))));
  if negb (c =? SLASH) && negb (c =? 0) && (er =? 0) && negb (mpx && (c =? BANG)) then
    match k with
    | O => nofuel
    | S k =>
        let acc := if (length acc <? DIRSIZ)%nat then acc ++ [u8 c] else acc in
        c ← func;
        gather k func acc c
    end
  else mret (acc, c).

Definition pad_name (l : list Z) : list Z := l ++ replicate (DIRSIZ - length l) 0.

Section Namei.
Context `{Layout} `{Cdevsw}.

(** How the search of a directory ends. *)
Inductive search := SOut | SRet (o : option nat) | SMatch.

Definition drop_buf (bp : option bptr) : M unit := match bp with Some b => brelse b | None => mret tt end.

(** At the end of the directory. *)
Definition search_end (dp : nat) (flag c eo : Z) (bp : option bptr) : M search :=
  _ ← drop_buf bp;
  if (flag =? 1) && (c =? 0) then
    no ← access dp IWRITE;
    if no : bool then mret SOut
    else
      _ ← modify (upd_u (fun x => x <| u_pdir := Some dp |>));
      _ ← (if negb (eo =? 0) then modify (upd_u (fun x => x <| u_offset := i32 (eo - DIRECT) |>))
           else modify (iset dp (Z.lor IUPD ICHG)));
      mret (SRet None)
  else _ ← seterror ENOENT; mret SOut.

(** [eloop] *)
Fixpoint search_dir (k : nat) (dp : nat) (flag c eo : Z) (bp : option bptr) : M search :=
  match k with
  | O => nofuel
  | S k =>
      off ← gets (fun s => u_offset (u s));
      size ← gets (fun s => i_size (inode_at s dp));
      if size <=? off then search_end dp flag c eo bp
      else
        r ← (if Z.land off BMASK =? 0 then
               _ ← drop_buf bp;
               bn ← bmap dp (Z.shiftr off BSHIFT) B_READ;
               dev ← gets (fun s => i_dev (inode_at s dp));
               b ← bread dev bn;
               err ← gets (fun s => has s b B_ERROR);
               if err : bool then _ ← brelse b; mret None else mret (Some b)
             else mret bp);
        match r with
        | None => mret SOut
        | Some b =>
            d ← gets (bpart b (Z.to_nat (Z.land off BMASK)) 16);
            _ ← modify (upd_u (fun x => x <| u_dent := d |> <| u_offset ::= fun o => i32 (o + DIRECT) |>));
            x ← gets u;
            if fget d_ino (u_dent x) =? 0 then
              search_dir k dp flag c (if eo =? 0 then u_offset x else eo) (Some b)
            else if bool_decide (take DIRSIZ (drop D_NAME (u_dent x)) = u_dbuf x) then _ ← brelse b; mret SMatch
            else search_dir k dp flag c eo (Some b)
        end
  end.

(** Entries of the directory. *)
Definition dirfuel (s : kst) (dp : nat) : nat := Z.to_nat (i_size (inode_at s dp) / DIRECT + 2).

(** [..] of the root of a mounted file system. *)
Definition up_mount (d : Z) (s : kst) : option nat :=
  List.find (fun i => bool_decide (is_Some (m_bufp (mounts (kf s) i))) && (m_dev (mounts (kf s) i) =? d)) (seq 1 (NMOUNT - 1)).

(** [seloop], for the component in [u_dbuf]: [inl dp] is [goto cloop]. *)
Fixpoint seloop (k : nat) (dp : nat) (flag c : Z) : M (nat + option nat) :=
  match k with
  | O => nofuel
  | S k =>
      let out := (_ ← iput dp; mret (inr None)) : M (nat + option nat) in
      x ← gets (fun s => inode_at s dp);
      _ ← when (negb (Z.land (i_mode x) IFMT =? IFDIR)) (seterror ENOTDIR);
      _ ← access dp IEXEC;
      er ← gets uerror;
      if negb (er =? 0) then out
      else
        _ ← modify (upd_u (fun x => x <| u_offset := 0 |> <| u_segflg := 1 |>));
        r ← (fun e s => search_dir (dirfuel s dp) dp flag c 0 None e s);
        match r with
        | SOut => out
        | SRet o => mret (inr o)
        | SMatch =>
            if (flag =? 2) && (c =? 0) then
              no ← access dp IWRITE;
              if no : bool then out else mret (inr (Some dp))
            else
              y ← gets (fun s => inode_at s dp);
              dent ← gets (fun s => u_dent (u s));
              let ino := fget d_ino dent in
              up ← gets (fun s => if (ino =? ROOTINO) && (i_number y =? ROOTINO) && (nth 3 dent 0 =? DOT)
                                  then up_mount (i_dev y) s else None);
              match up with
              | Some i =>
                  _ ← iput dp;
                  o ← gets (fun s => m_inodp (mounts (kf s) i));
                  match o with
                  | None => panic "null m_inodp"
                  | Some dp =>
                      _ ← modify (upd_inode dp (fun x => x <| i_count ::= fun n => i8 (n + 1) |>));
                      _ ← plock dp;
                      seloop k dp flag c
                  end
              | None =>
                  _ ← iput dp;
                  o ← iget (i_dev y) ino;
                  match o with
                  | None => mret (inr None)
                  | Some dp => mret (inl dp)
                  end
              end
        end
  end.
(** It goes round through the [NMOUNT] mounted file systems. *)
Definition SEFUEL : nat := 64.

(** [cloop] *)
Fixpoint cloop (k : nat) (func : M Z) (dp : nat) (flag c : Z) : M (option nat) :=
  match k with
  | O => nofuel
  | S k =>
      er ← gets uerror;
      if negb (er =? 0) then _ ← iput dp; mret None
      else if c =? 0 then mret (Some dp)
      else
        r ← gather NAMEFUEL func [] c;
        _ ← modify (upd_u (fun x => x <| u_dbuf := pad_name r.1 |>));
        c ← skip_slash NAMEFUEL func r.2;
        mpx ← gets (fun s => mpxip (kf s));
        match (if c =? BANG then mpx else None) with
        | Some m =>
            _ ← iput dp;
            _ ← plock m;
            _ ← modify (upd_inode m (fun x => x <| i_count ::= fun n => i8 (n + 1) |>));
            mret (Some m)
        | None =>
            r ← seloop SEFUEL dp flag c;
            match r with
            | inl dp => cloop k func dp flag c
            | inr o => mret o
            end
        end
  end.

(** [func] is [uchar] or [schar]; [flag] is 0 to find, 1 to create, 2 to
    delete.  The [iget] of the starting directory only locks and counts it. *)
Definition namei (func : M Z) (flag : Z) : M (option nat) :=
  dp ← gets (fun s => u_cdir (u s));
  c ← func;
  dp ← gets (fun s => if c =? SLASH then default (rootdir (kf s)) (u_rdir (u s)) else dp);
  x ← gets (fun s => inode_at s dp);
  _ ← iget (i_dev x) (i_number x);
  c ← skip_slash NAMEFUEL func c;
  _ ← when ((c =? 0) && negb (flag =? 0)) (seterror ENOENT);
  cloop NAMEFUEL func dp flag c.

Definition owner : M (option nat) :=
  o ← namei uchar 0;
  match o with
  | None => mret None
  | Some ip =>
      x ← gets u;
      y ← gets (fun s => inode_at s ip);
      if u_uid x =? i_uid y then mret (Some ip)
      else
        su ← suser;
        if su : bool then mret (Some ip) else _ ← iput ip; mret None
  end.

End Namei.
