(* ===== verification/Pipe.v ===== *)
(** Pipes: [sys/pipe.c].  A pipe is a file on the device [pipedev] whose inode
    has two open files; readers sleep on the address of the inode plus 2,
    writers on the address plus 1. *)
From S2P Require Import Prelude Malloc Clist Kernel Sched Dll Sd Bio Codec Usermem Subr Alloc Inode Rdwri Text Fio.

Definition PIPSIZ : Z := 4096.
(** [makedev(0, 0)] of [conf/c.c] *)
Definition pipedev : Z := 0.

Section Pipe.
Context `{Layout} `{Cdevsw}.

Definition pipe : M unit :=
  o ← ialloc pipedev;
  match o with
  | None => mret tt
  | Some ip =>
      o ← falloc;
      match o with
      | None => iput ip
      | Some rf =>
          r ← gets (fun s => u_r_val1 (u s));
          o ← falloc;
          match o with
          | None =>
              _ ← modify (upd_file rf (fun x => x <| f_count := 0 |>));
              _ ← modify (upd_u (fun x => x <| u_ofile ::= <[r := None]> |>));
              iput ip
          | Some wf =>
              _ ← modify (upd_u (fun x => x <| u_r_val2 := u_r_val1 x |>));
              _ ← modify (upd_u (fun x => x <| u_r_val1 := r |>));
              _ ← modify (upd_file wf (fun x => x <| f_flag := Z.lor FWRITE FPIPE |> <| f_inode := ip |>));
              _ ← modify (upd_file rf (fun x => x <| f_flag := Z.lor FREAD FPIPE |> <| f_inode := ip |>));
              modify (upd_inode ip (fun x => x <| i_count := 2 |> <| i_mode := IFREG |>
                                               <| i_flag := Z.lor IACC (Z.lor IUPD ICHG) |>))
          end
      end
  end.

Definition imode_set (ip : nat) (m : Z) : kst -> kst := upd_inode ip (fun x => x <| i_mode ::= fun f => Z.lor f m |>).
Definition imode_clr (ip : nat) (m : Z) : kst -> kst := upd_inode ip (fun x => x <| i_mode ::= fun f => fclr f m |>).
Definition imode_has (ip : nat) (m : Z) (s : kst) : bool := fset (i_mode (inode_at s ip)) m.

(** Waiting for the other side: [b] is [IREAD] or [IWRITE]. *)
Definition pipe_sleep (ip : nat) (b : Z) (c : chan) : M unit :=
  s ← spl6;
  _ ← modify (imode_set ip b);
  _ ← prele ip;
  _ ← sleep c PPIPE;
  splx s.

(** What [readp] does once there is something to read. *)
Definition readp_some (fp ip : nat) : M unit :=
  _ ← modify (fun s => upd_u (fun x => x <| u_offset := f_offset (file_at s fp) |>) s);
  _ ← readi ip;
  _ ← modify (fun s => upd_file fp (fun x => x <| f_offset := u_offset (u s) |>) s);
  eq ← gets (fun s => f_offset (file_at s fp) =? i_size (inode_at s ip));
  _ ← when eq
        (_ ← modify (upd_file fp (fun x => x <| f_offset := 0 |>));
         _ ← modify (upd_inode ip (fun x => x <| i_size := 0 |>));
         w ← gets (imode_has ip IWRITE);
         when w (_ ← modify (imode_clr ip IWRITE); wakeup (ChInode1 ip)));
  prele ip.

(** The sleeps the environment provides for bound the turns. *)
Definition env_len : M nat := fun e s => Ret (length e) e s.

(** Every turn that goes round has slept. *)
Fixpoint readp_f (k : nat) (fp ip : nat) : M unit :=
  match k with
  | O => nofuel
  | S k =>
      _ ← plock ip;
      x ← gets (fun s => inode_at s ip);
      if i_size x =? 0 then
        if i_count x <? 2 then prele ip
        else _ ← pipe_sleep ip IREAD (ChInode2 ip); readp_f k fp ip
      else readp_some fp ip
  end.
Definition readp (fp : nat) : M unit :=
  ip ← gets (fun s => f_inode (file_at s fp));
  n ← env_len;
  readp_f (S n) fp ip.

(** One piece of the write; [c] bytes are left after it.  [register c] is an
    [int] of 16 bits: of 65536 bytes nothing is written. *)
Definition writep_some (ip : nat) (c : Z) : M Z :=
  _ ← modify (fun s => upd_u (fun x => x <| u_offset := i_size (inode_at s ip) |>) s);
  _ ← modify (upd_u (fun x => x <| u_count := min32 (u16 c) PIPSIZ |>));
  c ← gets (fun s => i16 (c - u_count (u s)));
  _ ← writei ip;
  _ ← prele ip;
  r ← gets (imode_has ip IREAD);
  _ ← when r (_ ← modify (imode_clr ip IREAD); wakeup (ChInode2 ip));
  mret c.

Fixpoint writep_f (k : nat) (ip : nat) (c : Z) : M unit :=
  match k with
  | O => nofuel
  | S k =>
      _ ← plock ip;
      x ← gets (fun s => inode_at s ip);
      if c =? 0 then _ ← prele ip; modify (upd_u (fun x => x <| u_count := 0 |>))
      else if i_count x <? 2 then
        _ ← prele ip;
        _ ← seterror EPIPE;
        p ← gets curproc;
        psignal p SIGPIPE
      else if PIPSIZ <=? i_size x then
        _ ← pipe_sleep ip IWRITE (ChInode1 ip);
        writep_f k ip c
      else
        c ← writep_some ip c;
        writep_f k ip c
  end.

(** A turn sleeps or writes a piece of [PIPSIZ] bytes, but for the last ones. *)
Definition pipefuel (n : nat) (c : Z) : nat := (n + Z.to_nat (u16 c / PIPSIZ + 3))%nat.

Definition writep (fp : nat) : M unit :=
  ip ← gets (fun s => f_inode (file_at s fp));
  c ← gets (fun s => i16 (u_count (u s)));
  n ← env_len;
  writep_f (pipefuel n c) ip c.

End Pipe.
