(* ===== verification/Sys2.v ===== *)
(** System calls on files: [sys/sys2.c].  The arguments are the words [u_arg]
    that [u_ap] points at. *)
From S2P Require Import Prelude Malloc Clist Kernel Sched Dll Sd Bio Codec Usermem Subr Alloc Inode Rdwri Text Fio Namei Pipe.

Section Sys2.
Context `{Layout} `{Cdevsw}.

(** [IFCHR&IFBLK]: the bit of the special files. *)
Definition special (ip : nat) (s : kst) : bool := fset (i_mode (inode_at s ip)) (Z.land IFCHR IFBLK).

(** [u.u_dirp] points at the first argument when a system call starts; these
    calls set it again to read a second name. *)
Definition set_dirp (a : Z) : M unit := modify (upd_u (fun x => x <| u_dirp := UA (u32 a) |>)).

Definition rdwr_file (fp : nat) (mode : Z) : M unit :=
  f ← gets (fun s => file_at s fp);
  let ip := f_inode f in
  _ ← modify (upd_u (fun x => x <| u_offset := if fset (f_flag f) FMP then 0 else f_offset f |>));
  sp ← gets (special ip);
  _ ← when (negb sp) (plock ip);
  _ ← (if mode =? FREAD then readi ip else writei ip);
  sp ← gets (special ip);
  _ ← when (negb sp) (prele ip);
  f ← gets (fun s => file_at s fp);
  when (negb (fset (f_flag f) FMP))
    (modify (fun s => upd_file fp (fun x => x <| f_offset ::= fun o => i32 (o + u32 (u32 (arg s 2) - u_count (u s))) |>) s)).

Definition rdwr (mode : Z) : M unit :=
  fd ← gets (fun s => arg s 0);
  o ← getf fd;
  match o with
  | None => mret tt
  | Some fp =>
      f ← gets (fun s => file_at s fp);
      if negb (fset (f_flag f) mode) then seterror EBADF
      else
        _ ← modify (fun s => upd_u (fun x => x <| u_base := UA (u32 (arg s 1)) |> <| u_count := u32 (arg s 2) |>
                                               <| u_segflg := 0 |>) s);
        _ ← (if fset (f_flag f) FPIPE then (if mode =? FREAD then readp fp else writep fp)
             else rdwr_file fp mode);
        modify (fun s => upd_u (fun x => x <| u_r_val1 := i32 (u32 (arg s 2) - u_count x) |>) s)
  end.

Definition read : M unit := rdwr FREAD.
Definition write : M unit := rdwr FWRITE.

Definition open1 (ip : nat) (mode trf : Z) : M unit :=
  _ ← when (negb (trf =? 2))
        (_ ← (if fset mode FREAD then access ip IREAD else mret false);
         when (fset mode FWRITE)
           (_ ← access ip IWRITE;
            dir ← gets (fun s => Z.land (i_mode (inode_at s ip)) IFMT =? IFDIR);
            when dir (seterror EISDIR)));
  er ← gets uerror;
  if negb (er =? 0) then iput ip
  else
    _ ← when (trf =? 1) (itrunc ip);
    _ ← prele ip;
    o ← falloc;
    match o with
    | None => iput ip
    | Some fp =>
        _ ← modify (upd_file fp (fun x => x <| f_flag := Z.land mode (Z.lor FREAD FWRITE) |> <| f_inode := ip |>));
        i ← gets (fun s => u_r_val1 (u s));
        _ ← openi ip (Z.land mode FWRITE);
        er ← gets uerror;
        if er =? 0 then mret tt
        else
          _ ← modify (upd_u (fun x => x <| u_ofile ::= <[i := None]> |>));
          _ ← modify (upd_file fp (fun x => x <| f_count ::= fun n => i8 (n - 1) |>));
          iput ip
    end.

Definition open : M unit :=
  o ← namei uchar 0;
  match o with
  | None => mret tt
  | Some ip => m ← gets (fun s => i32 (arg s 1 + 1)); open1 ip m 0
  end.

Definition creat : M unit :=
  o ← namei uchar 1;
  match o with
  | None =>
      er ← gets uerror;
      if negb (er =? 0) then mret tt
      else
        m ← gets (fun s => fclr (Z.land (arg s 1) 4095) ISVTX);
        o ← maknode m;
        match o with None => mret tt | Some ip => open1 ip FWRITE 2 end
  | Some ip => open1 ip FWRITE 1
  end.

Definition close : M unit :=
  fd ← gets (fun s => arg s 0);
  o ← getf fd;
  match o with
  | None => mret tt
  | Some fp =>
      _ ← modify (upd_u (fun x => x <| u_ofile ::= <[fd := None]> |>));
      closef (Some fp)
  end.

Definition seek : M unit :=
  s ← gets id;
  o ← getf (arg s 0);
  match o with
  | None => mret tt
  | Some fp =>
      f ← gets (fun s => file_at s fp);
      if fset (f_flag f) (Z.lor FPIPE FMP) then seterror ESPIPE
      else
        let off := arg s 1 in
        off ← gets (fun s =>
          if arg s 2 =? 1 then i32 (off + f_offset f)
          else if arg s 2 =? 2 then i32 (off + i_size (inode_at s (f_inode f)))
          else off);
        _ ← modify (upd_file fp (fun x => x <| f_offset := off |>));
        modify (upd_u (fun x => x <| u_r_val1 := off |>))
  end.

(** [link] from the second name on. *)
Definition link_to (ip : nat) : M unit :=
  _ ← prele ip;
  a ← gets (fun s => arg s 1);
  _ ← set_dirp a;
  o ← namei uchar 1;
  match o with
  | Some xp => _ ← seterror EEXIST; iput xp
  | None =>
      er ← gets uerror;
      if negb (er =? 0) then mret tt
      else
        p ← pdir;
        xdev ← gets (fun s => negb (i_dev (inode_at s p) =? i_dev (inode_at s ip)));
        if xdev : bool then _ ← iput p; seterror EXDEV
        else
          _ ← wdir ip;
          er ← gets uerror;
          when (er =? 0)
            (_ ← modify (upd_inode ip (fun x => x <| i_nlink ::= fun n => i16 (n + 1) |>));
             modify (iset ip ICHG))
  end.

Definition link : M unit :=
  o ← namei uchar 0;
  match o with
  | None => mret tt
  | Some ip =>
      dir ← gets (fun s => Z.land (i_mode (inode_at s ip)) IFMT =? IFDIR);
      ok ← (if dir : bool then suser else mret true);
      _ ← when ok (link_to ip);
      iput ip
  end.

Definition mknod_dev (ip : nat) : M unit :=
  m ← gets (fun s => i_mode (inode_at s ip));
  _ ← when (is_cdev m || is_bdev m)
        (modify (fun s => upd_inode ip (fun x => x <| i_addr ::= <[0 := u16 (arg s 2)]> |>) s));
  iput ip.

Definition mknod : M unit :=
  su ← suser;
  o ← (if su : bool then namei uchar 1 else mret None);
  match o with
  | Some ip => _ ← seterror EEXIST; iput ip
  | None =>
      er ← gets uerror;
      if negb (er =? 0) then mret tt
      else
        m ← gets (fun s => arg s 1);
        o ← maknode m;
        match o with None => mret tt | Some ip => mknod_dev ip end
  end.

Definition saccess : M unit :=
  svuid ← gets (fun s => u_uid (u s));
  svgid ← gets (fun s => u_gid (u s));
  _ ← modify (upd_u (fun x => x <| u_uid := u_ruid x |>));
  _ ← modify (upd_u (fun x => x <| u_gid := u_rgid x |>));
  o ← namei uchar 0;
  _ ← match o with
      | None => mret tt
      | Some ip =>
          m ← gets (fun s => arg s 1);
          _ ← (if fset m (Z.shiftr IREAD 6) then access ip IREAD else mret false);
          _ ← (if fset m (Z.shiftr IWRITE 6) then access ip IWRITE else mret false);
          _ ← (if fset m (Z.shiftr IEXEC 6) then access ip IEXEC else mret false);
          iput ip
      end;
  _ ← modify (upd_u (fun x => x <| u_uid := i16 svuid |>));
  modify (upd_u (fun x => x <| u_gid := i16 svgid |>)).

End Sys2.
