(* ===== verification/Sys3.v ===== *)
(** [stat], [dup] and mounting: [sys/sys3.c]. *)
From S2P Require Import Prelude Malloc Clist Kernel Sched Dll Sd Bio Codec Usermem Subr Alloc Inode Rdwri Text Fio Namei Sys2.

(** [struct stat]: the compiler aligns a long to 2 bytes. *)
Definition st_dev : field := Fld 0 2 false.
Definition st_ino : field := Fld 2 2 false.
Definition st_mode : field := Fld 4 2 false.
Definition st_nlink : field := Fld 6 2 true.
Definition st_uid : field := Fld 8 2 true.
Definition st_gid : field := Fld 10 2 true.
Definition st_rdev : field := Fld 12 2 false.
Definition st_size : field := Fld 14 4 true.
Definition st_atime : field := Fld 18 4 true.
Definition st_mtime : field := Fld 22 4 true.
Definition st_ctime : field := Fld 26 4 true.
Definition STAT_SIZE : Z := 30.

(** The record [ds], from the inode and the block it is in. *)
Definition stat_of (x : inode) (pipeadj : Z) (l : list Z) (n : nat) : list Z :=
  foldl (fun d fv => fput fv.1 fv.2 d) (replicate 30 0)
    [(st_dev, i_dev x); (st_ino, i_number x); (st_mode, i_mode x); (st_nlink, i_nlink x); (st_uid, i_uid x);
     (st_gid, i_gid x); (st_rdev, u16 (i_rdev x)); (st_size, i_size x - pipeadj);
     (st_atime, fget (at_di n di_atime) l); (st_mtime, fget (at_di n di_mtime) l); (st_ctime, fget (at_di n di_ctime) l)].

Section Sys3.
Context `{Layout} `{Cdevsw}.

Definition stat1 (ip : nat) (ub pipeadj : Z) : M unit :=
  _ ← iupdat ip now now;
  x ← gets (fun s => inode_at s ip);
  bp ← bread (i_dev x) (itod (i_number x));
  n ← gets (fun s => Z.to_nat (itoo (i_number (inode_at s ip))));
  d ← gets (fun s => stat_of x pipeadj (bdata (kb s) bp) n);
  _ ← brelse bp;
  t ← copyout d ub STAT_SIZE;
  when (t <? 0) (seterror EFAULT).

Definition fstat : M unit :=
  fd ← gets (fun s => arg s 0);
  o ← getf fd;
  match o with
  | None => mret tt
  | Some fp =>
      f ← gets (fun s => file_at s fp);
      a ← gets (fun s => arg s 1);
      stat1 (f_inode f) (u32 a) (if fset (f_flag f) FPIPE then f_offset f else 0)
  end.

Definition stat : M unit :=
  o ← namei uchar 0;
  match o with
  | None => mret tt
  | Some ip => a ← gets (fun s => arg s 1); _ ← stat1 ip (u32 a) 0; iput ip
  end.

(** The descriptor [dup] is to use, [None] when there is none. *)
Definition dup_fd (m : Z) : M (option Z) :=
  if negb (fset m 64) then
    i ← ufalloc;
    mret (if i <? 0 then None else Some i)
  else
    i ← gets (fun s => arg s 1);
    if (i <? 0) || (NOFILE <=? i) then _ ← seterror EBADF; mret None
    else _ ← modify (upd_u (fun x => x <| u_r_val1 := i |>)); mret (Some i).

Definition dup : M unit :=
  a ← gets (fun s => arg s 0);
  let m := fclr a 63 in
  let fd := Z.land a 63 in
  o ← getf fd;
  match o with
  | None => mret tt
  | Some fp =>
      o ← dup_fd m;
      match o with
      | None => mret tt
      | Some i =>
          if i =? fd then mret tt
          else
            old ← gets (fun s => u_ofile (u s) i);
            _ ← match old with None => mret tt | Some _ => closef old end;
            _ ← modify (upd_u (fun x => x <| u_ofile ::= <[i := Some fp]> |>));
            modify (upd_file fp (fun x => x <| f_count ::= fun n => i8 (n + 1) |>))
      end
  end.

(** ** Mounting *)

Definition getmdev : M Z :=
  o ← namei uchar 0;
  match o with
  | None => mret NODEV
  | Some ip =>
      x ← gets (fun s => inode_at s ip);
      _ ← when (negb (Z.land (i_mode x) IFMT =? IFBLK)) (seterror ENOTBLK);
      let dev := u16 (i_rdev x) in
      nblk ← gets (fun s => nblkdev (kb s));
      _ ← when (nblk <=? major dev) (seterror ENXIO);
      _ ← iput ip;
      mret dev
  end.

Definition upd_mount (i : nat) (g : mount -> mount) (s : kst) : kst := s <| kf; mounts ::= fun t => <[i := g (t i)]> t |>.

Definition mount_used (s : kst) (i : nat) : bool := bool_decide (is_Some (m_bufp (mounts (kf s) i))).
Definition mounted (dev : Z) (s : kst) : option nat :=
  List.find (fun i => mount_used s i && (dev =? m_dev (mounts (kf s) i))) (seq 0 NMOUNT).
(** [smp]: the first entry not in use. *)
Definition free_mount (s : kst) : option nat := List.find (fun i => negb (mount_used s i)) (seq 0 NMOUNT).

(** Entry [mp] gets the device [dev], on the directory [ip]. *)
Definition smount_on (mp ip : nat) (dev : Z) : M unit :=
  bp ← bread dev SUPERB;
  er ← gets uerror;
  if negb (er =? 0) then _ ← brelse bp; iput ip
  else
    _ ← modify (upd_mount mp (fun x => x <| m_inodp := Some ip |> <| m_dev := dev |>));
    fp ← geteblk;
    _ ← modify (upd_mount mp (fun x => x <| m_bufp := Some fp |>));
    _ ← modify (fun s => bsplice fp 0 (bpart bp 0 512 s) s);
    _ ← modify (bput fp s_ilock 0);
    _ ← modify (bput fp s_flock 0);
    _ ← modify (fun s => bput fp s_ronly (Z.land (arg s 2) 1) s);
    _ ← brelse bp;
    _ ← modify (iset ip IMOUNT);
    prele ip.

Definition smount : M unit :=
  dev ← getmdev;
  er ← gets uerror;
  if negb (er =? 0) then mret tt
  else
    a ← gets (fun s => arg s 1);
    _ ← set_dirp a;
    o ← namei uchar 0;
    match o with
    | None => mret tt
    | Some ip =>
        let busy := (_ ← seterror EBUSY; iput ip) : M unit in
        x ← gets (fun s => inode_at s ip);
        if negb (i_count x =? 1) || fset (i_mode x) (Z.land IFBLK IFCHR) then busy
        else
          old ← gets (mounted dev);
          new ← gets free_mount;
          match old, new with
          | Some _, _ | None, None => busy
          | None, Some mp =>
              ro ← gets (fun s => arg s 2);
              _ ← d_open (bdev dev) dev (if ro =? 0 then 1 else 0);
              er ← gets uerror;
              if negb (er =? 0) then busy else smount_on mp ip dev
          end
    end.

(** An inode of the device is in use. *)
Definition dev_busy (dev : Z) (s : kst) : bool :=
  existsb (fun i => negb (i_number (inode_at s i) =? 0) && (dev =? i_dev (inode_at s i))) (seq 0 NINODE).

Definition sumount : M unit :=
  dev ← getmdev;
  er ← gets uerror;
  if negb (er =? 0) then mret tt
  else
    _ ← xumount dev;
    _ ← update;
    o ← gets (mounted dev);
    match o with
    | None => seterror EINVAL
    | Some mp =>
        busy ← gets (dev_busy dev);
        if busy : bool then seterror EBUSY
        else
          _ ← d_close (bdev dev) dev 0;
          o ← gets (fun s => m_inodp (mounts (kf s) mp));
          match o with
          | None => panic "null m_inodp"
          | Some ip =>
              _ ← modify (iclr ip IMOUNT);
              _ ← plock ip;
              _ ← iput ip;
              o ← gets (fun s => m_bufp (mounts (kf s) mp));
              _ ← modify (upd_mount mp (fun x => x <| m_bufp := None |>));
              match o with None => panic "null m_bufp" | Some bp => brelse bp end
          end
    end.

End Sys3.
