(* ===== verification/Callout.v ===== *)
(** The callout table: [timeout] of [sys/clock.c] and the part of [clock] that
    counts it down.

    The table is an array of [NCALL] entries sorted by due time, each time
    relative to the entry before, ended by an entry without a function.  An
    access outside the array is [Undef]. *)
From S2P Require Import Prelude Malloc Clist Kernel.

Definition live (c : callo) : bool := match c_func c with Some _ => true | None => false end.

(** [while (p1->c_func != 0 && p1->c_time <= t) { t -= p1->c_time; p1++; }] *)
Fixpoint timeout_find (l : list callo) (t : Z) : res (nat * Z) :=
  match l with
  | [] => Undef
  | c :: r =>
      if live c && (c_time c <=? t) then
        '(n, t') ← timeout_find r (i32 (t - c_time c)); Ok (S n, t')
      else Ok (O, t)
  end.

(** [while (p2->c_func != 0) p2++;] *)
Fixpoint callo_end (l : list callo) : res nat :=
  match l with
  | [] => Undef
  | c :: r => if live c then n ← callo_end r; Ok (S n) else Ok O
  end.

(** [while (p2 >= p1) { p2[1] = p2[0]; p2--; }] for [p2 = p1 + n - 1]. *)
Fixpoint callo_shift (n p1 : nat) (l : list callo) : res (list callo) :=
  match n with
  | O => Ok l
  | S k =>
      c ← deref (l !! (p1 + k)%nat);
      if (p1 + k + 1 <? length l)%nat then callo_shift k p1 (<[(p1 + k + 1)%nat := c]> l) else Undef
  end.

Definition timeout_table (f : nat) (arg tim : Z) (l : list callo) : res (list callo) :=
  '(p1, t) ← timeout_find l tim;
  if (NCALL - 1 <=? p1)%nat then Panic "Timeout table overflow"
  else
    c ← deref (l !! p1);
    let l := <[p1 := c <| c_time ::= fun x => i32 (x - t) |>]> l in
    n ← callo_end (drop p1 l);
    l ← callo_shift (S n) p1 l;
    Ok (<[p1 := Callo t arg (Some f)]> l).

(** [while (p2->c_time <= 0 && p2->c_func != NULL) p2++; p2->c_time--;] *)
Fixpoint callo_tick (l : list callo) : res (list callo) :=
  match l with
  | [] => Undef
  | c :: r =>
      if (c_time c <=? 0) && live c then r ← callo_tick r; Ok (c :: r)
      else Ok (c <| c_time ::= fun x => i32 (x - 1) |> :: r)
  end.

(** [while (p2->c_func = p1->c_func) { ...; p1++; p2++; }] with [p1] at [k]: the
    live entries from [k] on move to the front, and the function of the entry
    after them is cleared. *)
Fixpoint callo_close (n : nat) (p2 p1 : nat) (l : list callo) : res (list callo) :=
  match n with
  | O => Undef
  | S n =>
      c1 ← deref (l !! p1);
      c2 ← deref (l !! p2);
      let l := <[p2 := c2 <| c_func := c_func c1 |>]> l in
      if live c1 then callo_close n (S p2) (S p1) (<[p2 := c1]> l) else Ok l
  end.

(** ** The table as a queue

    The entries up to the first without a function, with the number of ticks
    after which each is due. *)
Fixpoint due (t0 : Z) (l : list callo) : list (Z * nat * Z) :=
  match l with
  | [] => []
  | c :: r => match c_func c with
              | Some f => (t0 + c_time c, f, c_arg c) :: due (t0 + c_time c) r
              | None => []
              end
  end.

(** The specification of [timeout]: behind every entry that is due no later. *)
Fixpoint enqueue (x : Z * nat * Z) (q : list (Z * nat * Z)) : list (Z * nat * Z) :=
  match q with
  | [] => [x]
  | y :: r => if y.1.1 <=? x.1.1 then y :: enqueue x r else x :: q
  end.

(** The live entries; the rest of the table is an end mark and free entries. *)
Fixpoint pending (l : list callo) : list callo :=
  match l with
  | [] => []
  | c :: r => if live c then c :: pending r else []
  end.

Record callo_ok (l : list callo) : Prop := {
  co_length : length l = NCALL;
  co_end : (length (pending l) < NCALL)%nat;
  co_time : Forall (fun c => 0 <= c_time c < 2 ^ 31) (pending l)
}.

Definition ticks (l : list callo) : Z := foldr (fun c n => c_time c + n) 0 l.

(** *** Lemmas *)

Lemma pending_live l : Forall (fun c => live c = true) (pending l).
Proof. induction l as [|c l IH]; simpl; [constructor|]. destruct (live c) eqn:E; by constructor. Qed.

Lemma callo_split l : callo_ok l ->
  exists c r, l = pending l ++ c :: r /\ live c = false /\ length r = (NCALL - 1 - length (pending l))%nat.
Proof.
  intros [Hl He _]. assert (H : exists r, l = pending l ++ r /\ (match r with [] => True | c :: _ => live c = false end)).
  { clear. induction l as [|c l (r & E & Hr)]; [by exists []|]. simpl. destruct (live c) eqn:Ec.
    - exists r. split; [simpl; by f_equal|done].
    - by exists (c :: l). }
  destruct H as (r & E & Hr). assert (Hlen : length l = (length (pending l) + length r)%nat) by (rewrite E at 1; by rewrite length_app).
  destruct r as [|c r]; [simpl in Hlen; lia|]. exists c, r. split_and!; [done|done|simpl in Hlen; lia].
Qed.

Lemma due_app a : forall t0 l, Forall (fun c => live c = true) a -> due t0 (a ++ l) = due t0 a ++ due (t0 + ticks a) l.
Proof.
  induction a as [|c a IH]; intros t0 l Ha; simpl; [by rewrite Z.add_0_r|]. apply Forall_cons in Ha as [Hc Ha].
  unfold live in Hc. destruct (c_func c); [|done]. rewrite IH by done. simpl. do 2 f_equal. f_equal. lia.
Qed.

Lemma due_cons t0 c r f : c_func c = Some f -> due t0 (c :: r) = (t0 + c_time c, f, c_arg c) :: due (t0 + c_time c) r.
Proof. simpl. by intros ->. Qed.

Lemma due_end t0 c r : live c = false -> due t0 (c :: r) = [].
Proof. unfold live. simpl. by destruct (c_func c). Qed.

Lemma due_stop t0 a c r : Forall (fun c => live c = true) a -> live c = false -> due t0 (a ++ c :: r) = due t0 a.
Proof. intros. by rewrite due_app, due_end, app_nil_r. Qed.

Lemma due_pending l : forall t0, due t0 (pending l) = due t0 l.
Proof. induction l as [|c l IH]; intros t0; simpl; [done|]. unfold live. destruct (c_func c) eqn:E; simpl; [by rewrite E, IH|done]. Qed.

Lemma pending_app a l : Forall (fun c => live c = true) a -> pending (a ++ l) = a ++ pending l.
Proof. induction 1 as [|c a Hc Ha IH]; simpl; [done|]. by rewrite Hc, IH. Qed.

Lemma pending_all a : Forall (fun c => live c = true) a -> pending a = a.
Proof. intros. by rewrite <- (app_nil_r a), pending_app. Qed.

Lemma pending_end c r : live c = false -> pending (c :: r) = [].
Proof. simpl. by intros ->. Qed.

(** The search stops behind the entries [a] that are due no later than [t]. *)
Lemma timeout_find_spec pre : forall t c r, Forall (fun c => live c = true) pre -> Forall (fun c => 0 <= c_time c < 2 ^ 31) pre ->
  live c = false -> 0 <= t < 2 ^ 31 ->
  exists a b, pre = a ++ b /\ timeout_find (pre ++ c :: r) t = Ok (length a, t - ticks a) /\ 0 <= t - ticks a /\ 0 <= ticks a /\
    (match b with [] => True | d :: _ => t - ticks a < c_time d end) /\ (forall t0, Forall (fun e => e.1.1 <= t0 + t) (due t0 a)).
Proof.
  induction pre as [|d pre IH]; intros t c r Hl Ht Hc Hr.
  - exists [], []. simpl. rewrite Hc, Z.sub_0_r. split_and!; (done || lia || constructor).
  - apply Forall_cons in Hl as [Hd Hl], Ht as [Htd Ht]. simpl. rewrite Hd. simpl. destruct (Z.leb_spec (c_time d) t) as [Hle|Hgt].
    + rewrite i32_id by lia. destruct (IH (t - c_time d) c r Hl Ht Hc ltac:(lia)) as (a & b & E & Ef & H1 & H2 & H3 & H4).
      rewrite Ef. exists (d :: a), b. simpl. replace (t - (c_time d + ticks a)) with (t - c_time d - ticks a) by lia.
      split_and!; [by rewrite E|done|done|lia|done|]. intros t0. unfold live in Hd. destruct (c_func d); [|done].
      constructor; [simpl; lia|]. specialize (H4 (t0 + c_time d)). by replace (t0 + t) with (t0 + c_time d + (t - c_time d)) by lia.
    + exists [], (d :: pre). simpl. rewrite Z.sub_0_r. split_and!; (done || lia || constructor).
Qed.

Lemma callo_end_spec m c r : Forall (fun c => live c = true) m -> live c = false -> callo_end (m ++ c :: r) = Ok (length m).
Proof. intros Hm Hc. induction Hm as [|d m Hd Hm IH]; simpl; [by rewrite Hc|]. by rewrite Hd, IH. Qed.

(** Moving the entries [m] up by one place, over [x]. *)
Lemma callo_shift_spec a m : forall x post,
  callo_shift (length m) (length a) (a ++ m ++ x :: post) = Ok (a ++ default x (head m) :: m ++ post).
Proof.
  induction m as [|c m IH] using rev_ind; intros x post; [done|]. rewrite length_app, Nat.add_1_r. cbn [callo_shift].
  assert (El : (a ++ (m ++ [c]) ++ x :: post) !! (length a + length m)%nat = Some c).
  { rewrite <- app_assoc. rewrite app_assoc, <- length_app. apply lookup_middle. }
  rewrite El. cbn [deref mbind res_bind].
  rewrite (proj2 (Nat.ltb_lt _ _)) by (rewrite !length_app; simpl; lia).
  assert (Ei : <[(length a + length m + 1)%nat:=c]> (a ++ (m ++ [c]) ++ x :: post) = a ++ m ++ c :: c :: post).
  { replace (length a + length m + 1)%nat with (length (a ++ m ++ [c])) by (rewrite !length_app; simpl; lia).
    rewrite (app_assoc a (m ++ [c]) (x :: post)), insert_middle. by rewrite <- !app_assoc. }
  rewrite Ei, IH. f_equal. rewrite head_app. destruct m; simpl; [done|]. by rewrite <- app_assoc.
Qed.

Lemma callo_shift_over k p1 l : (p1 + k + 1 = length l)%nat -> callo_shift (S k) p1 l = Undef.
Proof.
  intros Hk. cbn [callo_shift]. destruct (lookup_lt_is_Some_2 l (p1 + k)) as [c ->]; [lia|]. cbn [deref mbind res_bind].
  by rewrite (proj2 (Nat.ltb_ge _ _)) by lia.
Qed.

Lemma enqueue_app x q1 q2 : Forall (fun e => e.1.1 <= x.1.1) q1 -> enqueue x (q1 ++ q2) = q1 ++ enqueue x q2.
Proof. induction 1 as [|y q Hy Hq IH]; simpl; [done|]. by rewrite (proj2 (Z.leb_le _ _)), IH. Qed.

(** The list [timeout_table] makes: [t] is what is left of the time behind [a],
    and the entry after it counts from there. *)
Definition earlier (t : Z) (c : callo) : callo := c <| c_time ::= fun x => i32 (x - t) |>.

Lemma timeout_table_spec f arg t l : callo_ok l -> 0 <= t < 2 ^ 31 ->
  exists a b c r, pending l = a ++ b /\ l = a ++ b ++ c :: r /\ live c = false /\ 0 <= t - ticks a /\ 0 <= ticks a /\
    (match b with [] => True | d :: _ => t - ticks a < c_time d end) /\ (forall t0, Forall (fun e => e.1.1 <= t0 + t) (due t0 a)) /\
    timeout_table f arg t l =
      if (NCALL - 1 <=? length a)%nat then Panic "Timeout table overflow"
      else match r with
      | [] => Undef
      | _ :: r => Ok (a ++ Callo (t - ticks a) arg (Some f) ::
                        match b with [] => earlier (t - ticks a) c :: r | d :: b => earlier (t - ticks a) d :: b ++ c :: r end)
      end.
Proof.
  intros Hok Ht. destruct (callo_split l Hok) as (c & r & El & Hc & _).
  destruct (timeout_find_spec (pending l) t c r) as (a & b & Ep & Ef & H1 & H2 & H3 & H4); [apply pending_live|apply Hok|done|done|].
  assert (Hlive := pending_live l). rewrite Ep in Hlive. apply Forall_app in Hlive as [Ha Hb].
  rewrite <- El in Ef. exists a, b, c, r. assert (El' : l = a ++ b ++ c :: r) by (rewrite El at 1; rewrite Ep; by rewrite <- app_assoc).
  split_and!; try done. unfold timeout_table. rewrite Ef. cbn [mbind res_bind]. destruct (Nat.leb_spec (NCALL - 1) (length a)) as [|Hlt]; [done|].
  set (t' := t - ticks a) in *. set (m := match b with [] => [earlier t' c] | d :: b => earlier t' d :: b ++ [c] end).
  assert (E0 : l !! length a = Some (match b with [] => c | d :: _ => d end)).
  { rewrite El'. destruct b; apply lookup_middle. }
  rewrite E0. cbn [deref mbind res_bind].
  assert (E1 : <[length a := match b with [] => c | d :: _ => d end <| c_time ::= fun x => i32 (x - t') |>]> l = a ++ m ++ r).
  { rewrite El'. unfold m. destruct b; simpl; rewrite insert_middle; [done|]. by rewrite <- app_assoc. }
  rewrite E1. rewrite drop_app_length.
  assert (E2 : callo_end (m ++ r) = Ok (length m - 1)%nat).
  { unfold m. destruct b as [|d b]; simpl.
    - unfold live in Hc |- *. cbn. by destruct (c_func c).
    - apply Forall_cons in Hb as [Hd Hb]. unfold live in Hd |- *. cbn. destruct (c_func d); [|done].
      rewrite <- app_assoc. simpl. fold live. rewrite callo_end_spec by done. rewrite length_app. simpl. f_equal. lia. }
  rewrite E2. cbn [mbind res_bind].
  assert (Hm : (0 < length m)%nat) by (unfold m; destruct b; simpl; lia).
  replace (S (length m - 1)) with (length m) by lia. destruct r as [|x r].
  - destruct (length m) as [|k] eqn:Em; [lia|]. rewrite callo_shift_over; [done|]. rewrite !length_app. simpl. lia.
  - rewrite callo_shift_spec. cbn [mbind res_bind]. f_equal. rewrite insert_middle. f_equal. f_equal. unfold m.
    destruct b; simpl; [done|]. by rewrite <- app_assoc.
Qed.

Lemma ok_of_pending a c r : Forall (fun c => live c = true) a -> live c = false -> length (a ++ c :: r) = NCALL ->
  Forall (fun c => 0 <= c_time c < 2 ^ 31) a -> callo_ok (a ++ c :: r).
Proof.
  intros Ha Hc Hl Ht. assert (E : pending (a ++ c :: r) = a) by (rewrite pending_app, pending_end by done; by rewrite app_nil_r).
  split; [done| |by rewrite E]. rewrite E. rewrite length_app in Hl. simpl in Hl. lia.
Qed.

(** C33. [timeout] keeps the queue of callouts: while at most [NCALL-2] entries
    are pending it puts the new one behind every entry due no later and
    changes the due time of no other, although the table holds differences;
    the table stays well formed. *)
Theorem timeout_inserts f arg t l :
  callo_ok l -> 0 <= t < 2 ^ 31 -> (length (pending l) < NCALL - 1)%nat ->
  exists l', timeout_table f arg t l = Ok l' /\ callo_ok l' /\ due 0 l' = enqueue (t, f, arg) (due 0 l).
Proof.
  intros Hok Ht Hn. destruct (timeout_table_spec f arg t l Hok Ht) as (a & b & c & r & Ep & El & Hc & H1 & H2 & H3 & H4 & E).
  rewrite Ep, length_app in Hn. rewrite E. clear E. destruct (Nat.leb_spec (NCALL - 1) (length a)); [lia|].
  pose proof (co_length l Hok) as Hlen. rewrite El, !length_app in Hlen. simpl in Hlen.
  destruct r as [|x r]; [simpl in Hlen; lia|]. simpl in Hlen. eexists. split; [done|].
  pose proof (pending_live l) as Hlive. pose proof (co_time l Hok) as Htime. rewrite Ep in Hlive, Htime.
  apply Forall_app in Hlive as [Ha Hb], Htime as [Hta Htb].
  assert (Hnew : live (Callo (t - ticks a) arg (Some f)) = true) by done.
  assert (Hd0 : due 0 l = due 0 a ++ due (ticks a) (b ++ c :: x :: r)) by (by rewrite El, due_app, Z.add_0_l).
  destruct b as [|d b].
  - change (a ++ ?n :: ?y :: r) with (a ++ [n] ++ y :: r). rewrite app_assoc. split.
    + apply ok_of_pending; [by apply Forall_app; split; [|constructor]|done|rewrite !length_app; cbn [length] in Hlen |- *; lia|].
      apply Forall_app; split; [done|]. constructor; [simpl; lia|done].
    + rewrite due_app, (due_end _ (earlier _ _)), app_nil_r by (done || by apply Forall_app; split; [|constructor]).
      rewrite due_app by done. rewrite Hd0, enqueue_app by (by apply (H4 0)). simpl. unfold live in Hc. destruct (c_func c); [done|].
      simpl. by replace (0 + ticks a + (t - ticks a)) with t by lia.
  - apply Forall_cons in Hb as [Hd Hb], Htb as [Htd Htb].
    assert (Hd' : live (earlier (t - ticks a) d) = true) by done.
    assert (Et : c_time (earlier (t - ticks a) d) = c_time d - (t - ticks a)) by (cbn; apply i32_id; lia).
    change (a ++ ?n :: ?y :: b ++ c :: r) with (a ++ ([n] ++ [y] ++ b) ++ c :: r). rewrite app_assoc. split.
    + apply ok_of_pending; [by rewrite !Forall_app; repeat constructor|done|rewrite !length_app; cbn [length] in Hlen |- *; lia|].
      rewrite !Forall_app. split_and!; [done|constructor; [simpl; lia|done]|constructor; [rewrite Et; lia|done]|done].
    + rewrite <- app_assoc, due_app by done. rewrite Hd0, enqueue_app by (by apply (H4 0)). f_equal. rewrite Z.add_0_l.
      unfold live in Hd. destruct (c_func d) as [g|] eqn:Eg; [|done]. simpl app. rewrite (due_cons _ d _ g) by done.
      rewrite (due_cons _ (Callo _ _ _) _ f), (due_cons _ (earlier _ _) _ g), Et by done. simpl.
      rewrite (proj2 (Z.leb_gt _ _)) by lia. replace (ticks a + (t - ticks a)) with t by lia.
      replace (t + (c_time d - (t - ticks a))) with (ticks a + c_time d) by lia. by rewrite !due_stop.
Qed.

(** With [NCALL-1] callouts pending the guard of [timeout] does not do its
    work: it panics only when the new entry belongs at the end, and an entry
    that is due before another one is inserted by moving the end mark to
    [callout[NCALL]], past the table. *)
Lemma timeout_full_writes_past_table f arg t l :
  callo_ok l -> 0 <= t < 2 ^ 31 -> length (pending l) = (NCALL - 1)%nat ->
  (Forall (fun e => e.1.1 <= t) (due 0 l) -> timeout_table f arg t l = Panic "Timeout table overflow") /\
  (Exists (fun e => t < e.1.1) (due 0 l) -> timeout_table f arg t l = Undef).
Proof.
  intros Hok Ht Hn. destruct (timeout_table_spec f arg t l Hok Ht) as (a & b & c & r & Ep & El & Hc & H1 & H2 & H3 & H4 & E).
  rewrite Ep, length_app in Hn. pose proof (co_length l Hok) as Hlen. rewrite El, !length_app in Hlen. simpl in Hlen.
  destruct r; [|cbn [length] in Hlen; lia]. rewrite E. clear E.
  pose proof (pending_live l) as Hlive. rewrite Ep in Hlive. apply Forall_app in Hlive as [Ha Hb].
  assert (Hd : due 0 l = due 0 a ++ due (ticks a) (b ++ [c])) by (by rewrite El, due_app, Z.add_0_l).
  rewrite Hd, Forall_app, Exists_app. destruct b as [|d b]; cbn [length] in Hn.
  - rewrite (proj2 (Nat.leb_le _ _)) by lia. split; [done|]. simpl app. rewrite due_end by done. intros [Hx|Hx]; [|by apply Exists_nil in Hx].
    exfalso. apply Exists_exists in Hx as (e & Hin & Hgt). pose proof (H4 0) as Hle. rewrite Forall_forall in Hle. specialize (Hle e Hin). lia.
  - rewrite (proj2 (Nat.leb_gt _ _)) by lia. split; [|done]. intros [_ Hx]. exfalso. apply Forall_cons in Hb as [Hdl _].
    unfold live in Hdl. simpl in Hx. destruct (c_func d); [|done]. apply Forall_cons in Hx as [Hx _]. simpl in Hx. lia.
Qed.

(** ** Counting down *)

(** One tick less to wait, but not less than none. *)
Definition sooner (e : Z * nat * Z) : Z * nat * Z := (Z.max 0 (e.1.1 - 1), e.1.2, e.2).
Definition waits (e : Z * nat * Z) : Prop := 0 < e.1.1.
#[export] Instance waits_dec e : Decision (waits e).
Proof. unfold waits. apply _. Defined.

Lemma due_lower l : forall t0, Forall (fun c => 0 <= c_time c) (pending l) -> Forall (fun e => t0 <= e.1.1) (due t0 l).
Proof.
  induction l as [|c l IH]; intros t0 Hl; simpl; [constructor|]. unfold live in Hl. simpl in Hl.
  unfold live in Hl. destruct (c_func c); [|constructor]. apply Forall_cons in Hl as [Hc Hl]. constructor; [simpl; lia|].
  eapply Forall_impl; [apply IH, Hl|]. simpl. lia.
Qed.

Lemma due_shift l : forall t0, 1 <= t0 -> Forall (fun c => 0 <= c_time c) (pending l) -> due (t0 - 1) l = sooner <$> due t0 l.
Proof.
  induction l as [|c l IH]; intros t0 Ht Hl; simpl; [done|]. unfold live in Hl. simpl in Hl. unfold live in Hl.
  destruct (c_func c); [|done]. apply Forall_cons in Hl as [Hc Hl]. rewrite fmap_cons, <- IH by (done || lia).
  unfold sooner. simpl. f_equal; [f_equal; f_equal; lia|]. f_equal. lia.
Qed.

(** A tick takes one off the first difference that is not 0. *)
Lemma callo_tick_spec pre : forall c r, Forall (fun c => live c = true) pre -> Forall (fun c => 0 <= c_time c < 2 ^ 31) pre ->
  live c = false ->
  exists pre' c', callo_tick (pre ++ c :: r) = Ok (pre' ++ c' :: r) /\ length pre' = length pre /\ live c' = false /\
    Forall (fun c => live c = true) pre' /\ Forall (fun c => 0 <= c_time c < 2 ^ 31) pre' /\ due 0 pre' = sooner <$> due 0 pre.
Proof.
  induction pre as [|d pre IH]; intros c r Hl Ht Hc; simpl.
  - rewrite Hc, andb_false_r. exists [], (c <| c_time ::= fun x => i32 (x - 1) |>). split_and!; (done || constructor).
  - apply Forall_cons in Hl as [Hd Hl], Ht as [Htd Ht]. rewrite Hd, andb_true_r. destruct (Z.leb_spec (c_time d) 0).
    + destruct (IH c r Hl Ht Hc) as (pre' & c' & E & H1 & H2 & H3 & H4 & H5). rewrite E. cbn [mbind res_bind].
      exists (d :: pre'), c'. split_and!; try done; [simpl; by rewrite H1|by constructor|by constructor|].
      unfold live in Hd. simpl. destruct (c_func d) eqn:Ed; [|done]. replace (c_time d) with 0 by lia. rewrite Z.add_0_l, H5. done.
    + exists (d <| c_time ::= fun x => i32 (x - 1) |> :: pre), c. split_and!; try done.
      * by constructor.
      * constructor; [cbn; rewrite i32_id by lia; lia|done].
      * unfold live in Hd. simpl. destruct (c_func d) eqn:Ed; [|done]. rewrite i32_id by lia.
        rewrite fmap_cons. unfold sooner at 1. simpl. f_equal; [f_equal; f_equal; lia|]. apply due_shift; [lia|].
        rewrite pending_all by done. eapply Forall_impl; [exact Ht|]. simpl. lia.
Qed.

Lemma tick_ok l : callo_ok l -> exists l', callo_tick l = Ok l' /\ callo_ok l' /\ due 0 l' = sooner <$> due 0 l /\
  length (pending l') = length (pending l).
Proof.
  intros Hok. destruct (callo_split l Hok) as (c & r & El & Hc & Hr).
  destruct (callo_tick_spec (pending l) c r) as (pre' & c' & E & H1 & H2 & H3 & H4 & H5); [apply pending_live|apply Hok|done|].
  rewrite <- El in E. exists (pre' ++ c' :: r). split_and!; [done| | |].
  - apply ok_of_pending; [done|done| |done]. rewrite length_app. simpl. pose proof (co_end l Hok). lia.
  - by rewrite due_stop, H5, due_pending.
  - by rewrite pending_app, pending_end, app_nil_r.
Qed.

(** The entries [m] move down over the [length g] entries before them. *)
Lemma callo_close_spec m : forall n x g c r, Forall (fun c => live c = true) m -> live c = false -> (0 < length g)%nat ->
  (length m < n)%nat ->
  exists d g', callo_close n (length x) (length x + length g) (x ++ g ++ m ++ c :: r) = Ok (x ++ m ++ d :: g') /\ live d = false /\
    length g' = (length g + length r)%nat.
Proof.
  induction m as [|e m IH]; intros n x g c r Hm Hc Hg Hn; (destruct n as [|n]; [lia|]); destruct g as [|g0 g]; [simpl in Hg; lia| |simpl in Hg; lia|];
    cbn [callo_close].
  - assert (E1 : (x ++ (g0 :: g) ++ [] ++ c :: r) !! (length x + length (g0 :: g))%nat = Some c)
      by (rewrite app_assoc, <- length_app; apply lookup_middle).
    assert (E2 : (x ++ (g0 :: g) ++ [] ++ c :: r) !! length x = Some g0) by apply lookup_middle.
    rewrite E1, E2. cbn [deref mbind res_bind]. rewrite Hc. simpl app. rewrite insert_middle.
    eexists _, (g ++ c :: r). split_and!; [done| |rewrite length_app; simpl; lia].
    unfold live in Hc |- *. cbn. exact Hc.
  - apply Forall_cons in Hm as [He Hm].
    assert (E1 : (x ++ (g0 :: g) ++ (e :: m) ++ c :: r) !! (length x + length (g0 :: g))%nat = Some e)
      by (rewrite app_assoc, <- length_app; apply lookup_middle).
    assert (E2 : (x ++ (g0 :: g) ++ (e :: m) ++ c :: r) !! length x = Some g0) by apply lookup_middle.
    rewrite E1, E2. cbn [deref mbind res_bind]. rewrite He. simpl app. rewrite !insert_middle.
    destruct (IH n (x ++ [e]) (g ++ [e]) c r Hm Hc) as (d & g' & E & Hd & Hg'); [rewrite length_app; simpl; lia|simpl in Hn; lia|].
    exists d, g'. split_and!; [|done|rewrite Hg', length_app; simpl; lia].
    rewrite !length_app in E. simpl length in E. rewrite <- !app_assoc in E. simpl app in E.
    replace (length x + 1 + (length g + 1))%nat with (S (length x + length (g0 :: g))) in E by (simpl; lia).
    replace (length x + 1)%nat with (S (length x)) in E by lia. exact E.
Qed.

(** The entries that are due are the first ones. *)
Lemma due_split pre : forall t0, Forall (fun c => live c = true) pre -> Forall (fun c => 0 <= c_time c < 2 ^ 31) pre -> t0 = 0 ->
  exists g m, pre = g ++ m /\ Forall (fun c => c_time c = 0) g /\ (match m with [] => True | d :: _ => 0 < c_time d end) /\
    filter waits (due t0 pre) = due t0 m.
Proof.
  induction pre as [|d pre IH]; intros t0 Hl Ht ->; [by exists [], []|]. apply Forall_cons in Hl as [Hd Hl], Ht as [Htd Ht].
  destruct (Z.eq_dec (c_time d) 0) as [E|Hne].
  - destruct (IH 0 Hl Ht eq_refl) as (g & m & E1 & E2 & E3 & E4). exists (d :: g), m. split_and!; [by rewrite E1|by constructor|done|].
    unfold live in Hd. simpl. destruct (c_func d); [|done]. rewrite E, filter_cons_False; [done|]. unfold waits. simpl. lia.
  - exists [], (d :: pre). split_and!; [done|constructor|lia|].
    assert (Hlow : Forall (fun e => c_time d <= e.1.1) (due 0 (d :: pre))).
    { unfold live in Hd. simpl. destruct (c_func d); [|constructor]. constructor; [simpl; lia|].
      apply due_lower. rewrite pending_all by done. eapply Forall_impl; [exact Ht|]. simpl. lia. }
    clear -Hlow Htd Hne. induction Hlow as [|e q He Hq IH]; [done|]. rewrite filter_cons_True; [by rewrite IH|].
    unfold waits. lia.
Qed.

(** Two pending callouts, and a table that is full but for one entry. *)
Definition ex_two : list callo := Callo 5 7 (Some 1%nat) :: Callo 2 8 (Some 2%nat) :: replicate 18 (Callo 0 0 None).
Definition ex_full : list callo := replicate 19 (Callo 1 0 (Some 1%nat)) ++ [Callo 0 0 None].

Lemma ex_two_ok : callo_ok ex_two.
Proof. split; [done|vm_compute; lia|]. repeat constructor; simpl; lia. Qed.
Lemma ex_full_ok : callo_ok ex_full.
Proof. split; [done|vm_compute; lia|]. repeat constructor; simpl; lia. Qed.

Lemma timeout_inserts_witness : exists l', timeout_table 3 9 6 ex_two = Ok l' /\ due 0 l' = [(5, 1%nat, 7); (6, 3%nat, 9); (7, 2%nat, 8)].
Proof. destruct (timeout_inserts 3 9 6 ex_two ex_two_ok) as (l' & H1 & _ & H2); [done|vm_compute; lia|]. by exists l'. Defined.

Lemma timeout_full_writes_past_table_witness : timeout_table 3 9 0 ex_full = Undef.
Proof. apply (timeout_full_writes_past_table 3 9 0 ex_full ex_full_ok); [done|done|]. by apply Exists_cons_hd. Defined.
