(* ===== verification/Clock.v ===== *)
(** The clock interrupt: [sys/clock.c]. *)
From S2P Require Import Prelude Malloc Clist Kernel Sched Callout.

Definition SCHMAG (x : Z) : Z := Z.quot (x * 8) 10.
Definition USERMODE (ps : Z) : bool := negb (fset ps 8192).
(** The macro's name notwithstanding: the interrupt mask is not 0. *)
Definition BASEPRI (ps : Z) : bool := fset ps 1792.

(** The functions given to [timeout], and the UART poll of [dev/kl.c]. *)
Class ClockHooks := { run_callout : nat -> Z -> M unit; uart_poll_rx : M unit }.

Section Clock.
Context `{Layout} `{ClockHooks}.

Definition set_callout (l : list callo) (s : kst) : kst := s <| kc; callout := l |>.
Definition on_callout (f : list callo -> res (list callo)) : M unit :=
  l ← gets (fun s => callout (kc s));
  l ← lift_res (f l);
  modify (set_callout l).

Definition timeout (f : nat) (arg tim : Z) : M unit :=
  s ← spl 7;
  _ ← on_callout (timeout_table f arg tim);
  splx s.

(** [while (p1->c_func != 0 && p1->c_time <= 0) { ( *p1->c_func)(p1->c_arg); p1++; }] *)
Fixpoint callo_run (n p1 : nat) : M nat :=
  match n with
  | O => panic "undefined"
  | S n =>
      l ← gets (fun s => callout (kc s));
      match l !! p1 with
      | None => panic "undefined"
      | Some c =>
          match c_func c with
          | Some f => if c_time c <=? 0 then _ ← run_callout f (c_arg c); callo_run n (S p1) else mret p1
          | None => mret p1
          end
      end
  end.

(** The callout part of [clock]. *)
Definition clock_callout (ps : Z) : M unit :=
  l ← gets (fun s => callout (kc s));
  if match head l with Some c => negb (live c) | None => true end then mret tt
  else
    _ ← on_callout callo_tick;
    if BASEPRI ps then mret tt
    else
      _ ← spl 5;
      l ← gets (fun s => callout (kc s));
      if match head l with Some c => 0 <? c_time c | None => true end then mret tt
      else
        p1 ← callo_run (S NCALL) 0;
        on_callout (callo_close (S NCALL) 0 p1).

(** Once a second, for one process. *)
Definition clock_cpu (x : proc) : Z :=
  let a := SCHMAG (Z.land (p_cpu x) 255) + p_nice x - NZERO in
  if a <? 0 then 0 else if 255 <? a then 255 else a.

Definition clock_proc (p : nat) : M unit :=
  x ← gets (fun s => proc_at s p);
  if negb (p_stat x =? 0) && (p_stat x <? SZOMB) then
    _ ← when (negb (p_time x =? 127)) (modify (upd_proc p (fun x => x <| p_time ::= fun t => i8 (t + 1) |>)));
    _ ← when (negb (p_clktim x =? 0))
          (_ ← modify (upd_proc p (fun x => x <| p_clktim ::= fun t => i32 (t - 1) |>));
           z ← gets (fun s => p_clktim (proc_at s p) =? 0);
           when z (psignal p SIGCLK));
    _ ← modify (upd_proc p (fun x => x <| p_cpu := i8 (clock_cpu x) |>));
    pri ← gets (fun s => p_pri (proc_at s p));
    when (PUSER <=? pri) (_ ← setpri p; mret tt)
  else mret tt.

Definition clock_second : M unit :=
  _ ← modify (fun s => s <| kc; lbolt ::= fun n => i32 (n - HZ) |> <| kc; time ::= fun n => i32 (n + 1) |>);
  _ ← spl 1;
  _ ← modify (fun s => s <| kp; runrun ::= fun r => i8 (r + 1) |>);
  _ ← wakeup ChLbolt;
  _ ← for_each (seq 0 NPROC) clock_proc;
  ri ← gets (fun s => runin (kp s));
  when (negb (ri =? 0)) (_ ← modify (fun s => s <| kp; runin := 0 |>); wakeup ChRunin).

(** Whom the tick is charged to, from [out:]. *)
Definition clock_charge (ps : Z) : M unit :=
  x ← gets u;
  nice ← gets (fun s => p_nice (proc_at s (curproc s)));
  busy ← gets (fun s => Z.land (dk_busy (kc s)) 7);
  let a := if USERMODE ps then (if NZERO <? nice then busy + 8 else busy) else busy + 16 in
  _ ← (if USERMODE ps then modify (upd_u (fun x => x <| u_utime ::= fun t => i32 (t + 1) |>))
       else modify (upd_u (fun x => x <| u_stime ::= fun t => i32 (t + 1) |>)));
  _ ← modify (fun s => s <| kc; dk_time ::= fun d => <[a := i32 (d a + 1)]> d |>);
  p ← gets curproc;
  _ ← modify (upd_proc p (fun x => x <| p_cpu ::= fun c => i8 (c + 1) |>));
  c ← gets (fun s => p_cpu (proc_at s p));
  when (c =? 0) (modify (upd_proc p (fun x => x <| p_cpu ::= fun c => i8 (c - 1) |>))).

Definition clock (ps : Z) : M unit :=
  _ ← when (USERMODE ps) uart_poll_rx;
  _ ← clock_callout ps;
  _ ← clock_charge ps;
  _ ← modify (fun s => s <| kc; lbolt ::= fun n => i32 (n + 1) |>);
  lb ← gets (fun s => lbolt (kc s));
  if HZ <=? lb then (if BASEPRI ps then mret tt else clock_second) else mret tt.

(** [n] ticks, as far as the callouts go. *)
Fixpoint clock_ticks (n : nat) (ps : Z) : M unit :=
  match n with O => mret tt | S n => _ ← clock_callout ps; clock_ticks n ps end.

(** [epoch68_clock_intr(saved_sr, saved_pc)] *)
Definition clock_intr (saved_sr saved_pc : Z) : M unit := clock (i32 saved_sr).

End Clock.

(** ** Callouts are run when they are due

    The functions called out are known by what they do to the state, [ran];
    they return, and do not change the table themselves. *)
Section Callouts.
Context `{Layout} `{ClockHooks}.
Variable ran : nat -> Z -> kst -> kst.
Hypothesis run_callout_ran : forall f a e s, run_callout f a e s = Ret tt e (ran f a s).
Hypothesis ran_callout : forall f a s, callout (kc (ran f a s)) = callout (kc s).

Definition run_all (q : list (Z * nat * Z)) (s : kst) : kst := foldl (fun s x => ran x.1.2 x.2 s) s q.
Definition expired (e : Z * nat * Z) : Prop := ~ waits e.
#[local] Instance expired_dec e : Decision (expired e).
Proof. unfold expired. apply _. Defined.

Lemma run_all_callout q : forall s, callout (kc (run_all q s)) = callout (kc s).
Proof. induction q as [|x q IH]; intros s; [done|]. simpl. by rewrite IH, ran_callout. Qed.

(** The loop over the entries [g] that are due, which follow [x]. *)
Lemma callo_run_spec g : forall n x m c r e s,
  Forall (fun c => live c = true) g -> Forall (fun c => c_time c = 0) g ->
  (match m with [] => True | d :: _ => live d = true /\ 0 < c_time d end) -> live c = false -> (length g < n)%nat ->
  callout (kc s) = x ++ g ++ m ++ c :: r ->
  callo_run n (length x) e s = Ret (length x + length g)%nat e (run_all (due 0 g) s).
Proof.
  induction g as [|d g IH]; intros n x m c r e s Hl Hz Hm Hc Hn El; (destruct n as [|n]; [simpl in Hn; lia|]); cbn [callo_run]; mstep; rewrite El.
  - rewrite Nat.add_0_r. destruct m as [|d m]; cbn [app]; rewrite lookup_middle.
    + unfold live in Hc. by destruct (c_func c).
    + destruct Hm as [Hd Ht]. destruct (c_func d); [|done]. by rewrite (proj2 (Z.leb_gt _ _)) by done.
  - apply Forall_cons in Hl as [Hd Hl], Hz as [Hz0 Hz]. cbn [app]. rewrite lookup_middle. simpl length.
    unfold live in Hd. cbn [due]. destruct (c_func d) as [f|]; [|done]. rewrite Hz0. change (0 <=? 0) with true. cbv iota.
    rewrite (bind_ret _ _ _ _ _ _ _ (run_callout_ran f (c_arg d) e s)).
    replace (S (length x)) with (length (x ++ [d])) by (rewrite length_app; simpl; lia).
    rewrite (IH n (x ++ [d]) m c r); try done; [|simpl in Hn; lia|rewrite ran_callout, El, <- app_assoc; done].
    rewrite length_app. simpl length. f_equal. lia.
Qed.

Lemma filter_waits_none q : Forall waits q -> filter expired q = [].
Proof. induction 1 as [|x q Hx Hq IH]; [done|]. rewrite filter_cons_False; [done|]. by intros []. Qed.

Lemma due_expired g m t0 : Forall (fun c => live c = true) g -> Forall (fun c => c_time c = 0) g -> t0 = 0 ->
  Forall waits (due 0 m) -> filter expired (due t0 (g ++ m)) = due 0 g.
Proof.
  intros Hl Hz -> Hm. induction Hl as [|d g Hd Hl IH]; cbn [app]; [by apply filter_waits_none|].
  apply Forall_cons in Hz as [Hz0 Hz]. unfold live in Hd. simpl due. destruct (c_func d); [|done]. rewrite Hz0, Z.add_0_l.
  rewrite filter_cons_True by (unfold expired, waits; simpl; lia). by rewrite IH.
Qed.

(** One tick with callouts pending, at low priority. *)
Lemma clock_callout_spec ps e s :
  BASEPRI ps = false -> callo_ok (callout (kc s)) -> pending (callout (kc s)) <> [] ->
  let q := sooner <$> due 0 (callout (kc s)) in
  exists l1 l2, clock_callout ps e s =
    Ret tt e (set_callout l2 (run_all (filter expired q) (set_callout l1 (s <| kipl := 5 |>)))) /\
    callo_ok l2 /\ due 0 l2 = filter waits q.
Proof.
  intros Hps Hok Hne q. destruct (tick_ok _ Hok) as (l1 & Et & Hok1 & Hd1 & Hlen). fold q in Hd1.
  unfold clock_callout. mstep.
  assert (Eh : match head (callout (kc s)) with Some c => negb (live c) | None => true end = false).
  { destruct (callout (kc s)) as [|c l]; [done|]. simpl in *. destruct (live c); done. }
  rewrite Eh. unfold on_callout. msteps. rewrite Et. cbn [lift_res]. msteps. rewrite Hps. msteps.
  set (s1 := set_callout l1 s <| kipl := 5 |>). change (callout (kc s1)) with l1.
  destruct (callo_split l1 Hok1) as (c & r & El1 & Hc & Hr).
  destruct (due_split (pending l1) 0) as (g & m & Ep & Hz & Hm & Ew); [apply pending_live|apply Hok1|done|].
  pose proof (pending_live l1) as Hlive. rewrite Ep in Hlive. apply Forall_app in Hlive as [Hg Hlm].
  rewrite due_pending, Hd1 in Ew.
  assert (Hwm : Forall waits (due 0 m)). { rewrite <- Ew. apply Forall_forall. intros x Hx. by apply list_elem_of_filter in Hx as [? _]. }
  assert (Ex : filter expired q = due 0 g) by (rewrite <- Hd1, <- due_pending, Ep; by apply due_expired).
  rewrite Ex, Ew. rewrite Ep in El1. rewrite <- app_assoc in El1.
  destruct g as [|d g].
  - cbn [app] in El1. assert (Hh : match head l1 with Some c => 0 <? c_time c | None => true end = true).
    { rewrite El1. destruct m as [|d m]; simpl; [|by apply Z.ltb_lt].
      exfalso. apply Hne. destruct (pending (callout (kc s))); [done|]. rewrite Ep in Hlen. done. }
    rewrite Hh. exists l1, l1. split_and!; [done|done|]. by rewrite <- due_pending, Ep.
  - assert (Hh : match head l1 with Some c => 0 <? c_time c | None => true end = false).
    { rewrite El1. simpl. apply Forall_cons in Hz as [-> _]. done. }
    rewrite Hh.
    assert (Hm' : match m with [] => True | d :: _ => live d = true /\ 0 < c_time d end).
    { destruct m; [done|]. apply Forall_cons in Hlm as [Hl _]. done. }
    erewrite bind_ret; [|eapply (callo_run_spec (d :: g) (S NCALL) [] m c r e s1); try done].
    2:{ pose proof (co_end l1 Hok1) as He. rewrite Ep, length_app in He. lia. }
    rewrite Nat.add_0_l. msteps. rewrite run_all_callout. change (callout (kc s1)) with l1.
    destruct (callo_close_spec m (S NCALL) [] (d :: g) c r) as (d' & g' & Ec & Hd' & Hg'); [done|done|simpl; lia| |].
    { pose proof (co_end l1 Hok1) as He. rewrite Ep, length_app in He. lia. }
    cbn [app] in Ec. cbn [app] in El1. rewrite <- El1 in Ec. rewrite Nat.add_0_l in Ec. simpl length in Ec. cbn [length]. rewrite Ec. cbn [lift_res]. msteps.
    exists l1, (m ++ d' :: g'). split_and!; [done| |by rewrite due_stop].
    apply ok_of_pending; [done|done| |].
    + rewrite length_app. simpl length. rewrite Hg'. pose proof (co_length l1 Hok1) as HL. rewrite El1 in HL. simpl length in HL.
      rewrite !length_app in HL. simpl length in HL |- *. lia.
    + pose proof (co_time l1 Hok1) as HT. rewrite Ep in HT. by apply Forall_app in HT as [_ ?].
Qed.

(** A clock tick at low priority, with callouts pending, runs exactly the
    functions whose time is up, in the order of the queue, with the processor
    at priority 5; it takes those entries off the table, brings every other
    one tick closer, and leaves the table well formed. *)
Lemma clock_callout_runs ps e s :
  BASEPRI ps = false -> callo_ok (callout (kc s)) -> pending (callout (kc s)) <> [] ->
  let q := sooner <$> due 0 (callout (kc s)) in
  exists l1 l2, clock_callout ps e s =
    Ret tt e (set_callout l2 (run_all (filter expired q) (set_callout l1 (s <| kipl := 5 |>)))) /\
    callo_ok l2 /\ due 0 l2 = filter waits q.
Proof. apply clock_callout_spec. Qed.

Lemma due_nonempty x l : x ∈ due 0 l -> pending l <> [].
Proof. rewrite <- due_pending. intros Hx E. rewrite E in Hx. by apply not_elem_of_nil in Hx. Qed.

(** C34. No callout is forgotten: a function due in [n+1] ticks is still in the
    table after [n] ticks of the clock at low priority, and the next tick
    calls it. *)
Theorem callout_runs_in_time n f a ps e : forall s,
  BASEPRI ps = false -> callo_ok (callout (kc s)) -> (Z.of_nat n + 1, f, a) ∈ due 0 (callout (kc s)) ->
  exists s1 l1 l2 up, clock_ticks n ps e s = Ret tt e s1 /\
    clock_callout ps e s1 = Ret tt e (set_callout l2 (run_all up (set_callout l1 (s1 <| kipl := 5 |>)))) /\
    (0, f, a) ∈ up /\ callo_ok l2.
Proof.
  induction n as [|n IH]; intros s Hps Hok Hin; cbn [clock_ticks];
    destruct (clock_callout_spec ps e s Hps Hok (due_nonempty _ _ Hin)) as (l1 & l2 & E & Hok2 & Hd2);
    set (q := sooner <$> due 0 (callout (kc s))) in *.
  - exists s, l1, l2, (filter expired q). split_and!; [done|done| |done]. apply list_elem_of_filter. split; [by intros ?|].
    apply list_elem_of_fmap. by exists (Z.of_nat 0 + 1, f, a).
  - erewrite bind_ret; [|exact E].
    destruct (IH (set_callout l2 (run_all (filter expired q) (set_callout l1 (s <| kipl := 5 |>))))) as (s1 & l1' & l2' & up & H1 & H2 & H3 & H4); [done|done| |].
    + change (callout (kc (set_callout l2 ?x))) with l2. rewrite Hd2. apply list_elem_of_filter. split; [unfold waits; simpl; lia|].
      apply list_elem_of_fmap. exists (Z.of_nat (S n) + 1, f, a). split; [|done]. unfold sooner. simpl. do 2 f_equal. lia.
    + by exists s1, l1', l2', up.
Qed.

End Callouts.

(** A table of two callouts, and functions that only leave a message. *)
Definition ex_table : list callo := Callo 0 7 (Some 1%nat) :: Callo 2 8 (Some 2%nat) :: replicate 18 (Callo 0 0 None).
Definition ex_ran (f : nat) (a : Z) (s : kst) : kst := s <| klog ::= cons "called" |>.
#[local] Instance ex_hooks : ClockHooks := Build_ClockHooks (fun f a => modify (ex_ran f a)) (mret tt).

Lemma ex_ran_runs f a e s : run_callout f a e s = Ret tt e (ex_ran f a s).
Proof. done. Qed.

Lemma ex_table_ok : callo_ok ex_table.
Proof. split; [done|vm_compute; lia|]. repeat constructor; simpl; lia. Qed.

Lemma clock_callout_runs_witness : exists l1 l2,
  clock_callout 0 [] (set_callout ex_table kst0) =
    Ret tt [] (set_callout l2 (run_all ex_ran [(0, 1%nat, 7)] (set_callout l1 (set_callout ex_table kst0 <| kipl := 5 |>)))) /\
  due 0 l2 = [(1, 2%nat, 8)].
Proof.
  destruct (clock_callout_runs (H0:=ex_hooks) ex_ran ex_ran_runs (fun _ _ _ => eq_refl) 0 [] (set_callout ex_table kst0))
    as (l1 & l2 & H1 & H2 & H3); [done|exact ex_table_ok|done|]. by exists l1, l2.
Defined.

Lemma callout_runs_in_time_witness : exists s1 l1 l2 up, clock_ticks 1 0 [] (set_callout ex_table kst0) = Ret tt [] s1 /\
  clock_callout 0 [] s1 = Ret tt [] (set_callout l2 (run_all ex_ran up (set_callout l1 (s1 <| kipl := 5 |>)))) /\ (0, 2%nat, 8) ∈ up.
Proof.
  destruct (callout_runs_in_time (H0:=ex_hooks) ex_ran ex_ran_runs (fun _ _ _ => eq_refl) 1 2%nat 8 0 [] (set_callout ex_table kst0))
    as (s1 & l1 & l2 & up & H1 & H2 & H3 & _); [done|exact ex_table_ok|right; left|]. by exists s1, l1, l2, up.
Defined.
