(* ===== verification/Rtc.v ===== *)
(** The real-time clock: [dev/mm58167.c].

    The device is its register file, [rtcregs] of the kernel state; two
    registers hold the decimal digits of each part of the date. *)
From S2P Require Import Prelude Malloc Clist Kernel Sched Codec Usermem Subr.

Definition MM58167_NREG : Z := 16.
Definition RTC_SEC_UNITS : Z := 0.
Definition RTC_SEC_TENS : Z := 1.
Definition RTC_MIN_UNITS : Z := 2.
Definition RTC_MIN_TENS : Z := 3.
Definition RTC_HOUR_UNITS : Z := 4.
Definition RTC_HOUR_TENS : Z := 5.
Definition RTC_DAY_UNITS : Z := 7.
Definition RTC_DAY_TENS : Z := 8.
Definition RTC_MONTH_UNITS : Z := 9.
Definition RTC_MONTH_TENS : Z := 10.
Definition RTC_YEAR_UNITS : Z := 11.
Definition RTC_YEAR_TENS : Z := 12.

Definition mdays (i : Z) : Z := nth (Z.to_nat i) [31; 28; 31; 30; 31; 30; 31; 31; 30; 31; 30; 31] 0.

Definition rtcbcd (r : Z -> Z) (units tens : Z) : Z :=
  let u := Z.land (r units) 15 in
  let t := Z.land (r tens) 15 in
  if (9 <? u) || (9 <? t) then -1 else t * 10 + u.

Definition rtcleap (year : Z) : bool := Z.rem year 4 =? 0.

Definition rtcputbcd (units tens value : Z) (r : Z -> Z) : Z -> Z :=
  <[tens := u8 (Z.rem (Z.quot value 10) 10)]> (<[units := u8 (Z.rem value 10)]> r).

(** The length of a year, and of its [month]. *)
Definition rtcyear (year : Z) : Z := if rtcleap year then 366 else 365.
Definition rtcdim (month year : Z) : Z := mdays (month - 1) + (if (month =? 2) && rtcleap year then 1 else 0).

(** [for (y = 1970; y < year; y++)], [n] turns from [y]. *)
Fixpoint rtcdays_loop (n : nat) (y days : Z) : Z :=
  match n with O => days | S n => rtcdays_loop n (y + 1) (days + rtcyear y) end.
Definition rtcdays_before_year (year : Z) : Z := rtcdays_loop (Z.to_nat (year - 1970)) 1970 0.

(** [for (i = 1; i < month; i++)], [n] turns from [i]. *)
Fixpoint rtcmonths_loop (n : nat) (i year days : Z) : Z :=
  match n with O => days | S n => rtcmonths_loop n (i + 1) year (days + rtcdim i year) end.

(** [None] is the return value -1. *)
Definition mm58167_time (r : Z -> Z) : option Z :=
  let sec := rtcbcd r RTC_SEC_UNITS RTC_SEC_TENS in
  let min := rtcbcd r RTC_MIN_UNITS RTC_MIN_TENS in
  let hour := rtcbcd r RTC_HOUR_UNITS RTC_HOUR_TENS in
  let day := rtcbcd r RTC_DAY_UNITS RTC_DAY_TENS in
  let month := rtcbcd r RTC_MONTH_UNITS RTC_MONTH_TENS in
  let year := rtcbcd r RTC_YEAR_UNITS RTC_YEAR_TENS in
  if (sec <? 0) || (59 <? sec) || (min <? 0) || (59 <? min) || (hour <? 0) || (23 <? hour) ||
     (month <? 1) || (12 <? month) then None
  else
    let year := if year <? 70 then year + 2000 else year + 1900 in
    if year <? 1970 then None
    else if day <? 1 then None
    else if rtcdim month year <? day then None
    else
      let days := rtcmonths_loop (Z.to_nat (month - 1)) 1 year (rtcdays_before_year year) + (day - 1) in
      Some (i32 (i32 (i32 (i32 (i32 (i32 (days * 24) + hour) * 60) + min) * 60) + sec)).

(** [for (year = 1970; days >= ...; year++)]: the year and the days left. *)
Fixpoint rtc_year (n : nat) (year days : Z) : option (Z * Z) :=
  if rtcyear year <=? days then
    match n with O => None | S n => rtc_year n (year + 1) (days - rtcyear year) end
  else Some (year, days).
(** A [time_t] reaches the year 2038. *)
Definition YEARFUEL : nat := 70.

(** [for (month = 1; month <= 12; month++)], [n] turns from [month]. *)
Fixpoint rtc_month (n : nat) (month year days : Z) : Z * Z :=
  match n with
  | O => (month, days)
  | S n => if days <? rtcdim month year then (month, days)
           else rtc_month n (month + 1) year (days - rtcdim month year)
  end.

(** The return value and the registers. *)
Definition mm58167_set_time (t : Z) (r : Z -> Z) : option (Z * (Z -> Z)) :=
  if t <? 0 then Some (-1, r)
  else
    let hms := Z.rem t 86400 in
    let days := Z.quot t 86400 in
    let r := rtcputbcd RTC_SEC_UNITS RTC_SEC_TENS (i16 (Z.rem hms 60)) r in
    let hms := Z.quot hms 60 in
    let r := rtcputbcd RTC_MIN_UNITS RTC_MIN_TENS (i16 (Z.rem hms 60)) r in
    let hms := Z.quot hms 60 in
    let r := rtcputbcd RTC_HOUR_UNITS RTC_HOUR_TENS (i16 hms) r in
    match rtc_year YEARFUEL 1970 days with
    | None => None
    | Some (year, days) =>
        let '(month, days) := rtc_month 12 1 year days in
        let r := rtcputbcd RTC_DAY_UNITS RTC_DAY_TENS (i16 (i16 days + 1)) r in
        let r := rtcputbcd RTC_MONTH_UNITS RTC_MONTH_TENS month r in
        let r := rtcputbcd RTC_YEAR_UNITS RTC_YEAR_TENS (i16 (Z.rem year 100)) r in
        Some (0, r)
    end.

(** ** The device *)

Definition set_clock (t : Z) : M Z :=
  r ← gets (fun s => mm58167_set_time t (rtcregs (kc s)));
  match r with
  | None => nofuel
  | Some (v, r) => _ ← modify (fun s => s <| kc; rtcregs := r |>); mret v
  end.

Definition rtcopen (dev flag : Z) : M Z :=
  if negb (minor dev =? 0) then _ ← seterror ENXIO; mret (-1) else mret 0.

Fixpoint rtcread_loop (n : nat) (i : Z) : M unit :=
  match n with
  | O => mret tt
  | S n =>
      x ← gets u;
      if u_count x =? 0 then mret tt
      else
        c ← gets (fun s => Z.land (rtcregs (kc s) i) 255);
        t ← passc c;
        if t <? 0 then mret tt else rtcread_loop n (i + 1)
  end.
Definition rtcread (dev : Z) : M Z :=
  if negb (minor dev =? 0) then _ ← seterror ENXIO; mret (-1)
  else _ ← rtcread_loop (Z.to_nat MM58167_NREG) 0; mret 0.

Definition rtcwrite (dev : Z) : M Z := _ ← seterror EINVAL; mret (-1).

(** ** Lemmas *)

Lemma bcd_digit v : 0 <= v < 10 -> Z.land (u8 v) 15 = v.
Proof. intros. rewrite u8_id by lia. change 15 with (Z.ones 4). rewrite land_ones_mod by lia. apply Z.mod_small. lia. Qed.

(** Two digits written are read back. *)
Lemma bcd_put units tens v r :
  units <> tens -> 0 <= v < 100 -> rtcbcd (rtcputbcd units tens v r) units tens = v.
Proof.
  intros Hne Hv. unfold rtcbcd, rtcputbcd. rewrite fn_lookup_insert, (fn_lookup_insert_ne _ _ units) by congruence.
  rewrite fn_lookup_insert. rewrite !Z.quot_div_nonneg, !Z.rem_mod_nonneg by (try apply Z.div_pos; lia).
  rewrite !bcd_digit by (apply Z.mod_pos_bound; lia). rewrite (Z.mod_small (v / 10)) by (split; [apply Z.div_pos|apply Z.div_lt_upper_bound]; lia).
  pose proof (Z.mod_pos_bound v 10 ltac:(lia)). pose proof (Z.div_mod v 10 ltac:(lia)).
  assert (v / 10 < 10) by (apply Z.div_lt_upper_bound; lia).
  destruct (Z.ltb_spec 9 (v mod 10)), (Z.ltb_spec 9 (v / 10)); simpl; lia.
Qed.

Lemma bcd_other units tens a b v r :
  a <> units -> a <> tens -> b <> units -> b <> tens -> rtcbcd (rtcputbcd units tens v r) a b = rtcbcd r a b.
Proof. intros. unfold rtcbcd, rtcputbcd. by rewrite !fn_lookup_insert_ne by congruence. Qed.

Lemma rtcdays_loop_add n : forall y d, rtcdays_loop n y d = d + rtcdays_loop n y 0.
Proof. induction n as [|n IH]; intros y d; simpl; [lia|]. rewrite IH, (IH _ (rtcyear y)). lia. Qed.

Lemma rtcdays_loop_S n : forall y d, rtcdays_loop (S n) y d = rtcdays_loop n y d + rtcyear (y + Z.of_nat n).
Proof.
  induction n as [|n IH]; intros y d; [simpl; by rewrite Z.add_0_r|].
  change (rtcdays_loop (S (S n)) y d) with (rtcdays_loop (S n) (y + 1) (d + rtcyear y)).
  change (rtcdays_loop (S n) y d) with (rtcdays_loop n (y + 1) (d + rtcyear y)).
  rewrite IH. do 2 f_equal. lia.
Qed.

Lemma rtcdays_before_S y : 1970 <= y -> rtcdays_before_year (y + 1) = rtcdays_before_year y + rtcyear y.
Proof.
  intros Hy. unfold rtcdays_before_year. replace (Z.to_nat (y + 1 - 1970)) with (S (Z.to_nat (y - 1970))) by lia.
  rewrite rtcdays_loop_S. do 2 f_equal. lia.
Qed.

Lemma rtcyear_range y : 365 <= rtcyear y <= 366.
Proof. unfold rtcyear. destruct (rtcleap y); lia. Qed.

(** Days before a year grow by at least 365 a year. *)
Lemma rtcdays_before_lower y : 1970 <= y -> 365 * (y - 1970) <= rtcdays_before_year y.
Proof.
  intros Hy. replace y with (1970 + Z.of_nat (Z.to_nat (y - 1970))) by lia. generalize (Z.to_nat (y - 1970)) as n.
  induction n as [|n IH]; [done|]. replace (1970 + Z.of_nat (S n)) with (1970 + Z.of_nat n + 1) by lia.
  rewrite rtcdays_before_S by lia. pose proof (rtcyear_range (1970 + Z.of_nat n)). lia.
Qed.

(** The loop finds the year the day is in. *)
Lemma rtc_year_spec n : forall y d, 1970 <= y -> 0 <= d < 365 * (Z.of_nat n + 1) ->
  exists y' d', rtc_year n y d = Some (y', d') /\ y <= y' /\ 0 <= d' < rtcyear y' /\
    rtcdays_before_year y' + d' = rtcdays_before_year y + d.
Proof.
  induction n as [|n IH]; intros y d Hy Hd; cbn [rtc_year]; pose proof (rtcyear_range y);
    destruct (Z.leb_spec (rtcyear y) d); try lia; try (exists y, d; split_and!; (done || lia)).
  destruct (IH (y + 1) (d - rtcyear y)) as (y' & d' & E & H1 & H2 & H3); [lia|lia|].
  exists y', d'. rewrite rtcdays_before_S in H3 by lia. split_and!; (done || lia).
Qed.

(** Finding the month of a day of a year, by trying all 366 days. *)
Definition month_ok (y d : Z) : bool :=
  let '(m, d') := rtc_month 12 1 y d in
  (1 <=? m) && (m <=? 12) && (0 <=? d') && (d' <? rtcdim m y) && (rtcmonths_loop (Z.to_nat (m - 1)) 1 y 0 + d' =? d).

Lemma rtcdim_leap m y y' : rtcleap y = rtcleap y' -> rtcdim m y = rtcdim m y'.
Proof. unfold rtcdim. by intros ->. Qed.
Lemma rtc_month_leap n y y' : rtcleap y = rtcleap y' -> forall m d, rtc_month n m y d = rtc_month n m y' d.
Proof. intros E. induction n as [|n IH]; intros m d; [done|]. cbn [rtc_month]. by rewrite (rtcdim_leap m y y' E), IH. Qed.
Lemma rtcmonths_leap n y y' : rtcleap y = rtcleap y' -> forall m d, rtcmonths_loop n m y d = rtcmonths_loop n m y' d.
Proof. intros E. induction n as [|n IH]; intros m d; [done|]. cbn [rtcmonths_loop]. by rewrite (rtcdim_leap m y y' E), IH. Qed.
Lemma rtcmonths_add n y : forall m d, rtcmonths_loop n m y d = d + rtcmonths_loop n m y 0.
Proof. induction n as [|n IH]; intros m d; simpl; [lia|]. rewrite IH, (IH _ (rtcdim m y)). lia. Qed.

Lemma rtc_month_spec y d : 0 <= d < rtcyear y ->
  exists m d', rtc_month 12 1 y d = (m, d') /\ 1 <= m <= 12 /\ 0 <= d' < rtcdim m y /\
    rtcmonths_loop (Z.to_nat (m - 1)) 1 y 0 + d' = d.
Proof.
  intros Hd. set (y0 := if rtcleap y then 1972 else 1970).
  assert (E : rtcleap y = rtcleap y0) by (unfold y0; by destruct (rtcleap y)).
  rewrite (rtc_month_leap 12 y y0 E). destruct (rtc_month 12 1 y0 d) as [m d'] eqn:Em.
  assert (Hok : forallb (month_ok y0) (seqZ 0 (rtcyear y0)) = true) by (unfold y0; destruct (rtcleap y); vm_compute; reflexivity).
  rewrite forallb_forall in Hok. specialize (Hok d).
  assert (Ey : rtcyear y0 = rtcyear y) by (unfold rtcyear; by rewrite <- E).
  assert (Hin : List.In d (seqZ 0 (rtcyear y0))) by (rewrite Ey; apply list_elem_of_In, elem_of_seqZ; lia).
  specialize (Hok Hin). unfold month_ok in Hok. rewrite Em in Hok. rewrite !andb_true_iff in Hok. destruct Hok as ((((H1&H2)&H3)&H4)&H5).
  exists m, d'. split; [done|]. rewrite (rtcdim_leap m y y0 E), (rtcmonths_leap _ y y0 E). lia.
Qed.

(** The hours, minutes and seconds of the day are put together again. *)
Lemma hms_split h : 0 <= h < 86400 ->
  ((h / 60 / 60) * 60 + (h / 60) mod 60) * 60 + h mod 60 = h /\ 0 <= h / 60 / 60 < 24.
Proof.
  intros Hh. pose proof (Z.div_mod h 60 ltac:(lia)). pose proof (Z.div_mod (h / 60) 60 ltac:(lia)). split; [lia|].
  rewrite Z.div_div by lia. split; [apply Z.div_pos; lia|apply Z.div_lt_upper_bound; lia].
Qed.

Lemma digit_put units tens v r i :
  0 <= v < 100 -> rtcputbcd units tens v r i = r i \/ ((i = units \/ i = tens) /\ 0 <= rtcputbcd units tens v r i <= 9).
Proof.
  intros Hv. unfold rtcputbcd. rewrite !Z.quot_div_nonneg, !Z.rem_mod_nonneg by (try apply Z.div_pos; lia).
  pose proof (Z.mod_pos_bound v 10 ltac:(lia)). pose proof (Z.mod_pos_bound (v / 10) 10 ltac:(lia)).
  destruct (decide (i = tens)) as [->|H1]; [right; rewrite fn_lookup_insert, u8_id by lia; lia|]. rewrite fn_lookup_insert_ne by congruence.
  destruct (decide (i = units)) as [->|H2]; [right; rewrite fn_lookup_insert, u8_id by lia; lia|]. rewrite fn_lookup_insert_ne by congruence.
  by left.
Qed.

(** The registers of a date. *)
Definition rtc_regs (sec min hour day month year : Z) (r : Z -> Z) : Z -> Z :=
  rtcputbcd RTC_YEAR_UNITS RTC_YEAR_TENS year (rtcputbcd RTC_MONTH_UNITS RTC_MONTH_TENS month
    (rtcputbcd RTC_DAY_UNITS RTC_DAY_TENS day (rtcputbcd RTC_HOUR_UNITS RTC_HOUR_TENS hour
      (rtcputbcd RTC_MIN_UNITS RTC_MIN_TENS min (rtcputbcd RTC_SEC_UNITS RTC_SEC_TENS sec r))))).

Lemma rtc_regs_parts sec min hour day month year r :
  0 <= sec < 100 -> 0 <= min < 100 -> 0 <= hour < 100 -> 0 <= day < 100 -> 0 <= month < 100 -> 0 <= year < 100 ->
  let r' := rtc_regs sec min hour day month year r in
  rtcbcd r' RTC_SEC_UNITS RTC_SEC_TENS = sec /\ rtcbcd r' RTC_MIN_UNITS RTC_MIN_TENS = min /\
  rtcbcd r' RTC_HOUR_UNITS RTC_HOUR_TENS = hour /\ rtcbcd r' RTC_DAY_UNITS RTC_DAY_TENS = day /\
  rtcbcd r' RTC_MONTH_UNITS RTC_MONTH_TENS = month /\ rtcbcd r' RTC_YEAR_UNITS RTC_YEAR_TENS = year.
Proof.
  intros. unfold r', rtc_regs. repeat split; repeat (rewrite bcd_other by done); by apply bcd_put.
Qed.

Lemma rtc_regs_digits sec min hour day month year r i :
  0 <= sec < 100 -> 0 <= min < 100 -> 0 <= hour < 100 -> 0 <= day < 100 -> 0 <= month < 100 -> 0 <= year < 100 ->
  rtc_regs sec min hour day month year r i = r i \/ (0 <= i <= 12 /\ i <> 6 /\ 0 <= rtc_regs sec min hour day month year r i <= 9).
Proof.
  intros. unfold rtc_regs.
  repeat match goal with |- context [rtcputbcd ?a ?b ?v ?r' i] =>
    destruct (digit_put a b v r' i) as [E|[Hi Hd]]; [done|rewrite E; clear E|right; cbv in Hi; lia] end.
  by left.
Qed.

(** C31. The clock chip and the kernel agree on the date: for every time of the
    machine's 32-bit clock, setting the chip succeeds, what it writes are
    decimal digits in the twelve registers of the date, and reading the date
    back from those registers gives the same time.  In particular the search
    for the year ends, and the leap years and the century of the two-digit
    year come out right up to the last second of the clock. *)
Theorem rtc_roundtrip t r : 0 <= t < 2 ^ 31 ->
  exists r', mm58167_set_time t r = Some (0, r') /\ mm58167_time r' = Some t /\
    forall i, r' i = r i \/ (0 <= i <= 12 /\ i <> 6 /\ 0 <= r' i <= 9).
Proof.
  intros Ht. assert (Hd : 0 <= t / 86400 < 24856) by (split; [apply Z.div_pos|apply Z.div_lt_upper_bound]; lia).
  pose proof (Z.mod_pos_bound t 86400 ltac:(lia)) as Hh. pose proof (Z.div_mod t 86400 ltac:(lia)) as Et.
  destruct (rtc_year_spec YEARFUEL 1970 (t / 86400)) as (y & d & Ey & Hy & Hd' & Es); [done|unfold YEARFUEL; lia|].
  change (rtcdays_before_year 1970) with 0 in Es.
  assert (Hy9 : y < 2039) by (pose proof (rtcdays_before_lower y Hy); lia).
  destruct (rtc_month_spec y d Hd') as (m & d' & Em & Hm & Hdd & Esm).
  assert (Hdim : rtcdim m y <= 31).
  { unfold rtcdim, mdays. assert (Hc : forallb (fun m => mdays (m - 1) + (if m =? 2 then 1 else 0) <=? 31) (seqZ 1 12) = true) by done.
    rewrite forallb_forall in Hc. specialize (Hc m). rewrite Z.leb_le in Hc.
    assert (Hin : List.In m (seqZ 1 12)) by (apply list_elem_of_In, elem_of_seqZ; lia). specialize (Hc Hin). unfold mdays in Hc.
    destruct (m =? 2), (rtcleap y); cbn [andb]; lia. }
  set (h := t mod 86400) in *. destruct (hms_split h Hh) as [Eh Hh24].
  pose proof (Z.mod_pos_bound h 60 ltac:(lia)) as Hs. pose proof (Z.mod_pos_bound (h / 60) 60 ltac:(lia)) as Hmi.
  pose proof (Z.mod_pos_bound y 100 ltac:(lia)) as Hyy.
  exists (rtc_regs (h mod 60) ((h / 60) mod 60) (h / 60 / 60) (d' + 1) m (y mod 100) r). split_and!.
  - unfold mm58167_set_time. destruct (Z.ltb_spec t 0); [lia|]. rewrite Z.quot_div_nonneg, Z.rem_mod_nonneg by lia. fold h.
    rewrite !(Z.quot_div_nonneg h), !(Z.rem_mod_nonneg h) by lia.
    rewrite !(Z.quot_div_nonneg (h / 60)), !(Z.rem_mod_nonneg (h / 60)) by (try apply Z.div_pos; lia).
    rewrite Ey, Em, Z.rem_mod_nonneg by lia. rewrite (i16_id d') by lia. rewrite !i16_id by lia. done.
  - destruct (rtc_regs_parts (h mod 60) ((h / 60) mod 60) (h / 60 / 60) (d' + 1) m (y mod 100) r) as (P1 & P2 & P3 & P4 & P5 & P6); try lia.
    unfold mm58167_time. rewrite P1, P2, P3, P4, P5, P6. clear P1 P2 P3 P4 P5 P6.
    rewrite (proj2 (Z.ltb_ge _ _)), (proj2 (Z.ltb_ge _ (h mod 60))) by lia. simpl.
    repeat (rewrite (proj2 (Z.ltb_ge _ _)) by lia). simpl.
    assert (Eyy : (if y mod 100 <? 70 then y mod 100 + 2000 else y mod 100 + 1900) = y).
    { destruct (Z_lt_le_dec y 2000).
      - replace (y mod 100) with (y - 1900) by (apply (Z.mod_unique_pos _ _ 19); lia). destruct (Z.ltb_spec (y - 1900) 70); lia.
      - replace (y mod 100) with (y - 2000) by (apply (Z.mod_unique_pos _ _ 20); lia). destruct (Z.ltb_spec (y - 2000) 70); lia. }
    rewrite Eyy. repeat (rewrite (proj2 (Z.ltb_ge _ _)) by lia). rewrite rtcmonths_add.
    replace (rtcdays_before_year y + rtcmonths_loop (Z.to_nat (m - 1)) 1 y 0 + (d' + 1 - 1)) with (t / 86400) by lia.
    set (q := t / 86400) in *. set (hr := h / 60 / 60) in *. set (mn := (h / 60) mod 60) in *.
    rewrite (i32_id (q * 24)), (i32_id (q * 24 + hr)), (i32_id ((q * 24 + hr) * 60)) by lia.
    rewrite (i32_id ((q * 24 + hr) * 60 + mn)), (i32_id (((q * 24 + hr) * 60 + mn) * 60)), i32_id by lia. f_equal. lia.
  - intros i. apply rtc_regs_digits; lia.
Qed.

Lemma rtc_roundtrip_witness : exists r', mm58167_set_time 951782399 (fun _ => 0) = Some (0, r') /\ mm58167_time r' = Some 951782399.
Proof. destruct (rtc_roundtrip 951782399 (fun _ => 0)) as (r' & H1 & H2 & _); [split; done|]. by exists r'. Defined.
