(* ===== verification/Acct.v ===== *)
(** Process accounting: [sys/acct.c]. *)
From S2P Require Import Prelude Malloc Clist Kernel Sched Dll Sd Bio Codec Usermem Subr Alloc Inode Rdwri Text Fio Namei.

(** ** [struct acct] *)

Definition ac_comm (i : nat) : field := Fld i 1 true.
Definition ac_utime : field := Fld 10 2 false.
Definition ac_stime : field := Fld 12 2 false.
Definition ac_etime : field := Fld 14 2 false.
Definition ac_btime : field := Fld 16 4 true.
Definition ac_uid : field := Fld 20 2 true.
Definition ac_gid : field := Fld 22 2 true.
Definition ac_mem : field := Fld 24 2 true.
Definition ac_io : field := Fld 26 2 false.
Definition ac_tty : field := Fld 28 2 false.
Definition ac_flag : field := Fld 30 1 true.
Definition ACCT_SIZE : Z := 32.

(** ** [compress] *)

(** [while (t >= 8192) { exp++; round = t&04; t >>= 3; }] *)
Fixpoint compress_loop (n : nat) (exp round t : Z) : option (Z * Z * Z) :=
  if 8192 <=? t then
    match n with O => None | S n => compress_loop n (exp + 1) (Z.land t 4) (Z.shiftr t 3) end
  else Some (exp, round, t).

(** A [time_t] has 31 bits, and every turn drops 3 of those above the 13th. *)
Definition COMPFUEL : nat := 6.

Definition compress (t : Z) : option Z :=
  match compress_loop COMPFUEL 0 0 t with
  | None => None
  | Some (exp, round, t) =>
      let '(exp, t) :=
        if negb (round =? 0) then
          let t := t + 1 in
          if 8192 <=? t then (exp + 1, Z.shiftr t 3) else (exp, t)
        else (exp, t) in
      Some (u16 (Z.shiftl exp 13 + t))
  end.

(** ** The routines *)

Section Acct.
Context `{Layout} `{Cdevsw}.

Definition set_acctp (o : option nat) : M unit := modify (fun s => s <| kf; acctp := o |>).
Definition put_acct (f : field) (v : Z) : M unit := modify (fun s => s <| kf; acctbuf ::= fput f v |>).
Definition put_time (f : field) (t : Z) : M unit :=
  match compress t with None => nofuel | Some c => put_acct f c end.

Definition sysacct_on : M unit :=
  o ← namei uchar 0;
  match o with
  | None => mret tt
  | Some ip =>
      m ← gets (fun s => i_mode (inode_at s ip));
      if negb (Z.land m IFMT =? IFREG) then _ ← seterror EACCES; iput ip
      else _ ← set_acctp (Some ip); prele ip
  end.

Definition sysacct : M unit :=
  su ← suser;
  if su : bool then
    fname ← gets (fun s => arg s 0);
    ac ← gets (fun s => acctp (kf s));
    if fname =? 0 then
      match ac with
      | None => mret tt
      | Some ip => _ ← plock ip; _ ← iput ip; set_acctp None
      end
    else match ac with
    | Some _ => seterror EBUSY
    | None => sysacct_on
    end
  else mret tt.

Definition acct : M unit :=
  o ← gets (fun s => acctp (kf s));
  match o with
  | None => mret tt
  | Some ip =>
      _ ← plock ip;
      _ ← for_each (seq 0 10) (fun i => c ← gets (fun s => nth i (u_comm (u s)) 0); put_acct (ac_comm i) c);
      x ← gets u;
      _ ← put_time ac_utime (u_utime x);
      _ ← put_time ac_stime (u_stime x);
      t ← gets now;
      _ ← put_time ac_etime (i32 (t - u_start x));
      _ ← put_acct ac_btime (u_start x);
      _ ← put_acct ac_uid (u_ruid x);
      _ ← put_acct ac_gid (u_rgid x);
      _ ← put_acct ac_mem 0;
      _ ← put_acct ac_io 0;
      _ ← put_acct ac_tty (u_ttyd x);
      _ ← put_acct ac_flag (u_acflag x);
      siz ← gets (fun s => i_size (inode_at s ip));
      _ ← modify (upd_u (fun x => x <| u_offset := siz |> <| u_base := KA KAcct 0 |> <| u_count := ACCT_SIZE |>
                                    <| u_segflg := 1 |> <| u_error := 0 |>));
      _ ← writei ip;
      er ← gets uerror;
      _ ← when (negb (er =? 0)) (modify (upd_inode ip (fun y => y <| i_size := siz |>)));
      prele ip
  end.

Definition syslock : M unit :=
  su ← suser;
  if su : bool then
    p ← gets curproc;
    _ ← modify (upd_proc p (fun x => x <| p_flag ::= fun f => i8 (fclr f SULOCK) |>));
    flag ← gets (fun s => arg s 0);
    when (negb (flag =? 0)) (modify (upd_proc p (fun x => x <| p_flag ::= fun f => i8 (Z.lor f SULOCK) |>)))
  else mret tt.

End Acct.

(** ** Lemmas *)

(** The loop divides by the least power of 8 that brings the time below 8192,
    and keeps the bit below the last one. *)
Lemma compress_loop_spec n : forall e r t, 0 <= t < 8192 * 8 ^ Z.of_nat n ->
  exists k r', compress_loop n e r t = Some (e + k, r', t / 8 ^ k) /\ 0 <= k <= Z.of_nat n /\ t / 8 ^ k < 8192 /\
    (k = 0 -> r' = r) /\ (0 < k -> 8192 <= t / 8 ^ (k - 1) /\ r' = Z.land (t / 8 ^ (k - 1)) 4).
Proof.
  induction n as [|n IH]; intros e r t Ht; cbn [compress_loop]; destruct (Z.leb_spec 8192 t) as [Hb|Hb].
  - simpl in Ht. lia.
  - exists 0, r. rewrite Z.pow_0_r, Z.div_1_r, Z.add_0_r. split_and!; (done || lia).
  - rewrite Nat2Z.inj_succ, Z.pow_succ_r in Ht by lia. rewrite Z.shiftr_div_pow2 by lia. change (2 ^ 3) with 8.
    destruct (IH (e + 1) (Z.land t 4) (t / 8)) as (k & r' & E & Hk & Hl & H0 & H1).
    { split; [apply Z.div_pos; lia|apply Z.div_lt_upper_bound; lia]. }
    assert (Hdd : forall j, 0 <= j -> t / 8 / 8 ^ j = t / 8 ^ (j + 1)) by (intros j Hj; rewrite Z.div_div, Z.pow_add_r by (try apply Z.pow_pos_nonneg; lia); f_equal; lia).
    rewrite Hdd in E, Hl by lia. exists (k + 1), r'. split_and!; try lia.
    + rewrite E. do 3 f_equal. lia.
    + intros _. replace (k + 1 - 1) with k by lia. destruct (decide (k = 0)) as [->|Hk0].
      * rewrite H0 by done. by rewrite Z.pow_0_r, Z.div_1_r.
      * destruct H1 as [H1 H2]; [lia|]. rewrite Hdd in H1, H2 by lia. replace (k - 1 + 1) with k in * by lia. done.
  - exists 0, r. rewrite Z.pow_0_r, Z.div_1_r, Z.add_0_r. split_and!; (done || lia).
Qed.

Lemma land_4 x : 0 <= x -> Z.land x 4 = 4 * ((x / 4) mod 2).
Proof.
  intros Hx. change 4 with (2 ^ 2) at 1. rewrite Z.land_comm. rewrite <- (Z.shiftl_1_l 2) at 1.
  replace (x / 4) with (Z.shiftr x 2) by (by rewrite Z.shiftr_div_pow2).
  rewrite <- Z.bit0_mod, Z.shiftr_spec by lia. apply Z.bits_inj'. intros i Hi.
  rewrite Z.land_spec, Z.shiftl_1_l, Z.pow2_bits_eqb by lia. change (0 + 2) with 2.
  destruct (Z.eqb_spec 2 i) as [<-|Hne].
  - destruct (Z.testbit x 2); reflexivity.
  - destruct (Z.testbit x 2); simpl; [|by rewrite Z.testbit_0_l]. symmetry. by apply (Z.pow2_bits_false 2).
Qed.

Lemma pow8_pred k : 0 < k -> 8 ^ k = 8 ^ (k - 1) * 8.
Proof. intros Hk. replace k with (k - 1 + 1) at 1 by lia. by rewrite Z.pow_add_r by lia. Qed.

(** Dropping the last octal digit and rounding: the bit of weight 4 says
    whether to go up. *)
Lemma round_octal t k : 0 <= t -> 0 < k ->
  let m := t / 8 ^ k + (if Z.land (t / 8 ^ (k - 1)) 4 =? 0 then 0 else 1) in
  2 * Z.abs (m * 8 ^ k - t) <= 8 ^ k.
Proof.
  intros Ht Hk m. assert (Hp : 0 < 8 ^ (k - 1)) by (apply Z.pow_pos_nonneg; lia).
  pose proof (pow8_pred k Hk) as E8.
  subst m. rewrite land_4 by (apply Z.div_pos; lia). rewrite E8. rewrite <- Z.div_div by lia.
  set (w := 8 ^ (k - 1)) in *. set (q := t / w). pose proof (Z.div_mod t w ltac:(lia)) as E1. fold q in E1.
  pose proof (Z.mod_pos_bound t w Hp). pose proof (Z.div_mod q 8 ltac:(lia)) as E2. pose proof (Z.mod_pos_bound q 8 ltac:(lia)).
  pose proof (Z.div_mod q 4 ltac:(lia)) as E3. pose proof (Z.mod_pos_bound q 4 ltac:(lia)).
  pose proof (Z.div_mod (q / 4) 2 ltac:(lia)) as E4. pose proof (Z.mod_pos_bound (q / 4) 2 ltac:(lia)).
  assert (E5 : q / 4 / 2 = q / 8) by (rewrite Z.div_div by lia; done). rewrite E5 in E4.
  destruct (Z.eqb_spec (4 * ((q / 4) mod 2)) 0); nia.
Qed.

(** C32. The accounting format loses at most half a unit: [compress] returns
    for every time of the clock a 16-bit number made of an exponent [e] of
    three bits and a fraction [m] of thirteen, the loop having ended, and
    [m * 8^e] is within half of [8^e] of the time; the fraction is not less
    than 1024 unless the time is represented exactly, so that the relative
    error is at most 1/2048. *)
Theorem compress_accurate t : 0 <= t < 2 ^ 31 ->
  exists e m, compress t = Some (e * 8192 + m) /\ 0 <= e <= 7 /\ 0 <= m < 8192 /\
    2 * Z.abs (m * 8 ^ e - t) <= 8 ^ e /\ (e = 0 /\ m = t \/ 1024 <= m).
Proof.
  intros Ht. destruct (compress_loop_spec COMPFUEL 0 0 t) as (k & r & E & Hk & Hl & H0 & H1); [unfold COMPFUEL; simpl; lia|].
  unfold COMPFUEL in Hk. unfold compress. rewrite E. clear E. rewrite Z.add_0_l.
  assert (Hq : 0 <= t / 8 ^ k) by (apply Z.div_pos; [lia|apply Z.pow_pos_nonneg; lia]).
  assert (Es : forall e, Z.shiftl e 13 = e * 8192) by (intros; by rewrite Z.shiftl_mul_pow2).
  destruct (decide (k = 0)) as [->|Hk0].
  { rewrite H0 by done. rewrite Z.pow_0_r, Z.div_1_r in Hl |- *. exists 0, t. rewrite Z.pow_0_r, Z.mul_1_r. cbn [negb Z.eqb].
    rewrite Es, u16_id by lia. split_and!; (done || lia). }
  destruct H1 as [Hlo ->]; [lia|]. clear H0. pose proof (round_octal t k ltac:(lia) ltac:(lia)) as Hr. cbv zeta in Hr.
  assert (H1024 : 1024 <= t / 8 ^ k).
  { rewrite pow8_pred by lia. rewrite <- Z.div_div by (try apply Z.pow_pos_nonneg; lia). apply Z.div_le_lower_bound; lia. }
  destruct (Z.land (t / 8 ^ (k - 1)) 4 =? 0); cbn [negb].
  - exists k, (t / 8 ^ k). rewrite Es, u16_id by lia. rewrite Z.add_0_r in Hr. split_and!; (done || lia).
  - destruct (Z.leb_spec 8192 (t / 8 ^ k + 1)).
    + assert (Eq : t / 8 ^ k = 8191) by lia. rewrite Eq in *. exists (k + 1), 1024. rewrite Es, u16_id; [|change (Z.shiftr (8191 + 1) 3) with 1024; lia].
      rewrite Z.pow_add_r by lia. change (8 ^ 1) with 8. change (8191 + 1) with 8192 in *. split_and!; (done || lia).
    + exists k, (t / 8 ^ k + 1). rewrite Es, u16_id by lia. split_and!; (done || lia).
Qed.

Lemma compress_accurate_witness : exists e m, compress 1000000 = Some (e * 8192 + m) /\ 2 * Z.abs (m * 8 ^ e - 1000000) <= 8 ^ e.
Proof. destruct (compress_accurate 1000000) as (e & m & H1 & _ & _ & H2 & _); [split; done|]. by exists e, m. Defined.
