(* ===== verification/Sys4.v ===== *)
(** Everything else that is a system call on the user's own state, on times
    and on the attributes of files: [sys/sys4.c] ([profil] sets members no
    modelled routine uses). *)
From S2P Require Import Prelude Malloc Clist Kernel Sched Dll Sd Bio Codec Usermem Subr Alloc Inode Rdwri Text Fio Namei Rtc.

Definition TIMEZONE : Z := 300.
Definition DSTFLAG : Z := 1.

(** [struct timeb], and the four times at [u.u_utime]. *)
Definition timeb_bytes (time millitm : Z) : list Z := be 4 time ++ be 2 millitm ++ be 2 TIMEZONE ++ be 2 DSTFLAG.
Definition times_bytes (x : user) : list Z := be 4 (u_utime x) ++ be 4 (u_stime x) ++ be 4 (u_cutime x) ++ be 4 (u_cstime x).

Section Sys4.
Context `{Layout} `{Cdevsw}.

Definition set_val1 (v : Z) : M unit := modify (upd_u (fun x => x <| u_r_val1 := v |>)).
Definition set_val2 (v : Z) : M unit := modify (upd_u (fun x => x <| u_r_val2 := v |>)).

(** ** Times *)

Definition gtime : M unit := t ← gets now; set_val1 t.

Definition ftime : M unit :=
  _ ← spl 7;
  t ← gets now;
  ms ← gets (fun s => u32 (lbolt (kc s)));
  _ ← spl0;
  let '(ms, t) := if HZ <? ms then (ms - HZ, i32 (t + 1)) else (ms, t) in
  tp ← gets (fun s => u32 (arg s 0));
  r ← copyout (timeb_bytes t (u16 (u32 (1000 * ms) / HZ))) tp 10;
  when (r <? 0) (seterror EFAULT).

Definition stime : M unit :=
  su ← suser;
  if su : bool then
    t ← gets (fun s => arg s 0);
    _ ← modify (fun s => s <| kc; time := t |>);
    _ ← set_clock t; mret tt
  else mret tt.

Definition times : M unit :=
  a ← gets (fun s => u32 (arg s 0));
  x ← gets u;
  r ← copyout (times_bytes x) a 16;
  when (r <? 0) (seterror EFAULT).

Definition alarm : M unit :=
  p ← gets curproc;
  c ← gets (fun s => p_clktim (proc_at s p));
  t ← gets (fun s => arg s 0);
  _ ← modify (upd_proc p (fun x => x <| p_clktim := t |>));
  set_val1 c.

(** [for(;;) sleep(&u, PSLEP);] *)
Definition pause : M unit :=
  me ← gets (fun s => uarrp (ku s));
  sleep_while (fun _ => true) id (ChU me) PSLEP.

(** ** Identity *)

Definition setuid : M unit :=
  uid ← gets (fun s => arg s 0);
  same ← gets (fun s => u_ruid (u s) =? uid);
  ok ← (if same : bool then mret true else suser);
  if ok : bool then
    _ ← modify (upd_u (fun x => x <| u_uid := i16 uid |>));
    p ← gets curproc;
    _ ← modify (upd_proc p (fun x => x <| p_uid := i16 uid |>));
    modify (upd_u (fun x => x <| u_ruid := i16 uid |>))
  else mret tt.

Definition getuid : M unit := x ← gets u; _ ← set_val1 (u_ruid x); set_val2 (u_uid x).

Definition setgid : M unit :=
  gid ← gets (fun s => arg s 0);
  same ← gets (fun s => u_rgid (u s) =? gid);
  ok ← (if same : bool then mret true else suser);
  if ok : bool then
    _ ← modify (upd_u (fun x => x <| u_gid := i16 gid |>));
    modify (upd_u (fun x => x <| u_rgid := i16 gid |>))
  else mret tt.

Definition getgid : M unit := x ← gets u; _ ← set_val1 (u_rgid x); set_val2 (u_gid x).

Definition getpid : M unit :=
  p ← gets (fun s => proc_at s (curproc s));
  _ ← set_val1 (p_pid p); set_val2 (p_ppid p).

Definition sync : M unit := update.

Definition nice : M unit :=
  n ← gets (fun s => arg s 0);
  n ← (if n <? 0 then su ← suser; mret (if su : bool then n else 0) else mret n);
  p ← gets curproc;
  n ← gets (fun s => i32 (n + p_nice (proc_at s p)));
  let n := if 2 * NZERO <=? n then 2 * NZERO - 1 else n in
  let n := if n <? 0 then 0 else n in
  modify (upd_proc p (fun x => x <| p_nice := i8 n |>)).

Definition umask : M unit :=
  t ← gets (fun s => u_cmask (u s));
  _ ← modify (fun s => upd_u (fun x => x <| u_cmask := i16 (Z.land (arg s 0) 511) |>) s);
  set_val1 t.

(** ** Signals *)

Definition ssig : M unit :=
  a ← gets (fun s => arg s 0);
  if (a <=? 0) || (NSIG <=? a) || (a =? SIGKIL) then seterror EINVAL
  else
    old ← gets (fun s => u_signal (u s) a);
    _ ← set_val1 old;
    _ ← modify (fun s => upd_u (fun x => x <| u_signal ::= <[a := arg s 1]> |>) s);
    _ ← modify (fun s => upd_u (fun x => x <| u_sigtramp := arg s 2 |>) s);
    p ← gets curproc;
    modify (upd_proc p (fun x => x <| p_sig ::= clear_sig a |>)).

(** [p] is one of the processes [kill] is about; [all] is [priv]. *)
Definition kill_target (a : Z) (all : bool) (p : nat) (s : kst) : bool :=
  let x := proc_at s p in
  let q := proc_at s (curproc s) in
  negb (p_stat x =? 0) &&
  ((a =? 0) || (p_pid x =? a)) &&
  negb ((a =? 0) && ((negb (p_pgrp x =? p_pgrp q) && negb all) || (p <=? 1)%nat)) &&
  ((u_uid (u s) =? 0) || (u_uid (u s) =? p_uid x)).

(** The loop over the process table; the result is [f]. *)
Fixpoint kill_loop (l : list nat) (a : Z) (all : bool) (f : Z) : M Z :=
  match l with
  | [] => mret f
  | p :: r =>
      t ← gets (kill_target a all p);
      if t : bool then
        sig ← gets (fun s => arg s 1);
        _ ← psignal p sig;
        kill_loop r a all (f + 1)
      else kill_loop r a all f
  end.

Definition kill : M unit :=
  a ← gets (fun s => arg s 0);
  all ← gets (fun s => (a =? -1) && (u_uid (u s) =? 0));
  f ← kill_loop (seq 0 NPROC) (if all : bool then 0 else a) all 0;
  when (f =? 0) (seterror ESRCH).

(** ** Files *)

(** From the entry's removal to [out:]. *)
Definition unlink_entry (pp ip : nat) : M unit :=
  _ ← modify (upd_u (fun x => x <| u_offset ::= fun o => i32 (o - DIRECT) |> <| u_base := KA KDent 0 |>
                                <| u_count := DIRECT |> <| u_dent ::= fput d_ino 0 |>));
  _ ← writei pp;
  _ ← modify (upd_inode ip (fun x => x <| i_nlink ::= fun n => i16 (n - 1) |>));
  modify (iset ip ICHG).

(** What is done with the file [ip] of the directory [pp]. *)
Definition unlink_file (pp ip : nat) : M unit :=
  x ← gets (fun s => inode_at s ip);
  ok ← (if Z.land (i_mode x) IFMT =? IFDIR then suser else mret true);
  if negb ok then mret tt
  else
    xdev ← gets (fun s => negb (i_dev (inode_at s ip) =? i_dev (inode_at s pp)));
    if xdev : bool then seterror EBUSY
    else
      t ← gets (ihas ip ITEXT);
      _ ← when t (xrele ip);
      busy ← gets (fun s => ihas ip ITEXT s && (i_nlink (inode_at s ip) =? 1));
      if busy : bool then seterror ETXTBSY else unlink_entry pp ip.

Definition unlink : M unit :=
  o ← namei uchar 2;
  match o with
  | None => mret tt
  | Some pp =>
      ino ← gets (fun s => fget d_ino (u_dent (u s)));
      y ← gets (fun s => inode_at s pp);
      o ← (if i_number y =? ino then
             _ ← modify (upd_inode pp (fun x => x <| i_count ::= fun n => i8 (n + 1) |>)); mret (Some pp)
           else iget (i_dev y) ino);
      _ ← match o with
          | None => mret tt
          | Some ip => _ ← unlink_file pp ip; iput ip
          end;
      iput pp
  end.

(** [ipp] is a member of the user structure: how to read it and set it. *)
Definition chdirec (get : user -> option nat) (set : nat -> user -> user) : M unit :=
  o ← namei uchar 0;
  match o with
  | None => mret tt
  | Some ip =>
      m ← gets (fun s => i_mode (inode_at s ip));
      if negb (Z.land m IFMT =? IFDIR) then _ ← seterror ENOTDIR; iput ip
      else
        no ← access ip IEXEC;
        if no : bool then iput ip
        else
          _ ← prele ip;
          old ← gets (fun s => get (u s));
          _ ← match old with None => mret tt | Some d => _ ← plock d; iput d end;
          modify (upd_u (set ip))
  end.

Definition chdir : M unit := chdirec (fun x => Some (u_cdir x)) (fun ip x => x <| u_cdir := ip |>).
Definition chroot : M unit :=
  su ← suser;
  if su : bool then chdirec u_rdir (fun ip x => x <| u_rdir := Some ip |>) else mret tt.

Definition chmod : M unit :=
  o ← owner;
  match o with
  | None => mret tt
  | Some ip =>
      _ ← modify (upd_inode ip (fun x => x <| i_mode ::= fun m => fclr m 4095 |>));
      _ ← modify (upd_u (fun x => if u_uid x =? 0 then x
                                  else x <| u_arg ::= fun l => <[1%nat := fclr (nth 1 l 0) ISVTX]> l |>));
      _ ← modify (fun s => upd_inode ip (fun x => x <| i_mode ::= fun m => Z.lor m (Z.land (arg s 1) 4095) |>) s);
      _ ← modify (iset ip ICHG);
      t ← gets (fun s => ihas ip ITEXT s && negb (fset (i_mode (inode_at s ip)) ISVTX));
      _ ← when t (xrele ip);
      iput ip
  end.

Definition chown : M unit :=
  su ← suser;
  o ← (if su : bool then owner else mret None);
  match o with
  | None => mret tt
  | Some ip =>
      _ ← modify (fun s => upd_inode ip (fun x => x <| i_uid := i16 (arg s 1) |> <| i_gid := i16 (arg s 2) |>) s);
      _ ← modify (iset ip ICHG);
      iput ip
  end.

(** [utime] with the inode [owner] returned. *)
Definition utime_of (ip : nat) : M unit :=
  a ← gets (fun s => u32 (arg s 1));
  o ← copyin a 8;
  match o with
  | None => seterror EFAULT
  | Some tv =>
      _ ← modify (iset ip (Z.lor IACC (Z.lor IUPD ICHG)));
      _ ← iupdat ip (fun _ => i32 (unbe (take 4 tv))) (fun _ => i32 (unbe (drop 4 tv)));
      iput ip
  end.

Definition utime : M unit :=
  o ← owner;
  match o with None => mret tt | Some ip => utime_of ip end.

End Sys4.
