(* ===== verification/Exec.v ===== *)
(** Executing a program: [exec], [exece], [getxfile] and [setregs] of
    [sys/sys1.c], with [estabur] of [sys/ureg.c].

    The arguments are collected from the old image into [exec_argbuf], the new
    image is read over the page, and the arguments are laid out again at the
    top of the page. *)
From S2P Require Import Prelude Malloc Clist Kernel Sched Dll Sd Bio Codec Usermem Subr Alloc Inode Rdwri Text Fio Namei.

Definition NCARGS : Z := 5120.
Definition EXCLOSE : Z := 1.
Definition AOUT_HDR_SIZE : Z := 32.
Definition AOUT_ZMAGIC : Z := 267.  (* 0413 *)
Definition AOUT_MID_SUN010 : Z := 1.
Definition USER_STACK_TOP : Z := 262140.  (* 0x0003fffc *)
Definition EXEC_STACK_SLOT_SIZE : Z := 4.
Definition EPOCH68_EXECARGS : Z := 262136.  (* 0x0003fff8 *)
Definition USER_CLICKS : Z := 4096.
Definition RO : Z := 2.
Definition RW : Z := 6.

(** ** The header of an executable file *)

Definition ux_mag : field := Fld 0 4 false.
Definition ux_tsize : field := Fld 4 4 false.
Definition ux_dsize : field := Fld 8 4 false.
Definition ux_bsize : field := Fld 12 4 false.
Definition ux_ssize : field := Fld 16 4 false.
Definition ux_entloc : field := Fld 20 4 false.
Definition ux_unused : field := Fld 24 4 false.
Definition ux_relflg : field := Fld 28 4 false.

Definition at_byte (l : list Z) (i : nat) : Z := nth i l 0.
Definition aout_get32 (p : list Z) : Z :=
  Z.lor (Z.lor (Z.lor (i32 (Z.shiftl (at_byte p 0) 24)) (Z.shiftl (at_byte p 1) 16)) (Z.shiftl (at_byte p 2) 8)) (at_byte p 3).
Definition aout_getmid (p : list Z) : Z := Z.land (Z.shiftr (aout_get32 p) 16) 1023.
Definition aout_getmagic (p : list Z) : Z := Z.land (aout_get32 p) 65535.

Definition exec_btoc32 (bytes : Z) : Z := Z.shiftr (u32 (bytes + 63)) 6.

(** The header as [getxfile] rewrites it in place. *)
Definition aout_decode (l : list Z) : list Z :=
  let l := fput ux_mag 264 l in  (* 0410 *)
  let l := fput ux_tsize (i32 (aout_get32 (drop 4 l) - AOUT_HDR_SIZE)) l in
  let l := fput ux_dsize (aout_get32 (drop 8 l)) l in
  let l := fput ux_bsize (aout_get32 (drop 12 l)) l in
  let l := fput ux_ssize 0 l in
  let l := fput ux_entloc (aout_get32 (drop 20 l)) l in
  let l := fput ux_unused 0 l in
  fput ux_relflg 1 l.

(** [max] of [sys/rdwri.c] *)
Definition max32 (a b : Z) : Z := if b <? a then a else b.

(** Text, data and stack of [nt], [nd] and [ns] clicks fit the window. *)
Definition estabur (nt nd ns sep xrw : Z) : M Z :=
  let image_end := max32 nt nd in
  if negb (sep =? 0) || (USER_CLICKS <? image_end) || (u32 (USER_CLICKS - image_end) <? ns)
  then _ ← seterror ENOMEM; mret (-1)
  else mret 0.

(** The [n]th argument of the system call, and [u.u_ar0[r] = v]. *)
Definition set_arg (n : nat) (v : Z) : M unit := modify (upd_u (fun x => x <| u_arg ::= <[n := v]> |>)).
Definition set_reg (r : regname) (v : Z) : M unit :=
  o ← gets (fun s => u_ar0 (u s));
  match o with
  | None => panic "null u_ar0"
  | Some f => modify (upd_u (fun x => x <| u_ar0 := Some (<[r := v]> f) |>))
  end.

Section Exec.
Context `{Layout} `{Cdevsw}.

(** ** The staging buffer *)

Definition exec_arg_acquire : M unit :=
  _ ← sleep_while (fun s => negb (exec_argbusy (kx s) =? 0)) (fun s => s <| kx; exec_argwant := 1 |>) ChExecArg PZERO;
  modify (fun s => s <| kx; exec_argbusy := 1 |>).

Definition exec_arg_release : M unit :=
  _ ← modify (fun s => s <| kx; exec_argbusy := 0 |>);
  w ← gets (fun s => exec_argwant (kx s));
  when (negb (w =? 0)) (_ ← modify (fun s => s <| kx; exec_argwant := 0 |>); wakeup ChExecArg).

Definition exec_fuint (addr : Z) : M Z :=
  o ← copyin addr 4;
  mret (match o with None => 2 ^ 32 - 1 | Some l => unbe l end).
Definition exec_suint (addr value : Z) : M Z :=
  r ← copyout (be 4 value) addr 4;
  mret (if r <? 0 then -1 else 0).

(** ** Collecting the arguments *)

(** The characters of one string; [None] is [goto bad]. *)
Fixpoint exec_chars (k : nat) (argp nc : Z) : M (option Z) :=
  match k with
  | O => nofuel
  | S k =>
      _ ← when (NCARGS - 1 <=? nc) (seterror E2BIG);
      c ← fubyte argp;
      _ ← when (c <? 0) (seterror EFAULT);
      er ← gets uerror;
      if negb (er =? 0) then mret None
      else
        _ ← modify (fun s => s <| kx; exec_argbuf ::= <[Z.to_nat nc := u8 c]> |>);
        if 0 <? c then exec_chars k (u32 (argp + 1)) (nc + 1) else mret (Some (nc + 1))
  end.

(** The next pointer of [argp], or of [envp] when [argp] has ended, with [ne];
    [None] at the end of both. *)
Definition exec_next (ne : Z) : M (option (Z * Z)) :=
  a ← gets (fun s => u32 (arg s 1));
  argp ← (if negb (a =? 0) then
            v ← exec_fuint a;
            _ ← set_arg 1 (u32 (a + 4));
            mret v
          else mret 0);
  p ← gets (fun s => u32 (arg s 2));
  if (argp =? 0) && negb (p =? 0) then
    _ ← set_arg 1 0;
    argp ← exec_fuint p;
    if argp =? 0 then mret None
    else _ ← set_arg 2 (u32 (p + 4)); mret (Some (argp, ne + 1))
  else mret (if argp =? 0 then None else Some (argp, ne)).

(** Every string takes a character of the buffer. *)
Definition ARGFUEL : nat := Z.to_nat 5122.

(** [for (;;)]: [na], [ne] and [nc], or [None] for [goto bad]. *)
Fixpoint exec_args (k : nat) (na ne nc : Z) : M (option (Z * Z * Z)) :=
  match k with
  | O => nofuel
  | S k =>
      o ← exec_next ne;
      match o with
      | None => mret (Some (na, ne, nc))
      | Some (argp, ne) =>
          _ ← when (argp =? 2 ^ 32 - 1) (seterror EFAULT);
          o ← exec_chars ARGFUEL argp nc;
          match o with
          | None => mret None
          | Some nc => exec_args k (na + 1) ne nc
          end
      end
  end.

(** ** Laying them out again *)

(** One string to [ucp]; the new [ucp] and [nc]. *)
Fixpoint exec_string (k : nat) (ucp nc : Z) : M (option (Z * Z)) :=
  match k with
  | O => nofuel
  | S k =>
      c ← gets (fun s => nth (Z.to_nat nc) (exec_argbuf (kx s)) 0);
      r ← subyte ucp c;
      _ ← when (r <? 0) (seterror EFAULT);
      er ← gets uerror;
      if negb (er =? 0) then mret None
      else if negb (Z.land c 255 =? 0) then exec_string k (u32 (ucp + 1)) (nc + 1)
      else mret (Some (u32 (ucp + 1), nc + 1))
  end.

(** [epoch68_exec_suint], with [EFAULT] and [goto bad] when it fails. *)
Definition exec_slot (addr value : Z) : M bool :=
  r ← exec_suint addr value;
  if r <? 0 then _ ← seterror EFAULT; mret false else mret true.

(** [for (;;)]: the final [ap] and [ucp]. *)
Fixpoint exec_argv (k : nat) (ap ucp na ne nc : Z) : M (option (Z * Z)) :=
  match k with
  | O => nofuel
  | S k =>
      let ap := u32 (ap + EXEC_STACK_SLOT_SIZE) in
      ok ← (if na =? ne then exec_slot ap 0 else mret true);
      if negb ok then mret None
      else
        let ap := if na =? ne then u32 (ap + EXEC_STACK_SLOT_SIZE) else ap in
        let na := na - 1 in
        if na <? 0 then mret (Some (ap, ucp))
        else
          ok ← exec_slot ap ucp;
          if negb ok then mret None
          else
            o ← exec_string ARGFUEL ucp nc;
            match o with
            | None => mret None
            | Some (ucp, nc) => exec_argv k ap ucp na ne nc
            end
  end.

(** The argument block; [true] unless it ends with [goto bad]. *)
Definition exec_block (na ne nc : Z) : M bool :=
  let ucp := u32 (USER_STACK_TOP - nc - EXEC_STACK_SLOT_SIZE) in
  let ap := u32 (ucp - na * EXEC_STACK_SLOT_SIZE - 3 * EXEC_STACK_SLOT_SIZE) in
  let argbase := u32 (ap + EXEC_STACK_SLOT_SIZE) in
  _ ← set_reg R6 (i32 ap);
  ok ← exec_slot ap (na - ne);
  if negb ok then mret false
  else
    o ← exec_argv ARGFUEL ap ucp na ne 0;
    match o with
    | None => mret false
    | Some (ap, ucp) =>
        ok ← exec_slot ap 0;
        if negb ok then mret false
        else
          ok ← exec_slot ucp 0;
          if negb ok then mret false else exec_slot EPOCH68_EXECARGS argbase
    end.

(** ** The new image *)

(** The header is asked for, at [u.u_exdata]. *)
Definition want_header (x : user) : user :=
  x <| u_base := KA KExdata 0 |> <| u_count := AOUT_HDR_SIZE |> <| u_offset := 0 |> <| u_segflg := 1 |>.

(** [getxfile] up to [ux_relflg = 1]: the header, decoded in [u_exdata];
    [false] is [goto bad]. *)
Definition getx_magic (ip : nat) : M bool :=
  _ ← modify (upd_u want_header);
  _ ← readi ip;
  _ ← modify (upd_u (fun x => x <| u_segflg := 0 |>));
  x ← gets u;
  if negb (u_error x =? 0) then mret false
  else if negb (u_count x =? 0) then _ ← seterror ENOEXEC; mret false
  else if negb (aout_getmid (u_exdata x) =? AOUT_MID_SUN010) || negb (aout_getmagic (u_exdata x) =? AOUT_ZMAGIC)
  then _ ← seterror ENOEXEC; mret false
  else _ ← modify (upd_u (fun x => x <| u_exdata ::= aout_decode |>)); mret true.

(** The clicks of text, image and stack, if they can be had. *)
Definition getx_sizes (ip : nat) (nargc : Z) : M (option (Z * Z * Z)) :=
  h ← gets (fun s => u_exdata (u s));
  let tsize := fget ux_tsize h in
  if i32 tsize <? 0 then _ ← seterror ENOEXEC; mret None
  else
    busy ← gets (fun s => negb (tsize =? 0) && negb (ihas ip ITEXT s) && negb (i_count (inode_at s ip) =? 1));
    if busy : bool then _ ← seterror ETXTBSY; mret None
    else
      let image1 := u32 (tsize + fget ux_dsize h) in
      let image2 := u32 (image1 + fget ux_bsize h) in
      if (image1 <? tsize) || (image2 <? image1) then _ ← seterror ENOMEM; mret None
      else
        let ts := exec_btoc32 tsize in
        let ds := exec_btoc32 image2 in
        let ss := u32 (SSIZE + exec_btoc32 (u32 nargc)) in
        r ← estabur ts ds ss 0 RO;
        mret (if negb (r =? 0) then None else Some (ts, ds, ss)).

Definition getx_header (ip : nat) (nargc : Z) : M (option (Z * Z * Z)) :=
  ok ← getx_magic ip;
  if negb ok then mret None else getx_sizes ip nargc.

(** [count] bytes at [off] of the file to address [base] of the image. *)
Definition getx_read (ip : nat) (base off count : Z) : M unit :=
  _ ← modify (upd_u (fun x => x <| u_base := UA base |> <| u_offset := i32 off |> <| u_count := count |>));
  readi ip.

(** [u.u_prof.pr_scale = 0] *)
Definition no_profile (x : user) : user := x <| u_prof ::= fun p => Prof (pr_base p) (pr_size p) (pr_off p) 0 |>.

(** The old image is given up and the new one read; [false] is [goto bad]. *)
Definition getx_load (ip : nat) (ts ds ss : Z) : M bool :=
  _ ← modify (upd_u no_profile);
  _ ← xfree;
  _ ← modify (fun s => upd_proc (curproc s) (fun x => x <| p_textp := None |>) s);
  _ ← expand (i32 (USIZE + ds + ss));
  _ ← for_each (rev (seqZ 0 ds)) clearseg;
  er ← gets uerror;
  if negb (er =? 0) then mret false
  else
    h ← gets (fun s => u_exdata (u s));
    let tsize := fget ux_tsize h in
    ok ← (if negb (tsize =? 0) then
            _ ← estabur ts 0 0 0 RW;
            _ ← modify (upd_u (fun x => x <| u_segflg := 2 |>));
            _ ← getx_read ip 0 AOUT_HDR_SIZE tsize;
            _ ← modify (upd_u (fun x => x <| u_segflg := 0 |>));
            er ← gets uerror; mret (er =? 0)
          else mret true);
    if negb ok then mret false
    else
      _ ← estabur 0 ds 0 0 RO;
      _ ← getx_read ip tsize (u32 (AOUT_HDR_SIZE + tsize)) (fget ux_dsize h);
      er ← gets uerror; mret (er =? 0).

(** [u.u_uid = ip->i_uid; u.u_procp->p_uid = ip->i_uid;], unless the user is
    the super user, and the group. *)
Definition set_ids (ip : nat) : M unit :=
  y ← gets (fun s => inode_at s ip);
  uid ← gets (fun s => u_uid (u s));
  _ ← when (fset (i_mode y) ISUID && negb (uid =? 0))
        (_ ← modify (upd_u (fun x => x <| u_uid := i_uid y |>));
         modify (fun s => upd_proc (curproc s) (fun x => x <| p_uid := i_uid y |>) s));
  when (fset (i_mode y) ISGID) (modify (upd_u (fun x => x <| u_gid := i_gid y |>))).

Definition image_sizes (ts ds ss : Z) (x : user) : user :=
  x <| u_tsize := ts |> <| u_dsize := ds |> <| u_ssize := ss |> <| u_sep := 0 |>.

Definition getxfile (ip : nat) (nargc : Z) : M unit :=
  o ← getx_header ip nargc;
  match o with
  | None => mret tt
  | Some (ts, ds, ss) =>
      ok ← getx_load ip ts ds ss;
      if negb ok then mret tt
      else
        tsize ← gets (fun s => fget ux_tsize (u_exdata (u s)));
        _ ← xmark tsize ip;
        p ← gets curproc;
        traced ← gets (fun s => fset (p_flag (proc_at s p)) STRC);
        _ ← (if traced : bool then psignal p SIGTRC else set_ids ip);
        _ ← modify (upd_u (image_sizes ts ds ss));
        _ ← estabur ts ds ss 0 RO;
        mret tt
  end.

(** [if (u.u_pofile[i]&EXCLOSE)] *)
Definition close_on_exec (i : Z) : M unit :=
  x ← gets u;
  when (fset (u_pofile x i) EXCLOSE)
    (_ ← closef (u_ofile x i);
     _ ← modify (upd_u (fun x => x <| u_ofile ::= <[i := None]> |>));
     modify (upd_u (fun x => x <| u_pofile ::= fun f => <[i := fclr (f i) EXCLOSE]> f |>))).

Definition setregs : M unit :=
  _ ← modify (upd_u (fun x => x <| u_signal ::= fun f n => if (0 <=? n) && (n <? NSIG) && negb (fset (f n) 1) then 0 else f n |>));
  _ ← for_each [R0; R1; R2; R3; R4; R5] (fun r => set_reg r 0);
  loc ← gets (fun s => fget ux_entloc (u_exdata (u s)));
  _ ← set_reg PC (i32 (fclr loc 1));
  _ ← modify (upd_u (fun x => x <| u_fps := replicate 13 0 |>));
  _ ← for_each (seqZ 0 NOFILE) close_on_exec;
  _ ← modify (upd_u (fun x => x <| u_acflag ::= fun f => fclr f AFORK |>));
  modify (upd_u (fun x => x <| u_comm := u_dbuf x |>)).

(** ** [exec] *)

(** From the collection of the arguments to [bad:]. *)
Definition exec_image (ip : nat) : M unit :=
  a ← gets (fun s => u32 (arg s 1));
  o ← (if negb (a =? 0) then exec_args ARGFUEL 0 0 0 else mret (Some (0, 0, 0)));
  match o with
  | None => mret tt
  | Some (na, ne, nc) =>
      let nc := Z.land (nc + EXEC_STACK_SLOT_SIZE - 1) (Z.lnot (EXEC_STACK_SLOT_SIZE - 1)) in
      _ ← getxfile ip nc;
      er ← gets uerror;
      if negb (er =? 0) then mret tt
      else ok ← exec_block na ne nc; when ok setregs
  end.

Definition exece : M unit :=
  o ← namei uchar 0;
  match o with
  | None => mret tt
  | Some ip =>
      no ← access ip IEXEC;
      m ← gets (fun s => i_mode (inode_at s ip));
      _ ← (if no : bool then mret tt
           else if negb (Z.land m IFMT =? IFREG) || (Z.land m (Z.lor IEXEC (Z.lor (Z.shiftr IEXEC 3) (Z.shiftr IEXEC 6))) =? 0)
           then seterror EACCES
           else _ ← exec_arg_acquire; _ ← exec_image ip; exec_arg_release);
      iput ip
  end.

Definition exec : M unit := _ ← set_arg 2 0; exece.

End Exec.
