(* ===== verification/Execargs.v ===== *)
(** The arguments of [exec]: what [exec_args] collects from the old image is
    what the new image finds on its stack. *)
From S2P Require Import Prelude Malloc Clist Kernel Sched Dll Sd Bio Codec Usermem Subr Alloc Inode Rdwri Text Fio Namei Exec.

(** * Strings and vectors in user memory *)

(** A string without its NUL. *)
Definition is_string (l : list Z) : Prop := Forall (fun c => 0 < c < 256) l.
Definition cstr (l : list Z) : list Z := l ++ [0].
Definition strings (ls : list (list Z)) : list Z := concat (cstr <$> ls).
Definition word_at (mem : Z -> Z) (a : Z) : Z := unbe (mem_read mem a 4).

(** [p] points at the string [l], inside the page. *)
Definition string_at (mem : Z -> Z) (p : Z) (l : list Z) : Prop :=
  0 < p /\ p + Z.of_nat (length l) < USER_PAGE_SIZE /\ mem_read mem p (S (length l)) = cstr l.

(** [a] points at a vector of pointers to the strings [ls], ended by a null
    pointer, as [argv] and [envp] are. *)
Fixpoint vector_at (mem : Z -> Z) (a : Z) (ls : list (list Z)) : Prop :=
  0 < a /\ a + 4 <= USER_PAGE_SIZE /\
  match ls with
  | [] => word_at mem a = 0
  | l :: r => string_at mem (word_at mem a) l /\ vector_at mem (a + 4) r
  end.

(** The memory of the current process. *)
Definition umem (s : kst) : Z -> Z := upmem (ku s) (user_page s).

(** ** Lemmas on memory *)

Lemma length_mem_read mem a n : length (mem_read mem a n) = n.
Proof. unfold mem_read. rewrite length_fmap, length_seqZ. lia. Qed.

Lemma mem_read_S mem a n : mem_read mem a (S n) = mem a :: mem_read mem (a + 1) n.
Proof.
  unfold mem_read. rewrite seqZ_cons by lia. replace (Z.pred (Z.of_nat (S n))) with (Z.of_nat n) by lia.
  by replace (Z.succ a) with (a + 1) by lia.
Qed.

Lemma mem_read_app mem a n m : mem_read mem a (n + m) = mem_read mem a n ++ mem_read mem (a + Z.of_nat n) m.
Proof. unfold mem_read. rewrite Nat2Z.inj_add, seqZ_app by lia. by rewrite fmap_app. Qed.

Lemma mem_read_ext mem mem' a n : (forall x, a <= x < a + Z.of_nat n -> mem x = mem' x) -> mem_read mem a n = mem_read mem' a n.
Proof.
  intros E. unfold mem_read. apply list_fmap_ext. intros i x Hi. apply lookup_seqZ in Hi as [-> Hi]. apply E. lia.
Qed.

Lemma mem_read_nth mem a n i : (i < n)%nat -> nth i (mem_read mem a n) 0 = mem (a + Z.of_nat i).
Proof.
  intros Hi. apply nth_lookup_Some. unfold mem_read. rewrite list_lookup_fmap, lookup_seqZ_lt by lia. done.
Qed.

Lemma mem_write_out l a mem x : x < a \/ a + Z.of_nat (length l) <= x -> mem_write l a mem x = mem x.
Proof. intros Hx. rewrite mem_write_lookup, decide_False by lia. done. Qed.

(** * Writing *)

(** [l] is written at [a] in the page, and nothing else happens. *)
Record wrote (l : list Z) (a : Z) (s s' : kst) : Prop := {
  wr_mem : forall x, umem s' x = mem_write l a (umem s) x;
  wr_pages : forall pg, pg <> user_page s -> upmem (ku s') pg = upmem (ku s) pg;
  wr_rest : s' <| ku; upmem := upmem (ku s) |> = s
}.

Lemma wrote_same l a s s' : wrote l a s s' -> u s' = u s /\ user_page s' = user_page s /\ kx s' = kx s.
Proof.
  intros [_ _ E]. split_and!.
  - transitivity (u (s' <| ku; upmem := upmem (ku s) |>)); [done|by rewrite E].
  - transitivity (user_page (s' <| ku; upmem := upmem (ku s) |>)); [done|by rewrite E].
  - transitivity (kx (s' <| ku; upmem := upmem (ku s) |>)); [done|by rewrite E].
Qed.

Lemma wrote_rest_trans (s1 s2 s3 : kst) : s2 <| ku; upmem := upmem (ku s1) |> = s1 -> s3 <| ku; upmem := upmem (ku s2) |> = s2 ->
  s3 <| ku; upmem := upmem (ku s1) |> = s1.
Proof.
  intros E1 E2. transitivity (s2 <| ku; upmem := upmem (ku s1) |>); [|done].
  transitivity (s3 <| ku; upmem := upmem (ku s2) |> <| ku; upmem := upmem (ku s1) |>); [by destruct s3 as [? []]|by rewrite E2].
Qed.

Lemma user_ptr_in s a n : 0 <= a -> 0 < n -> a + n <= USER_PAGE_SIZE -> user_ptr s a n = Some (user_page s, a).
Proof.
  intros Ha Hn Hle. unfold user_ptr, USER_PAGE_SIZE in *.
  rewrite (proj2 (user_range_iff a n ltac:(lia) ltac:(lia))) by (unfold USER_PAGE_SIZE; lia). by rewrite u32_id by lia.
Qed.

Definition put_mem (l : list Z) (a : Z) (s : kst) : kst :=
  s <| ku; upmem ::= fun m => <[user_page s := mem_write l a (m (user_page s))]> m |>.

Lemma put_mem_wrote l a s : wrote l a s (put_mem l a s).
Proof.
  split.
  - intros x. unfold umem. change (user_page (put_mem l a s)) with (user_page s). cbn. by rewrite fn_lookup_insert.
  - intros pg Hpg. cbn. by rewrite fn_lookup_insert_ne by congruence.
  - by destruct s as [? []].
Qed.

Lemma copyout_put l a e s : 0 <= a -> (0 < length l)%nat -> a + Z.of_nat (length l) <= USER_PAGE_SIZE ->
  copyout l a (Z.of_nat (length l)) e s = Ret 0 e (put_mem l a s).
Proof.
  intros Ha Hl Hle. unfold copyout. rewrite user_ptr_in by lia. unfold USER_PAGE_SIZE in Hle.
  by rewrite u32_id, Nat2Z.id, take_ge by lia.
Qed.

Lemma exec_slot_ok a v e s : 0 <= a -> a + 4 <= USER_PAGE_SIZE ->
  exists s', exec_slot a v e s = Ret true e s' /\ wrote (be 4 v) a s s'.
Proof.
  intros Ha Hle. exists (put_mem (be 4 v) a s). split; [|apply put_mem_wrote].
  unfold exec_slot, exec_suint. rewrite bind_assoc. rewrite (bind_ret _ _ _ _ _ _ _ (copyout_put (be 4 v) a e s Ha (Nat.lt_0_succ 3) Hle)). done.
Qed.

Lemma subyte_ok a c e s : 0 <= a < USER_PAGE_SIZE -> isbyte c -> exists s', subyte a c e s = Ret 0 e s' /\ wrote [c] a s s'.
Proof.
  intros Ha Hc. exists (put_mem [c] a s). split; [|apply put_mem_wrote]. unfold subyte. rewrite user_ptr_in by lia. by rewrite u8_id by exact Hc.
Qed.

Lemma mem_write_app l1 : forall l2 a mem, mem_write (l1 ++ l2) a mem = mem_write l2 (a + Z.of_nat (length l1)) (mem_write l1 a mem).
Proof.
  induction l1 as [|c l1 IH]; intros l2 a mem; cbn [app mem_write length]; [by rewrite Z.add_0_r|].
  rewrite IH. f_equal. lia.
Qed.

Lemma mem_write_ext l : forall a mem mem', (forall x, mem x = mem' x) -> forall x, mem_write l a mem x = mem_write l a mem' x.
Proof. intros a mem mem' E x. rewrite !mem_write_lookup. by destruct (decide _). Qed.

Lemma wrote_app l1 l2 a b s1 s2 s3 : wrote l1 a s1 s2 -> wrote l2 b s2 s3 -> b = a + Z.of_nat (length l1) -> wrote (l1 ++ l2) a s1 s3.
Proof.
  intros W1 W2 ->. pose proof (wrote_same _ _ _ _ W1) as (_ & Ep & _). destruct W1 as [M1 P1 R1], W2 as [M2 P2 R2]. split.
  - intros x. rewrite M2, mem_write_app. by apply mem_write_ext.
  - intros pg Hpg. rewrite P2 by congruence. by apply P1.
  - by apply wrote_rest_trans with s2.
Qed.

Lemma land_byte c : 0 <= c < 256 -> Z.land c 255 = c.
Proof. intros Hc. change 255 with (Z.ones 8). rewrite land_ones_mod by lia. by apply Z.mod_small. Qed.

Lemma exec_string_ok e : forall l k nc ucp s, is_string l -> (length l < k)%nat -> 0 <= nc -> u_error (u s) = 0 ->
  take (S (length l)) (drop (Z.to_nat nc) (exec_argbuf (kx s))) = cstr l -> 0 <= ucp -> ucp + Z.of_nat (length l) < USER_PAGE_SIZE ->
  exists s', exec_string k ucp nc e s = Ret (Some (ucp + Z.of_nat (length l) + 1, nc + Z.of_nat (length l) + 1)) e s' /\ wrote (cstr l) ucp s s'.
Proof.
  unfold USER_PAGE_SIZE. induction l as [|c l IH]; intros [|k] nc ucp s Hs Hk Hnc He Hb Hu Hle; cbn [length] in *; try lia; cbn [exec_string]; msteps.
  - assert (Ec : nth (Z.to_nat nc) (exec_argbuf (kx s)) 0 = 0).
    { destruct (drop (Z.to_nat nc) (exec_argbuf (kx s))) as [|x r] eqn:E; [done|]. cbn in Hb. injection Hb as Hx.
      rewrite <- (Nat.add_0_r (Z.to_nat nc)), <- nth_skipn. change (@skipn Z) with (@drop Z). rewrite E. done. }
    rewrite Ec. destruct (subyte_ok ucp 0 e s) as (s1 & Hr & W); [unfold USER_PAGE_SIZE; lia|done|].
    rewrite (bind_ret _ _ _ _ _ _ _ Hr). change (0 <? 0) with false. cbn [when]. msteps.
    destruct (wrote_same _ _ _ _ W) as (Eu & _). unfold uerror. rewrite Eu, He. cbn. exists s1. split; [|exact W].
    rewrite u32_id by lia. change (Z.land 0 255 =? 0) with true. rewrite !Z.add_0_r. done.
  - apply Forall_cons in Hs as [Hc Hs].
    assert (Ec : nth (Z.to_nat nc) (exec_argbuf (kx s)) 0 = c /\ take (S (length l)) (drop (Z.to_nat (nc + 1)) (exec_argbuf (kx s))) = cstr l).
    { replace (Z.to_nat (nc + 1)) with (Z.to_nat nc + 1)%nat by lia. rewrite <- drop_drop.
      destruct (drop (Z.to_nat nc) (exec_argbuf (kx s))) as [|x r] eqn:E; [done|]. cbn in Hb. injection Hb as Hx Hr. split; [|exact Hr].
      rewrite <- (Nat.add_0_r (Z.to_nat nc)), <- nth_skipn. change (@skipn Z) with (@drop Z). rewrite E. done. }
    destruct Ec as [-> Hb']. destruct (subyte_ok ucp c e s) as (s1 & Hr & W); [unfold USER_PAGE_SIZE; lia|unfold isbyte; lia|].
    rewrite (bind_ret _ _ _ _ _ _ _ Hr). change (0 <? 0) with false. cbn [when]. msteps.
    destruct (wrote_same _ _ _ _ W) as (Eu & _ & Ek). unfold uerror. rewrite Eu, He. change (negb (0 =? 0)) with false. cbv iota.
    rewrite land_byte by lia. rewrite (proj2 (Z.eqb_neq c 0)) by lia. cbn [negb]. rewrite u32_id by lia.
    destruct (IH k (nc + 1) (ucp + 1) s1 Hs) as (s2 & Hr2 & W2); try lia; [by rewrite Eu|by rewrite Ek|].
    exists s2. rewrite Hr2. split; [do 3 f_equal; lia|]. apply (wrote_app [c] (cstr l) ucp (ucp + 1) s s1); done.
Qed.

(** * The argument block *)

(** The words [ws] lie at [a] and the bytes [bs] at [b], above; nothing else
    has changed. *)
Record laid (a b : Z) (ws bs : list Z) (s s' : kst) : Prop := {
  la_words : mem_read (umem s') a (4 * length ws) = concat (be 4 <$> ws);
  la_bytes : mem_read (umem s') b (length bs) = bs;
  la_frame : forall x, x < a \/ a + 4 * Z.of_nat (length ws) <= x < b \/ b + Z.of_nat (length bs) <= x -> umem s' x = umem s x;
  la_pages : forall pg, pg <> user_page s -> upmem (ku s') pg = upmem (ku s) pg;
  la_rest : s' <| ku; upmem := upmem (ku s) |> = s
}.

Lemma laid_nil a b s : laid a b [] [] s s.
Proof. split; try done. by destruct s as [? []]. Qed.

Lemma laid_word a b v ws bs s s1 s2 : wrote (be 4 v) a s s1 -> laid (a + 4) b ws bs s1 s2 -> a + 4 + 4 * Z.of_nat (length ws) <= b ->
  laid a b (v :: ws) bs s s2.
Proof.
  intros W [L1 L2 L3 L4 L5] Hb. pose proof (wrote_same _ _ _ _ W) as (_ & Ep & _). destruct W as [M P R].
  pose proof (length_be 4 v) as Hl. split; cbn [length].
  - replace (4 * S (length ws))%nat with (4 + 4 * length ws)%nat by lia. rewrite mem_read_app. cbn [fmap list_fmap concat]. f_equal; [|exact L1].
    rewrite (mem_read_ext _ (mem_write (be 4 v) a (umem s))).
    + rewrite <- (length_be 4 v) at 2. apply mem_read_write.
    + intros x Hx. rewrite L3 by lia. apply M.
  - exact L2.
  - intros x Hx. rewrite L3 by lia. rewrite M. apply mem_write_out. lia.
  - intros pg Hpg. rewrite L4 by congruence. by apply P.
  - by apply wrote_rest_trans with s1.
Qed.

Lemma laid_bytes a b ws bs1 bs2 s s1 s2 : wrote bs1 b s s1 -> laid a (b + Z.of_nat (length bs1)) ws bs2 s1 s2 ->
  a + 4 * Z.of_nat (length ws) <= b -> laid a b ws (bs1 ++ bs2) s s2.
Proof.
  intros W [L1 L2 L3 L4 L5] Hb. pose proof (wrote_same _ _ _ _ W) as (_ & Ep & _). destruct W as [M P R]. split; rewrite ?length_app.
  - exact L1.
  - rewrite mem_read_app, L2. f_equal. rewrite (mem_read_ext _ (mem_write bs1 b (umem s))); [apply mem_read_write|].
    intros x Hx. rewrite L3 by lia. apply M.
  - intros x Hx. rewrite L3 by lia. rewrite M. apply mem_write_out. lia.
  - intros pg Hpg. rewrite L4 by congruence. by apply P.
  - by apply wrote_rest_trans with s1.
Qed.

(** The pointers of the block from a point on: a null pointer before the last
    [ne] of them. *)
Fixpoint slots (ne ucp : Z) (ls : list (list Z)) : list Z :=
  (if Z.of_nat (length ls) =? ne then [0] else []) ++
  match ls with [] => [] | l :: r => ucp :: slots ne (ucp + Z.of_nat (length l) + 1) r end.

Lemma strings_cons l ls : strings (l :: ls) = cstr l ++ strings ls.
Proof. done. Qed.
Lemma length_cstr l : length (cstr l) = S (length l).
Proof. unfold cstr. rewrite length_app. cbn. lia. Qed.

Lemma exec_argv_ok e ne : forall ls k ap ucp nc s, Forall is_string ls -> (length ls < k)%nat -> 0 <= nc -> u_error (u s) = 0 ->
  take (length (strings ls)) (drop (Z.to_nat nc) (exec_argbuf (kx s))) = strings ls -> Z.of_nat (length (strings ls)) <= NCARGS ->
  0 <= ap -> ap + 4 + 4 * Z.of_nat (length (slots ne ucp ls)) <= ucp -> ucp + Z.of_nat (length (strings ls)) <= USER_PAGE_SIZE ->
  exists s', exec_argv k ap ucp (Z.of_nat (length ls)) ne nc e s =
      Ret (Some (ap + 4 + 4 * Z.of_nat (length (slots ne ucp ls)), ucp + Z.of_nat (length (strings ls)))) e s' /\
    laid (ap + 4) ucp (slots ne ucp ls) (strings ls) s s'.
Proof.
  unfold USER_PAGE_SIZE, NCARGS. induction ls as [|l ls IH]; intros [|k] ap ucp nc s Hs Hk Hnc He Hb Hlen Ha Hgap Hle; try (cbn in Hk; lia);
    cbn [exec_argv]; cbv zeta.
  - cbn [length slots app strings fmap list_fmap concat] in *. change (Z.of_nat 0) with 0 in *. unfold EXEC_STACK_SLOT_SIZE. rewrite !Z.add_0_r.
    destruct (Z.eqb_spec 0 ne) as [<-|Hne]; cbn [length app] in *.
    + change (Z.of_nat 1) with 1 in *. rewrite (u32_id (ap + 4)) by lia. 
destruct (exec_slot_ok (ap + 4) 0 e s) as (s1 & Hr & W); [lia|unfold USER_PAGE_SIZE; lia|].
      rewrite (bind_ret _ _ _ _ _ _ _ Hr). cbn [negb]. change (0 - 1 <? 0) with true. cbv iota. rewrite u32_id by lia.
      exists s1. split; [done|]. eapply laid_word; [exact W|apply laid_nil|]. cbn. lia.
    + msteps. cbn [negb]. change (0 - 1 <? 0) with true. cbv iota. change (Z.of_nat 0) with 0 in *. rewrite u32_id by lia. rewrite !Z.add_0_r.
      exists s. split; [done|apply laid_nil].
  - apply Forall_cons in Hs as [Hl Hs]. rewrite strings_cons in *. rewrite length_app, length_cstr in *. cbn [length] in Hk.
    cbn [slots] in *. rewrite length_app in Hgap |- *. cbn [length] in Hgap |- *. set (rest := slots ne (ucp + Z.of_nat (length l) + 1) ls) in *.
    set (na := Z.of_nat (S (length ls))) in *. unfold EXEC_STACK_SLOT_SIZE.
    rewrite (u32_id (ap + 4)) by lia.
    set (z := if na =? ne then [0] else []) in *.
    assert (Hz : exists s1, (if na =? ne then exec_slot (ap + 4) 0 else mret true) e s = Ret true e s1 /\ u s1 = u s /\ kx s1 = kx s /\
      (if na =? ne then u32 (ap + 4 + 4) else ap + 4) = ap + 4 + 4 * Z.of_nat (length z) /\
      forall ws bs s2, laid (ap + 4 + 4 * Z.of_nat (length z)) ucp ws bs s1 s2 -> ap + 4 + 4 * Z.of_nat (length z) + 4 * Z.of_nat (length ws) <= ucp ->
        laid (ap + 4) ucp (z ++ ws) bs s s2).
    { unfold z in *. destruct (na =? ne).
      - cbn [length] in *. destruct (exec_slot_ok (ap + 4) 0 e s) as (s1 & Hr & W); [lia|unfold USER_PAGE_SIZE; lia|].
        destruct (wrote_same _ _ _ _ W) as (Eu & _ & Ek). exists s1. split_and!; try done; [rewrite u32_id by lia; lia|].
        intros ws bs s2 L Hb2. eapply laid_word; [exact W|exact L|]. lia.
      - exists s. split_and!; try done; [cbn; lia|]. intros ws bs s2 L _. cbn in L. rewrite Z.add_0_r in L. exact L. }
    destruct Hz as (s1 & Hr & Eu & Ek & -> & Hlaid). rewrite (bind_ret _ _ _ _ _ _ _ Hr). cbn [negb].
    rewrite (proj2 (Z.ltb_ge (na - 1) 0)) by lia. set (ap1 := ap + 4 + 4 * Z.of_nat (length z)) in *.
    destruct (exec_slot_ok ap1 ucp e s1) as (s2 & Hr2 & W2); [lia|unfold USER_PAGE_SIZE; lia|]. rewrite (bind_ret _ _ _ _ _ _ _ Hr2). cbn [negb].
    destruct (wrote_same _ _ _ _ W2) as (Eu2 & _ & Ek2).
    assert (Hb1 : take (S (length l)) (drop (Z.to_nat nc) (exec_argbuf (kx s))) = cstr l).
    { apply (f_equal (take (S (length l)))) in Hb. rewrite take_take in Hb. replace (Nat.min _ _) with (S (length l)) in Hb by lia.
      rewrite <- (length_cstr l) in Hb at 2. rewrite take_app_length in Hb. exact Hb. }
    destruct (exec_string_ok e l ARGFUEL nc ucp s2 Hl) as (s3 & Hr3 & W3); [unfold ARGFUEL; lia|done|congruence|by rewrite Ek2, Ek|lia|unfold USER_PAGE_SIZE; lia|].
    rewrite (bind_ret _ _ _ _ _ _ _ Hr3). cbv iota beta. destruct (wrote_same _ _ _ _ W3) as (Eu3 & _ & Ek3).
    replace (na - 1) with (Z.of_nat (length ls)) by lia.
    destruct (IH k ap1 (ucp + Z.of_nat (length l) + 1) (nc + Z.of_nat (length l) + 1) s3 Hs) as (s4 & Hr4 & L4); try lia; [congruence| |fold rest; lia|].
    + rewrite Ek3, Ek2, Ek. rewrite <- take_take_drop, Hb1 in Hb. apply app_inv_head in Hb.
      replace (Z.to_nat (nc + Z.of_nat (length l) + 1)) with (Z.to_nat nc + S (length l))%nat by lia. by rewrite <- drop_drop.
    + rewrite Hr4. exists s4. fold rest in L4 |- *. split; [do 3 f_equal; lia|].
      apply Hlaid; [|cbn [length]; lia]. eapply laid_word; [exact W2| |lia]. eapply laid_bytes; [exact W3| |lia].
      rewrite length_cstr. replace (ucp + Z.of_nat (S (length l))) with (ucp + Z.of_nat (length l) + 1) by lia. exact L4.
Qed.

(** ** The block as vectors of strings *)

Fixpoint ptrs (ucp : Z) (ls : list (list Z)) : list Z :=
  match ls with [] => [] | l :: r => ucp :: ptrs (ucp + Z.of_nat (length l) + 1) r end.

Lemma slots_after ne : forall ls ucp, Z.of_nat (length ls) < ne -> slots ne ucp ls = ptrs ucp ls.
Proof.
  induction ls as [|l ls IH]; intros ucp Hn; cbn [slots ptrs].
  - by rewrite (proj2 (Z.eqb_neq _ _)) by lia.
  - rewrite (proj2 (Z.eqb_neq _ _)) by lia. cbn [app]. f_equal. apply IH. cbn [length] in Hn. lia.
Qed.

Lemma slots_split envs : forall args ucp, slots (Z.of_nat (length envs)) ucp (args ++ envs) =
  ptrs ucp args ++ 0 :: ptrs (ucp + Z.of_nat (length (strings args))) envs.
Proof.
  induction args as [|l args IH]; intros ucp; cbn [app ptrs].
  - cbn [strings fmap list_fmap concat length]. change (Z.of_nat 0) with 0. rewrite Z.add_0_r.
    destruct envs as [|l envs]; [done|]. cbn [slots ptrs]. rewrite Z.eqb_refl. cbn [app]. do 2 f_equal. apply slots_after. cbn [length]. lia.
  - cbn [slots]. rewrite (proj2 (Z.eqb_neq _ _)) by (cbn [length]; rewrite length_app; lia). cbn [app]. f_equal. rewrite IH.
    do 3 f_equal. rewrite strings_cons, length_app, length_cstr. lia.
Qed.

Lemma length_ptrs : forall ls ucp, length (ptrs ucp ls) = length ls.
Proof. induction ls; intros; cbn; [done|]. f_equal. by auto. Qed.

Lemma word_at_be mem a v : mem_read mem a 4 = be 4 v -> 0 <= v < 2 ^ 32 -> word_at mem a = v.
Proof. intros E Hv. unfold word_at. rewrite E, unbe_be. by apply u32_id. Qed.

Lemma length_word_bytes ws : length (concat (be 4 <$> ws)) = (4 * length ws)%nat.
Proof. induction ws; cbn [fmap list_fmap concat length]; [done|]. rewrite length_app, length_be, IHws. lia. Qed.

(** A part of what is read. *)
Lemma mem_read_split mem a n m l1 l2 : length l1 = n -> mem_read mem a (n + m) = l1 ++ l2 ->
  mem_read mem a n = l1 /\ mem_read mem (a + Z.of_nat n) m = l2.
Proof. intros Hl. rewrite mem_read_app. intros E. apply app_inj_1 in E; [done|]. by rewrite length_mem_read. Qed.

Lemma vector_of_ptrs mem : forall ls a ucp, Forall is_string ls -> 0 < a -> 0 < ucp ->
  a + 4 * Z.of_nat (S (length ls)) <= USER_PAGE_SIZE -> ucp + Z.of_nat (length (strings ls)) <= USER_PAGE_SIZE ->
  mem_read mem a (4 * S (length ls)) = concat (be 4 <$> ptrs ucp ls ++ [0]) -> mem_read mem ucp (length (strings ls)) = strings ls ->
  vector_at mem a ls.
Proof.
  unfold USER_PAGE_SIZE. induction ls as [|l ls IH]; intros a ucp Hs Ha Hu Hla Hlu Hp Hb; cbn [vector_at]; unfold USER_PAGE_SIZE.
  - split_and!; [done|cbn in Hla; lia|]. by apply word_at_be.
  - apply Forall_cons in Hs as [Hl Hs]. rewrite strings_cons in *. rewrite length_app, length_cstr in *. cbn [length] in *.
    cbn [ptrs app fmap list_fmap concat] in Hp. replace (4 * S (S (length ls)))%nat with (4 + 4 * S (length ls))%nat in Hp by lia.
    apply (mem_read_split _ _ 4) in Hp as [Hp Hps]; [|done]. apply (mem_read_split _ _ (S (length l))) in Hb as [Hb Hbs]; [|apply length_cstr].
    split_and!; [done|lia| |].
    + rewrite (word_at_be _ _ ucp) by (done || lia). unfold string_at, USER_PAGE_SIZE. split_and!; [done|lia|done].
    + apply (IH _ (ucp + Z.of_nat (length l) + 1)); try lia; [done|exact Hps|].
      replace (ucp + Z.of_nat (length l) + 1) with (ucp + Z.of_nat (S (length l))) by lia. exact Hbs.
Qed.

(** What [exec_block] makes at [ap], from [s], of the arguments [args] and the
    environment [envs]. *)
Record block_made (args envs : list (list Z)) (ap : Z) (r : regname -> Z) (s s' : kst) : Prop := {
  bm_argc : word_at (umem s') ap = Z.of_nat (length args);
  bm_argv : vector_at (umem s') (ap + 4) args;
  bm_envp : vector_at (umem s') (ap + 4 + 4 * Z.of_nat (S (length args))) envs;
  bm_execargs : word_at (umem s') EPOCH68_EXECARGS = ap + 4;
  bm_below : forall x, x < ap -> umem s' x = umem s x;
  bm_pages : forall pg, pg <> user_page s -> upmem (ku s') pg = upmem (ku s) pg;
  bm_rest : s' <| ku; upmem := upmem (ku s) |> = upd_u (fun x => x <| u_ar0 := Some (<[R6 := ap]> r) |>) s
}.

(** The number of characters, rounded up to a word. *)
Definition round4 (n : Z) : Z := Z.land (n + EXEC_STACK_SLOT_SIZE - 1) (Z.lnot (EXEC_STACK_SLOT_SIZE - 1)).
Lemma round4_bounds n : n <= round4 n < n + 4.
Proof.
  unfold round4, EXEC_STACK_SLOT_SIZE. change (4 - 1) with (Z.ones 2). rewrite land_lnot_ones by lia. change (2 ^ 2) with 4.
  Z.div_mod_to_equations. lia.
Qed.

(** Where the block begins. *)
Definition block_start (na nc : Z) : Z := USER_STACK_TOP - 16 - nc - 4 * na.

(** A word after the others, and writes above them. *)
Lemma laid_snoc a b v ws bs s s1 s2 : laid a b ws bs s s1 -> wrote (be 4 v) (a + 4 * Z.of_nat (length ws)) s1 s2 ->
  a + 4 * Z.of_nat (length ws) + 4 <= b -> laid a b (ws ++ [v]) bs s s2.
Proof.
  intros [L1 L2 L3 L4 L5] W Hb. assert (Ep : user_page s1 = user_page s) by (transitivity (user_page (s1 <| ku; upmem := upmem (ku s) |>)); [done|by rewrite L5]).
  pose proof (length_be 4 v) as Hl. destruct W as [M P R]. split; rewrite ?length_app; cbn [length].
  - replace (4 * (length ws + 1))%nat with (4 * length ws + 4)%nat by lia. rewrite mem_read_app, fmap_app, concat_app. cbn [fmap list_fmap concat].
    rewrite app_nil_r. f_equal.
    + rewrite <- L1. apply mem_read_ext. intros x Hx. rewrite M. apply mem_write_out. lia.
    + replace (a + Z.of_nat (4 * length ws)) with (a + 4 * Z.of_nat (length ws)) by lia.
      rewrite (mem_read_ext _ _ _ _ (fun x _ => M x)). rewrite <- (length_be 4 v) at 2. apply mem_read_write.
  - rewrite <- L2 at 2. apply mem_read_ext. intros x Hx. rewrite M. apply mem_write_out. lia.
  - intros x Hx. rewrite M, mem_write_out by lia. apply L3. lia.
  - intros pg Hpg. rewrite P by congruence. by apply L4.
  - by apply wrote_rest_trans with s1.
Qed.

Lemma strings_app l1 l2 : strings (l1 ++ l2) = strings l1 ++ strings l2.
Proof. unfold strings. by rewrite fmap_app, concat_app. Qed.

Lemma length_strings_ge ls : Z.of_nat (length ls) <= Z.of_nat (length (strings ls)).
Proof. induction ls as [|l ls IH]; [done|]. rewrite strings_cons, length_app, length_cstr. cbn [length]. lia. Qed.

(** The vectors, once the words and the strings are in place. *)
Lemma block_vectors mem ap ucp args envs : Forall is_string (args ++ envs) -> 0 < ap ->
  ap + 4 * (Z.of_nat (length (args ++ envs)) + 3) <= ucp -> ucp + Z.of_nat (length (strings (args ++ envs))) <= USER_PAGE_SIZE ->
  let ws := Z.of_nat (length args) :: slots (Z.of_nat (length envs)) ucp (args ++ envs) ++ [0] in
  mem_read mem ap (4 * length ws) = concat (be 4 <$> ws) -> mem_read mem ucp (length (strings (args ++ envs))) = strings (args ++ envs) ->
  word_at mem ap = Z.of_nat (length args) /\ vector_at mem (ap + 4) args /\ vector_at mem (ap + 4 + 4 * Z.of_nat (S (length args))) envs.
Proof.
  intros Hs Hap Hgap Hle ws Hw Hb. unfold USER_PAGE_SIZE in *. apply Forall_app in Hs as [Hsa Hse].
  pose proof (length_strings_ge args) as G1. rewrite strings_app in *. rewrite length_app in Hgap, Hle, Hb.
  assert (Ews : ws = [Z.of_nat (length args)] ++ (ptrs ucp args ++ [0]) ++ (ptrs (ucp + Z.of_nat (length (strings args))) envs ++ [0])).
  { unfold ws. rewrite slots_split. cbn [app]. by rewrite <- !app_assoc. }
  rewrite Ews, !fmap_app, !concat_app, !length_app, !length_ptrs in Hw. cbn [length] in Hw.
  replace (4 * _)%nat with (4 + (4 * S (length args) + 4 * S (length envs)))%nat in Hw by lia.
  apply (mem_read_split _ _ 4) in Hw as [Hw0 Hw]; [|done].
  apply (mem_read_split _ _ (4 * S (length args))) in Hw as [Hw1 Hw2];
    [|rewrite length_app, length_word_bytes, length_ptrs; cbn; lia].
  apply (mem_read_split _ _ (length (strings args))) in Hb as [Hb1 Hb2]; [|done]. split_and!.
  - apply word_at_be; [exact Hw0|lia].
  - apply (vector_of_ptrs _ _ _ ucp); unfold USER_PAGE_SIZE; try lia; [done|by rewrite fmap_app, concat_app|done].
  - replace (4 * Z.of_nat (S (length args))) with (Z.of_nat (4 * S (length args))) by lia.
    apply (vector_of_ptrs _ _ _ (ucp + Z.of_nat (length (strings args)))); unfold USER_PAGE_SIZE; try lia; [done|by rewrite fmap_app, concat_app|done].
Qed.

Lemma exec_block_ok args envs e s r : let ls := args ++ envs in let nc := Z.of_nat (length (strings ls)) in let na := Z.of_nat (length ls) in
  Forall is_string ls -> nc <= NCARGS -> u_error (u s) = 0 -> u_ar0 (u s) = Some r ->
  take (length (strings ls)) (exec_argbuf (kx s)) = strings ls ->
  exists s', exec_block na (Z.of_nat (length envs)) (round4 nc) e s = Ret true e s' /\
    block_made args envs (block_start na (round4 nc)) r s s'.
Proof.
  intros ls nc na Hs Hnc He Hr Hb. pose proof (round4_bounds nc) as Hrd. unfold NCARGS in Hnc. assert (Hnc0 : 0 <= nc) by lia.
  pose proof (length_strings_ge ls) as Hna. fold na nc in Hna.
  unfold exec_block, EXEC_STACK_SLOT_SIZE, USER_STACK_TOP. set (c := round4 nc) in *. rewrite (u32_id (262140 - c - 4)) by lia.
  set (ucp := 262140 - c - 4). rewrite (u32_id (ucp - na * 4 - 3 * 4)) by lia.
  assert (Eap : ucp - na * 4 - 3 * 4 = block_start na c) by (unfold block_start, USER_STACK_TOP; lia). rewrite Eap. set (ap := block_start na c) in *.
  cbv zeta. unfold set_reg. msteps. rewrite Hr. rewrite i32_id by lia. msteps. set (s0 := upd_u _ s).
  assert (E0 : u_error (u s0) = 0 /\ user_page s0 = user_page s /\ kx s0 = kx s /\ umem s0 = umem s /\ ku s0 <| uarea := uarea (ku s) |> = ku s).
  { unfold s0, umem, user_page, curproc. rewrite u_upd_u. cbn. split_and!; try done. by destruct s as [? []]. }
  destruct E0 as (He0 & Ep0 & Ek0 & Em0 & Eku0).
  destruct (exec_slot_ok ap (na - Z.of_nat (length envs)) e s0) as (s1 & Hr1 & W1); [lia|unfold USER_PAGE_SIZE; lia|].
  rewrite (bind_ret _ _ _ _ _ _ _ Hr1). cbn [negb]. destruct (wrote_same _ _ _ _ W1) as (Eu1 & Ep1 & Ek1).
  assert (Hsl : Z.of_nat (length (slots (Z.of_nat (length envs)) ucp ls)) = na + 1).
  { unfold ls, na. rewrite slots_split, length_app. cbn [length]. rewrite !length_ptrs. unfold ls. rewrite length_app. lia. }
  destruct (exec_argv_ok e (Z.of_nat (length envs)) ls ARGFUEL ap ucp 0 s1 Hs) as (s2 & Hr2 & L2); try (unfold ARGFUEL, NCARGS, USER_PAGE_SIZE; lia);
    [congruence|rewrite Ek1, Ek0; exact Hb|]. rewrite (bind_ret _ _ _ _ _ _ _ Hr2), Hsl. cbv iota beta. fold nc.
  destruct (exec_slot_ok (ap + 4 + 4 * (na + 1)) 0 e s2) as (s3 & Hr3 & W3); [lia|unfold USER_PAGE_SIZE; lia|].
  destruct (exec_slot_ok (ucp + nc) 0 e s3) as (s4 & Hr4 & W4); [lia|unfold USER_PAGE_SIZE; lia|].
  destruct (exec_slot_ok EPOCH68_EXECARGS (u32 (ap + 4)) e s4) as (s5 & Hr5 & W5); [done|done|]. exists s5.
  rewrite (bind_ret _ _ _ _ _ _ _ Hr3). cbn [negb]. rewrite (bind_ret _ _ _ _ _ _ _ Hr4). cbn [negb]. split; [exact Hr5|].
  rewrite u32_id in W5 by lia.
  assert (L : laid ap ucp (na - Z.of_nat (length envs) :: slots (Z.of_nat (length envs)) ucp ls ++ [0]) (strings ls) s0 s3).
  { eapply laid_word; [exact W1| |rewrite length_app; cbn [length]; lia]. eapply laid_snoc; [exact L2| |lia]. by rewrite Hsl. }
  replace (na - Z.of_nat (length envs)) with (Z.of_nat (length args)) in L by (unfold na, ls; rewrite length_app; lia).
  pose proof (wrote_same _ _ _ _ W4) as (_ & Ep4 & _).
  assert (Hm5 : forall x, x < ucp + nc -> umem s5 x = umem s3 x).
  { intros x Hx. rewrite (wr_mem _ _ _ _ W5). change EPOCH68_EXECARGS with 262136. rewrite mem_write_out by lia.
    rewrite (wr_mem _ _ _ _ W4). apply mem_write_out. lia. }
  destruct L as [L1 L2' L3 L4 L5].
  assert (Ep3 : user_page s3 = user_page s0) by (transitivity (user_page (s3 <| ku; upmem := upmem (ku s0) |>)); [done|by rewrite L5]).
  assert (Hlen : 4 * Z.of_nat (length (slots (Z.of_nat (length envs)) ucp ls ++ [0])) = 4 * (na + 2)) by (rewrite length_app; cbn [length]; lia).
  destruct (block_vectors (umem s5) ap ucp args envs Hs) as (V1 & V2 & V3); fold ls; unfold USER_PAGE_SIZE; try lia.
  { rewrite <- L1. apply mem_read_ext. intros x Hx. apply Hm5. cbn [length] in Hx. lia. }
  { rewrite <- L2' at 2. apply mem_read_ext. intros x Hx. apply Hm5. lia. }
  split; try assumption.
  - apply word_at_be; [|lia]. rewrite (mem_read_ext _ _ _ _ (fun x _ => wr_mem _ _ _ _ W5 x)). rewrite <- (length_be 4 (ap + 4)) at 2. apply mem_read_write.
  - intros x Hx. rewrite Hm5, L3 by lia. by rewrite Em0.
  - intros pg Hpg. rewrite (wr_pages _ _ _ _ W5) by congruence. rewrite (wr_pages _ _ _ _ W4) by congruence. rewrite L4 by congruence. done.
  - pose proof (wrote_rest_trans _ _ _ (wr_rest _ _ _ _ W4) (wr_rest _ _ _ _ W5)) as R. exact (wrote_rest_trans _ _ _ L5 R).
Qed.

(** * Collecting *)

(** The characters [l] have been put into the staging buffer at [n], and the
    pointers of the call have moved; nothing else has changed. *)
Record gathered (n : Z) (l : list Z) (s s' : kst) : Prop := {
  ga_buf : take (Z.to_nat n + length l) (exec_argbuf (kx s')) = take (Z.to_nat n) (exec_argbuf (kx s)) ++ l;
  ga_len : length (exec_argbuf (kx s')) = length (exec_argbuf (kx s));
  ga_mem : umem s' = umem s;
  ga_user : u s' <| u_arg := u_arg (u s) |> = u s;
  ga_args : length (u_arg (u s')) = length (u_arg (u s));
  ga_rest : kb s' = kb s /\ kf s' = kf s /\ kp s' = kp s /\ kc s' = kc s /\ kt s' = kt s /\ upmem (ku s') = upmem (ku s)
}.

Lemma user_args_id (x y : user) : y = x -> y <| u_arg := u_arg x |> = x.
Proof. intros ->. by destruct x. Qed.

Lemma gathered_nil n s : gathered n [] s s.
Proof. split; try done; [by rewrite Nat.add_0_r, app_nil_r|by apply user_args_id]. Qed.

Lemma gathered_error n l s s' : gathered n l s s' -> u_error (u s') = u_error (u s).
Proof. intros G. rewrite <- (ga_user _ _ _ _ G). done. Qed.

Lemma gathered_app n l1 l2 s1 s2 s3 : 0 <= n -> gathered n l1 s1 s2 -> gathered (n + Z.of_nat (length l1)) l2 s2 s3 -> gathered n (l1 ++ l2) s1 s3.
Proof.
  intros Hn [B1 L1 M1 U1 A1 R1] [B2 L2 M2 U2 A2 R2]. split; try congruence.
  - rewrite length_app. replace (Z.to_nat (n + Z.of_nat (length l1))) with (Z.to_nat n + length l1)%nat in B2 by lia.
    rewrite Nat.add_assoc, B2, B1. by rewrite app_assoc.
  - rewrite <- U1. rewrite <- U2. by destruct (u s3).
  - destruct R1 as (?&?&?&?&?&?), R2 as (?&?&?&?&?&?). split_and!; congruence.
Qed.

Lemma fubyte_ok p e s : 0 <= p < USER_PAGE_SIZE -> fubyte p e s = Ret (umem s p) e s.
Proof. intros Hp. unfold fubyte. rewrite user_ptr_in by lia. done. Qed.

Lemma exec_fuint_ok a e s : 0 <= a -> a + 4 <= USER_PAGE_SIZE -> exec_fuint a e s = Ret (word_at (umem s) a) e s.
Proof.
  intros Ha Hle. assert (Hr : copyin a 4 e s = Ret (Some (mem_read (umem s) a 4)) e s) by (unfold copyin; by rewrite user_ptr_in by lia).
  unfold exec_fuint. by rewrite (bind_ret _ _ _ _ _ _ _ Hr).
Qed.

(** One character put into the buffer. *)
Definition put_char (nc c : Z) (s : kst) : kst := s <| kx; exec_argbuf ::= <[Z.to_nat nc := u8 c]> |>.
Lemma put_char_gathered nc c s : 0 <= nc -> (Z.to_nat nc < length (exec_argbuf (kx s)))%nat -> isbyte c -> gathered nc [c] s (put_char nc c s).
Proof.
  intros Hnc Hl Hc. unfold put_char. rewrite u8_id by exact Hc. split; try done; cbn.
  - rewrite Nat.add_1_r. erewrite take_S_r; [|by apply list_lookup_insert_eq]. by rewrite take_insert_ge by lia.
  - by rewrite length_insert.
  - by apply user_args_id.
Qed.

Lemma exec_chars_ok e : forall l k p nc s, is_string l -> (length l < k)%nat -> string_at (umem s) p l -> u_error (u s) = 0 ->
  0 <= nc -> nc + Z.of_nat (length l) + 1 < NCARGS -> length (exec_argbuf (kx s)) = Z.to_nat NCARGS ->
  exists s', exec_chars k p nc e s = Ret (Some (nc + Z.of_nat (length l) + 1)) e s' /\ gathered nc (cstr l) s s' /\ u s' = u s.
Proof.
  unfold NCARGS. induction l as [|c l IH]; intros [|k] p nc s Hs Hk (Hp0 & Hp & Hst) He Hnc Hle Hlen; cbn [length] in *; try lia;
    cbn [exec_chars]; unfold USER_PAGE_SIZE in Hp; unfold NCARGS.
  - rewrite (proj2 (Z.leb_gt _ _)) by lia. cbn [when]. msteps. rewrite (bind_ret _ _ _ _ _ _ _ (fubyte_ok p e s ltac:(unfold USER_PAGE_SIZE; lia))).
    rewrite mem_read_S in Hst. injection Hst as Hc. rewrite Hc. change (0 <? 0) with false. cbn [when]. msteps. unfold uerror. rewrite He.
    change (negb (0 =? 0)) with false. cbv iota. msteps. fold (put_char nc 0 s). exists (put_char nc 0 s). change (Z.of_nat 0) with 0. rewrite Z.add_0_r.
    split; [done|]. split; [apply put_char_gathered; (done || lia)|done].
  - apply Forall_cons in Hs as [Hc Hs]. rewrite (proj2 (Z.leb_gt _ _)) by lia. cbn [when]. msteps.
    rewrite (bind_ret _ _ _ _ _ _ _ (fubyte_ok p e s ltac:(unfold USER_PAGE_SIZE; lia))).
    rewrite mem_read_S in Hst. injection Hst as Hc' Hst. rewrite Hc'. rewrite (proj2 (Z.ltb_ge c 0)) by lia. cbn [when]. msteps. unfold uerror. rewrite He.
    change (negb (0 =? 0)) with false. cbv iota. msteps. fold (put_char nc c s). rewrite (proj2 (Z.ltb_lt 0 c)) by lia. rewrite u32_id by lia.
    assert (G : gathered nc [c] s (put_char nc c s)) by (apply put_char_gathered; unfold isbyte; lia).
    destruct (IH k (p + 1) (nc + 1) (put_char nc c s) Hs) as (s' & Hr & G' & Eu); try lia; [|done|by rewrite (ga_len _ _ _ _ G)|].
    + split_and!; [lia|unfold USER_PAGE_SIZE; lia|]. by rewrite (ga_mem _ _ _ _ G).
    + exists s'. rewrite Hr. split; [do 3 f_equal; lia|]. split; [|by rewrite Eu]. by apply (gathered_app nc [c] (cstr l) s (put_char nc c s)).
Qed.

(** The vector [argp] or [envp] points at; a null pointer is an empty one. *)
Definition vector_or_null (mem : Z -> Z) (a : Z) (ls : list (list Z)) : Prop := a = 0 /\ ls = [] \/ vector_at mem a ls.

Lemma vector_range mem a ls : vector_at mem a ls -> 0 < a /\ a + 4 <= USER_PAGE_SIZE.
Proof. destruct ls; cbn; tauto. Qed.

(** The arguments as they stand: pointers [a] and [b]. *)
Definition args_are (s : kst) (a b : Z) : Prop := arg s 1 = a /\ arg s 2 = b /\ (3 <= length (u_arg (u s)))%nat.

Definition put_arg (n : nat) (v : Z) (s : kst) : kst := upd_u (fun x => x <| u_arg ::= <[n := v]> |>) s.
Lemma bind_set_arg {B} n v (k : unit -> M B) e s : (set_arg n v ≫= k) e s = k tt e (put_arg n v s).
Proof. done. Qed.

Lemma put_arg_gathered nc n v s : gathered nc [] s (put_arg n v s).
Proof.
  unfold put_arg. split; rewrite ?u_upd_u; cbn; try done.
  - by rewrite Nat.add_0_r, app_nil_r.
  - unfold umem, user_page, curproc. by rewrite u_upd_u.
  - by destruct (u s).
  - by rewrite length_insert.
Qed.

Lemma gathered_pre nc l s1 s2 s3 : 0 <= nc -> gathered nc [] s1 s2 -> gathered nc l s2 s3 -> gathered nc l s1 s3.
Proof. intros Hn G1 G2. apply (gathered_app nc [] l s1 s2 s3); [done|done|]. change (Z.of_nat (length [])) with 0. by rewrite Z.add_0_r. Qed.

Lemma args_put1 v s a b : args_are s a b -> args_are (put_arg 1 v s) v b.
Proof.
  unfold args_are, arg, put_arg. rewrite u_upd_u. cbn. rewrite length_insert. intros (_ & Eb & Hl). split_and!; [|by rewrite nth_lookup, list_lookup_insert_ne, <- nth_lookup by done|done].
  apply nth_lookup_Some, list_lookup_insert_eq. lia.
Qed.
Lemma args_put2 v s a b : args_are s a b -> args_are (put_arg 2 v s) a v.
Proof.
  unfold args_are, arg, put_arg. rewrite u_upd_u. cbn. rewrite length_insert. intros (Ea & _ & Hl). split_and!; [by rewrite nth_lookup, list_lookup_insert_ne, <- nth_lookup by done| |done].
  apply nth_lookup_Some, list_lookup_insert_eq. lia.
Qed.

Lemma vector_or_null_range mem a ls : vector_or_null mem a ls -> 0 <= a < 2 ^ 32.
Proof. intros [[-> _]|Hv]; [done|]. apply vector_range in Hv. unfold USER_PAGE_SIZE in Hv. lia. Qed.

Lemma exec_next_arg nc ne a b l r e s : args_are s a b -> vector_at (umem s) a (l :: r) ->
  exists s', exec_next ne e s = Ret (Some (word_at (umem s) a, ne)) e s' /\ gathered nc [] s s' /\ args_are s' (a + 4) b.
Proof.
  intros Har (Ha & Hle & (Hp & _) & _). unfold USER_PAGE_SIZE in Hle. unfold exec_next. msteps. pose proof Har as (-> & Eb & _).
  rewrite u32_id by lia. rewrite (proj2 (Z.eqb_neq a 0)) by lia. cbn [negb]. msteps.
  rewrite (bind_ret _ _ _ _ _ _ _ (exec_fuint_ok a e s ltac:(lia) ltac:(done))). rewrite bind_assoc, bind_set_arg. msteps.
  rewrite (u32_id (a + 4)) by lia. exists (put_arg 1 (a + 4) s).
  rewrite (proj2 (Z.eqb_neq (word_at (umem s) a) 0)) by lia. cbn [andb]. split; [done|]. split; [apply put_arg_gathered|by apply args_put1 with a].
Qed.

(** The end of [argp]: one word read, or none. *)
Definition argp_end (a : Z) : M Z :=
  if negb (a =? 0) then v ← exec_fuint a; _ ← set_arg 1 (u32 (a + 4)); mret v else mret 0.

Lemma argp_end_ok nc a b e s : args_are s a b -> vector_or_null (umem s) a [] ->
  exists s1 a', argp_end a e s = Ret 0 e s1 /\ gathered nc [] s s1 /\ args_are s1 a' b.
Proof.
  intros Har [[-> _]|(Ha & Hle & Hw)]; unfold argp_end.
  - exists s, 0. split; [done|]. split; [apply gathered_nil|done].
  - unfold USER_PAGE_SIZE in Hle. rewrite (proj2 (Z.eqb_neq a 0)) by lia. cbn [negb].
    rewrite (bind_ret _ _ _ _ _ _ _ (exec_fuint_ok a e s ltac:(lia) ltac:(done))). rewrite bind_set_arg, Hw, (u32_id (a + 4)) by lia.
    exists (put_arg 1 (a + 4) s), (a + 4). split; [done|]. split; [apply put_arg_gathered|by apply args_put1 with a].
Qed.

Lemma exec_next_env nc ne a b l r e s : 0 <= nc -> args_are s a b -> vector_or_null (umem s) a [] -> vector_at (umem s) b (l :: r) ->
  exists s', exec_next ne e s = Ret (Some (word_at (umem s) b, ne + 1)) e s' /\ gathered nc [] s s' /\ args_are s' 0 (b + 4).
Proof.
  intros Hnc Har Hva (Hb & Hle & (Hp & _) & _). pose proof (vector_or_null_range _ _ _ Hva) as Hra. unfold USER_PAGE_SIZE in Hle.
  destruct (argp_end_ok nc a b e s Har Hva) as (s1 & a' & Hr & G & Har1). unfold exec_next. msteps. pose proof Har as (-> & _).
  rewrite u32_id by lia. fold (argp_end a). rewrite (bind_ret _ _ _ _ _ _ _ Hr). msteps. pose proof Har1 as (_ & -> & _).
  rewrite u32_id by lia. rewrite (proj2 (Z.eqb_neq b 0)) by lia. cbn [negb andb Z.eqb]. rewrite bind_set_arg.
  set (s2 := put_arg 1 0 s1). assert (G2 : gathered nc [] s1 s2) by apply put_arg_gathered.
  assert (Em : umem s2 = umem s) by (rewrite (ga_mem _ _ _ _ G2); exact (ga_mem _ _ _ _ G)).
  rewrite (bind_ret _ _ _ _ _ _ _ (exec_fuint_ok b e s2 ltac:(lia) ltac:(done))). rewrite Em.
  rewrite (proj2 (Z.eqb_neq (word_at (umem s) b) 0)) by lia. rewrite bind_set_arg, (u32_id (b + 4)) by lia. exists (put_arg 2 (b + 4) s2). split; [done|]. split.
  - apply (gathered_pre nc _ s s1); [done|done|]. apply (gathered_pre nc _ s1 s2); [done|done|]. apply put_arg_gathered.
  - apply args_put2 with b. by apply args_put1 with a'.
Qed.

Lemma exec_next_end nc ne a b e s : 0 <= nc -> args_are s a b -> vector_or_null (umem s) a [] -> vector_or_null (umem s) b [] ->
  exists s', exec_next ne e s = Ret None e s' /\ gathered nc [] s s'.
Proof.
  intros Hnc Har Hva Hvb. pose proof (vector_or_null_range _ _ _ Hva) as Hra. pose proof (vector_or_null_range _ _ _ Hvb) as Hrb.
  destruct (argp_end_ok nc a b e s Har Hva) as (s1 & a' & Hr & G & Har1). unfold exec_next. msteps. pose proof Har as (-> & _).
  rewrite u32_id by lia. fold (argp_end a). rewrite (bind_ret _ _ _ _ _ _ _ Hr). msteps. pose proof Har1 as (_ & -> & _). rewrite u32_id by lia.
  destruct (Z.eqb_spec b 0) as [->|Hb0]; cbn [negb andb Z.eqb]; [by exists s1|]. destruct Hvb as [[? _]|(Hb & Hle & Hw)]; [done|]. unfold USER_PAGE_SIZE in Hle.
  rewrite bind_set_arg. set (s2 := put_arg 1 0 s1). assert (G2 : gathered nc [] s1 s2) by apply put_arg_gathered.
  rewrite (bind_ret _ _ _ _ _ _ _ (exec_fuint_ok b e s2 ltac:(lia) ltac:(done))). rewrite (ga_mem _ _ _ _ G2), (ga_mem _ _ _ _ G), Hw.
  exists s2. split; [done|]. by apply (gathered_pre nc _ s s1).
Qed.

(** One string of either vector. *)
Lemma exec_args_one e k na ne ne' nc l p s s1 : exec_next ne e s = Ret (Some (p, ne')) e s1 -> gathered nc [] s s1 -> 0 <= nc -> is_string l ->
  string_at (umem s) p l -> u_error (u s) = 0 -> nc + Z.of_nat (length l) + 1 < NCARGS -> length (exec_argbuf (kx s)) = Z.to_nat NCARGS ->
  exists s2, exec_args (S k) na ne nc e s = exec_args k (na + 1) ne' (nc + Z.of_nat (length (cstr l))) e s2 /\ gathered nc (cstr l) s s2 /\ u s2 = u s1.
Proof.
  intros Hr G Hnc Hs Hst He Hle Hlen. cbn [exec_args]. rewrite (bind_ret _ _ _ _ _ _ _ Hr). cbv iota beta.
  pose proof Hst as (Hp0 & Hp & _). unfold USER_PAGE_SIZE in Hp. rewrite (proj2 (Z.eqb_neq p (2 ^ 32 - 1))) by lia. cbn [when]. msteps.
  destruct (exec_chars_ok e l ARGFUEL p nc s1 Hs) as (s2 & Hr2 & G2 & Eu); try done;
    [unfold ARGFUEL, NCARGS in *; lia|by rewrite (ga_mem _ _ _ _ G)|by rewrite (gathered_error _ _ _ _ G)|by rewrite (ga_len _ _ _ _ G)|].
  rewrite (bind_ret _ _ _ _ _ _ _ Hr2). exists s2. rewrite length_cstr. replace (nc + Z.of_nat (S (length l))) with (nc + Z.of_nat (length l) + 1) by lia.
  split; [done|]. split; [by apply (gathered_pre nc _ s s1)|done].
Qed.

Lemma args_are_user s s' a b : u s' = u s -> args_are s a b -> args_are s' a b.
Proof. unfold args_are, arg. by intros ->. Qed.

(** The end of both vectors. *)
Lemma exec_args_end e k na ne nc a b s : 0 <= nc -> args_are s a b -> vector_or_null (umem s) a [] -> vector_or_null (umem s) b [] ->
  exists s', exec_args (S k) na ne nc e s = Ret (Some (na, ne, nc)) e s' /\ gathered nc [] s s'.
Proof.
  intros Hnc Har Ha Hb. destruct (exec_next_end nc ne a b e s Hnc Har Ha Hb) as (s' & Hr & G). exists s'. split; [|done].
  cbn [exec_args]. by rewrite (bind_ret _ _ _ _ _ _ _ Hr).
Qed.

Lemma exec_args_env e : forall envs k na ne nc a b s, Forall is_string envs -> (length envs < k)%nat -> args_are s a b ->
  vector_or_null (umem s) a [] -> vector_or_null (umem s) b envs -> u_error (u s) = 0 -> 0 <= nc ->
  nc + Z.of_nat (length (strings envs)) < NCARGS -> length (exec_argbuf (kx s)) = Z.to_nat NCARGS ->
  exists s', exec_args k na ne nc e s =
      Ret (Some (na + Z.of_nat (length envs), ne + Z.of_nat (length envs), nc + Z.of_nat (length (strings envs)))) e s' /\
    gathered nc (strings envs) s s'.
Proof.
  induction envs as [|l envs IH]; intros [|k] na ne nc a b s Hs Hk Har Ha Hb He Hnc Hle Hlen; cbn [length] in *; try lia.
  - destruct (exec_args_end e k na ne nc a b s Hnc Har Ha Hb) as (s' & Hr & G). exists s'. cbn [strings fmap list_fmap concat length].
    change (Z.of_nat 0) with 0. rewrite !Z.add_0_r. done.
  - destruct Hb as [[_ ?]|Hv]; [done|]. apply Forall_cons in Hs as [Hl Hs]. rewrite strings_cons, length_app, length_cstr in *.
    destruct (exec_next_env nc ne a b l envs e s Hnc Har Ha Hv) as (s1 & Hr & G & Har1). destruct Hv as (Hb0 & Hbl & Hst & Hv).
    destruct (exec_args_one e k na ne (ne + 1) nc l _ s s1 Hr G Hnc Hl Hst He) as (s2 & Hr2 & G2 & Eu); try done; [lia|]. rewrite Hr2.
    destruct (IH k (na + 1) (ne + 1) (nc + Z.of_nat (length (cstr l))) 0 (b + 4) s2 Hs) as (s3 & Hr3 & G3); rewrite ?length_cstr; try lia.
    + by apply (args_are_user s1).
    + by left.
    + right. by rewrite (ga_mem _ _ _ _ G2).
    + by rewrite (gathered_error _ _ _ _ G2).
    + by rewrite (ga_len _ _ _ _ G2).
    + rewrite ?length_cstr in Hr3. exists s3. split; [rewrite Hr3; do 3 f_equal; [f_equal; lia|lia]|]. by apply (gathered_app nc _ _ s s2).
Qed.

Lemma exec_args_ok e envs : forall args k na ne nc a b s, Forall is_string args -> Forall is_string envs -> (length args + length envs < k)%nat ->
  args_are s a b -> vector_or_null (umem s) a args -> vector_or_null (umem s) b envs -> u_error (u s) = 0 -> 0 <= nc ->
  nc + Z.of_nat (length (strings (args ++ envs))) < NCARGS -> length (exec_argbuf (kx s)) = Z.to_nat NCARGS ->
  exists s', exec_args k na ne nc e s =
      Ret (Some (na + Z.of_nat (length (args ++ envs)), ne + Z.of_nat (length envs), nc + Z.of_nat (length (strings (args ++ envs))))) e s' /\
    gathered nc (strings (args ++ envs)) s s'.
Proof.
  induction args as [|l args IH]; intros k na ne nc a b s Hs Hse Hk Har Ha Hb He Hnc Hle Hlen; cbn [length app] in *.
  - apply (exec_args_env e envs k na ne nc a b s); try done.
  - destruct k as [|k]; [lia|]. destruct Ha as [[_ ?]|Hv]; [done|]. apply Forall_cons in Hs as [Hl Hs]. rewrite strings_cons, length_app, length_cstr in *.
    destruct (exec_next_arg nc ne a b l args e s Har Hv) as (s1 & Hr & G & Har1). destruct Hv as (Ha0 & Hal & Hst & Hv).
    destruct (exec_args_one e k na ne ne nc l _ s s1 Hr G Hnc Hl Hst He) as (s2 & Hr2 & G2 & Eu); try done; [lia|]. rewrite Hr2.
    destruct (IH k (na + 1) ne (nc + Z.of_nat (length (cstr l))) (a + 4) b s2 Hs Hse) as (s3 & Hr3 & G3); rewrite ?length_cstr; try lia.
    + by apply (args_are_user s1).
    + right. by rewrite (ga_mem _ _ _ _ G2).
    + by rewrite (ga_mem _ _ _ _ G2).
    + by rewrite (gathered_error _ _ _ _ G2).
    + by rewrite (ga_len _ _ _ _ G2).
    + rewrite ?length_cstr in Hr3. exists s3. split; [rewrite Hr3, (length_app (cstr l)), length_cstr; do 3 f_equal; [f_equal; lia|lia]|]. by apply (gathered_app nc _ _ s s2).
Qed.

(** * The arguments survive [exec] *)

(** The same staging buffer and the same process, before and after the new
    image is loaded. *)
Definition staged (s s' : kst) : Prop := exec_argbuf (kx s') = exec_argbuf (kx s).

(** The arguments and the environment survive [exec]: let the vectors [argp]
    and [envp] of the call hold the strings [args] and [envs], of fewer than
    [NCARGS] characters in all.  Then [exece] collects them without error, and
    whatever the page holds after the new image has been loaded, if only the
    staging buffer is the same, the block made at the top of the page makes
    [argc] their number, and [argv] and [envp] vectors of the same strings, with
    the stack pointer at [argc]; nothing below the block and no other page is
    written. *)
Lemma exec_keeps_arguments args envs a b e s r : 
  Forall is_string args -> Forall is_string envs -> Z.of_nat (length (strings (args ++ envs))) < NCARGS ->
  args_are s a b -> vector_or_null (umem s) a args -> vector_or_null (umem s) b envs -> u_error (u s) = 0 ->
  length (exec_argbuf (kx s)) = Z.to_nat NCARGS ->
  exists na ne nc s1, exec_args ARGFUEL 0 0 0 e s = Ret (Some (na, ne, nc)) e s1 /\ u_error (u s1) = 0 /\
    forall s2, staged s1 s2 -> u_error (u s2) = 0 -> u_ar0 (u s2) = Some r ->
      exists s3, exec_block na ne (round4 nc) e s2 = Ret true e s3 /\
        block_made args envs (block_start na (round4 nc)) r s2 s3.
Proof.
  intros Hs Hse Hle Har Ha Hb He Hlen. pose proof (length_strings_ge (args ++ envs)) as Hge. rewrite length_app in Hge.
  destruct (exec_args_ok e envs args ARGFUEL 0 0 0 a b s Hs Hse) as (s1 & Hr & G); try done; [unfold ARGFUEL, NCARGS in *; lia|].
  rewrite !Z.add_0_l in Hr. do 4 eexists. split; [exact Hr|]. split; [by rewrite (gathered_error _ _ _ _ G)|]. intros s2 St He2 Hr2.
  apply exec_block_ok; [by apply Forall_app|lia|done|done|]. rewrite St. exact (ga_buf _ _ _ _ G).
Qed.

(** ** The room for the block *)

Lemma estabur_accepts nt nd ns e s : 0 <= nt <= nd -> 0 <= ns < 2 ^ 32 -> nd < 2 ^ 32 ->
  estabur nt nd ns 0 RO e s = Ret 0 e s <-> nd + ns <= USER_CLICKS.
Proof.
  intros Ht Hs Hd. unfold estabur, max32, USER_CLICKS. replace (if nd <? nt then nt else nd) with nd by (destruct (Z.ltb_spec nd nt); lia).
  change (negb (0 =? 0)) with false. rewrite orb_false_l. destruct (Z.ltb_spec 4096 nd); cbn [orb].
  - split; [|lia]. unfold seterror, modify. cbn. intros E. injection E as E _. done.
  - rewrite u32_id by lia. destruct (Z.ltb_spec (4096 - nd) ns).
    + split; [|lia]. unfold seterror, modify. cbn. intros E. injection E as E _. done.
    + split; [lia|done].
Qed.

(** C36. How much room the argument block has: [getxfile] reserves [ss] clicks of
    stack, counted from the characters alone.  The block stays above every image
    the size check accepts exactly when the count word, the pointers and the
    characters fit in [ss] clicks; the pointers are not counted, so 400 empty
    strings make [exec] write over the end of a program that fills the window. *)
Theorem exec_block_room na nc e s : 0 <= na <= nc -> nc <= NCARGS ->
  let c := round4 nc in let ss := u32 (SSIZE + exec_btoc32 (u32 c)) in
  (forall ts ds, 0 <= ts <= ds -> ds < 2 ^ 32 -> estabur ts ds ss 0 RO e s = Ret 0 e s -> ctob ds <= block_start na c) <->
  4 * na + 20 + c <= ctob ss.
Proof.
  intros Hna Hnc c ss. unfold NCARGS in Hnc. pose proof (round4_bounds nc) as Hc. fold c in Hc.
  assert (Hss : ss = 20 + (c + 63) / 64).
  { unfold ss, exec_btoc32, SSIZE. rewrite (u32_id c), (u32_id (c + 63)) by lia. rewrite Z.shiftr_div_pow2 by lia. change (2 ^ 6) with 64.
    rewrite u32_id; [done|]. Z.div_mod_to_equations. lia. }
  assert (Hr : 0 <= ss <= 200) by (rewrite Hss; Z.div_mod_to_equations; lia).
  assert (Ec : forall x, ctob x = 64 * x) by (intros x; unfold ctob; rewrite Z.shiftl_mul_pow2 by lia; lia). rewrite Ec.
  unfold block_start, USER_STACK_TOP. split.
  - intros Hall. specialize (Hall 0 (USER_CLICKS - ss)). unfold USER_CLICKS in Hall. rewrite Ec in Hall.
    assert (Hok : estabur 0 (4096 - ss) ss 0 RO e s = Ret 0 e s) by (apply estabur_accepts; unfold USER_CLICKS; lia).
    specialize (Hall ltac:(lia) ltac:(lia) Hok). lia.
  - intros Hle ts ds Ht Hd Hok. apply estabur_accepts in Hok; [|lia|lia|lia]. unfold USER_CLICKS in Hok. rewrite Ec. lia.
Qed.

Lemma exec_block_room_witness : ~ (forall ts ds, 0 <= ts <= ds -> ds < 2 ^ 32 ->
  estabur ts ds (u32 (SSIZE + exec_btoc32 (u32 (round4 400)))) 0 RO [] kst0 = Ret 0 [] kst0 -> ctob ds <= block_start 400 (round4 400)).
Proof.
  rewrite (exec_block_room 400 400 [] kst0); [vm_compute; intros H; by apply H|lia|unfold NCARGS; lia].
Defined.

(** A page with the vectors of [ls -l] and of one variable. *)
Definition ex_page : Z -> Z :=
  mem_write (be 4 200 ++ be 4 203 ++ be 4 0 ++ be 4 206 ++ be 4 0) 96 (mem_write [108; 115; 0; 45; 108; 0; 65; 61; 49; 0] 200 (fun _ => 0)).
Definition ex_caller : kst :=
  upd_u (fun x => x <| u_arg := [0; 96; 108] |> <| u_ar0 := Some (fun _ => 0) |>) (kst0 <| ku; upmem := fun _ => ex_page |>).

Lemma exec_keeps_arguments_witness : exists na ne nc s1 s2 s3,
  exec_args ARGFUEL 0 0 0 [] ex_caller = Ret (Some (na, ne, nc)) [] s1 /\ exec_block na ne (round4 nc) [] s2 = Ret true [] s3 /\
  vector_at (umem s3) (block_start na (round4 nc) + 4) [[108; 115]; [45; 108]].
Proof.
  destruct (exec_keeps_arguments [[108; 115]; [45; 108]] [[65; 61; 49]] 96 108 [] ex_caller (fun _ => 0)) as (na & ne & nc & s1 & Hr & _ & H).
  - repeat constructor; lia.
  - repeat constructor; lia.
  - done.
  - split_and!; [done|done|decide_true].
  - right. cbn. unfold string_at. repeat split; (reflexivity || (vm_compute; done)).
  - right. cbn. unfold string_at. repeat split; (reflexivity || (vm_compute; done)).
  - done.
  - exact (length_replicate (Z.to_nat 5120) 0).
  - destruct (H (ex_caller <| kx; exec_argbuf := exec_argbuf (kx s1) |>)) as (s3 & H1 & H2); [done|done|done|].
    do 6 eexists. split; [exact Hr|]. split; [exact H1|]. apply H2.
Defined.
