(* ===== verification/Image.v ===== *)
(** The image [getxfile] of [sys/sys1.c] loads: the text and the data of the
    file, zeros after them, and the bounds of the stack. *)
From S2P Require Import Prelude Malloc Clist Kernel Sched Dll Sd Bio Cache Blocks Codec Usermem Subr Alloc Freelist Inode Rdwri Bmap Readi Text Fio Namei Exec Execargs.

(** * The header, read into [u_exdata] *)

(** Nothing but the user structure has changed, and not its process. *)
Record user_only (s s' : kst) : Prop := {
  uo_only : only_user s s';
  uo_kx : kx s' = kx s;
  uo_mem : upmem (ku s') = upmem (ku s);
  uo_proc : u_procp (u s') = u_procp (u s)
}.

Lemma user_only_refl s : user_only s s.
Proof. by split. Qed.
Lemma user_only_trans s1 s2 s3 : user_only s1 s2 -> user_only s2 s3 -> user_only s1 s3.
Proof. intros [O1 K1 M1 P1] [O2 K2 M2 P2]. split; try congruence. by apply only_user_trans with s2. Qed.
Lemma user_only_upd g s : u_procp (g (u s)) = u_procp (u s) -> user_only s (upd_u g s).
Proof. intros E. split; try done. by rewrite u_upd_u. Qed.

(** [l] has been stored at [u_base], offset [k] of [u_exdata]. *)
Definition stored (k : nat) (l : list Z) (x : user) : user :=
  advance (Z.of_nat (length l)) (x <| u_exdata ::= splice k l |>).

Record stored_ok (k n : nat) (s : kst) : Prop := {
  so_base : u_base (u s) = KA KExdata (Z.of_nat k);
  so_seg : u_segflg (u s) = 1;
  so_room : (k + n <= length (u_exdata (u s)))%nat;
  so_off : 0 <= u_offset (u s) /\ u_offset (u s) + Z.of_nat n < 2 ^ 31;
  so_count : Z.of_nat n <= u_count (u s) < 2 ^ 32
}.

Lemma stored_ok_u k n s s' : u s' = u s -> stored_ok k n s -> stored_ok k n s'.
Proof. intros E [? ? ? ? ?]. by split; rewrite E. Qed.

Lemma splice_nil k l : splice k [] l = l.
Proof. unfold splice. cbn. by rewrite Nat.add_0_r, take_drop. Qed.

Lemma splice_insert k c l (m : list Z) : (k < length m)%nat -> splice (S k) l (<[k := c]> m) = splice k (c :: l) m.
Proof.
  intros Hk. unfold splice. cbn [length]. rewrite (take_S_r _ _ c) by (by apply list_lookup_insert_eq).
  rewrite take_insert_ge, drop_insert_lt by lia. rewrite <- app_assoc. cbn. do 4 f_equal. lia.
Qed.

Lemma stored_cons k c l x : (k < length (u_exdata x))%nat -> isbyte c ->
  stored (S k) l (advance 1 (x <| u_exdata ::= <[k := u8 c]> |>)) = stored k (c :: l) x.
Proof.
  intros Hk Hc. rewrite u8_id by exact Hc. unfold stored. cbn [length]. replace (Z.of_nat (S (length l))) with (1 + Z.of_nat (length l)) by lia.
  rewrite <- advance_add. f_equal.
  transitivity (advance 1 (x <| u_exdata := splice (S k) l (<[k := c]> (u_exdata x)) |>)); [by destruct x|].
  rewrite splice_insert by done. by destruct x.
Qed.

Lemma advance_0 x : caddr_add (u_base x) 0 = u_base x -> 0 <= u_offset x < 2 ^ 31 -> 0 <= u_count x < 2 ^ 32 -> advance 0 x = x.
Proof.
  intros Eb Ho Hc. transitivity (x <| u_base ::= id |> <| u_offset ::= id |> <| u_count ::= id |>); [|by destruct x].
  apply user_ext3; cbn; [done| |]; rewrite ?Z.add_0_r, ?Z.sub_0_r; [by rewrite i32_id by lia|by rewrite u32_id by lia].
Qed.

Lemma stored_nil k x : u_base x = KA KExdata (Z.of_nat k) -> 0 <= u_offset x < 2 ^ 31 -> 0 <= u_count x < 2 ^ 32 -> stored k [] x = x.
Proof.
  intros Eb Ho Hc. assert (E : x <| u_exdata ::= splice k [] |> = x).
  { transitivity (x <| u_exdata := splice k [] (u_exdata x) |>); [by destruct x|]. rewrite splice_nil. by destruct x. }
  unfold stored. rewrite E. apply advance_0; [|done|done]. rewrite Eb. cbn. by rewrite Z.add_0_r.
Qed.

Section Header.
Context `{Layout}.

Lemma passc_exdata k n c e s : stored_ok k (S n) s -> isbyte c ->
  exists s', passc c e s = Ret (if u_count (u s) =? 1 then -1 else 0) e s' /\
    u s' = advance 1 (u s <| u_exdata ::= <[k := u8 c]> |>) /\ user_only s s' /\ stored_ok (S k) n s'.
Proof.
  intros [Eb Es Hr Ho Hc] Hb. set (g := fun x : user => x <| u_exdata ::= <[k := u8 c]> |>). set (s1 := upd_u g s). set (s' := upd_u (advance 1) s1).
  assert (Eu : u s' = advance 1 (g (u s))) by (unfold s', s1; by rewrite !u_upd_u). exists s'. split; [|split; [done|split]].
  - unfold passc. msteps. rewrite Es, Eb. change (1 =? 1) with true. cbv iota.
    assert (Hp : (_ ← kstore (KA KExdata (Z.of_nat k)) c; mret 0) e s = Ret 0 e s1) by (unfold kstore; by rewrite Nat2Z.id).
    rewrite (bind_ret _ _ _ _ _ _ _ Hp). change (0 <? 0) with false. cbv iota. msteps. fold s'. rewrite Eu. cbn. rewrite u32_id by lia.
    destruct (Z.eqb_spec (u_count (u s)) 1) as [->|]; [done|]. rewrite (proj2 (Z.eqb_neq _ _)) by lia. done.
  - apply user_only_trans with s1; [by apply user_only_upd|]. by apply user_only_upd.
  - split; rewrite Eu; cbn.
    + rewrite Eb. cbn [caddr_add]. f_equal. lia.
    + exact Es.
    + rewrite length_insert. lia.
    + rewrite i32_id by lia. lia.
    + rewrite u32_id by lia. lia.
Qed.

Lemma iomove_exdata b e : forall n k off s, stored_ok k n s -> (off + n <= length (bytes s b))%nat -> Forall isbyte (bytes s b) ->
  exists s', iomove_out n b off e s = Ret tt e s' /\ u s' = stored k (take n (drop off (bytes s b))) (u s) /\ user_only s s'.
Proof.
  induction n as [|n IH]; intros k off s Hok Hl Hb.
  - exists s. split; [done|]. split; [|apply user_only_refl]. cbn [take]. symmetry. destruct Hok. by apply stored_nil; [|lia|lia].
  - cbn [iomove_out]. msteps. rewrite (take_drop_nth (bytes s b) off n) by lia. change (bdata (kb s) b) with (bytes s b).
    assert (Hc : isbyte (nth off (bytes s b) 0)) by (rewrite Forall_forall in Hb; apply Hb, list_elem_of_In, nth_In; lia).
    destruct (passc_exdata k n _ e s Hok Hc) as (s1 & Hr & Eu1 & O1 & Hok1). rewrite (bind_ret _ _ _ _ _ _ _ Hr).
    assert (Eb : bytes s1 b = bytes s b) by (unfold bytes; by destruct O1 as [(-> & _) _ _ _]).
    rewrite <- stored_cons by (destruct Hok; lia || done). rewrite <- Eu1.
    destruct (Z.eqb_spec (u_count (u s)) 1) as [E1|E1].
    + change (-1 <? 0) with true. cbv iota. exists s1. destruct Hok. assert (n = 0)%nat as -> by lia. split; [done|]. split; [|done].
      cbn [take]. symmetry. destruct Hok1. by apply stored_nil; [|lia|lia].
    + change (0 <? 0) with false. cbv iota. destruct (IH (S k) (S off) s1 Hok1) as (s2 & Hr2 & Eu2 & O2); [rewrite Eb; lia|by rewrite Eb|].
      rewrite Eb in Eu2. exists s2. split; [done|]. split; [done|]. by apply user_only_trans with s1.
Qed.
Context `{!Cdevsw} (W : kst -> holding -> (Z -> list Z) -> Prop) `{!BlockStore W}.

(** What reading leaves besides the bytes. *)
Record after_read (ip : nat) (hs : holding) (V : Z -> list Z) (s s' : kst) : Prop := {
  ar_store : W s' hs V;
  ar_procs : procs_kept s s';
  ar_page : user_page s' = user_page s;
  ar_inode : inode_kept ip s s'
}.

Lemma after_read_uctx ip hs V s s' : W s' hs V -> uctx s' = uctx s -> kf s' = kf s -> (curproc s < NPROC)%nat -> after_read ip hs V s s'.
Proof.
  intros Hw Ex Ek Hc. destruct (user_page_uctx s s' Ex Hc) as (Ep & _). split; [done|by apply procs_kept_uctx|done|by apply inode_kept_kf].
Qed.

Lemma after_read_trans ip hs V s1 s2 s3 : after_read ip hs V s1 s2 -> after_read ip hs V s2 s3 -> after_read ip hs V s1 s3.
Proof.
  intros [W1 P1 U1 I1] [W2 P2 U2 I2]. split; [done|by apply procs_kept_trans with s2|congruence|by apply inode_kept_trans with s2].
Qed.

(** Thirty-two bytes moved to [u_exdata] and the buffer released. *)
Lemma header_release ip lbn b o e s hs V : W s ((b, o) :: hs) V -> releasable V b o s -> stored_ok 0 32 s -> (curproc s < NPROC)%nat ->
  Forall isbyte (bytes s b) -> u_error (u s) = 0 -> u_count (u s) = 32 ->
  exists s', (_ ← modify (upd_inode ip (fun x => x <| i_lastr := lbn |>));
      n ← gets (fun s => i32 (min32 (u32 32) (u32 (BSIZE - b_resid (buf_at s b)))));
      _ ← when (negb (n =? 0)) (iomove b 0 n B_READ);
      _ ← brelse b;
      x ← gets u;
      mret ((u_error x =? 0) && negb (u_count x =? 0) && (0 <? n))) e s = Ret false e s' /\
    u s' = stored 0 (take 32 (bytes s b)) (u s) /\ upmem (ku s') = upmem (ku s) /\ after_read ip hs V s s'.
Proof.
  intros Hw Hrl Hio Hcp Hby He Hc. set (s1 := upd_inode ip (fun x => x <| i_lastr := lbn |>) s). assert (Hb : b ∈ held_bufs ((b, o) :: hs)) by (by left).
  assert (Hw1 : W s1 ((b, o) :: hs) V) by (by apply (bs_same s)). msteps. fold s1. rewrite (bs_resid s1 _ V b Hw1 Hb).
  change (i32 (min32 (u32 32) (u32 (BSIZE - 0)))) with 32. change (negb (32 =? 0)) with true. cbn [when].
  assert (Hio1 : stored_ok 0 32 s1) by (by apply (stored_ok_u 0 32 s)). unfold iomove. change (32 =? 0) with false. cbv iota. msteps.
  assert (Ef : iomove_fast 32 0 (u s1) = false) by (unfold iomove_fast; by rewrite (so_seg _ _ _ Hio1)). rewrite Ef.
  change (B_READ =? B_WRITE) with false. cbv iota.
  assert (Hlen : length (bytes s1 b) = 512%nat) by (by apply (bs_length s1 _ V b Hw1 Hb)).
  destruct (iomove_exdata b e 32 0 0 s1 Hio1) as (s2 & Hr2 & Eu2 & O2); [lia|done|]. change (Z.to_nat 32) with 32%nat.
  rewrite (bind_ret _ _ _ _ _ _ _ Hr2). pose proof (uo_only _ _ O2) as (Ekb & Ekp & Ekf & Ekc & Ekt). rewrite drop_0 in Eu2. change (bytes s1 b) with (bytes s b) in Eu2.
  assert (Hw2 : W s2 ((b, o) :: hs) V) by (apply (bs_same s1); [done|unfold same_kb; by rewrite Ekb|done|by rewrite Ekb]).
  assert (Hrl2 : releasable V b o s2) by (unfold releasable, bytes, flg, buf_at in *; rewrite Ekb; exact Hrl).
  destruct (release_ok W b o e s2 hs V Hw2 Hrl2) as (s3 & Hr3 & Hw3 & [B3 (Ex3 & Ekf3 & _)]). rewrite (bind_ret _ _ _ _ _ _ _ Hr3). msteps.
  assert (Hcp2 : (curproc s2 < NPROC)%nat) by (unfold curproc; rewrite Eu2; exact Hcp).
  destruct (user_page_uctx s2 s3 Ex3 Hcp2) as (Ep3 & Eu3 & Ek3). exists s3.
  assert (Hl32 : length (take 32 (bytes s b)) = 32%nat) by (rewrite length_take; change (bytes s b) with (bytes s1 b); lia).
  assert (Ec : u_count (u s3) = 0).
  { rewrite Eu3, Eu2. unfold stored. rewrite Hl32. cbn. change (u s1) with (u s). rewrite Hc. done. }
  split; [rewrite Ec; cbn; by rewrite andb_false_r|]. split; [by rewrite Eu3, Eu2|]. split; [rewrite Ek3; apply O2|].
  assert (Ep2 : user_page s2 = user_page s) by (unfold user_page, curproc, proc_at; rewrite (uo_proc _ _ O2), Ekp; done).
  split; [done| |congruence|].
  - apply procs_kept_trans with s2; [|by apply procs_kept_uctx]. apply procs_kept_kp; [exact (uo_kx _ _ O2)|exact Ekp].
  - apply inode_kept_trans with s1; [|apply inode_kept_kf; congruence]. split; [intros j Hj; by apply inode_upd_ne|].
    unfold s1. by rewrite inode_upd_same.
Qed.

Lemma readi_header ip e s hs V : reading W ip V hs s -> let x := inode_at s ip in
  is_cdev (i_mode x) = false -> is_bdev (i_mode x) = false -> 32 <= i_size x -> u_offset (u s) = 0 -> u_count (u s) = 32 ->
  stored_ok 0 32 s -> readable V hs (i_addr x) 0 ->
  exists s', readi ip e s = Ret tt e s' /\ u s' = stored 0 (file_bytes V (i_addr x) 0 32) (u s) /\ upmem (ku s') = upmem (ku s) /\
    after_read ip hs V (iset ip IACC s) s'.
Proof.
  intros Hrg x Hcd Hbd Hsz Ho Hc Hio Hrd. set (s1 := iset ip IACC s).
  assert (Ei : inode_at s1 ip = x <| i_flag ::= fun f => Z.lor f IACC |>) by (unfold s1, iset; by rewrite inode_upd_same).
  assert (Hrg1 : reading W ip V hs s1).
  { destruct Hrg as [Hw Hl Hcp Hd He Hsz']. split; try done; [by apply (bs_same s)|by rewrite Ei|by rewrite Ei]. }
  unfold readi. msteps. rewrite (proj2 (Z.eqb_neq _ _)) by lia. rewrite Ho. change (0 <? 0) with false. cbv iota. msteps. fold s1.
  assert (Em : i_mode (inode_at s1 ip) = i_mode x) by (by rewrite Ei). rewrite Em, Hcd, Hbd. cbv zeta iota.
  assert (Ea : i_addr (inode_at s1 ip) = i_addr x /\ i_size (inode_at s1 ip) = i_size x) by (by rewrite Ei). destruct Ea as [Ea Es].
  set (rdev := u16 _). change (iofuel s1) with (iofuel s). unfold iofuel. rewrite Hc. change (Z.to_nat (32 + 2)) with (S 33). cbn [readi_f].
  unfold readi_turn. msteps. change (u s1) with (u s). rewrite Ho. change (Z.to_nat (Z.land 0 BMASK)) with 0%nat.
  pose proof Hrg1 as [Hw1 Hl1 Hcp1 Hd1 He1 Hsz1]. rewrite Es in Hsz1.
  assert (Hrd1 : readable V hs (i_addr (inode_at s1 ip)) 0) by (by rewrite Ea).
  pose proof (readi_block_ok W ip rdev e s1 hs V Hw1 Hl1 Hcp1) as L. cbv zeta in L. change (u s1) with (u s) in L. rewrite Ho, Hc, Es, Ea in L.
  change (0 / 512) with 0 in L. destruct (L Hd1 He1 ltac:(lia) ltac:(lia) ltac:(lia) Hrd) as (s2 & Hr2 & Hw2 & K2 & Hra). clear L.
  assert (En : turn_count s1 (i_size x) = 32) by (unfold turn_count; change (u s1) with (u s); rewrite Ho, Hc; change (0 mod 512) with 0; lia).
  rewrite En in Hr2. rewrite (bind_ret _ _ _ _ _ _ _ Hr2). cbv iota beta.
  set (bn := block_of V (i_addr x) 0) in *.
  assert (Hbn : bn < 0 \/ 0 <= bn < RD_SIZE /\ not_held hs bn) by (destruct (rd_block _ _ _ _ Hrd) as [?|(? & ? & _)]; [by left|by right]).
  destruct (readi_buf_ok W ip 0 bn e s2 hs V Hw2 Hl1 Hbn Hra) as (b & o & s3 & Hr3 & Hw3 & K3 & Eb & Hrl).
  pose proof (kept_ra_trans _ _ _ _ K2 K3) as K. pose proof K as (_ & Ex & Ekf & _). destruct (user_page_uctx s1 s3 Ex Hcp1) as (Ep & Eu & Ek).
  unfold readi_buf in Hr3. revert Hr3. msteps. intros Hr3. rewrite (bind_ret _ _ _ _ _ _ _ Hr3).
  pose proof (readable_data _ _ _ _ Hrd) as Hby. fold bn in Hby. rewrite <- Eb in Hby.
  destruct (header_release ip 0 b o e s3 hs V Hw3 Hrl) as (s4 & Hr4 & Eu4 & Em4 & A4); [by apply (stored_ok_u 0 32 s)|unfold curproc; by rewrite Eu|done|by rewrite Eu|by rewrite Eu|].
  rewrite (bind_ret _ _ _ _ _ _ _ Hr4). exists s4. split; [done|]. rewrite Eu4, Eu, Em4, Ek, Eb. change (u s1) with (u s).
  assert (Hlb : length (bytes s3 b) = 512%nat) by (apply (bs_length s3 _ V b Hw3); by left).
  pose proof (file_bytes_block V (i_addr x) 0 32 ltac:(lia)) as F. cbv zeta in F. change (0 / 512) with 0 in F. fold bn in F. rewrite <- Eb in F |- *.
  change (Z.to_nat (0 mod 512)) with 0%nat in F. rewrite drop_0 in F. rewrite F by (done || lia). split; [done|]. split; [done|].
  destruct A4 as [W4 P4 U4 I4]. split; [done| |congruence|].
  - apply procs_kept_trans with s3; [by apply procs_kept_uctx|done].
  - apply inode_kept_trans with s3; [by apply inode_kept_kf|done].
Qed.
End Header.

(** * The header's words *)

(** The big-endian word at offset [i]. *)
Definition hword (l : list Z) (i : nat) : Z := unbe (take 4 (drop i l)).

Lemma length_32 (l : list Z) : length l = 32%nat -> exists b0 b1 b2 b3 b4 b5 b6 b7 b8 b9 b10 b11 b12 b13 b14 b15 b16 b17 b18 b19 b20 b21 b22 b23 b24 b25 b26 b27 b28 b29 b30 b31,
  l = [b0; b1; b2; b3; b4; b5; b6; b7; b8; b9; b10; b11; b12; b13; b14; b15; b16; b17; b18; b19; b20; b21; b22; b23; b24; b25; b26; b27; b28; b29; b30; b31].
Proof.
  intros H. do 32 (destruct l as [|? l]; [discriminate H|]). destruct l; [|discriminate H]. repeat eexists.
Qed.

Lemma aout_decode_eq l : length l = 32%nat ->
  aout_decode l = be 4 264 ++ be 4 (i32 (aout_get32 (drop 4 l) - AOUT_HDR_SIZE)) ++ be 4 (aout_get32 (drop 8 l)) ++
    be 4 (aout_get32 (drop 12 l)) ++ be 4 0 ++ be 4 (aout_get32 (drop 20 l)) ++ be 4 0 ++ be 4 1.
Proof.
  intros H. destruct (length_32 l H) as (b0 & b1 & b2 & b3 & b4 & b5 & b6 & b7 & b8 & b9 & b10 & b11 & b12 & b13 & b14 & b15 & b16 & b17 & b18 & b19 &
    b20 & b21 & b22 & b23 & b24 & b25 & b26 & b27 & b28 & b29 & b30 & b31 & ->). reflexivity.
Qed.

Lemma land_shift_low a b n : 0 <= n -> 0 <= b < 2 ^ n -> Z.land (a * 2 ^ n) b = 0.
Proof.
  intros Hn Hb. rewrite <- Z.shiftl_mul_pow2 by done. rewrite <- (Z.mod_small b (2 ^ n)), <- Z.land_ones by done.
  rewrite Z.land_assoc, (Z.land_comm _ b), <- Z.land_assoc, Z.land_ones, Z.shiftl_mul_pow2, Z.mod_mul by (done || lia). apply Z.land_0_r.
Qed.

Lemma lor_add a b n : 0 <= n -> 0 <= b < 2 ^ n -> Z.lor (a * 2 ^ n) b = a * 2 ^ n + b.
Proof. intros Hn Hb. pose proof (land_shift_low a b n Hn Hb) as E. by rewrite <- Z.lxor_lor, Z.add_nocarry_lxor. Qed.

Lemma i32_lor_low a b : 0 <= b < 2 ^ 24 -> Z.lor (i32 (a * 2 ^ 24)) b = i32 (a * 2 ^ 24 + b).
Proof.
  intros Hb. pose proof (swrap_range 32 (a * 2 ^ 24) ltac:(lia)) as Hr. set (v := i32 (a * 2 ^ 24)) in *.
  assert (Hm : v mod 2 ^ 24 = 0).
  { assert (Ev : v mod 2 ^ 32 = (a * 2 ^ 24) mod 2 ^ 32) by (apply (swrap_uwrap 32); lia). Z.div_mod_to_equations. lia. }
  assert (Ev : v = v / 2 ^ 24 * 2 ^ 24) by (Z.div_mod_to_equations; lia). rewrite Ev, lor_add by lia. rewrite <- Ev.
  unfold v. rewrite <- (i32_id (i32 (a * 2 ^ 24) + b)).
  - apply swrap_add. lia.
  - fold v. Z.div_mod_to_equations. lia.
Qed.

Lemma aout_get32_word l : (4 <= length l)%nat -> Forall isbyte l -> aout_get32 l = i32 (unbe (take 4 l)).
Proof.
  intros Hl Hb. destruct l as [|b0 [|b1 [|b2 [|b3 l]]]]; try (cbn in Hl; lia). do 4 (apply Forall_cons in Hb as [? Hb]). unfold isbyte in *.
  unfold aout_get32, at_byte. cbn [nth take]. rewrite !Z.shiftl_mul_pow2 by lia. rewrite <- !Z.lor_assoc.
  rewrite (lor_add b2 b3 8) by lia.
  rewrite (lor_add b1 (b2 * 2 ^ 8 + b3) 16) by lia. rewrite i32_lor_low by lia. f_equal. rewrite take_0. unfold unbe. cbn [foldl]. lia.
Qed.
