(* ===== verification/Load.v ===== *)
(** [getxfile] of [sys/sys1.c] as a whole: the old text given up, the page
    cleared, text and data read, the new text marked. *)
From S2P Require Import Prelude Malloc Clist Kernel Sched Dll Sd Bio Cache Blocks Codec Usermem Subr Alloc Freelist Inode Rdwri Bmap Readi Text Fio Namei Exec Execargs Image.

(** * What loading keeps *)

(** What an inode says of its file. *)
Definition ifile (x : inode) : Z * Z * Z * (Z -> Z) * (Z * Z) := (i_dev x, i_size x, i_mode x, i_addr x, (i_uid x, i_gid x)).

Record keeps (ip : nat) (s s' : kst) : Prop := {
  ks_kx : kx s' = kx s;
  ks_page : user_page s' = user_page s;
  ks_file : ifile (inode_at s' ip) = ifile (inode_at s ip);
  ks_cur : curproc s' = curproc s;
  ks_flag : (curproc s < NPROC)%nat -> p_flag (proc_at s' (curproc s)) = p_flag (proc_at s (curproc s));
  ks_others : forall q, (q < NPROC)%nat -> q <> curproc s -> unsched (proc_at s' q) = unsched (proc_at s q)
}.

Lemma keeps_refl ip s : keeps ip s s.
Proof. by split. Qed.
Lemma keeps_trans ip s1 s2 s3 : keeps ip s1 s2 -> keeps ip s2 s3 -> keeps ip s1 s3.
Proof.
  intros [K1 P1 F1 C1 G1 O1] [K2 P2 F2 C2 G2 O2]. rewrite C1 in *. split; try congruence.
  - intros Hc. by rewrite G2, G1.
  - intros q Hq Hne. by rewrite O2, O1.
Qed.

Lemma unsched_flag x y : unsched x = unsched y -> p_flag x = p_flag y.
Proof. intros E. change (p_flag (unsched x) = p_flag (unsched y)). by rewrite E. Qed.

Lemma unsched_textp x y : unsched x = unsched y -> p_textp x = p_textp y.
Proof. intros E. change (p_textp (unsched x) = p_textp (unsched y)). by rewrite E. Qed.

Lemma nolast_ifile x y : nolast x = nolast y -> ifile x = ifile y.
Proof. intros E. change (ifile (nolast x) = ifile (nolast y)). by rewrite E. Qed.

Lemma keeps_procs ip s s' : procs_kept s s' -> user_page s' = user_page s -> curproc s' = curproc s ->
  ifile (inode_at s' ip) = ifile (inode_at s ip) -> keeps ip s s'.
Proof. intros [K P] Ep Ec Ei. split; try done; [intros Hc; by apply unsched_flag, P|intros q Hq _; by apply P]. Qed.

(** A step that leaves the buffers and the queues alone. *)
Record quiet (ip : nat) (s s' : kst) : Prop := {
  qt_kb : kb s' = kb s;
  qt_sched : same_sched s s';
  qt_keeps : keeps ip s s'
}.

Lemma same_sched_kp s s' : kp s' = kp s -> same_sched s s'.
Proof. intros E. unfold same_sched, proc_at. by rewrite E. Qed.

Lemma quiet_refl ip s : quiet ip s s.
Proof. split; [done|by apply same_sched_kp|apply keeps_refl]. Qed.
Lemma quiet_trans ip s1 s2 s3 : quiet ip s1 s2 -> quiet ip s2 s3 -> quiet ip s1 s3.
Proof.
  intros [B1 (R1 & S1 & O1 & P1) K1] [B2 (R2 & S2 & O2 & P2) K2].
  split; [congruence| |by apply keeps_trans with s2]. unfold same_sched. split_and!; try congruence.
  intros p. destruct (P1 p) as (?&?&?), (P2 p) as (?&?&?). split_and!; congruence.
Qed.

(** The processes are as they were, and the current one is. *)
Lemma quiet_kp ip s s' : kb s' = kb s -> kp s' = kp s -> kx s' = kx s -> u_procp (u s') = u_procp (u s) ->
  ifile (inode_at s' ip) = ifile (inode_at s ip) -> quiet ip s s'.
Proof.
  intros Eb Ep Ex Eu Ei. split; [done|by apply same_sched_kp|]. apply keeps_procs; try done; [by apply procs_kept_kp|].
  unfold user_page, curproc, proc_at. by rewrite Ep, Eu.
Qed.

Lemma quiet_upd_u ip g s : u_procp (g (u s)) = u_procp (u s) -> quiet ip s (upd_u g s).
Proof. intros E. apply quiet_kp; try done. by rewrite u_upd_u. Qed.

Lemma quiet_upd_text ip xp g s : quiet ip s (upd_text xp g s).
Proof. by apply quiet_kp. Qed.

(** An update of the current process that does not concern its place in the
    queues or in memory. *)
Definition cur_only (g : proc -> proc) : Prop := forall x,
  (p_stat (g x), p_wchan (g x), p_link (g x), p_addr (g x), p_flag (g x)) = (p_stat x, p_wchan x, p_link x, p_addr x, p_flag x).

Lemma quiet_upd_cur ip g s : cur_only g -> quiet ip s (upd_proc (curproc s) g s).
Proof.
  intros Hg. set (s' := upd_proc (curproc s) g s). specialize (Hg (proc_at s (curproc s))).
  injection Hg as E1 E2 E3 E4 E5. assert (Es : proc_at s' (curproc s) = g (proc_at s (curproc s))) by apply proc_upd_same.
  assert (Eo : forall q, q <> curproc s -> proc_at s' q = proc_at s q) by (intros; by apply proc_upd_ne).
  split; [done| |split; try done].
  - split_and!; try done. intros p. destruct (decide (p = curproc s)) as [->|Hne]; [by rewrite Es|by rewrite Eo].
  - unfold user_page. change (curproc s') with (curproc s). by rewrite Es, E4.
  - intros _. by rewrite Es.
  - intros q _ Hne. by rewrite Eo.
Qed.

(** * Texts *)

Lemma text_upd_same xp g s : text_at (upd_text xp g s) xp = g (text_at s xp).
Proof. unfold text_at, upd_text. cbn. by rewrite fn_lookup_insert. Qed.

(** Nobody has the text locked or waits for it. *)
Definition text_idle (s : kst) (xp : nat) : Prop := fset (x_flag (text_at s xp)) XLOCK = false /\ fset (x_flag (text_at s xp)) XWANT = false.

Lemma text_upd_ne xp yp g s : xp <> yp -> text_at (upd_text xp g s) yp = text_at s yp.
Proof. intros. unfold text_at, upd_text. cbn. by rewrite fn_lookup_insert_ne. Qed.

(** The same texts, with no new lock. *)
Definition texts_like (s s' : kst) : Prop :=
  forall xp, x_iptr (text_at s' xp) = x_iptr (text_at s xp) /\ (text_idle s xp -> text_idle s' xp).

Lemma texts_like_eq s s' : texts (kf s') = texts (kf s) -> texts_like s s'.
Proof. intros E xp. unfold text_idle, text_at. by rewrite E. Qed.
Lemma texts_like_trans s1 s2 s3 : texts_like s1 s2 -> texts_like s2 s3 -> texts_like s1 s3.
Proof. intros T1 T2 xp. destruct (T1 xp), (T2 xp). split; [congruence|auto]. Qed.

(** Only the text [xp] differs, with the same inode and no lock. *)
Lemma texts_like_one xp s s' : (forall yp, yp <> xp -> text_at s' yp = text_at s yp) -> x_iptr (text_at s' xp) = x_iptr (text_at s xp) ->
  text_idle s' xp -> texts_like s s'.
Proof.
  intros Ho Ei Hi yp. destruct (decide (yp = xp)) as [->|Hne]; [done|]. unfold text_idle. by rewrite Ho.
Qed.

(** The current process is not the last of those sharing its text. *)
Definition text_shared (s : kst) : Prop :=
  match p_textp (proc_at s (curproc s)) with
  | None => True
  | Some xp => text_idle s xp /\ (exists ip, x_iptr (text_at s xp) = Some ip) /\
               1 < x_count (text_at s xp) < 128 /\ 1 < x_ccount (text_at s xp) < 128
  end.

(** The new image's text: none, in use and idle, or with a free entry. *)
Definition text_ready (s : kst) (ip : nat) (tsize : Z) : Prop :=
  tsize = 0 \/ (exists xp, find_text ip s = Some xp /\ text_idle s xp) \/ (find_text ip s = None /\ exists xp, free_text s = Some xp).

Lemma find_same {A} (f g : A -> bool) l : (forall x, f x = g x) -> List.find f l = List.find g l.
Proof. intros E. induction l as [|x l IH]; [done|]. cbn. by rewrite E, IH. Qed.

Lemma text_ready_like s s' ip T : texts_like s s' -> text_ready s ip T -> text_ready s' ip T.
Proof.
  intros HT. assert (E1 : find_text ip s' = find_text ip s) by (apply find_same; intros xp; by destruct (HT xp) as [-> _]).
  assert (E2 : free_text s' = free_text s) by (apply find_same; intros xp; by destruct (HT xp) as [-> _]).
  unfold text_ready. rewrite E1, E2. intros [?|[(xp & Ef & Hi)|?]]; [by left| |by right; right]. right. left. exists xp. split; [done|]. by apply HT.
Qed.

Lemma nth_zeros k n : nth k (replicate n 0) 0 = 0.
Proof. revert k. induction n as [|n IH]; intros [|k]; try done. apply IH. Qed.

(** * The decoded header *)

(** The header of an executable of [T] bytes of text, [D] of data and [B]
    cleared ones, entered at [ent]. *)
Record good_header (l : list Z) (T D B ent : Z) : Prop := {
  gh_len : length l = 32%nat;
  gh_bytes : Forall isbyte l;
  gh_mid : aout_getmid l = AOUT_MID_SUN010;
  gh_magic : aout_getmagic l = AOUT_ZMAGIC;
  gh_text : hword l 4 = AOUT_HDR_SIZE + T;
  gh_data : hword l 8 = D;
  gh_bss : hword l 12 = B;
  gh_ent : hword l 20 = ent
}.

Definition clicks (n : Z) : Z := (n + 63) / 64.

Lemma exec_btoc32_clicks n : 0 <= n < 2 ^ 31 -> exec_btoc32 n = clicks n.
Proof. intros Hn. unfold exec_btoc32, clicks. rewrite u32_id by lia. by rewrite Z.shiftr_div_pow2. Qed.

Lemma fget_at pre v post : fget (Fld (length pre) 4 false) (pre ++ be 4 v ++ post) = u32 v.
Proof.
  unfold fget. cbn [fld_off fld_len]. rewrite drop_app_length, take_app_length' by (by rewrite length_be). rewrite unbe_be. unfold fld_wrap. cbn [fld_signed fld_len].
  apply uwrap_id, uwrap_range. lia.
Qed.

Lemma hword_get32 l i : (i + 4 <= length l)%nat -> Forall isbyte l -> u32 (aout_get32 (drop i l)) = u32 (hword l i).
Proof.
  intros Hl Hb. rewrite aout_get32_word; [|rewrite length_drop; lia|by apply Forall_drop]. by apply (swrap_uwrap 32).
Qed.

Lemma decoded l T D B ent : good_header l T D B ent -> 0 <= T < 2 ^ 31 -> 0 <= D < 2 ^ 32 -> 0 <= B < 2 ^ 32 -> 0 <= ent < 2 ^ 32 ->
  let h := aout_decode l in fget ux_tsize h = T /\ fget ux_dsize h = D /\ fget ux_bsize h = B /\ fget ux_entloc h = ent.
Proof.
  intros [Hl Hb _ _ Et Ed Eb Ee] HT HD HB He h. unfold h. rewrite aout_decode_eq by done.
  pose proof (fun i => hword_get32 l i) as G. split_and!.
  - etransitivity; [exact (fget_at (be 4 264) _ _)|]. rewrite aout_get32_word by (rewrite ?length_drop; (lia || by apply Forall_drop)).
    fold (hword l 4). rewrite Et. unfold AOUT_HDR_SIZE. rewrite <- Z.add_opp_r, swrap_add, swrap_uwrap by done. rewrite u32_id; lia.
  - etransitivity; [exact (fget_at (be 4 264 ++ be 4 _) _ _)|]. rewrite G, Ed, u32_id by (done || lia). done.
  - etransitivity; [exact (fget_at (be 4 264 ++ be 4 _ ++ be 4 _) _ _)|]. rewrite G, Eb, u32_id by (done || lia). done.
  - etransitivity; [exact (fget_at (be 4 264 ++ be 4 _ ++ be 4 _ ++ be 4 _ ++ be 4 _) _ _)|]. rewrite G, Ee, u32_id by (done || lia). done.
Qed.

Section Load.
Context `{Layout}.

Lemma sleep_while_no cond pre c pri e s : cond s = false -> sleep_while cond pre c pri e s = Ret tt e s.
Proof. intros E. unfold sleep_while. cbn [sleep_while_f]. rewrite bind_gets, E. done. Qed.

Lemma xlock_idle xp e s : fset (x_flag (text_at s xp)) XLOCK = false ->
  xlock xp e s = Ret tt e (upd_text xp (fun x => x <| x_flag ::= fun f => Z.lor f XLOCK |>) s).
Proof. intros Hl. unfold xlock. by rewrite (bind_ret _ _ _ _ _ _ _ (sleep_while_no _ _ _ _ e s Hl)). Qed.

Lemma xunlock_idle xp e s : fset (x_flag (text_at s xp)) XWANT = false ->
  xunlock xp e s = Ret tt e (upd_text xp (fun x => x <| x_flag ::= fun f => fclr f (Z.lor XLOCK XWANT) |>) s).
Proof. intros Hw. unfold xunlock. msteps. by rewrite Hw. Qed.

Lemma xccdec_shared ip xp e s : text_idle s xp -> 1 < x_ccount (text_at s xp) < 128 ->
  exists s', xccdec xp e s = Ret tt e s' /\ quiet ip s s' /\ ku s' = ku s /\ texts_like s s'.
Proof.
  intros [Hl Hw] Hc. unfold xccdec. msteps. rewrite (proj2 (Z.eqb_neq _ _)) by lia. rewrite (bind_ret _ _ _ _ _ _ _ (xlock_idle xp e s Hl)). msteps.
  rewrite !text_upd_same. cbn. rewrite swrap_id by lia. rewrite (proj2 (Z.eqb_neq _ _)) by lia. cbn [when]. msteps. rewrite xunlock_idle.
  - eexists. split; [done|]. split; [|split; [done|]].
    + repeat (eapply quiet_trans; [|apply quiet_upd_text]). apply quiet_refl.
    + apply (texts_like_one xp); [intros yp Hne; by rewrite !text_upd_ne|by rewrite !text_upd_same|].
      unfold text_idle. rewrite !text_upd_same. cbn. fl. by rewrite fset_0_r.
  - rewrite !text_upd_same. cbn. rewrite fset_lor, Hw. done.
Qed.

Lemma xfree_ok ip e s : text_shared s -> exists s', xfree e s = Ret tt e s' /\ quiet ip s s' /\ ku s' = ku s /\ texts_like s s'.
Proof.
  unfold text_shared, xfree. msteps. destruct (p_textp (proc_at s (curproc s))) as [xp|]; [|by eexists; split_and!; [done|apply quiet_refl|done|apply texts_like_eq]].
  intros ([Hl Hw] & [jp Ej] & Hc & Hcc). rewrite (bind_ret _ _ _ _ _ _ _ (xlock_idle xp e s Hl)). msteps.
  set (s1 := upd_proc _ _ _). assert (Q1 : quiet ip s s1).
  { eapply quiet_trans; [|by apply quiet_upd_cur]. repeat (eapply quiet_trans; [|apply quiet_upd_text]). apply quiet_refl. }
  assert (Et : text_at s1 xp = text_at s xp <| x_flag ::= fun f => fclr (Z.lor f XLOCK) XLOCK |>).
  { change (text_at s1 xp) with (text_at (upd_text xp (fun x => x <| x_flag ::= fun f => fclr f XLOCK |>)
      (upd_text xp (fun x => x <| x_flag ::= fun f => Z.lor f XLOCK |>) s)) xp). rewrite !text_upd_same. by destruct (text_at s xp). }
  rewrite Et. cbn. rewrite Ej. msteps. set (s2 := upd_text xp _ s1). assert (Et2 : text_at s2 xp = text_at s1 xp <| x_count ::= fun n => i8 (n - 1) |>) by apply text_upd_same.
  rewrite Et2, Et. cbn. rewrite swrap_id by lia. rewrite (proj2 (Z.eqb_neq _ _)) by lia. cbn [andb].
  assert (Hi2 : text_idle s2 xp) by (unfold text_idle; rewrite Et2, Et; cbn; fl; by rewrite Hw).
  destruct (xccdec_shared ip xp e s2) as (s3 & Hr & Q & Ek & Ht); [done|by rewrite Et2, Et|].
  - exists s3. split; [done|]. split; [|split; [by rewrite Ek|apply texts_like_trans with s2; [|done]]]; cycle 1.
    { apply (texts_like_one xp); [intros yp Hne|by rewrite Et2, Et|done].
      change (text_at s2 yp) with (text_at (upd_text xp (fun x => x <| x_count ::= fun n => i8 (n - 1) |>) (upd_text xp (fun x => x <| x_flag ::= fun f => fclr f XLOCK |>)
        (upd_text xp (fun x => x <| x_flag ::= fun f => Z.lor f XLOCK |>) s))) yp). by rewrite !text_upd_ne. } eapply quiet_trans; [exact Q1|]. eapply quiet_trans; [apply quiet_upd_text|exact Q].
Qed.

Lemma xmark_ok ip tsize e s : text_ready s ip tsize -> exists s', xmark tsize ip e s = Ret tt e s' /\ quiet ip s s' /\ ku s' = ku s.
Proof.
  unfold text_ready, xmark. intros [->|[(xp & Ef & Hl & Hw)|(En & xp & Ef)]].
  - rewrite Z.eqb_refl. eexists. split_and!; [done|apply quiet_refl|done].
  - destruct (tsize =? 0); [eexists; split_and!; [done|apply quiet_refl|done]|]. msteps. rewrite Ef.
    rewrite (bind_ret _ _ _ _ _ _ _ (xlock_idle xp e s Hl)). msteps. rewrite xunlock_idle.
    + eexists. split; [done|]. split; [|done]. eapply quiet_trans; [|apply quiet_upd_text]. eapply quiet_trans; [|by apply quiet_upd_cur].
      repeat (eapply quiet_trans; [|apply quiet_upd_text]). apply quiet_refl.
    + set (g := fun x : text => _). change (text_at _ xp) with (text_at (upd_text xp g (upd_text xp (fun x => x <| x_flag ::= fun f => Z.lor f XLOCK |>) s)) xp).
      rewrite !text_upd_same. cbn. rewrite fset_lor, Hw. done.
  - destruct (tsize =? 0); [eexists; split_and!; [done|apply quiet_refl|done]|]. msteps. rewrite En. msteps. rewrite Ef. msteps.
    eexists. split; [done|]. split; [|done]. eapply quiet_trans; [|by apply quiet_upd_cur].
    match goal with |- quiet _ _ (upd_inode _ _ (iset _ _ ?s1)) => apply quiet_trans with s1; [apply quiet_upd_text|] end.
    apply quiet_kp; try done. rewrite inode_upd_same. unfold iset. by rewrite inode_upd_same.
Qed.

(** * The page *)

Lemma expand_set n e s : 0 <= n <= USER_CLICKS ->
  expand (i32 (USIZE + n)) e s = Ret tt e (upd_proc (curproc s) (fun x => x <| p_size := USIZE + n |>) s).
Proof.
  intros Hn. unfold USER_CLICKS in Hn. unfold expand, USIZE. msteps. rewrite (i32_id (16 + n)) by lia. replace (16 + n - 16) with n by lia.
  rewrite (proj2 (Z.ltb_ge _ _)) by lia. rewrite (i32_id n) by lia.
  assert (Ec : ctob n = 64 * n) by (unfold ctob; rewrite Z.shiftl_mul_pow2 by lia; lia). rewrite Ec, i32_id by lia. unfold USER_PAGE_SIZE.
  rewrite (proj2 (Z.ltb_ge _ _)) by lia. cbn [orb]. by rewrite i16_id by lia.
Qed.

Lemma expand_ok ip n e s : 0 <= n <= USER_CLICKS -> exists s', expand (i32 (USIZE + n)) e s = Ret tt e s' /\ quiet ip s s' /\ ku s' = ku s /\ kf s' = kf s.
Proof. intros Hn. rewrite expand_set by done. eexists. split; [done|]. split; [by apply quiet_upd_cur|by split]. Qed.

(** Nothing but user memory has changed. *)
Definition only_mem (s s' : kst) : Prop := s' <| ku; upmem := upmem (ku s) |> = s.

Lemma only_mem_trans s1 s2 s3 : only_mem s1 s2 -> only_mem s2 s3 -> only_mem s1 s3.
Proof. apply wrote_rest_trans. Qed.

Lemma only_mem_fields s s' : only_mem s s' -> kb s' = kb s /\ kp s' = kp s /\ kx s' = kx s /\ kf s' = kf s /\ u s' = u s /\ user_page s' = user_page s.
Proof.
  intros E. set (t := s' <| ku; upmem := upmem (ku s) |>). assert (Et : t = s) by exact E.
  change (kb t = kb s /\ kp t = kp s /\ kx t = kx s /\ kf t = kf s /\ u t = u s /\ user_page t = user_page s). by rewrite Et.
Qed.

Lemma clearseg_ok e n s : 0 <= n < 4096 -> exists s', clearseg n e s = Ret tt e s' /\ only_mem s s' /\
  forall pg x, upmem (ku s') pg x = if decide (pg = user_page s /\ x / 64 = n) then 0 else upmem (ku s) pg x.
Proof.
  intros Hn. unfold clearseg, user_ptr.
  assert (Ea : u32 (u32 n * CLICK_SIZE) = 64 * n) by (unfold CLICK_SIZE; rewrite (u32_id n), u32_id; lia).
  rewrite Ea. assert (Hrg : user_range_ok (64 * n) CLICK_SIZE = true) by (apply user_range_iff; unfold CLICK_SIZE, USER_PAGE_SIZE; lia).
  rewrite Hrg, (u32_id (64 * _)) by lia. eexists. split; [reflexivity|]. split; [by destruct s as [? []]|]. intros pg x.
  change (upmem (ku (s <| ku; upmem ::= ?f |>))) with (f (upmem (ku s))). cbv beta.
  assert (Hx : x / 64 = n <-> 64 * n <= x < 64 * n + 64) by (Z.div_mod_to_equations; lia).
  destruct (decide (pg = user_page s)) as [->|Hne].
  - rewrite fn_lookup_insert, mem_write_lookup. change (Z.of_nat (length (replicate 64 0))) with 64.
    repeat case_decide; try lia; try done. apply nth_zeros.
  - rewrite fn_lookup_insert_ne, decide_False by naive_solver. done.
Qed.

(** The clicks [l] are cleared, and nothing else happens. *)
Lemma clear_list_ok e : forall l s, Forall (fun n => 0 <= n < 4096) l -> exists s', for_each l clearseg e s = Ret tt e s' /\ only_mem s s' /\
  forall pg x, upmem (ku s') pg x = if decide (pg = user_page s /\ x / 64 ∈ l) then 0 else upmem (ku s) pg x.
Proof.
  induction l as [|n l IH]; intros s Hl.
  - exists s. split; [done|]. split; [by destruct s as [? []]|]. intros pg x. rewrite decide_False; [done|]. intros [_ Hx]. by apply not_elem_of_nil in Hx.
  - apply Forall_cons in Hl as [Hn Hl]. destruct (clearseg_ok e n s Hn) as (s1 & Hr1 & O1 & M1). destruct (IH s1 Hl) as (s2 & Hr2 & O2 & M2).
    exists s2. split; [cbn [for_each]; by rewrite (bind_ret _ _ _ _ _ _ _ Hr1)|]. split; [by apply only_mem_trans with s1|].
    intros pg x. rewrite M2, M1. destruct (only_mem_fields _ _ O1) as (_ & _ & _ & _ & _ & ->).
    destruct (decide (pg = user_page s)) as [->|Hne]; [|rewrite !decide_False by (intros [? _]; done); done].
    destruct (decide (x / 64 ∈ l)) as [Hx|Hx]; [rewrite !decide_True by (split; [done|]; try done; by right); done|].
    rewrite (decide_False (P := user_page s = user_page s /\ x / 64 ∈ l)) by tauto.
    destruct (decide (x / 64 = n)) as [->|Hne]; [rewrite !decide_True by (split; [done|]; try done; by left); done|].
    rewrite !decide_False; [done| |tauto]. intros [_ Hin]. by apply elem_of_cons in Hin as [?|?].
Qed.

Lemma clear_ok ip e n s : 0 <= n <= 4096 ->
  exists s', for_each (rev (seqZ 0 n)) clearseg e s = Ret tt e s' /\ quiet ip s s' /\ (u s' = u s /\ kf s' = kf s) /\
    forall pg x, upmem (ku s') pg x = if decide (pg = user_page s /\ 0 <= x < 64 * n) then 0 else upmem (ku s) pg x.
Proof.
  intros Hn. assert (Hin : forall x, x ∈ rev (seqZ 0 n) <-> 0 <= x < n).
  { intros x. rewrite list_elem_of_In, <- in_rev, <- list_elem_of_In, elem_of_seqZ. lia. }
  destruct (clear_list_ok e (rev (seqZ 0 n)) s) as (s' & Hr & O & Hm); [apply Forall_forall; intros x Hx; apply Hin in Hx; lia|].
  destruct (only_mem_fields _ _ O) as (E1 & E2 & E3 & E4 & E5 & _). exists s'. split; [done|].
  split; [apply quiet_kp; try done; [by rewrite E5|unfold inode_at; by rewrite E4]|]. split; [done|]. intros pg x. rewrite Hm.
  assert (Hx : x / 64 ∈ rev (seqZ 0 n) <-> 0 <= x < 64 * n) by (rewrite Hin; Z.div_mod_to_equations; lia).
  repeat case_decide; try done; tauto.
Qed.

Context `{!Cdevsw} (W : kst -> holding -> (Z -> list Z) -> Prop) `{!BlockStore W}.

Lemma quiet_store ip s s' hs V : W s hs V -> quiet ip s s' -> W s' hs V.
Proof. intros Hw [B S _]. by apply (bs_sched s). Qed.

(** A disk file that is being read without error. *)
Lemma reading_next_to ip V hs s s' : reading W ip V hs s -> W s' hs V -> keeps ip s s' -> u_error (u s') = u_error (u s) -> reading W ip V hs s'.
Proof.
  intros [R1 R2 R3 R4 R5 R6] Hw [_ _ Ei Ec _ _] Ee. unfold ifile in Ei. injection Ei as E1 E2 _ _ _ _.
  split; [done|done|by rewrite Ec|by rewrite E1|by rewrite Ee|by rewrite E2].
Qed.

Lemma quiet_reading ip V hs s s' : reading W ip V hs s -> quiet ip s s' -> u_error (u s') = u_error (u s) -> reading W ip V hs s'.
Proof. intros Hr Q Ee. apply (reading_next_to ip V hs s s' Hr); [by apply (quiet_store ip s), Q; apply Hr|apply Q|done]. Qed.

(** The blocks of the first [n] bytes can be read. *)
Definition all_readable (hs : holding) (V : Z -> list Z) (addr : Z -> Z) (n : Z) : Prop :=
  forall bn, 0 <= bn <= (n - 1) / 512 -> readable V hs addr bn.

(** [count] bytes at [off] of the file read to [base]. *)
Lemma getx_read_ok ip base off count e s hs V : reading W ip V hs s -> let x := inode_at s ip in
  is_cdev (i_mode x) = false -> is_bdev (i_mode x) = false -> 0 <= off -> 0 <= count -> off + count <= i_size x ->
  0 <= base -> base + count <= USER_PAGE_SIZE -> u_segflg (u s) <> 1 -> all_readable hs V (i_addr x) (i_size x) ->
  exists s', getx_read ip base off count e s = Ret tt e s' /\ W s' hs V /\ (keeps ip s s' /\ texts (kf s') = texts (kf s)) /\
    u s' = advance count (u s <| u_base := UA base |> <| u_offset := i32 off |> <| u_count := count |>) /\
    forall pg a, upmem (ku s') pg a = if decide (pg = user_page s /\ base <= a < base + count)
                                      then file_byte V (i_addr x) (off + (a - base)) else upmem (ku s) pg a.
Proof.
  intros Hrg x Hcd Hbd Ho Hc Hsz Hb Hbc Hsg Hrd. unfold USER_PAGE_SIZE in Hbc. unfold getx_read. msteps.
  set (g := fun y : user => y <| u_base := UA base |> <| u_offset := i32 off |> <| u_count := count |>). change (upd_u _ s) with (upd_u g s).
  set (s1 := upd_u g s). assert (Eu : u s1 = g (u s)) by (unfold s1; by rewrite u_upd_u). pose proof (rg_size _ _ _ _ _ Hrg) as Hlt. fold x in Hlt.
  assert (Q1 : quiet ip s s1) by (by apply quiet_upd_u). assert (Hrg1 : reading W ip V hs s1) by (apply (quiet_reading ip V hs s); [done|done|by rewrite Eu]).
  destruct (decide (count = 0)) as [->|Hc0].
  - exists s1. assert (E0 : u_count (u s1) = 0) by (by rewrite Eu). split; [|split; [apply Hrg1|split; [split; [apply Q1|done]|split]]].
    + unfold readi. msteps. rewrite E0. done.
    + change (u s1 = advance 0 (g (u s))). rewrite Eu. symmetry. unfold g. apply advance_0; cbn; [by rewrite Z.add_0_r, u32_id by lia|rewrite i32_id; lia|lia].
    + intros pg a. rewrite decide_False by lia. done.
  - assert (En : to_read s1 (i_size (inode_at s1 ip)) = count).
    { unfold to_read. rewrite Eu. change (inode_at s1 ip) with x. cbn. rewrite i32_id by lia. lia. }
    pose proof (readi_run W ip e s1 hs V Hrg1) as R. cbv zeta in R. rewrite En in R. change (inode_at s1 ip) with x in R.
    assert (Eo : u_offset (u s1) = off) by (rewrite Eu; cbn; by rewrite i32_id by lia). rewrite Eo in R.
    destruct R as (s2 & Hr & [D1 [D2 D3 D4 D5] D6 _]); try done; try lia.
    + rewrite Eu. cbn. lia.
    + split; rewrite Eu; cbn; [|done|rewrite i32_id by lia; lia|lia]. exists base. split; [done|]. unfold USER_PAGE_SIZE. lia.
    + intros bn Hbn. apply Hrd. split; [|transitivity ((off + count - 1) / 512); [lia|apply Z.div_le_mono; lia]].
      pose proof (Z.div_pos off 512). lia.
    + rewrite length_file_bytes, Z2Nat.id in D2, D5 by lia. change (u (iset ip IACC s1)) with (u s1) in D2, D5.
      exists s2. split; [done|]. split; [done|]. split; [split; [|apply D6]|split; [by rewrite D2, Eu|]].
      * apply keeps_trans with s1; [apply Q1|]. apply keeps_procs; [done|done| |].
        -- unfold curproc. rewrite D2. done.
        -- destruct D6 as (_ & En' & _). rewrite (nolast_ifile _ _ En'). unfold iset. by rewrite inode_upd_same.
      * intros pg a. rewrite (D5 base) by (by rewrite Eu). change (user_page (iset ip IACC s1)) with (user_page s1).
        change (upmem (ku (iset ip IACC s1)) pg a) with (upmem (ku s) pg a). rewrite (ks_page _ _ _ (qt_keeps _ _ _ Q1)).
        case_decide as Hd; [|done]. unfold file_bytes. rewrite (nth_lookup_Some _ _ _ (file_byte V (i_addr x) (off + (a - base)))); [done|].
        rewrite list_lookup_fmap, lookup_seqZ_lt by lia. cbn. do 2 f_equal. lia.
Qed.


(** What the process keeps of its user structure. *)
Definition ufix (x : user) : option (regname -> Z) * nat * Z * list Z * (Z -> option nat) * (Z -> Z) * (Z -> Z) * (Z * Z) :=
  (u_ar0 x, u_procp x, u_error x, u_arg x, u_ofile x, u_pofile x, u_signal x, (u_uid x, u_gid x)).

Definition text_open (s : kst) (ip : nat) (T : Z) : Prop := T = 0 \/ ihas ip ITEXT s = true \/ i_count (inode_at s ip) = 1.

(** The sizes fit the window with [ss] clicks of stack. *)
Record good_sizes (size nargc T D B ent : Z) : Prop := {
  gs_text : 0 <= T;
  gs_data : 0 <= D;
  gs_bss : 0 <= B;
  gs_ent : 0 <= ent < 2 ^ 32;
  gs_args : 0 <= nargc < 2 ^ 30;
  gs_room : clicks (T + D + B) + (SSIZE + clicks nargc) <= USER_CLICKS;
  gs_file : AOUT_HDR_SIZE + T + D <= size < 2 ^ 31
}.

Lemma clicks_bounds n : n <= 64 * clicks n < n + 64.
Proof. unfold clicks. Z.div_mod_to_equations. lia. Qed.

Lemma good_sizes_small size nargc T D B ent : good_sizes size nargc T D B ent ->
  T + D + B < 2 ^ 18 /\ 0 <= clicks T <= clicks (T + D + B) /\ 0 <= SSIZE + clicks nargc <= USER_CLICKS.
Proof.
  intros [? ? ? _ ? Hr _]. unfold USER_CLICKS, SSIZE in *. pose proof (clicks_bounds (T + D + B)). pose proof (clicks_bounds nargc). pose proof (clicks_bounds T).
  split; [lia|]. split; [|lia]. split; [lia|]. apply Z.div_le_mono; lia.
Qed.

Lemma text_open_test s ip T : text_open s ip T -> negb (T =? 0) && negb (ihas ip ITEXT s) && negb (i_count (inode_at s ip) =? 1) = false.
Proof.
  intros [-> |[-> | ->]]; [done| |]; destruct (negb (T =? 0)); cbn; done || by rewrite andb_false_r.
Qed.

Lemma getx_magic_ok ip T D B ent e s hs V : reading W ip V hs s -> let x := inode_at s ip in
  is_cdev (i_mode x) = false -> is_bdev (i_mode x) = false -> readable V hs (i_addr x) 0 -> AOUT_HDR_SIZE <= i_size x ->
  good_header (file_bytes V (i_addr x) 0 32) T D B ent -> length (u_exdata (u s)) = 32%nat ->
  exists s', getx_magic ip e s = Ret true e s' /\ reading W ip V hs s' /\ keeps ip s s' /\
    (ihas ip ITEXT s' = ihas ip ITEXT s /\ i_count (inode_at s' ip) = i_count (inode_at s ip) /\ texts (kf s') = texts (kf s) /\
      (text_shared s -> text_shared s')) /\
    u_exdata (u s') = aout_decode (file_bytes V (i_addr x) 0 32) /\ u_segflg (u s') = 0 /\ ufix (u s') = ufix (u s) /\ upmem (ku s') = upmem (ku s).
Proof.
  intros Hrg x Hcd Hbd Hrd Hsz Hh Hl. unfold AOUT_HDR_SIZE in Hsz. unfold getx_magic. msteps.
  set (s1 := upd_u want_header s). assert (Eu : u s1 = want_header (u s)) by (unfold s1; by rewrite u_upd_u).
  assert (Q1 : quiet ip s s1) by (by apply quiet_upd_u). assert (Hrg1 : reading W ip V hs s1) by (apply (quiet_reading ip V hs s); [done|done|by rewrite Eu]).
  destruct (readi_header W ip e s1 hs V Hrg1) as (s2 & Hr2 & Eu2 & Em2 & [W2 P2 U2 I2]); try done; [by rewrite Eu|by rewrite Eu| |].
  { split; rewrite Eu; cbn; [done|done|rewrite Hl; lia|lia|unfold AOUT_HDR_SIZE; lia]. }
  rewrite (bind_ret _ _ _ _ _ _ _ Hr2). msteps. set (g := fun y : user => y <| u_segflg := 0 |>). change (upd_u _ s2) with (upd_u g s2). set (s3 := upd_u g s2).
  change (inode_at s1 ip) with x in Eu2. set (l := file_bytes V (i_addr x) 0 32) in *.
  assert (Ll : length l = 32%nat) by apply Hh. assert (E3 : u s3 = g (stored 0 l (want_header (u s)))) by (unfold s3; by rewrite u_upd_u, Eu2, Eu).
  assert (Ex : u_exdata (u s3) = l) by (rewrite E3; unfold stored; cbn; unfold splice; rewrite Ll, take_0, drop_ge by lia; apply app_nil_r).
  assert (Ee : u_error (u s3) = 0) by (rewrite E3; exact (rg_error _ _ _ _ _ Hrg)).
  assert (Ec : u_count (u s3) = 0) by (rewrite E3; unfold stored; cbn; by rewrite Ll). rewrite Ee, Ec, Ex. cbn [negb Z.eqb].
  rewrite (gh_mid _ _ _ _ _ Hh), (gh_magic _ _ _ _ _ Hh). change (negb (_ =? _) || _) with false. cbv iota. msteps.
  set (d := fun y : user => y <| u_exdata ::= aout_decode |>). change (upd_u _ s3) with (upd_u d s3). set (s4 := upd_u d s3).
  assert (E4 : u s4 = d (u s3)) by (unfold s4; by rewrite u_upd_u). destruct I2 as (_ & En & _ & _ & Etx). unfold iset in En. rewrite inode_upd_same in En.
  assert (K2 : keeps ip s1 s2).
  { apply keeps_procs; [exact P2|exact U2|unfold curproc; by rewrite Eu2|]. by rewrite (nolast_ifile _ _ En). }
  assert (Q : quiet ip s2 s4) by (apply quiet_trans with s3; by apply quiet_upd_u).
  assert (K : keeps ip s s4) by (apply keeps_trans with s1; [apply Q1|]; apply keeps_trans with s2; [done|apply Q]).
  exists s4. split; [done|]. split; [|split; [done|]].
  - apply (reading_next_to ip V hs s); [done|by apply (quiet_store ip s2)|done|]. rewrite E4. transitivity (u_error (u s3)); [done|]. rewrite Ee. symmetry. apply Hrg.
  - split; [|split; [by rewrite E4, <- Ex|split; [by rewrite E4, E3|split; [by rewrite E4, E3|exact Em2]]]].
    change (inode_at s1 ip) with x in En. split; [|split; [|split; [exact Etx|]]]; cycle 2.
    { unfold text_shared. rewrite (ks_cur _ _ _ K). pose proof (unsched_textp _ _ (proj2 P2 (curproc s) (rg_proc _ _ _ _ _ Hrg))) as Ep.
      change (proc_at s4) with (proc_at s2). rewrite Ep. unfold text_idle, text_at. change (texts (kf s4)) with (texts (kf s2)). by rewrite Etx. }
    + change (fset (i_flag (nolast (inode_at s2 ip))) ITEXT = fset (i_flag x) ITEXT). rewrite En. cbn. rewrite fset_lor. by rewrite orb_false_r.
    + change (i_count (nolast (inode_at s2 ip)) = i_count x). by rewrite En.
Qed.

Lemma getx_sizes_ok ip nargc T D B ent l e s : good_header l T D B ent -> good_sizes (i_size (inode_at s ip)) nargc T D B ent -> text_open s ip T ->
  u_exdata (u s) = aout_decode l -> getx_sizes ip nargc e s = Ret (Some (clicks T, clicks (T + D + B), SSIZE + clicks nargc)) e s.
Proof.
  intros Hh Hs Ht Ex. pose proof (good_sizes_small _ _ _ _ _ _ Hs) as (Hsm & Htc & Hss). destruct Hs as [HT HD HB He Ha Hr Hf]. unfold getx_sizes. msteps. rewrite Ex.
  destruct (decoded l T D B ent Hh) as (-> & -> & -> & _); try lia. rewrite (i32_id T) by lia. rewrite (proj2 (Z.ltb_ge _ _)) by lia. msteps.
  rewrite text_open_test by done. cbv zeta. rewrite !u32_id by lia.
  rewrite (proj2 (Z.ltb_ge (T + D) T)), (proj2 (Z.ltb_ge (T + D + B) _)) by lia. cbn [orb]. rewrite (u32_id nargc), !exec_btoc32_clicks by lia. unfold USER_CLICKS in *.
  rewrite (u32_id (SSIZE + _)) by lia. assert (Hes : estabur (clicks T) (clicks (T + D + B)) (SSIZE + clicks nargc) 0 RO e s = Ret 0 e s).
  { apply estabur_accepts; unfold USER_CLICKS; lia. }
  by rewrite (bind_ret _ _ _ _ _ _ _ Hes).
Qed.

(** ** The old image replaced *)

(** The new image: [T + D] bytes of the file after the header, then zeros up to
    a whole click, in the page of the process and nowhere else. *)
Definition image_loaded (V : Z -> list Z) (addr : Z -> Z) (n ds : Z) (s s' : kst) : Prop :=
  forall pg a, upmem (ku s') pg a =
    if decide (pg = user_page s /\ 0 <= a < 64 * ds) then (if a <? n then file_byte V addr (AOUT_HDR_SIZE + a) else 0)
    else upmem (ku s) pg a.

(** The text read over the cleared page, if there is one. *)
Lemma load_text ip ts T e s hs V : reading W ip V hs s -> let x := inode_at s ip in
  is_cdev (i_mode x) = false -> is_bdev (i_mode x) = false -> 0 <= T -> AOUT_HDR_SIZE + T <= i_size x -> T <= USER_PAGE_SIZE ->
  u_segflg (u s) = 0 -> all_readable hs V (i_addr x) (i_size x) -> 0 <= ts <= USER_CLICKS ->
  exists s', (if negb (T =? 0) then
       _ ← estabur ts 0 0 0 RW;
       _ ← modify (upd_u (fun x => x <| u_segflg := 2 |>));
       _ ← getx_read ip 0 AOUT_HDR_SIZE T;
       _ ← modify (upd_u (fun x => x <| u_segflg := 0 |>));
       er ← gets uerror; mret (er =? 0)
     else mret true) e s = Ret true e s' /\ reading W ip V hs s' /\ (keeps ip s s' /\ texts (kf s') = texts (kf s)) /\
    (ufix (u s') = ufix (u s) /\ u_segflg (u s') = 0 /\ u_exdata (u s') = u_exdata (u s)) /\
    forall pg a, upmem (ku s') pg a = if decide (pg = user_page s /\ 0 <= a < T) then file_byte V (i_addr x) (AOUT_HDR_SIZE + a) else upmem (ku s) pg a.
Proof.
  intros Hrg x Hcd Hbd HT Hsz Hpg Hsg Hrd Hts. unfold USER_CLICKS, AOUT_HDR_SIZE in *. destruct (Z.eqb_spec T 0) as [->|HT0]; cbn [negb].
  - exists s. split; [done|]. split; [done|]. split; [by split; [apply keeps_refl|]|]. split; [done|]. intros pg a. rewrite decide_False by lia. done.
  - assert (Hes : estabur ts 0 0 0 RW e s = Ret 0 e s).
    { unfold estabur, max32, USER_CLICKS. replace (if 0 <? ts then ts else 0) with ts by (destruct (Z.ltb_spec 0 ts); lia).
      change (negb (0 =? 0)) with false. rewrite (proj2 (Z.ltb_ge 4096 ts)) by lia. by rewrite (proj2 (Z.ltb_ge (u32 (4096 - ts)) 0)) by (pose proof (uwrap_range 32 (4096 - ts)); lia). }
    rewrite (bind_ret _ _ _ _ _ _ _ Hes). msteps. set (g := fun y : user => y <| u_segflg := 2 |>). change (upd_u _ s) with (upd_u g s). set (s1 := upd_u g s).
    assert (Eu : u s1 = g (u s)) by (unfold s1; by rewrite u_upd_u). assert (Q1 : quiet ip s s1) by (by apply quiet_upd_u).
    assert (Hrg1 : reading W ip V hs s1) by (apply (quiet_reading ip V hs s); [done|done|by rewrite Eu]).
    destruct (getx_read_ok ip 0 32 T e s1 hs V Hrg1) as (s2 & Hr & W2 & [K2 T2] & E2 & M2); try done; [by rewrite Eu|].
    unfold AOUT_HDR_SIZE. rewrite (bind_ret _ _ _ _ _ _ _ Hr). msteps. set (h := fun y : user => y <| u_segflg := 0 |>). change (upd_u _ s2) with (upd_u h s2). set (s3 := upd_u h s2).
    assert (E3 : u s3 = h (u s2)) by (unfold s3; by rewrite u_upd_u). assert (Q3 : quiet ip s2 s3) by (by apply quiet_upd_u).
    assert (K : keeps ip s s3) by (apply keeps_trans with s1; [apply Q1|]; apply keeps_trans with s2; [done|apply Q3]).
    assert (Eer : u_error (u s3) = u_error (u s)) by (by rewrite E3, E2, Eu). unfold uerror. rewrite Eer, (rg_error _ _ _ _ _ Hrg).
    exists s3. split; [done|]. split; [apply (reading_next_to ip V hs s); [done|by apply (quiet_store ip s2)|done|done]|]. split; [by split|].
    split; [by rewrite E3, E2, Eu|]. intros pg a. change (upmem (ku s3) pg a) with (upmem (ku s2) pg a). rewrite M2.
    rewrite (ks_page _ _ _ (qt_keeps _ _ _ Q1)). change (upmem (ku s1) pg a) with (upmem (ku s) pg a). change (inode_at s1 ip) with x.
    rewrite Z.add_0_l, Z.sub_0_r. done.
Qed.

Lemma getx_load_ok ip ts ds ss T D l e s hs V : reading W ip V hs s -> let x := inode_at s ip in
  is_cdev (i_mode x) = false -> is_bdev (i_mode x) = false -> text_shared s -> u_exdata (u s) = l -> fget ux_tsize l = T -> fget ux_dsize l = D ->
  0 <= T -> 0 <= D -> AOUT_HDR_SIZE + T + D <= i_size x -> T + D <= 64 * ds -> 0 <= ts <= USER_CLICKS -> 0 <= ss -> ds + ss <= USER_CLICKS ->
  u_segflg (u s) = 0 -> all_readable hs V (i_addr x) (i_size x) ->
  exists s', getx_load ip ts ds ss e s = Ret true e s' /\ reading W ip V hs s' /\ (keeps ip s s' /\ texts_like s s') /\
    (ufix (u s') = ufix (u s) /\ u_exdata (u s') = l) /\ image_loaded V (i_addr x) (T + D) ds s s'.
Proof.
  intros Hrg x Hcd Hbd Htx El ET ED HT HD Hsz Hds Hts Hss Hfit Hsg Hrd. unfold USER_CLICKS, AOUT_HDR_SIZE in *. pose proof (rg_size _ _ _ _ _ Hrg) as Hlt. fold x in Hlt.
  unfold getx_load. msteps. set (s1 := upd_u no_profile s). assert (E1 : u s1 = no_profile (u s)) by (unfold s1; by rewrite u_upd_u).
  assert (Q1 : quiet ip s s1) by (by apply quiet_upd_u). assert (Htx1 : text_shared s1) by (unfold text_shared; rewrite (ks_cur _ _ _ (qt_keeps _ _ _ Q1)); exact Htx).
  destruct (xfree_ok ip e s1 Htx1) as (s2 & Hr2 & Q2 & M2 & T2). rewrite (bind_ret _ _ _ _ _ _ _ Hr2). msteps.
  set (s3 := upd_proc _ _ s2). assert (Q3 : quiet ip s2 s3) by (by apply quiet_upd_cur).
  destruct (expand_ok ip (ds + ss) e s3) as (s4 & Hr4 & Q4 & M4 & F4); [unfold USER_CLICKS; lia|]. replace (USIZE + ds + ss) with (USIZE + (ds + ss)) by lia.
  rewrite (bind_ret _ _ _ _ _ _ _ Hr4). destruct (clear_ok ip e ds s4) as (s5 & Hr5 & Q5 & [E5 F5] & M5); [lia|].
  rewrite (bind_ret _ _ _ _ _ _ _ Hr5). msteps.
  assert (E : u s5 = no_profile (u s)) by (rewrite E5; unfold u; rewrite M4; change (ku s3) with (ku s2); rewrite M2; exact E1).
  assert (Q : quiet ip s s5) by (eapply quiet_trans; [exact Q1|]; eapply quiet_trans; [exact Q2|]; eapply quiet_trans; [exact Q3|]; by eapply quiet_trans).
  assert (Hrg5 : reading W ip V hs s5) by (apply (quiet_reading ip V hs s); [done|done|by rewrite E]).
  change (uerror s5) with (u_error (u s5)). rewrite (rg_error _ _ _ _ _ Hrg5). cbn [negb Z.eqb]. msteps.
  assert (El5 : u_exdata (u s5) = l) by (rewrite E; exact El). rewrite El5, ET, ED.
  assert (Ei5 : ifile (inode_at s5 ip) = ifile x) by apply Q. unfold ifile in Ei5. injection Ei5 as _ Es5 Em5 Ea5 _ _.
  assert (T5 : texts_like s s5).
  { apply texts_like_trans with s2; [by apply (texts_like_trans s s1); [apply texts_like_eq|]|]. apply texts_like_eq. by rewrite F5, F4. }
  destruct (load_text ip ts T e s5 hs V Hrg5) as (s6 & Hr6 & Hrg6 & [K6 T6] & (U6 & Sg6 & X6) & M6); rewrite ?Em5, ?Es5, ?Ea5; try done;
    [unfold AOUT_HDR_SIZE; lia|unfold USER_PAGE_SIZE; lia|by rewrite E|].
  revert Hr6. unfold AOUT_HDR_SIZE. intros Hr6. rewrite (bind_ret _ _ _ _ _ _ _ Hr6). cbn [negb].
  assert (Hes : estabur 0 ds 0 0 RO e s6 = Ret 0 e s6) by (apply estabur_accepts; unfold USER_CLICKS; lia).
  rewrite (bind_ret _ _ _ _ _ _ _ Hes). rewrite u32_id by lia. pose proof (ks_file _ _ _ K6) as Ei6. unfold ifile in Ei6. injection Ei6 as _ Es6 Em6 Ea6 _ _.
  destruct (getx_read_ok ip T (32 + T) D e s6 hs V Hrg6) as (s7 & Hr7 & W7 & [K7 T7] & E7 & M7); rewrite ?Em6, ?Es6, ?Ea6, ?Em5, ?Es5, ?Ea5; try done;
    [lia|unfold USER_PAGE_SIZE; lia|by rewrite Sg6|].
  rewrite (bind_ret _ _ _ _ _ _ _ Hr7). msteps. assert (E70 : u_error (u s7) = u_error (u s6)) by (by rewrite E7).
  change (uerror s7) with (u_error (u s7)). rewrite E70, (rg_error _ _ _ _ _ Hrg6).
  assert (K : keeps ip s s7) by (eapply keeps_trans; [apply Q|]; by eapply keeps_trans).
  exists s7. split; [done|]. split; [by apply (reading_next_to ip V hs s6)|]. split; [split; [done|]|].
  { apply texts_like_trans with s5; [done|]. by apply (texts_like_trans s5 s6); apply texts_like_eq. }
  assert (Uf : ufix (u s7) = ufix (u s)) by (rewrite E7; transitivity (ufix (u s6)); [done|]; rewrite U6, E; done).
  assert (Xf : u_exdata (u s7) = l) by (rewrite E7; transitivity (u_exdata (u s6)); [done|by rewrite X6]). split; [done|].
  assert (P5 : user_page s5 = user_page s) by apply Q. assert (P6 : user_page s6 = user_page s) by (by rewrite (ks_page _ _ _ K6)).
  assert (P4 : user_page s4 = user_page s) by (eapply eq_trans; [symmetry; apply Q5|exact P5]).
  assert (M0 : upmem (ku s4) = upmem (ku s)) by (rewrite M4; change (ku s3) with (ku s2); by rewrite M2).
  intros pg a. rewrite M7, M6, M5, P4, P5, P6, M0, Ea6, Ea5. unfold AOUT_HDR_SIZE. destruct (decide (pg = user_page s)) as [->|Hne].
  - destruct (Z.ltb_spec a (T + D)); repeat case_decide; try done; try lia. f_equal. lia.
  - rewrite !decide_False by (intros [? _]; done). done.
Qed.

(** ** The whole of [getxfile] *)

(** The user and group the new image runs under. *)
Definition new_ids (y : inode) (x : user) : Z * Z :=
  (if fset (i_mode y) ISUID && negb (u_uid x =? 0) then i_uid y else u_uid x, if fset (i_mode y) ISGID then i_gid y else u_gid x).

Definition unids (x : user) : option (regname -> Z) * nat * Z * list Z * (Z -> Z) := (u_ar0 x, u_procp x, u_error x, u_exdata x, u_pofile x).

Lemma new_ids_same y y' x x' : ifile y' = ifile y -> ufix x' = ufix x -> new_ids y' x' = new_ids y x.
Proof.
  unfold ifile, ufix, new_ids. intros Ei Eu. injection Ei as _ _ -> _ -> ->. apply pair_equal_spec in Eu as [_ Eu]. by injection Eu as -> ->.
Qed.

Lemma set_ids_ok ip e s : exists s', set_ids ip e s = Ret tt e s' /\ quiet ip s s' /\ upmem (ku s') = upmem (ku s) /\
  (u_uid (u s'), u_gid (u s')) = new_ids (inode_at s ip) (u s) /\ unids (u s') = unids (u s).
Proof.
  unfold set_ids, new_ids. msteps. set (y := inode_at s ip).
  assert (Hg : forall s1, exists s2, when (fset (i_mode y) ISGID) (modify (upd_u (fun x => x <| u_gid := i_gid y |>))) e s1 = Ret tt e s2 /\ quiet ip s1 s2 /\
    upmem (ku s2) = upmem (ku s1) /\ (u_uid (u s2), u_gid (u s2)) = (u_uid (u s1), if fset (i_mode y) ISGID then i_gid y else u_gid (u s1)) /\ unids (u s2) = unids (u s1)).
  { intros s1. destruct (fset (i_mode y) ISGID); cbn [when]; eexists; (split; [done|]); [|by split; [apply quiet_refl|]].
    split; [by apply quiet_upd_u|]. split; [done|]. by rewrite u_upd_u. }
  destruct (fset (i_mode y) ISUID && negb (u_uid (u s) =? 0)); cbn [when]; [|exact (Hg s)]. msteps. set (s1 := upd_proc _ _ _).
  destruct (Hg s1) as (s2 & Hr & Q & M & I & N). exists s2. split; [exact Hr|]. split; [|split; [exact M|]].
  - eapply quiet_trans; [|exact Q]. eapply quiet_trans; [|by apply quiet_upd_cur]. by apply quiet_upd_u.
  - assert (E1 : u s1 = u s <| u_uid := i_uid y |>) by exact (u_upd_u (fun x => x <| u_uid := i_uid y |>) s). rewrite I, N, E1. done.
Qed.

(** What [getxfile] is called with: an open file with a good header, and a
    process that may give its image up. *)
Record loadable (ip : nat) (nargc T D B ent : Z) (hs : holding) (V : Z -> list Z) (s : kst) : Prop := {
  ld_reading : reading W ip V hs s;
  ld_cdev : is_cdev (i_mode (inode_at s ip)) = false;
  ld_bdev : is_bdev (i_mode (inode_at s ip)) = false;
  ld_blocks : all_readable hs V (i_addr (inode_at s ip)) (i_size (inode_at s ip));
  ld_header : good_header (file_bytes V (i_addr (inode_at s ip)) 0 32) T D B ent;
  ld_sizes : good_sizes (i_size (inode_at s ip)) nargc T D B ent;
  ld_open : text_open s ip T;
  ld_shared : text_shared s;
  ld_ready : text_ready s ip T;
  ld_exdata : length (u_exdata (u s)) = 32%nat;
  ld_untraced : fset (p_flag (proc_at s (curproc s))) STRC = false
}.

Lemma getxfile_ok ip nargc T D B ent e s hs V : loadable ip nargc T D B ent hs V s -> let x := inode_at s ip in
  exists s', getxfile ip nargc e s = Ret tt e s' /\ W s' hs V /\ keeps ip s s' /\
    image_loaded V (i_addr x) (T + D) (clicks (T + D + B)) s s' /\
    (u_tsize (u s'), u_dsize (u s'), u_ssize (u s')) = (clicks T, clicks (T + D + B), SSIZE + clicks nargc) /\
    (u_uid (u s'), u_gid (u s')) = new_ids x (u s) /\ fget ux_entloc (u_exdata (u s')) = ent /\
    u_error (u s') = 0 /\ u_ar0 (u s') = u_ar0 (u s) /\ u_pofile (u s') = u_pofile (u s).
Proof.
  intros [Hrg Hcd Hbd Hrd Hh Hs Hto Hts Htr Hl Htrc] x. fold x in Hcd, Hbd, Hrd, Hh, Hs.
  pose proof (good_sizes_small _ _ _ _ _ _ Hs) as (Hsm & Htc & Hss). pose proof Hs as [HT HD HB He Ha Hr Hf]. pose proof (clicks_bounds (T + D + B)) as Hcl.
  unfold AOUT_HDR_SIZE, USER_CLICKS in *. set (hdr := file_bytes V (i_addr x) 0 32) in *. unfold getxfile, getx_header. rewrite bind_assoc.
  destruct (getx_magic_ok ip T D B ent e s hs V Hrg) as (s1 & Hr1 & Hrg1 & K1 & (T1 & C1 & X1 & Y1) & E1 & S1 & U1 & M1); try done; [apply Hrd; split; [lia|]; apply Z.div_pos; fold x; lia|unfold AOUT_HDR_SIZE; fold x; lia|].
  rewrite (bind_ret _ _ _ _ _ _ _ Hr1). cbn [negb]. pose proof (ks_file _ _ _ K1) as Ei1. unfold ifile in Ei1. injection Ei1 as _ Es1 Em1 Ea1 Eu1 Eg1.
  fold x in E1. fold hdr in E1. assert (Hz1 : getx_sizes ip nargc e s1 = Ret (Some (clicks T, clicks (T + D + B), SSIZE + clicks nargc)) e s1).
  { apply (getx_sizes_ok ip nargc T D B ent hdr); [done|by rewrite Es1| |done]. unfold text_open. by rewrite T1, C1. }
  rewrite (bind_ret _ _ _ _ _ _ _ Hz1). cbv iota beta. destruct (decoded hdr T D B ent Hh) as (DT & DD & _ & De); [lia..|].
  destruct (getx_load_ok ip (clicks T) (clicks (T + D + B)) (SSIZE + clicks nargc) T D (aout_decode hdr) e s1 hs V Hrg1) as (s2 & Hr2 & Hrg2 & [K2 T2] & [U2 E2] & M2);
    rewrite ?Em1, ?Es1, ?Ea1; try done; [by apply Y1|unfold AOUT_HDR_SIZE; fold x; lia|lia|unfold USER_CLICKS; lia|lia|].
  rewrite (bind_ret _ _ _ _ _ _ _ Hr2). cbn [negb]. msteps. rewrite E2, DT.
  assert (K12 : keeps ip s s2) by (by apply keeps_trans with s1).
  assert (Htr2 : text_ready s2 ip T) by (apply (text_ready_like s); [|done]; by apply (texts_like_trans s s1); [apply texts_like_eq|]).
  destruct (xmark_ok ip T e s2 Htr2) as (s3 & Hr3 & Q3 & M3). rewrite (bind_ret _ _ _ _ _ _ _ Hr3). msteps.
  assert (K3 : keeps ip s s3) by (by eapply keeps_trans; [|apply Q3]).
  rewrite (ks_cur _ _ _ K3), (ks_flag _ _ _ K3), Htrc by apply Hrg.
  destruct (set_ids_ok ip e s3) as (s4 & Hr4 & Q4 & M4 & I4 & [=N1 N2 N3 N4 N5]). rewrite (bind_ret _ _ _ _ _ _ _ Hr4). msteps. set (g := image_sizes _ _ _). set (s5 := upd_u g s4).
  assert (E5 : u s5 = g (u s4)) by (unfold s5; by rewrite u_upd_u).
  assert (Hes : estabur (clicks T) (clicks (T + D + B)) (SSIZE + clicks nargc) 0 RO e s5 = Ret 0 e s5) by (apply estabur_accepts; unfold USER_CLICKS; lia).
  rewrite (bind_ret _ _ _ _ _ _ _ Hes). exists s5. split; [done|]. assert (Q5 : quiet ip s4 s5) by (by apply quiet_upd_u).
  assert (Q : quiet ip s2 s5) by (eapply quiet_trans; [exact Q3|]; eapply quiet_trans; [exact Q4|exact Q5]).
  split; [apply (quiet_store ip s2); [apply Hrg2|done]|]. split; [by eapply keeps_trans; [|apply Q]|]. split; [|split; [by rewrite E5|]].
  { intros pg a. change (upmem (ku s5)) with (upmem (ku s4)). rewrite M4, M3, M2, (ks_page _ _ _ K1), M1, Ea1. done. }
  assert (U3 : u s3 = u s2) by (unfold u; by rewrite M3).
  assert (Ev : (u_uid (u s5), u_gid (u s5), (u_exdata (u s5), u_error (u s5), u_ar0 (u s5), u_pofile (u s5))) = (u_uid (u s4), u_gid (u s4), (u_exdata (u s4), u_error (u s4), u_ar0 (u s4), u_pofile (u s4)))) by (by rewrite E5).
  injection Ev as -> -> -> -> -> ->. rewrite N1, N3, N4, N5, U3, E2.
  assert (Uf : ufix (u s2) = ufix (u s)) by congruence. split; [|split; [exact De|]].
  - rewrite I4, U3. apply new_ids_same; [apply K3|done].
  - split; [apply Hrg2|]. unfold ufix in Uf. split; congruence.
Qed.

(** [getxfile] loads the program: given a file with a SUN010 header whose
    sizes fit the window beside the stack, it replaces the process's image by
    the text and the data of the file, at 0, and zeros up to the next click
    after the uninitialised data, writes no other page, sets the sizes of the
    user structure and, by the file's set-id bits, the user and group, leaves
    the entry point in [u_exdata], and reports no error; the disk, the other
    processes and the staged arguments are as they were. *)
Lemma getxfile_loads ip nargc T D B ent e s hs V : loadable ip nargc T D B ent hs V s -> let x := inode_at s ip in
  exists s', getxfile ip nargc e s = Ret tt e s' /\ W s' hs V /\ keeps ip s s' /\
    image_loaded V (i_addr x) (T + D) (clicks (T + D + B)) s s' /\
    (u_tsize (u s'), u_dsize (u s'), u_ssize (u s')) = (clicks T, clicks (T + D + B), SSIZE + clicks nargc) /\
    (u_uid (u s'), u_gid (u s')) = new_ids x (u s) /\ fget ux_entloc (u_exdata (u s')) = ent /\
    u_error (u s') = 0 /\ u_ar0 (u s') = u_ar0 (u s) /\ u_pofile (u s') = u_pofile (u s).
Proof. by apply getxfile_ok. Qed.

End Load.

(** * Witness *)

#[local] Existing Instance ex_cdevsw.

(** A program of 8 bytes of text, 4 of data and 100 cleared ones, in block 5. *)
Definition ex_program : list Z :=
  [0; 1; 1; 11] ++ be 4 40 ++ be 4 4 ++ be 4 100 ++ be 4 0 ++ be 4 32 ++ be 4 0 ++ be 4 0 ++ replicate 480 78.
Definition ex_prog_inode (x : inode) : inode :=
  x <| i_mode := IFREG |> <| i_dev := 0 |> <| i_size := 44 |> <| i_addr := fun i => if i =? 0 then 5 else 0 |> <| i_count := 1 |>.
(** The process calls [exec] with the vectors of [ex_page]. *)
Definition ex_prog_user (x : user) : user :=
  x <| u_error := 0 |> <| u_procp := 1%nat |> <| u_exdata := replicate 32 0 |> <| u_arg := [0; 96; 108] |> <| u_ar0 := Some (fun _ => 0) |>
    <| u_pofile := fun _ => 0 |>.
Definition ex_prog_proc (x : proc) : proc := x <| p_textp := None |> <| p_flag := 0 |>.
Definition ex_program_base (s : kst) : kst :=
  s <| kf; texts := texts (kf kst0) |> <| ku; upmem := fun _ => ex_page |> <| kx; exec_argbuf := replicate 5120 0 |>.
Definition ex_loader (s : kst) : kst := upd_u ex_prog_user (upd_proc 1 ex_prog_proc (upd_inode 0 ex_prog_inode (ex_program_base s))).

Lemma ex_loader_u s : u (ex_loader s) = ex_prog_user (u s).
Proof. unfold ex_loader. by rewrite u_upd_u. Qed.
Lemma ex_loader_inode s : inode_at (ex_loader s) 0 = ex_prog_inode (inode_at s 0).
Proof. exact (inode_upd_same 0 ex_prog_inode (ex_program_base s)). Qed.
Lemma ex_loader_proc s : proc_at (ex_loader s) 1 = ex_prog_proc (proc_at s 1).
Proof. exact (proc_upd_same 1 ex_prog_proc (upd_inode 0 ex_prog_inode (ex_program_base s))). Qed.

Lemma ex_loader_sched s : same_sched s (ex_loader s).
Proof.
  split_and!; try done. intros p. destruct (decide (p = 1%nat)) as [->|Hne]; [by rewrite ex_loader_proc|].
  assert (E : proc_at (ex_loader s) p = proc_at s p) by exact (proc_upd_ne 1 p ex_prog_proc _ (not_eq_sym Hne)). by rewrite E.
Qed.

Lemma ex_loader_loadable s V : fsw (H := ex_layout) s ex_hs V -> V 5 = ex_program ->
  loadable (fsw (H := ex_layout)) 0 12 8 4 100 32 ex_hs V (ex_loader s).
Proof.
  intros Hw HV. pose proof (ex_loader_u s) as Eu. pose proof (ex_loader_inode s) as Ei. pose proof (ex_loader_proc s) as Ep.
  assert (Ec : curproc (ex_loader s) = 1%nat) by (unfold curproc; rewrite Eu; reflexivity).
  assert (Ea : i_addr (inode_at (ex_loader s) 0) = fun i => if i =? 0 then 5 else 0) by (rewrite Ei; reflexivity).
  split; rewrite ?Ea, ?Ei; try reflexivity.
  - split; rewrite ?Ei, ?Ec; [|cbn; unfold NBUF; lia|unfold NPROC; lia|reflexivity|rewrite Eu; reflexivity|cbn; lia].
    apply (fsw_sched (H := ex_layout) s); [exact Hw|reflexivity|apply ex_loader_sched].
  - intros bn Hbn. assert (bn = 0) as -> by (change (i_size (ex_prog_inode (inode_at s 0))) with 44 in Hbn; Z.div_mod_to_equations; lia).
    split; [unfold FILE_BLOCKS; lia|by right| |change (next_of _ _ _) with 0; unfold RD_SIZE; lia]. right.
    change (block_of V _ 0) with 5. split; [unfold RD_SIZE; lia|]. split; [apply ex_not_held|]. rewrite HV. apply (bool_decide_unpack _). vm_compute. exact I.
  - assert (E : file_bytes V (fun i => if i =? 0 then 5 else 0) 0 32 = take 32 ex_program).
    { pose proof (file_bytes_block V (fun i => if i =? 0 then 5 else 0) 0 32 ltac:(lia)) as F. cbv zeta in F.
      change (block_data V _) with (V 5) in F. rewrite HV in F.
      symmetry. etransitivity; [|apply F; [vm_compute; discriminate|vm_compute; reflexivity]]. reflexivity. }
    rewrite E. split; try (vm_compute; reflexivity). apply (bool_decide_unpack _). vm_compute. exact I.
  - split; unfold AOUT_HDR_SIZE, USER_CLICKS; cbn; lia || (vm_compute; discriminate).
  - right. right. rewrite Ei. reflexivity.
  - unfold text_shared. rewrite Ec, Ep. exact I.
  - right. right. split; [reflexivity|]. exists 0%nat. reflexivity.
  - rewrite Eu. reflexivity.
  - rewrite Ec, Ep. reflexivity.
Qed.

Lemma getxfile_loads_witness : exists s s', getxfile (H := ex_layout) 0 12 [] s = Ret tt [] s' /\ u_dsize (u s') = 2.
Proof.
  destruct (ex_block_written ex_program ex_file ex_view ex_file_fsw) as (s & Hw & _); [vm_compute; reflexivity|].
  destruct (getxfile_loads (H := ex_layout) (fsw (H := ex_layout)) 0 12 8 4 100 32 [] (ex_loader s) ex_hs _
    (ex_loader_loadable s _ Hw (fn_lookup_insert _ _ _))) as (s' & Hr & _ & _ & _ & Hz & _).
  exists (ex_loader s), s'. split; [exact Hr|]. apply pair_equal_spec in Hz as [Hz _]. apply pair_equal_spec in Hz as [_ ->]. reflexivity.
Defined.
