(* ===== verification/Execve.v ===== *)
(** A successful [exec]: the arguments collected, the image loaded, the
    argument block made and the registers set, one after the other. *)
From S2P Require Import Prelude Malloc Clist Kernel Sched Dll Sd Bio Cache Blocks Codec Usermem Subr Alloc Freelist Inode Rdwri Bmap Readi Text Fio Namei Exec Execargs Image Load.

(** * The registers *)

(** Only the registers, and what [setregs] clears, have changed. *)
Definition ukeep (x : user) : nat * Z * list Z * (Z -> Z) := (u_procp x, u_error x, u_exdata x, u_pofile x).
Record reg_step (f : regname -> Z) (s s' : kst) : Prop := {
  rs_rest : only_user s s';
  rs_kx : kx s' = kx s;
  rs_mem : upmem (ku s') = upmem (ku s);
  rs_user : ukeep (u s') = ukeep (u s);
  rs_regs : u_ar0 (u s') = Some f
}.

Lemma reg_step_trans f g s1 s2 s3 : reg_step f s1 s2 -> reg_step g s2 s3 -> reg_step g s1 s3.
Proof. intros [O1 K1 M1 U1 _] [O2 K2 M2 U2 A]. split; try congruence. by apply only_user_trans with s2. Qed.

Lemma reg_step_upd f g s : ukeep (g (u s)) = ukeep (u s) -> u_ar0 (g (u s)) = Some f -> reg_step f s (upd_u g s).
Proof. intros E A. split; try done; by rewrite u_upd_u. Qed.

Definition zero_regs (l : list regname) (f : regname -> Z) : regname -> Z := foldl (fun f r => <[r := 0]> f) f l.

(** The registers a program starts with. *)
Definition start_regs (ent : Z) (f : regname -> Z) : regname -> Z := <[PC := i32 (fclr ent 1)]> (zero_regs [R0; R1; R2; R3; R4; R5] f).

Lemma start_regs_spec ent f : let g := start_regs ent f in
  Forall (fun r => g r = 0) [R0; R1; R2; R3; R4; R5] /\ g PC = i32 (fclr ent 1) /\ g R6 = f R6.
Proof. split; [|done]. repeat constructor. Qed.

Section Exec.
Context `{Layout} `{!Cdevsw}.

Lemma set_reg_ok r v f e s : u_ar0 (u s) = Some f -> exists s', set_reg r v e s = Ret tt e s' /\ reg_step (<[r := v]> f) s s'.
Proof. intros Hf. unfold set_reg. msteps. rewrite Hf, run_modify. eexists. split; [done|]. by apply reg_step_upd. Qed.

Lemma zero_regs_ok e : forall l f s, u_ar0 (u s) = Some f -> l <> [] ->
  exists s', for_each l (fun r => set_reg r 0) e s = Ret tt e s' /\ reg_step (zero_regs l f) s s'.
Proof.
  induction l as [|r l IH]; intros f s Hf Hl; [done|]. cbn [for_each]. destruct (set_reg_ok r 0 f e s Hf) as (s1 & Hr & S1).
  rewrite (bind_ret _ _ _ _ _ _ _ Hr). destruct (decide (l = [])) as [->|Hne]; [by exists s1|].
  destruct (IH (<[r := 0]> f) s1 (rs_regs _ _ _ S1) Hne) as (s2 & Hr2 & S2). exists s2. split; [done|]. by eapply reg_step_trans.
Qed.

(** Without close-on-exec nothing is closed. *)
Lemma close_none e s : (forall i, 0 <= i < NOFILE -> fset (u_pofile (u s) i) EXCLOSE = false) ->
  for_each (seqZ 0 NOFILE) close_on_exec e s = Ret tt e s.
Proof.
  intros Hno. assert (Hin : Forall (fun i => 0 <= i < NOFILE) (seqZ 0 NOFILE)) by (apply Forall_forall; intros i Hi; apply elem_of_seqZ in Hi; lia).
  induction Hin as [|i l Hi _ IH]; [done|]. cbn [for_each].
  assert (Hc : close_on_exec i e s = Ret tt e s) by (unfold close_on_exec; rewrite bind_gets, Hno by done; done). by rewrite (bind_ret _ _ _ _ _ _ _ Hc).
Qed.

Lemma setregs_ok ent f e s : u_ar0 (u s) = Some f -> fget ux_entloc (u_exdata (u s)) = ent ->
  (forall i, 0 <= i < NOFILE -> fset (u_pofile (u s) i) EXCLOSE = false) ->
  exists s', setregs e s = Ret tt e s' /\ reg_step (start_regs ent f) s s'.
Proof.
  intros Hf He Hno. unfold setregs. rewrite bind_modify. set (s1 := upd_u _ s). assert (S1 : reg_step f s s1) by (apply reg_step_upd; [done|exact Hf]).
  destruct (zero_regs_ok e [R0; R1; R2; R3; R4; R5] f s1 (rs_regs _ _ _ S1)) as (s2 & Hr2 & S2); [done|].
  rewrite (bind_ret _ _ _ _ _ _ _ Hr2), bind_gets. pose proof (reg_step_trans _ _ _ _ _ S1 S2) as S02.
  assert (Ex : u_exdata (u s2) = u_exdata (u s)) by (pose proof (rs_user _ _ _ S02) as E; unfold ukeep in E; congruence). rewrite Ex, He.
  destruct (set_reg_ok PC (i32 (fclr ent 1)) _ e s2 (rs_regs _ _ _ S2)) as (s3 & Hr3 & S3). rewrite (bind_ret _ _ _ _ _ _ _ Hr3), bind_modify.
  change (<[PC := i32 (fclr ent 1)]> _) with (start_regs ent f) in S3. set (s4 := upd_u _ s3).
  assert (S4 : reg_step (start_regs ent f) s3 s4) by (apply reg_step_upd; [done|apply S3]).
  pose proof (reg_step_trans _ _ _ _ _ (reg_step_trans _ _ _ _ _ S02 S3) S4) as S04.
  rewrite (bind_ret _ _ _ _ _ _ _ (close_none e s4 ltac:(intros i Hi; pose proof (rs_user _ _ _ S04) as E; unfold ukeep in E; injection E as _ _ _ ->; by apply Hno))).
  rewrite bind_modify, run_modify. eexists. split; [done|]. eapply reg_step_trans; [exact S04|].
  set (s5 := upd_u _ s4). assert (S5 : reg_step (start_regs ent f) s4 s5) by (apply reg_step_upd; [done|apply S4]).
  eapply reg_step_trans; [exact S5|]. apply reg_step_upd; [done|apply S5].
Qed.

(** * The whole *)

Context (W : kst -> holding -> (Z -> list Z) -> Prop) `{!BlockStore W}.

Lemma gathered_field {A} (f : user -> A) n l s s' : gathered n l s s' -> (forall x v, f (x <| u_arg := v |>) = f x) -> f (u s') = f (u s).
Proof. intros G E. by rewrite <- (E (u s') (u_arg (u s))), (ga_user _ _ _ _ G). Qed.

Lemma gathered_loadable ip nargc T D B ent hs V n l s s' : gathered n l s s' -> loadable W ip nargc T D B ent hs V s -> loadable W ip nargc T D B ent hs V s'.
Proof.
  intros G [[R1 R2 R3 R4 R5 R6] L2 L3 L4 L5 L6 L7 L8 L9 L10 L11]. pose proof (ga_rest _ _ _ _ G) as (Eb & Ef & Ep & _ & _ & _).
  assert (Ei : inode_at s' ip = inode_at s ip) by (unfold inode_at; by rewrite Ef). assert (Ec : curproc s' = curproc s) by (by apply (gathered_field u_procp n l)).
  assert (Epr : proc_at s' = proc_at s) by (unfold proc_at; by rewrite Ep). assert (Et : text_at s' = text_at s) by (unfold text_at; by rewrite Ef).
  assert (Ef1 : find_text ip s' = find_text ip s) by (unfold find_text; by rewrite Et). assert (Ef2 : free_text s' = free_text s) by (unfold free_text; by rewrite Et).
  split; rewrite ?Ei, ?Ec, ?Epr; try done.
  - split; rewrite ?Ei, ?Ec; try done; [by apply (bs_sched s); [|done|apply same_sched_kp]|by rewrite (gathered_field u_error n l s s')].
  - unfold text_open, ihas. by rewrite Ei.
  - unfold text_shared, text_idle. by rewrite Ec, Epr, Et.
  - unfold text_ready, text_idle. by rewrite Ef1, Ef2, Et.
  - by rewrite (gathered_field u_exdata n l s s').
Qed.

(** A program is running: its image below, its arguments above, and the
    registers at their start. *)
Record started (args envs : list (list Z)) (V : Z -> list Z) (addr : Z -> Z) (n ds ent sp : Z) (s s' : kst) : Prop := {
  st_image : forall a, 0 <= a < 64 * ds -> umem s' a = if a <? n then file_byte V addr (AOUT_HDR_SIZE + a) else 0;
  st_argc : word_at (umem s') sp = Z.of_nat (length args);
  st_argv : vector_at (umem s') (sp + 4) args;
  st_envp : vector_at (umem s') (sp + 4 + 4 * Z.of_nat (S (length args))) envs;
  st_execargs : word_at (umem s') EPOCH68_EXECARGS = sp + 4;
  st_pages : forall pg a, pg <> user_page s -> upmem (ku s') pg a = upmem (ku s) pg a;
  st_error : u_error (u s') = 0;
  st_regs : exists f, u_ar0 (u s') = Some f /\ Forall (fun r => f r = 0) [R0; R1; R2; R3; R4; R5] /\ f PC = i32 (fclr ent 1) /\ f R6 = sp
}.

Lemma block_made_rest args envs sp r s s' : block_made args envs sp r s s' ->
  kb s' = kb s /\ kp s' = kp s /\ user_page s' = user_page s /\ u s' = u s <| u_ar0 := Some (<[R6 := sp]> r) |>.
Proof.
  intros [_ _ _ _ _ _ E]. set (t := s' <| ku; upmem := upmem (ku s) |>) in E. set (g := fun x : user => x <| u_ar0 := Some (<[R6 := sp]> r) |>) in E.
  change (kb s') with (kb t). change (kp s') with (kp t). change (user_page s') with (user_page t). change (u s') with (u t). rewrite E.
  split; [done|]. split; [done|]. split; [|by rewrite u_upd_u]. unfold user_page, curproc, proc_at. by rewrite u_upd_u.
Qed.

(** C1. [exec] starts the program: let [argp] and [envp] hold the strings [args]
    and [envs], of fewer than [NCARGS] characters, whose pointers fit the stack
    that is reserved, and let the file have a good header.  Then [exec] reports
    no error and leaves text, data and zeros from 0 on, the arguments and the
    environment at the top of the page with the stack pointer at their count,
    the general registers zero and the program counter at the entry point; no
    other page and no block of the disk changes. *)
Theorem exec_starts_program args envs a b T D B ent ip e s r hs V :
  let ls := args ++ envs in let nc := round4 (Z.of_nat (length (strings ls))) in let na := Z.of_nat (length ls) in let x := inode_at s ip in
  Forall is_string args -> Forall is_string envs -> Z.of_nat (length (strings ls)) < NCARGS ->
  args_are s a b -> vector_at (umem s) a args -> vector_or_null (umem s) b envs -> length (exec_argbuf (kx s)) = Z.to_nat NCARGS ->
  u_ar0 (u s) = Some r -> (forall i, 0 <= i < NOFILE -> fset (u_pofile (u s) i) EXCLOSE = false) ->
  4 * na + 20 + nc <= 64 * (SSIZE + clicks nc) -> loadable W ip nc T D B ent hs V s ->
  exists s', exec_image ip e s = Ret tt e s' /\ W s' hs V /\
    started args envs V (i_addr x) (T + D) (clicks (T + D + B)) ent (block_start na nc) s s'.
Proof.
  intros ls nc na x Hs Hse Hle Har Ha Hb Hlen Hr Hno Hroom Hld. destruct (vector_range _ _ _ Ha) as [Ha0 Hap]. unfold USER_PAGE_SIZE in Hap.
  pose proof (length_strings_ge ls) as Hge. pose proof (round4_bounds (Z.of_nat (length (strings ls)))) as Hnc. fold nc in Hnc.
  unfold NCARGS in *. unfold exec_image. msteps. pose proof Har as (Ea & _). rewrite Ea, u32_id, (proj2 (Z.eqb_neq a 0)) by lia. cbn [negb].
  pose proof (rg_error _ _ _ _ _ (ld_reading _ _ _ _ _ _ _ _ _ _ Hld)) as Her.
  destruct (exec_args_ok e envs args ARGFUEL 0 0 0 a b s Hs Hse) as (s1 & Hr1 & G1); try done; [unfold ARGFUEL; rewrite <- length_app; fold ls; lia|by right|].
  fold ls in Hr1, G1. rewrite !Z.add_0_l in Hr1. rewrite (bind_ret _ _ _ _ _ _ _ Hr1). cbv iota beta. fold (round4 (Z.of_nat (length (strings ls)))). fold nc na.
  destruct (getxfile_ok W ip nc T D B ent e s1 hs V) as (s2 & Hr2 & W2 & K2 & M2 & _ & _ & X2 & E2 & A2 & P2); [by apply (gathered_loadable _ _ _ _ _ _ _ _ 0 (strings ls) s)|].
  rewrite (bind_ret _ _ _ _ _ _ _ Hr2). msteps. unfold uerror at 1. rewrite E2. cbn [negb Z.eqb].
  assert (Hr2' : u_ar0 (u s2) = Some r) by (by rewrite A2, (gathered_field u_ar0 _ _ _ _ G1)).
  destruct (exec_block_ok args envs e s2 r) as (s3 & Hr3 & B3); [by apply Forall_app|unfold NCARGS; fold ls; lia|done|done| |].
  { rewrite (ks_kx _ _ _ K2). exact (ga_buf _ _ _ _ G1). }
  fold ls nc na in Hr3, B3. rewrite (bind_ret _ _ _ _ _ _ _ Hr3). cbn [when].
  destruct (block_made_rest _ _ _ _ _ _ B3) as (Kb3 & Kp3 & Up3 & U3). assert (P3 : u_pofile (u s3) = u_pofile (u s)).
  { rewrite U3. transitivity (u_pofile (u s2)); [done|]. by rewrite P2, (gathered_field u_pofile _ _ _ _ G1). }
  destruct (setregs_ok ent (<[R6 := block_start na nc]> r) e s3) as (s4 & Hr4 & S4); [by rewrite U3|by rewrite U3|by rewrite P3|].
  exists s4. split; [done|]. destruct S4 as [(Kb4 & Kp4 & _) _ M4 U4 A4]. split.
  { apply (bs_sched s2); [done|congruence|apply same_sched_kp; congruence]. }
  assert (Ep : user_page s4 = user_page s3).
  { unfold ukeep in U4. injection U4 as U4 _ _ _. unfold user_page, curproc, proc_at. by rewrite U4, Kp4. }
  assert (Em : umem s4 = umem s3) by (unfold umem; by rewrite Ep, M4).
  assert (Eq1 : user_page s1 = user_page s) by (unfold user_page, curproc, proc_at; rewrite (gathered_field u_procp _ _ _ _ G1) by done; by destruct (ga_rest _ _ _ _ G1) as (_ & _ & -> & _)).
  pose proof (ks_page _ _ _ K2) as Ep2. destruct (ga_rest _ _ _ _ G1) as (_ & Ef1 & _ & _ & _ & Em1).
  assert (Ei1 : inode_at s1 ip = x) by (unfold inode_at; by rewrite Ef1). rewrite Ei1 in M2.
  destruct B3 as [B1 B2 B4 B5 B6 B7 _]. split; rewrite ?Em; try done.
  - intros y Hy. rewrite B6.
    + unfold umem. rewrite Ep2, Eq1, M2, Eq1, decide_True by done. done.
    + pose proof (gs_room _ _ _ _ _ _ (ld_sizes _ _ _ _ _ _ _ _ _ _ Hld)) as Hroom2. unfold USER_CLICKS, SSIZE in *. unfold block_start, USER_STACK_TOP. lia.
  - intros pg y Hpg. rewrite M4, B7 by congruence. rewrite M2, Eq1, decide_False by (intros [? _]; done). by rewrite Em1.
  - unfold ukeep in U4. injection U4 as _ -> _ _. by rewrite U3.
  - exists (start_regs ent (<[R6 := block_start na nc]> r)). split; [done|]. destruct (start_regs_spec ent (<[R6 := block_start na nc]> r)) as (Z1 & Z2 & Z3).
    split; [done|]. split; [done|]. rewrite Z3. by rewrite fn_lookup_insert.
Qed.

End Exec.

(** * Witness *)

#[local] Existing Instance ex_cdevsw.

Lemma exec_starts_program_witness : exists s s' sp, exec_image (H := ex_layout) 0 [] s = Ret tt [] s' /\ u_error (u s') = 0 /\
  vector_at (umem s') (sp + 4) [[108; 115]; [45; 108]].
Proof.
  destruct (ex_block_written ex_program ex_file ex_view ex_file_fsw) as (s & Hw & _); [vm_compute; reflexivity|].
  pose proof (ex_loader_loadable s _ Hw (fn_lookup_insert _ _ _)) as Hld. pose proof (ex_loader_u s) as Eu.
  assert (Em : umem (ex_loader s) = ex_page) by reflexivity.
  destruct (exec_starts_program (H := ex_layout) (fsw (H := ex_layout)) [[108; 115]; [45; 108]] [[65; 61; 49]] 96 108 8 4 100 32 0 []
    (ex_loader s) (fun _ => 0) ex_hs (<[5 := ex_program]> ex_view)) as (s' & Hr & _ & S).
  - repeat constructor; lia.
  - repeat constructor; lia.
  - vm_compute. reflexivity.
  - unfold args_are, arg. rewrite Eu. split_and!; [reflexivity|reflexivity|decide_true].
  - rewrite Em. cbn. unfold string_at. repeat split; (reflexivity || (vm_compute; done)).
  - right. rewrite Em. cbn. unfold string_at. repeat split; (reflexivity || (vm_compute; done)).
  - exact (length_replicate (Z.to_nat 5120) 0).
  - rewrite Eu. reflexivity.
  - intros i _. rewrite Eu. reflexivity.
  - vm_compute. discriminate.
  - exact Hld.
  - eexists _, s', _. split; [exact Hr|]. split; [apply S|]. exact (st_argv _ _ _ _ _ _ _ _ _ _ S).
Defined.
