(* ===== verification/Sys1.v ===== *)
(** The end of a process and its parent's [wait], [fork] and [break]: the
    second half of [sys/sys1.c], with the heap and stack guard of
    [conf/trap0.c]. *)
From S2P Require Import Prelude Malloc Clist Kernel Sched Dll Sd Bio Codec Usermem Subr Alloc Inode Rdwri Text Fio Namei Acct Exec.

Definition HEAP_STACK_GUARD : Z := 4096.

(** [userpage_free] of [sys/machdep.c] on the kernel's table. *)
Definition upage_free (page : Z) : M unit :=
  up ← gets (fun s => upages_ (ku s));
  up ← lift_res (userpage_free up page);
  modify (fun s => s <| ku; upages_ := up |>).

Section Sys1.
Context `{Layout} `{Cdevsw}.

(** ** [exit] *)

(** [for(i=0; i<NOFILE; i++)] *)
Definition exit_close (i : Z) : M unit :=
  f ← gets (fun s => u_ofile (u s) i);
  _ ← modify (upd_u (fun x => x <| u_ofile ::= <[i := None]> |>));
  closef f.

(** What the process holds of the file system. *)
Definition exit_files : M unit :=
  _ ← for_each (seqZ 0 NOFILE) exit_close;
  cd ← gets (fun s => u_cdir (u s));
  _ ← plock cd;
  _ ← iput cd;
  rd ← gets (fun s => u_rdir (u s));
  match rd with None => mret tt | Some rd => _ ← plock rd; iput rd end.

(** [for (q = runq; q != NULL; q = q->p_link)] *)
Fixpoint exit_runq (k : nat) (q : option nat) (p : nat) : M unit :=
  match q with
  | None => mret tt
  | Some q =>
      match k with
      | O => nofuel
      | S k =>
          if Nat.eqb q p then panic "zombie on runq"
          else l ← gets (fun s => p_link (proc_at s q)); exit_runq k l p
      end
  end.

(** [struct xproc] overlays the entry: [xp_xstat] is [p_addr], the upper half
    of [xp_utime] is [p_size].  The rest of the two times lies in the pointers
    [p_wchan] and [p_textp], which are null before and which nothing reads
    before [wait] clears the one and [newproc] sets the other; here they stay
    null, and [xtimes] holds the times. *)
Definition become_zombie (p : nat) (rv : Z) : M unit :=
  x ← gets u;
  let utime := i32 (u_cutime x + u_utime x) in
  let stime := i32 (u_cstime x + u_stime x) in
  _ ← modify (upd_proc p (fun y => y <| p_addr := i16 rv |>));
  _ ← modify (fun s => upd_proc p (fun y => y <| p_size := i16 (Z.shiftr utime 16) |>) s <| kx; xtimes ::= <[p := (utime, stime)]> |>);
  modify (upd_proc p (fun y => y <| p_stat := SZOMB |>)).

(** The children go to process 1. *)
Definition exit_child (p q : nat) : M unit :=
  x ← gets (fun s => proc_at s p);
  y ← gets (fun s => proc_at s q);
  when (p_ppid y =? p_pid x)
    (_ ← wakeup (ChProc 1);
     _ ← modify (upd_proc q (fun y => y <| p_ppid := 1 |>));
     st ← gets (fun s => p_stat (proc_at s q));
     when (st =? SSTOP) (setrun q)).

Definition exit_parent (p q : nat) : M unit :=
  x ← gets (fun s => proc_at s p);
  y ← gets (fun s => proc_at s q);
  when (p_ppid x =? p_pid y) (_ ← wakeup (ChProc q); _ ← swtch; panic "zombie resumed").

(** From [s = spl6()] on. *)
Definition exit_zombie (rv : Z) : M unit :=
  p ← gets curproc;
  userpage ← gets (fun s => p_addr (proc_at s p));
  s ← spl6;
  q ← gets (fun s => runq (kp s));
  _ ← exit_runq QFUEL q p;
  _ ← upage_free userpage;
  _ ← become_zombie p rv;
  _ ← for_each (seq 0 NPROC) (exit_child p);
  _ ← for_each (seq 0 NPROC) (exit_parent p);
  _ ← swtch;
  _ ← splx s;
  panic "zombie resumed".

Definition exit (rv : Z) : M unit :=
  p ← gets curproc;
  _ ← modify (upd_proc p (fun x => x <| p_flag ::= fun f => i8 (fclr f (Z.lor STRC SULOCK)) |>));
  _ ← modify (upd_proc p (fun x => x <| p_clktim := 0 |>));
  _ ← modify (upd_u (fun x => x <| u_signal ::= fun f n => if (0 <=? n) && (n <? NSIG) then 1 else f n |>));
  _ ← exit_files;
  _ ← xfree;
  _ ← acct;
  exit_zombie rv.

Definition rexit : M unit := rval ← gets (fun s => arg s 0); exit (i32 (Z.shiftl (Z.land rval 255) 8)).

(** ** [wait] *)

Definition reaped (x : proc) : proc :=
  x <| p_pid := 0 |> <| p_ppid := 0 |> <| p_pgrp := 0 |> <| p_sig := 0 |> <| p_flag := 0 |> <| p_wchan := None |> <| p_stat := 0 |>.

(** The zombie [p] laid to rest. *)
Definition reap (p : nat) : M unit :=
  x ← gets (fun s => proc_at s p);
  t ← gets (fun s => xtimes (kx s) p);
  _ ← modify (upd_u (fun y => y <| u_r_val1 := p_pid x |>));
  _ ← modify (upd_u (fun y => y <| u_r_val2 := p_addr x |>));
  _ ← modify (upd_u (fun y => y <| u_cutime ::= fun n => i32 (n + fst t) |>));
  _ ← modify (upd_u (fun y => y <| u_cstime ::= fun n => i32 (n + snd t) |>));
  modify (upd_proc p reaped).

(** A stopped child is reported once. *)
Definition report_stop (p : nat) : M unit :=
  _ ← modify (upd_proc p (fun x => x <| p_flag ::= fun f => i8 (Z.lor f SWTED) |>));
  x ← gets (fun s => proc_at s p);
  _ ← modify (upd_u (fun y => y <| u_r_val1 := p_pid x |>));
  modify (upd_u (fun y => y <| u_r_val2 := i32 (Z.lor (Z.shiftl (fsig x) 8) 127) |>)).

(** One pass over the table: [None] is [return], [Some f] the end of the
    loop. *)
Fixpoint wait_scan (l : list nat) (f : Z) : M (option Z) :=
  match l with
  | [] => mret (Some f)
  | p :: r =>
      x ← gets (fun s => proc_at s p);
      me ← gets (fun s => p_pid (proc_at s (curproc s)));
      if p_ppid x =? me then
        if p_stat x =? SZOMB then _ ← reap p; mret None
        else if (p_stat x =? SSTOP) && negb (fset (p_flag x) SWTED) then _ ← report_stop p; mret None
        else wait_scan r (f + 1)
      else wait_scan r f
  end.

(** [f] is not cleared by [goto loop]. *)
Fixpoint wait_f (k : nat) (f : Z) : M unit :=
  match k with
  | O => nofuel
  | S k =>
      o ← wait_scan (seq 0 NPROC) f;
      match o with
      | None => mret tt
      | Some f =>
          if negb (f =? 0) then p ← gets curproc; _ ← sleep (ChProc p) PWAIT; wait_f k f
          else seterror ECHILD
      end
  end.

(** Every turn but the last sleeps. *)
Definition wait : M unit := fun e s => wait_f (S (length e)) 0 e s.

(** ** [fork] *)

(** The first free entry, and the number of the user's processes besides. *)
Fixpoint fork_scan (l : list nat) (s : kst) (p2 : option nat) (a : Z) : option nat * Z :=
  match l with
  | [] => (p2, a)
  | p1 :: r =>
      let x := proc_at s p1 in
      match p2 with
      | None =>
          if p_stat x =? 0 then fork_scan r s (Some p1) a
          else fork_scan r s p2 (if (p_uid x =? u_uid (u s)) && negb (p_stat x =? 0) then a + 1 else a)
      | Some _ => fork_scan r s p2 (if (p_uid x =? u_uid (u s)) && negb (p_stat x =? 0) then a + 1 else a)
      end
  end.

Definition fork : M unit :=
  s ← gets id;
  let '(p2, a) := fork_scan (seq 0 NPROC) s None 0 in
  match p2 with
  | None => seterror EAGAIN
  | Some p2 =>
      if negb (u_uid (u s) =? 0) && (Nat.eqb p2 (NPROC - 1) || (MAXUPRC <? a)) then seterror EAGAIN
      else
        _ ← newproc (Some (curproc s));
        er ← gets uerror;
        if negb (er =? 0) then mret tt
        else
          pid ← gets (fun s => p_pid (proc_at s p2));
          modify (upd_u (fun y => y <| u_r_val1 := pid |>))
  end.

(** ** [break] *)

(** [epoch68_heap_stack_would_collide] *)
Definition heap_stack_would_collide (heap_end usp : Z) : M bool :=
  if usp =? 0 then mret false
  else
    let g := u32 (heap_end + HEAP_STACK_GUARD) in
    if negb (g <? heap_end) && (g <? usp) then mret false
    else
      _ ← modify (fun s => s <| kx; heap_warned := p_pid (proc_at s (curproc s)) |>);
      mret true.

Definition sbreak : M unit :=
  nsiz ← gets (fun s => u32 (arg s 0));
  usp ← gets (fun s => match u_ar0 (u s) with Some r => u32 (r R6) | None => 0 end);
  c ← heap_stack_would_collide nsiz usp;
  if c : bool then seterror ENOMEM
  else
    let n := exec_btoc32 nsiz in
    x ← gets u;
    if n <? i32 (u_tsize x) then seterror ENOMEM
    else
      r ← estabur (u_tsize x) n (u_ssize x) (u_sep x) RO;
      if negb (r =? 0) then mret tt
      else
        _ ← expand (i32 (USIZE + n + u_ssize x));
        er ← gets uerror;
        if negb (er =? 0) then mret tt
        else
          oldn ← gets (fun s => i32 (u_dsize (u s)));
          _ ← for_each (seqZ oldn (n - oldn)) clearseg;
          modify (upd_u (fun y => y <| u_dsize := n |>)).

End Sys1.
