(* ===== verification/Exits.v ===== *)
(** The end of a process: [exit] leaves a zombie with its status, gives its
    children to process 1 and wakes its parent, and the parent's [wait] finds
    the status and frees the entry. *)
From S2P Require Import Prelude Malloc Clist Kernel Sched Dll Sd Bio Cache Codec Usermem Subr Alloc Inode Rdwri Text Fio Namei Acct Exec Sys1.

(** Two decompositions of a list at the first element of a kind. *)
Lemma app_cons_first {A} (l1 : list A) q l2 k1 y k2 : l1 ++ q :: l2 = k1 ++ y :: k2 -> q ∉ k1 -> y ∉ l1 -> y = q /\ l1 = k1.
Proof.
  revert k1. induction l1 as [|a l1 IH]; intros [|b k1] E Hq Hy; cbn in E; injection E as E1 E2.
  - done.
  - destruct Hq. rewrite E1. by left.
  - destruct Hy. rewrite <- E1. by left.
  - destruct (IH k1 E2) as [-> ->]; [intros ?; apply Hq; by right|intros ?; apply Hy; by right|]. by rewrite E1.
Qed.

(** * Queues, with the processes as a set *)

(** The processes that may come to run are in their pages. *)
Definition placed (s : kst) (RQ : list nat) : Prop := forall q,
  q ∈ RQ \/ p_stat (proc_at s q) = SSLEEP \/ p_stat (proc_at s q) = SSTOP -> 0 < p_addr (proc_at s q) < KERNEL_METADATA_PAGE.

Section Exits.
Context `{Layout}.

(** The queues are well formed, whatever is on them. *)
Definition in_order (s : kst) : Prop := exists RQ SQ,
  queues s RQ SQ /\ all_queued s SQ /\ runout (kp s) = 0 /\ placed s RQ /\ forall p, -128 <= pri s p < 128.

(** [s'] has the entries of [s] up to [g], some of the processes that could not
    run made runnable. *)
Record awakens (g : nat -> proc -> proc) (s s' : kst) : Prop := {
  aw_only : only_kp s s';
  aw_procs : forall q, unsched (proc_at s' q) = unsched (g q (proc_at s q));
  aw_stat : forall q, p_stat (proc_at s' q) = p_stat (proc_at s q) \/
    ((p_stat (proc_at s q) = SSLEEP \/ p_stat (proc_at s q) = SSTOP) /\ p_stat (proc_at s' q) = SRUN);
  aw_wchan : forall q, p_stat (proc_at s' q) = SSLEEP -> p_wchan (proc_at s' q) = p_wchan (proc_at s q)
}.

Definition same_entry (_ : nat) (x : proc) : proc := x.

Lemma awakens_refl s : awakens same_entry s s.
Proof. split; [apply only_kp_refl|done|by left|done]. Qed.

Lemma nolink_unsched x y : nolink x = nolink y -> unsched x = unsched y.
Proof. intros E. change (unsched (nolink x) = unsched (nolink y)). by rewrite E. Qed.

Lemma awakens_trans g h k s1 s2 s3 : awakens g s1 s2 -> awakens h s2 s3 ->
  (forall q x y, unsched x = unsched (g q y) -> unsched (h q x) = unsched (k q y)) -> awakens k s1 s3.
Proof.
  intros [O1 P1 S1 W1] [O2 P2 S2 W2] Hk. split; [by apply only_kp_trans with s2|intros q; rewrite P2; apply Hk, P1| |].
  2: { intros q Hq. rewrite W2 by done. apply W1. destruct (S2 q) as [<-|[_ E]]; [done|]. rewrite E in Hq. discriminate Hq. }
  intros q. destruct (S1 q) as [E1|[E1 E1']], (S2 q) as [E2|[E2 E2']].
  - left. congruence.
  - right. split; [by rewrite <- E1|done].
  - right. split; [done|congruence].
  - right. done.
Qed.

Lemma wakeup_in_order c e s : in_order s -> exists s', wakeup c e s = Ret tt e s' /\ in_order s' /\ awakens same_entry s s' /\
  (forall q, waits_on c s q -> p_stat (proc_at s' q) = SRUN).
Proof.
  intros (RQ & SQ & Hq & Ha & Hro & Hpl & Hpr). destruct (wakeup_ok c e s RQ SQ Hq Ha Hro) as (s' & Hr & Q' & A' & O & Ro' & W1 & W2).
  exists s'. assert (Hw : forall q, waits_on c s q -> p_stat (proc_at s q) = SSLEEP).
  { intros q Hw. by destruct (q_slp_in _ _ _ Hq _ _ (Ha q c Hw)) as (_ & ? & _). }
  assert (Hs : forall q, p_stat (proc_at s' q) = if decide (waits_on c s q) then SRUN else p_stat (proc_at s q)).
  { intros q. case_decide as Hd; [by destruct (nolink_stat _ _ (W1 q Hd)) as [-> _]|by destruct (nolink_stat _ _ (W2 q Hd)) as [-> _]]. }
  assert (Hu : forall q, unsched (proc_at s' q) = unsched (proc_at s q)).
  { intros q. destruct (decide (waits_on c s q)) as [Hd|Hd]; [by rewrite (nolink_unsched _ _ (W1 q Hd))|by apply nolink_unsched, W2]. }
  assert (Hp : forall q, p_addr (proc_at s' q) = p_addr (proc_at s q) /\ pri s' q = pri s q).
  { intros q. specialize (Hu q). unfold pri. split; [change (p_addr (unsched (proc_at s' q)) = p_addr (unsched (proc_at s q)))|
      change (p_pri (unsched (proc_at s' q)) = p_pri (unsched (proc_at s q)))]; by rewrite Hu. }
  split; [done|]. split; [|split; [split|]].
  - eexists _, _. split; [exact Q'|]. split; [exact A'|]. split; [done|]. split; [|intros q; destruct (Hp q) as [_ ->]; apply Hpr].
    intros q Hin. destruct (Hp q) as [-> _]. apply Hpl. destruct Hin as [Hin|Hin].
    + apply elem_of_app in Hin as [Hin|Hin]; [|by left]. rewrite list_elem_of_In, <- in_rev, <- list_elem_of_In in Hin. apply list_elem_of_filter in Hin as [Hin _]. right. left. by apply Hw.
    + rewrite Hs in Hin. case_decide; [by destruct Hin|by right].
  - done.
  - exact Hu.
  - intros q. rewrite Hs. case_decide as Hd; [right; split; [left; by apply Hw|done]|by left].
  - intros q Hsl. rewrite Hs in Hsl. case_decide as Hd; [discriminate Hsl|]. by destruct (nolink_stat _ _ (W2 q Hd)) as [_ ->].
  - intros q Hd. by rewrite Hs, decide_True.
Qed.

(** A stopped process made runnable. *)
Lemma setrun_in_order q e s : in_order s -> (q < NPROC)%nat -> p_stat (proc_at s q) = SSTOP ->
  exists s', setrun q e s = Ret tt e s' /\ in_order s' /\ awakens same_entry s s'.
Proof.
  intros (RQ & SQ & Hq & Ha & Hro & Hpl & Hpr) Hlt Hst. assert (Hr : q ∉ RQ).
  { intros Hin. destruct (q_run_in _ _ _ Hq q Hin) as (_ & E & _). rewrite Hst in E. discriminate E. }
  assert (Hs : forall h, q ∉ SQ h).
  { intros h Hin. destruct (q_slp_in _ _ _ Hq h q Hin) as (_ & E & _). rewrite Hst in E. discriminate E. }
  assert (Hw : p_wchan (proc_at s q) = None).
  { destruct (p_wchan (proc_at s q)) as [c|] eqn:E; [|done]. by destruct (Hs (HASH c) (Ha q c E)). }
  destruct (q_len _ _ _ Hq) as [Hl _]. exists (run_proc q s).
  assert (Hne : forall x, x <> q -> proc_at (run_proc q s) x = proc_at s x) by (intros x; apply run_proc_ne).
  pose proof (run_proc_same q s) as Es. destruct (nolink_stat _ _ Es) as [Est Ewc]. apply nolink_unsched in Es. cbn in Est, Ewc.
  assert (Eu : forall x, unsched (proc_at (run_proc q s) x) = unsched (proc_at s x)).
  { intros x. destruct (decide (x = q)) as [->|Hx]; [by rewrite Es|by rewrite Hne]. }
  assert (Hp : forall x, p_addr (proc_at (run_proc q s) x) = p_addr (proc_at s x) /\ pri (run_proc q s) x = pri s x).
  { intros x. specialize (Eu x). unfold pri. split; [change (p_addr (unsched (proc_at (run_proc q s) x)) = p_addr (unsched (proc_at s x)))|
      change (p_pri (unsched (proc_at (run_proc q s) x)) = p_pri (unsched (proc_at s x)))]; by rewrite Eu. }
  split; [|split; [|split]].
  - apply setrun_nowait with RQ; try done; [apply Hq|by rewrite Hst|by rewrite Hst].
  - exists (q :: RQ), SQ. split; [by apply run_proc_queues|]. split; [|split; [by destruct (run_proc_globals q s) as (_ & _ & ->)|split]].
    + intros x c Hx. destruct (decide (x = q)) as [->|Hne']; [by rewrite Ewc, Hw in Hx|]. rewrite Hne in Hx by done. by apply Ha.
    + intros x Hx. destruct (Hp x) as [-> _]. apply Hpl. destruct (decide (x = q)) as [->|Hne']; [right; by right|].
      rewrite Hne in Hx by done. destruct Hx as [Hx|Hx]; [|by right]. apply elem_of_cons in Hx as [->|Hx]; [done|by left].
    + intros x. destruct (Hp x) as [_ ->]. apply Hpr.
  - apply run_proc_only.
  - exact Eu.
  - intros x. destruct (decide (x = q)) as [->|Hx]; [right; split; [by right|done]|left; by rewrite Hne].
  - intros x Hsl. destruct (decide (x = q)) as [->|Hx]; [rewrite Est in Hsl; discriminate Hsl|by rewrite Hne].
Qed.

(** An update of an entry that does not concern the queues. *)
Lemma upd_in_order q g s : in_order s ->
  (forall x, (p_stat (g x), p_wchan (g x), p_link (g x), p_pri (g x)) = (p_stat x, p_wchan x, p_link x, p_pri x)) ->
  (p_stat (proc_at s q) <> SZOMB -> p_addr (g (proc_at s q)) = p_addr (proc_at s q)) -> in_order (upd_proc q g s).
Proof.
  intros (RQ & SQ & Hq & Ha & Hro & Hpl & Hpr) Hg Hadr. specialize (Hg (proc_at s q)). injection Hg as G1 G2 G3 G4.
  assert (E : forall x, (p_stat (proc_at (upd_proc q g s) x), p_wchan (proc_at (upd_proc q g s) x), p_link (proc_at (upd_proc q g s) x), p_pri (proc_at (upd_proc q g s) x)) =
    (p_stat (proc_at s x), p_wchan (proc_at s x), p_link (proc_at s x), p_pri (proc_at s x))).
  { intros x. destruct (decide (x = q)) as [->|Hx]; [rewrite proc_upd_same; congruence|by rewrite proc_upd_ne]. }
  exists RQ, SQ. split; [|split; [|split; [done|split]]].
  - destruct Hq as [H1 H2 H3 H4 H5 H6]. split; try done.
    + apply chain_frame with (plink s); [|done]. intros x _. unfold plink. specialize (E x). congruence.
    + intros h. apply chain_frame with (plink s); [|apply H2]. intros x _. unfold plink. specialize (E x). congruence.
    + intros x Hx. specialize (E x). injection E as -> -> _ _. by apply H5.
    + intros h x Hx. specialize (E x). injection E as -> -> _ _. by apply H6.
  - intros x c Hx. apply Ha. specialize (E x). congruence.
  - intros x Hx. assert (Ex : p_stat (proc_at (upd_proc q g s) x) = p_stat (proc_at s x)) by (specialize (E x); congruence). rewrite Ex in Hx.
    destruct (decide (x = q)) as [->|Hne]; [|rewrite proc_upd_ne by done; by apply Hpl]. rewrite proc_upd_same, Hadr; [by apply Hpl|].
    intros Hz. destruct Hx as [Hx|[Hx|Hx]]; [|rewrite Hz in Hx; discriminate Hx..].
    destruct (q_run_in _ _ _ Hq q Hx) as (_ & E' & _). rewrite Hz in E'. discriminate E'.
  - intros x. unfold pri. specialize (E x). injection E as _ _ _ ->. apply Hpr.
Qed.

(** * Leaving the processor *)

(** The entry without what switching to it changes. *)
Definition entry (x : proc) : proc := unsched x <| p_flag := 0 |>.

Record settled (s s' : kst) : Prop := {
  se_kx : xtimes (kx s') = xtimes (kx s);
  se_kf : kf s' = kf s;
  se_upages : upages_ (ku s') = upages_ (ku s);
  se_stat : forall q, p_stat (proc_at s' q) = p_stat (proc_at s q);
  se_entry : forall q, entry (proc_at s' q) = entry (proc_at s q)
}.

Lemma settled_trans s1 s2 s3 : settled s1 s2 -> settled s2 s3 -> settled s1 s3.
Proof. intros [K1 F1 U1 S1 E1] [K2 F2 U2 S2 E2]. split; congruence. Qed.

Lemma settled_kp s s' : kp s' = kp s -> xtimes (kx s') = xtimes (kx s) -> kf s' = kf s -> upages_ (ku s') = upages_ (ku s) -> settled s s'.
Proof. intros E1 E2 E3 E4. split; try done; intros q; unfold proc_at; by rewrite E1. Qed.

Lemma settled_nolink s s' : (forall q, nolink (proc_at s' q) = nolink (proc_at s q)) -> xtimes (kx s') = xtimes (kx s) -> kf s' = kf s -> upages_ (ku s') = upages_ (ku s) ->
  settled s s'.
Proof.
  intros E1 E2 E3 E4. split; try done; intros q; destruct (nolink_stat _ _ (E1 q)) as [Es _]; try done.
  unfold entry. by rewrite (nolink_unsched _ _ (E1 q)).
Qed.

Lemma settled_procs s s' : procs (kp s') = procs (kp s) -> xtimes (kx s') = xtimes (kx s) -> kf s' = kf s -> upages_ (ku s') = upages_ (ku s) -> settled s s'.
Proof. intros E1 E2 E3 E4. split; try done; intros q; unfold proc_at; by rewrite E1. Qed.

Lemma dispatched_settled p n s : settled s (dispatched p n s).
Proof.
  split; try done; intros q; unfold dispatched; change (proc_at (set_resume_usp ?r (upd_u ?g ?y <| ku; syspage := ?v |>))) with (proc_at y);
    change (proc_at (?y <| ku; uarrp := ?v |>)) with (proc_at y);
    (destruct (decide (q = p)) as [->|Hne]; [rewrite proc_upd_same|rewrite proc_upd_ne by done]); try done.
Qed.

Lemma swtch_scan_pure k : forall p q pp pq n e s,
  (exists r, swtch_scan k p q pp pq n e s = Ret r e s) \/ swtch_scan k p q pp pq n e s = Stop Nofuel s.
Proof.
  induction k as [|k IH]; intros [p|] q pp pq n e s; cbn [swtch_scan]; try (left; by eexists); [by right|].
  msteps. destruct (_ && _); apply IH.
Qed.

Lemma dispatch_away me p n s r s' : dispatch me p n [] s = Stop (Away r) s' -> settled s s'.
Proof.
  unfold dispatch. msteps. destruct (negb (Nat.eqb p 0) && _); [done|]. msteps. intros E.
  assert (Er : resume p me [] (dispatched p n s) = Stop (Away r) s') by exact E. clear E. revert Er. unfold resume.
  destruct (decide (me = 0%nat)); [|destruct (decide (p = me)); [done|]]; intros E; unfold await in E; cbn in E; injection E as _ <-; apply dispatched_settled.
Qed.

(** What [swtch] does with the process it has found. *)
Definition swtch_found (me : nat) (r : option nat * option nat * Z) : M unit :=
  match r with
  | (None, _, _) => _ ← spl0; if Nat.eqb me 0 then mret tt else dispatch me 0 PUSER
  | (Some p, pq, n) => _ ← modify (unlink_run p pq); dispatch me p n
  end.

Lemma swtch_start e s : exists s1, settled s s1 /\ swtch e s = (r ← swtch_scan QFUEL (runq (kp s1)) None None None 128; swtch_found (curproc s) r) e s1.
Proof.
  unfold swtch, spl6. rewrite bind_gets. set (w := when _ _).
  assert (Hw : exists s0, w e s = Ret tt e s0 /\ settled s s0 /\ runq (kp s0) = runq (kp s)).
  { unfold w. destruct (negb _); eexists; (split; [reflexivity|split; [|reflexivity]]); apply settled_procs; reflexivity. }
  destruct Hw as (s0 & Hw & S0 & Eq). rewrite (bind_ret _ _ _ _ _ _ _ Hw). msteps. exists (s0 <| kipl := 6 |> <| kp; runrun := 0 |>). split.
  - apply settled_trans with s0; [done|]. apply settled_procs; reflexivity.
  - unfold mbind, m_bind. destruct (swtch_scan _ _ _ _ _ _ _ _) as [[[[p|] pq] n] e1 s1|]; reflexivity.
Qed.

Lemma swtch_found_settled me r0 s r s' : swtch_found me r0 [] s = Stop (Away r) s' -> settled s s'.
Proof.
  destruct r0 as [[[p|] pq] n]; unfold swtch_found, spl0; msteps; intros E.
  - apply settled_trans with (unlink_run p pq s); [|exact (dispatch_away _ _ _ _ _ _ E)]. apply settled_nolink; [apply unlink_run_nolink|by destruct pq..].
  - destruct (Nat.eqb me 0); [done|]. apply settled_trans with (s <| kipl := 0 |>); [by apply settled_kp|exact (dispatch_away _ _ _ _ _ _ E)].
Qed.

Lemma swtch_away_settled s r s' : swtch [] s = Stop (Away r) s' -> settled s s'.
Proof.
  destruct (swtch_start [] s) as (s1 & S1 & ->). unfold mbind, m_bind.
  destruct (swtch_scan_pure QFUEL (runq (kp s1)) None None None 128 [] s1) as [[r0 ->]| ->]; intros E; [|discriminate E].
  apply settled_trans with s1; [done|]. exact (swtch_found_settled _ _ _ _ _ E).
Qed.

(** A zombie's [swtch] does not come back. *)
Lemma swtch_zombie s : in_order s -> curproc s <> 0%nat -> p_stat (proc_at s (curproc s)) = SZOMB ->
  exists r s', swtch [] s = Stop (Away r) s' /\ settled s s'.
Proof.
  intros (RQ & SQ & Hq & Ha & Hro & Hpl & Hpr) H0 Hz. assert (Hn : curproc s ∉ RQ).
  { intros Hin. destruct (q_run_in _ _ _ Hq _ Hin) as (_ & E & _). rewrite Hz in E. discriminate E. }
  assert (Hsw : exists r s', swtch [] s = resume r (curproc s) [] s' /\ r <> curproc s).
  { destruct (swtch_ok (curproc s) [] s RQ SQ Hq eq_refl H0 Hpr) as [(p & l1 & l2 & s' & -> & _ & Hr & _)|(_ & s' & Hr & _)].
    - intros p Hp. apply Hpl. by left.
    - exists p, s'. split; [done|]. intros ->. apply Hn, elem_of_app. right. by left.
    - exists 0%nat, s'. split; [done|]. congruence. }
  destruct Hsw as (r & s' & Hr & Hne). exists r, s'. assert (E : swtch [] s = Stop (Away r) s').
  { rewrite Hr. unfold resume. rewrite !decide_False by done. done. }
  split; [done|]. exact (swtch_away_settled s r s' E).
Qed.

(** * The children and the parent *)

Definition reparent (pid : Z) (x : proc) : proc := if p_ppid x =? pid then x <| p_ppid := 1 |> else x.
Definition reparent_in (l : list nat) (pid : Z) (q : nat) (x : proc) : proc := if decide (q ∈ l) then reparent pid x else x.

Lemma reparent_unsched pid x y : unsched x = unsched y -> unsched (reparent pid x) = unsched (reparent pid y).
Proof.
  intros E. assert (Ep : p_ppid x = p_ppid y) by (change (p_ppid (unsched x) = p_ppid (unsched y)); by rewrite E).
  unfold reparent. rewrite Ep. destruct (p_ppid y =? pid); [|done].
  transitivity (unsched x <| p_ppid := 1 |>); [by destruct x|]. rewrite E. by destruct y.
Qed.

Lemma reparent_pid pid x : p_pid (reparent pid x) = p_pid x.
Proof. unfold reparent. by destruct (_ =? _). Qed.

Lemma reparent_idem pid x : reparent pid (reparent pid x) = reparent pid x.
Proof. unfold reparent. destruct (p_ppid x =? pid) eqn:E; [|by rewrite E]. destruct (p_ppid (x <| p_ppid := 1 |>) =? pid); by destruct x. Qed.

Lemma unsched_pid x y : unsched x = unsched y -> p_pid x = p_pid y /\ p_ppid x = p_ppid y.
Proof. intros E. split; [change (p_pid (unsched x) = p_pid (unsched y))|change (p_ppid (unsched x) = p_ppid (unsched y))]; by rewrite E. Qed.

Lemma awakens_zombie g s s' q : awakens g s s' -> p_stat (proc_at s q) = SZOMB -> p_stat (proc_at s' q) = SZOMB.
Proof. intros [_ _ S] Hz. destruct (S q) as [->|[[E|E] _]]; [done|rewrite Hz in E; discriminate E..]. Qed.

Lemma exit_child_ok p q s : in_order s -> (q < NPROC)%nat ->
  exists s', exit_child p q [] s = Ret tt [] s' /\ in_order s' /\ awakens (reparent_in [q] (p_pid (proc_at s p))) s s'.
Proof.
  intros Hi Hq. unfold exit_child. msteps. set (pid := p_pid (proc_at s p)).
  assert (Hone : forall x, reparent_in [q] pid q x = reparent pid x) by (intros; unfold reparent_in; by rewrite decide_True by (by left)).
  assert (Hoth : forall y x, y <> q -> reparent_in [q] pid y x = x) by (intros; unfold reparent_in; by rewrite decide_False by (by rewrite list_elem_of_singleton)).
  destruct (Z.eqb_spec (p_ppid (proc_at s q)) pid) as [E|E]; cbn [when].
  - destruct (wakeup_in_order (ChProc 1) [] s Hi) as (s1 & Hr1 & I1 & A1 & _). rewrite (bind_ret _ _ _ _ _ _ _ Hr1). msteps.
    set (s2 := upd_proc q _ s1). assert (I2 : in_order s2) by (by apply upd_in_order).
    assert (A2 : awakens (reparent_in [q] pid) s s2).
    { apply (awakens_trans same_entry (reparent_in [q] pid) _ s s1 s2); [done| |intros x y z Ez; unfold reparent_in; case_decide; [by apply reparent_unsched|done]].
      split; [done| | |].
      - intros x. destruct (decide (x = q)) as [->|Hne]; [|unfold s2; by rewrite proc_upd_ne, Hoth]. unfold s2. rewrite proc_upd_same, Hone.
        destruct (unsched_pid _ _ (aw_procs _ _ _ A1 q)) as [_ Ep]. unfold same_entry in Ep. unfold reparent. by rewrite Ep, E, Z.eqb_refl.
      - intros x. left. destruct (decide (x = q)) as [->|Hne]; unfold s2; [by rewrite proc_upd_same|by rewrite proc_upd_ne].
      - intros x _. destruct (decide (x = q)) as [->|Hne]; unfold s2; [by rewrite proc_upd_same|by rewrite proc_upd_ne]. }
    destruct (Z.eqb_spec (p_stat (proc_at s2 q)) SSTOP) as [Es|Es]; cbn [when]; [|by exists s2].
    destruct (setrun_in_order q [] s2 I2 Hq Es) as (s3 & Hr3 & I3 & A3). exists s3. split; [done|]. split; [done|].
    by apply (awakens_trans (reparent_in [q] pid) same_entry _ s s2 s3).
  - exists s. split; [done|]. split; [done|]. split; [apply only_kp_refl| |by left|done]. intros x. destruct (decide (x = q)) as [->|Hne]; [|by rewrite Hoth].
    rewrite Hone. unfold reparent. by rewrite (proj2 (Z.eqb_neq _ _) E).
Qed.

Lemma exit_children_ok p : forall l s, in_order s -> (forall q, q ∈ l -> (q < NPROC)%nat) ->
  exists s', for_each l (exit_child p) [] s = Ret tt [] s' /\ in_order s' /\ awakens (reparent_in l (p_pid (proc_at s p))) s s'.
Proof.
  induction l as [|q l IH]; intros s Hi Hl.
  - exists s. split; [done|]. split; [done|]. apply (awakens_trans same_entry same_entry _ s s s); [apply awakens_refl..|done].
  - cbn [for_each]. destruct (exit_child_ok p q s Hi) as (s1 & Hr1 & I1 & A1); [apply Hl; by left|]. rewrite (bind_ret _ _ _ _ _ _ _ Hr1).
    destruct (IH s1 I1) as (s2 & Hr2 & I2 & A2); [intros x Hx; apply Hl; by right|]. exists s2. split; [done|]. split; [done|].
    assert (Ep : p_pid (proc_at s1 p) = p_pid (proc_at s p)).
    { destruct (unsched_pid _ _ (aw_procs _ _ _ A1 p)) as [-> _]. unfold reparent_in. case_decide; [apply reparent_pid|done]. }
    rewrite Ep in A2. apply (awakens_trans _ _ _ s s1 s2 A1 A2). intros x y z Ez. set (pid := p_pid (proc_at s p)) in *.
    unfold reparent_in in *. destruct (decide (x ∈ l)) as [Hx|Hx], (decide (x ∈ [q])) as [Hy|Hy].
    + rewrite decide_True by (by right). transitivity (unsched (reparent pid (reparent pid z))); [by apply reparent_unsched|by rewrite reparent_idem].
    + rewrite decide_True by (by right). by apply reparent_unsched.
    + rewrite decide_True by set_solver. done.
    + rewrite decide_False by set_solver. done.
Qed.

(** The process the zombie's parent number names first. *)
Definition parent_in (l : list nat) (s : kst) (p q : nat) : Prop :=
  exists l1 l2, l = l1 ++ q :: l2 /\ p_pid (proc_at s q) = p_ppid (proc_at s p) /\ forall x, x ∈ l1 -> p_pid (proc_at s x) <> p_ppid (proc_at s p).

(** The end of [exit], from [s]: the processor is left for good, with [s']. *)
Definition exit_left (p : nat) (m : M unit) (s : kst) : Prop :=
  exists r s1 s', m [] s = Stop (Away r) s' /\ awakens same_entry s s1 /\ settled s1 s' /\
    forall q, parent_in (seq 0 NPROC) s p q -> waits_on (ChProc q) s q -> p_stat (proc_at s' q) = SRUN.

Lemma exit_parents_ok p s : in_order s -> curproc s = p -> p <> 0%nat -> p_stat (proc_at s p) = SZOMB -> forall n,
  exit_left p (_ ← for_each (seq 0 NPROC) (exit_parent p); _ ← swtch; _ ← splx n; panic "zombie resumed") s.
Proof.
  intros Hi Hc H0 Hz n. unfold exit_left. set (rest := (_ ← swtch; _ ← splx n; panic "zombie resumed") : M unit).
  assert (G : forall l1 l, seq 0 NPROC = l1 ++ l -> (forall x, x ∈ l1 -> p_pid (proc_at s x) <> p_ppid (proc_at s p)) ->
    exists r s1 s', (for_each l (exit_parent p) ≫= fun _ => rest) [] s = Stop (Away r) s' /\ awakens same_entry s s1 /\ settled s1 s' /\
      forall q, parent_in (seq 0 NPROC) s p q -> waits_on (ChProc q) s q -> p_stat (proc_at s' q) = SRUN).
  { intros l1 l. revert l1. induction l as [|q l IH]; intros l1 El Hl1.
    - cbn [for_each]. msteps. unfold rest. destruct (swtch_zombie s Hi) as (r & s' & Hr & St); [by rewrite Hc|by rewrite Hc|].
      exists r, s, s'. split; [by unfold mbind, m_bind; rewrite Hr|]. split; [apply awakens_refl|]. split; [done|].
      intros q (k1 & k2 & Ek & Eq & _) _. exfalso. rewrite app_nil_r in El. apply (Hl1 q); [|done]. rewrite <- El, Ek. apply elem_of_app. right. by left.
    - cbn [for_each]. msteps. destruct (Z.eqb_spec (p_ppid (proc_at s p)) (p_pid (proc_at s q))) as [E|E].
      + assert (Hx : exists r s1 s', exit_parent p q [] s = Stop (Away r) s' /\ awakens same_entry s s1 /\ settled s1 s' /\
          (waits_on (ChProc q) s q -> p_stat (proc_at s' q) = SRUN)).
        { unfold exit_parent. msteps. rewrite E, Z.eqb_refl. cbn [when]. destruct (wakeup_in_order (ChProc q) [] s Hi) as (s1 & Hr1 & I1 & A1 & W1).
          rewrite (bind_ret _ _ _ _ _ _ _ Hr1). assert (Ec : curproc s1 = p) by (unfold curproc; by rewrite (only_kp_u _ _ (aw_only _ _ _ A1))).
          destruct (swtch_zombie s1 I1) as (r & s' & Hr & St); [by rewrite Ec|rewrite Ec; by apply (awakens_zombie same_entry s)|].
          exists r, s1, s'. split; [by unfold mbind, m_bind; rewrite Hr|]. split; [done|]. split; [done|]. intros Hw. rewrite (se_stat _ _ St). by apply W1. }
        destruct Hx as (r & s1 & s' & Hr & A & St & Hw). exists r, s1, s'. split; [by unfold mbind, m_bind; rewrite Hr|]. split; [done|]. split; [done|].
        intros y (k1 & k2 & Ek & Ey & Hk) Hwy. assert (y = q) as ->; [|by apply Hw].
        destruct (app_cons_first l1 q l k1 y k2) as [? ?]; try done.
        * by rewrite <- El, Ek.
        * intros Hin. by apply (Hk q Hin).
        * intros Hin. by apply (Hl1 y Hin).
      + assert (Hx : exit_parent p q [] s = Ret tt [] s) by (unfold exit_parent; msteps; by rewrite (proj2 (Z.eqb_neq _ _) E)).
        destruct (IH (l1 ++ [q])) as (r & s1 & s' & Hr & H1 & H2 & H3); [by rewrite <- app_assoc|intros x Hin; apply elem_of_app in Hin as [Hin|Hin]; [by apply Hl1|]; apply list_elem_of_singleton in Hin as ->; by apply not_eq_sym|].
        exists r, s1, s'. split; [|done]. by rewrite (bind_ret _ _ _ _ _ _ _ Hx). }
  apply (G [] (seq 0 NPROC) eq_refl). intros x Hx. by apply not_elem_of_nil in Hx.
Qed.

(** * The zombie *)

(** The process is running and may end. *)
Record may_end (s : kst) : Prop := {
  me_order : exists RQ SQ, queues s RQ SQ /\ all_queued s SQ /\ placed s RQ /\ running s RQ SQ;
  me_runout : runout (kp s) = 0;
  me_pri : forall p, -128 <= pri s p < 128;
  me_user : curproc s <> 0%nat;
  me_pages : up_inv (upages_ (ku s));
  me_page : 1 <= p_addr (proc_at s (curproc s)) <= 62 /\ owned (upages_ (ku s)) !! Z.to_nat (p_addr (proc_at s (curproc s))) = Some 1
}.

Lemma exit_runq_ok p e s : forall l k o, chain (plink s) o l -> p ∉ l -> (length l <= k)%nat -> exit_runq k o p e s = Ret tt e s.
Proof.
  induction l as [|q l IH]; intros k o Hc Hp Hk; cbn in Hc; [by subst o; destruct k|]. destruct Hc as [-> Hc]. destruct k as [|k]; [cbn in Hk; lia|].
  cbn [exit_runq]. rewrite (proj2 (Nat.eqb_neq q p)) by set_solver. msteps. apply IH; [exact Hc|set_solver|cbn in Hk; lia].
Qed.

(** The entry of the process, zombie or not, off the queues. *)
Lemma zombie_in_order p g s RQ SQ : queues s RQ SQ -> all_queued s SQ -> runout (kp s) = 0 -> placed s RQ -> (forall q, -128 <= pri s q < 128) ->
  p ∉ RQ -> (forall h, p ∉ SQ h) -> p_wchan (g (proc_at s p)) = None -> p_pri (g (proc_at s p)) = p_pri (proc_at s p) -> p_stat (g (proc_at s p)) = SZOMB ->
  in_order (upd_proc p g s).
Proof.
  intros Hq Ha Hro Hpl Hpr Hr Hs Hw Hp Hz. exists RQ, SQ. split; [by apply upd_proc_queues|]. split; [|split; [done|split]].
  - intros x c Hx. destruct (decide (x = p)) as [->|Hne]; [by rewrite proc_upd_same, Hw in Hx|]. rewrite proc_upd_ne in Hx by done. by apply Ha.
  - intros x Hx. destruct (decide (x = p)) as [->|Hne].
    + rewrite proc_upd_same, Hz in Hx. destruct Hx as [Hx|[Hx|Hx]]; [done|discriminate Hx..].
    + rewrite proc_upd_ne in * by done. by apply Hpl.
  - intros x. unfold pri. destruct (decide (x = p)) as [->|Hne]; [rewrite proc_upd_same, Hp|rewrite proc_upd_ne by done]; apply Hpr.
Qed.

Lemma upage_free_ok e s page up : userpage_free (upages_ (ku s)) page = Ok up -> upage_free page e s = Ret tt e (s <| ku; upages_ := up |>).
Proof. intros E. unfold upage_free. msteps. rewrite E. reflexivity. Qed.

Definition times_of (x : user) : Z * Z := (i32 (u_cutime x + u_utime x), i32 (u_cstime x + u_stime x)).

(** What [exit] leaves of the process [p]. *)
Record zombie (rv : Z) (p : nat) (s s' : kst) : Prop := {
  zb_stat : p_stat (proc_at s' p) = SZOMB;
  zb_pid : p_pid (proc_at s' p) = p_pid (proc_at s p);
  zb_status : p_addr (proc_at s' p) = i16 rv;
  zb_times : xtimes (kx s') p = times_of (u s);
  zb_pages : up_inv (upages_ (ku s')) /\ owned (upages_ (ku s')) = <[Z.to_nat (p_addr (proc_at s p)) := 0]> (owned (upages_ (ku s)));
  zb_children : forall q, (q < NPROC)%nat ->
    p_ppid (proc_at s' q) = (if p_ppid (proc_at s q) =? p_pid (proc_at s p) then 1 else p_ppid (proc_at s q)) /\ p_pid (proc_at s' q) = p_pid (proc_at s q)
}.

Lemma entry_fields x y : entry x = entry y -> p_pid x = p_pid y /\ p_ppid x = p_ppid y /\ p_addr x = p_addr y.
Proof.
  intros E. split_and!; [change (p_pid (entry x) = p_pid (entry y))|change (p_ppid (entry x) = p_ppid (entry y))|change (p_addr (entry x) = p_addr (entry y))]; by rewrite E.
Qed.

Lemma reparent_fields pid x : p_addr (reparent pid x) = p_addr x /\ p_ppid (reparent pid x) = (if p_ppid x =? pid then 1 else p_ppid x).
Proof. unfold reparent. by destruct (_ =? _). Qed.

(** [wakeup] of the parent, then the last switch. *)
Definition parent_woken (p : nat) (s s' : kst) : Prop :=
  forall q, (q < NPROC)%nat -> parent_in (seq 0 NPROC) s' p q -> waits_on (ChProc q) s q -> p_stat (proc_at s' q) = SRUN.

Definition zombied (p : nat) (rv : Z) (s : kst) : kst :=
  upd_proc p (fun y => y <| p_stat := SZOMB |>)
    (upd_proc p (fun y => y <| p_size := i16 (Z.shiftr (times_of (u s)).1 16) |>) (upd_proc p (fun y => y <| p_addr := i16 rv |>) s) <| kx; xtimes ::= <[p := times_of (u s)]> |>).

Lemma in_order_ext s s' : (forall x, proc_at s' x = proc_at s x) -> runq (kp s') = runq (kp s) -> slpque (kp s') = slpque (kp s) ->
  runout (kp s') = runout (kp s) -> in_order s -> in_order s'.
Proof.
  intros E E1 E2 E3 (RQ & SQ & [H1 H2 H3 H4 H5 H6] & Ha & Hro & Hpl & Hpr). exists RQ, SQ. split; [split|split; [|split; [congruence|split]]].
  - rewrite E1. apply chain_frame with (plink s); [|done]. intros x _. unfold plink. by rewrite E.
  - intros h. rewrite E2. apply chain_frame with (plink s); [|done]. intros x _. unfold plink. by rewrite E.
  - done.
  - done.
  - intros x. rewrite E. apply H5.
  - intros h x. rewrite E. apply H6.
  - intros x c. rewrite E. apply Ha.
  - intros x. rewrite E. apply Hpl.
  - intros x. unfold pri. rewrite E. apply Hpr.
Qed.

Lemma become_zombie_eq p rv e s : become_zombie p rv e s = Ret tt e (zombied p rv s).
Proof. reflexivity. Qed.

Lemma zombied_proc p rv s : proc_at (zombied p rv s) p = proc_at s p <| p_addr := i16 rv |> <| p_size := i16 (Z.shiftr (times_of (u s)).1 16) |> <| p_stat := SZOMB |> /\
  (forall q, q <> p -> proc_at (zombied p rv s) q = proc_at s q) /\ xtimes (kx (zombied p rv s)) p = times_of (u s).
Proof.
  unfold zombied. split; [|split].
  - rewrite proc_upd_same. change (proc_at (?y <| kx; xtimes ::= ?f |>)) with (proc_at y). by rewrite !proc_upd_same.
  - intros q Hq. rewrite proc_upd_ne by done. change (proc_at (?y <| kx; xtimes ::= ?f |>)) with (proc_at y). by rewrite !proc_upd_ne.
  - apply fn_lookup_insert.
Qed.

Lemma exit_zombie_ok rv s : may_end s -> let p := curproc s in
  exists r s', exit_zombie rv [] s = Stop (Away r) s' /\ zombie rv p s s' /\ parent_woken p s s'.
Proof.
  intros Hme p. destruct Hme as [(RQ & SQ & Hq & Ha & Hpl & (Hlt & Hr & Hs & Hw)) Hro Hpr H0 Hup [Hpg Hown]]. fold p in Hlt, Hr, Hs, Hw, H0, Hpg, Hown.
  destruct (userpage_free_inv (upages_ (ku s)) (p_addr (proc_at s p)) Hup) as [[_ Hf]|(up & Hf & Hup' & _ & _ & Eown)]; [by destruct Hf|].
  destruct (q_len _ _ _ Hq) as [Hl _]. unfold exit_zombie, spl6. msteps. fold p. set (s0 := s <| kipl := 6 |>).
  rewrite (bind_ret _ _ _ _ _ _ _ (exit_runq_ok p [] s0 RQ QFUEL _ (q_run _ _ _ Hq) Hr ltac:(unfold QFUEL; lia))).
  rewrite (bind_ret _ _ _ _ _ _ _ (upage_free_ok [] s0 _ up Hf)), (bind_ret _ _ _ _ _ _ _ (become_zombie_eq _ _ _ _)).
  set (s1 := s0 <| ku; upages_ := up |>). set (s2 := zombied p rv s1). destruct (zombied_proc p rv s1) as (Z1 & Z2 & Z3). fold s2 in Z1, Z2, Z3.
  change (proc_at s1) with (proc_at s) in Z1, Z2. change (u s1) with (u s) in Z1, Z3.
  assert (I2 : in_order s2).
  { apply (in_order_ext (upd_proc p (fun y => y <| p_addr := i16 rv |> <| p_size := i16 (Z.shiftr (times_of (u s)).1 16) |> <| p_stat := SZOMB |>) s)); try reflexivity.
    - intros x. destruct (decide (x = p)) as [->|Hne]; [by rewrite Z1, proc_upd_same|by rewrite Z2, proc_upd_ne].
    - by apply (zombie_in_order p _ s RQ SQ). }
  assert (Hz2 : p_stat (proc_at s2 p) = SZOMB) by (by rewrite Z1).
  destruct (exit_children_ok p (seq 0 NPROC) s2 I2) as (s3 & Hr3 & I3 & A3); [intros q Hin; apply elem_of_seq in Hin; lia|].
  rewrite (bind_ret _ _ _ _ _ _ _ Hr3). pose proof (awakens_zombie _ _ _ p A3 Hz2) as Hz3.
  assert (Ec : curproc s3 = p) by (unfold curproc; by rewrite (only_kp_u _ _ (aw_only _ _ _ A3))).
  destruct (exit_parents_ok p s3 I3 Ec H0 Hz3 (kipl s)) as (r & s4 & s' & Hrun & A4 & St & Hpar). exists r, s'. split; [exact Hrun|].
  assert (Ep2 : p_pid (proc_at s2 p) = p_pid (proc_at s p)) by (by rewrite Z1).
  assert (Ef : forall q, (q < NPROC)%nat -> p_pid (proc_at s' q) = p_pid (proc_at s2 q) /\ p_addr (proc_at s' q) = p_addr (proc_at s2 q) /\
    p_ppid (proc_at s' q) = if p_ppid (proc_at s2 q) =? p_pid (proc_at s p) then 1 else p_ppid (proc_at s2 q)).
  { intros q Hlq. destruct (entry_fields _ _ (se_entry _ _ St q)) as (-> & -> & ->).
    assert (E : unsched (proc_at s4 q) = unsched (reparent (p_pid (proc_at s p)) (proc_at s2 q))).
    { rewrite (aw_procs _ _ _ A4). unfold same_entry. rewrite (aw_procs _ _ _ A3), Ep2. unfold reparent_in. by rewrite decide_True by (apply elem_of_seq; lia). }
    destruct (reparent_fields (p_pid (proc_at s p)) (proc_at s2 q)) as [Ra Rp]. pose proof (reparent_pid (p_pid (proc_at s p)) (proc_at s2 q)) as Ri.
    rewrite <- Ri, <- Ra, <- Rp. split_and!; [change (p_pid (unsched (proc_at s4 q)) = p_pid (unsched (reparent (p_pid (proc_at s p)) (proc_at s2 q))))|
      change (p_addr (unsched (proc_at s4 q)) = p_addr (unsched (reparent (p_pid (proc_at s p)) (proc_at s2 q))))|
      change (p_ppid (unsched (proc_at s4 q)) = p_ppid (unsched (reparent (p_pid (proc_at s p)) (proc_at s2 q))))]; by rewrite E. }
  assert (Ek : xtimes (kx s') = xtimes (kx s2) /\ upages_ (ku s') = up).
  { rewrite (se_kx _ _ St), (se_upages _ _ St). destruct (aw_only _ _ _ A4) as (-> & _ & _ & _ & _ & _ & _ & ->). destruct (aw_only _ _ _ A3) as (-> & _ & _ & _ & _ & _ & _ & ->). done. }
  destruct Ek as [Ekx Eup]. split.
  - destruct (Ef p Hlt) as (F1 & F2 & _). split.
    + rewrite (se_stat _ _ St). by apply (awakens_zombie _ _ _ p A4).
    + by rewrite F1.
    + by rewrite F2, Z1.
    + by rewrite Ekx.
    + by rewrite Eup.
    + intros q Hlq. destruct (Ef q Hlq) as (G1 & _ & G3). rewrite G1, G3. destruct (decide (q = p)) as [->|Hne]; [by rewrite Z1|by rewrite Z2].
  - intros q Hlq (l1 & l2 & El & Epar & Hl1) Hwq.
    assert (G : forall x, p_pid (proc_at s' x) = p_pid (proc_at s3 x) /\ p_ppid (proc_at s' x) = p_ppid (proc_at s3 x)).
    { intros x. destruct (entry_fields _ _ (se_entry _ _ St x)) as (-> & -> & _). apply unsched_pid. apply (aw_procs _ _ _ A4). }
    assert (Hne : q <> p) by (intros ->; unfold waits_on in Hwq; rewrite Hw in Hwq; discriminate Hwq).
    assert (Esl : p_stat (proc_at s2 q) = SSLEEP) by (rewrite Z2 by done; by destruct (q_slp_in _ _ _ Hq _ _ (Ha q _ Hwq)) as (_ & ? & _)).
    destruct (aw_stat _ _ _ A3 q) as [E3|[_ E3]].
    + apply Hpar.
      * exists l1, l2. split; [done|]. destruct (G q) as [<- _], (G p) as [_ <-]. split; [done|]. intros x Hx. destruct (G x) as [<- _]. by apply Hl1.
      * unfold waits_on. rewrite (aw_wchan _ _ _ A3) by congruence. by rewrite Z2.
    + rewrite (se_stat _ _ St). destruct (aw_stat _ _ _ A4 q) as [->|[_ ->]]; done.
Qed.

(** * [wait] *)

(** The entry is reported by [wait]. *)
Definition reportable (me : Z) (x : proc) : Prop := p_ppid x = me /\ (p_stat x = SZOMB \/ p_stat x = SSTOP /\ fset (p_flag x) SWTED = false).

(** The parent knows the end of [p]. *)
Record collected (p : nat) (pid status : Z) (t : Z * Z) (s s' : kst) : Prop := {
  co_pid : u_r_val1 (u s') = pid;
  co_status : u_r_val2 (u s') = status;
  co_utime : u_cutime (u s') = i32 (u_cutime (u s) + fst t);
  co_stime : u_cstime (u s') = i32 (u_cstime (u s) + snd t);
  co_error : u_error (u s') = u_error (u s);
  co_free : p_stat (proc_at s' p) = 0 /\ p_pid (proc_at s' p) = 0;
  co_others : forall q, q <> p -> proc_at s' q = proc_at s q
}.

Lemma reap_ok p e s : exists s', reap p e s = Ret tt e s' /\ collected p (p_pid (proc_at s p)) (p_addr (proc_at s p)) (xtimes (kx s) p) s s'.
Proof.
  unfold reap. msteps. rewrite run_modify. eexists. split; [reflexivity|].
  split; try (change (u (upd_proc ?p ?g ?y)) with (u y); rewrite !u_upd_u; reflexivity).
  - rewrite proc_upd_same. done.
  - intros q Hq. by rewrite proc_upd_ne.
Qed.

Lemma wait_scan_skip l1 l2 f e s : (forall x, x ∈ l1 -> ~ reportable (p_pid (proc_at s (curproc s))) (proc_at s x)) ->
  exists f', wait_scan (l1 ++ l2) f e s = wait_scan l2 f' e s.
Proof.
  revert f. induction l1 as [|x l1 IH]; intros f Hl; [by exists f|]. cbn [app wait_scan]. msteps.
  assert (Hx : ~ reportable (p_pid (proc_at s (curproc s))) (proc_at s x)) by (apply Hl; by left). unfold reportable in Hx.
  assert (Hl' : forall y, y ∈ l1 -> ~ reportable (p_pid (proc_at s (curproc s))) (proc_at s y)) by (intros y Hy; apply Hl; by right).
  destruct (Z.eqb_spec (p_ppid (proc_at s x)) (p_pid (proc_at s (curproc s)))) as [E|E]; [|by apply IH].
  destruct (Z.eqb_spec (p_stat (proc_at s x)) SZOMB) as [Ez|Ez]; [destruct Hx; auto|].
  destruct (Z.eqb_spec (p_stat (proc_at s x)) SSTOP) as [Es|Es]; cbn [andb]; [|by apply IH].
  destruct (fset (p_flag (proc_at s x)) SWTED) eqn:Ef; cbn [negb]; [by apply IH|]. destruct Hx. auto.
Qed.

(** [p] is the first child [wait] reports. *)
Definition first_report (p : nat) (s : kst) : Prop :=
  exists l1 l2, seq 0 NPROC = l1 ++ p :: l2 /\ forall x, x ∈ l1 -> ~ reportable (p_pid (proc_at s (curproc s))) (proc_at s x).

Lemma wait_collects p e s : first_report p s -> p_ppid (proc_at s p) = p_pid (proc_at s (curproc s)) -> p_stat (proc_at s p) = SZOMB ->
  exists s', wait e s = Ret tt e s' /\ collected p (p_pid (proc_at s p)) (p_addr (proc_at s p)) (xtimes (kx s) p) s s'.
Proof.
  intros (l1 & l2 & El & Hl) Ep Ez. unfold wait. cbn [wait_f]. rewrite El. destruct (wait_scan_skip l1 (p :: l2) 0 e s Hl) as (f' & Hsc).
  destruct (reap_ok p e s) as (s' & Hr & C). exists s'. split; [|exact C].
  assert (Hs : wait_scan (l1 ++ p :: l2) 0 e s = Ret None e s').
  { rewrite Hsc. cbn [wait_scan]. msteps. rewrite Ep, Z.eqb_refl, Ez, Z.eqb_refl. by rewrite (bind_ret _ _ _ _ _ _ _ Hr). }
  by rewrite (bind_ret _ _ _ _ _ _ _ Hs).
Qed.

(** C21. The status of a process reaches its parent: when a process ends, [exit]
    leaves the processor for good, with the entry a zombie that keeps the number
    of the process, its status and its times, the page free again, its children
    given to process 1 and its parent, if it waits, runnable.  Whenever then the
    parent, with no earlier child to report, calls [wait] while the entry is as
    [exit] left it, [wait] returns the number and the status, adds the times and
    frees the entry. *)
Theorem exit_status_waited rv s : may_end s -> let p := curproc s in
  exists r s', exit_zombie rv [] s = Stop (Away r) s' /\ zombie rv p s s' /\ parent_woken p s s' /\
    forall e s2, proc_at s2 p = proc_at s' p -> xtimes (kx s2) p = xtimes (kx s') p -> p_ppid (proc_at s' p) = p_pid (proc_at s2 (curproc s2)) ->
      first_report p s2 ->
      exists s3, wait e s2 = Ret tt e s3 /\ collected p (p_pid (proc_at s p)) (i16 rv) (times_of (u s)) s2 s3.
Proof.
  intros Hme. cbv zeta. destruct (exit_zombie_ok rv s Hme) as (r & s' & Hr & Z & P). exists r, s'. split; [done|]. split; [done|]. split; [done|].
  intros e s2 Ep Et Epar Hf. destruct (wait_collects (curproc s) e s2 Hf) as (s3 & Hw & C); [by rewrite Ep|by rewrite Ep; apply Z|].
  exists s3. split; [done|]. rewrite Ep, Et, (zb_pid _ _ _ _ Z), (zb_status _ _ _ _ Z), (zb_times _ _ _ _ Z) in C. exact C.
Qed.

End Exits.

(** * Witness *)

(** Process 1 ends; its parent, process 2, waits. *)
Definition ex_family (p : nat) : proc :=
  match p with
  | 1%nat => proc0 <| p_stat := SRUN |> <| p_flag := 1 |> <| p_addr := 1 |> <| p_pid := 7 |> <| p_ppid := 2 |>
  | 2%nat => proc0 <| p_stat := SSLEEP |> <| p_flag := 1 |> <| p_addr := 2 |> <| p_pid := 2 |> <| p_wchan := Some (ChProc 2) |>
  | _ => proc0
  end.
Definition ex_upages : upages := match userpage_init with Ok up => match userpage_alloc up with Ok (_, up) => up | _ => up end | _ => UPages [] [] end.
Definition ex_ending : kst :=
  kst0 <| kp; procs := ex_family |> <| kp; slpque := fun h => if decide (h = 0) then Some 2%nat else None |>
       <| ku; uarrp := 1%nat |> <| ku; uarea := fun _ => user0 <| u_procp := 1%nat |> |> <| ku; upages_ := ex_upages |>.
Definition ex_waiting (h : Z) : list nat := if decide (h = 0) then [2%nat] else [].

Lemma ex_upages_inv : up_inv ex_upages.
Proof.
  assert (exists st, userpage_init = Ok st) as [st Hst] by (eexists; vm_compute; reflexivity).
  destruct (userpage_alloc_inv st (userpage_init_inv st Hst)) as (pg & st' & Ha & Hi & _).
  assert (E : ex_upages = st') by (unfold ex_upages; by rewrite Hst, Ha). by rewrite E.
Qed.

Lemma ex_may_end : may_end (H := ex_layout) ex_ending.
Proof.
  assert (Hin : forall h p, p ∈ ex_waiting h -> h = 0 /\ p = 2%nat).
  { intros h p. unfold ex_waiting. case_decide; [rewrite list_elem_of_singleton; done|intros Hx; by apply not_elem_of_nil in Hx]. }
  assert (Hst : forall p, p <> 1%nat -> p <> 2%nat -> proc_at ex_ending p = proc0) by (intros p H1 H2; do 3 (destruct p as [|p]; [done|]); done).
  split; [|done| |done|exact ex_upages_inv|split; [cbn; lia|vm_compute; reflexivity]].
  - exists [], ex_waiting. split; [split|split; [|split]].
    + done.
    + intros h. cbn. unfold ex_waiting. by case_decide.
    + constructor.
    + intros h. unfold ex_waiting. case_decide; repeat constructor. apply not_elem_of_nil.
    + intros p Hp. by apply not_elem_of_nil in Hp.
    + intros h p Hp. destruct (Hin h p Hp) as [-> ->]. split; [unfold NPROC; lia|]. split; [done|]. by exists (ChProc 2).
    + intros p c Hp. destruct (decide (p = 2%nat)) as [->|H2]; [injection Hp as <-; by left|].
      destruct (decide (p = 1%nat)) as [->|H1]; [discriminate Hp|]. rewrite Hst in Hp by done. discriminate Hp.
    + intros p [Hp|Hp]; [by apply not_elem_of_nil in Hp|]. destruct (decide (p = 2%nat)) as [->|H2]; [cbn; unfold KERNEL_METADATA_PAGE; lia|].
      destruct (decide (p = 1%nat)) as [->|H1]; [destruct Hp as [Hp|Hp]; discriminate Hp|]. rewrite Hst in Hp by done. destruct Hp as [Hp|Hp]; discriminate Hp.
    + split; [unfold NPROC; cbn; lia|]. split; [apply not_elem_of_nil|]. split; [|done]. intros h Hp. destruct (Hin _ _ Hp) as [_ E]. discriminate E.
  - intros p. unfold pri. destruct (decide (p = 2%nat)) as [->|H2]; [done|]. destruct (decide (p = 1%nat)) as [->|H1]; [done|]. by rewrite Hst.
Qed.

Lemma exit_status_waited_witness : exists r s', exit_zombie (H := ex_layout) 256 [] ex_ending = Stop (Away r) s' /\ p_addr (proc_at s' 1) = 256 /\ p_pid (proc_at s' 1) = 7.
Proof.
  destruct (exit_status_waited (H := ex_layout) 256 ex_ending ex_may_end) as (r & s' & Hr & Z & _). exists r, s'.
  split; [exact Hr|]. split; [exact (zb_status _ _ _ _ Z)|exact (zb_pid _ _ _ _ Z)].
Defined.
