(* ===== verification/Fork.v ===== *)
(** [fork] within its limits, and [break] between the image and the stack. *)
From S2P Require Import Prelude Malloc Clist Kernel Sched Dll Sd Bio Cache Blocks Codec Usermem Subr Alloc Freelist Inode Rdwri Bmap Readi Text Fio Namei Acct Exec Execargs Image Load Sys1.

(** * [fork] *)

(** An entry in use by the user of the current process. *)
Definition owned_by_user (s : kst) (p : nat) : Prop := p_uid (proc_at s p) = u_uid (u s) /\ p_stat (proc_at s p) <> 0.
#[export] Instance owned_by_user_dec s p : Decision (owned_by_user s p).
Proof. unfold owned_by_user. apply _. Defined.

(** The processes of the user. *)
Definition user_procs (s : kst) : Z := Z.of_nat (length (filter (owned_by_user s) (seq 0 NPROC))).

(** An ordinary user has all the processes allowed, or would take the last
    entry. *)
Definition at_limit (s : kst) (p2 : nat) : Prop := u_uid (u s) <> 0 /\ (p2 = (NPROC - 1)%nat \/ MAXUPRC < user_procs s).

Section Fork.
Context `{Layout} `{!Cdevsw}.

Lemma fork_scan_ok s : forall l p2 a, fork_scan l s p2 a =
  (match p2 with Some p => Some p | None => head (filter (free_slot s) l) end, a + Z.of_nat (length (filter (owned_by_user s) l))).
Proof.
  induction l as [|p l IH]; intros p2 a; [destruct p2; cbn; f_equal; lia|]. cbn [fork_scan].
  assert (Hb : (if (p_uid (proc_at s p) =? u_uid (u s)) && negb (p_stat (proc_at s p) =? 0) then a + 1 else a) =
    a + Z.of_nat (length (filter (owned_by_user s) [p]))).
  { rewrite filter_cons, filter_nil. unfold owned_by_user.
    destruct (Z.eqb_spec (p_uid (proc_at s p)) (u_uid (u s))), (Z.eqb_spec (p_stat (proc_at s p)) 0); cbn; case_decide; cbn; tauto || lia. }
  assert (Hc : Z.of_nat (length (filter (owned_by_user s) (p :: l))) = Z.of_nat (length (filter (owned_by_user s) [p])) + Z.of_nat (length (filter (owned_by_user s) l))).
  { rewrite (filter_app _ [p] l), length_app. lia. }
  rewrite Hb, !IH, Hc. destruct p2 as [q|].
  - f_equal. lia.
  - assert (Hf : head (filter (free_slot s) (p :: l)) = if decide (free_slot s p) then Some p else head (filter (free_slot s) l)).
    { rewrite filter_cons. by case_decide. }
    rewrite Hf. unfold free_slot at 1. destruct (Z.eqb_spec (p_stat (proc_at s p)) 0) as [E|E].
    + rewrite decide_True by done. f_equal. rewrite filter_cons, filter_nil, decide_False by (intros [_ ?]; done). cbn. lia.
    + rewrite decide_False by done. f_equal. lia.
Qed.

(** C37. [fork] keeps within its limits: it fails with [EAGAIN] and changes
    nothing else exactly when no entry of the table is free, or when the user is
    not the super user and already has more than [MAXUPRC] processes or would
    take the last entry ([h/param.h] calls [MAXUPRC] the most processes of a
    user: one with exactly so many may still fork, and has one more then); otherwise, with a page free, a child that is a copy of
    the process is on the run queue and the parent gets its number, which no
    process or process group had. *)
Theorem fork_limits e s RQ SQ page up r :
  queues s RQ SQ -> 0 <= mpid (kp s) < 30000 -> userpage_alloc (upages_ (ku s)) = Ok (page, up) -> 0 < page < 32768 ->
  p_stat (proc_at s (curproc s)) <> 0 -> kguard (ku s) (curproc s) = true -> uarrp (ku s) = curproc s -> u_ar0 (u s) = Some r -> u_error (u s) = 0 ->
  match first_free s with
  | None => fork e s = seterror EAGAIN e s
  | Some p2 =>
      (at_limit s p2 -> fork e s = seterror EAGAIN e s) /\
      (~ at_limit s p2 -> exists m s1 s', fork e s = Ret tt e s' /\ forked s s1 p2 (curproc s) m page r /\ 1 <= m <= 29999 /\ ~ used_pid s m /\
         u_r_val1 (u s') = m /\ kp s' = kp s1 /\ upmem (ku s') = upmem (ku s1))
  end.
Proof.
  intros Hq Hm Hup Hpg Hst Hg Hu Har Her. unfold fork. rewrite bind_gets, fork_scan_ok. change (id s) with s.
  change (head (filter (free_slot s) (seq 0 NPROC))) with (first_free s). destruct (first_free s) as [p2|] eqn:Ef; [|done].
  rewrite Z.add_0_l. change (Z.of_nat (length (filter (owned_by_user s) (seq 0 NPROC)))) with (user_procs s).
  assert (Hb : negb (u_uid (u s) =? 0) && (Nat.eqb p2 (NPROC - 1) || (MAXUPRC <? user_procs s)) = bool_decide (at_limit s p2)).
  { unfold at_limit. destruct (Z.eqb_spec (u_uid (u s)) 0), (Nat.eqb_spec p2 (NPROC - 1)), (Z.ltb_spec MAXUPRC (user_procs s)); cbn [negb andb orb]; symmetry;
      (apply bool_decide_eq_true_2 || apply bool_decide_eq_false_2); lia || tauto. }
  rewrite Hb. split; intros Hl; [by rewrite bool_decide_eq_true_2|]. rewrite bool_decide_eq_false_2 by done.
  assert (Hne : curproc s <> p2) by (intros E; destruct (first_free_some _ _ Ef) as [_ E0]; by rewrite <- E in E0).
  destruct (newproc_ok (Some (curproc s)) e s p2 up page RQ SQ r Hq Hm Ef Hup Hpg Hne Hg) as (m & s1 & Hr & Hm1 & Hfresh & _ & F).
  { unfold parent_of. unfold u in Har. by rewrite <- Hu. }
  rewrite (bind_ret _ _ _ _ _ _ _ Hr). assert (Eu : u s1 = u s) by (unfold u; rewrite (fk_self _ _ _ _ _ _ _ F); apply (fk_users _ _ _ _ _ _ _ F); congruence).
  msteps. unfold uerror. rewrite Eu, Her. cbn [negb Z.eqb]. msteps. rewrite run_modify. eexists m, s1, _. split; [reflexivity|]. split; [exact F|]. split; [done|].
  split; [done|]. split; [|by split]. rewrite u_upd_u. cbn. by rewrite (fk_child _ _ _ _ _ _ _ F).
Qed.

End Fork.

(** * [break] *)

Section Break.
Context `{Layout} `{!Cdevsw}.

(** The break stays a guard below the stack pointer. *)
Definition below_stack (nsiz usp : Z) : Prop := usp = 0 \/ nsiz + HEAP_STACK_GUARD < usp.

Definition stack_pointer (x : user) : Z := match u_ar0 x with Some r => u32 (r R6) | None => 0 end.

Lemma collide_ok nsiz usp e s : 0 <= nsiz < 2 ^ 32 -> 0 <= usp < 2 ^ 32 ->
  (below_stack nsiz usp /\ heap_stack_would_collide nsiz usp e s = Ret false e s) \/
  (~ below_stack nsiz usp /\ heap_stack_would_collide nsiz usp e s = Ret true e (s <| kx; heap_warned := p_pid (proc_at s (curproc s)) |>)).
Proof.
  intros Hn Hu. unfold below_stack, heap_stack_would_collide, HEAP_STACK_GUARD. destruct (Z.eqb_spec usp 0) as [->|Hne]; [left; auto|].
  destruct (Z_lt_le_dec (nsiz + 4096) (2 ^ 32)) as [Hlt|Hge].
  - rewrite u32_id by lia. rewrite (proj2 (Z.ltb_ge (nsiz + 4096) nsiz)) by lia. destruct (Z.ltb_spec (nsiz + 4096) usp); cbn [negb andb]; [left; split; [lia|done]|].
    right. split; [lia|done].
  - assert (E : u32 (nsiz + 4096) = nsiz + 4096 - 2 ^ 32) by (unfold uwrap; symmetry; apply Z.mod_unique with 1; lia).
    rewrite E, (proj2 (Z.ltb_lt _ nsiz)) by lia. cbn [negb andb]. right. split; [lia|done].
Qed.

(** What [break] may ask for: the sizes of the image are in order. *)
Record sized (s : kst) : Prop := {
  sz_text : 0 <= u_tsize (u s) < 2 ^ 31;
  sz_data : 0 <= u_dsize (u s) <= USER_CLICKS;
  sz_stack : 0 <= u_ssize (u s) <= USER_CLICKS;
  sz_sep : u_sep (u s) = 0;
  sz_error : u_error (u s) = 0
}.

(** The break is refused: an error, and the image is as it was. *)
Definition break_refused (s s' : kst) : Prop :=
  u_error (u s') = ENOMEM /\ u_dsize (u s') = u_dsize (u s) /\ upmem (ku s') = upmem (ku s) /\ kp s' = kp s.

(** The break is at click [n]: the clicks between are clear. *)
Record break_set (n : Z) (s s' : kst) : Prop := {
  bk_error : u_error (u s') = 0;
  bk_data : u_dsize (u s') = n;
  bk_size : p_size (proc_at s' (curproc s)) = USIZE + n + u_ssize (u s);
  bk_others : forall q, q <> curproc s -> proc_at s' q = proc_at s q;
  bk_mem : forall pg a, upmem (ku s') pg a = if decide (pg = user_page s /\ 64 * u_dsize (u s) <= a < 64 * n) then 0 else upmem (ku s) pg a
}.

Lemma estabur_refuses nt nd ns e s : 0 <= nt <= nd -> 0 <= ns < 2 ^ 32 -> nd < 2 ^ 32 -> ~ nd + ns <= USER_CLICKS ->
  estabur nt nd ns 0 RO e s = (_ ← seterror ENOMEM; mret (-1)) e s.
Proof.
  intros Ht Hs Hd Hno. unfold estabur, max32, USER_CLICKS in *. replace (if nd <? nt then nt else nd) with nd by (destruct (Z.ltb_spec nd nt); lia).
  change (negb (0 =? 0)) with false. rewrite orb_false_l. destruct (Z.ltb_spec 4096 nd); cbn [orb]; [done|].
  rewrite u32_id by lia. by rewrite (proj2 (Z.ltb_lt _ ns)) by lia.
Qed.

Lemma refuse e s s1 : kp s1 = kp s -> ku s1 = ku s -> exists s', seterror ENOMEM e s1 = Ret tt e s' /\ break_refused s s'.
Proof.
  intros E1 E2. unfold seterror. rewrite run_modify. eexists. split; [reflexivity|]. split; [by rewrite u_upd_u|]. rewrite u_upd_u.
  split; [unfold u; by rewrite E2|]. split; [change (upmem (ku s1) = upmem (ku s)); by rewrite E2|exact E1].
Qed.

(** [break] keeps the heap between the image and the stack: for every value
    asked for, the break moves to the click after it exactly when it stays a
    guard of [HEAP_STACK_GUARD] bytes below the stack pointer, above the text and
    within the window beside the stack; then the clicks that are new are clear
    and nothing else in memory changes.  Otherwise the error is [ENOMEM] and the
    sizes and the memory are as they were. *)
Lemma sbreak_guarded e s : sized s -> let nsiz := u32 (arg s 0) in let n := exec_btoc32 nsiz in
  exists s', sbreak e s = Ret tt e s' /\
    ((below_stack nsiz (stack_pointer (u s)) /\ u_tsize (u s) <= n /\ n + u_ssize (u s) <= USER_CLICKS) /\ break_set n s s' \/
     ~ (below_stack nsiz (stack_pointer (u s)) /\ u_tsize (u s) <= n /\ n + u_ssize (u s) <= USER_CLICKS) /\ break_refused s s').
Proof.
  intros [Ht Hd Hs Hsep Her] nsiz n. unfold USER_CLICKS in *. assert (Hn : 0 <= nsiz < 2 ^ 32) by (apply uwrap_range; lia).
  assert (Hnn : 0 <= n < 2 ^ 26).
  { unfold n, exec_btoc32. pose proof (uwrap_range 32 (nsiz + 63) ltac:(lia)). rewrite Z.shiftr_div_pow2 by lia. split; [apply Z.div_pos; lia|]. apply Z.div_lt_upper_bound; lia. }
  assert (Husp : 0 <= stack_pointer (u s) < 2 ^ 32) by (unfold stack_pointer; destruct (u_ar0 (u s)); [apply uwrap_range|]; lia).
  unfold sbreak. msteps. fold nsiz. change (match u_ar0 (u s) with Some r => u32 (r R6) | None => 0 end) with (stack_pointer (u s)).
  destruct (collide_ok nsiz (stack_pointer (u s)) e s Hn Husp) as [[Hb Hr]|[Hb Hr]]; rewrite (bind_ret _ _ _ _ _ _ _ Hr); cbv iota beta; msteps; fold n.
  2: { match type of Hr with _ = Ret _ _ ?s1 => destruct (refuse e s s1 eq_refl eq_refl) as (s' & Hr' & R) end. exists s'. split; [done|]. right. tauto. }
  rewrite i32_id by lia. destruct (Z.ltb_spec n (u_tsize (u s))) as [Hlt|Hge].
  { destruct (refuse e s s eq_refl eq_refl) as (s' & Hr' & R). exists s'. split; [done|]. right. split; [lia|done]. }
  rewrite Hsep. destruct (Z_le_gt_dec (n + u_ssize (u s)) 4096) as [Hfit|Hno].
  2: { destruct (refuse e s s eq_refl eq_refl) as (s' & Hr' & R). exists s'. split; [|right; split; [lia|done]].
       assert (Hes : estabur (u_tsize (u s)) n (u_ssize (u s)) 0 RO e s = Ret (-1) e s').
       { rewrite estabur_refuses by (unfold USER_CLICKS; lia). by rewrite (bind_ret _ _ _ _ _ _ _ Hr'). }
       by rewrite (bind_ret _ _ _ _ _ _ _ Hes). }
  assert (Hes : estabur (u_tsize (u s)) n (u_ssize (u s)) 0 RO e s = Ret 0 e s) by (apply estabur_accepts; unfold USER_CLICKS; lia).
  rewrite (bind_ret _ _ _ _ _ _ _ Hes). cbn [negb Z.eqb]. replace (USIZE + n + u_ssize (u s)) with (USIZE + (n + u_ssize (u s))) by lia.
  rewrite (bind_ret _ _ _ _ _ _ _ (expand_set (n + u_ssize (u s)) e s ltac:(unfold USER_CLICKS; lia))). msteps. set (s1 := upd_proc _ _ s).
  change (uerror s1) with (u_error (u s)). rewrite Her. cbn [negb Z.eqb]. msteps. change (u s1) with (u s). rewrite i32_id by lia.
  destruct (clear_list_ok e (seqZ (u_dsize (u s)) (n - u_dsize (u s))) s1) as (s2 & Hr2 & O2 & M2); [apply Forall_forall; intros x Hx; apply elem_of_seqZ in Hx; lia|].
  rewrite (bind_ret _ _ _ _ _ _ _ Hr2), run_modify. eexists. split; [reflexivity|]. left. split; [split; [exact Hb|lia]|].
  destruct (only_mem_fields _ _ O2) as (_ & Ep2 & _ & _ & Eu2 & _). assert (Epr : forall q, proc_at s2 q = proc_at s1 q) by (intros; unfold proc_at; by rewrite Ep2).
  split; [by rewrite u_upd_u, Eu2|by rewrite u_upd_u| | |].
  - change (proc_at (upd_u ?g s2)) with (proc_at s2). rewrite Epr. unfold s1. rewrite proc_upd_same. cbn. lia.
  - intros q Hq. change (proc_at (upd_u ?g s2)) with (proc_at s2). rewrite Epr. by apply proc_upd_ne.
  - intros pg a. change (upmem (ku (upd_u ?g s2)) pg a) with (upmem (ku s2) pg a). rewrite M2.
    assert (Eup : user_page s1 = user_page s) by (unfold user_page; change (curproc s1) with (curproc s); unfold s1; by rewrite proc_upd_same). rewrite Eup.
    change (upmem (ku s1) pg a) with (upmem (ku s) pg a).
    assert (Ha : a / 64 ∈ seqZ (u_dsize (u s)) (n - u_dsize (u s)) <-> 64 * u_dsize (u s) <= a < 64 * n) by (rewrite elem_of_seqZ; Z.div_mod_to_equations; lia).
    repeat case_decide; try done; tauto.
Qed.

End Break.

(** * Witnesses *)

#[local] Existing Instance ex_cdevsw.

Lemma fork_limits_witness : exists m s', fork [] ex_sched = Ret tt [] s' /\ u_r_val1 (u s') = m /\ 1 <= m <= 29999.
Proof.
  pose proof (fork_limits (H := ex_layout) [] ex_sched ex_RQ ex_SQ 3 (UPages (MapEnt 59 4 :: replicate 49 (MapEnt 0 0)) (<[3%nat := 1]> (replicate 63 0)))
    (fun _ => 64) ex_queues ltac:(cbn; lia) ltac:(by vm_compute) ltac:(lia) ltac:(by vm_compute) eq_refl eq_refl eq_refl eq_refl) as L.
  assert (E : first_free ex_sched = Some 7%nat) by (by vm_compute). rewrite E in L. destruct L as [_ L].
  destruct L as (m & s1 & s' & Hr & _ & Hm & _ & Hv & _); [intros [Hu _]; by apply Hu|]. exists m, s'. auto.
Defined.

Definition ex_breaker : kst :=
  upd_u (fun x => x <| u_arg := [640] |> <| u_tsize := 4 |> <| u_dsize := 5 |> <| u_ssize := 20 |> <| u_ar0 := Some (fun _ => 260000) |>) kst0.

Lemma sbreak_guarded_witness : exists s', sbreak [] ex_breaker = Ret tt [] s' /\ u_dsize (u s') = 10.
Proof.
  destruct (sbreak_guarded [] ex_breaker) as (s' & Hr & [[_ B]|[Hno _]]).
  - split; [split; vm_compute; (reflexivity || discriminate)..|reflexivity|reflexivity].
  - exists s'. split; [exact Hr|]. exact (bk_data _ _ _ B).
  - exfalso. apply Hno. split; [right; vm_compute; reflexivity|]. split; vm_compute; discriminate.
Defined.
