(* ===== verification/Sig.v ===== *)
(** Delivery of signals, core images and tracing: [stop], [psig], [core],
    [grow], [ptrace] and [procxmt] of [sys/sig.c], and [sendsig] of
    [sys/machdep.c]. *)
From S2P Require Import Prelude Malloc Clist Kernel Sched Dll Sd Bio Codec Usermem Subr Alloc Inode Rdwri Text Fio Namei Acct Exec Sys1.

(** [_savfp] of [conf/mch.s] is [_save]: it stores the program counter, the
    stack pointer and eleven registers of its caller, thirteen words. *)
Class SavedRegs := saved_regs : kst -> list Z.

Definition IPCPRI : Z := PZERO.
Definition TBIT : Z := 16.
Definition USER_TOP : Z := 262144.  (* 256UL * 1024UL *)

(** [u.u_ar0[r]] *)
Definition get_reg (r : regname) : M Z :=
  o ← gets (fun s => u_ar0 (u s));
  match o with None => panic "null u_ar0" | Some f => mret (f r) end.

(** ** [sendsig] *)

(** [frame]: the handler, the signal and the interrupted [pc]. *)
Definition sig_frame (p signo oldpc : Z) : list Z :=
  let byte v k := Z.land (Z.shiftr v k) 255 in
  [byte p 24; byte p 16; byte p 8; byte p 0; byte signo 8; byte signo 0;
   byte oldpc 24; byte oldpc 16; byte oldpc 8; byte oldpc 0].

Definition sendsig (p signo : Z) : M unit :=
  r6 ← get_reg R6;
  let oldsp := u32 r6 in
  tramp ← gets (fun s => u32 (u_sigtramp (u s)));
  let n := u32 (oldsp - 10) in
  pc ← get_reg PC;
  let oldpc := u32 pc in
  if (USER_TOP <=? n) || (oldsp <? n) then seterror EFAULT
  else
    r ← copyout (sig_frame (u32 p) signo oldpc) n 10;
    if r <? 0 then seterror EFAULT
    else
      _ ← set_reg R6 (i32 n);
      ps ← get_reg RPS;
      _ ← set_reg RPS (fclr ps (Z.lor TBIT 8192));
      set_reg PC (i32 tramp).

Section Sig.
Context `{Layout} `{Cdevsw} `{SavedRegs}.

(** ** The core image *)

Definition core_name : caddr := KA (KString [99; 111; 114; 101; 0]) 0.  (* "core" *)

(** The [USIZE] clicks of the user structure, then the memory. *)
Definition core_write (ip : nat) : M unit :=
  _ ← itrunc ip;
  _ ← modify (upd_u (fun x => x <| u_offset := 0 |> <| u_base := KA KUser 0 |> <| u_count := ctob USIZE |> <| u_segflg := 1 |>));
  _ ← writei ip;
  p ← gets curproc;
  s ← gets (fun s => u32 (p_size (proc_at s p) - USIZE));
  _ ← estabur 0 s 0 0 RO;
  _ ← modify (upd_u (fun x => x <| u_base := UA 0 |> <| u_count := u32 (ctob s) |> <| u_segflg := 0 |>));
  writei ip.

Definition core : M bool :=
  _ ← seterror 0;
  _ ← modify (upd_u (fun x => x <| u_dirp := core_name |>));
  o ← namei schar 1;
  o ← match o with
      | Some ip => mret (Some ip)
      | None => er ← gets uerror; if negb (er =? 0) then mret None else maknode 438  (* 0666 *)
      end;
  match o with
  | None => mret false
  | Some ip =>
      denied ← access ip IWRITE;
      mode ← gets (fun s => i_mode (inode_at s ip));
      x ← gets u;
      _ ← when (negb denied && (Z.land mode IFMT =? IFREG) && (u_uid x =? u_ruid x)) (core_write ip);
      _ ← iput ip;
      er ← gets uerror;
      mret (er =? 0)
  end.

(** The signals that leave a core image. *)
Definition dumps_core (n : Z) : bool :=
  existsb (Z.eqb n) [SIGQUIT; SIGINS; SIGTRC; SIGIOT; SIGEMT; SIGFPT; SIGBUS; SIGSEG; SIGSYS].

(** ** Tracing *)

(** [regloc] of [conf/trap0.c] *)
Definition regloc : list regname := [R0; R1; R2; R3; R4; R5; R6; PC; RPS].

(** The word of the user structure at [2 * (i >> 1)]. *)
Definition u_word (i : Z) (s : kst) : Z :=
  let off := 2 * Z.shiftr i 1 in
  let b := ul_byte (ulay (kx s)) (u s) in
  i16 (Z.lor (Z.shiftl (b off) 8) (b (off + 1))).

(** [*p = v] for [p] in [u.u_fps]: at most two bytes go into the members after
    it, [u_segflg] and [u_error]. *)
Definition fps_bytes (x : user) : list Z := concat (be 4 <$> u_fps x) ++ [u8 (u_segflg x); u8 (u_error x)].
Definition put_fps (off v : Z) (x : user) : user :=
  let l := splice (Z.to_nat off) (be 4 (u32 v)) (fps_bytes x) in
  x <| u_fps := (fun k => i32 (unbe (take 4 (drop (4 * k) l)))) <$> seq 0 13 |>
    <| u_segflg := i8 (nth 52 l 0) |> <| u_error := i8 (nth 53 l 0) |>.

Definition ipc_fail : M bool := _ ← modify (fun s => s <| kp; ip_req := -1 |>); mret false.
Definition ipc_ret (v : Z) : M bool := _ ← modify (fun s => s <| kp; ip_data := v |>); mret false.

(** Request 4: the text is written only while nobody shares it. *)
Definition write_text (addr data : Z) : M bool :=
  p ← gets curproc;
  xp ← gets (fun s => p_textp (proc_at s p));
  ok ← match xp with
       | None => mret true
       | Some x =>
           t ← gets (fun s => text_at s x);
           match x_iptr t with
           | None => panic "null x_iptr"
           | Some ip =>
               mode ← gets (fun s => i_mode (inode_at s ip));
               if negb (x_count t =? 1) || fset mode ISVTX then mret false
               else _ ← modify (iclr ip ITEXT); mret true
           end
       end;
  if negb ok then ipc_fail
  else
    y ← gets u;
    _ ← estabur (u_tsize y) (u_dsize y) (u_ssize y) (u_sep y) RW;
    i ← suiword addr 0;
    _ ← suiword addr data;
    y ← gets u;
    _ ← estabur (u_tsize y) (u_dsize y) (u_ssize y) (u_sep y) RO;
    if i <? 0 then ipc_fail
    else
      _ ← match xp with
          | None => mret tt
          | Some x => modify (upd_text x (fun t => t <| x_flag ::= fun f => i8 (Z.lor f XWRIT) |>))
          end;
      mret false.

(** Request 6: the floating point words and the saved registers. *)
Definition write_user (i data : Z) : M bool :=
  lay ← gets (fun s => ulay (kx s));
  x ← gets u;
  let p := 2 * Z.shiftr i 1 in
  if (ul_fps lay <=? p) && (p <? ul_fps lay + 52) then _ ← modify (upd_u (put_fps (p - ul_fps lay) data)); mret false
  else
    match List.find (fun r => p =? ul_reg lay x r) (take 8 regloc) with
    | Some r => _ ← set_reg r data; mret false
    | None =>
        if p =? ul_reg lay x RPS then
          let v := fclr (Z.lor data 61440) 224 in  (* 0170000, 0340 *)
          _ ← modify (fun s => s <| kp; ip_data := v |>);
          _ ← set_reg RPS v;
          mret false
        else ipc_fail
    end.

Definition proceed (addr data : Z) : M bool :=
  _ ← when (negb (u32 addr =? 1)) (set_reg PC (i32 addr));
  p ← gets curproc;
  _ ← modify (upd_proc p (fun x => x <| p_sig := 0 |>));
  _ ← when (negb (data =? 0)) (psignal p data);
  mret true.

Definition procxmt : M bool :=
  p ← gets curproc;
  k ← gets kp;
  pid ← gets (fun s => p_pid (proc_at s p));
  if negb (ip_lock k =? pid) then mret false
  else
    let i := ip_req k in
    let addr := ip_addr k in
    let data := ip_data k in
    _ ← modify (fun s => s <| kp; ip_req := 0 |>);
    _ ← wakeup ChIpc;
    if i =? 1 then
      c ← fuibyte addr;
      if c =? -1 then ipc_fail else v ← fuiword addr; ipc_ret v
    else if i =? 2 then
      c ← fubyte addr;
      if c =? -1 then ipc_fail else v ← fuword addr; ipc_ret v
    else if i =? 3 then
      let o := i32 addr in
      if (o <? 0) || (ctob USIZE <=? o) then ipc_fail
      else v ← gets (u_word o); ipc_ret v
    else if i =? 4 then write_text addr data
    else if i =? 5 then
      r ← suword addr 0;
      if r <? 0 then ipc_fail else _ ← suword addr data; mret false
    else if i =? 6 then write_user (i32 addr) data
    else if i =? 9 then
      ps ← get_reg RPS;
      _ ← set_reg RPS (Z.lor ps TBIT);
      proceed addr data
    else if i =? 7 then proceed addr data
    else if i =? 8 then
      n ← gets (fun s => fsig (proc_at s p));
      _ ← exit n;
      ipc_fail
    else ipc_fail.

Definition parent_entry (pid : Z) (s : kst) : option nat :=
  List.find (fun pp => p_pid (proc_at s pp) =? pid) (seq 0 NPROC).

(** [goto loop] comes after a [swtch] that went away. *)
Fixpoint stop_f (k : nat) : M unit :=
  match k with
  | O => nofuel
  | S k =>
      cp ← gets curproc;
      ppid ← gets (fun s => p_ppid (proc_at s cp));
      o ← (if ppid =? 1 then mret None else gets (parent_entry ppid));
      match o with
      | None => n ← gets (fun s => fsig (proc_at s (curproc s))); exit n
      | Some pp =>
          _ ← wakeup (ChProc pp);
          _ ← modify (upd_proc cp (fun x => x <| p_stat := SSTOP |>));
          _ ← swtch;
          fl ← gets (fun s => p_flag (proc_at s cp));
          done ← (if fset fl STRC then procxmt else mret true);
          if done : bool then mret tt else stop_f k
      end
  end.
Definition stop : M unit := fun e s => stop_f (S (length e)) e s.

Definition traced (pid ppid : Z) (s : kst) : option nat :=
  List.find (fun p => let x := proc_at s p in (p_stat x =? SSTOP) && (p_pid x =? pid) && (p_ppid x =? ppid)) (seq 0 NPROC).

Definition ptrace : M unit :=
  data ← gets (fun s => arg s 0);
  pid ← gets (fun s => arg s 1);
  addr ← gets (fun s => arg s 2);
  req ← gets (fun s => arg s 3);
  me ← gets curproc;
  if req <=? 0 then modify (upd_proc me (fun x => x <| p_flag ::= fun f => i8 (Z.lor f STRC) |>))
  else
    mypid ← gets (fun s => p_pid (proc_at s me));
    o ← gets (traced pid mypid);
    match o with
    | None => seterror ESRCH
    | Some p =>
        _ ← sleep_while (fun s => negb (ip_lock (kp s) =? 0)) id ChIpc IPCPRI;
        pid ← gets (fun s => p_pid (proc_at s p));
        _ ← modify (fun s => s <| kp; ip_lock := pid |>);
        _ ← modify (fun s => s <| kp; ip_data := data |>);
        _ ← modify (fun s => s <| kp; ip_addr := addr |>);
        _ ← modify (fun s => s <| kp; ip_req := req |>);
        _ ← modify (upd_proc p (fun x => x <| p_flag ::= fun f => i8 (fclr f SWTED) |>));
        _ ← setrun p;
        _ ← sleep_while (fun s => 0 <? ip_req (kp s)) id ChIpc IPCPRI;
        k ← gets kp;
        _ ← modify (upd_u (fun x => x <| u_r_val1 := ip_data k |>));
        _ ← when (ip_req k <? 0) (seterror EIO);
        _ ← modify (fun s => s <| kp; ip_lock := 0 |>);
        wakeup ChIpc
    end.

(** ** Delivery *)

(** The default action. *)
Definition sig_default (n : Z) : M unit :=
  dumped ← (if dumps_core n then core else mret false);
  exit (if dumped : bool then n + 128 else n).

Definition psig : M unit :=
  rp ← gets curproc;
  saved ← gets (fun s => u_fpsaved (u s));
  _ ← when (saved =? 0)
        (l ← gets saved_regs;
         _ ← modify (upd_u (fun x => x <| u_fps := l |>));
         modify (upd_u (fun x => x <| u_fpsaved := 1 |>)));
  fl ← gets (fun s => p_flag (proc_at s rp));
  _ ← when (fset fl STRC) stop;
  n ← gets (fun s => fsig (proc_at s rp));
  if n =? 0 then mret tt
  else
    _ ← modify (upd_proc rp (fun x => x <| p_sig ::= clear_sig n |>));
    handler ← gets (fun s => u_signal (u s) n);
    if negb (handler =? 0) then
      _ ← seterror 0;
      _ ← when (negb (n =? SIGINS) && negb (n =? SIGTRC)) (modify (upd_u (fun x => x <| u_signal ::= <[n := 0]> |>)));
      sendsig handler n
    else sig_default n.

(** ** [grow]: [sp] and the sizes are unsigned *)

Fixpoint copy_up (n : nat) (a si : Z) : M Z :=
  match n with
  | O => mret a
  | S n => let a := i32 (a - 1) in _ ← copyseg (i32 (a - si)) a; copy_up n a si
  end.
Fixpoint clear_down (n : nat) (a : Z) : M unit :=
  match n with
  | O => mret tt
  | S n => let a := i32 (a - 1) in _ ← clearseg a; clear_down n a
  end.

(** The argument is an [unsigned] of 16 bits. *)
Definition grow (sp : Z) : M Z :=
  let sp := u16 sp in
  x ← gets u;
  if u32 (- ctob (u_ssize x)) <=? sp then mret 0
  else
    let si := i32 (u32 (u16 (- sp) / 64 - u_ssize x + SINCR)) in
    if si <=? 0 then mret 0
    else
      r ← estabur (u_tsize x) (u_dsize x) (u32 (u_ssize x + si)) (u_sep x) RO;
      if negb (r =? 0) then mret 0
      else
        p ← gets curproc;
        size ← gets (fun s => p_size (proc_at s p));
        _ ← expand (i32 (size + si));
        y ← gets (fun s => proc_at s p);
        x ← gets u;
        a ← copy_up (Z.to_nat (i32 (u_ssize x))) (p_addr y + p_size y) si;
        _ ← clear_down (Z.to_nat si) a;
        _ ← modify (upd_u (fun x => x <| u_ssize ::= fun n => u32 (n + si) |>));
        mret 1.

End Sig.
