(* ===== verification/Deliver.v ===== *)
(** What [psig] does with a signal that is caught: the handler's frame, the
    registers it starts with, and what becomes of the signal. *)
From S2P Require Import Prelude Malloc Clist Kernel Sched Dll Sd Bio Codec Usermem Subr Alloc Inode Rdwri Readi Text Fio Namei Acct Exec Execargs Sys1 Sig.

Lemma be_u32 v : be 4 (u32 v) = be 4 v.
Proof.
  rewrite <- (be_unbe (be 4 v)) by apply be_bytes. by rewrite unbe_be.
Qed.

Lemma sig_frame_be p signo pc : sig_frame (u32 p) signo (u32 pc) = be 4 p ++ be 2 signo ++ be 4 pc.
Proof.
  rewrite <- (be_u32 p), <- (be_u32 pc). assert (E : forall v k, Z.land (Z.shiftr v k) 255 = u8 (Z.shiftr v k)) by (intros; by rewrite (land_ones_mod _ 8)).
  unfold sig_frame. cbv zeta. by rewrite !E.
Qed.

Lemma get_reg_run r f e s : u_ar0 (u s) = Some f -> get_reg r e s = Ret (f r) e s.
Proof. intros Hf. unfold get_reg. by rewrite bind_gets, Hf. Qed.

(** The saved registers of the process are [f], and nothing else differs. *)
Record regs_set (f : regname -> Z) (s s' : kst) : Prop := {
  rg_user : u s' = u s <| u_ar0 := Some f |>;
  rg_rest : only_user s s';
  rg_kx : kx s' = kx s;
  rg_mem : upmem (ku s') = upmem (ku s);
  rg_guard : kguard (ku s') = kguard (ku s)
}.

Lemma regs_set_upd f s : regs_set f s (upd_u (fun x => x <| u_ar0 := Some f |>) s).
Proof. split; try done. by rewrite u_upd_u. Qed.

Lemma regs_set_trans f g s1 s2 s3 : regs_set f s1 s2 -> regs_set g s2 s3 -> regs_set g s1 s3.
Proof.
  intros [U1 O1 K1 M1 G1] [U2 O2 K2 M2 G2]. split; [rewrite U2, U1; by destruct (u s1)|by apply only_user_trans with s2|congruence..].
Qed.

Lemma set_reg_run r v f e s : u_ar0 (u s) = Some f -> exists s', set_reg r v e s = Ret tt e s' /\ regs_set (<[r := v]> f) s s' /\ u_ar0 (u s') = Some (<[r := v]> f).
Proof.
  intros Hf. unfold set_reg. rewrite bind_gets, Hf, run_modify. eexists. split; [done|]. split; [apply regs_set_upd|by rewrite u_upd_u].
Qed.

Lemma wrote_tables l a s s' : wrote l a s s' -> kp s' = kp s /\ kb s' = kb s /\ kf s' = kf s /\ kguard (ku s') = kguard (ku s).
Proof.
  intros [_ _ E]. set (t := s' <| ku; upmem := upmem (ku s) |>) in E.
  split_and!; [transitivity (kp t)|transitivity (kb t)|transitivity (kf t)|transitivity (kguard (ku t))]; first [done|by rewrite E].
Qed.

(** ** [sendsig] *)

(** The registers a handler starts with. *)
Definition handler_regs (tramp : Z) (f : regname -> Z) : regname -> Z :=
  <[PC := i32 (u32 tramp)]> (<[RPS := fclr (f RPS) (Z.lor TBIT 8192)]> (<[R6 := i32 (u32 (f R6) - 10)]> f)).

Lemma sendsig_ok h n f e s : u_ar0 (u s) = Some f -> 10 <= u32 (f R6) <= USER_PAGE_SIZE ->
  exists s1 s2, sendsig h n e s = Ret tt e s2 /\ wrote (sig_frame (u32 h) n (u32 (f PC))) (u32 (f R6) - 10) s s1 /\
    regs_set (handler_regs (u_sigtramp (u s)) f) s1 s2.
Proof.
  intros Hf Hsp. unfold sendsig, USER_PAGE_SIZE in *. rewrite (bind_ret _ _ _ _ _ _ _ (get_reg_run R6 f e s Hf)), bind_gets.
  rewrite (bind_ret _ _ _ _ _ _ _ (get_reg_run PC f e s Hf)). set (sp := u32 (f R6)) in *. rewrite (u32_id (sp - 10)) by lia.
  unfold USER_TOP. rewrite (proj2 (Z.leb_gt _ _)), (proj2 (Z.ltb_ge _ _)) by lia. cbn [orb]. set (l := sig_frame (u32 h) n (u32 (f PC))).
  rewrite (bind_ret _ _ _ _ _ _ _ (copyout_put l (sp - 10) e s ltac:(lia) ltac:(cbn; lia) ltac:(unfold USER_PAGE_SIZE; cbn; lia))).
  change (0 <? 0) with false. cbv iota. pose proof (put_mem_wrote l (sp - 10) s) as Hw. set (s1 := put_mem l (sp - 10) s) in *.
  destruct (wrote_same _ _ _ _ Hw) as (Eu & _). rewrite <- Eu in Hf. exists s1.
  destruct (set_reg_run R6 (i32 (sp - 10)) f e s1 Hf) as (s2 & Hr2 & S2 & H2). rewrite (bind_ret _ _ _ _ _ _ _ Hr2), (bind_ret _ _ _ _ _ _ _ (get_reg_run RPS _ e s2 H2)).
  destruct (set_reg_run RPS (fclr (f RPS) (Z.lor TBIT 8192)) _ e s2 H2) as (s3 & Hr3 & S3 & H3).
  change ((<[R6 := i32 (sp - 10)]> f) RPS) with (f RPS). rewrite (bind_ret _ _ _ _ _ _ _ Hr3).
  destruct (set_reg_run PC (i32 (u32 (u_sigtramp (u s)))) _ e s3 H3) as (s4 & Hr4 & S4 & _). exists s4. split_and!; [done|done|].
  eapply regs_set_trans, S4. by eapply regs_set_trans, S3.
Qed.

(** With no room for the frame nothing is changed but the error. *)
Lemma sendsig_refused h n f e s : u_ar0 (u s) = Some f -> ~ 10 <= u32 (f R6) <= USER_PAGE_SIZE ->
  sendsig h n e s = seterror EFAULT e s.
Proof.
  intros Hf Hsp. unfold sendsig, USER_PAGE_SIZE in *. rewrite (bind_ret _ _ _ _ _ _ _ (get_reg_run R6 f e s Hf)), bind_gets.
  rewrite (bind_ret _ _ _ _ _ _ _ (get_reg_run PC f e s Hf)). pose proof (uwrap_range 32 (f R6) ltac:(lia)) as Hr. set (sp := u32 (f R6)) in *. unfold USER_TOP.
  destruct (Z_lt_le_dec sp 10).
  - assert (E : u32 (sp - 10) = sp - 10 + 2 ^ 32) by (unfold uwrap; rewrite <- (Z.mod_add _ 1) by lia; apply Z.mod_small; lia).
    rewrite E, (proj2 (Z.leb_le _ _)) by lia. done.
  - rewrite (u32_id (sp - 10)) by lia. destruct (Z.leb_spec 262144 (sp - 10)); [done|]. rewrite (proj2 (Z.ltb_ge _ _)) by lia. cbn [orb].
    assert (Hc : copyout (sig_frame (u32 h) n (u32 (f PC))) (sp - 10) 10 e s = Ret (-1) e s); [|by rewrite (bind_ret _ _ _ _ _ _ _ Hc)].
    unfold copyout, user_ptr. destruct (user_range_ok (sp - 10) 10) eqn:E; [|done]. apply user_range_iff in E; unfold USER_PAGE_SIZE in *; lia.
Qed.

Section Deliver.
Context `{Layout} `{Cdevsw} `{SavedRegs}.

(** ** [psig] *)

(** The disposition after signal [n] was caught. *)
Definition caught (n : Z) (f : Z -> Z) : Z -> Z := if (n =? SIGINS) || (n =? SIGTRC) then f else <[n := 0]> f.

(** The floating point words are not looked at again. *)
Definition upick (x : user) := (u_ar0 x, u_sigtramp x, u_procp x, u_error x, u_signal x).

Lemma upick_signal g x : upick (x <| u_signal ::= g |>) = (u_ar0 x, u_sigtramp x, u_procp x, u_error x, g (u_signal x)).
Proof. done. Qed.

Lemma save_fp_ok e s : exists s1,
  when (u_fpsaved (u s) =? 0)
    (l ← gets saved_regs; _ ← modify (upd_u (fun x => x <| u_fps := l |>)); modify (upd_u (fun x => x <| u_fpsaved := 1 |>))) e s = Ret tt e s1 /\
  upick (u s1) = upick (u s) /\ kp s1 = kp s /\ upmem (ku s1) = upmem (ku s) /\ only_user s s1 /\ kx s1 = kx s /\ kguard (ku s1) = kguard (ku s).
Proof.
  destruct (u_fpsaved (u s) =? 0); [|by exists s]. unfold when. msteps. eexists. split; [done|]. split_and!; try done. by rewrite !u_upd_u.
Qed.

(** Signal [n] is no longer pending, and is caught as its disposition says. *)
Record taken (n : Z) (s s' : kst) : Prop := {
  tk_user : upick (u s') = (u_ar0 (u s), u_sigtramp (u s), u_procp (u s), 0, caught n (u_signal (u s)));
  tk_proc : proc_at s' (curproc s) = proc_at s (curproc s) <| p_sig ::= clear_sig n |>;
  tk_others : forall q, q <> curproc s -> proc_at s' q = proc_at s q;
  tk_mem : upmem (ku s') = upmem (ku s);
  tk_rest : kb s' = kb s /\ kf s' = kf s /\ kc s' = kc s /\ kt s' = kt s /\ kx s' = kx s;
  tk_guard : kguard (ku s') = kguard (ku s)
}.

Lemma taken_page n s s' : taken n s s' -> curproc s' = curproc s /\ user_page s' = user_page s.
Proof.
  intros [U P _ _ _ _]. assert (Ec : curproc s' = curproc s) by (unfold upick in U; unfold curproc; congruence).
  split; [done|]. unfold user_page. rewrite Ec, P. done.
Qed.

Lemma psig_taken n h e s : fsig (proc_at s (curproc s)) = n -> n <> 0 -> fset (p_flag (proc_at s (curproc s))) STRC = false ->
  u_signal (u s) n = h -> h <> 0 -> exists s1, psig e s = sendsig h n e s1 /\ taken n s s1.
Proof.
  intros Hn Hn0 Ht Hh Hh0. unfold psig. rewrite !bind_gets. set (p := curproc s) in *.
  destruct (save_fp_ok e s) as (s1 & Hr & Eu & Ep & Em & (Eb & _ & Ef & Ec & Et) & Ex & Eg). rewrite (bind_ret _ _ _ _ _ _ _ Hr), bind_gets.
  assert (E1 : proc_at s1 p = proc_at s p) by (unfold proc_at; by rewrite Ep). unfold upick in Eu. injection Eu as U1 U2 U3 U4 U5.
  rewrite E1, Ht. cbn [when]. rewrite bind_mret, bind_gets, E1, Hn, (proj2 (Z.eqb_neq _ _) Hn0), bind_modify, bind_gets.
  set (s2 := upd_proc _ _ s1). change (u s2) with (u s1). rewrite U5, Hh, (proj2 (Z.eqb_neq _ _) Hh0). cbn [negb].
  assert (Hc : proc_at s2 p = proc_at s p <| p_sig ::= clear_sig n |>) by (unfold s2; by rewrite proc_upd_same, E1).
  assert (Ho : forall q, q <> p -> proc_at s2 q = proc_at s q) by (intros q Hq; unfold s2; rewrite proc_upd_ne by congruence; unfold proc_at; by rewrite Ep).
  unfold seterror. rewrite bind_modify. set (s3 := upd_u _ s2).
  assert (U : upick (u s3) = (u_ar0 (u s), u_sigtramp (u s), u_procp (u s), 0, u_signal (u s))).
  { unfold s3. rewrite u_upd_u. change (u s2) with (u s1). unfold upick. cbn. by rewrite U1, U2, U3, U5. }
  unfold caught, when. destruct (n =? SIGINS) eqn:En; [|destruct (n =? SIGTRC) eqn:En'].
  - cbn [negb andb]. rewrite bind_mret. exists s3. split; [done|]. split; try done. rewrite U. unfold caught. by rewrite En.
  - cbn [negb andb]. rewrite bind_mret. exists s3. split; [done|]. split; try done. rewrite U. unfold caught. by rewrite En, En'.
  - cbn [negb andb]. rewrite bind_modify. eexists. split; [done|]. set (s4 := upd_u _ s3). split; try done.
    unfold s4. rewrite u_upd_u, upick_signal. unfold upick in U. injection U as -> -> -> -> ->. unfold caught. by rewrite En, En'.
Qed.

(** Signal [n], whose handler is [h], was taken by the process with the
    saved registers [f]. *)
Record handled (n h : Z) (f : regname -> Z) (s s' : kst) : Prop := {
  hd_frame : mem_read (umem s') (u32 (f R6) - 10) 10 = be 4 h ++ be 2 n ++ be 4 (f PC);
  hd_mem : forall pg a, pg <> user_page s \/ a < u32 (f R6) - 10 \/ u32 (f R6) <= a -> upmem (ku s') pg a = upmem (ku s) pg a;
  hd_user : upick (u s') = (Some (handler_regs (u_sigtramp (u s)) f), u_sigtramp (u s), u_procp (u s), 0, caught n (u_signal (u s)));
  hd_proc : proc_at s' (curproc s) = proc_at s (curproc s) <| p_sig ::= clear_sig n |>;
  hd_others : forall q, q <> curproc s -> proc_at s' q = proc_at s q;
  hd_rest : kb s' = kb s /\ kf s' = kf s /\ kx s' = kx s /\ kguard (ku s') = kguard (ku s)
}.

Lemma psig_handled n h f e s : let p := curproc s in
  fsig (proc_at s p) = n -> n <> 0 -> fset (p_flag (proc_at s p)) STRC = false -> u_signal (u s) n = h -> h <> 0 ->
  u_ar0 (u s) = Some f -> 10 <= u32 (f R6) <= USER_PAGE_SIZE -> exists s', psig e s = Ret tt e s' /\ handled n h f s s'.
Proof.
  cbv zeta. intros Hn Hn0 Ht Hh Hh0 Hf Hsp. destruct (psig_taken n h e s Hn Hn0 Ht Hh Hh0) as (s1 & Hr & T).
  destruct (taken_page _ _ _ T) as [Ec Epg]. destruct T as [U P Q M (B & F & _ & _ & X) G]. unfold upick in U. injection U as U1 U2 U3 U4 U5.
  destruct (sendsig_ok h n f e s1) as (s2 & s3 & Hr2 & Wr & [Ur (Rb & Rp & Rf & _) Rx Rm Rg]); [by rewrite U1|done|]. rewrite U2 in Ur.
  destruct (wrote_same _ _ _ _ Wr) as (Eu2 & Ep2 & Ex2). exists s3. split; [by rewrite Hr|].
  assert (Hl : length (sig_frame (u32 h) n (u32 (f PC))) = 10%nat) by done.
  assert (Ep3 : user_page s3 = user_page s1) by (rewrite <- Ep2; unfold user_page, curproc, proc_at; by rewrite Rp, Ur).
  assert (Em : forall x, umem s3 x = mem_write (sig_frame (u32 h) n (u32 (f PC))) (u32 (f R6) - 10) (umem s1) x).
  { intros x. rewrite <- (wr_mem _ _ _ _ Wr). unfold umem. by rewrite Rm, Ep3, Ep2. }
  destruct (wrote_tables _ _ _ _ Wr) as (Kp & Kb & Kf & Kg). assert (Hpr : forall q, proc_at s3 q = proc_at s1 q) by (intros; unfold proc_at; by rewrite Rp, Kp).
  split.
  - transitivity (mem_read (mem_write (sig_frame (u32 h) n (u32 (f PC))) (u32 (f R6) - 10) (umem s1)) (u32 (f R6) - 10) 10); [by apply mem_read_ext|].
    rewrite <- sig_frame_be, <- Hl. apply mem_read_write.
  - intros pg a Ha. destruct (decide (pg = user_page s)) as [->|Hne].
    + destruct Ha as [?|Ha]; [done|]. transitivity (umem s3 a); [by unfold umem; rewrite Ep3, Epg|]. rewrite Em, mem_write_out by (rewrite Hl; lia).
      unfold umem. by rewrite Epg, M.
    + rewrite Rm, (wr_pages _ _ _ _ Wr) by (by rewrite Epg). by rewrite M.
  - rewrite Ur, Eu2. unfold upick. cbn. by rewrite U2, U3, U4, U5.
  - by rewrite Hpr.
  - intros q Hq. rewrite Hpr. by apply Q.
  - split_and!; congruence.
Qed.

(** What remains pending. *)
Lemma taken_pending n s s' : let p := curproc s in fsig (proc_at s p) = n -> n <> 0 ->
  proc_at s' p = proc_at s p <| p_sig ::= clear_sig n |> -> forall m, pending (proc_at s' p) m <-> pending (proc_at s p) m /\ m <> n.
Proof.
  cbv zeta. intros Hn Hn0 P m. rewrite P. destruct (fsig_spec (proc_at s (curproc s))) as [[? _]|[[Hp _] _]]; [congruence|]. rewrite Hn in Hp.
  rewrite <- (pending_clear s (curproc s) n m Hp). by rewrite proc_upd_same.
Qed.

(** A caught signal enters its handler when the process is next to return
    to user mode.  [psig] takes the lowest pending signal; ten bytes appear
    under the user's stack pointer, the handler's address, the signal and the
    interrupted program counter, and nothing else in memory changes; the
    process resumes in the trampoline it registered, its stack pointer at the
    frame, its trace and supervisor bits clear and its other registers kept.
    That signal alone stops being pending, and its disposition is the default
    again, except for the illegal instruction and trace traps, whose handlers
    stay. *)
Lemma psig_enters_handler n h f e s : let p := curproc s in let sp := u32 (f R6) in
  fsig (proc_at s p) = n -> n <> 0 -> fset (p_flag (proc_at s p)) STRC = false -> u_signal (u s) n = h -> h <> 0 ->
  u_ar0 (u s) = Some f -> 10 <= sp <= USER_PAGE_SIZE ->
  exists s', psig e s = Ret tt e s' /\
    mem_read (umem s') (sp - 10) 10 = be 4 h ++ be 2 n ++ be 4 (f PC) /\
    (forall pg a, pg <> user_page s \/ a < sp - 10 \/ sp <= a -> upmem (ku s') pg a = upmem (ku s) pg a) /\
    u_ar0 (u s') = Some (handler_regs (u_sigtramp (u s)) f) /\
    (forall m, pending (proc_at s' p) m <-> pending (proc_at s p) m /\ m <> n) /\
    u_signal (u s') = caught n (u_signal (u s)) /\ u_error (u s') = 0 /\
    (forall q, q <> p -> proc_at s' q = proc_at s q) /\ kb s' = kb s /\ kf s' = kf s.
Proof.
  cbv zeta. intros Hn Hn0 Ht Hh Hh0 Hf Hsp. destruct (psig_handled n h f e s Hn Hn0 Ht Hh Hh0 Hf Hsp) as (s' & Hr & [Fr Me U P Q (B & F & _)]).
  unfold upick in U. injection U as U1 U2 U3 U4 U5. exists s'. split_and!; try done. by apply taken_pending.
Qed.

(** When the frame does not fit in the user's memory, the caught signal is
    lost: the process goes on where it was, its memory and registers unchanged,
    the signal is no longer pending and its disposition has been reset.  The
    error [EFAULT] is left in [u_error], which no caller of [psig] reads. *)
Lemma psig_loses_signal n h f e s : let p := curproc s in
  fsig (proc_at s p) = n -> n <> 0 -> fset (p_flag (proc_at s p)) STRC = false -> u_signal (u s) n = h -> h <> 0 ->
  u_ar0 (u s) = Some f -> ~ 10 <= u32 (f R6) <= USER_PAGE_SIZE ->
  exists s', psig e s = Ret tt e s' /\ upmem (ku s') = upmem (ku s) /\ u_ar0 (u s') = Some f /\ u_error (u s') = EFAULT /\
    (forall m, pending (proc_at s' p) m <-> pending (proc_at s p) m /\ m <> n) /\ u_signal (u s') = caught n (u_signal (u s)) /\
    (forall q, q <> p -> proc_at s' q = proc_at s q).
Proof.
  cbv zeta. intros Hn Hn0 Ht Hh Hh0 Hf Hsp. destruct (psig_taken n h e s Hn Hn0 Ht Hh Hh0) as (s1 & Hr & [U P Q M _ _]).
  unfold upick in U. injection U as U1 U2 U3 U4 U5. rewrite Hr, (sendsig_refused h n f e s1) by (by rewrite ?U1). eexists. split; [done|].
  set (s2 := upd_u _ s1). assert (Ek : proc_at s2 = proc_at s1) by done.
  assert (E : upick (u s2) = (u_ar0 (u s1), u_sigtramp (u s1), u_procp (u s1), EFAULT, u_signal (u s1))) by (unfold s2; by rewrite u_upd_u).
  unfold upick in E. injection E as E1 E2 E3 E4 E5. split_and!; [done|congruence|done| |congruence|by rewrite Ek].
  apply taken_pending; [done|done|]. by rewrite Ek.
Qed.

End Deliver.

(** ** Examples *)

(** A process with an interrupt and a hangup pending, both caught. *)
#[local] Instance ex_saved : SavedRegs := fun _ => replicate 13 0.
Definition ex_regs (sp : Z) (r : regname) : Z := match r with R6 => sp | PC => 4660 | R0 => 7 | _ => 0 end.
Definition ex_signalled (sp : Z) : kst :=
  upd_u (fun x => x <| u_ar0 := Some (ex_regs sp) |> <| u_signal := fun n => if n =? 0 then 0 else 8192 |> <| u_sigtramp := 4096 |>)
    (upd_proc 0 (fun x => x <| p_sig := 3 |>) kst0).

#[local] Existing Instance ex_layout.
#[local] Existing Instance ex_cdevsw.

Lemma psig_enters_handler_witness : exists s', psig [] (ex_signalled 262144) = Ret tt [] s' /\
  mem_read (umem s') 262134 10 = [0; 0; 32; 0; 0; 1; 0; 0; 18; 52] /\ pending (proc_at s' 0) 2.
Proof.
  destruct (psig_enters_handler 1 8192 (ex_regs 262144) [] (ex_signalled 262144)) as (s' & Hr & Hm & _ & _ & Hp & _);
    [done|done|done|done|done|done|by vm_compute|].
  exists s'. split_and!; [done|exact Hm|]. apply Hp. by repeat split.
Defined.

Lemma psig_loses_signal_witness : exists s', psig [] (ex_signalled 262145) = Ret tt [] s' /\ u_ar0 (u s') = Some (ex_regs 262145).
Proof.
  destruct (psig_loses_signal 1 8192 (ex_regs 262145) [] (ex_signalled 262145)) as (s' & Hr & _ & Ha & _);
    [done|done|done|done|done|done|by vm_compute; intros [_ ?]|by exists s'].
Defined.
