(* ===== verification/Uart.v ===== *)
(** The serial channels of [dev/kl.c] under the terminal code: the private
    rings, the polling of the devices and the interrupt handler.

    Channel 1 is the serial disk's.  [hw_thre] says whether the transmitter is
    ready at each of its next tests. *)
From S2P Require Import Prelude Malloc Clist Kernel Sched.

Definition UART_CHANNELS : Z := 6.
Definition UART_RX_RING_SIZE : Z := 1280.
Definition UART_TX_RING_SIZE : Z := 1280.
Definition UART_RX_POLL_BUDGET : nat := 64.
Definition UART_TX_POLL_BUDGET : nat := 64.
Definition UART_LCR_8N1 : Z := 3.
Definition UART_FCR_INIT : Z := 199.  (* ENABLE|CLEAR_RX|CLEAR_TX|TRIGGER_14 *)
Definition UART_IER_RX : Z := 1.
Definition UART_IER_TX : Z := 2.

Definition TTIPRI : Z := 28.
Definition TTOPRI : Z := 29.
Definition TTHIWAT : Z := 100.
Definition TTLOWAT : Z := 50.
Definition TTYHOG : Z := 256.

Definition TANDEM : Z := 1.
Definition CBREAK : Z := 2.
Definition LCASE : Z := 4.
Definition ECHO : Z := 8.
Definition CRMOD : Z := 16.
Definition RAW : Z := 32.
Definition ODDP : Z := 64.
Definition EVENP : Z := 128.
Definition TBDELAY : Z := 3072.
Definition XTABS : Z := 3072.
Definition VTDELAY : Z := 16384.

Definition TIMEOUT : Z := 1.
Definition WOPEN : Z := 2.
Definition ISOPEN : Z := 4.
Definition CARR_ON : Z := 16.
Definition BUSY : Z := 32.
Definition ASLEEP : Z := 64.
Definition XCLUDE : Z := 128.
Definition TTSTOP : Z := 256.
Definition HUPCLS : Z := 512.
Definition TBLOCK : Z := 1024.

(** ** Terminals and channels *)

Definition tty_at (s : kst) (t : nat) : tty := ttys (kt s) t.
Definition upd_tty (t : nat) (g : tty -> tty) (s : kst) : kst := s <| kt; ttys ::= fun f => <[t := g (f t)]> f |>.
Definition thas (t : nat) (m : Z) (s : kst) : bool := fset (t_state (tty_at s t)) m.
Definition tset (t : nat) (m : Z) : kst -> kst := upd_tty t (fun x => x <| t_state ::= fun f => i16 (Z.lor f m) |>).
Definition tclr (t : nat) (m : Z) : kst -> kst := upd_tty t (fun x => x <| t_state ::= fun f => i16 (fclr f m) |>).
Definition tflag (t : nat) (m : Z) (s : kst) : bool := fset (t_flags (tty_at s t)) m.

Definition uart_at (s : kst) (c : nat) : uart := uarts (kt s) c.
Definition upd_uart (c : nat) (g : uart -> uart) (s : kst) : kst := s <| kt; uarts ::= fun f => <[c := g (f c)]> f |>.

(** [getc], [putc] and [b_to_q] on a queue of a terminal. *)
Section Queues.
Context (q : tty -> clist) `{!Setter q}.
Definition tgetc (t : nat) : M Z :=
  x ← gets (fun s => q (tty_at s t));
  r ← with_clists (fun st => let '(c, st, x') := getc st x in ((c, x'), st));
  _ ← modify (upd_tty t (fun y => y <| q := snd r |>));
  mret (fst r).
Definition tputc (c : Z) (t : nat) : M Z :=
  x ← gets (fun s => q (tty_at s t));
  r ← with_clists (fun st => let '(r, st, x') := putc st c x in ((r, x'), st));
  _ ← modify (upd_tty t (fun y => y <| q := snd r |>));
  mret (fst r).
Definition tb_to_q (l : list Z) (t : nat) : M unit :=
  x ← gets (fun s => q (tty_at s t));
  r ← with_clists (fun st => let '(n, st, x') := b_to_q st l x in (x', st));
  modify (upd_tty t (fun y => y <| q := r |>)).
End Queues.

(** ** The rings *)

Definition ring_put (size value : Z) (r : ring) : ring :=
  if size <=? r_count r then r
  else
    Ring (r_head r) (u16 ((r_tail r + 1) mod size)) (u16 (r_count r + 1)) (<[r_tail r := u8 value]> (r_data r)).

Definition ring_get (size : Z) (r : ring) : Z * ring :=
  if r_count r =? 0 then (-1, r)
  else (r_data r (r_head r), Ring (u16 ((r_head r + 1) mod size)) (r_tail r) (u16 (r_count r - 1)) (r_data r)).

(** The range test of the four routines. *)
Definition uart_range (channel : Z) : bool := (0 <=? channel) && (channel <? UART_CHANNELS).

Definition uart_rx_ring_put (channel value : Z) : M unit :=
  if negb (uart_range channel) then mret tt
  else
    s ← spl6;
    _ ← modify (upd_uart (Z.to_nat channel) (fun x => x <| ua_rx ::= ring_put UART_RX_RING_SIZE value |>));
    splx s.

Definition uart_rx_ring_get (channel : Z) : M Z :=
  if negb (uart_range channel) then mret (-1)
  else
    s ← spl6;
    r ← gets (fun s => ring_get UART_RX_RING_SIZE (ua_rx (uart_at s (Z.to_nat channel))));
    _ ← modify (upd_uart (Z.to_nat channel) (fun x => x <| ua_rx := snd r |>));
    _ ← splx s;
    mret (fst r).

Definition uart_tx_ring_put (channel value : Z) : M unit :=
  if negb (uart_range channel) then mret tt
  else
    s ← spl6;
    _ ← modify (upd_uart (Z.to_nat channel) (fun x => x <| ua_tx ::= ring_put UART_TX_RING_SIZE value |>));
    splx s.

Definition uart_tx_ring_get (channel : Z) : M Z :=
  if negb (uart_range channel) then mret (-1)
  else
    s ← spl6;
    r ← gets (fun s => ring_get UART_TX_RING_SIZE (ua_tx (uart_at s (Z.to_nat channel))));
    _ ← modify (upd_uart (Z.to_nat channel) (fun x => x <| ua_tx := snd r |>));
    _ ← splx s;
    mret (fst r).

(** ** The device *)

Definition uart_channel_enabled (channel : Z) : bool := negb (channel =? 1).

(** [uart[UART_LSR] & UART_LSR_DR], and the character there. *)
Definition uart_dr (c : nat) : M bool := gets (fun s => match hw_rx (uart_at s c) with [] => false | _ => true end).
Definition uart_rbr (c : nat) : M Z :=
  v ← gets (fun s => Z.land (hd 0 (hw_rx (uart_at s c))) 255);
  _ ← modify (upd_uart c (fun x => x <| hw_rx ::= @tail Z |>));
  mret v.
(** [uart[UART_LSR] & UART_LSR_THRE] and [uart[UART_RBR_THR_DLL] = v]. *)
Definition uart_thre (c : nat) : M bool :=
  b ← gets (fun s => hd true (hw_thre (uart_at s c)));
  _ ← modify (upd_uart c (fun x => x <| hw_thre ::= @tail bool |>));
  mret b.
Definition uart_thr (c : nat) (v : Z) : M unit := modify (upd_uart c (fun x => x <| hw_sent ::= fun l => l ++ [Z.land v 255] |>)).
Definition uart_ier (c : nat) (g : Z -> Z) : M unit := modify (upd_uart c (fun x => x <| hw_ier ::= fun v => u8 (g v) |>)).

Definition tx_count (c : nat) (s : kst) : Z := r_count (ua_tx (uart_at s c)).

Section Uart.
Context `{Layout}.

(** [while (scanned < UART_TX_POLL_BUDGET && ...)] *)
Fixpoint tx_fill (k : nat) (c : nat) : M unit :=
  match k with
  | O => mret tt
  | S k =>
      n ← gets (tx_count c);
      st ← gets (thas c (Z.lor TIMEOUT TTSTOP));
      if negb (n <? UART_TX_RING_SIZE) || st then mret tt
      else
        v ← tgetc t_outq c;
        if v <? 0 then mret tt
        else
          raw ← gets (tflag c RAW);
          if negb raw && fset v 128 then tx_fill k c
          else _ ← uart_tx_ring_put (Z.of_nat c) v; tx_fill k c
  end.

(** [while (sent < UART_TX_POLL_BUDGET && ring->count != 0)] *)
Fixpoint tx_send (k : nat) (c : nat) : M unit :=
  match k with
  | O => mret tt
  | S k =>
      n ← gets (tx_count c);
      if n =? 0 then mret tt
      else
        ready ← uart_thre c;
        if negb ready then mret tt
        else
          v ← uart_tx_ring_get (Z.of_nat c);
          if v <? 0 then mret tt
          else _ ← uart_thr c v; tx_send k c
  end.

Definition uart_poll_tx_channel (c : nat) : M unit :=
  s ← spl6;
  _ ← tx_fill UART_TX_POLL_BUDGET c;
  _ ← tx_send UART_TX_POLL_BUDGET c;
  n ← gets (tx_count c);
  _ ← (if negb (n =? 0) then _ ← modify (tset c BUSY); uart_ier c (fun v => Z.lor v UART_IER_TX)
       else _ ← modify (tclr c BUSY); uart_ier c (fun v => fclr v UART_IER_TX));
  cc ← gets (fun s => c_cc (t_outq (tty_at s c)));
  n ← gets (tx_count c);
  _ ← when ((cc <=? TTLOWAT) && (n =? 0))
        (a ← gets (thas c ASLEEP);
         _ ← when a (_ ← modify (tclr c ASLEEP); wakeup (ChOutq c));
         ch ← gets (fun s => t_chan (tty_at s c));
         match ch with None => mret tt | Some _ => wakeup (ChOutq c) end);
  splx s.

Definition klstart (t : nat) : M unit :=
  channel ← gets (fun s => minor (t_dev (tty_at s t)));
  if negb (uart_range channel) then mret tt else uart_poll_tx_channel (Z.to_nat channel).

(** [while (budget-- > 0 && (uart[UART_LSR] & UART_LSR_DR))] *)
Fixpoint rx_stage (k : nat) (c : nat) (staged : Z) : M Z :=
  match k with
  | O => mret staged
  | S k =>
      d ← uart_dr c;
      if d : bool then v ← uart_rbr c; _ ← uart_rx_ring_put (Z.of_nat c) v; rx_stage k c (staged + 1)
      else mret staged
  end.

Definition uart_stage_rx_channel (c : nat) : M Z :=
  s ← spl6;
  n ← rx_stage UART_RX_POLL_BUDGET c 0;
  _ ← splx s;
  mret n.

(** ** The interrupt handler *)

(** [while (budget-- > 0 && txring->count != 0 && ...)]: [tx_send]'s tests. *)
Definition uart_intr_stage_channel (c : nat) : M unit :=
  s ← spl6;
  _ ← uart_stage_rx_channel c;
  _ ← tx_send UART_TX_POLL_BUDGET c;
  n ← gets (tx_count c);
  _ ← when (n =? 0) (uart_ier c (fun v => fclr v UART_IER_TX));
  splx s.

Definition all_channels : list nat := seq 0 (Z.to_nat UART_CHANNELS).

Definition uart_intr_shared : M unit :=
  for_each all_channels (fun c => when (uart_channel_enabled (Z.of_nat c)) (uart_intr_stage_channel c)).

(** ** Initialization *)

Definition ring_reset (r : ring) : ring := Ring 0 0 0 (r_data r).
Definition uart_rings_reset : M unit :=
  for_each all_channels (fun c =>
    _ ← modify (upd_uart c (fun x => x <| ua_rx ::= ring_reset |>));
    modify (upd_uart c (fun x => x <| ua_tx ::= ring_reset |>))).

Definition uart_kernel_init : M unit :=
  _ ← uart_rings_reset;
  for_each all_channels (fun c =>
    _ ← modify (upd_uart c (fun x => x <| hw_lcr := UART_LCR_8N1 |>));
    _ ← modify (upd_uart c (fun x => x <| hw_fcr := UART_FCR_INIT |> <| hw_rx := [] |>));
    uart_ier c (fun _ => 0)).

Definition uart_enable_rx_irqs : M unit :=
  for_each all_channels (fun c =>
    when (uart_channel_enabled (Z.of_nat c))
      (_ ← modify (upd_uart c (fun x => x <| hw_fcr := UART_FCR_INIT |> <| hw_rx := [] |>));
       uart_ier c (fun _ => UART_IER_RX))).

End Uart.

(** ** The rings are queues *)

(** [r] holds [l]: the indices and the count are in range, and the characters
    lie from [head] on, around the end of the array. *)
Record holds (size : Z) (r : ring) (l : list Z) : Prop := {
  ho_count : r_count r = Z.of_nat (length l);
  ho_room : Z.of_nat (length l) <= size;
  ho_head : 0 <= r_head r < size;
  ho_tail : r_tail r = (r_head r + Z.of_nat (length l)) mod size;
  ho_data : forall i, (i < length l)%nat -> nth i l 0 = r_data r ((r_head r + Z.of_nat i) mod size)
}.

Section Rings.
Context (size : Z) (Hsize : 0 < size <= 65535).

Lemma ring_put_holds r l v : holds size r l -> 
  holds size (ring_put size v r) (if Z.of_nat (length l) <? size then l ++ [u8 v] else l).
Proof.
  intros [C R H T D]. unfold ring_put. rewrite C. destruct (Z.leb_spec size (Z.of_nat (length l))) as [Hf|Hf].
  - by rewrite (proj2 (Z.ltb_ge _ _)) by lia.
  - rewrite (proj2 (Z.ltb_lt _ _)) by lia. assert (Hm : forall x, 0 <= x mod size < size) by (intros; apply Z.mod_pos_bound; lia). split; cbn [r_count r_head r_tail r_data].
    + rewrite length_app, u16_id by lia. cbn [length]. lia.
    + rewrite length_app. cbn [length]. lia.
    + done.
    + specialize (Hm (r_tail r + 1)). rewrite u16_id by lia. rewrite T, Zplus_mod_idemp_l, length_app. f_equal. cbn [length]. lia.
    + intros i Hi. rewrite length_app in Hi. cbn [length] in Hi. destruct (decide (i = length l)) as [->|Hne].
      * rewrite app_nth2, Nat.sub_diag by lia. by rewrite <- T, fn_lookup_insert.
      * rewrite app_nth1 by lia. rewrite fn_lookup_insert_ne; [by apply D; lia|]. rewrite T. intros E.
        assert (Hd : (r_head r + Z.of_nat (length l) - (r_head r + Z.of_nat i)) mod size = 0) by (rewrite Zminus_mod, E, Z.sub_diag; apply Zmod_0_l).
        rewrite Z.mod_small in Hd by lia. lia.
Qed.

Lemma ring_get_holds r l : holds size r l ->
  match l with
  | [] => ring_get size r = (-1, r)
  | c :: l' => fst (ring_get size r) = c /\ holds size (snd (ring_get size r)) l'
  end.
Proof.
  intros [C R H T D]. unfold ring_get. rewrite C. destruct l as [|c l']; [done|]. cbn [length] in *. rewrite (proj2 (Z.eqb_neq _ _)) by lia.
  assert (Hm : forall x, 0 <= x mod size < size) by (intros; apply Z.mod_pos_bound; lia). cbn [fst snd]. split.
  - specialize (D 0%nat ltac:(lia)). cbn [nth] in D. rewrite Z.add_0_r, Z.mod_small in D by lia. done.
  - split; cbn [r_count r_head r_tail r_data].
    + rewrite u16_id by lia. lia.
    + lia.
    + specialize (Hm (r_head r + 1)). rewrite u16_id by lia. done.
    + specialize (Hm (r_head r + 1)). rewrite u16_id, Zplus_mod_idemp_l, T by lia. f_equal. lia.
    + intros i Hi. specialize (Hm (r_head r + 1)). rewrite u16_id, Zplus_mod_idemp_l by lia. rewrite <- (D (S i) ltac:(lia)) || idtac.
      specialize (D (S i) ltac:(lia)). cbn [nth] in D. rewrite D. do 2 f_equal. lia.
Qed.

Lemma holds_empty d h : 0 <= h < size -> holds size (Ring h h 0 d) [].
Proof. intros Hh. split; cbn; try lia. by rewrite Z.add_0_r, Z.mod_small. Qed.
End Rings.

(** ** The queues of a terminal *)

Lemma tty_upd_same t g s : tty_at (upd_tty t g s) t = g (tty_at s t).
Proof. unfold tty_at, upd_tty. cbn. by rewrite fn_lookup_insert. Qed.

(** [tgetc] takes the first character of queue [q], number [i] of the queues
    [qs], and leaves the rest of the kernel alone. *)
Lemma tgetc_ok (q : tty -> clist) `{!Setter q} (Hq : forall x v, q (x <| q := v |>) = v) qs i t l e s :
  world (clists (kt s)) qs -> qs !! i = Some (q (tty_at s t), l) ->
  exists s' v, tgetc q t e s = Ret (hd (-1) l) e s' /\ tty_at s' t = tty_at s t <| q := v |> /\
    world (clists (kt s')) (<[i := (v, tail l)]> qs) /\ uarts (kt s') = uarts (kt s) /\ kp s' = kp s /\ kipl s' = kipl s.
Proof.
  intros Hw Hi. unfold tgetc. rewrite bind_gets. apply (proj2 (world_set_ipl (kipl s) _ _)) in Hw.
  assert (exists st' v, getc (set_ipl (kipl s) (clists (kt s))) (q (tty_at s t)) = (hd (-1) l, st', v) /\ world st' (<[i := (v, tail l)]> qs) /\ ipl st' = kipl s) as (st' & v & Hg & Hw' & Hip).
  { pose proof (getc_world _ _ _ _ _ Hw Hi) as Hg. destruct l as [|c l].
    - eexists _, _. split; [exact Hg|]. split; [|done]. rewrite list_insert_id by done. done.
    - destruct Hg as (st' & v & ? & ? & ?). by exists st', v. }
  erewrite bind_ret; [|unfold with_clists; rewrite Hg; reflexivity]. cbn [fst snd]. rewrite bind_modify, run_mret. eexists _, v. split; [done|].
  rewrite tty_upd_same. split; [done|]. split; [exact Hw'|]. split_and!; [done|done|exact Hip].
Qed.

Lemma world_count st qs i q l : world st qs -> qs !! i = Some (q, l) -> c_cc q = Z.of_nat (length l).
Proof.
  intros Hw Hi. destruct (world_focus _ _ _ _ _ Hw Hi) as (F & bs & (_ & Hq & _) & _). destruct bs; cbn in Hq.
  - by destruct Hq as [-> ->].
  - by destruct Hq as (o & en & _ & _ & _ & _ & -> & _).
Qed.

Lemma world_bytes st qs i q l : world st qs -> qs !! i = Some (q, l) -> Forall (fun c => 0 <= c < 256) l.
Proof.
  intros Hw Hi. destruct (world_focus _ _ _ _ _ Hw Hi) as (F & bs & (_ & Hq & _) & _). destruct bs; cbn in Hq.
  - destruct Hq as [-> _]. constructor.
  - by destruct Hq as (o & en & _ & _ & _ & _ & _ & _ & Hb & _).
Qed.

(** ** Output *)

Lemma uart_upd_same c g s : uart_at (upd_uart c g s) c = g (uart_at s c).
Proof. unfold uart_at, upd_uart. cbn. by rewrite fn_lookup_insert. Qed.

(** The transmit ring of channel [c] holds [l], and the output queue of its
    terminal, number [i] of the queues [qs], holds [o]. *)
Record stream (qs : list (clist * list Z)) (i c : nat) (l o : list Z) (s : kst) : Prop := {
  sm_ring : holds UART_TX_RING_SIZE (ua_tx (uart_at s c)) l;
  sm_bytes : Forall (fun v => 0 <= v < 256) l;
  sm_world : world (clists (kt s)) qs;
  sm_queue : qs !! i = Some (t_outq (tty_at s c), o)
}.

(** The delays in a cooked queue are not sent. *)
Definition to_send (raw : bool) (o : list Z) : list Z := if raw then o else List.filter (fun v => negb (fset v 128)) o.

(** What was sent, and what is to be sent after it. *)
Definition sent_and_due (c : nat) (raw : bool) (l o : list Z) (s : kst) : list Z := hw_sent (uart_at s c) ++ l ++ to_send raw o.

(** Of the terminal, only the output queue and the state bits differ. *)
Definition npick (x : tty) := (t_flags x, t_chan x, t_dev x, t_rawq x, t_canq x).

(** A step on the device of channel [c] alone. *)
Record dev_step (s s' : kst) : Prop := {
  ds_ttys : ttys (kt s') = ttys (kt s);
  ds_clists : clists (kt s') = clists (kt s);
  ds_kp : kp s' = kp s;
  ds_ipl : kipl s' = kipl s
}.

Section Output.
Context `{Layout} (c : nat) (Hc : (c < 6)%nat).

Lemma channel_range : uart_range (Z.of_nat c) = true.
Proof. unfold uart_range, UART_CHANNELS. apply andb_true_intro. split; [apply Z.leb_le|apply Z.ltb_lt]; lia. Qed.

Lemma tx_put_ok v l e s : holds UART_TX_RING_SIZE (ua_tx (uart_at s c)) l -> Z.of_nat (length l) < UART_TX_RING_SIZE -> 0 <= v < 256 ->
  exists s' r, uart_tx_ring_put (Z.of_nat c) v e s = Ret tt e s' /\ dev_step s s' /\ uart_at s' c = uart_at s c <| ua_tx := r |> /\
    holds UART_TX_RING_SIZE r (l ++ [v]).
Proof.
  intros Hh Hl Hv. unfold uart_tx_ring_put. rewrite channel_range. cbn [negb]. unfold spl6, splx. rewrite bind_spl, bind_modify, run_modify, Nat2Z.id.
  pose proof (ring_put_holds UART_TX_RING_SIZE ltac:(unfold UART_TX_RING_SIZE; lia) _ l v Hh) as Hp. rewrite (proj2 (Z.ltb_lt _ _) Hl), (uwrap_id 8) in Hp by done.
  eexists _, _. split; [done|]. split; [by split|]. split; [|exact Hp].
  etransitivity; [apply (uart_upd_same c (fun x => x <| ua_tx ::= ring_put UART_TX_RING_SIZE v |>) s)|done].
Qed.

Lemma tx_get_ok v l e s : holds UART_TX_RING_SIZE (ua_tx (uart_at s c)) (v :: l) ->
  exists s' r, uart_tx_ring_get (Z.of_nat c) e s = Ret v e s' /\ dev_step s s' /\ uart_at s' c = uart_at s c <| ua_tx := r |> /\
    holds UART_TX_RING_SIZE r l.
Proof.
  intros Hh. unfold uart_tx_ring_get. rewrite channel_range. cbn [negb]. unfold spl6, splx. rewrite bind_spl, Nat2Z.id, bind_gets, bind_modify, bind_modify, run_mret.
  destruct (ring_get_holds UART_TX_RING_SIZE ltac:(unfold UART_TX_RING_SIZE; lia) _ _ Hh) as [Hv Hl].
  change (uart_at (s <| kipl := 6 |>)) with (uart_at s). rewrite Hv. eexists _, _. split; [done|]. split; [by split|]. split; [|exact Hl].
  etransitivity; [eapply (uart_upd_same c (fun x => x <| ua_tx := _ |>) s)|done].
Qed.

Lemma tx_count_holds s l : holds UART_TX_RING_SIZE (ua_tx (uart_at s c)) l -> tx_count c s = Z.of_nat (length l).
Proof. intros Hh. exact (ho_count _ _ _ Hh). Qed.

Lemma outq_set x v : t_outq (x <| t_outq := v |>) = v.
Proof. done. Qed.

(** The output of the channel is conserved. *)
Definition conserved (i : nat) (raw : bool) (qs : list (clist * list Z)) (l o : list Z) (s s' : kst) : Prop :=
  exists v l' o', stream (<[i := (v, o')]> qs) i c l' o' s' /\ sent_and_due c raw l' o' s' = sent_and_due c raw l o s /\
    tty_at s' c = tty_at s c <| t_outq := v |> /\ kp s' = kp s /\ kipl s' = kipl s.

Lemma tx_fill_ok raw i k : forall qs l o e s, tflag c RAW s = raw -> stream qs i c l o s ->
  exists s', tx_fill k c e s = Ret tt e s' /\ conserved i raw qs l o s s'.
Proof.
  assert (Hstop : forall qs l o s, stream qs i c l o s -> conserved i raw qs l o s s).
  { intros qs l o s [A B C D]. exists (t_outq (tty_at s c)), l, o. rewrite list_insert_id by done. split; [done|]. by destruct (tty_at s c). }
  induction k as [|k IH]; intros qs l o e s Hraw Hs; cbn [tx_fill]; [exists s; auto|]. rewrite !bind_gets.
  pose proof Hs as [A B C D]. rewrite (tx_count_holds s l A). destruct (Z.ltb_spec (Z.of_nat (length l)) UART_TX_RING_SIZE) as [Hl|]; cbn [negb orb]; [|exists s; auto].
  destruct (thas c (Z.lor TIMEOUT TTSTOP) s); [exists s; auto|].
  destruct (tgetc_ok t_outq outq_set qs i c o e s C D) as (s1 & v & Hg & Et & Hw & Eu & Ep & Ei). rewrite (bind_ret _ _ _ _ _ _ _ Hg).
  assert (Eu1 : uart_at s1 c = uart_at s c) by (unfold uart_at; by rewrite Eu).
  destruct o as [|a o]; cbn [hd tail] in *.
  { change (-1 <? 0) with true. cbv iota. exists s1. split; [done|]. exists v, l, []. split; [|split; [|done]].
    - split; [by rewrite Eu1|done|done|]. rewrite Et, outq_set. apply list_lookup_insert_eq. by eapply lookup_lt_Some.
    - unfold sent_and_due. by rewrite Eu1. }
  pose proof (world_bytes _ _ _ _ _ C D) as Hob. apply Forall_cons in Hob as [Ha Hob]. rewrite (proj2 (Z.ltb_ge _ _)) by lia.
  rewrite bind_gets. assert (Hraw1 : tflag c RAW s1 = raw) by (unfold tflag; rewrite Et; exact Hraw). rewrite Hraw1.
  assert (D1 : <[i := (v, o)]> qs !! i = Some (t_outq (tty_at s1 c), o)) by (rewrite Et, outq_set; apply list_lookup_insert_eq; by eapply lookup_lt_Some).
  destruct (negb raw && fset a 128) eqn:Edrop.
  - destruct (IH (<[i := (v, o)]> qs) l o e s1 Hraw1) as (s2 & Hr2 & (w & l2 & o2 & S2 & Sd & Tt & Kp & Ki)); [by split; rewrite ?Eu1|].
    rewrite list_insert_insert_eq in S2. exists s2. split; [done|]. exists w, l2, o2. split; [done|]. split; [|split; [by rewrite Tt, Et|split; congruence]].
    rewrite Sd. unfold sent_and_due. rewrite Eu1. do 2 f_equal. apply andb_true_iff in Edrop as [Er Ea]. unfold to_send. destruct raw; [done|]. cbn [List.filter]. by rewrite Ea.
  - destruct (tx_put_ok a l e s1) as (s2 & r & Hp & [T2 C2 P2 I2] & U2 & H2); [by rewrite Eu1|done|done|]. rewrite (bind_ret _ _ _ _ _ _ _ Hp).
    assert (Et2 : tty_at s2 c = tty_at s1 c) by (unfold tty_at; by rewrite T2).
    destruct (IH (<[i := (v, o)]> qs) (l ++ [a]) o e s2) as (s3 & Hr3 & (w & l2 & o2 & S3 & Sd & Tt & Kp & Ki)).
    + unfold tflag. by rewrite Et2.
    + split; [by rewrite U2|apply Forall_app; split; [done|by apply Forall_singleton]|by rewrite C2|by rewrite Et2].
    + rewrite list_insert_insert_eq in S3. exists s3. split; [done|]. exists w, l2, o2. split; [done|]. split; [|split; [by rewrite Tt, Et2, Et|split; congruence]].
      rewrite Sd. unfold sent_and_due. rewrite U2, Eu1. change (hw_sent (uart_at s c <| ua_tx := r |>)) with (hw_sent (uart_at s c)).
      rewrite <- !app_assoc. do 2 f_equal. unfold to_send. destruct raw; [done|]. cbn [List.filter]. cbn [negb andb] in Edrop. by rewrite Edrop.
Qed.

Lemma stream_dev qs i l l' o s s' : stream qs i c l o s -> dev_step s s' -> holds UART_TX_RING_SIZE (ua_tx (uart_at s' c)) l' ->
  Forall (fun v => 0 <= v < 256) l' -> stream qs i c l' o s'.
Proof. intros [_ _ C D] [T K _ _] Hh Hl. split; [done|done|by rewrite K|]. unfold tty_at. by rewrite T. Qed.

Lemma dev_step_trans s1 s2 s3 : dev_step s1 s2 -> dev_step s2 s3 -> dev_step s1 s3.
Proof. intros [A B C D] [A' B' C' D']. split; congruence. Qed.

Lemma tx_send_ok raw i k : forall qs l o e s, stream qs i c l o s ->
  exists s' l', tx_send k c e s = Ret tt e s' /\ stream qs i c l' o s' /\ sent_and_due c raw l' o s' = sent_and_due c raw l o s /\ dev_step s s'.
Proof.
  induction k as [|k IH]; intros qs l o e s Hs; cbn [tx_send]; [by exists s, l|]. rewrite bind_gets, (tx_count_holds s l (sm_ring _ _ _ _ _ _ Hs)).
  destruct l as [|v l]; [by exists s, []|]. rewrite (proj2 (Z.eqb_neq _ _)) by (cbn [length]; lia). unfold uart_thre. rewrite bind_assoc, bind_gets, bind_assoc, bind_modify, bind_mret.
  set (s1 := upd_uart c _ s). assert (U1 : uart_at s1 c = uart_at s c <| hw_thre ::= @tail bool |>) by apply uart_upd_same.
  assert (S1 : dev_step s s1) by by split. pose proof (sm_ring _ _ _ _ _ _ Hs) as Hh. pose proof (sm_bytes _ _ _ _ _ _ Hs) as Hb.
  destruct (hd true (hw_thre (uart_at s c))); cbn [negb].
  - destruct (tx_get_ok v l e s1) as (s2 & r & Hg & S2 & U2 & H2); [by rewrite U1|]. rewrite (bind_ret _ _ _ _ _ _ _ Hg).
    pose proof Hb as [Hv Hl]%Forall_cons. rewrite (proj2 (Z.ltb_ge _ _)) by lia. unfold uart_thr. rewrite bind_modify. set (s3 := upd_uart c _ s2).
    assert (U3 : uart_at s3 c = uart_at s2 c <| hw_sent ::= fun l => l ++ [Z.land v 255] |>) by apply uart_upd_same.
    assert (S3 : dev_step s s3) by (apply dev_step_trans with s2; [by apply dev_step_trans with s1|by split]).
    destruct (IH qs l o e s3) as (s4 & l4 & Hr & T4 & D4 & S4).
    + apply (stream_dev qs i (v :: l) l o s s3 Hs S3); [by rewrite U3, U2|done].
    + exists s4, l4. split; [done|]. split; [done|]. split; [|by apply dev_step_trans with s3]. rewrite D4. unfold sent_and_due. rewrite U3, U2, U1.
      cbn. rewrite <- !app_assoc. by rewrite (land_255 v) by done.
  - exists s1, (v :: l). split; [done|]. split; [by apply (stream_dev qs i (v :: l) (v :: l) o s s1 Hs S1); [rewrite U1|]|]. split; [|done].
    unfold sent_and_due. by rewrite U1.
Qed.
End Output.
