(* ===== verification/Tty.v ===== *)
(** The terminals: [dev/tty.c], with [dev/partab.c].

    A terminal is the number of its entry of [epoch68_kl_tty]; the device's
    start routine is [klstart].  Of the buffer [canonb] only the characters of
    the line being gathered matter: they are a list, the last first. *)
From S2P Require Import Prelude Malloc Clist Kernel Sched Codec Usermem Subr Uart.

Definition CERASE : Z := 35.
Definition CEOT : Z := 4.
Definition CKILL : Z := 64.
Definition CQUIT : Z := 28.
Definition CINTR : Z := 3.
Definition CSTOP : Z := 19.
Definition CSTART : Z := 17.
Definition CBRK : Z := 255.
Definition CDELIM : Z := 255.  (* 0377 *)
Definition BACKSLASH : Z := 92.

Definition TIOC (n : Z) : Z := Z.lor (Z.shiftl 116 8) n.
Definition DIOC (n : Z) : Z := Z.lor (Z.shiftl 100 8) n.
Definition FIOC (n : Z) : Z := Z.lor (Z.shiftl 102 8) n.
Definition TIOCGETD : Z := TIOC 0.
Definition TIOCSETD : Z := TIOC 1.
Definition TIOCHPCL : Z := TIOC 2.
Definition TIOCGETP : Z := TIOC 8.
Definition TIOCSETP : Z := TIOC 9.
Definition TIOCSETN : Z := TIOC 10.
Definition TIOCEXCL : Z := TIOC 13.
Definition TIOCNXCL : Z := TIOC 14.
Definition TIOCFLUSH : Z := TIOC 16.
Definition TIOCSETC : Z := TIOC 17.
Definition TIOCGETC : Z := TIOC 18.
Definition DIOCGETP : Z := DIOC 8.
Definition DIOCSETP : Z := DIOC 9.
Definition nldisp : Z := 1.

(** [maptab]: what an escaped character stands for on an upper-case terminal. *)
Definition maptab : list Z :=
  replicate 33 0 ++ [124; 0; 0; 0; 0; 0; 96; 123; 125; 0; 0; 0; 0; 0; 0] ++ replicate 46 0 ++ [126; 0; 0] ++ seqZ 65 26 ++ replicate 5 0.

(** [partab], the classes of the characters: parity in bit 7. *)
Definition partab : list Z :=
  [1;129;129;1;129;1;1;129; 130;4;3;129;5;134;129;1;
   129;1;1;129;1;129;129;1; 1;129;129;1;129;1;1;129;
   128;0;0;128;0;128;128;0; 0;128;128;0;128;0;0;128;
   0;128;128;0;128;0;0;128; 128;0;0;128;0;128;128;0;
   128;0;0;128;0;128;128;0; 0;128;128;0;128;0;0;128;
   0;128;128;0;128;0;0;128; 128;0;0;128;0;128;128;0;
   0;128;128;0;128;0;0;128; 128;0;0;128;0;128;128;0;
   128;0;0;128;0;128;128;0; 0;128;128;0;128;0;0;129].

(** The pairs of ["({)}!|^~'`"]: printed for, character. *)
Definition lcase_pairs : list (Z * Z) := [(40, 123); (41, 125); (33, 124); (94, 126); (39, 96)].

Section Tty.
Context `{Layout}.

(** [( *tp->t_oproc)(tp)] *)
Definition oproc (t : nat) : M unit :=
  p ← gets (fun s => t_oproc (tty_at s t));
  if p : bool then klstart t else panic "null t_oproc".

(** [( *cdevsw[major(tp->t_dev)].d_stop)(tp)]: [nulldev_stop] in every entry. *)
Definition d_stop (t : nat) : M unit := mret tt.

Definition ttstart (t : nat) : M unit :=
  s ← spl 5;
  b ← gets (thas t (Z.lor (Z.lor TIMEOUT TTSTOP) BUSY));
  _ ← when (negb b) (oproc t);
  splx s.

Definition ttrstrt (t : nat) : M unit := _ ← modify (tclr t TIMEOUT); ttstart t.

(** ** Opening and closing *)

Definition ttyopen (dev : Z) (t : nat) : M unit :=
  pp ← gets curproc;
  _ ← modify (upd_tty t (fun x => x <| t_dev := u16 dev |>));
  pgrp ← gets (fun s => p_pgrp (proc_at s pp));
  _ ← (if pgrp =? 0 then
         _ ← modify (upd_u (fun x => x <| u_ttyp := Some t |> <| u_ttyd := u16 dev |>));
         g ← gets (fun s => t_pgrp (tty_at s t));
         pid ← gets (fun s => p_pid (proc_at s pp));
         _ ← when (g =? 0) (modify (upd_tty t (fun x => x <| t_pgrp := i16 pid |>)));
         g ← gets (fun s => t_pgrp (tty_at s t));
         modify (upd_proc pp (fun x => x <| p_pgrp := i16 g |>))
       else
         g ← gets (fun s => t_pgrp (tty_at s t));
         when (g =? 0) (modify (upd_tty t (fun x => x <| t_pgrp := i16 pgrp |>))));
  _ ← modify (tclr t WOPEN);
  modify (tset t ISOPEN).

Definition ttychars (t : nat) : M unit :=
  modify (upd_tty t (fun x =>
    x <| t_intrc := CINTR |> <| t_quitc := CQUIT |> <| t_startc := CSTART |> <| t_stopc := CSTOP |>
      <| t_eofc := CEOT |> <| t_brkc := i8 CBRK |> <| t_erase := CERASE |> <| t_kill := CKILL |>)).

(** [while (getc(q) >= 0);] *)
Fixpoint drain_f (q : tty -> clist) `{!Setter q} (k : nat) (t : nat) : M unit :=
  match k with
  | O => nofuel
  | S k => c ← tgetc q t; if 0 <=? c then drain_f q k t else mret tt
  end.
Definition drain (q : tty -> clist) `{!Setter q} (t : nat) : M unit := fun e s =>
  drain_f q (S (Z.to_nat (c_cc (q (tty_at s t))))) t e s.

Definition flushtty (t : nat) : M unit :=
  _ ← drain t_canq t;
  _ ← wakeup (ChRawq t);
  _ ← wakeup (ChOutq t);
  s ← spl6;
  _ ← modify (tclr t TTSTOP);
  _ ← d_stop t;
  _ ← drain t_outq t;
  _ ← drain t_rawq t;
  _ ← modify (upd_tty t (fun x => x <| t_delct := 0 |>));
  splx s.

(** Every turn but the last two sleeps. *)
Fixpoint wflush_f (k : nat) (t : nat) : M unit :=
  match k with
  | O => nofuel
  | S k =>
      x ← gets (fun s => tty_at s t);
      if (negb (c_cc (t_outq x) =? 0) || fset (t_state x) BUSY) && fset (t_state x) CARR_ON then
        _ ← oproc t;
        x ← gets (fun s => tty_at s t);
        if (c_cc (t_outq x) =? 0) && negb (fset (t_state x) BUSY) then wflush_f k t
        else _ ← modify (tset t ASLEEP); _ ← sleep (ChOutq t) TTOPRI; wflush_f k t
      else mret tt
  end.
Definition wflushtty (t : nat) : M unit :=
  _ ← spl 5;
  _ ← (fun e s => wflush_f (2 + length e) t e s);
  _ ← flushtty t;
  _ ← spl0;
  mret tt.

Definition ttyclose (t : nat) : M unit :=
  o ← gets (fun s => u_ttyp (u s));
  _ ← when (bool_decide (o = Some t))
        (_ ← modify (upd_u (fun x => x <| u_ttyp := None |> <| u_ttyd := 0 |>));
         p ← gets curproc;
         modify (upd_proc p (fun x => x <| p_pgrp := 0 |>)));
  _ ← modify (upd_tty t (fun x => x <| t_pgrp := 0 |>));
  _ ← wflushtty t;
  modify (upd_tty t (fun x => x <| t_state := 0 |>)).

(** ** Output *)

(** [max] of [sys/rdwri.c]: unsigned. *)
Definition nl_delay (col : Z) : Z := let v := u16 (Z.shiftr (u16 col) 4 + 3) in i32 (if 6 <? v then v else 6).

(** The new column and the delay after a character of class [ctype]. *)
Definition tty_delay (ctype flags col : Z) : Z * Z :=
  let k := Z.land ctype 63 in
  if k =? 0 then (i8 (col + 1), 0)
  else if k =? 2 then (if negb (col =? 0) then i8 (col - 1) else col, 0)
  else if k =? 3 then
    let d := Z.land (Z.shiftr flags 8) 3 in
    (0, if d =? 1 then (if negb (col =? 0) then nl_delay col else 0) else if d =? 2 then 6 else 0)
  else if k =? 4 then
    let d := Z.land (Z.shiftr flags 10) 3 in
    let c := i32 (1 - Z.lor col (Z.lnot 7)) in
    (i8 (i8 (Z.lor col 7) + 1), if (d =? 1) && negb (c <? 5) then c else 0)
  else if k =? 5 then (col, if fset flags VTDELAY then 127 else 0)
  else if k =? 6 then
    let d := Z.land (Z.shiftr flags 12) 3 in
    (0, if d =? 1 then 5 else if d =? 2 then 10 else 0)
  else (col, 0).

(** The character, and the delay after it. *)
Definition tty_emit (c : Z) (t : nat) : M unit :=
  _ ← tputc t_outq c t;
  x ← gets (fun s => tty_at s t);
  let '(col, d) := tty_delay (nth (Z.to_nat c) partab 0) (t_flags x) (t_col x) in
  _ ← modify (upd_tty t (fun x => x <| t_col := col |>));
  when (negb (d =? 0)) (_ ← tputc t_outq (Z.lor d 128) t; mret tt).

(** [do ttyoutput(' ', tp); while (--c >= 0 && tp->t_col&07);] from [c] on. *)
Fixpoint tab_loop (out : Z -> nat -> M unit) (c : nat) (t : nat) : M unit :=
  _ ← out 32 t;
  match c with
  | O => mret tt
  | S c =>
      col ← gets (fun s => t_col (tty_at s t));
      if negb (Z.land col 7 =? 0) then tab_loop out c t else mret tt
  end.

(** [out] is the routine itself, for the blanks of a tab, the backslash of an
    escape and the return before a newline. *)
Definition ttyoutput_with (out : Z -> nat -> M unit) (c : Z) (t : nat) : M unit :=
  _ ← modify (fun s => s <| kt; tk_nout ::= fun n => i32 (n + 1) |>);
  raw ← gets (tflag t RAW);
  if raw : bool then _ ← tputc t_outq c t; mret tt
  else
    let c := Z.land c 127 in
    if c =? CEOT then mret tt
    else
      flags ← gets (fun s => t_flags (tty_at s t));
      if (c =? 9) && (Z.land flags TBDELAY =? XTABS) then tab_loop out 8 t
      else
        c ← (if fset flags LCASE then
               c ← match List.find (fun x => c =? snd x) lcase_pairs with
                   | Some x => _ ← out BACKSLASH t; mret (fst x)
                   | None => mret c
                   end;
               mret (if (97 <=? c) && (c <=? 122) then c - 32 else c)
             else mret c);
        flags ← gets (fun s => t_flags (tty_at s t));
        _ ← when ((c =? 10) && fset flags CRMOD) (out 13 t);
        tty_emit c t.

(** A blank, a backslash and a return call no further. *)
Definition ttyoutput : Z -> nat -> M unit := ttyoutput_with (ttyoutput_with (fun _ _ => nofuel)).

(** ** Input *)

Definition ttyblock (t : nat) : M unit :=
  y ← gets (fun s => tty_at s t);
  let x := c_cc (t_rawq y) + c_cc (t_canq y) in
  _ ← when (TTYHOG <? c_cc (t_rawq y)) (_ ← flushtty t; modify (tclr t TBLOCK));
  when (TTYHOG / 2 <=? x)
    (c ← gets (fun s => t_stopc (tty_at s t));
     r ← tputc t_outq c t;
     when (r =? 0)
       (_ ← modify (tset t TBLOCK);
        _ ← modify (upd_tty t (fun x => x <| t_char ::= fun n => i8 (n + 1) |>));
        ttstart t)).

(** What [ttyinput] does with a character in cooked or [CBREAK] mode before it
    is queued: the character to queue, or none. *)
Definition tty_control (c : Z) (t : nat) : M (option Z) :=
  let c := Z.land c 127 in
  x ← gets (fun s => tty_at s t);
  go ← (if fset (t_state x) TTSTOP then
          if c =? t_startc x then _ ← modify (tclr t TTSTOP); _ ← ttstart t; mret false
          else if c =? t_stopc x then mret false
          else _ ← modify (tclr t TTSTOP); _ ← ttstart t; mret true
        else if c =? t_stopc x then _ ← modify (tset t TTSTOP); _ ← d_stop t; mret false
        else mret (negb (c =? t_startc x)));
  if negb go then mret None
  else
    x ← gets (fun s => tty_at s t);
    if (c =? t_quitc x) || (c =? t_intrc x) then
      _ ← flushtty t;
      let sig := if c =? t_intrc x then SIGINT else SIGQUIT in
      _ ← match t_chan x with None => g ← gets (fun s => t_pgrp (tty_at s t)); signal g sig | Some _ => mret tt end;
      mret None
    else mret (Some (if (c =? 13) && fset (t_flags x) CRMOD then 10 else c)).

Definition ttyinput (c : Z) (t : nat) : M unit :=
  _ ← modify (fun s => s <| kt; tk_nin ::= fun n => i32 (n + 1) |>);
  let c := Z.land c 255 in
  flags ← gets (fun s => t_flags (tty_at s t));
  _ ← when (fset flags TANDEM) (ttyblock t);
  o ← (if fset flags RAW then mret (Some c) else tty_control c t);
  match o with
  | None => mret tt
  | Some c =>
      x ← gets (fun s => tty_at s t);
      if TTYHOG <? c_cc (t_rawq x) then flushtty t
      else
        let c := if fset flags LCASE && (65 <=? c) && (c <=? 90) then c + 32 else c in
        let cooked := negb (fset flags (Z.lor RAW CBREAK)) in
        _ ← tputc t_rawq c t;
        _ ← when (negb cooked || (c =? 10) || (c =? t_eofc x) || (c =? t_brkc x))
              (_ ← when cooked
                     (r ← tputc t_rawq CDELIM t;
                      when (r =? 0) (modify (upd_tty t (fun x => x <| t_delct ::= fun n => i8 (n + 1) |>))));
               match t_chan x with None => wakeup (ChRawq t) | Some _ => mret tt end);
        when (fset flags ECHO)
          (_ ← ttyoutput c t;
           k ← gets (fun s => t_kill (tty_at s t));
           _ ← when ((c =? k) && cooked) (ttyoutput 10 t);
           ttstart t)
  end.

Definition ttyrend (l : list Z) (t : nat) : M unit :=
  flags ← gets (fun s => t_flags (tty_at s t));
  let tandem := Z.land flags TANDEM in
  _ ← (if fset flags RAW then
         _ ← tb_to_q t_rawq l t;
         ch ← gets (fun s => t_chan (tty_at s t));
         match ch with None => wakeup (ChRawq t) | Some _ => mret tt end
       else
         _ ← modify (upd_tty t (fun x => x <| t_flags ::= fun f => i16 (fclr f TANDEM) |>));
         _ ← for_each l (fun c => ttyinput (i8 c) t);
         modify (upd_tty t (fun x => x <| t_flags ::= fun f => i16 (Z.lor f tandem) |>)));
  when (negb (tandem =? 0)) (ttyblock t).

(** ** The canonical line *)

(** The character [c] after the characters [acc], last first, of the line:
    [None] is [goto loop]. *)
Definition canon_char (x : tty) (c : Z) (acc : list Z) : M (option (list Z)) :=
  if negb (hd 0 acc =? BACKSLASH) then
    if c =? t_erase x then mret (Some (tail acc))
    else if c =? t_kill x then mret None
    else if c =? t_eofc x then mret (Some acc)
    else mret (Some (c :: acc))
  else
    m ← lift_res (deref (maptab !! Z.to_nat c));
    let mc := if (c =? t_erase x) || (c =? t_kill x) then c else m in
    if negb (mc =? 0) && ((mc =? c) || fset (t_flags x) LCASE) then
      mret (Some ((if negb (hd 0 (tail acc) =? BACKSLASH) then mc else c) :: tail acc))
    else mret (Some (c :: acc)).

(** Only a character put in the buffer is followed by the test of its end. *)
Fixpoint canon_loop (k : nat) (t : nat) (acc : list Z) : M (list Z) :=
  match k with
  | O => nofuel
  | S k =>
      c ← tgetc t_rawq t;
      if c <? 0 then mret acc
      else
        x ← gets (fun s => tty_at s t);
        let full l := (CANBSIZ - 2 <=? Z.of_nat (length l)) in
        if negb (fset (t_flags x) (Z.lor RAW CBREAK)) then
          if c =? CDELIM then
            _ ← modify (upd_tty t (fun x => x <| t_delct ::= fun n => i8 (n - 1) |>));
            mret acc
          else
            o ← canon_char x c acc;
            match o with
            | None => canon_loop k t []
            | Some l => if full l then mret l else canon_loop k t l
            end
        else if full (c :: acc) then mret (c :: acc) else canon_loop k t (c :: acc)
  end.

(** [false] is [return(0)] with the priority at 5. *)
Fixpoint canon_wait (k : nat) (t : nat) : M bool :=
  match k with
  | O => nofuel
  | S k =>
      x ← gets (fun s => tty_at s t);
      let cooked := negb (fset (t_flags x) (Z.lor RAW CBREAK)) in
      if (cooked && (t_delct x =? 0)) || (negb cooked && (c_cc (t_rawq x) =? 0)) then
        if negb (fset (t_state x) CARR_ON) || bool_decide (t_chan x <> None) then mret false
        else _ ← sleep (ChRawq t) TTIPRI; canon_wait k t
      else mret true
  end.

Definition canon (t : nat) : M Z :=
  _ ← spl 5;
  ok ← (fun e s => canon_wait (S (length e)) t e s);
  if negb ok then mret 0
  else
    _ ← spl0;
    acc ← (fun e s => canon_loop (S (Z.to_nat (c_cc (t_rawq (tty_at s t))))) t [] e s);
    _ ← tb_to_q t_canq (rev acc) t;
    x ← gets (fun s => tty_at s t);
    _ ← when (fset (t_state x) TBLOCK && (c_cc (t_rawq x) <? TTYHOG / 5))
          (r ← tputc t_outq (t_startc x) t;
           _ ← when (r =? 0) (_ ← modify (tclr t TBLOCK); ttstart t);
           modify (upd_tty t (fun x => x <| t_char := 0 |>)));
    mret (Z.of_nat (length acc)).

(** ** Reading and writing *)

Fixpoint ttread_f (k : nat) (t : nat) : M unit :=
  match k with
  | O => nofuel
  | S k =>
      n ← gets (fun s => c_cc (t_canq (tty_at s t)));
      if n =? 0 then mret tt
      else c ← tgetc t_canq t; r ← passc c; if 0 <=? r then ttread_f k t else mret tt
  end.

Definition ttread (t : nat) : M Z :=
  on ← gets (thas t CARR_ON);
  if negb on then mret 0
  else
    n ← gets (fun s => c_cc (t_canq (tty_at s t)));
    some ← (if negb (n =? 0) then mret true else r ← canon t; mret (negb (r =? 0)));
    _ ← when some (fun e s => ttread_f (S (Z.to_nat (c_cc (t_canq (tty_at s t))))) t e s);
    x ← gets (fun s => tty_at s t);
    mret (i32 (c_cc (t_rawq x) + c_cc (t_canq x))).

(** [while (tp->t_outq.c_cc > TTHIWAT)]: [false] is the return to a channel. *)
Fixpoint ttwrite_wait (k : nat) (t : nat) : M bool :=
  match k with
  | O => nofuel
  | S k =>
      n ← gets (fun s => c_cc (t_outq (tty_at s t)));
      if TTHIWAT <? n then
        _ ← modify (tset t ASLEEP);
        _ ← ttstart t;
        x ← gets (fun s => tty_at s t);
        if c_cc (t_outq x) <=? TTLOWAT then _ ← modify (tclr t ASLEEP); mret true
        else if bool_decide (t_chan x <> None) then mret false
        else _ ← sleep (ChOutq t) TTOPRI; ttwrite_wait k t
      else mret true
  end.

Fixpoint ttwrite_f (k : nat) (t : nat) : M bool :=
  match k with
  | O => nofuel
  | S k =>
      n ← gets (fun s => u_count (u s));
      if n =? 0 then mret true
      else
        _ ← spl 5;
        ok ← (fun e s => ttwrite_wait (S (length e)) t e s);
        if negb ok then mret false
        else
          _ ← spl0;
          c ← cpass;
          if c <? 0 then mret true else _ ← ttyoutput c t; ttwrite_f k t
  end.

Definition ttwrite (t : nat) : M unit :=
  on ← gets (thas t CARR_ON);
  if negb on then mret tt
  else
    done ← (fun e s => ttwrite_f (S (Z.to_nat (u_count (u s)))) t e s);
    if done : bool then ttstart t else mret tt.

(** ** [ioctl] on a terminal *)

Definition copy_error (b : bool) : M unit := when b (seterror EFAULT).
Definition tty_out (l : list Z) (addr : Z) : M unit :=
  r ← copyout l addr (Z.of_nat (length l)); copy_error (negb (r =? 0)).

(** [struct ttiocb], 8 bytes, and [struct tc], 6. *)
Definition ttiocb (x : tty) : list Z := u8 <$> [t_ispeed x; t_ospeed x; t_erase x; t_kill x] ++ be 4 (t_flags x).
Definition set_ttiocb (l : list Z) (x : tty) : tty :=
  x <| t_ispeed := i8 (nth 0 l 0) |> <| t_ospeed := i8 (nth 1 l 0) |> <| t_erase := i8 (nth 2 l 0) |> <| t_kill := i8 (nth 3 l 0) |>
    <| t_flags := i16 (unbe (take 4 (drop 4 l))) |>.
Definition tc (x : tty) : list Z := u8 <$> [t_intrc x; t_quitc x; t_startc x; t_stopc x; t_eofc x; t_brkc x].
Definition set_tc (l : list Z) (x : tty) : tty :=
  x <| t_intrc := i8 (nth 0 l 0) |> <| t_quitc := i8 (nth 1 l 0) |> <| t_startc := i8 (nth 2 l 0) |> <| t_stopc := i8 (nth 3 l 0) |>
    <| t_eofc := i8 (nth 4 l 0) |> <| t_brkc := i8 (nth 5 l 0) |>.

Definition tty_setparams (addr : Z) (t : nat) : M unit :=
  o ← copyin addr 8;
  match o with None => seterror EFAULT | Some l => modify (upd_tty t (set_ttiocb l)) end.

(** The only discipline is number 0, and it has no [l_close] to speak of. *)
Definition tty_setd (addr : Z) (t : nat) : M unit :=
  o ← copyin addr 2;
  match o with
  | None => seterror EFAULT
  | Some l =>
      let d := unbe l in
      if nldisp <=? d then seterror ENXIO
      else
        line ← gets (fun s => t_line (tty_at s t));
        _ ← when (negb (line =? 0)) (panic "linesw");
        er ← gets uerror;
        when (er =? 0) (modify (upd_tty t (fun x => x <| t_line := i8 d |>)))
  end.

(** [true] is the value 1: the command was one of these. *)
Definition ttioccomm (com : Z) (t : nat) (addr dev : Z) : M bool :=
  x ← gets (fun s => tty_at s t);
  if com =? TIOCGETD then _ ← tty_out (be 2 (t_line x)) addr; mret true
  else if com =? TIOCSETD then _ ← tty_setd addr t; mret true
  else if com =? TIOCEXCL then _ ← modify (tset t XCLUDE); mret true
  else if com =? TIOCNXCL then _ ← modify (tclr t XCLUDE); mret true
  else if com =? TIOCSETP then _ ← wflushtty t; _ ← tty_setparams addr t; mret true
  else if com =? TIOCSETN then _ ← tty_setparams addr t; mret true
  else if com =? TIOCGETP then _ ← tty_out (ttiocb x) addr; mret true
  else if com =? TIOCHPCL then _ ← modify (tset t HUPCLS); mret true
  else if com =? TIOCFLUSH then _ ← flushtty t; mret true
  else if (com =? DIOCSETP) || (com =? DIOCGETP) then _ ← seterror ENODEV; mret true
  else if com =? TIOCSETC then
    o ← copyin addr 6;
    _ ← match o with None => seterror EFAULT | Some l => modify (upd_tty t (set_tc l)) end;
    mret true
  else if com =? TIOCGETC then _ ← tty_out (tc x) addr; mret true
  else mret false.

End Tty.
