(* ===== verification/Kl.v ===== *)
(** The serial driver above the rings: the rest of [dev/kl.c], and the memory
    devices of [dev/mem.c]. *)
From S2P Require Import Prelude Malloc Clist Kernel Sched Codec Usermem Subr Uart Tty.

Definition B9600 : Z := 13.
Definition MSGBUFS : Z := 1024.

Section Kl.
Context `{Layout}.

(** ** Polling *)

Fixpoint rx_discard (k : nat) (c : nat) : M unit :=
  match k with
  | O => nofuel
  | S k => v ← uart_rx_ring_get (Z.of_nat c); if 0 <=? v then rx_discard k c else mret tt
  end.

(** [while (budget > 0 && ...)] *)
Fixpoint rx_feed (k : nat) (c : nat) : M unit :=
  match k with
  | O => mret tt
  | S k =>
      o ← gets (thas c ISOPEN);
      if negb o then mret tt
      else
        v ← uart_rx_ring_get (Z.of_nat c);
        if 0 <=? v then _ ← ttyinput v c; rx_feed k c else mret tt
  end.

Definition poll_rx_channel (c : nat) : M unit :=
  if negb (uart_channel_enabled (Z.of_nat c)) then mret tt
  else
    _ ← uart_stage_rx_channel c;
    o ← gets (thas c ISOPEN);
    if negb o then
      _ ← (fun e s => rx_discard (S (Z.to_nat (r_count (ua_rx (uart_at s c))))) c e s);
      uart_poll_tx_channel c
    else
      _ ← rx_feed UART_RX_POLL_BUDGET c;
      uart_poll_tx_channel c.

Definition uart_poll_rx_all : M unit := for_each all_channels poll_rx_channel.

(** ** The entries of the device switch *)

Definition kl_minor_channel (dev : Z) : Z :=
  let m := minor dev in
  if negb (uart_range m) then -1 else if negb (uart_channel_enabled m) then -1 else m.
Definition kl_is_ymodem (dev : Z) : bool := minor dev =? 1.

Definition UART_BASE : Z := 10486016.  (* 0x00a00100 *)
Definition uart_channel_addr (channel : Z) : Z := UART_BASE + channel * 8.

(** What [klopen] does to a terminal that is not open. *)
Definition kl_defaults (x : tty) : tty :=
  x <| t_state := Z.lor ISOPEN CARR_ON |> <| t_flags := Z.lor EVENP (Z.lor ODDP (Z.lor ECHO (Z.lor CRMOD XTABS))) |>
    <| t_ispeed := B9600 |> <| t_ospeed := B9600 |>.

Definition klopen (dev flag : Z) : M Z :=
  if kl_is_ymodem dev then mret 0
  else
    let channel := kl_minor_channel dev in
    if channel <? 0 then _ ← seterror ENXIO; mret 0
    else
      let t := Z.to_nat channel in
      _ ← modify (upd_tty t (fun x => x <| t_addr := uart_channel_addr channel |> <| t_oproc := true |>));
      o ← gets (thas t ISOPEN);
      _ ← when (negb o) (_ ← modify (upd_tty t kl_defaults); ttychars t);
      _ ← ttyopen dev t;
      _ ← uart_poll_rx_all;
      mret 0.

Definition klclose (dev flag : Z) : M Z :=
  if kl_is_ymodem dev then mret 0
  else
    let channel := kl_minor_channel dev in
    _ ← when (0 <=? channel) (ttyclose (Z.to_nat channel));
    mret 0.

(** [while ((uart[UART_LSR] & UART_LSR_DR) == 0);]: a line that stays silent
    is waited for without end. *)
Definition wait_dr (c : nat) : M unit := d ← uart_dr c; if d : bool then mret tt else nofuel.
Fixpoint drop_busy (l : list bool) : list bool := match l with false :: l => drop_busy l | _ => l end.
Definition wait_thre (c : nat) : M unit := modify (upd_uart c (fun x => x <| hw_thre ::= fun l => tail (drop_busy l) |>)).

Fixpoint ymodem_read_f (k : nat) : M unit :=
  match k with
  | O => nofuel
  | S k =>
      n ← gets (fun s => u_count (u s));
      if n =? 0 then mret tt
      else
        _ ← wait_dr 1;
        c ← uart_rbr 1;
        r ← passc c;
        if r <? 0 then mret tt else ymodem_read_f k
  end.
Definition ymodem_read : M Z := _ ← (fun e s => ymodem_read_f (S (Z.to_nat (u_count (u s)))) e s); mret 0.

Fixpoint ymodem_write_f (k : nat) : M unit :=
  match k with
  | O => nofuel
  | S k =>
      c ← cpass;
      if 0 <=? c then _ ← wait_thre 1; _ ← uart_thr 1 c; ymodem_write_f k else mret tt
  end.
Definition ymodem_write : M Z := _ ← (fun e s => ymodem_write_f (S (Z.to_nat (u_count (u s)))) e s); mret 0.

Definition klread (dev : Z) : M Z :=
  if kl_is_ymodem dev then _ ← ymodem_read; mret 0
  else
    let channel := kl_minor_channel dev in
    if channel <? 0 then _ ← seterror ENXIO; mret 0
    else
      _ ← uart_poll_rx_all;
      _ ← ttread (Z.to_nat channel);
      mret 0.

Definition klwrite (dev : Z) : M Z :=
  if kl_is_ymodem dev then _ ← ymodem_write; mret 0
  else
    let channel := kl_minor_channel dev in
    if channel <? 0 then _ ← seterror ENXIO; mret 0
    else _ ← ttwrite (Z.to_nat channel); mret 0.

Definition klioctl (dev cmd addr flag : Z) : M Z :=
  if kl_is_ymodem dev then _ ← seterror ENOTTY; mret 0
  else
    let channel := kl_minor_channel dev in
    if channel <? 0 then _ ← seterror ENXIO; mret 0
    else
      handled ← ttioccomm cmd (Z.to_nat channel) addr dev;
      _ ← when (negb handled) (seterror ENOTTY);
      mret 0.

(** ** The console of [printf] *)

Definition putchar_raw (c : Z) : M unit :=
  _ ← when (negb (c =? 0) && negb (c =? 13) && negb (c =? 127))
        (_ ← modify (fun s => s <| kt; msgbuf ::= <[msgbufp (kt s) := i8 c]> |>);
         modify (fun s => s <| kt; msgbufp ::= fun p => if MSGBUFS <=? p + 1 then 0 else p + 1 |>));
  if c =? 0 then mret tt else _ ← wait_thre 0; uart_thr 0 c.

(** A newline is preceded by a return, which calls no further. *)
Definition putchar (c : Z) : M unit :=
  if c =? 10 then
    _ ← modify (fun s => s <| kt; msgbuf ::= <[msgbufp (kt s) := i8 c]> |>);
    _ ← modify (fun s => s <| kt; msgbufp ::= fun p => if MSGBUFS <=? p + 1 then 0 else p + 1 |>);
    _ ← putchar_raw 13;
    _ ← wait_thre 0;
    uart_thr 0 c
  else putchar_raw c.

(** ** Physical memory: [dev/mem.c] *)

Definition RAM_PAGE_SIZE : Z := 262144.
Definition RAM_SIZE : Z := 16777216.
Definition KMETA_BASE : Z := 12582912.  (* 0x00c00000 *)
Definition KMETA_PAGE : Z := 63.

(** The byte behind the mirror window; [page] is one byte wide. *)
Definition page_byte (page off : Z) : M Z :=
  s ← spl 7;
  v ← gets (fun s => upmem (ku s) (u8 page) off);
  _ ← splx s;
  mret v.

Definition ram_byte (addr : Z) : M Z := page_byte (addr / RAM_PAGE_SIZE) (addr mod RAM_PAGE_SIZE).

Definition kmem_byte (addr : Z) : M Z :=
  if addr <? RAM_PAGE_SIZE then page_byte 0 addr
  else if (KMETA_BASE <=? addr) && (addr <? KMETA_BASE + RAM_PAGE_SIZE) then page_byte KMETA_PAGE (addr - KMETA_BASE)
  else mret (-1).

Fixpoint mmread_f (k : nat) (m : Z) : M unit :=
  match k with
  | O => nofuel
  | S k =>
      n ← gets (fun s => u_count (u s));
      if n =? 0 then mret tt
      else
        addr ← gets (fun s => u32 (u_offset (u s)));
        o ← (if m =? 0 then (if RAM_SIZE <=? addr then mret None else c ← ram_byte addr; mret (Some c))
             else c ← kmem_byte addr; if c <? 0 then _ ← seterror ENXIO; mret None else mret (Some c));
        match o with
        | None => mret tt
        | Some c => r ← passc c; if r <? 0 then mret tt else mmread_f k m
        end
  end.

Definition mmread (dev : Z) : M Z :=
  let m := minor dev in
  if m =? 2 then mret 0
  else if negb (m =? 0) && negb (m =? 1) then _ ← seterror ENXIO; mret (-1)
  else _ ← (fun e s => mmread_f (S (Z.to_nat (u_count (u s)))) m e s); mret 0.

Definition mmwrite (dev : Z) : M Z :=
  if minor dev =? 2 then _ ← modify (upd_u (fun x => x <| u_count := 0 |>)); mret 0
  else _ ← seterror EACCES; mret (-1).

End Kl.
