(* ===== verification/Conf.v ===== *)
(** The character device switch: the character half of [conf/c.c], the entries
    of [conf/stubs.c], and [ioctl], [stty] and [gtty] of [dev/tty.c]. *)
From S2P Require Import Prelude Malloc Clist Kernel Sched Dll Sd Bio Codec Usermem Subr Alloc Inode Rdwri Text Fio Callout Clock Rtc Uart Tty Kl.

Definition EXCLOSE_FLAG : Z := 1.
Definition FIOCLEX : Z := FIOC 1.
Definition FIONCLEX : Z := FIOC 2.

Section Conf.
Context `{Layout}.

(** ** The entries that are not devices *)

Definition nodev_entry : cdevsw_entry :=
  CDev (fun _ _ => notready) (fun _ _ => notready) (fun _ => notready) (fun _ => notready) (fun _ _ _ _ => notready).

(** ** The raw RAM disk

    [physio] computes the physical address from the words at [UISA], the
    segmentation registers of a PDP-11: on this machine that is some place in
    the kernel, and the transfer that follows is undefined. *)
Definition physio_bad (x : user) (base : Z) : bool :=
  let n := u_count x in
  if fset base 1 || fset n 1 || (u32 (base + n) <=? base) then true
  else
    let ts := if negb (u_sep x =? 0) then 0 else i32 (fclr (u32 (u_tsize x + 127)) 127) in
    let nb := Z.land (Z.shiftr base 6) 1023 in
    (nb <? ts) ||
    (u32 (u32 ts + u_dsize x) <=? Z.land (Z.shiftr (u32 (base + n)) 6) 1023) && (nb <? u32 (1024 - u_ssize x)).

Definition physio (dev rw : Z) : M unit :=
  x ← gets u;
  uaddr (u_base x) (fun base => if physio_bad x (u32 base) then seterror EFAULT else lift_res Undef).

Definition rdread (dev : Z) : M Z := _ ← physio dev B_READ; mret 0.
Definition rdwrite (dev : Z) : M Z := _ ← physio dev B_WRITE; mret 0.

(** ** The switch *)

(** The entries but number 17, [tty]; the table ends after number 19. *)
Definition cdevsw_base (maj : Z) : cdevsw_entry :=
  if maj =? 0 then CDev klopen klclose klread klwrite klioctl
  else if maj =? 8 then CDev (fun _ _ => mret 0) (fun _ _ => mret 0) mmread mmwrite (fun _ _ _ _ => notready)
  else if maj =? 9 then CDev (fun dev _ => rdopen dev) (fun _ _ => mret 0) rdread rdwrite (fun _ _ _ _ => notready)
  else if maj =? 19 then CDev rtcopen (fun _ _ => mret 0) rtcread rtcwrite (fun _ _ _ _ => notready)
  else if maj <? 20 then nodev_entry
  else CDev (fun _ _ => lift_res Undef) (fun _ _ => lift_res Undef) (fun _ => lift_res Undef) (fun _ => lift_res Undef) (fun _ _ _ _ => lift_res Undef).

(** The controlling terminal, [syopen] to [sysioctl]: the same call on
    [u_ttyd], which is a terminal and never this entry. *)
Definition sy_call (call : cdevsw_entry -> Z -> M Z) : M Z :=
  t ← gets (fun s => u_ttyp (u s));
  match t with
  | None => _ ← seterror ENXIO; mret (-1)
  | Some _ =>
      d ← gets (fun s => u_ttyd (u s));
      if major d =? 17 then nofuel
      else
        _ ← call (cdevsw_base (major d)) d;
        er ← gets uerror;
        mret (if negb (er =? 0) then -1 else 0)
  end.

Definition syopen (dev flag : Z) : M Z := sy_call (fun d td => cd_open d td flag).
Definition syread (dev : Z) : M Z := sy_call cd_read.
Definition sywrite (dev : Z) : M Z := sy_call cd_write.
Definition sysioctl (dev cmd addr flag : Z) : M Z := sy_call (fun d td => cd_ioctl d td cmd addr flag).

#[export] Instance kernel_cdevsw : Cdevsw := fun maj =>
  if maj =? 17 then CDev syopen (fun _ _ => mret 0) syread sywrite sysioctl else cdevsw_base maj.

(** ** The callout table's functions *)

(** Nothing in this kernel calls [timeout], so its table has no function to
    call. *)
#[export] Instance kernel_hooks : ClockHooks := Build_ClockHooks (fun _ _ => lift_res Undef) uart_poll_rx_all.
End Conf.

(** ** [ioctl], against any switch *)

Section Ioctl.
Context `{Layout} `{Cdevsw}.

Definition ioctl : M unit :=
  fdes ← gets (fun s => arg s 0);
  cmd ← gets (fun s => arg s 1);
  cmarg ← gets (fun s => arg s 2);
  o ← getf fdes;
  match o with
  | None => mret tt
  | Some fp =>
      if cmd =? FIOCLEX then modify (upd_u (fun x => x <| u_pofile ::= fun f => <[fdes := i8 (Z.lor (f fdes) EXCLOSE_FLAG)]> f |>))
      else if cmd =? FIONCLEX then modify (upd_u (fun x => x <| u_pofile ::= fun f => <[fdes := i8 (fclr (f fdes) EXCLOSE_FLAG)]> f |>))
      else
        f ← gets (fun s => file_at s fp);
        y ← gets (fun s => inode_at s (f_inode f));
        if negb (is_cdev (i_mode y)) then seterror ENOTTY
        else
          let dev := u16 (i_rdev y) in
          _ ← cd_ioctl (cdevsw (major dev)) dev cmd cmarg (f_flag f);
          mret tt
  end.

Definition tty_args (cmd : Z) : M unit := modify (upd_u (fun x => x <| u_arg := [nth 0 (u_arg x) 0; cmd; nth 1 (u_arg x) 0] |>)).
Definition stty : M unit := _ ← tty_args TIOCSETP; ioctl.
Definition gtty : M unit := _ ← tty_args TIOCGETP; ioctl.
End Ioctl.
