(* ===== verification/Trap.v ===== *)
(** The system call trap: [epoch68_trap_syscall] of [conf/trap0.c], and the
    delivery of signals from the clock, [epoch68_clock_signals] of
    [sys/clock.c].

    The argument registers are signed 32-bit words.  What the trap handler of
    [conf/mch.s] takes back is the result, [trap_d1], [trap_pc], [trap_usp] and
    [trap_sr]. *)
From S2P Require Import Prelude Malloc Clist Kernel Sched Dll Sd Bio Codec Usermem Subr Alloc Inode Rdwri Text Fio Namei Pipe Sys2 Sys3 Callout Clock Acct Sys4 Exec Sys1 Sig Uart Tty Kl Conf.

Definition TRAP_EXECED : Z := 2147483647.  (* 0x7fffffff *)
Definition TRAP_ENOSYS : Z := 38.
Definition SYSCALL_KTICKS : Z := 65500.
Definition SYSCALL_SHUTDOWN : Z := 65501.
Definition SYSCALL_IDLETRAP : Z := 65502.
Definition SUPERVISOR : Z := 8192.  (* 0x2000 *)

(** ** The kernel stack, the window and the user's stack pointer *)

(** [epoch68_check_current_kernel_stack] *)
Definition check_current_kernel_stack : M unit :=
  p ← gets curproc;
  g ← gets (fun s => kguard (ku s) p);
  if Nat.ltb p NPROC && negb g then panic "kstack" else mret tt.

Definition sync_current_from_page : M unit :=
  p ← gets curproc;
  x ← gets (fun s => proc_at s p);
  if Nat.eqb p 0 || (p_stat x =? SZOMB) then mret tt
  else if Nat.leb NPROC p then panic "current proc"
  else
    up ← gets (fun s => uarrp (ku s));
    page ← gets (fun s => syspage (ku s));
    if negb (Nat.eqb up p) || negb (p_addr x =? page) then panic "current page" else mret tt.

Definition save_current_usp (usp : Z) : M unit :=
  p ← gets curproc;
  if Nat.leb NPROC p then mret tt else modify (fun s => s <| kx; proc_usp ::= <[p := usp]> |>).

Definition check_heap_stack (usp : Z) : M unit :=
  d ← gets (fun s => u32 (ctob (u_dsize (u s))));
  _ ← heap_stack_would_collide d usp;
  mret tt.

Definition trap_return_usp : M Z :=
  o ← gets (fun s => u_ar0 (u s));
  mret (match o with None => 0 | Some f => u32 (f R6) end).

Definition should_qswtch : M Z := gets (fun s => runrun (kp s)).

(** ** The calls *)

(** [if (u.u_error) rv = -u.u_error; else rv = u.u_r.r_reg.r_val1;], and with
    0 for the value. *)
Definition sysret (v : kst -> Z) : M Z :=
  er ← gets uerror;
  if negb (er =? 0) then mret (- er) else gets v.
Definition val1 (s : kst) : Z := u_r_val1 (u s).
Definition sys_val (m : M unit) : M Z := _ ← m; sysret val1.
Definition sys_zero (m : M unit) : M Z := _ ← m; sysret (fun _ => 0).

(** [u.u_ap = &args] and [u.u_dirp = a0]. *)
Definition set_args (l : list Z) : M unit := modify (upd_u (fun x => x <| u_arg := l |>)).
Definition set_path (a : Z) : M unit := modify (upd_u (fun x => x <| u_dirp := UA (u32 a) |>)).
Definition set_d1 (v : Z) : M unit := modify (fun s => s <| kx; trap_d1 := v |>).

Section Trap.
Context `{Layout} `{Cdevsw} `{SavedRegs}.

Definition trap_wait (a0 : Z) : M Z :=
  _ ← wait;
  er ← gets uerror;
  if negb (er =? 0) then mret (- er)
  else
    x ← gets u;
    if negb (a0 =? 0) then
      r ← copyout (be 2 (i16 (u_r_val2 x))) (u32 a0) 2;
      mret (if r <? 0 then - EFAULT else u_r_val1 x)
    else mret (u_r_val1 x).

Definition trap_pipe (a0 : Z) : M Z :=
  _ ← pipe;
  er ← gets uerror;
  if negb (er =? 0) then mret (- er)
  else
    x ← gets u;
    r ← copyout (be 4 (u_r_val1 x) ++ be 4 (u_r_val2 x)) (u32 a0) 8;
    mret (if r <? 0 then - EFAULT else 0).

(** The registers go back from [u.u_ar0] to the trap handler. *)
Definition return_regs : M unit :=
  pc ← get_reg PC;
  _ ← modify (fun s => s <| kx; trap_pc := u32 pc |>);
  sp ← get_reg R6;
  _ ← modify (fun s => s <| kx; trap_usp := u32 sp |>);
  ps ← get_reg RPS;
  modify (fun s => s <| kx; trap_sr := u16 (fclr ps SUPERVISOR) |>).

Definition trap_exec : M Z :=
  _ ← exec;
  er ← gets uerror;
  if negb (er =? 0) then mret (- er) else _ ← return_regs; mret TRAP_EXECED.

Definition trap_ids (rv d1 : user -> Z) : M Z :=
  x ← gets u; _ ← set_d1 (d1 x); mret (rv x).

Definition trap_getpid : M Z :=
  x ← gets (fun s => proc_at s (curproc s)); _ ← set_d1 (p_ppid x); mret (p_pid x).

(** The machine goes back to the monitor. *)
Definition halt {A} : M A := fun _ s => Stop Halted s.

Definition trap_shutdown : M Z :=
  uid ← gets (fun s => u_uid (u s));
  if negb (uid =? 0) then mret (- EPERM) else _ ← sync; halt.

(** [switch (sysno)]: its last cases, the middle ones and the first. *)
Definition trap_switch_30 (sysno d1 d2 a0 a1 : Z) : M Z :=
  let path l m := _ ← set_args l; _ ← set_path a0; m in
  let args l m := _ ← set_args l; m in
  match sysno with
  | 30 => sys_zero (path [a0; a1] utime)
  | 31 => sys_zero (args [d1; a0; 0] stty)
  | 32 => sys_zero (args [d1; a0; 0] gtty)
  | 33 => sys_zero (path [a0; d1] saccess)
  | 34 => sys_zero (args [d1] nice)
  | 35 => sys_zero (args [a0] ftime)
  | 36 => sys_zero sync
  | 37 => sys_zero (args [d1; d2] kill)
  | 41 => sys_val (args [d1; d2] dup)
  | 42 => trap_pipe a0
  | 43 => sys_zero (args [a0] times)
  | 46 => sys_zero (args [d1] setgid)
  | 47 => trap_ids u_rgid u_gid
  | 48 => sys_val (args [d1; a0; d2] ssig)
  | 51 => sys_zero (path [a0] sysacct)
  | 54 => sys_zero (args [d1; d2; a0] ioctl)
  | 60 => sys_val (args [d1] umask)
  | _ =>
      if sysno =? SYSCALL_IDLETRAP then mret 0
      else if sysno =? SYSCALL_KTICKS then gets (fun s => i32 (kticks (kc s)))
      else if sysno =? SYSCALL_SHUTDOWN then trap_shutdown
      else mret (- TRAP_ENOSYS)
  end.

Definition trap_switch_15 (sysno d1 d2 a0 a1 : Z) : M Z :=
  let path l m := _ ← set_args l; _ ← set_path a0; m in
  let args l m := _ ← set_args l; m in
  match sysno with
  | 15 => sys_zero (path [a0; d1] chmod)
  | 16 => sys_zero (path [a0; d1; d2] chown)
  | 17 => sys_zero (args [d1] sbreak)
  | 18 => sys_zero (path [a0; a1] stat)
  | 19 => sys_val (args [d1; d2; a0] seek)
  | 20 => trap_getpid
  | 21 => sys_zero (path [a0; a1; d1] smount)
  | 22 => sys_zero (path [a0] sumount)
  | 23 => sys_zero (args [d1] setuid)
  | 24 => trap_ids u_ruid u_uid
  | 25 => sys_zero (args [d1] stime)
  | 27 => sys_val (args [d1] alarm)
  | 28 => sys_zero (args [d1; a0] fstat)
  | 29 => sys_zero pause
  | _ => trap_switch_30 sysno d1 d2 a0 a1
  end.

Definition trap_switch (sysno d1 d2 a0 a1 : Z) : M Z :=
  let path l m := _ ← set_args l; _ ← set_path a0; m in
  let args l m := _ ← set_args l; m in
  match sysno with
  | 1 => _ ← args [d1] rexit; panic "rexit"
  | 2 => sys_val fork
  | 3 => sys_val (args [d1; a0; d2] read)
  | 4 => sys_val (args [d1; a0; d2] write)
  | 5 => sys_val (path [a0; d1] open)
  | 6 => sys_zero (args [d1] close)
  | 7 => trap_wait a0
  | 8 => sys_val (path [a0; d1] creat)
  | 9 => sys_zero (path [a0; a1] link)
  | 10 => sys_zero (path [a0] unlink)
  | 11 => _ ← set_args [a0; a1; d2]; _ ← set_path a0; trap_exec
  | 12 => sys_zero (_ ← set_path a0; chdir)
  | 13 => sys_val gtime
  | 14 => sys_zero (path [a0; d1; d2] mknod)
  | _ => trap_switch_15 sysno d1 d2 a0 a1
  end.

(** ** Before and after *)

(** [regsave], as [u.u_ar0] sees it. *)
Definition trap_regs (usp sr pc : Z) : regname -> Z :=
  fun r => match r with R6 => i32 usp | RPS => i32 sr | PC => i32 pc | _ => 0 end.

Definition trap_enter (d1 usp sr pc : Z) (regs : option (list Z)) : M unit :=
  _ ← sync_current_from_page;
  _ ← set_d1 d1;
  _ ← check_current_kernel_stack;
  _ ← save_current_usp usp;
  _ ← check_heap_stack usp;
  _ ← modify (upd_u (fun x => x <| u_arg := [] |> <| u_dirp := UA 0 |> <| u_ar0 := Some (trap_regs usp sr pc) |>));
  _ ← modify (fun s => s <| ku; fork_regs := regs |>);
  seterror 0.

(** [if (issig()) psig();] at [syscall_done] *)
Definition deliver : M unit :=
  x ← gets (fun s => proc_at s (curproc s));
  if p_stat x =? SZOMB then mret tt
  else n ← issig; when (negb (n =? 0)) psig.

Definition trap_leave (rv : Z) : M Z :=
  _ ← deliver;
  p ← gets curproc;
  st ← gets (fun s => p_stat (proc_at s p));
  _ ← when (st =? SRUN) (n ← setpri p; modify (fun s => s <| kp; curpri := i8 n |>));
  _ ← (if rv =? TRAP_EXECED then usp ← gets (fun s => trap_usp (kx s)); save_current_usp usp
       else _ ← return_regs; usp ← gets (fun s => trap_usp (kx s)); save_current_usp usp);
  usp ← gets (fun s => trap_usp (kx s));
  _ ← check_heap_stack usp;
  mret rv.

(** The second return of [save(u.u_qsav)]. *)
Definition trap_interrupted : M Z :=
  er ← gets uerror;
  _ ← when (er =? 0) (seterror EINTR);
  er ← gets uerror;
  mret (- er).

(** A [longjmp] to [u_qsav] comes back here, with what is left of the
    environment.  Delivering the signal does not sleep interruptibly again: the
    core image is written at the priorities of the file system, and [exit]
    ignores all signals. *)
Definition catch_qsav (m : M Z) (again : M Z) : M Z := fun e s =>
  match m e s with Stop (Longjmp e') s' => again e' s' | r => r end.

Definition trap_syscall (sysno d1 d2 a0 a1 usp sr pc : Z) (regs : option (list Z)) : M Z :=
  x ← gets u;
  _ ← trap_enter d1 usp sr pc regs;
  rv ← catch_qsav (_ ← sync_current_from_page; rv ← trap_switch sysno d1 d2 a0 a1; trap_leave rv)
                  (rv ← trap_interrupted; trap_leave rv);
  _ ← modify (upd_u (fun y => y <| u_arg := u_arg x |> <| u_ar0 := u_ar0 x |> <| u_dirp := u_dirp x |>));
  _ ← check_current_kernel_stack;
  mret rv.

(** ** Signals at a clock interrupt *)

Definition clock_signals (sr pc usp : Z) : M unit :=
  _ ← modify (fun s => s <| kx; clk_sr := u16 sr |>);
  _ ← modify (fun s => s <| kx; clk_pc := pc |>);
  _ ← modify (fun s => s <| kx; clk_usp := usp |>);
  x ← gets (fun s => proc_at s (curproc s));
  if negb (USERMODE sr) || (p_stat x =? SZOMB) then mret tt
  else
    saved ← gets (fun s => u_ar0 (u s));
    _ ← modify (upd_u (fun y => y <| u_ar0 := Some (trap_regs usp sr pc) |>));
    n ← issig;
    _ ← when (negb (n =? 0)) psig;
    ps ← get_reg RPS;
    _ ← modify (fun s => s <| kx; clk_sr := u16 (fclr ps SUPERVISOR) |>);
    pc ← get_reg PC;
    _ ← modify (fun s => s <| kx; clk_pc := u32 pc |>);
    sp ← get_reg R6;
    _ ← modify (fun s => s <| kx; clk_usp := u32 sp |>);
    modify (upd_u (fun y => y <| u_ar0 := saved |>)).

(** [epoch68_fault] *)
Definition fault (sig : Z) (supervisor : bool) : M unit :=
  if supervisor then panic "kernel fault" else _ ← exit sig; panic "fault return".
End Trap.
