(* ===== verification/Prf.v ===== *)
(** The messages of the kernel: [printf] and [printn] of [sys/prf.c].

    A format and a string are lists of characters without the NUL; reading the
    argument list or the digits out of range is [Undef]. *)
From S2P Require Import Prelude Malloc Clist Kernel Sched Uart Kl.

Definition PERCENT : Z := 37.
Definition MINUS : Z := 45.

(** ["0123456789ABCDEF"] *)
Definition hexdigits : list Z := seqZ 48 10 ++ seqZ 65 6.
Definition digit_char (i : Z) : res Z := if i <? 0 then Undef else deref (hexdigits !! Z.to_nat i).

(** [n] is a long: [-n] of the least one is itself. *)
Fixpoint printn (k : nat) (n b : Z) : res (list Z) :=
  match k with
  | O => Undef
  | S k =>
      let sign := if n <? 0 then [MINUS] else [] in
      let n := if n <? 0 then i32 (- n) else n in
      let a := Z.quot n b in
      l ← (if negb (a =? 0) then printn k a b else Ok []);
      c ← digit_char (Z.rem n b);
      Ok (sign ++ l ++ [c])
  end.
(** A long has at most 31 digits in base 2. *)
Definition PRINTFUEL : nat := 33.

Inductive parg := PInt (n : Z) | PStr (l : list Z).

Definition prf_arg (c : Z) (args : list parg) : res (list Z * list parg) :=
  if (c =? 100) || (c =? 117) || (c =? 111) || (c =? 120) then
    match args with
    | PInt n :: args => l ← printn PRINTFUEL (i32 n) (if c =? 111 then 8 else if c =? 120 then 16 else 10); Ok (l, args)
    | _ => Undef
    end
  else if c =? 115 then
    match args with PStr l :: args => Ok (l, args) | _ => Undef end
  else if c =? 68 then
    match args with PInt n :: args => l ← printn PRINTFUEL (i32 n) 10; Ok (l, args) | _ => Undef end
  else Ok ([], args).

(** A format that ends in a percent sign is read past its end. *)
Fixpoint prf_core (fmt : list Z) (args : list parg) : res (list Z) :=
  match fmt with
  | [] => Ok []
  | c :: r =>
      if c =? PERCENT then
        match r with
        | [] => Undef
        | c :: r => '(l, args) ← prf_arg c args; t ← prf_core r args; Ok (l ++ t)
        end
      else t ← prf_core r args; Ok (c :: t)
  end.

Definition printf (fmt : list Z) (args : list parg) : M unit :=
  l ← lift_res (prf_core fmt args);
  for_each l putchar.

(** ** Reading a number back *)

Definition digit_value (c : Z) : Z := if c <? 65 then c - 48 else c - 55.
Definition digits_value (b : Z) (l : list Z) : Z := foldl (fun v c => v * b + digit_value c) 0 l.
Definition number_value (b : Z) (l : list Z) : Z :=
  match l with c :: r => if c =? MINUS then - digits_value b r else digits_value b l | [] => 0 end.

Lemma digit_char_ok i : 0 <= i < 16 -> exists c, digit_char i = Ok c /\ digit_value c = i /\ c <> MINUS.
Proof.
  intros Hi. unfold digit_char. rewrite (proj2 (Z.ltb_ge _ _)) by lia. unfold hexdigits.
  destruct (Z_lt_le_dec i 10).
  - rewrite lookup_app_l by (rewrite length_seqZ; lia). rewrite lookup_seqZ_lt by lia. exists (48 + Z.of_nat (Z.to_nat i)).
    split; [done|]. unfold digit_value, MINUS. rewrite (proj2 (Z.ltb_lt _ _)) by lia. lia.
  - rewrite lookup_app_r by (rewrite length_seqZ; lia). rewrite length_seqZ, lookup_seqZ_lt by lia. exists (65 + Z.of_nat (Z.to_nat i - Z.to_nat 10)).
    split; [done|]. unfold digit_value, MINUS. rewrite (proj2 (Z.ltb_ge _ _)) by lia. lia.
Qed.

Lemma printn_pos b : 2 <= b <= 16 -> forall k n, 0 <= n < 2 ^ Z.of_nat k -> (0 < k)%nat ->
  exists l, printn k n b = Ok l /\ digits_value b l = n /\ hd 0 l <> MINUS /\ l <> [].
Proof.
  intros Hb. induction k as [|k IH]; intros n Hn Hk; [lia|]. cbn [printn]. rewrite (proj2 (Z.ltb_ge _ _)) by lia.
  rewrite Z.quot_div_nonneg, Z.rem_mod_nonneg by lia. destruct (digit_char_ok (n mod b)) as (c & Hc & Hv & Hm); [pose proof (Z.mod_pos_bound n b); lia|].
  rewrite Nat2Z.inj_succ, Z.pow_succ_r in Hn by lia. destruct (Z.eqb_spec (n / b) 0) as [E|E]; cbn [negb].
  - exists [c]. rewrite Hc. split; [done|]. split; [|done]. unfold digits_value. cbn. rewrite Hv. pose proof (Z.div_mod n b). lia.
  - assert (Hq : 0 <= n / b < 2 ^ Z.of_nat k) by (split; [apply Z.div_pos; lia|apply Z.div_lt_upper_bound; nia]).
    destruct k as [|k']; [cbn in Hq; lia|]. destruct (IH (n / b) Hq ltac:(lia)) as (l & Hl & Hd & Hh & Hne). rewrite Hl, Hc.
    exists (l ++ [c]). split; [done|]. split_and!; [|by destruct l|by destruct l].
    unfold digits_value in *. rewrite foldl_app, Hd. cbn. rewrite Hv. pose proof (Z.div_mod n b). lia.
Qed.

(** A negative number is a minus sign and its opposite. *)
Lemma printn_neg k n b l : n < 0 -> 0 <= i32 (- n) -> printn (S k) (i32 (- n)) b = Ok l -> printn (S k) n b = Ok (MINUS :: l).
Proof.
  intros Hn Hp. cbn [printn]. rewrite (proj2 (Z.ltb_lt n 0)), (proj2 (Z.ltb_ge (i32 (- n)) 0)) by lia.
  destruct (if negb _ then _ else _) as [a| |]; [|done|done]. cbn. destruct (digit_char _) as [c| |]; [|done|done]. cbn. by injection 1 as <-.
Qed.

(** [printn] prints any long but the least one, in any base from 2 to 16,
    as a sign and digits that read back as the number: the recursion ends and
    no digit is out of the table. *)
Lemma printn_reads n b : - 2 ^ 31 < n < 2 ^ 31 -> 2 <= b <= 16 -> exists l, printn PRINTFUEL n b = Ok l /\ number_value b l = n.
Proof.
  intros Hn Hb. unfold PRINTFUEL. destruct (Z_lt_le_dec n 0) as [Hneg|Hpos].
  - destruct (printn_pos b Hb 33 (- n) ltac:(cbn; lia) ltac:(lia)) as (l & Hl & Hd & Hh & Hne). rewrite <- (i32_id (- n)) in Hl by lia.
    rewrite (printn_neg 32 n b l Hneg ltac:(rewrite i32_id by lia; lia) Hl). eexists. split; [done|]. unfold number_value. rewrite Z.eqb_refl. lia.
  - destruct (printn_pos b Hb 33 n ltac:(cbn; lia) ltac:(lia)) as (l & Hl & Hd & Hh & Hne). exists l. split; [done|].
    destruct l as [|c r]; [done|]. cbn [hd] in Hh. unfold number_value. by rewrite (proj2 (Z.eqb_neq _ _) Hh).
Qed.

Lemma printn_reads_witness : exists l, printn PRINTFUEL (-255) 16 = Ok l /\ number_value 16 l = -255.
Proof. apply (printn_reads (-255) 16); lia. Defined.

(** The least long has no opposite: a digit is looked for before the table. *)
Example printn_least : printn PRINTFUEL (- 2 ^ 31) 10 = Undef.
Proof. reflexivity. Qed.
