(* ===== verification/Main.v ===== *)
(** The start of the system: [sys/main.c], with the bootstrap program of
    [sys/machdep.c] and [profil] of [sys/sys4.c].

    [main] itself sets the vectors, clears the process table and the user
    areas and moves to the kernel stack of process 0. *)
From S2P Require Import Prelude Malloc Clist Kernel Sched Dll Sd Bio Codec Usermem Subr Alloc Inode Rdwri Text Fio Namei Pipe Sys2 Sys3 Rtc Exec Uart Tty Kl.

Definition rootdev : Z := 0.
Definition CMASK : Z := 0.
Definition INIT_STACK_TOP : Z := 262142.  (* 0x0003fffe *)

(** [icode] and [icode_multi], as 16-bit words. *)
Definition icode : list Z :=
  [16890; 20; 17402; 8; 28683; 20032; 24830; 0; 22; 0; 0; 12133; 29795; 12137; 28265; 29696].
Definition icode_multi : list Z :=
  [16890; 24; 17402; 8; 28683; 20032; 24830; 0; 26; 0; 36; 0; 0; 12133; 29795; 12137; 28265; 29696; 11629; 0].
Definition code_bytes (l : list Z) : list Z := concat (be 2 <$> l).

(** [profil] *)
Definition profil : M unit :=
  modify (fun s => upd_u (fun x => x <| u_prof := Prof (u32 (arg s 0)) (u32 (arg s 1)) (u32 (arg s 2)) (u32 (arg s 3)) |>) s).

Section Main.
Context `{Layout}.

(** [epoch68_init_kernel_stack_guards] *)
Definition init_kernel_stack_guards : M unit := modify (fun s => s <| ku; kguard := fun p => if Nat.ltb p NPROC then true else kguard (ku s) p |>).

Definition iinit : M unit :=
  _ ← d_open (bdev rootdev) rootdev 1;
  bp ← bread rootdev SUPERB;
  cp ← geteblk;
  er ← gets uerror;
  if negb (er =? 0) then panic "iinit"
  else
    _ ← modify (fun s => bsplice cp 0 (bpart bp 0 512 s) s);
    _ ← brelse bp;
    _ ← modify (upd_mount 0 (fun m => m <| m_bufp := Some cp |> <| m_dev := u16 rootdev |>));
    _ ← modify (bput cp s_flock 0);
    _ ← modify (bput cp s_ilock 0);
    _ ← modify (bput cp s_ronly 0);
    _ ← modify (fun s => s <| kc; time := bget cp s_time s |>);
    r ← gets (fun s => mm58167_time (rtcregs (kc s)));
    match r with Some t => modify (fun s => s <| kc; time := t |>) | None => mret tt end.

(** "set up system process" *)
Definition init_proc0 : M unit :=
  _ ← modify (upd_proc 0 (fun x =>
    x <| p_addr := 0 |> <| p_size := USIZE |> <| p_stat := SRUN |> <| p_flag ::= fun f => i8 (Z.lor f (Z.lor SLOAD SSYS)) |> <| p_nice := NZERO |>));
  _ ← modify (fun s => s <| ku; uarrp := 0%nat |>);
  modify (upd_u (fun x => x <| u_procp := 0%nat |> <| u_cmask := CMASK |>)).

(** [iget] of the root, unlocked. *)
Definition root_inode : M nat :=
  o ← iget rootdev ROOTINO;
  match o with
  | None => panic "null inode"
  | Some ip => _ ← modify (iclr ip ILOCK); mret ip
  end.

(** [cfree_space] is the address of the character blocks.  The machine's timer
    is started by [clkstart]. *)
Definition epoch68_main (cfree_space : Z) : M unit :=
  up ← lift_res userpage_init;
  _ ← modify (fun s => s <| ku; upages_ := up |>);
  _ ← init_proc0;
  _ ← uart_kernel_init;
  n ← with_clists (fun st => let '(st, cfree, n) := cinit cfree_space (replicate 20 1) st in (n, st));
  _ ← modify (fun s => s <| kt; nchrdev ::= fun k => k + n |>);
  _ ← binit;
  _ ← iinit;
  rd ← root_inode;
  _ ← modify (fun s => s <| kf; rootdir := rd |>);
  cd ← root_inode;
  _ ← modify (upd_u (fun x => x <| u_cdir := cd |> <| u_rdir := None |>));
  _ ← modify (upd_u (fun x => x <| u_rsav := CtxEntry |>));
  r ← newproc (Some 0%nat);
  er ← gets uerror;
  if negb (r =? 0) || negb (er =? 0) then panic "init fork"
  else _ ← set_proc_entry 1; sched_turn uart_poll_rx_all.

(** Process 1 goes to user mode with these program counter, stack pointer and
    status. *)
Definition init_process (initcode : list Z) : M (Z * Z * Z) :=
  let size := Z.of_nat (length initcode) in
  _ ← expand (i32 (USIZE + i32 (btoc size)));
  er ← gets uerror;
  if negb (er =? 0) then panic "init expand"
  else
    r ← estabur 0 (btoc size) 0 0 RO;
    if r <? 0 then panic "init estabur"
    else
      r ← copyout initcode 0 size;
      if r <? 0 then panic "init icode"
      else _ ← uart_enable_rx_irqs; mret (0, INIT_STACK_TOP, 0).
End Main.
