(* ===== verification/Signalled.v ===== *)
(** Signals at the boundary of the kernel: a process that sleeps in a system
    call, or computes, is sent to the handler of its lowest signal. *)
From S2P Require Import Prelude Malloc Clist Kernel Callout Clock Sched Dll Sd Bio Codec Usermem Subr Alloc Inode Rdwri Readi Text Fio Namei Pipe Sys2 Sys3 Acct Sys4 Exec Execargs Sys1 Sig Deliver Uart Tty Kl Conf Trap.

(** ** Finding the signal *)

(** Signal [n] is the next one process [p] is to take, in handler [h]. *)
Record next_caught (n h : Z) (s : kst) (p : nat) : Prop := {
  nc_pending : pending (proc_at s p) n;
  nc_first : forall m, pending (proc_at s p) m -> m < n -> ignored s m = true;
  nc_handler : u_signal (u s) n = h;
  nc_caught : h <> 0 /\ fset h 1 = false;
  nc_sig16 : sig16 (proc_at s p);
  nc_untraced : fset (p_flag (proc_at s p)) STRC = false
}.

Lemma next_not_ignored n h s p : next_caught n h s p -> ignored s n = false.
Proof. intros [_ _ E [_ H] _ _]. unfold ignored. by rewrite E. Qed.

(** What matters of a process to the delivery of signals. *)
Definition ppick (x : proc) := (p_sig x, p_flag x).

Lemma next_caught_same n h s s' p : u_signal (u s') = u_signal (u s) -> ppick (proc_at s' p) = ppick (proc_at s p) ->
  next_caught n h s p -> next_caught n h s' p.
Proof.
  intros Eu Ep [A B C D E F]. unfold ppick in Ep. injection Ep as E1 E2. unfold pending, sig16, ignored in *.
  split; unfold pending, sig16, ignored; rewrite ?Eu, ?E1, ?E2; auto.
Qed.

Lemma issig_loop_sig16 k : forall p e s n e' s', issig_loop k p e s = Ret n e' s' -> sig16 (proc_at s p) -> sig16 (proc_at s' p).
Proof.
  induction k as [|k IH]; intros p e s n e' s' Hr H16; cbn [issig_loop] in Hr; rewrite bind_gets in Hr.
  all: destruct (p_sig (proc_at s p) =? 0); [by injection Hr as <- <- <-|]; try discriminate.
  rewrite !bind_gets in Hr. destruct (_ || _) in Hr; [by injection Hr as <- <- <-|].
  rewrite bind_modify in Hr. apply IH in Hr; [done|]. rewrite proc_upd_same. unfold sig16. cbn. apply (swrap_range 16). lia.
Qed.

(** Finding the signal drops the ignored ones before it. *)
Lemma issig_next n h e s : next_caught n h s (curproc s) ->
  exists s', issig e s = Ret n e s' /\ only_sig (curproc s) s s' /\ next_caught n h s' (curproc s) /\
    fsig (proc_at s' (curproc s)) = n /\
    (forall m, pending (proc_at s' (curproc s)) m <-> pending (proc_at s (curproc s)) m /\ n <= m).
Proof.
  intros Hn. pose proof (next_not_ignored _ _ _ _ Hn) as Hi. destruct Hn as [A B C D E F]. set (p := curproc s) in *.
  destruct (issig_ok e s E F) as (m & s' & Hr & Ho & Hres). fold p in Ho, Hres.
  assert (Em : m = n /\ forall k, pending (proc_at s' p) k <-> pending (proc_at s p) k /\ n <= k).
  { destruct Hres as [(_ & _ & Hall)|(Hp & Hni & Hlow & Hst)]; [specialize (Hall n A); congruence|].
    assert (m = n) as ->; [|done]. destruct (Z.lt_trichotomy m n) as [Hlt|[?|Hlt]]; [specialize (B m Hp Hlt); congruence|done|].
    specialize (Hlow n A Hlt). congruence. }
  destruct Em as [-> Hst]. exists s'. split; [done|]. split; [done|].
  destruct Ho as (Ok & _ & _ & _ & _ & Hp'). pose proof (only_kp_u _ _ Ok) as Eu. destruct (Hp' p) as [En _].
  split_and!.
  - split.
    + by apply Hst.
    + intros k Hk Hlt. apply Hst in Hk. lia.
    + by rewrite Eu.
    + done.
    + unfold issig in Hr. rewrite bind_gets in Hr. by eapply issig_loop_sig16.
    + transitivity (fset (p_flag (nosig (proc_at s' p))) STRC); [done|]. by rewrite En.
  - destruct (fsig_spec (proc_at s' p)) as [[_ Hz]|[Hp Hmin]].
    + destruct (Hz n). by apply Hst.
    + apply Hst in Hp as [_ Hle]. specialize (Hmin n). rewrite Hst in Hmin. specialize (Hmin ltac:(split; [done|lia])). lia.
  - done.
Qed.

Section Signalled.
Context `{Layout} `{Cdevsw} `{SavedRegs}.

(** ** Taking it *)

(** The process took signal [n] in handler [h]; the registers it was
    interrupted with were [f]. *)
Record entered (n h : Z) (f : regname -> Z) (s s' : kst) : Prop := {
  en_frame : mem_read (umem s') (u32 (f R6) - 10) 10 = be 4 h ++ be 2 n ++ be 4 (f PC);
  en_mem : forall pg a, pg <> user_page s \/ a < u32 (f R6) - 10 \/ u32 (f R6) <= a -> upmem (ku s') pg a = upmem (ku s) pg a;
  en_user : upick (u s') = (Some (handler_regs (u_sigtramp (u s)) f), u_sigtramp (u s), u_procp (u s), 0, caught n (u_signal (u s)));
  en_pending : forall m, pending (proc_at s' (curproc s)) m <-> pending (proc_at s (curproc s)) m /\ n < m;
  en_proc : nosig (proc_at s' (curproc s)) = nosig (proc_at s (curproc s));
  en_others : forall q, q <> curproc s -> proc_at s' q = proc_at s q;
  en_rest : kb s' = kb s /\ kf s' = kf s /\ kx s' = kx s /\ kguard (ku s') = kguard (ku s)
}.

Lemma entered_curproc n h f s s' : entered n h f s s' -> curproc s' = curproc s.
Proof. intros [_ _ U _ _ _ _]. unfold upick in U. unfold curproc. congruence. Qed.

(** [if (issig()) psig();] *)
Lemma signal_taken n h f e s : next_caught n h s (curproc s) -> u_ar0 (u s) = Some f -> 10 <= u32 (f R6) <= USER_PAGE_SIZE ->
  exists s', (n ← issig; when (negb (n =? 0)) psig) e s = Ret tt e s' /\ entered n h f s s'.
Proof.
  intros Hn Hf Hsp. destruct (issig_next _ _ e s Hn) as (s1 & Hr & (Ok & _ & _ & _ & _ & Hp) & N1 & Hfs & Hst).
  pose proof (only_kp_u _ _ Ok) as Eu. assert (Ec : curproc s1 = curproc s) by (unfold curproc; by rewrite Eu).
  destruct N1 as [[A A'] _ C [D _] _ F]. destruct Ok as (Ku & Kb & Kf & _ & _ & _ & _ & Kx).
  destruct (psig_handled n h f e s1) as (s2 & Hr2 & [Fr Me U P Q (B & K & X & G)]); rewrite ?Ec; [done|lia|done|done|done|by rewrite Eu|done|].
  exists s2. split; [rewrite (bind_ret _ _ _ _ _ _ _ Hr), (proj2 (Z.eqb_neq _ _)) by lia; exact Hr2|].
  rewrite Ec in P, Q. rewrite Ku, Eu in *. assert (Epg : user_page s1 = user_page s).
  { unfold user_page. rewrite Ec. destruct (Hp (curproc s)) as [E _]. f_equal. transitivity (p_addr (nosig (proc_at s1 (curproc s)))); [done|by rewrite E]. }
  split; try done.
  - intros pg a Ha. apply Me. by rewrite Epg.
  - intros m. pose proof (taken_pending n s1 s2) as T. cbv zeta in T. rewrite Ec in T. rewrite T, Hst by (first [done|lia]). split; intros; split_and!; try tauto; lia.
  - rewrite P. destruct (Hp (curproc s)) as [<- _]. by destruct (proc_at s1 (curproc s)).
  - intros q Hq. rewrite Q by done. by apply Hp.
  - split_and!; congruence.
Qed.

Lemma signal_taken_bind {A} n h f (k : M A) e s : next_caught n h s (curproc s) -> u_ar0 (u s) = Some f -> 10 <= u32 (f R6) <= USER_PAGE_SIZE ->
  exists s', (n ← issig; _ ← when (negb (n =? 0)) psig; k) e s = k e s' /\ entered n h f s s'.
Proof.
  intros N Hf Hsp. destruct (signal_taken n h f e s N Hf Hsp) as (s' & Hr & En). exists s'. split; [|done].
  transitivity (((n ← issig; when (negb (n =? 0)) psig) ≫= fun _ => k) e s); [by rewrite bind_assoc|]. by rewrite (bind_ret _ _ _ _ _ _ _ Hr).
Qed.

(** ** At a clock interrupt *)

Lemma be_i32 v : be 4 (i32 v) = be 4 v.
Proof. rewrite <- (be_u32 (i32 v)), swrap_uwrap by lia. apply be_u32. Qed.

(** What the trap handlers take back. *)
Definition xpick (x : xstate) := (trap_d1 x, trap_pc x, trap_usp x, trap_sr x).

Lemma uwrap_uwrap w x : 0 <= w -> uwrap w (uwrap w x) = uwrap w x.
Proof. intros. apply uwrap_id, uwrap_range. done. Qed.

Lemma handler_pc t f : u32 (handler_regs t f PC) = u32 t.
Proof. unfold handler_regs. rewrite fn_lookup_insert. by rewrite swrap_uwrap, uwrap_uwrap by lia. Qed.
Lemma handler_sp t f : 10 <= u32 (f R6) -> u32 (handler_regs t f R6) = u32 (f R6) - 10.
Proof.
  intros Hs. unfold handler_regs. rewrite !fn_lookup_insert_ne by done. rewrite fn_lookup_insert, swrap_uwrap by lia.
  pose proof (uwrap_range 32 (f R6) ltac:(lia)). apply u32_id. lia.
Qed.
Lemma handler_ps t f : handler_regs t f RPS = fclr (f RPS) (Z.lor TBIT SUPERVISOR).
Proof. unfold handler_regs. rewrite fn_lookup_insert_ne by done. by rewrite fn_lookup_insert. Qed.

Lemma usermode_cleared x : USERMODE (u16 (fclr x SUPERVISOR)) = true.
Proof.
  unfold USERMODE, fset. apply negb_true_iff, negb_false_iff, Z.eqb_eq. apply Z.bits_inj'. intros j Hj.
  rewrite Z.land_spec, Z.testbit_0_l. change 8192 with (2 ^ 13). rewrite Z.pow2_bits_eqb by lia.
  destruct (Z.eqb_spec 13 j) as [<-|]; [|apply andb_false_r]. unfold uwrap. rewrite Z.mod_pow2_bits_low by lia. by rewrite testbit_fclr, andb_false_r by lia.
Qed.

(** The state after an update of the saved user registers alone. *)
Lemma ar0_same f n h s s0 : s = upd_u (fun y => y <| u_ar0 := Some f |>) s0 -> next_caught n h s0 (curproc s0) ->
  curproc s = curproc s0 /\ u_ar0 (u s) = Some f /\ u_sigtramp (u s) = u_sigtramp (u s0) /\ u_signal (u s) = u_signal (u s0) /\ next_caught n h s (curproc s).
Proof.
  intros -> N. set (s := upd_u _ s0). assert (Eu : u s = u s0 <| u_ar0 := Some f |>) by (unfold s; by rewrite u_upd_u).
  assert (Ec : curproc s = curproc s0) by (unfold curproc; by rewrite Eu). split_and!; try (by rewrite Eu); [done|].
  rewrite Ec. apply next_caught_same with s0; [by rewrite Eu|done|done].
Qed.

(** C38. A process that computes without calling the system is stopped by the
    next clock interrupt after a signal it catches is posted: the interrupt
    returns into the trampoline with the frame of the handler on the user's
    stack, in user mode, with the signal taken, the registers saved by an
    outer trap in place, and nothing else of the process or of any other
    changed. *)
Theorem clock_signals_deliver n h sr pc usp e s : let p := curproc s in
  next_caught n h s p -> USERMODE sr = true -> p_stat (proc_at s p) <> SZOMB -> 10 <= usp <= USER_PAGE_SIZE ->
  exists s', clock_signals sr pc usp e s = Ret tt e s' /\
    clk_pc (kx s') = u32 (u_sigtramp (u s)) /\ clk_usp (kx s') = usp - 10 /\ USERMODE (clk_sr (kx s')) = true /\
    mem_read (umem s') (usp - 10) 10 = be 4 h ++ be 2 n ++ be 4 pc /\
    (forall pg a, pg <> user_page s \/ a < usp - 10 \/ usp <= a -> upmem (ku s') pg a = upmem (ku s) pg a) /\
    (forall m, pending (proc_at s' p) m <-> pending (proc_at s p) m /\ n < m) /\
    u_signal (u s') = caught n (u_signal (u s)) /\ u_ar0 (u s') = u_ar0 (u s) /\
    (forall q, q <> p -> proc_at s' q = proc_at s q).
Proof.
  cbv zeta. intros N Hm Hz Hsp. unfold clock_signals. rewrite !bind_modify, !bind_gets.
  set (s0 := _ <| kx; clk_usp := usp |>). change (proc_at s0 (curproc s0)) with (proc_at s (curproc s)).
  rewrite Hm, (proj2 (Z.eqb_neq _ _) Hz). cbn [negb orb]. rewrite bind_gets, bind_modify. set (f := trap_regs usp sr pc). set (s1 := upd_u _ s0).
  assert (N0 : next_caught n h s0 (curproc s0)) by (by apply next_caught_same with s).
  destruct (ar0_same f n h s1 s0 eq_refl N0) as (Ec & Ea & Et & Eg & N1).
  assert (Esp : u32 (f R6) = usp) by (unfold f, trap_regs; rewrite swrap_uwrap by lia; apply u32_id; unfold USER_PAGE_SIZE in *; lia).
  destruct (signal_taken_bind n h f (ps ← get_reg RPS;
    _ ← modify (fun s => s <| kx; clk_sr := u16 (fclr ps SUPERVISOR) |>); pc ← get_reg PC;
    _ ← modify (fun s => s <| kx; clk_pc := u32 pc |>); sp ← get_reg R6;
    _ ← modify (fun s => s <| kx; clk_usp := u32 sp |>); modify (upd_u (fun y => y <| u_ar0 := u_ar0 (u s0) |>))) e s1 N1 Ea) as (s2 & Hr & En); [by rewrite Esp|].
  rewrite Hr. pose proof (entered_curproc _ _ _ _ _ En) as Ec2. destruct En as [Fr Me U Pe _ Q _]. unfold upick in U. injection U as U1 U2 U3 U4 U5.
  rewrite (bind_ret _ _ _ _ _ _ _ (get_reg_run RPS _ e s2 U1)), bind_modify. set (s3 := _ <| kx; clk_sr := _ |>).
  rewrite (bind_ret _ _ _ _ _ _ _ (get_reg_run PC _ e s3 U1)), bind_modify. set (s4 := _ <| kx; clk_pc := _ |>).
  rewrite (bind_ret _ _ _ _ _ _ _ (get_reg_run R6 _ e s4 U1)), bind_modify, run_modify. set (s5 := upd_u _ _). exists s5.
  rewrite Esp in Fr, Me. assert (Eu : u s5 = u s2 <| u_ar0 := u_ar0 (u s0) |>) by (unfold s5; by rewrite u_upd_u).
  assert (Ec5 : curproc s5 = curproc s2) by (unfold curproc; by rewrite Eu).
  assert (Ep5 : user_page s5 = user_page s2) by (unfold user_page; rewrite Ec5; done).
  assert (Em5 : umem s5 = umem s2) by (unfold umem; rewrite Ep5; done).
  assert (Ep1 : user_page s1 = user_page s) by (unfold user_page; by rewrite Ec).
  split_and!.
  - done.
  - change (u32 (handler_regs (u_sigtramp (u s1)) f PC) = u32 (u_sigtramp (u s))). by rewrite handler_pc, Et.
  - change (u32 (handler_regs (u_sigtramp (u s1)) f R6) = usp - 10). rewrite handler_sp, Esp by lia. done.
  - change (USERMODE (u16 (fclr (handler_regs (u_sigtramp (u s1)) f RPS) SUPERVISOR)) = true). apply usermode_cleared.
  - rewrite Em5, Fr. do 2 f_equal. apply be_i32.
  - intros pg a Ha. change (upmem (ku s2) pg a = upmem (ku s) pg a). apply Me. by rewrite Ep1.
  - intros m. change (proc_at s5) with (proc_at s2). rewrite Ec in Pe. exact (Pe m).
  - rewrite Eu. change (u_signal (u s2) = caught n (u_signal (u s))). by rewrite U5, Eg.
  - by rewrite Eu.
  - intros q Hq. change (proc_at s2 q = proc_at s1 q). apply Q. by rewrite Ec.
Qed.

(** ** In a system call *)

(** The process was woken by signal [n] before it slept. *)
Record woken (n h : Z) (s s' : kst) : Prop := {
  wk_ku : ku s' = ku s;
  wk_rest : kb s' = kb s /\ kf s' = kf s /\ kx s' = kx s;
  wk_next : next_caught n h s' (curproc s);
  wk_pending : forall m, pending (proc_at s' (curproc s)) m <-> pending (proc_at s (curproc s)) m /\ n <= m;
  wk_proc : p_stat (proc_at s' (curproc s)) = SRUN /\ p_addr (proc_at s' (curproc s)) = p_addr (proc_at s (curproc s));
  wk_others : forall q, q <> curproc s -> proc_at s' q = proc_at s q
}.

Lemma sleep_caught c pri n h e s : next_caught n h s (curproc s) -> PZERO < pri ->
  exists s', sleep c pri e s = Stop (Longjmp e) s' /\ woken n h s s'.
Proof.
  intros N Hp. rewrite sleep_int_start by done. set (me := curproc s) in *. set (s1 := slept c pri s <| kipl := 6 |>).
  destruct (slept_proc c pri s) as [E1 E2]. fold me in E1, E2. change (proc_at (slept c pri s)) with (proc_at s1) in E1, E2.
  assert (N1 : next_caught n h s1 me) by (apply next_caught_same with s; [done|by rewrite E1|done]).
  destruct (issig_next n h e s1 N1) as (s2 & Hr & (Ok & _ & _ & _ & _ & Hq) & N2 & _ & Hst). change (curproc s1) with me in *.
  pose proof (nc_pending _ _ _ _ N1) as [Hn _]. rewrite (bind_ret _ _ _ _ _ _ _ Hr), (proj2 (Z.eqb_neq _ _)) by lia. cbn [negb].
  rewrite !bind_modify. unfold spl0. rewrite bind_spl. set (s3 := upd_proc me _ s2). eexists. split; [reflexivity|]. set (s4 := _ <| kipl := 0 |>).
  pose proof (only_kp_u _ _ Ok) as Eu2. destruct Ok as (Ku & Kb & Kf & _ & _ & _ & _ & Kx).
  assert (E4 : proc_at s4 = proc_at s3) by done.
  assert (E3 : proc_at s3 me = proc_at s2 me <| p_wchan := None |> <| p_stat := SRUN |>) by (unfold s3; by rewrite proc_upd_same).
  assert (Ea : p_addr (proc_at s2 me) = p_addr (proc_at s me)).
  { transitivity (p_addr (nosig (proc_at s2 me))); [done|]. destruct (Hq me) as [-> _]. by rewrite E1. }
  assert (Epk : ppick (proc_at s4 me) = ppick (proc_at s2 me)) by (rewrite E4, E3; done).
  split.
  - exact Ku.
  - split_and!; [exact Kb|exact Kf|exact Kx].
  - apply next_caught_same with s2; done.
  - intros m. assert (Hm : pending (proc_at s4 me) m <-> pending (proc_at s2 me) m).
    { unfold ppick in Epk. injection Epk as Es _. unfold pending. by rewrite Es. }
    fold me. rewrite Hm, Hst. unfold pending. by rewrite E1.
  - fold me. rewrite E4, E3. split; [done|exact Ea].
  - fold me. intros q Hne. rewrite E4. unfold s3. rewrite proc_upd_ne by congruence. destruct (Hq q) as [_ ->]; [|done]. by apply E2.
Qed.

(** Process [p] runs on its own slot, page and kernel stack. *)
Record current (s : kst) (p : nat) : Prop := {
  cu_slot : (p < NPROC)%nat;
  cu_guard : kguard (ku s) p = true;
  cu_page : p = 0%nat \/ (uarrp (ku s) = p /\ p_addr (proc_at s p) = syspage (ku s))
}.

(** At most the warning of [epoch68_heap_stack_would_collide] and the saved
    stack pointers of the processes differ. *)
Record xonly (s s' : kst) : Prop := {
  xo_kp : kp s' = kp s;
  xo_ku : ku s' = ku s;
  xo_rest : kb s' = kb s /\ kf s' = kf s;
  xo_kx : xpick (kx s') = xpick (kx s)
}.

Lemma check_stack_ok e s : kguard (ku s) (curproc s) = true -> check_current_kernel_stack e s = Ret tt e s.
Proof. intros B. unfold check_current_kernel_stack. rewrite !bind_gets, B, andb_false_r. done. Qed.

Lemma sync_ok e s : current s (curproc s) -> sync_current_from_page e s = Ret tt e s.
Proof.
  intros [A _ C]. unfold sync_current_from_page. rewrite !bind_gets. destruct (Nat.eqb_spec (curproc s) 0) as [E|E]; [done|].
  cbn [orb]. destruct (_ =? SZOMB); [done|]. rewrite (proj2 (Nat.leb_gt _ _)) by done. rewrite !bind_gets.
  destruct C as [?|[-> ->]]; [done|]. by rewrite Nat.eqb_refl, Z.eqb_refl.
Qed.

Lemma check_heap_ok {A} (k : M A) usp e s : exists s', (_ ← check_heap_stack usp; k) e s = k e s' /\ xonly s s'.
Proof.
  unfold check_heap_stack, heap_stack_would_collide. rewrite bind_assoc, bind_gets, bind_assoc.
  destruct (usp =? 0); [rewrite !bind_mret; by exists s|]. destruct (_ && _); [rewrite !bind_mret; by exists s|].
  rewrite bind_assoc, bind_modify, !bind_mret. eexists. by split.
Qed.

Lemma save_usp_ok {A} (k : M A) usp e s : (curproc s < NPROC)%nat -> exists s', (_ ← save_current_usp usp; k) e s = k e s' /\ xonly s s'.
Proof.
  intros Hp. unfold save_current_usp. rewrite bind_assoc, bind_gets, (proj2 (Nat.leb_gt _ _)) by done. rewrite bind_modify. eexists. by split.
Qed.

(** The record of the call. *)
Record called (d1 usp sr pc : Z) (s s' : kst) : Prop := {
  cl_kp : kp s' = kp s;
  cl_user : u s' = u s <| u_arg := [] |> <| u_dirp := UA 0 |> <| u_ar0 := Some (trap_regs usp sr pc) |> <| u_error := 0 |>;
  cl_ku : upmem (ku s') = upmem (ku s) /\ kguard (ku s') = kguard (ku s) /\ uarrp (ku s') = uarrp (ku s) /\ syspage (ku s') = syspage (ku s);
  cl_rest : kb s' = kb s /\ kf s' = kf s;
  cl_d1 : trap_d1 (kx s') = d1
}.

Lemma xonly_trans s1 s2 s3 : xonly s1 s2 -> xonly s2 s3 -> xonly s1 s3.
Proof. intros [A B [C D] E] [A' B' [C' D'] E']. split; [congruence|congruence|split; congruence|congruence]. Qed.

Lemma trap_enter_ok d1 usp sr pc regs e s : current s (curproc s) ->
  exists s', trap_enter d1 usp sr pc regs e s = Ret tt e s' /\ called d1 usp sr pc s s'.
Proof.
  intros Hc. unfold trap_enter. rewrite (bind_ret _ _ _ _ _ _ _ (sync_ok e s Hc)). unfold set_d1. rewrite bind_modify. set (s1 := _ <| kx; trap_d1 := _ |>).
  assert (Hc1 : current s1 (curproc s1)) by (destruct Hc; by split). rewrite (bind_ret _ _ _ _ _ _ _ (check_stack_ok e s1 (cu_guard _ _ Hc1))).
  edestruct (@save_usp_ok unit) as (s2 & -> & X2); [exact (cu_slot _ _ Hc1)|]. edestruct (@check_heap_ok unit) as (s3 & -> & X3).
  destruct (xonly_trans _ _ _ X2 X3) as [Kp Ku [Kb Kf] Kx]. rewrite !bind_modify. unfold seterror. rewrite run_modify. eexists. split; [done|].
  set (s4 := upd_u _ s3). set (s5 := _ <| ku; fork_regs := regs |>). set (s6 := upd_u _ s5).
  assert (Eu : u s4 = u s <| u_arg := [] |> <| u_dirp := UA 0 |> <| u_ar0 := Some (trap_regs usp sr pc) |>).
  { unfold s4. rewrite u_upd_u. replace (u s3) with (u s); [done|]. unfold u. by rewrite Ku. }
  split.
  - exact Kp.
  - unfold s6. rewrite u_upd_u. change (u s5) with (u s4). rewrite Eu. done.
  - change (upmem (ku s3) = upmem (ku s) /\ kguard (ku s3) = kguard (ku s) /\ uarrp (ku s3) = uarrp (ku s) /\ syspage (ku s3) = syspage (ku s)). by rewrite Ku.
  - done.
  - change (trap_d1 (kx s3) = d1). by injection Kx.
Qed.

(** The trap returns into the trampoline: the frame of handler [h] for signal
    [n] is under the stack pointer [sp]. *)
Record resumed (n h sp pc : Z) (s s' : kst) : Prop := {
  rs_pc : trap_pc (kx s') = u32 (u_sigtramp (u s));
  rs_usp : trap_usp (kx s') = sp - 10;
  rs_sr : USERMODE (trap_sr (kx s')) = true;
  rs_frame : mem_read (upmem (ku s') (user_page s)) (sp - 10) 10 = be 4 h ++ be 2 n ++ be 4 pc;
  rs_mem : forall pg a, pg <> user_page s \/ a < sp - 10 \/ sp <= a -> upmem (ku s') pg a = upmem (ku s) pg a;
  rs_pending : forall m, pending (proc_at s' (curproc s)) m <-> pending (proc_at s (curproc s)) m /\ n < m;
  rs_signal : u_signal (u s') = caught n (u_signal (u s));
  rs_others : forall q, q <> curproc s -> proc_at s' q = proc_at s q
}.

(** The priority of the process and nothing else. *)
Lemma setpri_ok p e s : exists v s', setpri p e s = Ret v e s' /\ ku s' = ku s /\ kb s' = kb s /\ kf s' = kf s /\ kx s' = kx s /\
  ppick (proc_at s' p) = ppick (proc_at s p) /\ forall q, q <> p -> proc_at s' q = proc_at s q.
Proof.
  unfold setpri. rewrite !bind_gets. set (v := if _ : bool then 127 else _). assert (G : forall s1, kp s1 = kp s \/ procs (kp s1) = procs (kp s) ->
    ku s1 = ku s -> kb s1 = kb s -> kf s1 = kf s -> kx s1 = kx s -> exists w s', (_ ← modify (upd_proc p (fun x => x <| p_pri := i8 v |>)); mret v) e s1 = Ret w e s' /\
    ku s' = ku s /\ kb s' = kb s /\ kf s' = kf s /\ kx s' = kx s /\ ppick (proc_at s' p) = ppick (proc_at s p) /\ forall q, q <> p -> proc_at s' q = proc_at s q).
  { intros s1 Kp Ku Kb Kf Kx. rewrite bind_modify. eexists _, _. split; [done|]. assert (Ep : forall q, proc_at s1 q = proc_at s q) by (intros; unfold proc_at; destruct Kp as [Kp|Kp]; by rewrite Kp).
    split_and!; try done; [rewrite proc_upd_same, Ep; done|]. intros q Hq. by rewrite proc_upd_ne, Ep. }
  unfold when. destruct (v <? curpri (kp s)); [rewrite bind_modify; apply G; auto|rewrite bind_mret; apply G; auto].
Qed.

Lemma return_regs_ok {A} (k : M A) f e s : u_ar0 (u s) = Some f -> exists s', (_ ← return_regs; k) e s = k e s' /\
  kp s' = kp s /\ ku s' = ku s /\ kb s' = kb s /\ kf s' = kf s /\ xpick (kx s') = (trap_d1 (kx s), u32 (f PC), u32 (f R6), u16 (fclr (f RPS) SUPERVISOR)).
Proof.
  intros Hf. unfold return_regs. rewrite bind_assoc, (bind_ret _ _ _ _ _ _ _ (get_reg_run PC f e s Hf)), bind_assoc, bind_modify. set (s1 := _ <| kx; trap_pc := _ |>).
  rewrite bind_assoc, (bind_ret _ _ _ _ _ _ _ (get_reg_run R6 f e s1 Hf)), bind_assoc, bind_modify. set (s2 := _ <| kx; trap_usp := _ |>).
  rewrite bind_assoc, (bind_ret _ _ _ _ _ _ _ (get_reg_run RPS f e s2 Hf)), bind_modify. eexists. by split.
Qed.

Lemma trap_leave_caught rv n h f e s : let p := curproc s in rv <> TRAP_EXECED -> next_caught n h s p -> p_stat (proc_at s p) = SRUN ->
  (p < NPROC)%nat -> u_ar0 (u s) = Some f -> 10 <= u32 (f R6) <= USER_PAGE_SIZE ->
  exists s', trap_leave rv e s = Ret rv e s' /\ resumed n h (u32 (f R6)) (f PC) s s' /\ trap_d1 (kx s') = trap_d1 (kx s) /\
    kguard (ku s') = kguard (ku s) /\ curproc s' = curproc s.
Proof.
  cbv zeta. intros Hrv N Hst Hsl Hf Hsp. set (p := curproc s) in *. unfold trap_leave, deliver. rewrite bind_assoc, bind_gets. fold p.
  rewrite Hst. change (SRUN =? SZOMB) with false. cbv iota.
  destruct (signal_taken n h f e s N Hf Hsp) as (s1 & Hr & En). rewrite (bind_ret _ _ _ _ _ _ _ Hr). pose proof (entered_curproc _ _ _ _ _ En) as Ec1.
  destruct En as [Fr Me U Pe Pr Q (_ & _ & X & G)]. fold p in Pe, Pr, Q, Ec1. rewrite !bind_gets, Ec1.
  assert (Hp1 : forall (B : Type) (g : proc -> B), (forall x, g (nosig x) = g x) -> g (proc_at s1 p) = g (proc_at s p)).
  { intros B g Hg. rewrite <- (Hg (proc_at s1 p)), Pr. apply Hg. }
  rewrite (Hp1 _ p_stat) by done. rewrite Hst. change (SRUN =? SRUN) with true. cbn [when]. rewrite bind_assoc.
  destruct (setpri_ok p e s1) as (v & s2 & Hs2 & Ku2 & _ & _ & Kx2 & Pp2 & Q2). rewrite (bind_ret _ _ _ _ _ _ _ Hs2), bind_modify. set (s3 := _ <| kp; curpri := _ |>).
  rewrite (proj2 (Z.eqb_neq _ _) Hrv). unfold upick in U. injection U as U1 U2 U3 U4 U5.
  assert (Eu3 : u s3 = u s1) by (unfold u; change (ku s3) with (ku s2); by rewrite Ku2).
  rewrite bind_assoc. edestruct (@return_regs_ok Z) as (s4 & -> & Kp4 & Ku4 & _ & _ & Kx4); [rewrite Eu3; exact U1|]. rewrite bind_assoc, bind_gets.
  assert (Eu4 : u s4 = u s1) by (unfold u; rewrite Ku4; done). assert (Ec4 : curproc s4 = p) by (unfold curproc; rewrite Eu4; exact Ec1).
  edestruct (@save_usp_ok Z) as (s5 & -> & X5); [by rewrite Ec4|]. rewrite bind_gets. edestruct (@check_heap_ok Z) as (s6 & -> & X6).
  destruct (xonly_trans _ _ _ X5 X6) as [Kp6 Ku6 _ Kx6]. rewrite Kx4 in Kx6. unfold xpick in Kx6. injection Kx6 as D1 D2 D3 D4.
  change (ku s3) with (ku s2) in Ku4. rewrite Ku4, Ku2 in Ku6. exists s6.
  assert (Epr : forall q, proc_at s6 q = proc_at s2 q) by (intros q; unfold proc_at; by rewrite Kp6, Kp4).
  assert (Eu6 : u s6 = u s1) by (unfold u; by rewrite Ku6).
  assert (Epg : user_page s1 = user_page s) by (unfold user_page; rewrite Ec1; fold p; f_equal; apply (Hp1 _ p_addr); done).
  split; [done|]. split; [|split_and!; [by rewrite D1; change (kx s3) with (kx s2); rewrite Kx2, X|by rewrite Ku6|unfold curproc; by rewrite Eu6]].
  split.
  - by rewrite D2, handler_pc.
  - rewrite D3, handler_sp by lia. done.
  - rewrite D4. apply usermode_cleared.
  - rewrite Ku6, <- Epg. exact Fr.
  - intros pg a Ha. rewrite Ku6. by apply Me.
  - intros m. fold p. rewrite Epr, <- (Pe m). unfold ppick in Pp2. injection Pp2 as Es _. unfold pending. by rewrite Es.
  - by rewrite Eu6, U5.
  - intros q Hq. fold p in Hq. by rewrite Epr, Q2, Q.
Qed.

Lemma bind_stop {A B} (m : M A) (k : A -> M B) e s w s' : m e s = Stop w s' -> (m ≫= k) e s = Stop w s'.
Proof. intros E. unfold mbind, m_bind. by rewrite E. Qed.

Lemma catch_longjmp m again e s e' s' : m e s = Stop (Longjmp e') s' -> catch_qsav m again e s = again e' s'.
Proof. intros E. unfold catch_qsav. by rewrite E. Qed.

Lemma pause_caught n h e s : next_caught n h s (curproc s) -> exists s', pause e s = Stop (Longjmp e) s' /\ woken n h s s'.
Proof.
  intros N. destruct (sleep_caught (ChU (uarrp (ku s))) PSLEP n h e s N ltac:(unfold PZERO, PSLEP; lia)) as (s' & Hr & W).
  exists s'. split; [|done]. unfold pause. rewrite bind_gets. unfold sleep_while. cbn [sleep_while_f]. rewrite bind_gets, bind_modify.
  change (id s) with s. by apply bind_stop.
Qed.

Lemma interrupted_ok e s : u_error (u s) = 0 -> exists s', trap_interrupted e s = Ret (- EINTR) e s' /\ u s' = u s <| u_error := EINTR |> /\
  kp s' = kp s /\ upmem (ku s') = upmem (ku s) /\ kguard (ku s') = kguard (ku s) /\ kx s' = kx s.
Proof.
  intros E. unfold trap_interrupted. rewrite bind_gets. change (uerror s) with (u_error (u s)). rewrite E. change (0 =? 0) with true. unfold when. unfold seterror. rewrite bind_modify, bind_gets.
  eexists. split; [|split; [apply u_upd_u|done]]. unfold uerror. rewrite u_upd_u. done.
Qed.

(** C11. A process that waits in [pause] with a signal pending that it catches
    does not sleep: the call fails with [EINTR] and returns into the
    trampoline, in user mode, with the frame of the handler of its lowest
    signal on the user's stack.  That signal and the ignored ones before it
    are no longer pending, the others are, and no other process is touched. *)
Theorem pause_interrupted n h d1 d2 a0 a1 usp sr pc regs e s : let p := curproc s in
  current s p -> next_caught n h s p -> 10 <= usp <= USER_PAGE_SIZE ->
  exists s', trap_syscall 29 d1 d2 a0 a1 usp sr pc regs e s = Ret (- EINTR) e s' /\ resumed n h usp pc s s' /\
    trap_d1 (kx s') = d1 /\ u_ar0 (u s') = u_ar0 (u s).
Proof.
  cbv zeta. intros Hc N Hsp. unfold trap_syscall. rewrite bind_gets.
  destruct (trap_enter_ok d1 usp sr pc regs e s Hc) as (s1 & Hr1 & [Kp Eu (Km & Kg & Ku & Ks) _ Kd]). rewrite (bind_ret _ _ _ _ _ _ _ Hr1).
  set (p := curproc s) in *. assert (Ec1 : curproc s1 = p) by (unfold curproc; by rewrite Eu).
  assert (Epr : forall q, proc_at s1 q = proc_at s q) by (intros; unfold proc_at; by rewrite Kp).
  assert (Hc1 : current s1 (curproc s1)) by (rewrite Ec1; destruct Hc as [A B C]; split; [done|by rewrite Kg|by rewrite Ku, Ks, Epr]).
  assert (N1 : next_caught n h s1 (curproc s1)) by (rewrite Ec1; apply next_caught_same with s; [by rewrite Eu|by rewrite Epr|done]).
  set (f := trap_regs usp sr pc) in *. assert (Esp : u32 (f R6) = usp) by (unfold f, trap_regs; rewrite swrap_uwrap by lia; apply u32_id; unfold USER_PAGE_SIZE in *; lia).
  destruct (pause_caught n h e s1 N1) as (s2 & Hs2 & [Wu (_ & _ & Wx) Wn Wp (Wst & Wa) Wo]). rewrite Ec1 in Wn, Wp, Wst, Wa, Wo.
  assert (Eu2 : u s2 = u s1) by (unfold u; by rewrite Wu).
  assert (Ec2 : curproc s2 = p) by (unfold curproc; by rewrite Eu2).
  destruct (interrupted_ok e s2) as (s3 & Hr3 & Eu3 & Kp3 & Km3 & Kg3 & Kx3); [rewrite Eu2, Eu; done|].
  assert (Ec3 : curproc s3 = p) by (unfold curproc; by rewrite Eu3). assert (E3 : forall q, proc_at s3 q = proc_at s2 q) by (intros; unfold proc_at; by rewrite Kp3).
  destruct (trap_leave_caught (- EINTR) n h f e s3) as (s4 & Hr4 & [R1 R2 R3 R4 R5 R6' R7 R8] & D4 & G4 & C4); rewrite ?Ec3, ?E3, ?Esp.
  { done. } { apply next_caught_same with s2; [by rewrite Eu3|by rewrite E3|done]. } { done. } { exact (cu_slot _ _ Hc). } { by rewrite Eu3, Eu2, Eu. } { done. }
  rewrite Ec3 in *. rewrite Esp in *. erewrite bind_ret; [|erewrite catch_longjmp; [|rewrite (bind_ret _ _ _ _ _ _ _ (sync_ok e s1 Hc1));
    change (trap_switch 29 d1 d2 a0 a1) with (sys_zero pause); apply bind_stop, bind_stop; exact Hs2]; rewrite (bind_ret _ _ _ _ _ _ _ Hr3); exact Hr4].
  rewrite bind_modify. set (s5 := upd_u _ s4).
  assert (Eu5 : u s5 = u s4 <| u_arg := u_arg (u s) |> <| u_ar0 := u_ar0 (u s) |> <| u_dirp := u_dirp (u s) |>) by (unfold s5; by rewrite u_upd_u).
  assert (Ec5 : curproc s5 = p) by (unfold curproc; rewrite Eu5; exact C4).
  rewrite (bind_ret _ _ _ _ _ _ _ (check_stack_ok e s5 ltac:(rewrite Ec5; change (kguard (ku s4) p = true); rewrite G4, Kg3, Wu, Kg; exact (cu_guard _ _ Hc)))).
  exists s5. assert (Epg : user_page s3 = user_page s) by (unfold user_page; rewrite Ec3, E3, Wa, Epr; done).
  assert (Em : upmem (ku s3) = upmem (ku s)) by (by rewrite Km3, Wu, Km).
  split; [done|]. split; [|split; [change (trap_d1 (kx s4) = d1); by rewrite D4, Kx3, Wx, Kd|by rewrite Eu5]]. split.
  - change (trap_pc (kx s4) = u32 (u_sigtramp (u s))). by rewrite R1, Eu3, Eu2, Eu.
  - exact R2.
  - exact R3.
  - rewrite <- Epg, <- (be_i32 pc). exact R4.
  - intros pg a Ha. change (upmem (ku s4) pg a = upmem (ku s) pg a). rewrite R5 by (by rewrite Epg). by rewrite Em.
  - intros m. fold p. change (proc_at s5) with (proc_at s4). rewrite R6', E3, Wp, Epr. split; intros; split_and!; try tauto; lia.
  - rewrite Eu5. change (u_signal (u s4) = caught n (u_signal (u s))). by rewrite R7, Eu3, Eu2, Eu.
  - intros q Hq. fold p in Hq. change (proc_at s4 q = proc_at s q). by rewrite R8, E3, Wo, Epr.
Qed.

End Signalled.

(** ** Examples *)

(** A process with a hangup and an interrupt pending, both caught. *)
#[local] Existing Instance ex_layout.
#[local] Existing Instance ex_cdevsw.
#[local] Existing Instance ex_saved.

Lemma ex_next : next_caught 1 8192 (ex_signalled 262144) 0.
Proof.
  split; [done|intros m [? _] ?; lia|done|done| |done]. by vm_compute.
Qed.

Lemma clock_signals_deliver_witness : exists s', clock_signals 0 4660 262144 [] (ex_signalled 262144) = Ret tt [] s' /\
  clk_pc (kx s') = 4096 /\ pending (proc_at s' 0) 2.
Proof.
  destruct (clock_signals_deliver 1 8192 0 4660 262144 [] (ex_signalled 262144) ex_next) as (s' & Hr & Hp & _ & _ & _ & _ & Hq & _);
    [done|done|by vm_compute|].
  exists s'. split; [exact Hr|]. split; [exact Hp|]. apply (Hq 2). by repeat split.
Defined.

Lemma pause_interrupted_witness : exists s', trap_syscall 29 7 0 0 0 262144 0 4660 None [] (ex_signalled 262144) = Ret (- EINTR) [] s' /\
  trap_pc (kx s') = 4096 /\ trap_usp (kx s') = 262134.
Proof.
  destruct (pause_interrupted 1 8192 7 0 0 0 262144 0 4660 None [] (ex_signalled 262144)) as (s' & Hr & [Hp Hu _ _ _ _ _ _] & _).
  - split; [by apply (bool_decide_unpack _)|done|by left].
  - exact ex_next.
  - by vm_compute.
  - exists s'. split; [exact Hr|]. split; [exact Hp|exact Hu].
Defined.
