(* ===== verification/Canon.v ===== *)
(** Line editing: [canon] of [dev/tty.c] against what a person at the
    terminal means by the keys. *)
From S2P Require Import Prelude Malloc Clist Kernel Sched Codec Usermem Subr Uart Tty.

(** ** The keys and the line *)

(** A key of a line typed at a terminal whose erase, kill and end of file
    characters are [er], [ki] and [eo]: an ordinary character, one of the
    three, or the erase or kill character after a backslash. *)
Inductive key := KPlain (c : Z) | KErase | KKill | KEof | KQuoted (c : Z).

Section Keys.
Context (er ki eo : Z).

Definition typed (k : key) : list Z :=
  match k with KPlain c => [c] | KErase => [er] | KKill => [ki] | KEof => [eo] | KQuoted c => [BACKSLASH; c] end.

Definition press (line : list Z) (k : key) : list Z :=
  match k with
  | KPlain c | KQuoted c => line ++ [c]
  | KErase => removelast line
  | KKill => []
  | KEof => line
  end.

Definition edited : list key -> list Z -> list Z := fold_left press.

Definition key_ok (k : key) : Prop :=
  match k with
  | KPlain c => 0 <= c < 255 /\ c <> BACKSLASH /\ c <> er /\ c <> ki /\ c <> eo
  | KQuoted c => c = er \/ c = ki
  | _ => True
  end.

(** The special characters are different ASCII characters, and no backslash. *)
Record specials : Prop := {
  sp_er : 0 < er < 128 /\ er <> BACKSLASH;
  sp_ki : 0 < ki < 128 /\ ki <> BACKSLASH /\ ki <> er;
  sp_eo : 0 < eo < 128 /\ eo <> BACKSLASH /\ eo <> er /\ eo <> ki
}.
End Keys.

Lemma rev_removelast {A} (l : list A) : rev (removelast l) = tail (rev l).
Proof. induction l as [|x l _] using rev_ind; [done|]. by rewrite removelast_last, rev_app_distr. Qed.

(** ** Taking a character off the raw queue *)

(** What of a terminal does not change while a line is gathered. *)
Definition tpick (x : tty) := (t_flags x, t_erase x, t_kill x, t_eofc x, t_state x, t_delct x, t_canq x, t_outq x).

(** The raw queue of terminal [t], number [i] of the queues [qs], holds [l]. *)
Definition raw_holds (qs : list (clist * list Z)) (i t : nat) (l : list Z) (s : kst) : Prop :=
  world (clists (kt s)) qs /\ qs !! i = Some (t_rawq (tty_at s t), l).

Definition raw_taken (qs : list (clist * list Z)) (i t : nat) (l : list Z) (s s' : kst) : Prop :=
  raw_holds (<[i := (t_rawq (tty_at s' t), l)]> qs) i t l s' /\ tpick (tty_at s' t) = tpick (tty_at s t).

Lemma raw_taken_trans qs i t l1 l2 s s1 s2 :
  raw_taken qs i t l1 s s1 -> raw_taken (<[i := (t_rawq (tty_at s1 t), l1)]> qs) i t l2 s1 s2 -> raw_taken qs i t l2 s s2.
Proof.
  intros [_ P1] [H2 P2]. rewrite list_insert_insert_eq in H2. split; [done|congruence].
Qed.

Lemma tgetc_raw qs i t c l e s : raw_holds qs i t (c :: l) s -> exists s', tgetc t_rawq t e s = Ret c e s' /\ raw_taken qs i t l s s'.
Proof.
  intros [Hw Hi]. destruct (tgetc_ok t_rawq (fun x v => ltac:(done)) qs i t _ e s Hw Hi) as (s' & v & Hg & Et & Hw' & _). exists s'. split; [exact Hg|].
  unfold raw_taken, raw_holds. rewrite Et. split; [|done]. split; [exact Hw'|]. apply list_lookup_insert_eq. by eapply lookup_lt_Some.
Qed.

(** ** One character *)

Section Line.
Context (er ki eo : Z) (Hsp : specials er ki eo).

(** The terminal edits lines with these characters. *)
Record edits (x : tty) : Prop := {
  ed_cooked : fset (t_flags x) (Z.lor RAW CBREAK) = false;
  ed_er : t_erase x = er;
  ed_ki : t_kill x = ki;
  ed_eo : t_eofc x = eo
}.

Lemma edits_same x y : tpick y = tpick x -> edits x -> edits y.
Proof. unfold tpick. intros [= E1 E2 E3 E4 _ _ _ _] [A B C D]. split; congruence. Qed.

Lemma canon_loop_char qs i t c l k acc r e s : raw_holds qs i t (c :: l) s -> edits (tty_at s t) -> 0 <= c < 255 ->
  (forall x s', edits x -> canon_char x c acc e s' = Ret r e s') ->
  (forall a, r = Some a -> Z.of_nat (length a) < CANBSIZ - 2) ->
  exists s', canon_loop (S k) t acc e s = canon_loop k t (default [] r) e s' /\ raw_taken qs i t l s s' /\ edits (tty_at s' t).
Proof.
  intros Hr He Hc Hcc Hfull. destruct (tgetc_raw qs i t c l e s Hr) as (s' & Hg & Ht). pose proof (edits_same _ _ (proj2 Ht) He) as He'.
  exists s'. split; [|done]. cbn [canon_loop]. rewrite (bind_ret _ _ _ _ _ _ _ Hg), (proj2 (Z.ltb_ge _ _)) by lia.
  rewrite bind_gets, (ed_cooked _ He'). cbn [negb]. rewrite (proj2 (Z.eqb_neq c CDELIM)) by (unfold CDELIM; lia).
  rewrite (bind_ret _ _ _ _ _ _ _ (Hcc _ s' He')). destruct r as [a|]; [|done]. cbn [from_option].
  rewrite (proj2 (Z.leb_gt _ _)) by (specialize (Hfull a eq_refl); lia). done.
Qed.

(** The characters of one key, after a line without backslashes at its end. *)
Lemma canon_char_plain x c acc e s : edits x -> hd 0 acc <> BACKSLASH ->
  canon_char x c acc e s = Ret (if c =? er then Some (tail acc) else if c =? ki then None else if c =? eo then Some acc else Some (c :: acc)) e s.
Proof.
  intros [_ E1 E2 E3] Hb. unfold canon_char. rewrite E1, E2, E3, (proj2 (Z.eqb_neq _ _) Hb). cbn [negb].
  repeat case_match; done.
Qed.

Lemma canon_char_quoted x c acc e s : edits x -> hd 0 acc <> BACKSLASH -> c = er \/ c = ki ->
  canon_char x c (BACKSLASH :: acc) e s = Ret (Some (c :: acc)) e s.
Proof.
  intros [_ E1 E2 _] Hb Hc. unfold canon_char. rewrite E1, E2. cbn [hd tail]. rewrite Z.eqb_refl. cbn [negb].
  assert (Hr : 0 < c < 128) by (destruct Hsp as [[? _] (? & _) _]; destruct Hc; subst; done).
  assert (is_Some (maptab !! Z.to_nat c)) as [m Hm] by (apply lookup_lt_is_Some_2; change (length maptab) with 128%nat; lia).
  erewrite bind_ret; [|by rewrite Hm]. assert (E : (c =? er) || (c =? ki) = true) by (destruct Hc; subst; by rewrite Z.eqb_refl, ?orb_true_r).
  rewrite E, Z.eqb_refl, (proj2 (Z.eqb_neq c 0)) by lia. cbn [negb andb orb].
  rewrite (proj2 (Z.eqb_neq _ _) Hb). done.
Qed.

(** No backslash stays in the line. *)
Definition clean (line : list Z) : Prop := BACKSLASH ∉ line.

Lemma clean_hd line : clean line -> hd 0 (rev line) <> BACKSLASH.
Proof.
  intros H. unfold clean in H. rewrite (list_elem_of_In line), in_rev, <- list_elem_of_In in H. destruct (rev line) as [|a l]; [done|].
  cbn [hd]. intros ->. apply H. by left.
Qed.

Lemma press_clean line k : clean line -> key_ok er ki eo k -> clean (press line k).
Proof.
  unfold clean. intros H Hk. destruct Hsp as [(_ & H1) (_ & H2 & _) _]. destruct k; cbn [press key_ok] in *; try done.
  - rewrite elem_of_app, list_elem_of_singleton. naive_solver.
  - intros Hin. apply H. destruct line as [|x l _] using rev_ind; [done|]. rewrite removelast_last in Hin. apply elem_of_app. by left.
  - by apply not_elem_of_nil.
  - rewrite elem_of_app, list_elem_of_singleton. naive_solver.
Qed.

Lemma press_length line k : (length (press line k) <= length line + length (typed er ki eo k))%nat.
Proof.
  destruct k; cbn [press typed]; rewrite ?length_app; cbn [length]; try lia.
  destruct line as [|x l _] using rev_ind; [cbn; lia|]. rewrite removelast_last, length_app. lia.
Qed.

(** ** The line *)

Lemma canon_loop_key qs i t k l line n e s :
  raw_holds qs i t (typed er ki eo k ++ l) s -> edits (tty_at s t) -> key_ok er ki eo k -> clean line ->
  Z.of_nat (length line + length (typed er ki eo k)) < CANBSIZ - 2 ->
  exists s', canon_loop (length (typed er ki eo k) + n) t (rev line) e s = canon_loop n t (rev (press line k)) e s' /\
    raw_taken qs i t l s s' /\ edits (tty_at s' t).
Proof.
  intros Hr He Hk Hc Hlen. pose proof (clean_hd _ Hc) as Hb. destruct Hsp as [[S1 S2] (S3 & S4 & S5) (S6 & S7 & S8 & S9)].
  assert (One : forall c r, typed er ki eo k = [c] -> 0 <= c < 255 ->
    (if c =? er then Some (tail (rev line)) else if c =? ki then None else if c =? eo then Some (rev line) else Some (c :: rev line)) = r ->
    default [] r = rev (press line k) -> (length (default [] r) <= S (length line))%nat ->
    exists s', canon_loop (length (typed er ki eo k) + n) t (rev line) e s = canon_loop n t (rev (press line k)) e s' /\ raw_taken qs i t l s s' /\ edits (tty_at s' t)).
  { intros c r Et Hc1 Hre Hd Hl. rewrite Et in *. cbn [app length Nat.add] in *.
    destruct (canon_loop_char qs i t c l n (rev line) r e s Hr He Hc1) as (s' & E & T).
    - intros x s1 Hx. rewrite canon_char_plain by done. by rewrite Hre.
    - intros a ->. cbn in *. lia.
    - exists s'. by rewrite E, Hd. }
  destruct k as [c| | | |c]; cbn [typed key_ok press] in *.
  - destruct Hk as (? & ? & ? & ? & ?). apply (One c (Some (c :: rev line)) eq_refl); [done| | |].
    + by rewrite !(proj2 (Z.eqb_neq _ _)) by done.
    + by rewrite rev_app_distr.
    + cbn. rewrite length_rev. lia.
  - apply (One er (Some (tail (rev line))) eq_refl); [lia|by rewrite Z.eqb_refl|by rewrite rev_removelast|].
    cbn [from_option]. pose proof (length_rev line). destruct (rev line); cbn in *; lia.
  - apply (One ki None eq_refl); [lia|by rewrite (proj2 (Z.eqb_neq _ _)), Z.eqb_refl by lia|done|cbn; lia].
  - apply (One eo (Some (rev line)) eq_refl); [lia|by rewrite !(proj2 (Z.eqb_neq _ _)), Z.eqb_refl by lia|done|]. cbn. rewrite length_rev. lia.
  - assert (Hcr : 0 < c < 128 /\ c <> BACKSLASH) by (destruct Hk; subst; done).
    destruct (canon_loop_char qs i t BACKSLASH (c :: l) (S n) (rev line) (Some (BACKSLASH :: rev line)) e s Hr He ltac:(unfold BACKSLASH; lia)) as (s1 & E1 & T1 & He1).
    + intros x s' Hx. rewrite canon_char_plain by done. by rewrite !(proj2 (Z.eqb_neq _ _)) by congruence.
    + intros a [= <-]. cbn in *. rewrite length_rev. lia.
    + destruct (canon_loop_char (<[i := (t_rawq (tty_at s1 t), c :: l)]> qs) i t c l n (BACKSLASH :: rev line) (Some (c :: rev line)) e s1 (proj1 T1) He1 ltac:(lia)) as (s2 & E2 & T2 & He2).
      * intros x s' Hx. by apply canon_char_quoted.
      * intros a [= <-]. cbn in *. rewrite length_rev. lia.
      * exists s2. split; [|split; [by eapply raw_taken_trans|done]]. rewrite rev_app_distr. cbn [rev app length Nat.add from_option] in *. transitivity (canon_loop (S n) t (BACKSLASH :: rev line) e s1); [exact E1|exact E2].
Qed.

Definition line_chars (ks : list key) : list Z := concat (typed er ki eo <$> ks).

Lemma canon_loop_line ks : forall qs i t l line n e s,
  raw_holds qs i t (line_chars ks ++ l) s -> edits (tty_at s t) -> Forall (key_ok er ki eo) ks -> clean line ->
  Z.of_nat (length line + length (line_chars ks)) < CANBSIZ - 2 ->
  exists s', canon_loop (length (line_chars ks) + n) t (rev line) e s = canon_loop n t (rev (edited ks line)) e s' /\
    raw_taken qs i t l s s' /\ edits (tty_at s' t).
Proof.
  unfold line_chars. induction ks as [|k ks IH]; intros qs i t l line n e s Hr He Hk Hc Hlen.
  - exists s. split; [done|]. split; [|done]. split; [|done]. destruct Hr as [Hw Hi]. cbn in Hi. rewrite list_insert_id by done. done.
  - rewrite fmap_cons in *. cbn [concat] in *. rewrite <- (app_assoc (typed er ki eo k)) in Hr. apply Forall_cons in Hk as [Hk Hks]. rewrite length_app in *.
    destruct (canon_loop_key qs i t k _ line (length (concat (typed er ki eo <$> ks)) + n) e s Hr He Hk Hc ltac:(lia)) as (s1 & E1 & T1 & He1).
    pose proof (press_length line k). destruct (IH _ i t l (press line k) n e s1 (proj1 T1) He1 Hks (press_clean _ _ Hc Hk) ltac:(lia)) as (s2 & E2 & T2 & He2).
    exists s2. rewrite <- Nat.add_assoc, E1, E2. split; [done|]. split; [|done]. by eapply raw_taken_trans.
Qed.

Lemma press_bytes line k : Forall (fun c => 0 <= c < 256) line -> key_ok er ki eo k -> Forall (fun c => 0 <= c < 256) (press line k).
Proof.
  intros H Hk. destruct Hsp as [[? _] (? & _) _]. destruct k as [c| | | |c]; cbn [press key_ok] in *; [| | | |].
  - apply Forall_app. split; [done|]. constructor; [lia|constructor].
  - destruct line as [|x l _] using rev_ind; [done|]. rewrite removelast_last. by apply Forall_app in H as [? _].
  - constructor.
  - done.
  - apply Forall_app. split; [done|]. constructor; [|constructor]. destruct Hk; subst; lia.
Qed.

Lemma edited_bytes ks : forall line, Forall (fun c => 0 <= c < 256) line -> Forall (key_ok er ki eo) ks -> Forall (fun c => 0 <= c < 256) (edited ks line).
Proof. induction ks as [|k ks IH]; intros line H Hk; [done|]. apply Forall_cons in Hk as [? ?]. apply IH; [by apply press_bytes|done]. Qed.
End Line.

Lemma bytes_u8 l : Forall (fun c => 0 <= c < 256) l -> u8 <$> l = l.
Proof. induction 1 as [|c l Hc _ IH]; [done|]. rewrite fmap_cons, IH. by rewrite (uwrap_id 8). Qed.

(** The bytes appended to the canonical queue, number [j] of the queues. *)
Lemma tb_to_q_canon qs j t l cl e s : world (clists (kt s)) qs -> qs !! j = Some (t_canq (tty_at s t), cl) -> Forall (fun c => 0 <= c < 256) l ->
  exists don rest s', l = don ++ rest /\ tb_to_q t_canq l t e s = Ret tt e s' /\
    world (clists (kt s')) (<[j := (t_canq (tty_at s' t), cl ++ don)]> qs) /\ t_rawq (tty_at s' t) = t_rawq (tty_at s t) /\
    t_state (tty_at s' t) = t_state (tty_at s t) /\ (rest = [] \/ cfreelist (clists (kt s')) = NULL).
Proof.
  intros Hw Hj Hl. unfold tb_to_q. rewrite bind_gets.
  destruct (b_to_q_append (set_ipl (kipl s) (clists (kt s))) qs j _ _ l (proj2 (world_set_ipl _ _ _) Hw) Hj) as (don & rest & st' & q' & El & Hb & _ & Hw' & Hf).
  exists don, rest. erewrite bind_ret; [|unfold with_clists; rewrite Hb; reflexivity]. rewrite run_modify. eexists. split; [done|]. split; [done|].
  rewrite tty_upd_same. rewrite bytes_u8 in Hw' by (subst l; by apply Forall_app in Hl as [? _]).
  split_and!; [exact Hw'|done|done|]. destruct Hf as [?|[? _]]; [by left|by right].
Qed.

Section Canon.
Context `{Layout}.

(** C12. In cooked mode, with a whole line typed, [canon] delivers the line the
    keys mean: ordinary characters and escaped erase and kill characters in
    the order typed, an erase taking the last one back if there is one, a kill
    taking back all of them, the end of file character ending nothing and
    leaving nothing.  It takes exactly the line and its delimiter off the raw
    queue, appends the line to the canonical queue (a prefix only if the free
    list of character blocks is exhausted), leaves the other queues alone and
    returns the length of the line. *)
Theorem canon_edits er ki eo ks rest qs i j t cl e s : specials er ki eo -> Forall (key_ok er ki eo) ks ->
  Z.of_nat (length (line_chars er ki eo ks)) < CANBSIZ - 2 ->
  edits er ki eo (tty_at s t) -> t_delct (tty_at s t) <> 0 -> fset (t_state (tty_at s t)) TBLOCK = false -> i <> j ->
  raw_holds qs i t (line_chars er ki eo ks ++ CDELIM :: rest) s -> qs !! j = Some (t_canq (tty_at s t), cl) ->
  exists don left s', edited ks [] = don ++ left /\ canon t e s = Ret (Z.of_nat (length (edited ks []))) e s' /\
    world (clists (kt s')) (<[j := (t_canq (tty_at s' t), cl ++ don)]> (<[i := (t_rawq (tty_at s' t), rest)]> qs)) /\
    (left = [] \/ cfreelist (clists (kt s')) = NULL).
Proof.
  intros Hsp Hk Hlen He Hd Hb Hij Hr Hj. unfold canon, spl0. rewrite bind_spl. set (s1 := s <| kipl := 5 |>).
  assert (Hwait : canon_wait (S (length e)) t e s1 = Ret true e s1).
  { cbn [canon_wait]. rewrite bind_gets. change (tty_at s1 t) with (tty_at s t). rewrite (ed_cooked _ _ _ _ He), (proj2 (Z.eqb_neq _ _) Hd). done. }
  erewrite bind_ret; [|exact Hwait]. cbn [negb]. rewrite bind_spl. set (s2 := s1 <| kipl := 0 |>).
  assert (Hc : c_cc (t_rawq (tty_at s2 t)) = Z.of_nat (length (line_chars er ki eo ks ++ CDELIM :: rest))) by (destruct Hr as [Hw Hi]; by eapply world_count).
  destruct (canon_loop_line er ki eo Hsp ks qs i t (CDELIM :: rest) [] (S (S (length rest))) e s2 Hr He Hk) as (s3 & E3 & T3 & He3); [by apply not_elem_of_nil|cbn; lia|].
  destruct (tgetc_raw _ i t CDELIM rest e s3 (proj1 T3)) as (s4 & E4 & T4). pose proof (edits_same _ _ _ _ _ (proj2 T4) He3) as He4.
  pose proof (raw_taken_trans _ _ _ _ _ _ _ _ T3 T4) as [T P]. unfold tpick in P. injection P as _ _ _ _ P1 _ P2 _.
  set (s5 := upd_tty t (fun x => x <| t_delct ::= fun n => i8 (n - 1) |>) s4).
  assert (E5 : tty_at s5 t = tty_at s4 t <| t_delct ::= fun n => i8 (n - 1) |>) by (unfold s5; by rewrite tty_upd_same).
  assert (Hloop : canon_loop (S (Z.to_nat (c_cc (t_rawq (tty_at s2 t))))) t [] e s2 = Ret (rev (edited ks [])) e s5).
  { rewrite Hc, Nat2Z.id, length_app. cbn [length]. rewrite (plus_n_Sm (length (line_chars er ki eo ks)) (S (length rest))). change (@nil Z) with (rev (@nil Z)) at 1. rewrite E3. cbn [canon_loop].
    rewrite (bind_ret _ _ _ _ _ _ _ E4). change (CDELIM <? 0) with false. cbv iota. rewrite bind_gets, (ed_cooked _ _ _ _ He4). cbn [negb].
    rewrite Z.eqb_refl, bind_modify. done. }
  erewrite bind_ret; [|exact Hloop]. rewrite rev_involutive.
  destruct (tb_to_q_canon (<[i := (t_rawq (tty_at s4 t), rest)]> qs) j t (edited ks []) cl e s5) as (don & left & s6 & El & E6 & W6 & R6 & S6 & F6).
  - exact (proj1 T).
  - rewrite list_lookup_insert_ne by done. rewrite E5. change (t_canq (tty_at s4 t <| t_delct ::= ?g |>)) with (t_canq (tty_at s4 t)). by rewrite P2.
  - apply (edited_bytes er ki eo Hsp); [constructor|done].
  - rewrite (bind_ret _ _ _ _ _ _ _ E6), bind_gets, S6, E5. change (t_state (tty_at s4 t <| t_delct ::= ?g |>)) with (t_state (tty_at s4 t)).
    rewrite P1. change (tty_at s2 t) with (tty_at s t). rewrite Hb. cbn [andb when]. rewrite bind_mret, run_mret, length_rev.
    exists don, left, s6. split_and!; [done|done| |done]. rewrite R6, E5. exact W6.
Qed.
End Canon.

(** ** Examples *)

(** [ab#\#c] and the end of the line: the line is [a#c]. *)
Definition ex_keys : list key := [KPlain 97; KPlain 98; KErase; KQuoted 35; KPlain 99].
Definition ex_typed : Z * cstate * clist := b_to_q ex_st (line_chars 35 64 4 ex_keys ++ [CDELIM]) (Clist 0 NULL NULL).
Definition ex_terminal : kst :=
  upd_tty 0 (fun x => x <| t_rawq := ex_typed.2 |> <| t_delct := 1 |> <| t_erase := 35 |> <| t_kill := 64 |> <| t_eofc := 4 |>)
    (kst0 <| kt; clists := ex_typed.1.2 |>).

Lemma ex_typed_world : world ex_typed.1.2 [(ex_typed.2, line_chars 35 64 4 ex_keys ++ [CDELIM]); (Clist 0 NULL NULL, [])].
Proof.
  destruct (b_to_q_append _ _ 0 _ _ (line_chars 35 64 4 ex_keys ++ [CDELIM]) ex_world eq_refl) as (don & rest & st' & q' & Hcs & He & _ & Hw & Hr).
  fold ex_typed in He. assert (rest = []) as ->.
  { destruct Hr as [?|[Hf _]]; [assumption|]. exfalso.
    pose proof (f_equal (fun x => cfreelist x.1.2) He) as Hf2. cbn [fst snd] in Hf2. rewrite Hf in Hf2. vm_compute in Hf2. discriminate Hf2. }
  rewrite app_nil_r in Hcs. subst don. rewrite He. exact Hw.
Qed.

#[local] Existing Instance ex_layout.

Lemma canon_edits_witness : exists s', canon 0 [] ex_terminal = Ret 3 [] s'.
Proof.
  destruct (canon_edits 35 64 4 ex_keys [] [(ex_typed.2, line_chars 35 64 4 ex_keys ++ [CDELIM]); (Clist 0 NULL NULL, [])] 0 1 0 [] [] ex_terminal) as (don & left & s' & _ & Hr & _).
  - split; repeat split; unfold BACKSLASH; lia.
  - unfold ex_keys. repeat (apply Forall_cons; split); cbn; unfold BACKSLASH; first [by apply Forall_nil | lia | done].
  - done.
  - split; done.
  - done.
  - done.
  - done.
  - split; [exact ex_typed_world|done].
  - done.
  - exists s'. exact Hr.
Defined.
