(* ===== verification/Output.v ===== *)
(** What is written on a terminal reaches the line: the transmit ring and the
    interrupt of [dev/kl.c] under the output queue of [dev/tty.c]. *)
From S2P Require Import Prelude Malloc Clist Kernel Sched Uart Tty Canon.

Lemma fset_swrap w x k : 0 <= k < w -> fset (swrap w x) (2 ^ k) = fset x (2 ^ k).
Proof. intros. rewrite !fset_testbit by lia. apply swrap_testbit; lia. Qed.
Lemma fset_uwrap w x k : 0 <= k < w -> fset (uwrap w x) (2 ^ k) = fset x (2 ^ k).
Proof. intros. rewrite !fset_testbit by lia. unfold uwrap. apply Z.mod_pow2_bits_low; lia. Qed.

(** A bit of the state of a terminal after it, or another, was set or cleared. *)
Lemma thas_tset_same t k s : 0 <= k < 16 -> thas t (2 ^ k) (tset t (2 ^ k) s) = true.
Proof.
  intros Hk. unfold thas, tset. rewrite tty_upd_same. change (t_state (tty_at s t <| t_state ::= ?g |>)) with (g (t_state (tty_at s t))). cbv beta.
  rewrite fset_swrap, fset_testbit, Z.lor_spec, Z.pow2_bits_true by lia. apply orb_true_r.
Qed.
Lemma thas_tclr t k j s : 0 <= k < 16 -> 0 <= j < 16 -> thas t (2 ^ k) (tclr t (2 ^ j) s) = thas t (2 ^ k) s && negb (k =? j).
Proof.
  intros Hk Hj. unfold thas, tclr. rewrite tty_upd_same. change (t_state (tty_at s t <| t_state ::= ?g |>)) with (g (t_state (tty_at s t))). cbv beta.
  rewrite fset_swrap, !fset_testbit, testbit_fclr, Z.pow2_bits_eqb by lia. by rewrite Z.eqb_sym.
Qed.

(** Only the flag bits of the terminal differ, and the interrupt enable of the
    device. *)
Record flag_step (c : nat) (s s' : kst) : Prop := {
  fs_tty : exists f, tty_at s' c = tty_at s c <| t_state := f |>;
  fs_uart : exists v, uart_at s' c = uart_at s c <| hw_ier := v |>;
  fs_clists : clists (kt s') = clists (kt s)
}.

Lemma flag_step_trans c s1 s2 s3 : flag_step c s1 s2 -> flag_step c s2 s3 -> flag_step c s1 s3.
Proof.
  intros [[f F] [v V] C] [[f' F'] [v' V'] C']. split; [exists f'; by rewrite F', F|exists v'; by rewrite V', V|congruence].
Qed.

Lemma tty_state_id x : x <| t_state := t_state x |> = x.
Proof. by destruct x. Qed.
Lemma uart_ier_id x : x <| hw_ier := hw_ier x |> = x.
Proof. by destruct x. Qed.

Lemma flag_step_refl c s : flag_step c s s.
Proof. split; [exists (t_state (tty_at s c)); by rewrite tty_state_id|exists (hw_ier (uart_at s c)); by rewrite uart_ier_id|done]. Qed.

Lemma flag_step_upd c g s : flag_step c s (upd_tty c (fun x => x <| t_state ::= g |>) s).
Proof.
  split; [|exists (hw_ier (uart_at s c)); by rewrite uart_ier_id|done]. rewrite tty_upd_same. by exists (g (t_state (tty_at s c))).
Qed.

Lemma flag_step_ier c g s : flag_step c s (upd_uart c (fun x => x <| hw_ier ::= g |>) s).
Proof.
  split; [exists (t_state (tty_at s c)); change (tty_at (upd_uart c (fun x => x <| hw_ier ::= g |>) s) c) with (tty_at s c); by destruct (tty_at s c)| |done].
  rewrite uart_upd_same. by exists (g (hw_ier (uart_at s c))).
Qed.

Lemma flag_step_kt c s s' : kt s' = kt s -> flag_step c s s'.
Proof. intros E. destruct (flag_step_refl c s) as [A B C]. split; unfold tty_at, uart_at; rewrite ?E; done. Qed.

Lemma stream_flags qs i c l o s s' : stream qs i c l o s -> flag_step c s s' -> stream qs i c l o s'.
Proof. intros [A B C D] [[f F] [v V] K]. split; [by rewrite V|done|by rewrite K|by rewrite F]. Qed.

Lemma due_flags c raw l o s s' : flag_step c s s' -> sent_and_due c raw l o s' = sent_and_due c raw l o s.
Proof. intros [_ [v V] _]. unfold sent_and_due. by rewrite V. Qed.

Section Output.
Context `{Layout} (c : nat) (Hc : (c < 6)%nat).

(** Whether there is more to send, as the terminal and the device know. *)
Definition knows_rest (l : list Z) (s : kst) : Prop :=
  thas c BUSY s = negb (Nat.eqb (length l) 0) /\ fset (hw_ier (uart_at s c)) UART_IER_TX = negb (Nat.eqb (length l) 0).

Lemma busy_ok {A} (k : M A) l e s : tx_count c s = Z.of_nat (length l) -> exists s',
  (n ← gets (tx_count c); _ ← (if negb (n =? 0) then _ ← modify (tset c BUSY); uart_ier c (fun v => Z.lor v UART_IER_TX)
     else _ ← modify (tclr c BUSY); uart_ier c (fun v => fclr v UART_IER_TX)); k) e s = k e s' /\
  flag_step c s s' /\ knows_rest l s' /\ kp s' = kp s /\ kipl s' = kipl s.
Proof.
  intros Hn. rewrite bind_gets, Hn. unfold uart_ier, knows_rest. destruct l as [|v l].
  - change (Z.of_nat (length (@nil Z)) =? 0) with true. cbn [negb length Nat.eqb]. rewrite bind_assoc, !bind_modify. eexists. split; [done|]. set (s1 := tclr c BUSY s).
    split; [eapply flag_step_trans; [apply flag_step_upd|apply flag_step_ier]|]. split; [|done]. split.
    + change (thas c (2 ^ 5) (tclr c (2 ^ 5) s) = false). rewrite thas_tclr by lia. apply andb_false_r.
    + rewrite uart_upd_same. change (fset (u8 (fclr (hw_ier (uart_at s c)) (2 ^ 1))) (2 ^ 1) = false).
      rewrite fset_uwrap, fset_testbit, testbit_fclr, Z.pow2_bits_true by lia. apply andb_false_r.
  - rewrite (proj2 (Z.eqb_neq _ _)) by (cbn [length]; lia). cbn [negb length Nat.eqb]. rewrite bind_assoc, !bind_modify. eexists. split; [done|]. set (s1 := tset c BUSY s).
    split; [eapply flag_step_trans; [apply flag_step_upd|apply flag_step_ier]|]. split; [|done]. split.
    + change (thas c (2 ^ 5) (tset c (2 ^ 5) s) = true). by apply thas_tset_same.
    + rewrite uart_upd_same. change (fset (u8 (Z.lor (hw_ier (uart_at s c)) (2 ^ 1))) (2 ^ 1) = true).
      rewrite fset_uwrap, fset_testbit, Z.lor_spec, Z.pow2_bits_true by lia. apply orb_true_r.
Qed.

Lemma sched_same s s' RQ SQ : kp s' = kp s -> queues s RQ SQ /\ all_queued s SQ /\ runout (kp s) = 0 ->
  queues s' RQ SQ /\ all_queued s' SQ /\ runout (kp s') = 0.
Proof.
  intros E (Q & A & R). split; [|split; [|by rewrite E]].
  - by apply queues_only with s; rewrite ?E.
  - intros p ch. unfold proc_at. rewrite E. apply A.
Qed.

(** The writers that wait are woken when the output has drained. *)
Lemma waking_ok e s RQ SQ ch : queues s RQ SQ -> all_queued s SQ -> runout (kp s) = 0 ->
  exists s' RQ' SQ', wakeup ch e s = Ret tt e s' /\ kt s' = kt s /\ kipl s' = kipl s /\ queues s' RQ' SQ' /\ all_queued s' SQ' /\ runout (kp s') = 0.
Proof.
  intros Q A R.
  destruct (wakeup_ok ch e s RQ SQ Q A R) as (s' & Hr & Q' & A' & (_ & _ & _ & _ & T & I & _) & R' & _). by eexists s', _, _.
Qed.

Lemma wake_writer_ok {A} (k : M A) l e s RQ SQ : tx_count c s = Z.of_nat (length l) -> knows_rest l s ->
  queues s RQ SQ -> all_queued s SQ -> runout (kp s) = 0 -> exists s',
  (cc ← gets (fun s => c_cc (t_outq (tty_at s c)));
   n ← gets (tx_count c);
   _ ← when ((cc <=? TTLOWAT) && (n =? 0))
         (a ← gets (thas c ASLEEP);
          _ ← when a (_ ← modify (tclr c ASLEEP); wakeup (ChOutq c));
          ch ← gets (fun s => t_chan (tty_at s c));
          match ch with None => mret tt | Some _ => wakeup (ChOutq c) end); k) e s = k e s' /\
  flag_step c s s' /\ knows_rest l s' /\ kipl s' = kipl s /\
  (thas c ASLEEP s' = true -> TTLOWAT < c_cc (t_outq (tty_at s c)) \/ l <> []).
Proof.
  intros Hn Hk Q A' R. rewrite !bind_gets, Hn. destruct (Z.leb_spec (c_cc (t_outq (tty_at s c))) TTLOWAT) as [Hl|Hl].
  2: { cbn [andb when]. rewrite bind_mret. exists s. split; [done|]. split; [apply flag_step_refl|]. split; [done|]. split; [done|by left]. }
  destruct l as [|v l]; cbn [andb].
  2: { rewrite (proj2 (Z.eqb_neq _ _)) by (cbn [length]; lia). cbn [when]. rewrite bind_mret. exists s. split; [done|]. split; [apply flag_step_refl|]. split; [done|]. split; [done|by right]. }
  change (Z.of_nat (length (@nil Z)) =? 0) with true. cbn [when]. rewrite bind_assoc, bind_gets.
  assert (exists s1, when (thas c ASLEEP s) (_ ← modify (tclr c ASLEEP); wakeup (ChOutq c)) e s = Ret tt e s1 /\ flag_step c s s1 /\ knows_rest [] s1 /\
    thas c ASLEEP s1 = false /\ kipl s1 = kipl s /\ exists RQ' SQ', queues s1 RQ' SQ' /\ all_queued s1 SQ' /\ runout (kp s1) = 0) as (s1 & Hr1 & F1 & K1 & As1 & I1 & RQ1 & SQ1 & Q1 & A1 & R1).
  { destruct (thas c ASLEEP s) eqn:Ea; [|exists s; split_and!; [done|apply flag_step_refl|done|done|done|by exists RQ, SQ]]. change (when true ?m) with m. rewrite bind_modify.
    set (s0 := tclr c ASLEEP s).
    destruct (sched_same s s0 RQ SQ eq_refl (conj Q (conj A' R))) as (Q0 & A0 & R0). destruct (waking_ok e s0 RQ SQ (ChOutq c) Q0 A0 R0) as (s1 & RQ' & SQ' & Hw & T & I & Hq). exists s1. split; [exact Hw|].
    assert (F : flag_step c s s1) by (eapply flag_step_trans; [apply flag_step_upd|by apply flag_step_kt]). split; [done|].
    assert (Hst : forall m, thas c m s1 = thas c m s0) by (intros; unfold thas, tty_at; by rewrite T).
    split_and!; [split| |exact I|by exists RQ', SQ'].
    - rewrite Hst. change (thas c (2 ^ 5) (tclr c (2 ^ 6) s) = false). rewrite thas_tclr by lia. destruct Hk as [Hb _]. change (thas c (2 ^ 5) s) with (thas c BUSY s). by rewrite Hb.
    - unfold uart_at. rewrite T. apply Hk.
    - rewrite Hst. change (thas c (2 ^ 6) (tclr c (2 ^ 6) s) = false). rewrite thas_tclr by lia. apply andb_false_r. }
  rewrite bind_assoc, (bind_ret _ _ _ _ _ _ _ Hr1), bind_assoc, bind_gets. 
  assert (exists s2, match t_chan (tty_at s1 c) with None => mret tt | Some _ => wakeup (ChOutq c) end e s1 = Ret tt e s2 /\ kt s2 = kt s1 /\ kipl s2 = kipl s1) as (s2 & Hm & T & I).
  { destruct (t_chan (tty_at s1 c)); [|by exists s1]. destruct (waking_ok e s1 RQ1 SQ1 (ChOutq c) Q1 A1 R1) as (s2 & RQ2 & SQ2 & Hw & T & I & _). by exists s2. }
  exists s2.
  split; [by rewrite (bind_ret _ _ _ _ _ _ _ Hm)|].
  split; [eapply flag_step_trans; [exact F1|by apply flag_step_kt]|]. split; [unfold knows_rest, thas, tty_at, uart_at in *; by rewrite T|].
  split; [congruence|]. unfold thas, tty_at in *. rewrite T. congruence.
Qed.

(** C13. Starting output neither loses nor reorders anything: what the line was
    given, the transmit ring and the output queue of the terminal (its delays
    excepted, which a cooked queue only holds as gaps) are, joined, the same
    after as before, however the transmitter becomes ready and wherever the
    ring wraps around.  When the routine returns, the terminal is marked busy
    and the transmit interrupt enabled exactly if the ring still holds
    characters, and no writer is left asleep on a drained queue. *)
Theorem output_conserved qs i l o e s RQ SQ : stream qs i c l o s -> queues s RQ SQ -> all_queued s SQ -> runout (kp s) = 0 ->
  exists s' l' o' v, uart_poll_tx_channel c e s = Ret tt e s' /\ stream (<[i := (v, o')]> qs) i c l' o' s' /\
    sent_and_due c (tflag c RAW s) l' o' s' = sent_and_due c (tflag c RAW s) l o s /\
    thas c BUSY s' = negb (Nat.eqb (length l') 0) /\ fset (hw_ier (uart_at s' c)) UART_IER_TX = negb (Nat.eqb (length l') 0) /\
    (thas c ASLEEP s' = true -> TTLOWAT < Z.of_nat (length o') \/ l' <> []) /\ kipl s' = kipl s.
Proof.
  intros S Q A R. unfold uart_poll_tx_channel, spl6. rewrite bind_spl. set (s0 := s <| kipl := 6 |>). assert (S0 : stream qs i c l o s0) by (by destruct S; split).
  destruct (tx_fill_ok c Hc (tflag c RAW s) i UART_TX_POLL_BUDGET qs l o e s0 eq_refl S0) as (s1 & Hr1 & v & l1 & o1 & S1 & D1 & T1 & P1 & I1).
  rewrite (bind_ret _ _ _ _ _ _ _ Hr1). destruct (tx_send_ok c Hc (tflag c RAW s) i UART_TX_POLL_BUDGET _ l1 o1 e s1 S1) as (s2 & l2 & Hr2 & S2 & D2 & [Ds1 Ds2 Ds3 Ds4]).
  rewrite (bind_ret _ _ _ _ _ _ _ Hr2). pose proof (tx_count_holds c s2 l2 (sm_ring _ _ _ _ _ _ S2)) as N2.
  edestruct (@busy_ok unit) as (s3 & -> & F3 & K3 & P3 & I3); [exact N2|]. pose proof (stream_flags _ _ _ _ _ _ _ S2 F3) as S3.
  assert (P : kp s3 = kp s) by (rewrite P3, Ds3, P1; done).
  destruct (sched_same s s3 RQ SQ P (conj Q (conj A R))) as (Q3 & A3 & R3). edestruct (@wake_writer_ok unit) as (s4 & -> & F4 & K4 & I4 & W4).
  - exact (tx_count_holds c s3 l2 (sm_ring _ _ _ _ _ _ S3)).
  - exact K3.
  - exact Q3.
  - exact A3.
  - exact R3.
  - unfold splx. rewrite run_modify. eexists _, l2, o1, v. split; [done|]. set (s5 := s4 <| kipl := kipl s |>).
    pose proof (stream_flags _ _ _ _ _ _ _ S3 F4) as S4. split; [by destruct S4; split|]. split.
    { rewrite <- (due_flags c _ l o s s0 (flag_step_kt c s s0 eq_refl)), <- D1, <- D2, <- (due_flags c _ l2 o1 _ _ F3). exact (due_flags c _ l2 o1 _ _ F4). }
    destruct K4 as [B4 J4]. split_and!; [exact B4|exact J4| |done]. intros Ha. specialize (W4 Ha).
    by rewrite (world_count _ _ _ _ _ (sm_world _ _ _ _ _ _ S3) (sm_queue _ _ _ _ _ _ S3)) in W4.
Qed.
End Output.

(** ** Examples *)

(** Characters wait in the queue of terminal 0, whose ring is empty. *)
#[local] Existing Instance ex_layout.
Definition ex_output : kst := upd_tty 0 (fun x => x <| t_outq := ex_typed.2 |>) (ex_sched <| kt; clists := ex_typed.1.2 |>).

Lemma output_conserved_witness : exists s' l' o', uart_poll_tx_channel 0 [] ex_output = Ret tt [] s' /\
  sent_and_due 0 false l' o' s' = [97; 98; 35; 92; 35; 99].
Proof.
  destruct (output_conserved 0 ltac:(lia) [(ex_typed.2, line_chars 35 64 4 ex_keys ++ [CDELIM]); (Clist 0 NULL NULL, [])] 0 [] (line_chars 35 64 4 ex_keys ++ [CDELIM]) [] ex_output ex_RQ ex_SQ)
    as (s' & l' & o' & v & Hr & _ & Hd & _).
  - split; [by apply holds_empty|constructor|exact ex_typed_world|done].
  - by apply (sched_same ex_sched ex_output ex_RQ ex_SQ eq_refl (conj ex_queues (conj ex_all_queued eq_refl))).
  - by apply (sched_same ex_sched ex_output ex_RQ ex_SQ eq_refl (conj ex_queues (conj ex_all_queued eq_refl))).
  - done.
  - exists s', l', o'. split; [exact Hr|]. transitivity (sent_and_due 0 false [] (line_chars 35 64 4 ex_keys ++ [CDELIM]) ex_output); [exact Hd|by vm_compute].
Defined.
