(* ===== verification/Heap.v ===== *)
(** The allocator of the C library: [malloc], [free], [calloc] and [realloc]
    of [toolchain/ack/libc/stdlib_malloc.c], over [sbrk] of [68kunix/sbrk.s].

    A [usize] is 16 bits wide and a pointer 32.  Memory is the program's
    window, byte by byte; [grant] says whether the system moves the break. *)
From S2P Require Import Prelude Malloc Clist Kernel Sched Codec Usermem.

Definition rd (m : Z -> Z) (a : Z) : Z := unbe (mem_read m a 4).
Definition wr (a v : Z) (m : Z -> Z) : Z -> Z := mem_write (be 4 v) a m.

(** The memory, the head of the free list and the break [_nd]. *)
Record heap := Heap { mem : Z -> Z; free_list : Z; nd : Z }.

(** [block->size] and [block->next], at 0 and 4 of a free block of at least
    [FREE_BLOCK] bytes; a block in use keeps its size, less the word it is
    kept in, in front of the bytes given out. *)
Definition FREE_BLOCK : Z := 8.
Definition size (h : heap) (block : Z) : Z := rd (mem h) block.
Definition next (h : heap) (block : Z) : Z := rd (mem h) (u32 (block + 4)).
Definition set_size (block v : Z) (h : heap) : heap := Heap (wr block v (mem h)) (free_list h) (nd h).
Definition set_next (block v : Z) (h : heap) : heap := Heap (wr (u32 (block + 4)) v (mem h)) (free_list h) (nd h).
Definition set_free_list (v : Z) (h : heap) : heap := Heap (mem h) v (nd h).

Definition round4 (n : Z) : Z := Z.land (u32 (n + 3)) (Z.lnot 3).

Section Malloc.
Context (grant : Z -> bool).

(** -1 leaves the break alone; [_nd] is not moved by an increment of 0. *)
Definition sbrk (increment : Z) (h : heap) : Z * heap :=
  let d2 := round4 (nd h) in
  if increment =? 0 then (d2, h)
  else
    let d1 := u32 (d2 + increment) in
    if grant d1 then (d2, Heap (mem h) (free_list h) d1) else (-1, h).

(** [if (previous) previous->next = v; else free_list = v;] *)
Definition link (previous v : Z) (h : heap) : heap := if previous =? 0 then set_free_list v h else set_next previous v h.

(** The first block of at least [total] bytes, and the one before it on the
    list; [None] is the end of the fuel. *)
Fixpoint first_fit (k : nat) (total previous block : Z) (h : heap) : option (option (Z * Z)) :=
  match k with
  | O => None
  | S k =>
      if block =? 0 then Some None
      else if total <=? size h block then Some (Some (previous, block))
      else first_fit k total block (next h block) h
  end.

(** The fuel exceeds the blocks that fit below the break. *)
Definition LISTFUEL (h : heap) : nat := S (Z.to_nat (nd h)).

Definition malloc_need (n : Z) : Z := Z.land (u32 ((if n =? 0 then 1 else n) + 3)) (Z.lnot 3).

(** The block is split if what remains can be a free block. *)
Definition take_block (need total previous block : Z) (h : heap) : heap :=
  let remainder := u32 (size h block - total) in
  if FREE_BLOCK <=? remainder then
    let nxt := u32 (block + total) in
    let h := set_size nxt remainder h in
    let h := set_next nxt (next h block) h in
    let h := link previous nxt h in
    set_size block need h
  else
    let h := link previous (next h block) h in
    set_size block (size h block - 4) h.

Definition malloc (n : Z) (h : heap) : option (Z * heap) :=
  let need := malloc_need n in
  let total := u32 (need + 4) in
  match first_fit (LISTFUEL h) total 0 (free_list h) h with
  | None => None
  | Some (Some (previous, block)) => Some (u32 (block + 4), take_block need total previous block h)
  | Some None =>
      let '(p, h) := sbrk total h in
      if p =? -1 then Some (0, h) else Some (u32 (p + 4), set_size p need h)
  end.

(** [while (current && current < block)] *)
Fixpoint find_place (k : nat) (block previous current : Z) (h : heap) : option (Z * Z) :=
  match k with
  | O => None
  | S k =>
      if (current =? 0) || (block <=? current) then Some (previous, current)
      else find_place k block current (next h current) h
  end.

Definition free (p : Z) (h : heap) : option heap :=
  if p =? 0 then Some h
  else
    let block := u32 (p - 4) in
    let h := set_size block (size h block + 4) h in
    match find_place (LISTFUEL h) block 0 (free_list h) h with
    | None => None
    | Some (previous, current) =>
        let h := set_next block current h in
        let h := link previous block h in
        let h := if negb (current =? 0) && (u32 (block + size h block) =? current)
                 then set_next block (next h current) (set_size block (size h block + size h current) h) else h in
        Some (if negb (previous =? 0) && (u32 (previous + size h previous) =? block)
              then set_next previous (next h block) (set_size previous (size h previous + size h block) h) else h)
    end.

Definition calloc (count sz : Z) (h : heap) : option (Z * heap) :=
  let wide := u32 (u16 count * u16 sz) in
  if 65535 <? wide then Some (0, h)
  else
    match malloc wide h with
    | Some (p, h) => if p =? 0 then Some (0, h) else Some (p, Heap (mem_write (replicate (Z.to_nat wide) 0) p (mem h)) (free_list h) (nd h))
    | None => None
    end.

(** The copy goes up, and the two blocks do not overlap. *)
Definition realloc (old n : Z) (h : heap) : option (Z * heap) :=
  if old =? 0 then malloc n h
  else
    let n := if n =? 0 then 1 else n in
    let oldn := u16 (size h (u32 (old - 4))) in
    if n <=? oldn then Some (old, h)
    else
      match malloc n h with
      | None => None
      | Some (p, h) =>
          if p =? 0 then Some (0, h)
          else
            let oldn := if n <? oldn then n else oldn in
            match free old (Heap (mem_copy (Z.to_nat oldn) old p (mem h)) (free_list h) (nd h)) with
            | None => None
            | Some h => Some (p, h)
            end
      end.
End Malloc.

(** ** Words of memory *)

Lemma rd_wr_same m a v : rd (wr a v m) a = u32 v.
Proof. unfold rd, wr. change 4%nat with (length (be 4 v)). rewrite mem_read_write. apply unbe_be. Qed.

Lemma wr_out m a v x : x < a \/ a + 4 <= x -> wr a v m x = m x.
Proof. intros Hx. unfold wr. rewrite mem_write_lookup, decide_False; [done|]. rewrite length_be. lia. Qed.

Lemma rd_same m m' a : (forall x, a <= x < a + 4 -> m x = m' x) -> rd m a = rd m' a.
Proof. intros E. unfold rd. by rewrite (mem_read_same m m' a 4). Qed.

Lemma rd_wr_ne m a b v : b + 4 <= a \/ a + 4 <= b -> rd (wr a v m) b = rd m b.
Proof. intros Hd. apply rd_same. intros x Hx. apply wr_out. lia. Qed.

(** ** The free list *)

(** A block is its address and its size, the word of the size included. *)
Abbreviation block := (Z * Z)%type.

(** The list from [p] through the blocks [l] to [q]. *)
Fixpoint flist (m : Z -> Z) (p : Z) (l : list block) (q : Z) : Prop :=
  match l with
  | [] => p = q
  | (a, sz) :: l => p = a /\ rd m a = sz /\ flist m (rd m (a + 4)) l q
  end.

(** In order of address from [lo] on, with a gap between any two. *)
Fixpoint ordered (lo : Z) (l : list block) : Prop :=
  match l with
  | [] => True
  | (a, sz) :: l => lo < a /\ 8 <= sz /\ ordered (a + sz) l
  end.

(** The last of [l], or [d]. *)
Definition last_of (d : Z) (l : list block) : Z := match last l with Some (a, _) => a | None => d end.
Definition end_of (lo : Z) (l : list block) : Z := match last l with Some (a, sz) => a + sz | None => lo end.

Lemma flist_app m l1 : forall p l2 q, flist m p (l1 ++ l2) q <-> exists r, flist m p l1 r /\ flist m r l2 q.
Proof.
  induction l1 as [|[a sz] l1 IH]; intros p l2 q; cbn [app flist].
  - split; [by exists p|by intros (r & -> & ?)].
  - rewrite IH. naive_solver.
Qed.

Lemma end_of_cons lo a sz l : end_of lo ((a, sz) :: l) = end_of (a + sz) l.
Proof. unfold end_of. destruct l as [|b l]; [done|]. change (last ((a, sz) :: b :: l)) with (last (b :: l)). destruct (last (b :: l)) as [[? ?]|] eqn:E; [done|]. by apply last_None in E. Qed.

Lemma last_of_cons d a sz l : last_of d ((a, sz) :: l) = last_of a l.
Proof. unfold last_of. destruct l as [|b l]; [done|]. change (last ((a, sz) :: b :: l)) with (last (b :: l)). destruct (last (b :: l)) as [[? ?]|] eqn:E; [done|]. by apply last_None in E. Qed.

Lemma ordered_app l1 : forall lo l2, ordered lo (l1 ++ l2) <-> ordered lo l1 /\ ordered (end_of lo l1) l2.
Proof.
  induction l1 as [|[a sz] l1 IH]; intros lo l2; [cbn; tauto|]. cbn [app ordered]. rewrite IH, end_of_cons. tauto.
Qed.

Lemma ordered_mono l lo lo' : lo' <= lo -> ordered lo l -> ordered lo' l.
Proof. destruct l as [|[a sz] l]; [done|]. cbn. intros ? (? & ? & ?). split_and!; [lia|done..]. Qed.

(** Every block lies beyond [lo], and before the end. *)
Lemma ordered_in l : forall lo a sz, ordered lo l -> (a, sz) ∈ l -> lo < a /\ 8 <= sz /\ a + sz <= end_of lo l.
Proof.
  induction l as [|[b sb] l IH]; intros lo a sz H Hin; [by apply elem_of_nil in Hin|]. destruct H as (H1 & H2 & H3). rewrite end_of_cons.
  assert (He : b + sb <= end_of (b + sb) l).
  { clear - H3. revert H3. generalize (b + sb) as x. induction l as [|[c sc] l IH]; intros x; [cbn; lia|]. cbn. intros (? & ? & ?). rewrite end_of_cons.
    specialize (IH (c + sc)). lia || (transitivity (c + sc); [lia|by apply IH]). }
  apply elem_of_cons in Hin as [[= -> ->]|Hin]; [lia|]. destruct (IH _ _ _ H3 Hin) as (? & ? & ?). lia.
Qed.

(** Memory that agrees on the heads of the blocks. *)
Lemma flist_same m m' l : forall p q, (forall a sz x, (a, sz) ∈ l -> a <= x < a + 8 -> m x = m' x) -> flist m p l q -> flist m' p l q.
Proof.
  induction l as [|[a sz] l IH]; intros p q E; [done|]. intros (-> & E1 & H). cbn [flist].
  assert (Ea : forall x, a <= x < a + 8 -> m x = m' x) by (intros x; apply (E a sz); by left).
  rewrite <- (rd_same m m' a), <- (rd_same m m' (a + 4)) by (intros; apply Ea; lia). split_and!; [done|done|].
  apply IH; [|done]. intros b sb x Hb. apply (E b sb). by right.
Qed.

(** The last pointer of a segment set to [v]. *)
Lemma flist_relink m l : forall p q lo v, ordered lo l -> l <> [] -> flist m p l q -> flist (wr (last_of 0 l + 4) v m) p l (u32 v).
Proof.
  induction l as [|[a sz] l IH]; intros p q lo v Ho Hne H; [done|]. destruct Ho as (H1 & H2 & H3). destruct H as (-> & E1 & Hf).
  destruct l as [|b l].
  - change (last_of 0 [(a, sz)]) with a. cbn [flist]. rewrite rd_wr_ne by lia. split_and!; [done|done|]. by rewrite rd_wr_same.
  - rewrite last_of_cons. set (r := b :: l) in *. assert (Hr : r <> []) by done.
    assert (Hin : exists s, (last_of a r, s) ∈ r).
    { unfold last_of. destruct (last r) as [[c sc]|] eqn:E; [|by apply last_None in E]. exists sc. apply last_Some_elem_of in E. done. }
    destruct Hin as [s Hin]. destruct (ordered_in _ _ _ _ H3 Hin) as (Hlt & _ & _).
    assert (El : last_of a r = last_of 0 r) by (unfold last_of; destruct (last r) as [[? ?]|] eqn:E; [done|by apply last_None in E]). rewrite El in *.
    specialize (IH _ _ _ v H3 Hr Hf). set (m' := wr _ v m) in *. cbn [flist].
    assert (E2 : rd m' a = rd m a) by (apply rd_wr_ne; lia). assert (E3 : rd m' (a + 4) = rd m (a + 4)) by (apply rd_wr_ne; lia).
    rewrite E2, E3. split_and!; [done|done|exact IH].
Qed.

(** ** The operations on the list *)

(** The program's window: no sum of an address and a size wraps around. *)
Definition small (l : list block) : Prop := forall a sz, (a, sz) ∈ l -> a + 8 <= USER_PAGE_SIZE.

Lemma small_cons b l : small (b :: l) -> (fst b + 8 <= USER_PAGE_SIZE) /\ small l.
Proof. intros H. split; [apply (H _ (snd b)); rewrite <- surjective_pairing; by left|]. intros a sz Hin. apply (H a sz). by right. Qed.
Lemma small_app l1 l2 : small (l1 ++ l2) <-> small l1 /\ small l2.
Proof.
  unfold small. setoid_rewrite elem_of_app. split; [intros H; split; intros a sz Hin; apply (H a sz); tauto|].
  intros [H1 H2] a sz [?|?]; [by apply (H1 a sz)|by apply (H2 a sz)].
Qed.

Lemma next_ok h a : 0 <= a -> a + 8 <= USER_PAGE_SIZE -> next h a = rd (mem h) (a + 4).
Proof. intros. unfold next, USER_PAGE_SIZE in *. by rewrite u32_id by lia. Qed.

Lemma first_fit_ok total h k : forall fl prev p lo, flist (mem h) p fl 0 -> ordered lo fl -> 0 <= lo -> small fl -> (length fl < k)%nat ->
  (first_fit k total prev p h = Some None /\ forall a sz, (a, sz) ∈ fl -> sz < total) \/
  exists l1 a sz l2, fl = l1 ++ (a, sz) :: l2 /\ total <= sz /\ (forall b sb, (b, sb) ∈ l1 -> sb < total) /\
    first_fit k total prev p h = Some (Some (last_of prev l1, a)).
Proof.
  induction k as [|k IH]; intros fl prev p lo Hf Ho Hlo Hs Hk; [lia|]. cbn [first_fit]. destruct fl as [|[a sz] fl].
  - left. rewrite Hf. split; [done|]. intros ? ? Hin. by apply elem_of_nil in Hin.
  - destruct Hf as (-> & Esz & Hf). destruct Ho as (H1 & H2 & H3). apply small_cons in Hs as [Ha Hs]. cbn [fst] in Ha. rewrite (proj2 (Z.eqb_neq _ _)) by lia.
    change (size h a) with (rd (mem h) a). rewrite Esz. destruct (Z.leb_spec total sz) as [Hl|Hl].
    + right. exists [], a, sz, fl. split_and!; [done|done| |done]. intros ? ? Hin. by apply elem_of_nil in Hin.
    + rewrite next_ok by lia. cbn [length] in Hk. destruct (IH fl a _ (a + sz) Hf H3 ltac:(lia) Hs ltac:(lia)) as [[E Hall]|(l1 & b & sb & l2 & -> & Hb & Hall & E)].
      * left. split; [done|]. intros c sc Hin. apply elem_of_cons in Hin as [[= -> ->]|Hin]; [done|by apply (Hall c)].
      * right. exists ((a, sz) :: l1), b, sb, l2. rewrite last_of_cons. split_and!; [done|done| |done].
        intros c sc Hin. apply elem_of_cons in Hin as [[= -> ->]|Hin]; [done|by apply (Hall c)].
Qed.

Lemma find_place_ok b h k : forall fl prev p lo, flist (mem h) p fl 0 -> ordered lo fl -> 0 <= lo -> small fl -> (length fl < k)%nat ->
  exists l1 l2, fl = l1 ++ l2 /\ (forall a sz, (a, sz) ∈ l1 -> a < b) /\ (forall a sz, head l2 = Some (a, sz) -> b <= a) /\
    find_place k b prev p h = Some (last_of prev l1, match l2 with [] => 0 | (a, _) :: _ => a end).
Proof.
  induction k as [|k IH]; intros fl prev p lo Hf Ho Hlo Hs Hk; [lia|]. cbn [find_place]. destruct fl as [|[a sz] fl].
  - exists [], []. cbn [flist] in Hf; subst p. split_and!; [done| |by intros ? ? [=]|done]. intros ? ? Hin. by apply elem_of_nil in Hin.
  - destruct Hf as (-> & Esz & Hf). destruct Ho as (H1 & H2 & H3). apply small_cons in Hs as [Ha Hs]. cbn [fst] in Ha. rewrite (proj2 (Z.eqb_neq _ _)) by lia. cbn [orb].
    destruct (Z.leb_spec b a) as [Hl|Hl].
    + exists [], ((a, sz) :: fl). split_and!; [done| | |done]; [intros ? ? Hin; by apply elem_of_nil in Hin|by intros ? ? [= <- <-]].
    + rewrite next_ok by lia. cbn [length] in Hk. destruct (IH fl a _ (a + sz) Hf H3 ltac:(lia) Hs ltac:(lia)) as (l1 & l2 & -> & Hlt & Hge & E).
      exists ((a, sz) :: l1), l2. rewrite last_of_cons. split_and!; [done| |done|done].
      intros c sc Hin. apply elem_of_cons in Hin as [[= -> ->]|Hin]; [done|by apply (Hlt c sc)].
Qed.

(** [x] is in no block of [l]. *)
Definition outside (l : list block) (x : Z) : Prop := forall a sz, (a, sz) ∈ l -> x < a \/ a + sz <= x.

Lemma outside_app l1 l2 x : outside (l1 ++ l2) x <-> outside l1 x /\ outside l2 x.
Proof.
  unfold outside. setoid_rewrite elem_of_app. split; [intros H; split; intros a sz Hin; apply (H a sz); tauto|].
  intros [H1 H2] a sz [?|?]; [by apply (H1 a sz)|by apply (H2 a sz)].
Qed.
Lemma outside_cons a sz l x : outside ((a, sz) :: l) x <-> (x < a \/ a + sz <= x) /\ outside l x.
Proof. rewrite (outside_app [(a, sz)] l x). unfold outside at 1. setoid_rewrite list_elem_of_singleton. naive_solver. Qed.

Lemma last_of_in l : l <> [] -> exists s, (last_of 0 l, s) ∈ l.
Proof.
  intros Hl. unfold last_of. destruct (last l) as [[c sc]|] eqn:E; [|by apply last_None in E]. exists sc. by apply last_Some_elem_of in E.
Qed.

(** [link] joins the segment [l1] to the list from [v] on. *)
Lemma link_ok l1 r q v h : ordered 0 l1 -> small l1 -> (forall b s, (b, s) ∈ r -> end_of 0 l1 <= b) -> 0 <= v < 2 ^ 32 ->
  flist (mem h) (free_list h) l1 q -> flist (mem h) v r 0 ->
  let h' := link (last_of 0 l1) v h in
  flist (mem h') (free_list h') (l1 ++ r) 0 /\ nd h' = nd h /\ forall x, outside l1 x -> mem h' x = mem h x.
Proof.
  intros Ho Hs Hr Hv H1 H2. cbv zeta. unfold link. destruct (decide (l1 = [])) as [->|Hne].
  - change (last_of 0 [] =? 0) with true. cbv iota. done.
  - destruct (last_of_in l1 Hne) as [s Hin]. destruct (ordered_in _ _ _ _ Ho Hin) as (Hp & Hps & Hpe). specialize (Hs _ _ Hin).
    rewrite (proj2 (Z.eqb_neq _ _)) by lia. unfold set_next. cbn [mem free_list nd]. unfold USER_PAGE_SIZE in *. rewrite (u32_id (last_of 0 l1 + 4)) by lia.
    split; [|split; [done|]].
    + apply flist_app. exists v. split; [rewrite <- (u32_id v) at 2 by lia; by eapply flist_relink|].
      apply flist_same with (mem h); [|done]. intros a sz x Ha Hx. specialize (Hr _ _ Ha). symmetry. apply wr_out. lia.
    + intros x Hx. specialize (Hx _ _ Hin). apply wr_out. lia.
Qed.

(** ** The arena *)

Definition top (h : heap) : Z := round4 (nd h).

(** [(a, sz)] is a block, free or in use. *)
Definition is_block (fl : list block) (live : gmap Z Z) (a sz : Z) : Prop := (a, sz) ∈ fl \/ live !! a = Some sz.
Definition apart (a sz b sb : Z) : Prop := a + sz <= b \/ b + sb <= a.

(** The blocks [B] tile the memory from [base] to [hi]: words, large enough for
    a free block, apart from each other, and no word is in none of them. *)
Record tiling (base hi : Z) (B : Z -> Z -> Prop) : Prop := {
  ti_blk : forall a sz, B a sz -> a mod 4 = 0 /\ sz mod 4 = 0 /\ 8 <= sz /\ base <= a /\ a + sz <= hi;
  ti_apart : forall a sz b sb, B a sz -> B b sb -> (a = b /\ sz = sb) \/ apart a sz b sb;
  ti_cover : forall x, base <= x < hi -> exists a sz, B a sz /\ a <= x < a + sz
}.

Lemma tiling_ext base hi B B' : (forall a sz, B a sz <-> B' a sz) -> tiling base hi B -> tiling base hi B'.
Proof.
  intros E [H1 H2 H3]. split; intros; repeat match goal with H : B' _ _ |- _ => apply E in H end; [by apply H1|by apply H2|].
  destruct (H3 x) as (a & sz & Hb & Hx); [done|]. exists a, sz. by rewrite <- E.
Qed.

(** A block is cut in two. *)
Lemma tiling_split base hi B B' a sz t : tiling base hi B -> B a sz -> 8 <= t -> 8 <= sz - t -> t mod 4 = 0 ->
  (forall x s, B' x s <-> (B x s /\ x <> a) \/ (x = a /\ s = t) \/ (x = a + t /\ s = sz - t)) -> tiling base hi B'.
Proof.
  intros [H1 H2 H3] Ha Ht Hr Hm E. destruct (H1 _ _ Ha) as (A1 & A2 & A3 & A4 & A5).
  assert (Hd : forall x s, B x s -> x <> a -> apart x s a sz) by (intros x s Hx Hne; by destruct (H2 x s a sz Hx Ha) as [[? _]|]).
  split.
  - intros x s Hx. apply E in Hx as [[Hx _]|[[-> ->]|[-> ->]]]; [by apply H1|lia|]. split_and!; try lia; Z.div_mod_to_equations; lia.
  - intros x s y r Hx Hy. apply E in Hx, Hy. unfold apart in *.
    destruct Hx as [[Hx Hxa]|[[-> ->]|[-> ->]]], Hy as [[Hy Hya]|[[-> ->]|[-> ->]]]; try (specialize (Hd _ _ Hx Hxa)); try (specialize (Hd _ _ Hy Hya)); try lia.
    by apply H2.
  - intros x Hx. destruct (H3 x Hx) as (b & s & Hb & Hin). destruct (Z.eq_dec b a) as [->|Hne].
    + destruct (H2 _ _ _ _ Hb Ha) as [[_ ->]|Hap]; [|unfold apart in Hap; lia]. destruct (Z_lt_le_dec x (a + t)).
      * exists a, t. split; [apply E; auto|lia].
      * exists (a + t), (sz - t). split; [apply E; auto|lia].
    + exists b, s. split; [apply E; auto|done].
Qed.

(** Two adjacent blocks are joined. *)
Lemma tiling_merge base hi B B' a s1 s2 : tiling base hi B -> B a s1 -> B (a + s1) s2 ->
  (forall x s, B' x s <-> (B x s /\ x <> a /\ x <> a + s1) \/ (x = a /\ s = s1 + s2)) -> tiling base hi B'.
Proof.
  intros [H1 H2 H3] Ha Hb E. destruct (H1 _ _ Ha) as (A1 & A2 & A3 & A4 & A5). destruct (H1 _ _ Hb) as (B1 & B2 & B3 & B4 & B5).
  assert (Hd : forall x s, B x s -> x <> a -> x <> a + s1 -> apart x s a (s1 + s2)).
  { intros x s Hx N1 N2. destruct (H2 _ _ _ _ Hx Ha) as [[? _]|Hp]; [done|]. destruct (H2 _ _ _ _ Hx Hb) as [[? _]|Hq]; [done|]. destruct (H1 _ _ Hx) as (_ & _ & ? & _). unfold apart in *. lia. }
  split.
  - intros x s Hx. apply E in Hx as [(Hx & _)|[-> ->]]; [by apply H1|]. split_and!; try lia. Z.div_mod_to_equations; lia.
  - intros x s y r Hx Hy. apply E in Hx, Hy. unfold apart in *.
    destruct Hx as [(Hx & N1 & N2)|[-> ->]], Hy as [(Hy & N3 & N4)|[-> ->]]; try (specialize (Hd _ _ Hx N1 N2)); try (specialize (Hd _ _ Hy N3 N4)); try lia.
    by apply H2.
  - intros x Hx. destruct (H3 x Hx) as (b & s & Hc & Hin). destruct (Z.eq_dec b a) as [->|N1].
    { destruct (H2 _ _ _ _ Hc Ha) as [[_ ->]|Hap]; [|unfold apart in Hap; lia]. exists a, (s1 + s2). split; [apply E; auto|lia]. }
    destruct (Z.eq_dec b (a + s1)) as [->|N2].
    { destruct (H2 _ _ _ _ Hc Hb) as [[_ ->]|Hap]; [|unfold apart in Hap; lia]. exists a, (s1 + s2). split; [apply E; auto|lia]. }
    exists b, s. split; [apply E; auto|done].
Qed.

(** The arena grows by a block. *)
Lemma tiling_grow base hi B B' s : tiling base hi B -> base <= hi -> hi mod 4 = 0 -> s mod 4 = 0 -> 8 <= s ->
  (forall x r, B' x r <-> B x r \/ (x = hi /\ r = s)) -> tiling base (hi + s) B'.
Proof.
  intros [H1 H2 H3] Hb Hh Hs Hs8 E. split.
  - intros x r Hx. apply E in Hx as [Hx|[-> ->]]; [|lia]. destruct (H1 _ _ Hx) as (? & ? & ? & ? & ?). lia.
  - intros x r y q Hx Hy. apply E in Hx, Hy. unfold apart in *. destruct Hx as [Hx|[-> ->]], Hy as [Hy|[-> ->]]; [by apply H2| | |lia].
    + destruct (H1 _ _ Hx) as (? & ? & ? & ? & ?). lia.
    + destruct (H1 _ _ Hy) as (? & ? & ? & ? & ?). lia.
  - intros x Hx. destruct (Z_lt_le_dec x hi).
    + destruct (H3 x) as (a & sz & Ha & ?); [lia|]. exists a, sz. split; [apply E; auto|done].
    + exists hi, s. split; [apply E; auto|lia].
Qed.

(** The blocks, free ([fl]) and in use ([live], from address to size), tile
    the arena from [base] to the break; the free list is in order of address
    and no two free blocks touch; a block in use has its size in front. *)
Record arena (base : Z) (fl : list block) (live : gmap Z Z) (h : heap) : Prop := {
  ar_base : 0 < base <= top h /\ base mod 4 = 0;
  ar_nd : 0 <= nd h <= USER_PAGE_SIZE;
  ar_list : flist (mem h) (free_list h) fl 0;
  ar_ord : ordered 0 fl;
  ar_tile : tiling base (top h) (is_block fl live);
  ar_size : forall a sz, live !! a = Some sz -> rd (mem h) a = sz - 4;
  ar_free : forall a sz, (a, sz) ∈ fl -> live !! a = None
}.

Lemma ar_blk base fl live h : arena base fl live h -> forall a sz, is_block fl live a sz ->
  a mod 4 = 0 /\ sz mod 4 = 0 /\ 8 <= sz /\ base <= a /\ a + sz <= top h.
Proof. intros A. exact (ti_blk _ _ _ (ar_tile _ _ _ _ A)). Qed.

Lemma land_not3 x : Z.land x (Z.lnot 3) = x - x mod 4.
Proof.
  change 3 with (Z.ones 2). rewrite <- Z.ldiff_land, Z.ldiff_ones_r, Z.shiftr_div_pow2, Z.shiftl_mul_pow2 by lia. change (2 ^ 2) with 4.
  pose proof (Z.div_mod x 4 ltac:(lia)). lia.
Qed.

Lemma round4_ok n : 0 <= n <= USER_PAGE_SIZE -> n <= round4 n <= USER_PAGE_SIZE /\ round4 n mod 4 = 0.
Proof.
  intros Hn. unfold round4, USER_PAGE_SIZE in *. rewrite u32_id, land_not3 by lia. pose proof (Z.mod_pos_bound (n + 3) 4 ltac:(lia)).
  pose proof (Z.div_mod (n + 3) 4 ltac:(lia)). split; [lia|]. rewrite Zminus_mod, Zmod_mod, Z.sub_diag. done.
Qed.

Lemma round4_id n : 0 <= n <= USER_PAGE_SIZE -> n mod 4 = 0 -> round4 n = n.
Proof. intros Hn Hm. destruct (round4_ok n Hn) as [_ H]. unfold round4, USER_PAGE_SIZE in *. rewrite u32_id, land_not3 in * by lia. Z.div_mod_to_equations. lia. Qed.

Lemma malloc_need_ok n : 0 <= n < 65536 -> n <= malloc_need n <= 65536 /\ 4 <= malloc_need n /\ malloc_need n mod 4 = 0.
Proof.
  intros Hn. unfold malloc_need. destruct (Z.eqb_spec n 0) as [->|]; [by vm_compute|]. rewrite u32_id, land_not3 by lia. Z.div_mod_to_equations. lia.
Qed.

Section Arena.
Context (base : Z) (grant : Z -> bool) (Hgrant : forall d, grant d = true -> d <= USER_PAGE_SIZE).

Lemma arena_small fl live h : arena base fl live h -> small fl.
Proof.
  intros A a sz Hin. destruct (ar_blk _ _ _ _ A a sz (or_introl Hin)) as (_ & _ & ? & _ & ?). destruct (round4_ok _ (ar_nd _ _ _ _ A)). unfold top in *. lia.
Qed.

Lemma ordered_length l : forall lo, ordered lo l -> lo + 8 * Z.of_nat (length l) <= end_of lo l.
Proof.
  induction l as [|[a sz] l IH]; intros lo H; [cbn; lia|]. destruct H as (? & ? & H). specialize (IH _ H). rewrite end_of_cons. cbn [length]. lia.
Qed.

Lemma arena_fuel fl live h : arena base fl live h -> (length fl < LISTFUEL h)%nat.
Proof.
  intros A. unfold LISTFUEL. pose proof (ordered_length fl 0 (ar_ord _ _ _ _ A)) as Hl. destruct (decide (fl = [])) as [->|Hne]; [cbn; lia|].
  unfold end_of in Hl. destruct (last fl) as [[a sz]|] eqn:E; [|by apply last_None in E]. apply last_Some_elem_of in E.
  destruct (ar_blk _ _ _ _ A a sz (or_introl E)) as (_ & _ & ? & _ & He). pose proof (ar_nd _ _ _ _ A) as Hn. unfold top, round4 in He. unfold USER_PAGE_SIZE in *.
  rewrite u32_id, land_not3 in He by lia. Z.div_mod_to_equations. lia.
Qed.

(** Taking the block [a] off the list: what is left of it stays there. *)
Lemma take_split need l1 a sz l2 live h : arena base (l1 ++ (a, sz) :: l2) live h -> 4 <= need -> need + 4 + 8 <= sz -> need mod 4 = 0 ->
  let h' := take_block need (need + 4) (last_of 0 l1) a h in
  flist (mem h') (free_list h') (l1 ++ (a + (need + 4), sz - (need + 4)) :: l2) 0 /\ nd h' = nd h /\ rd (mem h') a = need /\
  forall x, outside (l1 ++ (a, sz) :: l2) x -> mem h' x = mem h x.
Proof.
  intros A Hn Hsz Hm. pose proof (arena_small _ _ _ A) as Hs. pose proof (ar_list _ _ _ _ A) as Hl. pose proof (ar_ord _ _ _ _ A) as Ho.
  assert (Hin : (a, sz) ∈ l1 ++ (a, sz) :: l2) by (apply elem_of_app; right; by left).
  destruct (ar_blk _ _ _ _ A a sz (or_introl Hin)) as (Ha4 & Hs4 & _ & Hb & Ht). destruct (round4_ok _ (ar_nd _ _ _ _ A)) as [[_ Htop] _]. unfold top in Ht.
  destruct (ar_base _ _ _ _ A) as [[Hb0 _] _]. apply flist_app in Hl as (q & F1 & -> & Esz & F2). pose proof (proj1 (ordered_app _ _ _) Ho) as (O1 & O2 & _ & O3).
  pose proof (proj1 (small_app _ _) Hs) as [Hs1 _]. unfold take_block, USER_PAGE_SIZE in *.
  assert (Hsize : size h a = sz) by exact Esz. rewrite Hsize, (u32_id (sz - (need + 4))), (u32_id (a + (need + 4))) by lia.
  unfold FREE_BLOCK. rewrite (proj2 (Z.leb_le 8 _)) by lia. set (n := a + (need + 4)). set (r := sz - (need + 4)).
  assert (Hd1 : forall b sb, (b, sb) ∈ l1 -> b + sb < a) by (intros b sb Hin1; destruct (ordered_in _ _ _ _ O1 Hin1) as (_ & _ & ?); lia).
  assert (Hd2 : forall b sb, (b, sb) ∈ l2 -> a + sz < b) by (intros b sb Hin2; destruct (ordered_in _ _ _ _ O3 Hin2); lia).
  set (h1 := set_size n r h). assert (En : next h1 a = rd (mem h) (a + 4)).
  { rewrite next_ok by (unfold USER_PAGE_SIZE; lia). apply rd_wr_ne. unfold n. lia. } rewrite En. set (nx := rd (mem h) (a + 4)) in *.
  assert (Hnx : 0 <= nx < 2 ^ 32).
  { unfold nx, rd in *. destruct l2 as [|[b sb] l2]; cbn [flist] in F2; fold (rd (mem h) (a + 4)) in *.
    - rewrite F2. lia.
    - destruct F2 as (F2 & _). fold (rd (mem h) (a + 4)). rewrite F2. specialize (Hs b sb ltac:(apply elem_of_app; right; right; by left)). specialize (Hd2 b sb ltac:(by left)). unfold USER_PAGE_SIZE in *. lia. }
  set (h2 := set_next n nx h1).
  assert (M2 : forall x, x < n \/ n + 8 <= x -> mem h2 x = mem h x).
  { intros x Hx. unfold h2, set_next, h1, set_size. cbn [mem]. rewrite (u32_id (n + 4)) by lia. rewrite !wr_out by lia. done. }
  destruct (link_ok l1 ((n, r) :: l2) a n h2 O1 Hs1) as (F3 & N3 & M3).
  - intros b sb Hb2. apply elem_of_cons in Hb2 as [[= -> ->]|Hb2]; [unfold n; lia|]. specialize (Hd2 _ _ Hb2). lia.
  - unfold n. lia.
  - change (free_list h2) with (free_list h). apply flist_same with (mem h); [|done]. intros b sb x Hb1 Hx. symmetry. apply M2. specialize (Hd1 _ _ Hb1). destruct (ordered_in _ _ _ _ O1 Hb1) as (_ & ? & _). unfold n. lia.
  - cbn [flist]. assert (E1 : rd (mem h2) n = r).
    { unfold h2, set_next, h1, set_size. cbn [mem]. rewrite (u32_id (n + 4)) by lia. rewrite rd_wr_ne, rd_wr_same by lia. apply u32_id. unfold r. lia. }
    assert (E2 : rd (mem h2) (n + 4) = nx).
    { unfold h2, set_next. cbn [mem]. rewrite (u32_id (n + 4)) by lia. rewrite rd_wr_same. by apply u32_id. }
    rewrite E1, E2. split_and!; [done|done|]. apply flist_same with (mem h); [|done]. intros b sb x Hb2 Hx. symmetry. apply M2. specialize (Hd2 _ _ Hb2). unfold n. lia.
  - set (h3 := link _ n h2) in *. unfold set_size. cbn [mem free_list nd]. split_and!; [|by rewrite N3|rewrite rd_wr_same; apply u32_id; lia|].
    + apply flist_same with (mem h3); [|done]. intros b sb x Hin3 Hx. symmetry. apply wr_out. apply elem_of_app in Hin3 as [H1|H1].
      * specialize (Hd1 _ _ H1). destruct (ordered_in _ _ _ _ O1 H1) as (_ & ? & _). lia.
      * apply elem_of_cons in H1 as [[= -> ->]|H1]; [unfold n in *; lia|]. specialize (Hd2 _ _ H1). lia.
    + intros x Hx. apply outside_app in Hx as [Hx1 Hx2]. apply outside_cons in Hx2 as [Hx2 _]. rewrite wr_out, M3, M2 by (unfold n; first [done|lia]). done.
Qed.

(** Taking the whole of it. *)
Lemma take_whole need l1 a sz l2 live h : arena base (l1 ++ (a, sz) :: l2) live h -> need + 4 <= sz -> sz < need + 4 + 8 -> 0 <= need ->
  let h' := take_block need (need + 4) (last_of 0 l1) a h in
  flist (mem h') (free_list h') (l1 ++ l2) 0 /\ nd h' = nd h /\ rd (mem h') a = sz - 4 /\
  forall x, outside (l1 ++ (a, sz) :: l2) x -> mem h' x = mem h x.
Proof.
  intros A Hle Hsz Hn. pose proof (arena_small _ _ _ A) as Hs. pose proof (ar_list _ _ _ _ A) as Hl. pose proof (ar_ord _ _ _ _ A) as Ho.
  assert (Hin : (a, sz) ∈ l1 ++ (a, sz) :: l2) by (apply elem_of_app; right; by left).
  destruct (ar_blk _ _ _ _ A a sz (or_introl Hin)) as (Ha4 & Hs4 & Hs8 & Hb & Ht). destruct (round4_ok _ (ar_nd _ _ _ _ A)) as [[_ Htop] _]. unfold top in Ht.
  destruct (ar_base _ _ _ _ A) as [[Hb0 _] _]. apply flist_app in Hl as (q & F1 & -> & Esz & F2). pose proof (proj1 (ordered_app _ _ _) Ho) as (O1 & O2 & _ & O3).
  pose proof (proj1 (small_app _ _) Hs) as [Hs1 _]. pose proof (Hs _ _ Hin) as Hsa. unfold take_block, USER_PAGE_SIZE in *.
  assert (Hsize : size h a = sz) by exact Esz. rewrite Hsize, (u32_id (sz - (need + 4))) by lia. unfold FREE_BLOCK. rewrite (proj2 (Z.leb_gt 8 _)) by lia.
  rewrite next_ok by (unfold USER_PAGE_SIZE; lia). set (nx := rd (mem h) (a + 4)) in *.
  assert (Hd1 : forall b sb, (b, sb) ∈ l1 -> b + sb < a) by (intros b sb Hin1; destruct (ordered_in _ _ _ _ O1 Hin1) as (_ & _ & ?); lia).
  assert (Hd2 : forall b sb, (b, sb) ∈ l2 -> a + sz < b) by (intros b sb Hin2; destruct (ordered_in _ _ _ _ O3 Hin2); lia).
  assert (Hnx : 0 <= nx < 2 ^ 32).
  { destruct l2 as [|[b sb] l2]; cbn [flist] in F2; [rewrite F2; lia|]. destruct F2 as (F2 & _). rewrite F2.
    specialize (Hs b sb ltac:(apply elem_of_app; right; right; by left)). specialize (Hd2 b sb ltac:(by left)). unfold USER_PAGE_SIZE in *. lia. }
  destruct (link_ok l1 l2 a nx h O1 Hs1 ltac:(intros b sb Hb2; specialize (Hd2 _ _ Hb2); lia) Hnx F1 F2) as (F3 & N3 & M3). set (h1 := link _ nx h) in *.
  assert (E1 : size h1 a = sz).
  { rewrite <- Hsize. apply rd_same. intros x Hx. apply M3. intros b sb Hin1. specialize (Hd1 _ _ Hin1). lia. }
  rewrite E1. unfold set_size. cbn [mem free_list nd]. split_and!; [|by rewrite N3|rewrite rd_wr_same; apply u32_id; unfold USER_PAGE_SIZE in *; lia|].
  - apply flist_same with (mem h1); [|done]. intros b sb x Hin3 Hx. symmetry. apply wr_out. apply elem_of_app in Hin3 as [H1|H1].
    + specialize (Hd1 _ _ H1). destruct (ordered_in _ _ _ _ O1 H1) as (_ & ? & _). lia.
    + specialize (Hd2 _ _ H1). lia.
  - intros x Hx. apply outside_app in Hx as [Hx1 Hx2]. apply outside_cons in Hx2 as [Hx2 _]. by rewrite wr_out, M3 by (first [done|lia]).
Qed.

Lemma live_outside fl live h b sb x : arena base fl live h -> live !! b = Some sb -> b <= x < b + sb -> outside fl x.
Proof.
  intros A Hb Hx a sz Hin. destruct (ti_apart _ _ _ (ar_tile _ _ _ _ A) a sz b sb (or_introl Hin) (or_intror Hb)) as [[-> _]|Hp].
  - by rewrite (ar_free _ _ _ _ A _ _ Hin) in Hb.
  - unfold apart in Hp. lia.
Qed.

(** What the program keeps in its blocks is not touched. *)
Definition kept (live : gmap Z Z) (h h' : heap) : Prop := forall b sb x, live !! b = Some sb -> b <= x < b + sb -> mem h' x = mem h x.

Lemma kept_size live h h' b sb : kept live h h' -> live !! b = Some sb -> 4 <= sb -> rd (mem h') b = rd (mem h) b.
Proof. intros K Hb Hs. apply rd_same. intros x Hx. apply (K b sb); [done|lia]. Qed.

Lemma ordered_insert l1 l2 a sz lo : ordered lo (l1 ++ (a, sz) :: l2) -> forall b s, (b, s) ∈ l1 \/ (b, s) ∈ l2 -> b <> a.
Proof.
  intros (O1 & O2 & O4 & O3)%ordered_app b s [H|H].
  - destruct (ordered_in _ _ _ _ O1 H) as (? & ? & ?). lia.
  - destruct (ordered_in _ _ _ _ O3 H) as (? & ? & ?). lia.
Qed.

(** The block of a split, or the whole block, is in use. *)
Lemma arena_take_split l1 a sz l2 t live h h' : arena base (l1 ++ (a, sz) :: l2) live h -> 8 <= t -> 8 <= sz - t -> t mod 4 = 0 ->
  flist (mem h') (free_list h') (l1 ++ (a + t, sz - t) :: l2) 0 -> nd h' = nd h -> rd (mem h') a = t - 4 -> kept live h h' ->
  arena base (l1 ++ (a + t, sz - t) :: l2) (<[a := t]> live) h'.
Proof.
  intros A Ht Hr Hm Hl Hn Hsz K. assert (Hin : (a, sz) ∈ l1 ++ (a, sz) :: l2) by (apply elem_of_app; right; by left).
  pose proof (ar_free _ _ _ _ A a sz Hin) as Hfree. pose proof (ordered_insert _ _ _ _ _ (ar_ord _ _ _ _ A)) as Hne.
  assert (Htop : top h' = top h) by (unfold top; by rewrite Hn). split.
  - rewrite Htop. exact (ar_base _ _ _ _ A).
  - rewrite Hn. exact (ar_nd _ _ _ _ A).
  - exact Hl.
  - pose proof (ar_ord _ _ _ _ A) as (O1 & O2 & O3 & O4)%ordered_app. apply ordered_app. split; [done|]. cbn [ordered]. split_and!; [lia|lia|]. by replace (a + t + (sz - t)) with (a + sz) by lia.
  - rewrite Htop. apply (tiling_split _ _ _ _ a sz t (ar_tile _ _ _ _ A) (or_introl Hin) Ht Hr Hm). intros x s. unfold is_block.
    rewrite lookup_insert_Some, !elem_of_app, !elem_of_cons. split.
    + intros [[H|[[= -> ->]|H]]|[[<- <-]|[Hx H]]]; [left|tauto|left|tauto|left]; (split; [tauto|]); [apply (Hne x s); auto|apply (Hne x s); auto|done].
    + intros [[[[H|[[= -> ->]|H]]|H] Hx]|[[-> ->]|[-> ->]]]; try tauto. right. right. split; [congruence|done].
  - intros b sb Hb. apply lookup_insert_Some in Hb as [[<- <-]|[Hb1 Hb]]; [done|].
    rewrite (kept_size _ _ _ _ _ K Hb); [exact (ar_size _ _ _ _ A b sb Hb)|]. destruct (ar_blk _ _ _ _ A b sb (or_intror Hb)) as (_ & _ & ? & _). lia.
  - intros b sb Hb. rewrite elem_of_app, elem_of_cons in Hb. destruct (Z.eq_dec b (a + t)) as [->|Hbt].
    + rewrite lookup_insert_ne by lia. destruct (live !! (a + t)) as [q|] eqn:E; [|done]. exfalso.
      destruct (ti_apart _ _ _ (ar_tile _ _ _ _ A) a sz (a + t) q (or_introl Hin) (or_intror E)) as [[? _]|Hp]; [lia|]. unfold apart in Hp.
      destruct (ar_blk _ _ _ _ A _ _ (or_intror E)) as (_ & _ & ? & _). lia.
    + assert (Hb' : (b, sb) ∈ l1 \/ (b, sb) ∈ l2) by (destruct Hb as [?|[[= -> _]|?]]; [tauto|done|tauto]).
      pose proof (Hne _ _ Hb'). rewrite lookup_insert_ne by congruence. apply (ar_free _ _ _ _ A b sb). rewrite elem_of_app, elem_of_cons. tauto.
Qed.

Lemma arena_take_whole l1 a sz l2 live h h' : arena base (l1 ++ (a, sz) :: l2) live h ->
  flist (mem h') (free_list h') (l1 ++ l2) 0 -> nd h' = nd h -> rd (mem h') a = sz - 4 -> kept live h h' ->
  arena base (l1 ++ l2) (<[a := sz]> live) h'.
Proof.
  intros A Hl Hn Hsz K. assert (Hin : (a, sz) ∈ l1 ++ (a, sz) :: l2) by (apply elem_of_app; right; by left).
  pose proof (ordered_insert _ _ _ _ _ (ar_ord _ _ _ _ A)) as Hne. pose proof (ar_free _ _ _ _ A a sz Hin) as Hfree.
  assert (Htop : top h' = top h) by (unfold top; by rewrite Hn). split.
  - rewrite Htop. exact (ar_base _ _ _ _ A).
  - rewrite Hn. exact (ar_nd _ _ _ _ A).
  - exact Hl.
  - pose proof (ar_ord _ _ _ _ A) as (O1 & O2 & O3 & O4)%ordered_app. apply ordered_app. split; [done|]. apply ordered_mono with (a + sz); [lia|done].
  - rewrite Htop. apply (tiling_ext _ _ (is_block (l1 ++ (a, sz) :: l2) live)); [|exact (ar_tile _ _ _ _ A)]. intros x s. unfold is_block.
    rewrite lookup_insert_Some, !elem_of_app, !elem_of_cons. split.
    + intros [[H|[[= -> ->]|H]]|H]; try tauto. right. right. split; [congruence|done].
    + intros [[H|H]|[[<- <-]|[Hx H]]]; tauto.
  - intros b sb Hb. apply lookup_insert_Some in Hb as [[<- <-]|[Hb1 Hb]]; [done|].
    rewrite (kept_size _ _ _ _ _ K Hb); [exact (ar_size _ _ _ _ A b sb Hb)|]. destruct (ar_blk _ _ _ _ A b sb (or_intror Hb)) as (_ & _ & ? & _). lia.
  - intros b sb Hb. rewrite elem_of_app in Hb. pose proof (Hne _ _ Hb). rewrite lookup_insert_ne by congruence. apply (ar_free _ _ _ _ A b sb). rewrite elem_of_app, elem_of_cons. tauto.
Qed.

Lemma arena_outside fl live h x : arena base fl live h -> top h <= x -> outside fl x.
Proof. intros A Hx a sz Hin. destruct (ar_blk _ _ _ _ A a sz (or_introl Hin)) as (_ & _ & _ & _ & ?). lia. Qed.

(** The system gives a new block at the break. *)
Lemma arena_grow fl t live h h' : arena base fl live h -> 8 <= t -> t mod 4 = 0 -> top h + t <= USER_PAGE_SIZE ->
  free_list h' = free_list h -> (forall x, x < top h \/ top h + 4 <= x -> mem h' x = mem h x) -> nd h' = top h + t -> rd (mem h') (top h) = t - 4 ->
  arena base fl (<[top h := t]> live) h' /\ kept live h h'.
Proof.
  intros A Ht Hm Hle Hf Hmem Hn Hsz. destruct (round4_ok _ (ar_nd _ _ _ _ A)) as [Hr Hr4]. fold (top h) in Hr, Hr4. pose proof (ar_nd _ _ _ _ A) as Hnd.
  destruct (ar_base _ _ _ _ A) as [Hb Hb4].
  assert (Htop : top h' = top h + t) by (unfold top at 1; rewrite Hn; apply round4_id; [lia|]; rewrite Zplus_mod, Hr4, Hm; done).
  assert (K : kept live h h'). { intros b sb x Hb' Hx. apply Hmem. destruct (ar_blk _ _ _ _ A _ _ (or_intror Hb')) as (_ & _ & _ & _ & ?). lia. }
  assert (Hnew : live !! top h = None).
  { destruct (live !! top h) as [q|] eqn:E; [|done]. destruct (ar_blk _ _ _ _ A _ _ (or_intror E)) as (_ & _ & ? & _ & ?). lia. }
  split; [|done]. split.
  - rewrite Htop. split; [lia|done].
  - rewrite Hn. lia.
  - rewrite Hf. apply flist_same with (mem h); [|exact (ar_list _ _ _ _ A)]. intros a sz x Hin Hx. symmetry. apply Hmem.
    destruct (ar_blk _ _ _ _ A a sz (or_introl Hin)) as (_ & _ & ? & _ & ?). lia.
  - exact (ar_ord _ _ _ _ A).
  - rewrite Htop. apply (tiling_grow base (top h) (is_block fl live)); [exact (ar_tile _ _ _ _ A)|lia|done|done|done|].
    intros x r. unfold is_block. rewrite lookup_insert_Some. split.
    + intros [H|[[<- <-]|[_ H]]]; tauto.
    + intros [[H|H]|[-> ->]]; [tauto| |tauto]. right. right. split; [congruence|done].
  - intros b sb Hb'. apply lookup_insert_Some in Hb' as [[<- <-]|[Hne Hb']]; [done|].
    rewrite (kept_size _ _ _ _ _ K Hb'); [exact (ar_size _ _ _ _ A b sb Hb')|]. destruct (ar_blk _ _ _ _ A b sb (or_intror Hb')) as (_ & _ & ? & _). lia.
  - intros b sb Hin. destruct (ar_blk _ _ _ _ A b sb (or_introl Hin)) as (_ & _ & ? & _ & ?). rewrite lookup_insert_ne by lia. by apply (ar_free _ _ _ _ A b sb).
Qed.

(** ** [malloc] *)

(** A fresh block of at least [n] bytes behind its size word at [a]. *)
Definition allocated (n : Z) (live : gmap Z Z) (h h' : heap) (p : Z) : Prop :=
  exists a sz fl', p = a + 4 /\ n <= sz - 4 /\ live !! a = None /\ arena base fl' (<[a := sz]> live) h' /\ kept live h h'.

Lemma malloc_spec n fl live h : arena base fl live h -> 0 <= n < 65536 ->
  (malloc grant n h = Some (0, h) /\ (forall a sz, (a, sz) ∈ fl -> sz < malloc_need n + 4) /\ grant (top h + (malloc_need n + 4)) = false) \/
  exists p h', malloc grant n h = Some (p, h') /\ allocated n live h h' p /\
    ((nd h' = nd h /\ exists a sz, (a, sz) ∈ fl /\ malloc_need n + 4 <= sz) \/ (grant (top h + (malloc_need n + 4)) = true /\ forall a sz, (a, sz) ∈ fl -> sz < malloc_need n + 4)).
Proof.
  intros A Hn. destruct (malloc_need_ok n Hn) as (Hneed & Hneed4 & Hm). set (need := malloc_need n) in *. unfold malloc. fold need. rewrite (u32_id (need + 4)) by lia.
  pose proof (arena_fuel _ _ _ A) as Hfuel. pose proof (arena_small _ _ _ A) as Hs. destruct (round4_ok _ (ar_nd _ _ _ _ A)) as [Hr Hr4]. fold (top h) in Hr, Hr4. pose proof (ar_nd _ _ _ _ A) as Hnd. unfold USER_PAGE_SIZE in Hr, Hnd.
  destruct (first_fit_ok (need + 4) h (LISTFUEL h) fl 0 (free_list h) 0 (ar_list _ _ _ _ A) (ar_ord _ _ _ _ A) ltac:(lia) Hs Hfuel) as [[-> Hall]|(l1 & a & sz & l2 & -> & Hsz & Hall & ->)].
  - unfold sbrk. fold (top h). rewrite (proj2 (Z.eqb_neq (need + 4) 0)) by lia. rewrite (u32_id (top h + (need + 4))) by lia.
    destruct (grant (top h + (need + 4))) eqn:Eg; [|left; by change (-1 =? -1) with true]. right. rewrite (proj2 (Z.eqb_neq (top h) (-1))) by lia. rewrite (u32_id (top h + 4)) by lia.
    pose proof (Hgrant _ Eg) as Hle. eexists _, _. split; [done|]. split; [|by right].
    destruct (arena_grow fl (need + 4) live h (set_size (top h) need (Heap (mem h) (free_list h) (top h + (need + 4)))) A) as [A' K]; try done; try lia.
    + rewrite Zplus_mod, Hm. done.
    + intros x Hx. unfold set_size. cbn [mem]. by apply wr_out.
    + unfold set_size. cbn [mem]. rewrite rd_wr_same, u32_id by lia. lia.
    + exists (top h), (need + 4), fl. split_and!; [done|lia| |done|done].
      destruct (live !! top h) as [q|] eqn:E; [|done]. destruct (ar_blk _ _ _ _ A _ _ (or_intror E)) as (_ & _ & ? & _ & ?). lia.
  - right. assert (Hin : (a, sz) ∈ l1 ++ (a, sz) :: l2) by (apply elem_of_app; right; by left).
    destruct (ar_blk _ _ _ _ A a sz (or_introl Hin)) as (Ha4 & Hs4 & _ & Hb & Ht). destruct (ar_base _ _ _ _ A) as [[Hb0 _] _].
    rewrite (u32_id (a + 4)) by lia. eexists _, _. split; [done|]. set (h' := take_block _ _ _ _ h).
    destruct (Z_lt_le_dec (sz - (need + 4)) 8) as [Hsmall|Hbig].
    + destruct (take_whole need l1 a sz l2 live h A Hsz ltac:(lia) ltac:(lia)) as (F & N & S & K). fold h' in F, N, S, K. split; [|left; split; [done|by exists a, sz]].
      exists a, sz, (l1 ++ l2). split_and!; [done|lia|by apply (ar_free _ _ _ _ A a sz)| |].
      * apply (arena_take_whole l1 a sz l2 live h h' A F N S). intros b sb x Hb' Hx. apply K. by eapply live_outside.
      * intros b sb x Hb' Hx. apply K. by eapply live_outside.
    + destruct (take_split need l1 a sz l2 live h A ltac:(lia) ltac:(lia) Hm) as (F & N & S & K). fold h' in F, N, S, K. split; [|left; split; [done|by exists a, sz]].
      exists a, (need + 4), (l1 ++ (a + (need + 4), sz - (need + 4)) :: l2). split_and!; [done|lia|by apply (ar_free _ _ _ _ A a sz)| |].
      * apply (arena_take_split l1 a sz l2 (need + 4) live h h' A); try lia; try done; [rewrite Zplus_mod, Hm; done|]. intros b sb x Hb' Hx. apply K. by eapply live_outside.
      * intros b sb x Hb' Hx. apply K. by eapply live_outside.
Qed.

(** ** [free] *)

(** The size and the pointer of one block of the list rewritten. *)
Lemma set_head_ok l1 a s' r v m p : (forall b sb, (b, sb) ∈ l1 \/ (b, sb) ∈ r -> b + 8 <= a \/ a + 8 <= b) ->
  0 <= s' < 2 ^ 32 -> 0 <= v < 2 ^ 32 -> (exists q, flist m p l1 q /\ q = a) -> flist m v r 0 ->
  flist (wr (a + 4) v (wr a s' m)) p (l1 ++ (a, s') :: r) 0.
Proof.
  intros Hd Hs Hv (q & H1 & ->) H2. set (m' := wr (a + 4) v (wr a s' m)).
  assert (Hm : forall x, x < a \/ a + 8 <= x -> m' x = m x) by (intros x Hx; unfold m'; by rewrite !wr_out by lia).
  apply flist_app. exists a. split.
  - apply flist_same with m; [|done]. intros b sb x Hb Hx. symmetry. apply Hm. specialize (Hd b sb (or_introl Hb)). lia.
  - cbn [flist]. split; [done|]. assert (E1 : rd m' a = s') by (unfold m'; rewrite rd_wr_ne, rd_wr_same by lia; by apply u32_id).
    assert (E2 : rd m' (a + 4) = v) by (unfold m'; rewrite rd_wr_same; by apply u32_id). rewrite E1, E2. split; [done|].
    apply flist_same with m; [|done]. intros b sb x Hb Hx. symmetry. apply Hm. specialize (Hd b sb (or_intror Hb)). lia.
Qed.

(** Two blocks that touch are joined. *)
Definition join (a c : Z) (h : heap) : heap := set_next a (next h c) (set_size a (size h a + size h c) h).

Lemma join_ok l1 a s1 s2 r live hi h : tiling base hi (is_block (l1 ++ (a, s1) :: (a + s1, s2) :: r) live) -> hi <= USER_PAGE_SIZE -> 0 < base ->
  (forall b s, (b, s) ∈ l1 -> b + s <= a) -> (forall b s, (b, s) ∈ r -> a + s1 + s2 <= b) ->
  (forall b s, (b, s) ∈ l1 ++ (a, s1) :: (a + s1, s2) :: r -> live !! b = None) ->
  flist (mem h) (free_list h) (l1 ++ (a, s1) :: (a + s1, s2) :: r) 0 ->
  let h' := join a (a + s1) h in
  tiling base hi (is_block (l1 ++ (a, s1 + s2) :: r) live) /\ flist (mem h') (free_list h') (l1 ++ (a, s1 + s2) :: r) 0 /\ nd h' = nd h /\
  (forall x, x < a \/ a + 8 <= x -> mem h' x = mem h x).
Proof.
  intros T Hhi Hb0 H1 H2 Hf Hl. cbv zeta. set (L := l1 ++ (a, s1) :: (a + s1, s2) :: r) in *.
  assert (I1 : (a, s1) ∈ L) by (apply elem_of_app; right; by left). assert (I2 : (a + s1, s2) ∈ L) by (apply elem_of_app; right; right; by left).
  destruct (ti_blk _ _ _ T _ _ (or_introl I1)) as (A1 & A2 & A3 & A4 & A5). destruct (ti_blk _ _ _ T _ _ (or_introl I2)) as (B1 & B2 & B3 & B4 & B5). unfold USER_PAGE_SIZE in Hhi.
  assert (Hbig : forall b s, (b, s) ∈ L -> 8 <= s) by (intros b s Hb; by destruct (ti_blk _ _ _ T _ _ (or_introl Hb)) as (_ & _ & ? & _)).
  assert (In1 : forall b s, (b, s) ∈ l1 -> (b, s) ∈ L) by (intros; apply elem_of_app; by left).
  assert (Inr : forall b s, (b, s) ∈ r -> (b, s) ∈ L) by (intros; apply elem_of_app; right; right; by right).
  split; [|].
  { apply (tiling_merge base hi _ _ a s1 s2 T (or_introl I1) (or_introl I2)). intros x s. unfold is_block, L. rewrite !elem_of_app, !elem_of_cons. split.
    - intros [[H|[[= -> ->]|H]]|H]; [left| |left|left]; [|tauto| |].
      + specialize (H1 _ _ H). specialize (Hbig _ _ (In1 _ _ H)). split; [tauto|lia].
      + specialize (H2 _ _ H). split; [tauto|lia].
      + split; [tauto|]. split; intros ->; [rewrite (Hf _ _ I1) in H|rewrite (Hf _ _ I2) in H]; done.
    - intros [([[H|[[= -> ->]|[[= -> ->]|H]]]|H] & N1 & N2)|[-> ->]]; tauto. }
  apply flist_app in Hl as (q & F1 & -> & E1 & E2 & E3 & F2). unfold join, set_next, set_size. cbn [mem free_list nd]. unfold size. rewrite E1, E3, next_ok by (unfold USER_PAGE_SIZE; lia).
  rewrite (u32_id (a + 4)) by lia. split; [|split; [done|intros x Hx; by rewrite !wr_out by lia]].
  assert (Hv : 0 <= rd (mem h) (a + s1 + 4) < 2 ^ 32).
  { destruct r as [|[b sb] r]; cbn [flist] in F2; [rewrite F2; lia|]. destruct F2 as (F2 & _). rewrite F2. destruct (ti_blk _ _ _ T _ _ (or_introl (Inr b sb ltac:(by left)))) as (_ & _ & ? & ? & ?). lia. }
  apply (set_head_ok l1 a (s1 + s2) r _ (mem h) (free_list h)).
  - intros b sb [Hb|Hb]; [specialize (H1 _ _ Hb); specialize (Hbig _ _ (In1 _ _ Hb)); lia|specialize (H2 _ _ Hb); lia].
  - lia.
  - done.
  - by exists a.
  - done.
Qed.

(** The heap [h'] has the free blocks [L]; of [h], it changed only bytes of
    free blocks and of the block [(a, sz)]. *)
Record freed (fl : list block) (a sz : Z) (live : gmap Z Z) (h : heap) (L : list block) (h' : heap) : Prop := {
  fr_tile : tiling base (top h) (is_block L live);
  fr_list : flist (mem h') (free_list h') L 0;
  fr_none : forall b s, (b, s) ∈ L -> live !! b = None;
  fr_nd : nd h' = nd h;
  fr_mem : forall x, outside ((a, sz) :: fl) x -> mem h' x = mem h x
}.

(** The block put on the list, not joined to its neighbours yet. *)
Lemma free_place fl live h a sz : arena base fl live h -> live !! a = Some sz ->
  exists l1 l2 h', fl = l1 ++ l2 /\ freed fl a sz (delete a live) h (l1 ++ (a, sz) :: l2) h' /\
    (forall b s, (b, s) ∈ l1 -> b + s <= a) /\ (forall b s, (b, s) ∈ l2 -> a + sz <= b) /\
    (let h1 := set_size a (size h a + 4) h in
     exists cur, find_place (LISTFUEL h1) a 0 (free_list h1) h1 = Some (last_of 0 l1, cur) /\ cur = match l2 with [] => 0 | (c, _) :: _ => c end /\
       h' = link (last_of 0 l1) a (set_next a cur h1)).
Proof.
  intros A Ha. pose proof (arena_small _ _ _ A) as Hs. destruct (round4_ok _ (ar_nd _ _ _ _ A)) as [Hr _]. fold (top h) in Hr. unfold USER_PAGE_SIZE in Hr.
  destruct (ar_blk _ _ _ _ A _ _ (or_intror Ha)) as (A1 & A2 & A3 & A4 & A5). destruct (ar_base _ _ _ _ A) as [[Hb0 _] _]. set (h1 := set_size a (size h a + 4) h).
  assert (Hap : forall b s, (b, s) ∈ fl -> b + s <= a \/ a + sz <= b).
  { intros b s Hin. destruct (ti_apart _ _ _ (ar_tile _ _ _ _ A) b s a sz (or_introl Hin) (or_intror Ha)) as [[-> _]|Hp]; [|exact Hp]. by rewrite (ar_free _ _ _ _ A _ _ Hin) in Ha. }
  assert (Hblk : forall b s, (b, s) ∈ fl -> 8 <= s /\ base <= b /\ b + s <= top h) by (intros b s Hin; destruct (ar_blk _ _ _ _ A b s (or_introl Hin)) as (_ & _ & ? & ? & ?); lia).
  assert (Hl1 : flist (mem h1) (free_list h1) fl 0).
  { apply flist_same with (mem h); [|exact (ar_list _ _ _ _ A)]. intros b s x Hin Hx. symmetry. apply wr_out. destruct (Hap _ _ Hin), (Hblk _ _ Hin); lia. }
  destruct (find_place_ok a h1 (LISTFUEL h1) fl 0 (free_list h1) 0 Hl1 (ar_ord _ _ _ _ A) ltac:(lia) Hs (arena_fuel _ _ _ A)) as (l1 & l2 & -> & Hlt & Hge & Hfp).
  set (cur := match l2 with [] => 0 | (c, _) :: _ => c end) in *. pose proof (ar_ord _ _ _ _ A) as Ho. apply ordered_app in Ho as [O1 O2].
  assert (H1 : forall b s, (b, s) ∈ l1 -> b + s <= a).
  { intros b s Hin. specialize (Hlt _ _ Hin). assert (Hi : (b, s) ∈ l1 ++ l2) by (apply elem_of_app; auto). destruct (Hap _ _ Hi), (Hblk _ _ Hi); lia. }
  assert (H2 : forall b s, (b, s) ∈ l2 -> a + sz <= b).
  { intros b s Hin. assert (Hi : (b, s) ∈ l1 ++ l2) by (apply elem_of_app; auto). assert (a <= b); [|destruct (Hap _ _ Hi), (Hblk _ _ Hi); lia].
    destruct l2 as [|[c sc] r]; [by apply elem_of_nil in Hin|]. specialize (Hge c sc eq_refl). apply elem_of_cons in Hin as [[= -> ->]|Hin]; [done|].
    destruct O2 as (_ & ? & O2). destruct (ordered_in _ _ _ _ O2 Hin). lia. }
  exists l1, l2, (link (last_of 0 l1) a (set_next a cur h1)). split; [done|]. split; [|split; [done|split; [done|by exists cur]]].
  pose proof Hl1 as (q & F1 & F2)%flist_app. set (h2 := set_next a cur h1).
  assert (M2 : forall x, x < a \/ a + 8 <= x -> mem h2 x = mem h x).
  { intros x Hx. unfold h2, set_next, h1, set_size. cbn [mem]. rewrite (u32_id (a + 4)) by lia. by rewrite !wr_out by lia. }
  assert (Hcur : 0 <= cur < 2 ^ 32 /\ q = cur).
  { unfold cur. destruct l2 as [|[c sc] r]; [split; [lia|exact F2]|]. destruct F2 as (-> & _). destruct (Hblk c sc ltac:(apply elem_of_app; right; by left)). lia. }
  destruct Hcur as [Hcur ->].
  assert (Hmid : forall l q p, (forall b s, (b, s) ∈ l -> b + s <= a \/ a + sz <= b) -> (forall b s, (b, s) ∈ l -> 8 <= s) -> flist (mem h1) p l q -> flist (mem h2) p l q).
  { intros l q p Hd H8 Hf. apply flist_same with (mem h1); [|done]. intros b s x Hin Hx. unfold h2, set_next. cbn [mem]. rewrite (u32_id (a + 4)) by lia. symmetry. apply wr_out.
    specialize (H8 _ _ Hin). destruct (Hd _ _ Hin); lia. }
  destruct (link_ok l1 ((a, sz) :: l2) cur a h2 O1 (proj1 (proj1 (small_app _ _) Hs))) as (F3 & N3 & M3).
  - intros b s Hin. assert (end_of 0 l1 <= a).
    { unfold end_of. destruct (last l1) as [[c sc]|] eqn:E; [|lia]. apply last_Some_elem_of in E. by apply H1. }
    apply elem_of_cons in Hin as [[= -> ->]|Hin]; [done|]. specialize (H2 _ _ Hin). lia.
  - lia.
  - apply Hmid; [intros b s Hin; left; by apply H1|intros b s Hin; apply (Hblk b s); apply elem_of_app; auto|done].
  - cbn [flist]. split; [done|]. assert (E1 : rd (mem h2) a = sz).
    { unfold h2, set_next, h1, set_size. cbn [mem]. rewrite (u32_id (a + 4)), rd_wr_ne, rd_wr_same by lia. unfold size. rewrite (ar_size _ _ _ _ A _ _ Ha). rewrite u32_id by lia. lia. }
    assert (E2 : rd (mem h2) (a + 4) = cur) by (unfold h2, set_next; cbn [mem]; rewrite (u32_id (a + 4)), rd_wr_same by lia; by apply u32_id).
    rewrite E1, E2. split; [done|]. apply Hmid; [intros b s Hin; right; by apply (H2 b s)|intros b s Hin; apply (Hblk b s); apply elem_of_app; auto|done].
  - split.
    + apply (tiling_ext _ _ (is_block (l1 ++ l2) live)); [|exact (ar_tile _ _ _ _ A)]. intros x s. unfold is_block. rewrite lookup_delete_Some, !elem_of_app, elem_of_cons. split.
      * intros [[H|H]|H]; [tauto|tauto|]. destruct (Z.eq_dec a x) as [<-|]; [left; right; left; congruence|tauto].
      * intros [[H|[[= -> ->]|H]]|[_ H]]; tauto.
    + exact F3.
    + intros b s Hin. apply lookup_delete_None. destruct (Z.eq_dec a b) as [|Hne]; [by left|right]. apply (ar_free _ _ _ _ A b s).
      rewrite elem_of_app, elem_of_cons in Hin. apply elem_of_app. naive_solver.
    + by rewrite N3.
    + intros x Hx. apply outside_cons in Hx as [Hx1 Hx2]. apply outside_app in Hx2 as [Hx2 _]. rewrite M3 by done. apply M2. lia.
Qed.

Lemma freed_join fl a sz live h l1 b s1 s2 r h1 : top h <= USER_PAGE_SIZE -> 0 < base -> freed fl a sz live h (l1 ++ (b, s1) :: (b + s1, s2) :: r) h1 ->
  (forall c s, (c, s) ∈ l1 -> c + s <= b) -> (forall c s, (c, s) ∈ r -> b + s1 + s2 <= c) -> (exists s, 8 <= s /\ (b, s) ∈ (a, sz) :: fl) ->
  freed fl a sz live h (l1 ++ (b, s1 + s2) :: r) (join b (b + s1) h1).
Proof.
  intros Ht Hb [T F N D M] H1 H2 (s & Hs & Hin). destruct (join_ok l1 b s1 s2 r live (top h) h1 T Ht Hb H1 H2 N F) as (T' & F' & N' & M'). split; [done|done| |congruence|].
  - intros c q Hc. rewrite elem_of_app, elem_of_cons in Hc. destruct (decide (c = b)) as [->|]; [apply (N b s1); apply elem_of_app; right; by left|].
    apply (N c q). rewrite elem_of_app, !elem_of_cons. naive_solver.
  - intros x Hx. rewrite M'; [by apply M|]. specialize (Hx _ _ Hin). lia.
Qed.

Lemma ordered_from l lo lo' : ordered lo l -> (forall b s, (b, s) ∈ l -> lo' < b) -> ordered lo' l.
Proof. destruct l as [|[b s] l]; [done|]. cbn. intros (_ & O1 & O2) H. split_and!; [apply (H b s); by left|done|done]. Qed.

Lemma last_of_snoc l q s : last_of 0 (l ++ [(q, s)]) = q.
Proof. unfold last_of. by rewrite last_snoc. Qed.
Lemma end_of_snoc lo l q s : end_of lo (l ++ [(q, s)]) = q + s.
Proof. unfold end_of. by rewrite last_snoc. Qed.

Lemma flist_size m p l q b s : flist m p l q -> (b, s) ∈ l -> rd m b = s.
Proof.
  revert p. induction l as [|[c sc] l IH]; intros p H Hin; [by apply elem_of_nil in Hin|]. destruct H as (-> & E & H).
  apply elem_of_cons in Hin as [[= -> ->]|Hin]; [done|]. by eapply IH.
Qed.

Lemma free_spec fl live h a sz : arena base fl live h -> live !! a = Some sz ->
  exists fl' h', free (a + 4) h = Some h' /\ arena base fl' (delete a live) h' /\ kept (delete a live) h h'.
Proof.
  intros A Ha. destruct (round4_ok _ (ar_nd _ _ _ _ A)) as [Hr _]. fold (top h) in Hr. destruct (ar_blk _ _ _ _ A _ _ (or_intror Ha)) as (A1 & A2 & A3 & A4 & A5).
  destruct (ar_base _ _ _ _ A) as [[Hb0 Hb1] Hb4]. pose proof (ar_nd _ _ _ _ A) as Hnd. pose proof (ar_ord _ _ _ _ A) as Ho.
  destruct (free_place fl live h a sz A Ha) as (l1 & l2 & h3 & -> & Fr & H1 & H2 & cur & Hfp & Hcur & E3). unfold free. unfold USER_PAGE_SIZE in Hr.
  rewrite (proj2 (Z.eqb_neq (a + 4) 0)) by lia. replace (u32 (a + 4 - 4)) with a by (rewrite u32_id; lia). rewrite Hfp, <- E3.
  apply ordered_app in Ho as [O1 O2]. set (fl := l1 ++ l2) in *. set (live' := delete a live) in *.
  assert (Hsz : size h3 a = sz) by (apply (flist_size _ _ _ _ a sz (fr_list _ _ _ _ _ _ _ Fr)); apply elem_of_app; right; by left).
  (* the block after it *)
  set (h4 := if negb (cur =? 0) && (u32 (a + size h3 a) =? cur) then set_next a (next h3 cur) (set_size a (size h3 a + size h3 cur) h3) else h3).
  assert (exists s4 r4, freed fl a sz live' h (l1 ++ (a, s4) :: r4) h4 /\ ordered (a + s4) r4 /\ 8 <= s4 /\ forall b s, (b, s) ∈ r4 -> (b, s) ∈ l2) as (s4 & r4 & Fr4 & O4 & S4 & I4).
  { unfold h4. rewrite Hsz, (u32_id (a + sz)) by lia. destruct l2 as [|[c sc] r].
    - rewrite Hcur. cbn [Z.eqb negb andb]. exists sz, []. done.
    - rewrite Hcur. pose proof (H2 c sc ltac:(by left)) as Hc. rewrite (proj2 (Z.eqb_neq c 0)) by lia. cbn [negb andb]. destruct O2 as (_ & O2s & O2).
      destruct (Z.eqb_spec (a + sz) c) as [<-|Hne].
      + exists (sz + sc), r. assert (Ej : join a (a + sz) h3 = set_next a (next h3 (a + sz)) (set_size a (sz + size h3 (a + sz)) h3)) by (unfold join; by rewrite Hsz).
        rewrite <- Ej. split_and!; [|by replace (a + (sz + sc)) with (a + sz + sc) by lia|lia|intros b s ?; by right].
        apply freed_join; [unfold USER_PAGE_SIZE; lia|done|exact Fr|exact H1| |exists sz; split; [done|by left]]. intros b s Hin. destruct (ordered_in _ _ _ _ O2 Hin). lia.
      + exists sz, ((c, sc) :: r). split; [exact Fr|]. cbn [ordered]. split_and!; [lia|done|done|done|done]. }
  (* the block before it *)
  set (prev := last_of 0 l1). match goal with |- exists _ h', Some ?x = Some h' /\ _ => set (h5 := x) end.
  assert (exists L, freed fl a sz live' h L h5 /\ ordered 0 L) as (L & Fr5 & O5).
  { unfold h5, prev. destruct l1 as [|[q sq] l0 _] using rev_ind.
    - change (last_of 0 []) with 0. cbn [Z.eqb negb andb]. exists ((a, s4) :: r4). split; [exact Fr4|]. cbn [ordered]. split_and!; [lia|done|done].
    - rewrite last_of_snoc. assert (Hq : (q, sq) ∈ l0 ++ [(q, sq)]) by (apply elem_of_app; right; by left). destruct (ordered_in _ _ _ _ O1 Hq) as (Hq0 & _). apply ordered_app in O1 as [O1 (Oq & Osq & _)].
      rewrite (proj2 (Z.eqb_neq q 0)) by lia. pose proof (H1 _ _ Hq) as Hqa.
      assert (Esq : size h4 q = sq) by (apply (flist_size _ _ _ _ q sq (fr_list _ _ _ _ _ _ _ Fr4)); apply elem_of_app; left; exact Hq).
      assert (Esa : size h4 a = s4) by (apply (flist_size _ _ _ _ a s4 (fr_list _ _ _ _ _ _ _ Fr4)); apply elem_of_app; right; by left).
      rewrite Esq, (u32_id (q + sq)) by lia. cbn [negb andb]. destruct (Z.eqb_spec (q + sq) a) as [<-|Hne].
      + exists (l0 ++ (q, sq + s4) :: r4). split.
        * assert (Ej : join q (q + sq) h4 = set_next q (next h4 (q + sq)) (set_size q (sq + size h4 (q + sq)) h4)) by (unfold join; by rewrite Esq).
          rewrite <- Ej. rewrite <- app_assoc in Fr4. apply freed_join; [unfold USER_PAGE_SIZE; lia|done|exact Fr4| | |].
          -- intros b s Hin. destruct (ordered_in _ _ _ _ O1 Hin) as (_ & _ & ?). lia.
          -- intros b s Hin. destruct (ordered_in _ _ _ _ O4 Hin). lia.
          -- exists sq. split; [done|]. right. apply elem_of_app. by left.
        * apply ordered_app. split; [done|]. cbn [ordered]. split_and!; [done|lia|]. by replace (q + (sq + s4)) with (q + sq + s4) by lia.
      + exists ((l0 ++ [(q, sq)]) ++ (a, s4) :: r4). split; [exact Fr4|]. apply ordered_app. rewrite end_of_snoc. cbn [ordered]. split_and!; [|lia|done|done].
        apply ordered_app. split; [done|]. cbn [ordered]. done. }
  destruct Fr5 as [T F N D M]. assert (K : kept live' h h5).
  { intros b sb x Hb Hx. apply M. apply lookup_delete_Some in Hb as [Hne Hb]. apply outside_cons. split; [|by eapply live_outside].
    destruct (ti_apart _ _ _ (ar_tile _ _ _ _ A) b sb a sz (or_intror Hb) (or_intror Ha)) as [[? _]|Hp]; [congruence|unfold apart in Hp; lia]. }
  assert (Htop : top h5 = top h) by (unfold top; by rewrite D). exists L, h5. split; [done|]. split; [|exact K]. split.
  - by rewrite Htop.
  - by rewrite D.
  - exact F.
  - exact O5.
  - by rewrite Htop.
  - intros b sb Hb. pose proof Hb as [_ Hb']%lookup_delete_Some. rewrite (kept_size _ _ _ _ _ K Hb); [exact (ar_size _ _ _ _ A b sb Hb')|].
    destruct (ar_blk _ _ _ _ A b sb (or_intror Hb')) as (_ & _ & ? & _). lia.
  - exact N.
Qed.

(** ** Writing in a block, and [realloc] *)

(** The program may write what it was given. *)
Lemma arena_write fl live h a sz m : arena base fl live h -> live !! a = Some sz -> (forall x, x < a + 4 \/ a + sz <= x -> m x = mem h x) ->
  arena base fl live (Heap m (free_list h) (nd h)).
Proof.
  intros A Ha Hm. split; try exact (ar_base _ _ _ _ A); try exact (ar_nd _ _ _ _ A); try exact (ar_ord _ _ _ _ A); try exact (ar_tile _ _ _ _ A); try exact (ar_free _ _ _ _ A).
  - apply flist_same with (mem h); [|exact (ar_list _ _ _ _ A)]. intros b s x Hin Hx. symmetry. apply Hm.
    destruct (decide (a <= x < a + sz)) as [Hi|]; [|destruct (ar_blk _ _ _ _ A _ _ (or_intror Ha)) as (_ & _ & ? & _); lia].
    pose proof (live_outside _ _ _ _ _ _ A Ha Hi _ _ Hin). destruct (ar_blk _ _ _ _ A b s (or_introl Hin)) as (_ & _ & ? & _). lia.
  - intros b sb Hb. rewrite <- (ar_size _ _ _ _ A b sb Hb). apply rd_same. intros x Hx. cbn [mem]. apply Hm.
    destruct (ar_blk _ _ _ _ A _ _ (or_intror Hb)) as (_ & _ & ? & _). destruct (ti_apart _ _ _ (ar_tile _ _ _ _ A) a sz b sb (or_intror Ha) (or_intror Hb)) as [[-> _]|Hp]; [lia|].
    unfold apart in Hp. lia.
Qed.

Lemma mem_copy_apart n : forall src dst m x, src + Z.of_nat n <= dst \/ dst + Z.of_nat n <= src ->
  mem_copy n src dst m x = if decide (dst <= x < dst + Z.of_nat n) then m (src + (x - dst)) else m x.
Proof.
  induction n as [|n IH]; intros src dst m x Hd; cbn [mem_copy]; [by rewrite decide_False by lia|]. rewrite IH by lia.
  destruct (decide (x = dst)) as [->|Hne].
  - rewrite decide_False by lia. rewrite decide_True, fn_lookup_insert by lia. f_equal. lia.
  - destruct (decide (dst + 1 <= x < dst + 1 + Z.of_nat n)).
    + rewrite decide_True by lia. rewrite fn_lookup_insert_ne by lia. f_equal. lia.
    + rewrite decide_False by lia. by rewrite fn_lookup_insert_ne.
Qed.

Lemma realloc_spec fl live h a sz n : arena base fl live h -> live !! a = Some sz -> sz - 4 < 65536 -> 0 < n < 65536 ->
  (realloc grant (a + 4) n h = Some (a + 4, h) /\ n <= sz - 4) \/ (realloc grant (a + 4) n h = Some (0, h) /\ grant (top h + (malloc_need n + 4)) = false) \/
  exists b sb fl' h', realloc grant (a + 4) n h = Some (b + 4, h') /\ arena base fl' (delete a (<[b := sb]> live)) h' /\ live !! b = None /\ sz - 4 < n <= sb - 4 /\
    kept (delete a live) h h' /\ forall x, 0 <= x < sz - 4 -> mem h' (b + 4 + x) = mem h (a + 4 + x).
Proof.
  intros A Ha Hsz Hn. destruct (round4_ok _ (ar_nd _ _ _ _ A)) as [Hr _]. fold (top h) in Hr. unfold USER_PAGE_SIZE in Hr.
  destruct (ar_blk _ _ _ _ A _ _ (or_intror Ha)) as (A1 & A2 & A3 & A4 & A5). destruct (ar_base _ _ _ _ A) as [[Hb0 _] _].
  unfold realloc. rewrite (proj2 (Z.eqb_neq (a + 4) 0)), (proj2 (Z.eqb_neq n 0)) by lia. replace (u32 (a + 4 - 4)) with a by (rewrite u32_id; lia).
  change (size h a) with (rd (mem h) a). rewrite (ar_size _ _ _ _ A _ _ Ha), u16_id by lia. destruct (Z.leb_spec n (sz - 4)); [by left|right].
  destruct (malloc_spec n fl live h A ltac:(lia)) as [(-> & _ & Hg)|(p & h1 & -> & (b & sb & fl1 & -> & Hb & Hnew & A' & K1) & _)]; [by left|right].
  assert (Hbs : (<[b := sb]> live) !! b = Some sb) by apply lookup_insert_eq. destruct (ar_blk _ _ _ _ A' _ _ (or_intror Hbs)) as (B1 & B2 & B3 & B4 & B5).
  assert (Hab : a <> b) by congruence. rewrite (proj2 (Z.eqb_neq (b + 4) 0)) by lia. rewrite (proj2 (Z.ltb_ge n (sz - 4))) by lia.
  assert (Ha1 : (<[b := sb]> live) !! a = Some sz) by (by rewrite lookup_insert_ne). set (m2 := mem_copy _ _ _ (mem h1)).
  assert (Hap : apart a sz b sb) by (destruct (ti_apart _ _ _ (ar_tile _ _ _ _ A') a sz b sb (or_intror Ha1) (or_intror Hbs)) as [[? _]|Hp]; [done|exact Hp]). unfold apart in Hap.
  assert (Hcopy : forall x, m2 x = if decide (b + 4 <= x < b + 4 + (sz - 4)) then mem h1 (a + 4 + (x - (b + 4))) else mem h1 x).
  { intros x. unfold m2. rewrite mem_copy_apart, Z2Nat.id by lia. done. }
  pose proof (arena_write fl1 _ h1 b sb m2 A' Hbs ltac:(intros x Hx; rewrite Hcopy, decide_False by lia; done)) as A2'.
  destruct (free_spec _ _ _ a sz A2' Ha1) as (fl3 & h3 & Hf & A3' & K3). rewrite Hf. exists b, sb, fl3, h3. split_and!; [done|done|done|lia|lia| |].
  - intros c sc x Hc Hx. pose proof Hc as [Hne Hc']%lookup_delete_Some. assert (Hcb : c <> b) by congruence.
    assert (Hc3 : delete a (<[b := sb]> live) !! c = Some sc) by (by rewrite lookup_delete_ne, lookup_insert_ne). rewrite (K3 _ _ _ Hc3 Hx). cbn [mem]. rewrite Hcopy, decide_False; [by apply (K1 c sc)|].
    assert (Hc1 : (<[b := sb]> live) !! c = Some sc) by (by rewrite lookup_insert_ne). destruct (ti_apart _ _ _ (ar_tile _ _ _ _ A') c sc b sb (or_intror Hc1) (or_intror Hbs)) as [[? _]|Hp]; [done|]. unfold apart in Hp. lia.
  - intros x Hx. assert (Hb3 : delete a (<[b := sb]> live) !! b = Some sb) by (by rewrite lookup_delete_ne, lookup_insert_eq). rewrite (K3 _ _ (b + 4 + x) Hb3 ltac:(lia)). cbn [mem].
    rewrite Hcopy, decide_True by lia. replace (a + 4 + (b + 4 + x - (b + 4))) with (a + 4 + x) by lia. apply (K1 a sz); [done|lia].
Qed.
End Arena.

(** ** What the allocator promises *)

(** The blocks in use, by address, with the bytes the program keeps in them. *)
Abbreviation store := (gmap Z (list Z)).

Inductive call :=
  | CMalloc (n : Z) | CCalloc (count sz : Z) | CFree (a : Z) | CRealloc (a n : Z) | CStore (a i v : Z).

(** A program frees and reallocates what it was given, and writes inside. *)
Definition proper (st : store) (c : call) : Prop :=
  match c with
  | CMalloc n => 0 <= n < 65536
  | CCalloc count sz => 0 <= count < 65536 /\ 0 <= sz < 65536
  | CFree a => is_Some (st !! a)
  | CRealloc a n => 0 < n < 65536 /\ exists bs, st !! a = Some bs /\ Z.of_nat (length bs) < 65536
  | CStore a i v => exists bs, st !! a = Some bs /\ 0 <= i < Z.of_nat (length bs)
  end.

(** What a call may answer, and the blocks after it: a fresh block of at least
    the size asked for, or 0 and nothing happened. *)
Inductive promise : store -> call -> Z -> store -> Prop :=
  | p_malloc st n a bs : st !! a = None -> n <= Z.of_nat (length bs) -> promise st (CMalloc n) (a + 4) (<[a := bs]> st)
  | p_malloc_0 st n : promise st (CMalloc n) 0 st
  | p_calloc st count sz a bs : st !! a = None -> count * sz <= Z.of_nat (length bs) -> count * sz < 65536 ->
      take (Z.to_nat (count * sz)) bs = replicate (Z.to_nat (count * sz)) 0 -> promise st (CCalloc count sz) (a + 4) (<[a := bs]> st)
  | p_calloc_0 st count sz : promise st (CCalloc count sz) 0 st
  | p_free st a : promise st (CFree a) 0 (delete a st)
  | p_realloc_here st a n bs : st !! a = Some bs -> n <= Z.of_nat (length bs) -> promise st (CRealloc a n) (a + 4) st
  | p_realloc_moved st a n b bs cs : st !! a = Some bs -> st !! b = None -> n <= Z.of_nat (length cs) -> take (length bs) cs = bs ->
      promise st (CRealloc a n) (b + 4) (<[b := cs]> (delete a st))
  | p_realloc_0 st a n : promise st (CRealloc a n) 0 st
  | p_store st a i v bs : st !! a = Some bs -> promise st (CStore a i v) 0 (<[a := <[Z.to_nat i := v]> bs]> st).

Lemma mem_read_store m a i v bs : mem_read m a (length bs) = bs -> 0 <= i < Z.of_nat (length bs) ->
  mem_read (<[a + i := v]> m) a (length bs) = <[Z.to_nat i := v]> bs.
Proof.
  intros E Hi. apply list_eq. intros k. destruct (decide (k < length bs)%nat); [|rewrite !lookup_ge_None_2; [done|rewrite length_insert; lia|rewrite mem_read_length; lia]].
  rewrite mem_read_at by done. destruct (decide (k = Z.to_nat i)) as [->|Hne].
  - rewrite Z2Nat.id, fn_lookup_insert, list_lookup_insert_eq by lia. done.
  - rewrite fn_lookup_insert_ne, list_lookup_insert_ne by lia. rewrite <- E. by rewrite mem_read_at by done.
Qed.

Section Promise.
Context (base : Z) (grant : Z -> bool) (Hgrant : forall d, grant d = true -> d <= USER_PAGE_SIZE).

Definition run_call (c : call) (h : heap) : option (Z * heap) :=
  match c with
  | CMalloc n => malloc grant n h
  | CCalloc count sz => calloc grant count sz h
  | CFree a => option_map (pair 0) (free (a + 4) h)
  | CRealloc a n => realloc grant (a + 4) n h
  | CStore a i v => Some (0, Heap (<[a + 4 + i := v]> (mem h)) (free_list h) (nd h))
  end.

(** The sizes of the blocks, with the word in front. *)
Definition sizes (st : store) : gmap Z Z := (fun bs => Z.of_nat (length bs) + 4) <$> st.

Definition holds (st : store) (h : heap) : Prop :=
  (exists fl, arena base fl (sizes st) h) /\ forall a bs, st !! a = Some bs -> mem_read (mem h) (a + 4) (length bs) = bs.

Lemma sizes_lookup st a bs : st !! a = Some bs -> sizes st !! a = Some (Z.of_nat (length bs) + 4).
Proof. unfold sizes. rewrite lookup_fmap. by intros ->. Qed.

Lemma sizes_none st a : sizes st !! a = None <-> st !! a = None.
Proof. unfold sizes. rewrite lookup_fmap. by destruct (st !! a). Qed.

Lemma kept_bytes st h h' : kept (sizes st) h h' -> forall a bs, st !! a = Some bs -> mem_read (mem h) (a + 4) (length bs) = bs -> mem_read (mem h') (a + 4) (length bs) = bs.
Proof. intros K a bs Ha Hb. rewrite <- Hb at 2. apply mem_read_same. intros x Hx. apply (K a _ x (sizes_lookup _ _ _ Ha)). lia. Qed.

(** A fresh block joins those in use with the bytes that are in it. *)
Lemma holds_fresh st h h' n a sz fl' : holds st h -> n <= sz - 4 -> 0 <= sz - 4 -> sizes st !! a = None -> arena base fl' (<[a := sz]> (sizes st)) h' -> kept (sizes st) h h' ->
  exists bs, st !! a = None /\ bs = mem_read (mem h') (a + 4) (Z.to_nat (sz - 4)) /\ Z.of_nat (length bs) = sz - 4 /\ holds (<[a := bs]> st) h'.
Proof.
  intros [_ Hb] Hn H0 Ha A K. set (bs := mem_read (mem h') (a + 4) (Z.to_nat (sz - 4))). assert (Hl : length bs = Z.to_nat (sz - 4)) by (unfold bs, mem_read; rewrite length_fmap, length_seqZ; lia).
  exists bs. split_and!; [by apply sizes_none|done|lia|]. split.
  - exists fl'. unfold sizes. rewrite fmap_insert. rewrite Hl, Z2Nat.id by lia. by replace (sz - 4 + 4) with sz by lia.
  - intros b cs. destruct (decide (a = b)) as [<-|Hne].
    + rewrite lookup_insert_eq. intros [= <-]. by rewrite Hl.
    + rewrite lookup_insert_ne by done. intros Hc. apply (kept_bytes st h h' K); [done|by apply Hb].
Qed.

Lemma holds_malloc st h n : holds st h -> 0 <= n < 65536 ->
  (malloc grant n h = Some (0, h)) \/
  exists a bs h', malloc grant n h = Some (a + 4, h') /\ st !! a = None /\ n <= Z.of_nat (length bs) /\ 0 < a /\ holds (<[a := bs]> st) h'.
Proof.
  intros H Hn. pose proof H as [[fl A] Hb]. destruct (malloc_spec base grant Hgrant n fl _ h A Hn) as [[-> _]|(p & h' & -> & (a & sz & fl' & -> & Hs & Ha & A' & K) & _)]; [by left|right].
  destruct (ar_blk _ _ _ _ A' a sz (or_intror (lookup_insert_eq _ _ _))) as (_ & _ & ? & ? & _). destruct (ar_base _ _ _ _ A') as [[? _] _].
  destruct (holds_fresh st h h' n a sz fl' H Hs ltac:(lia) Ha A' K) as (bs & ? & _ & ? & ?). exists a, bs, h'. split_and!; [done|done|lia|lia|done].
Qed.

Lemma holds_free st h a : holds st h -> is_Some (st !! a) -> exists h', free (a + 4) h = Some h' /\ holds (delete a st) h'.
Proof.
  intros [[fl A] Hb] [bs Ha]. destruct (free_spec base fl _ h a _ A (sizes_lookup _ _ _ Ha)) as (fl' & h' & -> & A' & K). exists h'. split; [done|].
  assert (E : delete a (sizes st) = sizes (delete a st)) by (unfold sizes; by rewrite fmap_delete). rewrite E in A', K. split; [by exists fl'|].
  intros b cs Hc. apply (kept_bytes _ _ _ K b cs Hc). apply lookup_delete_Some in Hc as [_ Hc]. by apply Hb.
Qed.

(** Writing inside a block changes its bytes and no other's. *)
Lemma holds_write st h a bs cs m : holds st h -> st !! a = Some bs -> length cs = length bs -> mem_read m (a + 4) (length cs) = cs ->
  (forall x, x < a + 4 \/ a + 4 + Z.of_nat (length bs) <= x -> m x = mem h x) -> holds (<[a := cs]> st) (Heap m (free_list h) (nd h)).
Proof.
  intros [[fl A] Hb] Ha Hl Hcs Hm. pose proof (sizes_lookup _ _ _ Ha) as Hs. split.
  - exists fl. unfold sizes. rewrite fmap_insert, Hl. fold (sizes st). rewrite insert_id by done. apply (arena_write base fl _ h a _ m A Hs). intros x Hx. apply Hm. lia.
  - intros b ds. destruct (decide (a = b)) as [<-|Hne]; [rewrite lookup_insert_eq; by intros [= <-]|]. rewrite lookup_insert_ne by done. intros Hd. rewrite <- (Hb b ds Hd) at 2.
    apply mem_read_same. intros x Hx. cbn [mem]. apply Hm. pose proof (sizes_lookup _ _ _ Hd) as Hsd.
    destruct (ti_apart _ _ _ (ar_tile _ _ _ _ A) _ _ _ _ (or_intror Hs) (or_intror Hsd)) as [[? _]|Hp]; [done|]. unfold apart in Hp. lia.
Qed.

Lemma holds_calloc st h count sz : holds st h -> 0 <= count < 65536 -> 0 <= sz < 65536 ->
  exists r h' st', calloc grant count sz h = Some (r, h') /\ promise st (CCalloc count sz) r st' /\ holds st' h'.
Proof.
  intros H Hc Hs. unfold calloc. rewrite !u16_id by lia. rewrite (u32_id (count * sz)) by nia. destruct (Z.ltb_spec 65535 (count * sz)); [exists 0, h, st; split_and!; [done|constructor|done]|].
  set (w := count * sz) in *. assert (Hw : 0 <= w < 65536) by nia. destruct (holds_malloc st h w H Hw) as [->|(a & bs & h' & -> & Ha & Hl & Hpos & H')].
  { exists 0, h, st. split_and!; [done|constructor|done]. }
  rewrite (proj2 (Z.eqb_neq (a + 4) 0)) by lia. set (m := mem_write _ _ _). set (cs := mem_read m (a + 4) (length bs)).
  assert (Hcs : length cs = length bs) by apply mem_read_length. eexists (a + 4), _, (<[a := cs]> st). split; [done|]. split.
  - constructor; [done|rewrite Hcs; exact Hl|exact (proj2 Hw)|]. fold w. unfold cs. rewrite mem_read_take by lia. unfold m.
    pose proof (mem_read_write (replicate (Z.to_nat w) 0) (a + 4) (mem h')) as E. by rewrite length_replicate in E.
  - pose proof (holds_write _ h' a bs cs m H' (lookup_insert_eq _ _ _) Hcs) as Hw'. rewrite insert_insert_eq in Hw'. apply Hw'; [unfold cs at 2; by rewrite Hcs|].
    intros x Hx. unfold m. rewrite mem_write_lookup, length_replicate, decide_False by lia. done.
Qed.

Lemma holds_realloc st h a bs n : holds st h -> st !! a = Some bs -> Z.of_nat (length bs) < 65536 -> 0 < n < 65536 ->
  exists r h' st', realloc grant (a + 4) n h = Some (r, h') /\ promise st (CRealloc a n) r st' /\ holds st' h'.
Proof.
  intros H Ha Hl Hn. pose proof H as [[fl A] Hb]. pose proof (sizes_lookup _ _ _ Ha) as Hs.
  destruct (realloc_spec base grant Hgrant fl _ h a _ n A Hs ltac:(lia) Hn) as [[-> Hle]|[[-> _]|(b & sb & fl' & h' & -> & A' & Hnb & Hle & K & Hcopy)]].
  - exists (a + 4), h, st. split_and!; [done|apply (p_realloc_here _ _ _ bs); [done|lia]|done].
  - exists 0, h, st. split_and!; [done|constructor|done].
  - apply sizes_none in Hnb. assert (Hab : a <> b) by congruence. set (cs := mem_read (mem h') (b + 4) (Z.to_nat (sb - 4))).
    assert (Hcs : length cs = Z.to_nat (sb - 4)) by apply mem_read_length. exists (b + 4), h', (<[b := cs]> (delete a st)). split; [done|].
    assert (Hread : mem_read (mem h') (b + 4) (length bs) = bs).
    { rewrite <- (Hb a bs Ha) at 2. apply mem_read_move. intros x Hx. apply Hcopy. lia. }
    assert (E : delete a (<[b := sb]> (sizes st)) = sizes (<[b := cs]> (delete a st))).
    { rewrite delete_insert_ne by done. unfold sizes. rewrite fmap_insert, fmap_delete, Hcs. f_equal. lia. }
    split; [apply (p_realloc_moved _ _ _ _ bs); [done|done|lia|unfold cs; by rewrite mem_read_take by lia]|].
    rewrite E in A'. split; [by exists fl'|]. intros c ds. destruct (decide (b = c)) as [<-|Hne].
    + rewrite lookup_insert_eq. intros [= <-]. by rewrite Hcs.
    + rewrite lookup_insert_ne by done. intros Hd. assert (K' : kept (sizes (delete a st)) h h') by (unfold sizes; rewrite fmap_delete; exact K).
      apply (kept_bytes _ _ _ K' c ds Hd). apply lookup_delete_Some in Hd as [_ Hd]. by apply Hb.
Qed.
End Promise.

(** ** The properties *)

(** A heap with nothing given out, below a break of one page. *)
Definition heap0 : heap := Heap (fun _ => 0) 0 4096.

Lemma arena_heap0 : arena 4096 [] ∅ heap0.
Proof.
  assert (Ht : top heap0 = 4096) by reflexivity.
  split; rewrite ?Ht; unfold heap0; cbn; try done; try (unfold USER_PAGE_SIZE; lia); try (by intros a sz Hin; apply elem_of_nil in Hin).
  split; unfold is_block.
  - intros a sz [Hin|Hin]; [by apply elem_of_nil in Hin|by rewrite lookup_empty in Hin].
  - intros a sz b sb [Hin|Hin]; [by apply elem_of_nil in Hin|by rewrite lookup_empty in Hin].
  - intros x Hx. lia.
Qed.

Section Properties.
Context (base : Z) (grant : Z -> bool) (Hgrant : forall d, grant d = true -> d <= USER_PAGE_SIZE).

(** C16. The allocator keeps what it promises: every call of a program that
    frees and reallocates what it was given and writes inside ends, answers a
    fresh block of at least the size asked for or 0, and the bytes of all the
    other blocks are what the program left there. [realloc] moves the bytes,
    [calloc] clears them. *)
Theorem heap_refines st c h : holds base st h -> proper st c ->
  exists r h' st', run_call grant c h = Some (r, h') /\ promise st c r st' /\ holds base st' h'.
Proof.
  intros H P. destruct c as [n|count sz|a|a n|a i v]; cbn [proper run_call] in *.
  - destruct (holds_malloc base grant Hgrant st h n H P) as [->|(a & bs & h' & -> & Ha & Hl & _ & H')].
    + exists 0, h, st. split_and!; [done|constructor|done].
    + exists (a + 4), h', (<[a := bs]> st). split_and!; [done|by constructor|done].
  - destruct P. by apply (holds_calloc base grant Hgrant).
  - destruct (holds_free base st h a H P) as (h' & -> & H'). exists 0, h', (delete a st). split_and!; [done|constructor|done].
  - destruct P as (Hn & bs & Ha & Hl). by apply (holds_realloc base grant Hgrant st h a bs).
  - destruct P as (bs & Ha & Hi). eexists 0, _, (<[a := <[Z.to_nat i := v]> bs]> st). split_and!; [done|by constructor|].
    apply (holds_write base st h a bs); [done|done|by rewrite length_insert| |].
    + rewrite length_insert. apply mem_read_store; [by apply (proj2 H)|done].
    + intros x Hx. rewrite fn_lookup_insert_ne; [done|lia].
Qed.

(** [malloc] answers 0 exactly when no free block is large enough for the
    size rounded up to words and its size word, and the system does not move
    the break by as much; nothing has changed then. *)
Lemma malloc_null n fl live h : arena base fl live h -> 0 <= n < 65536 ->
  (exists h', malloc grant n h = Some (0, h')) <->
  (forall a sz, (a, sz) ∈ fl -> sz < malloc_need n + 4) /\ grant (top h + (malloc_need n + 4)) = false.
Proof.
  intros A Hn. split.
  - intros [h' E]. destruct (malloc_spec base grant Hgrant n fl live h A Hn) as [(_ & ? & ?)|(p & h2 & E2 & (a & sz & fl' & -> & _ & _ & A' & _) & _)]; [done|].
    rewrite E in E2. injection E2 as Ez _. destruct (ar_blk _ _ _ _ A' a sz (or_intror (lookup_insert_eq _ _ _))) as (_ & _ & _ & ? & _).
    destruct (ar_base _ _ _ _ A') as [[? _] _]. lia.
  - intros [Hall Hg]. exists h. destruct (malloc_spec base grant Hgrant n fl live h A Hn) as [(-> & _)|(p & h2 & E2 & _ & [(_ & a & sz & Hin & Hle)|[? _]])]; [done| |congruence].
    specialize (Hall _ _ Hin). lia.
Qed.
End Properties.

(** The break moves up to the stack's page. *)
Definition ex_grant (d : Z) : bool := d <=? USER_PAGE_SIZE.

Lemma ex_grant_ok d : ex_grant d = true -> d <= USER_PAGE_SIZE.
Proof. apply Z.leb_le. Qed.

Lemma holds_heap0 : holds 4096 ∅ heap0.
Proof. split; [exists []; exact arena_heap0|]. intros a bs Ha. by rewrite lookup_empty in Ha. Qed.

Lemma heap_refines_witness : option_map fst (run_call ex_grant (CMalloc 5) heap0) = Some 4100 /\
  exists r h' st', run_call ex_grant (CMalloc 5) heap0 = Some (r, h') /\ promise ∅ (CMalloc 5) r st' /\ holds 4096 st' h'.
Proof. split; [by vm_compute|]. apply (heap_refines 4096 ex_grant ex_grant_ok ∅ (CMalloc 5) heap0 holds_heap0). split; [discriminate|reflexivity]. Defined.

Lemma malloc_null_witness : (exists h', malloc (fun _ => false) 5 heap0 = Some (0, h')) <->
  (forall a sz, (a, sz) ∈ ([] : list block) -> sz < malloc_need 5 + 4) /\ false = false.
Proof.
  apply (malloc_null 4096 (fun _ => false) ltac:(discriminate) 5 [] ∅ heap0 arena_heap0). split; [discriminate|reflexivity].
Defined.

(** Some calls one after the other: the size in front of the first block and
    the head of the free list after [malloc] of 5, 100 and 7 bytes, [free] of
    the second, [malloc] of 20 from it and [free] of all. *)
Example heap_runs :
  (h1 ← malloc ex_grant 5 heap0; h2 ← malloc ex_grant 100 (snd h1); h3 ← malloc ex_grant 7 (snd h2); h4 ← free (fst h2) (snd h3);
   h5 ← malloc ex_grant 20 h4; h6 ← free (fst h5) (snd h5); h7 ← free (fst h3) h6; h8 ← free (fst h1) h7;
   Some (fst h1, fst h2, fst h3, free_list h4, fst h5, free_list (snd h5), free_list h8, size h8 (free_list h8), next h8 (free_list h8), nd h8)) =
  Some (4100, 4112, 4216, 4108, 4112, 4132, 4096, 128, 0, 4224).
Proof. by vm_compute. Qed.

(** [realloc] reads the size of a block of 65536 bytes, which [malloc] gives
    for 65533 to 65535, into 16 bits: it takes the block for an empty one and
    moves none of its bytes. *)
Example realloc_forgets_64k :
  (h1 ← malloc ex_grant 65535 heap0; h2 ← realloc ex_grant (fst h1) 65535 (Heap (<[fst h1 := 77]> (mem (snd h1))) (free_list (snd h1)) (nd (snd h1)));
   Some (fst h1, fst h2, mem (snd h2) (fst h2))) = Some (4100, 69640, 0).
Proof. by vm_compute. Qed.
