(* ===== verification/Qsort.v ===== *)
(** [qsort] of the C library ([toolchain/ack/libc/gen_sort.c]), byte by byte:
    the exchanges move characters, the comparison reads the memory.

    An [int] is 16 bits wide, a pointer and an [i32] 32; the addresses of an
    array do not wrap around. *)
From S2P Require Import Prelude Malloc Clist Kernel Sched Codec Usermem.

Section Qsort.
(** The comparison the caller gives, [qscmp], and the width, [qses]. *)
Context (qscmp : (Z -> Z) -> Z -> Z -> Z) (es : Z).

(** [do ... while (--n)]: as often as the 32-bit [n], never 0 times. *)
Definition turns (n : Z) : nat := Z.to_nat (if u32 n =? 0 then 2 ^ 32 else u32 n).

Fixpoint qsexc_loop (n : nat) (ri rj : Z) (m : Z -> Z) : Z -> Z :=
  match n with
  | O => m
  | S n => let c := m ri in let m := <[ri := m rj]> m in qsexc_loop n (ri + 1) (rj + 1) (<[rj := c]> m)
  end.
Definition qsexc (i j : Z) (m : Z -> Z) : Z -> Z := qsexc_loop (turns es) i j m.

Fixpoint qstexc_loop (n : nat) (ri rj rk : Z) (m : Z -> Z) : Z -> Z :=
  match n with
  | O => m
  | S n =>
      let c := m ri in let m := <[ri := m rk]> m in let m := <[rk := m rj]> m in
      qstexc_loop n (ri + 1) (rj + 1) (rk + 1) (<[rj := c]> m)
  end.
Definition qstexc (i j k : Z) (m : Z -> Z) : Z -> Z := qstexc_loop (turns es) i j k m.

(** The partition: [top] is the head of the [for], otherwise control is at the
    label [loop]. The answer is [lp], [hp] and the memory where [goto start]
    is reached. *)
Fixpoint partition (fuel : nat) (top : bool) (i j lp hp : Z) (m : Z -> Z) : option (Z * Z * (Z -> Z)) :=
  match fuel with
  | O => None
  | S fuel =>
      let loop :=
        if hp <? j then
          let c := qscmp m hp j in
          if c =? 0 then let hp := hp + es in partition fuel false i j lp hp (qsexc hp j m)
          else if 0 <? c then
            if i =? lp then
              let hp := hp + es in let m := qstexc i hp j m in let lp := lp + es in partition fuel false lp j lp hp m
            else partition fuel true (i + es) (j - es) lp hp (qsexc i j m)
          else partition fuel false i (j - es) lp hp m
        else if i =? lp then Some (lp, hp, m)
        else let lp := lp - es in let m := qstexc j lp i m in let hp := hp - es in partition fuel true i hp lp hp m in
      if top && (i <? lp) then
        let c := qscmp m i lp in
        if c =? 0 then let lp := lp - es in partition fuel true i j lp hp (qsexc i lp m)
        else if c <? 0 then partition fuel true (i + es) j lp hp m
        else loop
      else loop
  end.

(** The fuel of a partition: every turn brings [i] to [lp] or [j] to [hp]. *)
Definition PARTFUEL (a l : Z) : nat := S (Z.to_nat (l - a)).

(** The smaller part is sorted by the recursive call, the other by [goto]. *)
Fixpoint qs1 (fuel : nat) (a l : Z) (m : Z -> Z) : option (Z -> Z) :=
  match fuel with
  | O => None
  | S fuel =>
      let n := u16 (l - a) in
      if n <=? es then Some m
      else
        let n := es * Z.quot n (2 * es) in
        match partition (PARTFUEL a l) true a (l - es) (a + n) (a + n) m with
        | None => None
        | Some (lp, hp, m) =>
            if l - hp <=? lp - a then match qs1 fuel (hp + es) l m with Some m => qs1 fuel a lp m | None => None end
            else match qs1 fuel a lp m with Some m => qs1 fuel (hp + es) l m | None => None end
        end
  end.
End Qsort.

Definition qsort (a n es : Z) (fc : (Z -> Z) -> Z -> Z -> Z) (m : Z -> Z) : option (Z -> Z) :=
  let l := a + u16 n * es in qs1 fc es (S (Z.to_nat (l - a))) a l m.

(** ** The exchanges *)

(** Two areas of [n] bytes, the same or without a byte in common. *)
Definition same_or_apart (n i j : Z) : Prop := i = j \/ i + n <= j \/ j + n <= i.

Lemma qsexc_loop_at n : forall i j m x, same_or_apart (Z.of_nat n) i j ->
  qsexc_loop n i j m x = if decide (i <= x < i + Z.of_nat n) then m (j + (x - i)) else if decide (j <= x < j + Z.of_nat n) then m (i + (x - j)) else m x.
Proof.
  unfold same_or_apart. induction n as [|n IH]; intros i j m x Hd; cbn [qsexc_loop]; [by rewrite !decide_False by lia|].
  rewrite IH by lia. unfold insert, fn_insert. repeat case_decide; try lia; f_equal; lia.
Qed.

Lemma qstexc_loop_at n : forall i j k m x, i + Z.of_nat n <= j \/ j + Z.of_nat n <= i -> i + Z.of_nat n <= k \/ k + Z.of_nat n <= i -> same_or_apart (Z.of_nat n) j k ->
  qstexc_loop n i j k m x = if decide (i <= x < i + Z.of_nat n) then m (k + (x - i)) else if decide (j <= x < j + Z.of_nat n) then m (i + (x - j))
    else if decide (k <= x < k + Z.of_nat n) then m (j + (x - k)) else m x.
Proof.
  unfold same_or_apart. induction n as [|n IH]; intros i j k m x Hij Hik Hd; cbn [qstexc_loop]; [by rewrite !decide_False by lia|].
  rewrite IH by lia. unfold insert, fn_insert. repeat case_decide; try lia; f_equal; lia.
Qed.

(** ** The elements of an array *)

Abbreviation elem := (list Z).

(** The exchange of two elements, and any number of exchanges inside a range. *)
Definition swap (i j : Z) (f : Z -> elem) : Z -> elem := <[j := f i]> (<[i := f j]> f).

Inductive swaps (lo hi : Z) (f : Z -> elem) : (Z -> elem) -> Prop :=
  | swaps_refl g : (forall k, g k = f k) -> swaps lo hi f g
  | swaps_step g g' i j : swaps lo hi f g -> lo <= i < hi -> lo <= j < hi -> (forall k, g' k = swap i j g k) -> swaps lo hi f g'.

Lemma swap_at i j f k : swap i j f k = if decide (k = j) then f i else if decide (k = i) then f j else f k.
Proof. unfold swap, insert, fn_insert. repeat case_decide; congruence. Qed.

Lemma swaps_trans lo hi f g g' : swaps lo hi f g -> swaps lo hi g g' -> swaps lo hi f g'.
Proof.
  intros H1 H2. induction H2 as [g2 E|g2 g3 i j _ IH Hi Hj E]; [|exact (swaps_step _ _ _ _ _ i j IH Hi Hj E)].
  destruct H1 as [g1 E1|g1 g1' i j H Hi Hj E1]; [apply swaps_refl; intros k; by rewrite E, E1|].
  eapply (swaps_step _ _ _ _ _ i j); [exact H|done|done|]. intros k. by rewrite E, E1.
Qed.

Lemma swaps_mono lo hi lo' hi' f g : lo' <= lo -> hi <= hi' -> swaps lo hi f g -> swaps lo' hi' f g.
Proof. intros ? ?. induction 1; [by apply swaps_refl|]. eapply swaps_step; [eassumption| | |eassumption]; lia. Qed.

Lemma swaps_outside lo hi f g k : swaps lo hi f g -> k < lo \/ hi <= k -> g k = f k.
Proof.
  intros H Hk. induction H as [g E|g g' i j _ IH Hi Hj E]; [done|]. rewrite E, swap_at. by rewrite !decide_False by lia.
Qed.

(** What holds of all the elements of the range still does. *)
Lemma swaps_all lo hi f g (P : elem -> Prop) : swaps lo hi f g -> (forall k, lo <= k < hi -> P (f k)) -> forall k, lo <= k < hi -> P (g k).
Proof.
  intros H HP. induction H as [g E|g g' i j _ IH Hi Hj E]; intros k Hk; [rewrite E; by apply HP|].
  rewrite E, swap_at. repeat case_decide; apply IH; lia.
Qed.

Lemma swap_perm lo n i j f : lo <= i < lo + n -> lo <= j < lo + n -> swap i j f <$> seqZ lo n ≡ₚ f <$> seqZ lo n.
Proof.
  assert (W : forall a b, lo <= a -> a < b -> b < lo + n -> forall g : Z -> elem, g a = f b -> g b = f a -> (forall k, k <> a -> k <> b -> g k = f k) -> g <$> seqZ lo n ≡ₚ f <$> seqZ lo n).
  { intros a b Ha Hab Hb g Ga Gb Gk. replace n with ((a - lo) + (1 + ((b - a - 1) + (1 + (lo + n - b - 1))))) by lia.
    rewrite !seqZ_app by lia. rewrite !fmap_app. replace (lo + (a - lo)) with a by lia. replace (a + 1 + (b - a - 1)) with b by lia.
    rewrite !(seqZ_cons _ 1), !(seqZ_nil _ (Z.pred 1)) by lia. cbn [fmap list_fmap]. rewrite Ga, Gb.
    assert (E : forall x c, (forall k, x <= k < x + c -> k <> a /\ k <> b) -> g <$> seqZ x c = f <$> seqZ x c).
    { intros x c Hx. apply list_fmap_ext. intros i' y Hy. apply lookup_seqZ in Hy as [-> Hy]. destruct (Hx (x + Z.of_nat i')); [lia|]. by apply Gk. }
    rewrite !E by lia. apply Permutation_app_head. cbn [app]. rewrite <- !Permutation_middle. apply perm_swap. }
  intros Hi Hj. destruct (Z.lt_total i j) as [H|[->|H]].
  - apply (W i j); try lia; intros; rewrite swap_at; repeat case_decide; congruence || lia.
  - apply reflexive_eq. apply list_fmap_ext. intros i' y _. rewrite swap_at. repeat case_decide; congruence.
  - apply (W j i); try lia; intros; rewrite swap_at; repeat case_decide; congruence || lia.
Qed.

Lemma swaps_perm lo n f g : swaps lo (lo + n) f g -> g <$> seqZ lo n ≡ₚ f <$> seqZ lo n.
Proof.
  induction 1 as [g E|g g' i j _ IH Hi Hj E]; [apply reflexive_eq, list_fmap_ext; intros; apply E|].
  rewrite <- IH, <- (swap_perm lo n i j g) by done. apply reflexive_eq, list_fmap_ext. intros. apply E.
Qed.

Section Sorting.
Context (qscmp : (Z -> Z) -> Z -> Z -> Z) (es b : Z) (Hes : 0 < es < 2 ^ 31).

(** The memory as elements, number 0 of which is at [b]. *)
Definition view (m : Z -> Z) (k : Z) : elem := mem_read m (b + k * es) (Z.to_nat es).

(** The comparison reads the two elements and orders them. *)
Context (ord : elem -> elem -> Z) (Hcmp : forall m x y, qscmp m x y = ord (mem_read m x (Z.to_nat es)) (mem_read m y (Z.to_nat es))).
Context (Hsym : forall x y, ord x y < 0 <-> 0 < ord y x) (Htrans : forall x y z, ord x y <= 0 -> ord y z <= 0 -> ord x z <= 0).

Lemma turns_es : turns es = Z.to_nat es.
Proof using Hes. unfold turns. rewrite u32_id by lia. by rewrite (proj2 (Z.eqb_neq es 0)) by lia. Qed.

Lemma scaled_apart i j : i <> j -> b + i * es + es <= b + j * es \/ b + j * es + es <= b + i * es.
Proof using Hes. intros. destruct (Z.lt_total i j) as [|[|]]; [left|lia|right]; nia. Qed.

Lemma scaled_same i j : same_or_apart es (b + i * es) (b + j * es).
Proof using Hes. unfold same_or_apart. destruct (decide (i = j)) as [->|H]; [by left|]. destruct (scaled_apart i j H); lia. Qed.

Lemma scaled_ltb i j : (b + i * es <? b + j * es) = (i <? j).
Proof using Hes. destruct (Z.ltb_spec i j); [apply Z.ltb_lt|apply Z.ltb_ge]; nia. Qed.

Lemma scaled_eqb i j : (b + i * es =? b + j * es) = (i =? j).
Proof using Hes. destruct (Z.eqb_spec i j) as [->|]; [by apply Z.eqb_eq|apply Z.eqb_neq; nia]. Qed.

Lemma cmp_view m i j : qscmp m (b + i * es) (b + j * es) = ord (view m i) (view m j).
Proof using Hcmp. apply Hcmp. Qed.

Lemma view_qsexc i j m k : view (qsexc es (b + i * es) (b + j * es) m) k = swap i j (view m) k.
Proof using Hes.
  rewrite swap_at. pose proof (scaled_same i j) as Hij. pose proof (scaled_same k j) as Hkj. pose proof (scaled_same k i) as Hki.
  assert (E : forall x, qsexc es (b + i * es) (b + j * es) m x = if decide (b + i * es <= x < b + i * es + es) then m (b + j * es + (x - (b + i * es)))
    else if decide (b + j * es <= x < b + j * es + es) then m (b + i * es + (x - (b + j * es))) else m x).
  { intros x. unfold qsexc. rewrite qsexc_loop_at; rewrite turns_es, Z2Nat.id by lia; done. }
  unfold view. repeat case_decide; subst; apply mem_read_move; intros x Hx; rewrite Z2Nat.id in Hx by lia; rewrite E.
  - repeat case_decide; try (f_equal; lia); unfold same_or_apart in *; f_equal; nia.
  - rewrite decide_True by lia. f_equal; lia.
  - pose proof (scaled_apart k j ltac:(done)). pose proof (scaled_apart k i ltac:(done)). by rewrite !decide_False by lia.
Qed.

(** The rotation of three is two exchanges. *)
Lemma view_qstexc i j l m k : i <> j -> i <> l -> view (qstexc es (b + i * es) (b + j * es) (b + l * es) m) k = swap j l (swap i l (view m)) k.
Proof using Hes.
  intros Hij Hil. pose proof (scaled_apart i j Hij). pose proof (scaled_apart i l Hil). pose proof (scaled_same j l).
  assert (E : forall x, qstexc es (b + i * es) (b + j * es) (b + l * es) m x = if decide (b + i * es <= x < b + i * es + es) then m (b + l * es + (x - (b + i * es)))
    else if decide (b + j * es <= x < b + j * es + es) then m (b + i * es + (x - (b + j * es)))
    else if decide (b + l * es <= x < b + l * es + es) then m (b + j * es + (x - (b + l * es))) else m x).
  { intros x. unfold qstexc. rewrite qstexc_loop_at; rewrite turns_es, Z2Nat.id by lia; done. }
  assert (V : view (qstexc es (b + i * es) (b + j * es) (b + l * es) m) k = if decide (k = i) then view m l else if decide (k = j) then view m i else if decide (k = l) then view m j else view m k).
  { unfold view. repeat case_decide; subst; apply mem_read_move; intros x Hx; rewrite Z2Nat.id in Hx by lia; rewrite E.
    - rewrite decide_True by lia. f_equal; lia.
    - rewrite decide_False, decide_True by lia. f_equal; lia.
    - pose proof (scaled_apart l j ltac:(done)). rewrite !decide_False, decide_True by lia. f_equal; lia.
    - pose proof (scaled_apart k j ltac:(done)). pose proof (scaled_apart k i ltac:(done)). pose proof (scaled_apart k l ltac:(done)). by rewrite !decide_False by lia. }
  rewrite V, !swap_at. repeat case_decide; congruence.
Qed.

(** ** The partition *)

(** Below [i] less than the pivot [p], beyond [j] more, from [lp] to [hp]
    elements that compare equal to it. *)
Record parted (lo hi : Z) (p : elem) (i j lp hp : Z) (m : Z -> Z) : Prop := {
  pt_idx : lo <= i <= lp /\ lp <= hp <= j /\ j < hi;
  pt_lt : forall k, lo <= k < i -> ord (view m k) p < 0;
  pt_eq : forall k, lp <= k <= hp -> ord (view m k) p = 0;
  pt_gt : forall k, j < k < hi -> 0 < ord (view m k) p
}.

(** What compares equal to the pivot compares as the pivot does. *)
Lemma ord_pivot x p y : ord x p = 0 -> (ord y x < 0 <-> ord y p < 0) /\ (ord y x = 0 <-> ord y p = 0) /\ (ord x y < 0 <-> 0 < ord y p) /\ (ord x y = 0 <-> ord y p = 0).
Proof using Hsym Htrans.
  intros E. pose proof (Hsym x p). pose proof (Hsym p x). pose proof (Hsym y x). pose proof (Hsym x y). pose proof (Hsym y p). pose proof (Hsym p y).
  pose proof (Htrans y x p). pose proof (Htrans y p x). pose proof (Htrans x p y). pose proof (Htrans p x y). lia.
Qed.

(** An element of known order, under its own number or another name of it. *)
Ltac known m p := match goal with
  | H : ord (view m ?y) p = 0 |- ord (view m ?x) p = 0 => replace x with y by lia; exact H
  | H : ord (view m ?y) p < 0 |- ord (view m ?x) p < 0 => replace x with y by lia; exact H
  | H : 0 < ord (view m ?y) p |- 0 < ord (view m ?x) p => replace x with y by lia; exact H
  | H : forall k, _ -> ord (view m k) p = 0 |- ord (view m ?x) p = 0 => apply H; lia
  | H : forall k, _ -> ord (view m k) p < 0 |- ord (view m ?x) p < 0 => apply H; lia
  | H : forall k, _ -> 0 < ord (view m k) p |- 0 < ord (view m ?x) p => apply H; lia
  end.
Ltac parted_by V m p := split; [lia|intros k Hk; rewrite ?V, ?swap_at; repeat case_decide; subst; try lia; known m p..].

Lemma partition_ok lo hi p fuel : forall top i j lp hp m, parted lo hi p i j lp hp m -> (top = false -> i < lp -> 0 < ord (view m i) p) -> (lp - i) + (j - hp) < Z.of_nat fuel ->
  exists lp' hp' m', partition qscmp es fuel top (b + i * es) (b + j * es) (b + lp * es) (b + hp * es) m = Some (b + lp' * es, b + hp' * es, m') /\
    parted lo hi p lp' hp' lp' hp' m' /\ swaps lo hi (view m) (view m').
Proof using Hes Hcmp Hsym Htrans.
  induction fuel as [|fuel IH]; intros top i j lp hp m P Hbig Hf; [destruct (pt_idx _ _ _ _ _ _ _ _ P); lia|]. destruct P as [Hidx Plt Peq Pgt]. cbn [partition].
  rewrite !scaled_ltb, !scaled_eqb, !cmp_view.
  replace (b + hp * es + es) with (b + (hp + 1) * es) by lia. replace (b + lp * es + es) with (b + (lp + 1) * es) by lia. replace (b + i * es + es) with (b + (i + 1) * es) by lia.
  replace (b + j * es - es) with (b + (j - 1) * es) by lia. replace (b + lp * es - es) with (b + (lp - 1) * es) by lia. replace (b + hp * es - es) with (b + (hp - 1) * es) by lia.
  match goal with |- context [if top && _ then _ else ?x] => set (loop := x) end.
  (* one exchange or rotation, then the rest *)
  assert (Hstep : forall top' i' j' lp' hp' m1, swaps lo hi (view m) (view m1) -> parted lo hi p i' j' lp' hp' m1 -> (top' = false -> i' < lp' -> 0 < ord (view m1 i') p) ->
    (lp' - i') + (j' - hp') < (lp - i) + (j - hp) ->
    exists lp2 hp2 m2, partition qscmp es fuel top' (b + i' * es) (b + j' * es) (b + lp' * es) (b + hp' * es) m1 = Some (b + lp2 * es, b + hp2 * es, m2) /\
      parted lo hi p lp2 hp2 lp2 hp2 m2 /\ swaps lo hi (view m) (view m2)).
  { intros top' i' j' lp' hp' m1 S P' B' Hlt. destruct (IH top' i' j' lp' hp' m1 P' B' ltac:(lia)) as (lp2 & hp2 & m2 & E & P2 & S2).
    exists lp2, hp2, m2. split; [done|]. split; [done|]. by eapply swaps_trans. }
  assert (Hone : forall x y m1, lo <= x < hi -> lo <= y < hi -> (forall k, view m1 k = swap x y (view m) k) -> swaps lo hi (view m) (view m1)).
  { intros x y m1 Hx Hy V. eapply swaps_step; [by apply swaps_refl|exact Hx|exact Hy|exact V]. }
  assert (Htwo : forall x y z m1, lo <= x < hi -> lo <= y < hi -> lo <= z < hi -> (forall k, view m1 k = swap y z (swap x z (view m)) k) -> swaps lo hi (view m) (view m1)).
  { intros x y z m1 Hx Hy Hz V. eapply (swaps_step _ _ _ (swap x z (view m))); [|exact Hy|exact Hz|exact V]. eapply swaps_step; [by apply swaps_refl|exact Hx|exact Hz|done]. }
  assert (Hloop : (i < lp -> 0 < ord (view m i) p) -> exists lp2 hp2 m2, loop = Some (b + lp2 * es, b + hp2 * es, m2) /\ parted lo hi p lp2 hp2 lp2 hp2 m2 /\ swaps lo hi (view m) (view m2)).
  { intros Hi. unfold loop. destruct (Z.ltb_spec hp j) as [Hj|Hj].
    - destruct (ord_pivot (view m hp) p (view m j) ltac:(apply Peq; lia)) as (_ & _ & Ogt & Oeq). destruct (Z.eqb_spec (ord (view m hp) (view m j)) 0) as [Ec|Nc].
      + apply Oeq in Ec. pose proof (view_qsexc (hp + 1) j m) as V. apply Hstep; [by apply (Hone (hp + 1) j); [lia|lia|]|parted_by V m p| |lia].
        intros _ Hil. rewrite V, swap_at, !decide_False by lia. by apply Hi.
      + destruct (Z.ltb_spec 0 (ord (view m hp) (view m j))) as [Hc|Hc].
        * assert (Hlt : ord (view m j) p < 0) by (pose proof (Hsym (view m hp) (view m j)); pose proof (Htrans (view m j) (view m hp) p); pose proof (Peq hp); lia).
          destruct (Z.eqb_spec i lp) as [->|Hne].
          -- pose proof (fun k => view_qstexc lp (hp + 1) j m k ltac:(lia) ltac:(lia)) as V. apply Hstep; [by apply (Htwo lp (hp + 1) j); [lia..|]|parted_by V m p|lia|lia].
          -- specialize (Hi ltac:(lia)). pose proof (view_qsexc i j m) as V. apply Hstep; [by apply (Hone i j); [lia|lia|]|parted_by V m p|done|lia].
        * assert (Hgt : 0 < ord (view m j) p) by lia. apply Hstep; [by apply swaps_refl| |done|lia].
          split; [lia|intros k Hk; known m p..|]. intros k Hk. destruct (decide (k = j)); known m p.
    - assert (j = hp) as -> by lia. destruct (Z.eqb_spec i lp) as [->|Hne].
      + exists lp, hp, m. split; [done|]. split; [done|by apply swaps_refl].
      + specialize (Hi ltac:(lia)). pose proof (fun k => view_qstexc hp (lp - 1) i m k ltac:(lia) ltac:(lia)) as V.
        apply Hstep; [by apply (Htwo hp (lp - 1) i); [lia..|]|parted_by V m p|done|lia]. }
  destruct top; cbn [andb]; [|apply Hloop; by apply Hbig]. destruct (Z.ltb_spec i lp) as [Hi|Hi]; [|apply Hloop; lia].
  destruct (ord_pivot (view m lp) p (view m i) ltac:(apply Peq; lia)) as (Olt & Oeq & _). destruct (Z.eqb_spec (ord (view m i) (view m lp)) 0) as [Ec|Nc].
  - apply Oeq in Ec. pose proof (view_qsexc i (lp - 1) m) as V. apply Hstep; [by apply (Hone i (lp - 1)); [lia|lia|]|parted_by V m p|done|lia].
  - destruct (Z.ltb_spec (ord (view m i) (view m lp)) 0) as [Hc|Hc].
    + assert (Hlt : ord (view m i) p < 0) by (by apply Olt). apply Hstep; [by apply swaps_refl| |done|lia].
      split; [lia| |intros k Hk; known m p..]. intros k Hk. destruct (decide (k = i)); known m p.
    + apply Hloop. intros _. lia.
Qed.

(** ** The sort *)

Definition sorted (lo hi : Z) (f : Z -> elem) : Prop := forall x y, lo <= x <= y -> y < hi -> ord (f x) (f y) <= 0.

Lemma sorted_parts lo hi lp hp p f : lp <= hp + 1 -> (forall k, lo <= k < lp -> ord (f k) p < 0) -> (forall k, lp <= k <= hp -> ord (f k) p = 0) -> (forall k, hp < k < hi -> 0 < ord (f k) p) ->
  sorted lo lp f -> sorted (hp + 1) hi f -> sorted lo hi f.
Proof using Hsym Htrans.
  intros Hl Plt Peq Pgt S1 S2 x y Hx Hy.
  assert (Hle : forall z, lo <= z -> z <= hp -> ord (f z) p <= 0) by (intros z ? ?; destruct (Z_lt_le_dec z lp); [specialize (Plt z)|specialize (Peq z)]; lia).
  assert (Hge : forall z, lp <= z -> z < hi -> ord p (f z) <= 0).
  { intros z ? ?. pose proof (Hsym (f z) p). pose proof (Hsym p (f z)). destruct (Z_lt_le_dec hp z); [specialize (Pgt z)|specialize (Peq z)]; lia. }
  destruct (Z_lt_le_dec y lp); [apply S1; lia|]. destruct (Z_lt_le_dec hp x); [apply S2; lia|]. apply (Htrans _ p); [apply Hle; lia|apply Hge; lia].
Qed.

Lemma sorted_same lo hi f g : (forall k, lo <= k < hi -> g k = f k) -> sorted lo hi f -> sorted lo hi g.
Proof. intros E S x y Hx Hy. rewrite !E by lia. by apply S. Qed.

(** Whatever holds of all the elements of a part before holds of them after. *)
Definition within (lo hi : Z) (f g : Z -> elem) : Prop := forall P : elem -> Prop, (forall k, lo <= k < hi -> P (f k)) -> forall k, lo <= k < hi -> P (g k).

Lemma within_swaps lo hi f f1 g1 g : (forall k, lo <= k < hi -> f1 k = f k) -> swaps lo hi f1 g1 -> (forall k, lo <= k < hi -> g k = g1 k) -> within lo hi f g.
Proof. intros E1 S E2 P HP k Hk. rewrite E2 by done. apply (swaps_all lo hi f1 g1 P S); [|done]. intros i Hi. rewrite E1 by done. by apply HP. Qed.

(** Two parts beside the pivots, each exchanged within itself and sorted. *)
Lemma parted_within lo hi lp hp p m m' : parted lo hi p lp hp lp hp m -> (forall k, lp <= k <= hp -> view m' k = view m k) ->
  within lo lp (view m) (view m') -> within (hp + 1) hi (view m) (view m') -> sorted lo lp (view m') -> sorted (hp + 1) hi (view m') -> sorted lo hi (view m').
Proof using Hsym Htrans.
  intros [Hi Plt Peq Pgt] E F G S1 S2. apply (sorted_parts lo hi lp hp p); [lia|exact (F (fun x => ord x p < 0) Plt)| | |done|done].
  - intros k Hk. rewrite E by done. by apply Peq.
  - intros k Hk. apply (G (fun x => 0 < ord x p)); [|lia]. intros i Hi2. apply Pgt. lia.
Qed.

(** The two calls, the part [lo2, hi2) first. *)
Lemma two_parts lo hi lo1 hi1 lo2 hi2 f g h : lo <= lo1 -> hi1 <= hi -> lo <= lo2 -> hi2 <= hi -> hi1 <= lo2 \/ hi2 <= lo1 -> swaps lo2 hi2 f g -> swaps lo1 hi1 g h ->
  sorted lo2 hi2 g -> swaps lo hi f h /\ within lo1 hi1 f h /\ within lo2 hi2 f h /\ sorted lo2 hi2 h /\ forall k, (k < lo1 \/ hi1 <= k) -> (k < lo2 \/ hi2 <= k) -> h k = f k.
Proof.
  intros ? ? ? ? Hd S2 S1 O. assert (E1 : forall k, k < lo1 \/ hi1 <= k -> h k = g k) by (intros; by apply (swaps_outside lo1 hi1 g h k S1)).
  assert (E2 : forall k, k < lo2 \/ hi2 <= k -> g k = f k) by (intros; by apply (swaps_outside lo2 hi2 f g k S2)). split_and!.
  - apply (swaps_trans lo hi f g); [by apply (swaps_mono lo2 hi2)|by apply (swaps_mono lo1 hi1)].
  - apply (within_swaps _ _ f g h h); [intros; apply E2; lia|done|done].
  - apply (within_swaps _ _ f f g h); [done|done|intros; apply E1; lia].
  - apply (sorted_same _ _ g); [intros; apply E1; lia|done].
  - intros k K1 K2. by rewrite E1, E2.
Qed.

Lemma qs1_ok fuel : forall lo hi m, lo <= hi -> hi - lo < Z.of_nat fuel -> (hi - lo) * es < 65536 ->
  exists m', qs1 qscmp es fuel (b + lo * es) (b + hi * es) m = Some m' /\ swaps lo hi (view m) (view m') /\ sorted lo hi (view m').
Proof using Hes Hcmp Hsym Htrans.
  induction fuel as [|fuel IH]; intros lo hi m Hlo Hf H16; [lia|]. cbn [qs1]. replace (b + hi * es - (b + lo * es)) with ((hi - lo) * es) by lia. rewrite u16_id by nia.
  assert (Hrefl : forall x, ord x x <= 0) by (intros x; pose proof (Hsym x x); lia).
  destruct (Z.leb_spec ((hi - lo) * es) es) as [Hn|Hn].
  { exists m. split; [done|]. split; [by apply swaps_refl|]. intros x y Hx Hy. replace y with x by nia. apply Hrefl. }
  assert (H2 : 2 <= hi - lo) by nia. rewrite Z.quot_div_nonneg, Z.div_mul_cancel_r by nia. set (h := (hi - lo) / 2) in *.
  assert (Hh : 1 <= h < hi - lo) by (unfold h; Z.div_mod_to_equations; lia).
  replace (b + hi * es - es) with (b + (hi - 1) * es) by lia. replace (b + lo * es + es * h) with (b + (lo + h) * es) by lia. set (p := view m (lo + h)).
  assert (P0 : parted lo hi p lo (hi - 1) (lo + h) (lo + h) m).
  { split; [lia|lia| |lia]. intros k Hk. replace k with (lo + h) by lia. fold p. pose proof (Hsym p p). lia. }
  destruct (partition_ok lo hi p (PARTFUEL (b + lo * es) (b + hi * es)) true lo (hi - 1) (lo + h) (lo + h) m P0 ltac:(done) ltac:(unfold PARTFUEL; nia)) as (lp & hp & m1 & -> & P & S).
  pose proof (pt_idx _ _ _ _ _ _ _ _ P) as Hi. replace (b + hp * es + es) with (b + (hp + 1) * es) by lia.
  assert (HA : lo <= lp) by lia. assert (HB : hp + 1 <= hi) by lia.
  destruct (_ <=? _).
  - destruct (IH (hp + 1) hi m1 HB ltac:(lia) ltac:(nia)) as (m2 & -> & W2 & O2). destruct (IH lo lp m2 HA ltac:(lia) ltac:(nia)) as (m3 & E3 & W3 & O3). exists m3. split; [exact E3|].
    destruct (two_parts lo hi lo lp (hp + 1) hi (view m1) (view m2) (view m3)) as (W & F & G & O & E); try done; try lia. split; [by eapply swaps_trans|].
    apply (parted_within lo hi lp hp p m1 m3 P); try done. intros k Hk. apply E; lia.
  - destruct (IH lo lp m1 HA ltac:(lia) ltac:(nia)) as (m2 & -> & W2 & O2). destruct (IH (hp + 1) hi m2 HB ltac:(lia) ltac:(nia)) as (m3 & E3 & W3 & O3). exists m3. split; [exact E3|].
    destruct (two_parts lo hi (hp + 1) hi lo lp (view m1) (view m2) (view m3)) as (W & F & G & O & E); try done; try lia. split; [by eapply swaps_trans|].
    apply (parted_within lo hi lp hp p m1 m3 P); try done. intros k Hk. apply E; lia.
Qed.
End Sorting.

(** ** The property *)

Section Qsort_sorts.
Context (fc : (Z -> Z) -> Z -> Z -> Z) (ord : elem -> elem -> Z) (es : Z).
(** The comparison looks at the elements only, and orders them. *)
Context (Hcmp : forall m x y, fc m x y = ord (mem_read m x (Z.to_nat es)) (mem_read m y (Z.to_nat es))).
Context (Hsym : forall x y, ord x y < 0 <-> 0 < ord y x) (Htrans : forall x y z, ord x y <= 0 -> ord y z <= 0 -> ord x z <= 0).

(** The elements of an array of [n], in order. *)
Definition elements (m : Z -> Z) (a es n : Z) : list elem := (fun k => mem_read m (a + k * es) (Z.to_nat es)) <$> seqZ 0 n.

(** C15. [qsort] ends on every array of less than 65536 bytes, with the same
    elements in the order of the comparison, and no byte outside of the array
    changed; whatever the pivots, the recursion and the order of the two
    parts. *)
Theorem qsort_sorts a n m : 0 < es < 2 ^ 31 -> 0 <= n -> n * es < 65536 ->
  exists m', qsort a n es fc m = Some m' /\ elements m' a es n ≡ₚ elements m a es n /\
    (forall i j x y, (i <= j)%nat -> elements m' a es n !! i = Some x -> elements m' a es n !! j = Some y -> ord x y <= 0) /\ forall x, x < a \/ a + n * es <= x -> m' x = m x.
Proof using Hcmp Hsym Htrans.
  intros Hes Hn H16. unfold qsort. rewrite u16_id by nia.
  destruct (qs1_ok fc es a Hes ord Hcmp Hsym Htrans (S (Z.to_nat (a + n * es - a))) 0 n m ltac:(lia) ltac:(nia) ltac:(lia)) as (m' & E & W & S).
  rewrite Z.mul_0_l, Z.add_0_r in E. exists m'. split; [exact E|]. split; [|split].
  - apply (swaps_perm 0 n (view es a m) (view es a m') W).
  - intros i j x y Hij Hx Hy. unfold elements in Hx, Hy. rewrite list_lookup_fmap in Hx, Hy. destruct (seqZ 0 n !! i) as [k|] eqn:Ei; [|done]. destruct (seqZ 0 n !! j) as [k'|] eqn:Ej; [|done].
    apply lookup_seqZ in Ei as [-> Hi], Ej as [-> Hj]. injection Hx as <-. injection Hy as <-. apply S; lia.
  - intros x Hx. set (k := (x - a) / es). set (r := (x - a) mod es). assert (Er : x = a + k * es + Z.of_nat (Z.to_nat r)).
    { unfold k, r. pose proof (Z.mod_pos_bound (x - a) es ltac:(lia)). rewrite Z2Nat.id by lia. pose proof (Z.div_mod (x - a) es ltac:(lia)). lia. }
    assert (Hr : (Z.to_nat r < Z.to_nat es)%nat) by (unfold r; pose proof (Z.mod_pos_bound (x - a) es ltac:(lia)); lia).
    assert (Ek : view es a m' k = view es a m k) by (apply (swaps_outside 0 n _ _ _ W); destruct Hx; [left|right]; nia).
    apply (f_equal (fun l => l !! Z.to_nat r)) in Ek. unfold view in Ek. rewrite !mem_read_at in Ek by done. rewrite <- Er in Ek. by injection Ek.
Qed.
End Qsort_sorts.

(** Strings of two bytes by their numbers, the high byte first. *)
Definition ex_cmp (m : Z -> Z) (x y : Z) : Z := unbe (mem_read m x 2) - unbe (mem_read m y 2).
Definition ex_array : Z -> Z := mem_write [3; 1; 0; 9; 3; 0; 0; 2; 3; 1; 2; 2; 0; 9] 100 (fun _ => 0).

Lemma qsort_sorts_witness : (m' ← qsort 100 7 2 ex_cmp ex_array; Some (elements m' 100 2 7)) = Some [[0; 2]; [0; 9]; [0; 9]; [2; 2]; [3; 0]; [3; 1]; [3; 1]] /\
  exists m', qsort 100 7 2 ex_cmp ex_array = Some m' /\ elements m' 100 2 7 ≡ₚ elements ex_array 100 2 7 /\
    (forall i j x y, (i <= j)%nat -> elements m' 100 2 7 !! i = Some x -> elements m' 100 2 7 !! j = Some y -> unbe x - unbe y <= 0) /\ forall x, x < 100 \/ 114 <= x -> m' x = ex_array x.
Proof.
  split; [by vm_compute|]. apply (qsort_sorts ex_cmp (fun x y => unbe x - unbe y) 2 (fun _ _ _ => eq_refl) ltac:(lia) ltac:(lia) 100 7 ex_array); lia.
Defined.

(** The size of the array is kept in an [unsigned]: the 65536 bytes of 256
    elements of 256 count as none, and the array is left as it is. *)
Example qsort_64k_unsorted : forall fc m, qsort 0 256 256 fc m = Some m.
Proof. done. Qed.
