(* ===== verification/Crypt.v ===== *)
(** The password encryption of the C library, [toolchain/ack/libc/v7_crypt.c]:
    the Data Encryption Standard on arrays of characters 0 and 1.

    The arrays are lists.  [L] and [R] are declared one after the other and
    the code runs over the end of the one into the other: they are the two
    halves of one list of 64. *)
From S2P Require Import Prelude Malloc Clist.

(** ** The tables *)

Definition IP : list Z :=
  [58; 50; 42; 34; 26; 18; 10; 2;
   60; 52; 44; 36; 28; 20; 12; 4;
   62; 54; 46; 38; 30; 22; 14; 6;
   64; 56; 48; 40; 32; 24; 16; 8;
   57; 49; 41; 33; 25; 17; 9; 1;
   59; 51; 43; 35; 27; 19; 11; 3;
   61; 53; 45; 37; 29; 21; 13; 5;
   63; 55; 47; 39; 31; 23; 15; 7].

Definition FP : list Z :=
  [40; 8; 48; 16; 56; 24; 64; 32;
   39; 7; 47; 15; 55; 23; 63; 31;
   38; 6; 46; 14; 54; 22; 62; 30;
   37; 5; 45; 13; 53; 21; 61; 29;
   36; 4; 44; 12; 52; 20; 60; 28;
   35; 3; 43; 11; 51; 19; 59; 27;
   34; 2; 42; 10; 50; 18; 58; 26;
   33; 1; 41; 9; 49; 17; 57; 25].

Definition PC1_C : list Z :=
  [57; 49; 41; 33; 25; 17; 9;
   1; 58; 50; 42; 34; 26; 18;
   10; 2; 59; 51; 43; 35; 27;
   19; 11; 3; 60; 52; 44; 36].

Definition PC1_D : list Z :=
  [63; 55; 47; 39; 31; 23; 15;
   7; 62; 54; 46; 38; 30; 22;
   14; 6; 61; 53; 45; 37; 29;
   21; 13; 5; 28; 20; 12; 4].

Definition shifts : list Z := [1; 1; 2; 2; 2; 2; 2; 2; 1; 2; 2; 2; 2; 2; 2; 1].

Definition PC2_C : list Z :=
  [14; 17; 11; 24; 1; 5;
   3; 28; 15; 6; 21; 10;
   23; 19; 12; 4; 26; 8;
   16; 7; 27; 20; 13; 2].

Definition PC2_D : list Z :=
  [41; 52; 31; 37; 47; 55;
   30; 40; 51; 45; 33; 48;
   44; 49; 39; 56; 34; 53;
   46; 42; 50; 36; 29; 32].

(** The selection [e], which [crypt] copies to [E] and alters by the salt. *)
Definition e_table : list Z :=
  [32; 1; 2; 3; 4; 5;
   4; 5; 6; 7; 8; 9;
   8; 9; 10; 11; 12; 13;
   12; 13; 14; 15; 16; 17;
   16; 17; 18; 19; 20; 21;
   20; 21; 22; 23; 24; 25;
   24; 25; 26; 27; 28; 29;
   28; 29; 30; 31; 32; 1].

Definition S_table : list (list Z) :=
  [[14; 4; 13; 1; 2; 15; 11; 8; 3; 10; 6; 12; 5; 9; 0; 7;
    0; 15; 7; 4; 14; 2; 13; 1; 10; 6; 12; 11; 9; 5; 3; 8;
    4; 1; 14; 8; 13; 6; 2; 11; 15; 12; 9; 7; 3; 10; 5; 0;
    15; 12; 8; 2; 4; 9; 1; 7; 5; 11; 3; 14; 10; 0; 6; 13];
   [15; 1; 8; 14; 6; 11; 3; 4; 9; 7; 2; 13; 12; 0; 5; 10;
    3; 13; 4; 7; 15; 2; 8; 14; 12; 0; 1; 10; 6; 9; 11; 5;
    0; 14; 7; 11; 10; 4; 13; 1; 5; 8; 12; 6; 9; 3; 2; 15;
    13; 8; 10; 1; 3; 15; 4; 2; 11; 6; 7; 12; 0; 5; 14; 9];
   [10; 0; 9; 14; 6; 3; 15; 5; 1; 13; 12; 7; 11; 4; 2; 8;
    13; 7; 0; 9; 3; 4; 6; 10; 2; 8; 5; 14; 12; 11; 15; 1;
    13; 6; 4; 9; 8; 15; 3; 0; 11; 1; 2; 12; 5; 10; 14; 7;
    1; 10; 13; 0; 6; 9; 8; 7; 4; 15; 14; 3; 11; 5; 2; 12];
   [7; 13; 14; 3; 0; 6; 9; 10; 1; 2; 8; 5; 11; 12; 4; 15;
    13; 8; 11; 5; 6; 15; 0; 3; 4; 7; 2; 12; 1; 10; 14; 9;
    10; 6; 9; 0; 12; 11; 7; 13; 15; 1; 3; 14; 5; 2; 8; 4;
    3; 15; 0; 6; 10; 1; 13; 8; 9; 4; 5; 11; 12; 7; 2; 14];
   [2; 12; 4; 1; 7; 10; 11; 6; 8; 5; 3; 15; 13; 0; 14; 9;
    14; 11; 2; 12; 4; 7; 13; 1; 5; 0; 15; 10; 3; 9; 8; 6;
    4; 2; 1; 11; 10; 13; 7; 8; 15; 9; 12; 5; 6; 3; 0; 14;
    11; 8; 12; 7; 1; 14; 2; 13; 6; 15; 0; 9; 10; 4; 5; 3];
   [12; 1; 10; 15; 9; 2; 6; 8; 0; 13; 3; 4; 14; 7; 5; 11;
    10; 15; 4; 2; 7; 12; 9; 5; 6; 1; 13; 14; 0; 11; 3; 8;
    9; 14; 15; 5; 2; 8; 12; 3; 7; 0; 4; 10; 1; 13; 11; 6;
    4; 3; 2; 12; 9; 5; 15; 10; 11; 14; 1; 7; 6; 0; 8; 13];
   [4; 11; 2; 14; 15; 0; 8; 13; 3; 12; 9; 7; 5; 10; 6; 1;
    13; 0; 11; 7; 4; 9; 1; 10; 14; 3; 5; 12; 2; 15; 8; 6;
    1; 4; 11; 13; 12; 3; 7; 14; 10; 15; 6; 8; 0; 5; 9; 2;
    6; 11; 13; 8; 1; 4; 10; 7; 9; 5; 0; 15; 14; 2; 3; 12];
   [13; 2; 8; 4; 6; 15; 11; 1; 10; 9; 3; 14; 5; 0; 12; 7;
    1; 15; 13; 8; 10; 3; 7; 4; 12; 5; 6; 11; 0; 14; 9; 2;
    7; 11; 4; 1; 9; 12; 14; 2; 0; 6; 10; 13; 15; 3; 5; 8;
    2; 1; 14; 7; 4; 10; 8; 13; 15; 12; 9; 0; 3; 5; 6; 11]].

Definition P_table : list Z :=
  [16; 7; 20; 21;
   29; 12; 28; 17;
   1; 15; 23; 26;
   5; 18; 31; 10;
   2; 8; 24; 14;
   32; 27; 3; 9;
   19; 13; 30; 6;
   22; 11; 4; 25].

(** [a[i]], and [a[t[j] - 1]] for all [j]. *)
Definition at_ (a : list Z) (i : Z) : Z := nth (Z.to_nat i) a 0.
Definition sel (t a : list Z) : list Z := (fun p => at_ a (p - 1)) <$> t.

(** ** The key schedule *)

(** One turn of the rotation by [t = C[0]; C[j] = C[j + 1]; C[27] = t]. *)
Definition rot1 (l : list Z) : list Z := tail l ++ [at_ l 0].

(** The 16 keys of 48 bits. *)
Fixpoint keys (sh : list Z) (C D : list Z) : list (list Z) :=
  match sh with
  | [] => []
  | n :: sh =>
      let C := Nat.iter (Z.to_nat n) rot1 C in let D := Nat.iter (Z.to_nat n) rot1 D in
      (sel PC2_C C ++ ((fun p => at_ D (p - 28 - 1)) <$> PC2_D)) :: keys sh C D
  end.
Definition setkey (key : list Z) : list (list Z) := keys shifts (sel PC1_C key) (sel PC1_D key).

(** ** The encryption *)

(** The 4 bits of [S[j]] selected by 6. *)
Definition select (j : Z) (preS : list Z) : list Z :=
  let t := 6 * j in
  let k := at_ (nth (Z.to_nat j) S_table []) (Z.shiftl (at_ preS (t + 0)) 5 + Z.shiftl (at_ preS (t + 1)) 3 + Z.shiftl (at_ preS (t + 2)) 2 +
             Z.shiftl (at_ preS (t + 3)) 1 + Z.shiftl (at_ preS (t + 4)) 0 + Z.shiftl (at_ preS (t + 5)) 4) in
  [Z.land (Z.shiftr k 3) 1; Z.land (Z.shiftr k 2) 1; Z.land (Z.shiftr k 1) 1; Z.land (Z.shiftr k 0) 1].

(** [R[E[j] - 1]]: entry 0 of [E] reads the character in front of [R]. *)
Definition expand_R (E L R : list Z) : list Z := (fun p => at_ (L ++ R) (32 + p - 1)) <$> E.

Definition f_of (E K L R : list Z) : list Z :=
  let preS := zip_with Z.lxor (expand_R E L R) K in
  sel P_table (concat ((fun j => select j preS) <$> seqZ 0 8)).

Definition round (E K : list Z) (LR : list Z * list Z) : list Z * list Z :=
  let '(L, R) := LR in (R, zip_with Z.lxor L (f_of E K L R)).

(** [E] and the keys are the file's variables; the keys are taken from the last
    if [edflag] is not 0. *)
Definition encrypt (E : list Z) (KS : list (list Z)) (block : list Z) (edflag : Z) : list Z :=
  let LR := sel IP block in
  let '(L, R) := foldl (fun LR K => round E K LR) (take 32 LR, drop 32 LR) (if edflag =? 0 then KS else rev KS) in
  sel FP (R ++ L).

(** ** [crypt] *)

(** The characters of the password up to the null one or the eighth, 7 bits
    and a 0 each, in the 66 of [block]. *)
Fixpoint pw_bits (n : nat) (pw : list Z) : list Z :=
  match n, pw with
  | S n, c :: pw => if c =? 0 then [] else ((fun j => Z.land (Z.shiftr c (6 - j)) 1) <$> seqZ 0 7) ++ [0] ++ pw_bits n pw
  | _, _ => []
  end.
Definition pad (n : nat) (l : list Z) : list Z := l ++ replicate (n - length l) 0.

(** The 6 bits of a character of the salt exchange entries of [E]. *)
(** A [char] is signed. *)
Definition salt_value (c : Z) : Z := let c := i8 c in let c := if 90 <? c then c - 6 else c in let c := if 57 <? c then c - 7 else c in c - 46.
Fixpoint salt_swaps (js : list Z) (i c : Z) (E : list Z) : list Z :=
  match js with
  | [] => E
  | j :: js =>
      salt_swaps js i c (if Z.land (Z.shiftr c j) 1 =? 0 then E else
        let x := Z.to_nat (6 * i + j) in let y := Z.to_nat (6 * i + j + 24) in
        let temp := at_ E (6 * i + j) in <[y := temp]> (<[x := at_ E (6 * i + j + 24)]> E))
  end.
Definition salt_table (s0 s1 : Z) : list Z := salt_swaps (seqZ 0 6) 1 (salt_value s1) (salt_swaps (seqZ 0 6) 0 (salt_value s0) e_table).

(** 6 bits of the block as a character. *)
Definition out_char (block : list Z) (i : Z) : Z :=
  let c := foldl (fun c j => Z.lor (Z.shiftl c 1) (at_ block (6 * i + j))) 0 (seqZ 0 6) in
  let c := c + 46 in let c := if 57 <? c then c + 7 else c in if 90 <? c then c + 6 else c.

Definition crypt (pw : list Z) (s0 s1 : Z) : list Z :=
  let KS := setkey (pad 66 (pw_bits 8 pw)) in
  let E := salt_table s0 s1 in
  let block := Nat.iter 25 (fun b => encrypt E KS b 0) (replicate 66 0) in
  [s0; if s1 =? 0 then s0 else s1] ++ (out_char block <$> seqZ 0 11).

Definition codes (s : string) : list Z := (fun c => Z.of_nat (Ascii.nat_of_ascii c)) <$> String.list_ascii_of_string s.

Example crypt_foob : crypt (codes "foob") 97 114 = codes "arlEKn0OzVJn.".
Proof. by vm_compute. Qed.

(** The test of the standard's key and block, by [setkey] and [encrypt] with
    [E] as [crypt] leaves it for the salt [..]. *)
Definition bits (n : nat) (x : Z) : list Z := (fun i => Z.land (Z.shiftr x (Z.of_nat n - 1 - i)) 1) <$> seqZ 0 (Z.of_nat n).
Example des_standard_block :
  encrypt (salt_table 46 46) (setkey (bits 64 0x133457799BBCDFF1)) (bits 64 0x0123456789ABCDEF) 0 = bits 64 0x85E813540F0AB405.
Proof. by vm_compute. Qed.

(** ** One round *)

Lemma at_app_r L R p : length L = 32%nat -> 1 <= p -> at_ (L ++ R) (32 + p - 1) = at_ R (p - 1).
Proof. intros HL Hp. unfold at_. rewrite app_nth2 by lia. f_equal. lia. Qed.

(** With the entries of [E] from 1 on the function looks at [R] only. *)
Lemma f_of_R E K L L' R : Forall (fun p => 1 <= p) E -> length L = 32%nat -> length L' = 32%nat -> f_of E K L R = f_of E K L' R.
Proof.
  intros HE HL HL'. unfold f_of. replace (expand_R E L' R) with (expand_R E L R); [done|]. unfold expand_R. apply list_fmap_ext. intros i p Hp.
  apply (Forall_lookup_1 _ _ _ _ HE) in Hp. by rewrite !at_app_r.
Qed.

Lemma length_f_of E K L R : length (f_of E K L R) = 32%nat.
Proof. unfold f_of, sel. by rewrite length_fmap. Qed.

Lemma lxor_twice L F : length L = length F -> zip_with Z.lxor (zip_with Z.lxor L F) F = L.
Proof.
  revert F. induction L as [|x L IH]; intros [|y F]; cbn; try done. intros [= H]. rewrite IH by done. by rewrite Z.lxor_assoc, Z.lxor_nilpotent, Z.lxor_0_r.
Qed.

(** The halves have 32 characters, before and after. *)
Definition halves (LR : list Z * list Z) : Prop := length (fst LR) = 32%nat /\ length (snd LR) = 32%nat.
Definition exchange (LR : list Z * list Z) : list Z * list Z := (snd LR, fst LR).

Lemma round_halves E K LR : halves LR -> halves (round E K LR).
Proof. destruct LR as [L R]. intros [H1 H2]. cbn [fst snd] in *. split; cbn [fst snd round]; [done|]. rewrite length_zip_with, length_f_of. lia. Qed.

Lemma rounds_halves E KS : forall LR, halves LR -> halves (foldl (fun LR K => round E K LR) LR KS).
Proof. induction KS as [|K KS IH]; intros LR H; cbn [foldl]; [done|]. by apply IH, round_halves. Qed.

(** A round on the exchanged halves undoes the round. *)
Lemma round_undone E K LR : Forall (fun p => 1 <= p) E -> halves LR -> round E K (exchange (round E K LR)) = exchange LR.
Proof.
  destruct LR as [L R]. intros HE [H1 H2]. cbn [fst snd] in *. unfold exchange, round. cbn [fst snd]. f_equal.
  rewrite (f_of_R E K (zip_with Z.lxor L (f_of E K L R)) L R HE); [apply lxor_twice; by rewrite length_f_of|rewrite length_zip_with, length_f_of; lia|done].
Qed.

Lemma rounds_undone E KS : Forall (fun p => 1 <= p) E -> forall LR, halves LR ->
  foldl (fun LR K => round E K LR) (exchange (foldl (fun LR K => round E K LR) LR KS)) (rev KS) = exchange LR.
Proof.
  intros HE. induction KS as [|K KS IH]; intros LR H; cbn [foldl rev]; [done|]. rewrite foldl_app, IH by (by apply round_halves). cbn [foldl]. by apply round_undone.
Qed.

(** ** The permutations *)

Lemma sel_sel t t' a : Forall (fun p => 1 <= p <= Z.of_nat (length t')) t -> sel t (sel t' a) = sel (sel t t') a.
Proof.
  intros Ht. unfold sel at 1 3 4. rewrite <- list_fmap_compose. apply list_fmap_ext. intros i p Hp. apply (Forall_lookup_1 _ _ _ _ Ht) in Hp.
  unfold sel, at_. cbn. destruct (nth_lookup_or_length t' (Z.to_nat (p - 1)) 0) as [E|]; [|lia]. apply nth_lookup_Some. rewrite list_lookup_fmap, E. done.
Qed.

Lemma sel_id n a : length a = n -> sel (seqZ 1 (Z.of_nat n)) a = a.
Proof.
  intros <-. apply list_eq. intros i. unfold sel. rewrite list_lookup_fmap. destruct (decide (i < length a)%nat) as [Hi|Hi].
  - rewrite lookup_seqZ_lt by lia. cbn. unfold at_. destruct (nth_lookup_or_length a (Z.to_nat (1 + Z.of_nat i - 1)) 0) as [E|]; [|lia].
    replace (Z.to_nat (1 + Z.of_nat i - 1)) with i in * by lia. by rewrite E.
  - rewrite lookup_seqZ_ge by lia. by rewrite lookup_ge_None_2 by lia.
Qed.

Lemma IP_FP a : length a = 64%nat -> sel IP (sel FP a) = a.
Proof. intros Ha. rewrite sel_sel by (refine (bool_decide_eq_true_1 _ _); by vm_compute). by apply (sel_id 64). Qed.

Lemma FP_IP a : length a = 64%nat -> sel FP (sel IP a) = a.
Proof. intros Ha. rewrite sel_sel by (refine (bool_decide_eq_true_1 _ _); by vm_compute). by apply (sel_id 64). Qed.

(** ** The encryption undone *)

(** Both directions, on the keys [KS] in this order. *)
Definition des (E : list Z) (KS : list (list Z)) (block : list Z) : list Z :=
  let LR := sel IP block in let '(L, R) := foldl (fun LR K => round E K LR) (take 32 LR, drop 32 LR) KS in sel FP (R ++ L).

Lemma encrypt_des E KS b fl : encrypt E KS b fl = des E (if fl =? 0 then KS else rev KS) b.
Proof. done. Qed.

Lemma sel_halves t b : length t = 64%nat -> halves (take 32 (sel t b), drop 32 (sel t b)).
Proof. intros Ht. unfold halves, sel. cbn [fst snd]. rewrite length_take, length_drop, length_fmap. lia. Qed.

Lemma des_undone E KS b : Forall (fun p => 1 <= p) E -> length b = 64%nat -> des E (rev KS) (des E KS b) = b.
Proof.
  intros HE Hb. unfold des at 2. pose proof (sel_halves IP b eq_refl) as Hh. set (LR := (take 32 (sel IP b), drop 32 (sel IP b))) in *.
  pose proof (rounds_halves E KS LR Hh) as Hr. pose proof (rounds_undone E KS HE LR Hh) as Hu. destruct (foldl _ LR KS) as [L R]. destruct Hr as [HL HR]. cbn [fst snd] in HL, HR.
  unfold des. rewrite IP_FP by (rewrite length_app; lia). rewrite take_app_length', drop_app_length' by done. unfold exchange in Hu. cbn [fst snd] in Hu. rewrite Hu. unfold LR. cbn [fst snd].
  rewrite take_drop. by apply FP_IP.
Qed.

Lemma length_des E KS b : length (des E KS b) = 64%nat.
Proof. unfold des. destruct (foldl _ _ _) as [L R]. done. Qed.

(** The salt exchanges entries of the table, and makes up none. *)
Lemma salt_swaps_all (P : Z -> Prop) js i c : forall E, 0 <= i <= 1 -> (forall j, j ∈ js -> 0 <= j < 6) -> length E = 48%nat -> Forall P E -> Forall P (salt_swaps js i c E) /\ length (salt_swaps js i c E) = 48%nat.
Proof.
  induction js as [|j js IH]; intros E Hi Hj HE HP; [done|]. cbn [salt_swaps]. assert (H6 : 0 <= j < 6) by (apply Hj; by left).
  assert (Hat : forall k, 0 <= k < 48 -> P (at_ E k)).
  { intros k Hk. unfold at_. destruct (nth_lookup_or_length E (Z.to_nat k) 0) as [El|]; [|lia]. by apply (Forall_lookup_1 _ _ _ _ HP) in El. }
  apply IH; [done|intros; apply Hj; by right| |].
  - destruct (_ =? 0); [done|]. by rewrite !length_insert.
  - destruct (_ =? 0); [done|]. apply Forall_insert; [apply Forall_insert; [done|]|]; apply Hat; lia.
Qed.

Lemma salt_table_all P s0 s1 : Forall P e_table -> Forall P (salt_table s0 s1).
Proof.
  intros HP. assert (Hj : forall j, j ∈ seqZ 0 6 -> 0 <= j < 6) by (intros j Hj; apply elem_of_seqZ in Hj; lia). unfold salt_table.
  destruct (salt_swaps_all P (seqZ 0 6) 0 (salt_value s0) e_table ltac:(lia) Hj eq_refl HP) as [H1 H2]. by apply salt_swaps_all; [lia| | |].
Qed.

(** ** Bits *)

Definition bit (x : Z) : Prop := x = 0 \/ x = 1.

Lemma bit_land1 x : bit (Z.land x 1).
Proof. unfold bit. assert (E : Z.land x 1 = x mod 2) by exact (Z.land_ones x 1 ltac:(lia)). rewrite E. pose proof (Z.mod_pos_bound x 2 ltac:(lia)). lia. Qed.

Lemma bit_at a i : Forall bit a -> bit (at_ a i).
Proof.
  intros Ha. unfold at_. destruct (nth_lookup_or_length a (Z.to_nat i) 0) as [E|E]; [by apply (Forall_lookup_1 _ _ _ _ Ha) in E|]. rewrite nth_overflow by done. by left.
Qed.

Lemma bit_sel t a : Forall bit a -> Forall bit (sel t a).
Proof. intros Ha. unfold sel. apply Forall_fmap, Forall_forall. intros p _. by apply bit_at. Qed.

Lemma bit_f_of E K L R : Forall bit (f_of E K L R).
Proof.
  unfold f_of. apply bit_sel, Forall_concat, Forall_fmap, Forall_forall. intros j _. unfold compose, select. rewrite !Forall_cons, Forall_nil. split_and!; (apply bit_land1 || done).
Qed.

Lemma bit_lxor a b : Forall bit a -> Forall bit b -> Forall bit (zip_with Z.lxor a b).
Proof.
  intros Ha. revert b. induction Ha as [|x a Hx Ha IH]; intros [|y b] Hb; cbn; try done. apply Forall_cons in Hb as [Hy Hb]. constructor; [|by apply IH].
  destruct Hx as [->| ->], Hy as [->| ->]; cbn; [by left|by right|by right|by left].
Qed.

Lemma bit_des E KS b : Forall bit b -> Forall bit (des E KS b).
Proof.
  intros Hb. unfold des. assert (H : Forall bit (fst (take 32 (sel IP b), drop 32 (sel IP b))) /\ Forall bit (snd (take 32 (sel IP b), drop 32 (sel IP b)))).
  { cbn [fst snd]. split; [apply Forall_take|apply Forall_drop]; by apply bit_sel. }
  revert H. generalize (take 32 (sel IP b), drop 32 (sel IP b)). induction KS as [|K KS IH]; intros [L R] [HL HR]; cbn [foldl fst snd] in *.
  - apply bit_sel, Forall_app. done.
  - apply IH. unfold round. cbn [fst snd]. split; [done|]. apply bit_lxor; [done|apply bit_f_of].
Qed.

Lemma bit_iter E KS n : Forall bit (Nat.iter n (fun b => encrypt E KS b 0) (replicate 66 0)).
Proof. induction n as [|n IH]; [apply Forall_replicate; by left|]. exact (bit_des E KS _ IH). Qed.

Definition alphabet : list Z := codes "./0123456789ABCDEFGHIJKLMNOPQRSTUVWXYZabcdefghijklmnopqrstuvwxyz".

Lemma out_char_alphabet b i : Forall bit b -> out_char b i ∈ alphabet.
Proof.
  intros Hb. unfold out_char. change (seqZ 0 6) with [0; 1; 2; 3; 4; 5]. cbn [foldl].
  destruct (bit_at b (6 * i + 0) Hb) as [->| ->], (bit_at b (6 * i + 1) Hb) as [->| ->], (bit_at b (6 * i + 2) Hb) as [->| ->],
    (bit_at b (6 * i + 3) Hb) as [->| ->], (bit_at b (6 * i + 4) Hb) as [->| ->], (bit_at b (6 * i + 5) Hb) as [->| ->];
    (refine (bool_decide_eq_true_1 _ _); by vm_compute).
Qed.

Lemma pw_bits_null n pw rest : pw_bits n (pw ++ 0 :: rest) = pw_bits n pw.
Proof. revert pw. induction n as [|n IH]; intros [|c pw]; cbn [app pw_bits]; try done. destruct (c =? 0); [done|]. by rewrite IH. Qed.

Lemma pw_bits_take n pw : pw_bits n pw = pw_bits n (take n pw).
Proof. revert pw. induction n as [|n IH]; intros [|c pw]; cbn [take pw_bits]; try done. destruct (c =? 0); [done|]. by rewrite (IH pw). Qed.

(** Without [crypt] the table [E] is all zeros: every bit of the expansion is
    the character in front of [R], the last of [L], and the decryption of a
    block encrypted with the key alone is another block. *)
Example encrypt_alone_not_undone : let E := replicate 48 0 in let KS := setkey (bits 64 0x133457799BBCDFF1) in let b := bits 64 0x0123456789ABCDEF in
  bool_decide (encrypt E KS (encrypt E KS b 0) 1 = b) = false.
Proof. by vm_compute. Qed.

(** ** The properties *)

(** C20. Encryption and decryption with the same key undo each other, for every
    key, every block of 64 characters and every table [E] whose entries name
    the characters of [R], as [crypt] leaves it for every salt. *)
Theorem des_roundtrip E key b : Forall (fun p => 1 <= p) E -> length b = 64%nat ->
  encrypt E (setkey key) (encrypt E (setkey key) b 0) 1 = b /\ encrypt E (setkey key) (encrypt E (setkey key) b 1) 0 = b /\
  forall s0 s1, Forall (fun p => 1 <= p) (salt_table s0 s1).
Proof.
  intros HE Hb. rewrite !encrypt_des. cbn [Z.eqb]. split; [by apply des_undone|]. split.
  - rewrite <- (rev_involutive (setkey key)) at 1. by apply des_undone.
  - intros s0 s1. apply salt_table_all. refine (bool_decide_eq_true_1 _ _); by vm_compute.
Qed.

Lemma des_roundtrip_witness : let b := bits 64 0x0123456789ABCDEF in let KS := setkey (bits 64 0x133457799BBCDFF1) in
  encrypt e_table KS (encrypt e_table KS b 0) 1 = b /\ encrypt e_table KS (encrypt e_table KS b 1) 0 = b /\ forall s0 s1, Forall (fun p => 1 <= p) (salt_table s0 s1).
Proof.
  intros b KS. apply (des_roundtrip e_table (bits 64 0x133457799BBCDFF1) b); [|reflexivity]. refine (bool_decide_eq_true_1 _ _); by vm_compute.
Defined.

(** For every password and salt [crypt] ends with the salt, its second
    character replaced by the first if it is null, and 11 characters of the
    alphabet of [./0-9A-Za-z]; and only the first eight characters of the
    password count, up to a null one, and the low 7 bits of each. *)
Lemma crypt_form pw s0 s1 : (exists t, crypt pw s0 s1 = s0 :: (if s1 =? 0 then s0 else s1) :: t /\ length t = 11%nat /\ Forall (fun c => c ∈ alphabet) t) /\
  (forall rest, crypt (pw ++ 0 :: rest) s0 s1 = crypt pw s0 s1) /\ forall pw', take 8 pw' = take 8 pw -> crypt pw' s0 s1 = crypt pw s0 s1.
Proof.
  split; [|split].
  - eexists. split; [reflexivity|]. split; [by rewrite length_fmap, length_seqZ|]. apply Forall_fmap, Forall_forall. intros i _. unfold compose. apply out_char_alphabet.
    apply bit_iter.
  - intros rest. unfold crypt. by rewrite pw_bits_null.
  - intros pw' E. unfold crypt. by rewrite (pw_bits_take 8 pw'), (pw_bits_take 8 pw), E.
Qed.

Lemma crypt_form_witness : let pw := codes "password" in let pw' := codes "password1" in
  (exists t, crypt pw 97 98 = 97 :: 98 :: t /\ length t = 11%nat /\ Forall (fun c => c ∈ alphabet) t) /\ crypt pw' 97 98 = crypt pw 97 98.
Proof. intros pw pw'. destruct (crypt_form pw 97 98) as (H1 & _ & H3). split; [exact H1|]. by apply H3. Defined.
