(* ===== verification/Rotor.v ===== *)
(** The one-rotor machine of [crypt(1)], [cmd/crypt.c], and the program
    [makekey] that makes its key ([cmd/makekey.c]).

    A [char] is signed, an [i32] wraps around at 32 bits. *)
From S2P Require Import Prelude Malloc Clist Crypt.

Definition ROTORSZ : Z := 256.
Definition masked (x : Z) : Z := Z.land x 255.

(** [a[i] = v] for a [char]. *)
Definition put_ (a : list Z) (i v : Z) : list Z := <[Z.to_nat i := i8 v]> a.

(** ** The tables *)

Record tables := Tables { t1 : list Z; t2 : list Z; t3 : list Z }.

(** [while (t3[ic] != 0) ic = (ic + 1) % k], [None] when the fuel is used up. *)
Fixpoint free_place_of (fuel : nat) (t3 : list Z) (ic k : Z) : option Z :=
  match fuel with
  | O => None
  | S fuel => if at_ t3 ic =? 0 then Some ic else free_place_of fuel t3 ((ic + 1) mod k) k
  end.

(** One turn of the second loop; [None] is a division by [k] of 0 or a [while]
    that does not end. *)
Definition rotor_step (buf : list Z) (st : Z * list Z * list Z) (i : Z) : option (Z * list Z * list Z) :=
  let '(seed, t1, t3) := st in
  let seed := i32 (5 * seed + at_ buf (i mod 13)) in
  let random := u32 seed mod 65521 in
  let k := ROTORSZ - 1 - i in
  let ic := masked random mod (k + 1) in
  let random := Z.shiftr random 8 in
  let temp := at_ t1 k in
  let t1 := put_ t1 k (at_ t1 ic) in
  let t1 := put_ t1 ic temp in
  if negb (at_ t3 k =? 0) then Some (seed, t1, t3)
  else if k =? 0 then None
  else
    match free_place_of (Z.to_nat ROTORSZ) t3 (masked random mod k) k with
    | None => None
    | Some ic => Some (seed, t1, put_ (put_ t3 k ic) ic k)
    end.

Fixpoint rotor_steps (buf : list Z) (turns : list Z) (st : Z * list Z * list Z) : option (Z * list Z * list Z) :=
  match turns with
  | [] => Some st
  | i :: turns => match rotor_step buf st i with None => None | Some st => rotor_steps buf turns st end
  end.

(** [for (i = 0; i < ROTORSZ; i++) t2[t1[i] & MASK] = i;] *)
Definition invert (t1 : list Z) (t2 : list Z) : list Z := foldl (fun t2 i => put_ t2 (masked (at_ t1 i)) i) t2 (seqZ 0 ROTORSZ).

Definition setup_tables (buf : list Z) : option tables :=
  let seed := foldl (fun seed i => i32 (seed * at_ buf i + i)) 123 (seqZ 0 13) in
  match rotor_steps buf (seqZ 0 ROTORSZ) (seed, i8 <$> seqZ 0 ROTORSZ, replicate (Z.to_nat ROTORSZ) 0) with
  | None => None
  | Some (_, t1, t3) => Some (Tables t1 (invert t1 (replicate (Z.to_nat ROTORSZ) 0)) t3)
  end.

(** ** The stream *)

(** [putchar] writes the low 8 bits. *)
Definition rotor_char (T : tables) (n1 n2 i : Z) : Z :=
  masked (at_ (t2 T) (masked (at_ (t3 T) (masked (at_ (t1 T) (masked (i + n1)) + n2)) - n2)) - n1).

Fixpoint rotor_stream (T : tables) (n1 n2 : Z) (l : list Z) : list Z :=
  match l with
  | [] => []
  | i :: l =>
      rotor_char T n1 n2 i ::
      let n1 := n1 + 1 in
      if n1 =? ROTORSZ then let n2 := n2 + 1 in rotor_stream T 0 (if n2 =? ROTORSZ then 0 else n2) l else rotor_stream T n1 n2 l
  end.

(** ** The key *)

(** [makekey] reads a key of 8 characters and a salt of 2. *)
Definition makekey (input : list Z) : list Z := crypt (take 8 input) (at_ input 8) (at_ input 9).

Fixpoint strncpy (n : nat) (src : list Z) : list Z :=
  match n with
  | O => []
  | S n => match src with c :: src => if c =? 0 then 0 :: strncpy n [] else c :: strncpy n src | [] => 0 :: strncpy n [] end
  end.

Definition setup (pw : list Z) : option tables :=
  let buf := strncpy 8 pw in setup_tables (i8 <$> makekey (buf ++ [at_ buf 0; at_ buf 1])).

Definition crypt_main (pw input : list Z) : option (list Z) := T ← setup pw; Some (rotor_stream T 0 0 input).

Example crypt_hello : crypt_main (codes "UNIX768") (codes "hello, world") ≫= crypt_main (codes "UNIX768") = Some (codes "hello, world").
Proof. by vm_compute. Qed.

(** ** Characters of the tables *)

Lemma masked_mod x : masked x = x mod 256.
Proof. exact (Z.land_ones x 8 ltac:(lia)). Qed.

Lemma masked_range x : 0 <= masked x < 256.
Proof. rewrite masked_mod. apply Z.mod_pos_bound. lia. Qed.

Lemma masked_i8 x : masked (i8 x) = masked x.
Proof. rewrite !masked_mod. exact (swrap_uwrap 8 x ltac:(lia)). Qed.

Lemma masked_id x : 0 <= x < 256 -> masked x = x.
Proof. intros Hx. rewrite masked_mod. by apply Z.mod_small. Qed.

Lemma length_put a k v : length (put_ a k v) = length a.
Proof. apply length_insert. Qed.

Lemma at_put a k v x : length a = 256%nat -> 0 <= k < 256 -> 0 <= x < 256 -> at_ (put_ a k v) x = if decide (x = k) then i8 v else at_ a x.
Proof.
  intros Ha Hk Hx. unfold at_, put_. case_decide as E.
  - subst. apply nth_lookup_Some. apply list_lookup_insert_eq. lia.
  - destruct (lookup_lt_is_Some_2 a (Z.to_nat x)) as [y Hy]; [lia|]. rewrite (nth_lookup_Some a _ _ _ Hy). apply nth_lookup_Some. rewrite list_lookup_insert_ne by lia. done.
Qed.

(** ** [t3] pairs the characters *)

Fixpoint zeros (n : nat) (a : list Z) : nat :=
  match n with O => O | S n => ((if Z.eqb (at_ a (Z.of_nat n)) 0 then 1 else 0) + zeros n a)%nat end.

Lemma zeros_some n a : (0 < zeros n a)%nat -> exists z, 0 <= z < Z.of_nat n /\ at_ a z = 0.
Proof.
  induction n as [|n IH]; cbn [zeros]; [lia|]. destruct (Z.eqb_spec (at_ a (Z.of_nat n)) 0) as [E|E].
  - intros _. exists (Z.of_nat n). lia.
  - intros H. destruct IH as (z & Hz & Ez); [done|]. exists z. split; [lia|done].
Qed.

Lemma zeros_same n a b : (forall x, 0 <= x < Z.of_nat n -> at_ a x = at_ b x) -> zeros n a = zeros n b.
Proof. induction n as [|n IH]; intros E; cbn [zeros]; [done|]. rewrite E, IH; [done| |lia]. intros x Hx. apply E. lia. Qed.

Lemma zeros_fill n a b z : 0 <= z < Z.of_nat n -> at_ a z = 0 -> at_ b z <> 0 -> (forall x, 0 <= x < Z.of_nat n -> x <> z -> at_ a x = at_ b x) -> zeros n a = S (zeros n b).
Proof.
  induction n as [|n IH]; intros Hz Ha Hb E; cbn [zeros]; [lia|]. destruct (decide (z = Z.of_nat n)) as [->|Hne].
  - rewrite Ha. rewrite (proj2 (Z.eqb_neq _ 0) Hb). change (0 =? 0) with true. cbn [Nat.add]. f_equal. apply zeros_same. intros x Hx. apply E; lia.
  - rewrite (E (Z.of_nat n)) by lia. rewrite IH by (try done; try lia; intros; apply E; lia). lia.
Qed.

(** The places from [ic] on, round the table, lead to a free one. *)
Lemma free_place_found a k z fuel : forall ic, 0 <= z < k -> at_ a z = 0 -> 0 <= ic < k -> (z - ic) mod k < Z.of_nat fuel ->
  exists ic', free_place_of fuel a ic k = Some ic' /\ 0 <= ic' < k /\ at_ a ic' = 0.
Proof.
  induction fuel as [|fuel IH]; intros ic Hz Ha Hic Hf; [pose proof (Z.mod_pos_bound (z - ic) k); lia|]. cbn [free_place_of].
  destruct (Z.eqb_spec (at_ a ic) 0) as [E|E]; [by exists ic|]. assert (Hne : z <> ic) by congruence.
  assert (Hd : (z - (ic + 1) mod k) mod k = (z - ic) mod k - 1).
  { destruct (decide (ic + 1 = k)) as [<-|]; [rewrite Z_mod_same_full, Z.sub_0_r|rewrite (Z.mod_small (ic + 1)) by lia].
    - rewrite (Z.mod_small z) by lia. rewrite <- (Z.mod_add (z - ic) 1 (ic + 1)), Z.mod_small by lia. lia.
    - destruct (Z_lt_le_dec z ic); [rewrite <- (Z.mod_add (z - ic) 1 k), <- (Z.mod_add (z - (ic + 1)) 1 k) by lia|]; rewrite !Z.mod_small by lia; lia. }
  apply IH; [done|done|apply Z.mod_pos_bound; lia|lia].
Qed.

(** With [k] the next one to be paired: those above have their partners, those
    below have none or one above, and those without are even in number, so
    that one is left for [k] if it has none. *)
Record pairing (k : Z) (a : list Z) : Prop := {
  pr_len : length a = 256%nat;
  pr_even : Nat.Even (zeros (Z.to_nat (k + 1)) a);
  pr_above : forall x, k < x < 256 -> masked (at_ a x) <> x /\ masked (at_ a (masked (at_ a x))) = x;
  pr_below : forall x, 0 <= x <= k -> at_ a x <> 0 -> k < masked (at_ a x) /\ masked (at_ a (masked (at_ a x))) = x
}.

Lemma pairing_start : pairing 255 (replicate 256 0).
Proof.
  split; [done|exists 128%nat; by vm_compute|lia|]. intros x Hx Hne. exfalso. apply Hne. unfold at_. apply nth_lookup_Some. apply lookup_replicate_2. lia.
Qed.

Lemma pairing_skip k a : 0 <= k < 256 -> at_ a k <> 0 -> pairing k a -> pairing (k - 1) a.
Proof.
  intros Hk Hne [L E A B]. split; [done| | |].
  - replace (k - 1 + 1) with k by lia. replace (Z.to_nat (k + 1)) with (S (Z.to_nat k)) in E by lia. cbn [zeros] in E. rewrite Z2Nat.id in E by lia. rewrite (proj2 (Z.eqb_neq _ _) Hne) in E. exact E.
  - intros x Hx. destruct (decide (x = k)) as [->|]; [|apply A; lia]. destruct (B k) as [H1 H2]; [lia|done|]. split; [lia|done].
  - intros x Hx Hz. destruct (B x) as [H1 H2]; [lia|done|]. split; [lia|done].
Qed.

(** There is another one without a partner below [k], so [k] is not 0. *)
Lemma pairing_odd k a : 0 <= k < 256 -> at_ a k = 0 -> pairing k a -> exists z, 0 <= z < k /\ at_ a z = 0.
Proof.
  intros Hk Hz [_ E _ _]. replace (Z.to_nat (k + 1)) with (S (Z.to_nat k)) in E by lia. cbn [zeros] in E. rewrite Z2Nat.id, Hz in E by lia. change (0 =? 0) with true in E. cbn [Nat.add] in E.
  destruct (zeros_some (Z.to_nat k) a) as (z & H & ?); [destruct E as [m E]; lia|]. exists z. split; [lia|done].
Qed.

Lemma pairing_pair k ic a : 0 <= ic < k -> k < 256 -> at_ a k = 0 -> at_ a ic = 0 -> pairing k a -> pairing (k - 1) (put_ (put_ a k ic) ic k).
Proof.
  intros Hic Hk Hz Hzi [L E A B]. set (b := put_ (put_ a k ic) ic k).
  assert (Hb : forall x, 0 <= x < 256 -> at_ b x = if decide (x = ic) then i8 k else if decide (x = k) then i8 ic else at_ a x).
  { intros x Hx. unfold b. rewrite !at_put by (rewrite ?length_put; lia || done). done. }
  assert (Hbk : at_ b k = i8 ic) by (rewrite Hb by lia; rewrite decide_False by lia; by rewrite decide_True).
  assert (Hbi : at_ b ic = i8 k) by (rewrite Hb by lia; by rewrite decide_True).
  assert (Hk0 : i8 k <> 0) by (intros C; apply (f_equal masked) in C; rewrite masked_i8, !masked_id in C; lia).
  (* a character paired before keeps its partner *)
  assert (Hold : forall x, 0 <= x < 256 -> x <> k -> x <> ic -> x <> 0 \/ at_ a x <> 0 -> masked (at_ a (masked (at_ a x))) = x -> k < x \/ k < masked (at_ a x) -> masked (at_ b (masked (at_ b x))) = x).
  { intros x Hx N1 N2 N3 Hp Ho. rewrite (Hb x), !decide_False by done. pose proof (masked_range (at_ a x)) as Hr. rewrite Hb by done.
    assert (M1 : masked (at_ a x) <> k) by (intros C; rewrite C, Hz in Hp; change (masked 0) with 0 in Hp; lia).
    assert (M2 : masked (at_ a x) <> ic) by (intros C; rewrite C, Hzi in Hp; change (masked 0) with 0 in Hp; lia).
    by rewrite !decide_False. }
  split.
  - unfold b. by rewrite !length_put.
  - replace (k - 1 + 1) with k by lia. replace (Z.to_nat (k + 1)) with (S (Z.to_nat k)) in E by lia. cbn [zeros] in E. rewrite Z2Nat.id, Hz in E by lia. change (0 =? 0) with true in E. cbn [Nat.add] in E.
    rewrite (zeros_fill (Z.to_nat k) a b ic) in E; [destruct E as [m E]; exists (m - 1)%nat; lia|lia|done|by rewrite Hbi|].
    intros x Hx Hne. rewrite Hb, !decide_False by lia. done.
  - intros x Hx. destruct (decide (x = k)) as [->|Hne].
    + rewrite Hbk, masked_i8, (masked_id ic), Hbi, masked_i8 by lia. split; [lia|apply masked_id; lia].
    + destruct (A x ltac:(lia)) as [H1 H2]. split; [rewrite Hb, !decide_False by lia; done|]. apply Hold; (lia || done).
  - intros x Hx Hnz. destruct (decide (x = ic)) as [->|Hne].
    + rewrite Hbi, masked_i8, (masked_id k), Hbk, masked_i8 by lia. split; [lia|apply masked_id; lia].
    + rewrite Hb, !decide_False in Hnz by lia. destruct (B x ltac:(lia) Hnz) as [H1 H2]. split; [rewrite Hb, !decide_False by lia; lia|].
      apply Hold; first [lia|done|by right].
Qed.

(** ** [t1] names every character once *)

Definition injective (a : list Z) : Prop := length a = 256%nat /\ forall i j, 0 <= i < 256 -> 0 <= j < 256 -> masked (at_ a i) = masked (at_ a j) -> i = j.

Lemma injective_start : injective (i8 <$> seqZ 0 256).
Proof.
  assert (E : forall i, 0 <= i < 256 -> masked (at_ (i8 <$> seqZ 0 256) i) = i).
  { intros i Hi. unfold at_. rewrite (nth_lookup_Some _ _ _ (i8 i)); [rewrite masked_i8; by apply masked_id|]. rewrite list_lookup_fmap, lookup_seqZ_lt by lia. cbn. do 2 f_equal. lia. }
  split; [done|]. intros i j Hi Hj. by rewrite !E.
Qed.

Lemma injective_exchange a k ic : 0 <= k < 256 -> 0 <= ic < 256 -> injective a -> injective (put_ (put_ a k (at_ a ic)) ic (at_ a k)).
Proof.
  intros Hk Hic [L I]. split; [by rewrite !length_put|]. intros i j Hi Hj.
  rewrite !at_put by (rewrite ?length_put; lia || done). repeat case_decide; subst; rewrite ?masked_i8; intros E; apply I in E; lia.
Qed.

Lemma injective_onto a y : injective a -> 0 <= y < 256 -> exists x, 0 <= x < 256 /\ masked (at_ a x) = y.
Proof.
  intros [L I] Hy. set (f := fun i => masked (at_ a i)). assert (ND : NoDup (f <$> seqZ 0 256)).
  { apply NoDup_fmap_2_strong; [|apply NoDup_seqZ]. intros i j Hi Hj E. apply elem_of_seqZ in Hi, Hj. apply I; [lia|lia|done]. }
  assert (P : f <$> seqZ 0 256 ≡ₚ seqZ 0 256).
  { apply submseteq_length_Permutation; [|by rewrite length_fmap]. apply NoDup_submseteq; [done|]. intros x Hx. apply list_elem_of_fmap in Hx as (i & -> & Hi). apply elem_of_seqZ. pose proof (masked_range (at_ a i)). unfold f. lia. }
  assert (Hin : y ∈ f <$> seqZ 0 256) by (rewrite P; apply elem_of_seqZ; lia). apply list_elem_of_fmap in Hin as (x & -> & Hx). apply elem_of_seqZ in Hx. exists x. split; [lia|done].
Qed.

(** ** The tables of every key *)

Lemma rotor_step_ok buf seed a p i : 0 <= i < 256 -> injective a -> pairing (255 - i) p ->
  exists seed' a' p', rotor_step buf (seed, a, p) i = Some (seed', a', p') /\ injective a' /\ pairing (255 - i - 1) p'.
Proof.
  intros Hi I P. unfold rotor_step. set (seed' := i32 _). change ROTORSZ with 256. replace (256 - 1 - i) with (255 - i) by lia. set (k := 255 - i) in *. set (random := u32 seed' mod 65521).
  assert (Hk : 0 <= k < 256) by lia. pose proof (Z.mod_pos_bound (masked random) (k + 1) ltac:(lia)) as Hic. set (a' := put_ (put_ a k _) _ _).
  assert (I' : injective a') by (apply injective_exchange; [lia|lia|done]). destruct (Z.eqb_spec (at_ p k) 0) as [Ez|Ez]; cbn [negb]; [|exists seed', a', p; split; [done|]; split; [done|by apply pairing_skip]].
  destruct (pairing_odd k p Hk Ez P) as (z & Hz & Ep). rewrite (proj2 (Z.eqb_neq k 0)) by lia. set (r := masked (Z.shiftr random 8)).
  pose proof (Z.mod_pos_bound r k ltac:(lia)) as Hr. destruct (free_place_found p k z (Z.to_nat 256) (r mod k) Hz Ep Hr) as (ic & -> & Hc & Ec).
  { pose proof (Z.mod_pos_bound (z - r mod k) k ltac:(lia)). lia. }
  eexists seed', a', _. split; [done|]. split; [done|]. by apply pairing_pair; [|lia| | |].
Qed.

Lemma rotor_steps_ok buf n : forall i seed a p, i + Z.of_nat n = 256 -> 0 <= i -> injective a -> pairing (255 - i) p ->
  exists seed' a' p', rotor_steps buf (seqZ i (Z.of_nat n)) (seed, a, p) = Some (seed', a', p') /\ injective a' /\ pairing (-1) p'.
Proof.
  induction n as [|n IH]; intros i seed a p Hn Hi I P.
  - exists seed, a, p. split; [done|]. split; [done|]. by replace (-1) with (255 - i) by lia.
  - rewrite seqZ_cons by lia. cbn [rotor_steps]. destruct (rotor_step_ok buf seed a p i ltac:(lia) I P) as (seed' & a' & p' & -> & I' & P').
    replace (Z.pred (Z.of_nat (S n))) with (Z.of_nat n) by lia. apply IH; [lia|lia|done|]. by replace (255 - Z.succ i) with (255 - i - 1) by lia.
Qed.

Lemma invert_ok a : injective a -> forall i, 0 <= i < 256 -> masked (at_ (invert a (replicate (Z.to_nat ROTORSZ) 0)) (masked (at_ a i))) = i.
Proof.
  intros [L I]. unfold invert. change (Z.to_nat ROTORSZ) with 256%nat. change ROTORSZ with (0 + Z.of_nat 256). generalize (length_replicate 256 0). generalize (replicate 256 0) as b.
  assert (H : forall n b, (n <= 256)%nat -> length b = 256%nat -> length (foldl (fun t2 i => put_ t2 (masked (at_ a i)) i) b (seqZ 0 (Z.of_nat n))) = 256%nat /\
    forall i, 0 <= i < Z.of_nat n -> masked (at_ (foldl (fun t2 i => put_ t2 (masked (at_ a i)) i) b (seqZ 0 (Z.of_nat n))) (masked (at_ a i))) = i).
  { induction n as [|n IH]; intros b Hn Hb; [split; [done|lia]|]. replace (Z.of_nat (S n)) with (Z.of_nat n + 1) by lia. rewrite seqZ_app, foldl_app by lia.
    rewrite (seqZ_cons _ 1), (seqZ_nil _ (Z.pred 1)) by lia. cbn [foldl]. destruct (IH b ltac:(lia) Hb) as [H1 H2]. split; [by rewrite length_put|]. intros i Hi.
    pose proof (masked_range (at_ a i)). pose proof (masked_range (at_ a (0 + Z.of_nat n))). rewrite at_put by done. case_decide as E.
    - apply I in E; [|lia|lia]. subst i. rewrite masked_i8. apply masked_id. lia.
    - apply H2. destruct (decide (i = 0 + Z.of_nat n)) as [->|]; [done|lia]. }
  intros b Hb. by apply (H 256%nat b).
Qed.

(** What the machine needs of its tables. *)
Record machine (T : tables) : Prop := {
  mc_t1 : injective (t1 T);
  mc_t2 : forall i, 0 <= i < 256 -> masked (at_ (t2 T) (masked (at_ (t1 T) i))) = i;
  mc_t3 : forall x, 0 <= x < 256 -> masked (at_ (t3 T) x) <> x /\ masked (at_ (t3 T) (masked (at_ (t3 T) x))) = x
}.

Lemma setup_tables_ok buf : exists T, setup_tables buf = Some T /\ machine T.
Proof.
  unfold setup_tables. set (seed0 := foldl _ 123 _).
  assert (H : exists seed a p, rotor_steps buf (seqZ 0 ROTORSZ) (seed0, i8 <$> seqZ 0 ROTORSZ, replicate (Z.to_nat ROTORSZ) 0) = Some (seed, a, p) /\ injective a /\ pairing (-1) p).
  { change (Z.to_nat ROTORSZ) with 256%nat. pose proof (rotor_steps_ok buf 256 0 seed0 (i8 <$> seqZ 0 256) (replicate 256 0) eq_refl ltac:(lia) injective_start pairing_start) as H.
    change (Z.of_nat 256) with ROTORSZ in H. exact H. }
  destruct H as (seed & a & p & -> & I & [_ _ Ab _]).
  eexists. split; [done|]. split; cbn [t1 t2 t3]; [done|by apply invert_ok|]. intros x Hx. apply Ab. lia.
Qed.

Lemma masked_add x y : masked (masked x + y) = masked (x + y).
Proof. rewrite !masked_mod. apply Z.add_mod_idemp_l. lia. Qed.

(** One character there and back, at the same position of the rotor. *)
Lemma rotor_char_undone T n1 n2 i : machine T -> 0 <= i < 256 -> rotor_char T n1 n2 (rotor_char T n1 n2 i) = i.
Proof.
  intros [I H2 H3] Hi. unfold rotor_char.
  set (x := masked (i + n1)). set (a := masked (at_ (t1 T) x + n2)). set (y := masked (at_ (t3 T) a - n2)). pose proof (masked_range (i + n1)) as Hx. pose proof (masked_range (at_ (t1 T) x + n2)) as Ha. pose proof (masked_range (at_ (t3 T) a - n2)) as Hy.
  destruct (injective_onto (t1 T) y I Hy) as (j & Hj & Ej). rewrite masked_add, Z.sub_add.
  (* back through [t1], the pairs and [t2] *)
  assert (E1 : masked (at_ (t2 T) y) = j) by (rewrite <- Ej; by apply H2). rewrite E1.
  assert (E2 : masked (at_ (t1 T) j + n2) = masked (at_ (t3 T) a)).
  { rewrite <- masked_add, Ej. unfold y. rewrite masked_add. f_equal. lia. }
  rewrite E2. destruct (H3 a Ha) as [_ E3].
  assert (E4 : masked (at_ (t3 T) (masked (at_ (t3 T) a)) - n2) = masked (at_ (t1 T) x)).
  { rewrite <- Z.add_opp_r, <- masked_add, E3. unfold a. rewrite masked_add. f_equal. lia. }
  rewrite E4. rewrite <- Z.add_opp_r, <- masked_add, (H2 x Hx). unfold x. rewrite masked_add, Z.add_opp_r, Z.add_simpl_r. by apply masked_id.
Qed.

Lemma rotor_stream_undone T l : machine T -> Forall (fun c => 0 <= c < 256) l -> forall n1 n2, rotor_stream T n1 n2 (rotor_stream T n1 n2 l) = l.
Proof.
  intros M. induction 1 as [|c l Hc _ IH]; intros n1 n2; [done|]. cbn [rotor_stream]. rewrite rotor_char_undone by done. f_equal. destruct (n1 + 1 =? ROTORSZ); apply IH.
Qed.

(** C19. [crypt] with the same key undoes what it did: for every key the tables
    are made, without a division by 0 and without an endless search for a
    partner, and the output of the program on its own output is the input, of
    any length. *)
Theorem rotor_undoes_itself pw input : Forall (fun c => 0 <= c < 256) input ->
  exists output, crypt_main pw input = Some output /\ crypt_main pw output = Some input.
Proof.
  intros Hin. unfold crypt_main, setup. match goal with |- context [setup_tables ?b] => destruct (setup_tables_ok b) as (T & -> & M) end. cbn.
  eexists. split; [done|]. by rewrite rotor_stream_undone.
Qed.

Lemma rotor_undoes_itself_witness : exists output, crypt_main (codes "UNIX768") (codes "hello, world") = Some output /\ crypt_main (codes "UNIX768") output = Some (codes "hello, world").
Proof. apply (rotor_undoes_itself (codes "UNIX768") (codes "hello, world")). unfold codes. repeat (constructor; [split; [discriminate|reflexivity]|]). constructor. Defined.

(** For every key the third table pairs the 256 characters, none with
    itself, and the first two are inverse to each other, whatever bytes
    [makekey] answers. *)
Lemma rotor_tables_sound buf : exists T, setup_tables buf = Some T /\
  (forall x, 0 <= x < 256 -> masked (at_ (t3 T) x) <> x /\ masked (at_ (t3 T) (masked (at_ (t3 T) x))) = x) /\
  (forall i, 0 <= i < 256 -> masked (at_ (t2 T) (masked (at_ (t1 T) i))) = i) /\ forall y, 0 <= y < 256 -> masked (at_ (t1 T) (masked (at_ (t2 T) y))) = y.
Proof.
  destruct (setup_tables_ok buf) as (T & E & [I H2 H3]). exists T. split; [done|]. split; [done|]. split; [done|].
  intros y Hy. destruct (injective_onto (t1 T) y I Hy) as (x & Hx & <-). by rewrite H2.
Qed.
