(* ===== verification/Pack.v ===== *)
(** [pack] and [pcat], [cmd/pack/pack.c] and [cmd/pack/pcat.c]: Huffman coding
    of a file and its expansion.

    A file is the list of its bytes.  The list from [sortstart] to [maxnode],
    doubly linked in the code, is the list of its nodes; a pointer to a node of
    the tree is the tree below it.  The checks of the file's name and mode and
    the creation of the output file are not modelled. *)
From S2P Require Import Prelude Malloc Clist.

(** ** [pack] *)

Inductive node := Leaf (sym freq : Z) | Join (zlink olink : node) (freq : Z).
Definition freq (n : node) : Z := match n with Leaf _ f | Join _ _ f => f end.

(** [n] in front of the first node that is not less frequent; [maxnode] is more
    frequent than any. *)
Fixpoint sort_in (n : node) (l : list node) : list node :=
  match l with
  | [] => [n]
  | q :: l => if freq q <? freq n then q :: sort_in n l else n :: q :: l
  end.

(** One more of the character [c], if it has a leaf. *)
Fixpoint count_char (c : Z) (l : list node) : option (list node) :=
  match l with
  | [] => None
  | n :: l =>
      match n with
      | Leaf s f => if s =? c then Some (sort_in (Leaf s (f + 1)) l) else cons n <$> count_char c l
      | Join _ _ _ => cons n <$> count_char c l
      end
  end.
Definition sort_step (l : list node) (c : Z) : list node := match count_char c l with Some l => l | None => Leaf c 1 :: l end.
Definition sortcount (file : list Z) : list node := foldl sort_step [] file.

(** The two least frequent become one, until one is left. *)
Fixpoint formtree (fuel : nat) (l : list node) : option node :=
  match fuel with
  | O => None
  | S fuel =>
      match l with
      | [] => None
      | [p] => Some p
      | p :: q :: l => formtree fuel (sort_in (Join p q (freq p + freq q)) l)
      end
  end.

Definition put16 (v : Z) : list Z := [Z.land v 255; Z.land (Z.shiftr v 8) 255].

(** The index of the node in [tree], [depth] and [tree] after it. *)
Fixpoint maketree (no : node) (depth : Z) (tree : Z -> Z) : Z * (Z * (Z -> Z)) :=
  let d := depth in
  let depth := depth + 2 in
  match no with
  | Leaf sym _ => (d, (depth, <[d + 1 := sym]> (<[d := 0]> tree)))
  | Join zlink olink _ =>
      let '(z, (depth, tree)) := maketree zlink depth tree in
      let tree := <[d := z - d]> tree in
      let '(o, (depth, tree)) := maketree olink depth tree in
      (d, (depth, <[d + 1 := o - d]> tree))
  end.

Definition put_word (j : Z) : list Z := if j <? 255 then [Z.land j 255] else 255 :: put16 j.
Definition tree_words (root : node) : list Z := let '(_, (depth, tree)) := maketree root 0 (fun _ => 0) in tree <$> seqZ 0 depth.
Definition puttree (root : node) : list Z * Z :=
  let ws := tree_words root in
  (put16 (Z.of_nat (length ws)) ++ concat (put_word <$> ws), Z.of_nat (length ws) + 2 * Z.of_nat (length (filter (fun j => 255 <= j) ws))).

(** [codes[sym]] is the length of the code and its bytes, copied from [code]
    at the leaf. *)
Fixpoint gcode (len : Z) (nod : node) (st : (Z -> Z) * (Z -> Z * list Z)) : (Z -> Z) * (Z -> Z * list Z) :=
  let '(code, codes) := st in
  match nod with
  | Leaf sym _ => (code, <[sym := (len, code <$> seqZ 0 (Z.shiftr (len + 7) 3))]> codes)
  | Join zlink olink _ =>
      let bit := Z.shiftr 128 (Z.land len 7) in
      let i := Z.shiftr len 3 in
      let st := gcode (len + 1) zlink (<[i := Z.land (code i) (Z.lnot bit)]> code, codes) in
      gcode (len + 1) olink (<[i := Z.lor (fst st i) bit]> (fst st), snd st)
  end.
Definition codes_of (root : node) : Z -> Z * list Z := snd (gcode 0 root (fun _ => 0, fun _ => (0, []))).

(** [(p[i >> 3] << (i & 07)) & 0200] *)
Definition code_bit (p : list Z) (i : Z) : bool := negb (Z.land (Z.shiftl (nth (Z.to_nat (Z.shiftr i 3)) p 0) (Z.land i 7)) 128 =? 0).

(** [bits] counts them all, [word] collects the last ones. *)
Definition compress_bit (st : Z * Z * list Z) (b : bool) : Z * Z * list Z :=
  let '(bits, word, out) := st in
  let word := u32 (Z.shiftl word 1) + (if b then 1 else 0) in
  let bits := bits + 1 in
  if Z.land bits 15 =? 0 then (bits, 0, out ++ put16 word) else (bits, word, out).
Definition compress_char (codes : Z -> Z * list Z) (st : Z * Z * list Z) (c : Z) : Z * Z * list Z :=
  let '(nbits, p) := codes c in foldl compress_bit st (code_bit p <$> seqZ 0 nbits).
Definition compress_file (codes : Z -> Z * list Z) (file : list Z) : list Z :=
  let '(bits, word, out) := foldl (compress_char codes) (0, 0, []) file in
  if bits =? 0 then out else out ++ put16 (Z.shiftl word (16 - Z.land bits 15)).

Definition PACKED : Z := 7967.
Definition packed_size_estimate (l : list node) (codes : Z -> Z * list Z) (treesize : Z) : Z :=
  let bits := foldr (fun n s => match n with Leaf sym f => f * fst (codes sym) | _ => 0 end + s) 0 l in (bits + 7) / 8 + treesize + 8.

(** What is written, or nothing: a trivial file, or no blocks saved. *)
Definition pack (file : list Z) : option (list Z) :=
  let l := sortcount file in
  if (length l <? 2)%nat then None
  else
    match formtree (length l) l with
    | None => None
    | Some root =>
        let '(key, treesize) := puttree root in
        let codes := codes_of root in
        let nchars := packed_size_estimate l codes treesize in
        if (freq root + 511) / 512 <=? (nchars + 511) / 512 then None
        else Some (put16 PACKED ++ put16 (Z.shiftr (freq root) 16) ++ put16 (Z.land (freq root) 65535) ++ key ++ compress_file codes file)
    end.

(** ** [pcat] *)

Definition get_char (l : list Z) : Z * list Z := match l with [] => (-1, []) | c :: l => (c, l) end.
Definition get16 (l : list Z) : Z * list Z :=
  let '(lo, l) := get_char l in
  let '(hi, l) := get_char l in
  if (lo =? -1) || (hi =? -1) then (-1, l) else (Z.lor (Z.shiftl hi 8) lo, l).
Definition gettreeword (l : list Z) : Z * list Z :=
  let '(c, l) := get_char l in if c =? -1 then (-1, l) else if c =? 255 then get16 l else (c, l).
Fixpoint gettree (keysize : nat) (l : list Z) : list Z * list Z :=
  match keysize with
  | O => ([], l)
  | S k => let '(w, l) := gettreeword l in let '(ws, l) := gettree k l in (w :: ws, l)
  end.

(** [tree[i]]; the words behind those read are zero, outside of the array it is
    undefined. *)
Definition tree_word (tree : list Z) (i : Z) : option Z := if (0 <=? i) && (i <? 1024) then Some (nth (Z.to_nat i) tree 0) else None.

Fixpoint expand_f (fuel : nat) (tree : list Z) (tp bit word size : Z) (l : list Z) : option (list Z) :=
  match fuel with
  | O => None
  | S fuel =>
      let '(word, l) := if bit =? 0 then get16 l else (word, l) in
      let bit := if bit =? 0 then 16 else bit in
      off ← tree_word tree (tp + (if Z.land word 32768 =? 0 then 0 else 1));
      let tp := tp + off in
      let word := Z.land (Z.shiftl word 1) 65535 in
      let bit := bit - 1 in
      t ← tree_word tree tp;
      if t =? 0 then
        c ← tree_word tree (tp + 1);
        let size := size - 1 in
        if size =? 0 then Some [u8 c] else cons (u8 c) <$> expand_f fuel tree 0 bit word size l
      else expand_f fuel tree tp bit word size l
  end.

(** A turn takes a bit of the input. *)
Definition EXPFUEL (l : list Z) : nat := S (8 * length l).

(** [None] is an error message, or a tree that does not fit the array. *)
Definition unpack (l : list Z) : option (list Z) :=
  let '(m, l) := get16 l in
  if negb (m =? PACKED) then None
  else
    let '(lo, l) := get16 l in
    let '(hi, l) := get16 l in
    if 16384 <? lo then None
    else
      let size := Z.lor (Z.shiftl lo 16) (Z.land hi 65535) in
      let '(keysize, l) := get16 l in
      if (keysize <? 0) || (1024 <? keysize) then None
      else let '(tree, l) := gettree (Z.to_nat keysize) l in expand_f (EXPFUEL l) tree 0 0 0 size l.

Definition ex_text : list Z := concat (replicate 100 [97; 98; 97; 99; 97; 97; 98; 100; 255; 0; 97; 97]).
Example pack_unpack_runs : (length <$> pack ex_text, pack ex_text ≫= unpack) = (Some 358%nat, Some ex_text).
Proof. by vm_compute. Qed.

(** ** Words as bits *)

(** The low [n] bits of [w], the highest first. *)
Fixpoint bits (n : nat) (w : Z) : list bool := match n with O => [] | S n => Z.testbit w (Z.of_nat n) :: bits n w end.

(** The bits of a file of 16-bit words, the low byte first. *)
Fixpoint stream (l : list Z) : list bool :=
  match l with lo :: hi :: l => bits 16 (Z.lor (Z.shiftl hi 8) lo) ++ stream l | _ => [] end.

Lemma length_bits n w : length (bits n w) = n.
Proof. induction n as [|n IH]; cbn; congruence. Qed.

Lemma bits_ext n w v : (forall i, 0 <= i < Z.of_nat n -> Z.testbit w i = Z.testbit v i) -> bits n w = bits n v.
Proof. induction n as [|n IH]; intros E; cbn; [done|]. rewrite E, IH; [done| |lia]. intros i Hi. apply E. lia. Qed.

(** A bit shifted in behind. *)
Lemma bits_snoc n w (b : bool) : bits (S n) (Z.shiftl w 1 + (if b then 1 else 0)) = bits n w ++ [b].
Proof.
  assert (E : Z.shiftl w 1 + (if b then 1 else 0) = 2 * w + Z.b2z b) by (rewrite Z.shiftl_mul_pow2 by lia; change (2 ^ 1) with 2; destruct b; cbn; lia). rewrite E. clear E.
  induction n as [|n IH]; cbn [bits app].
  - change (Z.of_nat 0) with 0. by rewrite Z.testbit_0_r.
  - cbn [bits] in IH. rewrite <- IH. f_equal. replace (Z.of_nat (S n)) with (Z.succ (Z.of_nat n)) by lia. by rewrite Z.testbit_succ_r by lia.
Qed.

(** The word shifted up: its bits and zeros. *)
Lemma bits_shiftl n k w : bits (n + k) (Z.shiftl w (Z.of_nat k)) = bits n w ++ bits k 0.
Proof.
  induction n as [|n IH]; cbn [Nat.add bits app].
  - apply bits_ext. intros i Hi. rewrite Z.shiftl_spec by lia. by rewrite Z.testbit_neg_r, Z.testbit_0_l by lia.
  - rewrite IH. f_equal. rewrite Z.shiftl_spec by lia. f_equal. lia.
Qed.

Lemma get16_put16 v l : get16 (put16 v ++ l) = (u16 v, l).
Proof.
  unfold put16, get16. cbn [app get_char].
  assert (Hl : forall x, 0 <= Z.land x 255) by (intros x; apply Z.land_nonneg; right; lia).
  rewrite !(proj2 (Z.eqb_neq _ (-1))) by (pose proof (Hl v); pose proof (Hl (Z.shiftr v 8)); lia). cbn [orb]. f_equal.
  apply Z.bits_inj'. intros i Hi. unfold uwrap. rewrite Z.lor_spec, Z.land_spec. change 255 with (Z.ones 8).
  destruct (Z_lt_le_dec i 16); [rewrite Z.mod_pow2_bits_low by lia|rewrite Z.mod_pow2_bits_high by lia].
  - destruct (Z_lt_le_dec i 8).
    + rewrite Z.shiftl_spec_low, Z.ones_spec_low by lia. by rewrite andb_true_r.
    + rewrite Z.shiftl_spec, Z.land_spec, (Z.ones_spec_low 8 (i - 8)), (Z.ones_spec_high 8 i), Z.shiftr_spec by lia. rewrite andb_true_r, andb_false_r, orb_false_r. f_equal. lia.
  - rewrite Z.shiftl_spec, Z.land_spec, !Z.ones_spec_high by lia. by rewrite !andb_false_r.
Qed.

Lemma stream_put16 v l : stream (put16 v ++ l) = bits 16 v ++ stream l.
Proof.
  pose proof (get16_put16 v l) as E. unfold put16, get16 in E. cbn [app get_char] in E. unfold put16. cbn [app stream]. f_equal. apply bits_ext. intros i Hi.
  assert (Ev : Z.lor (Z.shiftl (Z.land (Z.shiftr v 8) 255) 8) (Z.land v 255) = u16 v).
  { destruct (_ || _) eqn:Eb in E; [|congruence]. apply orb_true_iff in Eb as [Eb|Eb]; apply Z.eqb_eq in Eb;
      [pose proof (proj2 (Z.land_nonneg v 255) ltac:(right; lia))|pose proof (proj2 (Z.land_nonneg (Z.shiftr v 8) 255) ltac:(right; lia))]; lia. }
  rewrite Ev. unfold uwrap. by rewrite Z.mod_pow2_bits_low by lia.
Qed.

Lemma stream_app l1 l2 n : length l1 = (2 * n)%nat -> stream (l1 ++ l2) = stream l1 ++ stream l2.
Proof.
  revert l1. induction n as [|n IH]; intros [|a [|b l1]] Hl; cbn in Hl; try lia; [done|]. cbn [app stream]. rewrite (IH l1) by lia. by rewrite app_assoc.
Qed.

Lemma length_stream l n : length l = (2 * n)%nat -> length (stream l) = (16 * n)%nat.
Proof. revert l. induction n as [|n IH]; intros [|a [|b l]] Hl; cbn in Hl; try lia; [done|]. cbn [stream]. rewrite length_app, length_bits, (IH l) by lia. lia. Qed.

Lemma put16_nonneg v : Forall (fun c => 0 <= c) (put16 v).
Proof. unfold put16. repeat (apply Forall_cons; split; [apply Z.land_nonneg; right; lia|]). constructor. Qed.

(** ** The bits [compress_file] writes *)

(** The words written and the last bits are the bits so far. *)
Definition written (s : list bool) (st : Z * Z * list Z) : Prop :=
  let '(n, word, out) := st in
  n = Z.of_nat (length s) /\ 0 <= word < 2 ^ (n mod 16) /\ length out = (2 * Z.to_nat (n / 16))%nat /\ Forall (fun c => 0 <= c) out /\ s = stream out ++ bits (Z.to_nat (n mod 16)) word.

Lemma land15 x : Z.land x 15 = x mod 16.
Proof. exact (Z.land_ones x 4 ltac:(lia)). Qed.

Lemma compress_bit_ok s st b : written s st -> written (s ++ [b]) (compress_bit st b).
Proof.
  destruct st as [[n word] out]. intros (Hn & Hw & Ho & Hp0 & Hs). unfold compress_bit. rewrite land15. set (r := n mod 16) in *.
  assert (Hr : 0 <= r < 16) by (apply Z.mod_pos_bound; lia). assert (Hp : 2 ^ (r + 1) = 2 * 2 ^ r) by (rewrite Z.pow_add_r by lia; lia).
  assert (H16 : 2 ^ (r + 1) <= 2 ^ 16) by (apply Z.pow_le_mono_r; lia). assert (Es : Z.shiftl word 1 = 2 * word) by (rewrite Z.shiftl_mul_pow2 by lia; lia).
  rewrite u32_id by lia. set (word' := Z.shiftl word 1 + _). assert (Hw' : 0 <= word' < 2 ^ (r + 1)) by (unfold word'; destruct b; lia).
  assert (Eb : bits (S (Z.to_nat r)) word' = bits (Z.to_nat r) word ++ [b]) by apply bits_snoc.
  assert (Hl : Z.of_nat (length (s ++ [b])) = n + 1) by (rewrite length_app; cbn; lia).
  destruct (Z.eqb_spec ((n + 1) mod 16) 0) as [E|E]; unfold written.
  - assert (Er : r = 15) by (unfold r in *; Z.div_mod_to_equations; lia). rewrite E. split; [lia|]. split; [lia|]. split.
    + rewrite length_app, Ho. cbn [put16 length]. Z.div_mod_to_equations. lia.
    + split; [apply Forall_app; split; [done|apply put16_nonneg]|].
       rewrite <- (app_nil_r (put16 word')). rewrite (stream_app _ _ _ Ho), stream_put16. cbn [stream Z.to_nat bits]. rewrite !app_nil_r, Hs, <- app_assoc. f_equal. rewrite <- Eb, Er. done.
  - assert (Er : (n + 1) mod 16 = r + 1 /\ (n + 1) / 16 = n / 16) by (unfold r in *; Z.div_mod_to_equations; lia). destruct Er as [-> ->]. split; [lia|]. split; [done|]. split; [done|]. split; [done|].
    rewrite Hs, <- app_assoc, <- Eb. do 2 f_equal. lia.
Qed.

Lemma compress_bits_ok bs : forall s st, written s st -> written (s ++ bs) (foldl compress_bit st bs).
Proof.
  induction bs as [|b bs IH]; intros s st H; cbn [foldl]; [by rewrite app_nil_r|]. replace (s ++ b :: bs) with ((s ++ [b]) ++ bs) by (by rewrite <- app_assoc). by apply IH, compress_bit_ok.
Qed.

(** The bits of the code of [c]. *)
Definition code_of (codes : Z -> Z * list Z) (c : Z) : list bool := code_bit (snd (codes c)) <$> seqZ 0 (fst (codes c)).

Lemma compress_file_ok codes file : exists pad n, length (compress_file codes file) = (2 * n)%nat /\ Forall (fun c => 0 <= c) (compress_file codes file) /\ stream (compress_file codes file) = concat (code_of codes <$> file) ++ pad.
Proof.
  assert (H : forall l s st, written s st -> written (s ++ concat (code_of codes <$> l)) (foldl (compress_char codes) st l)).
  { induction l as [|c l IH]; intros s st Hs; cbn [foldl fmap list_fmap concat]; [by rewrite app_nil_r|]. rewrite app_assoc. apply IH.
    unfold compress_char, code_of. destruct (codes c) as [nb p]. by apply compress_bits_ok. }
  specialize (H file [] (0, 0, []) ltac:(unfold written; cbn; split_and!; try done; lia)). cbn [app] in H. unfold compress_file.
  destruct (foldl (compress_char codes) (0, 0, []) file) as [[n word] out]. destruct H as (Hn & Hw & Ho & Hp0 & ->). destruct (Z.eqb_spec n 0) as [->|Hne].
  - exists [], 0%nat. split; [done|]. split; [done|]. change (0 mod 16) with 0. cbn [Z.to_nat bits]. by rewrite !app_nil_r.
  - rewrite land15. assert (Hr : 0 <= n mod 16 < 16) by (apply Z.mod_pos_bound; lia). exists (bits (Z.to_nat (16 - n mod 16)) 0), (S (Z.to_nat (n / 16))). split; [rewrite length_app; cbn; lia|]. split; [apply Forall_app; split; [done|apply put16_nonneg]|].
    rewrite <- (app_nil_r (put16 _)), (stream_app _ _ _ Ho), stream_put16. cbn [stream]. rewrite app_nil_r, <- app_assoc. f_equal.
    rewrite <- (Z2Nat.id (16 - n mod 16)) at 1 by lia. rewrite <- bits_shiftl. f_equal. lia.
Qed.

(** ** The tree *)

Fixpoint syms (t : node) : list Z := match t with Leaf s _ => [s] | Join z o _ => syms z ++ syms o end.
Fixpoint nodes_in (t : node) : Z := match t with Leaf _ _ => 1 | Join z o _ => 1 + nodes_in z + nodes_in o end.

(** The way from the root to the leaf of [c]: 0 for [zlink], 1 for [olink]. *)
Fixpoint path (c : Z) (t : node) : list bool :=
  match t with
  | Leaf _ _ => []
  | Join z o _ => if decide (c ∈ syms z) then false :: path c z else true :: path c o
  end.

Lemma path_join c z o f : path c (Join z o f) <> [].
Proof. cbn [path]. by case_decide. Qed.

Lemma nodes_pos t : 0 < nodes_in t.
Proof. induction t as [|z IHz o IHo]; cbn [nodes_in]; lia. Qed.

Lemma nodes_syms t : nodes_in t = 2 * Z.of_nat (length (syms t)) - 1.
Proof. induction t as [|z IHz o IHo]; cbn [nodes_in syms length]; [lia|]. rewrite length_app. lia. Qed.

Lemma syms_ne t : syms t <> [].
Proof. induction t as [|z IHz o IHo]; cbn [syms]; [done|]. by destruct (syms z). Qed.

(** ** [tree]: the links as differences of indices *)

Fixpoint rep (T : Z -> Z) (d : Z) (t : node) : Prop :=
  match t with
  | Leaf s _ => T d = 0 /\ T (d + 1) = s
  | Join z o _ => T d = 2 /\ T (d + 1) = 2 + 2 * nodes_in z /\ rep T (d + 2) z /\ rep T (d + 2 + 2 * nodes_in z) o
  end.

Lemma rep_ext T T' t : forall d, (forall x, d <= x < d + 2 * nodes_in t -> T x = T' x) -> rep T d t -> rep T' d t.
Proof.
  induction t as [s f|z IHz o IHo f]; intros d E; cbn [rep nodes_in] in *.
  - rewrite <- !E by lia. done.
  - pose proof (nodes_pos z). pose proof (nodes_pos o). rewrite <- !E by lia. intros (? & ? & ? & ?). split_and!; [done|done| |].
    + apply IHz; [|done]. intros x Hx. apply E. lia.
    + apply IHo; [|done]. intros x Hx. apply E. lia.
Qed.

Lemma maketree_ok t : forall d T, exists T', maketree t d T = (d, (d + 2 * nodes_in t, T')) /\ rep T' d t /\ forall x, x < d \/ d + 2 * nodes_in t <= x -> T' x = T x.
Proof.
  induction t as [s f|z IHz o IHo f]; intros d T; cbn [maketree nodes_in].
  - eexists. split; [do 2 f_equal|]. split; [cbn [rep]|intros x Hx; by rewrite !fn_lookup_insert_ne by lia].
    rewrite fn_lookup_insert_ne by lia. by rewrite !fn_lookup_insert.
  - pose proof (nodes_pos z). pose proof (nodes_pos o). destruct (IHz (d + 2) T) as (T1 & -> & R1 & F1). set (T2 := <[d := d + 2 - d]> T1).
    destruct (IHo (d + 2 + 2 * nodes_in z) T2) as (T3 & -> & R3 & F3). eexists. split; [f_equal; f_equal; lia|]. split.
    + cbn [rep]. split; [|split; [|split]].
      * rewrite fn_lookup_insert_ne, F3 by lia. unfold T2. rewrite fn_lookup_insert. lia.
      * rewrite fn_lookup_insert. lia.
      * apply (rep_ext T1); [|done]. intros x Hx. rewrite fn_lookup_insert_ne, F3 by lia. unfold T2. by rewrite fn_lookup_insert_ne by lia.
      * apply (rep_ext T3); [|done]. intros x Hx. by rewrite fn_lookup_insert_ne by lia.
    + intros x Hx. rewrite fn_lookup_insert_ne, F3 by lia. unfold T2. rewrite fn_lookup_insert_ne by lia. apply F1. lia.
Qed.

Lemma rep_words T d t x : rep T d t -> Forall (fun c => 0 <= c < 256) (syms t) -> d <= x < d + 2 * nodes_in t -> 0 <= T x < 256 \/ 0 <= T x < 2 * nodes_in t.
Proof.
  revert d. induction t as [s f|z IHz o IHo f]; intros d; cbn [rep syms nodes_in].
  - rewrite Forall_singleton. intros (H1 & H2) Hs Hx. left. destruct (decide (x = d)) as [->|]; [lia|]. replace x with (d + 1) by lia. lia.
  - rewrite Forall_app. intros (H1 & H2 & R1 & R2) [F1 F2] Hx. pose proof (nodes_pos z). pose proof (nodes_pos o).
    destruct (decide (x = d)) as [->|]; [lia|]. destruct (decide (x = d + 1)) as [->|]; [lia|].
    destruct (Z_lt_le_dec x (d + 2 + 2 * nodes_in z)); [destruct (IHz (d + 2) R1 F1); lia|destruct (IHo _ R2 F2); lia].
Qed.

(** ** [gcode] *)

Definition bit_at (code : Z -> Z) (i : Z) : bool := Z.testbit (code (i / 8)) (7 - i mod 8).

Lemma shift3 i : Z.shiftr i 3 = i / 8.
Proof. exact (Z.shiftr_div_pow2 i 3 ltac:(lia)). Qed.
Lemma land7 i : Z.land i 7 = i mod 8.
Proof. exact (Z.land_ones i 3 ltac:(lia)). Qed.

Lemma bit_mask i j : 0 <= i -> 0 <= j <= 7 -> Z.testbit (Z.shiftr 128 (i mod 8)) j = (j =? 7 - i mod 8).
Proof.
  intros Hi Hj. pose proof (Z.mod_pos_bound i 8 ltac:(lia)). rewrite Z.shiftr_spec by lia. change 128 with (2 ^ 7). rewrite Z.pow2_bits_eqb by lia.
  destruct (Z.eqb_spec 7 (j + i mod 8)), (Z.eqb_spec j (7 - i mod 8)); lia.
Qed.

(** The bit number [len] cleared or set, and the others kept. *)
Lemma clear_bit code len i : 0 <= len -> 0 <= i ->
  bit_at (<[Z.shiftr len 3 := Z.land (code (Z.shiftr len 3)) (Z.lnot (Z.shiftr 128 (Z.land len 7)))]> code) i = if i =? len then false else bit_at code i.
Proof.
  intros Hl Hi. rewrite shift3, land7. unfold bit_at. pose proof (Z.mod_pos_bound i 8 ltac:(lia)). pose proof (Z.mod_pos_bound len 8 ltac:(lia)).
  destruct (decide (i / 8 = len / 8)) as [E|E].
  - rewrite E, fn_lookup_insert, Z.land_spec, Z.lnot_spec, bit_mask by lia. destruct (Z.eqb_spec i len) as [->|Hne].
    + rewrite Z.eqb_refl. apply andb_false_r.
    + rewrite (proj2 (Z.eqb_neq _ _)) by (intros C; apply Hne; Z.div_mod_to_equations; lia). cbn [negb]. by rewrite andb_true_r.
  - rewrite fn_lookup_insert_ne by congruence. by rewrite (proj2 (Z.eqb_neq i len)) by congruence.
Qed.

Lemma set_bit code len i : 0 <= len -> 0 <= i ->
  bit_at (<[Z.shiftr len 3 := Z.lor (code (Z.shiftr len 3)) (Z.shiftr 128 (Z.land len 7))]> code) i = if i =? len then true else bit_at code i.
Proof.
  intros Hl Hi. rewrite shift3, land7. unfold bit_at. pose proof (Z.mod_pos_bound i 8 ltac:(lia)). pose proof (Z.mod_pos_bound len 8 ltac:(lia)).
  destruct (decide (i / 8 = len / 8)) as [E|E].
  - rewrite E, fn_lookup_insert, Z.lor_spec, bit_mask by lia. destruct (Z.eqb_spec i len) as [->|Hne].
    + rewrite Z.eqb_refl. apply orb_true_r.
    + rewrite (proj2 (Z.eqb_neq _ _)) by (intros C; apply Hne; Z.div_mod_to_equations; lia). apply orb_false_r.
  - rewrite fn_lookup_insert_ne by congruence. by rewrite (proj2 (Z.eqb_neq i len)) by congruence.
Qed.

Lemma code_bit_at code n i : 0 <= i < n -> code_bit (code <$> seqZ 0 (Z.shiftr (n + 7) 3)) i = bit_at code i.
Proof.
  intros Hi. unfold code_bit, bit_at. rewrite !shift3, land7. rewrite (nth_lookup_Some _ _ _ (code (i / 8))).
  2: { rewrite list_lookup_fmap, lookup_seqZ_lt by (Z.div_mod_to_equations; lia). cbn. do 2 f_equal. rewrite Z2Nat.id; Z.div_mod_to_equations; lia. }
  pose proof (Z.mod_pos_bound i 8 ltac:(lia)). set (x := code (i / 8)). set (k := i mod 8) in *.
  assert (E : Z.testbit (Z.land (Z.shiftl x k) 128) 7 = Z.testbit x (7 - k)) by (rewrite Z.land_spec, Z.shiftl_spec by lia; apply andb_true_r).
  assert (E0 : forall j, 0 <= j -> j <> 7 -> Z.testbit (Z.land (Z.shiftl x k) 128) j = false).
  { intros j Hj Hne. rewrite Z.land_spec. change 128 with (2 ^ 7). rewrite Z.pow2_bits_eqb, (proj2 (Z.eqb_neq 7 j)) by lia. apply andb_false_r. }
  destruct (Z.eqb_spec (Z.land (Z.shiftl x k) 128) 0) as [Ez|Ez]; cbn [negb].
  - by rewrite <- E, Ez.
  - destruct (Z.testbit x (7 - k)) eqn:Et; [done|]. exfalso. apply Ez. apply Z.bits_inj'. intros j Hj. rewrite Z.testbit_0_l. destruct (decide (j = 7)) as [->|]; [congruence|by apply E0].
Qed.

(** The first [n] bits of [code]. *)
Definition prefix (code : Z -> Z) (n : Z) : list bool := bit_at code <$> seqZ 0 n.

Lemma prefix_ext code code' n : (forall i, 0 <= i < n -> bit_at code i = bit_at code' i) -> prefix code n = prefix code' n.
Proof. intros E. apply list_fmap_ext. intros i x Hx. apply lookup_seqZ in Hx as [-> Hx]. apply E. lia. Qed.

Lemma prefix_snoc code n b : 0 <= n -> bit_at code n = b -> prefix code (n + 1) = prefix code n ++ [b].
Proof. intros Hn <-. unfold prefix. rewrite seqZ_app, fmap_app by lia. done. Qed.

Lemma gcode_ok t : forall len code codes, 0 <= len -> NoDup (syms t) ->
  let st := gcode len t (code, codes) in
  (forall i, 0 <= i < len -> bit_at (fst st) i = bit_at code i) /\ (forall c, c ∉ syms t -> snd st c = codes c) /\
  forall c, c ∈ syms t -> code_of (snd st) c = prefix code len ++ path c t.
Proof.
  induction t as [s f|z IHz o IHo f]; intros len code codes Hl ND; cbn [gcode syms path].
  - cbn [fst snd]. split; [done|]. split.
    + intros c Hc. apply fn_lookup_insert_ne. intros ->. apply Hc. by left.
    + intros c Hc. apply list_elem_of_singleton in Hc as ->. unfold code_of. rewrite fn_lookup_insert, app_nil_r. cbn [fst snd]. apply list_fmap_ext. intros i x Hx. apply lookup_seqZ in Hx as [-> Hx]. apply code_bit_at. lia.
  - cbn [syms] in ND. apply NoDup_app in ND as (N1 & Nd & N2). set (code1 := <[_ := Z.land _ _]> code). pose proof (IHz (len + 1) code1 codes ltac:(lia) N1) as (A1 & B1 & C1).
    set (st1 := gcode (len + 1) z (code1, codes)) in *. set (code3 := <[_ := Z.lor _ _]> (fst st1)). pose proof (IHo (len + 1) code3 (snd st1) ltac:(lia) N2) as (A2 & B2 & C2).
    set (st2 := gcode (len + 1) o (code3, snd st1)) in *.
    assert (K1 : forall i, 0 <= i -> bit_at code1 i = if i =? len then false else bit_at code i) by (intros; by apply clear_bit).
    assert (K3 : forall i, 0 <= i -> bit_at code3 i = if i =? len then true else bit_at (fst st1) i) by (intros; by apply set_bit).
    assert (Hlow : forall i, 0 <= i < len -> bit_at (fst st1) i = bit_at code i) by (intros i Hi; rewrite A1, K1 by lia; by rewrite (proj2 (Z.eqb_neq i len)) by lia).
    assert (P1 : prefix code1 (len + 1) = prefix code len ++ [false]).
    { rewrite (prefix_snoc _ _ false); [|done|by rewrite K1, Z.eqb_refl by lia]. f_equal. apply prefix_ext. intros i Hi. rewrite K1 by lia. by rewrite (proj2 (Z.eqb_neq i len)) by lia. }
    assert (P3 : prefix code3 (len + 1) = prefix code len ++ [true]).
    { rewrite (prefix_snoc _ _ true); [|done|by rewrite K3, Z.eqb_refl by lia]. f_equal. apply prefix_ext. intros i Hi. rewrite K3 by lia. rewrite (proj2 (Z.eqb_neq i len)) by lia. by apply Hlow. }
    split; [|split].
    + intros i Hi. rewrite A2, K3 by lia. rewrite (proj2 (Z.eqb_neq i len)) by lia. by apply Hlow.
    + intros c Hc. rewrite elem_of_app in Hc. rewrite B2, B1 by tauto. done.
    + intros c Hc. destruct (decide (c ∈ syms z)) as [Hz|Hz].
      * unfold code_of. rewrite B2 by (intros Ho; by apply (Nd c)). fold (code_of (snd st1) c). rewrite (C1 c Hz), P1, <- app_assoc. done.
      * apply elem_of_app in Hc as [Hc|Hc]; [done|]. rewrite (C2 c Hc), P3, <- app_assoc. done.
Qed.

Lemma codes_of_ok t c : NoDup (syms t) -> c ∈ syms t -> code_of (codes_of t) c = path c t.
Proof. intros ND Hc. destruct (gcode_ok t 0 (fun _ => 0) (fun _ => (0, [])) ltac:(lia) ND) as (_ & _ & H). exact (H c Hc). Qed.

(** ** [expand] *)

(** The bits [expand] has before it: [bit] of the [word], at its top, and those
    of the words of the file to come. *)
Definition ahead (bit word : Z) (l : list Z) : list bool := take (Z.to_nat bit) (bits 16 word) ++ stream l.
Definition reading (bit : Z) (l : list Z) : Prop := 0 <= bit <= 16 /\ Forall (fun c => 0 <= c) l /\ exists n, length l = (2 * n)%nat.

Lemma top_bit w : negb (Z.land w 32768 =? 0) = Z.testbit w 15.
Proof.
  assert (E : forall j, 0 <= j -> Z.testbit (Z.land w 32768) j = if j =? 15 then Z.testbit w 15 else false).
  { intros j Hj. rewrite Z.land_spec. change 32768 with (2 ^ 15). rewrite Z.pow2_bits_eqb by lia. rewrite (Z.eqb_sym 15 j). destruct (Z.eqb_spec j 15) as [->|]; [apply andb_true_r|apply andb_false_r]. }
  destruct (Z.eqb_spec (Z.land w 32768) 0) as [Ez|Ez]; cbn [negb].
  - pose proof (E 15 ltac:(lia)) as E15. rewrite Ez in E15. exact E15.
  - destruct (Z.testbit w 15) eqn:Et; [done|]. exfalso. apply Ez. apply Z.bits_inj'. intros j Hj. rewrite Z.testbit_0_l, E by done. by destruct (j =? 15).
Qed.

Lemma next_bits w n : (n <= 15)%nat -> take n (bits 16 (Z.land (Z.shiftl w 1) 65535)) = take n (bits 15 w).
Proof.
  intros Hn. assert (E : bits 16 (Z.land (Z.shiftl w 1) 65535) = bits 16 (Z.shiftl w 1 + (if false then 1 else 0))); [apply bits_ext|rewrite E].
  - intros i Hi. rewrite Z.add_0_r, Z.land_spec. change 65535 with (Z.ones 16). rewrite Z.ones_spec_low by lia. apply andb_true_r.
  - rewrite (bits_snoc 15 w false), take_app_le; [done|by rewrite length_bits].
Qed.

(** One turn, on the next bit. *)
Lemma expand_step fuel tree tp bit word size l b s : reading bit l -> ahead bit word l = b :: s -> exists bit' word' l',
  reading bit' l' /\ ahead bit' word' l' = s /\
  expand_f (S fuel) tree tp bit word size l =
    (off ← tree_word tree (tp + (if b then 1 else 0));
     t ← tree_word tree (tp + off);
     if t =? 0 then
       c ← tree_word tree (tp + off + 1);
       if size - 1 =? 0 then Some [u8 c] else cons (u8 c) <$> expand_f fuel tree 0 bit' word' (size - 1) l'
     else expand_f fuel tree (tp + off) bit' word' size l').
Proof.
  intros (Hb & Hp & n & Hn) Ha. cbn [expand_f].
  assert (Hf : exists bit1 word1 l1, (if bit =? 0 then get16 l else (word, l)) = (word1, l1) /\ (if bit =? 0 then 16 else bit) = bit1 /\ 0 < bit1 <= 16 /\
    Forall (fun c => 0 <= c) l1 /\ (exists m, length l1 = (2 * m)%nat) /\ ahead bit1 word1 l1 = b :: s).
  { destruct (Z.eqb_spec bit 0) as [->|Hne]; [|exists bit, word, l; split_and!; try done; try lia; by exists n].
    destruct l as [|lo [|hi l]]; [done|cbn in Hn; lia|]. apply Forall_cons in Hp as [Hlo Hp]. apply Forall_cons in Hp as [Hhi Hp].
    exists 16, (Z.lor (Z.shiftl hi 8) lo), l. unfold get16. cbn [get_char]. rewrite !(proj2 (Z.eqb_neq _ (-1))) by lia. split_and!; [done|done|lia|lia|done|exists (n - 1)%nat; cbn in Hn; lia|].
    unfold ahead in *. cbn [Z.to_nat take app] in Ha. cbn [stream] in Ha. rewrite <- Ha. f_equal. }
  destruct Hf as (bit1 & word1 & l1 & -> & -> & Hb1 & Hp1 & Hm & Ha1). exists (bit1 - 1), (Z.land (Z.shiftl word1 1) 65535), l1. split; [split_and!; [lia|lia|done|done]|].
  unfold ahead in Ha1. replace (Z.to_nat bit1) with (S (Z.to_nat (bit1 - 1))) in Ha1 by lia. change (bits 16 word1) with (Z.testbit word1 15 :: bits 15 word1) in Ha1. cbn [take app] in Ha1. apply (inj2 cons) in Ha1 as [Eb Es].
  split; [unfold ahead; by rewrite next_bits by lia|]. rewrite <- top_bit in Eb. destruct b; (destruct (Z.eqb_spec (Z.land word1 32768) 0); [cbn in Eb|]); try discriminate Eb; reflexivity.
Qed.

Definition words_at (ws : list Z) (x : Z) : Z := nth (Z.to_nat x) ws 0.
#[local] Arguments words_at : simpl never.

Lemma tree_word_ok ws x : 0 <= x < 1024 -> tree_word ws x = Some (words_at ws x).
Proof. intros Hx. unfold tree_word. by rewrite (proj2 (Z.leb_le 0 x)), (proj2 (Z.ltb_lt x 1024)) by lia. Qed.

(** From an inner node down to the leaf of [c], which is put out. *)
Lemma expand_walk ws c t : forall d fuel bit word size l s, 0 <= d -> d + 2 * nodes_in t <= 1024 -> rep (words_at ws) d t -> c ∈ syms t -> path c t <> [] -> 0 <= c < 256 ->
  reading bit l -> ahead bit word l = path c t ++ s -> exists bit' word' l', reading bit' l' /\ ahead bit' word' l' = s /\
    expand_f (length (path c t) + fuel) ws d bit word size l = if size - 1 =? 0 then Some [c] else cons c <$> expand_f fuel ws 0 bit' word' (size - 1) l'.
Proof.
  induction t as [a f|z IHz o IHo f]; intros d fuel bit word size l s Hd Hmax R Hc Hp Hc8 Hr Ha; [done|].
  pose proof (nodes_pos z) as Pz. pose proof (nodes_pos o) as Po. cbn [rep syms nodes_in path] in *. destruct R as (R0 & R1 & Rz & Ro).
  (* a turn to the node [x] at [d'] *)
  assert (Hturn : forall (b : bool) (x : node) (d' : Z) (p : list bool), words_at ws (d + (if b then 1 else 0)) + d = d' -> d < d' -> d' + 2 * nodes_in x <= 1024 -> rep (words_at ws) d' x -> c ∈ syms x -> p = path c x ->
    (forall fuel bit word size l s, path c x <> [] -> reading bit l -> ahead bit word l = path c x ++ s -> exists bit' word' l', reading bit' l' /\ ahead bit' word' l' = s /\
      expand_f (length (path c x) + fuel) ws d' bit word size l = if size - 1 =? 0 then Some [c] else cons c <$> expand_f fuel ws 0 bit' word' (size - 1) l') ->
    ahead bit word l = (b :: p) ++ s -> exists bit' word' l', reading bit' l' /\ ahead bit' word' l' = s /\
      expand_f (length (b :: p) + fuel) ws d bit word size l = if size - 1 =? 0 then Some [c] else cons c <$> expand_f fuel ws 0 bit' word' (size - 1) l').
  { intros b x d' p Ed Hlt Hx Rx Hcx -> IH Hab. pose proof (nodes_pos x) as Px. cbn [app] in Hab. destruct (expand_step (length (path c x) + fuel) ws d bit word size l b _ Hr Hab) as (bit1 & word1 & l1 & Hr1 & Ha1 & E).
    cbn [length Nat.add]. rewrite E. rewrite tree_word_ok by (destruct b; lia). cbn. replace (d + words_at ws (d + (if b then 1 else 0))) with d' by lia. rewrite (tree_word_ok ws d') by lia. cbn.
    destruct x as [a g|z' o' g].
    - cbn [rep syms path] in *. destruct Rx as (Rx0 & Rx1). apply list_elem_of_singleton in Hcx as ->. rewrite Rx0. cbn [Z.eqb]. rewrite tree_word_ok by lia. cbn. rewrite Rx1.
      rewrite (uwrap_id 8) by lia. by exists bit1, word1, l1.
    - pose proof (path_join c z' o' g) as Hne. pose proof (proj1 Rx) as Rx0. rewrite Rx0. change (2 =? 0) with false. cbn iota. by apply IH. }
  destruct (decide (c ∈ syms z)) as [Hz|Hz].
  - apply (Hturn false z (d + 2) (path c z)); [rewrite Z.add_0_r; lia|lia|lia|done|done|done| |done]. intros. by apply IHz; try lia.
  - apply elem_of_app in Hc as [Hc|Hc]; [done|]. apply (Hturn true o (d + 2 + 2 * nodes_in z) (path c o)); [lia|lia|lia|done|done|done| |done]. intros. by apply IHo; try lia.
Qed.

Lemma expand_file_ok ws z o f file : forall fuel bit word l pad, let root := Join z o f in 2 * nodes_in root <= 1024 -> rep (words_at ws) 0 root -> Forall (fun c => 0 <= c < 256 /\ c ∈ syms root) file ->
  file <> [] -> reading bit l -> ahead bit word l = concat ((fun c => path c root) <$> file) ++ pad -> (length (ahead bit word l) <= fuel)%nat ->
  expand_f fuel ws 0 bit word (Z.of_nat (length file)) l = Some file.
Proof.
  induction file as [|c file IH]; intros fuel bit word l pad root Hmax R Hf Hne Hr Ha Hfuel; [done|]. apply Forall_cons in Hf as [[Hc8 Hc] Hf]. cbn [fmap list_fmap concat] in Ha. rewrite <- app_assoc in Ha.
  assert (Hp : path c root <> []) by apply path_join. assert (Hlen : (length (path c root) <= fuel)%nat) by (rewrite Ha, length_app in Hfuel; lia).
  destruct (expand_walk ws c root 0 (fuel - length (path c root)) bit word (Z.of_nat (length (c :: file))) l _ ltac:(lia) Hmax R Hc Hp Hc8 Hr Ha) as (bit1 & word1 & l1 & Hr1 & Ha1 & E).
  replace (length (path c root) + (fuel - length (path c root)))%nat with fuel in E by lia. rewrite E. cbn [length]. destruct file as [|c' file]; [done|].
  rewrite (proj2 (Z.eqb_neq _ 0)) by (cbn [length]; lia). replace (Z.of_nat (S (length (c' :: file))) - 1) with (Z.of_nat (length (c' :: file))) by lia.
  rewrite (IH (fuel - length (path c root))%nat bit1 word1 l1 pad); [done|done|done|done|done|done|exact Ha1|]. rewrite Ha1. rewrite Ha, length_app in Hfuel. cbn [fmap list_fmap concat] in *. lia.
Qed.

(** ** The key *)

Lemma u16_put16 v l : 0 <= v < 2 ^ 16 -> get16 (put16 v ++ l) = (v, l).
Proof. intros Hv. rewrite get16_put16. by rewrite (uwrap_id 16) by lia. Qed.

Lemma gettreeword_put j l : 0 <= j < 2 ^ 16 -> gettreeword (put_word j ++ l) = (j, l).
Proof.
  intros Hj. unfold gettreeword, put_word. destruct (Z.ltb_spec j 255) as [H|H].
  - cbn [app get_char]. assert (E : Z.land j 255 = j) by (change 255 with (Z.ones 8); rewrite Z.land_ones by lia; apply Z.mod_small; lia). rewrite E.
    by rewrite !(proj2 (Z.eqb_neq j _)) by lia.
  - rewrite <- app_comm_cons. cbn [get_char]. change (255 =? -1) with false. change (255 =? 255) with true. cbn iota. by apply u16_put16.
Qed.

Lemma gettree_put ws l : Forall (fun j => 0 <= j < 2 ^ 16) ws -> gettree (length ws) (concat (put_word <$> ws) ++ l) = (ws, l).
Proof.
  induction 1 as [|j ws Hj _ IH]; cbn [fmap list_fmap concat length gettree]; [done|]. rewrite <- app_assoc, gettreeword_put by done. by rewrite IH.
Qed.

Lemma tree_words_ok t : Forall (fun c => 0 <= c < 256) (syms t) -> nodes_in t < 2 ^ 15 -> let ws := tree_words t in
  Z.of_nat (length ws) = 2 * nodes_in t /\ Forall (fun j => 0 <= j < 2 ^ 16) ws /\ rep (words_at ws) 0 t.
Proof.
  intros Hs Hn ws. unfold ws, tree_words. pose proof (nodes_pos t) as Hp. destruct (maketree_ok t 0 (fun _ => 0)) as (T & E & R & _). rewrite E. clear E.
  split; [rewrite length_fmap, length_seqZ; lia|]. split.
  - apply Forall_fmap, Forall_forall. intros x Hx. apply elem_of_seqZ in Hx. cbn. destruct (rep_words T 0 t x R Hs); lia.
  - apply (rep_ext T); [|done]. intros x Hx. unfold words_at. symmetry. apply nth_lookup_Some. rewrite list_lookup_fmap, lookup_seqZ_lt by lia. cbn. do 2 f_equal. lia.
Qed.

(** ** The leaves *)

Definition fsyms (l : list node) : list Z := concat (syms <$> l).
Definition total (l : list node) : Z := foldr (fun n s => freq n + s) 0 l.

#[local] Instance fsyms_perm : Proper ((≡ₚ) ==> (≡ₚ)) fsyms.
Proof. intros l l' H. unfold fsyms. by rewrite H. Qed.

#[local] Instance total_perm : Proper ((≡ₚ) ==> (=)) total.
Proof. intros l l'. unfold total. induction 1; cbn [foldr] in *; lia. Qed.

Lemma sort_in_perm n l : sort_in n l ≡ₚ n :: l.
Proof. induction l as [|q l IH]; cbn [sort_in]; [done|]. destruct (_ <? _); [|done]. rewrite IH. apply perm_swap. Qed.

Definition leaf (n : node) : Prop := match n with Leaf _ _ => True | Join _ _ _ => False end.

Lemma count_char_ok c l : Forall leaf l -> match count_char c l with
  | Some l' => exists f r, l ≡ₚ Leaf c f :: r /\ l' ≡ₚ Leaf c (f + 1) :: r
  | None => c ∉ fsyms l
  end.
Proof.
  induction 1 as [|n l Hn _ IH]; cbn [count_char]; [apply not_elem_of_nil|]. destruct n as [s f|]; [|done]. destruct (Z.eqb_spec s c) as [->|Hne].
  - exists f, l. split; [done|]. apply sort_in_perm.
  - destruct (count_char c l) as [l'|]; cbn.
    + destruct IH as (g & r & E1 & E2). exists g, (Leaf s f :: r). rewrite E1, E2. split; apply perm_swap.
    + unfold fsyms. cbn. intros Hin. apply elem_of_cons in Hin as [->|Hin]; [done|by apply IH].
Qed.

(** The leaves have every character of the file once, with its number. *)
Record counted (file : list Z) (l : list node) : Prop := {
  ct_leaf : Forall leaf l;
  ct_once : NoDup (fsyms l);
  ct_chars : forall c, c ∈ fsyms l <-> c ∈ file;
  ct_total : total l = Z.of_nat (length file)
}.

Lemma counted_step file l c : counted file l -> counted (file ++ [c]) (sort_step l c).
Proof.
  intros [Hl Ho Hc Ht]. unfold sort_step. pose proof (count_char_ok c l Hl) as H. destruct (count_char c l) as [l'|].
  - destruct H as (f & r & E1 & E2). rewrite E1 in Hl, Ho, Ht. assert (Hs : fsyms (Leaf c (f + 1) :: r) = fsyms (Leaf c f :: r)) by done. split.
    + rewrite E2. by inversion Hl; constructor.
    + by rewrite E2, Hs.
    + intros x. rewrite E2, Hs, <- E1, Hc, elem_of_app, list_elem_of_singleton. split; [tauto|]. intros [| ->]; [done|]. apply Hc. rewrite E1. by left.
    + rewrite E2, length_app. cbn [total foldr freq length] in *. lia.
  - split.
    + by constructor.
    + unfold fsyms. cbn. by constructor.
    + intros x. unfold fsyms. cbn. rewrite elem_of_cons, elem_of_app, list_elem_of_singleton. fold (fsyms l). rewrite Hc. tauto.
    + rewrite length_app. cbn [total foldr freq length] in *. unfold total in Ht. lia.
Qed.

Lemma sortcount_ok file : counted file (sortcount file).
Proof.
  unfold sortcount. assert (H : forall l seen n, counted seen n -> counted (seen ++ l) (foldl sort_step n l)).
  { induction l as [|c l IH]; intros pre n Hn; cbn [foldl]; [by rewrite app_nil_r|]. replace (pre ++ c :: l) with ((pre ++ [c]) ++ l) by (by rewrite <- app_assoc). by apply IH, counted_step. }
  apply (H file [] []). split; [done|constructor|done|done].
Qed.

Lemma formtree_ok fuel : forall l, l <> [] -> (length l <= fuel)%nat -> exists t, formtree fuel l = Some t /\ syms t ≡ₚ fsyms l /\ freq t = total l /\
  (((2 <= length l)%nat \/ exists z o f, l = [Join z o f]) -> exists z o f, t = Join z o f).
Proof.
  induction fuel as [|fuel IH]; intros [|p [|q l]] Hne Hf; cbn [length] in Hf; try done; try lia; cbn [formtree].
  - exists p. split; [done|]. split; [unfold fsyms; cbn; by rewrite app_nil_r|]. split; [cbn; lia|]. intros [H|(z & o & f & [= ->])]; [cbn in H; lia|by exists z, o, f].
  - pose proof (sort_in_perm (Join p q (freq p + freq q)) l) as P. set (l' := sort_in _ l) in *. assert (Hl : length l' = S (length l)) by (by rewrite P).
    destruct (IH l') as (t & -> & Hs & Hfr & Hj); [intros ->; discriminate Hl|lia|]. exists t. split; [done|]. split; [|split].
    + rewrite Hs, P. unfold fsyms. cbn. by rewrite app_assoc.
    + rewrite Hfr, P. cbn [total foldr freq]. lia.
    + intros _. apply Hj. destruct l as [|x l]; [right; by exists p, q, (freq p + freq q)|left; rewrite Hl; cbn [length]; lia].
Qed.

Lemma high_low x : Z.lor (Z.shiftl (x / 65536) 16) (x mod 65536) = x.
Proof.
  apply Z.bits_inj'. intros i Hi. rewrite Z.lor_spec. change 65536 with (2 ^ 16). rewrite <- Z.shiftr_div_pow2 by lia. destruct (Z_lt_le_dec i 16).
  - rewrite Z.shiftl_spec_low, Z.mod_pow2_bits_low by lia. done.
  - rewrite Z.shiftl_spec, Z.shiftr_spec, Z.mod_pow2_bits_high by lia. rewrite orb_false_r. f_equal. lia.
Qed.

(** The tree of every file of two characters or more. *)
Lemma pack_tree file : (2 <= length (sortcount file))%nat -> Forall (fun c => 0 <= c < 256) file -> exists z o f, let root := Join z o f in
  formtree (length (sortcount file)) (sortcount file) = Some root /\ NoDup (syms root) /\ Forall (fun c => 0 <= c < 256) (syms root) /\ Forall (fun c => c ∈ syms root) file /\
  freq root = Z.of_nat (length file) /\ 2 * nodes_in root <= 1022.
Proof.
  intros H2 Hf. destruct (sortcount_ok file) as [_ Ho Hc Ht]. destruct (formtree_ok (length (sortcount file)) (sortcount file)) as (t & E & Hs & Hfr & Hj); [by intros E; rewrite E in H2; cbn in H2; lia|done|].
  destruct (Hj (or_introl H2)) as (z & o & f & ->). exists z, o, f. cbn zeta. split; [done|]. assert (ND : NoDup (syms (Join z o f))) by (by rewrite Hs). split; [done|].
  assert (H8 : Forall (fun c => 0 <= c < 256) (syms (Join z o f))).
  { apply Forall_forall. intros c Hin. rewrite Hs in Hin. apply Hc in Hin. by apply (proj1 (Forall_forall _ _) Hf). }
  split; [done|]. split; [apply Forall_forall; intros c Hin; rewrite Hs; by apply Hc|]. split; [by rewrite Hfr|].
  rewrite nodes_syms. assert (length (syms (Join z o f)) <= length (seqZ 0 256))%nat; [|rewrite length_seqZ in *; lia].
  apply submseteq_length, NoDup_submseteq; [done|]. intros c Hin. apply elem_of_seqZ. pose proof (proj1 (Forall_forall _ _) H8 c Hin). cbn in *. lia.
Qed.

(** C14. [pcat] expands what [pack] writes to the file that was packed, for every
    file of less than 2 to the 30 bytes that [pack] packs: whatever the
    characters and their frequencies, with the tree and the codes made of
    them. *)
Theorem pack_pcat file packed : Forall (fun c => 0 <= c < 256) file -> Z.of_nat (length file) < 2 ^ 30 -> pack file = Some packed -> unpack packed = Some file.
Proof.
  intros Hf Hlen Hp. unfold pack in Hp. destruct (Nat.ltb_spec (length (sortcount file)) 2) as [|H2]; [done|].
  destruct (pack_tree file H2 Hf) as (z & o & f & E & ND & H8 & Hin & Hfr & Hn). set (root := Join z o f) in *. rewrite E in Hp. unfold puttree in Hp.
  destruct (_ <=? _); [done|]. apply (inj Some) in Hp. rewrite <- Hp. clear Hp. pose proof (nodes_pos root) as Hpos. destruct (tree_words_ok root H8 ltac:(lia)) as (Hl & Hw & R). set (ws := tree_words root) in *.
  destruct (compress_file_ok (codes_of root) file) as (pad & n & Hcl & Hcp & Hcs). set (out := compress_file (codes_of root) file) in *.
  rewrite Hfr. set (size := Z.of_nat (length file)) in *. assert (Hsz : 0 <= size) by (unfold size; lia). assert (Hsh : Z.shiftr size 16 = size / 65536) by (rewrite Z.shiftr_div_pow2 by lia; done).
  assert (Hland : Z.land size 65535 = size mod 65536) by (exact (Z.land_ones size 16 ltac:(lia))). rewrite Hsh, Hland.
  unfold unpack. rewrite u16_put16 by (unfold PACKED; lia). cbn [negb Z.eqb]. change (PACKED =? PACKED) with true. cbn [negb].
  rewrite u16_put16 by (Z.div_mod_to_equations; lia). rewrite u16_put16 by (Z.div_mod_to_equations; lia). rewrite (proj2 (Z.ltb_ge 16384 _)) by (Z.div_mod_to_equations; lia).
  rewrite <- app_assoc, u16_put16 by lia. rewrite (proj2 (Z.ltb_ge _ 0)), (proj2 (Z.ltb_ge 1024 _)) by lia. cbn [orb]. rewrite Nat2Z.id, gettree_put by done.
  assert (Hland' : forall x, 0 <= x < 65536 -> Z.land x 65535 = x) by (intros x Hx; etransitivity; [exact (Z.land_ones x 16 ltac:(lia))|apply Z.mod_small; lia]).
  assert (Esz : Z.lor (Z.shiftl (size / 65536) 16) (Z.land (size mod 65536) 65535) = size).
  { rewrite Hland' by (apply Z.mod_pos_bound; lia). apply high_low. }
  rewrite Esz. unfold size. apply (expand_file_ok ws z o f file (EXPFUEL out) 0 0 out pad); fold root; try done; try lia.
  - apply Forall_forall. intros c Hc. split; [exact (proj1 (Forall_forall _ _) Hf c Hc)|exact (proj1 (Forall_forall _ _) Hin c Hc)].
  - intros ->. cbn in H2. lia.
  - split; [lia|]. split; [done|]. by exists n.
  - change (ahead 0 0 out) with (stream out). rewrite Hcs. do 2 f_equal. apply list_fmap_ext. intros i c Hi. apply codes_of_ok; [done|]. apply list_elem_of_lookup_2 in Hi. exact (proj1 (Forall_forall _ _) Hin c Hi).
  - change (ahead 0 0 out) with (stream out). rewrite (length_stream _ _ Hcl). unfold EXPFUEL. lia.
Qed.

Lemma pack_pcat_witness : length <$> pack ex_text = Some 358%nat /\ unpack (default [] (pack ex_text)) = Some ex_text.
Proof.
  split; [by vm_compute|]. apply (pack_pcat ex_text (default [] (pack ex_text))); [|by vm_compute|by vm_compute].
  refine (bool_decide_eq_true_1 _ _); by vm_compute.
Defined.
