(* ===== verification/Ctime.v ===== *)
(** Calendar time of the C library, [toolchain/ack/libc/gen_time.c]: seconds
    since 1970 as a date and as text.

    The time zone and the daylight saving flag are what [ftime] answers. *)
From S2P Require Import Prelude Malloc Clist Crypt.

(** [tm_year] counts from 1900. *)
Record tm := Tm { tm_sec : Z; tm_min : Z; tm_hour : Z; tm_mday : Z; tm_mon : Z; tm_year : Z; tm_wday : Z; tm_yday : Z; tm_isdst : Z }.

Definition dmsize : list Z := [31; 28; 31; 30; 31; 30; 31; 31; 30; 31; 30; 31].
Definition dysize (y : Z) : Z := if Z.rem y 4 =? 0 then 366 else 365.

(** ** [gmtime] *)

(** [for (d1 = 70; day >= dysize(d1); d1++) day -= dysize(d1);] *)
Fixpoint years_up (k : nat) (d1 day : Z) : option (Z * Z) :=
  match k with
  | O => None
  | S k => if dysize d1 <=? day then years_up k (d1 + 1) (day - dysize d1) else Some (d1, day)
  end.

(** [for (d1 = 70; day < 0; d1--) day += dysize(d1 - 1);] *)
Fixpoint years_down (k : nat) (d1 day : Z) : option (Z * Z) :=
  match k with
  | O => None
  | S k => if day <? 0 then years_down k (d1 - 1) (day + dysize (d1 - 1)) else Some (d1, day)
  end.

(** A 32-bit time is within 69 years of 1970. *)
Definition CALFUEL : nat := 70.

(** [for (d1 = 0; d0 >= dmsize[d1]; d1++) d0 -= dmsize[d1];], [None] past the
    twelfth month. *)
Fixpoint months (sizes : list Z) (d0 d1 : Z) : option (Z * Z) :=
  match sizes with
  | [] => None
  | n :: sizes => if n <=? d0 then months sizes (d0 - n) (d1 + 1) else Some (d0, d1)
  end.

Definition gmtime (tim : Z) : option tm :=
  let hms := Z.rem tim 86400 in
  let day := Z.quot tim 86400 in
  let '(hms, day) := if hms <? 0 then (hms + 86400, day - 1) else (hms, day) in
  let sec := Z.rem hms 60 in
  let d1 := Z.quot hms 60 in
  let min := Z.rem d1 60 in
  let hour := Z.quot d1 60 in
  let wday := Z.rem (day + 7340036) 7 in
  match (if 0 <=? day then years_up CALFUEL 70 day else years_down CALFUEL 70 day) with
  | None => None
  | Some (year, yday) =>
      let sizes := if dysize year =? 366 then <[1%nat := 29]> dmsize else dmsize in
      match months sizes yday 0 with
      | None => None
      | Some (d0, mon) => Some (Tm sec min hour (d0 + 1) mon year wday yday 0)
      end
  end.

(** ** [localtime] *)

(** The last Sunday of the year's days up to [d]. *)
Definition sunday (t : tm) (d : Z) : Z :=
  let d := if 58 <=? d then d + (dysize (tm_year t) - 365) else d in
  d - Z.rem (d - tm_yday t + tm_wday t + 700) 7.

Definition daytab (year : Z) : Z * Z := if year =? 74 then (5, 333) else if year =? 75 then (58, 303) else (119, 303).

Definition localtime (timezone dstflag tim : Z) : option tm :=
  let copyt := i32 (tim - timezone * 60) in
  match gmtime copyt with
  | None => None
  | Some ct =>
      let '(daylbegin, daylend) := daytab (tm_year ct) in
      let dayno := tm_yday ct in
      let daylbegin := sunday ct daylbegin in
      let daylend := sunday ct daylend in
      if negb (dstflag =? 0) && ((daylbegin <? dayno) || ((dayno =? daylbegin) && (2 <=? tm_hour ct))) &&
         ((dayno <? daylend) || ((dayno =? daylend) && (tm_hour ct <? 1)))
      then match gmtime (i32 (copyt + 60 * 60)) with
           | None => None
           | Some c => Some (Tm (tm_sec c) (tm_min c) (tm_hour c) (tm_mday c) (tm_mon c) (tm_year c) (tm_wday c) (tm_yday c) (tm_isdst c + 1))
           end
      else Some ct
  end.

(** ** [asctime] *)

(** The characters [s] from [p] of [cbuf] on. *)
Definition put_at (p : nat) (s : list Z) (cbuf : list Z) : list Z := take p cbuf ++ s ++ drop (p + length s) cbuf.

(** The two characters after [cp], which moves by three. *)
Definition ct_numb (cp : nat) (n : Z) (cbuf : list Z) : nat * list Z :=
  (S (S (S cp)), put_at (S cp) [if 10 <=? n then Z.rem (Z.quot n 10) 10 + 48 else 32; Z.rem n 10 + 48] cbuf).

Definition day_names : list Z := codes "SunMonTueWedThuFriSat".
Definition month_names : list Z := codes "JanFebMarAprMayJunJulAugSepOctNovDec".
Definition three (i : Z) (s : list Z) : list Z := take 3 (drop (Z.to_nat (3 * i)) s).

Definition asctime (t : tm) : list Z :=
  let cbuf := codes "Day Mon 00 00:00:00 1900" ++ [10; 0] in
  let cbuf := put_at 0 (three (tm_wday t) day_names) cbuf in
  let cbuf := put_at 4 (three (tm_mon t) month_names) cbuf in
  let '(cp, cbuf) := ct_numb 7 (tm_mday t) cbuf in
  let '(cp, cbuf) := ct_numb cp (tm_hour t + 100) cbuf in
  let '(cp, cbuf) := ct_numb cp (tm_min t + 100) cbuf in
  let '(cp, cbuf) := ct_numb cp (tm_sec t + 100) cbuf in
  let cbuf := if 100 <=? tm_year t then put_at (cp + 1) [50; 48] cbuf else cbuf in
  snd (ct_numb (cp + 2) (tm_year t + 100) cbuf).

Definition ctime (timezone dstflag tim : Z) : option (list Z) := asctime <$> localtime timezone dstflag tim.

Example ctime_runs : (ctime 0 0 0, ctime 0 0 1000000000, ctime (-60) 1 2147480000, ctime 0 0 (-2147483648)) =
  (Some (codes "Thu Jan  1 00:00:00 1970" ++ [10; 0]), Some (codes "Sun Sep  9 01:46:40 2001" ++ [10; 0]),
   Some (codes "Tue Jan 19 03:13:20 2038" ++ [10; 0]), Some (codes "Fri Dec 13 20:45:52 1901" ++ [10; 0])).
Proof. by vm_compute. Qed.

(** ** The calendar *)

(** The days from 1970 to the first of January of the year 1900 + [y], with a
    leap year every fourth, as it is from 1901 to 2099. *)
Definition jan1 (y : Z) : Z := 365 * (y - 70) + (y - 1) / 4 - 17.
Definition month_sizes (y : Z) : list Z := if dysize y =? 366 then <[1%nat := 29]> dmsize else dmsize.
Definition sum (l : list Z) : Z := foldr Z.add 0 l.

(** The seconds from 1970 to the date. *)
Definition date_seconds (t : tm) : Z := ((jan1 (tm_year t) + tm_yday t) * 24 + tm_hour t) * 3600 + tm_min t * 60 + tm_sec t.

Record proper_date (t : tm) : Prop := {
  pd_sec : 0 <= tm_sec t < 60;
  pd_min : 0 <= tm_min t < 60;
  pd_hour : 0 <= tm_hour t < 24;
  pd_yday : 0 <= tm_yday t < dysize (tm_year t);
  pd_mon : 0 <= tm_mon t < 12;
  pd_mday : 1 <= tm_mday t <= at_ (month_sizes (tm_year t)) (tm_mon t);
  pd_day : tm_yday t = sum (take (Z.to_nat (tm_mon t)) (month_sizes (tm_year t))) + tm_mday t - 1;
  pd_wday : tm_wday t = (jan1 (tm_year t) + tm_yday t + 4) mod 7
}.

Lemma dysize_pos y : 365 <= dysize y <= 366.
Proof. unfold dysize. destruct (_ =? _); lia. Qed.

Lemma jan1_next y : jan1 (y + 1) = jan1 y + dysize y.
Proof. unfold jan1, dysize. destruct (Z.eqb_spec (Z.rem y 4) 0); Z.to_euclidean_division_equations; lia. Qed.

Lemma years_up_ok k : forall y day, 0 <= day < jan1 (y + Z.of_nat k) - jan1 y ->
  exists y' d', years_up k y day = Some (y', d') /\ y <= y' < y + Z.of_nat k /\ 0 <= d' < dysize y' /\ jan1 y + day = jan1 y' + d'.
Proof.
  induction k as [|k IH]; intros y day Hd; [replace (y + Z.of_nat 0) with y in Hd by lia; lia|]. cbn [years_up]. pose proof (jan1_next y) as E.
  destruct (Z.leb_spec (dysize y) day) as [H|H].
  - destruct (IH (y + 1) (day - dysize y)) as (y' & d' & -> & Hy & Hd' & E'); [replace (y + 1 + Z.of_nat k) with (y + Z.of_nat (S k)) by lia; lia|].
    exists y', d'. split; [done|]. split; [lia|]. split; [done|lia].
  - exists y, day. split; [done|]. split; [lia|]. split; [lia|done].
Qed.

Lemma years_down_ok k : forall y day, jan1 (y - Z.of_nat k) - jan1 y < day < dysize y -> (k <> 0)%nat -> jan1 (y - Z.of_nat (k - 1)) - jan1 y <= day ->
  exists y' d', years_down k y day = Some (y', d') /\ y - Z.of_nat k < y' <= y /\ 0 <= d' < dysize y' /\ jan1 y + day = jan1 y' + d'.
Proof.
  induction k as [|k IH]; intros y day Hd Hk Hlo; [done|]. cbn [years_down]. pose proof (jan1_next (y - 1)) as E. replace (y - 1 + 1) with y in E by lia. replace (S k - 1)%nat with k in Hlo by lia.
  destruct (Z.ltb_spec day 0) as [H|H].
  - destruct k as [|k]; [replace (y - Z.of_nat 0) with y in Hlo by lia; lia|].
    destruct (IH (y - 1) (day + dysize (y - 1))) as (y' & d' & -> & Hy & Hd' & E').
    + replace (y - 1 - Z.of_nat (S k)) with (y - Z.of_nat (S (S k))) by lia. lia.
    + done.
    + replace (y - 1 - Z.of_nat (S k - 1)) with (y - Z.of_nat (S k)) by lia. lia.
    + exists y', d'. split; [done|]. split; [lia|]. split; [done|lia].
  - exists y, day. split; [done|]. split; [lia|]. split; [lia|done].
Qed.

Lemma months_ok sizes : forall d0 m, 0 <= d0 < sum sizes ->
  exists n d, months sizes d0 m = Some (d, m + Z.of_nat n) /\ (n < length sizes)%nat /\ 0 <= d < nth n sizes 0 /\ d0 = sum (take n sizes) + d.
Proof.
  induction sizes as [|s sizes IH]; intros d0 m Hd; cbn [months sum foldr] in *; [lia|]. destruct (Z.leb_spec s d0) as [H|H].
  - destruct (IH (d0 - s) (m + 1)) as (n & d & -> & Hn & Hd' & E); [unfold sum; lia|]. exists (S n), d. split; [do 2 f_equal; lia|]. split; [cbn; lia|]. split; [done|]. cbn. unfold sum in E. lia.
  - exists O, d0. split; [do 2 f_equal; lia|]. split; [cbn; lia|]. split; [cbn; lia|]. cbn. lia.
Qed.

Lemma sum_month_sizes y : sum (month_sizes y) = dysize y /\ length (month_sizes y) = 12%nat.
Proof. unfold month_sizes, dysize. destruct (Z.rem y 4 =? 0); by vm_compute. Qed.

Lemma gmtime_ok tim : - 2 ^ 31 <= tim < 2 ^ 31 -> exists t, gmtime tim = Some t /\ date_seconds t = tim /\ proper_date t /\ tm_isdst t = 0 /\ 0 < tm_year t < 140.
Proof.
  intros Ht. unfold gmtime. set (hms0 := Z.rem tim 86400). set (day0 := Z.quot tim 86400).
  set (p := if hms0 <? 0 then (hms0 + 86400, day0 - 1) else (hms0, day0)).
  assert (Hp : tim = snd p * 86400 + fst p /\ 0 <= fst p < 86400 /\ -24856 <= snd p <= 24855).
  { unfold p, hms0, day0. destruct (Z.ltb_spec (Z.rem tim 86400) 0); cbn [fst snd]; Z.to_euclidean_division_equations; lia. }
  clearbody p. destruct p as [hms day]. cbn [fst snd] in Hp. destruct Hp as (Et & Hh & Hd).
  assert (Hy : exists y d, (if 0 <=? day then years_up CALFUEL 70 day else years_down CALFUEL 70 day) = Some (y, d) /\ 0 < y < 140 /\ 0 <= d < dysize y /\ day = jan1 y + d).
  { change (jan1 70) with 0. destruct (Z.leb_spec 0 day).
    - destruct (years_up_ok CALFUEL 70 day) as (y & d & -> & Hy & Hd' & E); [change (jan1 (70 + Z.of_nat CALFUEL)) with 25567; change (jan1 70) with 0; lia|].
      exists y, d. change (jan1 70) with 0 in E. unfold CALFUEL in Hy. split; [done|]. split; [lia|]. split; [done|lia].
    - destruct (years_down_ok CALFUEL 70 day) as (y & d & -> & Hy & Hd' & E);
        [change (jan1 (70 - Z.of_nat CALFUEL)) with (-25568); change (jan1 70) with 0; change (dysize 70) with 365; lia|done|change (jan1 (70 - Z.of_nat (CALFUEL - 1))) with (-25202); change (jan1 70) with 0; lia|].
      exists y, d. change (jan1 70) with 0 in E. unfold CALFUEL in Hy. split; [done|]. split; [lia|]. split; [done|lia]. }
  destruct Hy as (y & d & -> & Hy & Hd' & Ed). fold (month_sizes y). destruct (sum_month_sizes y) as [Es El].
  destruct (months_ok (month_sizes y) d 0) as (n & d0 & -> & Hn & Hd0 & Em); [by rewrite Es|]. rewrite Z.add_0_l. eexists. split; [done|].
  split; [unfold date_seconds; cbn; Z.to_euclidean_division_equations; lia|]. split; [|split; [done|exact Hy]].
  split; cbn [tm_sec tm_min tm_hour tm_yday tm_mon tm_mday tm_wday tm_year]; try (Z.to_euclidean_division_equations; lia).
  - unfold at_. rewrite Nat2Z.id. lia.
  - rewrite Nat2Z.id. lia.
Qed.

(** [sunday] is the last Sunday up to the day [d] of the year, or to the day
    after it in a leap year if that is past February. *)
Lemma sunday_ok t d : proper_date t -> 0 <= d < 366 ->
  let d' := if 58 <=? d then d + (dysize (tm_year t) - 365) else d in
  d' - 7 < sunday t d <= d' /\ (jan1 (tm_year t) + sunday t d + 4) mod 7 = 0.
Proof.
  intros [_ _ _ Hy _ _ _ Hw] Hd d'. unfold sunday. fold d'. pose proof (dysize_pos (tm_year t)). assert (Hd' : d <= d' <= d + 1) by (unfold d'; destruct (58 <=? d); lia).
  rewrite Hw. pose proof (Z.mod_pos_bound (jan1 (tm_year t) + tm_yday t + 4) 7 ltac:(lia)). Z.to_euclidean_division_equations. lia.
Qed.

(** ** The text *)

Definition two (n : Z) : list Z := [48 + n / 10; 48 + n mod 10].

(** [Day Mon dd hh:mm:ss yyyy], a newline and a null character. *)
Definition date_text (t : tm) : list Z :=
  three (tm_wday t) day_names ++ [32] ++ three (tm_mon t) month_names ++ [32] ++ (if tm_mday t <? 10 then [32; 48 + tm_mday t] else two (tm_mday t)) ++ [32] ++
  two (tm_hour t) ++ [58] ++ two (tm_min t) ++ [58] ++ two (tm_sec t) ++ [32] ++ two ((1900 + tm_year t) / 100) ++ two ((1900 + tm_year t) mod 100) ++ [10; 0].

Lemma length_three i n s : length s = (3 * n)%nat -> 0 <= i < Z.of_nat n -> length (three i s) = 3%nat.
Proof. intros Hs Hi. unfold three. rewrite length_take, length_drop. lia. Qed.

(** [n + 100] in place of [n] always gives two digits. *)
Lemma two_digits n : 0 <= n -> [if 10 <=? n + 100 then Z.rem (Z.quot (n + 100) 10) 10 + 48 else 32; Z.rem (n + 100) 10 + 48] = two (n mod 100).
Proof. intros Hn. rewrite (proj2 (Z.leb_le _ _)) by lia. unfold two. f_equal; [|f_equal]; Z.to_euclidean_division_equations; lia. Qed.

Lemma century y : 0 <= y < 200 -> two ((1900 + y) / 100) = (if 100 <=? y then [50; 48] else [49; 57]) /\ (1900 + y) mod 100 = y mod 100.
Proof.
  intros Hy. split; [|Z.to_euclidean_division_equations; lia]. replace ((1900 + y) / 100) with (if 100 <=? y then 20 else 19); [by destruct (100 <=? y)|].
  destruct (Z.leb_spec 100 y); Z.to_euclidean_division_equations; lia.
Qed.

Lemma asctime_ok t : proper_date t -> 0 <= tm_year t < 200 -> asctime t = date_text t.
Proof.
  intros [Hs Hm Hh Hy Hmon Hmd Hday Hw] Hyear. unfold asctime, date_text, ct_numb.
  assert (Hw7 : 0 <= tm_wday t < Z.of_nat 7) by (rewrite Hw; pose proof (Z.mod_pos_bound (jan1 (tm_year t) + tm_yday t + 4) 7 ltac:(lia)); lia).
  pose proof (length_three (tm_wday t) 7 day_names eq_refl Hw7) as L1. pose proof (length_three (tm_mon t) 12 month_names eq_refl ltac:(lia)) as L2.
  destruct (three (tm_wday t) day_names) as [|a1 [|a2 [|a3 [|]]]]; try discriminate L1. destruct (three (tm_mon t) month_names) as [|b1 [|b2 [|b3 [|]]]]; try discriminate L2.
  assert (Hmd31 : tm_mday t <= 31).
  { assert (Hall : forall y, Forall (fun n => n <= 31) (month_sizes y)) by (intros y; unfold month_sizes; destruct (_ =? _); (refine (bool_decide_eq_true_1 _ _); by vm_compute)).
    unfold at_ in Hmd. destruct (nth_lookup_or_length (month_sizes (tm_year t)) (Z.to_nat (tm_mon t)) 0) as [E|E]; [apply (Forall_lookup_1 _ _ _ _ (Hall _)) in E; lia|].
    rewrite (proj2 (sum_month_sizes _)) in E. lia. }
  assert (Emd : [if 10 <=? tm_mday t then Z.rem (Z.quot (tm_mday t) 10) 10 + 48 else 32; Z.rem (tm_mday t) 10 + 48] = if tm_mday t <? 10 then [32; 48 + tm_mday t] else two (tm_mday t)).
  { unfold two. destruct (Z.ltb_spec (tm_mday t) 10); [rewrite (proj2 (Z.leb_gt _ _)) by lia|rewrite (proj2 (Z.leb_le _ _)) by lia]; f_equal; [f_equal| |f_equal]; Z.to_euclidean_division_equations; lia. }
  destruct (century (tm_year t) Hyear) as [-> ->]. rewrite Emd, !two_digits, (Z.mod_small (tm_hour t)), (Z.mod_small (tm_min t)), (Z.mod_small (tm_sec t)) by lia.
  destruct (tm_mday t <? 10), (100 <=? tm_year t); reflexivity.
Qed.

(** For every 32-bit time [gmtime] ends with the date whose seconds since
    1970 are that time, in the calendar from 1901 to 2038: the fields in their
    ranges, month and day from the day of the year, and the day of the week. *)
Lemma gmtime_exact tim : - 2 ^ 31 <= tim < 2 ^ 31 -> exists t, gmtime tim = Some t /\ date_seconds t = tim /\ proper_date t /\ tm_isdst t = 0.
Proof. intros Ht. destruct (gmtime_ok tim Ht) as (t & ? & ? & ? & ? & _). by exists t. Qed.

Lemma gmtime_exact_witness : gmtime 951826554 = Some (Tm 54 15 12 29 1 100 2 59 0) /\
  exists t, gmtime 951826554 = Some t /\ date_seconds t = 951826554 /\ proper_date t /\ tm_isdst t = 0.
Proof. split; [by vm_compute|]. apply (gmtime_exact 951826554). lia. Defined.

(** ** Local time *)

(** The day of the year of a date. *)
Definition day_in_year (y mon mday : Z) : Z := sum (take (Z.to_nat mon) (month_sizes y)) + mday - 1.

(** Daylight saving time is from the last Sunday up to the first of these
    dates, at two o'clock, to the last up to the second, at two o'clock of
    daylight time: the end of April and of October, but in 1974 and 1975. *)
Definition daylight_limits (y : Z) : Z * Z :=
  if y =? 74 then (day_in_year y 0 6, day_in_year y 10 30) else if y =? 75 then (day_in_year y 1 28, day_in_year y 9 31) else (day_in_year y 3 30, day_in_year y 9 31).
Definition last_sunday (y limit d : Z) : Prop := limit - 7 < d <= limit /\ (jan1 y + d + 4) mod 7 = 0.
Definition daylight (t : tm) : Prop := exists b e, last_sunday (tm_year t) (daylight_limits (tm_year t)).1 b /\ last_sunday (tm_year t) (daylight_limits (tm_year t)).2 e /\
  (jan1 (tm_year t) + b) * 86400 + 2 * 3600 <= date_seconds t < (jan1 (tm_year t) + e) * 86400 + 1 * 3600.

Lemma last_sunday_unique y limit d d' : last_sunday y limit d -> last_sunday y limit d' -> d = d'.
Proof. intros [H1 H2] [H3 H4]. Z.to_euclidean_division_equations. lia. Qed.

(** A day after February counts one more in a leap year. *)
Lemma limits_ok y : let adj d := if 58 <=? d then d + (dysize y - 365) else d in (adj (daytab y).1, adj (daytab y).2) = daylight_limits y /\ 0 <= (daytab y).1 < 366 /\ 0 <= (daytab y).2 < 366.
Proof.
  intros adj. unfold adj, daytab, daylight_limits. destruct (Z.eqb_spec y 74) as [->|]; [by vm_compute|]. destruct (Z.eqb_spec y 75) as [->|]; [by vm_compute|].
  unfold day_in_year, month_sizes, dysize. destruct (Z.rem y 4 =? 0); (split; [reflexivity|by vm_compute]).
Qed.

(** The condition of [localtime]. *)
Definition in_window (ct : tm) : bool :=
  let daylbegin := sunday ct (daytab (tm_year ct)).1 in
  let daylend := sunday ct (daytab (tm_year ct)).2 in
  ((daylbegin <? tm_yday ct) || ((tm_yday ct =? daylbegin) && (2 <=? tm_hour ct))) && ((tm_yday ct <? daylend) || ((tm_yday ct =? daylend) && (tm_hour ct <? 1))).

Lemma in_window_ok t : proper_date t -> in_window t = true <-> daylight t.
Proof.
  intros P. destruct (limits_ok (tm_year t)) as (El & H1 & H2). pose proof (sunday_ok t _ P H1) as B. pose proof (sunday_ok t _ P H2) as E. cbn zeta in El, B, E.
  set (b := sunday t (daytab (tm_year t)).1) in *. set (e := sunday t (daytab (tm_year t)).2) in *.
  assert (Hb : last_sunday (tm_year t) (daylight_limits (tm_year t)).1 b) by (rewrite <- El; exact B). assert (He : last_sunday (tm_year t) (daylight_limits (tm_year t)).2 e) by (rewrite <- El; exact E).
  unfold in_window. fold b e. assert (W : ((b <? tm_yday t) || ((tm_yday t =? b) && (2 <=? tm_hour t))) && ((tm_yday t <? e) || ((tm_yday t =? e) && (tm_hour t <? 1))) = true <->
    (jan1 (tm_year t) + b) * 86400 + 2 * 3600 <= date_seconds t < (jan1 (tm_year t) + e) * 86400 + 1 * 3600).
  { destruct P as [Ps Pm Ph _ _ _ _ _]. unfold date_seconds. rewrite andb_true_iff, !orb_true_iff, !andb_true_iff, !Z.ltb_lt, Z.leb_le, !Z.eqb_eq. lia. }
  rewrite W. split; [intros H; by exists b, e|]. intros (b' & e' & Hb' & He' & H). by rewrite (last_sunday_unique _ _ b b' Hb Hb'), (last_sunday_unique _ _ e e' He He').
Qed.

Lemma localtime_ok timezone dstflag tim : - 2 ^ 31 <= tim - timezone * 60 < 2 ^ 31 - 3600 -> exists std t, localtime timezone dstflag tim = Some t /\
  date_seconds std = tim - timezone * 60 /\ proper_date std /\ proper_date t /\ 0 < tm_year t < 140 /\
  (dstflag <> 0 /\ daylight std -> date_seconds t = date_seconds std + 3600) /\ (~ (dstflag <> 0 /\ daylight std) -> t = std).
Proof.
  intros Ht. unfold localtime. rewrite i32_id by lia. destruct (gmtime_ok (tim - timezone * 60) ltac:(lia)) as (std & -> & Es & P & _ & Hy). exists std.
  destruct (daytab (tm_year std)) as [lb le] eqn:El. pose proof (in_window_ok std P) as W. unfold in_window in W. rewrite El in W. cbn [fst snd] in W. rewrite <- andb_assoc.
  destruct (Z.eqb_spec dstflag 0) as [Ed|Ed]; cbn [negb andb].
  - exists std. repeat (split; [done|]). split; [|done]. by intros [? _].
  - destruct ((_ || _) && _); [|exists std; repeat (split; [done|]); split; [|done]; intros [_ H]; by apply W in H].
    rewrite i32_id by lia. destruct (gmtime_ok (tim - timezone * 60 + 60 * 60) ltac:(lia)) as (t & -> & Et & Pt & _ & Hyt). eexists. split; [done|]. repeat (split; [done|]). split; [by destruct Pt|]. split; [exact Hyt|].
    split; [intros _; unfold date_seconds in *; cbn; lia|]. intros []. split; [done|]. by apply W.
Qed.

(** C39. [ctime] writes the local date of a time: for every time zone, flag and time
    whose local time is in 32 bits, there is a date [std] of the standard time, proper and
    [timezone] minutes behind, and the text is that of [std], or of the date an hour later
    if there is daylight saving and [std] is between its two Sundays.  The text is the names
    of day and month, the day of the month padded with a blank, two digits each for hour,
    minute and second, four for the year. *)
Theorem ctime_text timezone dstflag tim : - 2 ^ 31 <= tim - timezone * 60 < 2 ^ 31 - 3600 -> exists std t, ctime timezone dstflag tim = Some (date_text t) /\
  date_seconds std = tim - timezone * 60 /\ proper_date std /\ proper_date t /\
  (dstflag <> 0 /\ daylight std -> date_seconds t = date_seconds std + 3600) /\ (~ (dstflag <> 0 /\ daylight std) -> t = std).
Proof.
  intros Ht. destruct (localtime_ok timezone dstflag tim Ht) as (std & t & E & Es & P & Pt & Hy & Hd & Hn). exists std, t. split; [|done].
  unfold ctime. rewrite E. cbn [fmap option_fmap option_map]. by rewrite asctime_ok by (done || lia).
Qed.

(** The kernel's [TIMEZONE] and [DSTFLAG]: the Eastern zone of America, in summer. *)
Lemma ctime_text_witness : ctime 300 1 1000000000 = Some (codes "Sat Sep  8 21:46:40 2001" ++ [10; 0]) /\ exists std t, ctime 300 1 1000000000 = Some (date_text t) /\
  date_seconds std = 1000000000 - 300 * 60 /\ proper_date std /\ proper_date t /\
  (1 <> 0 /\ daylight std -> date_seconds t = date_seconds std + 3600) /\ (~ (1 <> 0 /\ daylight std) -> t = std).
Proof. split; [by vm_compute|]. apply (ctime_text 300 1 1000000000). lia. Defined.
