(* ===== verification/Grep.v ===== *)
(** [grep], [cmd/grep.c]: the compilation of a pattern and its match against a
    line.  [advance] is proved against [matches], the meaning of a list of
    items, and [compile] to make the code of such a list.

    A character is a byte; as an [int] a [char] is signed.  A string has its
    null character at its length and nothing behind it: an access further on,
    or outside of [expbuf], is undefined ([None], like [RE error]). *)
From S2P Require Import Prelude Malloc Clist.

Definition CBRA : Z := 1.
Definition CCHR : Z := 2.
Definition CDOT : Z := 4.
Definition CCL : Z := 6.
Definition CDOL : Z := 10.
Definition CEOF : Z := 11.
Definition CKET : Z := 12.
Definition CBACK : Z := 18.
Definition STAR : Z := 1.
Definition ESIZE : Z := 256.
Definition NBRA : Z := 9.

Definition char_at (s : list Z) (i : Z) : option Z := if (0 <=? i) && (i <=? Z.of_nat (length s)) then Some (nth (Z.to_nat i) s 0) else None.

(** ** [compile] *)

Record compiling := Compiling { c_sp : Z; c_ep : Z; c_buf : list Z; c_last : option Z; c_bracket : list Z; c_closed : Z; c_numbra : Z }.

(** [*ep++ = v] for each of [l], from [ep] on. *)
Definition emit (l : list Z) (ep : Z) (buf : list Z) : option (list Z) :=
  if (0 <=? ep) && (ep + Z.of_nat (length l) <=? ESIZE) then Some (take (Z.to_nat ep) buf ++ l ++ drop (Z.to_nat ep + length l) buf) else None.

(** [ep[c >> 3] |= bittab[c & 07]] *)
Definition set_class (ep c : Z) (buf : list Z) : option (list Z) :=
  let i := ep + Z.shiftr c 3 in
  b ← buf !! Z.to_nat i;
  if i <? 0 then None else Some (<[Z.to_nat i := Z.lor b (Z.shiftl 1 (Z.land c 7))]> buf).

(** [for (c = sp[-2]; c < *sp; c++)]: the range without its end, which is [c]
    afterwards unless it is not above its start. *)
Fixpoint set_range (n : nat) (ep c : Z) (buf : list Z) : option (list Z) :=
  match n with O => Some buf | S n => buf ← set_class ep c buf; set_range n ep (c + 1) buf end.

Fixpoint class_loop (fuel : nat) (pat : list Z) (cstart sp c ep : Z) (buf : list Z) : option (Z * list Z) :=
  match fuel with
  | O => None
  | S fuel =>
      if c =? 0 then None
      else
        nxt ← char_at pat sp;
        '(c, sp, buf) ← (if (c =? 45) && (cstart <? sp) && negb (nxt =? 93) then
          from ← char_at pat (sp - 2);
          let from := i8 from in
          let n := Z.to_nat (i8 nxt - from) in
          buf ← set_range n ep from buf;
          Some (from + Z.of_nat n, sp + 1, buf)
        else Some (c, sp, buf));
        buf ← set_class ep c buf;
        c ← char_at pat sp;
        if c =? 93 then Some (sp + 1, buf) else class_loop fuel pat cstart (sp + 1) (i8 c) ep buf
  end.

(** [for (cclcnt = 0; cclcnt < 16; cclcnt++) ep[cclcnt] ^= -1; ep[0] &= 0376;] *)
Definition negate_class (ep : Z) (buf : list Z) : list Z :=
  let p := Z.to_nat ep in
  let cl := (fun b => Z.lxor b 255) <$> take 16 (drop p buf) in
  take p buf ++ (match cl with b :: cl => Z.land b 254 :: cl | [] => [] end) ++ drop (p + 16) buf.

(** The character [c] as itself: [defchar]. *)
Definition defchar (c : Z) (s : compiling) : option compiling :=
  buf ← emit [CCHR; c] (c_ep s) (c_buf s); Some (Compiling (c_sp s) (c_ep s + 2) buf (c_last s) (c_bracket s) (c_closed s) (c_numbra s)).
Definition emit_op (l : list Z) (s : compiling) : option compiling :=
  buf ← emit l (c_ep s) (c_buf s); Some (Compiling (c_sp s) (c_ep s + Z.of_nat (length l)) buf (c_last s) (c_bracket s) (c_closed s) (c_numbra s)).
Definition skip (n : Z) (s : compiling) : compiling := Compiling (c_sp s + n) (c_ep s) (c_buf s) (c_last s) (c_bracket s) (c_closed s) (c_numbra s).

Definition compile_class (pat : list Z) (s : compiling) : option compiling :=
  if ESIZE <=? c_ep s + 17 then None
  else
    s ← emit_op [CCL] s;
    c ← char_at pat (c_sp s);
    let neg := c =? 94 in
    let sp := if neg then c_sp s + 2 else c_sp s + 1 in
    c ← (if neg then char_at pat (c_sp s + 1) else Some c);
    '(sp, buf) ← class_loop (S (length pat)) pat sp sp (i8 c) (c_ep s) (c_buf s);
    Some (Compiling sp (c_ep s + 16) (if neg then negate_class (c_ep s) buf else buf) (c_last s) (c_bracket s) (c_closed s) (c_numbra s)).

Definition compile_escape (pat : list Z) (s : compiling) : option compiling :=
  c ← char_at pat (c_sp s);
  let s := skip 1 s in
  if c =? 40 then
    if NBRA <=? c_numbra s then None
    else s' ← emit_op [CBRA; c_numbra s] s; Some (Compiling (c_sp s') (c_ep s') (c_buf s') (c_last s') (c_numbra s :: c_bracket s) (c_closed s) (c_numbra s + 1))
  else if c =? 41 then
    match c_bracket s with
    | [] => None
    | b :: bracket => s' ← emit_op [CKET; b] s; Some (Compiling (c_sp s') (c_ep s') (c_buf s') (c_last s') bracket (c_closed s + 1) (c_numbra s))
    end
  else if (49 <=? c) && (c <=? 57) then
    if c_closed s <=? c - 49 then None else emit_op [CBACK; c - 49] s
  else defchar c s.

(** [*lastep |= STAR], or the star itself. *)
Definition compile_star (s : compiling) : option compiling :=
  match c_last s with
  | None => defchar 42 s
  | Some p =>
      b ← c_buf s !! Z.to_nat p;
      if (b =? CBRA) || (b =? CKET) then defchar 42 s
      else Some (Compiling (c_sp s) (c_ep s) (<[Z.to_nat p := Z.lor b STAR]> (c_buf s)) (c_last s) (c_bracket s) (c_closed s) (c_numbra s))
  end.

(** The [switch] on the character [c]. *)
Definition compile_step (pat : list Z) (c : Z) (s : compiling) : option compiling :=
  if c =? 46 then emit_op [CDOT] s
  else if c =? 42 then compile_star s
  else if c =? 36 then nxt ← char_at pat (c_sp s); if negb (nxt =? 0) then defchar c s else emit_op [CDOL] s
  else if c =? 91 then compile_class pat s
  else if c =? 92 then compile_escape pat s
  else defchar c s.

Definition set_last (p : option Z) (s : compiling) : compiling := Compiling (c_sp s) (c_ep s) (c_buf s) p (c_bracket s) (c_closed s) (c_numbra s).

Fixpoint compile_loop (fuel : nat) (pat : list Z) (s : compiling) : option (list Z) :=
  match fuel with
  | O => None
  | S fuel =>
      if ESIZE <=? c_ep s then None
      else
        c ← char_at pat (c_sp s);
        let s := skip 1 s in
        let s := if c =? 42 then s else set_last (Some (c_ep s)) s in
        if c =? 0 then s ← emit_op [CEOF] s; Some (c_buf s)
        else s ← compile_step pat c s; compile_loop fuel pat s
  end.

(** [circf] and [expbuf]. *)
Definition compile (pat : list Z) : option (bool * list Z) :=
  let circf := nth 0 pat 0 =? 94 in
  buf ← compile_loop (S (length pat)) pat (Compiling (if circf then 1 else 0) 0 (replicate (Z.to_nat ESIZE) 0) None [] 0 0);
  Some (circf, buf).

(** ** [advance] *)

(** [braslist] and [braelist]. *)
Record groups := Groups { bras : Z -> option Z; brae : Z -> option Z }.

Section Line.
(** The compiled pattern and the line. *)
Context (buf line : list Z).

Definition code (ep : Z) : Z := nth (Z.to_nat ep) buf 0.
Definition lchar (lp : Z) : Z := nth (Z.to_nat lp) line 0.
Definition in_class (ep c : Z) : bool := let c := Z.land c 127 in negb (Z.land (code (ep + Z.shiftr c 3)) (Z.shiftl 1 (Z.land c 7)) =? 0).

Fixpoint ecmp (a b : Z) (count : nat) : bool :=
  match count with O => true | S count => if lchar a =? lchar b then ecmp (a + 1) (b + 1) count else false end.

(** The characters from [lp] on that satisfy [p]: [while ( *lp++ == *ep)] and
    its like, up to the one that fails. *)
Fixpoint run (fuel : nat) (p : Z -> bool) (lp : Z) : Z := match fuel with O => lp | S fuel => if p (lchar lp) then run fuel p (lp + 1) else lp end.
Definition run_from (p : Z -> bool) (lp : Z) : Z := run (length line) p lp.

(** [while (ecmp(bbeg, lp, ct)) lp += ct;] *)
Fixpoint copies (fuel : nat) (bbeg lp : Z) (ct : nat) : option Z :=
  match fuel with O => None | S fuel => if ecmp bbeg lp ct then copies fuel bbeg (lp + Z.of_nat ct) ct else Some lp end.

(** [do { if (f(lp)) return(1); } while (lp-- > curlp); return(0);], going
    down by [d], [n] times more. *)
Fixpoint try_down (f : Z -> groups -> option (bool * groups)) (d : Z) (n : nat) (lp : Z) (g : groups) : option (bool * groups) :=
  match f lp g with
  | Some (false, g) => match n with O => Some (false, g) | S n => try_down f d n (lp - d) g end
  | r => r
  end.

Fixpoint advance (fuel : nat) (lp ep : Z) (g : groups) : option (bool * groups) :=
  match fuel with
  | O => None
  | S fuel =>
      let op := code ep in
      let ep := ep + 1 in
      (* the label star *)
      let star curlp lp ep :=
        if lp =? curlp then advance fuel lp ep g
        else
          let f := if code ep =? CCHR then fun lp g => if lchar lp =? code (ep + 1) then advance fuel lp ep g else Some (false, g)
                   else fun lp g => advance fuel lp ep g in
          try_down f 1 (Z.to_nat (lp - curlp)) lp g in
      if op =? CCHR then if code ep =? lchar lp then advance fuel (lp + 1) (ep + 1) g else Some (false, g)
      else if op =? CDOT then if lchar lp =? 0 then Some (false, g) else advance fuel (lp + 1) ep g
      else if op =? CDOL then if lchar lp =? 0 then advance fuel lp ep g else Some (false, g)
      else if op =? CEOF then Some (true, g)
      else if op =? CCL then if in_class ep (lchar lp) then advance fuel (lp + 1) (ep + 16) g else Some (false, g)
      else if op =? CBRA then advance fuel lp (ep + 1) (Groups (<[code ep := Some lp]> (bras g)) (brae g))
      else if op =? CKET then advance fuel lp (ep + 1) (Groups (bras g) (<[code ep := Some lp]> (brae g)))
      else if op =? CBACK then
        match bras g (code ep), brae g (code ep) with
        | _, None => Some (false, g)
        | Some bbeg, Some bend => let ct := bend - bbeg in
            if ct <? 0 then None else if ecmp bbeg lp (Z.to_nat ct) then advance fuel (lp + ct) (ep + 1) g else Some (false, g)
        | None, Some _ => None
        end
      else if op =? Z.lor CBACK STAR then
        match bras g (code ep), brae g (code ep) with
        | _, None => Some (false, g)
        | Some bbeg, Some bend => let ct := bend - bbeg in
            if ct <? 0 then None
            else
              match copies (S (length line)) bbeg lp (Z.to_nat ct) with
              | None => None
              | Some lp' => try_down (fun lp g => advance fuel lp (ep + 1) g) ct (Z.to_nat (Z.quot (lp' - lp) ct)) lp' g
              end
        | None, Some _ => None
        end
      else if op =? Z.lor CDOT STAR then star lp (run_from (fun c => negb (c =? 0)) lp) ep
      else if op =? Z.lor CCHR STAR then star lp (run_from (fun c => c =? code ep) lp) (ep + 1)
      else if op =? Z.lor CCL STAR then star lp (run_from (in_class ep) lp) (ep + 16)
      else None
  end.

(** An instruction has a byte at least. *)
Definition ADVFUEL : nat := S (Z.to_nat ESIZE).

(** ** [execute], on one line *)

(** [do { if (advance(p1, p2)) goto found; } while ( *p1++);], [n] more
    positions, with the check for the first character if there is one. *)
Fixpoint find_match (n : nat) (p1 : Z) (g : groups) : option (bool * groups) :=
  let try := if code 0 =? CCHR then if lchar p1 =? code 1 then advance ADVFUEL p1 0 g else Some (false, g) else advance ADVFUEL p1 0 g in
  match try with
  | Some (false, g) => match n with O => Some (false, g) | S n => find_match n (p1 + 1) g end
  | r => r
  end.

Definition execute_line (circf : bool) (g : groups) : option (bool * groups) :=
  if circf then advance ADVFUEL 0 0 g else find_match (length line) 0 g.
End Line.

Definition groups0 : groups := Groups (fun _ => None) (fun _ => None).

Definition grep_line (pat line : list Z) : option bool :=
  '(circf, buf) ← compile pat; '(b, _) ← execute_line buf line circf groups0; Some b.

Definition chars (s : string) : list Z := (fun c => Z.of_nat (Ascii.nat_of_ascii c)) <$> String.list_ascii_of_string s.

Example grep_runs : (fun '(p, l) => grep_line (chars p) (chars l)) <$>
  [("a*b", "xaab"); ("^a*b", "xaab"); ("[a-c]x$", "--bx"); ("[^a-c]x$", "--bx"); ("\(a.*\)\1", "abcabc"); ("\(a.*\)\1", "abcabd"); ("a.*z", "a b zz"); ("a**", ""); ("^*", "*"); ("\(ab*\)[0-9][0-9]*\1", "xxab12ab")]%string =
  [Some true; Some false; Some true; Some false; Some true; Some false; Some true; Some true; Some true; Some true].
Proof. by vm_compute. Qed.

(** ** Patterns *)

(** What stands for one character: itself, any, or a class of 16 bytes. *)
Inductive atom := AChr (c : Z) | ADot | ASet (s : list Z).
Inductive item := One (a : atom) | Many (a : atom) | Dol | Bra (n : Z) | Ket (n : Z) | Back (n : Z) | ManyBack (n : Z).

Definition encode_atom (star : Z) (a : atom) : list Z :=
  match a with AChr c => [CCHR + star; c] | ADot => [CDOT + star] | ASet s => CCL + star :: s end.
Definition encode_item (x : item) : list Z :=
  match x with
  | One a => encode_atom 0 a | Many a => encode_atom 1 a
  | Dol => [CDOL] | Bra n => [CBRA; n] | Ket n => [CKET; n] | Back n => [CBACK; n] | ManyBack n => [Z.lor CBACK STAR; n]
  end.
Definition encode (l : list item) : list Z := concat (encode_item <$> l).

(** A class has no null character; a pattern refers to groups that are closed,
    and opens and closes each once.  A starred reference is left out: the
    code does not end on it if the group is empty. *)
Definition atom_ok (a : atom) : bool :=
  match a with AChr c => (0 <? c) | ADot => true | ASet s => (length s =? 16)%nat && negb (Z.testbit (nth 0 s 0) 0) end.
Fixpoint pattern_ok (opened closed : list Z) (l : list item) : bool :=
  match l with
  | [] => true
  | One a :: l | Many a :: l => atom_ok a && pattern_ok opened closed l
  | Dol :: l => pattern_ok opened closed l
  | Bra n :: l => negb (bool_decide (n ∈ opened)) && pattern_ok (n :: opened) closed l
  | Ket n :: l => bool_decide (n ∈ opened) && negb (bool_decide (n ∈ closed)) && pattern_ok opened (n :: closed) l
  | Back n :: l => bool_decide (n ∈ closed) && bool_decide (n ∈ opened) && pattern_ok opened closed l
  | ManyBack _ :: _ => false
  end.

Section Meaning.
Context (line : list Z).

Definition fits_atom (a : atom) (c : Z) : bool :=
  negb (c =? 0) && match a with AChr d => c =? d | ADot => true | ASet s => Z.testbit (nth (Z.to_nat (Z.land c 127 / 8)) s 0) (Z.land c 127 mod 8) end.

(** The rest of the pattern matches from the place [lp] of the line, with the
    groups so far. *)
Inductive matches : list item -> Z -> groups -> Prop :=
  | m_end lp g : matches [] lp g
  | m_one a l lp g : fits_atom a (lchar line lp) = true -> matches l (lp + 1) g -> matches (One a :: l) lp g
  | m_many a l lp g n : 0 <= n -> (forall i, 0 <= i < n -> fits_atom a (lchar line (lp + i)) = true) -> matches l (lp + n) g -> matches (Many a :: l) lp g
  | m_dol l lp g : lp = Z.of_nat (length line) -> matches l lp g -> matches (Dol :: l) lp g
  | m_bra n l lp g : matches l lp (Groups (<[n := Some lp]> (bras g)) (brae g)) -> matches (Bra n :: l) lp g
  | m_ket n l lp g : matches l lp (Groups (bras g) (<[n := Some lp]> (brae g))) -> matches (Ket n :: l) lp g
  | m_back n l lp g s e : bras g n = Some s -> brae g n = Some e -> (forall i, 0 <= i < e - s -> lchar line (s + i) = lchar line (lp + i)) ->
      matches l (lp + (e - s)) g -> matches (Back n :: l) lp g.

(** The groups opened and closed so far are the same. *)
Definition agree (O D : list Z) (g g' : groups) : Prop := (forall n, n ∈ O -> bras g n = bras g' n) /\ forall n, n ∈ D -> brae g n = brae g' n.

Lemma agree_refl O D g : agree O D g g.
Proof. done. Qed.
Lemma agree_trans O D g1 g2 g3 : agree O D g1 g2 -> agree O D g2 g3 -> agree O D g1 g3.
Proof. intros [A B] [C E]. split; intros n Hn; [by rewrite A, C|by rewrite B, E]. Qed.
Lemma agree_sym O D g1 g2 : agree O D g1 g2 -> agree O D g2 g1.
Proof. intros [A B]. split; intros n Hn; symmetry; auto. Qed.

Lemma agree_bra O D g g' n v : agree O D g g' -> agree (n :: O) D (Groups (<[n := v]> (bras g)) (brae g)) (Groups (<[n := v]> (bras g')) (brae g')).
Proof. intros [A B]. split; cbn; [|done]. intros k Hk. destruct (decide (k = n)) as [->|]; [by rewrite !fn_lookup_insert|]. rewrite !fn_lookup_insert_ne by done. apply A. by apply elem_of_cons in Hk as [|]. Qed.
Lemma agree_ket O D g g' n v : agree O D g g' -> agree O (n :: D) (Groups (bras g) (<[n := v]> (brae g))) (Groups (bras g') (<[n := v]> (brae g'))).
Proof. intros [A B]. split; cbn; [done|]. intros k Hk. destruct (decide (k = n)) as [->|]; [by rewrite !fn_lookup_insert|]. rewrite !fn_lookup_insert_ne by done. apply B. by apply elem_of_cons in Hk as [|]. Qed.

(** A match depends on nothing else of the groups. *)
Lemma matches_agree l lp g : matches l lp g -> forall O D g', pattern_ok O D l = true -> agree O D g g' -> matches l lp g'.
Proof.
  induction 1 as [| a l lp g Ha _ IH| a l lp g n Hn Ha _ IH| l lp g Hlp _ IH| n l lp g _ IH| n l lp g _ IH| n l lp g s e Hs He Ht _ IH]; intros O D g' Hok Hag; cbn [pattern_ok] in Hok; rewrite ?andb_true_iff in Hok.
  - constructor.
  - constructor; [done|]. apply (IH O D); [tauto|done].
  - apply (m_many a l lp g' n); [done|done|]. apply (IH O D); [tauto|done].
  - constructor; [done|]. apply (IH O D); [tauto|done].
  - constructor. apply (IH (n :: O) D); [tauto|]. by apply agree_bra.
  - constructor. apply (IH O (n :: D)); [tauto|]. by apply agree_ket.
  - destruct Hok as [[H1 H2] Hok]. apply bool_decide_eq_true in H1, H2. destruct Hag as [A B]. apply (m_back n l lp g' s e); [by rewrite <- A|by rewrite <- B|done|]. apply (IH O D); [tauto|done].
Qed.

(** The groups lie in front of [lp]. *)
Definition groups_before (O D : list Z) (g : groups) (lp : Z) : Prop :=
  (forall n, n ∈ O -> exists s, bras g n = Some s /\ 0 <= s <= lp) /\ forall n, n ∈ D -> exists s e, bras g n = Some s /\ brae g n = Some e /\ 0 <= s <= e /\ e <= lp.

Lemma before_mono O D g lp lp' : lp <= lp' -> groups_before O D g lp -> groups_before O D g lp'.
Proof. intros Hl [A B]. split; intros n Hn; [destruct (A n Hn) as (s & ? & ?); exists s; split; [done|lia]|destruct (B n Hn) as (s & e & ? & ? & ? & ?); exists s, e; split_and!; try done; lia]. Qed.

Lemma before_agree O D g g' lp : (forall n, n ∈ D -> n ∈ O) -> agree O D g g' -> groups_before O D g lp -> groups_before O D g' lp.
Proof. intros S [A B] [C E]. split; intros n Hn; [rewrite <- A by done; by apply C|rewrite <- A, <- B by auto; by apply E]. Qed.
End Meaning.

Section Advance.
Context (buf line : list Z).
Context (Hline : Forall (fun c => 1 <= c < 256) line).
Abbreviation len := (Z.of_nat (length line)).

(** The instructions of [l] at [ep], and the end. *)
Definition code_at (ep : Z) (l : list item) : Prop := 0 <= ep /\ exists rest, drop (Z.to_nat ep) buf = encode l ++ CEOF :: rest.

Lemma code_drop ep i bs : 0 <= ep -> 0 <= i -> drop (Z.to_nat ep) buf = bs -> code buf (ep + i) = nth (Z.to_nat i) bs 0.
Proof.
  intros Hep Hi <-. unfold code. rewrite Z2Nat.inj_add by lia. destruct (nth_lookup_or_length (drop (Z.to_nat ep) buf) (Z.to_nat i) 0) as [E|E].
  - rewrite lookup_drop in E. by apply nth_lookup_Some.
  - rewrite (nth_overflow (drop _ _)) by done. apply nth_overflow. rewrite length_drop in E. lia.
Qed.

Lemma code_next ep bs l rest : 0 <= ep -> drop (Z.to_nat ep) buf = bs ++ encode l ++ CEOF :: rest -> code_at (ep + Z.of_nat (length bs)) l.
Proof.
  intros Hep E. split; [lia|]. exists rest. rewrite Z2Nat.inj_add, Nat2Z.id, <- drop_drop, E by lia. by rewrite drop_app_length.
Qed.

Lemma code_at_cons ep x l : code_at ep (x :: l) -> 0 <= ep /\ code_at (ep + Z.of_nat (length (encode_item x))) l /\
  forall i, 0 <= i < Z.of_nat (length (encode_item x)) -> code buf (ep + i) = nth (Z.to_nat i) (encode_item x) 0.
Proof.
  intros (Hep & rest & E). unfold encode in E. cbn [fmap list_fmap concat] in E. rewrite <- app_assoc in E. split; [done|]. split; [by apply (code_next ep _ l rest)|].
  intros i Hi. rewrite (code_drop ep i _ Hep ltac:(lia) E). by rewrite app_nth1 by lia.
Qed.

Lemma code_at_nil ep : code_at ep [] -> code buf ep = CEOF.
Proof. intros (Hep & rest & E). pose proof (code_drop ep 0 _ Hep ltac:(lia) E) as C. by rewrite Z.add_0_r in C. Qed.

(** ** Characters of the line *)

Lemma lchar_zero lp : 0 <= lp -> lchar line lp = 0 <-> len <= lp.
Proof using Hline.
  intros Hlp. unfold lchar. destruct (nth_lookup_or_length line (Z.to_nat lp) 0) as [E|E].
  - pose proof (lookup_lt_Some _ _ _ E). apply (Forall_lookup_1 _ _ _ _ Hline) in E. lia.
  - rewrite nth_overflow by done. lia.
Qed.

Lemma fits_in a lp : 0 <= lp -> fits_atom a (lchar line lp) = true -> lp < len.
Proof using Hline. intros Hlp H. unfold fits_atom in H. apply andb_true_iff in H as [H _]. apply negb_true_iff, Z.eqb_neq in H. pose proof (lchar_zero lp Hlp). lia. Qed.

(** The run of characters that fit, at most the rest of the line. *)
Lemma run_ok p fuel : forall lp, 0 <= lp -> (forall k, lp <= k -> p (lchar line k) = true -> k < len) -> len - lp <= Z.of_nat fuel ->
  let lp' := run line fuel p lp in lp <= lp' /\ (lp <= len -> lp' <= len) /\ (forall k, lp <= k < lp' -> p (lchar line k) = true) /\ p (lchar line lp') = false.
Proof using Type.
  induction fuel as [|fuel IH]; intros lp Hlp Hp Hf; cbn [run].
  - split; [lia|]. split; [lia|]. split; [lia|]. destruct (p (lchar line lp)) eqn:E; [|done]. apply Hp in E; lia.
  - destruct (p (lchar line lp)) eqn:E; [|split; [lia|]; split; [lia|]; split; [lia|done]]. pose proof (Hp lp ltac:(lia) E). destruct (IH (lp + 1)) as (H1 & H2 & H3 & H4); [lia|intros k Hk; apply Hp; lia|lia|].
    split; [lia|]. split; [lia|]. split; [|done]. intros k Hk. destruct (decide (k = lp)) as [->|]; [done|]. apply H3. lia.
Qed.

Lemma ecmp_ok n : forall a b, ecmp line a b n = true <-> forall i, 0 <= i < Z.of_nat n -> lchar line (a + i) = lchar line (b + i).
Proof using Type.
  induction n as [|n IH]; intros a b; cbn [ecmp]; [split; [lia|done]|]. destruct (Z.eqb_spec (lchar line a) (lchar line b)) as [E|E].
  - rewrite IH. split; intros H i Hi.
    + destruct (decide (i = 0)) as [->|]; [by rewrite !Z.add_0_r|]. replace (a + i) with (a + 1 + (i - 1)) by lia. replace (b + i) with (b + 1 + (i - 1)) by lia. apply H. lia.
    + replace (a + 1 + i) with (a + (i + 1)) by lia. replace (b + 1 + i) with (b + (i + 1)) by lia. apply H. lia.
  - split; [done|]. intros H. exfalso. apply E. specialize (H 0 ltac:(lia)). by rewrite !Z.add_0_r in H.
Qed.

(** The tests of the three instructions. *)
Lemma class_test ep s c : (forall i, 0 <= i < 16 -> code buf (ep + i) = nth (Z.to_nat i) s 0) -> in_class buf ep c = Z.testbit (nth (Z.to_nat (Z.land c 127 / 8)) s 0) (Z.land c 127 mod 8).
Proof using Type.
  intros E. unfold in_class. set (d := Z.land c 127). assert (Ed : d = c mod 128) by exact (Z.land_ones c 7 ltac:(lia)). assert (Hd : 0 <= d < 128) by (rewrite Ed; apply Z.mod_pos_bound; lia). clearbody d. clear Ed.
  replace (Z.shiftr d 3) with (d / 8) by (symmetry; exact (Z.shiftr_div_pow2 d 3 ltac:(lia))). replace (Z.land d 7) with (d mod 8) by (symmetry; exact (Z.land_ones d 3 ltac:(lia))).
  rewrite E by (Z.div_mod_to_equations; lia). set (b := nth _ s 0). pose proof (Z.mod_pos_bound d 8 ltac:(lia)). set (k := d mod 8) in *. rewrite Z.shiftl_1_l.
  destruct (Z.eqb_spec (Z.land b (2 ^ k)) 0) as [Ez|Ez]; cbn [negb].
  - assert (T : Z.testbit (Z.land b (2 ^ k)) k = false) by (by rewrite Ez, Z.testbit_0_l). rewrite Z.land_spec, Z.pow2_bits_true, andb_true_r in T by lia. done.
  - destruct (Z.testbit b k) eqn:T; [done|]. exfalso. apply Ez, Z.bits_inj'. intros i Hi. rewrite Z.land_spec, Z.testbit_0_l, Z.pow2_bits_eqb by lia. destruct (Z.eqb_spec k i) as [<-|]; [by rewrite T|apply andb_false_r].
Qed.

(** One try after the other. *)
Lemma try_down_ok O D (P : Z -> Prop) f n : forall lp g,
  (forall j g1, 0 <= j <= Z.of_nat n -> agree O D g g1 -> exists b g2, f (lp - j) g1 = Some (b, g2) /\ (b = true <-> P (lp - j)) /\ agree O D g1 g2) ->
  exists b g', try_down f 1 n lp g = Some (b, g') /\ (b = true <-> exists j, 0 <= j <= Z.of_nat n /\ P (lp - j)) /\ agree O D g g'.
Proof using Type.
  induction n as [|n IH]; intros lp g Hf; cbn [try_down].
  - destruct (Hf 0 g ltac:(lia) (agree_refl _ _ _)) as (b & g2 & E & Hb & A). rewrite Z.sub_0_r in E. rewrite E. exists b, g2. destruct b; (split; [done|]; split; [|done]).
    + split; [|done]. intros _. exists 0. split; [lia|]. by apply Hb.
    + split; [done|]. intros (j & Hj & HP). replace j with 0 in HP by lia. by apply Hb.
  - destruct (Hf 0 g ltac:(lia) (agree_refl _ _ _)) as (b & g2 & E & Hb & A). rewrite Z.sub_0_r in E. rewrite E. destruct b.
    + exists true, g2. split; [done|]. split; [|done]. split; [|done]. intros _. exists 0. split; [lia|]. by apply Hb.
    + destruct (IH (lp - 1) g2) as (b & g' & E' & Hb' & A').
      { intros j g1 Hj Ag. replace (lp - 1 - j) with (lp - (j + 1)) by lia. apply Hf; [lia|]. by eapply agree_trans. }
      exists b, g'. split; [done|]. split; [|by eapply agree_trans]. rewrite Hb'. split.
      * intros (j & Hj & HP). exists (j + 1). split; [lia|]. by replace (lp - (j + 1)) with (lp - 1 - j) by lia.
      * intros (j & Hj & HP). destruct (decide (j = 0)) as [->|]; [by apply Hb in HP|]. exists (j - 1). split; [lia|]. by replace (lp - 1 - (j - 1)) with (lp - j) by lia.
Qed.

(** ** [matches], instruction by instruction *)

Lemma matches_one a l lp g : matches line (One a :: l) lp g <-> fits_atom a (lchar line lp) = true /\ matches line l (lp + 1) g.
Proof using Type. split; [by inversion 1|]. intros [? ?]. by constructor. Qed.
Lemma matches_dol l lp g : matches line (Dol :: l) lp g <-> lp = len /\ matches line l lp g.
Proof using Type. split; [by inversion 1|]. intros [? ?]. by constructor. Qed.
Lemma matches_bra n l lp g : matches line (Bra n :: l) lp g <-> matches line l lp (Groups (<[n := Some lp]> (bras g)) (brae g)).
Proof using Type. split; [by inversion 1|]. by constructor. Qed.
Lemma matches_ket n l lp g : matches line (Ket n :: l) lp g <-> matches line l lp (Groups (bras g) (<[n := Some lp]> (brae g))).
Proof using Type. split; [by inversion 1|]. by constructor. Qed.
Lemma matches_back n l lp g s e : bras g n = Some s -> brae g n = Some e ->
  matches line (Back n :: l) lp g <-> (forall i, 0 <= i < e - s -> lchar line (s + i) = lchar line (lp + i)) /\ matches line l (lp + (e - s)) g.
Proof using Type.
  intros Hs He. split; [|intros [? ?]; by apply (m_back line n l lp g s e)]. inversion 1 as [| | | | | |? ? ? ? s' e' Hs' He']; subst. rewrite Hs in Hs'. rewrite He in He'.
  injection Hs' as <-. injection He' as <-. done.
Qed.

(** A starred atom takes some of the characters of the run. *)
Lemma matches_many a l lp lp' g : lp <= lp' -> (forall k, lp <= k < lp' -> fits_atom a (lchar line k) = true) -> fits_atom a (lchar line lp') = false ->
  matches line (Many a :: l) lp g <-> exists j, 0 <= j <= lp' - lp /\ matches line l (lp' - j) g.
Proof using Type.
  intros Hle Hrun Hstop. split.
  - inversion 1 as [| |? ? ? ? n Hn Ha Hm| | | |]; subst. exists (lp' - (lp + n)). replace (lp' - (lp' - (lp + n))) with (lp + n) by lia. split; [|done]. split; [|lia].
    destruct (Z_lt_le_dec (lp' - lp) n); [|lia]. specialize (Ha (lp' - lp) ltac:(lia)). replace (lp + (lp' - lp)) with lp' in Ha by lia. congruence.
  - intros (j & Hj & Hm). apply (m_many line a l lp g (lp' - j - lp)); [lia|intros i Hi; apply Hrun; lia|]. by replace (lp + (lp' - j - lp)) with (lp' - j) by lia.
Qed.

(** ** [advance] decides [matches] *)

(** Started at [ep] it ends, answers whether the rest of the pattern matches,
    and leaves the groups so far as they were. *)
Definition decides (fuel : nat) (l : list item) (ep : Z) (O D : list Z) : Prop := forall lp g, 0 <= lp <= len -> groups_before O D g lp ->
  exists b g', advance buf line fuel lp ep g = Some (b, g') /\ (b = true <-> matches line l lp g) /\ agree O D g g'.

Lemma same_answer O D l lp g g' : pattern_ok O D l = true -> agree O D g g' -> matches line l lp g <-> matches line l lp g'.
Proof using Type. intros Hok A. split; intros H; [exact (matches_agree line l lp g H O D g' Hok A)|exact (matches_agree line l lp g' H O D g Hok (agree_sym _ _ _ _ A))]. Qed.

Definition star (fuel : nat) (curlp lp ep : Z) (g : groups) : option (bool * groups) :=
  if lp =? curlp then advance buf line fuel lp ep g
  else try_down (if code buf ep =? CCHR then fun lp g => if lchar line lp =? code buf (ep + 1) then advance buf line fuel lp ep g else Some (false, g)
                 else fun lp g => advance buf line fuel lp ep g) 1 (Z.to_nat (lp - curlp)) lp g.

(** The instruction of a character is that of an unstarred one. *)
Lemma head_char ep l : code_at ep l -> code buf ep = CCHR -> exists l', l = One (AChr (code buf (ep + 1))) :: l'.
Proof using Type.
  intros Hc E. destruct l as [|x l]; [rewrite (code_at_nil ep Hc) in E; discriminate E|]. destruct (code_at_cons ep x l Hc) as (_ & _ & N).
  assert (E0 : code buf ep = nth 0 (encode_item x) 0) by (rewrite <- (Z.add_0_r ep); apply (N 0); destruct x as [[]|[]| | | | |]; cbn; lia). rewrite E in E0.
  destruct x as [[]|[]| | | | |]; cbn in E0; try discriminate E0. exists l. do 3 f_equal. symmetry. apply (N 1). cbn. lia.
Qed.

Lemma star_ok fuel l ep O D lp lp' g : (forall n, n ∈ D -> n ∈ O) -> code_at ep l -> pattern_ok O D l = true -> decides fuel l ep O D -> 0 <= lp <= lp' -> lp' <= len -> groups_before O D g lp ->
  exists b g', star fuel lp lp' ep g = Some (b, g') /\ (b = true <-> exists j, 0 <= j <= lp' - lp /\ matches line l (lp' - j) g) /\ agree O D g g'.
Proof using Type.
  intros HS Hc Hok Hd Hlp Hlen Hg. unfold star. destruct (Z.eqb_spec lp' lp) as [->|Hne].
  - destruct (Hd lp g ltac:(lia) Hg) as (b & g' & E & Hb & A). exists b, g'. split; [done|]. split; [|done]. rewrite Hb. split.
    + intros H. exists 0. split; [lia|]. by rewrite Z.sub_0_r.
    + intros (j & Hj & H). replace (lp - j) with lp in H by lia. done.
  - replace (lp' - lp) with (Z.of_nat (Z.to_nat (lp' - lp))) by lia. rewrite Nat2Z.id. set (n := Z.to_nat (lp' - lp)) in *. apply (try_down_ok O D (fun q => matches line l q g)).
    intros j g1 Hj A1. pose proof (before_agree O D g g1 (lp' - j) HS A1 (before_mono O D g lp (lp' - j) ltac:(lia) Hg)) as Hg1.
    destruct (Hd (lp' - j) g1 ltac:(lia) Hg1) as (b & g2 & E & Hb & A2). rewrite <- (same_answer O D l _ g g1 Hok A1) in Hb. destruct (Z.eqb_spec (code buf ep) CCHR) as [Ec|Ec]; [|by exists b, g2].
    destruct (Z.eqb_spec (lchar line (lp' - j)) (code buf (ep + 1))) as [El|El]; [by exists b, g2|]. exists false, g1. split; [done|]. split; [|apply agree_refl]. split; [done|].
    intros H. destruct (head_char ep l Hc Ec) as (l' & ->). apply matches_one in H as [H _]. unfold fits_atom in H. apply andb_true_iff in H as [_ H]. by apply Z.eqb_eq in H.
Qed.

(** The dispatch on a known code. *)
Ltac dispatch E0 := cbn [advance]; rewrite E0;
  repeat match goal with |- context [Z.eqb ?a ?b] => let r := eval vm_compute in (Z.eqb a b) in match r with true => idtac | false => idtac end; change (Z.eqb a b) with r; cbv iota beta zeta end.

Lemma class_bytes ep star s : (forall i, 0 <= i < Z.of_nat (length (encode_atom star (ASet s))) -> code buf (ep + i) = nth (Z.to_nat i) (encode_atom star (ASet s)) 0) -> length s = 16%nat ->
  forall i, 0 <= i < 16 -> code buf (ep + 1 + i) = nth (Z.to_nat i) s 0.
Proof using Type.
  intros N Hs i Hi. replace (ep + 1 + i) with (ep + (1 + i)) by lia. rewrite (N (1 + i)) by (cbn [encode_atom length]; lia). by replace (Z.to_nat (1 + i)) with (S (Z.to_nat i)) by lia.
Qed.

(** The step of one instruction. *)
Lemma advance_one fuel a l lp ep g : code_at ep (One a :: l) -> atom_ok a = true ->
  advance buf line (S fuel) lp ep g = if fits_atom a (lchar line lp) then advance buf line fuel (lp + 1) (ep + Z.of_nat (length (encode_item (One a)))) g else Some (false, g).
Proof using Type.
  intros Hc Hok. destruct (code_at_cons ep _ l Hc) as (_ & _ & N). assert (E0 : code buf ep = nth 0 (encode_item (One a)) 0) by (rewrite <- (Z.add_0_r ep); apply (N 0); destruct a; cbn; lia).
  destruct a as [c| |s].
  - change (code buf ep = 2) in E0. dispatch E0. assert (E1 : code buf (ep + 1) = c) by (apply (N 1); cbn; lia). rewrite E1, Z.eqb_sym. cbn [atom_ok] in Hok. apply Z.ltb_lt in Hok. unfold fits_atom.
    destruct (Z.eqb_spec (lchar line lp) c) as [Ec|]; [|by rewrite andb_false_r]. rewrite Ec, (proj2 (Z.eqb_neq c 0)) by lia. cbn [negb andb].
    change (Z.of_nat (length _)) with 2. by replace (ep + 1 + 1) with (ep + 2) by lia.
  - change (code buf ep = 4) in E0. dispatch E0. unfold fits_atom. by destruct (lchar line lp =? 0).
  - change (code buf ep = 6) in E0. dispatch E0. cbn [atom_ok] in Hok. apply andb_true_iff in Hok as [Hs Hz]. apply Nat.eqb_eq in Hs. rewrite (class_test (ep + 1) s) by (by apply (class_bytes ep 0 s)).
    unfold fits_atom. destruct (Z.eqb_spec (lchar line lp) 0) as [->|Hne]; cbn [negb andb].
    + change (Z.to_nat (Z.land 0 127 / 8)) with 0%nat. change (Z.land 0 127 mod 8) with 0. by rewrite (proj1 (negb_true_iff _) Hz).
    + cbn [encode_item encode_atom length]. rewrite Hs. by replace (ep + 1 + 16) with (ep + Z.of_nat 17) by lia.
Qed.

Lemma advance_many fuel a l lp ep g : code_at ep (Many a :: l) -> atom_ok a = true -> 0 <= lp <= len -> exists lp', lp <= lp' <= len /\
  (forall k, lp <= k < lp' -> fits_atom a (lchar line k) = true) /\ fits_atom a (lchar line lp') = false /\
  advance buf line (S fuel) lp ep g = star fuel lp lp' (ep + Z.of_nat (length (encode_item (Many a)))) g.
Proof using Hline.
  intros Hc Hok Hlp. destruct (code_at_cons ep _ l Hc) as (_ & _ & N). assert (E0 : code buf ep = nth 0 (encode_item (Many a)) 0) by (rewrite <- (Z.add_0_r ep); apply (N 0); destruct a; cbn; lia).
  assert (Hrun : forall p, (forall c, p c = fits_atom a c) -> let lp' := run_from line p lp in lp <= lp' <= len /\ (forall k, lp <= k < lp' -> fits_atom a (lchar line k) = true) /\ fits_atom a (lchar line lp') = false).
  { intros p Hp. destruct (run_ok p (length line) lp ltac:(lia)) as (H1 & H2 & H3 & H4); [intros k Hk Hpk; rewrite Hp in Hpk; apply (fits_in a k); [lia|done]|lia|].
    split; [unfold run_from; lia|]. split; [intros k Hk; rewrite <- Hp; by apply H3|by rewrite <- Hp]. }
  destruct a as [c| |s].
  - change (code buf ep = 3) in E0. assert (E1 : code buf (ep + 1) = c) by (apply (N 1); cbn; lia). cbn [atom_ok] in Hok. apply Z.ltb_lt in Hok. exists (run_from line (fun x => x =? code buf (ep + 1)) lp).
    destruct (Hrun (fun x => x =? code buf (ep + 1))) as (H1 & H2 & H3); [intros x; rewrite E1; unfold fits_atom; destruct (Z.eqb_spec x c) as [->|]; [by rewrite (proj2 (Z.eqb_neq c 0)) by lia|by rewrite andb_false_r]|].
    split; [done|]. split; [done|]. split; [done|]. dispatch E0. unfold star. change (Z.of_nat (length _)) with 2. by replace (ep + 1 + 1) with (ep + 2) by lia.
  - change (code buf ep = 5) in E0. exists (run_from line (fun x => negb (x =? 0)) lp). destruct (Hrun (fun x => negb (x =? 0))) as (H1 & H2 & H3); [intros x; unfold fits_atom; by rewrite andb_true_r|].
    split; [done|]. split; [done|]. split; [done|]. dispatch E0. done.
  - change (code buf ep = 7) in E0. cbn [atom_ok] in Hok. apply andb_true_iff in Hok as [Hs Hz]. apply Nat.eqb_eq in Hs. exists (run_from line (in_class buf (ep + 1)) lp).
    assert (Hcl : forall x, in_class buf (ep + 1) x = fits_atom (ASet s) x).
    { intros x. rewrite (class_test (ep + 1) s) by (by apply (class_bytes ep 1 s)). unfold fits_atom. destruct (Z.eqb_spec x 0) as [->|Hne]; cbn [negb andb]; [|done].
      change (Z.to_nat (Z.land 0 127 / 8)) with 0%nat. change (Z.land 0 127 mod 8) with 0. by rewrite (proj1 (negb_true_iff _) Hz). }
    destruct (Hrun (in_class buf (ep + 1)) Hcl) as (H1 & H2 & H3). split; [done|]. split; [done|]. split; [done|]. dispatch E0. unfold star. cbn [encode_item encode_atom length]. rewrite Hs.
    by replace (ep + 1 + 16) with (ep + Z.of_nat 17) by lia.
Qed.

(** The other instructions. *)
Lemma advance_op fuel x l lp ep g : code_at ep (x :: l) -> (forall a, x <> One a /\ x <> Many a) -> (forall n, x <> ManyBack n) -> let ep' := ep + Z.of_nat (length (encode_item x)) in
  advance buf line (S fuel) lp ep g =
  match x with
  | Dol => if lchar line lp =? 0 then advance buf line fuel lp ep' g else Some (false, g)
  | Bra n => advance buf line fuel lp ep' (Groups (<[n := Some lp]> (bras g)) (brae g))
  | Ket n => advance buf line fuel lp ep' (Groups (bras g) (<[n := Some lp]> (brae g)))
  | Back n =>
      match bras g n, brae g n with
      | _, None => Some (false, g)
      | Some s, Some e => if e - s <? 0 then None else if ecmp line s lp (Z.to_nat (e - s)) then advance buf line fuel (lp + (e - s)) ep' g else Some (false, g)
      | None, Some _ => None
      end
  | _ => None
  end.
Proof using Type.
  intros Hc Hx Hm ep'. destruct (code_at_cons ep x l Hc) as (_ & _ & N). assert (E0 : code buf ep = nth 0 (encode_item x) 0) by (rewrite <- (Z.add_0_r ep); apply (N 0); destruct x as [[]|[]| | | | |]; cbn; lia).
  assert (E1 : (1 < length (encode_item x))%nat -> code buf (ep + 1) = nth 1 (encode_item x) 0) by (intros H; apply (N 1); lia).
  unfold ep'. clear ep'. destruct x as [a|a| |n|n|n|n]; [by destruct (proj1 (Hx a))|by destruct (proj2 (Hx a))|..|by destruct (Hm n)].
  - change (code buf ep = 10) in E0. by dispatch E0.
  - change (code buf ep = 1) in E0. dispatch E0. rewrite (E1 ltac:(cbn; lia)). change (Z.of_nat (length _)) with 2. by replace (ep + 1 + 1) with (ep + 2) by lia.
  - change (code buf ep = 12) in E0. dispatch E0. rewrite (E1 ltac:(cbn; lia)). change (Z.of_nat (length _)) with 2. by replace (ep + 1 + 1) with (ep + 2) by lia.
  - change (code buf ep = 18) in E0. dispatch E0. rewrite (E1 ltac:(cbn; lia)). change (Z.of_nat (length _)) with 2. by replace (ep + 1 + 1) with (ep + 2) by lia.
Qed.

Lemma advance_ok fuel : forall l ep O D, (length l < fuel)%nat -> code_at ep l -> pattern_ok O D l = true -> (forall n, n ∈ D -> n ∈ O) -> decides fuel l ep O D.
Proof using Hline.
  induction fuel as [|fuel IH]; intros l ep O D Hf Hc Hok HS lp g Hlp Hg; [lia|]. destruct l as [|x l].
  { cbn [advance]. rewrite (code_at_nil ep Hc). exists true, g. split; [done|]. split; [|apply agree_refl]. split; [constructor|done]. }
  destruct (code_at_cons ep x l Hc) as (_ & Hc' & _). cbn [length] in Hf.
  assert (Hend : forall P, (false = true <-> P) -> exists b g', Some (false, g) = Some (b, g') /\ (b = true <-> P) /\ agree O D g g') by (intros P HP; by exists false, g).
  destruct x as [a|a| |n|n|n|n]; cbn [pattern_ok] in Hok; rewrite ?andb_true_iff in Hok; [..|discriminate Hok].
  - destruct Hok as [Ha Hok]. rewrite (advance_one fuel a l lp ep g Hc Ha). destruct (fits_atom a (lchar line lp)) eqn:E.
    + pose proof (fits_in a lp ltac:(lia) E). destruct (IH l _ O D ltac:(lia) Hc' Hok HS (lp + 1) g ltac:(lia) (before_mono O D g lp (lp + 1) ltac:(lia) Hg)) as (b & g' & Er & Hb & A).
      exists b, g'. split; [done|]. split; [|done]. rewrite Hb, matches_one. rewrite E. tauto.
    + apply Hend. rewrite matches_one, E. by split; [|intros [? _]].
  - destruct Hok as [Ha Hok]. destruct (advance_many fuel a l lp ep g Hc Ha Hlp) as (lp' & Hl & Hrun & Hstop & ->).
    destruct (star_ok fuel l _ O D lp lp' g HS Hc' Hok (IH l _ O D ltac:(lia) Hc' Hok HS) ltac:(lia) ltac:(lia) Hg) as (b & g' & E & Hb & A). exists b, g'. split; [done|]. split; [|done].
    rewrite Hb. symmetry. apply (matches_many a l lp lp' g); [lia|exact Hrun|exact Hstop].
  - rewrite (advance_op fuel Dol l lp ep g Hc) by done. destruct (Z.eqb_spec (lchar line lp) 0) as [E|E].
    + assert (lp = len) by (pose proof (proj1 (lchar_zero lp ltac:(lia)) E); lia). destruct (IH l _ O D ltac:(lia) Hc' Hok HS lp g Hlp Hg) as (b & g' & Er & Hb & A).
      exists b, g'. split; [done|]. split; [|done]. rewrite Hb, matches_dol. tauto.
    + apply Hend. rewrite matches_dol. split; [done|]. intros [-> _]. exfalso. apply E. by apply lchar_zero; lia.
  - destruct Hok as [Hn Hok]. rewrite (advance_op fuel (Bra n) l lp ep g Hc) by done. apply negb_true_iff, bool_decide_eq_false in Hn. set (g1 := Groups (<[n := Some lp]> (bras g)) (brae g)).
    assert (A1 : agree O D g g1) by (split; [intros k Hk; cbn; by rewrite fn_lookup_insert_ne by congruence|done]).
    destruct (IH l _ (n :: O) D ltac:(lia) Hc' Hok ltac:(intros k Hk; right; by apply HS) lp g1 Hlp) as (b & g' & Er & Hb & A).
    { destruct (before_agree O D g g1 lp HS A1 Hg) as [B1 B2]. split; [|done]. intros k Hk. apply elem_of_cons in Hk as [->|Hk]; [|by apply B1]. exists lp. split; [cbn; by rewrite fn_lookup_insert|lia]. }
    exists b, g'. split; [done|]. rewrite Hb, matches_bra. split; [done|]. apply (agree_trans _ _ g g1); [done|]. split; [intros k Hk; apply A; by right|apply A].
  - destruct Hok as [[Hn Hn'] Hok]. rewrite (advance_op fuel (Ket n) l lp ep g Hc) by done. apply bool_decide_eq_true in Hn. apply negb_true_iff, bool_decide_eq_false in Hn'. set (g1 := Groups (bras g) (<[n := Some lp]> (brae g))).
    assert (A1 : agree O D g g1) by (split; [done|intros k Hk; cbn; by rewrite fn_lookup_insert_ne by congruence]).
    destruct (IH l _ O (n :: D) ltac:(lia) Hc' Hok ltac:(intros k Hk; apply elem_of_cons in Hk as [->|Hk]; [done|by apply HS]) lp g1 Hlp) as (b & g' & Er & Hb & A).
    { destruct (before_agree O D g g1 lp HS A1 Hg) as [B1 B2]. split; [done|]. intros k Hk. apply elem_of_cons in Hk as [->|Hk]; [|by apply B2]. destruct (B1 n Hn) as (s & Es & Hs). exists s, lp.
      split; [done|]. split; [cbn; by rewrite fn_lookup_insert|lia]. }
    exists b, g'. split; [done|]. rewrite Hb, matches_ket. split; [done|]. apply (agree_trans _ _ g g1); [done|]. split; [apply A|intros k Hk; apply A; by right].
  - destruct Hok as [[Hn Hn'] Hok]. rewrite (advance_op fuel (Back n) l lp ep g Hc) by done. apply bool_decide_eq_true in Hn, Hn'. destruct (proj2 Hg n Hn) as (s & e & Es & Ee & Hse & Hel). rewrite Es, Ee.
    rewrite (proj2 (Z.ltb_ge _ 0)) by lia. destruct (ecmp line s lp (Z.to_nat (e - s))) eqn:Ec.
    + pose proof (proj1 (ecmp_ok _ s lp) Ec) as He. rewrite Z2Nat.id in He by lia. assert (Hin : lp + (e - s) <= len).
      { destruct (decide (e = s)) as [->|]; [lia|]. specialize (He (e - s - 1) ltac:(lia)). pose proof (lchar_zero (s + (e - s - 1)) ltac:(lia)). pose proof (lchar_zero (lp + (e - s - 1)) ltac:(lia)). lia. }
      destruct (IH l _ O D ltac:(lia) Hc' Hok HS (lp + (e - s)) g ltac:(lia) (before_mono O D g lp (lp + (e - s)) ltac:(lia) Hg)) as (b & g' & Er & Hb & A).
      exists b, g'. split; [done|]. split; [|done]. rewrite Hb, (matches_back n l lp g s e Es Ee). tauto.
    + apply Hend. rewrite (matches_back n l lp g s e Es Ee). split; [done|]. intros [H _]. exfalso. assert (C : ecmp line s lp (Z.to_nat (e - s)) = true); [|congruence].
      apply ecmp_ok. rewrite Z2Nat.id by lia. exact H.
Qed.

(** ** A line *)

Lemma find_match_ok l n : forall p1 g, code_at 0 l -> pattern_ok [] [] l = true -> (length l < ADVFUEL)%nat -> 0 <= p1 -> p1 + Z.of_nat n <= len ->
  exists b g', find_match buf line n p1 g = Some (b, g') /\ (b = true <-> exists p, p1 <= p <= p1 + Z.of_nat n /\ matches line l p groups0).
Proof using Hline.
  induction n as [|n IH]; intros p1 g Hc Hok Hl Hp Hn; cbn [find_match].
  all: assert (Ht : exists b g1, (if code buf 0 =? CCHR then if lchar line p1 =? code buf 1 then advance buf line ADVFUEL p1 0 g else Some (false, g) else advance buf line ADVFUEL p1 0 g) = Some (b, g1) /\
         (b = true <-> matches line l p1 groups0)).
  1, 3: destruct (advance_ok ADVFUEL l 0 [] [] Hl Hc Hok ltac:(done) p1 g ltac:(lia)) as (b & g1 & E & Hb & _); [split; intros k Hk; by apply elem_of_nil in Hk|];
    rewrite (same_answer [] [] l p1 g groups0 Hok) in Hb by (split; intros k Hk; by apply elem_of_nil in Hk);
    (destruct (Z.eqb_spec (code buf 0) CCHR) as [Ec|Ec]; [|by exists b, g1]); (destruct (Z.eqb_spec (lchar line p1) (code buf 1)) as [El|El]; [by exists b, g1|]);
    exists false, g; (split; [done|]); (split; [done|]); intros H; destruct (head_char 0 l Hc Ec) as (l' & ->); apply matches_one in H as [H _]; unfold fits_atom in H; apply andb_true_iff in H as [_ H]; by apply Z.eqb_eq in H.
  - destruct Ht as (b & g1 & -> & Hb). destruct b.
    + exists true, g1. split; [done|]. split; [|done]. intros _. exists p1. split; [lia|]. by apply Hb.
    + exists false, g1. split; [done|]. split; [done|]. intros (p & Hpp & H). replace p with p1 in H by lia. by apply Hb.
  - destruct Ht as (b & g1 & -> & Hb). destruct b.
    + exists true, g1. split; [done|]. split; [|done]. intros _. exists p1. split; [lia|]. by apply Hb.
    + destruct (IH (p1 + 1) g1 Hc Hok Hl ltac:(lia) ltac:(lia)) as (b & g2 & -> & Hb2). exists b, g2. split; [done|]. rewrite Hb2. split.
      * intros (p & Hpp & H). exists p. split; [lia|done].
      * intros (p & Hpp & H). destruct (decide (p = p1)) as [->|]; [by apply Hb in H|]. exists p. split; [lia|done].
Qed.
End Advance.

(** ** What [compile] makes *)

Section Compile.
Context (pat : list Z) (Hpat : Forall (fun c => 1 <= c < 128) pat).

Definition item_ok (x : item) : Prop := match x with One a | Many a => atom_ok a = true | _ => True end.

(** The buffer holds the instructions of [l], and zeros behind. *)
Definition holding (l : list Z) : list Z := l ++ replicate (256 - length l) 0.

Lemma encode_snoc l x : encode (l ++ [x]) = encode l ++ encode_item x.
Proof. unfold encode. rewrite fmap_app, concat_app. cbn. by rewrite app_nil_r. Qed.

Lemma emit_ok A bs buf' : (length A <= 256)%nat -> emit bs (Z.of_nat (length A)) (holding A) = Some buf' -> (length (A ++ bs) <= 256)%nat /\ buf' = holding (A ++ bs).
Proof using Type.
  intros HA. unfold emit, holding. change ESIZE with 256. rewrite Nat2Z.id, (proj2 (Z.leb_le 0 _)) by lia. cbn [andb]. destruct (Z.leb_spec (Z.of_nat (length A) + Z.of_nat (length bs)) 256) as [H|H]; [|done].
  intros E. injection E as <-. rewrite length_app. split; [lia|]. rewrite take_app_length, <- app_assoc. do 2 f_equal. rewrite <- drop_drop, drop_app_length, drop_replicate. f_equal. lia.
Qed.

Lemma char_range i c : char_at pat i = Some c -> 0 <= i <= Z.of_nat (length pat) /\ 0 <= c < 128 /\ (c = 0 -> i = Z.of_nat (length pat)).
Proof using Hpat.
  unfold char_at. destruct ((0 <=? i) && (i <=? Z.of_nat (length pat))) eqn:E; [|done]. apply andb_true_iff in E as [H1%Z.leb_le H2%Z.leb_le]. intros Ec. injection Ec as <-. split; [lia|].
  destruct (nth_lookup_or_length pat (Z.to_nat i) 0) as [L|L].
  - pose proof (lookup_lt_Some _ _ _ L). apply (Forall_lookup_1 _ _ _ _ Hpat) in L. lia.
  - rewrite nth_overflow by done. lia.
Qed.

(** ** Classes *)

(** 16 bytes between [A] and [R], without the null character. *)
Definition class16 (s : list Z) : Prop := length s = 16%nat /\ Z.testbit (nth 0 s 0) 0 = false.

Lemma set_class_ok A s R c buf' : class16 s -> 1 <= c < 128 -> set_class (Z.of_nat (length A)) c (A ++ s ++ R) = Some buf' -> exists s', class16 s' /\ buf' = A ++ s' ++ R.
Proof using Type.
  intros [Hs H0] Hc. unfold set_class. replace (Z.shiftr c 3) with (c / 8) by (symmetry; exact (Z.shiftr_div_pow2 c 3 ltac:(lia))). replace (Z.land c 7) with (c mod 8) by (symmetry; exact (Z.land_ones c 3 ltac:(lia))).
  set (i := Z.to_nat (c / 8)). assert (Hi : (i < 16)%nat) by (unfold i; Z.div_mod_to_equations; lia).
  replace (Z.to_nat (Z.of_nat (length A) + c / 8)) with (length A + i)%nat by (unfold i; Z.div_mod_to_equations; lia).
  rewrite lookup_app_r, lookup_app_l by lia. replace (length A + i - length A)%nat with i by lia. destruct (s !! i) as [x|] eqn:Ex; [|done]. cbn.
  rewrite (proj2 (Z.ltb_ge _ 0)) by (Z.div_mod_to_equations; lia). intros E. injection E as <-. exists (<[i := Z.lor x (Z.shiftl 1 (c mod 8))]> s). split; [split; [by rewrite length_insert|]|].
  - destruct (decide (i = 0%nat)) as [E0|E0].
    + rewrite E0 in *. rewrite (nth_lookup_Some _ _ _ (Z.lor x (Z.shiftl 1 (c mod 8)))) by (apply list_lookup_insert_eq; lia). rewrite (nth_lookup_Some _ _ _ _ Ex) in H0. rewrite Z.lor_spec, H0.
      rewrite Z.shiftl_spec_low; [done|]. unfold i in E0. Z.div_mod_to_equations. lia.
    + destruct s as [|y s]; [done|]. destruct i as [|i]; [done|]. exact H0.
  - rewrite insert_app_r, insert_app_l by lia. done.
Qed.

Lemma set_range_ok A R n : forall c s buf', class16 s -> 1 <= c -> c + Z.of_nat n <= 128 -> set_range n (Z.of_nat (length A)) c (A ++ s ++ R) = Some buf' -> exists s', class16 s' /\ buf' = A ++ s' ++ R.
Proof using Type.
  induction n as [|n IH]; intros c s buf' Hs Hc Hn; cbn [set_range]; [intros E; injection E as <-; by exists s|].
  destruct (set_class _ _ _) as [buf1|] eqn:E1; [|done]. cbn. destruct (set_class_ok A s R c buf1 Hs ltac:(lia) E1) as (s1 & Hs1 & ->). apply IH; [done|lia|lia].
Qed.

Lemma class_loop_ok A R fuel : forall cstart sp c s sp' buf', class16 s -> 0 <= c < 128 -> 2 <= sp -> class_loop fuel pat cstart sp c (Z.of_nat (length A)) (A ++ s ++ R) = Some (sp', buf') ->
  exists s', class16 s' /\ buf' = A ++ s' ++ R /\ 0 <= sp'.
Proof using Hpat.
  induction fuel as [|fuel IH]; intros cstart sp c s sp' buf' Hs Hc Hsp; cbn [class_loop]; [done|]. destruct (Z.eqb_spec c 0) as [|Hc0]; [done|].
  destruct (char_at pat sp) as [nxt|] eqn:En; [|done]. cbn [mbind option_bind]. destruct (char_range _ _ En) as (_ & Hnxt & _).
  assert (Hgo : forall c1 sp1 s1, class16 s1 -> 1 <= c1 < 128 -> 2 <= sp1 ->
    (buf ← set_class (Z.of_nat (length A)) c1 (A ++ s1 ++ R); c ← char_at pat sp1; if c =? 93 then Some (sp1 + 1, buf) else class_loop fuel pat cstart (sp1 + 1) (i8 c) (Z.of_nat (length A)) buf) = Some (sp', buf') ->
    exists s', class16 s' /\ buf' = A ++ s' ++ R /\ 0 <= sp').
  { intros c1 sp1 s1 Hs1 Hc1 Hsp1. destruct (set_class _ _ _) as [b1|] eqn:E1; [|done]. cbn [mbind option_bind]. destruct (set_class_ok A s1 R c1 b1 Hs1 Hc1 E1) as (s2 & Hs2 & ->).
    destruct (char_at pat sp1) as [c2|] eqn:E2; [|done]. cbn [mbind option_bind]. destruct (char_range _ _ E2) as (_ & Hc2 & _). destruct (Z.eqb_spec c2 93).
    - intros E. apply (inj Some), (inj2 pair) in E as [<- <-]. exists s2. split; [done|]. split; [done|lia].
    - rewrite i8_id by lia. by apply IH; [|lia|lia]. }
  destruct ((c =? 45) && (cstart <? sp) && negb (nxt =? 93)); cbn [mbind option_bind]; [|apply Hgo; [done|lia|done]].
  destruct (char_at pat (sp - 2)) as [from|] eqn:Ef; [|done]. cbn [mbind option_bind]. destruct (char_range _ _ Ef) as (Hi & Hfr & Hz). destruct (char_range _ _ En) as (Hi' & _). assert (from <> 0) by (intros E; specialize (Hz E); lia).
  rewrite !i8_id by lia. destruct (set_range _ _ _ _) as [b1|] eqn:E1; [|done]. cbn [mbind option_bind].
  destruct (set_range_ok A R (Z.to_nat (nxt - from)) from s b1 Hs ltac:(lia) ltac:(lia) E1) as (s1 & Hs1 & ->). apply Hgo; [done| |lia].
  destruct (decide (nxt <= from)); [replace (Z.to_nat (nxt - from)) with 0%nat by lia; cbn; lia|lia].
Qed.

(** ** The state *)

Lemma holding_length A : (length A <= 256)%nat -> length (holding A) = 256%nat.
Proof. intros H. unfold holding. rewrite length_app, length_replicate. lia. Qed.
Lemma holding_insert A x y B : <[length A := y]> (holding (A ++ x :: B)) = holding (A ++ y :: B).
Proof. unfold holding. rewrite <- !app_assoc. rewrite insert_app_r_alt by lia. rewrite Nat.sub_diag. cbn. by rewrite !length_app. Qed.
Lemma holding_room A n : (length A + n <= 256)%nat -> holding A = A ++ replicate n 0 ++ replicate (256 - length A - n) 0.
Proof. intros H. unfold holding. f_equal. rewrite <- replicate_add. f_equal. lia. Qed.

Record wrote (l : list item) (s : compiling) : Prop := Wrote {
  w_ep : c_ep s = Z.of_nat (length (encode l));
  w_len : (length (encode l) <= 256)%nat;
  w_buf : c_buf s = holding (encode l);
  w_sp : 0 <= c_sp s;
  w_ok : Forall item_ok l }.

(** ** Groups *)

(** What [compile] keeps of the groups: those open, the count of those closed
    and of all. *)
Definition marks (s : compiling) : list Z * Z * Z := (c_bracket s, c_closed s, c_numbra s).

(** The groups are numbered as they open, nine at most; a parenthesis closes
    the last open one; a reference is below the count of the closed ones. *)
Definition scan_item (x : item) (m : list Z * Z * Z) : option (list Z * Z * Z) :=
  let '(stack, closed, count) := m in
  match x with
  | Bra n => if (n =? count) && (count <? 9) then Some (n :: stack, closed, count + 1) else None
  | Ket n => match stack with k :: stack => if n =? k then Some (stack, closed + 1, count) else None | [] => None end
  | Back n | ManyBack n => if (0 <=? n) && (n <? closed) then Some m else None
  | _ => Some m
  end.
Fixpoint scan (l : list item) (m : list Z * Z * Z) : option (list Z * Z * Z) :=
  match l with [] => Some m | x :: l => m ← scan_item x m; scan l m end.

Lemma scan_snoc l x : forall m, scan (l ++ [x]) m = scan l m ≫= scan_item x.
Proof using Type. induction l as [|y l IH]; intros m; cbn; [by destruct (scan_item x m)|]. destruct (scan_item y m) as [m'|]; [|done]. cbn. apply IH. Qed.

Definition scanned (l : list item) (s : compiling) : Prop := scan l ([], 0, 0) = Some (marks s).

(** [lastep] is the last instruction, or a parenthesis; [$] ends the pattern. *)
Definition last_ok (l : list item) (s : compiling) : Prop :=
  match c_last s with
  | None => True
  | Some p => exists l0 x l1, l = l0 ++ x :: l1 /\ p = Z.of_nat (length (encode l0)) /\ (l1 = [] \/ exists n, x = Bra n \/ x = Ket n) /\ (x = Dol -> char_at pat (c_sp s) = Some 0)
  end.

(** An instruction is put behind the others. *)
Definition puts (l : list item) (s s' : compiling) : Prop := exists x, (wrote (l ++ [x]) s' /\ scanned (l ++ [x]) s') /\ c_last s' = c_last s /\ (x = Dol -> char_at pat (c_sp s') = Some 0).

Lemma emit_op_ok x l s s' : wrote l s -> item_ok x -> emit_op (encode_item x) s = Some s' -> wrote (l ++ [x]) s' /\ c_last s' = c_last s /\ c_sp s' = c_sp s /\ marks s' = marks s.
Proof using Type.
  intros [E1 E2 E3 E4 E5] Hx. unfold emit_op. destruct (emit _ _ _) as [b|] eqn:E; [|done]. cbn. intros H. injection H as <-. rewrite E1, E3 in E. destruct (emit_ok _ _ _ E2 E) as [Hl ->].
  split; [|done]. split; cbn; rewrite ?encode_snoc; [rewrite E1, length_app; lia|done|done|done|]. apply Forall_app. by split; [|constructor].
Qed.
Lemma puts_op x l s0 s s' : wrote l s -> scanned l s -> scan_item x (marks s) = Some (marks s) -> item_ok x -> c_last s = c_last s0 -> (x = Dol -> char_at pat (c_sp s) = Some 0) -> emit_op (encode_item x) s = Some s' -> puts l s0 s'.
Proof using Type.
  intros Hw Hs Hm Hx Hl Hd E. destruct (emit_op_ok x l s s' Hw Hx E) as (H1 & H2 & H3 & H4). exists x. split; [split; [done|]|]; [|split; [congruence|by rewrite H3]].
  unfold scanned in *. by rewrite scan_snoc, Hs, H4.
Qed.
Lemma puts_char c l s0 s s' : wrote l s -> scanned l s -> 0 < c -> c_last s = c_last s0 -> defchar c s = Some s' -> puts l s0 s'.
Proof using Type. intros Hw Hs Hc Hl. change (defchar c s) with (emit_op (encode_item (One (AChr c))) s). apply puts_op; [done|done|by destruct s| |done|done]. by apply Z.ltb_lt. Qed.
Lemma wrote_skip n l s : 0 <= n -> wrote l s -> wrote l (skip n s).
Proof using Type. intros Hn [E1 E2 E3 E4 E5]. split; cbn; auto; lia. Qed.

Lemma negate_class_ok A s R : class16 s -> exists s', class16 s' /\ negate_class (Z.of_nat (length A)) (A ++ s ++ R) = A ++ s' ++ R.
Proof using Type.
  intros [Hs _]. unfold negate_class. rewrite Nat2Z.id, drop_app_length, take_app_length, <- drop_drop, drop_app_length, drop_app_length' by done. rewrite take_app_length' by done.
  eexists. split; [|done]. destruct s as [|b s]; [done|]. split; [cbn in *; by rewrite length_fmap|]. change (Z.testbit (Z.land (Z.lxor b 255) 254) 0 = false). rewrite Z.land_spec. apply andb_false_r.
Qed.

Lemma compile_class_ok l s s' : wrote l s -> scanned l s -> 1 <= c_sp s -> compile_class pat s = Some s' -> puts l s s'.
Proof using Hpat.
  intros Hw Hsc Hsp. unfold compile_class. change ESIZE with 256. destruct (Z.leb_spec 256 (c_ep s + 17)) as [|Hep]; [done|]. destruct Hw as [E1 E2 E3 E4 E5].
  unfold emit_op. destruct (emit _ _ _) as [b|] eqn:E; [|done]. cbn [mbind option_bind c_sp c_ep c_buf c_last]. rewrite E1, E3 in E. destruct (emit_ok _ _ _ E2 E) as [Hl ->]. set (A := encode l ++ [CCL]) in *.
  assert (HA : c_ep s + Z.of_nat (length [CCL]) = Z.of_nat (length A)) by (unfold A; rewrite length_app, E1; lia). rewrite HA. assert (HlA : length A = S (length (encode l))) by (unfold A; rewrite length_app; cbn; lia).
  rewrite (holding_room A 16) by lia. set (R := replicate (256 - length A - 16) 0). destruct (char_at pat (c_sp s)) as [c|] eqn:Ec; [|done]. cbn [mbind option_bind].
  destruct (if c =? 94 then char_at pat (c_sp s + 1) else Some c) as [c'|] eqn:Ec'; [|done]. cbn [mbind option_bind].
  assert (Hc' : 0 <= c' < 128) by (destruct (Z.eqb_spec c 94); [by destruct (char_range _ _ Ec') as (? & ? & _)|apply (inj Some) in Ec' as <-; by destruct (char_range _ _ Ec) as (? & ? & _)]).
  rewrite i8_id by lia. destruct (class_loop _ _ _ _ _ _ _) as [[sp b]|] eqn:El; [|done]. cbn [mbind option_bind]. intros H. injection H as <-.
  apply class_loop_ok in El as (cl & Hcl & -> & Hsp'); [|by split|done|destruct (c =? 94); lia].
  assert (Hn : exists cl', class16 cl' /\ (if c =? 94 then negate_class (Z.of_nat (length A)) (A ++ cl ++ R) else A ++ cl ++ R) = A ++ cl' ++ R) by (destruct (c =? 94); [by apply negate_class_ok|by exists cl]).
  destruct Hn as (cl' & Hcl' & ->). exists (One (ASet cl')). split; [split|done]; [|unfold scanned in *; rewrite scan_snoc, Hsc; done]. assert (He : encode (l ++ [One (ASet cl')]) = A ++ cl') by (rewrite encode_snoc; unfold A; by rewrite <- app_assoc).
  destruct Hcl' as [Hl' H0']. split; cbn; rewrite ?He; [rewrite length_app; lia|rewrite length_app; lia| |done|].
  - unfold holding, R. rewrite <- app_assoc, length_app, Hl'. do 3 f_equal. lia.
  - apply Forall_app. split; [done|]. constructor; [|done]. change ((length cl' =? 16)%nat && negb (Z.testbit (nth 0 cl' 0) 0) = true). by rewrite Hl', H0'.
Qed.

Lemma compile_escape_ok l s s' : wrote l s -> scanned l s -> compile_escape pat s = Some s' -> puts l s s' \/ Z.of_nat (length pat) < c_sp s'.
Proof using Hpat.
  intros Hw Hsc. unfold compile_escape. destruct (char_at pat (c_sp s)) as [c|] eqn:Ec; [|done]. cbn [mbind option_bind]. destruct (char_range _ _ Ec) as (Hsp & Hc & Hz). pose proof (wrote_skip 1 l s ltac:(lia) Hw) as Hw'.
  assert (Hsc' : scanned l (skip 1 s)) by done. destruct (c =? 40).
  { destruct (Z.leb_spec NBRA (c_numbra (skip 1 s))) as [|Hn]; [done|]. destruct (emit_op _ _) as [s1|] eqn:E; [|done]. cbn [mbind option_bind]. intros H. injection H as <-. left.
    destruct (emit_op_ok (Bra (c_numbra (skip 1 s))) l _ s1 Hw' I E) as ([W1 W2 W3 W4 W5] & H2 & H3 & H4). exists (Bra (c_numbra (skip 1 s))). split; [split; [by split|]|by split].
    unfold scanned in *. rewrite scan_snoc, Hsc'. cbn [mbind option_bind]. unfold scan_item, marks. rewrite Z.eqb_refl, (proj2 (Z.ltb_lt _ 9)) by exact Hn. done. }
  destruct (c =? 41).
  { destruct (c_bracket (skip 1 s)) as [|b br] eqn:Eb; [done|]. destruct (emit_op _ _) as [s1|] eqn:E; [|done]. cbn [mbind option_bind]. intros H. injection H as <-. left.
    destruct (emit_op_ok (Ket b) l _ s1 Hw' I E) as ([W1 W2 W3 W4 W5] & H2 & H3 & H4). exists (Ket b). split; [split; [by split|]|by split].
    unfold scanned in *. rewrite scan_snoc, Hsc'. cbn [mbind option_bind]. unfold scan_item, marks. rewrite Eb, Z.eqb_refl. done. }
  destruct (Z.leb_spec 49 c) as [Hlo|]; cbn [andb]; [destruct (Z.leb_spec c 57)|].
  { destruct (Z.leb_spec (c_closed (skip 1 s)) (c - 49)) as [|Hcl]; [done|]. intros E. left. apply (puts_op (Back (c - 49)) l s _ s' Hw'); [done| |done|done|done|done].
    unfold scan_item, marks. rewrite (proj2 (Z.leb_le 0 _)), (proj2 (Z.ltb_lt _ _)) by lia. done. }
  all: intros E; destruct (decide (c = 0)) as [->|]; [|left; apply (puts_char c l s _ s' Hw' Hsc'); [lia|done|done]]; right; unfold defchar in E; destruct (emit _ _ _) as [b|]; [|done]; injection E as <-; cbn; lia.
Qed.

(** A character but the star and the end. *)
Lemma compile_step_ok c l s s' : wrote l s -> scanned l s -> 1 <= c_sp s -> 0 < c < 128 -> c <> 42 -> compile_step pat c s = Some s' -> puts l s s' \/ Z.of_nat (length pat) < c_sp s'.
Proof using Hpat.
  intros Hw Hsc Hsp Hc Hs. unfold compile_step. rewrite (proj2 (Z.eqb_neq c 42)) by done. destruct (c =? 46); [intros E; left; by apply (puts_op (One ADot) l s s s')|].
  destruct (c =? 36).
  { destruct (char_at pat (c_sp s)) as [nxt|] eqn:En; [|done]. cbn [mbind option_bind]. destruct (Z.eqb_spec nxt 0) as [->|]; cbn [negb]; intros E; left; [by apply (puts_op Dol l s s s')|]. by apply (puts_char c l s s s' Hw); [|lia| |]. }
  destruct (c =? 91); [intros E; left; by apply compile_class_ok|]. destruct (c =? 92); [by apply compile_escape_ok|]. intros E. left. by apply (puts_char c l s s s' Hw); [|lia| |].
Qed.

Definition starred (x : item) : item := match x with One a => Many a | Back n => ManyBack n | x => x end.

Lemma encode_starred x : x <> Dol -> (forall n, x <> Bra n /\ x <> Ket n) -> exists op r, encode_item x = op :: r /\ encode_item (starred x) = Z.lor op STAR :: r /\ (op =? CBRA) || (op =? CKET) = false.
Proof using Type.
  intros Hd Hb. destruct x as [[]|[]| |n|n|n|n]; [..|done|by destruct (proj1 (Hb n))|by destruct (proj2 (Hb n))| |]; do 2 eexists; (split; [reflexivity|]); by split.
Qed.

Lemma last_ok_char l s s' : last_ok l s -> c_last s' = c_last s -> (exists n x l0 l1, l = l0 ++ x :: l1 /\ c_last s = Some (Z.of_nat (length (encode l0))) /\ (x = Bra n \/ x = Ket n)) \/ c_last s = None -> forall y, last_ok (l ++ [y]) s'.
Proof using Type.
  intros _ E [(n & x & l0 & l1 & -> & E0 & Hx)|E0] y; unfold last_ok; rewrite E, E0; [|done]. exists l0, x, (l1 ++ [y]). rewrite <- app_assoc. split; [done|]. split; [done|]. split; [right; by exists n|]. by destruct Hx as [-> | ->].
Qed.

Lemma scan_starred l0 x m : scan (l0 ++ [starred x]) m = scan (l0 ++ [x]) m.
Proof using Type. rewrite !scan_snoc. destruct (scan l0 m); [|done]. by destruct x. Qed.

(** The star: it changes the last instruction, or is itself. *)
Lemma compile_star_ok l s s' : wrote l s -> scanned l s -> last_ok l s -> char_at pat (c_sp s) = Some 42 -> compile_star (skip 1 s) = Some s' -> exists l', (wrote l' s' /\ scanned l' s') /\ last_ok l' s'.
Proof using Type.
  intros Hw Hsc Hl Hc. pose proof (wrote_skip 1 l s ltac:(lia) Hw) as Hw1.
  assert (Hdef : (exists n x l0 l1, l = l0 ++ x :: l1 /\ c_last s = Some (Z.of_nat (length (encode l0))) /\ (x = Bra n \/ x = Ket n)) \/ c_last s = None -> defchar 42 (skip 1 s) = Some s' -> exists l', (wrote l' s' /\ scanned l' s') /\ last_ok l' s').
  { intros H E. destruct (puts_char 42 l s _ s' Hw1 Hsc ltac:(lia) eq_refl E) as (x & Hx & Hlast & _). exists (l ++ [x]). split; [done|]. by apply (last_ok_char l s). }
  unfold compile_star. cbn [skip c_last c_buf c_ep c_sp]. pose proof Hl as Hl0. unfold last_ok in Hl0. destruct (c_last s) as [p|] eqn:Ep; [|apply Hdef; by right].
  destruct Hl0 as (l0 & x & l1 & -> & -> & Hl1 & Hd). rewrite Nat2Z.id. destruct Hw as [E1 E2 E3 E4 E5]. assert (He : encode (l0 ++ x :: l1) = encode l0 ++ encode_item x ++ encode l1) by (unfold encode; rewrite fmap_app, concat_app; done).
  assert (Hb : forall n, x = Bra n \/ x = Ket n -> (exists n x' l0' l1', l0 ++ x :: l1 = l0' ++ x' :: l1' /\ Some (Z.of_nat (length (encode l0))) = Some (Z.of_nat (length (encode l0'))) /\ (x' = Bra n \/ x' = Ket n))) by (intros n Hn; by exists n, x, l0, l1).
  rewrite E3, He. assert (Hx0 : forall op r, encode_item x = op :: r -> holding (encode l0 ++ encode_item x ++ encode l1) !! length (encode l0) = Some op).
  { intros op r ->. unfold holding. rewrite <- !app_assoc. cbn. by apply list_lookup_middle. }
  assert (Hcase : (exists n, x = Bra n \/ x = Ket n) \/ (x <> Dol /\ (forall n, x <> Bra n /\ x <> Ket n) /\ l1 = [])).
  { destruct Hl1 as [->|(n & Hn)]; [|by left; exists n]. destruct x; [right; by split| right; by split| |left; eexists; by left|left; eexists; by right|right; by split|right; by split]. specialize (Hd eq_refl). congruence. }
  destruct Hcase as [(n & Hn)|(Hnd & Hnb & ->)].
  - destruct Hn as [-> | ->]; rewrite (Hx0 _ _ eq_refl); cbn [mbind option_bind]; [change ((CBRA =? CBRA) || (CBRA =? CKET)) with true|change ((CKET =? CBRA) || (CKET =? CKET)) with true]; apply Hdef; left; (apply (Hb n)); [by left|by right].
  - destruct (encode_starred x Hnd Hnb) as (op & r & Ex & Es & Hop). rewrite (Hx0 _ _ Ex). cbn [mbind option_bind]. rewrite Hop. change (encode []) with (@nil Z). rewrite app_nil_r, Ex, holding_insert, <- Es. intros E. injection E as <-.
    assert (He' : encode (l0 ++ [starred x]) = encode l0 ++ encode_item (starred x)) by apply encode_snoc. assert (Hlen : length (encode (l0 ++ [starred x])) = length (encode (l0 ++ [x]))) by (rewrite !encode_snoc, !length_app, Ex, Es; done).
    apply Forall_app in E5 as [E5 E6]. apply Forall_cons in E6 as [E6 _]. exists (l0 ++ [starred x]). split; [split; [|unfold scanned; rewrite scan_starred; exact Hsc]|].
    + split; cbn; rewrite ?Hlen; [done|done|by rewrite He'|lia|]. apply Forall_app. split; [done|]. constructor; [|done]. by destruct x.
    + exists l0, (starred x), []. split; [done|]. split; [done|]. split; [by left|]. by destruct x.
Qed.

(** ** The loop *)

Lemma compile_loop_ok fuel : forall l s buf, wrote l s -> scanned l s -> last_ok l s -> compile_loop fuel pat s = Some buf ->
  exists l' rest, buf = encode l' ++ CEOF :: rest /\ Forall item_ok l' /\ is_Some (scan l' ([], 0, 0)) /\ length buf = 256%nat.
Proof using Hpat.
  induction fuel as [|fuel IH]; intros l s buf Hw Hsc Hl; cbn [compile_loop]; [done|]. destruct (ESIZE <=? c_ep s); [done|]. destruct (char_at pat (c_sp s)) as [c|] eqn:Ec; [|done]. cbn [mbind option_bind].
  destruct (char_range _ _ Ec) as (Hsp & Hc & _). destruct (Z.eqb_spec c 42) as [->|Hs].
  { cbn [Z.eqb]. change (compile_step pat 42 (skip 1 s)) with (compile_star (skip 1 s)). destruct (compile_star (skip 1 s)) as [s'|] eqn:E; [|done]. cbn [mbind option_bind].
    destruct (compile_star_ok l s s' Hw Hsc Hl Ec E) as (l' & [Hw' Hsc'] & Hl'). by apply (IH l' s'). }
  set (s1 := set_last (Some (c_ep (skip 1 s))) (skip 1 s)). assert (Hw1 : wrote l s1) by (destruct (wrote_skip 1 l s ltac:(lia) Hw); by split). assert (El : c_last s1 = Some (Z.of_nat (length (encode l)))) by (cbn; by rewrite (w_ep l s Hw)).
  destruct (Z.eqb_spec c 0) as [->|Hc0].
  - unfold emit_op. destruct Hw1 as [E1 E2 E3 E4 E5]. destruct (emit _ _ _) as [b|] eqn:E; [|done]. cbn. intros H. injection H as <-. rewrite E1, E3 in E. destruct (emit_ok _ _ _ E2 E) as [Hlen ->].
    exists l, (replicate (256 - length (encode l ++ [CEOF])) 0). split; [unfold holding; by rewrite <- app_assoc|]. split; [done|]. split; [by rewrite Hsc|]. by apply holding_length.
  - destruct (compile_step pat c s1) as [s'|] eqn:E; [|done]. cbn [mbind option_bind]. destruct (compile_step_ok c l s1 s' Hw1 Hsc ltac:(cbn; lia) ltac:(lia) Hs E) as [(x & [Hx Hxs] & Hlast & Hd)|Hend].
    + apply (IH (l ++ [x])); [done|done|]. unfold last_ok. rewrite Hlast, El. exists l, x, []. split; [done|]. split; [done|]. split; [by left|done].
    + destruct fuel as [|fuel]; [done|]. cbn [compile_loop]. destruct (ESIZE <=? c_ep s'); [done|]. unfold char_at. rewrite (proj2 (Z.leb_gt (c_sp s') _)) by done. by rewrite andb_false_r.
Qed.

Lemma compile_makes circf buf : compile pat = Some (circf, buf) -> circf = (nth 0 pat 0 =? 94) /\ exists l rest, buf = encode l ++ CEOF :: rest /\ Forall item_ok l /\ is_Some (scan l ([], 0, 0)) /\ length buf = 256%nat.
Proof using Hpat.
  unfold compile. destruct (compile_loop _ _ _) as [b|] eqn:E; [|done]. cbn [mbind option_bind]. intros H. apply (inj Some), (inj2 pair) in H as [<- <-]. split; [done|].
  apply (compile_loop_ok _ [] _ _) in E; [done| |done|done]. split; [done|cbn; lia|done|by destruct (_ =? _)|done].
Qed.
End Compile.

Lemma encode_length l : (length l <= length (encode l))%nat.
Proof. induction l as [|x l IH]; [done|]. change (encode (x :: l)) with (encode_item x ++ encode l). rewrite length_app. cbn [length]. destruct x as [[]|[]| | | | |]; cbn in *; lia. Qed.

(** Some part of the line matches, from its start on if the pattern begins with [^]. *)
Definition line_matches (circf : bool) (l : list item) (line : list Z) : Prop := exists p, 0 <= p <= Z.of_nat (length line) /\ (circf = true -> p = 0) /\ matches line l p groups0.

(** Whatever groups the line before has left. *)
Lemma execute_line_ok circf l rest line g : Forall (fun c => 1 <= c < 256) line -> pattern_ok [] [] l = true -> (length (encode l) < ADVFUEL)%nat ->
  exists b g', execute_line (encode l ++ CEOF :: rest) line circf g = Some (b, g') /\ (b = true <-> line_matches circf l line).
Proof.
  intros Hl Hok Hlen. pose proof (encode_length l) as He. assert (Hf : (length l < ADVFUEL)%nat) by lia. assert (Hcode : code_at (encode l ++ CEOF :: rest) 0 l) by (split; [lia|by exists rest]).
  assert (Hno : forall g1 g2, agree [] [] g1 g2) by (intros; split; intros k Hk; by apply elem_of_nil in Hk). unfold execute_line, line_matches. destruct circf.
  - destruct (advance_ok _ line Hl ADVFUEL l 0 [] [] Hf Hcode Hok ltac:(done) 0 g ltac:(lia)) as (b & g' & -> & Hb & _); [split; intros k Hk; by apply elem_of_nil in Hk|]. exists b, g'. split; [done|].
    rewrite Hb, (same_answer line [] [] l 0 g groups0) by done. split; [intros H1; exists 0; split; [lia|done]|]. intros (p & _ & H1 & H2). by rewrite (H1 eq_refl) in H2.
  - destruct (find_match_ok _ line Hl l (length line) 0 g Hcode Hok Hf ltac:(lia) ltac:(lia)) as (b & g' & -> & Hb). exists b, g'. split; [done|]. rewrite Hb. split; intros (p & H1 & H2); exists p; (split; [lia|]); [by split|by destruct H2].
Qed.

Lemma compile_room pat circf l rest : Forall (fun c => 1 <= c < 128) pat -> compile pat = Some (circf, encode l ++ CEOF :: rest) -> (length (encode l) < ADVFUEL)%nat.
Proof. intros Hp Hc. destruct (compile_makes pat Hp _ _ Hc) as (_ & _ & _ & _ & _ & _ & Hlen). rewrite length_app in Hlen. cbn [length] in Hlen. change ADVFUEL with 257%nat. lia. Qed.


(** C18. [grep] finds what its pattern says: for a pattern that compiles to the items [l],
    whose references are to closed groups and not starred, and any line, the search ends
    with an answer, and it is yes exactly if [l] matches the line from some place on (from
    its start if the pattern begins with [^]), by the declarative meaning of the items. *)
Theorem grep_exact pat circf l rest line : Forall (fun c => 1 <= c < 128) pat -> compile pat = Some (circf, encode l ++ CEOF :: rest) -> pattern_ok [] [] l = true -> Forall (fun c => 1 <= c < 256) line ->
  exists b, grep_line pat line = Some b /\ (b = true <-> exists p, 0 <= p <= Z.of_nat (length line) /\ (circf = true -> p = 0) /\ matches line l p groups0).
Proof.
  intros Hp Hc Hok Hl. destruct (execute_line_ok circf l rest line groups0 Hl Hok (compile_room pat circf l rest Hp Hc)) as (b & g & E & Hb). exists b. split; [|done]. unfold grep_line. rewrite Hc. cbn [mbind option_bind]. by rewrite E.
Qed.


Definition digits : list Z := [0; 0; 0; 0; 0; 0; 255; 3; 0; 0; 0; 0; 0; 0; 0; 0].
Lemma grep_exact_witness : let l := [Bra 0; One (AChr 97); Many (AChr 98); Ket 0; One (ASet digits); Back 0; Dol] in
  exists b, grep_line (chars "\(ab*\)[0-9]\1$") (chars "xabb7abb") = Some b /\ (b = true <-> exists p, 0 <= p <= 8 /\ (false = true -> p = 0) /\ matches (chars "xabb7abb") l p groups0).
Proof.
  intros l. apply (grep_exact (chars "\(ab*\)[0-9]\1$") false l (replicate (255 - length (encode l)) 0) (chars "xabb7abb")); [refine (bool_decide_eq_true_1 _ _); by vm_compute|by vm_compute|by vm_compute|refine (bool_decide_eq_true_1 _ _); by vm_compute].
Defined.
