(* ===== verification/Grepcmd.v ===== *)
(** The command [grep], [cmd/grep.c]: options, files, lines and reports.

    [grep_main] is proved to print what [grep_report], written from the manual
    and on lists of lines, says of the files.  What is printed is a list of parts, without the formats of [printf];
    [open_] gives the bytes of a file, [ftell] their count so far.  [None] is
    an error before anything is read, or undefined. *)
From S2P Require Import Prelude Grep.

Definition LBSIZE : Z := 512.
Definition FBSIZE : Z := 512.

(** ** The arguments *)

Record flags := Flags { yflag : bool; hflag : bool; sflag : bool; vflag : bool; bflag : bool; lflag : bool; cflag : bool; nflag : bool }.
Definition flags0 : flags := Flags false true false false false false false false.

(** The [switch] on [argv[0][1]]; [None]: an unknown flag. *)
Definition set_flag (c : Z) (o : flags) : option flags :=
  let '(Flags y h s v b l c' n) := o in
  if c =? 121 then Some (Flags true h s v b l c' n)
  else if c =? 104 then Some (Flags y false s v b l c' n)
  else if c =? 115 then Some (Flags y h true v b l c' n)
  else if c =? 118 then Some (Flags y h s true b l c' n)
  else if c =? 98 then Some (Flags y h s v true l c' n)
  else if c =? 108 then Some (Flags y h s v b true c' n)
  else if c =? 99 then Some (Flags y h s v b l true n)
  else if c =? 110 then Some (Flags y h s v b l c' true)
  else None.

Fixpoint options (argv : list (list Z)) (o : flags) : option (flags * list (list Z)) :=
  match argv with
  | [] => Some (o, [])
  | a :: argv' =>
      if nth 0 a 0 =? 45 then
        if nth 1 a 0 =? 101 then Some (o, argv')
        else o ← set_flag (nth 1 a 0) o; options argv' o
      else Some (o, argv)
  end.

(** [while ( *p != '\0' && *p != ']') *s++ = *p++;] *)
Fixpoint copy_class (p : list Z) : list Z * list Z :=
  match p with
  | [] => ([], [])
  | c :: p' => if c =? 93 then ([], p) else let '(s, r) := copy_class p' in (c :: s, r)
  end.

(** One turn of the loop for [-y]: what it stores, and the rest. *)
Definition ycase_step (c : Z) (p : list Z) : option (list Z * list Z) :=
  if c =? 92 then Some (match p with [] => ([c], []) | d :: p => ([c; d], p) end)
  else if c =? 91 then let '(s, r) := copy_class p in Some (c :: s, r)
  else if 128 <=? c then None
  else if (97 <=? c) && (c <=? 122) then Some ([91; c - 97 + 65; c; 93], p)
  else Some ([c], p).

Fixpoint ycase (fuel : nat) (p s : list Z) : option (list Z) :=
  match fuel, p with
  | _, [] => Some s
  | O, _ => None
  | S fuel, c :: p =>
      '(t, p) ← ycase_step c p;
      let s := s ++ t in
      if ESIZE - 5 <=? Z.of_nat (length s) then None else ycase fuel p s
  end.

Definition pattern_of (o : flags) (p : list Z) : option (list Z) := if yflag o then ycase (length p) p [] else Some p.

(** ** A line *)

(** The characters up to a newline, or [room] of them; [None] at the end of
    the file, where a last line without a newline is lost. *)
Fixpoint read_line (room : nat) (inp : list Z) {struct inp} : option (list Z * list Z) :=
  match inp with
  | [] => None
  | c :: inp =>
      if c =? 10 then Some ([], inp)
      else match room with
           | O | S O => Some ([c], inp)
           | S room => '(l, r) ← read_line room inp; Some (c :: l, r)
           end
  end.
Definition LINEROOM : nat := Z.to_nat (LBSIZE - 1).

(** A line ends at its first null character. *)
Fixpoint upto_null (l : list Z) : list Z := match l with [] => [] | c :: l => if c =? 0 then [] else c :: upto_null l end.

Inductive part := OHead (f : list Z) | OFile (f : list Z) | OBlock (n : Z) | ONum (n : Z) | OLine (l : list Z) | OCount (n : Z).

Section File.
Context (buf : list Z) (circf : bool) (o : flags) (nfile : Z) (f : list Z).

(** The end of [succeed]. *)
Definition print_line (lnum pos : Z) (line : list Z) : list part :=
  (if (1 <? nfile) && hflag o then [OHead f] else []) ++ (if bflag o then [OBlock (Z.quot (pos - 1) FBSIZE)] else []) ++ (if nflag o then [ONum lnum] else []) ++ [OLine line].
(** [execute] at the end of the file. *)
Definition print_count (tln : Z) : list part := if cflag o then (if 1 <? nfile then [OHead f] else []) ++ [OCount tln] else [].

Fixpoint execute (fuel : nat) (inp : list Z) (pos lnum tln : Z) (nsucc : bool) (g : groups) : option (list part * bool * groups) :=
  match fuel with
  | O => None
  | S fuel =>
      let lnum := i32 (lnum + 1) in
      match read_line LINEROOM inp with
      | None => Some (print_count tln, nsucc, g)
      | Some (l, rest) =>
          let pos := i32 (pos + Z.of_nat (length inp - length rest)) in
          let line := upto_null l in
          '(found, g) ← execute_line buf line circf g;
          if xorb found (vflag o) then
            (* succeed *)
            if sflag o then execute fuel rest pos lnum tln true g
            else if cflag o then execute fuel rest pos lnum (i32 (tln + 1)) true g
            else if lflag o then '(os, ns, g) ← execute fuel [] pos lnum tln true g; Some (OFile f :: os, ns, g)
            else '(os, ns, g) ← execute fuel rest pos lnum tln true g; Some (print_line lnum pos line ++ os, ns, g)
          else execute fuel rest pos lnum tln nsucc g
      end
  end.
End File.

(** ** [main] *)

(** The loop over the files; a file that cannot be opened is the end. *)
Fixpoint execute_files (buf : list Z) (circf : bool) (o : flags) (nfile : Z) (open_ : list Z -> option (list Z)) (files : list (list Z)) (nsucc : bool) (g : groups) : option (list part * Z) :=
  match files with
  | [] => Some ([], if nsucc then 0 else 1)
  | f :: files =>
      match open_ f with
      | None => Some ([], 2)
      | Some inp =>
          '(os, nsucc, g) ← execute buf circf o nfile f (S (length inp)) inp 0 0 0 nsucc g;
          '(os', st) ← execute_files buf circf o nfile open_ files nsucc g;
          Some (os ++ os', st)
      end
  end.

Definition grep_main (argv : list (list Z)) (open_ : list Z -> option (list Z)) (stdin : list Z) : option (list part * Z) :=
  '(o, argv) ← options argv flags0;
  match argv with
  | [] => None
  | p :: files =>
      p ← pattern_of o p;
      '(circf, buf) ← compile p;
      match files with
      | [] => if lflag o then Some ([], 1)
              else '(os, nsucc, _) ← execute buf circf o 0 [] (S (length stdin)) stdin 0 0 0 false groups0; Some (os, if (nsucc : bool) then 0 else 1)
      | _ => execute_files buf circf o (Z.of_nat (length files)) open_ files false groups0
      end
  end.

Definition ex_open (f : list Z) : option (list Z) :=
  if decide (f = chars "a") then Some (chars "one" ++ [10] ++ chars "Two" ++ [10] ++ chars "o") else if decide (f = chars "b") then Some (chars "zero" ++ [10]) else None.
Example grep_main_runs : (fun a => grep_main (chars <$> a) ex_open (chars "none" ++ [10])) <$>
  [["o$"; "a"; "b"]; ["-n"; "-h"; "-e"; "o$"; "a"; "b"]; ["-y"; "tw"; "a"]; ["-c"; "-v"; "e"; "a"]; ["-l"; "o"; "a"; "b"; "c"]; ["one$"]; ["-s"; "-c"; "o"; "a"]; ["-q"; "o"]]%string =
  [Some ([OHead (chars "a"); OLine (chars "Two"); OHead (chars "b"); OLine (chars "zero")], 0); Some ([ONum 2; OLine (chars "Two"); ONum 1; OLine (chars "zero")], 0); Some ([OLine (chars "Two")], 0);
   Some ([OCount 1], 0); Some ([OFile (chars "a"); OFile (chars "b")], 2); Some ([OLine (chars "none")], 0); Some ([OCount 0], 0); None].
Proof. by vm_compute. Qed.

(** ** What is to be printed *)

(** A file is the text of its lines. *)
Definition text_of (ls : list (list Z)) : list Z := concat ((fun l => l ++ [10]) <$> ls).
Definition line_ok (l : list Z) : Prop := Forall (fun c => 1 <= c < 256 /\ c <> 10) l /\ (length l <= 256)%nat.

(** The options as a list of letters. *)
Definition has (c : Z) (opts : list Z) : bool := existsb (Z.eqb c) opts.
Definition flags_of (opts : list Z) : flags := Flags false (negb (has 104 opts)) (has 115 opts) (has 118 opts) (has 98 opts) (has 108 opts) (has 99 opts) (has 110 opts).

Section Reports.
Context (answer : list Z -> bool) (o : flags).

(** A line is selected if it matches, with [-v] if it does not. *)
Definition selected (l : list Z) : bool := if vflag o then negb (answer l) else answer l.

(** The report of the [i]th of the lines [ls], counted from 0. *)
Definition line_report (many : bool) (f : list Z) (ls : list (list Z)) (i : nat) (l : list Z) : list part :=
  if selected l then
    (if many && hflag o then [OHead f] else []) ++
    (if bflag o then [OBlock ((Z.of_nat (length (text_of (take (S i) ls))) - 1) / 512)] else []) ++
    (if nflag o then [ONum (Z.of_nat (S i))] else []) ++ [OLine l]
  else [].

Definition file_report (many : bool) (f : list Z) (ls : list (list Z)) : list part :=
  if sflag o then []
  else if cflag o then (if many && hflag o then [OHead f] else []) ++ [OCount (Z.of_nat (length (List.filter selected ls)))]
  else if lflag o then if existsb selected ls then [OFile f] else []
  else concat (imap (line_report many f ls) ls).

(** The reports of the files and the status, 0 if a line was selected; a file
    without [content] cannot be opened. *)
Fixpoint reports (many : bool) (content : list Z -> option (list (list Z))) (files : list (list Z)) (found : bool) : list part * Z :=
  match files with
  | [] => ([], if found then 0 else 1)
  | f :: files =>
      match content f with
      | None => ([], 2)
      | Some ls => let '(os, st) := reports many content files (found || existsb selected ls) in (file_report many f ls ++ os, st)
      end
  end.

Definition grep_report (content : list Z -> option (list (list Z))) (stdin : list (list Z)) (files : list (list Z)) : list part * Z :=
  match files with
  | [] => (file_report false [] stdin, if existsb selected stdin then 0 else 1)
  | _ => reports (1 <? Z.of_nat (length files)) content files false
  end.
End Reports.

(** ** Lines *)

Lemma upto_null_id l : Forall (fun c => 1 <= c < 256 /\ c <> 10) l -> upto_null l = l.
Proof. induction 1 as [|c l [Hc _] _ IH]; cbn [upto_null]; [done|]. rewrite (proj2 (Z.eqb_neq c 0)) by lia. by rewrite IH. Qed.

Lemma read_line_text l rest room : Forall (fun c => 1 <= c < 256 /\ c <> 10) l -> (length l < room)%nat -> read_line room (l ++ 10 :: rest) = Some (l, rest).
Proof.
  intros Hl. revert room. induction Hl as [|c l [_ Hc] _ IH]; intros room Hr; cbn [app read_line length] in *; [done|]. rewrite (proj2 (Z.eqb_neq c 10)) by done.
  destruct room as [|[|room]]; [lia|lia|]. by rewrite IH by lia.
Qed.

Lemma text_of_cons l ls : text_of (l :: ls) = l ++ 10 :: text_of ls.
Proof. unfold text_of. cbn [fmap list_fmap concat]. by rewrite <- app_assoc. Qed.
Lemma text_of_snoc ls l : length (text_of (ls ++ [l])) = (length (text_of ls) + length l + 1)%nat.
Proof. unfold text_of. rewrite fmap_app, concat_app, length_app. cbn [fmap list_fmap concat]. rewrite app_nil_r, length_app. cbn [length]. lia. Qed.
Lemma text_of_length ls : (length ls <= length (text_of ls))%nat.
Proof. induction ls as [|l ls IH]; [done|]. rewrite text_of_cons, length_app. cbn [length]. lia. Qed.

Lemma take_snoc_app {A} (l1 : list A) x l2 : take (S (length l1)) (l1 ++ x :: l2) = l1 ++ [x].
Proof. rewrite (cons_middle x l1 l2), app_assoc. apply take_app_length'. rewrite length_app. cbn. lia. Qed.

(** [answer] is the answer for every line, whatever groups the lines before left. *)
Definition answers (buf : list Z) (circf : bool) (answer : list Z -> bool) : Prop :=
  forall line g, Forall (fun c => 1 <= c < 256) line -> exists g', execute_line buf line circf g = Some (answer line, g').

Section Execute.
Context (buf : list Z) (circf : bool) (answer : list Z -> bool) (Hans : answers buf circf answer) (o : flags).
Context (nfile : Z) (f : list Z) (ls : list (list Z)) (Hls : Forall line_ok ls) (Hlen : Z.of_nat (length (text_of ls)) < 2 ^ 31).

Notation many := (1 <? nfile).
Notation sel := (selected answer o).

(** What is printed from the lines [ls2] on, behind [ls1]. *)
Definition rest_report (ls1 ls2 : list (list Z)) : list part :=
  if sflag o || cflag o then [] else if lflag o then if existsb sel ls2 then [OFile f] else [] else concat (imap (fun i l => line_report answer o many f ls (length ls1 + i) l) ls2).

Lemma rest_report_cons ls1 l ls2 : sflag o || cflag o = false -> lflag o = false -> rest_report ls1 (l :: ls2) = line_report answer o many f ls (length ls1) l ++ rest_report (ls1 ++ [l]) ls2.
Proof using Type.
  intros E1 E2. unfold rest_report. rewrite E1, E2. cbn [imap concat]. rewrite Nat.add_0_r. f_equal. f_equal. apply imap_ext. intros i x _. cbn. rewrite length_app. cbn [length]. f_equal. lia.
Qed.

(** One line of the file is read. *)
Lemma execute_line_step fuel ls1 l ls2 tln ns g : ls = ls1 ++ l :: ls2 -> exists g',
  execute buf circf o nfile f (S fuel) (text_of (l :: ls2)) (Z.of_nat (length (text_of ls1))) (Z.of_nat (length ls1)) tln ns g =
  let pos := Z.of_nat (length (text_of (ls1 ++ [l]))) in
  let lnum := Z.of_nat (length (ls1 ++ [l])) in
  let rest := text_of ls2 in
  if sel l then
    if sflag o then execute buf circf o nfile f fuel rest pos lnum tln true g'
    else if cflag o then execute buf circf o nfile f fuel rest pos lnum (i32 (tln + 1)) true g'
    else if lflag o then '(os, ns, g) ← execute buf circf o nfile f fuel [] pos lnum tln true g'; Some (OFile f :: os, ns, g)
    else '(os, ns, g) ← execute buf circf o nfile f fuel rest pos lnum tln true g'; Some (line_report answer o many f ls (length ls1) l ++ os, ns, g)
  else execute buf circf o nfile f fuel rest pos lnum tln ns g'.
Proof using Hans Hls Hlen.
  intros E. pose proof Hls as H0. rewrite E in H0. apply Forall_app in H0 as [_ H0]. apply Forall_cons in H0 as [[Hl Hll] _].
  assert (Hb : (length (text_of (ls1 ++ [l])) <= length (text_of ls))%nat).
  { rewrite E. unfold text_of. rewrite !fmap_app, !concat_app, !length_app. cbn [fmap list_fmap concat]. rewrite !length_app. cbn [length]. lia. }
  pose proof (text_of_length (ls1 ++ [l])) as Hn. pose proof (text_of_snoc ls1 l) as Hs. cbn [execute]. rewrite text_of_cons, (read_line_text l (text_of ls2) LINEROOM Hl) by (change LINEROOM with 511%nat; lia).
  rewrite (upto_null_id l Hl). destruct (Hans l g) as (g' & Eg); [eapply Forall_impl; [exact Hl|]; by intros c [? _]|]. exists g'. rewrite Eg. cbn [mbind option_bind].
  replace (i32 (Z.of_nat (length ls1) + 1)) with (Z.of_nat (length (ls1 ++ [l]))) by (rewrite length_app in *; cbn [length] in *; rewrite i32_id by lia; lia).
  replace (i32 (Z.of_nat (length (text_of ls1)) + Z.of_nat (length (l ++ 10 :: text_of ls2) - length (text_of ls2)))) with (Z.of_nat (length (text_of (ls1 ++ [l])))) by (rewrite length_app; cbn [length]; rewrite i32_id by lia; lia).
  cbn zeta. unfold line_report at 1. replace (xorb (answer l) (vflag o)) with (sel l) by (unfold selected; by destruct (answer l), (vflag o)). destruct (sel l) eqn:Es; [|done].
  rewrite E, take_snoc_app. unfold print_line, FBSIZE. rewrite length_app. cbn [length]. rewrite Nat.add_1_r, Z.quot_div_nonneg by lia. done.
Qed.

Lemma execute_ok ls2 : forall ls1 fuel tln ns g, ls = ls1 ++ ls2 -> (length ls2 < fuel)%nat -> 0 <= tln -> tln + Z.of_nat (length ls2) < 2 ^ 31 -> exists g',
  execute buf circf o nfile f fuel (text_of ls2) (Z.of_nat (length (text_of ls1))) (Z.of_nat (length ls1)) tln ns g =
  Some (rest_report ls1 ls2 ++ print_count o nfile f (if sflag o then tln else tln + Z.of_nat (length (List.filter sel ls2))), ns || existsb sel ls2, g').
Proof using Hans Hls Hlen.
  induction ls2 as [|l ls2 IH]; intros ls1 fuel tln ns g E Hf Ht Hb; (destruct fuel as [|fuel]; [cbn in Hf; lia|]).
  { exists g. cbn [execute text_of read_line existsb List.filter length]. cbn. rewrite orb_false_r, Z.add_0_r. unfold rest_report. by destruct (sflag o), (cflag o), (lflag o). }
  assert (E' : ls = (ls1 ++ [l]) ++ ls2) by (rewrite E; by rewrite <- app_assoc). cbn [length] in Hf, Hb.
  destruct (execute_line_step fuel ls1 l ls2 tln ns g E) as (g1 & ->). cbn zeta. cbn [existsb List.filter]. destruct (sel l) eqn:Es; cbn [orb].
  2:{ destruct (IH (ls1 ++ [l]) fuel tln ns g1 E' ltac:(lia) ltac:(lia) ltac:(lia)) as (g2 & ->). exists g2. do 3 f_equal.
      destruct (sflag o || cflag o) eqn:E1; [unfold rest_report; by rewrite E1|]. destruct (lflag o) eqn:E2; [unfold rest_report; rewrite E1, E2; cbn [existsb]; by rewrite Es|].
      rewrite (rest_report_cons ls1 l ls2 E1 E2). unfold line_report. by rewrite Es. }
  rewrite orb_true_r. cbn [length]. destruct (sflag o) eqn:E1; [|destruct (cflag o) eqn:E2; [|destruct (lflag o) eqn:E3]].
  - destruct (IH (ls1 ++ [l]) fuel tln true g1 E' ltac:(lia) ltac:(lia) ltac:(lia)) as (g2 & ->). exists g2. unfold rest_report. by rewrite E1.
  - rewrite i32_id by lia. destruct (IH (ls1 ++ [l]) fuel (tln + 1) true g1 E' ltac:(lia) ltac:(lia) ltac:(lia)) as (g2 & ->). exists g2. unfold rest_report. rewrite E1, E2. cbn [orb].
    by replace (tln + 1 + Z.of_nat (length (List.filter sel ls2))) with (tln + Z.of_nat (S (length (List.filter sel ls2)))) by lia.
  - destruct fuel as [|fuel]; [lia|]. cbn [execute read_line mbind option_bind]. exists g1. unfold rest_report, print_count. rewrite E1, E2, E3. cbn [orb existsb]. by rewrite Es.
  - destruct (IH (ls1 ++ [l]) fuel tln true g1 E' ltac:(lia) ltac:(lia) ltac:(lia)) as (g2 & ->). exists g2. cbn [mbind option_bind]. rewrite (rest_report_cons ls1 l ls2) by (by rewrite ?E1, ?E2).
    unfold print_count. by rewrite E2, !app_nil_r.
Qed.
End Execute.

(** Which options go together: a count is not silent, not of names, and shows
    the names of several files. *)
Definition flags_ok (o : flags) (files : nat) : Prop := (cflag o = true -> sflag o = false /\ lflag o = false /\ (hflag o = true \/ (files <= 1)%nat)) /\ (files = 0%nat -> lflag o = false).

Section Files.
Context (buf : list Z) (circf : bool) (answer : list Z -> bool) (Hans : answers buf circf answer) (o : flags).

Definition file_ok (ls : list (list Z)) : Prop := Forall line_ok ls /\ Z.of_nat (length (text_of ls)) < 2 ^ 31.

Lemma execute_file nfile n f ls ns g : nfile = Z.of_nat n -> flags_ok o n -> file_ok ls ->
  exists g', execute buf circf o nfile f (S (length (text_of ls))) (text_of ls) 0 0 0 ns g = Some (file_report answer o (1 <? nfile) f ls, ns || existsb (selected answer o) ls, g').
Proof using Hans.
  intros -> [Ho _] [Hls Hlen]. pose proof (text_of_length ls). destruct (execute_ok buf circf answer Hans o (Z.of_nat n) f ls Hls Hlen ls [] (S (length (text_of ls))) 0 ns g eq_refl ltac:(lia) ltac:(lia) ltac:(lia)) as (g' & E).
  exists g'. change (Z.of_nat (length (text_of []))) with 0 in E. change (Z.of_nat (length (@nil (list Z)))) with 0 in E. rewrite E. do 3 f_equal. unfold rest_report, file_report, print_count.
  destruct (cflag o) eqn:Ec; [|rewrite app_nil_r; by destruct (sflag o), (lflag o)]. destruct (Ho eq_refl) as (-> & _ & Hh). cbn [orb app]. f_equal.
  destruct Hh as [->|Hn]; [by rewrite andb_true_r|]. by rewrite (proj2 (Z.ltb_ge 1 _)) by lia.
Qed.

Lemma execute_files_ok nfile n content : nfile = Z.of_nat n -> flags_ok o n -> (forall f ls, content f = Some ls -> file_ok ls) ->
  forall files ns g, execute_files buf circf o nfile (fun f => text_of <$> content f) files ns g = Some (reports answer o (1 <? nfile) content files ns).
Proof using Hans.
  intros Hn Ho Hok files. induction files as [|f files IH]; intros ns g; cbn [execute_files reports]; [done|]. destruct (content f) as [ls|] eqn:E; [|done]. cbn [fmap option_fmap option_map].
  destruct (execute_file nfile n f ls ns g Hn Ho (Hok f ls E)) as (g' & ->). cbn [mbind option_bind]. rewrite IH. cbn [mbind option_bind]. by destruct (reports _ _ _ _ _ _).
Qed.
End Files.

(** A pattern without a starred reference has an answer for every line. *)
Lemma compiled_answers pat circf l rest : Forall (fun c => 1 <= c < 128) pat -> compile pat = Some (circf, encode l ++ CEOF :: rest) -> pattern_ok [] [] l = true ->
  exists answer, answers (encode l ++ CEOF :: rest) circf answer /\ forall line, Forall (fun c => 1 <= c < 256) line -> answer line = true <-> line_matches circf l line.
Proof.
  intros Hp Hc Hok. pose proof (compile_room pat circf l rest Hp Hc) as Hr. exists (fun line => match execute_line (encode l ++ CEOF :: rest) line circf groups0 with Some (b, _) => b | None => false end). split.
  - intros line g Hl. destruct (execute_line_ok circf l rest line g Hl Hok Hr) as (b & g' & E & Hb), (execute_line_ok circf l rest line groups0 Hl Hok Hr) as (b0 & g0 & E0 & Hb0). exists g'. rewrite E, E0. do 2 f_equal. apply eq_true_iff_eq. by rewrite Hb, Hb0.
  - intros line Hl. by destruct (execute_line_ok circf l rest line groups0 Hl Hok Hr) as (b & g' & -> & Hb).
Qed.

(** ** Options *)

Definition letters : list Z := [104; 115; 118; 98; 108; 99; 110].
Definition add_flags (o : flags) (opts : list Z) : flags :=
  let p := flags_of opts in
  Flags (yflag o) (hflag o && hflag p) (sflag o || sflag p) (vflag o || vflag p) (bflag o || bflag p) (lflag o || lflag p) (cflag o || cflag p) (nflag o || nflag p).

Lemma set_flag_letter c opts o : c ∈ letters -> exists o', set_flag c o = Some o' /\ add_flags o' opts = add_flags o (c :: opts).
Proof.
  intros Hc. destruct o as [y h s v b l c' n]. unfold letters in Hc. repeat (apply elem_of_cons in Hc as [->|Hc]; [eexists; split; [reflexivity|]|]); [..|by apply elem_of_nil in Hc];
    unfold add_flags, flags_of, has; cbn; by rewrite ?orb_true_r, ?andb_false_r.
Qed.

Lemma options_ok opts : forall o tail, Forall (fun c => c ∈ letters) opts -> options (((fun c => [45; c]) <$> opts) ++ tail) o = options tail (add_flags o opts).
Proof.
  induction opts as [|c opts IH]; intros o tail H; [by destruct o as [? [] [] [] [] [] [] []]|]. apply Forall_cons in H as [Hc H]. destruct (set_flag_letter c opts o Hc) as (o' & E & <-).
  rewrite <- IH by done. cbn [fmap list_fmap app options nth]. cbn [Z.eqb Pos.eqb]. rewrite E.
  assert (c =? 101 = false) as -> by (unfold letters in Hc; repeat (apply elem_of_cons in Hc as [->|Hc]; [done|]); by apply elem_of_nil in Hc). done.
Qed.

(** C17. [grep] reports the lines that match.  For options among the letters h, s, v, b, l,
    c and n, each an argument of its own and going together as [flags_ok] says, a pattern
    that compiles to items [l] without a starred reference, and files of complete lines
    without null characters, of at most 256 characters each as in the manual: the program
    ends, and there is an answer for every line, yes exactly if some part of it matches [l],
    such that output and status are what the manual promises of the answers.  The lines
    selected are printed, each with the name of its file if there are several, the number of
    the block where it ends, and its number, as asked; or the count of the lines selected,
    or the name of the file if there is one, or nothing.  The status is 0 if a line of any
    file was selected and 1 if none, and 2 at a file that cannot be opened, after the
    reports of the files before it. *)
Theorem grep_reports opts p files circf l rest content stdin : Forall (fun c => c ∈ letters) opts -> nth 0 p 0 <> 45 ->
  Forall (fun c => 1 <= c < 128) p -> compile p = Some (circf, encode l ++ CEOF :: rest) -> pattern_ok [] [] l = true ->
  flags_ok (flags_of opts) (length files) -> (forall f ls, content f = Some ls -> file_ok ls) -> file_ok stdin ->
  exists answer, (forall line, Forall (fun c => 1 <= c < 256) line -> answer line = true <-> line_matches circf l line) /\
    grep_main (((fun c => [45; c]) <$> opts) ++ p :: files) (fun f => text_of <$> content f) (text_of stdin) = Some (grep_report answer (flags_of opts) content stdin files).
Proof.
  intros Hopts Hp45 Hp Hc Hok Hfl Hcon Hin. destruct (compiled_answers p circf l rest Hp Hc Hok) as (answer & Hans & Hl). exists answer. split; [done|]. unfold grep_main. rewrite options_ok by done.
  replace (add_flags flags0 opts) with (flags_of opts) by done. cbn [options]. rewrite (proj2 (Z.eqb_neq _ 45)) by done. cbn [mbind option_bind]. unfold pattern_of. cbn [yflag flags_of mbind option_bind].
  rewrite Hc. cbn [mbind option_bind]. unfold grep_report. destruct files as [|f files]; [|by apply (execute_files_ok _ _ answer Hans (flags_of opts) _ (length (f :: files)))].
  rewrite (proj2 Hfl) by done. by destruct (execute_file _ _ answer Hans (flags_of opts) 0 0%nat [] stdin false groups0 eq_refl Hfl Hin) as (g & ->).
Qed.

Definition ex_content (f : list Z) : option (list (list Z)) := if decide (f = chars "a") then Some [chars "one"; chars "Two"] else if decide (f = chars "b") then Some [chars "zero"] else None.

Lemma grep_reports_witness : let l := [Many ADot; One (AChr 111); Dol] in
  exists answer, (forall line, Forall (fun c => 1 <= c < 256) line -> answer line = true <-> line_matches false l line) /\
    grep_main (((fun c => [45; c]) <$> [110; 118]) ++ chars ".*o$" :: [chars "a"; chars "b"]) (fun f => text_of <$> ex_content f) (text_of []) = Some (grep_report answer (flags_of [110; 118]) ex_content [] [chars "a"; chars "b"]).
Proof.
  intros l. apply (grep_reports [110; 118] (chars ".*o$") [chars "a"; chars "b"] false l (replicate (255 - length (encode l)) 0) ex_content []);
    [decide_true|by vm_compute|decide_true|by vm_compute|done|by split| |split; [constructor|by vm_compute]].
  intros f ls. unfold ex_content. case_decide; [|case_decide; [|done]]; intros E; apply (inj Some) in E as <-; (split; [|by vm_compute]); repeat (constructor; [split; [decide_true|by vm_compute; lia]|]); constructor.
Defined.
